(* ===== verification/_CoqProject ===== *)
-Q . S2P
Prelude.v
Bytes.v
Platform.v
Prcm.v
Powerdomain.v
Clockdomain.v
ClkCore.v
Clksel.v
ClkEnable.v
Adpll.v
Clkdev.v
ClkRate.v
Clk814xData.v
Dm8148.v
Resource.v
ResourceTree.v
ResourceAlloc.v
ResourceInsert.v
ResourceRegion.v
ResourceExamples.v
Gpmc.v
GpmcWindow.v
GpmcTiming.v
GpmcInit.v
GpmcExamples.v
Elm.v
ElmDecode.v
ElmExamples.v
KfifoRing.v
Kfifo.v
KfifoRefine.v
KfifoRecord.v
KfifoSpsc.v
KfifoExamples.v
Mailbox.v
MailboxSpec.v
MailboxRefine.v
MailboxSteps.v
MailboxStartup.v
Omap2Mailbox.v
MailboxDevice.v
MailboxExamples.v
Mux.v
Mux814xData.v
MuxSignal.v
MuxExamples.v
Hwmod.v
Hwmod81xxData.v
HwmodSpec.v
HwmodRefine.v
HwmodMachine.v
HwmodSystem.v
HwmodClocks.v
HwmodSysc.v
HwmodRegister.v
HwmodResources.v
HwmodBoot.v
HwmodExamples.v
