(* ===== verification/Prelude.v ===== *)
(** * Verification of the DM8148 platform core

    The repository is a Linux 2.6.37 tree for the TI DM8148.  Its own core is the
    code that brings the clocks, power domains and memory controller of the SoC up and
    lets drivers use them, under src/linux-2.6.37/arch/arm, on top of the resource tree
    of the kernel (src/linux-2.6.37/kernel/resource.c), and the mailboxes to the other
    processors of the chip, on top of the FIFO of the kernel (src/linux-2.6.37/kernel/kfifo.c).
    This library models that code as it is compiled for the chip (arch/arm/configs/tisdk_dm814x-evm_defconfig: TI81xx only,
    so the OMAP tests are constantly false) and proves it correct.

    ** The program and the files

    Drivers call the functions of linux/clk.h.  A driver finds its clock in the lookup
    table of common/clkdev.c.  plat-omap/clock.c keeps the tree of clocks; through the
    function pointers of [struct clk] and of [struct clk_functions] it calls
    mach-omap2/clock.c, which counts references and enables the parents and the
    clockdomain of a clock first.  mach-omap2/clockdomain.c wakes a clockdomain up
    when its first clock is enabled and lets it sleep after the last, and tells
    mach-omap2/powerdomain.c, which counts the power states of the powerdomain.
    mach-omap2/clkt_clksel.c selects parents and divisors, adpll_ti814x.c programs
    the PLLs.  All of them drive registers through cm2xxx_3xxx.c and prm2xxx_3xxx.c.
    The tables (clock814x_data.c, clockdomains81xx.h, powerdomains81xx.h) say what
    clocks, clockdomains and powerdomains there are.

    kernel/resource.c keeps the tree of address ranges that drivers have taken.
    mach-omap2/gpmc.c, the driver of the external memory bus, keeps a tree of its own for
    the windows of its chip selects, programs their timings in ticks of its clock, and
    writes both to the registers of the controller.  mach-omap2/elm.c hands the syndromes
    that the controller computes to the engine that locates the errors, and waits for its
    interrupt.

    kernel/kfifo.c is a ring buffer that one reader and one writer use without a lock.
    plat-omap/mailbox.c keeps two of them for each mailbox: users put messages into one, which
    a tasklet moves to the hardware; an interrupt handler fills the other, and a work item
    hands the messages on.  It drives the hardware through the operations of
    mach-omap2/mailbox.c, which also enable the clock of the module.

    mach-omap2/omap_hwmod.c knows the modules of the chip: their clocks, registers, interrupts
    and reset lines, from the tables of omap_hwmod_81xx_data.c.  To enable, idle, reset or shut
    down a module it enables or disables the clocks of the module through linux/clk.h, sets the
    dependencies of the clockdomains, programs the OCP_SYSCONFIG register of the module, waits
    for the module, and sets its pads through mach-omap2/mux.c, which finds the pad of a signal
    in the tables of mux814x.c.  mach-omap2/io.c calls the initialisations in order:
    powerdomains, clockdomains, modules, clocks, and then the setup of the modules.

    - [Prelude] (this file): machine integers, register fields, the state and fault
      monad [M], total-correctness triples [wp] and their tactics ([wp_step],
      [wp_pure]), the hint database [machine].  [Bytes]: the bytes of a word.
    - [Platform]: the structs (plat/clock.h, clockdomain.h, powerdomain.h,
      asm/clkdev.h), the whole state as the record [world], the chip ([Soc]) and the
      device behind the registers ([Hardware]).
    - [Prcm]: register access and the polling loops (cm2xxx_3xxx.c, prm2xxx_3xxx.c,
      cm81xx.c, prcm.c, the macro omap_test_timeout).
    - [Powerdomain]: powerdomain.c, the TI81xx operations of powerdomain2xxx_3xxx.c,
      pm_dbg_update_time of pm-debug.c, the tables of powerdomains81xx.h.
    - [Clockdomain]: clockdomain.c and the tables of clockdomains81xx.h.
    - [ClkCore]: plat-omap/clock.c.
    - [Clksel]: the generic part of clkt_clksel.c.
    - [ClkEnable]: reference counting and module clocks of clock.c, and clock81xx.c.
    - [Adpll]: adpll_ti814x.c.
    - [Clkdev]: common/clkdev.c.
    - [ClkRate]: rates and parents of clock.c, the TI814x part of clkt_clksel.c, and
      the dispatch of the function pointers.
    - [Clk814xData]: every object of clock814x_data.c, and ti814x_clk_init.
    - [Dm8148]: device models of the chip, the state after boot, and the theorems
      applied to it.
    - [Resource]: kernel/resource.c; an object is at an address of [memory].
      [ResourceTree] has the invariant [tree_ok] and requesting and releasing,
      [ResourceAlloc] allocation and adjustment, [ResourceInsert] insertion,
      [ResourceRegion] busy regions, [ResourceExamples] the theorems on a small tree.
    - [Gpmc]: mach-omap2/gpmc.c on the state [gpmc], which holds a [world] and a
      [memory].  [GpmcWindow] has the invariant [gpmc_ok] and the requests and releases
      of chip selects, [GpmcTiming] the timings, [GpmcInit] the initialisation, the
      states that are reached and the interrupts, [GpmcExamples] the theorems on the
      controller of the booted chip.
    - [Elm]: mach-omap2/elm.c on the state [elm], and the completion of kernel/sched.c;
      [ElmDecode] has its theorems and [ElmExamples] applies them.
    - [Kfifo]: kernel/kfifo.c and the macros of linux/kfifo.h on the state [kfifo].
      [KfifoRing] has lemmas on ring buffers as lists, [KfifoRefine] the FIFO of elements,
      [KfifoRecord] that of records, [KfifoSpsc] a reader and a writer at the same time,
      [KfifoExamples] the theorems on small FIFOs.
    - [Mailbox]: plat-omap/mailbox.c on the state [mbx], for any device.  [MailboxSpec] has
      the specification, [MailboxRefine] shows that the driver implements it, [MailboxSteps]
      has the histories of a driver whose contexts interrupt each other, [MailboxStartup]
      opening and closing.
    - [Omap2Mailbox]: mach-omap2/mailbox.c on the state [omap2_mbox], which holds a
      [world]; [MailboxDevice] shows that it is such a device, [MailboxExamples] applies the
      theorems to the mailbox of the DSP.
    - [Mux]: mach-omap2/mux.c on the state [mux_state], which holds a [world], with the string
      functions of lib/ it uses.  [Mux814xData] has the table of mux814x.c and the pads of
      board-ti8148evm.c, [MuxSignal] the theorems, [MuxExamples] the boot and the theorems
      applied to it.
    - [Hwmod]: mach-omap2/omap_hwmod.c on the state [hwmod_state], which holds a [mux_state];
      modules and interfaces are found by the names of their C objects.  [Hwmod81xxData] has
      every object of omap_hwmod_81xx_data.c and what it uses of omap_hwmod_common_data.c.
      [HwmodSpec] has the state machine of a module and the invariant [hwmod_ok], [HwmodRefine]
      what the helpers keep, [HwmodMachine] each operation, [HwmodSystem] sequences of them ([machine]),
      [HwmodClocks] the clocks of the chip as seen by the modules.  [HwmodSysc] is about the
      OCP_SYSCONFIG register, [HwmodRegister] about registration and lookup, [HwmodResources]
      models and proves the two functions that turn a module into resources.
    - [HwmodBoot]: the functions of io.c and serial.c that boot the chip, on the device model
      of [Dm8148]; [HwmodExamples] applies the theorems on modules.

    Definitions have the names of the C objects and functions.  A C object is named by
    its C name and found in one of the stores of [world]; a pointer is a name, [None]
    is NULL, and dereferencing NULL, indexing out of bounds or dividing by zero is a
    [Fault].  Integers are [Z], wrapped to their width where C wraps them.  A register
    read may return anything the [Hardware] parameter answers for the bus history
    so far; a theorem that needs a register to behave like memory says so
    ([plain_reg]).  Messages and delays have no effect on the state.  An operation is one
    step.  Where the code holds a lock or a mutex around it, this is what the lock is for; the
    operations that take none (two of omap_hwmod.c, see [Hwmod]) are described as they run
    when nothing comes between.  The kfifo has no lock: [spsc_step] interleaves its reader and
    its writer byte by byte.  The parts of the mailbox driver that run after each other in
    different contexts (a call of a user, the tasklet, the interrupt, the parts of the work
    item) are steps of [mail_step] in any order; each of these parts is atomic there, although
    spin_lock_bh keeps only the tasklet out of a call, and not the interrupt.

    ** Interfaces

    [PwrdmArchLaws] is what powerdomain.c relies on of the chip operations;
    [RecalcLaws] what rate propagation relies on of the recalc pointers; [ClkOpsLaws]
    what reference counting relies on of the enable and disable pointers.  The generic
    theorems are proved from the laws, and [ti81xx_pwrdm_laws], [dm8148_recalc_laws]
    and [dm8148_ops_laws] discharge them for the chip.  [MboxDevice] is what the mailbox
    driver relies on of [omap_mbox_ops], in terms of what went through the hardware FIFOs, what
    their status registers answered last, which interrupts are enabled, which are pending and
    which were acknowledged ([view], [pending]); [omap2_device] discharges it.  [ClkAccount] is
    what the modules rely on of the clock framework: enabling and disabling a clock succeed and
    account for the references to it, as long as there is room for them; [chip_account]
    discharges it for the clocks of the DM8148 with the theorems of [ClkEnable].  Where a clock
    cannot be enabled, _enable_clocks of omap_hwmod.c goes on all the same, so the theorems on
    modules do not hold ([enable_ignores_clock_errors]).  The functions of a class of modules
    ([HwmodFns]) are a parameter; no class of the TI81xx has any, and the theorems on modules
    are about classes without them.

    ** The theorems

    - Reference counting ([ClkEnable]): enabling and disabling keep the counts of all
      clocks and clockdomains equal to the references held, also when the parent or
      the hardware fails (the clockdomain of a clock never does); the count is a signed
      byte and overflows at 127.
    - Rates ([ClkCore], [Clksel], [ClkRate]): propagation leaves every clock with the
      rate its function computes; setting a rate succeeds exactly when a divisor gives
      it and reads back; changing the parent reads back and keeps the tree.
    - PLLs ([Adpll], [Dm8148]): rounding is accurate, no value overflows; programming
      reads back; what set_rate does on success and on failure.
    - Domains ([Clockdomain], [Powerdomain]): use counts and state counters refine the
      history of operations; the hardware is commanded accordingly; registration on
      every path; waiting terminates.
    - Lookup ([Clkdev]): the most specific entry is found.
    - Boot ([Clockdomain], [Dm8148]): the tables of the source register completely,
      form a tree, have consistent rates and counts, and meet what the searching code
      relies on.
    - Resources ([ResourceTree], [ResourceAlloc], [ResourceInsert], [ResourceRegion]):
      requesting, allocating, inserting and adjusting keep the tree in order, succeed
      exactly when the range is free, and allocation gives out the lowest range; requests
      and regions are undone by their releases; a reservation below its root does not
      terminate, and a task that slept on a muxed region follows a freed one.
    - Memory controller ([GpmcWindow], [GpmcTiming], [GpmcInit]): the windows of the
      registers lie in the ranges of the tree and never overlap in any state that is reached;
      what requesting and freeing a chip select do; the timing fields hold the least
      number of ticks; the chip select 8 and the interrupt of chip select 7 are mishandled.
    - Error location ([ElmDecode]): the syndrome reaches the engine unchanged; a waiting
      task is woken up; a probe that fails is undone.
    - FIFOs ([KfifoRefine], [KfifoRecord], [KfifoSpsc]): any sequence of operations gives the
      results of the same operations on a list; a reader and a writer that are interleaved
      byte by byte lose, tear and reorder nothing; the byte by byte steps compute the states
      of the code, which copies blocks.
    - Mailboxes ([MailboxRefine], [MailboxSteps], [MailboxStartup], [MailboxDevice]): every
      operation implements the specification on lists of messages; in every history messages
      are sent and delivered in order and no wakeup is lost; a received message is lost only
      when an interrupt comes between two parts of the work item; opening a mailbox either
      succeeds or shuts the device down and gives everything back, and so does closing it (the
      pointers to the freed queues stay); the tables of the TI81xx give the mailboxes
      registers of their own, and the status operations say what these registers say.
    - Pads ([MuxSignal], [MuxExamples]): a signal that has one pad is selected there and no
      other register changes, an ambiguous or unknown one is refused; the pads of a module
      follow its state; after a boot with all pad registers 0 every pad of the chip can be
      selected by its full name (but for XREF_CLK2) and holds what the board asks for.
    - Modules ([HwmodSystem], [HwmodBoot], [HwmodSysc], [HwmodRegister], [HwmodResources]): any
      sequence of operations on the modules, where their clocks can be enabled, follows the state
      machine, without a fault, and the references to the clocks are at the end those of the
      enabled modules; a boot of the chip from all of its tables, on hardware that answers as
      the code expects, establishes this; what is written to the SYSCONFIG register has the idle
      modes that the state and the flags ask for; a registered module is found under its name; the
      resources of a module fit the array that was counted for them.
    - The files [MuxExamples] and [HwmodExamples] also show where the code does not do what it
      means to: the software reset that is repeated, the modes that a shutdown selects on the
      TI814x, the pads that the tables lose.

    ** Bounds

    The recursions over the clock tree carry a [fuel] argument; the theorems hold for
    any fuel above the depth of the tree, and the tree of the chip is less than 20
    deep ([FUEL]).  A chain of set_rate calls is at most 10 long ([DEPTH]).  Polling
    loops carry the bound of the source as fuel, the search for the M2 divider the
    range of a byte, so none of these runs out.  The walks over the resource tree are
    bounded by the number of objects ([walk_bound]), which a walk of a list without a
    cycle does not exceed; on a tree that is in order they are proved to end.  A task that
    waits for the error location module is given a number of interrupts.  The loops of the
    mailbox driver get one or two steps more than the messages that fit into a queue, which is
    proved to be enough.  The loop that waits for the reset of the mailbox
    module gets the number of reads that fit into its 20 milliseconds.  The wait for the software
    reset of a module is bounded by the source.  A use count is a signed byte, so the theorem on
    modules asks for at most 126 references to the clocks of the chip ([HwmodClocks]), more than
    all modules together hold.

    ** Not modelled

    OMAP2/3/4 and TI816x code, cpufreq, debugfs and printing, the late disabling of
    unused clocks (not configured), the /proc files, managed regions and boot options of
    the resource tree, the scatter lists of kernel/kfifo.c, what the users of a mailbox do in
    their notifiers, the device layer above the modules (omap_device.c), the GPIO banks, the
    DMA controller, suspend (mostly assembly), the PCIe host, the registration of devices by
    the boards, and the rest of the kernel. *)

From stdpp Require Export base list gmap strings.
From Stdlib Require Export ZArith Lia.

#[global] Open Scope string_scope.
#[global] Open Scope list_scope.
#[global] Open Scope Z_scope.

(** ** Machine integers of the 32-bit ARM target *)

(** [wrapu w x] and [wraps w x] are the unsigned and the two's-complement signed
    value a [w]-bit variable holds after it is assigned [x]. *)
Definition wrapu (w x : Z) : Z := x mod 2 ^ w.
Definition wraps (w x : Z) : Z := (x + 2 ^ (w - 1)) mod 2 ^ w - 2 ^ (w - 1).

Abbreviation u8 := (wrapu 8).
Abbreviation u16 := (wrapu 16).
Abbreviation u32 := (wrapu 32).
Abbreviation u64 := (wrapu 64).
Abbreviation s8 := (wraps 8).
Abbreviation s32 := (wraps 32).

(** The values a [w]-bit unsigned variable can hold. *)
Definition uint (w x : Z) : Prop := 0 <= x < 2 ^ w.

#[global] Instance uint_dec w x : Decision (uint w x).
Proof. unfold uint; apply _. Defined.

(** [1 << n] assigned to (or combined with) a 32-bit quantity. *)
Definition bit (n : Z) : Z := u32 (Z.shiftl 1 n).

(** Shifts by a register on ARM: [LSL] and [LSR] give 0 once the count, of which
    the low byte is used, is 32 or more; a count of -1 is 255 there. *)
Definition lsl (x n : Z) : Z :=
  if (0 <=? n) && (n <? 32) then u32 (Z.shiftl x n) else 0.
Definition lsr (x n : Z) : Z :=
  if (0 <=? n) && (n <? 32) then Z.shiftr x n else 0.

(** [__ffs]: the number of the least significant set bit; [ffs(x) - 1], hence -1
    for 0, in arch/arm/include/asm/bitops.h. *)
Definition __ffs (m : Z) : Z :=
  if m =? 0 then -1 else Z.log2 (Z.land m (- m)).

(** The two read-modify-write idioms of every register access in the platform
    code: [v &= ~mask; v |= f << __ffs(mask)] and [(v & mask) >> __ffs(mask)]. *)
Definition field_set (mask f v : Z) : Z :=
  Z.lor (Z.land v (Z.lnot mask)) (lsl f (__ffs mask)).
Definition field_get (mask v : Z) : Z := lsr (Z.land v mask) (__ffs mask).

(** ** Error codes *)
Definition EPERM : Z := 1.
Definition ENOENT : Z := 2.
Definition EAGAIN : Z := 11.
Definition ENOMEM : Z := 12.
Definition EFAULT : Z := 14.
Definition EBUSY : Z := 16.
Definition EEXIST : Z := 17.
Definition ENODEV : Z := 19.
Definition EINVAL : Z := 22.
Definition ERANGE : Z := 34.

(** What an interrupt handler returns. *)
Definition IRQ_NONE : Z := 0.
Definition IRQ_HANDLED : Z := 1.

(** ** Stateful code that may fault

    A C function that works on shared structures is a function from the state to
    an outcome: it returns a value and the new state, or it faults.  The faults
    are what makes the kernel stop or what C leaves undefined; [NoFuel] marks a
    recursion that the bound of the model cut short. *)
Inductive fault := NullDeref | Bug | DivByZero | OutOfBounds | UseAfterFree | NoFuel.

#[global] Instance fault_eq_dec : EqDecision fault.
Proof. solve_decision. Defined.

Inductive outcome (S A : Type) :=
| Done (a : A) (s : S)
| Fault (f : fault).
Arguments Done {S A} _ _.
Arguments Fault {S A} _.

Definition M (S A : Type) : Type := S -> outcome S A.

Definition ret {S A} (a : A) : M S A := fun s => Done a s.
Definition bind {S A B} (m : M S A) (f : A -> M S B) : M S B := fun s =>
  match m s with
  | Done a s' => f a s'
  | Fault e => Fault e
  end.

Declare Scope kernel_scope.
Delimit Scope kernel_scope with kernel.
Notation "x ← m ; k" := (bind m (fun x => k))
  (at level 20, m at level 100, k at level 200, only parsing) : kernel_scope.
Notation "' x ← m ; k" := (bind m (fun x => k))
  (at level 20, x pattern, m at level 100, k at level 200, only parsing) : kernel_scope.
Notation "m ;; k" := (bind m (fun _ => k))
  (at level 100, k at level 200, right associativity, only parsing) : kernel_scope.
#[global] Open Scope kernel_scope.

Definition fail {S A} (e : fault) : M S A := fun _ => Fault e.
Definition gets {S A} (f : S -> A) : M S A := fun s => Done (f s) s.
Definition modify {S} (f : S -> S) : M S unit := fun s => Done tt (f s).

(** A pointer that the code dereferences without a test. *)
Definition deref {S A} (o : option A) : M S A :=
  match o with Some a => ret a | None => fail NullDeref end.

(** [list_for_each_entry] and the array loops whose body does not leave them. *)
Fixpoint for_each {S A} (l : list A) (f : A -> M S unit) : M S unit :=
  match l with
  | [] => ret tt
  | a :: l' => f a;; for_each l' f
  end.

Definition when {S} (b : bool) (m : M S unit) : M S unit :=
  if b then m else ret tt.

(** An array accessed by index; outside the array is undefined in C. *)
Definition aget {S A} (l : list A) (i : Z) : M S A :=
  if i <? 0 then fail OutOfBounds else
  match l !! Z.to_nat i with Some a => ret a | None => fail OutOfBounds end.
Definition aset {S A} (l : list A) (i : Z) (a : A) : M S (list A) :=
  if (0 <=? i) && (i <? Z.of_nat (length l)) then ret (<[Z.to_nat i := a]> l)
  else fail OutOfBounds.

(** Unsigned division as the code uses it. *)
Definition divu {S} (a b : Z) : M S Z :=
  if b =? 0 then fail DivByZero else ret (a / b).
Definition modu {S} (a b : Z) : M S Z :=
  if b =? 0 then fail DivByZero else ret (a mod b).

(** ** Total-correctness triples

    [wp m Q s]: started in [s], [m] does not fault and its result and final
    state satisfy [Q]. *)
Definition wp {S A} (m : M S A) (Q : A -> S -> Prop) (s : S) : Prop :=
  match m s with
  | Done a s' => Q a s'
  | Fault _ => False
  end.

Section Wp.
  Context {S : Type}.
Implicit Types s : S.

Lemma wp_ret {A} (a : A) Q s : Q a s -> wp (ret a) Q s.
Proof. done. Qed.

Lemma wp_bind {A B} (m : M S A) (f : A -> M S B) Q s :
  wp m (fun a s' => wp (f a) Q s') s -> wp (bind m f) Q s.
Proof. unfold wp, bind. by destruct (m s). Qed.

Lemma wp_mono {A} (m : M S A) (Q Q' : A -> S -> Prop) s :
  wp m Q s -> (forall a s', Q a s' -> Q' a s') -> wp m Q' s.
Proof. unfold wp. destruct (m s); auto. Qed.

Lemma wp_gets {A} (f : S -> A) Q s : Q (f s) s -> wp (gets f) Q s.
Proof. done. Qed.

Lemma wp_modify f Q s : Q tt (f s) -> wp (modify f) Q s.
Proof. done. Qed.

Lemma wp_deref {A} (o : option A) a Q s :
  o = Some a -> Q a s -> wp (deref o) Q s.
Proof. by intros ->. Qed.

Lemma wp_divu a b Q s : b <> 0 -> Q (a / b) s -> wp (divu a b) Q s.
Proof. intros Hb HQ. unfold divu. by rewrite (proj2 (Z.eqb_neq b 0) Hb). Qed.

Lemma wp_modu a b Q s : b <> 0 -> Q (a mod b) s -> wp (modu a b) Q s.
Proof. intros Hb HQ. unfold modu. by rewrite (proj2 (Z.eqb_neq b 0) Hb). Qed.

Lemma wp_aget {A} (l : list A) i a Q s :
  0 <= i -> l !! Z.to_nat i = Some a -> Q a s -> wp (aget l i) Q s.
Proof.
  intros Hi Ha HQ. unfold aget. by rewrite (proj2 (Z.ltb_ge i 0) Hi), Ha.
Qed.

Lemma wp_aset {A} (l : list A) i a Q s :
  0 <= i < Z.of_nat (length l) -> Q (<[Z.to_nat i := a]> l) s -> wp (aset l i a) Q s.
Proof.
  intros [Hi Hl] HQ. unfold aset.
  by rewrite (proj2 (Z.leb_le 0 i) Hi), (proj2 (Z.ltb_lt _ _) Hl).
Qed.

Lemma wp_conj {A} (m : M S A) (Q Q' : A -> S -> Prop) s :
  wp m Q s -> wp m Q' s -> wp m (fun a s' => Q a s' /\ Q' a s') s.
Proof. unfold wp. destruct (m s); tauto. Qed.

Lemma wp_forall {A X} (m : M S A) (Q : A -> S -> Prop) (P : X -> Prop) (R : X -> A -> S -> Prop) s :
  wp m Q s -> (forall x, P x -> wp m (R x) s) ->
  wp m (fun a s' => Q a s' /\ forall x, P x -> R x a s') s.
Proof. unfold wp. destruct (m s); [auto | done]. Qed.

(** A loop keeps what its body keeps. *)
Lemma wp_for_each_inv {A} (P : S -> Prop) (f : A -> M S unit) l s :
  (forall a s, a ∈ l -> P s -> wp (f a) (fun _ => P) s) ->
  P s -> wp (for_each l f) (fun _ => P) s.
Proof.
  revert s. induction l as [|a l IH]; intros s Hf HP; [done|].
  cbn [for_each]. apply wp_bind. eapply wp_mono.
  - apply Hf; [left | done].
  - intros ? s' HP'; cbv beta in HP'. apply IH; [|done]. intros b s'' Hb. apply Hf. by right.
Qed.
End Wp.

(** Two steps with a known joint effect. *)
Lemma wp_pair {S A B C} (a : M S A) (b : M S B) (f : B -> M S C) Q w :
  wp (a;; b) (fun r w' => wp (f r) Q w') w -> wp (a;; r ← b; f r) Q w.
Proof. unfold wp, bind. destruct (a w) as [x w1|]; [|done]. by destruct (b w1). Qed.

(** Running one step of a computation whose result is known. *)
Lemma bind_Done {S A B} (m : M S A) (f : A -> M S B) a s s' :
  m s = Done a s' -> bind m f s = f a s'.
Proof. unfold bind. by intros ->. Qed.

Lemma bind_Fault {S A B} (m : M S A) (f : A -> M S B) e s :
  m s = Fault e -> bind m f s = Fault e.
Proof. unfold bind. by intros ->. Qed.

(** A triple gives the run it describes. *)
Lemma wp_run {S A} (m : M S A) Q s :
  wp m Q s -> exists a s', m s = Done a s' /\ Q a s'.
Proof. unfold wp. destruct (m s); [eauto | done]. Qed.

(** What a triple says of the run. *)
Lemma wp_done {S A} (m : M S A) (Q : A -> S -> Prop) s a s' : m s = Done a s' -> wp m Q s -> Q a s'.
Proof. unfold wp. by intros ->. Qed.

(** What holds if a run ends without a fault. *)
Definition wlp {S A} (m : M S A) (Q : A -> S -> Prop) (s : S) : Prop := forall a s', m s = Done a s' -> Q a s'.

Lemma wp_wlp {S A} (m : M S A) Q s : wp m Q s -> wlp m Q s.
Proof. intros H a s' E. by eapply wp_done. Qed.

Lemma wlp_bind {S A B} (m : M S A) (f : A -> M S B) Q s :
  wlp m (fun a s' => wlp (f a) Q s') s -> wlp (bind m f) Q s.
Proof. intros H b s2. unfold bind. destruct (m s) as [a s1|] eqn:E; [apply (H a s1 E) | done]. Qed.

(** Runs a triple through the primitive operations. *)
Ltac wp_pure :=
  repeat match goal with
  | |- wp (bind _ _) _ _ => apply wp_bind
  | |- wp (ret _) _ _ => apply wp_ret; cbv beta
  | |- wp (gets _) _ _ => apply wp_gets; cbv beta
  | |- wp (modify _) _ _ => apply wp_modify; cbv beta
  | |- wp (fun _ => _) _ _ => progress cbv beta
  | |- wp (if true then _ else _) _ _ => cbv iota
  | |- wp (if false then _ else _) _ _ => cbv iota
  | |- wp (when true _) _ _ => cbv delta [when] iota beta
  | |- wp (when false _) _ _ => cbv delta [when] iota beta
  end.

Ltac wp_seq tac := eapply wp_mono; [tac | cbv beta].

(** A branch of the code under test. *)
Ltac case_bool :=
  match goal with
  | |- context [if ?b then _ else _] => destruct b eqn:?
  end.

Ltac bool_to_prop :=
  repeat match goal with
  | H : (_ =? _) = true |- _ => apply Z.eqb_eq in H
  | H : (_ =? _) = false |- _ => apply Z.eqb_neq in H
  | H : (_ <? _) = true |- _ => apply Z.ltb_lt in H
  | H : (_ <? _) = false |- _ => apply Z.ltb_ge in H
  | H : (_ <=? _) = true |- _ => apply Z.leb_le in H
  | H : (_ <=? _) = false |- _ => apply Z.leb_gt in H
  | H : (_ && _)%bool = true |- _ => apply andb_true_iff in H as [? ?]
  | H : (_ || _)%bool = false |- _ => apply orb_false_iff in H as [? ?]
  | H : negb _ = true |- _ => apply negb_true_iff in H
  | H : negb _ = false |- _ => apply negb_false_iff in H
  end.

(** ** Updating one field of a record

    [record_setter proj] builds the function that replaces the field [proj]; the
    records are declared with primitive projections, so the other fields of the
    result are those of the argument by computation. *)
Ltac record_setter proj :=
  let v := fresh "v" in let r := fresh "r" in
  let t := fresh "t" in let o := fresh "o" in
  intros v r; pose (t := r); pose (o := proj r); destruct r;
  let t' := eval cbv delta [t] in t in
  let o' := eval cbn in (proj t') in
  lazymatch t' with context K [o'] => let n := context K [v] in exact n end.

(** ** Lemmas on machine integers and register fields *)

Create HintDb machine.

Lemma wrapu_range w x : 0 <= w -> uint w (wrapu w x).
Proof. intros. apply Z.mod_pos_bound. lia. Qed.

Lemma wrapu_small w x : uint w x -> wrapu w x = x.
Proof. apply Z.mod_small. Qed.


Lemma wraps_small w x :
  0 < w -> - 2 ^ (w - 1) <= x < 2 ^ (w - 1) -> wraps w x = x.
Proof.
  intros Hw Hx. unfold wraps.
  assert (2 ^ w = 2 * 2 ^ (w - 1)) as E.
  { rewrite <- Z.pow_succ_r by lia. f_equal. lia. }
  rewrite Z.mod_small; lia.
Qed.

Lemma wrapu_0 w : 0 <= w -> wrapu w 0 = 0.
Proof. intros. apply Z.mod_0_l. lia. Qed.

Lemma uint_mono w w' x : 0 <= w <= w' -> uint w x -> uint w' x.
Proof.
  intros [Hw Hww] [Hx0 Hx]. split; [done|].
  pose proof (Z.pow_le_mono_r 2 w w'). lia.
Qed.

Lemma uint_bits w x i : 0 <= w -> uint w x -> w <= i -> Z.testbit x i = false.
Proof.
  intros Hw [Hx0 Hx] Hi. rewrite <- (Z.mod_small x (2 ^ w)) by done.
  by apply Z.mod_pow2_bits_high.
Qed.

(** Bounding by bits: nothing set at or above [w]. *)
Lemma bits_uint w x :
  0 <= w -> 0 <= x -> (forall i, w <= i -> Z.testbit x i = false) -> uint w x.
Proof.
  intros Hw Hx Hb. assert (x = x mod 2 ^ w) as ->.
  { apply Z.bits_inj'. intros i Hi. destruct (Z.lt_ge_cases i w).
    - by rewrite Z.mod_pow2_bits_low.
    - by rewrite Z.mod_pow2_bits_high, Hb. }
  apply Z.mod_pos_bound. lia.
Qed.

Lemma land_uint_l w a b : 0 <= w -> uint w a -> uint w (Z.land a b).
Proof.
  intros Hw Ha. apply bits_uint; [done | | ].
  - apply Z.land_nonneg. left. apply Ha.
  - intros i Hi. by rewrite Z.land_spec, (uint_bits w a i).
Qed.

Lemma lor_uint w a b : 0 <= w -> uint w a -> uint w b -> uint w (Z.lor a b).
Proof.
  intros Hw Ha Hb. apply bits_uint; [done | | ].
  - apply Z.lor_nonneg. split; [apply Ha | apply Hb].
  - intros i Hi. by rewrite Z.lor_spec, (uint_bits w a i), (uint_bits w b i).
Qed.

Lemma shiftr_uint w a n : 0 <= w -> 0 <= n -> uint w a -> uint w (Z.shiftr a n).
Proof.
  intros Hw Hn Ha. apply bits_uint; [done | | ].
  - apply Z.shiftr_nonneg. apply Ha.
  - intros i Hi. rewrite Z.shiftr_spec by lia. apply (uint_bits w); auto; lia.
Qed.

(** Testing one bit with a mask. *)
Lemma land_pow2_test a n :
  0 <= n -> (Z.land a (2 ^ n) =? 0) = negb (Z.testbit a n).
Proof.
  intros Hn. destruct (Z.testbit a n) eqn:E; cbn.
  - apply Z.eqb_neq. intros H0.
    assert (Z.testbit (Z.land a (2 ^ n)) n = true) as H.
    { by rewrite Z.land_spec, E, Z.pow2_bits_true. }
    rewrite H0, Z.bits_0 in H. done.
  - apply Z.eqb_eq, Z.bits_inj'. intros i Hi.
    rewrite Z.land_spec, Z.pow2_bits_eqb, Z.bits_0 by done.
    destruct (Z.eqb_spec n i) as [->|]; [by rewrite E | apply andb_false_r].
Qed.

Lemma ffs_range m : 0 < m < 2 ^ 32 -> 0 <= __ffs m < 32.
Proof.
  intros Hm. unfold __ffs. rewrite (proj2 (Z.eqb_neq m 0)) by lia.
  split; [apply Z.log2_nonneg|].
  assert (uint 32 (Z.land m (- m))) as [Hl Hu] by (apply land_uint_l; [lia | split; lia]).
  destruct (decide (Z.land m (- m) = 0)) as [->|]; [done|].
  apply Z.log2_lt_pow2; lia.
Qed.

Lemma lsl_in x n : 0 <= n < 32 -> lsl x n = u32 (Z.shiftl x n).
Proof. intros. unfold lsl. by rewrite (proj2 (Z.leb_le 0 n)), (proj2 (Z.ltb_lt n 32)) by lia. Qed.

Lemma lsr_in x n : 0 <= n < 32 -> lsr x n = Z.shiftr x n.
Proof. intros. unfold lsr. by rewrite (proj2 (Z.leb_le 0 n)), (proj2 (Z.ltb_lt n 32)) by lia. Qed.

Lemma lsl_1 n : 0 <= n < 32 -> lsl 1 n = 2 ^ n.
Proof.
  intros Hn. rewrite lsl_in, Z.shiftl_mul_pow2, Z.mul_1_l by lia.
  apply wrapu_small. split; [lia | apply Z.pow_lt_mono_r; lia].
Qed.

Lemma lsl_uint x n : uint 32 (lsl x n).
Proof. unfold lsl. case_bool; [apply wrapu_range; lia | done]. Qed.

Lemma lsr_uint x n : uint 32 x -> uint 32 (lsr x n).
Proof.
  intros Hx. unfold lsr. case_bool; [|done]. bool_to_prop.
  apply shiftr_uint; [lia | lia | done].
Qed.

(** A value fits a field when the shifted value stays inside the mask. *)
Definition field_fits (mask f : Z) : bool :=
  (0 <? mask) && (mask <? 2 ^ 32) && (0 <=? f) &&
  (Z.land (Z.shiftl f (__ffs mask)) mask =? Z.shiftl f (__ffs mask)).

Lemma field_fits_lsl mask f :
  field_fits mask f = true ->
  lsl f (__ffs mask) = Z.shiftl f (__ffs mask) /\ 0 <= __ffs mask < 32 /\
  Z.land (Z.shiftl f (__ffs mask)) mask = Z.shiftl f (__ffs mask) /\ 0 <= f.
Proof.
  intros Hf. unfold field_fits in Hf. bool_to_prop.
  assert (0 <= __ffs mask < 32) as Hs by (apply ffs_range; lia).
  split_and!; try done; try lia. rewrite lsl_in by done. apply wrapu_small.
  rewrite <- H0, Z.land_comm. apply land_uint_l; [lia|]. split; lia.
Qed.

(** Writing a field and reading it back gives the value written. *)
Lemma field_get_set mask f v :
  field_fits mask f = true -> field_get mask (field_set mask f v) = f.
Proof.
  intros (Hl & Hs & Hm & Hf)%field_fits_lsl. unfold field_get, field_set.
  rewrite Hl, lsr_in by done. apply Z.bits_inj'. intros i Hi.
  rewrite Z.shiftr_spec, Z.land_spec, Z.lor_spec, Z.land_spec, Z.lnot_spec by lia.
  assert (Z.testbit (Z.shiftl f (__ffs mask)) (i + __ffs mask) = Z.testbit f i) as E.
  { rewrite Z.shiftl_spec by lia. f_equal. lia. }
  assert (Z.testbit (Z.land (Z.shiftl f (__ffs mask)) mask) (i + __ffs mask) =
          Z.testbit f i) as E' by (rewrite Hm; exact E).
  rewrite Z.land_spec, E in E'. rewrite E.
  destruct (Z.testbit v _), (Z.testbit mask _), (Z.testbit f i); cbn in *; congruence.
Qed.

(** A write to one field leaves a field with a disjoint mask alone. *)
Lemma field_get_set_other mask mask' f v :
  field_fits mask f = true -> Z.land mask mask' = 0 ->
  field_get mask' (field_set mask f v) = field_get mask' v.
Proof.
  intros (Hl & Hs & Hm & Hf)%field_fits_lsl Hd. unfold field_get, field_set.
  rewrite Hl. f_equal. apply Z.bits_inj'. intros i Hi.
  rewrite !Z.land_spec, Z.lor_spec, Z.land_spec, Z.lnot_spec by lia.
  assert (Z.testbit (Z.land mask mask') i = false) as E
    by (rewrite Hd; apply Z.bits_0).
  rewrite <- Hm, !Z.land_spec in *.
  destruct (Z.testbit v i), (Z.testbit mask i), (Z.testbit mask' i),
    (Z.testbit (Z.shiftl f (__ffs mask)) i); cbn in *; congruence.
Qed.

(** A field without a mask is not programmed at all. *)
Lemma field_set_no_mask f v : field_set 0 f v = v.
Proof. unfold field_set. cbn. by rewrite Z.land_m1_r, Z.lor_0_r. Qed.

Lemma field_set_uint mask f v : uint 32 v -> uint 32 (field_set mask f v).
Proof.
  intros Hv. apply lor_uint; [lia | | apply lsl_uint].
  apply land_uint_l; [lia | done].
Qed.

Lemma field_get_uint mask v : uint 32 v -> uint 32 (field_get mask v).
Proof. intros. apply lsr_uint, land_uint_l; [lia | done]. Qed.

#[export] Hint Resolve wrapu_range field_set_uint field_get_uint lsl_uint : machine.
