(* ===== verification/Bytes.v ===== *)
(** * The bytes of a word

    Words as drivers take them apart and put them together again: the memory controller stores
    the bytes of its results, the error location module and the mailbox queues get words as
    little-endian bytes. *)

From S2P Require Import Prelude.

(** [(v >> n) & 0xFF] *)
Definition byte_at (v n : Z) : Z := Z.land (Z.shiftr v n) 0xff.

Lemma byte_at_spec v n i : 0 <= n -> 0 <= i -> Z.testbit (byte_at v n) i = Z.testbit v (i + n) && (i <? 8).
Proof.
  intros Hn Hi. unfold byte_at. change 0xff with (Z.ones 8).
  rewrite Z.land_spec, Z.shiftr_spec by done. destruct (Z.ltb_spec i 8).
  - by rewrite Z.ones_spec_low by lia.
  - by rewrite Z.ones_spec_high by lia.
Qed.

Lemma byte_at_range v n : 0 <= byte_at v n < 2 ^ 8.
Proof.
  unfold byte_at. change 0xff with (Z.ones 8). rewrite Z.land_ones by lia. by apply Z.mod_pos_bound.
Qed.

(** The word that four bytes make up. *)
Definition word_of (s0 s1 s2 s3 : Z) : Z := Z.lor (Z.lor (Z.lor s0 (lsl s1 8)) (lsl s2 16)) (lsl s3 24).

Lemma lsl_byte v k n : 0 <= n <= 24 -> lsl (byte_at v k) n = Z.shiftl (byte_at v k) n.
Proof.
  intros Hn. pose proof (byte_at_range v k) as Hb. rewrite lsl_in by lia. apply wrapu_small.
  rewrite Z.shiftl_mul_pow2 by lia. pose proof (Z.pow_pos_nonneg 2 n ltac:(lia) ltac:(lia)).
  assert (2 ^ 8 * 2 ^ n <= 2 ^ 32) by (rewrite <- Z.pow_add_r by lia; apply Z.pow_le_mono_r; lia).
  split; nia.
Qed.

(** The bytes of a word make it up again. *)
Lemma word_of_bytes v : uint 32 v -> word_of (byte_at v 0) (byte_at v 8) (byte_at v 16) (byte_at v 24) = v.
Proof.
  intros Hv. unfold word_of. rewrite !lsl_byte by lia. apply Z.bits_inj'. intros i Hi.
  rewrite !Z.lor_spec, !Z.shiftl_spec by done.
  assert (forall n, 0 <= n -> Z.testbit (byte_at v n) (i - n) =
    Z.testbit v i && ((n <=? i) && (i <? n + 8))) as E.
  { intros n Hn. destruct (Z.leb_spec n i).
    - rewrite byte_at_spec by lia. replace (i - n + n) with i by lia. f_equal.
      destruct (Z.ltb_spec (i - n) 8), (Z.ltb_spec i (n + 8)); (done || lia).
    - rewrite Z.testbit_neg_r by lia. by rewrite andb_false_r. }
  replace (Z.testbit (byte_at v 0) i) with (Z.testbit (byte_at v 0) (i - 0)) by (f_equal; lia).
  rewrite !E by lia. rewrite <- !andb_orb_distrib_r.
  destruct (Z.ltb_spec i 32).
  - replace (_ || _ || _ || _) with true; [by rewrite andb_true_r|]. symmetry.
    rewrite !orb_true_iff, !andb_true_iff, !Z.leb_le, !Z.ltb_lt. lia.
  - rewrite (Z.bits_above_log2 v i); [done | apply Hv |].
    destruct (decide (v = 0)) as [->|]; [cbn; lia|]. destruct Hv.
    apply (Z.lt_le_trans _ 32); [apply Z.log2_lt_pow2; lia | done].
Qed.
