(* ===== verification/Platform.v ===== *)
(** * The shared state of the clock, clockdomain and powerdomain code

    Data types of plat-omap/include/plat/clock.h, mach-omap2/clockdomain.h and
    mach-omap2/powerdomain.h, the registers of the chip, and the accesses to both.

    - A [struct clk], [struct dpll_data], [struct clockdomain] or
      [struct powerdomain] is a C object with a static lifetime; a pointer to it is
      the name of the C object, and the four stores of [world] give its contents.
      [NULL] is [None]; dereferencing it, or a name without an object, is
      [Fault NullDeref].
    - A function pointer of a [struct clk] is one of the functions the DM8148 clock
      tables use (an enumeration for each kind of pointer).
    - An intrusive list ([list_head]) is the list of the objects on it, head first;
      [list_add] puts an object at the head.
    - A hardware register is read and written through [readl] and [writel]; the
      device answers a read from everything that happened on the bus before it. *)

From S2P Require Import Prelude.

(** ** The chip *)

(** What the SoC identification code (mach-omap2/id.c) found: the revision word
    and whether the chip has a DSP (a DM385 has none). *)
Class Soc := {
  omap_rev : Z;
  omap3_has_dsp : bool;
  cm_base : Z;    (* virtual addresses ioremap gave the CM and PRM blocks *)
  prm_base : Z
}.

(** The kernel is configured for the TI81xx family alone
    (arch/arm/configs/tisdk_dm814x-evm_defconfig), so the OMAP tests are
    constantly 0 and the TI tests look at the revision word. *)
Definition cpu_is_omap24xx : bool := false.
Definition cpu_is_omap34xx : bool := false.
Definition cpu_is_omap44xx : bool := false.
Definition cpu_is_ti81xx `{Soc} : bool := Z.land omap_rev 0xff =? 0x81.
Definition cpu_is_ti814x `{Soc} : bool :=
  Z.land (Z.shiftr omap_rev 20) 0xfff =? 0x814.
Definition cpu_is_ti816x `{Soc} : bool :=
  Z.land (Z.shiftr omap_rev 20) 0xfff =? 0x816.
Definition cpu_is_dm385 `{Soc} : bool := cpu_is_ti814x && negb omap3_has_dsp.

Definition TI814X_CLASS : Z := 0x81400081.
Definition TI8148_REV_ES1_0 : Z := TI814X_CLASS.
Definition TI8148_REV_ES2_0 : Z := Z.lor TI814X_CLASS (Z.shiftl 1 8).

(** ** Bus accesses *)

Inductive io_event :=
| IoRead (a v : Z)      (* __raw_readl *)
| IoWrite (a v : Z)     (* __raw_writel *)
| IoReadB (a v : Z)     (* __raw_readb *)
| IoWriteB (a v : Z)    (* __raw_writeb *)
| IoReadW (a v : Z)     (* __raw_readw *)
| IoWriteW (a v : Z)    (* __raw_writew *)
| IoDelay (ns : Z).     (* udelay, ndelay *)

#[global] Instance io_event_eq_dec : EqDecision io_event.
Proof. solve_decision. Defined.

(** The device side: the value a 32-bit read of an address returns, and the value
    of the free-running clock, given the accesses so far (newest first). *)
Class Hardware := {
  hw_read : list io_event -> Z -> Z;
  hw_sched_clock : list io_event -> Z
}.

(** A register that holds what was last written to it. *)
Definition plain_reg `{Hardware} (a : Z) : Prop :=
  forall e h, hw_read (e :: h) a =
    match e with
    | IoWrite b v => if b =? a then v else hw_read h a
    | _ => hw_read h a
    end.

#[local] Set Primitive Projections.

(** ** struct clk and the structures it points to *)

(** The [clkops] objects of the DM8148 tables. *)
Inductive clkops :=
| clkops_null
| clkops_omap2_dflt
| clkops_ti81xx_dflt_wait
| clkops_ti81xx_pcie
| clkops_ti81xx_usb
| clkops_ti814x_dpll_ops.

Inductive recalc_fn :=
| followparent_recalc_fn
| omap_fixed_divisor_recalc_fn
| omap2_clksel_recalc_fn
| ti814x_dpll_recalc_fn
| ti814x_dpll_dco_recalc_fn.

Inductive set_rate_fn :=
| omap2_clksel_set_rate_fn
| ti814x_clksel_set_rate_fn
| ti814x_dpll_set_rate_fn.

Inductive round_rate_fn :=
| omap2_clksel_round_rate_fn
| ti814x_dpll_round_rate_fn.

Inductive init_fn :=
| omap2_init_clksel_parent_fn
| ti814x_init_dpll_parent_fn.

#[global] Instance clkops_eq_dec : EqDecision clkops.
Proof. solve_decision. Defined.
#[global] Instance recalc_fn_eq_dec : EqDecision recalc_fn.
Proof. solve_decision. Defined.
#[global] Instance set_rate_fn_eq_dec : EqDecision set_rate_fn.
Proof. solve_decision. Defined.
#[global] Instance round_rate_fn_eq_dec : EqDecision round_rate_fn.
Proof. solve_decision. Defined.
#[global] Instance init_fn_eq_dec : EqDecision init_fn.
Proof. solve_decision. Defined.

(** An entry of a divisor table; a table ends where the list ends (the C arrays
    end with an entry whose [div] is 0). *)
Record clksel_rate := mkRate { cr_div : Z; cr_val : Z; cr_flags : Z }.

(** A possible parent and the divisors it offers; the C array ends with a NULL
    parent. *)
Record clksel := mkClksel { cs_parent : string; cs_rates : list clksel_rate }.

(** struct dpll_data: the fields the TI814x ADPLL code and tables use. *)
Record dpll_data := mkDpll {
  dd_mult_div1_reg : Z;
  dd_mult_mask : Z;
  dd_div1_mask : Z;
  dd_clk_bypass : string;  (* struct clk * *)
  dd_clk_ref : string;  (* struct clk * *)
  dd_control_reg : Z;
  dd_enable_mask : Z;
  dd_rate_tolerance : Z;
  dd_last_rounded_rate : Z;  (* unsigned long *)
  dd_last_rounded_m : Z;  (* u16 *)
  dd_max_multiplier : Z;  (* u16 *)
  dd_last_rounded_n : Z;  (* u8 *)
  dd_min_divider : Z;  (* u8 *)
  dd_max_divider : Z;  (* u8 *)
  dd_modes : Z;  (* u8 *)
  dd_idlest_reg : Z;
  dd_idlest_mask : Z;
  dd_dco_mask : Z;
  dd_sddiv_mask : Z;
  dd_auto_recal_bit : Z;  (* u8 *)
  dd_flags : Z;  (* u8 *)
  dd_dpll_id : Z;  (* u8 *)
  dd_div_m2n_reg : Z;
  dd_div_m2_mask : Z;
  dd_div_n_mask : Z;
  dd_pre_div_n : Z;  (* u8 *)
  dd_post_div_m2 : Z;  (* u8 *)
  dd_frac_mult_reg : Z;
  dd_frac_mult_mask : Z;
  dd_last_rounded_frac_m : Z;  (* u32 *)
  dd_last_rounded_m2 : Z;  (* u8 *)
  dd_bypass_bit : Z;  (* u32 *)
  dd_stby_ret_bit : Z;  (* u8 *)
  dd_stop_mode_bit : Z;  (* u8 *)
  dd_load_mn_reg : Z;
  dd_load_m2n2_reg : Z;
  dd_dco_freq_sel : Z  (* u8 *)
}.

Definition set_dd_mult_div1_reg : Z -> dpll_data -> dpll_data :=
  Eval cbv beta zeta in ltac:(record_setter dd_mult_div1_reg).
Definition set_dd_mult_mask : Z -> dpll_data -> dpll_data :=
  Eval cbv beta zeta in ltac:(record_setter dd_mult_mask).
Definition set_dd_div1_mask : Z -> dpll_data -> dpll_data :=
  Eval cbv beta zeta in ltac:(record_setter dd_div1_mask).
Definition set_dd_clk_bypass : string -> dpll_data -> dpll_data :=
  Eval cbv beta zeta in ltac:(record_setter dd_clk_bypass).
Definition set_dd_clk_ref : string -> dpll_data -> dpll_data :=
  Eval cbv beta zeta in ltac:(record_setter dd_clk_ref).
Definition set_dd_control_reg : Z -> dpll_data -> dpll_data :=
  Eval cbv beta zeta in ltac:(record_setter dd_control_reg).
Definition set_dd_enable_mask : Z -> dpll_data -> dpll_data :=
  Eval cbv beta zeta in ltac:(record_setter dd_enable_mask).
Definition set_dd_rate_tolerance : Z -> dpll_data -> dpll_data :=
  Eval cbv beta zeta in ltac:(record_setter dd_rate_tolerance).
Definition set_dd_last_rounded_rate : Z -> dpll_data -> dpll_data :=
  Eval cbv beta zeta in ltac:(record_setter dd_last_rounded_rate).
Definition set_dd_last_rounded_m : Z -> dpll_data -> dpll_data :=
  Eval cbv beta zeta in ltac:(record_setter dd_last_rounded_m).
Definition set_dd_max_multiplier : Z -> dpll_data -> dpll_data :=
  Eval cbv beta zeta in ltac:(record_setter dd_max_multiplier).
Definition set_dd_last_rounded_n : Z -> dpll_data -> dpll_data :=
  Eval cbv beta zeta in ltac:(record_setter dd_last_rounded_n).
Definition set_dd_min_divider : Z -> dpll_data -> dpll_data :=
  Eval cbv beta zeta in ltac:(record_setter dd_min_divider).
Definition set_dd_max_divider : Z -> dpll_data -> dpll_data :=
  Eval cbv beta zeta in ltac:(record_setter dd_max_divider).
Definition set_dd_modes : Z -> dpll_data -> dpll_data :=
  Eval cbv beta zeta in ltac:(record_setter dd_modes).
Definition set_dd_idlest_reg : Z -> dpll_data -> dpll_data :=
  Eval cbv beta zeta in ltac:(record_setter dd_idlest_reg).
Definition set_dd_idlest_mask : Z -> dpll_data -> dpll_data :=
  Eval cbv beta zeta in ltac:(record_setter dd_idlest_mask).
Definition set_dd_dco_mask : Z -> dpll_data -> dpll_data :=
  Eval cbv beta zeta in ltac:(record_setter dd_dco_mask).
Definition set_dd_sddiv_mask : Z -> dpll_data -> dpll_data :=
  Eval cbv beta zeta in ltac:(record_setter dd_sddiv_mask).
Definition set_dd_auto_recal_bit : Z -> dpll_data -> dpll_data :=
  Eval cbv beta zeta in ltac:(record_setter dd_auto_recal_bit).
Definition set_dd_flags : Z -> dpll_data -> dpll_data :=
  Eval cbv beta zeta in ltac:(record_setter dd_flags).
Definition set_dd_dpll_id : Z -> dpll_data -> dpll_data :=
  Eval cbv beta zeta in ltac:(record_setter dd_dpll_id).
Definition set_dd_div_m2n_reg : Z -> dpll_data -> dpll_data :=
  Eval cbv beta zeta in ltac:(record_setter dd_div_m2n_reg).
Definition set_dd_div_m2_mask : Z -> dpll_data -> dpll_data :=
  Eval cbv beta zeta in ltac:(record_setter dd_div_m2_mask).
Definition set_dd_div_n_mask : Z -> dpll_data -> dpll_data :=
  Eval cbv beta zeta in ltac:(record_setter dd_div_n_mask).
Definition set_dd_pre_div_n : Z -> dpll_data -> dpll_data :=
  Eval cbv beta zeta in ltac:(record_setter dd_pre_div_n).
Definition set_dd_post_div_m2 : Z -> dpll_data -> dpll_data :=
  Eval cbv beta zeta in ltac:(record_setter dd_post_div_m2).
Definition set_dd_frac_mult_reg : Z -> dpll_data -> dpll_data :=
  Eval cbv beta zeta in ltac:(record_setter dd_frac_mult_reg).
Definition set_dd_frac_mult_mask : Z -> dpll_data -> dpll_data :=
  Eval cbv beta zeta in ltac:(record_setter dd_frac_mult_mask).
Definition set_dd_last_rounded_frac_m : Z -> dpll_data -> dpll_data :=
  Eval cbv beta zeta in ltac:(record_setter dd_last_rounded_frac_m).
Definition set_dd_last_rounded_m2 : Z -> dpll_data -> dpll_data :=
  Eval cbv beta zeta in ltac:(record_setter dd_last_rounded_m2).
Definition set_dd_bypass_bit : Z -> dpll_data -> dpll_data :=
  Eval cbv beta zeta in ltac:(record_setter dd_bypass_bit).
Definition set_dd_stby_ret_bit : Z -> dpll_data -> dpll_data :=
  Eval cbv beta zeta in ltac:(record_setter dd_stby_ret_bit).
Definition set_dd_stop_mode_bit : Z -> dpll_data -> dpll_data :=
  Eval cbv beta zeta in ltac:(record_setter dd_stop_mode_bit).
Definition set_dd_load_mn_reg : Z -> dpll_data -> dpll_data :=
  Eval cbv beta zeta in ltac:(record_setter dd_load_mn_reg).
Definition set_dd_load_m2n2_reg : Z -> dpll_data -> dpll_data :=
  Eval cbv beta zeta in ltac:(record_setter dd_load_m2n2_reg).
Definition set_dd_dco_freq_sel : Z -> dpll_data -> dpll_data :=
  Eval cbv beta zeta in ltac:(record_setter dd_dco_freq_sel).

(** struct clk. *)
Record clk := mkClk {
  ck_ops : clkops;
  ck_name : string;
  ck_parent : option string;  (* struct clk * *)
  ck_children : list string;  (* list of struct clk.sibling *)
  ck_rate : Z;  (* unsigned long *)
  ck_enable_reg : Z;  (* 0 is NULL *)
  ck_recalc : option recalc_fn;
  ck_set_rate : option set_rate_fn;
  ck_round_rate : option round_rate_fn;
  ck_init : option init_fn;
  ck_enable_bit : Z;  (* u8 *)
  ck_usecount : Z;  (* s8 *)
  ck_fixed_div : Z;  (* u8 *)
  ck_flags : Z;  (* u8 *)
  ck_clksel_reg : Z;
  ck_clksel_mask : Z;  (* u32 *)
  ck_clksel : option (list clksel);
  ck_dpll_data : option string;  (* struct dpll_data * *)
  ck_clkdm_name : option string;
  ck_clkdm : option string;  (* struct clockdomain * *)
  ck_node : bool  (* on the clocks list *)
}.

Definition set_ck_ops : clkops -> clk -> clk :=
  Eval cbv beta zeta in ltac:(record_setter ck_ops).
Definition set_ck_name : string -> clk -> clk :=
  Eval cbv beta zeta in ltac:(record_setter ck_name).
Definition set_ck_parent : option string -> clk -> clk :=
  Eval cbv beta zeta in ltac:(record_setter ck_parent).
Definition set_ck_children : list string -> clk -> clk :=
  Eval cbv beta zeta in ltac:(record_setter ck_children).
Definition set_ck_rate : Z -> clk -> clk :=
  Eval cbv beta zeta in ltac:(record_setter ck_rate).
Definition set_ck_enable_reg : Z -> clk -> clk :=
  Eval cbv beta zeta in ltac:(record_setter ck_enable_reg).
Definition set_ck_recalc : option recalc_fn -> clk -> clk :=
  Eval cbv beta zeta in ltac:(record_setter ck_recalc).
Definition set_ck_set_rate : option set_rate_fn -> clk -> clk :=
  Eval cbv beta zeta in ltac:(record_setter ck_set_rate).
Definition set_ck_round_rate : option round_rate_fn -> clk -> clk :=
  Eval cbv beta zeta in ltac:(record_setter ck_round_rate).
Definition set_ck_init : option init_fn -> clk -> clk :=
  Eval cbv beta zeta in ltac:(record_setter ck_init).
Definition set_ck_enable_bit : Z -> clk -> clk :=
  Eval cbv beta zeta in ltac:(record_setter ck_enable_bit).
Definition set_ck_usecount : Z -> clk -> clk :=
  Eval cbv beta zeta in ltac:(record_setter ck_usecount).
Definition set_ck_fixed_div : Z -> clk -> clk :=
  Eval cbv beta zeta in ltac:(record_setter ck_fixed_div).
Definition set_ck_flags : Z -> clk -> clk :=
  Eval cbv beta zeta in ltac:(record_setter ck_flags).
Definition set_ck_clksel_reg : Z -> clk -> clk :=
  Eval cbv beta zeta in ltac:(record_setter ck_clksel_reg).
Definition set_ck_clksel_mask : Z -> clk -> clk :=
  Eval cbv beta zeta in ltac:(record_setter ck_clksel_mask).
Definition set_ck_clksel : option (list clksel) -> clk -> clk :=
  Eval cbv beta zeta in ltac:(record_setter ck_clksel).
Definition set_ck_dpll_data : option string -> clk -> clk :=
  Eval cbv beta zeta in ltac:(record_setter ck_dpll_data).
Definition set_ck_clkdm_name : option string -> clk -> clk :=
  Eval cbv beta zeta in ltac:(record_setter ck_clkdm_name).
Definition set_ck_clkdm : option string -> clk -> clk :=
  Eval cbv beta zeta in ltac:(record_setter ck_clkdm).
Definition set_ck_node : bool -> clk -> clk :=
  Eval cbv beta zeta in ltac:(record_setter ck_node).

(** The union of a clockdomain's powerdomain: a name until the clockdomain is
    registered, a pointer after. *)
Inductive pwrdm_ref := PwrdmName (name : string) | PwrdmPtr (p : string).

(** struct clkdm_dep. *)
Record clkdm_dep := mkDep {
  dep_clkdm_name : string;
  dep_clkdm : option string;  (* resolved at first use *)
  dep_wkdep_usecount : Z;  (* atomic_t *)
  dep_sleepdep_usecount : Z;  (* atomic_t *)
  dep_omap_chip : Z
}.

Definition set_dep_clkdm : option string -> clkdm_dep -> clkdm_dep :=
  Eval cbv beta zeta in ltac:(record_setter dep_clkdm).
Definition set_dep_wkdep_usecount : Z -> clkdm_dep -> clkdm_dep :=
  Eval cbv beta zeta in ltac:(record_setter dep_wkdep_usecount).
Definition set_dep_sleepdep_usecount : Z -> clkdm_dep -> clkdm_dep :=
  Eval cbv beta zeta in ltac:(record_setter dep_sleepdep_usecount).

(** struct clkdm_autodep: the union holds a name until [_autodep_lookup] replaces it
    by a pointer or by ERR_PTR(-ENOENT). *)
Inductive autodep_ref := AutoName (name : string) | AutoPtr (d : string) | AutoErr.
Record clkdm_autodep := mkAutodep { ad_clkdm : autodep_ref; ad_omap_chip : Z }.

(** struct clockdomain. *)
Record clockdomain := mkClkdm {
  cd_name : string;
  cd_pwrdm : pwrdm_ref;  (* a union in C *)
  cd_clktrctrl_mask : Z;  (* u16 *)
  cd_flags : Z;  (* u8 *)
  cd_dep_bit : Z;  (* u8 *)
  cd_cm_inst : Z;  (* s16 *)
  cd_clkdm_offs : Z;  (* u16 *)
  cd_wkdep_srcs : option (list clkdm_dep);
  cd_sleepdep_srcs : option (list clkdm_dep);
  cd_omap_chip : Z;
  cd_usecount : Z  (* atomic_t *)
}.

Definition set_cd_pwrdm : pwrdm_ref -> clockdomain -> clockdomain :=
  Eval cbv beta zeta in ltac:(record_setter cd_pwrdm).
Definition set_cd_wkdep_srcs : option (list clkdm_dep) -> clockdomain -> clockdomain :=
  Eval cbv beta zeta in ltac:(record_setter cd_wkdep_srcs).
Definition set_cd_sleepdep_srcs : option (list clkdm_dep) -> clockdomain -> clockdomain :=
  Eval cbv beta zeta in ltac:(record_setter cd_sleepdep_srcs).
Definition set_cd_usecount : Z -> clockdomain -> clockdomain :=
  Eval cbv beta zeta in ltac:(record_setter cd_usecount).

(** struct powerdomain (CONFIG_PM_DEBUG is set). *)
Record powerdomain := mkPwrdm {
  pd_name : string;
  pd_omap_chip : Z;
  pd_prcm_offs : Z;  (* s16 *)
  pd_pwrsts : Z;  (* u8 *)
  pd_pwrsts_logic_ret : Z;  (* u8 *)
  pd_flags : Z;  (* u8 *)
  pd_banks : Z;  (* u8 *)
  pd_pwrsts_mem_ret : list Z;  (* [PWRDM_MAX_MEM_BANKS] *)
  pd_pwrsts_mem_on : list Z;  (* [PWRDM_MAX_MEM_BANKS] *)
  pd_clkdms : list (option string);  (* [PWRDM_MAX_CLKDMS] *)
  pd_state : Z;  (* int *)
  pd_state_counter : list Z;  (* [PWRDM_MAX_PWRSTS] *)
  pd_ret_logic_off_counter : Z;  (* unsigned *)
  pd_ret_mem_off_counter : list Z;  (* [PWRDM_MAX_MEM_BANKS] *)
  pd_timer : Z;  (* s64 *)
  pd_state_timer : list Z  (* [PWRDM_MAX_PWRSTS] *)
}.

Definition set_pd_clkdms : list (option string) -> powerdomain -> powerdomain :=
  Eval cbv beta zeta in ltac:(record_setter pd_clkdms).
Definition set_pd_state : Z -> powerdomain -> powerdomain :=
  Eval cbv beta zeta in ltac:(record_setter pd_state).
Definition set_pd_state_counter : list Z -> powerdomain -> powerdomain :=
  Eval cbv beta zeta in ltac:(record_setter pd_state_counter).
Definition set_pd_ret_logic_off_counter : Z -> powerdomain -> powerdomain :=
  Eval cbv beta zeta in ltac:(record_setter pd_ret_logic_off_counter).
Definition set_pd_ret_mem_off_counter : list Z -> powerdomain -> powerdomain :=
  Eval cbv beta zeta in ltac:(record_setter pd_ret_mem_off_counter).
Definition set_pd_timer : Z -> powerdomain -> powerdomain :=
  Eval cbv beta zeta in ltac:(record_setter pd_timer).
Definition set_pd_state_timer : list Z -> powerdomain -> powerdomain :=
  Eval cbv beta zeta in ltac:(record_setter pd_state_timer).

(** struct clk_lookup of asm/clkdev.h; [cl_ptr] is its address. *)
Record clk_lookup := mkLookup {
  cl_ptr : Z;
  cl_dev_id : option string;
  cl_con_id : option string;
  cl_clk : string  (* struct clk * *)
}.

(** The state all this code works on. *)
Record world := mkWorld {
  w_clks : gmap string clk;
  w_dplls : gmap string dpll_data;
  w_clkdms : gmap string clockdomain;
  w_pwrdms : gmap string powerdomain;
  w_root_clks : list string;  (* plat-omap/clock.c *)
  w_clocks : list string;  (* plat-omap/clock.c *)
  w_clkdm_list : list string;  (* clockdomain.c *)
  w_autodeps : option (list clkdm_autodep);  (* clockdomain.c *)
  w_pwrdm_list : list string;  (* powerdomain.c *)
  w_cpu_mask : Z;  (* mach-omap2/clock.c, u8 *)
  w_omap_chip : Z;  (* mach-omap2/id.c *)
  w_pm_dbg_init_done : bool;  (* pm-debug.c *)
  w_mpurate : Z;  (* plat-omap/clock.c, int *)
  w_clkdevs : list clk_lookup;  (* common/clkdev.c, the list clocks *)
  w_trace : list io_event  (* bus accesses, newest first *)
}.

Definition set_w_clks : gmap string clk -> world -> world :=
  Eval cbv beta zeta in ltac:(record_setter w_clks).
Definition set_w_dplls : gmap string dpll_data -> world -> world :=
  Eval cbv beta zeta in ltac:(record_setter w_dplls).
Definition set_w_clkdms : gmap string clockdomain -> world -> world :=
  Eval cbv beta zeta in ltac:(record_setter w_clkdms).
Definition set_w_pwrdms : gmap string powerdomain -> world -> world :=
  Eval cbv beta zeta in ltac:(record_setter w_pwrdms).
Definition set_w_root_clks : list string -> world -> world :=
  Eval cbv beta zeta in ltac:(record_setter w_root_clks).
Definition set_w_clocks : list string -> world -> world :=
  Eval cbv beta zeta in ltac:(record_setter w_clocks).
Definition set_w_clkdm_list : list string -> world -> world :=
  Eval cbv beta zeta in ltac:(record_setter w_clkdm_list).
Definition set_w_autodeps : option (list clkdm_autodep) -> world -> world :=
  Eval cbv beta zeta in ltac:(record_setter w_autodeps).
Definition set_w_pwrdm_list : list string -> world -> world :=
  Eval cbv beta zeta in ltac:(record_setter w_pwrdm_list).
Definition set_w_cpu_mask : Z -> world -> world :=
  Eval cbv beta zeta in ltac:(record_setter w_cpu_mask).
Definition set_w_omap_chip : Z -> world -> world :=
  Eval cbv beta zeta in ltac:(record_setter w_omap_chip).
Definition set_w_pm_dbg_init_done : bool -> world -> world :=
  Eval cbv beta zeta in ltac:(record_setter w_pm_dbg_init_done).
Definition set_w_mpurate : Z -> world -> world :=
  Eval cbv beta zeta in ltac:(record_setter w_mpurate).
Definition set_w_clkdevs : list clk_lookup -> world -> world :=
  Eval cbv beta zeta in ltac:(record_setter w_clkdevs).
Definition set_w_trace : list io_event -> world -> world :=
  Eval cbv beta zeta in ltac:(record_setter w_trace).

(** ** Accesses *)

Section Access.
  Context `{HW : Hardware}.

(** [__raw_readl], [__raw_writel] and their narrower versions, [udelay] and [ndelay]. *)
Definition __raw_readl (a : Z) : M world Z := fun w =>
  let v := u32 (hw_read (w_trace w) a) in
  Done v (set_w_trace (IoRead a v :: w_trace w) w).
Definition __raw_writel (v a : Z) : M world unit :=
  modify (fun w => set_w_trace (IoWrite a v :: w_trace w) w).
Definition __raw_readb (a : Z) : M world Z := fun w =>
  let v := u8 (hw_read (w_trace w) a) in
  Done v (set_w_trace (IoReadB a v :: w_trace w) w).
Definition __raw_writeb (v a : Z) : M world unit :=
  modify (fun w => set_w_trace (IoWriteB a (u8 v) :: w_trace w) w).
Definition __raw_readw (a : Z) : M world Z := fun w =>
  let v := u16 (hw_read (w_trace w) a) in
  Done v (set_w_trace (IoReadW a v :: w_trace w) w).
Definition __raw_writew (v a : Z) : M world unit :=
  modify (fun w => set_w_trace (IoWriteW a (u16 v) :: w_trace w) w).
Definition ndelay (ns : Z) : M world unit :=
  modify (fun w => set_w_trace (IoDelay ns :: w_trace w) w).
Definition udelay (us : Z) : M world unit := ndelay (1000 * us).
Definition sched_clock : M world Z := gets (fun w => hw_sched_clock (w_trace w)).
End Access.

(** Following a pointer to an object, and assigning to fields of the object. *)
Definition get_clk (c : string) : M world clk :=
  r ← gets (fun w => w_clks w !! c); deref r.
Definition get_dpll (d : string) : M world dpll_data :=
  r ← gets (fun w => w_dplls w !! d); deref r.
Definition get_clkdm (d : string) : M world clockdomain :=
  r ← gets (fun w => w_clkdms w !! d); deref r.
Definition get_pwrdm (p : string) : M world powerdomain :=
  r ← gets (fun w => w_pwrdms w !! p); deref r.

Definition upd_clk (c : string) (f : clk -> clk) : M world unit :=
  r ← get_clk c; modify (fun w => set_w_clks (<[c := f r]> (w_clks w)) w).
Definition upd_dpll (d : string) (f : dpll_data -> dpll_data) : M world unit :=
  r ← get_dpll d; modify (fun w => set_w_dplls (<[d := f r]> (w_dplls w)) w).
Definition upd_clkdm (d : string) (f : clockdomain -> clockdomain) : M world unit :=
  r ← get_clkdm d; modify (fun w => set_w_clkdms (<[d := f r]> (w_clkdms w)) w).
Definition upd_pwrdm (p : string) (f : powerdomain -> powerdomain) : M world unit :=
  r ← get_pwrdm p; modify (fun w => set_w_pwrdms (<[p := f r]> (w_pwrdms w)) w).

(** ** Triples of the accesses *)

(** What a read of a register would return now. *)
Definition regval `{Hardware} (w : world) (a : Z) : Z := u32 (hw_read (w_trace w) a).

Section AccessWp.
  Context `{HW : Hardware}.
Implicit Types w : world.

Lemma regval_uint w a : uint 32 (regval w a).
Proof. apply wrapu_range. lia. Qed.

Lemma wp_readl a Q w :
  Q (regval w a) (set_w_trace (IoRead a (regval w a) :: w_trace w) w) ->
  wp (__raw_readl a) Q w.
Proof. done. Qed.

Lemma wp_writel v a Q w :
  Q tt (set_w_trace (IoWrite a v :: w_trace w) w) -> wp (__raw_writel v a) Q w.
Proof. done. Qed.

Lemma wp_ndelay n Q w :
  Q tt (set_w_trace (IoDelay n :: w_trace w) w) -> wp (ndelay n) Q w.
Proof. done. Qed.

(** A plain register keeps its value until it is written. *)
Lemma plain_read a b v w :
  plain_reg a -> regval (set_w_trace (IoRead b v :: w_trace w) w) a = regval w a.
Proof. intros Hp. unfold regval. cbn. by rewrite Hp. Qed.

Lemma plain_delay a n w :
  plain_reg a -> regval (set_w_trace (IoDelay n :: w_trace w) w) a = regval w a.
Proof. intros Hp. unfold regval. cbn. by rewrite Hp. Qed.

Lemma plain_write a v w :
  plain_reg a -> uint 32 v -> regval (set_w_trace (IoWrite a v :: w_trace w) w) a = v.
Proof.
  intros Hp Hv. unfold regval. cbn. rewrite Hp, Z.eqb_refl. by apply wrapu_small.
Qed.

Lemma plain_write_ne a b v w :
  plain_reg a -> b <> a ->
  regval (set_w_trace (IoWrite b v :: w_trace w) w) a = regval w a.
Proof.
  intros Hp Hb. unfold regval. cbn. rewrite Hp.
  by rewrite (proj2 (Z.eqb_neq b a) Hb).
Qed.
End AccessWp.

Lemma wp_get_clk c r Q w : w_clks w !! c = Some r -> Q r w -> wp (get_clk c) Q w.
Proof. intros Hr HQ. unfold get_clk. wp_pure. by eapply wp_deref. Qed.

Lemma wp_get_dpll d r Q w : w_dplls w !! d = Some r -> Q r w -> wp (get_dpll d) Q w.
Proof. intros Hr HQ. unfold get_dpll. wp_pure. by eapply wp_deref. Qed.

Lemma wp_get_clkdm d r Q w : w_clkdms w !! d = Some r -> Q r w -> wp (get_clkdm d) Q w.
Proof. intros Hr HQ. unfold get_clkdm. wp_pure. by eapply wp_deref. Qed.

Lemma wp_get_pwrdm p r Q w : w_pwrdms w !! p = Some r -> Q r w -> wp (get_pwrdm p) Q w.
Proof. intros Hr HQ. unfold get_pwrdm. wp_pure. by eapply wp_deref. Qed.

Lemma run_get_pwrdm p r w : w_pwrdms w !! p = Some r -> get_pwrdm p w = Done r w.
Proof. intros Hr. unfold get_pwrdm, bind, gets. by rewrite Hr. Qed.

Lemma wp_upd_clk c f r Q w :
  w_clks w !! c = Some r -> Q tt (set_w_clks (<[c := f r]> (w_clks w)) w) ->
  wp (upd_clk c f) Q w.
Proof. intros Hr HQ. unfold upd_clk. wp_pure. by eapply wp_get_clk. Qed.

Lemma wp_upd_dpll d f r Q w :
  w_dplls w !! d = Some r -> Q tt (set_w_dplls (<[d := f r]> (w_dplls w)) w) ->
  wp (upd_dpll d f) Q w.
Proof. intros Hr HQ. unfold upd_dpll. wp_pure. by eapply wp_get_dpll. Qed.

Lemma wp_upd_clkdm d f r Q w :
  w_clkdms w !! d = Some r -> Q tt (set_w_clkdms (<[d := f r]> (w_clkdms w)) w) ->
  wp (upd_clkdm d f) Q w.
Proof. intros Hr HQ. unfold upd_clkdm. wp_pure. by eapply wp_get_clkdm. Qed.

Lemma wp_upd_pwrdm p f r Q w :
  w_pwrdms w !! p = Some r -> Q tt (set_w_pwrdms (<[p := f r]> (w_pwrdms w)) w) ->
  wp (upd_pwrdm p f) Q w.
Proof. intros Hr HQ. unfold upd_pwrdm. wp_pure. by eapply wp_get_pwrdm. Qed.

(** Code that only talks to the device. *)
Definition io_only (w w' : world) : Prop := exists h, w' = set_w_trace h w.

#[global] Instance io_only_preorder : PreOrder io_only.
Proof.
  split.
  - intros w. by exists (w_trace w).
  - intros w1 w2 w3 [h ->] [h' ->]. by exists h'.
Qed.

Lemma io_only_trace h w : io_only w (set_w_trace h w).
Proof. by exists h. Qed.
#[export] Hint Resolve io_only_trace : machine.

(** Code that only reads registers and waits. *)
Definition quiet (e : io_event) : bool :=
  match e with IoWrite _ _ | IoWriteB _ _ | IoWriteW _ _ => false | _ => true end.

Definition io_reads (w w' : world) : Prop :=
  exists l, forallb quiet l = true /\ w' = set_w_trace (l ++ w_trace w) w.

#[global] Instance io_reads_preorder : PreOrder io_reads.
Proof.
  split.
  - intros w. by exists [].
  - intros w1 w2 w3 (l & Hl & ->) (l' & Hl' & ->). exists (l' ++ l).
    rewrite forallb_app, Hl, Hl', <- app_assoc. done.
Qed.

Lemma io_reads_only w w' : io_reads w w' -> io_only w w'.
Proof. intros (l & _ & ->). by eexists. Qed.

Lemma io_reads_1 e w : quiet e = true -> io_reads w (set_w_trace (e :: w_trace w) w).
Proof. intros He. exists [e]. cbn. by rewrite He. Qed.
#[export] Hint Resolve io_reads_only io_reads_1 : machine.

(** Reading leaves a plain register alone. *)
Lemma plain_quiet `{Hardware} a l h :
  plain_reg a -> forallb quiet l = true -> hw_read (l ++ h) a = hw_read h a.
Proof.
  intros Hp. induction l as [|e l IH]; [done|]. cbn. intros [He Hl]%andb_true_iff.
  rewrite Hp. destruct e; try discriminate He; by apply IH.
Qed.

(** ** Writing one register *)

Section Wrote.
  Context `{HW : Hardware}.

(** From [w] to [w'] the register [a] changed to [v]; no other plain register did. *)
Record wrote (a v : Z) (w w' : world) : Prop := {
  wr_io : io_only w w';
  wr_val : plain_reg a -> regval w' a = v;
  wr_other : forall b, plain_reg b -> b <> a -> regval w' b = regval w b
}.

Lemma read_write_wp a f w :
  (forall x, uint 32 x -> uint 32 (f x)) ->
  wp (v ← __raw_readl a; __raw_writel (f v) a)
     (fun _ w' => wrote a (f (regval w a)) w w') w.
Proof.
  intros Hf. apply wp_bind, wp_readl, wp_writel. split.
  - by eexists.
  - intros Ha. apply plain_write; [done|]. apply Hf, regval_uint.
  - intros b Hb Hne. by rewrite plain_write_ne, plain_read.
Qed.

Lemma regval_reads a w w' : io_reads w w' -> plain_reg a -> regval w' a = regval w a.
Proof. intros (l & Hl & ->) Ha. unfold regval. cbn. by rewrite plain_quiet. Qed.
End Wrote.

(** ** A concrete device and an empty state, for evaluating the definitions

    Every register of [mem_hw init] is plain memory that starts at [init]; the
    registers of [ram_hw] start at 0. *)
Fixpoint last_write (init : Z -> Z) (h : list io_event) (a : Z) : Z :=
  match h with
  | [] => init a
  | IoWrite b v :: h' => if b =? a then v else last_write init h' a
  | _ :: h' => last_write init h' a
  end.

Definition mem_hw (init : Z -> Z) : Hardware := {|
  hw_read := last_write init;
  hw_sched_clock := fun h => Z.of_nat (length h)
|}.

Definition ram_hw : Hardware := mem_hw (fun _ => 0).

Lemma mem_hw_plain init a : @plain_reg (mem_hw init) a.
Proof. by intros [] h. Qed.

Lemma ram_hw_plain a : @plain_reg ram_hw a.
Proof. apply mem_hw_plain. Qed.

(** A DM8148 ES2.0 with the CM and PRM blocks at their virtual addresses. *)
Definition dm8148_soc : Soc := {|
  omap_rev := TI8148_REV_ES2_0;
  omap3_has_dsp := true;
  cm_base := 0xfa180000;
  prm_base := 0xfa180000
|}.

Definition empty_world : world := {|
  w_clks := ∅; w_dplls := ∅; w_clkdms := ∅; w_pwrdms := ∅;
  w_root_clks := []; w_clocks := []; w_clkdm_list := []; w_autodeps := None;
  w_pwrdm_list := []; w_cpu_mask := 0; w_omap_chip := 0;
  w_pm_dbg_init_done := false; w_mpurate := 0; w_clkdevs := []; w_trace := []
|}.

(** One more step of a triple: a primitive or an access whose object is known. *)
Ltac wp_step :=
  wp_pure;
  lazymatch goal with
  | |- wp (__raw_readl _) _ _ => apply wp_readl
  | |- wp (__raw_writel _ _) _ _ => apply wp_writel
  | |- wp (ndelay _) _ _ => apply wp_ndelay
  | |- wp (udelay _) _ _ => unfold udelay; apply wp_ndelay
  | |- wp (get_clk _) _ _ => eapply wp_get_clk; [eassumption|]
  | |- wp (get_dpll _) _ _ => eapply wp_get_dpll; [eassumption|]
  | |- wp (get_clkdm _) _ _ => eapply wp_get_clkdm; [eassumption|]
  | |- wp (get_pwrdm _) _ _ => eapply wp_get_pwrdm; [eassumption|]
  | |- wp (upd_clk _ _) _ _ => eapply wp_upd_clk; [eassumption|]
  | |- wp (upd_dpll _ _) _ _ => eapply wp_upd_dpll; [eassumption|]
  | |- wp (upd_clkdm _ _) _ _ => eapply wp_upd_clkdm; [eassumption|]
  | |- wp (upd_pwrdm _ _) _ _ => eapply wp_upd_pwrdm; [eassumption|]
  | |- wp (deref (Some _)) _ _ => eapply wp_deref; [reflexivity|]
  end; wp_pure.
