(* ===== verification/Prcm.v ===== *)
(** * Register access of the CM and PRM modules, and the module ready loops

    mach-omap2/cm2xxx_3xxx.c, prm2xxx_3xxx.c, cm81xx.c, prcm.c, and the polling
    macro [omap_test_timeout] of plat-omap/include/plat/common.h. *)

From S2P Require Import Prelude Platform.

Definition OMAP2_CM_CLKSTCTRL : Z := 0x48.
Definition OMAP24XX_CLKSTCTRL_DISABLE_AUTO : Z := 0.
Definition OMAP24XX_CLKSTCTRL_ENABLE_AUTO : Z := 1.
Definition OMAP34XX_CLKSTCTRL_DISABLE_AUTO : Z := 0.
Definition OMAP34XX_CLKSTCTRL_FORCE_SLEEP : Z := 1.
Definition OMAP34XX_CLKSTCTRL_FORCE_WAKEUP : Z := 2.
Definition OMAP34XX_CLKSTCTRL_ENABLE_AUTO : Z := 3.
Definition MAX_MODULE_ENABLE_WAIT : Z := 100000.
Definition MAX_MODULE_READY_TIME : Z := 2000.
Definition TI81XX_IDLEST_MASK : Z := Z.shiftl 3 16.

Section Prcm.
  Context `{SOC : Soc} `{HW : Hardware}.

(** ** cm2xxx_3xxx.c *)

Definition omap2_cm_read_mod_reg (module idx : Z) : M world Z :=
  __raw_readl (cm_base + module + idx).

Definition omap2_cm_write_mod_reg (val module idx : Z) : M world unit :=
  __raw_writel val (cm_base + module + idx).

Definition omap2_cm_rmw_mod_reg_bits (mask bits module idx : Z) : M world Z :=
  v ← omap2_cm_read_mod_reg module idx;
  let v := Z.lor (Z.land v (Z.lnot mask)) bits in
  omap2_cm_write_mod_reg v module idx;;
  ret v.

Definition omap2_cm_set_mod_reg_bits (bits module idx : Z) : M world Z :=
  omap2_cm_rmw_mod_reg_bits bits bits module idx.

Definition omap2_cm_clear_mod_reg_bits (bits module idx : Z) : M world Z :=
  omap2_cm_rmw_mod_reg_bits bits 0 module idx.

Definition _write_clktrctrl (c module mask : Z) : M world unit :=
  v ← omap2_cm_read_mod_reg module OMAP2_CM_CLKSTCTRL;
  omap2_cm_write_mod_reg (field_set mask c v) module OMAP2_CM_CLKSTCTRL.

Definition _ti81xx_write_clktrctrl (c module idx mask : Z) : M world unit :=
  v ← omap2_cm_read_mod_reg module idx;
  omap2_cm_write_mod_reg (field_set mask c v) module idx.

Definition omap2_cm_is_clkdm_in_hwsup (module mask : Z) : M world bool :=
  if negb cpu_is_omap24xx && negb cpu_is_omap34xx then fail Bug else
  v ← omap2_cm_read_mod_reg module OMAP2_CM_CLKSTCTRL;
  let v := field_get mask v in
  if cpu_is_omap24xx then ret (v =? OMAP24XX_CLKSTCTRL_ENABLE_AUTO)
  else ret (v =? OMAP34XX_CLKSTCTRL_ENABLE_AUTO).

Definition omap2xxx_cm_clkdm_enable_hwsup (module mask : Z) : M world unit :=
  _write_clktrctrl OMAP24XX_CLKSTCTRL_ENABLE_AUTO module mask.

Definition omap2xxx_cm_clkdm_disable_hwsup (module mask : Z) : M world unit :=
  _write_clktrctrl OMAP24XX_CLKSTCTRL_DISABLE_AUTO module mask.

Definition omap3xxx_cm_clkdm_enable_hwsup (module mask : Z) : M world unit :=
  _write_clktrctrl OMAP34XX_CLKSTCTRL_ENABLE_AUTO module mask.

Definition omap3xxx_cm_clkdm_disable_hwsup (module mask : Z) : M world unit :=
  _write_clktrctrl OMAP34XX_CLKSTCTRL_DISABLE_AUTO module mask.

Definition omap3xxx_cm_clkdm_force_sleep (module mask : Z) : M world unit :=
  _write_clktrctrl OMAP34XX_CLKSTCTRL_FORCE_SLEEP module mask.

Definition omap3xxx_cm_clkdm_force_wakeup (module mask : Z) : M world unit :=
  _write_clktrctrl OMAP34XX_CLKSTCTRL_FORCE_WAKEUP module mask.

Definition ti81xx_cm_clkdm_enable_hwsup (inst clkdm mask : Z) : M world unit :=
  _ti81xx_write_clktrctrl OMAP34XX_CLKSTCTRL_ENABLE_AUTO inst clkdm mask.

Definition ti81xx_cm_clkdm_disable_hwsup (inst clkdm mask : Z) : M world unit :=
  _ti81xx_write_clktrctrl OMAP34XX_CLKSTCTRL_DISABLE_AUTO inst clkdm mask.

Definition ti81xx_cm_clkdm_force_sleep (inst clkdm mask : Z) : M world unit :=
  _ti81xx_write_clktrctrl OMAP34XX_CLKSTCTRL_FORCE_SLEEP inst clkdm mask.

Definition ti81xx_cm_clkdm_force_wakeup (inst clkdm mask : Z) : M world unit :=
  _ti81xx_write_clktrctrl OMAP34XX_CLKSTCTRL_FORCE_WAKEUP inst clkdm mask.

(** ** prm2xxx_3xxx.c *)

Definition omap2_prm_read_mod_reg (module idx : Z) : M world Z :=
  __raw_readl (prm_base + module + idx).

Definition omap2_prm_write_mod_reg (val module idx : Z) : M world unit :=
  __raw_writel val (prm_base + module + idx).

Definition omap2_prm_rmw_mod_reg_bits (mask bits module idx : Z) : M world Z :=
  v ← omap2_prm_read_mod_reg module idx;
  let v := Z.lor (Z.land v (Z.lnot mask)) bits in
  omap2_prm_write_mod_reg v module idx;;
  ret v.

Definition omap2_prm_read_mod_bits_shift (domain idx mask : Z) : M world Z :=
  v ← omap2_prm_read_mod_reg domain idx;
  ret (field_get mask v).

Definition omap2_prm_set_mod_reg_bits (bits module idx : Z) : M world Z :=
  omap2_prm_rmw_mod_reg_bits bits bits module idx.

Definition omap2_prm_clear_mod_reg_bits (bits module idx : Z) : M world Z :=
  omap2_prm_rmw_mod_reg_bits bits 0 module idx.

(** ** Polling *)

Fixpoint test_loop (cond : M world bool) (n : nat) (index : Z) : M world Z :=
  match n with
  | O => ret index
  | S n' =>
      b ← cond;
      if b then ret index else udelay 1;; test_loop cond n' (index + 1)
  end.

(** [omap_test_timeout(cond, timeout, index)] gives the final [index]. *)
Definition omap_test_timeout (cond : M world bool) (timeout : Z) : M world Z :=
  test_loop cond (Z.to_nat timeout) 0.

(** prcm.c; the name argument is only printed. *)
Definition omap2_cm_wait_idlest (reg mask idlest : Z) : M world Z :=
  let ena := if negb (idlest =? 0) then 0 else mask in
  i ← omap_test_timeout (v ← __raw_readl reg; ret (Z.land v mask =? ena))
        MAX_MODULE_ENABLE_WAIT;
  ret (if i <? MAX_MODULE_ENABLE_WAIT then 1 else 0).

(** cm81xx.c *)
Definition ti81xx_cm_wait_module_ready (clkctrl_reg : Z) : M world Z :=
  if clkctrl_reg =? 0 then ret 0 else
  i ← omap_test_timeout
        (v ← __raw_readl clkctrl_reg; ret (Z.land v TI81XX_IDLEST_MASK =? 0))
        MAX_MODULE_READY_TIME;
  ret (if i <? MAX_MODULE_READY_TIME then 0 else - EBUSY).

(** ** Theorems *)

(** The bus history after [k] unsuccessful polls of register [a]. *)
Fixpoint polled (a : Z) (k : nat) (h : list io_event) : list io_event :=
  match k with
  | O => h
  | S k' => polled a k' (IoDelay 1000 :: IoRead a (u32 (hw_read h a)) :: h)
  end.

(** Whether the [k]-th poll of [a] finds what [ok] looks for. *)
Definition poll_ok (a : Z) (ok : Z -> bool) (h : list io_event) (k : nat) : bool :=
  ok (u32 (hw_read (polled a k h) a)).

Lemma test_loop_spec a ok n i w :
  wp (test_loop (v ← __raw_readl a; ret (ok v)) n i)
     (fun r w' => exists k : nat,
        (k <= n)%nat /\ r = i + Z.of_nat k /\
        (forall j, (j < k)%nat -> poll_ok a ok (w_trace w) j = false) /\
        ((k < n)%nat ->
           poll_ok a ok (w_trace w) k = true /\
           w' = set_w_trace (IoRead a (u32 (hw_read (polled a k (w_trace w)) a))
                               :: polled a k (w_trace w)) w) /\
        (k = n -> w' = set_w_trace (polled a k (w_trace w)) w)) w.
Proof.
  revert i w. induction n as [|n IH]; intros i w; cbn [test_loop].
  - apply wp_ret. exists O. split_and!; [lia | lia | lia | lia | done].
  - wp_step. destruct (ok (regval w a)) eqn:Ok; cbn beta iota.
    + apply wp_ret. exists O. split_and!; [lia | lia | lia | | lia].
      intros _. done.
    + wp_step. eapply wp_mono; [apply IH|]. cbn beta.
      intros r w' (k & Hk & -> & Hno & Hyes & Hend). exists (S k).
      split_and!; [lia | lia | | | ].
      * intros [|j] Hj; [exact Ok | apply (Hno j); lia].
      * intros Hlt. apply Hyes. lia.
      * intros [= ->]. by apply Hend.
Qed.

Lemma polled_quiet a k h : exists l, forallb quiet l = true /\ polled a k h = l ++ h.
Proof.
  revert h. induction k as [|k IH]; intros h; [by exists []|]. cbn [polled].
  destruct (IH (IoDelay 1000 :: IoRead a (u32 (hw_read h a)) :: h)) as (l & Hl & ->).
  exists (l ++ [IoDelay 1000; IoRead a (u32 (hw_read h a))]).
  rewrite forallb_app, Hl, <- app_assoc. done.
Qed.

(** The value a polling loop of [timeout] turns leaves in [index], from what the
    device answers. *)
Definition first_ok (a : Z) (ok : Z -> bool) (timeout : Z) (h : list io_event) (r : Z) : Prop :=
  0 <= r <= timeout /\
  (forall j : nat, Z.of_nat j < r -> poll_ok a ok h j = false) /\
  (r < timeout -> poll_ok a ok h (Z.to_nat r) = true).

(** The loop ends at the first poll that succeeds, or after [timeout] of them;
    nothing but the bus history changes. *)
Lemma omap_test_timeout_spec a ok timeout w :
  0 <= timeout ->
  wp (omap_test_timeout (v ← __raw_readl a; ret (ok v)) timeout)
     (fun r w' => first_ok a ok timeout (w_trace w) r /\
                  io_reads w w') w.
Proof.
  intros Ht. eapply wp_mono; [apply test_loop_spec|]. cbn beta.
  intros r w' (k & Hk & -> & Hno & Hyes & Hend).
  split.
  - split_and!; [lia | lia | intros j Hj; apply Hno; lia |].
    intros Hlt. rewrite Z.add_0_l, Nat2Z.id. apply Hyes. lia.
  - destruct (polled_quiet a k (w_trace w)) as (l & Hl & Ep).
    destruct (decide (k = Z.to_nat timeout)) as [E|E].
    + rewrite (Hend E), Ep. by exists l.
    + destruct (Hyes ltac:(lia)) as [_ ->]. rewrite Ep.
      match goal with |- context [IoRead a ?v :: _] => exists (IoRead a v :: l) end.
      done.
Qed.

(** Ready in time: some poll among the first [timeout] succeeds. *)
Definition ready_within (a : Z) (ok : Z -> bool) (timeout : Z) (h : list io_event) : Prop :=
  exists k : nat, Z.of_nat k < timeout /\ poll_ok a ok h k = true.

Lemma first_ok_ready a ok timeout h r :
  first_ok a ok timeout h r -> (r < timeout <-> ready_within a ok timeout h).
Proof.
  intros (Hr & Hno & Hyes). split.
  - intros Hlt. exists (Z.to_nat r). split; [lia | auto].
  - intros (k & Hk & Hok). destruct (Z.lt_ge_cases r timeout); [done|].
    rewrite Hno in Hok by lia. done.
Qed.

(** A module is reported ready exactly when one of the polls saw it functional;
    the failure code is -EBUSY and no other state changes. *)
Lemma ti81xx_cm_wait_module_ready_spec reg w :
  reg <> 0 ->
  wp (ti81xx_cm_wait_module_ready reg)
     (fun r w' =>
        (r = 0 /\ ready_within reg (fun v => Z.land v TI81XX_IDLEST_MASK =? 0)
                    MAX_MODULE_READY_TIME (w_trace w) \/
         r = - EBUSY /\ ~ ready_within reg (fun v => Z.land v TI81XX_IDLEST_MASK =? 0)
                    MAX_MODULE_READY_TIME (w_trace w)) /\
        io_reads w w') w.
Proof.
  intros Hr. unfold ti81xx_cm_wait_module_ready.
  rewrite (proj2 (Z.eqb_neq reg 0) Hr). wp_pure.
  eapply wp_mono; [apply omap_test_timeout_spec; done|]. cbn beta.
  intros i w' [Hf Hw]. wp_pure. split; [|done].
  apply first_ok_ready in Hf as Hi.
  destruct (Z.ltb_spec i MAX_MODULE_READY_TIME) as [Hlt|Hge]; [left | right].
  - split; [done | by apply Hi].
  - split; [done | intros Hx; apply Hi in Hx; lia].
Qed.

Lemma omap2_cm_wait_idlest_spec reg mask idlest w :
  let ok v := Z.land v mask =? (if negb (idlest =? 0) then 0 else mask) in
  wp (omap2_cm_wait_idlest reg mask idlest)
     (fun r w' =>
        (r = 1 /\ ready_within reg ok MAX_MODULE_ENABLE_WAIT (w_trace w) \/
         r = 0 /\ ~ ready_within reg ok MAX_MODULE_ENABLE_WAIT (w_trace w)) /\
        io_reads w w') w.
Proof.
  intros ok. unfold omap2_cm_wait_idlest. wp_pure.
  eapply wp_mono; [apply (omap_test_timeout_spec _ ok); done|]. cbn beta.
  intros i w' [Hf Hw]. wp_pure. split; [|done].
  apply first_ok_ready in Hf as Hi.
  destruct (Z.ltb_spec i MAX_MODULE_ENABLE_WAIT) as [Hlt|Hge]; [left | right].
  - split; [done | by apply Hi].
  - split; [done | intros Hx; apply Hi in Hx; lia].
Qed.

End Prcm.
