(* ===== verification/Powerdomain.v ===== *)
(** * Powerdomains

    mach-omap2/powerdomain.c, the TI81xx operations of
    powerdomain2xxx_3xxx.c, and [pm_dbg_update_time] of pm-debug.c.

    [arch_pwrdm], the pointer to the operations of the chip, is the argument
    [arch]; the operations are a record of optional functions as in
    powerdomain.h.  [PwrdmArchLaws] is what the generic code relies on; the
    theorems about the counters are proved from it and [ti81xx_pwrdm_laws]
    discharges it for the DM8148. *)

From S2P Require Import Prelude Platform Prcm.

Definition PWRDM_POWER_OFF : Z := 0.
Definition PWRDM_POWER_RET : Z := 1.
Definition PWRDM_POWER_INACTIVE : Z := 2.
Definition PWRDM_POWER_ON : Z := 3.
Definition PWRDM_MAX_PWRSTS : Z := 4.
Definition PWRSTS_OFF_RET : Z :=
  Z.lor (Z.shiftl 1 PWRDM_POWER_OFF) (Z.shiftl 1 PWRDM_POWER_RET).
Definition PWRDM_HAS_HDWR_SAR : Z := 1.
Definition PWRDM_HAS_MPU_QUIRK : Z := 2.
Definition PWRDM_HAS_LOWPOWERSTATECHANGE : Z := 4.
Definition PWRDM_MAX_CLKDMS : Z := 12.
Definition PWRDM_TRANSITION_BAILOUT : Z := 100000.
Definition PWRDM_STATE_NOW : Z := 0.
Definition PWRDM_STATE_PREV : Z := 1.
Definition OMAP_POWERSTATE_SHIFT : Z := 0.
Definition OMAP_POWERSTATE_MASK : Z := 3.
Definition OMAP_POWERSTATEST_MASK : Z := 3.
Definition OMAP3430_LOGICSTATEST_MASK : Z := 4.
Definition OMAP_INTRANSITION_MASK : Z := Z.shiftl 1 20.
Definition TI81XX_PM_PWSTCTRL : Z := 0.
Definition TI81XX_PM_PWSTST : Z := 4.
Definition TI81XX_RM_RSTCTRL : Z := 0x10.
Definition TI814X_PRM_GFX_MOD : Z := 0xf00.

(** struct pwrdm_ops *)
Record pwrdm_ops := {
  op_set_next_pwrst : option (string -> Z -> M world Z);
  op_read_next_pwrst : option (string -> M world Z);
  op_read_pwrst : option (string -> M world Z);
  op_read_prev_pwrst : option (string -> M world Z);
  op_set_logic_retst : option (string -> Z -> M world Z);
  op_set_mem_onst : option (string -> Z -> Z -> M world Z);
  op_set_mem_retst : option (string -> Z -> Z -> M world Z);
  op_read_logic_pwrst : option (string -> M world Z);
  op_read_prev_logic_pwrst : option (string -> M world Z);
  op_read_logic_retst : option (string -> M world Z);
  op_read_mem_pwrst : option (string -> Z -> M world Z);
  op_read_prev_mem_pwrst : option (string -> Z -> M world Z);
  op_read_mem_retst : option (string -> Z -> M world Z);
  op_clear_all_prev_pwrst : option (string -> M world Z);
  op_enable_hdwr_sar : option (string -> M world Z);
  op_disable_hdwr_sar : option (string -> M world Z);
  op_set_lowpwrstchange : option (string -> M world Z);
  op_wait_transition : option (string -> M world Z)
}.

(** ** The TI81xx operations (powerdomain2xxx_3xxx.c) *)

Section Ti81xx.
  Context `{SOC : Soc} `{HW : Hardware}.

Definition ti81xx_pwrdm_set_next_pwrst (pwrdm : string) (pwrst : Z) : M world Z :=
  p ← get_pwrdm pwrdm;
  omap2_prm_rmw_mod_reg_bits OMAP_POWERSTATE_MASK (lsl pwrst OMAP_POWERSTATE_SHIFT)
    (pd_prcm_offs p) TI81XX_PM_PWSTCTRL;;
  ret 0.

Definition ti81xx_pwrdm_read_next_pwrst (pwrdm : string) : M world Z :=
  p ← get_pwrdm pwrdm;
  v ← omap2_prm_read_mod_bits_shift (pd_prcm_offs p) TI81XX_PM_PWSTCTRL
        OMAP_POWERSTATE_MASK;
  ret (s32 v).

(** The offset of the status register: the GFX domain has it elsewhere. *)
Definition pwstst_offs (p : powerdomain) : Z :=
  if pd_prcm_offs p =? TI814X_PRM_GFX_MOD then TI81XX_RM_RSTCTRL else TI81XX_PM_PWSTST.

Definition ti81xx_pwrdm_read_pwrst (pwrdm : string) : M world Z :=
  p ← get_pwrdm pwrdm;
  v ← omap2_prm_read_mod_bits_shift (pd_prcm_offs p) (pwstst_offs p)
        OMAP_POWERSTATEST_MASK;
  ret (s32 v).

Definition ti81xx_pwrdm_read_logic_pwrst (pwrdm : string) : M world Z :=
  p ← get_pwrdm pwrdm;
  v ← omap2_prm_read_mod_bits_shift (pd_prcm_offs p) (pwstst_offs p)
        OMAP3430_LOGICSTATEST_MASK;
  ret (s32 v).

(** The [while] loop; [n] bounds the turns and [c] is the code's counter. *)
Fixpoint wait_transition_loop (offs idx : Z) (n : nat) (c : Z) : M world Z :=
  match n with
  | O => fail NoFuel
  | S n' =>
      v ← omap2_prm_read_mod_reg offs idx;
      if Z.land v OMAP_INTRANSITION_MASK =? 0 then ret c
      else if c <? PWRDM_TRANSITION_BAILOUT
           then udelay 1;; wait_transition_loop offs idx n' (u32 (c + 1))
           else ret (u32 (c + 1))
  end.

Definition ti81xx_pwrdm_wait_transition (pwrdm : string) : M world Z :=
  p ← get_pwrdm pwrdm;
  c ← wait_transition_loop (pd_prcm_offs p) (pwstst_offs p)
        (Z.to_nat (PWRDM_TRANSITION_BAILOUT + 1)) 0;
  ret (if PWRDM_TRANSITION_BAILOUT <? c then - EAGAIN else 0).

Definition ti81xx_pwrdm_operations : pwrdm_ops := {|
  op_set_next_pwrst := Some ti81xx_pwrdm_set_next_pwrst;
  op_read_next_pwrst := Some ti81xx_pwrdm_read_next_pwrst;
  op_read_pwrst := Some ti81xx_pwrdm_read_pwrst;
  op_read_prev_pwrst := None;
  op_set_logic_retst := None;
  op_set_mem_onst := None;
  op_set_mem_retst := None;
  op_read_logic_pwrst := Some ti81xx_pwrdm_read_logic_pwrst;
  op_read_prev_logic_pwrst := None;
  op_read_logic_retst := None;
  op_read_mem_pwrst := None;
  op_read_prev_mem_pwrst := None;
  op_read_mem_retst := None;
  op_clear_all_prev_pwrst := None;
  op_enable_hdwr_sar := None;
  op_disable_hdwr_sar := None;
  op_set_lowpwrstchange := None;
  op_wait_transition := Some ti81xx_pwrdm_wait_transition
|}.
End Ti81xx.

(** ** powerdomain.c *)

(** id.c *)
Definition omap_chip_is (oc : Z) : M world bool :=
  gets (fun w => negb (Z.land oc (w_omap_chip w) =? 0)).

(** Walks a list of powerdomains for a name. *)
Fixpoint pwrdm_find (name : string) (l : list string) : M world (option string) :=
  match l with
  | [] => ret None
  | t :: l' =>
      p ← get_pwrdm t;
      if String.eqb name (pd_name p) then ret (Some t) else pwrdm_find name l'
  end.

Definition _pwrdm_lookup (name : string) : M world (option string) :=
  l ← gets (fun w => w_pwrdm_list w); pwrdm_find name l.

Section Generic.
  Context `{SOC : Soc} `{HW : Hardware}.
  Variable arch : option pwrdm_ops.

(** [arch_pwrdm && arch_pwrdm->op] *)
Definition arch_op {F} (sel : pwrdm_ops -> option F) : option F :=
  match arch with Some ops => sel ops | None => None end.

(** The getters and setters that only check for NULL before they delegate. *)
Definition delegate (pwrdm : option string)
    (sel : pwrdm_ops -> option (string -> M world Z)) : M world Z :=
  match pwrdm with
  | None => ret (- EINVAL)
  | Some p => match arch_op sel with Some op => op p | None => ret (- EINVAL) end
  end.

Definition pwrdm_read_next_pwrst (pwrdm : option string) : M world Z :=
  delegate pwrdm op_read_next_pwrst.
Definition pwrdm_read_pwrst (pwrdm : option string) : M world Z :=
  delegate pwrdm op_read_pwrst.
Definition pwrdm_read_prev_pwrst (pwrdm : option string) : M world Z :=
  delegate pwrdm op_read_prev_pwrst.
Definition pwrdm_read_logic_pwrst (pwrdm : option string) : M world Z :=
  delegate pwrdm op_read_logic_pwrst.
Definition pwrdm_read_prev_logic_pwrst (pwrdm : option string) : M world Z :=
  delegate pwrdm op_read_prev_logic_pwrst.
Definition pwrdm_read_logic_retst (pwrdm : option string) : M world Z :=
  delegate pwrdm op_read_logic_retst.
Definition pwrdm_clear_all_prev_pwrst (pwrdm : option string) : M world Z :=
  delegate pwrdm op_clear_all_prev_pwrst.
Definition pwrdm_wait_transition (pwrdm : option string) : M world Z :=
  delegate pwrdm op_wait_transition.

(** [states & (1 << pwrst)] *)
Definition state_in (states pwrst : Z) : bool := negb (Z.land states (lsl 1 pwrst) =? 0).

Definition pwrdm_set_next_pwrst (pwrdm : option string) (pwrst : Z) : M world Z :=
  match pwrdm with
  | None => ret (- EINVAL)
  | Some p =>
      d ← get_pwrdm p;
      if negb (state_in (pd_pwrsts d) pwrst) then ret (- EINVAL) else
      match arch_op op_set_next_pwrst with
      | Some op => op p pwrst
      | None => ret (- EINVAL)
      end
  end.

Definition pwrdm_set_logic_retst (pwrdm : option string) (pwrst : Z) : M world Z :=
  match pwrdm with
  | None => ret (- EINVAL)
  | Some p =>
      d ← get_pwrdm p;
      if negb (state_in (pd_pwrsts_logic_ret d) pwrst) then ret (- EINVAL) else
      match arch_op op_set_logic_retst with
      | Some op => op p pwrst
      | None => ret (- EINVAL)
      end
  end.

Definition pwrdm_set_mem_onst (pwrdm : option string) (bank pwrst : Z) : M world Z :=
  match pwrdm with
  | None => ret (- EINVAL)
  | Some p =>
      d ← get_pwrdm p;
      if pd_banks d <? bank + 1 then ret (- EEXIST) else
      sts ← aget (pd_pwrsts_mem_on d) bank;
      if negb (state_in sts pwrst) then ret (- EINVAL) else
      match arch_op op_set_mem_onst with
      | Some op => op p bank pwrst
      | None => ret (- EINVAL)
      end
  end.

Definition pwrdm_set_mem_retst (pwrdm : option string) (bank pwrst : Z) : M world Z :=
  match pwrdm with
  | None => ret (- EINVAL)
  | Some p =>
      d ← get_pwrdm p;
      if pd_banks d <? bank + 1 then ret (- EEXIST) else
      sts ← aget (pd_pwrsts_mem_ret d) bank;
      if negb (state_in sts pwrst) then ret (- EINVAL) else
      match arch_op op_set_mem_retst with
      | Some op => op p bank pwrst
      | None => ret (- EINVAL)
      end
  end.

(** The bank readers; [quirk] for the two that redirect the MPU's bank 0. *)
Definition read_mem (quirk : bool) (pwrdm : option string) (bank : Z)
    (sel : pwrdm_ops -> option (string -> Z -> M world Z)) : M world Z :=
  match pwrdm with
  | None => ret (- EINVAL)
  | Some p =>
      d ← get_pwrdm p;
      if pd_banks d <? bank + 1 then ret (- EINVAL) else
      let bank := if quirk && negb (Z.land (pd_flags d) PWRDM_HAS_MPU_QUIRK =? 0)
                  then 1 else bank in
      match arch_op sel with
      | Some op => op p bank
      | None => ret (- EINVAL)
      end
  end.

Definition pwrdm_read_mem_pwrst (pwrdm : option string) (bank : Z) : M world Z :=
  read_mem true pwrdm bank op_read_mem_pwrst.
Definition pwrdm_read_prev_mem_pwrst (pwrdm : option string) (bank : Z) : M world Z :=
  read_mem true pwrdm bank op_read_prev_mem_pwrst.
Definition pwrdm_read_mem_retst (pwrdm : option string) (bank : Z) : M world Z :=
  read_mem false pwrdm bank op_read_mem_retst.

(** Operations guarded by a capability flag of the powerdomain. *)
Definition flag_guarded (pwrdm : option string) (flag : Z)
    (sel : pwrdm_ops -> option (string -> M world Z)) : M world Z :=
  match pwrdm with
  | None => ret (- EINVAL)
  | Some p =>
      d ← get_pwrdm p;
      if Z.land (pd_flags d) flag =? 0 then ret (- EINVAL) else
      match arch_op sel with Some op => op p | None => ret (- EINVAL) end
  end.

Definition pwrdm_enable_hdwr_sar (pwrdm : option string) : M world Z :=
  flag_guarded pwrdm PWRDM_HAS_HDWR_SAR op_enable_hdwr_sar.
Definition pwrdm_disable_hdwr_sar (pwrdm : option string) : M world Z :=
  flag_guarded pwrdm PWRDM_HAS_HDWR_SAR op_disable_hdwr_sar.
Definition pwrdm_set_lowpwrstchange (pwrdm : option string) : M world Z :=
  flag_guarded pwrdm PWRDM_HAS_LOWPOWERSTATECHANGE op_set_lowpwrstchange.

Definition pwrdm_has_hdwr_sar (pwrdm : option string) : M world bool :=
  match pwrdm with
  | None => ret false
  | Some p => d ← get_pwrdm p; ret (negb (Z.land (pd_flags d) PWRDM_HAS_HDWR_SAR =? 0))
  end.

(** pm-debug.c *)
Definition pm_dbg_update_time (pwrdm : string) (prev : Z) : M world unit :=
  init_done ← gets (fun w => w_pm_dbg_init_done w);
  if negb init_done then ret tt else
  t ← sched_clock;
  d ← get_pwrdm pwrdm;
  old ← aget (pd_state_timer d) prev;
  timers ← aset (pd_state_timer d) prev (wraps 64 (old + (t - pd_timer d)));
  upd_pwrdm pwrdm (set_pd_state_timer timers);;
  upd_pwrdm pwrdm (set_pd_timer (wraps 64 t)).

(** [pwrdm->state_counter[i]++] *)
Definition bump_state_counter (pwrdm : string) (i : Z) : M world unit :=
  d ← get_pwrdm pwrdm;
  old ← aget (pd_state_counter d) i;
  l ← aset (pd_state_counter d) i (u32 (old + 1));
  upd_pwrdm pwrdm (set_pd_state_counter l).

Definition _update_logic_membank_counters (pwrdm : string) : M world unit :=
  r ← pwrdm_read_prev_logic_pwrst (Some pwrdm);
  let prev_logic_pwrst := u8 r in
  d ← get_pwrdm pwrdm;
  when ((pd_pwrsts_logic_ret d =? PWRSTS_OFF_RET) && (prev_logic_pwrst =? PWRDM_POWER_OFF))
    (upd_pwrdm pwrdm (fun d =>
       set_pd_ret_logic_off_counter (u32 (pd_ret_logic_off_counter d + 1)) d));;
  for_each (seqZ 0 (pd_banks d)) (fun i =>
    r ← pwrdm_read_prev_mem_pwrst (Some pwrdm) i;
    d ← get_pwrdm pwrdm;
    sts ← aget (pd_pwrsts_mem_ret d) i;
    when ((sts =? PWRSTS_OFF_RET) && (u8 r =? PWRDM_POWER_OFF))
      (old ← aget (pd_ret_mem_off_counter d) i;
       l ← aset (pd_ret_mem_off_counter d) i (u32 (old + 1));
       upd_pwrdm pwrdm (set_pd_ret_mem_off_counter l))).

Definition _pwrdm_state_switch (pwrdm : option string) (flag : Z) : M world Z :=
  match pwrdm with
  | None => ret (- EINVAL)
  | Some p =>
      state ← pwrdm_read_pwrst (Some p);
      prev ← (if flag =? PWRDM_STATE_NOW then
                d ← get_pwrdm p; ret (Some (pd_state d))
              else if flag =? PWRDM_STATE_PREV then
                prev ← pwrdm_read_prev_pwrst (Some p);
                d ← get_pwrdm p;
                when (negb (pd_state d =? prev)) (bump_state_counter p prev);;
                when (prev =? PWRDM_POWER_RET) (_update_logic_membank_counters p);;
                ret (Some prev)
              else ret None);
      match prev with
      | None => ret (- EINVAL)
      | Some prev =>
          when (negb (state =? prev)) (bump_state_counter p state);;
          pm_dbg_update_time p prev;;
          upd_pwrdm p (set_pd_state state);;
          ret 0
      end
  end.

Definition _pwrdm_pre_transition_cb (pwrdm : string) : M world Z :=
  pwrdm_clear_all_prev_pwrst (Some pwrdm);;
  _pwrdm_state_switch (Some pwrdm) PWRDM_STATE_NOW;;
  ret 0.

Definition _pwrdm_post_transition_cb (pwrdm : string) : M world Z :=
  _pwrdm_state_switch (Some pwrdm) PWRDM_STATE_PREV;;
  ret 0.

Definition _pwrdm_register (pwrdm : option string) : M world Z :=
  match pwrdm with
  | None => ret (- EINVAL)
  | Some p =>
      d ← get_pwrdm p;
      match_chip ← omap_chip_is (pd_omap_chip d);
      if negb match_chip then ret (- EINVAL) else
      other ← _pwrdm_lookup (pd_name d);
      match other with
      | Some _ => ret (- EEXIST)
      | None =>
          modify (fun w => set_w_pwrdm_list (p :: w_pwrdm_list w) w);;
          for_each (seqZ 0 PWRDM_MAX_PWRSTS) (fun i =>
            d ← get_pwrdm p;
            l ← aset (pd_state_counter d) i 0;
            upd_pwrdm p (set_pd_state_counter l));;
          upd_pwrdm p (set_pd_ret_logic_off_counter 0);;
          for_each (seqZ 0 (pd_banks d)) (fun i =>
            d ← get_pwrdm p;
            l ← aset (pd_ret_mem_off_counter d) i 0;
            upd_pwrdm p (set_pd_ret_mem_off_counter l));;
          pwrdm_wait_transition (Some p);;
          st ← pwrdm_read_pwrst (Some p);
          upd_pwrdm p (set_pd_state st);;
          d ← get_pwrdm p;
          l ← aset (pd_state_counter d) (pd_state d) 1;
          upd_pwrdm p (set_pd_state_counter l);;
          ret 0
      end
  end.

Definition pwrdm_lookup (name : option string) : M world (option string) :=
  match name with None => ret None | Some n => _pwrdm_lookup n end.

(** The iterator stops at the first callback that does not return 0. *)
Fixpoint walk_pwrdms (fn : string -> M world Z) (l : list string) (r : Z) : M world Z :=
  match l with
  | [] => ret r
  | t :: l' => r ← fn t; if negb (r =? 0) then ret r else walk_pwrdms fn l' r
  end.

Definition pwrdm_for_each (fn : option (string -> M world Z)) : M world Z :=
  match fn with
  | None => ret (- EINVAL)
  | Some fn => l ← gets (fun w => w_pwrdm_list w); walk_pwrdms fn l 0
  end.

(** The first slot of [pwrdm_clkdms] that holds [x]; the length if none does. *)
Fixpoint find_slot (x : option string) (l : list (option string)) : Z :=
  match l with
  | [] => 0
  | y :: l' => if decide (x = y) then 0 else 1 + find_slot x l'
  end.

Definition pwrdm_add_clkdm (pwrdm clkdm : option string) : M world Z :=
  match pwrdm, clkdm with
  | Some p, Some c =>
      d ← get_pwrdm p;
      let i := find_slot None (pd_clkdms d) in
      if i =? PWRDM_MAX_CLKDMS then ret (- ENOMEM) else
      l ← aset (pd_clkdms d) i (Some c);
      upd_pwrdm p (set_pd_clkdms l);;
      ret 0
  | _, _ => ret (- EINVAL)
  end.

Definition pwrdm_del_clkdm (pwrdm clkdm : option string) : M world Z :=
  match pwrdm, clkdm with
  | Some p, Some c =>
      d ← get_pwrdm p;
      let i := find_slot (Some c) (pd_clkdms d) in
      if i =? PWRDM_MAX_CLKDMS then ret (- ENOENT) else
      l ← aset (pd_clkdms d) i None;
      upd_pwrdm p (set_pd_clkdms l);;
      ret 0
  | _, _ => ret (- EINVAL)
  end.

(** [pwrdm_clkdms[i]] is read again at every turn. *)
Fixpoint walk_clkdms (fn : string -> option string -> M world Z) (pwrdm : string)
    (idx : list Z) (r : Z) : M world Z :=
  match idx with
  | [] => ret r
  | i :: idx' =>
      d ← get_pwrdm pwrdm;
      c ← aget (pd_clkdms d) i;
      r ← fn pwrdm c;
      if negb (r =? 0) then ret r else walk_clkdms fn pwrdm idx' r
  end.

Definition pwrdm_for_each_clkdm (pwrdm : string)
    (fn : option (string -> option string -> M world Z)) : M world Z :=
  match fn with
  | None => ret (- EINVAL)
  | Some fn => walk_clkdms fn pwrdm (seqZ 0 PWRDM_MAX_CLKDMS) 0
  end.

Definition pwrdm_get_mem_bank_count (pwrdm : option string) : M world Z :=
  match pwrdm with
  | None => ret (- EINVAL)
  | Some p => d ← get_pwrdm p; ret (pd_banks d)
  end.

Definition pwrdm_state_switch (pwrdm : option string) : M world Z :=
  _pwrdm_state_switch pwrdm PWRDM_STATE_NOW.

(** The [pwrdm] union of the clockdomain holds a pointer once it is registered. *)
Definition pwrdm_clkdm_state_switch (clkdm : option string) : M world Z :=
  match clkdm with
  | None => ret (- EINVAL)
  | Some c =>
      d ← get_clkdm c;
      match cd_pwrdm d with
      | PwrdmPtr p =>
          pwrdm_wait_transition (Some p);;
          pwrdm_state_switch (Some p)
      | PwrdmName _ => fail NullDeref
      end
  end.

Definition pwrdm_pre_transition : M world Z :=
  pwrdm_for_each (Some _pwrdm_pre_transition_cb);; ret 0.

Definition pwrdm_post_transition : M world Z :=
  pwrdm_for_each (Some _pwrdm_post_transition_cb);; ret 0.

Fixpoint sum_counters (l : list Z) (idx : list Z) (count : Z) : M world Z :=
  match idx with
  | [] => ret count
  | i :: idx' => x ← aget l i; sum_counters l idx' (s32 (count + x))
  end.

Definition pwrdm_get_context_loss_count (pwrdm : option string) : M world Z :=
  match pwrdm with
  | None => ret 0
  | Some p =>
      d ← get_pwrdm p;
      off ← aget (pd_state_counter d) PWRDM_POWER_OFF;
      count ← sum_counters (pd_ret_mem_off_counter d) (seqZ 0 (pd_banks d))
                (s32 (s32 off + pd_ret_logic_off_counter d));
      ret (u32 count)
  end.

End Generic.

(** [pwrdm_init] installs the operations of the chip, then registers the array;
    the result is the new value of [arch_pwrdm]. *)
Definition pwrdm_init `{SOC : Soc} `{HW : Hardware} (arch : option pwrdm_ops)
    (pwrdms : option (list string)) (custom_funcs : option pwrdm_ops)
    : M world (option pwrdm_ops) :=
  let arch := match custom_funcs with None => arch | Some _ => custom_funcs end in
  match pwrdms with
  | None => ret arch
  | Some l => for_each l (fun p => _pwrdm_register arch (Some p);; ret tt);; ret arch
  end.

(** ** The TI81xx powerdomains (powerdomains81xx.h, powerdomains3xxx_data.c) *)

(** A statically initialised object: the fields without an initialiser are 0. *)
Definition static_pwrdm (name : string) (chip offs pwrsts : Z) : powerdomain :=
  mkPwrdm name chip offs pwrsts 0 0 0 (replicate 5 0) (replicate 5 0) (replicate 12 None)
    0 (replicate 4 0) 0 (replicate 5 0) 0 (replicate 4 0).

Definition alwon_81xx_pwrdm : powerdomain :=
  static_pwrdm "alwon_pwrdm" 0x7000 0x1800 0.
Definition gem_814x_pwrdm : powerdomain :=
  static_pwrdm "gem_pwrdm" 0x2000 0xa00 9.
Definition ivahd_814x_pwrdm : powerdomain :=
  static_pwrdm "ivahd_pwrdm" 0x6000 0xc00 9.
Definition hdvpss_814x_pwrdm : powerdomain :=
  static_pwrdm "hdvpss_pwrdm" 0x6000 0xe00 9.
Definition sgx_814x_pwrdm : powerdomain :=
  static_pwrdm "sgx_pwrdm" 0x2000 0xf00 9.
Definition isp_814x_pwrdm : powerdomain :=
  static_pwrdm "isp_pwrdm" 0x6000 0xd00 9.
Definition active_816x_pwrdm : powerdomain :=
  static_pwrdm "active_pwrdm" 0x1000 0xa00 9.
Definition default_816x_pwrdm : powerdomain :=
  static_pwrdm "default_pwrdm" 0x1000 0xb00 9.
Definition ivahd0_816x_pwrdm : powerdomain :=
  static_pwrdm "ivahd0_pwrdm" 0x1000 0xc00 9.
Definition ivahd1_816x_pwrdm : powerdomain :=
  static_pwrdm "ivahd1_pwrdm" 0x1000 0xd00 9.
Definition ivahd2_816x_pwrdm : powerdomain :=
  static_pwrdm "ivahd2_pwrdm" 0x1000 0xe00 9.
Definition sgx_816x_pwrdm : powerdomain :=
  static_pwrdm "sgx_pwrdm" 0x1000 0xf00 9.

Definition powerdomains_ti81xx : list string :=
  ["alwon_81xx_pwrdm"; "gem_814x_pwrdm"; "ivahd_814x_pwrdm";
   "hdvpss_814x_pwrdm"; "sgx_814x_pwrdm"; "isp_814x_pwrdm"; "active_816x_pwrdm";
   "default_816x_pwrdm"; "ivahd0_816x_pwrdm"; "ivahd1_816x_pwrdm";
   "ivahd2_816x_pwrdm"; "sgx_816x_pwrdm"].

(** The objects the array points to. *)
Definition ti81xx_pwrdm_store : gmap string powerdomain :=
  list_to_map (zip powerdomains_ti81xx
    [alwon_81xx_pwrdm; gem_814x_pwrdm; ivahd_814x_pwrdm;
     hdvpss_814x_pwrdm; sgx_814x_pwrdm; isp_814x_pwrdm; active_816x_pwrdm;
     default_816x_pwrdm; ivahd0_816x_pwrdm; ivahd1_816x_pwrdm;
     ivahd2_816x_pwrdm; sgx_816x_pwrdm]).

Definition ti81xx_powerdomains_init `{SOC : Soc} `{HW : Hardware} : M world (option pwrdm_ops) :=
  pwrdm_init None (Some powerdomains_ti81xx) (Some ti81xx_pwrdm_operations).

(** ** What the generic code relies on *)

(** Fields of a powerdomain that its counters and timers do not touch. *)
Definition same_config (d d' : powerdomain) : Prop :=
  pd_name d' = pd_name d /\ pd_prcm_offs d' = pd_prcm_offs d /\
  pd_pwrsts d' = pd_pwrsts d /\ pd_banks d' = pd_banks d /\ pd_clkdms d' = pd_clkdms d.

#[global] Instance same_config_preorder : PreOrder same_config.
Proof.
  split; unfold same_config; [done|].
  intros d1 d2 d3 (-> & -> & -> & -> & ->) (-> & -> & -> & -> & ->). done.
Qed.

(** [pwrst_seen d h] is the power state the chip reports for [d] after the bus
    history [h]; reading it or waiting for a transition touches the bus alone. *)
Class PwrdmArchLaws `{SOC : Soc} `{HW : Hardware} (arch : option pwrdm_ops) := {
  pwrst_seen : powerdomain -> list io_event -> Z;
  pwrst_seen_range d h : 0 <= pwrst_seen d h < PWRDM_MAX_PWRSTS;
  pwrst_seen_config d d' h : same_config d d' -> pwrst_seen d' h = pwrst_seen d h;
  read_pwrst_law p d w :
    w_pwrdms w !! p = Some d ->
    wp (pwrdm_read_pwrst arch (Some p))
       (fun r w' => r = pwrst_seen d (w_trace w) /\ io_reads w w') w;
  wait_transition_law p d w :
    w_pwrdms w !! p = Some d ->
    wp (pwrdm_wait_transition arch (Some p)) (fun _ w' => io_reads w w') w
}.

Section Ti81xxLaws.
  Context `{SOC : Soc} `{HW : Hardware}.

(** The address of the status register and the state it shows. *)
Definition pwstst_addr (d : powerdomain) : Z :=
  prm_base + pd_prcm_offs d + pwstst_offs d.

Definition ti81xx_pwrst_seen (d : powerdomain) (h : list io_event) : Z :=
  u32 (hw_read h (pwstst_addr d)) mod 4.

Lemma powerstate_field v : uint 32 v -> s32 (field_get 3 v) = v mod 4.
Proof.
  intros Hv. unfold field_get. change (__ffs 3) with 0.
  rewrite lsr_in, Z.shiftr_0_r by lia. change 3 with (Z.ones 2).
  rewrite Z.land_ones by lia. apply wraps_small; [lia|].
  pose proof (Z.mod_pos_bound v 4). lia.
Qed.

Lemma wait_transition_loop_spec offs idx n c w :
  c + Z.of_nat n = PWRDM_TRANSITION_BAILOUT + 1 -> 0 <= c -> (0 < n)%nat ->
  let a := prm_base + offs + idx in
  let ok v := Z.land v OMAP_INTRANSITION_MASK =? 0 in
  wp (wait_transition_loop offs idx n c)
     (fun r w' => io_reads w w' /\
        (r <= PWRDM_TRANSITION_BAILOUT /\ ready_within a ok (Z.of_nat n) (w_trace w) \/
         r = PWRDM_TRANSITION_BAILOUT + 1 /\
         ~ ready_within a ok (Z.of_nat n) (w_trace w))) w.
Proof.
  revert c w. induction n as [|n IH]; intros c w Hc Hc0 Hn a ok; [lia|].
  cbn [wait_transition_loop]. unfold omap2_prm_read_mod_reg. wp_step.
  destruct (Z.land (regval w (prm_base + offs + idx)) OMAP_INTRANSITION_MASK =? 0) eqn:Ok;
    match type of Ok with _ = ?b => change (poll_ok a ok (w_trace w) 0 = b) in Ok end.
  { wp_pure. split; [auto with machine|]. left.
    split; [lia|]. exists O. split; [lia | done]. }
  assert (u32 (c + 1) = c + 1) as ->
    by (apply wrapu_small; unfold uint; unfold PWRDM_TRANSITION_BAILOUT in Hc; lia).
  destruct (Z.ltb_spec c PWRDM_TRANSITION_BAILOUT) as [Hlt|Hge].
  - wp_step. eapply wp_mono; [apply IH; lia|]. cbn beta.
    intros r w' [Hio [[Hr [k [Hk Hok]]]|[-> Hno]]];
      (split; [etrans; [|exact Hio]; etrans; by apply io_reads_1|]).
    + left. split; [lia|]. exists (S k). split; [lia | exact Hok].
    + right. split; [done|]. intros [[|k] [Hk Hok]]; [congruence|].
      apply Hno. exists k. split; [lia | exact Hok].
  - wp_pure. split; [auto with machine|]. right. split; [lia|].
    intros [[|k] [Hk Hok]]; [congruence | lia].
Qed.

Lemma ti81xx_read_pwrst_spec p d w :
  w_pwrdms w !! p = Some d ->
  wp (ti81xx_pwrdm_read_pwrst p)
     (fun r w' => r = ti81xx_pwrst_seen d (w_trace w) /\ io_reads w w') w.
Proof.
  intros Hp. unfold ti81xx_pwrdm_read_pwrst, omap2_prm_read_mod_bits_shift,
    omap2_prm_read_mod_reg. wp_step. wp_step.
  rewrite powerstate_field by apply regval_uint. auto with machine.
Qed.

Lemma ti81xx_wait_transition_spec p d w :
  w_pwrdms w !! p = Some d ->
  let settled := ready_within (pwstst_addr d)
    (fun v => Z.land v OMAP_INTRANSITION_MASK =? 0) (PWRDM_TRANSITION_BAILOUT + 1)
    (w_trace w) in
  wp (ti81xx_pwrdm_wait_transition p)
     (fun r w' => io_reads w w' /\ (r = 0 /\ settled \/ r = - EAGAIN /\ ~ settled)) w.
Proof.
  intros Hp settled. unfold ti81xx_pwrdm_wait_transition. wp_step.
  eapply wp_mono; [apply wait_transition_loop_spec; unfold PWRDM_TRANSITION_BAILOUT; lia|].
  cbn beta. rewrite Z2Nat.id by (unfold PWRDM_TRANSITION_BAILOUT; lia).
  intros r w' [Hio Hr]. wp_pure. split; [done|].
  destruct Hr as [[Hr Hs]|[-> Hs]]; [left | right].
  - split; [|done]. by rewrite (proj2 (Z.ltb_ge _ _) Hr).
  - done.
Qed.

#[global] Instance ti81xx_pwrdm_laws : PwrdmArchLaws (Some ti81xx_pwrdm_operations).
Proof.
  refine {| pwrst_seen := ti81xx_pwrst_seen |}.
  - intros d h. apply Z.mod_pos_bound. done.
  - intros d d' h (_ & Hoffs & _). unfold ti81xx_pwrst_seen, pwstst_addr, pwstst_offs.
    by rewrite Hoffs.
  - intros p d w Hp. by apply ti81xx_read_pwrst_spec.
  - intros p d w Hp. eapply wp_mono; [by apply ti81xx_wait_transition_spec|]. by intros ? ? [? _].
Defined.
End Ti81xxLaws.

(** ** The state counters *)

(** How often a history of observed states (newest first) enters state [s]. *)
Fixpoint entries (s : Z) (h : list Z) : Z :=
  match h with
  | [] => 0
  | x :: h' =>
      (if (x =? s) && negb (match h' with y :: _ => y =? s | [] => false end)
       then 1 else 0) + entries s h'
  end.

(** The powerdomain has recorded the history [h] of observed states. *)
Record tracks (h : list Z) (d : powerdomain) : Prop := {
  tracks_state : exists h', h = pd_state d :: h';
  tracks_range : 0 <= pd_state d < PWRDM_MAX_PWRSTS;
  tracks_len : length (pd_state_counter d) = 4%nat;
  tracks_timers : length (pd_state_timer d) = 4%nat;
  tracks_count : forall s, 0 <= s < PWRDM_MAX_PWRSTS ->
    pd_state_counter d !! Z.to_nat s = Some (u32 (entries s h))
}.

Section Counters.
  Context `{SOC : Soc} `{HW : Hardware} (arch : option pwrdm_ops).

Lemma bump_state_counter_wp p d i n Q w :
  w_pwrdms w !! p = Some d -> 0 <= i ->
  pd_state_counter d !! Z.to_nat i = Some n ->
  Q tt (set_w_pwrdms
          (<[p := set_pd_state_counter
                    (<[Z.to_nat i := u32 (n + 1)]> (pd_state_counter d)) d]>
             (w_pwrdms w)) w) ->
  wp (bump_state_counter p i) Q w.
Proof.
  intros Hp Hi Hn HQ. unfold bump_state_counter. wp_step.
  eapply wp_aget; [done | done|]. wp_pure. apply wp_aset.
  { apply lookup_lt_Some in Hn. lia. }
  by wp_step.
Qed.

Lemma pm_dbg_update_time_wp p d prev w :
  w_pwrdms w !! p = Some d -> 0 <= prev < 4 -> length (pd_state_timer d) = 4%nat ->
  wp (pm_dbg_update_time p prev)
     (fun _ w' => exists ts t, length ts = 4%nat /\
        w' = set_w_pwrdms (<[p := set_pd_timer t (set_pd_state_timer ts d)]> (w_pwrdms w)) w) w.
Proof.
  intros Hp Hprev Hlen. unfold pm_dbg_update_time. wp_pure.
  destruct (w_pm_dbg_init_done w); cbn [negb].
  - unfold sched_clock. wp_pure. wp_step.
    destruct (lookup_lt_is_Some_2 (pd_state_timer d) (Z.to_nat prev)) as [old Hold]; [lia|].
    eapply wp_aget; [lia | done |]. wp_pure. apply wp_aset; [lia|]. wp_step.
    eapply wp_upd_pwrdm; [cbn; apply lookup_insert_eq|]. cbn.
    eexists _, _. split; [|by rewrite insert_insert_eq].
    rewrite length_insert. exact Hlen.
  - wp_pure. exists (pd_state_timer d), (pd_timer d). split; [done|].
    by rewrite insert_id.
Qed.

Context `{LAWS : !PwrdmArchLaws arch}.

Lemma entries_same s x h : entries s (x :: x :: h) = entries s (x :: h).
Proof.
  cbn [entries]. destruct (x =? s); cbn; lia.
Qed.

Lemma entries_new s x y h : x <> y ->
  entries s (x :: y :: h) = (if x =? s then 1 else 0) + entries s (y :: h).
Proof.
  intros Hxy. cbn [entries].
  destruct (Z.eqb_spec x s), (Z.eqb_spec y s); cbn; lia.
Qed.

Lemma u32_succ n : u32 (u32 n + 1) = u32 (1 + n).
Proof. unfold wrapu. rewrite Zplus_mod_idemp_l. f_equal. lia. Qed.

(** One more observation recorded: the state switch keeps the counters equal to
    the numbers of entries. *)
Lemma state_switch_spec p d h w :
  w_pwrdms w !! p = Some d -> tracks h d ->
  wp (pwrdm_state_switch arch (Some p))
     (fun r w' => r = 0 /\ exists d' l, forallb quiet l = true /\
        w' = set_w_trace (l ++ w_trace w) (set_w_pwrdms (<[p := d']> (w_pwrdms w)) w) /\
        tracks (pwrst_seen d (w_trace w) :: h) d' /\ same_config d d') w.
Proof.
  intros Hp Ht. unfold pwrdm_state_switch, _pwrdm_state_switch. wp_pure.
  eapply wp_mono; [by apply read_pwrst_law|]. cbn beta.
  intros st w1 [Hst (tr & Htr & ->)]. pose proof (pwrst_seen_range d (w_trace w)) as Hrange.
  rewrite <- Hst in *. clear Hst. change (PWRDM_STATE_NOW =? PWRDM_STATE_NOW) with true.
  cbv iota. wp_step. destruct Ht as [[h' ->] Hsr Hlen Htm Hcnt].
  destruct (decide (st = pd_state d)) as [->|Hne].
  - rewrite Z.eqb_refl. cbn [negb when]. wp_pure.
    eapply wp_mono; [by apply pm_dbg_update_time_wp|]. cbn beta.
    intros _ w2 (ts & t & Hts & ->). wp_pure.
    eapply wp_upd_pwrdm; [cbn; apply lookup_insert_eq|]. wp_pure. split; [done|].
    eexists _, tr. split; [done|]. split; [cbn; by rewrite insert_insert_eq|]. split; [|done].
    split; cbn -[entries]; [by eexists | done | done | done |]. intros s Hs.
    rewrite entries_same. by apply Hcnt.
  - rewrite (proj2 (Z.eqb_neq _ _) Hne). cbn [negb when]. wp_pure.
    eapply bump_state_counter_wp; [done | lia | by apply Hcnt|]. wp_pure.
    eapply wp_mono; [apply pm_dbg_update_time_wp; [apply lookup_insert_eq | done | done]|].
    cbn beta. intros _ w2 (ts & t & Hts & ->). wp_pure.
    eapply wp_upd_pwrdm; [cbn; apply lookup_insert_eq|]. wp_pure. split; [done|].
    eexists _, tr. split; [done|]. split; [cbn; by rewrite !insert_insert_eq|]. split; [|done].
    split; cbn -[entries]; [by eexists | done | by rewrite length_insert | done |].
    intros s Hs. rewrite entries_new by done.
    destruct (Z.eqb_spec st s) as [->|Hss].
    + rewrite list_lookup_insert_eq by (rewrite Hlen; unfold PWRDM_MAX_PWRSTS in *; lia). by rewrite u32_succ.
    + rewrite list_lookup_insert_ne by lia. by apply Hcnt.
Qed.
End Counters.

(** ** Registration, and the clockdomains of a powerdomain *)

Section Register.
  Context `{SOC : Soc} `{HW : Hardware} (arch : option pwrdm_ops).
  Context `{LAWS : !PwrdmArchLaws arch}.

(** The arrays of a powerdomain have the sizes of the C declaration. *)
Record pwrdm_arrays (d : powerdomain) : Prop := {
  arr_counter : length (pd_state_counter d) = 4%nat;
  arr_timer : length (pd_state_timer d) = 4%nat;
  arr_banks : 0 <= pd_banks d <= 5;
  arr_mem : length (pd_ret_mem_off_counter d) = 5%nat;
  arr_clkdms : length (pd_clkdms d) = 12%nat
}.

(** The registered powerdomains exist and have different names. *)
Record pwrdm_list_ok (w : world) : Prop := {
  pl_exist : forall p, p ∈ w_pwrdm_list w -> is_Some (w_pwrdms w !! p);
  pl_names : forall p q d d', p ∈ w_pwrdm_list w -> q ∈ w_pwrdm_list w ->
    w_pwrdms w !! p = Some d -> w_pwrdms w !! q = Some d' ->
    pd_name d = pd_name d' -> p = q
}.

Lemma pwrdm_find_spec name l w :
  (forall p, p ∈ l -> is_Some (w_pwrdms w !! p)) ->
  wp (pwrdm_find name l)
     (fun r w' => w' = w /\
        match r with
        | Some p => p ∈ l /\ exists d, w_pwrdms w !! p = Some d /\ pd_name d = name
        | None => forall p d, p ∈ l -> w_pwrdms w !! p = Some d -> pd_name d <> name
        end) w.
Proof.
  induction l as [|t l IH]; intros Hex; cbn [pwrdm_find].
  - wp_pure. split; [done|]. intros p d Hp. by apply elem_of_nil in Hp.
  - destruct (Hex t) as [d Hd]; [left|]. wp_step.
    destruct (String.eqb_spec name (pd_name d)) as [->|Hne]; wp_pure.
    + split; [done|]. split; [left | by exists d].
    + eapply wp_mono; [apply IH; intros; apply Hex; by right|]. cbn beta.
      intros [p|] w' [-> Hr]; (split; [done|]).
      * destruct Hr as [Hin Hr]. split; [by right | done].
      * intros p d' [->|Hin]%elem_of_cons Hp; [congruence | by eapply Hr].
Qed.

(** A loop that clears an array of a powerdomain, up to its length. *)
Lemma clear_array_wp (proj : powerdomain -> list Z) (setp : list Z -> powerdomain -> powerdomain)
    p n d w :
  (forall l d, proj (setp l d) = l) -> (forall l l' d, setp l' (setp l d) = setp l' d) ->
  (forall d, setp (proj d) d = d) ->
  w_pwrdms w !! p = Some d -> 0 <= n <= Z.of_nat (length (proj d)) ->
  wp (for_each (seqZ 0 n) (fun i =>
        d ← get_pwrdm p; l ← aset (proj d) i 0; upd_pwrdm p (setp l)))
     (fun _ w' => exists l, length l = length (proj d) /\
        (forall i, 0 <= i < n -> l !! Z.to_nat i = Some 0) /\
        w' = set_w_pwrdms (<[p := setp l d]> (w_pwrdms w)) w) w.
Proof.
  intros Hps Hss Hsp.
  set (body := fun i : Z => _).
  assert (forall k m d w, w_pwrdms w !! p = Some d -> 0 <= m ->
    m + Z.of_nat k <= Z.of_nat (length (proj d)) ->
    (forall i, 0 <= i < m -> proj d !! Z.to_nat i = Some 0) ->
    wp (for_each (seqZ m (Z.of_nat k)) body)
     (fun _ w' => exists l, length l = length (proj d) /\
        (forall i, 0 <= i < m + Z.of_nat k -> l !! Z.to_nat i = Some 0) /\
        w' = set_w_pwrdms (<[p := setp l d]> (w_pwrdms w)) w) w) as H.
  { induction k as [|k IH]; intros m d0 w0 Hp Hm Hlen Hz.
    - apply wp_ret. exists (proj d0). split_and!; [done | |].
      + intros i Hi. apply Hz. lia.
      + by rewrite Hsp, insert_id.
    - rewrite seqZ_cons by lia. cbn [for_each]. unfold body at 1. wp_step.
      apply wp_aset; [lia|]. wp_step.
      replace (Z.pred (Z.of_nat (S k))) with (Z.of_nat k) by lia.
      eapply wp_mono; [apply IH; [apply lookup_insert_eq | lia | |]|].
      + rewrite Hps, length_insert. lia.
      + intros i Hi. rewrite Hps. destruct (decide (i = m)) as [->|].
        * apply list_lookup_insert_eq. lia.
        * rewrite list_lookup_insert_ne by lia. apply Hz. lia.
      + cbn beta. intros _ w' (l & Hl & Hl0 & ->). exists l. split_and!.
        * by rewrite Hl, Hps, length_insert.
        * intros i Hi. apply Hl0. lia.
        * cbn. by rewrite insert_insert_eq, Hss. }
  intros Hp Hn. rewrite <- (Z2Nat.id n) by lia.
  eapply wp_mono; [apply H; [done | lia | lia | lia]|].
  cbn beta. intros _ w' (l & Hl & Hl0 & ->). exists l. split_and!; [done | | done].
  intros i Hi. apply Hl0. lia.
Qed.

Lemma entries_single s st : entries s [st] = if st =? s then 1 else 0.
Proof. cbn. rewrite andb_true_r. destruct (st =? s); done. Qed.

(** Registration of a powerdomain that the list accepts. *)
Lemma pwrdm_register_spec p d w :
  w_pwrdms w !! p = Some d -> pwrdm_arrays d ->
  (forall q, q ∈ w_pwrdm_list w -> is_Some (w_pwrdms w !! q)) ->
  Z.land (pd_omap_chip d) (w_omap_chip w) <> 0 ->
  (forall q e, q ∈ w_pwrdm_list w -> w_pwrdms w !! q = Some e -> pd_name e <> pd_name d) ->
  wp (_pwrdm_register arch (Some p))
     (fun r w' => r = 0 /\ w_pwrdm_list w' = p :: w_pwrdm_list w /\
        exists d' tr, w_pwrdms w' = <[p := d']> (w_pwrdms w) /\ forallb quiet tr = true /\
          tracks [pwrst_seen d (tr ++ w_trace w)] d' /\ same_config d d' /\ pwrdm_arrays d') w.
Proof.
  intros Hp Harr Hex Hchip Hname. unfold _pwrdm_register, omap_chip_is, _pwrdm_lookup.
  wp_step. rewrite (proj2 (Z.eqb_neq _ _) Hchip). cbn [negb]. wp_pure.
  eapply wp_mono; [by apply pwrdm_find_spec|]. cbn beta.
  intros [q|] w' [-> Hr].
  { destruct Hr as [Hin (e & He & Hn)]. by destruct (Hname q e Hin He). }
  wp_pure. eapply wp_mono; [apply (clear_array_wp (fun d => pd_state_counter d) set_pd_state_counter);
    [done | done | done | exact Hp | cbv beta; rewrite (arr_counter _ Harr); done]|].
  cbn beta. intros _ w1 (l & Hl & Hl0 & ->). wp_pure.
  eapply wp_upd_pwrdm; [apply lookup_insert_eq|]. cbn. rewrite insert_insert_eq. wp_pure.
  eapply wp_mono; [apply (clear_array_wp (fun d => pd_ret_mem_off_counter d) set_pd_ret_mem_off_counter);
    [done | done | done | apply lookup_insert_eq |]|].
  { destruct Harr as [_ _ Hb Hm _].
    match goal with |- context [length ?l] => replace (length l) with 5%nat by done end. lia. }
  cbn beta. intros _ w2 (l2 & Hl2 & _ & ->). cbn. rewrite insert_insert_eq. wp_pure.
  eapply wp_mono; [eapply wait_transition_law; apply lookup_insert_eq|]. cbn beta.
  intros _ w3 (tr & Htr & ->). wp_pure.
  eapply wp_mono; [eapply read_pwrst_law; apply lookup_insert_eq|]. cbn beta.
  intros st w4 [Hst (tr' & Htr' & ->)]. wp_pure.
  match type of Hst with st = pwrst_seen ?x ?h =>
    pose proof (pwrst_seen_range x h) as Hrange end.
  rewrite (pwrst_seen_config d) in Hst, Hrange by done. rewrite <- Hst in Hrange.
  eapply wp_upd_pwrdm; [apply lookup_insert_eq|]. cbn. rewrite insert_insert_eq. wp_pure.
  eapply wp_get_pwrdm; [apply lookup_insert_eq|]. wp_pure.
  assert (length l = 4%nat) as Hl4 by (rewrite Hl; apply Harr).
  apply wp_aset; [cbn; rewrite Hl4; done|]. wp_pure.
  eapply wp_upd_pwrdm; [apply lookup_insert_eq|]. wp_pure.
  split; [done|]. split; [done|]. eexists _, tr.
  split; [cbn; by rewrite insert_insert_eq|]. destruct Harr. split_and!; [done | | |].
  - replace (pwrst_seen d (tr ++ w_trace w)) with st by exact Hst.
    split; cbn -[entries]; [by eexists | done | by rewrite length_insert | done |].
    intros s Hs. rewrite entries_single. destruct (Z.eqb_spec st s) as [->|].
    + rewrite list_lookup_insert_eq; [done | unfold PWRDM_MAX_PWRSTS in *; lia].
    + rewrite list_lookup_insert_ne by lia. rewrite Hl0 by done. done.
  - done.
  - split; cbn; [by rewrite length_insert | done | done | by rewrite Hl2 | done].
Qed.
End Register.

(** ** Properties *)

(** The state the kernel boots with on a DM8148. *)
Definition boot_pwrdm_world : world :=
  set_w_omap_chip 0x2000 (set_w_pwrdms ti81xx_pwrdm_store empty_world).

Lemma list_ok_cons p d d' w w' :
  pwrdm_list_ok w -> w_pwrdms w !! p = Some d ->
  (forall q e, q ∈ w_pwrdm_list w -> w_pwrdms w !! q = Some e -> pd_name e <> pd_name d) ->
  w_pwrdm_list w' = p :: w_pwrdm_list w -> w_pwrdms w' = <[p := d']> (w_pwrdms w) ->
  pd_name d' = pd_name d -> pwrdm_list_ok w'.
Proof.
  intros [Hex Hnm] Hp Hnew Hl Hm Hn.
  assert (forall q e, q ∈ w_pwrdm_list w' -> w_pwrdms w' !! q = Some e ->
    q = p /\ pd_name e = pd_name d \/
    q <> p /\ q ∈ w_pwrdm_list w /\ w_pwrdms w !! q = Some e) as H.
  { intros q e Hq. rewrite Hm. destruct (decide (q = p)) as [->|Hne].
    - rewrite lookup_insert_eq. intros [= <-]. by left.
    - rewrite lookup_insert_ne by congruence. intros He. right.
      rewrite Hl in Hq. apply elem_of_cons in Hq as [|]; done. }
  split.
  - intros q Hq. rewrite Hm. destruct (decide (q = p)) as [->|Hne].
    + rewrite lookup_insert_eq. eauto.
    + rewrite lookup_insert_ne by congruence. apply Hex.
      rewrite Hl in Hq. by apply elem_of_cons in Hq as [|].
  - intros q r e e' Hq Hr He He' Hee.
    destruct (H q e Hq He) as [[-> E]|(? & Hq' & Heq)],
      (H r e' Hr He') as [[-> E']|(? & Hr' & Her)]; [done | | |].
    + destruct (Hnew r e' Hr' Her). congruence.
    + destruct (Hnew q e Hq' Heq). congruence.
    + by eapply (Hnm q r).
Qed.

(** [observed seen t obs t']: between the bus histories [t] and [t'] nothing was written
    and the states [seen] were looked at [length obs] times; [obs] is what was seen,
    newest first. *)
Inductive observed (seen : list io_event -> Z) : list io_event -> list Z -> list io_event -> Prop :=
| observed_none t : observed seen t [] t
| observed_first t l obs t' :
    forallb quiet l = true -> observed seen (l ++ t) obs t' ->
    observed seen t (obs ++ [seen t]) t'.

Lemma observed_ext f g t obs t' :
  (forall h, f h = g h) -> observed f t obs t' -> observed g t obs t'.
Proof.
  intros Hfg. induction 1 as [|t l obs t' Hl _ IH]; [constructor|].
  rewrite Hfg. by econstructor.
Qed.

(** C39: the state counters refine the history of observed power states: over any
    number [n] of state switches, with [obs] the states the chip reported at them, the
    recorded state becomes the last one reported and every counter is, modulo 2^32,
    the number of times the history entered that state.  Proved for any chip
    operations that meet [PwrdmArchLaws]. *)
Theorem pwrdm_counters_refine_history `{SOC : Soc} `{HW : Hardware} arch
    `{LAWS : !PwrdmArchLaws arch} p d h n w :
  w_pwrdms w !! p = Some d -> tracks h d ->
  wp (for_each (replicate n tt) (fun _ => pwrdm_state_switch arch (Some p);; ret tt))
     (fun _ w' => exists obs d', length obs = n /\
        observed (pwrst_seen d) (w_trace w) obs (w_trace w') /\
        w_pwrdms w' = <[p := d']> (w_pwrdms w) /\ tracks (obs ++ h) d' /\
        same_config d d') w.
Proof.
  revert d h w. induction n as [|n IH]; intros d h w Hp Ht.
  - exists [], d. split_and!; [done | constructor | by rewrite insert_id | done | done].
  - cbn [replicate for_each]. wp_pure.
    eapply wp_mono; [by apply state_switch_spec|]. cbn beta.
    intros r w' (_ & d1 & tr & Hq & -> & Ht1 & Hc1). wp_pure.
    eapply wp_mono; [eapply IH; [apply lookup_insert_eq | done]|]. cbn beta.
    intros _ w2 (obs & d2 & Hlen & Hobs & Hw & Ht2 & Hc2).
    exists (obs ++ [pwrst_seen d (w_trace w)]), d2. split_and!.
    + rewrite length_app, Hlen. cbn. lia.
    + apply observed_first with tr; [done|]. eapply observed_ext; [|exact Hobs].
      intros t. by apply pwrst_seen_config.
    + rewrite Hw. apply insert_insert_eq.
    + by rewrite <- app_assoc.
    + by transitivity d1.
Qed.

(** Registering a powerdomain, on every path: it refuses one of another chip
    (-EINVAL) or with a taken name (-EEXIST) and changes nothing then; otherwise it
    puts the powerdomain at the head of the list with the state the chip reports and
    the counters started from it, and the registered names stay distinct. *)
Theorem pwrdm_register_correct `{SOC : Soc} `{HW : Hardware} arch
    `{LAWS : !PwrdmArchLaws arch} p d w :
  pwrdm_list_ok w -> w_pwrdms w !! p = Some d -> pwrdm_arrays d ->
  wp (_pwrdm_register arch (Some p))
     (fun r w' => pwrdm_list_ok w' /\
        (r = - EINVAL /\ w' = w /\ Z.land (pd_omap_chip d) (w_omap_chip w) = 0 \/
         r = - EEXIST /\ w' = w /\
           (exists q e, q ∈ w_pwrdm_list w /\ w_pwrdms w !! q = Some e /\ pd_name e = pd_name d) \/
         r = 0 /\ w_pwrdm_list w' = p :: w_pwrdm_list w /\
           exists d' tr, w_pwrdms w' !! p = Some d' /\ forallb quiet tr = true /\
             tracks [pwrst_seen d (tr ++ w_trace w)] d' /\ same_config d d')) w.
Proof.
  intros Hok Hp Harr. destruct (decide (Z.land (pd_omap_chip d) (w_omap_chip w) = 0)) as [Hc|Hc].
  { unfold _pwrdm_register, omap_chip_is. wp_step. rewrite (proj2 (Z.eqb_eq _ _) Hc).
    cbn [negb]. wp_pure. split; [done|]. by left. }
  destruct (decide (Exists (fun q => option_map (fun e => pd_name e) (w_pwrdms w !! q) = Some (pd_name d))
    (w_pwrdm_list w))) as [Ht|Ht].
  - unfold _pwrdm_register, omap_chip_is, _pwrdm_lookup. wp_step.
    rewrite (proj2 (Z.eqb_neq _ _) Hc). cbn [negb]. wp_pure.
    eapply wp_mono; [apply pwrdm_find_spec, Hok|]. cbn beta. intros [q|] w' [-> Hr]; wp_pure.
    + split; [done|]. right; left. destruct Hr as (? & e & ? & ?). eauto 8.
    + apply Exists_exists in Ht as (q & Hq & He).
      destruct (w_pwrdms w !! q) as [e|] eqn:E; [|done]. injection He as He.
      by destruct (Hr q e Hq E).
  - assert (forall q e, q ∈ w_pwrdm_list w -> w_pwrdms w !! q = Some e ->
      pd_name e <> pd_name d) as Hnew.
    { intros q e Hq He Hn. apply Ht, Exists_exists. exists q. split; [done|].
      rewrite He. cbn. by f_equal. }
    eapply wp_mono; [by apply pwrdm_register_spec; try apply Hok|].
    cbn beta. intros r w' (-> & Hl & d' & tr & Hm & Hq & Htr & Hcfg & _). split.
    + eapply list_ok_cons; try done. apply Hcfg.
    + right; right. split; [done|]. split; [done|]. exists d', tr.
      by rewrite Hm, lookup_insert_eq.
Qed.

(** Programming the next power state of a TI81xx powerdomain and reading it
    back: a supported state is accepted and read back, whatever else the control
    register holds; an unsupported one is refused with -EINVAL before the bus is
    touched. *)
Theorem ti81xx_next_pwrst_roundtrip `{SOC : Soc} `{HW : Hardware} p d pwrst w :
  w_pwrdms w !! p = Some d -> 0 <= pwrst < PWRDM_MAX_PWRSTS ->
  plain_reg (prm_base + pd_prcm_offs d + TI81XX_PM_PWSTCTRL) ->
  let ops := Some ti81xx_pwrdm_operations in
  wp (r ← pwrdm_set_next_pwrst ops (Some p) pwrst;
      v ← pwrdm_read_next_pwrst ops (Some p);
      ret (r, v))
     (fun '(r, v) w' =>
        if Z.testbit (pd_pwrsts d) pwrst
        then r = 0 /\ v = pwrst /\ io_only w w'
        else r = - EINVAL /\
             v = regval w (prm_base + pd_prcm_offs d + TI81XX_PM_PWSTCTRL) mod 4) w.
Proof.
  intros Hp Hs Hreg ops. unfold PWRDM_MAX_PWRSTS in Hs.
  assert (state_in (pd_pwrsts d) pwrst = Z.testbit (pd_pwrsts d) pwrst) as Hbit.
  { unfold state_in. by rewrite lsl_1, land_pow2_test, negb_involutive by lia. }
  unfold pwrdm_set_next_pwrst. wp_step. rewrite Hbit.
  destruct (Z.testbit (pd_pwrsts d) pwrst); cbn [negb]; wp_pure; unfold ops;
    cbn [arch_op ti81xx_pwrdm_operations op_set_next_pwrst op_read_next_pwrst
         pwrdm_read_next_pwrst delegate];
    unfold ti81xx_pwrdm_set_next_pwrst, ti81xx_pwrdm_read_next_pwrst,
      omap2_prm_rmw_mod_reg_bits, omap2_prm_read_mod_bits_shift,
      omap2_prm_read_mod_reg, omap2_prm_write_mod_reg.
  - do 5 wp_step. split; [done|]. split; [|by eexists].
    match goal with |- context [Z.lor ?a ?b] =>
      change (Z.lor a b) with (field_set 3 pwrst (regval w (prm_base + pd_prcm_offs d + 0))) end.
    rewrite plain_write by (done || apply field_set_uint, regval_uint).
    rewrite field_get_set; [apply wraps_small; lia|].
    assert (pwrst = 0 \/ pwrst = 1 \/ pwrst = 2 \/ pwrst = 3) as [->|[->|[->| ->]]] by lia; done.
  - do 2 wp_step. split; [done|]. apply powerstate_field, regval_uint.
Qed.

(** C40: waiting for a power transition of a TI81xx powerdomain terminates after at
    most 100001 polls and 100000 microseconds; it returns 0 exactly when one of
    these polls saw no transition, -EAGAIN otherwise, and touches the bus alone. *)
Theorem ti81xx_wait_transition_correct `{SOC : Soc} `{HW : Hardware} p d w :
  w_pwrdms w !! p = Some d ->
  let settled := ready_within (prm_base + pd_prcm_offs d + pwstst_offs d)
    (fun v => Z.land v OMAP_INTRANSITION_MASK =? 0) 100001 (w_trace w) in
  wp (pwrdm_wait_transition (Some ti81xx_pwrdm_operations) (Some p))
     (fun r w' => io_reads w w' /\ (r = 0 /\ settled \/ r = - EAGAIN /\ ~ settled)) w.
Proof. apply ti81xx_wait_transition_spec. Qed.

Lemma find_slot_range x l : 0 <= find_slot x l <= Z.of_nat (length l).
Proof. induction l as [|y l IH]; cbn; [lia|]. destruct (decide (x = y)); lia. Qed.

Lemma find_slot_lookup x l :
  find_slot x l < Z.of_nat (length l) -> l !! Z.to_nat (find_slot x l) = Some x.
Proof.
  induction l as [|y l IH]; cbn [find_slot length]; [cbn; lia|].
  destruct (decide (x = y)) as [->|]; [done|]. intros Hlt.
  pose proof (find_slot_range x l).
  replace (Z.to_nat (1 + find_slot x l)) with (S (Z.to_nat (find_slot x l))) by lia.
  apply IH. lia.
Qed.

Lemma find_slot_in x l : x ∈ l <-> find_slot x l < Z.of_nat (length l).
Proof.
  induction l as [|y l IH]; cbn [find_slot length]; [split; [by intros ?%elem_of_nil | lia]|].
  rewrite elem_of_cons. destruct (decide (x = y)) as [->|]; [split; [lia | by left]|].
  rewrite IH. split; [intros [|]; [done | lia] | intros; right; lia].
Qed.

Lemma find_slot_insert x l i :
  ~ x ∈ l -> (i < length l)%nat -> find_slot x (<[i := x]> l) = Z.of_nat i.
Proof.
  revert i. induction l as [|y l IH]; intros i Hx Hi; cbn in Hi; [lia|].
  apply not_elem_of_cons in Hx as [Hxy Hx].
  destruct i as [|i]; cbn [insert list_insert find_slot].
  - by destruct (decide (x = x)).
  - destruct (decide (x = y)); [done|]. change (list_insert i x l) with (<[i := x]> l).
    rewrite IH by (done || lia). lia.
Qed.

(** Which slot a new clockdomain gets. *)
Definition free_slot (d : powerdomain) : nat := Z.to_nat (find_slot None (pd_clkdms d)).

Lemma free_slot_spec d :
  None ∈ pd_clkdms d ->
  (free_slot d < length (pd_clkdms d))%nat /\ pd_clkdms d !! free_slot d = Some None.
Proof.
  intros Hn%find_slot_in. pose proof (find_slot_range None (pd_clkdms d)).
  unfold free_slot. split; [lia | by apply find_slot_lookup].
Qed.

Lemma pwrdm_add_clkdm_spec p c d w :
  w_pwrdms w !! p = Some d -> length (pd_clkdms d) = 12%nat ->
  wp (pwrdm_add_clkdm (Some p) (Some c))
     (fun r w' =>
        if decide (None ∈ pd_clkdms d)
        then r = 0 /\ w' = set_w_pwrdms
               (<[p := set_pd_clkdms (<[free_slot d := Some c]> (pd_clkdms d)) d]>
                  (w_pwrdms w)) w
        else r = - ENOMEM /\ w' = w) w.
Proof.
  intros Hp Hlen. unfold pwrdm_add_clkdm. wp_step.
  pose proof (find_slot_range None (pd_clkdms d)) as Hr.
  pose proof (find_slot_in None (pd_clkdms d)) as Hin. rewrite Hlen in *.
  destruct (decide (None ∈ pd_clkdms d)) as [Hn|Hn]; rewrite Hin in Hn.
  - rewrite (proj2 (Z.eqb_neq _ PWRDM_MAX_CLKDMS)) by (unfold PWRDM_MAX_CLKDMS; lia).
    wp_pure. apply wp_aset; [lia|]. by wp_step.
  - assert (find_slot None (pd_clkdms d) = 12) as -> by lia.
    change (12 =? PWRDM_MAX_CLKDMS) with true. by wp_pure.
Qed.

(** Associating a clockdomain with a powerdomain: with a free slot it is stored
    and removing it again restores the powerdomain; with all 12 slots taken the call
    returns -ENOMEM and nothing changes. *)
Theorem pwrdm_add_del_clkdm_roundtrip p c d w :
  w_pwrdms w !! p = Some d -> length (pd_clkdms d) = 12%nat -> Some c ∉ pd_clkdms d ->
  wp (pwrdm_add_clkdm (Some p) (Some c))
     (fun r w' =>
        if decide (None ∈ pd_clkdms d)
        then r = 0 /\
             (exists d', w_pwrdms w' !! p = Some d' /\ Some c ∈ pd_clkdms d') /\
             wp (pwrdm_del_clkdm (Some p) (Some c)) (fun r' w'' => r' = 0 /\ w'' = w) w'
        else r = - ENOMEM /\ w' = w) w.
Proof.
  intros Hp Hlen Hc. eapply wp_mono; [by eapply pwrdm_add_clkdm_spec|]. cbn beta.
  intros r w'. destruct (decide (None ∈ pd_clkdms d)) as [Hn|Hn]; [|done].
  apply free_slot_spec in Hn as [Hlt Hl]. intros [-> ->]. split; [done|]. split.
  { eexists. split; [apply lookup_insert_eq|]. cbn.
    apply list_elem_of_lookup_2 with (free_slot d). by apply list_lookup_insert_eq. }
  unfold pwrdm_del_clkdm. wp_pure. eapply wp_get_pwrdm; [apply lookup_insert_eq|]. cbn.
  rewrite find_slot_insert by done. rewrite Hlen in Hlt.
  rewrite (proj2 (Z.eqb_neq _ PWRDM_MAX_CLKDMS)) by (unfold PWRDM_MAX_CLKDMS; lia).
  wp_pure. apply wp_aset; [rewrite length_insert; lia|]. wp_pure.
  eapply wp_upd_pwrdm; [apply lookup_insert_eq|]. wp_pure. split; [done|].
  cbn. rewrite insert_insert_eq, Nat2Z.id, list_insert_insert_eq, (list_insert_id _ _ _ Hl).
  by rewrite insert_id.
Qed.

(** The post-transition walk cannot run on this chip: with the TI81xx
    operations, which have no previous-state register, the callback takes -EINVAL
    for the previous state and increments [state_counter[-22]]. *)
Theorem ti81xx_post_transition_out_of_bounds `{SOC : Soc} `{HW : Hardware} p l d h w :
  w_pwrdm_list w = p :: l -> w_pwrdms w !! p = Some d -> tracks h d ->
  pwrdm_post_transition (Some ti81xx_pwrdm_operations) w = Fault OutOfBounds.
Proof.
  intros Hl Hp Ht. unfold pwrdm_post_transition, pwrdm_for_each.
  apply bind_Fault. erewrite bind_Done by reflexivity. rewrite Hl. cbn [walk_pwrdms].
  apply bind_Fault. unfold _pwrdm_post_transition_cb, _pwrdm_state_switch. apply bind_Fault.
  destruct (wp_run _ _ _ (ti81xx_read_pwrst_spec p d w Hp)) as (r & w1 & Hr & _ & (tr & _ & ->)).
  erewrite bind_Done by exact Hr.
  apply bind_Fault. change (PWRDM_STATE_PREV =? PWRDM_STATE_NOW) with false.
  change (PWRDM_STATE_PREV =? PWRDM_STATE_PREV) with true. cbv iota.
  erewrite bind_Done by reflexivity. erewrite bind_Done by (apply run_get_pwrdm; exact Hp).
  apply bind_Fault. destruct (Z.eqb_spec (pd_state d) (- EINVAL)) as [E|E].
  - pose proof (tracks_range h d Ht). unfold EINVAL in *. lia.
  - cbn [negb when]. unfold bump_state_counter.
    by erewrite bind_Done by (apply run_get_pwrdm; exact Hp).
Qed.

(** ** Witnesses: the GFX powerdomain of the DM8148 on plain memory *)

Section Witnesses.
  #[local] Existing Instance dm8148_soc.
  #[local] Existing Instance ram_hw.

Definition sgx_registered : powerdomain :=
  set_pd_state_counter [1; 0; 0; 0] sgx_814x_pwrdm.

Definition sgx_world : world :=
  set_w_pwrdm_list ["sgx_814x_pwrdm"]
    (set_w_pwrdms {["sgx_814x_pwrdm" := sgx_registered]} boot_pwrdm_world).

Lemma sgx_tracks : tracks [0] sgx_registered.
Proof.
  split; [by eexists | done | done | done |]. intros s Hs. unfold PWRDM_MAX_PWRSTS in Hs.
  assert (s = 0 \/ s = 1 \/ s = 2 \/ s = 3) as [->|[->|[->| ->]]] by lia; done.
Qed.

Lemma pwrdm_counters_refine_history_witness :
  wp (for_each (replicate 3 tt) (fun _ =>
        pwrdm_state_switch
          (Some ti81xx_pwrdm_operations) (Some "sgx_814x_pwrdm");; ret tt))
     (fun _ w' => exists obs d', length obs = 3%nat /\
        observed (ti81xx_pwrst_seen sgx_registered) (w_trace sgx_world) obs (w_trace w') /\
        w_pwrdms w' = <["sgx_814x_pwrdm" := d']> (w_pwrdms sgx_world) /\
        tracks (obs ++ [0]) d' /\ same_config sgx_registered d') sgx_world.
Proof.
  exact (pwrdm_counters_refine_history (Some ti81xx_pwrdm_operations) "sgx_814x_pwrdm"
    sgx_registered [0] 3 sgx_world eq_refl sgx_tracks).
Defined.

Lemma boot_list_ok : pwrdm_list_ok boot_pwrdm_world.
Proof. split; [intros p Hp | intros p q d d' Hp]; by apply elem_of_nil in Hp. Qed.

Lemma pwrdm_register_correct_witness :
  wp (_pwrdm_register
        (Some ti81xx_pwrdm_operations) (Some "gem_814x_pwrdm"))
     (fun r w' => pwrdm_list_ok w' /\
        (r = - EINVAL /\ w' = boot_pwrdm_world /\
           Z.land (pd_omap_chip gem_814x_pwrdm) (w_omap_chip boot_pwrdm_world) = 0 \/
         r = - EEXIST /\ w' = boot_pwrdm_world /\
           (exists q e, q ∈ w_pwrdm_list boot_pwrdm_world /\
              w_pwrdms boot_pwrdm_world !! q = Some e /\ pd_name e = pd_name gem_814x_pwrdm) \/
         r = 0 /\ w_pwrdm_list w' = "gem_814x_pwrdm" :: w_pwrdm_list boot_pwrdm_world /\
           exists d' tr, w_pwrdms w' !! "gem_814x_pwrdm" = Some d' /\ forallb quiet tr = true /\
             tracks [ti81xx_pwrst_seen gem_814x_pwrdm (tr ++ w_trace boot_pwrdm_world)] d' /\
             same_config gem_814x_pwrdm d')) boot_pwrdm_world.
Proof.
  refine (pwrdm_register_correct (Some ti81xx_pwrdm_operations) "gem_814x_pwrdm"
    gem_814x_pwrdm boot_pwrdm_world boot_list_ok eq_refl _).
  split; vm_compute; (reflexivity || (split; discriminate)).
Defined.

Lemma ti81xx_next_pwrst_roundtrip_witness :
  wp (r ← pwrdm_set_next_pwrst
            (Some ti81xx_pwrdm_operations) (Some "sgx_814x_pwrdm") 3;
      v ← pwrdm_read_next_pwrst
            (Some ti81xx_pwrdm_operations) (Some "sgx_814x_pwrdm");
      ret (r, v))
     (fun '(r, v) w' => r = 0 /\ v = 3 /\ io_only sgx_world w') sgx_world.
Proof.
  apply (ti81xx_next_pwrst_roundtrip _ sgx_registered);
    [reflexivity | split; [discriminate | reflexivity] | apply ram_hw_plain].
Defined.

Lemma ti81xx_wait_transition_correct_witness :
  wp (pwrdm_wait_transition
        (Some ti81xx_pwrdm_operations) (Some "sgx_814x_pwrdm"))
     (fun r w' => r = 0 /\ io_reads sgx_world w') sgx_world.
Proof.
  eapply wp_mono;
    [apply (ti81xx_wait_transition_correct _ sgx_registered); reflexivity|].
  intros r w' [Hio [[-> _]|[_ Hn]]]; [done|]. destruct Hn. by exists O.
Defined.

Lemma pwrdm_add_del_clkdm_roundtrip_witness :
  wp (pwrdm_add_clkdm (Some "sgx_814x_pwrdm") (Some "sgx_814x_clkdm"))
     (fun r w' => r = 0 /\
        (exists d', w_pwrdms w' !! "sgx_814x_pwrdm" = Some d' /\
           Some "sgx_814x_clkdm" ∈ pd_clkdms d') /\
        wp (pwrdm_del_clkdm (Some "sgx_814x_pwrdm") (Some "sgx_814x_clkdm"))
          (fun r' w'' => r' = 0 /\ w'' = sgx_world) w') sgx_world.
Proof.
  apply (pwrdm_add_del_clkdm_roundtrip _ _ sgx_registered);
    [reflexivity | reflexivity | by apply (bool_decide_unpack (Some "sgx_814x_clkdm" ∉ pd_clkdms sgx_registered))].
Defined.

Lemma ti81xx_post_transition_out_of_bounds_witness :
  pwrdm_post_transition
    (Some ti81xx_pwrdm_operations) sgx_world = Fault OutOfBounds.
Proof.
  apply (ti81xx_post_transition_out_of_bounds "sgx_814x_pwrdm" []
           sgx_registered [0]); [reflexivity | reflexivity | exact sgx_tracks].
Defined.

End Witnesses.
