(* ===== verification/Clockdomain.v ===== *)
(** * Clockdomains

    mach-omap2/clockdomain.c, with the TI81xx tables of clockdomains81xx.h.

    The kernel is built without OMAP4 support, so the branches guarded by
    [cpu_is_omap44xx()], a constant 0, are not compiled and have no counterpart
    here.  The array a [wkdep_srcs] or [sleepdep_srcs] pointer leads to is a field
    of the clockdomain; a pointer to one of its elements is an index. *)

From S2P Require Import Prelude Platform Prcm Powerdomain.

Definition CLKDM_CAN_FORCE_SLEEP : Z := 1.
Definition CLKDM_CAN_FORCE_WAKEUP : Z := 2.
Definition CLKDM_CAN_ENABLE_AUTO : Z := 4.
Definition CLKDM_CAN_DISABLE_AUTO : Z := 8.
Definition PM_WKDEP : Z := 0xc8.
Definition OMAP3430_CM_SLEEPDEP : Z := 0x44.
Definition OMAP2_PM_PWSTCTRL : Z := 0xe0.
Definition OMAP24XX_FORCESTATE_MASK : Z := Z.shiftl 1 18.

(** ** Lookup and registration *)

Fixpoint clkdm_find (name : string) (l : list string) : M world (option string) :=
  match l with
  | [] => ret None
  | t :: l' =>
      c ← get_clkdm t;
      if String.eqb name (cd_name c) then ret (Some t) else clkdm_find name l'
  end.

Definition _clkdm_lookup (name : option string) : M world (option string) :=
  match name with
  | None => ret None
  | Some n => l ← gets (fun w => w_clkdm_list w); clkdm_find n l
  end.

Definition clkdm_lookup (name : option string) : M world (option string) :=
  match name with
  | None => ret None
  | Some n => l ← gets (fun w => w_clkdm_list w); clkdm_find n l
  end.

(** [clkdm->pwrdm.ptr], where the union must hold a pointer. *)
Definition clkdm_pwrdm_ptr (c : clockdomain) : M world string :=
  match cd_pwrdm c with PwrdmPtr p => ret p | PwrdmName _ => fail NullDeref end.

(** [clkdm->pwrdm.ptr->prcm_offs] *)
Definition clkdm_prcm_offs (c : clockdomain) : M world Z :=
  p ← clkdm_pwrdm_ptr c; d ← get_pwrdm p; ret (pd_prcm_offs d).

Definition clkdm_get_pwrdm (clkdm : option string) : M world (option string) :=
  match clkdm with
  | None => ret None
  | Some c => d ← get_clkdm c; p ← clkdm_pwrdm_ptr d; ret (Some p)
  end.

Definition _clkdm_register (clkdm : option string) : M world Z :=
  match clkdm with
  | None => ret (- EINVAL)
  | Some c =>
      d ← get_clkdm c;
      ours ← omap_chip_is (cd_omap_chip d);
      if negb ours then ret (- EINVAL) else
      match cd_pwrdm d with
      | PwrdmPtr _ => fail NullDeref
      | PwrdmName n =>
          pwrdm ← pwrdm_lookup (Some n);
          match pwrdm with
          | None => ret (- EINVAL)
          | Some p =>
              upd_clkdm c (set_cd_pwrdm (PwrdmPtr p));;
              other ← _clkdm_lookup (Some (cd_name d));
              match other with
              | Some _ => ret (- EEXIST)
              | None =>
                  modify (fun w => set_w_clkdm_list (c :: w_clkdm_list w) w);;
                  pwrdm_add_clkdm (Some p) (Some c);;
                  ret 0
              end
          end
      end
  end.

(** The iterator stops at the first callback that does not return 0. *)
Fixpoint walk_clkdm_list (fn : string -> M world Z) (l : list string) (r : Z) : M world Z :=
  match l with
  | [] => ret r
  | c :: l' => r ← fn c; if negb (r =? 0) then ret r else walk_clkdm_list fn l' r
  end.

Definition clkdm_for_each (fn : option (string -> M world Z)) : M world Z :=
  match fn with
  | None => ret (- EINVAL)
  | Some fn => l ← gets (fun w => w_clkdm_list w); walk_clkdm_list fn l 0
  end.

(** ** Dependencies between clockdomains *)

(** Which of the two arrays of a clockdomain. *)
Inductive dep_array := wkdep_srcs | sleepdep_srcs.

Definition deps_of (a : dep_array) (d : clockdomain) : option (list clkdm_dep) :=
  match a with wkdep_srcs => cd_wkdep_srcs d | sleepdep_srcs => cd_sleepdep_srcs d end.
Definition set_deps_of (a : dep_array) (l : list clkdm_dep) (d : clockdomain) : clockdomain :=
  match a with
  | wkdep_srcs => set_cd_wkdep_srcs (Some l) d
  | sleepdep_srcs => set_cd_sleepdep_srcs (Some l) d
  end.

(** Element [i] of an array, and an assignment to it. *)
Definition get_dep (owner : string) (a : dep_array) (i : Z) : M world clkdm_dep :=
  d ← get_clkdm owner; l ← deref (deps_of a d); aget l i.
Definition upd_dep (owner : string) (a : dep_array) (i : Z)
    (f : clkdm_dep -> clkdm_dep) : M world unit :=
  d ← get_clkdm owner;
  l ← deref (deps_of a d);
  e ← aget l i;
  l' ← aset l i (f e);
  upd_clkdm owner (set_deps_of a l').

(** [if (!cd->clkdm && cd->clkdm_name) cd->clkdm = _clkdm_lookup(cd->clkdm_name)] *)
Definition resolve_dep (owner : string) (a : dep_array) (i : Z) : M world unit :=
  e ← get_dep owner a i;
  match dep_clkdm e with
  | Some _ => ret tt
  | None =>
      r ← _clkdm_lookup (Some (dep_clkdm_name e));
      upd_dep owner a i (set_dep_clkdm r)
  end.

Fixpoint deps_loop (clkdm owner : string) (a : dep_array) (idx : list Z) : M world (Z + Z) :=
  match idx with
  | [] => ret (inl (- ENOENT))
  | i :: idx' =>
      e ← get_dep owner a i;
      ours ← omap_chip_is (dep_omap_chip e);
      if negb ours then deps_loop clkdm owner a idx' else
      resolve_dep owner a i;;
      e ← get_dep owner a i;
      if decide (dep_clkdm e = Some clkdm) then ret (inr i) else deps_loop clkdm owner a idx'
  end.

(** ERR_PTR is [inl] of the error, a pointer to an element [inr] of its index. *)
Definition _clkdm_deps_lookup (clkdm : option string) (owner : string) (a : dep_array)
    : M world (Z + Z) :=
  match clkdm with
  | None => ret (inl (- EINVAL))
  | Some c =>
      o ← get_clkdm owner;
      match deps_of a o with
      | None => ret (inl (- EINVAL))
      | Some l =>
          d ← get_clkdm c;
          ours ← omap_chip_is (cd_omap_chip d);
          if negb ours then ret (inl (- EINVAL)) else
          deps_loop c owner a (seqZ 0 (Z.of_nat (length l)))
      end
  end.

Section Clockdomain.
  Context `{SOC : Soc} `{HW : Hardware}.

(** [atomic_inc_return] and [atomic_dec_return] on the use count of a dependency. *)
Definition dep_usecount_add (owner : string) (a : dep_array) (i n : Z) : M world Z :=
  e ← get_dep owner a i;
  match a with
  | wkdep_srcs =>
      let u := s32 (dep_wkdep_usecount e + n) in
      upd_dep owner a i (set_dep_wkdep_usecount u);; ret u
  | sleepdep_srcs =>
      let u := s32 (dep_sleepdep_usecount e + n) in
      upd_dep owner a i (set_dep_sleepdep_usecount u);; ret u
  end.

Definition clkdm_add_wkdep (clkdm1 clkdm2 : option string) : M world Z :=
  match clkdm1, clkdm2 with
  | Some c1, Some c2 =>
      cd ← _clkdm_deps_lookup clkdm2 c1 wkdep_srcs;
      match cd with
      | inl err => ret err
      | inr i =>
          u ← dep_usecount_add c1 wkdep_srcs i 1;
          when (u =? 1)
            (d2 ← get_clkdm c2; d1 ← get_clkdm c1; offs ← clkdm_prcm_offs d1;
             omap2_prm_set_mod_reg_bits (lsl 1 (cd_dep_bit d2)) offs PM_WKDEP;; ret tt);;
          ret 0
      end
  | _, _ => ret (- EINVAL)
  end.

Definition clkdm_del_wkdep (clkdm1 clkdm2 : option string) : M world Z :=
  match clkdm1, clkdm2 with
  | Some c1, Some c2 =>
      cd ← _clkdm_deps_lookup clkdm2 c1 wkdep_srcs;
      match cd with
      | inl err => ret err
      | inr i =>
          u ← dep_usecount_add c1 wkdep_srcs i (-1);
          when (u =? 0)
            (d2 ← get_clkdm c2; d1 ← get_clkdm c1; offs ← clkdm_prcm_offs d1;
             omap2_prm_clear_mod_reg_bits (lsl 1 (cd_dep_bit d2)) offs PM_WKDEP;; ret tt);;
          ret 0
      end
  | _, _ => ret (- EINVAL)
  end.

Definition clkdm_read_wkdep (clkdm1 clkdm2 : option string) : M world Z :=
  match clkdm1, clkdm2 with
  | Some c1, Some c2 =>
      cd ← _clkdm_deps_lookup clkdm2 c1 wkdep_srcs;
      match cd with
      | inl err => ret err
      | inr _ =>
          d2 ← get_clkdm c2; d1 ← get_clkdm c1; offs ← clkdm_prcm_offs d1;
          v ← omap2_prm_read_mod_bits_shift offs PM_WKDEP (lsl 1 (cd_dep_bit d2));
          ret (s32 v)
      end
  | _, _ => ret (- EINVAL)
  end.

(** The loop of the two [clkdm_clear_all_] functions, which builds the mask. *)
Fixpoint clear_deps_loop (clkdm : string) (a : dep_array) (idx : list Z) (mask : Z)
    : M world Z :=
  match idx with
  | [] => ret mask
  | i :: idx' =>
      e ← get_dep clkdm a i;
      ours ← omap_chip_is (dep_omap_chip e);
      if negb ours then clear_deps_loop clkdm a idx' mask else
      resolve_dep clkdm a i;;
      e ← get_dep clkdm a i;
      s ← deref (dep_clkdm e);
      ds ← get_clkdm s;
      upd_dep clkdm a i
        (match a with
         | wkdep_srcs => set_dep_wkdep_usecount 0
         | sleepdep_srcs => set_dep_sleepdep_usecount 0
         end);;
      clear_deps_loop clkdm a idx' (Z.lor mask (lsl 1 (cd_dep_bit ds)))
  end.

Definition deps_indices (a : dep_array) (d : clockdomain) : list Z :=
  match deps_of a d with None => [] | Some l => seqZ 0 (Z.of_nat (length l)) end.

Definition clkdm_clear_all_wkdeps (clkdm : option string) : M world Z :=
  match clkdm with
  | None => ret (- EINVAL)
  | Some c =>
      d ← get_clkdm c;
      mask ← clear_deps_loop c wkdep_srcs (deps_indices wkdep_srcs d) 0;
      d ← get_clkdm c;
      offs ← clkdm_prcm_offs d;
      omap2_prm_clear_mod_reg_bits mask offs PM_WKDEP;;
      ret 0
  end.

Definition clkdm_add_sleepdep (clkdm1 clkdm2 : option string) : M world Z :=
  if negb cpu_is_omap34xx then ret (- EINVAL) else
  match clkdm1, clkdm2 with
  | Some c1, Some c2 =>
      cd ← _clkdm_deps_lookup clkdm2 c1 sleepdep_srcs;
      match cd with
      | inl err => ret err
      | inr i =>
          u ← dep_usecount_add c1 sleepdep_srcs i 1;
          when (u =? 1)
            (d2 ← get_clkdm c2; d1 ← get_clkdm c1; offs ← clkdm_prcm_offs d1;
             omap2_cm_set_mod_reg_bits (lsl 1 (cd_dep_bit d2)) offs OMAP3430_CM_SLEEPDEP;;
             ret tt);;
          ret 0
      end
  | _, _ => ret (- EINVAL)
  end.

Definition clkdm_del_sleepdep (clkdm1 clkdm2 : option string) : M world Z :=
  if negb cpu_is_omap34xx then ret (- EINVAL) else
  match clkdm1, clkdm2 with
  | Some c1, Some c2 =>
      cd ← _clkdm_deps_lookup clkdm2 c1 sleepdep_srcs;
      match cd with
      | inl err => ret err
      | inr i =>
          u ← dep_usecount_add c1 sleepdep_srcs i (-1);
          when (u =? 0)
            (d2 ← get_clkdm c2; d1 ← get_clkdm c1; offs ← clkdm_prcm_offs d1;
             omap2_cm_clear_mod_reg_bits (lsl 1 (cd_dep_bit d2)) offs OMAP3430_CM_SLEEPDEP;;
             ret tt);;
          ret 0
      end
  | _, _ => ret (- EINVAL)
  end.

Definition clkdm_read_sleepdep (clkdm1 clkdm2 : option string) : M world Z :=
  if negb cpu_is_omap34xx then ret (- EINVAL) else
  match clkdm1, clkdm2 with
  | Some c1, Some c2 =>
      cd ← _clkdm_deps_lookup clkdm2 c1 sleepdep_srcs;
      match cd with
      | inl err => ret err
      | inr _ =>
          d2 ← get_clkdm c2; d1 ← get_clkdm c1; offs ← clkdm_prcm_offs d1;
          v ← omap2_prm_read_mod_bits_shift offs OMAP3430_CM_SLEEPDEP (lsl 1 (cd_dep_bit d2));
          ret (s32 v)
      end
  | _, _ => ret (- EINVAL)
  end.

Definition clkdm_clear_all_sleepdeps (clkdm : option string) : M world Z :=
  if negb cpu_is_omap34xx then ret (- EINVAL) else
  match clkdm with
  | None => ret (- EINVAL)
  | Some c =>
      d ← get_clkdm c;
      mask ← clear_deps_loop c sleepdep_srcs (deps_indices sleepdep_srcs d) 0;
      d ← get_clkdm c;
      offs ← clkdm_prcm_offs d;
      omap2_prm_clear_mod_reg_bits mask offs OMAP3430_CM_SLEEPDEP;;
      ret 0
  end.

(** ** Automatic dependencies *)

Definition _autodep_lookup (i : Z) : M world unit :=
  autodeps ← gets (fun w => w_autodeps w);
  l ← deref autodeps;
  a ← aget l i;
  ours ← omap_chip_is (ad_omap_chip a);
  if negb ours then ret tt else
  match ad_clkdm a with
  | AutoName n =>
      clkdm ← clkdm_lookup (Some n);
      l' ← aset l i (mkAutodep (match clkdm with Some c => AutoPtr c | None => AutoErr end)
                       (ad_omap_chip a));
      modify (fun w => set_w_autodeps (Some l') w)
  | _ => fail NullDeref
  end.

(** The loop of [_clkdm_add_autodeps] and [_clkdm_del_autodeps]. *)
Definition for_autodeps (body : string -> M world unit) : M world unit :=
  autodeps ← gets (fun w => w_autodeps w);
  match autodeps with
  | None => ret tt
  | Some l =>
      for_each l (fun a =>
        match ad_clkdm a with
        | AutoErr => ret tt
        | AutoName _ =>
            ours ← omap_chip_is (ad_omap_chip a);
            if negb ours then ret tt else fail NullDeref
        | AutoPtr c =>
            ours ← omap_chip_is (ad_omap_chip a);
            if negb ours then ret tt else body c
        end)
  end.

Definition _clkdm_add_autodeps (clkdm : string) : M world unit :=
  for_autodeps (fun c =>
    clkdm_add_sleepdep (Some clkdm) (Some c);;
    clkdm_add_wkdep (Some clkdm) (Some c);; ret tt).

Definition _clkdm_del_autodeps (clkdm : string) : M world unit :=
  for_autodeps (fun c =>
    clkdm_del_sleepdep (Some clkdm) (Some c);;
    clkdm_del_wkdep (Some clkdm) (Some c);; ret tt).

(** ** Hardware control *)

Definition _enable_hwsup (clkdm : string) : M world unit :=
  d ← get_clkdm clkdm;
  if cpu_is_omap24xx then
    offs ← clkdm_prcm_offs d; omap2xxx_cm_clkdm_enable_hwsup offs (cd_clktrctrl_mask d)
  else if cpu_is_omap34xx then
    offs ← clkdm_prcm_offs d; omap3xxx_cm_clkdm_enable_hwsup offs (cd_clktrctrl_mask d)
  else if cpu_is_ti81xx then
    ti81xx_cm_clkdm_enable_hwsup (cd_cm_inst d) (cd_clkdm_offs d) (cd_clktrctrl_mask d)
  else fail Bug.

Definition _disable_hwsup (clkdm : string) : M world unit :=
  d ← get_clkdm clkdm;
  if cpu_is_omap24xx then
    offs ← clkdm_prcm_offs d; omap2xxx_cm_clkdm_disable_hwsup offs (cd_clktrctrl_mask d)
  else if cpu_is_omap34xx then
    offs ← clkdm_prcm_offs d; omap3xxx_cm_clkdm_disable_hwsup offs (cd_clktrctrl_mask d)
  else if cpu_is_ti81xx then
    ti81xx_cm_clkdm_disable_hwsup (cd_cm_inst d) (cd_clkdm_offs d) (cd_clktrctrl_mask d)
  else fail Bug.

Definition omap2_clkdm_sleep (clkdm : option string) : M world Z :=
  match clkdm with
  | None => ret (- EINVAL)
  | Some c =>
      d ← get_clkdm c;
      if Z.land (cd_flags d) CLKDM_CAN_FORCE_SLEEP =? 0 then ret (- EINVAL) else
      (if cpu_is_omap24xx then
         offs ← clkdm_prcm_offs d;
         omap2_cm_set_mod_reg_bits OMAP24XX_FORCESTATE_MASK offs OMAP2_PM_PWSTCTRL;; ret tt
       else if cpu_is_omap34xx then
         offs ← clkdm_prcm_offs d; omap3xxx_cm_clkdm_force_sleep offs (cd_clktrctrl_mask d)
       else if cpu_is_ti81xx then
         ti81xx_cm_clkdm_force_sleep (cd_cm_inst d) (cd_clkdm_offs d) (cd_clktrctrl_mask d)
       else fail Bug);;
      ret 0
  end.

Definition omap2_clkdm_wakeup (clkdm : option string) : M world Z :=
  match clkdm with
  | None => ret (- EINVAL)
  | Some c =>
      d ← get_clkdm c;
      if Z.land (cd_flags d) CLKDM_CAN_FORCE_WAKEUP =? 0 then ret (- EINVAL) else
      (if cpu_is_omap24xx then
         offs ← clkdm_prcm_offs d;
         omap2_cm_clear_mod_reg_bits OMAP24XX_FORCESTATE_MASK offs OMAP2_PM_PWSTCTRL;; ret tt
       else if cpu_is_omap34xx then
         offs ← clkdm_prcm_offs d; omap3xxx_cm_clkdm_force_wakeup offs (cd_clktrctrl_mask d)
       else if cpu_is_ti81xx then
         ti81xx_cm_clkdm_force_wakeup (cd_cm_inst d) (cd_clkdm_offs d) (cd_clktrctrl_mask d)
       else fail Bug);;
      ret 0
  end.

Variable arch : option pwrdm_ops.

Definition omap2_clkdm_allow_idle (clkdm : option string) : M world unit :=
  match clkdm with
  | None => ret tt
  | Some c =>
      d ← get_clkdm c;
      if Z.land (cd_flags d) CLKDM_CAN_ENABLE_AUTO =? 0 then ret tt else
      when (negb (cpu_is_omap44xx || cpu_is_ti81xx))
        (when (0 <? cd_usecount d) (_clkdm_add_autodeps c));;
      _enable_hwsup c;;
      pwrdm_clkdm_state_switch arch (Some c);;
      ret tt
  end.

Definition omap2_clkdm_deny_idle (clkdm : option string) : M world unit :=
  match clkdm with
  | None => ret tt
  | Some c =>
      d ← get_clkdm c;
      if Z.land (cd_flags d) CLKDM_CAN_DISABLE_AUTO =? 0 then ret tt else
      _disable_hwsup c;;
      when (negb (cpu_is_omap44xx || cpu_is_ti81xx))
        (d ← get_clkdm c; when (0 <? cd_usecount d) (_clkdm_del_autodeps c))
  end.

Definition clkdm_init (clkdms : option (list string))
    (init_autodeps : option (list clkdm_autodep)) : M world unit :=
  (match clkdms with
   | None => ret tt
   | Some l => for_each l (fun c => _clkdm_register (Some c);; ret tt)
   end);;
  modify (fun w => set_w_autodeps init_autodeps w);;
  (match init_autodeps with
   | None => ret tt
   | Some l => for_each (seqZ 0 (Z.of_nat (length l))) _autodep_lookup
   end);;
  l ← gets (fun w => w_clkdm_list w);
  for_each l (fun c =>
    d ← get_clkdm c;
    (if negb (Z.land (cd_flags d) CLKDM_CAN_FORCE_WAKEUP =? 0)
     then omap2_clkdm_wakeup (Some c);; ret tt
     else when (negb (Z.land (cd_flags d) CLKDM_CAN_DISABLE_AUTO =? 0))
            (omap2_clkdm_deny_idle (Some c)));;
    clkdm_clear_all_wkdeps (Some c);;
    clkdm_clear_all_sleepdeps (Some c);;
    ret tt).

(** ** The interface to the clock framework

    [clkdm_hwsup] is the part the two functions share: None when they return at
    once (no CLKSTCTRL field on OMAP2 and OMAP3), else whether the clockdomain is
    hardware supervised, which is never read on this chip. *)
Definition clkdm_hwsup (d : clockdomain) : M world (option bool) :=
  if cpu_is_omap24xx || cpu_is_omap34xx then
    if cd_clktrctrl_mask d =? 0 then ret None else
    offs ← clkdm_prcm_offs d;
    b ← omap2_cm_is_clkdm_in_hwsup offs (cd_clktrctrl_mask d);
    ret (Some b)
  else ret (Some false).

Definition omap2_clkdm_clk_enable (clkdm clk : option string) : M world Z :=
  match clkdm, clk with
  | Some c, Some _ =>
      d ← get_clkdm c;
      let u := s32 (cd_usecount d + 1) in
      upd_clkdm c (set_cd_usecount u);;
      if 1 <? u then ret 0 else
      hwsup ← clkdm_hwsup d;
      match hwsup with
      | None => ret 0
      | Some hwsup =>
          (if (hwsup : bool) then
             _disable_hwsup c;; _clkdm_add_autodeps c;; _enable_hwsup c
           else omap2_clkdm_wakeup (Some c);; ret tt);;
          p ← clkdm_pwrdm_ptr d;
          pwrdm_wait_transition arch (Some p);;
          pwrdm_clkdm_state_switch arch (Some c);;
          ret 0
      end
  | _, _ => ret (- EINVAL)
  end.

Definition omap2_clkdm_clk_disable (clkdm clk : option string) : M world Z :=
  match clkdm, clk with
  | Some c, Some _ =>
      d ← get_clkdm c;
      let u := s32 (cd_usecount d - 1) in
      upd_clkdm c (set_cd_usecount u);;
      if 0 <? u then ret 0 else
      hwsup ← clkdm_hwsup d;
      match hwsup with
      | None => ret 0
      | Some hwsup =>
          (if (hwsup : bool) then
             _disable_hwsup c;; _clkdm_del_autodeps c;; _enable_hwsup c
           else omap2_clkdm_sleep (Some c);; ret tt);;
          pwrdm_clkdm_state_switch arch (Some c);;
          ret 0
      end
  | _, _ => ret (- EINVAL)
  end.

End Clockdomain.

(** ** The clockdomain tables (clockdomains81xx.h, clockdomains2xxx_3xxx_data.c),
    as compiled for the TI814x *)

(** A statically initialised object. *)
Definition static_clkdm (name pwrdm : string) (chip inst offs mask flags dep_bit : Z)
    : clockdomain :=
  mkClkdm name (PwrdmName pwrdm) mask flags dep_bit inst offs None None chip 0.

Definition wkup_clkdm : clockdomain :=
  static_clkdm "wkup_clkdm" "wkup_pwrdm" 0x7 0x0 0x0 0 0 4.
Definition prm_clkdm : clockdomain :=
  static_clkdm "prm_clkdm" "wkup_pwrdm" 0x7 0x0 0x0 0 0 0.
Definition cm_clkdm : clockdomain :=
  static_clkdm "cm_clkdm" "core_pwrdm" 0x7 0x0 0x0 0 0 0.
Definition alwon_l3_slow_81xx_clkdm : clockdomain :=
  static_clkdm "alwon_l3_slow_clkdm" "alwon_pwrdm" 0x7000 0x1400 0x0 3 3 0.
Definition alwon_ethernet_81xx_clkdm : clockdomain :=
  static_clkdm "alwon_ethernet_clkdm" "alwon_pwrdm" 0x7000 0x1400 0x4 3 3 0.
Definition alwon_ocmc_814x_clkdm : clockdomain :=
  static_clkdm "alwon_ocmc_clkdm" "alwon_pwrdm" 0x6000 0x1400 0x14 3 3 0.
Definition mmu_81xx_clkdm : clockdomain :=
  static_clkdm "mmu_clkdm" "alwon_pwrdm" 0x7000 0x1400 0xc 3 3 0.
Definition mmu_cfg_81xx_clkdm : clockdomain :=
  static_clkdm "mmu_cfg_clkdm" "alwon_pwrdm" 0x7000 0x1400 0x10 3 3 0.
Definition gem_814x_clkdm : clockdomain :=
  static_clkdm "gem_clkdm" "gem_pwrdm" 0x2000 0x400 0x0 3 3 0.
Definition ivahd_814x_clkdm : clockdomain :=
  static_clkdm "ivahd_clkdm" "ivahd_pwrdm" 0x6000 0x600 0x0 3 3 0.
Definition alwon2_mc_814x_clkdm : clockdomain :=
  static_clkdm "alwon2_mc_clkdm" "alwon_pwrdm" 0x6000 0x500 0x18 3 3 0.
Definition sgx_814x_clkdm : clockdomain :=
  static_clkdm "sgx_clkdm" "sgx_pwrdm" 0x2000 0x900 0x0 3 3 0.
Definition hdvpss_814x_clkdm : clockdomain :=
  static_clkdm "hdvpss_clkdm" "hdvpss_pwrdm" 0x6000 0x800 0x0 3 3 0.
Definition isp_814x_clkdm : clockdomain :=
  static_clkdm "isp_clkdm" "isp_pwrdm" 0x6000 0x700 0x0 3 3 0.
Definition alwon2_l3_med_814x_clkdm : clockdomain :=
  static_clkdm "alwon2_l3_med_clkdm" "alwon_pwrdm" 0x6000 0x500 0x4 3 3 0.
Definition alwon2_pcie_814x_clkdm : clockdomain :=
  static_clkdm "alwon2_pcie_clkdm" "alwon_pwrdm" 0x6000 0x500 0x10 3 3 0.
Definition alwon2_sata1_dm385_clkdm : clockdomain :=
  static_clkdm "alwon2_sata1_clkdm" "alwon_pwrdm" 0x4000 0x500 0xc 3 3 0.
Definition alwon2_usb_814x_clkdm : clockdomain :=
  static_clkdm "alwon2_usb_clkdm" "alwon_pwrdm" 0x6000 0x500 0x14 3 3 0.
Definition alwon_mpu_816x_clkdm : clockdomain :=
  static_clkdm "alwon_mpu_clkdm" "alwon_pwrdm" 0x1000 0x1400 0x1c 3 15 0.
Definition active_gem_816x_clkdm : clockdomain :=
  static_clkdm "active_gem_clkdm" "active_pwrdm" 0x1000 0x400 0x0 3 15 0.
Definition ivahd0_816x_clkdm : clockdomain :=
  static_clkdm "ivahd0_clkdm" "ivahd0_pwrdm" 0x1000 0x600 0x0 3 15 0.
Definition ivahd1_816x_clkdm : clockdomain :=
  static_clkdm "ivahd1_clkdm" "ivahd1_pwrdm" 0x1000 0x700 0x0 3 15 0.
Definition ivahd2_816x_clkdm : clockdomain :=
  static_clkdm "ivahd2_clkdm" "ivahd2_pwrdm" 0x1000 0x800 0x0 3 15 0.
Definition sgx_816x_clkdm : clockdomain :=
  static_clkdm "sgx_clkdm" "sgx_pwrdm" 0x1000 0x900 0x0 3 15 0.
Definition default_l3_med_816x_clkdm : clockdomain :=
  static_clkdm "default_l3_med_clkdm" "default_pwrdm" 0x1000 0x500 0x4 3 15 0.
Definition default_ducati_816x_clkdm : clockdomain :=
  static_clkdm "default_ducati_clkdm" "default_pwrdm" 0x1000 0x500 0x18 3 15 0.
Definition default_pcie_816x_clkdm : clockdomain :=
  static_clkdm "default_pcie_clkdm" "default_pwrdm" 0x1000 0x500 0x10 3 15 0.
Definition default_usb_816x_clkdm : clockdomain :=
  static_clkdm "default_usb_clkdm" "default_pwrdm" 0x1000 0x500 0x14 3 15 0.

Definition clkdm_autodeps : list clkdm_autodep :=
  [mkAutodep (AutoName "mpu_clkdm") 4; mkAutodep (AutoName "iva2_clkdm") 4].

Definition clockdomains_omap2 : list string :=
  ["wkup_clkdm"; "cm_clkdm"; "prm_clkdm"; "alwon_mpu_816x_clkdm";
   "alwon_l3_slow_81xx_clkdm"; "alwon_ethernet_81xx_clkdm";
   "alwon_ocmc_814x_clkdm"; "mmu_81xx_clkdm"; "mmu_cfg_81xx_clkdm";
   "gem_814x_clkdm"; "ivahd_814x_clkdm"; "alwon2_mc_814x_clkdm";
   "sgx_814x_clkdm"; "hdvpss_814x_clkdm"; "isp_814x_clkdm";
   "alwon2_l3_med_814x_clkdm"; "alwon2_pcie_814x_clkdm";
   "alwon2_sata1_dm385_clkdm"; "alwon2_usb_814x_clkdm";
   "active_gem_816x_clkdm"; "ivahd0_816x_clkdm"; "ivahd1_816x_clkdm";
   "ivahd2_816x_clkdm"; "sgx_816x_clkdm"; "default_l3_med_816x_clkdm";
   "default_ducati_816x_clkdm"; "default_pcie_816x_clkdm";
   "default_usb_816x_clkdm"].

Definition omap2_clkdm_store : gmap string clockdomain :=
  list_to_map (zip clockdomains_omap2
    [wkup_clkdm; cm_clkdm; prm_clkdm; alwon_mpu_816x_clkdm;
     alwon_l3_slow_81xx_clkdm; alwon_ethernet_81xx_clkdm; alwon_ocmc_814x_clkdm;
     mmu_81xx_clkdm; mmu_cfg_81xx_clkdm; gem_814x_clkdm; ivahd_814x_clkdm;
     alwon2_mc_814x_clkdm; sgx_814x_clkdm; hdvpss_814x_clkdm; isp_814x_clkdm;
     alwon2_l3_med_814x_clkdm; alwon2_pcie_814x_clkdm; alwon2_sata1_dm385_clkdm;
     alwon2_usb_814x_clkdm; active_gem_816x_clkdm; ivahd0_816x_clkdm;
     ivahd1_816x_clkdm; ivahd2_816x_clkdm; sgx_816x_clkdm;
     default_l3_med_816x_clkdm; default_ducati_816x_clkdm;
     default_pcie_816x_clkdm; default_usb_816x_clkdm]).

Definition omap2_clockdomains_init `{SOC : Soc} `{HW : Hardware} : M world unit :=
  clkdm_init (Some clockdomains_omap2) (Some clkdm_autodeps).

(** ** Lemmas *)

(** The CLKSTCTRL register of a TI81xx clockdomain. *)
Definition clkstctrl_addr `{SOC : Soc} (d : clockdomain) : Z :=
  cm_base + cd_cm_inst d + cd_clkdm_offs d.

(** The state [w'] differs from [w] in one clockdomain, in the bookkeeping of its
    powerdomain and on the bus, where the new accesses are [l]. *)
Record clkdm_step (c : string) (d : clockdomain) (p : string) (pd : powerdomain)
    (l : list io_event) (h : list Z) (w w' : world) : Prop := {
  cs_pwrdm : exists pd', same_config pd pd' /\ (exists obs, tracks (obs ++ h) pd') /\
    w' = set_w_trace (l ++ w_trace w)
           (set_w_pwrdms (<[p := pd']> (w_pwrdms w))
              (set_w_clkdms (<[c := d]> (w_clkdms w)) w))
}.

Section EnableLemmas.
  Context `{SOC : Soc} `{HW : Hardware} (arch : option pwrdm_ops).
  Context `{LAWS : !PwrdmArchLaws arch}.

Lemma clkdm_state_switch_wp c d p pd h w :
  w_clkdms w !! c = Some d -> cd_pwrdm d = PwrdmPtr p ->
  w_pwrdms w !! p = Some pd -> tracks h pd ->
  wp (pwrdm_clkdm_state_switch arch (Some c))
     (fun r w' => exists l, forallb quiet l = true /\ clkdm_step c d p pd l h w w') w.
Proof.
  intros Hc Hd Hp Ht. unfold pwrdm_clkdm_state_switch. wp_step. rewrite Hd. wp_pure.
  eapply wp_mono; [by eapply wait_transition_law|]. cbn beta.
  intros _ w1 (l1 & Hl1 & ->). wp_pure.
  eapply wp_mono; [by eapply state_switch_spec|]. cbn beta.
  intros r w2 (_ & pd' & l2 & Hl2 & -> & Ht' & Hcfg). exists (l2 ++ l1).
  split; [by rewrite forallb_app, Hl1, Hl2|]. split. exists pd'. split; [done|].
  split; [eexists [_]; exact Ht'|]. cbn. by rewrite <- app_assoc, (insert_id (w_clkdms w)).
Qed.

Context (Hti : cpu_is_ti81xx = true).

(** A forced transition writes the CLKTRCTRL field alone. *)
Definition ctrl_write (d : clockdomain) (v : Z) (w : world) : io_event :=
  IoWrite (clkstctrl_addr d) (field_set (cd_clktrctrl_mask d) v (regval w (clkstctrl_addr d))).

(** The bus accesses of a function that forces the state [v] if the clockdomain has
    the capability [flag]. *)
Definition force_io (d : clockdomain) (flag v : Z) (w : world) : list io_event :=
  if Z.land (cd_flags d) flag =? 0 then []
  else [ctrl_write d v w; IoRead (clkstctrl_addr d) (regval w (clkstctrl_addr d))].

Lemma wakeup_spec c d w :
  w_clkdms w !! c = Some d ->
  wp (omap2_clkdm_wakeup (Some c))
     (fun r w' =>
        r = (if Z.land (cd_flags d) CLKDM_CAN_FORCE_WAKEUP =? 0 then - EINVAL else 0) /\
        w' = set_w_trace (force_io d CLKDM_CAN_FORCE_WAKEUP
               OMAP34XX_CLKSTCTRL_FORCE_WAKEUP w ++ w_trace w) w) w.
Proof.
  intros Hc. unfold omap2_clkdm_wakeup, force_io. wp_step.
  destruct (Z.land (cd_flags d) CLKDM_CAN_FORCE_WAKEUP =? 0); wp_pure; [done|].
  cbn [cpu_is_omap24xx cpu_is_omap34xx]. rewrite Hti.
  unfold ti81xx_cm_clkdm_force_wakeup, _ti81xx_write_clktrctrl, omap2_cm_read_mod_reg,
    omap2_cm_write_mod_reg. do 2 wp_step. done.
Qed.

Lemma sleep_spec c d w :
  w_clkdms w !! c = Some d ->
  wp (omap2_clkdm_sleep (Some c))
     (fun r w' =>
        r = (if Z.land (cd_flags d) CLKDM_CAN_FORCE_SLEEP =? 0 then - EINVAL else 0) /\
        w' = set_w_trace (force_io d CLKDM_CAN_FORCE_SLEEP
               OMAP34XX_CLKSTCTRL_FORCE_SLEEP w ++ w_trace w) w) w.
Proof.
  intros Hc. unfold omap2_clkdm_sleep, force_io. wp_step.
  destruct (Z.land (cd_flags d) CLKDM_CAN_FORCE_SLEEP =? 0); wp_pure; [done|].
  cbn [cpu_is_omap24xx cpu_is_omap34xx]. rewrite Hti.
  unfold ti81xx_cm_clkdm_force_sleep, _ti81xx_write_clktrctrl, omap2_cm_read_mod_reg,
    omap2_cm_write_mod_reg. do 2 wp_step. done.
Qed.

Lemma clkdm_step_io c d p pd l1 l2 h w w' :
  clkdm_step c d p pd l2 h (set_w_trace (l1 ++ w_trace w) w) w' ->
  clkdm_step c d p pd (l2 ++ l1) h w w'.
Proof.
  intros [(pd' & Hc & Ht & ->)]. split. exists pd'. split; [done|]. split; [done|].
  cbn. by rewrite app_assoc.
Qed.

Lemma clkdm_step_upd c d0 d p pd l h w w' :
  clkdm_step c d p pd l h (set_w_clkdms (<[c := d0]> (w_clkdms w)) w) w' ->
  clkdm_step c d p pd l h w w'.
Proof.
  intros [(pd' & Hc & Ht & ->)]. split. exists pd'. split; [done|]. split; [done|].
  cbn. by rewrite insert_insert_eq.
Qed.

(** The accesses [l] force a state and then only read. *)
Definition force_step (d : clockdomain) (flag v : Z) (l : list io_event) (w : world) : Prop :=
  exists l', forallb quiet l' = true /\ l = l' ++ force_io d flag v w.

Lemma clkdm_step_refl c d p pd h w :
  w_pwrdms w !! p = Some pd -> tracks h pd ->
  clkdm_step c d p pd [] h w (set_w_clkdms (<[c := d]> (w_clkdms w)) w).
Proof.
  intros Hp Ht. split. exists pd. split; [done|]. split; [by exists []|].
  cbn. by rewrite (insert_id (w_pwrdms w)).
Qed.

Lemma clk_enable_spec c k d p pd h w :
  w_clkdms w !! c = Some d -> cd_pwrdm d = PwrdmPtr p ->
  w_pwrdms w !! p = Some pd -> tracks h pd ->
  let u := s32 (cd_usecount d + 1) in
  wp (omap2_clkdm_clk_enable arch (Some c) (Some k))
     (fun r w' => r = 0 /\ exists l,
        clkdm_step c (set_cd_usecount u d) p pd l h w w' /\
        if 1 <? u then l = []
        else force_step d CLKDM_CAN_FORCE_WAKEUP OMAP34XX_CLKSTCTRL_FORCE_WAKEUP l w) w.
Proof.
  intros Hc Hd Hp Ht u. unfold omap2_clkdm_clk_enable. do 2 wp_step. fold u.
  destruct (1 <? u) eqn:Hu; wp_pure.
  { split; [done|]. exists []. split; [by apply clkdm_step_refl | done]. }
  unfold clkdm_hwsup. cbn [orb cpu_is_omap24xx cpu_is_omap34xx]. wp_pure.
  eapply wp_mono; [apply wakeup_spec, lookup_insert_eq|]. cbn beta.
  intros _ w0 [_ ->]. wp_pure. unfold clkdm_pwrdm_ptr. rewrite Hd. wp_pure.
  eapply wp_mono; [eapply wait_transition_law; exact Hp|]. cbn beta.
  intros _ w1 (l1 & Hl1 & ->). wp_pure.
  eapply wp_mono;
    [eapply clkdm_state_switch_wp; [apply lookup_insert_eq | exact Hd | exact Hp | exact Ht]|].
  cbn beta. intros _ w2 (l2 & Hl2 & Hs). wp_pure. split; [done|].
  apply clkdm_step_io, clkdm_step_io, clkdm_step_upd in Hs. eexists. split; [exact Hs|].
  exists (l2 ++ l1). split; [by rewrite forallb_app, Hl1, Hl2 | done].
Qed.

Lemma clk_disable_spec c k d p pd h w :
  w_clkdms w !! c = Some d -> cd_pwrdm d = PwrdmPtr p ->
  w_pwrdms w !! p = Some pd -> tracks h pd ->
  let u := s32 (cd_usecount d - 1) in
  wp (omap2_clkdm_clk_disable arch (Some c) (Some k))
     (fun r w' => r = 0 /\ exists l,
        clkdm_step c (set_cd_usecount u d) p pd l h w w' /\
        if 0 <? u then l = []
        else force_step d CLKDM_CAN_FORCE_SLEEP OMAP34XX_CLKSTCTRL_FORCE_SLEEP l w) w.
Proof.
  intros Hc Hd Hp Ht u. unfold omap2_clkdm_clk_disable. do 2 wp_step. fold u.
  destruct (0 <? u) eqn:Hu; wp_pure.
  { split; [done|]. exists []. split; [by apply clkdm_step_refl | done]. }
  unfold clkdm_hwsup. cbn [orb cpu_is_omap24xx cpu_is_omap34xx]. wp_pure.
  eapply wp_mono; [apply sleep_spec, lookup_insert_eq|]. cbn beta.
  intros _ w0 [_ ->]. wp_pure.
  eapply wp_mono;
    [eapply clkdm_state_switch_wp; [apply lookup_insert_eq | exact Hd | exact Hp | exact Ht]|].
  cbn beta. intros _ w2 (l2 & Hl2 & Hs). wp_pure. split; [done|].
  apply clkdm_step_io, clkdm_step_upd in Hs. eexists. split; [exact Hs|].
  by exists l2.
Qed.

(** What the forced state leaves in a plain control register. *)
Lemma force_step_ctrl d flag v l w w' :
  plain_reg (clkstctrl_addr d) -> field_fits (cd_clktrctrl_mask d) v = true ->
  Z.land (cd_flags d) flag <> 0 -> force_step d flag v l w -> w_trace w' = l ++ w_trace w ->
  field_get (cd_clktrctrl_mask d) (regval w' (clkstctrl_addr d)) = v.
Proof.
  intros Hr Hfit Hf (l' & Hq & ->) Hw. unfold regval. rewrite Hw, <- app_assoc.
  rewrite plain_quiet by done. unfold force_io. rewrite (proj2 (Z.eqb_neq _ _) Hf).
  cbn [app]. rewrite Hr. unfold ctrl_write. rewrite Z.eqb_refl.
  rewrite wrapu_small by apply field_set_uint, regval_uint. by apply field_get_set.
Qed.
End EnableLemmas.

(** ** Properties *)

(** A history of clock enables ([true]) and disables ([false]) inside a
    clockdomain, the use count it leads to, and whether the count stays within
    an [int] and never drops below 0. *)
Definition count_after (n : Z) (ops : list bool) : Z :=
  fold_left (fun m (b : bool) => if b then m + 1 else m - 1) ops n.

Fixpoint counts_ok (n : Z) (ops : list bool) : bool :=
  match ops with
  | [] => true
  | b :: ops' =>
      let m := if b : bool then n + 1 else n - 1 in
      (0 <=? m) && (m <? 2 ^ 31) && counts_ok m ops'
  end.

Section Refcount.
  Context `{SOC : Soc} `{HW : Hardware} (arch : option pwrdm_ops).

Definition clkdm_op (c k : string) (b : bool) : M world unit :=
  (if b then omap2_clkdm_clk_enable arch (Some c) (Some k)
   else omap2_clkdm_clk_disable arch (Some c) (Some k));; ret tt.

(** The clockdomain [c] is [d] with use count [n], and commanded to be awake while
    it is in use. *)
Record clkdm_in_use (c : string) (d : clockdomain) (n : Z) (w : world) : Prop := {
  iu_clkdm : w_clkdms w !! c = Some (set_cd_usecount n d);
  iu_pwrdm : exists p pd h, cd_pwrdm d = PwrdmPtr p /\ w_pwrdms w !! p = Some pd /\ tracks h pd;
  iu_awake : 0 < n -> field_get (cd_clktrctrl_mask d) (regval w (clkstctrl_addr d)) =
               OMAP34XX_CLKSTCTRL_FORCE_WAKEUP
}.

(** A clockdomain as the TI814x tables have them. *)
Record swsup_clkdm (d : clockdomain) : Prop := {
  sw_sleep : Z.land (cd_flags d) CLKDM_CAN_FORCE_SLEEP <> 0;
  sw_wakeup : Z.land (cd_flags d) CLKDM_CAN_FORCE_WAKEUP <> 0;
  sw_fits_sleep : field_fits (cd_clktrctrl_mask d) OMAP34XX_CLKSTCTRL_FORCE_SLEEP = true;
  sw_fits_wakeup : field_fits (cd_clktrctrl_mask d) OMAP34XX_CLKSTCTRL_FORCE_WAKEUP = true
}.

Context `{LAWS : !PwrdmArchLaws arch} (Hti : cpu_is_ti81xx = true).

Lemma in_use_step c d n w w' p pd l h m :
  cd_pwrdm d = PwrdmPtr p ->
  clkdm_step c (set_cd_usecount m (set_cd_usecount n d)) p pd l h w w' ->
  (0 < m -> field_get (cd_clktrctrl_mask d) (regval w' (clkstctrl_addr d)) =
              OMAP34XX_CLKSTCTRL_FORCE_WAKEUP) ->
  clkdm_in_use c d m w'.
Proof.
  intros Hd [(pd' & _ & [obs Ht] & ->)] Ha. split; [apply lookup_insert_eq | | done].
  exists p, pd', (obs ++ h). split; [done|]. split; [apply lookup_insert_eq | done].
Qed.

Lemma clkdm_op_wp c k d n b w :
  plain_reg (clkstctrl_addr d) -> swsup_clkdm d -> clkdm_in_use c d n w ->
  0 <= n -> counts_ok n [b] = true ->
  let m := count_after n [b] in
  wp (clkdm_op c k b)
     (fun _ w' => clkdm_in_use c d m w' /\
        field_get (cd_clktrctrl_mask d) (regval w' (clkstctrl_addr d)) =
        if 0 <? m then OMAP34XX_CLKSTCTRL_FORCE_WAKEUP else OMAP34XX_CLKSTCTRL_FORCE_SLEEP) w.
Proof.
  intros Hr Hsw [Hc (p & pd & h & Hd & Hp & Ht) Ha] Hn Hok m.
  destruct Hsw as [Hs Hw Hfs Hfw]. unfold clkdm_op. cbn in Hok. subst m. cbn [count_after fold_left].
  destruct b; wp_pure; bool_to_prop.
  - eapply wp_mono; [eapply (clk_enable_spec arch Hti); [exact Hc | exact Hd | exact Hp | exact Ht]|].
    cbn beta zeta. intros _ w' (_ & l & Hst & Hl). wp_pure. cbn [cd_usecount set_cd_usecount] in *.
    rewrite wraps_small in * by lia.
    assert (field_get (cd_clktrctrl_mask d) (regval w' (clkstctrl_addr d)) =
            OMAP34XX_CLKSTCTRL_FORCE_WAKEUP) as E.
    { destruct (Z.ltb_spec 1 (n + 1)) as [Hgt|Hle].
      - subst l. destruct Hst as [(pd' & _ & _ & ->)]. by apply Ha; lia.
      - eapply (force_step_ctrl (set_cd_usecount n d)); [done | done | exact Hw | exact Hl |].
        destruct Hst as [(pd' & _ & _ & ->)]. done. }
    split; [by eapply in_use_step|]. by rewrite (proj2 (Z.ltb_lt 0 (n + 1))) by lia.
  - eapply wp_mono; [eapply (clk_disable_spec arch Hti); [exact Hc | exact Hd | exact Hp | exact Ht]|].
    cbn beta zeta. intros _ w' (_ & l & Hst & Hl). wp_pure. cbn [cd_usecount set_cd_usecount] in *.
    rewrite wraps_small in * by lia.
    assert (field_get (cd_clktrctrl_mask d) (regval w' (clkstctrl_addr d)) =
            if 0 <? n - 1 then OMAP34XX_CLKSTCTRL_FORCE_WAKEUP
            else OMAP34XX_CLKSTCTRL_FORCE_SLEEP) as E.
    { destruct (Z.ltb_spec 0 (n - 1)) as [Hgt|Hle].
      - subst l. destruct Hst as [(pd' & _ & _ & ->)]. by apply Ha; lia.
      - eapply (force_step_ctrl (set_cd_usecount n d)); [done | done | exact Hs | exact Hl |].
        destruct Hst as [(pd' & _ & _ & ->)]. done. }
    split; [|exact E]. eapply in_use_step; [exact Hd | exact Hst |].
    intros Hpos. rewrite E. by rewrite (proj2 (Z.ltb_lt 0 (n - 1))).
Qed.
End Refcount.

(** C38: a clockdomain's use count refines the history of clock enables and disables
    in it, and the hardware follows: after any sequence that keeps the count between
    0 and 2^31 - 1 the count is the number of clocks in use, and the CLKTRCTRL field
    commands the domain awake exactly when that number is not 0, asleep otherwise. *)
Theorem clkdm_usecount_refines_history `{SOC : Soc} `{HW : Hardware} arch
    `{LAWS : !PwrdmArchLaws arch} c k d n ops op w :
  cpu_is_ti81xx = true -> plain_reg (clkstctrl_addr d) -> swsup_clkdm d ->
  clkdm_in_use c d n w -> 0 <= n -> counts_ok n (op :: ops) = true ->
  let m := count_after n (op :: ops) in
  wp (for_each (op :: ops) (clkdm_op arch c k))
     (fun _ w' => clkdm_in_use c d m w' /\
        field_get (cd_clktrctrl_mask d) (regval w' (clkstctrl_addr d)) =
        if 0 <? m then OMAP34XX_CLKSTCTRL_FORCE_WAKEUP else OMAP34XX_CLKSTCTRL_FORCE_SLEEP) w.
Proof.
  intros Hti Hr Hsw. revert op n w. induction ops as [|op' ops IH]; intros op n w Hu Hn Hok m.
  - cbn [for_each]. wp_pure. eapply wp_mono; [by apply clkdm_op_wp|]. cbn beta. by intros [] w' H.
  - cbn [for_each]. wp_pure. cbn [counts_ok] in Hok. apply andb_true_iff in Hok as [H1 H2].
    eapply wp_mono; [apply (clkdm_op_wp arch Hti c k d n op w Hr Hsw Hu Hn);
                     cbn [counts_ok]; by rewrite H1|].
    cbn beta. intros [] w' [Hu' _]. apply IH; [exact Hu' | | exact H2].
    cbn. destruct op; bool_to_prop; lia.
Qed.

Lemma clkdm_find_spec name l w :
  (forall c, c ∈ l -> is_Some (w_clkdms w !! c)) ->
  wp (clkdm_find name l)
     (fun r w' => w' = w /\
        match r with
        | Some c => c ∈ l /\ exists d, w_clkdms w !! c = Some d /\ cd_name d = name
        | None => forall c d, c ∈ l -> w_clkdms w !! c = Some d -> cd_name d <> name
        end) w.
Proof.
  induction l as [|t l IH]; intros Hex; cbn [clkdm_find].
  - wp_pure. split; [done|]. intros p d Hp. by apply elem_of_nil in Hp.
  - destruct (Hex t) as [d Hd]; [left|]. wp_step.
    destruct (String.eqb_spec name (cd_name d)) as [->|Hne]; wp_pure.
    + split; [done|]. split; [left | by exists d].
    + eapply wp_mono; [apply IH; intros; apply Hex; by right|]. cbn beta.
      intros [p|] w' [-> Hr]; (split; [done|]).
      * destruct Hr as [Hin Hr]. split; [by right | done].
      * intros p d' [->|Hin]%elem_of_cons Hp; [congruence | by eapply Hr].
Qed.

(** Registering a clockdomain, on every path: a clockdomain of another chip or
    of an unknown powerdomain is refused with -EINVAL and nothing changes; one with a
    taken name is refused with -EEXIST, but by then its powerdomain name has already
    been replaced by the pointer; otherwise it is at the head of the list, linked to
    the powerdomain of that name. *)
Theorem clkdm_register_correct c d pn w :
  w_clkdms w !! c = Some d -> cd_pwrdm d = PwrdmName pn ->
  (forall q, q ∈ w_pwrdm_list w -> is_Some (w_pwrdms w !! q)) ->
  (forall e, e ∈ w_clkdm_list w -> is_Some (w_clkdms w !! e)) ->
  (forall q e, w_pwrdms w !! q = Some e -> length (pd_clkdms e) = 12%nat) ->
  wp (_clkdm_register (Some c))
     (fun r w' =>
        r = - EINVAL /\ w' = w /\
          (Z.land (cd_omap_chip d) (w_omap_chip w) = 0 \/
           forall q e, q ∈ w_pwrdm_list w -> w_pwrdms w !! q = Some e -> pd_name e <> pn) \/
        exists p pd, w_pwrdms w !! p = Some pd /\ pd_name pd = pn /\ p ∈ w_pwrdm_list w /\
          w_clkdms w' = <[c := set_cd_pwrdm (PwrdmPtr p) d]> (w_clkdms w) /\
          (r = - EEXIST /\ w_clkdm_list w' = w_clkdm_list w /\ w_pwrdms w' = w_pwrdms w /\
             (exists e f, e ∈ w_clkdm_list w /\ w_clkdms w' !! e = Some f /\
                cd_name f = cd_name d) \/
           r = 0 /\ w_clkdm_list w' = c :: w_clkdm_list w /\
             (None ∈ pd_clkdms pd ->
              exists pd', w_pwrdms w' !! p = Some pd' /\ Some c ∈ pd_clkdms pd'))) w.
Proof.
  intros Hc Hd Hpl Hcl Hlen. unfold _clkdm_register, omap_chip_is. wp_step.
  destruct (Z.land (cd_omap_chip d) (w_omap_chip w) =? 0) eqn:Hchip; cbn [negb]; wp_pure.
  { apply Z.eqb_eq in Hchip. left. auto. }
  rewrite Hd. unfold pwrdm_lookup, _pwrdm_lookup. wp_pure.
  eapply wp_mono; [by apply pwrdm_find_spec|]. cbn beta. intros [p|] w1 [-> Hr]; wp_pure;
    [|left; auto].
  destruct Hr as (Hin & pd & Hp & Hn). wp_step. cbn [_clkdm_lookup]. wp_pure.
  eapply wp_mono; [apply clkdm_find_spec|].
  { intros e He. cbn in *. destruct (decide (e = c)) as [->|].
    - rewrite lookup_insert_eq. eauto.
    - rewrite lookup_insert_ne by congruence. by apply Hcl. }
  cbn beta. intros [e|] w2 [-> Hr]; wp_pure.
  - right. exists p, pd. split_and!; try done. left. split_and!; try done.
    destruct Hr as (He & f & Hf & Hnm). by exists e, f.
  - eapply wp_mono; [eapply pwrdm_add_clkdm_spec; [exact Hp | by eapply Hlen]|]. cbn beta.
    intros r w' Hw. wp_pure. right. exists p, pd. split_and!; try done.
    + by destruct (decide (None ∈ pd_clkdms pd)); destruct Hw as [_ ->].
    + right. split; [done|]. split; [by destruct (decide (None ∈ pd_clkdms pd)); destruct Hw as [_ ->]|].
      intros Hf. destruct (decide (None ∈ pd_clkdms pd)); [|done]. destruct Hw as [_ ->].
      apply free_slot_spec in Hf as [Hlt _]. eexists. split; [apply lookup_insert_eq|].
      apply list_elem_of_lookup_2 with (free_slot pd). by apply list_lookup_insert_eq.
Qed.

(** ** Booting the DM8148 tables *)

Section Boot.
  #[local] Existing Instance dm8148_soc.
  #[local] Existing Instance ram_hw.

(** The state before the power management tables are registered. *)
Definition boot_pm_world : world := set_w_clkdms omap2_clkdm_store boot_pwrdm_world.

Definition pm_boot : M world unit :=
  ti81xx_powerdomains_init;; omap2_clockdomains_init.

(** The state after it, on registers that are plain memory. *)
Definition booted_pm_world : world :=
  Eval vm_compute in
    match pm_boot boot_pm_world with Done _ w => w | Fault _ => empty_world end.

(** Registering the whole TI81xx powerdomain and clockdomain tables on a DM8148
    succeeds: exactly the powerdomains and clockdomains of the TI814x are registered,
    each clockdomain is linked to the powerdomain its table entry names, and every
    CLKTRCTRL field is left in forced wakeup. *)
Theorem pm_boot_correct :
  pm_boot boot_pm_world = Done tt booted_pm_world /\
  reverse (w_pwrdm_list booted_pm_world) =
    filter (fun p => Z.testbit (from_option pd_omap_chip 0 (ti81xx_pwrdm_store !! p)) 13)
      powerdomains_ti81xx /\
  reverse (w_clkdm_list booted_pm_world) =
    filter (fun c => Z.testbit (from_option cd_omap_chip 0 (omap2_clkdm_store !! c)) 13)
      clockdomains_omap2 /\
  forallb (fun c =>
    match w_clkdms booted_pm_world !! c, omap2_clkdm_store !! c with
    | Some d, Some d0 =>
        match cd_pwrdm d, cd_pwrdm d0 with
        | PwrdmPtr p, PwrdmName n =>
            match w_pwrdms booted_pm_world !! p with
            | Some pd => String.eqb (pd_name pd) n && bool_decide (Some c ∈ pd_clkdms pd)
            | None => false
            end
        | _, _ => false
        end &&
        (field_get (cd_clktrctrl_mask d) (regval booted_pm_world (clkstctrl_addr d))
           =? OMAP34XX_CLKSTCTRL_FORCE_WAKEUP)
    | _, _ => false
    end) (w_clkdm_list booted_pm_world) = true.
Proof. split_and!; vm_compute; reflexivity. Qed.

Lemma sgx_in_use :
  clkdm_in_use "sgx_814x_clkdm" (set_cd_pwrdm (PwrdmPtr "sgx_814x_pwrdm") sgx_814x_clkdm) 0
    booted_pm_world.
Proof.
  split; [vm_compute; reflexivity | | lia].
  destruct (w_pwrdms booted_pm_world !! "sgx_814x_pwrdm") as [pd|] eqn:E;
    [|vm_compute in E; discriminate].
  exists "sgx_814x_pwrdm", pd, [0]. split; [done|]. split; [done|].
  vm_compute in E. injection E as <-.
  split; [by eexists | done | done | done |]. intros s Hs. unfold PWRDM_MAX_PWRSTS in Hs.
  assert (s = 0 \/ s = 1 \/ s = 2 \/ s = 3) as [->|[->|[->| ->]]] by lia; done.
Qed.

Lemma clkdm_usecount_refines_history_witness :
  let d := set_cd_pwrdm (PwrdmPtr "sgx_814x_pwrdm") sgx_814x_clkdm in
  wp (for_each [true; true; false]
        (clkdm_op (Some ti81xx_pwrdm_operations) "sgx_814x_clkdm" "sgx_ck"))
     (fun _ w' => clkdm_in_use "sgx_814x_clkdm" d 1 w' /\
        field_get (cd_clktrctrl_mask d) (regval w' (clkstctrl_addr d)) =
          OMAP34XX_CLKSTCTRL_FORCE_WAKEUP) booted_pm_world.
Proof.
  apply (clkdm_usecount_refines_history (Some ti81xx_pwrdm_operations) _ _
           (set_cd_pwrdm (PwrdmPtr "sgx_814x_pwrdm") sgx_814x_clkdm) 0 [true; false] true);
    [reflexivity | apply ram_hw_plain | | exact sgx_in_use | lia | reflexivity].
  split; vm_compute; (reflexivity || discriminate).
Defined.

Lemma clkdm_register_correct_witness :
  let w := set_w_clkdms omap2_clkdm_store sgx_world in
  wp (_clkdm_register (Some "sgx_814x_clkdm"))
     (fun r w' => r = - EINVAL /\ w' = w /\
          (Z.land (cd_omap_chip sgx_814x_clkdm) (w_omap_chip w) = 0 \/
           forall q e, q ∈ w_pwrdm_list w -> w_pwrdms w !! q = Some e ->
             pd_name e <> "sgx_pwrdm") \/
        exists p pd, w_pwrdms w !! p = Some pd /\ pd_name pd = "sgx_pwrdm" /\
          p ∈ w_pwrdm_list w /\
          w_clkdms w' = <["sgx_814x_clkdm" := set_cd_pwrdm (PwrdmPtr p) sgx_814x_clkdm]>
                          (w_clkdms w) /\
          (r = - EEXIST /\ w_clkdm_list w' = w_clkdm_list w /\ w_pwrdms w' = w_pwrdms w /\
             (exists e f, e ∈ w_clkdm_list w /\ w_clkdms w' !! e = Some f /\
                cd_name f = cd_name sgx_814x_clkdm) \/
           r = 0 /\ w_clkdm_list w' = "sgx_814x_clkdm" :: w_clkdm_list w /\
             (None ∈ pd_clkdms pd ->
              exists pd', w_pwrdms w' !! p = Some pd' /\
                Some "sgx_814x_clkdm" ∈ pd_clkdms pd'))) w.
Proof.
  intros w. apply (clkdm_register_correct "sgx_814x_clkdm" sgx_814x_clkdm "sgx_pwrdm" w).
  - reflexivity.
  - reflexivity.
  - intros q Hq. apply list_elem_of_singleton in Hq as ->. by eexists.
  - intros e He. by apply elem_of_nil in He.
  - intros q e He.
    change (({["sgx_814x_pwrdm" := sgx_registered]} : gmap string powerdomain) !! q = Some e) in He.
    apply lookup_singleton_Some in He as [_ <-]. reflexivity.
Defined.
End Boot.
