(* ===== verification/ClkCore.v ===== *)
(** * The clock framework core

    plat-omap/clock.c: the tree of clocks, rate propagation, registration and the
    functions of linux/clk.h.

    The framework calls the rest of the clock code through function pointers.  They
    are two interfaces here: [RecalcOps], the [recalc] pointers of the clocks, and
    the record [clk_functions], which mach-omap2/clock.c fills in.  [RecalcLaws]
    says what rate propagation relies on.

    The locks ([clockfw_lock], [clocks_mutex]) are held around every operation, so
    each one is a single step on the state.  A [list_head] that is not on a list
    may be deleted again ([list_del_init]). *)

From S2P Require Import Prelude Platform.

Definition ENABLE_ON_INIT : Z := 8.

(** ** Recalculation *)

(** [clk->recalc(clk)] for the functions a [recalc] pointer may hold. *)
Class RecalcOps := recalc_call : recalc_fn -> string -> M world Z.

Definition followparent_recalc (clk : string) : M world Z :=
  k ← get_clk clk;
  p ← deref (ck_parent k);
  pk ← get_clk p;
  ret (ck_rate pk).

Definition omap_fixed_divisor_recalc (clk : string) : M world Z :=
  k ← get_clk clk;
  p ← deref (ck_parent k);
  pk ← get_clk p;
  divu (ck_rate pk) (ck_fixed_div k).

(** ** The tree *)

(** [list_del] of the [sibling] node, whichever list it is on. *)
Definition without (c : string) (l : list string) : list string :=
  filter (fun x => x <> c) l.

Definition list_del_sibling (child : string) : M world unit :=
  modify (fun w =>
    set_w_root_clks (without child (w_root_clks w))
      (set_w_clks ((fun k => set_ck_children (without child (ck_children k)) k) <$> w_clks w) w)).

Definition clk_reparent (child : string) (parent : option string) : M world unit :=
  list_del_sibling child;;
  (match parent with
   | Some p => upd_clk p (fun k => set_ck_children (child :: ck_children k) k)
   | None => ret tt
   end);;
  upd_clk child (set_ck_parent parent).

Section Rates.
  Context `{RC : RecalcOps}.

(** [if (clk->recalc) clk->rate = clk->recalc(clk)] *)
Definition recalc_rate (clk : string) : M world unit :=
  k ← get_clk clk;
  match ck_recalc k with
  | None => ret tt
  | Some f => r ← recalc_call f clk; upd_clk clk (set_ck_rate r)
  end.

(** The recursion goes down the tree; [fuel] bounds its depth. *)
Fixpoint propagate_rate (fuel : nat) (tclk : string) : M world unit :=
  match fuel with
  | O => fail NoFuel
  | S fuel' =>
      k ← get_clk tclk;
      for_each (ck_children k) (fun clkp =>
        recalc_rate clkp;; propagate_rate fuel' clkp)
  end.

Definition recalculate_root_clocks (fuel : nat) : M world unit :=
  l ← gets (fun w => w_root_clks w);
  for_each l (fun clkp => recalc_rate clkp;; propagate_rate fuel clkp).

(** ** Registration *)

Definition clk_preinit (clk : string) : M world unit :=
  upd_clk clk (set_ck_children []).

(** [clk->init(clk)] for the functions an [init] pointer may hold. *)
Class InitOps := init_call : init_fn -> string -> M world unit.

Definition clk_register `{IN : InitOps} (clk : option string) : M world Z :=
  match clk with
  | None => ret (- EINVAL)
  | Some c =>
      k ← get_clk c;
      if ck_node k then ret 0 else
      (match ck_parent k with
       | Some p => upd_clk p (fun pk => set_ck_children (c :: ck_children pk) pk)
       | None => modify (fun w => set_w_root_clks (c :: w_root_clks w) w)
       end);;
      modify (fun w => set_w_clocks (c :: w_clocks w) w);;
      upd_clk c (set_ck_node true);;
      (match ck_init k with None => ret tt | Some f => init_call f c end);;
      ret 0
  end.

(** [list_del] leaves the poisoned node pointers not NULL, so [clk_register] still
    takes the clock for a registered one. *)
Definition clk_unregister (clk : option string) : M world unit :=
  match clk with
  | None => ret tt
  | Some c =>
      list_del_sibling c;;
      modify (fun w => set_w_clocks (without c (w_clocks w)) w)
  end.

Fixpoint clk_by_name (name : string) (l : list string) : M world (option string) :=
  match l with
  | [] => ret None
  | c :: l' => k ← get_clk c; if String.eqb (ck_name k) name then ret (Some c) else clk_by_name name l'
  end.

Definition omap_clk_get_by_name (name : string) : M world (option string) :=
  l ← gets (fun w => w_clocks w); clk_by_name name l.

(** [get_option] parsed the integer [v] from the command line. *)
Definition omap_clk_setup (v : Z) : M world Z :=
  modify (fun w => set_w_mpurate v w);;
  if v =? 0 then ret 1 else
  when (v <? 1000) (modify (fun w => set_w_mpurate (s32 (v * 1000000)) w));;
  ret 1.

(** ** The functions of linux/clk.h *)

(** struct clk_functions *)
Record clk_functions := {
  cf_enable : option (string -> M world Z);
  cf_disable : option (string -> M world unit);
  cf_round_rate : option (string -> Z -> M world Z);
  cf_set_rate : option (string -> Z -> M world Z);
  cf_set_parent : option (string -> string -> M world Z)
}.

(** [clk_init] stores the pointer all the functions below use. *)
Definition clk_init (custom_clocks : option clk_functions) : M world clk_functions :=
  match custom_clocks with None => fail Bug | Some f => ret f end.

Variable arch_clock : clk_functions.

Definition clk_enable (clk : option string) : M world Z :=
  match clk with
  | None => ret (- EINVAL)
  | Some c => match cf_enable arch_clock with Some f => f c | None => ret 0 end
  end.

Definition clk_disable (clk : option string) : M world unit :=
  match clk with
  | None => ret tt
  | Some c =>
      k ← get_clk c;
      if ck_usecount k =? 0 then ret tt else
      match cf_disable arch_clock with Some f => f c | None => ret tt end
  end.

Definition clk_get_rate (clk : option string) : M world Z :=
  match clk with None => ret 0 | Some c => k ← get_clk c; ret (ck_rate k) end.

Definition clk_round_rate (clk : option string) (rate : Z) : M world Z :=
  match clk with
  | None => ret 0
  | Some c => match cf_round_rate arch_clock with Some f => f c rate | None => ret 0 end
  end.

Definition clk_set_rate (fuel : nat) (clk : option string) (rate : Z) : M world Z :=
  match clk with
  | None => ret (- EINVAL)
  | Some c =>
      r ← match cf_set_rate arch_clock with Some f => f c rate | None => ret (- EINVAL) end;
      when (r =? 0) (recalc_rate c;; propagate_rate fuel c);;
      ret r
  end.

(** [debugfs c] is the block under CONFIG_PM_DEBUG: [Some r] when the entries of the
    clock are registered again with result [r], [None] when debugfs holds none. *)
Definition clk_set_parent (debugfs : string -> M world (option Z)) (fuel : nat)
    (clk parent : option string) : M world Z :=
  match clk, parent with
  | Some c, Some p =>
      k ← get_clk c;
      if ck_usecount k =? 0 then
        r ← match cf_set_parent arch_clock with Some f => f c p | None => ret (- EINVAL) end;
        if r =? 0 then
          recalc_rate c;;
          propagate_rate fuel c;;
          d ← debugfs c;
          ret (match d with Some e => e | None => r end)
        else ret r
      else ret (- EBUSY)
  | _, _ => ret (- EINVAL)
  end.

Definition clk_get_parent (clk : string) : M world (option string) :=
  k ← get_clk clk; ret (ck_parent k).

Definition clk_enable_init_clocks : M world unit :=
  l ← gets (fun w => w_clocks w);
  for_each l (fun c =>
    k ← get_clk c;
    when (negb (Z.land (ck_flags k) ENABLE_ON_INIT =? 0)) (clk_enable (Some c);; ret tt)).

End Rates.

Definition clkll_enable_null (clk : string) : M world Z := ret 0.
Definition clkll_disable_null (clk : string) : M world unit := ret tt.

(** ** States that differ in rates alone *)

Definition unrated (k : clk) : clk := set_ck_rate 0 k.

Definition clk_rate (w : world) (c : string) : option Z :=
  (fun k => ck_rate k) <$> w_clks w !! c.

Definition parent_of (w : world) (c : string) : option string :=
  match w_clks w !! c with Some k => ck_parent k | None => None end.

(** The rate of the parent of [c]. *)
Definition parent_rate (w : world) (c : string) : option Z :=
  match parent_of w c with Some p => clk_rate w p | None => None end.

Record rates_only (w w' : world) : Prop := {
  ro_clks : forall c, unrated <$> w_clks w !! c = unrated <$> w_clks w' !! c;
  ro_rest : exists l m, forallb quiet l = true /\
              w' = set_w_trace (l ++ w_trace w) (set_w_clks m w)
}.

#[global] Instance rates_only_preorder : PreOrder rates_only.
Proof.
  split.
  - intros w. split; [done|]. by exists [], (w_clks w).
  - intros w1 w2 w3 [H1 (l1 & m1 & Hl1 & ->)] [H2 (l2 & m2 & Hl2 & ->)]. split.
    + intros c. by rewrite H1, H2.
    + exists (l2 ++ l1), m2. rewrite forallb_app, Hl1, Hl2, <- app_assoc. done.
Qed.

Lemma rates_only_lookup w w' c k :
  rates_only w w' -> w_clks w !! c = Some k ->
  exists k', w_clks w' !! c = Some k' /\ unrated k' = unrated k.
Proof.
  intros [H _] Hk. specialize (H c). rewrite Hk in H.
  destruct (w_clks w' !! c) as [k'|]; [|done]. exists k'. split; [done|]. by apply (inj Some) in H.
Qed.

Lemma rates_only_lookup_inv w w' c k' :
  rates_only w w' -> w_clks w' !! c = Some k' ->
  exists k, w_clks w !! c = Some k /\ unrated k' = unrated k.
Proof.
  intros [H _] Hk. specialize (H c). rewrite Hk in H.
  destruct (w_clks w !! c) as [k|]; [|done]. exists k. split; [done|]. by apply (inj Some) in H.
Qed.

Lemma unrated_children k k' : unrated k' = unrated k -> ck_children k' = ck_children k.
Proof. intros H. change (ck_children (unrated k') = ck_children (unrated k)). by rewrite H. Qed.

Lemma unrated_parent k k' : unrated k' = unrated k -> ck_parent k' = ck_parent k.
Proof. intros H. change (ck_parent (unrated k') = ck_parent (unrated k)). by rewrite H. Qed.

Lemma unrated_recalc k k' : unrated k' = unrated k -> ck_recalc k' = ck_recalc k.
Proof. intros H. change (ck_recalc (unrated k') = ck_recalc (unrated k)). by rewrite H. Qed.

Lemma rates_only_reads w w' : io_reads w w' -> rates_only w w'.
Proof. intros (l & Hl & ->). split; [done|]. by exists l, (w_clks w). Qed.

Lemma rates_only_set w c k r :
  w_clks w !! c = Some k ->
  rates_only w (set_w_clks (<[c := set_ck_rate r k]> (w_clks w)) w).
Proof.
  intros Hk. split.
  - intros d. cbn. destruct (decide (d = c)) as [->|Hne].
    + by rewrite lookup_insert_eq, Hk.
    + by rewrite lookup_insert_ne by congruence.
  - by exists [], (<[c := set_ck_rate r k]> (w_clks w)).
Qed.

Lemma rates_only_parent w w' c : rates_only w w' -> parent_of w' c = parent_of w c.
Proof.
  intros H. unfold parent_of. destruct (w_clks w !! c) as [k|] eqn:E.
  - destruct (rates_only_lookup w w' c k H E) as (k' & -> & Hu). cbn. by apply unrated_parent.
  - destruct (w_clks w' !! c) as [k'|] eqn:E'; [|done].
    destruct (rates_only_lookup_inv w w' c k' H E') as (k & Hk & _). congruence.
Qed.

(** ** What rate propagation relies on *)

(** [recalc_val f c w] is the rate [f] computes for [c]; [recalc_ready c w] says that
    computing it does not fault.  The rate depends on the rate of the parent (and on
    the clock's own, where the registers make no sense), not on other rates. *)
Class RecalcLaws `{RC : RecalcOps} := {
  recalc_val : recalc_fn -> string -> world -> Z;
  recalc_ready : string -> world -> Prop;
  recalc_sound f c k w :
    w_clks w !! c = Some k -> ck_recalc k = Some f -> recalc_ready c w ->
    wp (recalc_call f c) (fun r w' => r = recalc_val f c w /\ io_reads w w') w;
  recalc_ready_frame c w w' : rates_only w w' -> recalc_ready c w -> recalc_ready c w';
  recalc_val_frame f c k w w' :
    w_clks w !! c = Some k -> ck_recalc k = Some f -> recalc_ready c w -> rates_only w w' ->
    parent_rate w' c = parent_rate w c ->
    clk_rate w' c = clk_rate w c \/ clk_rate w' c = Some (recalc_val f c w) ->
    recalc_val f c w' = recalc_val f c w
}.

(** ** Well-formed trees *)

(** The children lists agree with the parent pointers and there is no cycle: every
    clock has a rank below [N], larger than its parent's. *)
Record clk_tree (rank : string -> nat) (N : nat) (w : world) : Prop := {
  ct_child : forall c k d, w_clks w !! c = Some k -> d ∈ ck_children k ->
    exists kd, w_clks w !! d = Some kd /\ ck_parent kd = Some c;
  ct_nodup : forall c k, w_clks w !! c = Some k -> NoDup (ck_children k);
  ct_rank : forall d kd p, w_clks w !! d = Some kd -> ck_parent kd = Some p ->
    (rank p < rank d)%nat;
  ct_bound : forall c k, w_clks w !! c = Some k -> (rank c < N)%nat
}.

Inductive below (w : world) (c : string) : string -> Prop :=
| below_child k d : w_clks w !! c = Some k -> d ∈ ck_children k -> below w c d
| below_step e k d : below w c e -> w_clks w !! e = Some k -> d ∈ ck_children k -> below w c d.

(** The clock or one below it. *)
Definition subtree (w : world) (c d : string) : Prop := d = c \/ below w c d.

Lemma clk_tree_rates rank N w w' : rates_only w w' -> clk_tree rank N w -> clk_tree rank N w'.
Proof.
  intros Hr [Hc Hn Hk Hb].
  assert (forall c k', w_clks w' !! c = Some k' ->
    exists k, w_clks w !! c = Some k /\ unrated k' = unrated k) as Hinv
    by (intros; by eapply rates_only_lookup_inv).
  split.
  - intros c k' d (k & Hl & Hu)%Hinv Hd. rewrite (unrated_children _ _ Hu) in Hd.
    destruct (Hc c k d Hl Hd) as (kd & Hkd & Hp).
    destruct (rates_only_lookup _ _ _ _ Hr Hkd) as (kd' & Hkd' & Hu').
    exists kd'. split; [done|]. by rewrite (unrated_parent _ _ Hu').
  - intros c k' (k & Hl & Hu)%Hinv. rewrite (unrated_children _ _ Hu). by eapply Hn.
  - intros d k' p (k & Hl & Hu)%Hinv Hp. rewrite (unrated_parent _ _ Hu) in Hp. by eapply Hk.
  - intros c k' (k & Hl & _)%Hinv. by eapply Hb.
Qed.

Lemma below_rates_1 w w' c d : rates_only w w' -> below w c d -> below w' c d.
Proof.
  intros Hr. induction 1 as [k d Hk Hd | e k d He IH Hk Hd];
    destruct (rates_only_lookup _ _ _ _ Hr Hk) as (k' & Hk' & Hu);
    rewrite <- (unrated_children _ _ Hu) in Hd; [by eapply below_child | by eapply below_step].
Qed.

Lemma below_rates w w' c d : rates_only w w' -> below w c d <-> below w' c d.
Proof.
  intros Hr. split; [by apply below_rates_1|].
  induction 1 as [k' d Hk Hd | e k' d He IH Hk Hd];
    destruct (rates_only_lookup_inv _ _ _ _ Hr Hk) as (k & Hk' & Hu);
    rewrite (unrated_children _ _ Hu) in Hd; [by eapply below_child | by eapply below_step].
Qed.

Section Tree.
  Context (rank : string -> nat) (N : nat) (w : world) (T : clk_tree rank N w).

Lemma child_parent c k d :
  w_clks w !! c = Some k -> d ∈ ck_children k -> parent_of w d = Some c.
Proof.
  intros Hk Hd. destruct (ct_child _ _ _ T c k d Hk Hd) as (kd & Hkd & Hp).
  unfold parent_of. by rewrite Hkd.
Qed.

Lemma parent_rank d p : parent_of w d = Some p -> (rank p < rank d)%nat.
Proof.
  unfold parent_of. destruct (w_clks w !! d) as [kd|] eqn:E; [|done]. by eapply ct_rank.
Qed.

Lemma below_parent c d :
  below w c d -> exists p, parent_of w d = Some p /\ subtree w c p.
Proof.
  destruct 1 as [k d Hk Hd | e k d He Hk Hd].
  - exists c. split; [by eapply child_parent | by left].
  - exists e. split; [by eapply child_parent | by right].
Qed.

Lemma below_rank c d : below w c d -> (rank c < rank d)%nat.
Proof.
  induction 1 as [k d Hk Hd | e k d He IH Hk Hd].
  - by apply parent_rank; eapply child_parent.
  - etrans; [exact IH|]. by apply parent_rank; eapply child_parent.
Qed.

Lemma below_irrefl c : ~ below w c c.
Proof. intros H%below_rank. lia. Qed.

Lemma subtree_rank c d : subtree w c d -> (rank c <= rank d)%nat.
Proof. intros [->|H%below_rank]; lia. Qed.

Lemma parent_not_subtree c x : parent_of w x = Some c -> ~ subtree w x c.
Proof. intros Hp%parent_rank H%subtree_rank. lia. Qed.

(** The subtrees of two different children have no clock in common. *)
Lemma subtree_disjoint c x y d :
  parent_of w x = Some c -> parent_of w y = Some c ->
  subtree w x d -> subtree w y d -> x = y.
Proof.
  intros Hx Hy. remember (rank d) as n eqn:Hn. revert d Hn.
  induction (lt_wf n) as [n _ IH]. intros d -> [->|Hdx] [->|Hdy]; [done | | |].
  - destruct (below_parent _ _ Hdy) as (p & Hp & Hs).
    rewrite Hx in Hp. injection Hp as <-. by destruct (parent_not_subtree _ _ Hy).
  - destruct (below_parent _ _ Hdx) as (p & Hp & Hs).
    rewrite Hy in Hp. injection Hp as <-. by destruct (parent_not_subtree _ _ Hx).
  - destruct (below_parent _ _ Hdx) as (p & Hp & Hsx), (below_parent _ _ Hdy) as (q & Hq & Hsy).
    rewrite Hp in Hq. injection Hq as <-.
    eapply (IH (rank p)); [by apply parent_rank | reflexivity | done | done].
Qed.

Lemma below_split c k d :
  w_clks w !! c = Some k -> below w c d <-> exists x, x ∈ ck_children k /\ subtree w x d.
Proof.
  intros Hk. split.
  - induction 1 as [k' d Hk' Hd | e k' d He (x & Hx & Hs) Hk' Hd].
    + rewrite Hk in Hk'. injection Hk' as <-. exists d. split; [done | by left].
    + exists x. split; [done|]. right. destruct Hs as [->|Hs];
        [by eapply below_child | by eapply below_step].
  - intros (x & Hx & [->|Hs]); [by eapply below_child|].
    induction Hs; [eapply below_step; [by eapply below_child | done..] | by eapply below_step].
Qed.
End Tree.

(** ** Rate propagation *)

Section Propagate.
  Context `{RL : RecalcLaws}.

(** The rate of [d] is what its [recalc] function computes. *)
Definition recalculated (d : string) (w : world) : Prop :=
  forall k f, w_clks w !! d = Some k -> ck_recalc k = Some f -> ck_rate k = recalc_val f d w.

Lemma recalculated_frame d w w' :
  recalculated d w -> recalc_ready d w -> rates_only w w' ->
  clk_rate w' d = clk_rate w d -> parent_rate w' d = parent_rate w d -> recalculated d w'.
Proof.
  intros Hd Hr Hro Hrate Hp k' f Hk' Hf.
  destruct (rates_only_lookup_inv _ _ _ _ Hro Hk') as (k & Hk & Hu).
  rewrite (unrated_recalc _ _ Hu) in Hf.
  rewrite (recalc_val_frame f d k w w' Hk Hf Hr Hro Hp (or_introl Hrate)). rewrite <- (Hd k f Hk Hf).
  unfold clk_rate in Hrate. rewrite Hk, Hk' in Hrate. by apply (inj Some) in Hrate.
Qed.

(** One clock: its rate is recalculated and no other rate changes. *)
Lemma recalc_rate_spec d w :
  is_Some (w_clks w !! d) -> recalc_ready d w -> parent_of w d <> Some d ->
  wp (recalc_rate d)
     (fun _ w' => rates_only w w' /\ recalculated d w' /\
        forall e, e <> d -> clk_rate w' e = clk_rate w e) w.
Proof.
  intros [k Hk] Hr Hself. unfold recalc_rate. wp_step.
  destruct (ck_recalc k) as [f|] eqn:Hf.
  - wp_pure. eapply wp_mono; [by eapply recalc_sound|]. cbn beta.
    intros r w1 [-> Hio]. pose proof (rates_only_reads _ _ Hio) as Hro1.
    assert (w_clks w1 = w_clks w) as Ew by (destruct Hio as (l & _ & ->); done).
    eapply wp_upd_clk; [rewrite Ew; exact Hk|].
    set (w2 := set_w_clks _ w1).
    assert (rates_only w1 w2) as Hro2 by (apply rates_only_set; by rewrite Ew).
    assert (rates_only w w2) as Hro by (by etrans).
    assert (forall e, e <> d -> clk_rate w2 e = clk_rate w e) as Hoth.
    { intros e He. unfold clk_rate. cbn. by rewrite lookup_insert_ne, Ew by congruence. }
    assert (clk_rate w2 d = Some (recalc_val f d w)) as Hd
      by (unfold clk_rate; cbn; by rewrite lookup_insert_eq).
    split; [done|]. split; [|done]. intros k' f' Hk' Hf'.
    cbn in Hk'. rewrite lookup_insert_eq in Hk'. apply (inj Some) in Hk' as <-.
    change (ck_recalc k = Some f') in Hf'. rewrite Hf in Hf'. injection Hf' as <-.
    symmetry. eapply recalc_val_frame; [done | done | done | done | | by right].
    unfold parent_rate. rewrite (rates_only_parent _ _ _ Hro).
    destruct (parent_of w d) as [p|] eqn:Ep; [|done]. apply Hoth. congruence.
  - wp_pure. split; [reflexivity|]. split; [|done]. intros k' f Hk' Hf'. congruence.
Qed.

Context (rank : string -> nat) (N : nat).

(** What [propagate_rate] achieves at a clock, for a given recursion depth. *)
Definition propagates (fuel : nat) (c : string) : Prop := forall w,
  clk_tree rank N w -> (N - rank c <= fuel)%nat -> is_Some (w_clks w !! c) ->
  (forall d, below w c d -> recalc_ready d w) ->
  wp (propagate_rate fuel c)
     (fun _ w' => rates_only w w' /\
        (forall d, ~ below w c d -> clk_rate w' d = clk_rate w d) /\
        (forall d, below w c d -> recalculated d w')) w.

(** One turn of the loop over the children. *)
Lemma propagate_turn fuel c x w :
  propagates fuel x -> clk_tree rank N w -> (N - rank x <= fuel)%nat ->
  parent_of w x = Some c -> is_Some (w_clks w !! x) ->
  (forall d, subtree w x d -> recalc_ready d w) ->
  wp (recalc_rate x;; propagate_rate fuel x)
     (fun _ w' => rates_only w w' /\
        (forall d, ~ subtree w x d -> clk_rate w' d = clk_rate w d) /\
        (forall d, subtree w x d -> recalculated d w')) w.
Proof.
  intros IH T Hf Hp Hx Hrd. wp_pure.
  assert (~ subtree w x c) as Hc by (by eapply parent_not_subtree).
  eapply wp_mono; [apply recalc_rate_spec; [done | by apply Hrd; left |]|].
  { intros E. rewrite Hp in E. injection E as ->. apply Hc. by left. }
  cbn beta. intros _ w1 (Hro & Hrec & Hoth).
  assert (clk_tree rank N w1) as T1 by (by eapply clk_tree_rates).
  eapply wp_mono; [apply IH; [done | done | |]|].
  { destruct Hx as [k Hk]. destruct (rates_only_lookup _ _ _ _ Hro Hk) as (k' & -> & _). eauto. }
  { intros d Hd%(below_rates _ _ _ _ Hro). eapply recalc_ready_frame; [exact Hro|].
    apply Hrd. by right. }
  cbn beta. intros _ w2 (Hro2 & Hoth2 & Hrec2).
  assert (forall d, ~ subtree w x d -> clk_rate w2 d = clk_rate w d) as Hout.
  { intros d Hd. rewrite Hoth2, Hoth; [done | intros ->; apply Hd; by left |].
    intros Hb%(below_rates _ _ _ _ Hro). apply Hd. by right. }
  split; [by etrans|]. split; [done|]. intros d [->|Hd].
  - eapply recalculated_frame; [exact Hrec | | exact Hro2 | |].
    + eapply recalc_ready_frame; [exact Hro|]. apply Hrd. by left.
    + apply Hoth2. by eapply below_irrefl.
    + unfold parent_rate. rewrite (rates_only_parent _ _ _ Hro2), (rates_only_parent _ _ _ Hro), Hp.
      apply Hoth2. intros Hb%(below_rates _ _ _ _ Hro). apply Hc. by right.
  - apply Hrec2. by apply (below_rates _ _ _ _ Hro).
Qed.

(** The loop over the children [l] that are left, [pre] being done. *)
Lemma propagate_loop fuel c w l pre :
  (forall x, x ∈ l -> propagates fuel x /\ (N - rank x <= fuel)%nat) ->
  NoDup (pre ++ l) ->
  (forall x, x ∈ pre ++ l -> parent_of w x = Some c /\ is_Some (w_clks w !! x)) ->
  clk_tree rank N w ->
  (forall x d, x ∈ pre ++ l -> subtree w x d -> recalc_ready d w) ->
  (forall x d, x ∈ pre -> subtree w x d -> recalculated d w) ->
  wp (for_each l (fun x => recalc_rate x;; propagate_rate fuel x))
     (fun _ w' => rates_only w w' /\
        (forall d, (forall x, x ∈ l -> ~ subtree w x d) -> clk_rate w' d = clk_rate w d) /\
        (forall x d, x ∈ pre ++ l -> subtree w x d -> recalculated d w')) w.
Proof.
  revert w pre. induction l as [|x l IHl]; intros w pre IH Hnd Hch T Hrd Hdone; cbn [for_each].
  { wp_pure. split; [reflexivity|]. split; [done|]. intros x d Hx. apply Hdone.
    by rewrite app_nil_r in Hx. }
  assert (x ∈ pre ++ x :: l) as Hxin by (apply elem_of_app; right; left).
  destruct (Hch x Hxin) as [Hpx Hex].
  apply wp_bind. eapply wp_mono; [apply (propagate_turn fuel c x w); [apply IH; left | done |
    apply IH; left | done | done | intros d; by apply Hrd]|].
  cbn beta. intros _ w1 (Hro & Hoth & Hrec).
  assert (forall y d, subtree w1 y d <-> subtree w y d) as Hst.
  { intros y d. unfold subtree. by rewrite (below_rates _ _ y d Hro). }
  eapply wp_mono; [apply (IHl w1 (pre ++ [x])); rewrite <- ?app_assoc|].
  - intros y Hy. apply IH. by right.
  - exact Hnd.
  - intros y Hy. rewrite (rates_only_parent _ _ _ Hro). destruct (Hch y Hy) as [Hp [k Hk]].
    split; [done|]. destruct (rates_only_lookup _ _ _ _ Hro Hk) as (k' & -> & _). eauto.
  - by eapply clk_tree_rates.
  - intros y d Hy Hs. eapply recalc_ready_frame; [exact Hro|]. apply (Hrd y); [done | by apply Hst].
  - intros y d Hy Hs%Hst. apply elem_of_app in Hy as [Hy|Hy%list_elem_of_singleton];
      [|subst y; by apply Hrec].
    assert (y ∈ pre ++ x :: l) as Hyin by (apply elem_of_app; by left).
    assert (y <> x) as Hyx.
    { intros ->. apply NoDup_app in Hnd as (_ & Hnd & _). apply (Hnd x Hy). left. }
    assert (forall e, subtree w y e -> ~ subtree w x e) as Hdis.
    { intros e He Hxe. apply Hyx. eapply (subtree_disjoint rank N w T c y x e); try done.
      by apply Hch. }
    eapply recalculated_frame; [by eapply (Hdone y) | by apply (Hrd y) | exact Hro | by apply Hoth, Hdis |].
    unfold parent_rate. rewrite (rates_only_parent _ _ _ Hro).
    destruct Hs as [->|Hs].
    + rewrite (proj1 (Hch y Hyin)). apply Hoth. by eapply parent_not_subtree.
    + destruct (below_parent rank N w T y d Hs) as (p & -> & Hps). by apply Hoth, Hdis.
  - cbn beta. rewrite <- app_assoc. intros _ w2 (Hro2 & Hoth2 & Hrec2).
    split; [by etrans|]. split.
    + intros d Hd. rewrite Hoth2, Hoth; [done | apply Hd; left |].
      intros y Hy Hs%Hst. eapply Hd; [by right | done].
    + intros y d Hy Hs. apply (Hrec2 y); [done | by apply Hst].
Qed.

Lemma propagate_rate_spec fuel c : propagates fuel c.
Proof.
  revert c. induction fuel as [|fuel IH]; intros c w T Hf [k Hk] Hrd.
  { pose proof (ct_bound _ _ _ T c k Hk). lia. }
  cbn [propagate_rate]. wp_step. pose proof (below_split w c k) as Hsplit.
  eapply wp_mono; [apply (propagate_loop fuel c w (ck_children k) [])|].
  - intros x Hx. split; [apply IH|].
    pose proof (parent_rank rank N w T x c (child_parent rank N w T c k x Hk Hx)). lia.
  - by eapply ct_nodup.
  - intros x Hx. split; [by eapply child_parent|].
    destruct (ct_child _ _ _ T c k x Hk Hx) as (kx & Hkx & _). eauto.
  - done.
  - intros x d Hx Hs. apply Hrd. rewrite Hsplit by done. by exists x.
  - intros x d Hx. by apply elem_of_nil in Hx.
  - cbn beta. intros _ w' (Hro & Hoth & Hrec). split; [done|]. split.
    + intros d Hd. apply Hoth. intros x Hx Hs. apply Hd. rewrite Hsplit by done. by exists x.
    + intros d Hd. rewrite Hsplit in Hd by done. destruct Hd as (x & Hx & Hs). by eapply Hrec.
Qed.
End Propagate.

(** ** Moving a clock to another parent *)

(** What [clk_reparent child (Some p)] makes of the clock [d]. *)
Definition reparented (child p d : string) (k : clk) : clk :=
  let k1 := set_ck_children (without child (ck_children k)) k in
  let k2 := if decide (d = p) then set_ck_children (child :: ck_children k1) k1 else k1 in
  if decide (d = child) then set_ck_parent (Some p) k2 else k2.

Lemma clk_reparent_spec child p w :
  is_Some (w_clks w !! child) -> is_Some (w_clks w !! p) ->
  wp (clk_reparent child (Some p))
     (fun _ w' => exists m,
        w' = set_w_root_clks (without child (w_root_clks w)) (set_w_clks m w) /\
        forall d, m !! d = reparented child p d <$> w_clks w !! d) w.
Proof.
  intros [kc Hc] [kp Hp]. unfold clk_reparent, list_del_sibling. wp_pure.
  eapply wp_upd_clk; [cbn; by rewrite lookup_fmap, Hp|]. cbn.
  set (m1 := <[p := _]> _).
  destruct (m1 !! child) as [kc1|] eqn:E1.
  2: { unfold m1 in E1. destruct (decide (child = p)) as [->|].
       - by rewrite lookup_insert_eq in E1.
       - by rewrite lookup_insert_ne, lookup_fmap, Hc in E1 by congruence. }
  eapply wp_upd_clk; [exact E1|]. cbn. eexists. split; [reflexivity|].
  intros d. unfold reparented.
  assert (m1 !! d = (fun k => let k1 := set_ck_children (without child (ck_children k)) k in
    if decide (d = p) then set_ck_children (child :: ck_children k1) k1 else k1)
      <$> w_clks w !! d) as Hm1.
  { unfold m1. destruct (decide (d = p)) as [->|Hdp].
    - by rewrite lookup_insert_eq, Hp.
    - by rewrite lookup_insert_ne, lookup_fmap by congruence. }
  destruct (decide (d = child)) as [->|Hd].
  - rewrite lookup_insert_eq. rewrite Hm1, Hc in E1. cbn in E1.
    apply (inj Some) in E1 as <-. rewrite Hc. done.
  - rewrite lookup_insert_ne by congruence. rewrite Hm1. done.
Qed.

Lemma elem_of_without c l d : d ∈ without c l <-> d ∈ l /\ d <> c.
Proof. unfold without. rewrite list_elem_of_filter. tauto. Qed.

Lemma reparented_children child p d k :
  ck_children (reparented child p d k) =
    if decide (d = p) then child :: without child (ck_children k)
    else without child (ck_children k).
Proof. unfold reparented. destruct (decide (d = p)), (decide (d = child)); done. Qed.

Lemma reparented_parent child p d k :
  ck_parent (reparented child p d k) = if decide (d = child) then Some p else ck_parent k.
Proof. unfold reparented. destruct (decide (d = p)), (decide (d = child)); done. Qed.

(** Moving below a clock of smaller rank keeps the tree well formed. *)
Lemma clk_tree_reparent rank N child p w m :
  clk_tree rank N w -> is_Some (w_clks w !! child) -> (rank p < rank child)%nat ->
  (forall d, m !! d = reparented child p d <$> w_clks w !! d) ->
  clk_tree rank N (set_w_root_clks (without child (w_root_clks w)) (set_w_clks m w)).
Proof.
  intros [Hc Hn Hk Hb] [kc Hkc] Hr Hm.
  assert (forall d k', m !! d = Some k' ->
    exists k, w_clks w !! d = Some k /\ k' = reparented child p d k) as Hinv.
  { intros d k'. rewrite Hm. destruct (w_clks w !! d) as [k|]; cbn; [|done].
    intros H%(inj Some). by exists k. }
  split; cbn.
  - intros c k' d (k & Hl & ->)%Hinv Hd. rewrite reparented_children in Hd.
    assert (d = child /\ c = p \/ d <> child /\ d ∈ ck_children k) as [[-> ->]|[Hne Hin]].
    { destruct (decide (c = p)) as [->|]; rewrite ?elem_of_cons, elem_of_without in Hd; tauto. }
    + eexists. rewrite Hm, Hkc. split; [done|]. by rewrite reparented_parent, decide_True.
    + destruct (Hc c k d Hl Hin) as (kd & Hkd & Hp). eexists. rewrite Hm, Hkd. split; [done|].
      by rewrite reparented_parent, decide_False.
  - intros c k' (k & Hl & ->)%Hinv. rewrite reparented_children.
    assert (NoDup (without child (ck_children k))) as Hnd
      by (apply NoDup_filter; by eapply Hn).
    destruct (decide (c = p)); [|done]. apply NoDup_cons. split; [|done].
    rewrite elem_of_without. tauto.
  - intros d k' q (k & Hl & ->)%Hinv. rewrite reparented_parent.
    destruct (decide (d = child)) as [->|]; [by intros [= <-] | by eapply Hk].
  - intros c k' (k & Hl & ->)%Hinv. by eapply Hb.
Qed.
