(* ===== verification/Clksel.v ===== *)
(** * Clocks with a selectable parent or divisor

    mach-omap2/clkt_clksel.c.  A [struct clksel] or [struct clksel_rate] array is a
    list without its terminating element. *)

From Stdlib Require Import Sorted.
From S2P Require Import Prelude Platform ClkCore.

(** [~0] as a [u32] *)
Definition ALL_ONES : Z := 0xffffffff.

(** [clkr->flags & cpu_mask] *)
Definition rate_enabled (cpu_mask : Z) (r : clksel_rate) : bool :=
  negb (Z.land (cr_flags r) cpu_mask =? 0).

(** The first entry of a table that the chip has and that [p] accepts. *)
Definition find_rate (cpu_mask : Z) (p : clksel_rate -> bool) (l : list clksel_rate)
    : option clksel_rate :=
  List.find (fun r => rate_enabled cpu_mask r && p r) l.

(** The last entry the code takes when it looks for the largest divisor. *)
Definition max_rate (cpu_mask : Z) (l : list clksel_rate) : option clksel_rate :=
  fold_left (fun acc r =>
    if rate_enabled cpu_mask r &&
       ((match acc with Some m => cr_div m | None => 0 end) <? cr_div r)
    then Some r else acc) l None.

Section Clksel.
  Context `{SOC : Soc} `{HW : Hardware}.

(** The name of [src_clk] is an argument of the warning, so it is dereferenced. *)
Definition _get_clksel_by_parent (clk : string) (src_clk : option string)
    : M world (option clksel) :=
  k ← get_clk clk;
  l ← deref (ck_clksel k);
  match List.find (fun s => bool_decide (Some (cs_parent s) = src_clk)) l with
  | Some s => ret (Some s)
  | None => p ← deref src_clk; get_clk p;; ret None
  end.

(** The divisor, and what is left in [*field_val]. *)
Definition _get_div_and_fieldval (src_clk clk : string) (field_val : Z) : M world (Z * Z) :=
  clks ← _get_clksel_by_parent clk (Some src_clk);
  match clks with
  | None => ret (0, field_val)
  | Some s =>
      cpu_mask ← gets (fun w => w_cpu_mask w);
      match max_rate cpu_mask (cs_rates s) with
      | None => k ← get_clk src_clk; p ← deref (ck_parent k); get_clk p;; ret (0, field_val)
      | Some r => ret (cr_div r, cr_val r)
      end
  end.

Definition _write_clksel_reg (clk : string) (field_val : Z) : M world unit :=
  k ← get_clk clk;
  v ← __raw_readl (ck_clksel_reg k);
  __raw_writel (field_set (ck_clksel_mask k) field_val v) (ck_clksel_reg k);;
  __raw_readl (ck_clksel_reg k);;
  ret tt.

Definition _clksel_to_divisor (clk : string) (field_val : Z) : M world Z :=
  k ← get_clk clk;
  clks ← _get_clksel_by_parent clk (ck_parent k);
  match clks with
  | None => ret 0
  | Some s =>
      cpu_mask ← gets (fun w => w_cpu_mask w);
      match find_rate cpu_mask (fun r => cr_val r =? field_val) (cs_rates s) with
      | None => ret 0
      | Some r => ret (cr_div r)
      end
  end.

Definition _divisor_to_clksel (clk : string) (div : Z) : M world Z :=
  k ← get_clk clk;
  clks ← _get_clksel_by_parent clk (ck_parent k);
  match clks with
  | None => ret ALL_ONES
  | Some s =>
      cpu_mask ← gets (fun w => w_cpu_mask w);
      match find_rate cpu_mask (fun r => cr_div r =? div) (cs_rates s) with
      | None => ret ALL_ONES
      | Some r => ret (cr_val r)
      end
  end.

(** [!clk->clksel || !clk->clksel_mask] *)
Definition no_clksel (k : clk) : bool :=
  match ck_clksel k with None => true | Some _ => ck_clksel_mask k =? 0 end.

Definition _read_divisor (clk : string) : M world Z :=
  k ← get_clk clk;
  if no_clksel k then ret 0 else
  v ← __raw_readl (ck_clksel_reg k);
  _clksel_to_divisor clk (field_get (ck_clksel_mask k) v).

(** The rounded rate, and what is left in [*new_div], which held [new_div]. *)
Definition omap2_clksel_round_rate_div (clk : string) (target_rate new_div : Z)
    : M world (Z * Z) :=
  k ← get_clk clk;
  if no_clksel k then ret (ALL_ONES, new_div) else
  clks ← _get_clksel_by_parent clk (ck_parent k);
  match clks with
  | None => ret (ALL_ONES, 1)
  | Some s =>
      cpu_mask ← gets (fun w => w_cpu_mask w);
      p ← deref (ck_parent k);
      pk ← get_clk p;
      match find_rate cpu_mask (fun r => ck_rate pk / cr_div r <=? target_rate) (cs_rates s) with
      | None => ret (ALL_ONES, 1)
      | Some r => ret (ck_rate pk / cr_div r, cr_div r)
      end
  end.

Definition omap2_init_clksel_parent (clk : string) : M world unit :=
  k ← get_clk clk;
  if no_clksel k then ret tt else
  v ← __raw_readl (ck_clksel_reg k);
  let r := field_get (ck_clksel_mask k) v in
  cpu_mask ← gets (fun w => w_cpu_mask w);
  l ← deref (ck_clksel k);
  match List.find (fun s =>
          bool_decide (is_Some (find_rate cpu_mask (fun e => cr_val e =? r) (cs_rates s)))) l with
  | Some s =>
      if decide (ck_parent k = Some (cs_parent s)) then ret tt
      else clk_reparent clk (Some (cs_parent s))
  | None => ret tt
  end.

Definition omap2_clksel_recalc (clk : string) : M world Z :=
  div ← _read_divisor clk;
  k ← get_clk clk;
  if div =? 0 then ret (ck_rate k) else
  p ← deref (ck_parent k);
  pk ← get_clk p;
  divu (ck_rate pk) div.

Definition omap2_clksel_round_rate (clk : string) (target_rate : Z) : M world Z :=
  '(r, _) ← omap2_clksel_round_rate_div clk target_rate 0;
  ret (s32 r).

Definition omap2_clksel_set_rate (clk : string) (rate : Z) : M world Z :=
  k ← get_clk clk;
  if no_clksel k then ret (- EINVAL) else
  '(validrate, new_div) ← omap2_clksel_round_rate_div clk rate 0;
  if negb (validrate =? rate) then ret (- EINVAL) else
  field_val ← _divisor_to_clksel clk new_div;
  if field_val =? ALL_ONES then ret (- EINVAL) else
  _write_clksel_reg clk field_val;;
  p ← deref (ck_parent k);
  pk ← get_clk p;
  r ← divu (ck_rate pk) new_div;
  upd_clk clk (set_ck_rate r);;
  ret 0.

Definition omap2_clksel_set_parent (clk new_parent : string) : M world Z :=
  k ← get_clk clk;
  if no_clksel k then ret (- EINVAL) else
  '(parent_div, field_val) ← _get_div_and_fieldval new_parent clk 0;
  if parent_div =? 0 then ret (- EINVAL) else
  _write_clksel_reg clk field_val;;
  clk_reparent clk (Some new_parent);;
  pk ← get_clk new_parent;
  upd_clk clk (set_ck_rate (ck_rate pk));;
  when (0 <? parent_div)
    (k ← get_clk clk; r ← divu (ck_rate k) parent_div; upd_clk clk (set_ck_rate r));;
  ret 0.

End Clksel.

(** ** Tables *)

(** A divisor table of a clock with field mask [mask] on a chip [cpu]: among the
    entries of the chip the divisors grow strictly, the field values are different
    and fit the field. *)
Record rates_ok (cpu mask : Z) (l : list clksel_rate) : Prop := {
  rt_sorted : StronglySorted (fun a b => cr_div a < cr_div b)
                (filter (fun r => rate_enabled cpu r) l);
  rt_pos : forall e, e ∈ l -> 0 < cr_div e;
  rt_fits : forall e, e ∈ l -> rate_enabled cpu e = true ->
              field_fits mask (cr_val e) = true /\ cr_val e <> ALL_ONES;
  rt_inj : forall e e', e ∈ l -> e' ∈ l -> rate_enabled cpu e = true ->
             rate_enabled cpu e' = true -> cr_val e = cr_val e' -> cr_div e = cr_div e'
}.

Lemma find_Some_split {A} (f : A -> bool) l x :
  List.find f l = Some x ->
  exists l1 l2, l = l1 ++ x :: l2 /\ f x = true /\ forall y, y ∈ l1 -> f y = false.
Proof.
  induction l as [|a l IH]; cbn; [done|]. destruct (f a) eqn:Ha.
  - intros [= ->]. exists [], l. split_and!; [done | done |]. intros y Hy. by apply elem_of_nil in Hy.
  - intros (l1 & l2 & -> & Hx & Hl1)%IH. exists (a :: l1), l2. split_and!; [done | done |].
    intros y [->|Hy]%elem_of_cons; auto.
Qed.

Lemma find_None_all {A} (f : A -> bool) l y : List.find f l = None -> y ∈ l -> f y = false.
Proof.
  induction l as [|a l IH]; cbn; [by intros _ ?%elem_of_nil|].
  destruct (f a) eqn:Ha; [done|]. intros H [->|Hy]%elem_of_cons; auto.
Qed.

Lemma find_Some_in {A} (f : A -> bool) l x : List.find f l = Some x -> x ∈ l /\ f x = true.
Proof.
  intros (l1 & l2 & -> & Hx & _)%find_Some_split. split; [|done].
  apply elem_of_app. right. left.
Qed.

(** In a sorted table an entry after another has the larger divisor. *)
Lemma divisors_sorted_after cpu mask l1 l2 e e' :
  rates_ok cpu mask (l1 ++ e :: l2) -> rate_enabled cpu e = true ->
  rate_enabled cpu e' = true -> e' ∈ l2 -> cr_div e < cr_div e'.
Proof.
  intros [Hs _ _ _] He He' Hin. rewrite filter_app, filter_cons_True in Hs by (by rewrite He).
  assert (forall l, StronglySorted (fun a b => cr_div a < cr_div b)
    (l ++ e :: filter (fun r => rate_enabled cpu r) l2) -> cr_div e < cr_div e') as H.
  { induction l as [|a l IH]; cbn; intros H.
    - apply StronglySorted_inv in H as [_ H].
      assert (e' ∈ filter (fun r => rate_enabled cpu r) l2) as Hf
        by (apply list_elem_of_filter; by rewrite He').
      by eapply (proj1 (List.Forall_forall _ _) H), list_elem_of_In.
    - apply IH. by apply StronglySorted_inv in H as [H _]. }
  by eapply H.
Qed.

(** ** The search for a divisor *)

Section ClkselLemmas.
  Context `{SOC : Soc} `{HW : Hardware}.

(** The clock [c] with its record, its parent and the table it has for that parent. *)
Record clksel_clk (c : string) (k : clk) (p : string) (pk : clk) (s : clksel) (w : world)
    : Prop := {
  cc_clk : w_clks w !! c = Some k;
  cc_sel : no_clksel k = false;
  cc_parent : ck_parent k = Some p;
  cc_pk : w_clks w !! p = Some pk;
  cc_find : exists l, ck_clksel k = Some l /\
    List.find (fun s => bool_decide (Some (cs_parent s) = Some p)) l = Some s;
  cc_rates : rates_ok (w_cpu_mask w) (ck_clksel_mask k) (cs_rates s)
}.

Lemma clksel_clk_trace c k p pk s w tr :
  clksel_clk c k p pk s w -> clksel_clk c k p pk s (set_w_trace tr w).
Proof. intros []. by split. Qed.

Lemma by_parent_wp c k p s Q w :
  w_clks w !! c = Some k ->
  (exists l, ck_clksel k = Some l /\
     List.find (fun s => bool_decide (Some (cs_parent s) = Some p)) l = Some s) ->
  Q (Some s) w -> wp (_get_clksel_by_parent c (Some p)) Q w.
Proof.
  intros Hc (l & Hl & Hf) HQ. unfold _get_clksel_by_parent. wp_step. rewrite Hl.
  wp_step. rewrite Hf. by wp_pure.
Qed.

(** [e] is the divisor that gives the best rate not above [target]. *)
Definition best_rate (cpu prate target : Z) (l : list clksel_rate) (e : clksel_rate) : Prop :=
  e ∈ l /\ rate_enabled cpu e = true /\ prate / cr_div e <= target /\
  forall e', e' ∈ l -> rate_enabled cpu e' = true ->
    prate / cr_div e' <= target -> prate / cr_div e' <= prate / cr_div e.

Lemma find_best cpu mask prate target l :
  rates_ok cpu mask l -> 0 <= prate ->
  match find_rate cpu (fun r => prate / cr_div r <=? target) l with
  | Some e => best_rate cpu prate target l e
  | None => forall e, e ∈ l -> rate_enabled cpu e = true -> target < prate / cr_div e
  end.
Proof.
  intros Hok Hp. unfold find_rate. destruct (List.find _ l) as [e|] eqn:E.
  - apply find_Some_split in E as (l1 & l2 & -> & He & Hl1). apply andb_true_iff in He as [He Hle].
    apply Z.leb_le in Hle.
    split_and!; [apply elem_of_app; right; left | done | done |].
    intros e' Hin He' Hle'. apply elem_of_app in Hin as [Hin|[->|Hin]%elem_of_cons]; [|done|].
    + specialize (Hl1 e' Hin). rewrite He' in Hl1. cbn in Hl1. apply Z.leb_gt in Hl1. lia.
    + pose proof (divisors_sorted_after cpu mask l1 l2 e e' Hok He He' Hin).
      pose proof (rt_pos _ _ _ Hok e ltac:(apply elem_of_app; right; left)).
      apply Z.div_le_compat_l; lia.
  - intros e Hin He. pose proof (find_None_all _ _ _ E Hin) as H. cbn in H.
    rewrite He in H. cbn in H. by apply Z.leb_gt in H.
Qed.

Lemma round_rate_div_wp c k p pk s target d0 w :
  clksel_clk c k p pk s w ->
  wp (omap2_clksel_round_rate_div c target d0)
     (fun rd w' => w' = w /\
        rd = match find_rate (w_cpu_mask w) (fun r => ck_rate pk / cr_div r <=? target)
                     (cs_rates s) with
             | Some e => (ck_rate pk / cr_div e, cr_div e)
             | None => (ALL_ONES, 1)
             end) w.
Proof.
  intros [Hc Hs Hp Hpk Hf _]. unfold omap2_clksel_round_rate_div. wp_step. rewrite Hs, Hp.
  wp_pure. eapply by_parent_wp; [done | done|]. wp_pure. wp_step. wp_step.
  destruct (find_rate _ _ _); by wp_pure.
Qed.

(** Looking up a divisor and its field value, in both directions. *)
Lemma divisor_to_clksel_wp c k p pk s e w :
  clksel_clk c k p pk s w -> e ∈ cs_rates s -> rate_enabled (w_cpu_mask w) e = true ->
  wp (_divisor_to_clksel c (cr_div e))
     (fun v w' => w' = w /\ exists e', e' ∈ cs_rates s /\
        rate_enabled (w_cpu_mask w) e' = true /\ cr_div e' = cr_div e /\ v = cr_val e') w.
Proof.
  intros [Hc Hs Hp Hpk Hf _] Hin He. unfold _divisor_to_clksel. wp_step. rewrite Hp.
  eapply by_parent_wp; [done | done|]. wp_pure.
  destruct (find_rate _ _ _) as [e'|] eqn:E; wp_pure.
  - apply find_Some_in in E as [Hin' H]. bool_to_prop. split; [done|]. exists e'. auto.
  - pose proof (find_None_all _ _ _ E Hin) as H. cbn in H. rewrite He, Z.eqb_refl in H. done.
Qed.

Lemma clksel_to_divisor_wp c k p pk s e w :
  clksel_clk c k p pk s w -> e ∈ cs_rates s -> rate_enabled (w_cpu_mask w) e = true ->
  wp (_clksel_to_divisor c (cr_val e)) (fun d w' => w' = w /\ d = cr_div e) w.
Proof.
  intros [Hc Hs Hp Hpk Hf Hr] Hin He. unfold _clksel_to_divisor. wp_step. rewrite Hp.
  eapply by_parent_wp; [done | done|]. wp_pure.
  destruct (find_rate _ _ _) as [e'|] eqn:E; wp_pure.
  - apply find_Some_in in E as [Hin' H]. bool_to_prop. split; [done|].
    by apply (rt_inj _ _ _ Hr).
  - pose proof (find_None_all _ _ _ E Hin) as H. cbn in H. rewrite He, Z.eqb_refl in H. done.
Qed.

(** The rate a clock has when its field selects the entry [e]. *)
Lemma clksel_recalc_wp c k p pk s e w :
  clksel_clk c k p pk s w -> e ∈ cs_rates s -> rate_enabled (w_cpu_mask w) e = true ->
  field_get (ck_clksel_mask k) (regval w (ck_clksel_reg k)) = cr_val e ->
  wp (omap2_clksel_recalc c)
     (fun r w' => r = ck_rate pk / cr_div e /\ io_reads w w') w.
Proof.
  intros Hcc Hin He Hv. pose proof Hcc as [Hc Hs Hp Hpk Hf Hr].
  unfold omap2_clksel_recalc, _read_divisor. wp_pure. wp_step. rewrite Hs. wp_step.
  rewrite Hv. eapply wp_mono; [eapply clksel_to_divisor_wp;
    [by apply clksel_clk_trace | done | done]|].
  cbn beta. intros d w' [-> ->]. wp_step.
  pose proof (rt_pos _ _ _ Hr e Hin). rewrite (proj2 (Z.eqb_neq (cr_div e) 0)) by lia.
  rewrite Hp. wp_pure. wp_step. wp_step. apply wp_divu; [lia|].
  split; [done | by apply io_reads_1].
Qed.

Lemma write_clksel_reg_wp c k v w :
  w_clks w !! c = Some k -> plain_reg (ck_clksel_reg k) ->
  field_fits (ck_clksel_mask k) v = true ->
  wp (_write_clksel_reg c v)
     (fun _ w' => (exists x, wrote (ck_clksel_reg k) x w w') /\
        field_get (ck_clksel_mask k) (regval w' (ck_clksel_reg k)) = v) w.
Proof.
  intros Hc Hr Hf. unfold _write_clksel_reg. do 4 wp_step.
  assert (uint 32 (field_set (ck_clksel_mask k) v (regval w (ck_clksel_reg k)))) as Hu
    by apply field_set_uint, regval_uint.
  split.
  - eexists. split; [by eexists | intros _; by rewrite plain_read, plain_write |].
    intros b Hb Hne. by rewrite plain_read, plain_write_ne, plain_read.
  - rewrite plain_read, plain_write by done. by apply field_get_set.
Qed.
End ClkselLemmas.

(** ** Properties *)

(** C34: rounding a rate with a sorted table gives the best the divisors can do: the
    rounded rate is not above the target and no divisor of the chip gives a better
    one; the error value 0xffffffff comes back exactly when every divisor leaves the
    rate above the target.  Nothing is changed. *)
Theorem clksel_round_rate_optimal c k p pk s target d0 w :
  clksel_clk c k p pk s w -> 0 <= ck_rate pk ->
  wp (omap2_clksel_round_rate_div c target d0)
     (fun '(r, d) w' => w' = w /\
        ((exists e, best_rate (w_cpu_mask w) (ck_rate pk) target (cs_rates s) e /\
            r = ck_rate pk / cr_div e /\ d = cr_div e) \/
         r = ALL_ONES /\ forall e, e ∈ cs_rates s -> rate_enabled (w_cpu_mask w) e = true ->
            target < ck_rate pk / cr_div e)) w.
Proof.
  intros Hcc Hp. eapply wp_mono; [by eapply round_rate_div_wp|]. cbn beta.
  intros [r d] w' [-> Hrd]. split; [done|].
  pose proof (find_best _ _ _ target _ (cc_rates _ _ _ _ _ _ Hcc) Hp) as Hb.
  destruct (find_rate _ _ _) as [e|]; injection Hrd as -> ->; [left; by exists e | by right].
Qed.

Section SetRate.
  Context `{SOC : Soc} `{HW : Hardware}.

Lemma set_rate_wp c k p pk s rate w :
  clksel_clk c k p pk s w -> 0 <= ck_rate pk -> rate < ALL_ONES ->
  plain_reg (ck_clksel_reg k) ->
  let hit e := e ∈ cs_rates s /\ rate_enabled (w_cpu_mask w) e = true /\
               ck_rate pk / cr_div e = rate in
  wp (omap2_clksel_set_rate c rate)
     (fun r w' =>
        r = - EINVAL /\ w' = w /\ (forall e, ~ hit e) \/
        r = 0 /\ exists e tr, hit e /\
          w' = set_w_clks (<[c := set_ck_rate rate k]> (w_clks w)) (set_w_trace tr w) /\
          (exists x, wrote (ck_clksel_reg k) x w (set_w_trace tr w)) /\
          field_get (ck_clksel_mask k) (regval w' (ck_clksel_reg k)) = cr_val e) w.
Proof.
  intros Hcc Hpk0 Hrate Hreg hit. pose proof Hcc as [Hc Hs Hp Hpk Hf Hr].
  unfold omap2_clksel_set_rate. wp_step. rewrite Hs. wp_pure.
  eapply wp_mono; [by eapply round_rate_div_wp|]. cbn beta. intros [vr nd] w1 [-> Hrd].
  pose proof (find_best _ _ _ rate _ Hr Hpk0) as Hb.
  destruct (find_rate _ _ _) as [e|]; injection Hrd as -> ->.
  - destruct Hb as (Hin & He & Hle & Hbest).
    destruct (Z.eqb_spec (ck_rate pk / cr_div e) rate) as [Heq|Hne]; cbn [negb]; wp_pure.
    2: { left. split; [done|]. split; [done|]. intros e' (Hin' & He' & Hq).
         specialize (Hbest e' Hin' He'). lia. }
    eapply wp_mono; [by eapply divisor_to_clksel_wp|]. cbn beta.
    intros v w1 (-> & e' & Hin' & He' & Hdiv & ->). destruct (rt_fits _ _ _ Hr e' Hin' He') as [Hfit Hno].
    rewrite (proj2 (Z.eqb_neq _ _) Hno). wp_pure.
    eapply wp_mono; [by eapply write_clksel_reg_wp|]. cbn beta. intros _ w1 [[x W] Hv].
    pose proof (wr_io _ _ _ _ W) as [tr ->]. wp_pure. rewrite Hp. wp_step. wp_step.
    pose proof (rt_pos _ _ _ Hr e Hin). apply wp_divu; [lia|]. wp_step. rewrite Heq.
    right. split; [done|]. exists e', tr. split; [|split_and!; [done | by exists x | done]].
    split; [done|]. split; [done|]. by rewrite <- Heq, Hdiv.
  - assert ((ALL_ONES =? rate) = false) as -> by (apply Z.eqb_neq; lia). cbn [negb]. wp_pure.
    left. split; [done|]. split; [done|]. intros e (Hin & He & Hq).
    specialize (Hb e Hin He). lia.
Qed.
End SetRate.

(** C16: setting a rate and reading it back: the call succeeds exactly when some
    divisor of the chip gives this rate; the clock then has the rate, and recalculating
    it from the register gives the same rate.  Otherwise -EINVAL is returned and the
    register is not even read. *)
Theorem clksel_set_rate_roundtrip `{SOC : Soc} `{HW : Hardware} c k p pk s rate w :
  clksel_clk c k p pk s w -> 0 <= ck_rate pk -> rate < ALL_ONES -> c <> p ->
  plain_reg (ck_clksel_reg k) ->
  let reachable := exists e, e ∈ cs_rates s /\ rate_enabled (w_cpu_mask w) e = true /\
                     ck_rate pk / cr_div e = rate in
  wp (omap2_clksel_set_rate c rate)
     (fun r w' =>
        (r = 0 /\ reachable /\ clk_rate w' c = Some rate /\
           wp (omap2_clksel_recalc c) (fun r' w'' => r' = rate /\ io_reads w' w'') w') \/
        (r = - EINVAL /\ ~ reachable /\ w' = w)) w.
Proof.
  intros Hcc Hpk Hrate Hne Hreg reachable. eapply wp_mono; [by eapply set_rate_wp|]. cbn beta zeta.
  intros r w' [(-> & -> & Hno)|(-> & e & tr & (Hin & He & Hq) & -> & _ & Hv)].
  - right. split; [done|]. split; [|done]. intros [e He]. by eapply Hno.
  - left. split; [done|]. split; [by exists e|].
    split; [unfold clk_rate; cbn; by rewrite lookup_insert_eq|].
    pose proof Hcc as [Hc Hs Hp Hkp Hf Hr].
    eapply wp_mono; [apply (clksel_recalc_wp c (set_ck_rate rate k) p pk s e);
                     [|done | done | exact Hv]|].
    + split; try done; cbn; [apply lookup_insert_eq | by rewrite lookup_insert_ne].
    + cbn beta. intros r' w'' [-> Hio]. by rewrite Hq.
Qed.

(** No field value stands for two parents or two divisors. *)
Definition clksel_unambiguous (cpu : Z) (l : list clksel) : Prop :=
  forall s s' e e', s ∈ l -> s' ∈ l -> e ∈ cs_rates s -> e' ∈ cs_rates s' ->
    rate_enabled cpu e = true -> rate_enabled cpu e' = true -> cr_val e = cr_val e' ->
    cs_parent s = cs_parent s' /\ cr_div e = cr_div e'.

Lemma max_rate_spec cpu l :
  (forall e, e ∈ l -> 0 < cr_div e) ->
  match max_rate cpu l with
  | Some m => m ∈ l /\ rate_enabled cpu m = true /\
              forall e, e ∈ l -> rate_enabled cpu e = true -> cr_div e <= cr_div m
  | None => forall e, e ∈ l -> rate_enabled cpu e = false
  end.
Proof.
  intros Hpos. unfold max_rate.
  set (f := fun acc r => _).
  assert (forall l2 l1 acc, (forall e, e ∈ l1 ++ l2 -> 0 < cr_div e) ->
    (match acc with
     | Some m => m ∈ l1 /\ rate_enabled cpu m = true /\
                 forall e, e ∈ l1 -> rate_enabled cpu e = true -> cr_div e <= cr_div m
     | None => forall e, e ∈ l1 -> rate_enabled cpu e = false
     end) ->
    match fold_left f l2 acc with
    | Some m => m ∈ l1 ++ l2 /\ rate_enabled cpu m = true /\
                forall e, e ∈ l1 ++ l2 -> rate_enabled cpu e = true -> cr_div e <= cr_div m
    | None => forall e, e ∈ l1 ++ l2 -> rate_enabled cpu e = false
    end) as H; [|by apply (H l [] None); [done | intros e He; by apply elem_of_nil in He]].
  induction l2 as [|a l2 IH]; intros l1 acc Hp Hacc; [by rewrite app_nil_r|].
  cbn [fold_left]. rewrite (cons_middle a l1 l2), app_assoc.
  rewrite (cons_middle a l1 l2), app_assoc in Hp. apply IH; [done|].
  assert (0 < cr_div a) as Ha by (apply Hp; set_solver).
  unfold f. destruct (rate_enabled cpu a) eqn:Ea; cbn [andb].
  - destruct acc as [m|]; [destruct Hacc as (Hm & Hem & Hmax)|].
    + destruct (Z.ltb_spec (cr_div m) (cr_div a)) as [Hlt|Hge].
      * split_and!; [set_solver | done|]. intros e [He|He%list_elem_of_singleton]%elem_of_app Hee;
          [specialize (Hmax e He Hee); lia | subst; lia].
      * split_and!; [set_solver | done|]. intros e [He|He%list_elem_of_singleton]%elem_of_app Hee;
          [by apply Hmax | subst; lia].
    + rewrite (proj2 (Z.ltb_lt 0 (cr_div a)) Ha).
      split_and!; [set_solver | done|]. intros e [He|He%list_elem_of_singleton]%elem_of_app Hee;
        [rewrite Hacc in Hee by done; done | subst; lia].
  - destruct acc as [m|]; [destruct Hacc as (Hm & Hem & Hmax)|].
    + split_and!; [set_solver | done|]. intros e [He|He%list_elem_of_singleton]%elem_of_app Hee;
        [by apply Hmax | subst; congruence].
    + intros e [He|He%list_elem_of_singleton]%elem_of_app; [by apply Hacc | by subst].
Qed.

(** The record of the moved clock and of its new parent. *)
Lemma reparented_child c np k : c <> np ->
  reparented c np c k = set_ck_parent (Some np) (set_ck_children (without c (ck_children k)) k).
Proof. intros. unfold reparented. by destruct (decide (c = np)), (decide (c = c)). Qed.

Lemma reparented_rate c np d k : ck_rate (reparented c np d k) = ck_rate k.
Proof. unfold reparented. by destruct (decide (d = np)), (decide (d = c)). Qed.

(** What can be said of a clock whose parent may be chosen. *)
Record mux_clk (cpu : Z) (c : string) (k : clk) (l : list clksel) (np : string) (s : clksel)
    : Prop := {
  mx_sel : ck_clksel k = Some l;
  mx_mask : ck_clksel_mask k <> 0;
  mx_find : List.find (fun s => bool_decide (Some (cs_parent s) = Some np)) l = Some s;
  mx_rates : rates_ok cpu (ck_clksel_mask k) (cs_rates s);
  mx_some : exists e, e ∈ cs_rates s /\ rate_enabled cpu e = true;
  mx_unambiguous : clksel_unambiguous cpu l
}.

Section SetParent.
  Context `{SOC : Soc} `{HW : Hardware}.

Lemma set_parent_wp c k l np npk s w :
  w_clks w !! c = Some k -> w_clks w !! np = Some npk -> c <> np ->
  mux_clk (w_cpu_mask w) c k l np s -> plain_reg (ck_clksel_reg k) ->
  wp (omap2_clksel_set_parent c np)
     (fun r w' => r = 0 /\ exists e tr m,
        e ∈ cs_rates s /\ rate_enabled (w_cpu_mask w) e = true /\
        (forall e', e' ∈ cs_rates s -> rate_enabled (w_cpu_mask w) e' = true ->
           cr_div e' <= cr_div e) /\
        (forall d, m !! d = reparented c np d <$> w_clks w !! d) /\
        w' = set_w_clks (<[c := set_ck_rate (ck_rate npk / cr_div e) (reparented c np c k)]> m)
               (set_w_root_clks (without c (w_root_clks w)) (set_w_trace tr w)) /\
        (exists x, wrote (ck_clksel_reg k) x w (set_w_trace tr w)) /\
        field_get (ck_clksel_mask k) (regval w' (ck_clksel_reg k)) = cr_val e) w.
Proof.
  intros Hc Hnp Hne [Hl Hm Hf Hr Hs Hu] Hreg. unfold omap2_clksel_set_parent. wp_step.
  assert (no_clksel k = false) as -> by (unfold no_clksel; rewrite Hl; by apply Z.eqb_neq).
  unfold _get_div_and_fieldval. wp_pure. eapply by_parent_wp; [exact Hc | by exists l|]. wp_pure.
  pose proof (max_rate_spec (w_cpu_mask w) (cs_rates s) (rt_pos _ _ _ Hr)) as Hmax.
  destruct (max_rate _ _) as [e|].
  2: { destruct Hs as (e & Hin & He). rewrite Hmax in He by done. done. }
  destruct Hmax as (Hin & He & Hmax). wp_pure. pose proof (rt_pos _ _ _ Hr e Hin) as Hpos.
  rewrite (proj2 (Z.eqb_neq (cr_div e) 0)) by lia. wp_pure.
  destruct (rt_fits _ _ _ Hr e Hin He) as [Hfit _].
  eapply wp_mono; [by eapply write_clksel_reg_wp|]. cbn beta. intros _ w1 [[x W] Hv].
  pose proof (wr_io _ _ _ _ W) as [tr ->]. wp_pure.
  eapply wp_mono; [apply clk_reparent_spec; eauto|]. cbn beta. intros _ w2 (m & -> & Hmm). wp_pure.
  change (forall d, m !! d = reparented c np d <$> w_clks w !! d) in Hmm.
  eapply wp_get_clk; [cbn; by rewrite Hmm, Hnp|]. wp_pure.
  eapply wp_upd_clk; [cbn; by rewrite Hmm, Hc|]. wp_pure.
  rewrite (proj2 (Z.ltb_lt 0 (cr_div e)) Hpos). wp_pure.
  eapply wp_get_clk; [apply lookup_insert_eq|]. wp_pure. apply wp_divu; [lia|]. wp_pure.
  eapply wp_upd_clk; [apply lookup_insert_eq|]. wp_pure. split; [done|].
  exists e, tr, m. split_and!; try done; [|by exists x].
  cbn. rewrite insert_insert_eq, reparented_rate. done.
Qed.
End SetParent.

(** Changing the parent of a clock and reading the choice back from the register:
    the call picks the largest divisor the chip offers for the new parent, the clock is
    below the new parent with the matching rate, recalculating the rate from the
    register gives the same value, and [omap2_init_clksel_parent] finds the same
    parent in the register and changes nothing. *)
Theorem clksel_set_parent_roundtrip `{SOC : Soc} `{HW : Hardware} c k l np npk s w :
  w_clks w !! c = Some k -> w_clks w !! np = Some npk -> c <> np ->
  mux_clk (w_cpu_mask w) c k l np s -> plain_reg (ck_clksel_reg k) ->
  wp (omap2_clksel_set_parent c np)
     (fun r w' => r = 0 /\ parent_of w' c = Some np /\
        exists e, e ∈ cs_rates s /\
          (forall e', e' ∈ cs_rates s -> rate_enabled (w_cpu_mask w) e' = true ->
             cr_div e' <= cr_div e) /\
          clk_rate w' c = Some (ck_rate npk / cr_div e) /\
          wp (omap2_clksel_recalc c)
             (fun rate w'' => rate = ck_rate npk / cr_div e /\ io_reads w' w'') w' /\
          wp (omap2_init_clksel_parent c) (fun _ w'' => io_reads w' w'') w') w.
Proof.
  intros Hc Hnp Hne Hmx Hreg. eapply wp_mono; [by eapply set_parent_wp|]. cbn beta.
  intros r w' (-> & e & tr & m & Hin & He & Hmax & Hmm & -> & _ & Hv).
  destruct Hmx as [Hl Hmask Hf Hr Hs Hu]. rewrite (reparented_child c np k Hne) in *.
  set (k' := set_ck_rate _ _) in *. set (w' := set_w_clks _ _) in *.
  assert (w_clks w' !! c = Some k') as Hk' by apply lookup_insert_eq.
  assert (w_clks w' !! np = Some (reparented c np np npk)) as Hnp'.
  { cbn. rewrite lookup_insert_ne by done. by rewrite Hmm, Hnp. }
  assert (no_clksel k' = false) as Hsel.
  { change (no_clksel k = false). unfold no_clksel. rewrite Hl. by apply Z.eqb_neq. }
  split; [done|]. split; [unfold parent_of; by rewrite Hk'|].
  exists e. split; [done|]. split; [done|]. split; [unfold clk_rate; by rewrite Hk'|]. split.
  - eapply wp_mono; [apply (clksel_recalc_wp c k' np (reparented c np np npk) s e);
                     [|done | done | exact Hv]|].
    + split; try done. by exists l.
    + cbn beta. by rewrite reparented_rate.
  - unfold omap2_init_clksel_parent. wp_step. rewrite Hsel. wp_step.
    change (ck_clksel k') with (ck_clksel k). rewrite Hl. wp_step.
    apply find_Some_in in Hf as [Hsl Hsp%bool_decide_eq_true].
    destruct (List.find _ l) as [s'|] eqn:E; [|wp_pure; by apply io_reads_1].
    apply find_Some_in in E as [Hs' Hfd%bool_decide_eq_true]. destruct Hfd as [e' Hfd].
    apply find_Some_in in Hfd as [Hin' Hb]. bool_to_prop.
    change (cr_val e' = field_get (ck_clksel_mask k) (regval w' (ck_clksel_reg k))) in H0.
    rewrite Hv in H0.
    destruct (Hu s' s e' e Hs' Hsl Hin' Hin H He H0) as [Hpp _].
    injection Hsp as Hsp. rewrite decide_True; [wp_pure; by apply io_reads_1|].
    change (Some np = Some (cs_parent s')). congruence.
Qed.
