(* ===== verification/ClkEnable.v ===== *)
(** * Enabling and disabling clocks

    The enable half of mach-omap2/clock.c, and clock81xx.c.

    The [enable] and [disable] pointers of a [struct clkops] are the interface
    [ClkOps]; [ClkOpsLaws] is what the reference counting relies on.  The recursion
    goes up the tree and [fuel] bounds its depth. *)

From S2P Require Import Prelude Platform Prcm Powerdomain Clockdomain ClkCore.

Definition INVERT_ENABLE : Z := 0x10.
Definition CM_FCLKEN : Z := 0.
Definition CM_ICLKEN : Z := 0x10.
Definition OMAP24XX_CM_IDLEST_VAL : Z := 0.
Definition OMAP34XX_CM_IDLEST_VAL : Z := 1.
Definition TI81XX_IDLEST_VAL : Z := 3.
Definition TI81XX_PRM_DEFAULT_MOD : Z := 0xb00.
Definition TI81XX_PCI_LRST_MASK : Z := Z.shiftl 1 7.
Definition TI81XX_USB1_LRST_MASK : Z := Z.shiftl 1 5.
Definition TI81XX_USB2_LRST_MASK : Z := Z.shiftl 1 6.

(** ** Module clocks (clock.c, clock81xx.c) *)

Section Dflt.
  Context `{SOC : Soc} `{HW : Hardware}.

Definition omap2_init_clk_clkdm (clk : string) : M world unit :=
  k ← get_clk clk;
  match ck_clkdm_name k with
  | None => ret tt
  | Some n =>
      clkdm ← clkdm_lookup (Some n);
      match clkdm with
      | Some d => upd_clk clk (set_ck_clkdm (Some d))
      | None => ret tt
      end
  end.

(** The register and the bit of the companion clock. *)
Definition omap2_clk_dflt_find_companion (clk : string) : M world (Z * Z) :=
  k ← get_clk clk;
  ret (Z.lxor (ck_enable_reg k) (Z.lxor CM_FCLKEN CM_ICLKEN), ck_enable_bit k).

(** The status register, its bit and the value that means idle. *)
Definition omap2_clk_dflt_find_idlest (clk : string) : M world (Z * Z * Z) :=
  k ← get_clk clk;
  let reg := Z.lor (Z.land (ck_enable_reg k) (u32 (Z.lnot 0xf0))) 0x20 in
  if cpu_is_omap24xx then ret (reg, ck_enable_bit k, OMAP24XX_CM_IDLEST_VAL)
  else if cpu_is_omap34xx then ret (reg, ck_enable_bit k, OMAP34XX_CM_IDLEST_VAL)
  else fail Bug.

(** [find_companion] and [find_idlest] of the clkops of the clock: none of the clkops
    of the DM8148 tables has one, so [omap2_dflt_clk_enable] never waits itself. *)
Definition _omap2_module_wait_ready (find_companion : option (string -> M world (Z * Z)))
    (find_idlest : string -> M world (Z * Z * Z)) (clk : string) : M world unit :=
  ready ← (match find_companion with
           | None => ret true
           | Some f =>
               '(reg, b) ← f clk;
               v ← __raw_readl reg;
               ret (negb (Z.land v (lsl 1 b) =? 0))
           end);
  if negb ready then ret tt else
  '(reg, b, val) ← find_idlest clk;
  omap2_cm_wait_idlest reg (lsl 1 b) val;;
  ret tt.

Definition find_companion_of (o : clkops) : option (string -> M world (Z * Z)) := None.
Definition find_idlest_of (o : clkops) : option (string -> M world (Z * Z * Z)) := None.

Definition omap2_dflt_clk_enable (clk : string) : M world Z :=
  k ← get_clk clk;
  if ck_enable_reg k =? 0 then ret 0 else
  v ← __raw_readl (ck_enable_reg k);
  let v := if negb (Z.land (ck_flags k) INVERT_ENABLE =? 0)
           then Z.land v (Z.lnot (lsl 1 (ck_enable_bit k)))
           else Z.lor v (lsl 1 (ck_enable_bit k)) in
  __raw_writel v (ck_enable_reg k);;
  __raw_readl (ck_enable_reg k);;
  (match find_idlest_of (ck_ops k) with
   | Some f => _omap2_module_wait_ready (find_companion_of (ck_ops k)) f clk
   | None => ret tt
   end);;
  ret 0.

Definition omap2_dflt_clk_disable (clk : string) : M world unit :=
  k ← get_clk clk;
  if ck_enable_reg k =? 0 then ret tt else
  v ← __raw_readl (ck_enable_reg k);
  let v := if negb (Z.land (ck_flags k) INVERT_ENABLE =? 0)
           then Z.lor v (lsl 1 (ck_enable_bit k))
           else Z.land v (Z.lnot (lsl 1 (ck_enable_bit k))) in
  __raw_writel v (ck_enable_reg k).

(** clock81xx.c *)
Definition ti81xx_dflt_wait_clk_enable (clk : string) : M world Z :=
  omap2_dflt_clk_enable clk;;
  k ← get_clk clk;
  omap2_cm_wait_idlest (ck_enable_reg k) TI81XX_IDLEST_MASK TI81XX_IDLEST_VAL;;
  ret 0.

Definition ti81xx_pcie_clk_enable (clk : string) : M world Z :=
  omap2_dflt_clk_enable clk;;
  omap2_prm_clear_mod_reg_bits TI81XX_PCI_LRST_MASK TI81XX_PRM_DEFAULT_MOD TI81XX_RM_RSTCTRL;;
  k ← get_clk clk;
  omap2_cm_wait_idlest (ck_enable_reg k) TI81XX_IDLEST_MASK TI81XX_IDLEST_VAL;;
  ret 0.

Definition ti81xx_pcie_clk_disable (clk : string) : M world unit :=
  omap2_prm_set_mod_reg_bits TI81XX_PCI_LRST_MASK TI81XX_PRM_DEFAULT_MOD TI81XX_RM_RSTCTRL;;
  omap2_dflt_clk_disable clk.

Definition ti81xx_usb_clk_enable (clk : string) : M world Z :=
  omap2_dflt_clk_enable clk;;
  omap2_prm_clear_mod_reg_bits (Z.lor TI81XX_USB1_LRST_MASK TI81XX_USB2_LRST_MASK)
    TI81XX_PRM_DEFAULT_MOD TI81XX_RM_RSTCTRL;;
  k ← get_clk clk;
  omap2_cm_wait_idlest (ck_enable_reg k) TI81XX_IDLEST_MASK TI81XX_IDLEST_VAL;;
  ret 0.

Definition ti81xx_usb_clk_disable (clk : string) : M world unit :=
  omap2_prm_set_mod_reg_bits (Z.lor TI81XX_USB1_LRST_MASK TI81XX_USB2_LRST_MASK)
    TI81XX_PRM_DEFAULT_MOD TI81XX_RM_RSTCTRL;;
  omap2_dflt_clk_disable clk.
End Dflt.

(** ** Reference counting (clock.c) *)

(** [clk->ops->enable(clk)] and [clk->ops->disable(clk)] *)
Class ClkOps := {
  ops_enable : clkops -> string -> M world Z;
  ops_disable : clkops -> string -> M world unit
}.

Section Enable.
  Context `{SOC : Soc} `{HW : Hardware} `{OPS : ClkOps} (arch : option pwrdm_ops).

Fixpoint omap2_clk_disable (fuel : nat) (clk : string) : M world unit :=
  match fuel with
  | O => fail NoFuel
  | S fuel' =>
      k ← get_clk clk;
      if ck_usecount k =? 0 then ret tt else
      upd_clk clk (fun k => set_ck_usecount (s8 (ck_usecount k - 1)) k);;
      k ← get_clk clk;
      if 0 <? ck_usecount k then ret tt else
      ops_disable (ck_ops k) clk;;
      (match ck_clkdm k with
       | Some d => omap2_clkdm_clk_disable arch (Some d) (Some clk);; ret tt
       | None => ret tt
       end);;
      match ck_parent k with
      | Some p => omap2_clk_disable fuel' p
      | None => ret tt
      end
  end.

(** The tail of the error path, from the label [oce_err1] on. *)
Definition enable_undo (clk : string) (r : Z) : M world Z :=
  upd_clk clk (fun k => set_ck_usecount (s8 (ck_usecount k - 1)) k);; ret r.

Fixpoint omap2_clk_enable (fuel : nat) (clk : string) : M world Z :=
  match fuel with
  | O => fail NoFuel
  | S fuel' =>
      upd_clk clk (fun k => set_ck_usecount (s8 (ck_usecount k + 1)) k);;
      k ← get_clk clk;
      if 1 <? ck_usecount k then ret 0 else
      r ← match ck_parent k with Some p => omap2_clk_enable fuel' p | None => ret 0 end;
      if negb (r =? 0) then enable_undo clk r else
      r ← match ck_clkdm k with
          | Some d => omap2_clkdm_clk_enable arch (Some d) (Some clk)
          | None => ret 0
          end;
      if negb (r =? 0) then
        (match ck_parent k with Some p => omap2_clk_disable fuel' p | None => ret tt end);;
        enable_undo clk r
      else
      r ← ops_enable (ck_ops k) clk;
      if negb (r =? 0) then
        (match ck_clkdm k with
         | Some d => omap2_clkdm_clk_disable arch (Some d) (Some clk);; ret tt
         | None => ret tt
         end);;
        (match ck_parent k with Some p => omap2_clk_disable fuel' p | None => ret tt end);;
        enable_undo clk r
      else ret 0
  end.
End Enable.

(** What a run satisfies, together with the run. *)
Lemma wp_eqn {S A} (m : M S A) Q s : wp m Q s -> wp m (fun a s' => Q a s' /\ m s = Done a s') s.
Proof. unfold wp. by destruct (m s). Qed.

(** ** What stays the same *)

(** A clock without its rate and its use count. *)
Definition idle (k : clk) : clk := set_ck_usecount 0 (set_ck_rate 0 k).

Record same_static (w w' : world) : Prop := {
  ss_clks : forall c, idle <$> w_clks w !! c = idle <$> w_clks w' !! c;
  ss_clkdms : forall d, set_cd_usecount 0 <$> w_clkdms w !! d =
                        set_cd_usecount 0 <$> w_clkdms w' !! d;
  ss_pwrdms : forall p, (exists pd h, w_pwrdms w !! p = Some pd /\ tracks h pd) ->
                         exists pd h, w_pwrdms w' !! p = Some pd /\ tracks h pd;
  ss_rest : exists cs ds ps tr,
    w' = set_w_trace tr (set_w_pwrdms ps (set_w_clkdms ds (set_w_clks cs w)))
}.

#[global] Instance same_static_preorder : PreOrder same_static.
Proof.
  split.
  - intros w. split; try done.
    by exists (w_clks w), (w_clkdms w), (w_pwrdms w), (w_trace w).
  - intros w1 w2 w3 [H1 D1 P1 (cs1 & ds1 & ps1 & t1 & ->)] [H2 D2 P2 (cs2 & ds2 & ps2 & t2 & ->)].
    split.
    + intros c. by rewrite H1.
    + intros d. by rewrite D1.
    + intros p Hp. by apply P2, P1.
    + by exists cs2, ds2, ps2, t2.
Qed.

Lemma static_lookup w w' c k :
  same_static w w' -> w_clks w !! c = Some k ->
  exists k', w_clks w' !! c = Some k' /\ idle k' = idle k.
Proof.
  intros [H _ _ _] Hk. specialize (H c). rewrite Hk in H.
  destruct (w_clks w' !! c) as [k'|]; [|done]. exists k'. split; [done|]. by apply (inj Some) in H.
Qed.

Lemma static_lookup_inv w w' c k' :
  same_static w w' -> w_clks w' !! c = Some k' ->
  exists k, w_clks w !! c = Some k /\ idle k' = idle k.
Proof.
  intros [H _ _ _] Hk. specialize (H c). rewrite Hk in H.
  destruct (w_clks w !! c) as [k|]; [|done]. exists k. split; [done|]. by apply (inj Some) in H.
Qed.

Lemma static_clkdm w w' d cd :
  same_static w w' -> w_clkdms w !! d = Some cd ->
  exists cd', w_clkdms w' !! d = Some cd' /\ set_cd_usecount 0 cd' = set_cd_usecount 0 cd.
Proof.
  intros [_ H _ _] Hk. specialize (H d). rewrite Hk in H.
  destruct (w_clkdms w' !! d) as [k'|]; [|done]. exists k'. split; [done|]. by apply (inj Some) in H.
Qed.

Lemma idle_parent k k' : idle k' = idle k -> ck_parent k' = ck_parent k.
Proof. intros H. change (ck_parent (idle k') = ck_parent (idle k)). by rewrite H. Qed.
Lemma idle_clkdm k k' : idle k' = idle k -> ck_clkdm k' = ck_clkdm k.
Proof. intros H. change (ck_clkdm (idle k') = ck_clkdm (idle k)). by rewrite H. Qed.
Lemma idle_ops k k' : idle k' = idle k -> ck_ops k' = ck_ops k.
Proof. intros H. change (ck_ops (idle k') = ck_ops (idle k)). by rewrite H. Qed.

(** What the reference counting asks of the operations of a clock: they change the
    bus and the rate of this clock alone. *)
Class ClkOpsLaws `{OPS : ClkOps} := {
  ops_ready : string -> world -> Prop;
  ops_ready_frame c w w' : same_static w w' -> ops_ready c w -> ops_ready c w';
  ops_enable_law c k w :
    w_clks w !! c = Some k -> ops_ready c w ->
    wp (ops_enable (ck_ops k) c)
       (fun _ w' => exists r tr,
          w' = set_w_trace tr (set_w_clks (<[c := set_ck_rate r k]> (w_clks w)) w)) w;
  ops_disable_law c k w :
    w_clks w !! c = Some k -> ops_ready c w ->
    wp (ops_disable (ck_ops k) c)
       (fun _ w' => exists r tr,
          w' = set_w_trace tr (set_w_clks (<[c := set_ck_rate r k]> (w_clks w)) w)) w
}.

(** ** Counting *)

(** The sum of [f] over the clocks. *)
Definition zsum (f : string -> Z) (L : list string) : Z := foldr (fun x a => f x + a) 0 L.

Lemma zsum_ext f g L : (forall x, x ∈ L -> f x = g x) -> zsum f L = zsum g L.
Proof.
  induction L as [|x L IH]; intros H; [done|]. cbn. rewrite (H x) by left. unfold zsum in IH.
  rewrite IH; [done|]. intros y Hy. apply H. by right.
Qed.

Lemma zsum_upd f g L x :
  NoDup L -> x ∈ L -> (forall y, y <> x -> g y = f y) -> zsum g L = zsum f L - f x + g x.
Proof.
  intros Hnd Hx Hg. induction Hnd as [|a L Ha Hnd IH]; [by apply elem_of_nil in Hx|].
  cbn. destruct (decide (a = x)) as [->|Hne].
  - assert (zsum g L = zsum f L) as E by (apply zsum_ext; intros y Hy; apply Hg; congruence).
    unfold zsum in E. rewrite E. lia.
  - apply elem_of_cons in Hx as [|Hx]; [congruence|]. specialize (IH Hx).
    unfold zsum in IH. rewrite IH, (Hg a Hne). lia.
Qed.

Lemma zsum_nonneg f L : (forall x, x ∈ L -> 0 <= f x) -> 0 <= zsum f L.
Proof.
  induction L as [|x L IH]; intros H; cbn; [lia|].
  pose proof (H x ltac:(left)). unfold zsum in IH. specialize (IH ltac:(intros; apply H; by right)). lia.
Qed.

Lemma zsum_ge f L x : x ∈ L -> (forall y, y ∈ L -> 0 <= f y) -> f x <= zsum f L.
Proof.
  induction L as [|a L IH]; intros Hx H; [by apply elem_of_nil in Hx|]. cbn.
  apply elem_of_cons in Hx as [->|Hx].
  - pose proof (zsum_nonneg f L ltac:(intros; apply H; by right)). unfold zsum in *. lia.
  - pose proof (H a ltac:(left)).
    specialize (IH Hx ltac:(intros; apply H; by right)). unfold zsum in *. lia.
Qed.

(** 1 if clock [d] is in use and is a child of [p] (is in clockdomain [cd]). *)
Definition child_use (w : world) (p d : string) : Z :=
  match w_clks w !! d with
  | Some k => if (0 <? ck_usecount k) && bool_decide (ck_parent k = Some p) then 1 else 0
  | None => 0
  end.
Definition clkdm_use (w : world) (cd d : string) : Z :=
  match w_clks w !! d with
  | Some k => if (0 <? ck_usecount k) && bool_decide (ck_clkdm k = Some cd) then 1 else 0
  | None => 0
  end.

Definition usecount_of (w : world) (c : string) : Z :=
  match w_clks w !! c with Some k => ck_usecount k | None => 0 end.

(** [L] lists the clocks.  [ext c] is the number of references drivers hold to clock
    [c]; the use count of a clock is that number plus the number of its children in
    use, and the use count of a clockdomain the number of its clocks in use, up to
    [dext], which is 0 between operations. *)
Record counted (L : list string) (ext dext : string -> Z) (w : world) : Prop := {
  cn_clk : forall c k, w_clks w !! c = Some k ->
    ck_usecount k = ext c + zsum (child_use w c) L;
  cn_clkdm : forall d cd, w_clkdms w !! d = Some cd ->
    cd_usecount cd = s32 (dext d + zsum (clkdm_use w d) L);
  cn_range : forall c k, w_clks w !! c = Some k -> 0 <= ck_usecount k <= 127;
  cn_dom : forall c k, w_clks w !! c = Some k -> c ∈ L
}.

(** [n] more references to [x]. *)
Definition bump (ext : string -> Z) (x : string) (n : Z) : string -> Z :=
  fun y => if decide (y = x) then ext y + n else ext y.
Definition bump_opt (ext : string -> Z) (o : option string) (n : Z) : string -> Z :=
  match o with Some x => bump ext x n | None => ext end.

Lemma counted_proper L e e' de de' w :
  (forall x, e x = e' x) -> (forall x, de x = de' x) -> counted L e de w -> counted L e' de' w.
Proof.
  intros He Hd [H1 H2 H3 H4]. split; [| | done | done].
  - intros c k Hk. rewrite <- He. by apply H1.
  - intros d cd Hk. rewrite <- Hd. by apply H2.
Qed.

(** The counts only look at parents, clockdomains and use counts of the clocks. *)
Lemma counted_frame L e de w w' :
  (forall c, (fun k => (ck_usecount k, ck_parent k, ck_clkdm k)) <$> w_clks w' !! c =
             (fun k => (ck_usecount k, ck_parent k, ck_clkdm k)) <$> w_clks w !! c) ->
  w_clkdms w' = w_clkdms w -> counted L e de w -> counted L e de w'.
Proof.
  intros Hc Hd [H1 H2 H3 H4].
  assert (forall c k', w_clks w' !! c = Some k' -> exists k, w_clks w !! c = Some k /\
    ck_usecount k' = ck_usecount k /\ ck_parent k' = ck_parent k /\ ck_clkdm k' = ck_clkdm k) as Hinv.
  { intros c k' Hk. specialize (Hc c). rewrite Hk in Hc. destruct (w_clks w !! c) as [k|]; [|done].
    exists k. by injection Hc. }
  assert (forall p d, child_use w' p d = child_use w p d) as Hcu.
  { intros p d. unfold child_use. specialize (Hc d).
    destruct (w_clks w' !! d), (w_clks w !! d); try done. injection Hc as -> -> _. done. }
  assert (forall p d, clkdm_use w' p d = clkdm_use w p d) as Hdu.
  { intros p d. unfold clkdm_use. specialize (Hc d).
    destruct (w_clks w' !! d), (w_clks w !! d); try done. injection Hc as -> _ ->. done. }
  split.
  - intros c k' (k & Hk & -> & _)%Hinv. rewrite (H1 c k Hk). f_equal. by apply zsum_ext.
  - intros d cd. rewrite Hd. intros Hk. rewrite (H2 d cd Hk). do 2 f_equal. by apply zsum_ext.
  - intros c k' (k & Hk & -> & _)%Hinv. by eapply H3.
  - intros c k' (k & Hk & _)%Hinv. by eapply H4.
Qed.

Definition in_use (u : Z) : Z := if 0 <? u then 1 else 0.

(** Changing the use count of one clock: the clock has that many more references,
    and its parent and its clockdomain see it come into use or out of use. *)
Lemma counted_set L e de w c k u :
  NoDup L -> counted L e de w -> w_clks w !! c = Some k -> 0 <= u <= 127 ->
  let d := in_use u - in_use (ck_usecount k) in
  counted L (bump_opt (bump e c (u - ck_usecount k)) (ck_parent k) (- d))
    (bump_opt de (ck_clkdm k) (- d))
    (set_w_clks (<[c := set_ck_usecount u k]> (w_clks w)) w).
Proof.
  intros Hnd [H1 H2 H3 H4] Hk Hu d. set (w' := set_w_clks _ w).
  pose proof (H4 c k Hk) as Hin.
  assert (forall x, x <> c -> w_clks w' !! x = w_clks w !! x) as Hne
    by (intros x Hx; cbn; by rewrite lookup_insert_ne by congruence).
  assert (w_clks w' !! c = Some (set_ck_usecount u k)) as Hc by apply lookup_insert_eq.
  assert (forall p, zsum (child_use w' p) L = zsum (child_use w p) L +
    (if decide (ck_parent k = Some p) then d else 0)) as Hcu.
  { intros p. rewrite (zsum_upd (child_use w p) (child_use w' p) L c Hnd Hin).
    - unfold child_use at 2 3. rewrite Hc, Hk. cbn [ck_usecount ck_parent set_ck_usecount].
      unfold d, in_use. destruct (decide (ck_parent k = Some p));
        [rewrite !bool_decide_true by done | rewrite !bool_decide_false by done];
        destruct (0 <? u), (0 <? ck_usecount k); cbn; lia.
    - intros y Hy. unfold child_use. by rewrite Hne. }
  assert (forall p, zsum (clkdm_use w' p) L = zsum (clkdm_use w p) L +
    (if decide (ck_clkdm k = Some p) then d else 0)) as Hdu.
  { intros p. rewrite (zsum_upd (clkdm_use w p) (clkdm_use w' p) L c Hnd Hin).
    - unfold clkdm_use at 2 3. rewrite Hc, Hk. cbn [ck_usecount ck_clkdm set_ck_usecount].
      unfold d, in_use. destruct (decide (ck_clkdm k = Some p));
        [rewrite !bool_decide_true by done | rewrite !bool_decide_false by done];
        destruct (0 <? u), (0 <? ck_usecount k); cbn; lia.
    - intros y Hy. unfold clkdm_use. by rewrite Hne. }
  assert (forall o f n x, bump_opt f o n x = f x + (if decide (o = Some x) then n else 0)) as Hb.
  { intros [y|] f n x; cbn; [|destruct (decide (None = Some x)); [done | lia]]. unfold bump.
    destruct (decide (x = y)), (decide (Some y = Some x)); try congruence; lia. }
  split.
  - intros x kx Hx. rewrite Hb, Hcu. unfold bump. destruct (decide (x = c)) as [->|Hxc].
    + rewrite Hc in Hx. apply (inj Some) in Hx as <-. pose proof (H1 c k Hk).
      cbn [ck_usecount set_ck_usecount]. destruct (decide (ck_parent k = Some c)); lia.
    + rewrite Hne in Hx by done. pose proof (H1 x kx Hx).
      destruct (decide (ck_parent k = Some x)); lia.
  - intros x cd Hx. rewrite Hb, Hdu, (H2 x cd Hx). f_equal.
    destruct (decide (ck_clkdm k = Some x)); lia.
  - intros x kx Hx. destruct (decide (x = c)) as [->|Hxc].
    + rewrite Hc in Hx. apply (inj Some) in Hx as <-. done.
    + rewrite Hne in Hx by done. by eapply H3.
  - intros x kx Hx. destruct (decide (x = c)) as [->|Hxc]; [done|].
    rewrite Hne in Hx by done. by eapply H4.
Qed.

Lemma s32_add a b : s32 (s32 a + b) = s32 (a + b).
Proof.
  unfold wraps. f_equal.
  replace ((a + 2 ^ (32 - 1)) mod 2 ^ 32 - 2 ^ (32 - 1) + b + 2 ^ (32 - 1))
    with ((a + 2 ^ (32 - 1)) mod 2 ^ 32 + b) by lia.
  rewrite Zplus_mod_idemp_l. f_equal. lia.
Qed.

(** One more (or one fewer) use of a clockdomain. *)
Lemma counted_clkdm L e de w d cd n pws tr :
  counted L e de w -> w_clkdms w !! d = Some cd ->
  counted L e (bump de d n)
    (set_w_trace tr (set_w_pwrdms pws
      (set_w_clkdms (<[d := set_cd_usecount (s32 (cd_usecount cd + n)) cd]> (w_clkdms w)) w))).
Proof.
  intros [H1 H2 H3 H4] Hd. split; [exact H1 | | exact H3 | exact H4].
  intros x cx Hx. cbn in Hx. unfold bump. destruct (decide (x = d)) as [->|Hne].
  - rewrite lookup_insert_eq in Hx. apply (inj Some) in Hx as <-.
    cbn [cd_usecount set_cd_usecount]. rewrite (H2 d cd Hd), s32_add.
    change (clkdm_use (set_w_trace tr _) d) with (clkdm_use w d). f_equal. lia.
  - rewrite lookup_insert_ne in Hx by congruence. by apply H2.
Qed.

(** ** The specification of enable and disable *)

(** The structure the recursion relies on: parents exist and have a smaller rank,
    clockdomains are registered, and the operations of the clocks can run. *)
Record clk_static `{OPL : ClkOpsLaws} (rank : string -> nat) (w : world) : Prop := {
  st_parent : forall c k p, w_clks w !! c = Some k -> ck_parent k = Some p ->
    is_Some (w_clks w !! p) /\ (rank p < rank c)%nat;
  st_clkdm : forall c k d, w_clks w !! c = Some k -> ck_clkdm k = Some d ->
    exists cd p, w_clkdms w !! d = Some cd /\ cd_pwrdm cd = PwrdmPtr p /\
      exists pd h, w_pwrdms w !! p = Some pd /\ tracks h pd;
  st_ops : forall c k, w_clks w !! c = Some k -> ops_ready c w
}.

Section EnableSpec.
  Context `{SOC : Soc} `{HW : Hardware} `{OPL : ClkOpsLaws}
    (arch : option pwrdm_ops) `{LAWS : !PwrdmArchLaws arch} (Hti : cpu_is_ti81xx = true).
  Context (rank : string -> nat) (L : list string) (HL : NoDup L).

Lemma clk_static_frame w w' : same_static w w' -> clk_static rank w -> clk_static rank w'.
Proof.
  intros Hss [Hp Hd Ho]. split.
  - intros c k' p Hk' Hpar. destruct (static_lookup_inv _ _ _ _ Hss Hk') as (k & Hk & Hi).
    rewrite (idle_parent _ _ Hi) in Hpar. destruct (Hp c k p Hk Hpar) as [[kp Hkp] Hr].
    split; [|done]. destruct (static_lookup _ _ _ _ Hss Hkp) as (kp' & -> & _). eauto.
  - intros c k' d Hk' Hcd. destruct (static_lookup_inv _ _ _ _ Hss Hk') as (k & Hk & Hi).
    rewrite (idle_clkdm _ _ Hi) in Hcd. destruct (Hd c k d Hk Hcd) as (cd & p & Hc & Hpp & Ht).
    destruct (static_clkdm _ _ _ _ Hss Hc) as (cd' & Hc' & He). exists cd', p.
    split; [done|]. split; [|by apply (ss_pwrdms _ _ Hss)].
    change (cd_pwrdm (set_cd_usecount 0 cd') = PwrdmPtr p). by rewrite He.
  - intros c k' Hk'. destruct (static_lookup_inv _ _ _ _ Hss Hk') as (k & Hk & _).
    eapply ops_ready_frame; [exact Hss | by eapply Ho].
Qed.

Lemma static_set_usecount w c k u :
  w_clks w !! c = Some k ->
  same_static w (set_w_clks (<[c := set_ck_usecount u k]> (w_clks w)) w).
Proof.
  intros Hk. split; try done.
  - intros x. cbn. destruct (decide (x = c)) as [->|]; [by rewrite lookup_insert_eq, Hk|].
    by rewrite lookup_insert_ne.
  - by exists (<[c := set_ck_usecount u k]> (w_clks w)), (w_clkdms w), (w_pwrdms w), (w_trace w).
Qed.

Lemma static_set_rate w c k r tr :
  w_clks w !! c = Some k ->
  same_static w (set_w_trace tr (set_w_clks (<[c := set_ck_rate r k]> (w_clks w)) w)).
Proof.
  intros Hk. split; try done.
  - intros x. cbn. destruct (decide (x = c)) as [->|]; [by rewrite lookup_insert_eq, Hk|].
    by rewrite lookup_insert_ne.
  - by exists (<[c := set_ck_rate r k]> (w_clks w)), (w_clkdms w), (w_pwrdms w), tr.
Qed.

Lemma counted_rate e de w c k r tr :
  w_clks w !! c = Some k -> counted L e de w ->
  counted L e de (set_w_trace tr (set_w_clks (<[c := set_ck_rate r k]> (w_clks w)) w)).
Proof.
  intros Hk. apply counted_frame; [|done]. intros x. cbn.
  destruct (decide (x = c)) as [->|]; [by rewrite lookup_insert_eq, Hk|].
  by rewrite lookup_insert_ne.
Qed.

(** The clockdomain side of enabling and disabling a clock. *)
Lemma static_clkdm_step d cd n p pd l h w w' :
  w_clkdms w !! d = Some cd -> w_pwrdms w !! p = Some pd -> tracks h pd ->
  clkdm_step d (set_cd_usecount n cd) p pd l h w w' -> same_static w w'.
Proof.
  intros Hd Hp Ht [(pd' & _ & [obs Ht'] & ->)]. split; try done.
  - intros x. cbn. destruct (decide (x = d)) as [->|]; [by rewrite lookup_insert_eq, Hd|].
    by rewrite lookup_insert_ne.
  - intros x (pdx & hx & Hx & Htx). cbn. destruct (decide (x = p)) as [->|].
    + rewrite lookup_insert_eq. by eexists _, _.
    + rewrite lookup_insert_ne by done. by eexists _, _.
  - by eexists (w_clks w), _, _, _.
Qed.

Lemma clkdm_enable_counted c k d e de w :
  clk_static rank w -> counted L e de w -> w_clks w !! c = Some k -> ck_clkdm k = Some d ->
  wp (omap2_clkdm_clk_enable arch (Some d) (Some c))
     (fun r w' => r = 0 /\ same_static w w' /\ counted L e (bump de d 1) w' /\
        w_clks w' = w_clks w) w.
Proof.
  intros Hst Hcn Hk Hcd. destruct (st_clkdm _ _ Hst c k d Hk Hcd)
    as (cd & p & Hd & Hpp & pd & h & Hp & Ht).
  eapply wp_mono; [by apply (clk_enable_spec arch Hti d c cd p pd h w)|]. cbn beta zeta.
  intros r w' (-> & l & Hs & _). split; [done|].
  split; [by eapply static_clkdm_step|]. destruct Hs as [(pd' & _ & _ & ->)].
  split; [by apply counted_clkdm | done].
Qed.

Lemma clkdm_disable_counted c k d e de w :
  clk_static rank w -> counted L e de w -> w_clks w !! c = Some k -> ck_clkdm k = Some d ->
  wp (omap2_clkdm_clk_disable arch (Some d) (Some c))
     (fun r w' => r = 0 /\ same_static w w' /\ counted L e (bump de d (-1)) w' /\
        w_clks w' = w_clks w) w.
Proof.
  intros Hst Hcn Hk Hcd. destruct (st_clkdm _ _ Hst c k d Hk Hcd)
    as (cd & p & Hd & Hpp & pd & h & Hp & Ht).
  eapply wp_mono; [by apply (clk_disable_spec arch Hti d c cd p pd h w)|]. cbn beta zeta.
  intros r w' (-> & l & Hs & _). split; [done|].
  split; [by eapply static_clkdm_step|]. destruct Hs as [(pd' & _ & _ & ->)].
  split; [by apply (counted_clkdm L e de w d cd (-1)) | done].
Qed.
Lemma child_use_nonneg w p d : 0 <= child_use w p d.
Proof. unfold child_use. destruct (w_clks w !! d); [|lia]. case_bool; lia. Qed.

(** A clock in use keeps its parent in use. *)
Lemma parent_in_use e de w c k p kp :
  counted L e de w -> w_clks w !! c = Some k -> ck_parent k = Some p ->
  w_clks w !! p = Some kp -> 0 < ck_usecount k -> 0 <= e p -> 0 < ck_usecount kp.
Proof.
  intros Hcn Hk Hpar Hkp Hu He. rewrite (cn_clk _ _ _ _ Hcn p kp Hkp).
  pose proof (zsum_ge (child_use w p) L c (cn_dom _ _ _ _ Hcn c k Hk)
    ltac:(intros; apply child_use_nonneg)) as Hge.
  unfold child_use at 1 in Hge. rewrite Hk, Hpar, bool_decide_true in Hge by done.
  rewrite (proj2 (Z.ltb_lt 0 _) Hu) in Hge. cbn in Hge. lia.
Qed.

(** Apart from [c], only clocks above [c] may have a new use count. *)
Definition above_same (c : string) (w w' : world) : Prop :=
  forall x, x <> c -> (rank c <= rank x)%nat -> usecount_of w' x = usecount_of w x.

Lemma above_same_set c k u w :
  above_same c w (set_w_clks (<[c := set_ck_usecount u k]> (w_clks w)) w).
Proof. intros x Hx _. unfold usecount_of. cbn. by rewrite lookup_insert_ne by congruence. Qed.

Lemma above_same_rate c k r tr w w' :
  above_same c w w' ->
  above_same c w (set_w_trace tr (set_w_clks (<[c := set_ck_rate r k]> (w_clks w')) w')).
Proof.
  intros H x Hx Hr. rewrite <- (H x Hx Hr). unfold usecount_of. cbn.
  by rewrite lookup_insert_ne by congruence.
Qed.

Lemma above_same_clks c w w1 w2 :
  above_same c w w1 -> w_clks w2 = w_clks w1 -> above_same c w w2.
Proof. intros H E x Hx Hr. rewrite <- (H x Hx Hr). unfold usecount_of. by rewrite E. Qed.

(** A clock that was and stays in use: only its own references change. *)
Lemma counted_busy e de w c k u :
  counted L e de w -> w_clks w !! c = Some k -> 0 < ck_usecount k -> 0 < u <= 127 ->
  counted L (bump e c (u - ck_usecount k)) de
    (set_w_clks (<[c := set_ck_usecount u k]> (w_clks w)) w).
Proof.
  intros Hcn Hk Hu Hu'.
  eapply counted_proper; [| |exact (counted_set L e de w c k u HL Hcn Hk ltac:(lia))];
    intros x; unfold in_use;
    rewrite (proj2 (Z.ltb_lt 0 u)), (proj2 (Z.ltb_lt 0 (ck_usecount k))) by lia;
    [destruct (ck_parent k) | destruct (ck_clkdm k)]; cbn; unfold bump;
    repeat case_decide; lia.
Qed.

(** Switching a clock off: its operation and its clockdomain. *)
Lemma disable_self c k e de w :
  clk_static rank w -> w_clks w !! c = Some k ->
  counted L e (bump_opt de (ck_clkdm k) 1) w ->
  wp (ops_disable (ck_ops k) c;;
      match ck_clkdm k with
      | Some d => omap2_clkdm_clk_disable arch (Some d) (Some c);; ret tt
      | None => ret tt
      end)
     (fun _ w' => same_static w w' /\ counted L e de w' /\
        exists r, w_clks w' = <[c := set_ck_rate r k]> (w_clks w)) w.
Proof.
  intros Hst Hk Hcn. wp_pure.
  eapply wp_mono; [eapply ops_disable_law; [exact Hk | by eapply st_ops]|]. cbn beta.
  intros _ w2 (r & tr & ->). set (w2 := set_w_trace tr _).
  assert (same_static w w2) as Hss2 by (by apply static_set_rate).
  assert (counted L e (bump_opt de (ck_clkdm k) 1) w2) as Hcn2 by (by apply counted_rate).
  assert (w_clks w2 !! c = Some (set_ck_rate r k)) as Hk2 by apply lookup_insert_eq.
  destruct (ck_clkdm k) as [d|] eqn:Hd; wp_pure.
  - eapply wp_mono; [eapply clkdm_disable_counted;
      [by eapply clk_static_frame | exact Hcn2 | exact Hk2 | done]|]. cbn beta.
    intros r' w3 (_ & Hss3 & Hcn3 & Hcl). wp_pure. split; [by etrans|]. split; [|by exists r; rewrite Hcl].
    eapply counted_proper; [| |exact Hcn3]; [done|]. intros x. cbn. unfold bump.
    repeat case_decide; lia.
  - split; [done|]. split; [done|]. by exists r.
Qed.

Lemma clk_disable_counted fuel c e de w :
  (rank c < fuel)%nat -> clk_static rank w -> counted L e de w ->
  is_Some (w_clks w !! c) -> 0 < usecount_of w c ->
  (forall x, (rank x < rank c)%nat -> 0 <= e x) ->
  wp (omap2_clk_disable arch fuel c)
     (fun _ w' => same_static w w' /\ counted L (bump e c (-1)) de w' /\ above_same c w w') w.
Proof.
  revert c e de w. induction fuel as [|fuel IH]; intros c e de w Hf Hst Hcn [k Hk] Hu He; [lia|].
  unfold usecount_of in Hu. rewrite Hk in Hu. pose proof (cn_range _ _ _ _ Hcn c k Hk) as Hr.
  cbn [omap2_clk_disable]. wp_step. rewrite (proj2 (Z.eqb_neq (ck_usecount k) 0)) by lia. wp_step.
  rewrite wraps_small by lia. set (k1 := set_ck_usecount (ck_usecount k - 1) k).
  set (w1 := set_w_clks _ w).
  assert (w_clks w1 !! c = Some k1) as Hk1 by apply lookup_insert_eq.
  pose proof (static_set_usecount w c k (ck_usecount k - 1) Hk) as Hss1. fold k1 w1 in Hss1.
  wp_step. change (ck_usecount k1) with (ck_usecount k - 1).
  destruct (Z.ltb_spec 0 (ck_usecount k - 1)) as [Hpos|Hz]; [wp_pure|].
  { split; [done|]. split; [|by apply above_same_set].
    replace (-1) with (ck_usecount k - 1 - ck_usecount k) by lia. apply counted_busy; done || lia. }
  pose proof (counted_set L e de w c k (ck_usecount k - 1) HL Hcn Hk ltac:(lia)) as Hcn1.
  fold k1 w1 in Hcn1. cbv zeta in Hcn1. assert (ck_usecount k = 1) as Hu1 by lia.
  rewrite Hu1 in Hcn1. change (1 - 1 - 1) with (-1) in Hcn1.
  change (- (in_use (1 - 1) - in_use 1)) with 1 in Hcn1.
  eapply wp_pair, wp_mono; [apply (disable_self c k1 (bump_opt (bump e c (-1)) (ck_parent k) 1) de w1);
    [by eapply clk_static_frame | done | exact Hcn1]|].
  cbn beta. intros _ w3 (Hss3 & Hcn3 & r & Hcl). change (ck_parent k1) with (ck_parent k).
  assert (above_same c w w3) as Hab3.
  { intros x Hx _. unfold usecount_of. rewrite Hcl. cbn. by rewrite !lookup_insert_ne. }
  destruct (ck_parent k) as [p|] eqn:Hp; wp_pure.
  2: { split; [by etrans|]. by split. }
  destruct (st_parent _ _ Hst c k p Hk Hp) as [[kp Hkp] Hrk].
  assert (c <> p) as Hcp by (intros ->; lia).
  assert (w_clks w3 !! p = Some kp) as Hkp3 by (rewrite Hcl; cbn; by rewrite !lookup_insert_ne).
  eapply wp_mono; [eapply (IH p _ de w3); [lia | | exact Hcn3 | eauto | |]|].
  - eapply clk_static_frame; [|exact Hst]. by etrans.
  - unfold usecount_of. rewrite Hkp3. eapply (parent_in_use e de w c k p kp); try done. by apply He.
  - intros x Hx. cbn. unfold bump. specialize (He x ltac:(lia)).
    destruct (decide (x = p)) as [->|]; [lia|]. destruct (decide (x = c)) as [->|]; lia.
  - cbn beta. intros _ w4 (Hss4 & Hcn4 & Hab4). split; [by etrans; [|etrans]|]. split.
    + eapply counted_proper; [| |exact Hcn4]; [|done]. intros x. cbn. unfold bump.
      repeat case_decide; lia.
    + intros x Hx Hrx. rewrite (Hab4 x) by (lia || (intros ->; lia)). by apply Hab3.
Qed.

(** The error path takes the reference back. *)
Lemma enable_undo_counted c k r e de w :
  w_clks w !! c = Some k -> ck_usecount k = 1 ->
  counted L (bump_opt (bump e c 1) (ck_parent k) (-1)) (bump_opt de (ck_clkdm k) (-1)) w ->
  wp (enable_undo c r)
     (fun r' w' => r' = r /\ same_static w w' /\ counted L e de w' /\ above_same c w w') w.
Proof.
  intros Hk Hu Hcn. unfold enable_undo. wp_step. rewrite Hu. change (s8 (1 - 1)) with 0.
  split; [done|]. split; [by apply static_set_usecount|]. split; [|by apply above_same_set].
  eapply counted_proper; [| |exact (counted_set L _ _ w c k 0 HL Hcn Hk ltac:(lia))];
    intros x; rewrite Hu; [destruct (ck_parent k) | destruct (ck_clkdm k)]; cbn; unfold bump;
    repeat case_decide; lia.
Qed.

(** The operation of some clock returned [r] on the way. *)
Definition op_returned (w : world) (r : Z) : Prop :=
  exists x k w1 w2, same_static w w1 /\ w_clks w1 !! x = Some k /\ ops_enable (ck_ops k) x w1 = Done r w2.

Lemma op_returned_frame w w1 r : same_static w w1 -> op_returned w1 r -> op_returned w r.
Proof. intros Hss (x & k & w2 & w3 & H & Hr). exists x, k, w2, w3. split; [by etrans | done]. Qed.

(** What enabling a clock does to the references. *)
Definition enabled_or_undone (c : string) (e de : string -> Z) (w : world) (r : Z) (w' : world)
    : Prop :=
  same_static w w' /\ above_same c w w' /\
  (r = 0 /\ counted L (bump e c 1) de w' /\ 0 < usecount_of w' c \/
   r <> 0 /\ op_returned w r /\ counted L e de w').

(** The parent half: the parent is enabled, or its references are as before. *)
Lemma enable_parent fuel c k e de w :
  (forall p, ck_parent k = Some p -> forall e de w0,
     clk_static rank w0 -> counted L e de w0 -> is_Some (w_clks w0 !! p) ->
     (forall x, (rank x < rank p)%nat -> 0 <= e x) ->
     (forall x, (rank x <= rank p)%nat -> usecount_of w0 x < 127) ->
     wp (omap2_clk_enable arch fuel p) (enabled_or_undone p e de w0) w0) ->
  clk_static rank w -> w_clks w !! c = Some k ->
  counted L (bump_opt (bump e c 1) (ck_parent k) (-1)) de w ->
  (forall x, (rank x < rank c)%nat -> 0 <= e x) ->
  (forall x, (rank x < rank c)%nat -> usecount_of w x < 127) ->
  wp (match ck_parent k with Some p => omap2_clk_enable arch fuel p | None => ret 0 end)
     (fun r w' => same_static w w' /\ usecount_of w' c = usecount_of w c /\
        above_same c w w' /\
        (r = 0 /\ counted L (bump e c 1) de w' /\
           (forall p, ck_parent k = Some p -> 0 < usecount_of w' p) \/
         r <> 0 /\ op_returned w r /\ counted L (bump_opt (bump e c 1) (ck_parent k) (-1)) de w')) w.
Proof.
  intros IH Hst Hk Hcn He Hroom. destruct (ck_parent k) as [p|] eqn:Hp; cbn in Hcn.
  - destruct (st_parent _ _ Hst c k p Hk Hp) as [Hex Hrk].
    eapply wp_mono; [eapply IH; [done | done | exact Hcn | done | |]|].
    + intros x Hx. unfold bump. specialize (He x ltac:(lia)).
      destruct (decide (x = p)) as [->|]; [lia|]. destruct (decide (x = c)) as [->|]; lia.
    + intros x Hx. apply Hroom. lia.
    + intros r w' (Hss & Hab & Hr). split; [done|].
      split; [apply Hab; [intros ->; lia | lia]|].
      split; [intros x Hx Hrx; apply Hab; [intros ->; lia | lia]|].
      destruct Hr as [(-> & Hcn' & Hu)|Hr]; [left | right]; [|done].
      split; [done|]. split; [|by intros q [= <-]].
      eapply counted_proper; [| |exact Hcn']; [|done]. intros x. unfold bump.
      repeat case_decide; lia.
  - wp_pure. split; [reflexivity|]. split; [done|]. split; [done|]. left. by split.
Qed.

(** The error path of a clock whose parent and clockdomain were already enabled. *)
Lemma enable_rollback fuel c k k' r e de w :
  (rank c <= fuel)%nat -> clk_static rank w -> w_clks w !! c = Some k' -> idle k' = idle k ->
  ck_usecount k' = 1 -> counted L (bump e c 1) de w ->
  (forall x, (rank x < rank c)%nat -> 0 <= e x) ->
  (forall p, ck_parent k = Some p -> 0 < usecount_of w p) ->
  wp ((match ck_clkdm k with
       | Some d => omap2_clkdm_clk_disable arch (Some d) (Some c);; ret tt
       | None => ret tt
       end);;
      (match ck_parent k with Some p => omap2_clk_disable arch fuel p | None => ret tt end);;
      enable_undo c r)
     (fun r' w' => r' = r /\ same_static w w' /\ counted L e de w' /\ above_same c w w') w.
Proof.
  intros Hf Hst Hk Hi Hu Hcn He Hpu. wp_pure.
  rewrite <- (idle_clkdm _ _ Hi), <- (idle_parent _ _ Hi) in *.
  apply (wp_mono _ (fun _ w1 => same_static w w1 /\ w_clks w1 = w_clks w /\
    counted L (bump e c 1) (bump_opt de (ck_clkdm k') (-1)) w1)).
  { destruct (ck_clkdm k') as [d|] eqn:Hd; wp_pure; [|by split].
    eapply wp_mono; [by eapply clkdm_disable_counted|]. cbn beta.
    intros _ w1 (_ & Hss & Hcn1 & Hcl). by wp_pure. }
  cbn beta. intros _ w1 (Hss1 & Hcl1 & Hcn1). wp_pure.
  assert (clk_static rank w1) as Hst1 by (by eapply clk_static_frame).
  apply (wp_mono _ (fun _ w2 => same_static w w2 /\ above_same c w w2 /\
    usecount_of w2 c = 1 /\
    counted L (bump_opt (bump e c 1) (ck_parent k') (-1)) (bump_opt de (ck_clkdm k') (-1)) w2)).
  { assert (usecount_of w1 c = 1) as Huc by (unfold usecount_of; by rewrite Hcl1, Hk).
    destruct (ck_parent k') as [p|] eqn:Hp; wp_pure.
    - destruct (st_parent _ _ Hst c k' p Hk Hp) as [Hex Hrk].
      eapply wp_mono; [eapply (clk_disable_counted fuel p); [lia | done | exact Hcn1 | | |]|].
      + by rewrite Hcl1.
      + unfold usecount_of. rewrite Hcl1. by apply Hpu.
      + intros x Hx. unfold bump. specialize (He x ltac:(lia)). case_decide; lia.
      + cbn beta. intros _ w2 (Hss2 & Hcn2 & Hab2). split; [by etrans|]. split_and!; [| | done].
        * intros x Hx Hrx. rewrite (Hab2 x) by (lia || (intros ->; lia)).
          unfold usecount_of. by rewrite Hcl1.
        * rewrite <- Huc. apply Hab2; [intros ->; lia | lia].
    - split; [done|]. split; [|done]. intros x _ _. unfold usecount_of. by rewrite Hcl1. }
  cbn beta. intros _ w2 (Hss2 & Hab2 & Huc2 & Hcn2).
  destruct (static_lookup _ _ _ _ Hss2 Hk) as (k2 & Hk2 & Hi2).
  rewrite <- (idle_clkdm _ _ Hi2), <- (idle_parent _ _ Hi2) in Hcn2.
  eapply wp_mono; [eapply enable_undo_counted; [exact Hk2 | | exact Hcn2]|].
  { unfold usecount_of in Huc2. by rewrite Hk2 in Huc2. }
  cbn beta. intros r' w3 (-> & Hss3 & Hcn3 & Hab3). split; [done|]. split; [by etrans|].
  split; [done|]. intros x Hx Hrx. by rewrite Hab3, Hab2.
Qed.

(** The clockdomain and the operation of the clock, undone on failure. *)
Lemma enable_self fuel c k e de w :
  (rank c <= fuel)%nat -> clk_static rank w -> w_clks w !! c = Some k -> ck_usecount k = 1 ->
  counted L (bump e c 1) (bump_opt de (ck_clkdm k) (-1)) w ->
  (forall x, (rank x < rank c)%nat -> 0 <= e x) ->
  (forall p, ck_parent k = Some p -> 0 < usecount_of w p) ->
  wp (r ← match ck_clkdm k with
          | Some d => omap2_clkdm_clk_enable arch (Some d) (Some c)
          | None => ret 0
          end;
      if negb (r =? 0) then
        (match ck_parent k with Some p => omap2_clk_disable arch fuel p | None => ret tt end);;
        enable_undo c r
      else
      r ← ops_enable (ck_ops k) c;
      if negb (r =? 0) then
        (match ck_clkdm k with
         | Some d => omap2_clkdm_clk_disable arch (Some d) (Some c);; ret tt
         | None => ret tt
         end);;
        (match ck_parent k with Some p => omap2_clk_disable arch fuel p | None => ret tt end);;
        enable_undo c r
      else ret 0)
     (enabled_or_undone c e de w) w.
Proof.
  intros Hf Hst Hk Hu Hcn He Hpu. wp_pure.
  apply (wp_mono _ (fun r w1 => r = 0 /\ same_static w w1 /\ counted L (bump e c 1) de w1 /\
                                w_clks w1 = w_clks w)).
  { destruct (ck_clkdm k) as [d|] eqn:Hd; cbn in Hcn; [|by wp_pure].
    eapply wp_mono; [by eapply clkdm_enable_counted|]. cbn beta.
    intros r w1 (-> & Hss & Hcn1 & Hcl). split_and!; try done.
    eapply counted_proper; [| |exact Hcn1]; [done|]. intros x. cbn. unfold bump.
    repeat case_decide; lia. }
  cbn beta. intros r w1 (-> & Hss1 & Hcn1 & Hcl1). cbn [negb Z.eqb]. wp_pure.
  assert (clk_static rank w1) as Hst1 by (by eapply clk_static_frame).
  assert (w_clks w1 !! c = Some k) as Hk1 by (by rewrite Hcl1).
  eapply wp_mono; [eapply wp_eqn, ops_enable_law; [exact Hk1 | by eapply st_ops]|]. cbn beta.
  intros r w2 [(rt & tr & ->) Hop]. set (w2 := set_w_trace tr _) in Hop |- *.
  assert (same_static w1 w2) as Hss2 by (by apply static_set_rate).
  assert (counted L (bump e c 1) de w2) as Hcn2 by (by apply counted_rate).
  assert (clk_static rank w2) as Hst2 by (by eapply clk_static_frame).
  assert (above_same c w w2) as Hab2.
  { apply above_same_rate. intros x _ _. unfold usecount_of. by rewrite Hcl1. }
  assert (forall x, usecount_of w2 x = usecount_of w x) as Huc2.
  { intros x. unfold usecount_of. cbn. rewrite Hcl1. destruct (decide (x = c)) as [->|].
    - by rewrite lookup_insert_eq, Hk.
    - by rewrite lookup_insert_ne by done. }
  destruct (Z.eqb_spec r 0) as [->|Hr]; cbn [negb]; cbv iota.
  { wp_pure. split; [by etrans|]. split; [done|]. left. split; [done|]. split; [done|].
    rewrite Huc2. unfold usecount_of. rewrite Hk. lia. }
  eapply wp_mono; [eapply (enable_rollback fuel c k (set_ck_rate rt k) r e de w2);
    [done | done | apply lookup_insert_eq | done | done | done | done |]|].
  { intros p Hp. rewrite Huc2. by apply Hpu. }
  cbn beta. intros r' w3 (-> & Hss3 & Hcn3 & Hab3).
  split; [by etrans; [|etrans]|]. split; [intros x Hx Hrx; by rewrite Hab3, Hab2|].
  right. split; [done|]. split; [|done]. by exists c, k, w1, w2.
Qed.

(** The first reference to a clock: its use count has gone from 0 to 1 in [w], and what
    follows enables everything or gives everything back. *)
Lemma enable_first fuel c k e de w :
  (forall p, ck_parent k = Some p -> forall e de w0,
     clk_static rank w0 -> counted L e de w0 -> is_Some (w_clks w0 !! p) ->
     (forall x, (rank x < rank p)%nat -> 0 <= e x) ->
     (forall x, (rank x <= rank p)%nat -> usecount_of w0 x < 127) ->
     wp (omap2_clk_enable arch fuel p) (enabled_or_undone p e de w0) w0) ->
  (rank c <= fuel)%nat -> clk_static rank w -> w_clks w !! c = Some k -> ck_usecount k = 1 ->
  counted L (bump_opt (bump e c 1) (ck_parent k) (-1)) (bump_opt de (ck_clkdm k) (-1)) w ->
  (forall x, (rank x < rank c)%nat -> 0 <= e x) ->
  (forall x, (rank x < rank c)%nat -> usecount_of w x < 127) ->
  wp (r ← match ck_parent k with Some p => omap2_clk_enable arch fuel p | None => ret 0 end;
      if negb (r =? 0) then enable_undo c r else
      r ← match ck_clkdm k with
          | Some d => omap2_clkdm_clk_enable arch (Some d) (Some c)
          | None => ret 0
          end;
      if negb (r =? 0) then
        (match ck_parent k with Some p => omap2_clk_disable arch fuel p | None => ret tt end);;
        enable_undo c r
      else
      r ← ops_enable (ck_ops k) c;
      if negb (r =? 0) then
        (match ck_clkdm k with
         | Some d => omap2_clkdm_clk_disable arch (Some d) (Some c);; ret tt
         | None => ret tt
         end);;
        (match ck_parent k with Some p => omap2_clk_disable arch fuel p | None => ret tt end);;
        enable_undo c r
      else ret 0) (enabled_or_undone c e de w) w.
Proof.
  intros IH Hf Hst Hk Hu Hcn He Hroom. wp_pure.
  eapply wp_mono; [eapply (enable_parent fuel c k e (bump_opt de (ck_clkdm k) (-1)) w); done|].
  cbn beta. intros r w2 (Hss2 & Huc2 & Hab2 & Hr2).
  destruct (static_lookup _ _ _ _ Hss2 Hk) as (k2 & Hk2 & Hi2).
  assert (ck_usecount k2 = 1) as Huk2.
  { unfold usecount_of in Huc2. rewrite Hk, Hk2 in Huc2. by rewrite Huc2. }
  rewrite <- (idle_clkdm _ _ Hi2), <- (idle_parent _ _ Hi2) in *.
  destruct Hr2 as [(-> & Hcn2 & Hpu)|(Hne & Hop & Hcn2)].
  - cbn [negb Z.eqb]. cbv iota. rewrite <- (idle_ops _ _ Hi2).
    eapply wp_mono; [apply (enable_self fuel c k2 e de w2); try done|].
    { by eapply clk_static_frame. }
    intros r w3 (Hss3 & Hab3 & Hr3). split; [by etrans|]. split; [intros x Hx Hrx; by rewrite Hab3, Hab2|].
    destruct Hr3 as [?|(? & ? & ?)]; [by left | right]. split; [done|]. split; [by eapply op_returned_frame | done].
  - rewrite (proj2 (Z.eqb_neq r 0) Hne). cbn [negb]. cbv iota.
    eapply wp_mono; [by eapply enable_undo_counted|]. cbn beta.
    intros r' w3 (-> & Hss3 & Hcn3 & Hab3). split; [by etrans|]. split; [|by right].
    intros x Hx Hrx. by rewrite Hab3, Hab2.
Qed.

Lemma clk_enable_counted fuel c e de w :
  (rank c < fuel)%nat -> clk_static rank w -> counted L e de w -> is_Some (w_clks w !! c) ->
  (forall x, (rank x < rank c)%nat -> 0 <= e x) ->
  (forall x, (rank x <= rank c)%nat -> usecount_of w x < 127) ->
  wp (omap2_clk_enable arch fuel c) (enabled_or_undone c e de w) w.
Proof.
  revert c e de w. induction fuel as [|fuel IH]; intros c e de w Hf Hst Hcn [k Hk] He Hroom; [lia|].
  cbn [omap2_clk_enable]. wp_step.
  pose proof (cn_range _ _ _ _ Hcn c k Hk) as Hr.
  assert (ck_usecount k < 127) as H127.
  { specialize (Hroom c ltac:(lia)). unfold usecount_of in Hroom. by rewrite Hk in Hroom. }
  rewrite wraps_small by lia. set (k1 := set_ck_usecount (ck_usecount k + 1) k).
  set (w1 := set_w_clks _ w).
  assert (w_clks w1 !! c = Some k1) as Hk1 by apply lookup_insert_eq.
  pose proof (static_set_usecount w c k (ck_usecount k + 1) Hk) as Hss1. fold k1 w1 in Hss1.
  assert (above_same c w w1) as Hab1 by apply above_same_set.
  wp_step. change (ck_usecount k1) with (ck_usecount k + 1).
  destruct (Z.ltb_spec 1 (ck_usecount k + 1)) as [Hpos|Hz]; [wp_pure|].
  { split; [done|]. split; [done|]. left. split; [done|]. split.
    - replace 1 with (ck_usecount k + 1 - ck_usecount k) at 1 by lia. apply counted_busy; done || lia.
    - unfold usecount_of. rewrite Hk1. cbn. lia. }
  pose proof (counted_set L e de w c k (ck_usecount k + 1) HL Hcn Hk ltac:(lia)) as Hcn1.
  fold k1 w1 in Hcn1. cbv zeta in Hcn1. assert (ck_usecount k = 0) as Hu0 by lia.
  rewrite Hu0 in Hcn1. change (0 + 1 - 0) with 1 in Hcn1.
  change (- (in_use (0 + 1) - in_use 0)) with (-1) in Hcn1.
  eapply wp_mono; [apply (enable_first fuel c k1 e de w1); try done|].
  - intros p Hp e' de' w0 Hst' Hcn' Hex' He' Hroom'. apply IH; try done.
    destruct (st_parent _ _ Hst c k p Hk Hp). lia.
  - lia.
  - by eapply clk_static_frame.
  - change (ck_usecount k + 1 = 1). lia.
  - intros x Hx. specialize (Hroom x ltac:(lia)). unfold usecount_of in *. cbn.
    by rewrite lookup_insert_ne by (intros ->; lia).
  - intros r w3 (Hss3 & Hab3 & Hr3). split; [by etrans|]. split; [intros x Hx Hrx; by rewrite Hab3, Hab1|].
    destruct Hr3 as [?|(? & ? & ?)]; [by left | right]. split; [done|]. split; [by eapply op_returned_frame | done].
Qed.
End EnableSpec.

(** ** Properties *)

(** The references [ext] held by drivers account for all the use counts. *)
Definition refcounted (L : list string) (ext : string -> Z) (w : world) : Prop :=
  counted L ext (fun _ => 0) w /\ forall x, 0 <= ext x.

Section Unique.
  Context `{OPL : ClkOpsLaws} (rank : string -> nat) (N : nat) (L : list string).

(** The references determine the use counts. *)
Lemma counted_unique e de w w' :
  (forall c k, w_clks w !! c = Some k -> (rank c < N)%nat) ->
  clk_static rank w -> same_static w w' -> counted L e de w -> counted L e de w' ->
  forall c, usecount_of w' c = usecount_of w c.
Proof.
  intros Hb Hst Hss Hcn Hcn'.
  assert (forall n c, (N - rank c <= n)%nat -> usecount_of w' c = usecount_of w c) as H;
    [|by intros c; apply (H (N - rank c)%nat)].
  induction n as [|n IH]; intros c Hn; unfold usecount_of;
    (destruct (w_clks w !! c) as [k|] eqn:Hk;
     [destruct (static_lookup _ _ _ _ Hss Hk) as (k' & Hk' & Hi); rewrite Hk' |
      destruct (w_clks w' !! c) as [k'|] eqn:Hk'; [|done];
      destruct (static_lookup_inv _ _ _ _ Hss Hk') as (k & Hk2 & _); congruence]).
  - pose proof (Hb c k Hk). lia.
  - rewrite (cn_clk _ _ _ _ Hcn c k Hk), (cn_clk _ _ _ _ Hcn' c k' Hk'). f_equal.
    apply zsum_ext. intros d _. unfold child_use.
    destruct (w_clks w !! d) as [kd|] eqn:Hd.
    + destruct (static_lookup _ _ _ _ Hss Hd) as (kd' & Hd' & Hid). rewrite Hd'.
      rewrite (idle_parent _ _ Hid). destruct (decide (ck_parent kd = Some c)) as [Hp|Hp].
      * rewrite bool_decide_true by done.
        specialize (IH d). unfold usecount_of in IH. rewrite Hd, Hd' in IH. rewrite IH; [done|].
        pose proof (proj2 (st_parent _ _ Hst d kd c Hd Hp)). lia.
      * by rewrite bool_decide_false, !andb_false_r.
    + destruct (w_clks w' !! d) as [kd'|] eqn:Hd'; [|done].
      destruct (static_lookup_inv _ _ _ _ Hss Hd') as (kd & Hd2 & _). congruence.
Qed.
End Unique.

Section Refcount.
  Context `{SOC : Soc} `{HW : Hardware} `{OPL : ClkOpsLaws}
    (arch : option pwrdm_ops) `{LAWS : !PwrdmArchLaws arch}.
  Context (rank : string -> nat) (N : nat) (L : list string).

(** A clock tree, its rank, and the list of its clocks. *)
Record clk_forest (w : world) : Prop := {
  fo_chip : cpu_is_ti81xx = true;
  fo_list : NoDup L;
  fo_static : clk_static rank w;
  fo_bound : forall c k, w_clks w !! c = Some k -> (rank c < N)%nat
}.
End Refcount.

(** C1: enabling a clock, on every path.  On success the driver holds one more
    reference and all use counts (of the clock, of the clocks above it, of the
    clockdomains) account for it, whichever of them had to be enabled on the way.  The only
    failure is that of the enable operation of the clock or of a clock above it
    ([op_returned]); then everything that had been enabled is given back and every use count
    is as before.  The clockdomain of a clock never refuses: omap2_clkdm_clk_enable fails for
    null pointers only, so that the branch of omap2_clk_enable for that error is not taken.
    The use counts, signed bytes, are below 127 before the call (at 127 they wrap around, see
    [clk_enable_usecount_overflow]), and the recursion ends when the fuel exceeds the rank of
    the clock. *)
Theorem clk_enable_refcount `{SOC : Soc} `{HW : Hardware} `{OPL : ClkOpsLaws} arch
    `{LAWS : !PwrdmArchLaws arch} rank N L fuel c ext w :
  clk_forest rank N L w -> refcounted L ext w -> is_Some (w_clks w !! c) ->
  (rank c < fuel)%nat -> (forall x, usecount_of w x < 127) ->
  wp (omap2_clk_enable arch fuel c)
     (fun r w' => same_static w w' /\
        (r = 0 /\ refcounted L (bump ext c 1) w' /\ 0 < usecount_of w' c \/
         r <> 0 /\ op_returned w r /\ refcounted L ext w' /\
           forall x, usecount_of w' x = usecount_of w x)) w.
Proof.
  intros [Hti HL Hst Hb] [Hcn Hpos] Hc Hf Hroom.
  eapply wp_mono; [by apply (clk_enable_counted arch Hti rank L HL fuel c ext (fun _ => 0) w)|].
  intros r w' (Hss & _ & [(-> & Hcn' & Hu)|(Hr & Hop & Hcn')]); (split; [done|]); [left | right].
  - split; [done|]. split; [|done]. split; [done|]. intros x. unfold bump.
    specialize (Hpos x). case_decide; lia.
  - split; [done|]. split; [done|]. split; [done|]. by eapply counted_unique.
Qed.

(** C17: disabling a clock gives one reference back: the use counts account for one
    reference less, down to the clocks and clockdomains that are no longer used. *)
Theorem clk_disable_refcount `{SOC : Soc} `{HW : Hardware} `{OPL : ClkOpsLaws} arch
    `{LAWS : !PwrdmArchLaws arch} rank N L fuel c ext w :
  clk_forest rank N L w -> refcounted L ext w -> is_Some (w_clks w !! c) ->
  (rank c < fuel)%nat -> 0 < ext c ->
  wp (omap2_clk_disable arch fuel c)
     (fun _ w' => same_static w w' /\ refcounted L (bump ext c (-1)) w') w.
Proof.
  intros [Hti HL Hst Hb] [Hcn Hpos] [k Hk] Hf Hext.
  assert (0 < usecount_of w c) as Hu.
  { unfold usecount_of. rewrite Hk, (cn_clk _ _ _ _ Hcn c k Hk).
    pose proof (zsum_nonneg (child_use w c) L ltac:(intros; apply child_use_nonneg)). lia. }
  eapply wp_mono; [apply (clk_disable_counted arch Hti rank L HL fuel c ext (fun _ => 0) w);
    try done; eauto|].
  cbn beta. intros _ w' (Hss & Hcn' & _). split; [done|]. split; [done|].
  intros x. unfold bump. specialize (Hpos x). case_decide; [subst|]; lia.
Qed.

(** An enable that succeeds followed by a disable restores every use count of every
    clock, however much of the tree had to be switched on. *)
Theorem clk_enable_disable_roundtrip `{SOC : Soc} `{HW : Hardware} `{OPL : ClkOpsLaws} arch
    `{LAWS : !PwrdmArchLaws arch} rank N L fuel c ext w :
  clk_forest rank N L w -> refcounted L ext w -> is_Some (w_clks w !! c) ->
  (rank c < fuel)%nat -> (forall x, usecount_of w x < 127) ->
  wp (r ← omap2_clk_enable arch fuel c;
      when (r =? 0) (omap2_clk_disable arch fuel c))
     (fun _ w' => refcounted L ext w' /\ forall x, usecount_of w' x = usecount_of w x) w.
Proof.
  intros [Hti HL Hst Hb] [Hcn Hpos] [k Hk] Hf Hroom. wp_pure.
  eapply wp_mono; [apply (clk_enable_counted arch Hti rank L HL fuel c ext (fun _ => 0) w);
    try done; eauto|].
  intros r w1 (Hss & _ & [(-> & Hcn1 & Hu)|(Hr & _ & Hcn1)]).
  - cbn [Z.eqb]. wp_pure. destruct (static_lookup _ _ _ _ Hss Hk) as (k1 & Hk1 & _).
    eapply wp_mono; [apply (clk_disable_counted arch Hti rank L HL fuel c (bump ext c 1)
      (fun _ => 0) w1); try done; eauto|].
    + by eapply clk_static_frame.
    + intros x _. unfold bump. specialize (Hpos x). case_decide; lia.
    + cbn beta. intros _ w2 (Hss2 & Hcn2 & _).
      assert (counted L ext (fun _ => 0) w2) as Hcn3.
      { eapply counted_proper; [| |exact Hcn2]; [|done]. intros x. unfold bump.
        repeat case_decide; lia. }
      split; [by split|]. eapply counted_unique; try done. by etrans.
  - rewrite (proj2 (Z.eqb_neq r 0) Hr). wp_pure. split; [by split|]. by eapply counted_unique.
Qed.

(** The use count is a signed byte: enabling a clock that is already held 127 times
    makes its use count -128, after which it counts as unused. *)
Theorem clk_enable_usecount_overflow `{SOC : Soc} `{HW : Hardware} `{OPS : ClkOps} arch
    fuel c k w :
  w_clks w !! c = Some k -> ck_usecount k = 127 -> ck_parent k = None -> ck_clkdm k = None ->
  (forall w', ops_enable (ck_ops k) c w' = Done 0 w') ->
  wp (omap2_clk_enable arch (S fuel) c)
     (fun r w' => r = 0 /\ usecount_of w' c = -128) w.
Proof.
  intros Hk Hu Hp Hd Hops. cbn [omap2_clk_enable]. wp_step. rewrite Hu.
  change (s8 (127 + 1)) with (-128). eapply wp_get_clk; [apply lookup_insert_eq|].
  change (ck_parent (set_ck_usecount (-128) k)) with (ck_parent k).
  change (ck_clkdm (set_ck_usecount (-128) k)) with (ck_clkdm k).
  change (ck_ops (set_ck_usecount (-128) k)) with (ck_ops k).
  change (1 <? ck_usecount (set_ck_usecount (-128) k)) with false.
  rewrite Hp, Hd. wp_pure. cbn [Z.eqb negb]. wp_pure. cbn [Z.eqb negb]. wp_pure.
  unfold wp. rewrite Hops. cbn [Z.eqb negb]. split; [done|].
  unfold usecount_of. cbn. by rewrite lookup_insert_eq.
Qed.
