(* ===== verification/Adpll.v ===== *)
(** * The ADPLL clocks of the TI814x

    mach-omap2/adpll_ti814x.c: locking, bypassing and stopping an ADPLL, the search for
    its multiplier and dividers, and the rate it runs at.

    Rates are [unsigned long], 32 bits here; every product that C computes at 32 bits
    wraps.  [do_div] takes the low 32 bits of its divisor. *)

From S2P Require Import Prelude Platform Prcm Powerdomain ClkCore ClkEnable.

Definition ADPLLS_FINT_BAND_MIN : Z := 32000.
Definition ADPLLS_FINT_BAND_MAX : Z := 52000000.
Definition ADPLLS_DCO_FREQ_MIN : Z := 20000000.
Definition ADPLLS_DCO_FREQ_MAX : Z := 2000000000.
Definition ADPLLJ_FINT_BAND_MIN : Z := 500000.
Definition ADPLLJ_FINT_BAND_MAX : Z := 2500000.
Definition ADPLLJ_MODE_HS2 : Z := 2.
Definition ADPLLJ_MODE_HS1 : Z := 4.
Definition ADPLLJ_DCO_FREQ_MIN_HS2 : Z := 500000000.
Definition ADPLLJ_DCO_FREQ_MAX_HS2 : Z := 1000000000.
Definition ADPLLJ_DCO_FREQ_MAX_HS1 : Z := 2000000000.
Definition ADPLL_FINT_UNDERFLOW : Z := -1.
Definition ADPLL_FINT_INVALID : Z := -2.
Definition ADPLL_DCO_VALID : Z := 0.
Definition ADPLL_DCO_UNDERFLOW : Z := -1.
Definition ADPLL_DCO_INVALID : Z := -2.
Definition TI814X_ADPLLS_MIN_M2_DIV : Z := 1.
Definition TI814X_ADPLLS_MAX_M2_DIV : Z := 31.
Definition TI814X_ADPLLJ_MIN_M2_DIV : Z := 1.
Definition TI814X_ADPLLJ_MAX_M2_DIV : Z := 127.
Definition TI814X_ADPLLJ_MIN_SD_DIV : Z := 2.
Definition TI814X_ADPLLJ_MAX_SD_DIV : Z := 255.
Definition TI814X_ADPLL_MIN_MULT : Z := 2.
Definition MAX_DPLL_WAIT_TRIES : Z := 100000.
Definition ADPLL_ROUNDING_DIVIDER : Z := 10000.

(** clock.h and cm-regbits-81xx.h *)
Definition ADPLL_LOW_POWER_BYPASS : Z := 0.
Definition ADPLL_LOCKED : Z := 1.
Definition ADPLL_LOW_POWER_STOP : Z := 2.
Definition ST_ADPLL_BYPASSED : Z := 0x101.
Definition ST_ADPLL_LOCKED : Z := 0x600.
Definition ST_ADPLL_RETENTION : Z := 1.
Definition ST_ADPLL_ACTIVE : Z := 0.
Definition TI814X_ADPLL_LS_TYPE : Z := 2.
Definition TI814X_ADPLL_LJ_TYPE : Z := 4.
Definition TI814X_ADPLL_STBYRET_ACK_MASK : Z := Z.shiftl 1 7.
Definition TI814X_ADPLL_TINITZ_SHIFT : Z := 0.
Definition TI814X_ADPLL_CLKOUTLDOEN_SHIFT : Z := 19.
Definition TI814X_ADPLL_CLKDCOLDOEN_SHIFT : Z := 29.
Definition TI814X_ADPLL_LOAD_MN_SHIFT : Z := 0.
Definition TI814X_ADPLL_LOAD_M2N2_SHIFT : Z := 0.
Definition TI814X_ADPLL_FRACT_MULT_MASK : Z := 0x3ffff.

(** [modes & (1 << mode)], [flags & type] *)
Definition has_mode (dd : dpll_data) (mode : Z) : bool :=
  negb (Z.land (dd_modes dd) (lsl 1 mode) =? 0).
Definition has_type (dd : dpll_data) (type : Z) : bool :=
  negb (Z.land (dd_flags dd) type =? 0).

Section Control.
  Context `{HW : Hardware}.

(** [v = readl(reg); v |= bits; writel(v, reg)] and [v &= ~bits] *)
Definition set_bits (bits reg : Z) : M world unit :=
  v ← __raw_readl reg; __raw_writel (Z.lor v bits) reg.
Definition clear_bits (bits reg : Z) : M world unit :=
  v ← __raw_readl reg; __raw_writel (Z.land v (Z.lnot bits)) reg.

(** [clk->dpll_data], dereferenced without a test. *)
Definition clk_dpll (clk : string) : M world dpll_data :=
  k ← get_clk clk; d ← deref (ck_dpll_data k); get_dpll d.

(** The polling loop with [n] turns left; false when the turns are used up. *)
Fixpoint status_loop (n : nat) (reg mask state : Z) : M world bool :=
  v ← __raw_readl reg;
  match n with
  | O => ret false
  | S n' =>
      if Z.land v mask =? state then ret true
      else udelay 1;; status_loop n' reg mask state
  end.

Definition _ti814x_wait_dpll_status (clk : string) (state : Z) : M world Z :=
  dd ← clk_dpll clk;
  let state := lsl state (__ffs (dd_idlest_mask dd)) in
  ok ← status_loop (Z.to_nat MAX_DPLL_WAIT_TRIES) (dd_idlest_reg dd) (dd_idlest_mask dd) state;
  ret (if ok then 0 else - EINVAL).

Definition _ti814x_dpll_bypass (clk : string) : M world Z :=
  dd ← clk_dpll clk;
  if negb (has_mode dd ADPLL_LOW_POWER_BYPASS) then ret (- EINVAL) else
  set_bits (lsl 1 (dd_bypass_bit dd)) (dd_control_reg dd);;
  _ti814x_wait_dpll_status clk ST_ADPLL_BYPASSED.

Definition _ti814x_rel_dpll_bypass (clk : string) : M world Z :=
  dd ← clk_dpll clk;
  clear_bits (lsl 1 (dd_bypass_bit dd)) (dd_control_reg dd);;
  ret 0.

Definition _ti814x_dpll_lock (clk : string) : M world Z :=
  dd ← clk_dpll clk;
  if negb (has_mode dd ADPLL_LOCKED) then ret (- EINVAL) else
  _ti814x_rel_dpll_bypass clk;;
  _ti814x_wait_dpll_status clk ST_ADPLL_LOCKED.

Definition _ti814x_dpll_init_config_sequence (clk : string) : M world unit :=
  dd ← clk_dpll clk;
  clear_bits (lsl 1 TI814X_ADPLL_TINITZ_SHIFT) (dd_control_reg dd);;
  ndelay 1.

Definition _ti814x_dpll_end_config_sequence (clk : string) : M world unit :=
  dd ← clk_dpll clk;
  set_bits (lsl 1 TI814X_ADPLL_TINITZ_SHIFT) (dd_control_reg dd);;
  ndelay 1.

(** The body runs before the test; false when the turn that ends the loop is the
    last one the count allows. *)
Fixpoint ret_ack_loop (n : nat) (reg val : Z) : M world bool :=
  udelay 1;;
  v ← __raw_readl reg;
  match n with
  | O => ret false
  | S n' =>
      if field_get TI814X_ADPLL_STBYRET_ACK_MASK v =? val then ret true
      else ret_ack_loop n' reg val
  end.

Definition _ti814x_wait_dpll_ret_ack (clk : string) (val : Z) : M world Z :=
  dd ← clk_dpll clk;
  ok ← ret_ack_loop (Z.to_nat MAX_DPLL_WAIT_TRIES) (dd_idlest_reg dd) val;
  ret (if ok then 0 else - EINVAL).

Definition _ti814_dpll_stop (clk : string) : M world Z :=
  dd ← clk_dpll clk;
  if negb (has_mode dd ADPLL_LOW_POWER_STOP) then ret (- EINVAL) else
  set_bits (lsl 1 (dd_stby_ret_bit dd)) (dd_control_reg dd);;
  r ← _ti814x_wait_dpll_ret_ack clk ST_ADPLL_RETENTION;
  if negb (r =? 0) then
    clear_bits (lsl 1 (dd_stby_ret_bit dd)) (dd_control_reg dd);;
    ret (- EINVAL)
  else
  when (has_type dd TI814X_ADPLL_LS_TYPE)
    (set_bits (lsl 1 (dd_stop_mode_bit dd)) (dd_control_reg dd));;
  ret 0.

(** ** Rates *)

Definition _adpll_compute_new_rate (ref_rate m frac_m n m2 : Z) : M world Z :=
  let num := u32 (lsl m 18 + frac_m) in
  let num := u64 (ref_rate * num) in
  let den := u32 (lsl (u32 (n + 1)) 18 * m2) in
  q ← divu num den;
  ret (u32 q).

Definition _adpll_test_fint (clk : string) (n : Z) : M world Z :=
  k ← get_clk clk;
  d ← deref (ck_dpll_data k);
  dd ← get_dpll d;
  p ← deref (ck_parent k);
  pk ← get_clk p;
  let fint := s32 (ck_rate pk / (n + 1)) in
  if has_type dd TI814X_ADPLL_LS_TYPE then
    ret (if fint <? ADPLLS_FINT_BAND_MIN then ADPLL_FINT_UNDERFLOW
         else if ADPLLS_FINT_BAND_MAX <? fint then ADPLL_FINT_INVALID else 0)
  else if fint <? ADPLLJ_FINT_BAND_MIN then
    upd_dpll d (set_dd_max_divider n);; ret ADPLL_FINT_UNDERFLOW
  else if ADPLLJ_FINT_BAND_MAX <? fint then
    upd_dpll d (set_dd_min_divider n);; ret ADPLL_FINT_INVALID
  else ret 0.

(** The loop over M2: the code it ends with, the M2 and the DCO frequency; [None]
    when [fuel] does not suffice. *)
Fixpoint dco_loop (fuel : nat) (lo hi min_m2 max_m2 targ_rate m2 : Z) : option (Z * Z * Z) :=
  match fuel with
  | O => None
  | S fuel' =>
      let dco_freq := u32 (targ_rate * m2) in
      if dco_freq <? lo then
        let m2 := u8 (m2 + 1) in
        if (min_m2 <=? m2) && (m2 <=? max_m2)
        then dco_loop fuel' lo hi min_m2 max_m2 targ_rate m2
        else Some (ADPLL_DCO_UNDERFLOW, m2, dco_freq)
      else if hi <? dco_freq then Some (ADPLL_DCO_INVALID, m2, dco_freq)
      else Some (ADPLL_DCO_VALID, m2, dco_freq)
  end.

(** M2 is 8 bits wide and grows with every turn. *)
Definition DCO_FUEL : nat := 256.

Definition _adpll_test_dco_freq (d : string) (targ_rate : Z) : M world Z :=
  dd ← get_dpll d;
  if has_type dd TI814X_ADPLL_LS_TYPE then
    match dco_loop DCO_FUEL ADPLLS_DCO_FREQ_MIN ADPLLS_DCO_FREQ_MAX
            TI814X_ADPLLS_MIN_M2_DIV TI814X_ADPLLS_MAX_M2_DIV targ_rate (dd_post_div_m2 dd) with
    | None => fail NoFuel
    | Some (r, m2, _) =>
        when (r =? ADPLL_DCO_VALID) (upd_dpll d (set_dd_last_rounded_m2 m2));; ret r
    end
  else
    match dco_loop DCO_FUEL ADPLLJ_DCO_FREQ_MIN_HS2 ADPLLJ_DCO_FREQ_MAX_HS1
            TI814X_ADPLLJ_MIN_M2_DIV TI814X_ADPLLJ_MAX_M2_DIV targ_rate (dd_post_div_m2 dd) with
    | None => fail NoFuel
    | Some (r, m2, dco_freq) =>
        when (r =? ADPLL_DCO_VALID)
          (upd_dpll d (set_dd_last_rounded_m2 m2);;
           upd_dpll d (set_dd_dco_freq_sel
             (if dco_freq <=? ADPLLJ_DCO_FREQ_MAX_HS2 then ADPLLJ_MODE_HS2
              else ADPLLJ_MODE_HS1)));;
        ret r
    end.

(** What is left in [*sd_div], which held [sd_div]. *)
Definition _lookup_sddiv (clk : string) (sd_div m n : Z) : M world Z :=
  k ← get_clk clk;
  p ← deref (ck_parent k);
  pk ← get_clk p;
  let clkinp := ck_rate pk / 100000 in
  mod1 ← modu (u32 (clkinp * m)) (250 * n);
  sd ← divu (u32 (clkinp * m)) (250 * n);
  let mod2 := sd mod 10 in
  let sd := sd / 10 in
  let sd := if negb (mod1 =? 0) || negb (mod2 =? 0) then u32 (sd + 1) else sd in
  ret (if (TI814X_ADPLLJ_MIN_SD_DIV <=? sd) && (sd <=? TI814X_ADPLLJ_MAX_SD_DIV)
       then sd else sd_div).

Definition _dpll_get_rounded_vals (clk : string) (target_rate : Z) : M world Z :=
  k ← get_clk clk;
  match ck_dpll_data k with
  | None => ret (- EINVAL)
  | Some d =>
      upd_dpll d (fun dd => set_dd_last_rounded_n (dd_pre_div_n dd) dd);;
      p ← deref (ck_parent k);
      pk ← get_clk p;
      let inp_rate := ck_rate pk in
      r ← _adpll_test_dco_freq d target_rate;
      if negb (r =? 0) then ret r else
      let scaled_inp_rate := inp_rate / ADPLL_ROUNDING_DIVIDER in
      let scaled_targ_rate := target_rate / ADPLL_ROUNDING_DIVIDER in
      dd ← get_dpll d;
      let dividend := u32 (u32 (scaled_targ_rate * (dd_pre_div_n dd + 1)) * dd_last_rounded_m2 dd) in
      quotient ← divu dividend scaled_inp_rate;
      remainder ← modu dividend scaled_inp_rate;
      let rremainder := target_rate mod ADPLL_ROUNDING_DIVIDER in
      let m := u16 quotient in
      if (m <? TI814X_ADPLL_MIN_MULT) || (dd_max_multiplier dd <? m) then ret (- EINVAL) else
      upd_dpll d (set_dd_last_rounded_m m);;
      (if (remainder =? 0) && (rremainder =? 0) then upd_dpll d (set_dd_last_rounded_frac_m 0)
       else
         frac ← divu (u32 (Z.shiftl remainder 18)) scaled_inp_rate;
         let rfraction := u32 (rremainder * (dd_last_rounded_n dd + 1)) in
         let rfraction := Z.shiftl (rfraction * dd_last_rounded_m2 dd) 18 in
         rfraction ← divu rfraction inp_rate;
         let frac_m := u32 (frac + rfraction) in
         upd_dpll d (set_dd_last_rounded_frac_m frac_m);;
         let frac_overflow := Z.shiftr frac_m 18 in
         when (0 <? frac_overflow)
           (upd_dpll d (fun dd => set_dd_last_rounded_m
              (u16 (dd_last_rounded_m dd + frac_overflow)) dd);;
            upd_dpll d (set_dd_last_rounded_frac_m (Z.land frac_m TI814X_ADPLL_FRACT_MULT_MASK))));;
      ret 0
  end.

(** ** The functions of the clock tables *)

Definition ti814x_init_dpll_parent (clk : string) : M world unit :=
  k ← get_clk clk;
  match ck_dpll_data k with
  | None => ret tt
  | Some d =>
      dd ← get_dpll d;
      v ← __raw_readl (dd_control_reg dd);
      let v := lsr (Z.land v (lsl 1 (dd_bypass_bit dd))) (dd_bypass_bit dd) in
      when (v =? 1) (clk_reparent clk (Some (dd_clk_bypass dd)))
  end.

Definition ti814x_get_dpll_rate (clk : string) : M world Z :=
  k ← get_clk clk;
  match ck_dpll_data k with
  | None => ret 0
  | Some d =>
      dd ← get_dpll d;
      ctrl ← __raw_readl (dd_control_reg dd);
      let v := Z.lor (Z.land ctrl (lsl 1 (dd_bypass_bit dd)))
                     (Z.land ctrl (lsl 1 (dd_stby_ret_bit dd))) in
      if negb (v =? 0) then b ← get_clk (dd_clk_bypass dd); ret (ck_rate b) else
      v ← __raw_readl (dd_mult_div1_reg dd);
      let m := field_get (dd_mult_mask dd) v in
      v ← __raw_readl (dd_frac_mult_reg dd);
      let frac_m := field_get (dd_frac_mult_mask dd) v in
      let num := u32 (lsl m 18 + frac_m) in
      v ← __raw_readl (dd_div_m2n_reg dd);
      let n := field_get (dd_div_n_mask dd) v in
      let m2 := field_get (dd_div_m2_mask dd) v in
      let den := u32 (lsl (u32 (n + 1)) 18 * m2) in
      rk ← get_clk (dd_clk_ref dd);
      q ← divu (u64 (ck_rate rk * num)) den;
      ret (u32 q)
  end.

Definition ti814x_dpll_recalc (clk : string) : M world Z := ti814x_get_dpll_rate clk.

Definition ti814x_dpll_dco_recalc `{SOC : Soc} (clk : string) : M world Z :=
  if omap_rev =? TI8148_REV_ES1_0 then ti814x_get_dpll_rate clk else
  dd ← clk_dpll clk;
  v ← __raw_readl (dd_div_m2n_reg dd);
  let m2 := u8 (Z.land v (dd_div_m2_mask dd)) in
  let m2 := lsr m2 (__ffs (dd_div_m2_mask dd)) in
  r ← ti814x_get_dpll_rate clk;
  ret (u32 (r * m2)).

Definition ti814x_dpll_enable (clk : string) : M world Z :=
  k ← get_clk clk;
  match ck_dpll_data k with
  | None => ret (- EINVAL)
  | Some d =>
      dd ← get_dpll d;
      set_bits (dd_enable_mask dd) (dd_control_reg dd);;
      v ← __raw_readl (dd_idlest_reg dd);
      when (negb (field_get TI814X_ADPLL_STBYRET_ACK_MASK v =? 0))
        (clear_bits (lsl 1 (dd_stby_ret_bit dd)) (dd_control_reg dd);;
         _ti814x_wait_dpll_ret_ack clk ST_ADPLL_ACTIVE;;
         ret tt);;
      b ← get_clk (dd_clk_bypass dd);
      r ← (if ck_rate k =? ck_rate b then _ti814x_dpll_bypass clk else _ti814x_dpll_lock clk);
      when (r =? 0) (rate ← ti814x_get_dpll_rate clk; upd_clk clk (set_ck_rate rate));;
      ret r
  end.

Definition ti814x_dpll_disable (clk : string) : M world unit :=
  dd ← clk_dpll clk;
  clear_bits (dd_enable_mask dd) (dd_control_reg dd);;
  _ti814_dpll_stop clk;;
  ret tt.

(** [v = readl(reg); v &= ~mask; v |= f << __ffs(mask); writel(v, reg)] *)
Definition set_field (mask f reg : Z) : M world unit :=
  v ← __raw_readl reg; __raw_writel (field_set mask f v) reg.

(** Asserting and de-asserting a bit that loads the dividers. *)
Definition pulse_bit (shift reg : Z) : M world unit :=
  set_bits (lsl 1 shift) reg;; ndelay 1;; clear_bits (lsl 1 shift) reg.

(** The registers written between the bypass and the lock: the multiplier and the
    dividers, the sigma-delta divider of the types that have one, and the bits that
    make the DPLL load them. *)
Definition program_fields (dd : dpll_data) (m frac_m n m2 : Z) : M world unit :=
  set_field (dd_mult_mask dd) m (dd_mult_div1_reg dd);;
  set_field (dd_frac_mult_mask dd) frac_m (dd_frac_mult_reg dd);;
  v ← __raw_readl (dd_div_m2n_reg dd);
  let v := Z.land v (Z.lnot (Z.lor (dd_div_m2_mask dd) (dd_div_n_mask dd))) in
  let v := Z.lor v (lsl m2 (__ffs (dd_div_m2_mask dd))) in
  let v := Z.lor v (lsl n (__ffs (dd_div_n_mask dd))) in
  __raw_writel v (dd_div_m2n_reg dd).

Definition program_sddiv (clk : string) (dd : dpll_data) (m n : Z) : M world unit :=
  when (negb (dd_sddiv_mask dd =? 0))
    (sd_div ← _lookup_sddiv clk 0 m (u8 (n + 1));
     set_field (dd_sddiv_mask dd) sd_div (dd_frac_mult_reg dd)).

Definition program_load (dd : dpll_data) (dco : Z) : M world unit :=
  when (has_type dd TI814X_ADPLL_LJ_TYPE)
    (set_field (dd_dco_mask dd) dco (dd_control_reg dd));;
  pulse_bit TI814X_ADPLL_LOAD_MN_SHIFT (dd_load_mn_reg dd);;
  pulse_bit TI814X_ADPLL_LOAD_M2N2_SHIFT (dd_load_m2n2_reg dd);;
  set_bits (lsl 1 TI814X_ADPLL_CLKOUTLDOEN_SHIFT) (dd_control_reg dd);;
  set_bits (lsl 1 TI814X_ADPLL_CLKDCOLDOEN_SHIFT) (dd_control_reg dd).

Definition program_steps (clk : string) (dd : dpll_data) (m frac_m n m2 dco : Z) : M world unit :=
  program_fields dd m frac_m n m2;;
  program_sddiv clk dd m n;;
  program_load dd dco.

Definition ti814x_dpll_program (clk : string) (m frac_m n m2 dco : Z) (enterbypass : bool)
    : M world Z :=
  k ← get_clk clk;
  match ck_dpll_data k with
  | None => ret (- EINVAL)
  | Some d =>
      dd ← get_dpll d;
      r ← (if enterbypass then
             r ← _ti814x_dpll_bypass clk;
             if negb (r =? 0) then ret (- EBUSY)
             else _ti814x_dpll_init_config_sequence clk;; ret 0
           else ret 0);
      if negb (r =? 0) then ret r else
      program_steps clk dd m frac_m n m2 dco;;
      when enterbypass
        (_ti814x_dpll_end_config_sequence clk;; _ti814x_rel_dpll_bypass clk;; ret tt);;
      _ti814x_wait_dpll_status clk ST_ADPLL_LOCKED;;
      ret 0
  end.

(** [return ~0] from a function of type [long] is -1. *)
Definition ti814x_dpll_round_rate (clk : option string) (target_rate : Z) : M world Z :=
  match clk with
  | None => ret (-1)
  | Some c =>
      k ← get_clk c;
      match ck_dpll_data k with
      | None => ret (-1)
      | Some d =>
          upd_dpll d (set_dd_last_rounded_rate 0);;
          r ← _dpll_get_rounded_vals c target_rate;
          if negb (r =? 0) then ret r else
          dd ← get_dpll d;
          rk ← get_clk (dd_clk_ref dd);
          rate ← _adpll_compute_new_rate (ck_rate rk) (dd_last_rounded_m dd)
                   (dd_last_rounded_frac_m dd) (dd_last_rounded_n dd) (dd_last_rounded_m2 dd);
          upd_dpll d (set_dd_last_rounded_rate rate);;
          ret (s32 rate)
      end
  end.
End Control.

Section SetRate.
  Context `{SOC : Soc} `{HW : Hardware} `{OPS : ClkOps} `{RC : RecalcOps}.
  Context (arch : option pwrdm_ops).

(** [abs] of the difference of two unsigned values. *)
Definition abs_diff (a b : Z) : Z := u32 (Z.abs (s32 (a - b))).

(** [fuel] bounds the depth of the clock tree. *)
Definition ti814x_dpll_set_rate (fuel : nat) (clk : option string) (rate : Z) : M world Z :=
  match clk with
  | None => ret (- EINVAL)
  | Some c =>
      if rate =? 0 then ret (- EINVAL) else
      k ← get_clk c;
      match ck_dpll_data k with
      | None => ret (- EINVAL)
      | Some d =>
          currate ← ti814x_get_dpll_rate c;
          if rate =? currate then ret 0 else
          dd ← get_dpll d;
          r ← _adpll_test_fint c (dd_pre_div_n dd);
          if negb (r =? 0) then ret (- EINVAL) else
          omap2_clk_enable arch fuel (dd_clk_bypass dd);;
          omap2_clk_enable arch fuel (dd_clk_ref dd);;
          b ← get_clk (dd_clk_bypass dd);
          let finish (r : Z) (new_parent : string) : M world Z :=
            when (r =? 0)
              (k ← get_clk c;
               when (negb (ck_usecount k =? 0))
                 (omap2_clk_enable arch fuel new_parent;;
                  p ← deref (ck_parent k);
                  omap2_clk_disable arch fuel p);;
               clk_reparent c (Some new_parent);;
               dd ← get_dpll d;
               upd_clk c (set_ck_rate (dd_last_rounded_rate dd));;
               propagate_rate fuel c);;
            omap2_clk_disable arch fuel (dd_clk_ref dd);;
            omap2_clk_disable arch fuel (dd_clk_bypass dd);;
            ret 0 in
          if (ck_rate b =? rate) && has_mode dd ADPLL_LOW_POWER_BYPASS then
            r ← _ti814x_dpll_bypass c;
            finish r (dd_clk_bypass dd)
          else
            dd ← get_dpll d;
            when (negb (dd_last_rounded_rate dd =? rate))
              (ti814x_dpll_round_rate (Some c) rate;; ret tt);;
            dd ← get_dpll d;
            if dd_last_rounded_rate dd =? 0 then ret (- EINVAL) else
            let diff := abs_diff (dd_last_rounded_rate dd / 1000) (currate / 1000) in
            let sc_rate := currate / 1000 in
            q ← divu (u32 (diff * 100)) sc_rate;
            let enterbyp := negb (q <? 3) in
            r ← ti814x_dpll_program c (dd_last_rounded_m dd) (dd_last_rounded_frac_m dd)
                  (dd_last_rounded_n dd) (dd_last_rounded_m2 dd) (dd_dco_freq_sel dd) enterbyp;
            finish r (dd_clk_ref dd)
      end
  end.
End SetRate.

(** ** Waiting for the status register *)

(** Two reads or waits in a row. *)
Ltac two_reads := etrans; [|by apply io_reads_1]; by apply io_reads_1.

Section Status.
  Context `{HW : Hardware}.

Lemma status_loop_spec n reg mask state w :
  let ok v := Z.land v mask =? state in
  wp (status_loop n reg mask state)
     (fun b w' => io_reads w w' /\
        (b = true <-> exists k : nat, (k < n)%nat /\ poll_ok reg ok (w_trace w) k = true)) w.
Proof.
  intros ok. revert w. induction n as [|n IH]; intros w; cbn [status_loop]; wp_step.
  - split; [by apply io_reads_1|]. split; [done|]. intros (k & Hk & _). lia.
  - destruct (Z.land (regval w reg) mask =? state) eqn:E; wp_pure.
    + split; [by apply io_reads_1|]. split; [|done]. intros _. exists O. split; [lia | exact E].
    + wp_step. eapply wp_mono; [apply IH|]. cbn beta. intros b w' [Hio Hb]. split.
      * etrans; [|exact Hio]. two_reads.
      * rewrite Hb. split; intros (k & Hk & Hok).
        -- exists (S k). split; [lia | exact Hok].
        -- destruct k as [|k]; [unfold poll_ok in Hok; cbn in Hok; unfold ok in Hok;
             change (u32 (hw_read (w_trace w) reg)) with (regval w reg) in Hok; congruence|].
           exists k. split; [lia | exact Hok].
Qed.

Lemma ret_ack_loop_io n reg val w :
  wp (ret_ack_loop n reg val) (fun _ w' => io_reads w w') w.
Proof.
  revert w. induction n as [|n IH]; intros w; cbn [ret_ack_loop]; wp_step; wp_step.
  - two_reads.
  - case_bool; wp_pure; [two_reads|].
    eapply wp_mono; [apply IH|]. cbn beta. intros _ w' Hio. etrans; [|exact Hio]. two_reads.
Qed.

(** The clock [c] and the DPLL data it points to. *)
Record dpll_clk (c : string) (k : clk) (d : string) (dd : dpll_data) (w : world) : Prop := {
  dc_clk : w_clks w !! c = Some k;
  dc_ptr : ck_dpll_data k = Some d;
  dc_data : w_dplls w !! d = Some dd
}.

Lemma dpll_clk_io c k d dd w w' : io_only w w' -> dpll_clk c k d dd w -> dpll_clk c k d dd w'.
Proof. intros [h ->] []. by split. Qed.

Lemma clk_dpll_wp c k d dd Q w : dpll_clk c k d dd w -> Q dd w -> wp (clk_dpll c) Q w.
Proof. intros [Hc Hp Hd] HQ. unfold clk_dpll. wp_step. rewrite Hp. by do 2 wp_step. Qed.

Lemma wait_status_wp c k d dd state w :
  dpll_clk c k d dd w ->
  let ok v := Z.land v (dd_idlest_mask dd) =? lsl state (__ffs (dd_idlest_mask dd)) in
  wp (_ti814x_wait_dpll_status c state)
     (fun r w' => io_reads w w' /\
        (r = 0 /\ ready_within (dd_idlest_reg dd) ok MAX_DPLL_WAIT_TRIES (w_trace w) \/
         r = - EINVAL /\ ~ ready_within (dd_idlest_reg dd) ok MAX_DPLL_WAIT_TRIES (w_trace w))) w.
Proof.
  intros Hc ok. unfold _ti814x_wait_dpll_status. wp_pure. eapply clk_dpll_wp; [exact Hc|]. wp_pure.
  eapply wp_mono; [apply status_loop_spec|]. cbn beta zeta. intros b w' [Hio Hb]. wp_pure.
  split; [done|].
  assert (b = true <-> ready_within (dd_idlest_reg dd) ok MAX_DPLL_WAIT_TRIES (w_trace w)) as Hb'.
  { rewrite Hb. unfold ready_within. split; intros (j & Hj & Hok); exists j; (split; [lia | exact Hok]). }
  destruct b; [left | right]; split; try done; [by apply Hb' | intros H%Hb'; done].
Qed.

Lemma wait_ret_ack_wp c k d dd val w :
  dpll_clk c k d dd w ->
  wp (_ti814x_wait_dpll_ret_ack c val) (fun _ w' => io_reads w w') w.
Proof.
  intros Hc. unfold _ti814x_wait_dpll_ret_ack. wp_pure. eapply clk_dpll_wp; [exact Hc|]. wp_pure.
  eapply wp_mono; [apply ret_ack_loop_io|]. cbn beta. intros b w' Hio. by wp_pure.
Qed.

(** ** Writing one register *)

Lemma set_bits_wp bits a w :
  uint 32 bits ->
  wp (set_bits bits a) (fun _ w' => wrote a (Z.lor (regval w a) bits) w w') w.
Proof.
  intros Hb. apply (read_write_wp a (fun v => Z.lor v bits)). intros x Hx. by apply lor_uint.
Qed.

Lemma clear_bits_wp bits a w :
  wp (clear_bits bits a) (fun _ w' => wrote a (Z.land (regval w a) (Z.lnot bits)) w w') w.
Proof.
  apply (read_write_wp a (fun v => Z.land v (Z.lnot bits))). intros x Hx. by apply land_uint_l.
Qed.

Lemma set_field_wp mask f a w :
  wp (set_field mask f a) (fun _ w' => wrote a (field_set mask f (regval w a)) w w') w.
Proof. apply (read_write_wp a (field_set mask f)). intros x Hx. by apply field_set_uint. Qed.

End Status.

(** ** The rate in the registers *)

(** The rate the DPLL makes of [ref] with the given multiplier and dividers. *)
Definition adpll_num (m frac_m : Z) : Z := u32 (lsl m 18 + frac_m).
Definition adpll_den (n m2 : Z) : Z := u32 (lsl (u32 (n + 1)) 18 * m2).
Definition adpll_rate (ref m frac_m n m2 : Z) : Z :=
  u32 (u64 (ref * adpll_num m frac_m) / adpll_den n m2).

Section Rate.
  Context `{HW : Hardware}.

(** The divisor the register of the dividers stands for, when it reads [v]. *)
Definition reg_den (dd : dpll_data) (v : Z) : Z :=
  adpll_den (field_get (dd_div_n_mask dd) v) (field_get (dd_div_m2_mask dd) v).

(** Whether the control register says bypass or retention. *)
Definition out_of_lock (dd : dpll_data) (ctrl : Z) : bool :=
  negb (Z.lor (Z.land ctrl (lsl 1 (dd_bypass_bit dd)))
              (Z.land ctrl (lsl 1 (dd_stby_ret_bit dd))) =? 0).

(** The rate the registers stand for. *)
Definition reg_rate (dd : dpll_data) (bypass ref : Z) (w : world) : Z :=
  if out_of_lock dd (regval w (dd_control_reg dd)) then bypass
  else adpll_rate ref
         (field_get (dd_mult_mask dd) (regval w (dd_mult_div1_reg dd)))
         (field_get (dd_frac_mult_mask dd) (regval w (dd_frac_mult_reg dd)))
         (field_get (dd_div_n_mask dd) (regval w (dd_div_m2n_reg dd)))
         (field_get (dd_div_m2_mask dd) (regval w (dd_div_m2n_reg dd))).

(** The registers [ti814x_get_dpll_rate] reads are memory. *)
Record rate_regs_plain (dd : dpll_data) : Prop := {
  rp_control : plain_reg (dd_control_reg dd);
  rp_mult : plain_reg (dd_mult_div1_reg dd);
  rp_frac : plain_reg (dd_frac_mult_reg dd);
  rp_div : plain_reg (dd_div_m2n_reg dd)
}.

(** Whatever the registers hold, only reads happen. *)
Lemma get_dpll_rate_io c k d dd bk rk w :
  dpll_clk c k d dd w -> w_clks w !! dd_clk_bypass dd = Some bk ->
  w_clks w !! dd_clk_ref dd = Some rk ->
  (forall h, reg_den dd (u32 (hw_read h (dd_div_m2n_reg dd))) <> 0) ->
  wp (ti814x_get_dpll_rate c) (fun _ w' => io_reads w w') w.
Proof.
  intros [Hc Hp Hd] Hb Hr Hden. unfold ti814x_get_dpll_rate. wp_step. rewrite Hp. do 2 wp_step.
  case_bool; [wp_step; by apply io_reads_1|].
  do 4 wp_step. apply wp_divu; [apply (Hden (IoRead _ _ :: IoRead _ _ :: _))|]. wp_pure.
  do 3 (etrans; [|by apply io_reads_1]). by apply io_reads_1.
Qed.

Lemma get_dpll_rate_val c k d dd bk rk w :
  dpll_clk c k d dd w -> w_clks w !! dd_clk_bypass dd = Some bk ->
  w_clks w !! dd_clk_ref dd = Some rk -> rate_regs_plain dd ->
  (out_of_lock dd (regval w (dd_control_reg dd)) = false ->
   reg_den dd (regval w (dd_div_m2n_reg dd)) <> 0) ->
  wp (ti814x_get_dpll_rate c)
     (fun r w' => r = reg_rate dd (ck_rate bk) (ck_rate rk) w /\ io_reads w w') w.
Proof.
  intros [Hc Hp Hd] Hb Hr [P1 P2 P3 P4] Hden. unfold ti814x_get_dpll_rate, reg_rate.
  wp_step. rewrite Hp. do 2 wp_step. fold (out_of_lock dd (regval w (dd_control_reg dd))).
  destruct (out_of_lock dd (regval w (dd_control_reg dd))) eqn:E.
  { wp_step. split; [done | by apply io_reads_1]. }
  do 4 wp_step. rewrite !plain_read by done. apply wp_divu; [by apply Hden|]. wp_pure.
  split; [done|]. do 3 (etrans; [|by apply io_reads_1]). by apply io_reads_1.
Qed.

(** ** The interface of the reference counting *)

Lemma bypass_io c k d dd w :
  dpll_clk c k d dd w -> wp (_ti814x_dpll_bypass c) (fun _ w' => io_only w w') w.
Proof.
  intros Hc. unfold _ti814x_dpll_bypass. wp_pure. eapply clk_dpll_wp; [exact Hc|].
  case_bool; wp_pure; [reflexivity|]. eapply wp_mono; [apply set_bits_wp, lsl_uint|]. cbn beta.
  intros _ w1 [Hio _ _]. eapply wp_mono; [eapply wait_status_wp, dpll_clk_io; eassumption|].
  cbn beta. intros _ w2 [Hio2 _]. etrans; [done | by apply io_reads_only].
Qed.

Lemma lock_io c k d dd w :
  dpll_clk c k d dd w -> wp (_ti814x_dpll_lock c) (fun _ w' => io_only w w') w.
Proof.
  intros Hc. unfold _ti814x_dpll_lock, _ti814x_rel_dpll_bypass. wp_pure.
  eapply clk_dpll_wp; [exact Hc|]. case_bool; wp_pure; [reflexivity|].
  eapply clk_dpll_wp; [exact Hc|]. wp_pure. eapply wp_mono; [apply clear_bits_wp|]. cbn beta.
  intros _ w1 [Hio _ _]. wp_pure.
  eapply wp_mono; [eapply wait_status_wp, dpll_clk_io; eassumption|].
  cbn beta. intros _ w2 [Hio2 _]. etrans; [done | by apply io_reads_only].
Qed.

Lemma stop_io c k d dd w :
  dpll_clk c k d dd w -> wp (_ti814_dpll_stop c) (fun _ w' => io_only w w') w.
Proof.
  intros Hc. unfold _ti814_dpll_stop. wp_pure. eapply clk_dpll_wp; [exact Hc|].
  case_bool; wp_pure; [reflexivity|]. eapply wp_mono; [apply set_bits_wp, lsl_uint|]. cbn beta.
  intros _ w1 [Hio1 _ _]. wp_pure.
  eapply wp_mono; [eapply wait_ret_ack_wp, dpll_clk_io; eassumption|]. cbn beta.
  intros r w2 Hio2%io_reads_only. case_bool; wp_pure.
  - eapply wp_mono; [apply clear_bits_wp|]. cbn beta. intros _ w3 [Hio3 _ _]. wp_pure.
    by etrans; [|etrans].
  - unfold when. case_bool; wp_pure; [|by etrans].
    eapply wp_mono; [apply set_bits_wp, lsl_uint|]. cbn beta. intros _ w3 [Hio3 _ _]. wp_pure.
    by etrans; [|etrans].
Qed.

Lemma dpll_disable_io c k d dd w :
  dpll_clk c k d dd w -> wp (ti814x_dpll_disable c) (fun _ w' => io_only w w') w.
Proof.
  intros Hc. unfold ti814x_dpll_disable. wp_pure. eapply clk_dpll_wp; [exact Hc|]. wp_pure.
  eapply wp_mono; [apply clear_bits_wp|]. cbn beta. intros _ w1 [Hio1 _ _]. wp_pure.
  eapply wp_mono; [eapply stop_io, dpll_clk_io; eassumption|]. cbn beta. intros _ w2 Hio2.
  wp_pure. by etrans.
Qed.

(** Enabling a DPLL talks to the device and updates the rate of this clock; the result is that of
    the last part, which enters or leaves the bypass mode. *)
Definition bypass_or_lock (c : string) (w : world) (r : Z) : Prop :=
  exists w1 w2, io_only w w1 /\ (_ti814x_dpll_bypass c w1 = Done r w2 \/ _ti814x_dpll_lock c w1 = Done r w2).

Lemma dpll_enable_io c k d dd bk rk w :
  dpll_clk c k d dd w -> w_clks w !! dd_clk_bypass dd = Some bk ->
  w_clks w !! dd_clk_ref dd = Some rk -> uint 32 (dd_enable_mask dd) ->
  (forall h, reg_den dd (u32 (hw_read h (dd_div_m2n_reg dd))) <> 0) ->
  wp (ti814x_dpll_enable c)
     (fun res w' => (exists r tr,
        w' = set_w_trace tr (set_w_clks (<[c := set_ck_rate r k]> (w_clks w)) w)) /\ bypass_or_lock c w res) w.
Proof.
  intros Hcc Hb Hr Hem Hden. pose proof Hcc as [Hc Hp Hd].
  unfold ti814x_dpll_enable. wp_step. rewrite Hp. wp_step.
  eapply wp_mono; [by apply set_bits_wp|]. cbn beta. intros _ w1 [Hio1 _ _]. wp_step.
  set (w2 := set_w_trace _ w1). assert (io_only w w2) as Hio2 by (etrans; [done | by eexists]).
  apply (wp_mono _ (fun _ w' => io_only w w')).
  { unfold when. case_bool; wp_pure; [|done]. eapply wp_mono; [apply clear_bits_wp|]. cbn beta.
    intros _ w3 [Hio3 _ _]. wp_pure. eapply wp_mono; [eapply wait_ret_ack_wp, dpll_clk_io;
      [|exact Hcc]; by etrans|]. cbn beta. intros _ w4 Hio4%io_reads_only. wp_pure.
    by etrans; [|etrans]. }
  cbn beta. intros _ w3 Hio3. wp_pure. pose proof Hio3 as [h3 E3].
  eapply wp_get_clk; [rewrite E3; exact Hb|]. wp_pure.
  apply (wp_mono _ (fun r w' => io_only w w' /\ bypass_or_lock c w r)).
  { assert (dpll_clk c k d dd w3) as Hcc3 by (by eapply dpll_clk_io).
    case_bool; (eapply wp_mono; [apply wp_eqn; by first [eapply bypass_io | eapply lock_io]|]);
      intros r w4 [Hio4 Hop]; (split; [by etrans | exists w3, w4; auto]). }
  cbn beta. intros r w4 [Hio4 Hbl]. wp_pure. unfold when. pose proof Hio4 as [h4 E4].
  destruct (r =? 0); wp_pure.
  - eapply wp_mono; [eapply get_dpll_rate_io; [by eapply dpll_clk_io | by rewrite E4..| done]|].
    cbn beta. intros rate w5 Hio5%io_reads_only. assert (io_only w w5) as [h5 E5] by (by etrans).
    eapply wp_upd_clk; [rewrite E5; exact Hc|]. wp_pure. split; [|done]. exists rate, h5. by rewrite E5.
  - split; [|done]. exists (ck_rate k), h4. rewrite E4.
    assert (<[c := set_ck_rate (ck_rate k) k]> (w_clks w) = w_clks w) as ->; [|done].
    apply insert_id. rewrite Hc. done.
Qed.
End Rate.

(** ** The search for M2 *)

(** What the loop finds when it starts at [m2]: the first M2 whose DCO frequency
    reaches the band; the frequency does not wrap. *)
Definition dco_found (lo hi max_m2 targ m2 : Z) (res : Z * Z * Z) : Prop :=
  let '(r, m2', f) := res in
  (r = ADPLL_DCO_VALID /\ m2 <= m2' <= Z.max m2 max_m2 /\ f = targ * m2' /\ lo <= f <= hi /\
     forall j, m2 <= j < m2' -> targ * j < lo) \/
  (r = ADPLL_DCO_UNDERFLOW /\ forall j, m2 <= j <= Z.max m2 max_m2 -> targ * j < lo) \/
  (r = ADPLL_DCO_INVALID /\ exists j, m2 <= j <= Z.max m2 max_m2 /\ hi < targ * j /\
     forall i, m2 <= i < j -> targ * i < lo).

Lemma dco_loop_spec fuel lo hi max_m2 targ m2 :
  0 < lo < 2 ^ 31 -> max_m2 < 255 -> 0 <= targ -> 1 <= m2 <= 255 -> targ * m2 < 2 ^ 32 ->
  256 - m2 <= Z.of_nat fuel ->
  exists res, dco_loop fuel lo hi 1 max_m2 targ m2 = Some res /\
    dco_found lo hi max_m2 targ m2 res.
Proof.
  intros Hlo Hmax Ht. revert m2. induction fuel as [|fuel IH]; intros m2 Hm Hw Hf; [lia|].
  cbn [dco_loop]. assert (u32 (targ * m2) = targ * m2) as -> by (apply wrapu_small; split; nia).
  destruct (Z.ltb_spec (targ * m2) lo) as [Hlt|Hge].
  - destruct (decide (m2 = 255)) as [->|].
    { change (u8 (255 + 1)) with 0. cbn. eexists. split; [reflexivity|]. right. left.
      split; [done|]. intros j Hj. nia. }
    assert (u8 (m2 + 1) = m2 + 1) as -> by (apply wrapu_small; split; lia).
    rewrite (proj2 (Z.leb_le 1 (m2 + 1))) by lia. cbn [andb].
    destruct (Z.leb_spec (m2 + 1) max_m2) as [Hle|Hgt].
    + destruct (IH (m2 + 1)) as ([[r m2'] f] & E & Hres); [lia | nia | lia|].
      rewrite E. eexists. split; [reflexivity|]. unfold dco_found in *.
      rewrite Z.max_r in * by lia.
      destruct Hres as [(-> & Hm' & -> & Hb & Hj)|[(-> & Hj)|(-> & j & Hj & Hh & Hi)]].
      * left. split_and!; try done; try lia. intros j Hjj.
        destruct (decide (j = m2)) as [->|]; [done | apply Hj; lia].
      * right. left. split; [done|]. intros j Hjj.
        destruct (decide (j = m2)) as [->|]; [done | apply Hj; lia].
      * right. right. split; [done|]. exists j. split_and!; try lia. intros i Hii.
        destruct (decide (i = m2)) as [->|]; [done | apply Hi; lia].
    + eexists. split; [reflexivity|]. right. left. split; [done|]. intros j Hj.
      assert (j = m2) as -> by lia. done.
  - destruct (Z.ltb_spec hi (targ * m2)) as [Hh|Hh]; eexists; (split; [reflexivity|]).
    + right. right. split; [done|]. exists m2. split_and!; try lia. 
    + left. split_and!; try done; try lia. 
Qed.

(** ** Rounding *)

(** The numbers of [_dpll_get_rounded_vals]: [10000 * si] is the input rate,
    [10000 * st + rr] the target, [K = (n + 1) * m2]. *)
Lemma rounding_bound si st rr K :
  0 < si -> 0 <= st -> 0 <= rr -> 0 < K ->
  let inp := 10000 * si in
  let targ := 10000 * st + rr in
  let M := (st * K / si) * 2 ^ 18 + (st * K mod si) * 2 ^ 18 / si + rr * K * 2 ^ 18 / inp in
  let rate := inp * M / (K * 2 ^ 18) in
  rate <= targ /\ (targ - rate - 1) * (K * 2 ^ 18) < 2 * inp.
Proof.
  intros Hsi Hst Hrr HK inp targ M rate.
  pose proof (Z.div_mod (st * K) si ltac:(lia)) as HD.
  set (q := st * K / si) in *. set (rem := st * K mod si) in *.
  pose proof (Z.div_mod (rem * 2 ^ 18) si ltac:(lia)) as H1.
  pose proof (Z.mod_pos_bound (rem * 2 ^ 18) si Hsi) as B1.
  pose proof (Z.div_mod (rr * K * 2 ^ 18) inp ltac:(lia)) as H2.
  pose proof (Z.mod_pos_bound (rr * K * 2 ^ 18) inp ltac:(lia)) as B2.
  set (f1 := rem * 2 ^ 18 / si) in *. set (f2 := rr * K * 2 ^ 18 / inp) in *.
  assert (targ * (K * 2 ^ 18) - 2 * inp < inp * M <= targ * (K * 2 ^ 18)) as HM.
  { unfold M, targ, inp in *.
    replace (10000 * si * (q * 2 ^ 18 + f1 + f2))
      with (10000 * 2 ^ 18 * (si * q) + 10000 * (si * f1) + 10000 * si * f2) by ring.
    replace ((10000 * st + rr) * (K * 2 ^ 18))
      with (10000 * 2 ^ 18 * (st * K) + rr * K * 2 ^ 18) by ring.
    rewrite HD. lia. }
  pose proof (Z.div_mod (inp * M) (K * 2 ^ 18) ltac:(lia)) as H3.
  pose proof (Z.mod_pos_bound (inp * M) (K * 2 ^ 18) ltac:(lia)) as B3.
  fold rate in H3. split.
  - apply Z.div_le_upper_bound; lia.
  - replace ((targ - rate - 1) * (K * 2 ^ 18))
      with (targ * (K * 2 ^ 18) - (K * 2 ^ 18) * rate - K * 2 ^ 18) by ring. lia.
Qed.

(** The state in which the DPLL data [d] is [dd]. *)
Definition with_dpll (d : string) (dd : dpll_data) (w : world) : world :=
  set_w_dplls (<[d := dd]> (w_dplls w)) w.

Lemma with_dpll_id d dd w : w_dplls w !! d = Some dd -> with_dpll d dd w = w.
Proof. intros Hd. unfold with_dpll. by rewrite insert_id. Qed.

Lemma wp_get_with d dd Q w : Q dd (with_dpll d dd w) -> wp (get_dpll d) Q (with_dpll d dd w).
Proof. intros HQ. eapply wp_get_dpll; [apply lookup_insert_eq | done]. Qed.

Lemma wp_upd_with d dd f Q w :
  Q tt (with_dpll d (f dd) w) -> wp (upd_dpll d f) Q (with_dpll d dd w).
Proof.
  intros HQ. eapply wp_upd_dpll; [apply lookup_insert_eq|]. unfold with_dpll in *. cbn.
  by rewrite insert_insert_eq.
Qed.

Ltac with_step :=
  wp_pure; first [apply wp_get_with | apply wp_upd_with]; wp_pure.

Section Round.
  Context `{HW : Hardware}.

Definition dco_lo (dd : dpll_data) : Z :=
  if has_type dd TI814X_ADPLL_LS_TYPE then ADPLLS_DCO_FREQ_MIN else ADPLLJ_DCO_FREQ_MIN_HS2.
Definition dco_hi (dd : dpll_data) : Z :=
  if has_type dd TI814X_ADPLL_LS_TYPE then ADPLLS_DCO_FREQ_MAX else ADPLLJ_DCO_FREQ_MAX_HS1.

(** The largest post divider that is tried; the one of the table is in any case. *)
Definition m2_max (dd : dpll_data) : Z :=
  Z.max (dd_post_div_m2 dd) (if has_type dd TI814X_ADPLL_LS_TYPE then 31 else 127).

(** [m2] is the smallest post divider, from the one of the table on, that brings the
    DCO into its band. *)
Definition good_m2 (dd : dpll_data) (targ m2 : Z) : Prop :=
  dd_post_div_m2 dd <= m2 <= m2_max dd /\ dco_lo dd <= targ * m2 <= dco_hi dd /\
  forall j, dd_post_div_m2 dd <= j < m2 -> targ * j < dco_lo dd.

Lemma good_m2_unique dd targ x y : good_m2 dd targ x -> good_m2 dd targ y -> x = y.
Proof.
  intros (Hx & [Hx1 _] & Hx2) (Hy & [Hy1 _] & Hy2).
  destruct (Z.lt_trichotomy x y) as [H|[H|H]]; [|done|]; [pose proof (Hy2 x ltac:(lia)) | pose proof (Hx2 y ltac:(lia))]; lia.
Qed.

Lemma test_dco_wp d dd targ w :
  1 <= dd_post_div_m2 dd <= 127 -> 0 <= targ -> targ * dd_post_div_m2 dd < 2 ^ 32 ->
  wp (_adpll_test_dco_freq d targ)
     (fun r w' =>
        (r = 0 /\ exists m2 sel, good_m2 dd targ m2 /\
           w' = with_dpll d (set_dd_dco_freq_sel sel (set_dd_last_rounded_m2 m2 dd)) w) \/
        (r < 0 /\ (forall m2, ~ good_m2 dd targ m2) /\
         w' = with_dpll d dd w)) (with_dpll d dd w).
Proof.
  intros Hm Ht Hw. unfold _adpll_test_dco_freq. with_step. unfold good_m2, dco_lo, dco_hi, m2_max.
  destruct (has_type dd TI814X_ADPLL_LS_TYPE) eqn:Hty.
  - destruct (dco_loop_spec DCO_FUEL ADPLLS_DCO_FREQ_MIN ADPLLS_DCO_FREQ_MAX 31 targ
      (dd_post_div_m2 dd)) as ([[r m2] f] & E & Hres);
      try done; try lia; try (split; reflexivity); try (unfold DCO_FUEL; lia).
    unfold TI814X_ADPLLS_MAX_M2_DIV, TI814X_ADPLLS_MIN_M2_DIV. rewrite E. unfold dco_found in Hres.
    destruct Hres as [(-> & Hm' & -> & Hb & Hj)|[(-> & Hj)|(-> & j & Hj & Hh & Hi)]].
    + change (ADPLL_DCO_VALID =? ADPLL_DCO_VALID) with true. with_step. left. split; [done|]. exists m2, (dd_dco_freq_sel dd).
      split; [|done]. split_and!; try done; try lia.
    + wp_pure. right. split; [done|]. split; [|done]. intros x. intros (Hx1 & Hx2 & _).
      pose proof (Hj x ltac:(lia)). lia.
    + wp_pure. right. split; [done|]. split; [|done]. intros x.
      intros (Hx1 & Hx2 & Hx3). destruct (Z.lt_trichotomy x j) as [Hl|[->|Hg]]; [|lia|].
      * pose proof (Hi x ltac:(lia)). lia.
      * pose proof (Hx3 j ltac:(lia)). unfold ADPLLS_DCO_FREQ_MAX, ADPLLS_DCO_FREQ_MIN in *. lia.
  - destruct (dco_loop_spec DCO_FUEL ADPLLJ_DCO_FREQ_MIN_HS2 ADPLLJ_DCO_FREQ_MAX_HS1 127 targ
      (dd_post_div_m2 dd)) as ([[r m2] f] & E & Hres);
      try done; try lia; try (split; reflexivity); try (unfold DCO_FUEL; lia).
    unfold TI814X_ADPLLJ_MAX_M2_DIV, TI814X_ADPLLJ_MIN_M2_DIV. rewrite E. unfold dco_found in Hres.
    destruct Hres as [(-> & Hm' & -> & Hb & Hj)|[(-> & Hj)|(-> & j & Hj & Hh & Hi)]].
    + change (ADPLL_DCO_VALID =? ADPLL_DCO_VALID) with true. with_step. with_step. left. split; [done|]. eexists m2, _.
      split; [|done]. split_and!; try done; try lia.
    + wp_pure. right. split; [done|]. split; [|done]. intros x. intros (Hx1 & Hx2 & _).
      pose proof (Hj x ltac:(lia)). lia.
    + wp_pure. right. split; [done|]. split; [|done]. intros x.
      intros (Hx1 & Hx2 & Hx3). destruct (Z.lt_trichotomy x j) as [Hl|[->|Hg]]; [|lia|].
      * pose proof (Hi x ltac:(lia)). lia.
      * pose proof (Hx3 j ltac:(lia)).
        unfold ADPLLJ_DCO_FREQ_MAX_HS1, ADPLLJ_DCO_FREQ_MIN_HS2 in *. lia.
Qed.
End Round.

(** The multiplier, scaled by 2^18, that the code computes for a target. *)
Definition scaled_mult (si targ K : Z) : Z :=
  (targ / 10000 * K / si) * 2 ^ 18 + (targ / 10000 * K mod si) * 2 ^ 18 / si +
  targ mod 10000 * K * 2 ^ 18 / (10000 * si).

(** The results of the rounding, stored in the DPLL data. *)
Definition rounded (m frac m2 sel : Z) (dd : dpll_data) : dpll_data :=
  set_dd_last_rounded_frac_m frac (set_dd_last_rounded_m m
    (set_dd_dco_freq_sel sel (set_dd_last_rounded_m2 m2
      (set_dd_last_rounded_n (dd_pre_div_n dd) dd)))).

(** Splitting the fraction that has grown past its 18 bits. *)
Lemma frac_carry m f :
  0 <= f -> (m + Z.shiftr f 18) * 2 ^ 18 + Z.land f TI814X_ADPLL_FRACT_MULT_MASK = m * 2 ^ 18 + f.
Proof.
  intros Hf. rewrite Z.shiftr_div_pow2 by lia.
  change TI814X_ADPLL_FRACT_MULT_MASK with (Z.ones 18). rewrite Z.land_ones by lia.
  pose proof (Z.div_mod f (2 ^ 18) ltac:(lia)). lia.
Qed.

(** The carry into the multiplier, and the fraction that is left. *)
Lemma frac_parts f :
  0 <= f < 41 * 2 ^ 18 ->
  0 <= Z.shiftr f 18 <= 40 /\ 0 <= Z.land f TI814X_ADPLL_FRACT_MULT_MASK < 2 ^ 18 /\
  (Z.shiftr f 18 <= 0 -> f < 2 ^ 18).
Proof.
  intros Hf. rewrite Z.shiftr_div_pow2 by lia.
  change TI814X_ADPLL_FRACT_MULT_MASK with (Z.ones 18). rewrite Z.land_ones by lia.
  pose proof (Z.mod_pos_bound f (2 ^ 18) ltac:(lia)).
  pose proof (Z.div_mod f (2 ^ 18) ltac:(lia)).
  split; [|split; lia]. split; [apply Z.div_pos; lia|]. apply Z.lt_succ_r, Z.div_lt_upper_bound; lia.
Qed.

(** No intermediate value of the rounding leaves its type. *)
Lemma rounding_ranges si n m2 targ :
  0 <= n -> 0 <= targ -> 1 <= m2 <= 127 -> targ * m2 <= 2000000000 -> si <= 2 ^ 14 ->
  32000 * (n + 1) <= 10000 * si ->
  let K := (n + 1) * m2 in
  0 < K /\ uint 32 (targ / 10000 * (n + 1)) /\ uint 32 (targ / 10000 * K) /\
  0 <= targ / 10000 * K / si < 2 ^ 16 /\
  0 <= (targ / 10000 * K mod si) * 2 ^ 18 < si * 2 ^ 18 /\
  uint 32 (targ mod 10000 * (n + 1)) /\
  0 <= targ mod 10000 * K * 2 ^ 18 / (10000 * si) <= 40 * 2 ^ 18.
Proof.
  intros Hn Ht Hm Hd Hsi Hf K.
  pose proof (Z.div_mod targ 10000 ltac:(lia)) as E.
  pose proof (Z.mod_pos_bound targ 10000 ltac:(lia)) as B.
  set (st := targ / 10000) in *. set (rr := targ mod 10000) in *.
  assert (0 <= st) as Hst by (apply Z.div_pos; lia).
  assert (10000 * (st * m2) <= targ * m2) as Hsm.
  { replace (targ * m2) with (10000 * (st * m2) + rr * m2) by (rewrite E; ring).
    pose proof (Z.mul_nonneg_nonneg rr m2). lia. }
  assert (st <= st * m2) as Hs1 by (rewrite <- (Z.mul_1_r st) at 1; apply Z.mul_le_mono_nonneg_l; lia).
  assert (n + 1 <= 5120) as Hn1 by lia.
  assert (0 <= st * (n + 1) <= 200000 * (n + 1)) as Hsn
    by (split; [apply Z.mul_nonneg_nonneg | apply Z.mul_le_mono_nonneg_r]; lia).
  assert (n + 1 <= K <= (n + 1) * 127) as HK.
  { unfold K. split; [rewrite <- (Z.mul_1_r (n + 1)) at 1|]; apply Z.mul_le_mono_nonneg_l; lia. }
  assert (0 <= st * K <= 200000 * (n + 1)) as HsK.
  { replace (st * K) with ((st * m2) * (n + 1)) by (unfold K; ring).
    split; [apply Z.mul_nonneg_nonneg | apply Z.mul_le_mono_nonneg_r]; lia. }
  pose proof (Z.mod_pos_bound (st * K) si ltac:(lia)) as Br.
  assert (0 <= rr * (n + 1) <= 10000 * (n + 1)) as Hrn
    by (split; [apply Z.mul_nonneg_nonneg | apply Z.mul_le_mono_nonneg_r]; lia).
  assert (0 <= rr * K <= 10000 * K) as HrK
    by (split; [apply Z.mul_nonneg_nonneg | apply Z.mul_le_mono_nonneg_r]; lia).
  split; [lia|]. split; [split; lia|]. split; [split; lia|].
  split; [split; [apply Z.div_pos; lia | apply Z.div_lt_upper_bound; lia]|].
  split; [lia|]. split; [split; lia|].
  split; [apply Z.div_pos; lia | apply Z.div_le_upper_bound; lia].
Qed.

Section RoundedVals.
  Context `{HW : Hardware}.

(** What the rounding asks of a DPLL: the reference divided by N + 1 is at least the
    lower limit of Fint, the reference is a multiple of 10 kHz up to 163.84 MHz. *)
Record dpll_source (dd : dpll_data) (si : Z) : Prop := {
  so_ref : si <= 2 ^ 14;
  so_fint : ADPLLS_FINT_BAND_MIN * (dd_pre_div_n dd + 1) <= 10000 * si;
  so_n : 0 <= dd_pre_div_n dd;
  so_m2 : 1 <= dd_post_div_m2 dd <= 127;
  so_mult : 0 <= dd_max_multiplier dd <= 4095
}.

(** A rate can be reached: a post divider brings the DCO into its band, and the multiplier
    for it is one that the DPLL has. *)
Definition reachable_rate (dd : dpll_data) (si targ : Z) : Prop := exists m2, good_m2 dd targ m2 /\
  TI814X_ADPLL_MIN_MULT <= targ / 10000 * ((dd_pre_div_n dd + 1) * m2) / si <= dd_max_multiplier dd.

(** The result of the rounding: values within their types whose fixed-point multiplier
    is the one wanted, or an error that keeps the stored rate. *)
Definition rounding_done (d : string) (dd : dpll_data) (si targ : Z) (w : world) (r : Z) (w' : world)
    : Prop :=
  (r = 0 /\ reachable_rate dd si targ /\ exists m2 sel m frac, good_m2 dd targ m2 /\ 0 <= m < 2 ^ 14 /\
     0 <= frac < 2 ^ 18 /\
     m * 2 ^ 18 + frac = scaled_mult si targ ((dd_pre_div_n dd + 1) * m2) /\
     w' = with_dpll d (rounded m frac m2 sel dd) w) \/
  (r < 0 /\ ~ reachable_rate dd si targ /\ exists dd', w' = with_dpll d dd' w /\
     dd_last_rounded_rate dd' = dd_last_rounded_rate dd).

(** The fraction is stored; what does not fit its 18 bits is carried to the multiplier. *)
Lemma store_frac_wp d dd q f (Q : unit -> world -> Prop) w :
  0 <= q <= 4095 -> 0 <= f < 41 * 2 ^ 18 ->
  (forall m frac, 0 <= m < 2 ^ 14 -> 0 <= frac < 2 ^ 18 -> m * 2 ^ 18 + frac = q * 2 ^ 18 + f ->
     Q tt (with_dpll d (set_dd_last_rounded_frac_m frac (set_dd_last_rounded_m m dd)) w)) ->
  wp (upd_dpll d (set_dd_last_rounded_frac_m f);;
      when (0 <? Z.shiftr f 18)
        (upd_dpll d (fun dd => set_dd_last_rounded_m (u16 (dd_last_rounded_m dd + Z.shiftr f 18)) dd);;
         upd_dpll d (set_dd_last_rounded_frac_m (Z.land f TI814X_ADPLL_FRACT_MULT_MASK))))
     Q (with_dpll d (set_dd_last_rounded_m q dd) w).
Proof.
  intros Hq Hf HQ. with_step. pose proof (frac_carry q f ltac:(lia)) as Hc.
  destruct (frac_parts f ltac:(lia)) as (Hov & Hlow & Hsmall).
  destruct (Z.ltb_spec 0 (Z.shiftr f 18)) as [Hlt|Hge].
  - with_step. with_step. change (dd_last_rounded_m _) with q.
    rewrite (wrapu_small 16) by (split; lia).
    apply (HQ (q + Z.shiftr f 18)); [lia | exact Hlow | lia].
  - wp_pure. apply (HQ q f); lia.
Qed.

(** The fraction: 2^18 times what the division left, and 2^18 times what the scaling of the
    rates left, over the input rate. *)
Lemma frac_wp d dd q rem tm n m2 si (Q : unit -> world -> Prop) w :
  let f := rem * 2 ^ 18 / si + tm * ((n + 1) * m2) * 2 ^ 18 / (10000 * si) in
  0 <= q <= 4095 -> 0 < si <= 2 ^ 14 -> 0 <= rem * 2 ^ 18 < si * 2 ^ 18 -> uint 32 (tm * (n + 1)) ->
  0 <= tm * ((n + 1) * m2) * 2 ^ 18 / (10000 * si) <= 40 * 2 ^ 18 ->
  (forall m frac, 0 <= m < 2 ^ 14 -> 0 <= frac < 2 ^ 18 -> m * 2 ^ 18 + frac = q * 2 ^ 18 + f ->
     Q tt (with_dpll d (set_dd_last_rounded_frac_m frac (set_dd_last_rounded_m m dd)) w)) ->
  wp (if (rem =? 0) && (tm =? 0) then upd_dpll d (set_dd_last_rounded_frac_m 0)
      else
        frac ← divu (u32 (Z.shiftl rem 18)) si;
        let rfraction := u32 (tm * (n + 1)) in
        let rfraction := Z.shiftl (rfraction * m2) 18 in
        rfraction ← divu rfraction (10000 * si);
        let frac_m := u32 (frac + rfraction) in
        upd_dpll d (set_dd_last_rounded_frac_m frac_m);;
        let frac_overflow := Z.shiftr frac_m 18 in
        when (0 <? frac_overflow)
          (upd_dpll d (fun dd => set_dd_last_rounded_m (u16 (dd_last_rounded_m dd + frac_overflow)) dd);;
           upd_dpll d (set_dd_last_rounded_frac_m (Z.land frac_m TI814X_ADPLL_FRACT_MULT_MASK))))
     Q (with_dpll d (set_dd_last_rounded_m q dd) w).
Proof.
  intros f Hq Hsi Hrem Htm Hf2 HQ. destruct ((rem =? 0) && (tm =? 0)) eqn:Hz.
  - bool_to_prop. with_step. apply (HQ q 0); [lia | lia |].
    unfold f. rewrite H, H0. change (0 * ((n + 1) * m2) * 2 ^ 18) with 0. rewrite Z.mul_0_l, !Zdiv_0_l. lia.
  - wp_pure. assert (Z.shiftl rem 18 = rem * 2 ^ 18) as -> by (apply Z.shiftl_mul_pow2; lia).
    rewrite (wrapu_small 32 (rem * 2 ^ 18)) by (split; lia).
    apply wp_divu; [lia|]. cbv zeta. apply wp_bind, wp_divu; [lia|].
    rewrite (wrapu_small 32 (tm * (n + 1))) by done.
    rewrite Z.shiftl_mul_pow2 by lia. rewrite <- (Z.mul_assoc tm). fold f.
    assert (0 <= rem * 2 ^ 18 / si < 2 ^ 18) as Hf1
      by (split; [apply Z.div_pos; lia | apply Z.div_lt_upper_bound; lia]).
    rewrite (wrapu_small 32 f) by (split; unfold f; lia).
    apply store_frac_wp; [lia | unfold f; lia | done].
Qed.

Lemma rounded_vals_wp c k d dd p pk si targ w :
  w_clks w !! c = Some k -> ck_dpll_data k = Some d -> ck_parent k = Some p ->
  w_clks w !! p = Some pk -> ck_rate pk = 10000 * si -> dpll_source dd si ->
  0 <= targ -> targ * dd_post_div_m2 dd < 2 ^ 32 ->
  wp (_dpll_get_rounded_vals c targ) (rounding_done d dd si targ w) (with_dpll d dd w).
Proof.
  intros Hc Hp Hpar Hpk Hrate [Hsi Hfint Hn Hm2 Hmult] Ht Hw. unfold _dpll_get_rounded_vals.
  wp_step. rewrite Hp. with_step. rewrite Hpar. do 2 wp_step.
  set (dd1 := set_dd_last_rounded_n (dd_pre_div_n dd) dd).
  eapply wp_mono; [apply (test_dco_wp d dd1); done|]. cbn beta.
  intros r w1 [(-> & m2 & sel & Hgood & ->)|(Hr & Hno & ->)].
  2: { rewrite (proj2 (Z.eqb_neq r 0)) by lia. cbn [negb]. wp_pure. right. split; [done|].
       split; [|by exists dd1]. intros (m2 & Hg & _). by apply (Hno m2). }
  change (good_m2 dd targ m2) in Hgood. pose proof Hgood as Hgood0. cbn [Z.eqb negb]. with_step.
  set (dd2 := set_dd_dco_freq_sel sel _).
  change (dd_pre_div_n dd2) with (dd_pre_div_n dd). change (dd_last_rounded_m2 dd2) with m2.
  change (dd_last_rounded_n dd2) with (dd_pre_div_n dd).
  change (dd_max_multiplier dd2) with (dd_max_multiplier dd).
  rewrite Hrate. unfold ADPLL_ROUNDING_DIVIDER, ADPLLS_FINT_BAND_MIN in *.
  replace (10000 * si / 10000) with si by (rewrite Z.mul_comm, Z.div_mul; lia).
  destruct Hgood as (Hm2' & Hdco & Hmin).
  assert (m2 <= 127) as Hm127 by (unfold m2_max in Hm2'; destruct (has_type _ _); lia).
  assert (reachable_rate dd si targ <->
    TI814X_ADPLL_MIN_MULT <= targ / 10000 * ((dd_pre_div_n dd + 1) * m2) / si <= dd_max_multiplier dd) as Hreach.
  { split; [|intros H; by exists m2]. intros (x & Hx & H). by rewrite (good_m2_unique dd targ m2 x). }
  set (n := dd_pre_div_n dd) in *.
  assert (targ * m2 <= 2000000000) as Hhi.
  { unfold dco_hi in Hdco. destruct (has_type _ _); exact (proj2 Hdco). }
  destruct (rounding_ranges si n m2 targ Hn Ht ltac:(lia) Hhi Hsi Hfint)
    as (HK & R1 & R2 & R3 & R4 & R5 & R6).
  rewrite (wrapu_small 32 (targ / 10000 * (n + 1))), <- Z.mul_assoc by done.
  rewrite (wrapu_small 32 (targ / 10000 * ((n + 1) * m2))) by done.
  set (K := (n + 1) * m2) in *. assert (0 < si) as Hsi0 by lia.
  apply wp_divu; [lia|]. wp_pure. apply wp_modu; [lia|].
  rewrite (wrapu_small 16 (targ / 10000 * K / si)) by done.
  set (q := targ / 10000 * K / si) in *. set (rem := targ / 10000 * K mod si) in *.
  destruct ((q <? TI814X_ADPLL_MIN_MULT) || (dd_max_multiplier dd <? q)) eqn:Hq.
  { wp_pure. right. split; [done|]. split; [|by exists dd2]. rewrite Hreach.
    apply orb_true_iff in Hq as [Hq|Hq]; apply Z.ltb_lt in Hq; lia. }
  apply orb_false_iff in Hq as [Hq2 Hq]. apply Z.ltb_ge in Hq2, Hq. with_step.
  apply (frac_wp d dd2 q rem (targ mod 10000) n m2 si); [lia | lia | done..|].
  intros m frac Hm Hfr HM. wp_pure. left. split; [done|]. split; [by apply Hreach|]. exists m2, sel, m, frac.
  rewrite Z.add_assoc in HM. done.
Qed.
End RoundedVals.

(** ** Properties of the rounding *)

Lemma compute_new_rate_wp ref m frac n m2 Q w :
  adpll_den n m2 <> 0 -> Q (adpll_rate ref m frac n m2) w ->
  wp (_adpll_compute_new_rate ref m frac n m2) Q w.
Proof.
  intros Hd HQ. unfold _adpll_compute_new_rate. wp_pure. by apply wp_divu.
Qed.

Lemma lsl_small x n : 0 <= n < 32 -> 0 <= x < 2 ^ (32 - n) -> lsl x n = x * 2 ^ n.
Proof.
  intros Hn Hx. rewrite lsl_in, Z.shiftl_mul_pow2 by lia. apply wrapu_small.
  assert (2 ^ 32 = 2 ^ (32 - n) * 2 ^ n) as E by (rewrite <- Z.pow_add_r by lia; f_equal; lia).
  assert (0 < 2 ^ n) by lia. split; nia.
Qed.

(** Without overflow the rate is the quotient it is meant to be. *)
Lemma adpll_rate_exact ref m frac n m2 :
  uint 32 ref -> 0 <= m < 2 ^ 14 -> 0 <= frac < 2 ^ 18 -> 0 <= n -> 0 < m2 ->
  (n + 1) * m2 < 2 ^ 14 -> uint 32 (ref * (m * 2 ^ 18 + frac) / ((n + 1) * m2 * 2 ^ 18)) ->
  adpll_den n m2 <> 0 /\
  adpll_rate ref m frac n m2 = ref * (m * 2 ^ 18 + frac) / ((n + 1) * m2 * 2 ^ 18).
Proof.
  intros [Hr0 Hr] Hm Hf Hn Hm2 HK Hq. assert (n + 1 <= (n + 1) * m2) as Hle.
  { rewrite <- (Z.mul_1_r (n + 1)) at 1. apply Z.mul_le_mono_nonneg_l; lia. }
  assert (adpll_den n m2 = (n + 1) * m2 * 2 ^ 18) as Ed.
  { unfold adpll_den. rewrite (wrapu_small 32 (n + 1)) by (split; lia).
    rewrite lsl_small by lia.
    replace ((n + 1) * 2 ^ 18 * m2) with ((n + 1) * m2 * 2 ^ 18) by ring.
    apply wrapu_small. split; lia. }
  assert (adpll_num m frac = m * 2 ^ 18 + frac) as En.
  { unfold adpll_num. rewrite lsl_small by lia. apply wrapu_small. split; lia. }
  split; [rewrite Ed; lia|]. unfold adpll_rate. rewrite Ed, En.
  rewrite (wrapu_small 64), (wrapu_small 32); [done | done |].
  split; [apply Z.mul_nonneg_nonneg; lia|].
  assert (ref * (m * 2 ^ 18 + frac) <= 2 ^ 32 * (m * 2 ^ 18 + frac)).
  { apply Z.mul_le_mono_nonneg_r; lia. }
  lia.
Qed.

(** C18: rounding a rate for an ADPLL whose reference is a multiple of 10 kHz up to
    163.84 MHz, at least 32 kHz after the division by N + 1, with N up to 128, and a target
    whose product with the post divider of the table fits into 32 bits.  The call
    succeeds exactly when a post divider of the DPLL brings the DCO into its band and the
    multiplier for it is in range; then the rounded rate is at most the target and misses
    it by less than 1 Hz plus twice the step of the fractional multiplier, the post divider
    is the smallest one that brings the DCO into its band, and all of this is stored for the
    programming that follows.  No intermediate value overflows.  When the call fails, the
    result is negative and the stored rounded rate is 0. *)
Theorem dpll_round_rate_accurate `{HW : Hardware} c k d dd p pk si targ w :
  dpll_clk c k d dd w -> ck_parent k = Some p -> dd_clk_ref dd = p ->
  w_clks w !! p = Some pk -> ck_rate pk = 10000 * si -> dpll_source dd si ->
  dd_pre_div_n dd <= 128 -> 0 <= targ -> targ * dd_post_div_m2 dd < 2 ^ 32 ->
  wp (ti814x_dpll_round_rate (Some c) targ)
     (fun r w' => exists dd', w' = with_dpll d dd' w /\
        ((reachable_rate dd si targ /\ 0 <= r <= targ /\ dd_last_rounded_rate dd' = r /\
          good_m2 dd targ (dd_last_rounded_m2 dd') /\
          dd_last_rounded_n dd' = dd_pre_div_n dd /\
          r = adpll_rate (ck_rate pk) (dd_last_rounded_m dd') (dd_last_rounded_frac_m dd')
                (dd_last_rounded_n dd') (dd_last_rounded_m2 dd') /\
          (targ - r - 1) * ((dd_pre_div_n dd + 1) * dd_last_rounded_m2 dd' * 2 ^ 18) <
            2 * ck_rate pk) \/
         (~ reachable_rate dd si targ /\ r < 0 /\ dd_last_rounded_rate dd' = 0))) w.
Proof.
  intros [Hc Hp Hd] Hpar Href Hpk Hrate Hso Hn Ht Hw. unfold ti814x_dpll_round_rate.
  wp_step. rewrite Hp. rewrite <- (with_dpll_id d dd w Hd). with_step.
  set (dd0 := set_dd_last_rounded_rate 0 dd).
  assert (dpll_source dd0 si) as Hso0 by (destruct Hso; by split).
  eapply wp_mono; [by apply (rounded_vals_wp c k d dd0 p pk si targ)|]. cbn beta.
  rewrite (with_dpll_id d dd w Hd).
  intros r w1 [(-> & Hreach & m2 & sel & m & frac & Hg & Hm & Hfr & HM & ->)|(Hr & Hno & dd' & -> & Hl)].
  2: { rewrite (proj2 (Z.eqb_neq r 0)) by lia. cbn [negb]. wp_pure. exists dd'. split; [done|]. by right. }
  cbn [Z.eqb negb]. with_step. set (dd1 := rounded m frac m2 sel dd0).
  change (dd_clk_ref dd1) with (dd_clk_ref dd). rewrite Href. wp_step.
  change (dd_last_rounded_m dd1) with m. change (dd_last_rounded_frac_m dd1) with frac.
  change (dd_last_rounded_n dd1) with (dd_pre_div_n dd). change (dd_last_rounded_m2 dd1) with m2.
  change (good_m2 dd targ m2) in Hg. destruct Hso as [Hsi Hfi Hn0 Hm2 Hmu].
  change (dd_pre_div_n dd0) with (dd_pre_div_n dd) in HM. unfold ADPLLS_FINT_BAND_MIN in Hfi.
  change (reachable_rate dd si targ) in Hreach.
  set (n := dd_pre_div_n dd) in *. pose proof Hg as (Hg1 & Hg2 & Hg3).
  assert (m2 <= 127) as Hm127 by (unfold m2_max in Hg1; destruct (has_type _ _); lia).
  assert (targ * m2 <= 2000000000) as Hhi
    by (unfold dco_hi in Hg2; destruct (has_type _ _); exact (proj2 Hg2)).
  assert (0 < (n + 1) * m2 <= (n + 1) * 127) as HK.
  { split; [apply Z.mul_pos_pos | apply Z.mul_le_mono_nonneg_l]; lia. }
  pose proof (rounding_bound si (targ / 10000) (targ mod 10000) ((n + 1) * m2)
    ltac:(lia) (Z.div_pos targ 10000 Ht ltac:(lia)) ltac:(apply Z.mod_pos_bound; lia) ltac:(lia))
    as [HB1 HB2].
  fold (scaled_mult si targ ((n + 1) * m2)) in HB1, HB2.
  rewrite <- (Z.div_mod targ 10000) in HB1, HB2 by lia. rewrite <- HM, <- Hrate in HB1, HB2.
  assert (targ <= targ * m2) as Htm
    by (rewrite <- (Z.mul_1_r targ) at 1; apply Z.mul_le_mono_nonneg_l; lia).
  assert (0 <= ck_rate pk * (m * 2 ^ 18 + frac) / ((n + 1) * m2 * 2 ^ 18)) as Hpos.
  { apply Z.div_pos; [apply Z.mul_nonneg_nonneg|]; lia. }
  destruct (adpll_rate_exact (ck_rate pk) m frac n m2) as [Hden Hex];
    try lia; [split; lia | split; lia |].
  apply compute_new_rate_wp; [done|]. with_step. rewrite Hex.
  set (rate := _ / _) in *. rewrite wraps_small by lia.
  eexists. split; [reflexivity|]. left.
  change (dd_last_rounded_rate (set_dd_last_rounded_rate rate dd1)) with rate.
  split_and!; try done; lia.
Qed.

(** The DCO output of a DPLL.  On every chip but ES1.0 the M2 divider is masked
    into an 8-bit variable before it is shifted down; the M2 field lies above bit 7, so
    the divider read is 0 and the clock gets rate 0 whatever the DPLL does. *)
Theorem dco_recalc_is_zero `{SOC : Soc} `{HW : Hardware} c k d dd bk rk w :
  omap_rev <> TI8148_REV_ES1_0 -> dpll_clk c k d dd w ->
  w_clks w !! dd_clk_bypass dd = Some bk -> w_clks w !! dd_clk_ref dd = Some rk ->
  (forall h, reg_den dd (u32 (hw_read h (dd_div_m2n_reg dd))) <> 0) ->
  Z.land (dd_div_m2_mask dd) 0xff = 0 ->
  wp (ti814x_dpll_dco_recalc c) (fun r w' => r = 0 /\ io_reads w w') w.
Proof.
  intros Hrev Hcc Hb Hr Hden Hmask. unfold ti814x_dpll_dco_recalc.
  rewrite (proj2 (Z.eqb_neq omap_rev _) Hrev). wp_pure. eapply clk_dpll_wp; [exact Hcc|]. wp_step.
  set (w1 := set_w_trace _ w). assert (io_reads w w1) as Hio1 by (by apply io_reads_1).
  eapply wp_mono; [eapply get_dpll_rate_io; [|exact Hb | exact Hr | done];
    eapply dpll_clk_io; [by apply io_reads_only | exact Hcc]|].
  cbn beta. intros r w2 Hio2. wp_pure. split; [|by etrans].
  assert (u8 (Z.land (regval w (dd_div_m2n_reg dd)) (dd_div_m2_mask dd)) = 0) as ->.
  { unfold wrapu. rewrite <- Z.land_ones, <- Z.land_assoc by lia.
    change (Z.ones 8) with 0xff. by rewrite Hmask, Z.land_0_r. }
  assert (forall n, lsr 0 n = 0) as E by (intros n; unfold lsr; case_bool; [apply Z.shiftr_0_l | done]).
  rewrite E, Z.mul_0_r. done.
Qed.

(** ** Programming *)

(** Bits of the control register that an access leaves alone. *)
Lemma set_bit_other v i j : 0 <= i < 32 -> i <> j -> Z.testbit (Z.lor v (lsl 1 i)) j = Z.testbit v j.
Proof.
  intros Hi Hij. rewrite Z.lor_spec, lsl_1, Z.pow2_bits_eqb by lia.
  rewrite (proj2 (Z.eqb_neq i j) Hij). apply orb_false_r.
Qed.

Lemma clear_bit_bit v i j :
  0 <= i < 32 -> 0 <= j ->
  Z.testbit (Z.land v (Z.lnot (lsl 1 i))) j = Z.testbit v j && negb (i =? j).
Proof. intros Hi Hj. by rewrite Z.land_spec, Z.lnot_spec, lsl_1, Z.pow2_bits_eqb by lia. Qed.

Lemma field_set_bit mask f v j :
  0 <= j -> (mask = 0 \/ field_fits mask f = true) -> Z.testbit mask j = false ->
  Z.testbit (field_set mask f v) j = Z.testbit v j.
Proof.
  intros Hj [->|Hf] Hm; [by rewrite field_set_no_mask|].
  apply field_fits_lsl in Hf as (Hl & Hs & Hml & Hf). unfold field_set.
  rewrite Hl, Z.lor_spec, Z.land_spec, Z.lnot_spec, Hm, <- Hml, Z.land_spec, Hm by done.
  by rewrite andb_true_r, andb_false_r, orb_false_r.
Qed.

(** Two fields written at once. *)
Lemma two_fields ma fa mb fb v :
  field_fits ma fa = true -> Z.land ma mb = 0 ->
  Z.lor (Z.lor (Z.land v (Z.lnot (Z.lor ma mb))) (lsl fa (__ffs ma))) (lsl fb (__ffs mb)) =
  field_set mb fb (field_set ma fa v).
Proof.
  intros (Hl & _ & Hm & _)%field_fits_lsl Hd. unfold field_set. rewrite Hl. f_equal.
  apply Z.bits_inj'. intros i Hi.
  assert (Z.testbit (Z.land ma mb) i = false) as E by (rewrite Hd; apply Z.bits_0).
  rewrite Z.land_spec in E.
  repeat rewrite ?Z.lor_spec, ?Z.land_spec, ?Z.lnot_spec by done.
  assert (Z.testbit (Z.shiftl fa (__ffs ma)) i =
    Z.testbit (Z.shiftl fa (__ffs ma)) i && Z.testbit ma i) as E2
    by (rewrite <- Z.land_spec, Hm; done).
  destruct (Z.testbit v i), (Z.testbit ma i), (Z.testbit mb i),
    (Z.testbit (Z.shiftl fa (__ffs ma)) i); done.
Qed.

Section Program.
  Context `{HW : Hardware}.

(** The registers of a DPLL: distinct memory cells, with fields that do not overlap. *)
Record dpll_regs_ok (dd : dpll_data) : Prop := {
  ok_plain : rate_regs_plain dd;
  ok_distinct : NoDup [dd_control_reg dd; dd_mult_div1_reg dd; dd_frac_mult_reg dd; dd_div_m2n_reg dd];
  ok_load_mn : dd_load_mn_reg dd ∉
      [dd_control_reg dd; dd_mult_div1_reg dd; dd_frac_mult_reg dd; dd_div_m2n_reg dd];
  ok_load_m2n2 : dd_load_m2n2_reg dd ∉
      [dd_control_reg dd; dd_mult_div1_reg dd; dd_frac_mult_reg dd; dd_div_m2n_reg dd];
  ok_m2_n : Z.land (dd_div_m2_mask dd) (dd_div_n_mask dd) = 0;
  ok_sd : dd_sddiv_mask dd <> 0 ->
    Z.land (dd_sddiv_mask dd) (dd_frac_mult_mask dd) = 0 /\
    forall sd, 0 <= sd <= 255 -> field_fits (dd_sddiv_mask dd) sd = true;
  ok_bits : 0 <= dd_bypass_bit dd < 32 /\ 0 <= dd_stby_ret_bit dd < 32 /\
    dd_bypass_bit dd <> dd_stby_ret_bit dd /\
    (dd_bypass_bit dd ∉ [0; 19; 29]) /\ (dd_stby_ret_bit dd ∉ [0; 19; 29]) /\
    Z.testbit (dd_dco_mask dd) (dd_bypass_bit dd) = false /\
    Z.testbit (dd_dco_mask dd) (dd_stby_ret_bit dd) = false
}.

(** The values to program fit their fields. *)
Record dpll_vals_ok (dd : dpll_data) (m frac n m2 dco : Z) : Prop := {
  va_m : field_fits (dd_mult_mask dd) m = true;
  va_frac : field_fits (dd_frac_mult_mask dd) frac = true;
  va_n : field_fits (dd_div_n_mask dd) n = true;
  va_n8 : 0 <= n < 255;
  va_m2 : field_fits (dd_div_m2_mask dd) m2 = true;
  va_dco : dd_dco_mask dd = 0 \/ field_fits (dd_dco_mask dd) dco = true
}.

(** The fields of the dividers hold the values; [keeps j] says that bit [j] of the
    control register is as it was. *)
Record programmed (dd : dpll_data) (m frac n m2 : Z) (w : world) : Prop := {
  pg_m : field_get (dd_mult_mask dd) (regval w (dd_mult_div1_reg dd)) = m;
  pg_frac : field_get (dd_frac_mult_mask dd) (regval w (dd_frac_mult_reg dd)) = frac;
  pg_n : field_get (dd_div_n_mask dd) (regval w (dd_div_m2n_reg dd)) = n;
  pg_m2 : field_get (dd_div_m2_mask dd) (regval w (dd_div_m2n_reg dd)) = m2
}.

Definition ctrl_bit (dd : dpll_data) (j : Z) (w : world) : bool :=
  Z.testbit (regval w (dd_control_reg dd)) j.

(** Whatever leaves the divider registers alone keeps the programming. *)
Lemma programmed_frame dd m frac n m2 w w' :
  regval w' (dd_mult_div1_reg dd) = regval w (dd_mult_div1_reg dd) ->
  regval w' (dd_frac_mult_reg dd) = regval w (dd_frac_mult_reg dd) ->
  regval w' (dd_div_m2n_reg dd) = regval w (dd_div_m2n_reg dd) ->
  programmed dd m frac n m2 w -> programmed dd m frac n m2 w'.
Proof. intros E1 E2 E3 []. split; by rewrite ?E1, ?E2, ?E3. Qed.

(** The sigma-delta divider, in range or left at 0. *)
Lemma lookup_sddiv_wp c k p pk m n w :
  w_clks w !! c = Some k -> ck_parent k = Some p -> w_clks w !! p = Some pk -> 0 < n ->
  wp (_lookup_sddiv c 0 m n) (fun sd w' => w' = w /\ 0 <= sd <= 255) w.
Proof.
  intros Hc Hp Hpk Hn. unfold _lookup_sddiv. wp_step. rewrite Hp. do 2 wp_step.
  apply wp_modu; [lia|]. wp_pure. apply wp_divu; [lia|]. wp_pure. split; [done|].
  match goal with |- context [TI814X_ADPLLJ_MIN_SD_DIV <=? ?x] => set (sd := x) end.
  destruct ((TI814X_ADPLLJ_MIN_SD_DIV <=? sd) && (sd <=? TI814X_ADPLLJ_MAX_SD_DIV)) eqn:E; [|lia].
  bool_to_prop. unfold TI814X_ADPLLJ_MIN_SD_DIV, TI814X_ADPLLJ_MAX_SD_DIV in *. lia.
Qed.

Lemma pulse_bit_wp i a w :
  0 <= i < 32 ->
  wp (pulse_bit i a)
     (fun _ w' => io_only w w' /\ forall b, plain_reg b -> b <> a -> regval w' b = regval w b) w.
Proof.
  intros Hi. unfold pulse_bit. wp_pure. eapply wp_mono; [apply set_bits_wp, lsl_uint|].
  cbn beta. intros _ w1 [Hio1 _ Ho1]. wp_step.
  eapply wp_mono; [apply clear_bits_wp|]. cbn beta. intros _ w2 [Hio2 _ Ho2]. split.
  - etrans; [exact Hio1|]. etrans; [|exact Hio2]. by eexists.
  - intros b Hb Hne. rewrite Ho2, plain_delay by done. by apply Ho1.
Qed.

(** The writes of one step leave the other registers of the DPLL alone. *)
Record dpll_cells (dd : dpll_data) : Prop := {
  ce_cm : dd_control_reg dd <> dd_mult_div1_reg dd;
  ce_cf : dd_control_reg dd <> dd_frac_mult_reg dd;
  ce_cd : dd_control_reg dd <> dd_div_m2n_reg dd;
  ce_mf : dd_mult_div1_reg dd <> dd_frac_mult_reg dd;
  ce_md : dd_mult_div1_reg dd <> dd_div_m2n_reg dd;
  ce_fd : dd_frac_mult_reg dd <> dd_div_m2n_reg dd
}.

Lemma regs_cells dd : dpll_regs_ok dd -> dpll_cells dd.
Proof.
  intros [_ Hd _ _ _ _ _]. rewrite !NoDup_cons, !not_elem_of_cons in Hd.
  destruct Hd as ((?&?&?&_)&(?&?&_)&(?&_)&_). by split.
Qed.

(** What the steps of the programming keep: the dividers in full, and the bits [j] of
    the control register that are not LDO enables or DCO selection. *)
Definition keeps_ctrl (dd : dpll_data) (w w' : world) : Prop :=
  io_only w w' /\
  forall j, 0 <= j -> j ∉ [19; 29] -> Z.testbit (dd_dco_mask dd) j = false ->
    ctrl_bit dd j w' = ctrl_bit dd j w.

Lemma keeps_ctrl_other dd a v w w' :
  plain_reg (dd_control_reg dd) -> a <> dd_control_reg dd -> wrote a v w w' ->
  keeps_ctrl dd w w'.
Proof.
  intros Hp Hne [Hio _ Ho]. split; [done|]. intros j _ _ _. unfold ctrl_bit. by rewrite Ho.
Qed.

Instance keeps_ctrl_trans dd : Transitive (keeps_ctrl dd).
Proof.
  intros w1 w2 w3 [H1 K1] [H2 K2]. split; [by etrans|]. intros j Hj Hn Hm. by rewrite K2, K1.
Qed.

(** The three divider registers. *)
Lemma program_fields_wp dd m frac n m2 dco w :
  dpll_regs_ok dd -> dpll_vals_ok dd m frac n m2 dco ->
  wp (program_fields dd m frac n m2)
     (fun _ w' => keeps_ctrl dd w w' /\ programmed dd m frac n m2 w') w.
Proof.
  intros Hok [Hm Hf Hn _ Hm2 _]. pose proof (regs_cells dd Hok) as [].
  destruct Hok as [[P1 P2 P3 P4] _ _ _ Hd _ _]. unfold program_fields. wp_pure.
  eapply wp_mono; [apply set_field_wp|]. cbn beta. intros _ w1 W1. wp_pure.
  eapply wp_mono; [apply set_field_wp|]. cbn beta. intros _ w2 W2.
  eapply wp_mono; [apply (read_write_wp (dd_div_m2n_reg dd) (fun v =>
    Z.lor (Z.lor (Z.land v (Z.lnot (Z.lor (dd_div_m2_mask dd) (dd_div_n_mask dd))))
      (lsl m2 (__ffs (dd_div_m2_mask dd)))) (lsl n (__ffs (dd_div_n_mask dd)))))|].
  { intros x Hx. by rewrite two_fields; [apply field_set_uint, field_set_uint|..]. }
  cbn beta. rewrite two_fields by done. intros _ w3 W3. split.
  - etrans; [by eapply keeps_ctrl_other; [| |exact W1]|].
    etrans; [by eapply keeps_ctrl_other; [| |exact W2]|].
    by eapply keeps_ctrl_other; [| |exact W3].
  - destruct W1 as [_ V1 O1], W2 as [_ V2 O2], W3 as [_ V3 O3]. split.
    + rewrite O3, O2, V1 by done. by apply field_get_set.
    + rewrite O3, V2 by done. by apply field_get_set.
    + rewrite V3 by done. by apply field_get_set.
    + rewrite V3 by done. rewrite field_get_set_other by (done || by rewrite Z.land_comm).
      by apply field_get_set.
Qed.

(** The sigma-delta divider shares the register of the fraction. *)
Lemma program_sddiv_wp c k p pk dd m frac n m2 w :
  dpll_regs_ok dd -> w_clks w !! c = Some k -> ck_parent k = Some p -> w_clks w !! p = Some pk ->
  0 <= n < 255 -> programmed dd m frac n m2 w ->
  wp (program_sddiv c dd m n)
     (fun _ w' => keeps_ctrl dd w w' /\ programmed dd m frac n m2 w') w.
Proof.
  intros Hok Hc Hp Hpk Hn Hpg. pose proof (regs_cells dd Hok) as [].
  destruct Hok as [[P1 P2 P3 P4] _ _ _ _ Hsd _]. unfold program_sddiv, when.
  destruct (Z.eqb_spec (dd_sddiv_mask dd) 0) as [E|Hne]; cbn [negb]; wp_pure.
  { split; [|done]. by split. }
  destruct (Hsd Hne) as [Hdis Hfit].
  rewrite (wrapu_small 8) by (split; lia).
  eapply wp_mono; [eapply lookup_sddiv_wp; [done | done | done | lia]|]. cbn beta.
  intros sd w' [-> Hr]. eapply wp_mono; [apply set_field_wp|]. cbn beta. intros _ w1 W1.
  split; [by eapply keeps_ctrl_other; [| |exact W1]|]. destruct W1 as [_ V1 O1], Hpg.
  split; try (by rewrite O1). rewrite V1 by done. by rewrite field_get_set_other by auto.
Qed.

(** Loading the dividers and switching the LDOs on. *)
Lemma program_load_wp dd m frac n m2 dco w :
  dpll_regs_ok dd -> dpll_vals_ok dd m frac n m2 dco -> programmed dd m frac n m2 w ->
  wp (program_load dd dco)
     (fun _ w' => keeps_ctrl dd w w' /\ programmed dd m frac n m2 w') w.
Proof.
  intros Hok Hva Hpg. pose proof (regs_cells dd Hok) as [].
  destruct Hok as [[P1 P2 P3 P4] _ L1 L2 _ _ _]. destruct Hva as [_ _ _ _ _ Hdco].
  rewrite !not_elem_of_cons in L1, L2. destruct L1 as (?&?&?&?&_), L2 as (?&?&?&?&_).
  unfold program_load. wp_pure.
  apply (wp_mono _ (fun _ w' => keeps_ctrl dd w w' /\ programmed dd m frac n m2 w')).
  { unfold when. case_bool; wp_pure; [|by split; [split|]].
    eapply wp_mono; [apply set_field_wp|]. cbn beta. intros _ w1 [Hio V O].
    split; [|eapply programmed_frame; [..|exact Hpg]; by apply O].
    split; [done|]. intros j Hj _ Hm. unfold ctrl_bit. rewrite V by done.
    by apply field_set_bit. }
  cbn beta. intros _ w1 [K1 G1]. wp_pure.
  eapply wp_mono; [by apply pulse_bit_wp|]. cbn beta. intros _ w2 [Hio2 O2]. wp_pure.
  eapply wp_mono; [by apply pulse_bit_wp|]. cbn beta. intros _ w3 [Hio3 O3]. wp_pure.
  eapply wp_mono; [apply set_bits_wp, lsl_uint|]. cbn beta. intros _ w4 [Hio4 V4 O4].
  eapply wp_mono; [apply set_bits_wp, lsl_uint|]. cbn beta. intros _ w5 [Hio5 V5 O5]. split.
  - etrans; [exact K1|]. split; [by do 3 (etrans; [eassumption|])|].
    intros j Hj Hn _. rewrite !not_elem_of_cons in Hn. destruct Hn as (?&?&_).
    unfold ctrl_bit. rewrite V5, V4, O3, O2 by done.
    rewrite !set_bit_other by (done || (intros E; subst j; done)). done.
  - eapply programmed_frame; [..|exact G1]; by rewrite O5, O4, O3, O2 by done.
Qed.

(** The three steps together. *)
Lemma program_steps_wp c k p pk dd m frac n m2 dco w :
  w_clks w !! c = Some k -> ck_parent k = Some p -> w_clks w !! p = Some pk ->
  dpll_regs_ok dd -> dpll_vals_ok dd m frac n m2 dco ->
  wp (program_steps c dd m frac n m2 dco)
     (fun _ w' => keeps_ctrl dd w w' /\ programmed dd m frac n m2 w') w.
Proof.
  intros Hc Hp Hpk Hok Hva. unfold program_steps. wp_pure.
  eapply wp_mono; [by eapply program_fields_wp|]. cbn beta. intros _ w1 [K1 G1]. wp_pure.
  pose proof (proj1 K1) as [h1 ->].
  eapply wp_mono; [eapply program_sddiv_wp;
    [done | exact Hc | exact Hp | exact Hpk | exact (va_n8 _ _ _ _ _ _ Hva) | done]|]. cbn beta. intros _ w2 [K2 G2].
  eapply wp_mono; [by eapply program_load_wp|]. cbn beta. intros _ w3 [K3 G3].
  split; [|done]. by etrans; [|etrans].
Qed.

(** The DPLL is out of lock when one of two bits of the control register is set. *)
Lemma out_of_lock_bits dd w : dpll_regs_ok dd ->
  out_of_lock dd (regval w (dd_control_reg dd)) =
    ctrl_bit dd (dd_bypass_bit dd) w || ctrl_bit dd (dd_stby_ret_bit dd) w.
Proof.
  intros Hok. destruct (ok_bits dd Hok) as (R1 & R2 & _). unfold out_of_lock, ctrl_bit. rewrite !lsl_1 by done.
  rewrite <- Z.land_lor_distr_r.
  set (x := regval w (dd_control_reg dd)). set (i := dd_bypass_bit dd) in *. set (j := dd_stby_ret_bit dd) in *.
  destruct (Z.testbit x i) eqn:Ei; [|destruct (Z.testbit x j) eqn:Ej]; cbn [orb].
  - apply negb_true_iff, Z.eqb_neq. intros E. apply (f_equal (fun z => Z.testbit z i)) in E.
    rewrite Z.land_spec, Z.lor_spec, Z.pow2_bits_true, Ei, Z.bits_0 in E by lia. done.
  - apply negb_true_iff, Z.eqb_neq. intros E. apply (f_equal (fun z => Z.testbit z j)) in E.
    rewrite Z.land_spec, Z.lor_spec, (Z.pow2_bits_true j), orb_true_r, Ej, Z.bits_0 in E by lia. done.
  - apply negb_false_iff, Z.eqb_eq. rewrite Z.land_lor_distr_r.
    assert (forall k, 0 <= k -> Z.testbit x k = false -> Z.land x (2 ^ k) = 0) as H0.
    { intros k Hk Hb. apply Z.eqb_eq. by rewrite land_pow2_test, Hb. }
    by rewrite !H0 by (done || lia).
Qed.

(** The DPLL runs at the programmed rate if the control register selects neither bypass
    nor retention, and at that of the bypass clock otherwise. *)
Lemma programmed_rate c k d dd bk rk m frac n m2 w :
  dpll_clk c k d dd w -> w_clks w !! dd_clk_bypass dd = Some bk ->
  w_clks w !! dd_clk_ref dd = Some rk -> dpll_regs_ok dd -> programmed dd m frac n m2 w ->
  adpll_den n m2 <> 0 ->
  wp (ti814x_get_dpll_rate c)
     (fun r w' => r = (if ctrl_bit dd (dd_bypass_bit dd) w || ctrl_bit dd (dd_stby_ret_bit dd) w then ck_rate bk
                       else adpll_rate (ck_rate rk) m frac n m2) /\ io_reads w w') w.
Proof.
  intros Hcc Hb Hr Hok [Gm Gf Gn Gm2] Hden.
  eapply wp_mono; [eapply get_dpll_rate_val; [done | done | done | apply Hok |]|].
  - intros _. unfold reg_den. by rewrite Gn, Gm2.
  - cbn beta. intros r w' [-> Hio]. split; [|done]. unfold reg_rate. by rewrite out_of_lock_bits, Gm, Gf, Gn, Gm2.
Qed.

Lemma enter_bypass_wp c k d dd w :
  dpll_clk c k d dd w -> dpll_regs_ok dd ->
  wp (r ← _ti814x_dpll_bypass c;
      if negb (r =? 0) then ret (- EBUSY)
      else _ti814x_dpll_init_config_sequence c;; ret 0)
     (fun r w' => io_only w w' /\ (r = 0 \/ r = - EBUSY) /\
        (forall j, 0 <= j -> j <> 0 -> j <> dd_bypass_bit dd -> ctrl_bit dd j w' = ctrl_bit dd j w) /\
        forall m frac n m2, programmed dd m frac n m2 w -> programmed dd m frac n m2 w') w.
Proof.
  intros Hcc Hok. pose proof (regs_cells dd Hok) as [].
  destruct Hok as [[P1 P2 P3 P4] _ _ _ _ _ (R1 & R2 & _)].
  unfold _ti814x_dpll_bypass, _ti814x_dpll_init_config_sequence. wp_pure.
  eapply clk_dpll_wp; [exact Hcc|]. case_bool; wp_pure.
  { cbn [Z.eqb negb EINVAL Z.opp]. wp_pure. split; [reflexivity|]. split; [by right|]. by split. }
  eapply wp_mono; [apply set_bits_wp, lsl_uint|]. cbn beta. intros _ w1 W1.
  eapply wp_mono; [eapply wait_status_wp, dpll_clk_io; [apply W1 | exact Hcc]|]. cbn beta zeta.
  intros r w2 [Hio2 Hr]. destruct W1 as [Hio1 V1 O1].
  assert (io_only w w2) as Hio by (etrans; [done | by apply io_reads_only]).
  assert (forall j, 0 <= j -> j <> dd_bypass_bit dd -> ctrl_bit dd j w2 = ctrl_bit dd j w) as Hk2.
  { intros j Hj Hne. unfold ctrl_bit. rewrite (regval_reads _ _ _ Hio2) by done.
    rewrite V1 by done. by rewrite set_bit_other by auto. }
  assert (forall a, plain_reg a -> a <> dd_control_reg dd -> regval w2 a = regval w a) as Ho2.
  { intros a Ha Hne. rewrite (regval_reads _ _ _ Hio2) by done. by apply O1. }
  case_bool; wp_pure.
  { split; [done|]. split; [by right|]. split; [auto|].
    intros m frac n m2. apply programmed_frame; by apply Ho2. }
  eapply clk_dpll_wp; [by eapply dpll_clk_io|]. wp_pure.
  eapply wp_mono; [apply clear_bits_wp|]. cbn beta. intros _ w3 [Hio3 V3 O3]. wp_step.
  split; [etrans; [exact Hio|]; etrans; [exact Hio3|]; by eexists|]. split; [by left|]. split.
  - intros j Hj Hj0 Hne. unfold ctrl_bit. rewrite plain_delay, V3 by done.
    rewrite clear_bit_bit by done. rewrite (proj2 (Z.eqb_neq _ j)) by (unfold TI814X_ADPLL_TINITZ_SHIFT; lia).
    rewrite andb_true_r. by apply Hk2.
  - intros m frac n m2. apply programmed_frame; rewrite plain_delay, O3 by done; by apply Ho2.
Qed.

Lemma leave_bypass_wp c k d dd w :
  dpll_clk c k d dd w -> dpll_regs_ok dd ->
  wp (_ti814x_dpll_end_config_sequence c;; _ti814x_rel_dpll_bypass c;; ret tt)
     (fun _ w' => io_only w w' /\ ctrl_bit dd (dd_bypass_bit dd) w' = false /\
        (forall j, 0 <= j -> j <> 0 -> j <> dd_bypass_bit dd -> ctrl_bit dd j w' = ctrl_bit dd j w) /\
        forall m frac n m2, programmed dd m frac n m2 w -> programmed dd m frac n m2 w') w.
Proof.
  intros Hcc Hok. pose proof (regs_cells dd Hok) as [].
  destruct Hok as [[P1 P2 P3 P4] _ _ _ _ _ (R1 & R2 & _)].
  unfold _ti814x_dpll_end_config_sequence, _ti814x_rel_dpll_bypass. wp_pure.
  eapply clk_dpll_wp; [exact Hcc|]. wp_pure.
  eapply wp_mono; [apply set_bits_wp, lsl_uint|]. cbn beta. intros _ w1 [Hio1 V1 O1]. wp_step.
  set (w2 := set_w_trace _ w1).
  assert (io_only w w2) as Hio2 by (etrans; [exact Hio1 | by eexists]).
  eapply clk_dpll_wp; [by eapply dpll_clk_io|]. wp_pure.
  eapply wp_mono; [apply clear_bits_wp|]. cbn beta. intros _ w3 [Hio3 V3 O3]. wp_pure.
  split; [by etrans|]. unfold ctrl_bit. rewrite V3 by done. split_and!.
  - by rewrite clear_bit_bit, Z.eqb_refl, andb_false_r by lia.
  - intros j Hj Hj0 Hb. rewrite clear_bit_bit by done. unfold w2. rewrite plain_delay, V1 by done.
    unfold TI814X_ADPLL_TINITZ_SHIFT. rewrite set_bit_other by lia.
    rewrite (proj2 (Z.eqb_neq _ j)) by (by apply not_eq_sym). by rewrite andb_true_r.
  - intros m frac n m2. apply programmed_frame; unfold w2 in O3; rewrite O3, plain_delay by done; by apply O1.
Qed.
End Program.

