(* ===== verification/Clkdev.v ===== *)
(** * Looking clocks up by device and connection

    arch/arm/common/clkdev.c.  [__clk_get] and [__clk_put] of plat-omap do nothing and
    succeed; the mutex makes each function one step. *)

From S2P Require Import Prelude Platform.

(** [!id || strcmp(p->id, id)], negated. *)
Definition same_id (p id : option string) : bool :=
  match p, id with
  | Some a, Some b => String.eqb a b
  | _, _ => false
  end.

(** The body of the loop up to the comparison with [best]: [None] where it says
    [continue]. *)
Definition lookup_match (dev_id con_id : option string) (p : clk_lookup) : option Z :=
  match
    match cl_dev_id p with
    | None => Some 0
    | Some _ => if same_id (cl_dev_id p) dev_id then Some 2 else None
    end
  with
  | None => None
  | Some m =>
      match cl_con_id p with
      | None => Some m
      | Some _ => if same_id (cl_con_id p) con_id then Some (m + 1) else None
      end
  end.

Fixpoint clk_find_loop (dev_id con_id : option string) (l : list clk_lookup)
    (clk : option string) (best : Z) : option string :=
  match l with
  | [] => clk
  | p :: l' =>
      match lookup_match dev_id con_id p with
      | None => clk_find_loop dev_id con_id l' clk best
      | Some m =>
          if best <? m then
            if negb (m =? 3) then clk_find_loop dev_id con_id l' (Some (cl_clk p)) m
            else Some (cl_clk p)
          else clk_find_loop dev_id con_id l' clk best
      end
  end.

Definition clk_find (dev_id con_id : option string) : M world (option string) :=
  l ← gets (fun w => w_clkdevs w);
  ret (clk_find_loop dev_id con_id l None 0).

(** [None] is ERR_PTR(-ENOENT). *)
Definition clk_get_sys (dev_id con_id : option string) : M world (option string) :=
  clk_find dev_id con_id.

(** [dev] is the name of the device. *)
Definition clk_get (dev con_id : option string) : M world (option string) :=
  clk_get_sys dev con_id.

Definition clkdev_add (cl : clk_lookup) : M world unit :=
  modify (fun w => set_w_clkdevs (w_clkdevs w ++ [cl]) w).

Definition clkdev_add_table (cl : list clk_lookup) : M world unit := for_each cl clkdev_add.

Definition MAX_DEV_ID : nat := 20.
Definition MAX_CON_ID : nat := 16.

(** [mem] is what [kzalloc] returns; [dev] the device name the format produces.  Both
    strings are cut to their buffers. *)
Definition clkdev_alloc (mem : option Z) (clk : string) (con_id dev : option string)
    : option clk_lookup :=
  match mem with
  | None => None
  | Some ptr =>
      Some (mkLookup ptr
              ((fun s => String.substring 0 (MAX_DEV_ID - 1) s) <$> dev)
              ((fun s => String.substring 0 (MAX_CON_ID - 1) s) <$> con_id) clk)
  end.

Definition clk_add_alias (mem : option Z) (alias alias_dev_name : option string)
    (id dev : option string) : M world Z :=
  r ← clk_get dev id;
  match r with
  | None => ret (- ENOENT)
  | Some c =>
      match clkdev_alloc mem c alias alias_dev_name with
      | None => ret (- ENODEV)
      | Some l => clkdev_add l;; ret 0
      end
  end.

Definition clkdev_drop (ptr : Z) : M world unit :=
  modify (fun w => set_w_clkdevs (filter (fun p => cl_ptr p <> ptr) (w_clkdevs w)) w).

(** ** Theorems *)

(** An entry that names no id accepts every request; one that names an id only a request
    for that very id. *)
Definition accepts (named wanted : option string) : Prop := named = None \/ named = wanted.

#[global] Instance accepts_dec named wanted : Decision (accepts named wanted).
Proof. unfold accepts. apply _. Defined.

(** How specific an entry is to a request: 2 when it names the device of the request, 1 more
    when it names the connection; an entry that names another device or another connection,
    or neither, counts 0. *)
Definition specificity (dev_id con_id : option string) (p : clk_lookup) : Z :=
  if decide (accepts (cl_dev_id p) dev_id /\ accepts (cl_con_id p) con_id) then
    (if decide (is_Some (cl_dev_id p)) then 2 else 0) +
    (if decide (is_Some (cl_con_id p)) then 1 else 0)
  else 0.

(** [strcmp] against a request that may be NULL finds exactly the equal ids. *)
Lemma same_id_spec a id : same_id (Some a) id = bool_decide (Some a = id).
Proof.
  destruct id as [b|]; cbn; [|by rewrite bool_decide_eq_false_2].
  destruct (String.eqb_spec a b) as [->|Hne]; [by rewrite bool_decide_eq_true_2|].
  rewrite bool_decide_eq_false_2; [done | congruence].
Qed.

(** The code's weights are the specificity. *)
Lemma lookup_match_spec dev con p :
  match lookup_match dev con p with Some m => m | None => 0 end = specificity dev con p.
Proof.
  unfold lookup_match, specificity, accepts. destruct (cl_dev_id p) as [d|], (cl_con_id p) as [c|];
    rewrite ?same_id_spec; repeat case_bool_decide; repeat case_decide;
    repeat match goal with
    | H : _ /\ _ |- _ => destruct H
    | H : is_Some None |- _ => destruct H as [? [=]]
    | H : ~ is_Some (Some _) |- _ => by destruct H
    end; naive_solver.
Qed.

Lemma specificity_range dev con p : 0 <= specificity dev con p <= 3.
Proof. unfold specificity. repeat case_decide; lia. Qed.

(** The first entry of a list with the greatest specificity above [best]. *)
Definition best_entry (dev con : option string) (l : list clk_lookup) (best : Z)
    (p : clk_lookup) : Prop :=
  exists l1 l2, l = l1 ++ p :: l2 /\ best < specificity dev con p /\
    (forall q, q ∈ l1 -> specificity dev con q < specificity dev con p) /\
    (forall q, q ∈ l2 -> specificity dev con q <= specificity dev con p).

Lemma best_entry_cons dev con l best q p :
  specificity dev con q <= best -> best_entry dev con l best p -> best_entry dev con (q :: l) best p.
Proof.
  intros Hq (l1 & l2 & -> & Hb & H1 & H2). exists (q :: l1), l2. split_and!; try done.
  intros r [->|Hr]%elem_of_cons; [lia | auto].
Qed.

Lemma clk_find_loop_spec dev con l clk best :
  0 <= best ->
  (exists p, best_entry dev con l best p /\ clk_find_loop dev con l clk best = Some (cl_clk p)) \/
  ((forall q, q ∈ l -> specificity dev con q <= best) /\ clk_find_loop dev con l clk best = clk).
Proof.
  revert clk best. induction l as [|p l IH]; intros clk best Hb; cbn [clk_find_loop].
  { right. split; [|done]. intros q Hq. by apply elem_of_nil in Hq. }
  pose proof (specificity_range dev con p) as Hr.
  pose proof (lookup_match_spec dev con p) as Es. symmetry in Es.
  destruct (lookup_match dev con p) as [m|].
  2: { destruct (IH clk best Hb) as [(q & Hq & ->)|[Hall ->]]; [left | right].
       - exists q. split; [|done]. apply best_entry_cons; [lia | done].
       - split; [|done]. intros q [->|Hq]%elem_of_cons; [lia | auto]. }
  destruct (Z.ltb_spec best m) as [Hlt|Hge].
  - destruct (Z.eqb_spec m 3) as [->|Hne]; cbn [negb].
    + left. exists p. split; [|done]. exists [], l. split_and!; [done | lia | |].
      * intros q Hq. by apply elem_of_nil in Hq.
      * intros q _. pose proof (specificity_range dev con q). lia.
    + destruct (IH (Some (cl_clk p)) m ltac:(lia)) as [(q & (l1 & l2 & -> & Hq & H1 & H2) & ->)|[Hall ->]];
        left; [exists q | exists p]; (split; [|done]).
      * exists (p :: l1), l2. split_and!; try done; [lia|]. intros r [->|Hr']%elem_of_cons; [lia | auto].
      * exists [], l. split_and!; [done | lia | intros q Hq; by apply elem_of_nil in Hq |].
        intros q Hq. rewrite Es. by apply Hall.
  - destruct (IH clk best Hb) as [(q & Hq & ->)|[Hall ->]]; [left | right].
    + exists q. split; [|done]. apply best_entry_cons; [lia | done].
    + split; [|done]. intros q [->|Hq]%elem_of_cons; [lia | auto].
Qed.

(** C15: looking a clock up gives the most specific entry: a match of device and
    connection wins over the device alone, that over the connection alone, and among
    equals the entry added first; an entry that names another device or connection than
    the request never comes back, nor does one that names neither; ERR_PTR(-ENOENT) comes
    back exactly when every entry is of these two kinds.  The table is not changed. *)
Theorem clk_get_most_specific dev con w :
  wp (clk_get dev con)
     (fun r w' => w' = w /\
        match r with
        | Some c => exists p, best_entry dev con (w_clkdevs w) 0 p /\ c = cl_clk p
        | None => forall q, q ∈ w_clkdevs w -> specificity dev con q = 0
        end) w.
Proof.
  unfold clk_get, clk_get_sys, clk_find. wp_pure. split; [done|].
  destruct (clk_find_loop_spec dev con (w_clkdevs w) None 0 ltac:(lia))
    as [(p & Hp & ->)|[Hall ->]]; [by exists p|].
  intros q Hq. specialize (Hall q Hq). pose proof (specificity_range dev con q). lia.
Qed.
