(* ===== verification/ClkRate.v ===== *)
(** * Rates and parents of the DM8148 clocks

    The rest of mach-omap2/clock.c and of clkt_clksel.c, and the place where the
    interfaces meet: the function pointers of the clock tables are resolved to the
    functions of [Clksel], [ClkEnable] and [Adpll], and the laws the framework and the
    reference counting rely on are proved for them.

    [fuel] bounds the depth of the clock tree, [depth] the chain of [set_rate] calls
    (a [ti814x_clksel_set_rate] clock calls the [set_rate] of a clock above it). *)

From S2P Require Import Prelude Platform Prcm Powerdomain Clockdomain ClkCore.
From S2P Require Import Clksel ClkEnable Adpll Clkdev.

Definition TI814X_ARM_DPLL_ID : Z := 1.
Definition TI814X_DDR_DPLL_ID : Z := 2.

(** ** Resolving the function pointers *)

Section Dispatch.
  Context `{SOC : Soc} `{HW : Hardware}.

#[export] Instance dm8148_recalc : RecalcOps := fun f clk =>
  match f with
  | followparent_recalc_fn => followparent_recalc clk
  | omap_fixed_divisor_recalc_fn => omap_fixed_divisor_recalc clk
  | omap2_clksel_recalc_fn => omap2_clksel_recalc clk
  | ti814x_dpll_recalc_fn => ti814x_dpll_recalc clk
  | ti814x_dpll_dco_recalc_fn => ti814x_dpll_dco_recalc clk
  end.

#[export] Instance dm8148_init : InitOps := fun f clk =>
  match f with
  | omap2_init_clksel_parent_fn => omap2_init_clksel_parent clk
  | ti814x_init_dpll_parent_fn => ti814x_init_dpll_parent clk
  end.

(** The [clkops] objects of clock.c and clock81xx.c. *)
Definition clkops_enable (o : clkops) (clk : string) : M world Z :=
  match o with
  | clkops_null => clkll_enable_null clk
  | clkops_omap2_dflt => omap2_dflt_clk_enable clk
  | clkops_ti81xx_dflt_wait => ti81xx_dflt_wait_clk_enable clk
  | clkops_ti81xx_pcie => ti81xx_pcie_clk_enable clk
  | clkops_ti81xx_usb => ti81xx_usb_clk_enable clk
  | clkops_ti814x_dpll_ops => ti814x_dpll_enable clk
  end.

Definition clkops_disable (o : clkops) (clk : string) : M world unit :=
  match o with
  | clkops_null => clkll_disable_null clk
  | clkops_omap2_dflt => omap2_dflt_clk_disable clk
  | clkops_ti81xx_dflt_wait => omap2_dflt_clk_disable clk
  | clkops_ti81xx_pcie => ti81xx_pcie_clk_disable clk
  | clkops_ti81xx_usb => ti81xx_usb_clk_disable clk
  | clkops_ti814x_dpll_ops => ti814x_dpll_disable clk
  end.

#[export] Instance dm8148_clkops : ClkOps := {|
  ops_enable := clkops_enable;
  ops_disable := clkops_disable
|}.

(** ** Rates and parents (clock.c, clkt_clksel.c) *)

Context (arch : option pwrdm_ops).

Definition round_rate_call (f : round_rate_fn) (clk : string) (rate : Z) : M world Z :=
  match f with
  | omap2_clksel_round_rate_fn => omap2_clksel_round_rate clk rate
  | ti814x_dpll_round_rate_fn => ti814x_dpll_round_rate (Some clk) rate
  end.

Definition omap2_clk_round_rate (clk : string) (rate : Z) : M world Z :=
  k ← get_clk clk;
  match ck_round_rate k with
  | Some f => round_rate_call f clk rate
  | None => ret (s32 (ck_rate k))
  end.

(** [set_rate] is the call of a [set_rate] pointer; the result is the return value and
    what is left in [*dpll_setrate]. *)
Definition _ti814x_adpll_check_and_set_rate
    (set_rate : set_rate_fn -> string -> Z -> M world Z) (fuel : nat) (clk : string) (rate : Z)
    : M world (Z * bool) :=
  k ← get_clk clk;
  dclk ← deref (ck_parent k);
  dk ← get_clk dclk;
  match ck_dpll_data dk with
  | Some d =>
      dd ← get_dpll d;
      if (dd_dpll_id dd =? TI814X_ARM_DPLL_ID) || (dd_dpll_id dd =? TI814X_DDR_DPLL_ID)
      then ret (- EINVAL, false)
      else ret (0, true)
  | None =>
      match ck_set_rate dk with
      | None => ret (0, false)
      | Some f =>
          if 1 <? ck_usecount dk then ret (- EBUSY, false) else
          r ← set_rate f dclk rate;
          if negb (r =? 0) then ret (r, false) else
          dk ← get_clk dclk;
          r ← omap2_clksel_set_rate clk (ck_rate dk);
          if negb (r =? 0) then ret (r, false) else
          propagate_rate fuel dclk;;
          ret (0, false)
      end
  end.

(** From [if (dpll_setrate)] to the end; [pclk] and [dclk] are the variables of the
    function. *)
Definition dpll_set_and_reset_divider
    (set_rate : set_rate_fn -> string -> Z -> M world Z) (fuel : nat) (pclk dclk : string)
    (rate : Z) : M world Z :=
  dk ← get_clk dclk;
  if 1 <? ck_usecount dk then ret (- EBUSY) else
  f ← deref (ck_set_rate dk);
  r ← set_rate f dclk rate;
  if negb (r =? 0) then ret (- EINVAL) else
  dk ← get_clk dclk;
  r ← omap2_clksel_set_rate pclk (ck_rate dk);
  if negb (r =? 0) then ret (- EINVAL) else
  propagate_rate fuel dclk;;
  ret 0.

Definition ti814x_clksel_set_rate
    (set_rate : set_rate_fn -> string -> Z -> M world Z) (fuel : nat) (clk : string) (rate : Z)
    : M world Z :=
  k ← get_clk clk;
  if ck_usecount k =? 0 then ret (- EINVAL) else
  if 1 <? ck_usecount k then ret (- EBUSY) else
  pclk ← deref (ck_parent k);
  pk ← get_clk pclk;
  if 1 <? ck_usecount pk then ret (- EBUSY) else
  f ← deref (ck_set_rate pk);
  r ← set_rate f pclk rate;
  if r =? 0 then propagate_rate fuel pclk;; ret 0 else
  '(r, dpll_setrate) ← _ti814x_adpll_check_and_set_rate set_rate fuel pclk rate;
  if negb (r =? 0) && dpll_setrate then ret r else
  if r =? 0 then
    if dpll_setrate then
      dclk ← deref (ck_parent pk);
      dpll_set_and_reset_divider set_rate fuel pclk dclk rate
    else ret 0
  else
    dclk ← deref (ck_parent pk);
    dk ← get_clk dclk;
    '(r, dpll_setrate) ← _ti814x_adpll_check_and_set_rate set_rate fuel dclk rate;
    if negb (r =? 0) && dpll_setrate then ret r else
    if dpll_setrate then
      ddclk ← deref (ck_parent dk);
      dpll_set_and_reset_divider set_rate fuel dclk ddclk rate
    else ret 0.

(** [clk->set_rate(clk, rate)] *)
Fixpoint set_rate_call (depth fuel : nat) (f : set_rate_fn) (clk : string) (rate : Z) : M world Z :=
  match depth with
  | O => fail NoFuel
  | S depth' =>
      match f with
      | omap2_clksel_set_rate_fn => omap2_clksel_set_rate clk rate
      | ti814x_clksel_set_rate_fn => ti814x_clksel_set_rate (set_rate_call depth' fuel) fuel clk rate
      | ti814x_dpll_set_rate_fn => ti814x_dpll_set_rate arch fuel (Some clk) rate
      end
  end.

Definition omap2_clk_set_rate (depth fuel : nat) (clk : string) (rate : Z) : M world Z :=
  k ← get_clk clk;
  match ck_set_rate k with
  | Some f => set_rate_call depth fuel f clk rate
  | None => ret (- EINVAL)
  end.

Definition omap2_clk_set_parent (clk new_parent : string) : M world Z :=
  k ← get_clk clk;
  match ck_clksel k with
  | None => ret (- EINVAL)
  | Some _ =>
      if decide (ck_parent k = Some new_parent) then ret 0
      else omap2_clksel_set_parent clk new_parent
  end.

Definition omap2_clk_functions (depth fuel : nat) : clk_functions := {|
  cf_enable := Some (omap2_clk_enable arch fuel);
  cf_disable := Some (omap2_clk_disable arch fuel);
  cf_round_rate := Some omap2_clk_round_rate;
  cf_set_rate := Some (omap2_clk_set_rate depth fuel);
  cf_set_parent := Some omap2_clk_set_parent
|}.

(** [calibrate_delay] and [clk_put] have no effect on this state. *)
Definition omap2_clk_switch_mpurate_at_boot (depth fuel : nat) (mpurate_ck_name : string)
    : M world Z :=
  mpurate ← gets (fun w => w_mpurate w);
  if mpurate =? 0 then ret (- EINVAL) else
  mpurate_ck ← clk_get None (Some mpurate_ck_name);
  match mpurate_ck with
  | None => ret (- ENOENT)
  | Some c =>
      r ← clk_set_rate (omap2_clk_functions depth fuel) fuel (Some c) (u32 mpurate);
      if (-4095 <=? r) && (r <? 0) then ret (- EINVAL) else
      recalculate_root_clocks fuel;;
      ret 0
  end.
End Dispatch.

(** ** The operations of the clocks respect the reference counting *)

Section OpsLaws.
  Context `{SOC : Soc} `{HW : Hardware}.

(** A DPLL can be enabled when its two source clocks exist and its registers never
    stand for a division by zero. *)
Definition dpll_ready (k : clk) (w : world) : Prop :=
  exists d dd, ck_dpll_data k = Some d /\ w_dplls w !! d = Some dd /\
    is_Some (w_clks w !! dd_clk_bypass dd) /\ is_Some (w_clks w !! dd_clk_ref dd) /\
    uint 32 (dd_enable_mask dd) /\
    forall h, reg_den dd (u32 (hw_read h (dd_div_m2n_reg dd))) <> 0.

Definition dm8148_ops_ready (c : string) (w : world) : Prop :=
  forall k, w_clks w !! c = Some k -> ck_ops k = clkops_ti814x_dpll_ops -> dpll_ready k w.

Lemma idle_dpll k k' : idle k' = idle k -> ck_dpll_data k' = ck_dpll_data k.
Proof. intros H. change (ck_dpll_data (idle k') = ck_dpll_data (idle k)). by rewrite H. Qed.

Lemma static_is_Some w w' c :
  same_static w w' -> is_Some (w_clks w !! c) -> is_Some (w_clks w' !! c).
Proof. intros Hss [k Hk]. destruct (static_lookup _ _ _ _ Hss Hk) as (k' & -> & _). eauto. Qed.

Lemma dm8148_ready_frame c w w' :
  same_static w w' -> dm8148_ops_ready c w -> dm8148_ops_ready c w'.
Proof.
  intros Hss H k' Hk' Ho. destruct (static_lookup_inv _ _ _ _ Hss Hk') as (k & Hk & Hi).
  rewrite (idle_ops _ _ Hi) in Ho. destruct (H k Hk Ho) as (d & dd & Hd & Hdd & Hb & Hr & Hm & Hden).
  exists d, dd. rewrite (idle_dpll _ _ Hi). split_and!; try done.
  - destruct (ss_rest _ _ Hss) as (cs & ds & ps & tr & ->). done.
  - by eapply static_is_Some.
  - by eapply static_is_Some.
Qed.

(** A run that only talks to the device also fits the interface. *)
Lemma io_fits_ops {A} (m : M world A) c k w :
  w_clks w !! c = Some k -> wp m (fun _ w' => io_only w w') w ->
  wp m (fun _ w' => exists r tr,
    w' = set_w_trace tr (set_w_clks (<[c := set_ck_rate r k]> (w_clks w)) w)) w.
Proof.
  intros Hk H. eapply wp_mono; [exact H|]. cbn beta. intros _ w' [h ->].
  exists (ck_rate k), h.
  assert (<[c := set_ck_rate (ck_rate k) k]> (w_clks w) = w_clks w) as ->; [|done].
  apply insert_id. rewrite Hk. done.
Qed.

Lemma dflt_enable_io c k w :
  w_clks w !! c = Some k -> wp (omap2_dflt_clk_enable c) (fun _ w' => io_only w w') w.
Proof.
  intros Hk. unfold omap2_dflt_clk_enable. wp_step. case_bool; wp_pure; [reflexivity|].
  do 3 wp_step. by eexists.
Qed.

Lemma dflt_disable_io c k w :
  w_clks w !! c = Some k -> wp (omap2_dflt_clk_disable c) (fun _ w' => io_only w w') w.
Proof.
  intros Hk. unfold omap2_dflt_clk_disable. wp_step. case_bool; wp_pure; [reflexivity|].
  do 2 wp_step. by eexists.
Qed.

(** [omap2_prm_set_mod_reg_bits] and [omap2_prm_clear_mod_reg_bits]. *)
Lemma prm_rmw_io mask bits m i w :
  wp (omap2_prm_rmw_mod_reg_bits mask bits m i) (fun _ w' => io_only w w') w.
Proof.
  unfold omap2_prm_rmw_mod_reg_bits, omap2_prm_read_mod_reg, omap2_prm_write_mod_reg.
  do 2 wp_step. by eexists.
Qed.

Lemma idlest_io c k mask val w w1 :
  io_only w w1 -> w_clks w !! c = Some k ->
  wp (k ← get_clk c; omap2_cm_wait_idlest (ck_enable_reg k) mask val;; ret 0)
     (fun _ w' => io_only w w') w1.
Proof.
  intros [h ->] Hk. wp_step.
  eapply wp_mono; [apply omap2_cm_wait_idlest_spec|]. cbn beta zeta. intros _ w2 [_ Hio].
  wp_pure. etrans; [by eexists | by apply io_reads_only].
Qed.

Lemma clkops_enable_io o c k w :
  w_clks w !! c = Some k -> o <> clkops_ti814x_dpll_ops ->
  wp (clkops_enable o c) (fun _ w' => io_only w w') w.
Proof.
  intros Hk Ho. destruct o; try done; cbn [clkops_enable].
  - apply wp_ret. reflexivity.
  - by eapply dflt_enable_io.
  - unfold ti81xx_dflt_wait_clk_enable. apply wp_bind.
    eapply wp_mono; [by eapply dflt_enable_io|]. cbn beta. intros _ w1 Hio.
    by eapply idlest_io.
  - unfold ti81xx_pcie_clk_enable. apply wp_bind.
    eapply wp_mono; [by eapply dflt_enable_io|]. cbn beta. intros _ w1 Hio. apply wp_bind.
    eapply wp_mono; [apply prm_rmw_io|]. cbn beta. intros _ w2 Hio2.
    eapply idlest_io; [by etrans | done].
  - unfold ti81xx_usb_clk_enable. apply wp_bind.
    eapply wp_mono; [by eapply dflt_enable_io|]. cbn beta. intros _ w1 Hio. apply wp_bind.
    eapply wp_mono; [apply prm_rmw_io|]. cbn beta. intros _ w2 Hio2.
    eapply idlest_io; [by etrans | done].
Qed.

Lemma clkops_disable_io o c k w :
  w_clks w !! c = Some k -> o <> clkops_ti814x_dpll_ops ->
  wp (clkops_disable o c) (fun _ w' => io_only w w') w.
Proof.
  intros Hk Ho.
  assert (wp (omap2_prm_set_mod_reg_bits TI81XX_PCI_LRST_MASK TI81XX_PRM_DEFAULT_MOD
    TI81XX_RM_RSTCTRL;; omap2_dflt_clk_disable c) (fun _ w' => io_only w w') w /\
    wp (omap2_prm_set_mod_reg_bits (Z.lor TI81XX_USB1_LRST_MASK TI81XX_USB2_LRST_MASK)
      TI81XX_PRM_DEFAULT_MOD TI81XX_RM_RSTCTRL;; omap2_dflt_clk_disable c)
      (fun _ w' => io_only w w') w) as [Hpcie Husb].
  { split; (apply wp_bind; eapply wp_mono; [apply prm_rmw_io|]); cbn beta; intros _ w1 [h ->];
      (eapply wp_mono; [eapply dflt_disable_io; exact Hk|]); cbn beta; intros _ w2 Hio;
      (etrans; [by eexists | exact Hio]). }
  destruct o; try done; try (by eapply dflt_disable_io).
  apply wp_ret. reflexivity.
Qed.

#[export] Program Instance dm8148_ops_laws : ClkOpsLaws := {|
  ops_ready := dm8148_ops_ready;
  ops_ready_frame := dm8148_ready_frame
|}.
Next Obligation.
  intros c k w Hk Hr. change (ops_enable (ck_ops k) c) with (clkops_enable (ck_ops k) c).
  destruct (decide (ck_ops k = clkops_ti814x_dpll_ops)) as [E|Hne].
  - rewrite E. destruct (Hr k Hk E) as (d & dd & Hd & Hdd & [bk Hb] & [rk Hrk] & Hm & Hden).
    eapply wp_mono; [by eapply dpll_enable_io|]. cbn beta. tauto.
  - apply io_fits_ops; [done|]. by eapply clkops_enable_io.
Qed.
Next Obligation.
  intros c k w Hk Hr. change (ops_disable (ck_ops k) c) with (clkops_disable (ck_ops k) c).
  apply io_fits_ops; [done|]. destruct (decide (ck_ops k = clkops_ti814x_dpll_ops)) as [E|Hne].
  - rewrite E. destruct (Hr k Hk E) as (d & dd & Hd & Hdd & _). by eapply dpll_disable_io.
  - by eapply clkops_disable_io.
Qed.
End OpsLaws.

(** ** The recalculation functions respect the rate propagation *)

Section RecalcInstance.
  Context `{SOC : Soc} `{HW : Hardware}.

Definition prate (c : string) (w : world) : Z :=
  match parent_rate w c with Some r => r | None => 0 end.

(** The divisor the clksel field selects; 0 when there is none. *)
Definition clksel_div (k : clk) (w : world) : Z :=
  if no_clksel k then 0 else
  match ck_clksel k, ck_parent k with
  | Some l, Some p =>
      match List.find (fun s => bool_decide (Some (cs_parent s) = Some p)) l with
      | Some s =>
          match find_rate (w_cpu_mask w)
                  (fun r => cr_val r =? field_get (ck_clksel_mask k) (regval w (ck_clksel_reg k)))
                  (cs_rates s) with
          | Some r => cr_div r
          | None => 0
          end
      | None => 0
      end
  | _, _ => 0
  end.

(** The rate of a DPLL, from its registers and the rate of its source. *)
Definition dpll_val (k : clk) (src : Z) (w : world) : Z :=
  match ck_dpll_data k with
  | None => 0
  | Some d => match w_dplls w !! d with Some dd => reg_rate dd src src w | None => 0 end
  end.

Definition dco_val (k : clk) (src : Z) (w : world) : Z :=
  if omap_rev =? TI8148_REV_ES1_0 then dpll_val k src w else
  match ck_dpll_data k with
  | None => 0
  | Some d =>
      match w_dplls w !! d with
      | None => 0
      | Some dd =>
          u32 (dpll_val k src w *
               lsr (u8 (Z.land (regval w (dd_div_m2n_reg dd)) (dd_div_m2_mask dd)))
                   (__ffs (dd_div_m2_mask dd)))
      end
  end.

Definition rate_val (f : recalc_fn) (k : clk) (src : Z) (w : world) : Z :=
  match f with
  | followparent_recalc_fn => src
  | omap_fixed_divisor_recalc_fn => src / ck_fixed_div k
  | omap2_clksel_recalc_fn =>
      if clksel_div k w =? 0 then ck_rate k else src / clksel_div k w
  | ti814x_dpll_recalc_fn => dpll_val k src w
  | ti814x_dpll_dco_recalc_fn => dco_val k src w
  end.

Definition dm8148_recalc_val (f : recalc_fn) (c : string) (w : world) : Z :=
  match w_clks w !! c with Some k => rate_val f k (prate c w) w | None => 0 end.

(** A DPLL whose parent is the clock it runs from, in bypass and in lock. *)
Definition dpll_recalc_ready (k : clk) (w : world) : Prop :=
  exists d dd, ck_dpll_data k = Some d /\ w_dplls w !! d = Some dd /\ rate_regs_plain dd /\
    ck_parent k = Some (dd_clk_bypass dd) /\ dd_clk_ref dd = dd_clk_bypass dd /\
    (out_of_lock dd (regval w (dd_control_reg dd)) = false ->
     reg_den dd (regval w (dd_div_m2n_reg dd)) <> 0).

Definition dm8148_recalc_ready (c : string) (w : world) : Prop :=
  forall k f, w_clks w !! c = Some k -> ck_recalc k = Some f ->
  is_Some (parent_rate w c) /\
  match f with
  | followparent_recalc_fn => True
  | omap_fixed_divisor_recalc_fn => ck_fixed_div k <> 0
  | omap2_clksel_recalc_fn => no_clksel k = false -> plain_reg (ck_clksel_reg k)
  | ti814x_dpll_recalc_fn | ti814x_dpll_dco_recalc_fn => dpll_recalc_ready k w
  end.

(** Reading does not change what the registers and the table stand for. *)
Lemma rates_only_regval w w' a : rates_only w w' -> plain_reg a -> regval w' a = regval w a.
Proof.
  intros [_ (l & m & Hl & ->)] Ha. unfold regval. cbn. by rewrite plain_quiet.
Qed.

Lemma rates_only_cpu w w' : rates_only w w' -> w_cpu_mask w' = w_cpu_mask w.
Proof. by intros [_ (l & m & Hl & ->)]. Qed.
Lemma rates_only_dplls w w' : rates_only w w' -> w_dplls w' = w_dplls w.
Proof. by intros [_ (l & m & Hl & ->)]. Qed.

Lemma unrated_eq k k' : unrated k' = unrated k -> k' = set_ck_rate (ck_rate k') k.
Proof.
  intros H. change (set_ck_rate (ck_rate k') (unrated k') = set_ck_rate (ck_rate k') (unrated k)).
  by rewrite H.
Qed.

Lemma reg_rate_frame dd a b w w' :
  rates_only w w' -> rate_regs_plain dd -> reg_rate dd a b w' = reg_rate dd a b w.
Proof.
  intros Hro [P1 P2 P3 P4]. unfold reg_rate. by rewrite !(rates_only_regval w w') by done.
Qed.

Lemma rates_only_prate_some w w' c :
  rates_only w w' -> is_Some (parent_rate w c) -> is_Some (parent_rate w' c).
Proof.
  intros Hro. unfold parent_rate. rewrite (rates_only_parent _ _ c Hro).
  destruct (parent_of w c) as [p|]; [|done]. unfold clk_rate.
  destruct (w_clks w !! p) as [k|] eqn:E; cbn; [|by intros []].
  destruct (rates_only_lookup _ _ _ _ Hro E) as (k' & -> & _). eauto.
Qed.

Lemma recalc_ready_frame' c w w' :
  rates_only w w' -> dm8148_recalc_ready c w -> dm8148_recalc_ready c w'.
Proof.
  intros Hro H k' f Hk' Hf. destruct (rates_only_lookup_inv _ _ _ _ Hro Hk') as (k & Hk & Hu).
  rewrite (unrated_recalc _ _ Hu) in Hf. destruct (H k f Hk Hf) as [Hp Hr].
  split; [by eapply rates_only_prate_some|]. rewrite (unrated_eq _ _ Hu).
  destruct f; try done;
    (destruct Hr as (d & dd & Hd & Hdd & Hpl & Hpar & Href & Hden); exists d, dd;
     rewrite (rates_only_dplls _ _ Hro); split_and!; try done;
     rewrite !(rates_only_regval w w') by (done || apply Hpl); done).
Qed.

Lemma rate_val_frame f c k w w' r :
  w_clks w !! c = Some k -> ck_recalc k = Some f -> dm8148_recalc_ready c w ->
  rates_only w w' -> (r = ck_rate k \/ r = rate_val f k (prate c w) w) ->
  rate_val f (set_ck_rate r k) (prate c w) w' = rate_val f k (prate c w) w.
Proof.
  intros Hk Hf Hrd Hro Hr. destruct (Hrd k f Hk Hf) as [_ Hrf].
  assert (clksel_div (set_ck_rate r k) w' = clksel_div k w \/ f <> omap2_clksel_recalc_fn) as Hdiv.
  { destruct (decide (f = omap2_clksel_recalc_fn)) as [->|]; [left | by right].
    unfold clksel_div. change (no_clksel (set_ck_rate r k)) with (no_clksel k).
    destruct (no_clksel k) eqn:En; [done|].
    change (ck_clksel (set_ck_rate r k)) with (ck_clksel k).
    change (ck_parent (set_ck_rate r k)) with (ck_parent k).
    change (ck_clksel_mask (set_ck_rate r k)) with (ck_clksel_mask k).
    change (ck_clksel_reg (set_ck_rate r k)) with (ck_clksel_reg k).
    rewrite (rates_only_cpu _ _ Hro), (rates_only_regval _ _ _ Hro) by auto. done. }
  assert (dpll_recalc_ready k w -> dpll_val (set_ck_rate r k) (prate c w) w' =
    dpll_val k (prate c w) w) as Hdp.
  { intros (d & dd & Hd & Hdd & Hpl & _). unfold dpll_val.
    change (ck_dpll_data (set_ck_rate r k)) with (ck_dpll_data k).
    rewrite Hd, (rates_only_dplls _ _ Hro), Hdd. by apply reg_rate_frame. }
  destruct f; cbn [rate_val]; try done.
  - destruct Hdiv as [->|]; [|done]. cbn [rate_val] in Hr.
    destruct (clksel_div k w =? 0) eqn:E; [|done]. change (r = ck_rate k). by destruct Hr.
  - by apply Hdp.
  - unfold dco_val. change (ck_dpll_data (set_ck_rate r k)) with (ck_dpll_data k).
    rewrite (rates_only_dplls _ _ Hro), Hdp by done. destruct (omap_rev =? _); [done|].
    destruct Hrf as (d & dd & Hd & Hdd & Hpl & _). rewrite Hd, Hdd.
    rewrite (rates_only_regval _ _ _ Hro) by apply Hpl. done.
Qed.
End RecalcInstance.

Section RecalcSound.
  Context `{SOC : Soc} `{HW : Hardware}.

(** The parent of a clock that is ready. *)
Lemma ready_parent c k f w :
  w_clks w !! c = Some k -> ck_recalc k = Some f -> dm8148_recalc_ready c w ->
  exists p pk, ck_parent k = Some p /\ w_clks w !! p = Some pk /\ prate c w = ck_rate pk.
Proof.
  intros Hk Hf Hrd. destruct (Hrd k f Hk Hf) as [[r Hp] _]. unfold prate. rewrite Hp.
  unfold parent_rate, parent_of in Hp. rewrite Hk in Hp.
  destruct (ck_parent k) as [p|]; [|done]. unfold clk_rate in Hp.
  destruct (w_clks w !! p) as [pk|] eqn:E; [|done]. exists p, pk. cbn in Hp.
  apply (inj Some) in Hp as <-. done.
Qed.

Lemma clksel_recalc_sound c k p pk w :
  w_clks w !! c = Some k -> ck_parent k = Some p -> w_clks w !! p = Some pk ->
  (no_clksel k = false -> plain_reg (ck_clksel_reg k)) ->
  wp (omap2_clksel_recalc c)
     (fun r w' => r = (if clksel_div k w =? 0 then ck_rate k else ck_rate pk / clksel_div k w) /\
        io_reads w w') w.
Proof.
  intros Hk Hp Hpk Hpl. unfold omap2_clksel_recalc, _read_divisor, clksel_div.
  destruct (no_clksel k) eqn:Hn.
  { wp_pure. wp_step. rewrite Hn. wp_pure. wp_step. split; [done | reflexivity]. }
  assert (exists l, ck_clksel k = Some l) as [l Hl].
  { unfold no_clksel in Hn. destruct (ck_clksel k); [by eexists | done]. }
  wp_pure. wp_step. rewrite Hn. wp_step. unfold _clksel_to_divisor, _get_clksel_by_parent.
  wp_step. rewrite Hp. wp_step. rewrite Hl. wp_step.
  set (w1 := set_w_trace _ w). assert (io_reads w w1) as Hio by (by apply io_reads_1).
  destruct (List.find _ l) as [s|].
  - wp_pure. change (w_cpu_mask w1) with (w_cpu_mask w).
    destruct (find_rate _ _ (cs_rates s)) as [r|]; wp_pure; wp_step; [|by split].
    destruct (Z.eqb_spec (cr_div r) 0) as [E|Hne]; wp_pure; [by split|].
    rewrite Hp. wp_step. wp_step. by apply wp_divu.
  - wp_step. wp_step. wp_step. by split.
Qed.

Lemma dpll_recalc_sound c k w :
  w_clks w !! c = Some k -> is_Some (parent_rate w c) -> dpll_recalc_ready k w ->
  wp (ti814x_get_dpll_rate c)
     (fun r w' => r = dpll_val k (prate c w) w /\ io_reads w w') w.
Proof.
  intros Hk [r Hr] (d & dd & Hd & Hdd & Hpl & Hpar & Href & Hden).
  unfold prate. rewrite Hr. unfold parent_rate, parent_of in Hr. rewrite Hk, Hpar in Hr.
  unfold clk_rate in Hr. destruct (w_clks w !! dd_clk_bypass dd) as [bk|] eqn:Hb; [|done].
  apply (inj Some) in Hr as <-. unfold dpll_val. rewrite Hd, Hdd.
  eapply get_dpll_rate_val; try done. by rewrite Href.
Qed.

#[export] Program Instance dm8148_recalc_laws : RecalcLaws := {|
  recalc_val := dm8148_recalc_val;
  recalc_ready := dm8148_recalc_ready;
  recalc_ready_frame := recalc_ready_frame'
|}.
Next Obligation.
  intros f c k w Hk Hf Hrd. unfold dm8148_recalc_val. rewrite Hk.
  destruct (Hrd k f Hk Hf) as [Hps Hrf].
  destruct (ready_parent c k f w Hk Hf Hrd) as (p & pk & Hp & Hpk & Hrate).
  unfold recalc_call, dm8148_recalc. destruct f; cbn [rate_val].
  - unfold followparent_recalc. wp_step. rewrite Hp. do 2 wp_step. split; [done | reflexivity].
  - unfold omap_fixed_divisor_recalc. wp_step. rewrite Hp. do 2 wp_step. apply wp_divu; [done|].
    rewrite Hrate. split; [done | reflexivity].
  - rewrite Hrate. by eapply clksel_recalc_sound.
  - by apply dpll_recalc_sound.
  - unfold ti814x_dpll_dco_recalc, dco_val. destruct (omap_rev =? TI8148_REV_ES1_0).
    { by apply dpll_recalc_sound. }
    pose proof Hrf as (d & dd & Hd & Hdd & Hpl & _). wp_pure.
    eapply clk_dpll_wp; [by split|]. wp_step. set (w1 := set_w_trace _ w).
    assert (io_reads w w1) as Hio by (by apply io_reads_1).
    assert (rates_only w w1) as Hro by (by apply rates_only_reads).
    eapply wp_mono; [apply (dpll_recalc_sound c k w1); [done | done |]|].
    { destruct (recalc_ready_frame' c w w1 Hro Hrd k _ Hk Hf) as [_ H1]. exact H1. }
    cbn beta. intros r w2 [-> Hio2]. wp_pure. split; [|by etrans]. rewrite Hd, Hdd. do 2 f_equal.
    change (prate c w1) with (prate c w). unfold dpll_val. rewrite Hd.
    change (w_dplls w1) with (w_dplls w). rewrite Hdd. by apply reg_rate_frame.
Qed.
Next Obligation.
  intros f c k w w' Hk Hf Hrd Hro Hp Hr. unfold dm8148_recalc_val. rewrite Hk.
  destruct (rates_only_lookup _ _ _ _ Hro Hk) as (k' & Hk' & Hu). rewrite Hk'.
  assert (prate c w' = prate c w) as -> by (unfold prate; by rewrite Hp).
  rewrite (unrated_eq _ _ Hu). apply rate_val_frame; try done.
  unfold clk_rate in Hr. rewrite Hk, Hk' in Hr. unfold dm8148_recalc_val in Hr. rewrite Hk in Hr.
  destruct Hr as [H|H]; apply (inj Some) in H; [by left | by right].
Qed.
End RecalcSound.

(** ** Properties *)

(** C4: propagating a rate with the recalculation functions of the DM8148.  In a
    well-formed tree the call ends, and afterwards the rate of every clock below the
    given one is what its function computes from the registers and from the final rate
    of its parent; no other rate changes, and nothing but rates changes. *)
Theorem propagate_rate_correct `{SOC : Soc} `{HW : Hardware} rank N fuel c w :
  clk_tree rank N w -> (N - rank c <= fuel)%nat -> is_Some (w_clks w !! c) ->
  (forall d, below w c d -> dm8148_recalc_ready d w) ->
  wp (propagate_rate fuel c)
     (fun _ w' => rates_only w w' /\
        (forall d, ~ below w c d -> clk_rate w' d = clk_rate w d) /\
        (forall d k f, below w c d -> w_clks w' !! d = Some k -> ck_recalc k = Some f ->
           ck_rate k = dm8148_recalc_val f d w')) w.
Proof.
  intros T Hf Hc Hrd. eapply wp_mono; [by eapply (propagate_rate_spec rank N)|]. cbn beta.
  intros _ w' (Hro & Hout & Hin). split; [done|]. split; [done|].
  intros d k f Hd Hk Hff. by apply (Hin d Hd).
Qed.

Section Frame.
  Context `{SOC : Soc} `{HW : Hardware}.

(** The DPLL of the clock, if it has one, does not use the register [reg]. *)
Definition dpll_apart (reg : Z) (c : string) (w : world) : Prop :=
  forall k d dd, w_clks w !! c = Some k -> ck_dpll_data k = Some d -> w_dplls w !! d = Some dd ->
    dd_control_reg dd <> reg /\ dd_div_m2n_reg dd <> reg.

Lemma ready_wrote reg x c w w' :
  wrote reg x w w' -> dpll_apart reg c w -> dm8148_recalc_ready c w -> dm8148_recalc_ready c w'.
Proof.
  intros [[h ->] _ Ho] Hap Hrd k f Hk Hf. destruct (Hrd k f Hk Hf) as [Hp Hr]. split; [done|].
  destruct f; try done;
    (destruct Hr as (d & dd & Hd & Hdd & Hpl & Hpar & Href & Hden); exists d, dd;
     split_and!; try done; destruct (Hap k d dd Hk Hd Hdd) as [A1 A2];
     rewrite (Ho (dd_control_reg dd)), (Ho (dd_div_m2n_reg dd)) by (done || apply Hpl); done).
Qed.

(** The field selects the entry [e] of the table of the parent. *)
Lemma clksel_div_hit c k p pk s e w :
  clksel_clk c k p pk s w -> e ∈ cs_rates s -> rate_enabled (w_cpu_mask w) e = true ->
  field_get (ck_clksel_mask k) (regval w (ck_clksel_reg k)) = cr_val e ->
  clksel_div k w = cr_div e.
Proof.
  intros [Hc Hs Hp Hpk (l & Hl & Hf) Hr] Hin He Hv. unfold clksel_div. rewrite Hs, Hl, Hp, Hf, Hv.
  destruct (find_rate _ _ _) as [e'|] eqn:E.
  - apply find_Some_in in E as [Hin' H]. bool_to_prop. by apply (rt_inj _ _ _ Hr).
  - pose proof (find_None_all _ _ _ E Hin) as H. cbn in H. by rewrite He, Z.eqb_refl in H.
Qed.

(** Recalculating a clock and propagating, as [clk_set_rate] and [clk_set_parent] do:
    the whole subtree is up to date afterwards. *)
Lemma recalc_and_propagate rank N fuel c w :
  clk_tree rank N w -> (N - rank c <= fuel)%nat -> is_Some (w_clks w !! c) ->
  (forall d, subtree w c d -> dm8148_recalc_ready d w) ->
  wp (recalc_rate c;; propagate_rate fuel c)
     (fun _ w' => rates_only w w' /\
        (forall d, ~ subtree w c d -> clk_rate w' d = clk_rate w d) /\
        (forall d, subtree w c d -> recalculated d w')) w.
Proof.
  intros T Hf [k Hk] Hrd. destruct (parent_of w c) as [p|] eqn:Hp.
  - eapply propagate_turn; eauto. intros. by apply propagate_rate_spec.
  - wp_pure. eapply wp_mono; [apply recalc_rate_spec; [eauto | apply Hrd; by left | by rewrite Hp]|].
    cbn beta. intros _ w1 (Hro & Hrec & Hoth).
    eapply wp_mono; [apply (propagate_rate_spec rank N)|].
    + by eapply clk_tree_rates.
    + done.
    + destruct (rates_only_lookup _ _ _ _ Hro Hk) as (k' & -> & _). eauto.
    + intros d Hd%(below_rates _ _ _ _ Hro). eapply recalc_ready_frame; [exact Hro|].
      apply Hrd. by right.
    + cbn beta. intros _ w2 (Hro2 & Hoth2 & Hrec2). split; [by etrans|]. split.
      * intros d Hd. rewrite Hoth2, Hoth; [done | intros ->; apply Hd; by left |].
        intros Hb%(below_rates _ _ _ _ Hro). apply Hd. by right.
      * intros d [->|Hd].
        -- eapply recalculated_frame; [exact Hrec | | exact Hro2 | |].
           ++ eapply recalc_ready_frame; [exact Hro|]. apply Hrd. by left.
           ++ apply Hoth2. rewrite <- (below_rates _ _ _ _ Hro). by eapply below_irrefl.
           ++ unfold parent_rate. by rewrite (rates_only_parent _ _ _ Hro2), (rates_only_parent _ _ _ Hro), Hp.
        -- apply Hrec2. by apply (below_rates _ _ _ _ Hro).
Qed.

(** Equal children lists give equal trees. *)
Lemma below_children w w' c d :
  (forall x k, w_clks w !! x = Some k -> exists k', w_clks w' !! x = Some k' /\
     ck_children k' = ck_children k) ->
  below w c d -> below w' c d.
Proof.
  intros H. induction 1 as [k d Hk Hd | e k d He IH Hk Hd];
    destruct (H _ _ Hk) as (k' & Hk' & Ec); rewrite <- Ec in Hd;
    [by eapply below_child | by eapply below_step].
Qed.

Lemma subtree_trace tr w c d : subtree (set_w_trace tr w) c d <-> subtree w c d.
Proof.
  unfold subtree. assert (below (set_w_trace tr w) c d <-> below w c d) as ->; [|done].
  split; apply below_children; intros x k Hk; by exists k.
Qed.

Lemma clksel_clk_rates c k p pk s w w' :
  rates_only w w' -> clksel_clk c k p pk s w ->
  exists k' pk', clksel_clk c k' p pk' s w' /\ unrated k' = unrated k /\ clk_rate w' p = Some (ck_rate pk').
Proof.
  intros Hro [Hc Hs Hp Hpk Hf Hr].
  destruct (rates_only_lookup _ _ _ _ Hro Hc) as (k' & Hk' & Hu).
  destruct (rates_only_lookup _ _ _ _ Hro Hpk) as (pk' & Hpk' & Hup).
  exists k', pk'. split; [|split; [done|]; unfold clk_rate; by rewrite Hpk'].
  rewrite (unrated_eq _ _ Hu) in *. split; try done.
  by rewrite (rates_only_cpu _ _ Hro).
Qed.

(** The rate of a clksel clock that is up to date and whose field selects [e]. *)
Lemma recalculated_clksel c k p pk s e w :
  clksel_clk c k p pk s w -> ck_recalc k = Some omap2_clksel_recalc_fn ->
  e ∈ cs_rates s -> rate_enabled (w_cpu_mask w) e = true ->
  field_get (ck_clksel_mask k) (regval w (ck_clksel_reg k)) = cr_val e ->
  recalculated c w -> ck_rate k = ck_rate pk / cr_div e.
Proof.
  intros Hcc Hrec Hin He Hv Hrc. pose proof Hcc as [Hc Hs Hp Hpk Hf Hr].
  rewrite (Hrc k _ Hc Hrec). change (recalc_val ?f c w) with (dm8148_recalc_val f c w).
  unfold dm8148_recalc_val. rewrite Hc. cbn [rate_val].
  rewrite (clksel_div_hit c k p pk s e w Hcc Hin He Hv).
  pose proof (rt_pos _ _ _ Hr e Hin). rewrite (proj2 (Z.eqb_neq (cr_div e) 0)) by lia.
  unfold prate, parent_rate, parent_of, clk_rate. by rewrite Hc, Hp, Hpk.
Qed.

(** The same after rates have been propagated, for a parent that kept its rate. *)
Lemma settled_rate c k p pk s e w w' :
  clksel_clk c k p pk s w -> ck_recalc k = Some omap2_clksel_recalc_fn ->
  plain_reg (ck_clksel_reg k) -> e ∈ cs_rates s -> rate_enabled (w_cpu_mask w) e = true ->
  field_get (ck_clksel_mask k) (regval w (ck_clksel_reg k)) = cr_val e ->
  rates_only w w' -> clk_rate w' p = clk_rate w p -> recalculated c w' ->
  clk_rate w' c = Some (ck_rate pk / cr_div e).
Proof.
  intros Hcc Hrec Hreg Hin He Hv Hro Ep Hrc.
  destruct (clksel_clk_rates _ _ _ _ _ _ _ Hro Hcc) as (k' & pk' & Hcc' & Hu & Hrp).
  unfold clk_rate at 2 in Ep. rewrite (cc_pk _ _ _ _ _ _ Hcc), Hrp in Ep.
  apply (inj Some) in Ep. unfold clk_rate. rewrite (cc_clk _ _ _ _ _ _ Hcc'). cbn. f_equal.
  rewrite (recalculated_clksel c k' p pk' s e w' Hcc'), Ep; [done | | done | | | done].
  - by rewrite (unrated_recalc _ _ Hu).
  - by rewrite (rates_only_cpu _ _ Hro).
  - rewrite (unrated_eq _ _ Hu).
    change (field_get (ck_clksel_mask k) (regval w' (ck_clksel_reg k)) = cr_val e).
    by rewrite (rates_only_regval _ _ _ Hro).
Qed.

(** What a clksel clock with a parent brings along. *)
Lemma clksel_parent c k p pk s w : clksel_clk c k p pk s w -> parent_of w c = Some p.
Proof. intros [Hc _ Hp _ _ _]. unfold parent_of. by rewrite Hc. Qed.

Lemma clksel_ready c k p pk s w :
  clksel_clk c k p pk s w -> ck_recalc k = Some omap2_clksel_recalc_fn ->
  plain_reg (ck_clksel_reg k) -> dm8148_recalc_ready c w.
Proof.
  intros [Hc _ Hp Hpk _ _] Hrec Hreg k' f Hk' Hf. rewrite Hc in Hk'. apply (inj Some) in Hk' as <-.
  rewrite Hrec in Hf. injection Hf as <-. split; [|by intros _].
  unfold parent_rate, parent_of, clk_rate. rewrite Hc, Hp, Hpk. by eexists.
Qed.

Lemma clk_tree_trace rank N tr w : clk_tree rank N w -> clk_tree rank N (set_w_trace tr w).
Proof. intros []. by split. Qed.
End Frame.

(** C2: [clk_set_rate] on a clksel clock.  The call succeeds exactly when some divisor
    of the chip gives the rate; then the clock runs at that rate according to its
    register, every clock below it has the rate its function computes, and no other
    rate changed.  Otherwise the result is -EINVAL and nothing changed at all. *)
Theorem clk_set_rate_correct `{SOC : Soc} `{HW : Hardware} arch rank N depth fuel
    c k p pk s rate w :
  clksel_clk c k p pk s w -> ck_set_rate k = Some omap2_clksel_set_rate_fn ->
  ck_recalc k = Some omap2_clksel_recalc_fn -> 0 <= ck_rate pk -> rate < ALL_ONES ->
  plain_reg (ck_clksel_reg k) -> clk_tree rank N w -> (N - rank c <= fuel)%nat ->
  (forall d, subtree w c d -> dm8148_recalc_ready d w /\ dpll_apart (ck_clksel_reg k) d w) ->
  let reachable := exists e, e ∈ cs_rates s /\ rate_enabled (w_cpu_mask w) e = true /\
                     ck_rate pk / cr_div e = rate in
  wp (clk_set_rate (omap2_clk_functions arch (S depth) fuel) fuel (Some c) rate)
     (fun r w' =>
        (r = 0 /\ reachable /\ clk_rate w' c = Some rate /\
         (forall d k f, below w c d -> w_clks w' !! d = Some k -> ck_recalc k = Some f ->
            ck_rate k = dm8148_recalc_val f d w') /\
         (forall d, ~ subtree w c d -> clk_rate w' d = clk_rate w d)) \/
        (r = - EINVAL /\ ~ reachable /\ w' = w)) w.
Proof.
  intros Hcc Hset Hrec Hpk0 Hrate Hreg T Hf Hrd reachable. pose proof Hcc as [Hc Hs Hp Hpk Hfd Hr].
  unfold clk_set_rate. cbn [omap2_clk_functions cf_set_rate]. unfold omap2_clk_set_rate. wp_pure.
  wp_step. rewrite Hset. cbn [set_rate_call].
  eapply wp_mono; [by eapply set_rate_wp|]. cbn beta zeta.
  intros r w1 [(-> & -> & Hno)|(-> & e & tr & (Hin & He & Hq) & E1 & [x W] & Hv)].
  { wp_pure. cbn [Z.eqb EINVAL Z.opp]. wp_pure. right. split; [done|]. split; [|done].
    intros [e He]. by eapply Hno. }
  change (when (0 =? 0) ?m) with m. set (wt := set_w_trace tr w) in *.
  assert (rates_only wt w1) as Hro by (rewrite E1; exact (rates_only_set wt c k rate Hc)).
  assert (w_clks w1 !! c = Some (set_ck_rate rate k)) as Hk1 by (rewrite E1; apply lookup_insert_eq).
  assert (forall d, subtree w1 c d <-> subtree w c d) as Hst.
  { intros d. rewrite <- (subtree_trace tr w c d). unfold subtree.
    by rewrite <- (below_rates _ _ c d Hro). }
  apply wp_bind. eapply wp_mono; [apply (recalc_and_propagate rank N fuel c w1)|].
  - eapply clk_tree_rates; [exact Hro | by apply clk_tree_trace].
  - done.
  - eauto.
  - intros d [Hd Ha]%Hst%Hrd. eapply recalc_ready_frame'; [exact Hro|]. by eapply ready_wrote.
  - cbn beta. intros _ w2 (Hro2 & Hout & Hin2). wp_pure. left. split; [done|].
    split; [by exists e|]. assert (c <> p) as Hcp
      by (intros ->; pose proof (ct_rank _ _ _ T p k p Hc Hp); lia).
    assert (clksel_clk c (set_ck_rate rate k) p pk s w1) as Hcc1.
    { rewrite E1. split; try done; cbn; [apply lookup_insert_eq | by rewrite lookup_insert_ne]. }
    split_and!.
    + rewrite <- Hq. eapply (settled_rate c (set_ck_rate rate k) p pk s e w1); try done.
      * by rewrite (rates_only_cpu _ _ Hro).
      * apply Hout. rewrite Hst. eapply parent_not_subtree; [exact T|].
        unfold parent_of. by rewrite Hc.
      * apply Hin2. by left.
    + intros d kd f Hd Hkd Hfd'. apply (Hin2 d); [apply Hst; by right | done | done].
    + intros d Hd. rewrite Hout by (by rewrite Hst). rewrite E1. unfold clk_rate. cbn.
      rewrite lookup_insert_ne; [done|]. intros ->. apply Hd. by left.
Qed.

Section Reparent.
  Context `{SOC : Soc} `{HW : Hardware}.

Lemma below_agree w w' c d :
  (forall x k y, subtree w c x -> w_clks w !! x = Some k -> y ∈ ck_children k ->
     exists k', w_clks w' !! x = Some k' /\ y ∈ ck_children k') ->
  below w c d -> below w' c d.
Proof.
  intros H. induction 1 as [k d Hk Hd | e k d He IH Hk Hd].
  - destruct (H c k d (or_introl eq_refl) Hk Hd) as (k' & Hk' & Hd'). by eapply below_child.
  - destruct (H e k d (or_intror He) Hk Hd) as (k' & Hk' & Hd'). by eapply below_step.
Qed.

(** The state after [omap2_clksel_set_parent]: [c] is below [np], with rate [r]. *)
Definition moved (c np : string) (k : clk) (r : Z) (w wt w1 : world) : Prop :=
  exists m, (forall d, m !! d = reparented c np d <$> w_clks w !! d) /\
    w1 = set_w_clks (<[c := set_ck_rate r (reparented c np c k)]> m)
           (set_w_root_clks (without c (w_root_clks w)) wt).

Lemma moved_lookup c np k r w wt w1 d kd :
  moved c np k r w wt w1 -> w_clks w !! c = Some k -> w_clks w !! d = Some kd ->
  exists r', w_clks w1 !! d = Some (set_ck_rate r' (reparented c np d kd)).
Proof.
  intros (m & Hm & ->) Hc Hd. cbn. destruct (decide (d = c)) as [->|Hne].
  - rewrite lookup_insert_eq. rewrite Hc in Hd. apply (inj Some) in Hd as <-. by eexists.
  - rewrite lookup_insert_ne, Hm, Hd by done. by exists (ck_rate (reparented c np d kd)).
Qed.

Lemma moved_lookup_inv c np k r w wt w1 d kd' :
  moved c np k r w wt w1 -> w_clks w !! c = Some k -> w_clks w1 !! d = Some kd' ->
  exists kd r', w_clks w !! d = Some kd /\ kd' = set_ck_rate r' (reparented c np d kd).
Proof.
  intros (m & Hm & ->) Hc Hd. cbn in Hd. destruct (decide (d = c)) as [->|Hne].
  - rewrite lookup_insert_eq in Hd. apply (inj Some) in Hd as <-. by exists k, r.
  - rewrite lookup_insert_ne, Hm in Hd by done. destruct (w_clks w !! d) as [kd|]; [|done].
    apply (inj Some) in Hd as <-. by exists kd, (ck_rate (reparented c np d kd)).
Qed.

Lemma moved_tree c np k r rank N w tr w1 :
  moved c np k r w (set_w_trace tr w) w1 -> w_clks w !! c = Some k -> clk_tree rank N w ->
  (rank np < rank c)%nat -> clk_tree rank N w1.
Proof.
  intros (m & Hm & ->) Hc T Hr.
  assert (m !! c = Some (reparented c np c k)) as Hmc by (by rewrite Hm, Hc).
  eapply clk_tree_rates; [|apply (clk_tree_reparent rank N c np (set_w_trace tr w) m);
    [by apply clk_tree_trace | by eexists | done | done]].
  exact (rates_only_set (set_w_root_clks (without c (w_root_clks w)) (set_w_clks m (set_w_trace tr w)))
    c (reparented c np c k) r Hmc).
Qed.

(** The clocks below the moved clock are the same. *)
Lemma moved_subtree c np k r rank N w tr w1 d :
  moved c np k r w (set_w_trace tr w) w1 -> w_clks w !! c = Some k -> clk_tree rank N w ->
  (rank np < rank c)%nat -> subtree w1 c d <-> subtree w c d.
Proof.
  intros Hmv Hc T Hr. pose proof (moved_tree _ _ _ _ _ _ _ _ _ Hmv Hc T Hr) as T1.
  unfold subtree. assert (below w1 c d <-> below w c d) as ->; [|done]. split; apply below_agree.
  - intros x k' y Hx Hk' Hy. destruct (moved_lookup_inv _ _ _ _ _ _ _ _ _ Hmv Hc Hk')
      as (kx & r' & Hkx & ->). exists kx. split; [done|].
    change (y ∈ ck_children (reparented c np x kx)) in Hy. rewrite reparented_children in Hy.
    pose proof (subtree_rank rank N w1 T1 c x Hx).
    rewrite decide_False in Hy by (intros ->; lia). by apply elem_of_without in Hy as [Hy _].
  - intros x kx y Hx Hkx Hy. destruct (moved_lookup _ _ _ _ _ _ _ _ _ Hmv Hc Hkx) as (r' & Hk').
    eexists. split; [exact Hk'|]. change (y ∈ ck_children (reparented c np x kx)).
    pose proof (subtree_rank rank N w T c x Hx). rewrite reparented_children, decide_False by (intros ->; lia).
    apply elem_of_without. split; [done|]. intros ->.
    pose proof (parent_rank rank N w T c x (child_parent rank N w T x kx c Hkx Hy)). lia.
Qed.

Lemma moved_parent c np k r w wt w1 d :
  moved c np k r w wt w1 -> w_clks w !! c = Some k -> d <> c -> parent_of w1 d = parent_of w d.
Proof.
  intros Hmv Hc Hne. unfold parent_of. destruct (w_clks w !! d) as [kd|] eqn:E.
  - destruct (moved_lookup _ _ _ _ _ _ _ _ _ Hmv Hc E) as (r' & ->).
    change (ck_parent (reparented c np d kd) = ck_parent kd).
    by rewrite reparented_parent, decide_False.
  - destruct (w_clks w1 !! d) eqn:E1; [|done].
    destruct (moved_lookup_inv _ _ _ _ _ _ _ _ _ Hmv Hc E1) as (? & ? & ? & _). congruence.
Qed.

(** A clock other than the moved one can still be recalculated. *)
Lemma ready_moved c np k r reg x w tr w1 d :
  moved c np k r w (set_w_trace tr w) w1 -> w_clks w !! c = Some k ->
  wrote reg x w (set_w_trace tr w) -> d <> c -> dpll_apart reg d w ->
  dm8148_recalc_ready d w -> dm8148_recalc_ready d w1.
Proof.
  intros Hmv Hc W Hne Hap Hrd k' f Hk' Hf.
  destruct (moved_lookup_inv _ _ _ _ _ _ _ _ _ Hmv Hc Hk') as (kd & r' & Hkd & ->).
  assert (set_ck_rate r' (reparented c np d kd) =
    set_ck_rate r' (set_ck_children (ck_children (reparented c np d kd)) kd)) as E.
  { unfold reparented. destruct (decide (d = np)), (decide (d = c)); done. }
  rewrite E in *. change (ck_recalc kd = Some f) in Hf.
  destruct (ready_wrote reg x d w _ W Hap Hrd kd f Hkd Hf) as [Hp Hr]. split.
  - unfold parent_rate in *. rewrite (moved_parent _ _ _ _ _ _ _ _ Hmv Hc Hne).
    change (parent_of (set_w_trace tr w) d) with (parent_of w d) in Hp.
    destruct (parent_of w d) as [p|]; [|done]. unfold clk_rate in *. cbn in Hp.
    destruct (w_clks w !! p) as [kp|] eqn:Ep; [|by destruct Hp].
    destruct (moved_lookup _ _ _ _ _ _ _ _ _ Hmv Hc Ep) as (rp & ->). by eexists.
  - destruct Hmv as (m & _ & ->). destruct f; exact Hr.
Qed.
(** The moved clock is a clksel clock below its new parent. *)
Lemma moved_mux c k l np npk s r w tr w1 :
  moved c np k r w (set_w_trace tr w) w1 -> w_clks w !! c = Some k -> w_clks w !! np = Some npk ->
  c <> np -> mux_clk (w_cpu_mask w) c k l np s ->
  clksel_clk c (set_ck_rate r (reparented c np c k)) np (reparented c np np npk) s w1.
Proof.
  intros (m & Hm & ->) Hc Hnp Hne [Hl Hmk Hfd Hr _ _]. rewrite (reparented_child c np k Hne).
  split; try done.
  - apply lookup_insert_eq.
  - change (no_clksel k = false). unfold no_clksel. rewrite Hl. by apply Z.eqb_neq.
  - cbn. by rewrite lookup_insert_ne, Hm, Hnp.
  - by exists l.
Qed.
End Reparent.

(** C3: [clk_set_parent] on an idle clock.  The clock moves below the new parent, with
    the largest divisor the chip offers for it; its rate and the rates of all clocks
    below it are up to date, the tree stays well formed, and no other rate changed.  The
    clock has no entry in debugfs (a clock that has one gets it moved last, and the result of
    that is what clk_set_parent then returns). *)
Theorem clk_set_parent_correct `{SOC : Soc} `{HW : Hardware} arch rank N depth fuel
    c k l np npk s w :
  w_clks w !! c = Some k -> w_clks w !! np = Some npk -> (rank np < rank c)%nat ->
  mux_clk (w_cpu_mask w) c k l np s -> plain_reg (ck_clksel_reg k) ->
  ck_usecount k = 0 -> ck_parent k <> Some np -> ck_recalc k = Some omap2_clksel_recalc_fn ->
  clk_tree rank N w -> (N - rank c <= fuel)%nat ->
  (forall d, below w c d -> dm8148_recalc_ready d w /\ dpll_apart (ck_clksel_reg k) d w) ->
  wp (clk_set_parent (omap2_clk_functions arch depth fuel) (fun _ => ret None) fuel
        (Some c) (Some np))
     (fun r w' => r = 0 /\ parent_of w' c = Some np /\ clk_tree rank N w' /\
        (exists e, e ∈ cs_rates s /\
           (forall e', e' ∈ cs_rates s -> rate_enabled (w_cpu_mask w) e' = true ->
              cr_div e' <= cr_div e) /\
           clk_rate w' c = Some (ck_rate npk / cr_div e)) /\
        (forall d k f, below w c d -> w_clks w' !! d = Some k -> ck_recalc k = Some f ->
           ck_rate k = dm8148_recalc_val f d w') /\
        (forall d, ~ subtree w c d -> clk_rate w' d = clk_rate w d)) w.
Proof.
  intros Hc Hnp Hrk Hmx Hreg Hu Hpar Hrec T Hf Hrd.
  assert (c <> np) as Hne by (intros ->; lia).
  unfold clk_set_parent. wp_step. rewrite Hu. cbn [Z.eqb omap2_clk_functions cf_set_parent].
  unfold omap2_clk_set_parent. wp_pure. wp_step. rewrite (mx_sel _ _ _ _ _ _ Hmx).
  rewrite decide_False by done.
  eapply wp_mono; [by eapply set_parent_wp|]. cbn beta.
  intros r w1 (-> & e & tr & m & Hin & He & Hmax & Hmm & E1 & [x W] & Hv). cbn [Z.eqb].
  set (rate := ck_rate npk / cr_div e) in *.
  assert (moved c np k rate w (set_w_trace tr w) w1) as Hmv by (by exists m).
  pose proof (moved_tree _ _ _ _ _ _ _ _ _ Hmv Hc T Hrk) as T1.
  assert (forall d, subtree w1 c d <-> subtree w c d) as Hst
    by (intros d; by eapply moved_subtree).
  set (k1 := set_ck_rate rate (reparented c np c k)).
  assert (w_clks w1 !! c = Some k1) as Hk1 by (rewrite E1; apply lookup_insert_eq).
  assert (clksel_clk c k1 np (reparented c np np npk) s w1) as Hcc1 by (by eapply moved_mux).
  assert (ck_recalc k1 = Some omap2_clksel_recalc_fn) as Hrec1
    by (unfold k1; by rewrite (reparented_child c np k Hne)).
  assert (forall d, subtree w1 c d -> dm8148_recalc_ready d w1) as Hrd1.
  { intros d Hd. destruct (decide (d = c)) as [->|Hdc].
    - eapply clksel_ready; [exact Hcc1 | done|]. unfold k1. by rewrite (reparented_child c np k Hne).
    - apply Hst in Hd as [->|Hd]; [done|]. destruct (Hrd d Hd). by eapply ready_moved. }
  eapply wp_pair, wp_mono; [by apply (recalc_and_propagate rank N fuel c w1); eauto|].
  cbn beta. intros _ w2 (Hro & Hout & Hin2). wp_pure. split; [done|].
  rewrite (rates_only_parent _ _ _ Hro). split; [by eapply clksel_parent|].
  split; [by eapply clk_tree_rates|]. split_and!.
  - exists e. split_and!; [done | done |]. rewrite <- (reparented_rate c np np npk).
    eapply (settled_rate c k1 np _ s e w1); try done; unfold k1;
      rewrite ?(reparented_child c np k Hne); try done.
    + rewrite E1. exact He.
    + apply Hout. eapply parent_not_subtree; [exact T1|]. by eapply clksel_parent.
    + apply Hin2. by left.
  - intros d kd f Hd Hkd Hfd. apply (Hin2 d); [apply Hst; by right | done | done].
  - intros d Hd. rewrite Hout by (by rewrite Hst). unfold clk_rate.
    assert (d <> c) as Hdc by (intros ->; apply Hd; by left).
    rewrite E1. cbn. rewrite lookup_insert_ne, Hmm by done.
    destruct (w_clks w !! d) as [kd|]; cbn; [|done]. by rewrite reparented_rate.
Qed.
