(* ===== verification/Clk814xData.v ===== *)
(** * The clock tables of the TI814x and their registration

    mach-omap2/clock814x_data.c.  Every C object is one definition with the name it has
    in C; numbers are the values of the macros of cm81xx.h, cm-regbits-81xx.h, clock.h
    and clkdev_omap.h, registers their virtual addresses.  [struct_clk] and
    [struct_dpll] are the designated initialisers: fields that are not named are 0 or
    NULL.  The arrays of divisors and parents are lists without the terminating entry. *)

From S2P Require Import Prelude Platform Prcm Powerdomain Clockdomain ClkCore.
From S2P Require Import Clksel ClkEnable Adpll Clkdev ClkRate.

Definition RATE_IN_DM385 : Z := Z.shiftl 1 5.
Definition RATE_IN_TI814X : Z := Z.shiftl 1 6.
Definition CK_TI814X : Z := Z.shiftl 1 12.
Definition CK_DM385 : Z := Z.shiftl 1 14.

Definition struct_clk (name : string) (ops : clkops) (fields : list (clk -> clk)) : clk :=
  fold_left (fun k f => f k) fields
    {| ck_ops := ops; ck_name := name; ck_parent := None; ck_children := []; ck_rate := 0;
       ck_enable_reg := 0; ck_recalc := None; ck_set_rate := None; ck_round_rate := None;
       ck_init := None; ck_enable_bit := 0; ck_usecount := 0; ck_fixed_div := 0;
       ck_flags := 0; ck_clksel_reg := 0; ck_clksel_mask := 0; ck_clksel := None;
       ck_dpll_data := None; ck_clkdm_name := None; ck_clkdm := None; ck_node := false |}.

Definition struct_dpll (fields : list (dpll_data -> dpll_data)) : dpll_data :=
  fold_left (fun d f => f d) fields
    {| dd_mult_div1_reg := 0; dd_mult_mask := 0; dd_div1_mask := 0; dd_clk_bypass := "";
       dd_clk_ref := ""; dd_control_reg := 0; dd_enable_mask := 0; dd_rate_tolerance := 0;
       dd_last_rounded_rate := 0; dd_last_rounded_m := 0; dd_max_multiplier := 0;
       dd_last_rounded_n := 0; dd_min_divider := 0; dd_max_divider := 0; dd_modes := 0;
       dd_idlest_reg := 0; dd_idlest_mask := 0; dd_dco_mask := 0; dd_sddiv_mask := 0;
       dd_auto_recal_bit := 0; dd_flags := 0; dd_dpll_id := 0; dd_div_m2n_reg := 0;
       dd_div_m2_mask := 0; dd_div_n_mask := 0; dd_pre_div_n := 0; dd_post_div_m2 := 0;
       dd_frac_mult_reg := 0; dd_frac_mult_mask := 0; dd_last_rounded_frac_m := 0;
       dd_last_rounded_m2 := 0; dd_bypass_bit := 0; dd_stby_ret_bit := 0;
       dd_stop_mode_bit := 0; dd_load_mn_reg := 0; dd_load_m2n2_reg := 0;
       dd_dco_freq_sel := 0 |}.

(** struct omap_clk and the macro CLK; the address of the [clk_lookup] inside is its
    position in the table. *)
Record omap_clk := CLK {
  oc_dev_id : option string;
  oc_con_id : option string;
  oc_clk : string;
  oc_cpu : Z
}.


(** ** Divisor tables *)

Definition div_1_0_rates : list clksel_rate :=
  [mkRate 1 0 96].
Definition div_1_1_rates : list clksel_rate :=
  [mkRate 1 1 96].
Definition div_1_2_rates : list clksel_rate :=
  [mkRate 1 2 96].
Definition div_1_3_rates : list clksel_rate :=
  [mkRate 1 3 96].
Definition div_1_4_rates : list clksel_rate :=
  [mkRate 1 4 96].
Definition div_1_5_rates : list clksel_rate :=
  [mkRate 1 5 96].
Definition div_1_6_rates : list clksel_rate :=
  [mkRate 1 6 96].
Definition div_1_7_rates : list clksel_rate :=
  [mkRate 1 7 96].
Definition div_1_8_rates : list clksel_rate :=
  [mkRate 1 8 96].
Definition div_1_9_rates : list clksel_rate :=
  [mkRate 1 9 96].
Definition div_1_10_rates : list clksel_rate :=
  [mkRate 1 10 96].
Definition div8_rates : list clksel_rate :=
  [mkRate 1 0 96;
   mkRate 2 1 96;
   mkRate 3 2 96;
   mkRate 4 3 96;
   mkRate 5 4 96;
   mkRate 6 5 96;
   mkRate 7 6 96;
   mkRate 8 7 96].
Definition div5_prcmckout_rates : list clksel_rate :=
  [mkRate 1 0 96;
   mkRate 2 1 96;
   mkRate 4 2 96;
   mkRate 8 3 96;
   mkRate 16 4 96].
Definition div2_sysclk6_rates : list clksel_rate :=
  [mkRate 2 0 96;
   mkRate 4 1 96].
Definition div4_b3c1_rates : list clksel_rate :=
  [mkRate 1 0 96;
   mkRate 2 1 96;
   mkRate 22 2 96;
   mkRate 1 3 96].

(** ** Parent and divisor choices *)

Definition arm_dpll_mux_sel : list clksel :=
  [mkClksel "osc0_clkin_ck" div_1_0_rates;
   mkClksel "rtc_divider_ck" div_1_1_rates].
Definition sysclk23_div : list clksel :=
  [mkClksel "sgx_dpll_ck" div8_rates].
Definition sysclk3_div : list clksel :=
  [mkClksel "hdvicp_dpll_ck" div8_rates].
Definition osc_l3dpll_clk_mux_sel : list clksel :=
  [mkClksel "osc0_clkin_ck" div_1_0_rates;
   mkClksel "osc1_clkin_ck" div_1_1_rates].
Definition sysclk6_div : list clksel :=
  [mkClksel "sysclk4_ck" div2_sysclk6_rates].
Definition sysclk10_div : list clksel :=
  [mkClksel "usb_dpll_div5_ck" div8_rates].
Definition sysclk8_div : list clksel :=
  [mkClksel "usb_dpll_div5_ck" div_1_0_rates].
Definition uart456_mux_sel : list clksel :=
  [mkClksel "sysclk8_ck" div_1_0_rates;
   mkClksel "sysclk10_ck" div_1_1_rates;
   mkClksel "sysclk6_ck" div_1_2_rates].
Definition secureSS_mux_sel : list clksel :=
  [mkClksel "iss_dpll_d2_ck" div_1_0_rates;
   mkClksel "usb_dpll_div5_ck" div_1_1_rates].
Definition osc_video0_dpll_mux_sel : list clksel :=
  [mkClksel "osc0_clkin_ck" div_1_0_rates;
   mkClksel "osc1_clkin_ck" div_1_1_rates].
Definition osc_video1_dpll_mux_sel : list clksel :=
  [mkClksel "osc0_clkin_ck" div_1_0_rates;
   mkClksel "osc1_clkin_ck" div_1_1_rates].
Definition osc_hdmi_dpll_mux_sel : list clksel :=
  [mkClksel "osc0_clkin_ck" div_1_0_rates;
   mkClksel "osc1_clkin_ck" div_1_1_rates].
Definition video_dpll_clk_mux_sel : list clksel :=
  [mkClksel "hdmi_dpll_ck" div_1_0_rates;
   mkClksel "video_m_pclk_ck" div_1_1_rates].
Definition audio_dpll_prcm_mux_sel : list clksel :=
  [mkClksel "video0_dpll_ck" div_1_0_rates;
   mkClksel "hdmi_dpll_muxout_ck" div_1_1_rates;
   mkClksel "video1_dpll_ck" div_1_2_rates].
Definition sysclk16_d1_div : list clksel :=
  [mkClksel "video0_dpll_ck" div8_rates].
Definition sysclk16_b3_div : list clksel :=
  [mkClksel "hdmi_dpll_muxout_ck" div4_b3c1_rates].
Definition sysclk14_c1_div : list clksel :=
  [mkClksel "video1_dpll_ck" div4_b3c1_rates].
Definition sysclk16_clk_mux_sel : list clksel :=
  [mkClksel "sysclk16_d1mux_ck" div_1_0_rates;
   mkClksel "sysclk16_b3mux_ck" div_1_1_rates].
Definition hdvpss_clk_mux_sel : list clksel :=
  [mkClksel "video1_dpll_ck" div_1_0_rates;
   mkClksel "hdmi_dpll_muxout_ck" div_1_1_rates].
Definition hd_venc_a_mux_sel : list clksel :=
  [mkClksel "hdmi_dpll_muxout_ck" div_1_0_rates;
   mkClksel "video1_dpll_ck" div_1_1_rates;
   mkClksel "video0_dpll_ck" div_1_2_rates].
Definition sysclk14_ck_mux_sel : list clksel :=
  [mkClksel "sysclk16_b3mux_ck" div_1_0_rates;
   mkClksel "video0_dpll_clkin_ck" div_1_1_rates;
   mkClksel "sysclk14_c1mux_ck" div_1_2_rates].
Definition video_dpll_xref_ck_mux_sel : list clksel :=
  [mkClksel "sysclk14_ck" div_1_0_rates;
   mkClksel "xref0_ck" div_1_1_rates;
   mkClksel "xref1_ck" div_1_2_rates;
   mkClksel "xref2_ck" div_1_3_rates].
Definition tppss_tso_dclk_mux_sel : list clksel :=
  [mkClksel "iss_dpll_d2_ck" div_1_0_rates;
   mkClksel "iss_dpll_ck" div_1_1_rates;
   mkClksel "tsi0_dck_ck" div_1_2_rates;
   mkClksel "tsi1_dck_ck" div_1_3_rates].
Definition osc_audio_dpll_mux_sel : list clksel :=
  [mkClksel "osc0_clkin_ck" div_1_0_rates;
   mkClksel "osc1_clkin_ck" div_1_1_rates].
Definition sysclk18_a_div : list clksel :=
  [mkClksel "rtc_divider_ck" div8_rates].
Definition rtc_clkin32_mux_sel : list clksel :=
  [mkClksel "rtc_divider_ck" div_1_0_rates;
   mkClksel "sys_32k_clkin_ck" div_1_1_rates].
Definition sysclk18_mux_sel : list clksel :=
  [mkClksel "audio_prcm_clkin_ck" div_1_0_rates;
   mkClksel "audio_dpll_clk1_ck" div_1_1_rates].
Definition sysclk19_b_div : list clksel :=
  [mkClksel "audio_dpll_clk2_ck" div8_rates].
Definition sysclk20_c_div : list clksel :=
  [mkClksel "audio_dpll_ck" div8_rates].
Definition sysclk21_d_div : list clksel :=
  [mkClksel "video012_dpll_muxout_ck" div8_rates].
Definition sysclk22_e_div : list clksel :=
  [mkClksel "osc0_clkin_ck" div8_rates].
Definition audio_prcm_mux_sel : list clksel :=
  [mkClksel "sysclk20_ck" div_1_0_rates;
   mkClksel "sysclk21_ck" div_1_1_rates;
   mkClksel "sysclk22_ck" div_1_2_rates].
Definition mcbsp_clks_mux_sel : list clksel :=
  [mkClksel "audio_prcm1_out_ck" div_1_0_rates;
   mkClksel "xref0_ck" div_1_1_rates;
   mkClksel "xref1_ck" div_1_2_rates;
   mkClksel "xref2_ck" div_1_3_rates;
   mkClksel "osc1_x1_ck" div_1_4_rates].
Definition hdmi_i2s_mclk_mux_sel : list clksel :=
  [mkClksel "hdmi_i2s_ck" div_1_0_rates;
   mkClksel "xref0_ck" div_1_1_rates;
   mkClksel "xref1_ck" div_1_2_rates;
   mkClksel "xref2_ck" div_1_3_rates;
   mkClksel "osc1_x1_ck" div_1_4_rates].
Definition atlp_clk_mux_sel : list clksel :=
  [mkClksel "sysclk19_ck" div_1_0_rates;
   mkClksel "audio_dpll_ck" div_1_1_rates;
   mkClksel "video012_dpll_muxout_ck" div_1_2_rates].
Definition gpt0to7_fclk_mux_sel : list clksel :=
  [mkClksel "sysclk18_ck" div_1_0_rates;
   mkClksel "xref0_ck" div_1_1_rates;
   mkClksel "xref1_ck" div_1_2_rates;
   mkClksel "xref2_ck" div_1_3_rates;
   mkClksel "osc0_clkin_ck" div_1_4_rates;
   mkClksel "osc1_x1_ck" div_1_5_rates;
   mkClksel "tclkin_ck" div_1_6_rates].
Definition mlb0to1_clk_mux_sel : list clksel :=
  [mkClksel "mlb_ick" div_1_0_rates;
   mkClksel "mlbp_ick" div_1_1_rates].
Definition mcasp0to6_auxclk_mux_sel : list clksel :=
  [mkClksel "mcasp_auxclk_mux0_ck" div_1_0_rates;
   mkClksel "audio_dpll_ck" div_1_1_rates;
   mkClksel "video012_dpll_muxout_ck" div_1_2_rates;
   mkClksel "xref0_ck" div_1_3_rates;
   mkClksel "xref1_ck" div_1_4_rates;
   mkClksel "xref2_ck" div_1_5_rates;
   mkClksel "osc1_x1_ck" div_1_6_rates].
Definition mcasp0to7_ahclk_mux_sel : list clksel :=
  [mkClksel "xref0_ck" div_1_0_rates;
   mkClksel "xref1_ck" div_1_1_rates;
   mkClksel "xref2_ck" div_1_2_rates;
   mkClksel "osc1_x1_ck" div_1_3_rates;
   mkClksel "atl0_clk_ck" div_1_4_rates;
   mkClksel "atl1_clk_ck" div_1_5_rates;
   mkClksel "atl2_clk_ck" div_1_6_rates;
   mkClksel "atl3_clk_ck" div_1_7_rates].
Definition cpts0to4_rft_clk_mux_sel : list clksel :=
  [mkClksel "video0_dpll_ck" div_1_0_rates;
   mkClksel "video1_dpll_ck" div_1_1_rates;
   mkClksel "audio_dpll_ck" div_1_2_rates;
   mkClksel "hdmi_dpll_muxout_ck" div_1_3_rates;
   mkClksel "l3_dpll_ck" div_1_4_rates].
Definition sata01_50m_mux_sel : list clksel :=
  [mkClksel "satass_50m_ck" div_1_0_rates;
   mkClksel "sata1ss_50m_ck" div_1_1_rates].
Definition gmac0to1_mux_sel : list clksel :=
  [mkClksel "satass_50m_ck" div_1_0_rates;
   mkClksel "external_ck" div_1_1_rates].
Definition gmac0to1_385_mux_sel : list clksel :=
  [mkClksel "satass_50m_ck" div_1_0_rates;
   mkClksel "sata1ss_50m_ck" div_1_1_rates].
Definition rmii_mux_sel : list clksel :=
  [mkClksel "gmac0to1_mux_out_ck" div_1_0_rates;
   mkClksel "cpts_rft_div5_ck" div_1_1_rates].
Definition sata01_125m_mux_sel : list clksel :=
  [mkClksel "satass_125m_ck" div_1_0_rates;
   mkClksel "sata1ss_125m_ck" div_1_1_rates].
Definition gmii_mux_sel : list clksel :=
  [mkClksel "sata01_125m_mux_out_ck" div_1_0_rates;
   mkClksel "cpts_rft_div2_ck" div_1_1_rates].
Definition wdt0to1_fclk_mux_sel : list clksel :=
  [mkClksel "rtc_divider_ck" div_1_0_rates;
   mkClksel "rcosc_32k_ck" div_1_1_rates].
Definition clkout0to3_mux_sel : list clksel :=
  [mkClksel "dsp_dpll_ck" div_1_0_rates;
   mkClksel "hdvicp_dpll_ck" div_1_1_rates;
   mkClksel "video0_dpll_ck" div_1_2_rates;
   mkClksel "rtc_divider_ck" div_1_3_rates].
Definition clkout0to3_385_mux_sel : list clksel :=
  [mkClksel "dummy_clk_ck" div_1_0_rates;
   mkClksel "hdvicp_dpll_ck" div_1_1_rates;
   mkClksel "video0_dpll_ck" div_1_2_rates;
   mkClksel "rtc_divider_ck" div_1_3_rates].
Definition clkout_1to16_div : list clksel :=
  [mkClksel "clkout_prcm_mux_ck" div5_prcmckout_rates].
Definition clkout0to10_mux_sel : list clksel :=
  [mkClksel "clkout_prcm_ck" div_1_0_rates;
   mkClksel "satass_125m_ck" div_1_1_rates;
   mkClksel "pciess_125m_ck" div_1_2_rates;
   mkClksel "hdvpss_proc_d2_fck" div_1_3_rates;
   mkClksel "iss_dpll_d2_ck" div_1_4_rates;
   mkClksel "l3_dpll_ck" div_1_5_rates;
   mkClksel "osc0_clkin_ck" div_1_6_rates;
   mkClksel "osc1_clkin_ck" div_1_7_rates;
   mkClksel "mpu_ck" div_1_8_rates;
   mkClksel "sgx_dpll_ck" div_1_9_rates;
   mkClksel "rcosc_32k_ck" div_1_10_rates].
Definition clkout0to10_385_mux_sel : list clksel :=
  [mkClksel "clkout_prcm_ck" div_1_0_rates;
   mkClksel "satass_125m_ck" div_1_1_rates;
   mkClksel "pciess_125m_ck" div_1_2_rates;
   mkClksel "hdvpss_proc_d2_fck" div_1_3_rates;
   mkClksel "iss_dpll_d2_ck" div_1_4_rates;
   mkClksel "l3_dpll_ck" div_1_5_rates;
   mkClksel "osc0_clkin_ck" div_1_6_rates;
   mkClksel "osc1_clkin_ck" div_1_7_rates;
   mkClksel "mpu_ck" div_1_8_rates;
   mkClksel "dummy_clk_ck" div_1_9_rates;
   mkClksel "rcosc_32k_ck" div_1_10_rates].

(** ** DPLL data *)

Definition arm_dpll_dd : dpll_data :=
  struct_dpll
    [set_dd_dpll_id 1;
     set_dd_flags 2;
     set_dd_mult_div1_reg 0xfa1c505c;
     set_dd_mult_mask 0xfff;
     set_dd_div1_mask 0xf0000;
     set_dd_clk_bypass "arm_dpll_clkin_ck";
     set_dd_clk_ref "arm_dpll_clkin_ck";
     set_dd_control_reg 0xfa1c504c;
     set_dd_enable_mask 0x100000;
     set_dd_modes 7;
     set_dd_auto_recal_bit 11;
     set_dd_idlest_reg 0xfa1c506c;
     set_dd_idlest_mask 0x701;
     set_dd_max_multiplier 0x7ff;
     set_dd_rate_tolerance 0xc350;
     set_dd_div_m2n_reg 0xfa1c5058;
     set_dd_div_m2_mask 0x1f0000;
     set_dd_div_n_mask 127;
     set_dd_pre_div_n 1;
     set_dd_post_div_m2 1;
     set_dd_frac_mult_reg 0xfa1c5060;
     set_dd_frac_mult_mask 0x3ffff;
     set_dd_bypass_bit 23;
     set_dd_stby_ret_bit 21;
     set_dd_stop_mode_bit 14;
     set_dd_load_mn_reg 0xfa1c5050;
     set_dd_load_m2n2_reg 0xfa1c5054].
Definition dsp_dpll_dd : dpll_data :=
  struct_dpll
    [set_dd_flags 4;
     set_dd_mult_div1_reg 0xfa1c5094;
     set_dd_mult_mask 0xfff;
     set_dd_div1_mask 0xf0000;
     set_dd_clk_bypass "osc0_clkin_ck";
     set_dd_clk_ref "osc0_clkin_ck";
     set_dd_control_reg 0xfa1c5084;
     set_dd_enable_mask 0x100000;
     set_dd_modes 7;
     set_dd_idlest_reg 0xfa1c50a4;
     set_dd_idlest_mask 0x701;
     set_dd_max_multiplier 0xfff;
     set_dd_rate_tolerance 0xc350;
     set_dd_div_m2n_reg 0xfa1c5090;
     set_dd_div_m2_mask 0x7f0000;
     set_dd_div_n_mask 255;
     set_dd_pre_div_n 19;
     set_dd_post_div_m2 1;
     set_dd_frac_mult_reg 0xfa1c5098;
     set_dd_frac_mult_mask 0x3ffff;
     set_dd_bypass_bit 23;
     set_dd_stby_ret_bit 21;
     set_dd_load_mn_reg 0xfa1c5088;
     set_dd_load_m2n2_reg 0xfa1c508c;
     set_dd_sddiv_mask 0xff000000].
Definition sgx_dpll_dd : dpll_data :=
  struct_dpll
    [set_dd_flags 4;
     set_dd_mult_div1_reg 0xfa1c50c4;
     set_dd_mult_mask 0xfff;
     set_dd_div1_mask 0xf0000;
     set_dd_clk_bypass "osc0_clkin_ck";
     set_dd_clk_ref "osc0_clkin_ck";
     set_dd_control_reg 0xfa1c50b4;
     set_dd_enable_mask 0x100000;
     set_dd_modes 7;
     set_dd_idlest_reg 0xfa1c50d4;
     set_dd_idlest_mask 0x701;
     set_dd_max_multiplier 0xfff;
     set_dd_rate_tolerance 0xc350;
     set_dd_div_m2n_reg 0xfa1c50c0;
     set_dd_div_m2_mask 0x7f0000;
     set_dd_div_n_mask 255;
     set_dd_pre_div_n 19;
     set_dd_post_div_m2 1;
     set_dd_frac_mult_reg 0xfa1c50c8;
     set_dd_frac_mult_mask 0x3ffff;
     set_dd_bypass_bit 23;
     set_dd_stby_ret_bit 21;
     set_dd_load_mn_reg 0xfa1c50b8;
     set_dd_load_m2n2_reg 0xfa1c50bc;
     set_dd_sddiv_mask 0xff000000].
Definition hdvicp_dpll_dd : dpll_data :=
  struct_dpll
    [set_dd_flags 4;
     set_dd_mult_div1_reg 0xfa1c50f4;
     set_dd_mult_mask 0xfff;
     set_dd_div1_mask 0xf0000;
     set_dd_clk_bypass "osc0_clkin_ck";
     set_dd_clk_ref "osc0_clkin_ck";
     set_dd_control_reg 0xfa1c50e4;
     set_dd_enable_mask 0x100000;
     set_dd_modes 7;
     set_dd_idlest_reg 0xfa1c5104;
     set_dd_idlest_mask 0x701;
     set_dd_max_multiplier 0xfff;
     set_dd_rate_tolerance 0xc350;
     set_dd_div_m2n_reg 0xfa1c50f0;
     set_dd_div_m2_mask 0x7f0000;
     set_dd_div_n_mask 255;
     set_dd_pre_div_n 19;
     set_dd_post_div_m2 2;
     set_dd_frac_mult_reg 0xfa1c50f8;
     set_dd_frac_mult_mask 0x3ffff;
     set_dd_bypass_bit 23;
     set_dd_stby_ret_bit 21;
     set_dd_load_mn_reg 0xfa1c50e8;
     set_dd_load_m2n2_reg 0xfa1c50ec;
     set_dd_sddiv_mask 0xff000000].
Definition l3_dpll_dd : dpll_data :=
  struct_dpll
    [set_dd_flags 4;
     set_dd_mult_div1_reg 0xfa1c5124;
     set_dd_mult_mask 0xfff;
     set_dd_div1_mask 0xf0000;
     set_dd_clk_bypass "l3_dpll_clkin_ck";
     set_dd_clk_ref "l3_dpll_clkin_ck";
     set_dd_control_reg 0xfa1c5114;
     set_dd_enable_mask 0x100000;
     set_dd_modes 7;
     set_dd_idlest_reg 0xfa1c5134;
     set_dd_idlest_mask 0x701;
     set_dd_max_multiplier 0xfff;
     set_dd_rate_tolerance 0xc350;
     set_dd_div_m2n_reg 0xfa1c5120;
     set_dd_div_m2_mask 0x7f0000;
     set_dd_div_n_mask 255;
     set_dd_pre_div_n 19;
     set_dd_post_div_m2 4;
     set_dd_frac_mult_reg 0xfa1c5128;
     set_dd_frac_mult_mask 0x3ffff;
     set_dd_bypass_bit 23;
     set_dd_stby_ret_bit 21;
     set_dd_load_mn_reg 0xfa1c5118;
     set_dd_load_m2n2_reg 0xfa1c511c;
     set_dd_sddiv_mask 0xff000000].
Definition iss_dpll_dd : dpll_data :=
  struct_dpll
    [set_dd_flags 4;
     set_dd_mult_div1_reg 0xfa1c5154;
     set_dd_mult_mask 0xfff;
     set_dd_div1_mask 0xf0000;
     set_dd_clk_bypass "osc0_clkin_ck";
     set_dd_clk_ref "osc0_clkin_ck";
     set_dd_control_reg 0xfa1c5144;
     set_dd_enable_mask 0x100000;
     set_dd_modes 7;
     set_dd_idlest_reg 0xfa1c5164;
     set_dd_idlest_mask 0x701;
     set_dd_max_multiplier 0xfff;
     set_dd_rate_tolerance 0xc350;
     set_dd_div_m2n_reg 0xfa1c5150;
     set_dd_div_m2_mask 0x7f0000;
     set_dd_div_n_mask 255;
     set_dd_pre_div_n 19;
     set_dd_post_div_m2 2;
     set_dd_frac_mult_reg 0xfa1c5158;
     set_dd_frac_mult_mask 0x3ffff;
     set_dd_bypass_bit 23;
     set_dd_stby_ret_bit 21;
     set_dd_load_mn_reg 0xfa1c5148;
     set_dd_load_m2n2_reg 0xfa1c514c;
     set_dd_sddiv_mask 0xff000000].
Definition hdvpss_dpll_dd : dpll_data :=
  struct_dpll
    [set_dd_flags 4;
     set_dd_mult_div1_reg 0xfa1c5184;
     set_dd_mult_mask 0xfff;
     set_dd_div1_mask 0xf0000;
     set_dd_clk_bypass "osc0_clkin_ck";
     set_dd_clk_ref "osc0_clkin_ck";
     set_dd_control_reg 0xfa1c5174;
     set_dd_enable_mask 0x100000;
     set_dd_modes 7;
     set_dd_idlest_reg 0xfa1c5194;
     set_dd_idlest_mask 0x701;
     set_dd_max_multiplier 0xfff;
     set_dd_div_m2n_reg 0xfa1c5180;
     set_dd_div_m2_mask 0x7f0000;
     set_dd_div_n_mask 255;
     set_dd_post_div_m2 4;
     set_dd_pre_div_n 19;
     set_dd_frac_mult_reg 0xfa1c5188;
     set_dd_frac_mult_mask 0x3ffff;
     set_dd_bypass_bit 23;
     set_dd_stby_ret_bit 21;
     set_dd_load_mn_reg 0xfa1c5178;
     set_dd_load_m2n2_reg 0xfa1c517c;
     set_dd_sddiv_mask 0xff000000].
Definition usb_dpll_dd : dpll_data :=
  struct_dpll
    [set_dd_flags 4;
     set_dd_mult_div1_reg 0xfa1c5274;
     set_dd_mult_mask 0xfff;
     set_dd_div1_mask 0xf0000;
     set_dd_clk_bypass "usb_dpll_clkin_ck";
     set_dd_clk_ref "usb_dpll_clkin_ck";
     set_dd_control_reg 0xfa1c5264;
     set_dd_enable_mask 0x100000;
     set_dd_modes 7;
     set_dd_idlest_reg 0xfa1c5284;
     set_dd_idlest_mask 0x701;
     set_dd_max_multiplier 0xfff;
     set_dd_rate_tolerance 0xc350;
     set_dd_div_m2n_reg 0xfa1c5270;
     set_dd_div_m2_mask 0x7f0000;
     set_dd_div_n_mask 255;
     set_dd_post_div_m2 1;
     set_dd_pre_div_n 19;
     set_dd_frac_mult_reg 0xfa1c5278;
     set_dd_frac_mult_mask 0x3ffff;
     set_dd_bypass_bit 23;
     set_dd_stby_ret_bit 21;
     set_dd_load_mn_reg 0xfa1c5268;
     set_dd_load_m2n2_reg 0xfa1c526c;
     set_dd_sddiv_mask 0xff000000].
Definition ddr_dpll_dd : dpll_data :=
  struct_dpll
    [set_dd_dpll_id 2;
     set_dd_flags 4;
     set_dd_mult_div1_reg 0xfa1c52a4;
     set_dd_mult_mask 0xfff;
     set_dd_div1_mask 0xf0000;
     set_dd_clk_bypass "ddr_dpll_clkin_ck";
     set_dd_clk_ref "ddr_dpll_clkin_ck";
     set_dd_control_reg 0xfa1c5294;
     set_dd_enable_mask 0x100000;
     set_dd_modes 7;
     set_dd_idlest_reg 0xfa1c52b4;
     set_dd_idlest_mask 0x701;
     set_dd_max_multiplier 0xfff;
     set_dd_rate_tolerance 0xc350;
     set_dd_div_m2n_reg 0xfa1c52a0;
     set_dd_div_m2_mask 0x7f0000;
     set_dd_div_n_mask 255;
     set_dd_pre_div_n 19;
     set_dd_post_div_m2 2;
     set_dd_frac_mult_reg 0xfa1c52a8;
     set_dd_frac_mult_mask 0x3ffff;
     set_dd_bypass_bit 23;
     set_dd_stby_ret_bit 21;
     set_dd_load_mn_reg 0xfa1c5298;
     set_dd_load_m2n2_reg 0xfa1c529c;
     set_dd_sddiv_mask 0xff000000].
Definition video0_dpll_dd : dpll_data :=
  struct_dpll
    [set_dd_flags 4;
     set_dd_mult_div1_reg 0xfa1c51b4;
     set_dd_mult_mask 0xfff;
     set_dd_div1_mask 0xf0000;
     set_dd_clk_bypass "video0_dpll_clkin_ck";
     set_dd_clk_ref "video0_dpll_clkin_ck";
     set_dd_control_reg 0xfa1c51a4;
     set_dd_enable_mask 0x100000;
     set_dd_modes 7;
     set_dd_idlest_reg 0xfa1c51c4;
     set_dd_idlest_mask 0x701;
     set_dd_max_multiplier 0xfff;
     set_dd_rate_tolerance 0xc350;
     set_dd_div_m2n_reg 0xfa1c51b0;
     set_dd_div_m2_mask 0x7f0000;
     set_dd_div_n_mask 255;
     set_dd_pre_div_n 19;
     set_dd_post_div_m2 1;
     set_dd_frac_mult_reg 0xfa1c51b8;
     set_dd_frac_mult_mask 0x3ffff;
     set_dd_bypass_bit 23;
     set_dd_stby_ret_bit 21;
     set_dd_load_mn_reg 0xfa1c51a8;
     set_dd_load_m2n2_reg 0xfa1c51ac;
     set_dd_sddiv_mask 0xff000000].
Definition video1_dpll_dd : dpll_data :=
  struct_dpll
    [set_dd_flags 4;
     set_dd_mult_div1_reg 0xfa1c51e4;
     set_dd_mult_mask 0xfff;
     set_dd_div1_mask 0xf0000;
     set_dd_clk_bypass "video1_dpll_clkin_ck";
     set_dd_clk_ref "video1_dpll_clkin_ck";
     set_dd_control_reg 0xfa1c51d4;
     set_dd_enable_mask 0x100000;
     set_dd_modes 7;
     set_dd_idlest_reg 0xfa1c51f4;
     set_dd_idlest_mask 0x701;
     set_dd_max_multiplier 0xfff;
     set_dd_rate_tolerance 0xc350;
     set_dd_div_m2n_reg 0xfa1c51e0;
     set_dd_div_m2_mask 0x7f0000;
     set_dd_div_n_mask 255;
     set_dd_pre_div_n 19;
     set_dd_post_div_m2 1;
     set_dd_frac_mult_reg 0xfa1c51e8;
     set_dd_frac_mult_mask 0x3ffff;
     set_dd_bypass_bit 23;
     set_dd_stby_ret_bit 21;
     set_dd_load_mn_reg 0xfa1c51d8;
     set_dd_load_m2n2_reg 0xfa1c51dc;
     set_dd_sddiv_mask 0xff000000].
Definition hdmi_dpll_dd : dpll_data :=
  struct_dpll
    [set_dd_flags 4;
     set_dd_mult_div1_reg 0xfa1c5214;
     set_dd_mult_mask 0xfff;
     set_dd_div1_mask 0xf0000;
     set_dd_clk_bypass "hdmi_dpll_clkin_ck";
     set_dd_clk_ref "hdmi_dpll_clkin_ck";
     set_dd_control_reg 0xfa1c5204;
     set_dd_enable_mask 0x100000;
     set_dd_modes 7;
     set_dd_idlest_reg 0xfa1c5224;
     set_dd_idlest_mask 0x701;
     set_dd_max_multiplier 0xfff;
     set_dd_rate_tolerance 0xc350;
     set_dd_div_m2n_reg 0xfa1c5210;
     set_dd_div_m2_mask 0x7f0000;
     set_dd_div_n_mask 255;
     set_dd_pre_div_n 19;
     set_dd_post_div_m2 1;
     set_dd_frac_mult_reg 0xfa1c5218;
     set_dd_frac_mult_mask 0x3ffff;
     set_dd_bypass_bit 23;
     set_dd_stby_ret_bit 21;
     set_dd_load_mn_reg 0xfa1c5208;
     set_dd_load_m2n2_reg 0xfa1c520c;
     set_dd_sddiv_mask 0xff000000].
Definition audio_dpll_dd : dpll_data :=
  struct_dpll
    [set_dd_flags 4;
     set_dd_mult_div1_reg 0xfa1c5244;
     set_dd_mult_mask 0xfff;
     set_dd_div1_mask 0xf0000;
     set_dd_clk_bypass "audio_dpll_clkin_ck";
     set_dd_clk_ref "audio_dpll_clkin_ck";
     set_dd_control_reg 0xfa1c5234;
     set_dd_enable_mask 0x100000;
     set_dd_modes 7;
     set_dd_idlest_reg 0xfa1c5254;
     set_dd_idlest_mask 0x701;
     set_dd_max_multiplier 0xfff;
     set_dd_rate_tolerance 0xc350;
     set_dd_div_m2n_reg 0xfa1c5240;
     set_dd_div_m2_mask 0x7f0000;
     set_dd_div_n_mask 255;
     set_dd_pre_div_n 19;
     set_dd_post_div_m2 2;
     set_dd_frac_mult_reg 0xfa1c5248;
     set_dd_frac_mult_mask 0x3ffff;
     set_dd_bypass_bit 23;
     set_dd_stby_ret_bit 21;
     set_dd_load_mn_reg 0xfa1c5238;
     set_dd_load_m2n2_reg 0xfa1c523c;
     set_dd_sddiv_mask 0xff000000].

(** ** Clocks *)

Definition rcosc_32k_ck : clk :=
  struct_clk "rcosc_32k_ck" clkops_null
    [set_ck_rate 0x8000;
     set_ck_flags 96].
Definition sys_32k_clkin_ck : clk :=
  struct_clk "sys_32k_clkin_ck" clkops_null
    [set_ck_rate 0x8000;
     set_ck_flags 96].
Definition tclkin_ck : clk :=
  struct_clk "tclkin_ck" clkops_null
    [set_ck_rate 0x8000;
     set_ck_flags 96].
Definition osc0_clkin_ck : clk :=
  struct_clk "osc0_clkin_ck" clkops_null
    [set_ck_rate 0x1312d00;
     set_ck_flags 96].
Definition osc1_clkin_ck : clk :=
  struct_clk "osc1_clkin_ck" clkops_null
    [set_ck_rate 0x1588738;
     set_ck_flags 96].
Definition rtc_divider_ck : clk :=
  struct_clk "rtc_divider_ck" clkops_null
    [set_ck_rate 0x8000;
     set_ck_flags 96].
Definition osc1_x1_ck : clk :=
  struct_clk "osc1_x1_ck" clkops_null
    [set_ck_rate 0x1312d00;
     set_ck_flags 96].
Definition xref0_ck : clk :=
  struct_clk "xref0_ck" clkops_null
    [set_ck_rate 0x19bfcc0;
     set_ck_flags 96].
Definition xref1_ck : clk :=
  struct_clk "xref1_ck" clkops_null
    [set_ck_rate 0x19bfcc0;
     set_ck_flags 96].
Definition xref2_ck : clk :=
  struct_clk "xref2_ck" clkops_null
    [set_ck_rate 0x19bfcc0;
     set_ck_flags 96].
Definition tsi0_dck_ck : clk :=
  struct_clk "tsi0_dck_ck" clkops_null
    [set_ck_rate 0x4e33880;
     set_ck_flags 64].
Definition tsi1_dck_ck : clk :=
  struct_clk "tsi1_dck_ck" clkops_null
    [set_ck_rate 0x4e33880;
     set_ck_flags 64].
Definition external_ck : clk :=
  struct_clk "external_ck" clkops_null
    [set_ck_rate 0x2faf080;
     set_ck_flags 96].
Definition atl0_clk_ck : clk :=
  struct_clk "atl0_clk_ck" clkops_null
    [set_ck_rate 0x1588738;
     set_ck_flags 96].
Definition atl1_clk_ck : clk :=
  struct_clk "atl1_clk_ck" clkops_null
    [set_ck_rate 0x1588738;
     set_ck_flags 96].
Definition atl2_clk_ck : clk :=
  struct_clk "atl2_clk_ck" clkops_null
    [set_ck_rate 0x1588738;
     set_ck_flags 96].
Definition atl3_clk_ck : clk :=
  struct_clk "atl3_clk_ck" clkops_null
    [set_ck_rate 0x1588738;
     set_ck_flags 96].
Definition dcan0_fck : clk :=
  struct_clk "dcan0_fck" clkops_ti81xx_dflt_wait
    [set_ck_parent (Some "osc0_clkin_ck");
     set_ck_enable_reg 0xfa181618;
     set_ck_enable_bit 1;
     set_ck_recalc (Some followparent_recalc_fn)].
Definition dcan1_fck : clk :=
  struct_clk "dcan1_fck" clkops_ti81xx_dflt_wait
    [set_ck_parent (Some "osc0_clkin_ck");
     set_ck_enable_reg 0xfa181618;
     set_ck_enable_bit 1;
     set_ck_recalc (Some followparent_recalc_fn)].
Definition sr1_fck : clk :=
  struct_clk "sr1_fck" clkops_null
    [set_ck_parent (Some "osc0_clkin_ck");
     set_ck_recalc (Some followparent_recalc_fn)].
Definition sr2_fck : clk :=
  struct_clk "sr2_fck" clkops_null
    [set_ck_parent (Some "osc0_clkin_ck");
     set_ck_recalc (Some followparent_recalc_fn)].
Definition sr3_fck : clk :=
  struct_clk "sr3_fck" clkops_null
    [set_ck_parent (Some "osc0_clkin_ck");
     set_ck_recalc (Some followparent_recalc_fn)].
Definition sr4_fck : clk :=
  struct_clk "sr4_fck" clkops_null
    [set_ck_parent (Some "osc0_clkin_ck");
     set_ck_recalc (Some followparent_recalc_fn)].
Definition arm_dpll_clkin_ck : clk :=
  struct_clk "arm_dpll_clkin_ck" clkops_null
    [set_ck_init (Some omap2_init_clksel_parent_fn);
     set_ck_clksel (Some arm_dpll_mux_sel);
     set_ck_clksel_reg 0xfa1c52c4;
     set_ck_clksel_mask 1;
     set_ck_recalc (Some omap2_clksel_recalc_fn)].
Definition arm_dpll_ck : clk :=
  struct_clk "arm_dpll_ck" clkops_null
    [set_ck_parent (Some "arm_dpll_clkin_ck");
     set_ck_dpll_data (Some "arm_dpll_dd");
     set_ck_init (Some ti814x_init_dpll_parent_fn);
     set_ck_round_rate (Some ti814x_dpll_round_rate_fn);
     set_ck_set_rate (Some ti814x_dpll_set_rate_fn);
     set_ck_clkdm_name (Some "alwon_l3_slow_clkdm");
     set_ck_recalc (Some ti814x_dpll_recalc_fn)].
Definition mpu_ck : clk :=
  struct_clk "mpu_ck" clkops_null
    [set_ck_parent (Some "arm_dpll_ck");
     set_ck_clkdm_name (Some "alwon_l3_slow_clkdm");
     set_ck_recalc (Some followparent_recalc_fn)].
Definition dsp_dpll_ck : clk :=
  struct_clk "dsp_dpll_ck" clkops_ti814x_dpll_ops
    [set_ck_parent (Some "osc0_clkin_ck");
     set_ck_dpll_data (Some "dsp_dpll_dd");
     set_ck_clkdm_name (Some "alwon_l3_slow_clkdm");
     set_ck_recalc (Some ti814x_dpll_recalc_fn);
     set_ck_round_rate (Some ti814x_dpll_round_rate_fn);
     set_ck_set_rate (Some ti814x_dpll_set_rate_fn)].
Definition gem_fck : clk :=
  struct_clk "gem_fck" clkops_null
    [set_ck_parent (Some "dsp_dpll_ck");
     set_ck_clkdm_name (Some "gem_clkdm");
     set_ck_recalc (Some followparent_recalc_fn);
     set_ck_set_rate (Some ti814x_clksel_set_rate_fn)].
Definition sgx_dpll_ck : clk :=
  struct_clk "sgx_dpll_ck" clkops_ti814x_dpll_ops
    [set_ck_parent (Some "osc0_clkin_ck");
     set_ck_dpll_data (Some "sgx_dpll_dd");
     set_ck_round_rate (Some ti814x_dpll_round_rate_fn);
     set_ck_set_rate (Some ti814x_dpll_set_rate_fn);
     set_ck_clkdm_name (Some "sgx_clkdm");
     set_ck_recalc (Some ti814x_dpll_recalc_fn)].
Definition sysclk23_ck : clk :=
  struct_clk "sysclk23_ck" clkops_null
    [set_ck_parent (Some "sgx_dpll_ck");
     set_ck_clksel (Some sysclk23_div);
     set_ck_clksel_reg 0xfa1803b0;
     set_ck_clksel_mask 7;
     set_ck_recalc (Some omap2_clksel_recalc_fn);
     set_ck_round_rate (Some omap2_clksel_round_rate_fn);
     set_ck_set_rate (Some omap2_clksel_set_rate_fn)].
Definition sgx_ck : clk :=
  struct_clk "sgx_ck" clkops_omap2_dflt
    [set_ck_parent (Some "sysclk23_ck");
     set_ck_enable_reg 0xfa180920;
     set_ck_enable_bit 1;
     set_ck_clkdm_name (Some "sgx_clkdm");
     set_ck_recalc (Some followparent_recalc_fn);
     set_ck_set_rate (Some ti814x_clksel_set_rate_fn)].
Definition sgx_sys_ck : clk :=
  struct_clk "sgx_sys_ck" clkops_null
    [set_ck_parent (Some "sysclk23_ck");
     set_ck_clkdm_name (Some "sgx_clkdm");
     set_ck_recalc (Some followparent_recalc_fn)].
Definition sgx_mem_ck : clk :=
  struct_clk "sgx_mem_ck" clkops_null
    [set_ck_parent (Some "sysclk23_ck");
     set_ck_clkdm_name (Some "sgx_clkdm");
     set_ck_recalc (Some followparent_recalc_fn)].
Definition hdvicp_dpll_ck : clk :=
  struct_clk "hdvicp_dpll_ck" clkops_ti814x_dpll_ops
    [set_ck_parent (Some "osc0_clkin_ck");
     set_ck_dpll_data (Some "hdvicp_dpll_dd");
     set_ck_clkdm_name (Some "ivahd_clkdm");
     set_ck_recalc (Some ti814x_dpll_recalc_fn);
     set_ck_round_rate (Some ti814x_dpll_round_rate_fn);
     set_ck_set_rate (Some ti814x_dpll_set_rate_fn)].
Definition sysclk3_ck : clk :=
  struct_clk "sysclk3_ck" clkops_null
    [set_ck_parent (Some "hdvicp_dpll_ck");
     set_ck_clksel (Some sysclk3_div);
     set_ck_clksel_reg 0xfa180308;
     set_ck_clksel_mask 7;
     set_ck_recalc (Some omap2_clksel_recalc_fn);
     set_ck_round_rate (Some omap2_clksel_round_rate_fn);
     set_ck_set_rate (Some omap2_clksel_set_rate_fn)].
Definition ivahd0_ck : clk :=
  struct_clk "ivahd0_ck" clkops_omap2_dflt
    [set_ck_parent (Some "sysclk3_ck");
     set_ck_enable_reg 0xfa180620;
     set_ck_enable_bit 1;
     set_ck_clkdm_name (Some "ivahd_clkdm");
     set_ck_recalc (Some followparent_recalc_fn);
     set_ck_set_rate (Some ti814x_clksel_set_rate_fn)].
Definition l3_dpll_clkin_ck : clk :=
  struct_clk "l3_dpll_clkin_ck" clkops_null
    [set_ck_init (Some omap2_init_clksel_parent_fn);
     set_ck_clksel (Some osc_l3dpll_clk_mux_sel);
     set_ck_clksel_reg 0xfa1c52c0;
     set_ck_clksel_mask 1;
     set_ck_recalc (Some omap2_clksel_recalc_fn)].
Definition l3_dpll_ck : clk :=
  struct_clk "l3_dpll_ck" clkops_ti814x_dpll_ops
    [set_ck_parent (Some "l3_dpll_clkin_ck");
     set_ck_dpll_data (Some "l3_dpll_dd");
     set_ck_clkdm_name (Some "alwon_l3_slow_clkdm");
     set_ck_recalc (Some ti814x_dpll_recalc_fn);
     set_ck_round_rate (Some ti814x_dpll_round_rate_fn);
     set_ck_set_rate (Some ti814x_dpll_set_rate_fn)].
Definition sysclk4_ck : clk :=
  struct_clk "sysclk4_ck" clkops_null
    [set_ck_parent (Some "l3_dpll_ck");
     set_ck_recalc (Some followparent_recalc_fn)].
Definition l3_fast_ick : clk :=
  struct_clk "l3_fast_ick" clkops_ti81xx_dflt_wait
    [set_ck_parent (Some "sysclk4_ck");
     set_ck_enable_reg 0xfa1815e4;
     set_ck_enable_bit 1;
     set_ck_clkdm_name (Some "alwon_l3_slow_clkdm");
     set_ck_recalc (Some followparent_recalc_fn)].
Definition ivahd0_ick : clk :=
  struct_clk "ivahd0_ick" clkops_null
    [set_ck_parent (Some "sysclk4_ck");
     set_ck_clkdm_name (Some "ivahd_clkdm");
     set_ck_recalc (Some followparent_recalc_fn)].
Definition exp_slot_ick : clk :=
  struct_clk "exp_slot_ick" clkops_null
    [set_ck_parent (Some "sysclk4_ck");
     set_ck_clkdm_name (Some "ivahd_clkdm");
     set_ck_recalc (Some followparent_recalc_fn)].
Definition mmu_ick : clk :=
  struct_clk "mmu_ick" clkops_ti81xx_dflt_wait
    [set_ck_parent (Some "sysclk4_ck");
     set_ck_enable_reg 0xfa18159c;
     set_ck_enable_bit 1;
     set_ck_clkdm_name (Some "mmu_clkdm");
     set_ck_recalc (Some followparent_recalc_fn)].
Definition gem_ick : clk :=
  struct_clk "gem_ick" clkops_omap2_dflt
    [set_ck_parent (Some "sysclk4_ck");
     set_ck_enable_reg 0xfa180420;
     set_ck_enable_bit 1;
     set_ck_clkdm_name (Some "gem_clkdm");
     set_ck_recalc (Some followparent_recalc_fn)].
Definition tptc0_ick : clk :=
  struct_clk "tptc0_ick" clkops_ti81xx_dflt_wait
    [set_ck_parent (Some "sysclk4_ck");
     set_ck_enable_reg 0xfa1815f8;
     set_ck_enable_bit 1;
     set_ck_clkdm_name (Some "alwon_l3_med_clkdm");
     set_ck_recalc (Some followparent_recalc_fn)].
Definition tptc1_ick : clk :=
  struct_clk "tptc1_ick" clkops_ti81xx_dflt_wait
    [set_ck_parent (Some "sysclk4_ck");
     set_ck_enable_reg 0xfa1815fc;
     set_ck_enable_bit 1;
     set_ck_clkdm_name (Some "alwon_l3_med_clkdm");
     set_ck_recalc (Some followparent_recalc_fn)].
Definition tptc2_ick : clk :=
  struct_clk "tptc2_ick" clkops_ti81xx_dflt_wait
    [set_ck_parent (Some "sysclk4_ck");
     set_ck_enable_reg 0xfa181600;
     set_ck_enable_bit 1;
     set_ck_clkdm_name (Some "alwon_l3_med_clkdm");
     set_ck_recalc (Some followparent_recalc_fn)].
Definition tptc3_ick : clk :=
  struct_clk "tptc3_ick" clkops_ti81xx_dflt_wait
    [set_ck_parent (Some "sysclk4_ck");
     set_ck_enable_reg 0xfa181604;
     set_ck_enable_bit 1;
     set_ck_clkdm_name (Some "alwon_l3_med_clkdm");
     set_ck_recalc (Some followparent_recalc_fn)].
Definition ivahd0_sl2_ick : clk :=
  struct_clk "ivahd0_sl2_ick" clkops_omap2_dflt
    [set_ck_parent (Some "sysclk4_ck");
     set_ck_enable_reg 0xfa180624;
     set_ck_enable_bit 1;
     set_ck_clkdm_name (Some "ivahd_clkdm");
     set_ck_recalc (Some followparent_recalc_fn)].
Definition tpcc_ick : clk :=
  struct_clk "tpcc_ick" clkops_ti81xx_dflt_wait
    [set_ck_parent (Some "sysclk4_ck");
     set_ck_enable_reg 0xfa1815f4;
     set_ck_enable_bit 1;
     set_ck_clkdm_name (Some "alwon_l3_slow_clkdm");
     set_ck_recalc (Some followparent_recalc_fn)].
Definition fdif_ick : clk :=
  struct_clk "fdif_ick" clkops_null
    [set_ck_parent (Some "sysclk4_ck");
     set_ck_clkdm_name (Some "alwon2_l3_med_clkdm");
     set_ck_recalc (Some followparent_recalc_fn)].
Definition hdvpss_l3_ick : clk :=
  struct_clk "hdvpss_l3_ick" clkops_null
    [set_ck_parent (Some "sysclk4_ck");
     set_ck_clkdm_name (Some "hdvpss_clkdm");
     set_ck_recalc (Some followparent_recalc_fn)].
Definition sysclk5_ck : clk :=
  struct_clk "sysclk5_ck" clkops_null
    [set_ck_parent (Some "sysclk4_ck");
     set_ck_recalc (Some followparent_recalc_fn)].
Definition l3_med_ick : clk :=
  struct_clk "l3_med_ick" clkops_ti81xx_dflt_wait
    [set_ck_parent (Some "sysclk5_ck");
     set_ck_enable_reg 0xfa1815e4;
     set_ck_enable_bit 1;
     set_ck_clkdm_name (Some "alwon2_l3_med_clkdm");
     set_ck_recalc (Some followparent_recalc_fn)].
Definition l4_fast_ick : clk :=
  struct_clk "l4_fast_ick" clkops_ti81xx_dflt_wait
    [set_ck_parent (Some "sysclk5_ck");
     set_ck_enable_reg 0xfa1815e8;
     set_ck_enable_bit 1;
     set_ck_clkdm_name (Some "alwon_l3_slow_clkdm");
     set_ck_recalc (Some followparent_recalc_fn)].
Definition securess_ick : clk :=
  struct_clk "securess_ick" clkops_omap2_dflt
    [set_ck_parent (Some "sysclk5_ck");
     set_ck_enable_reg 0xfa1815c8;
     set_ck_enable_bit 1;
     set_ck_clkdm_name (Some "alwon_l3_slow_clkdm");
     set_ck_recalc (Some followparent_recalc_fn)].
Definition tpgsw_ick : clk :=
  struct_clk "tpgsw_ick" clkops_null
    [set_ck_parent (Some "sysclk5_ck");
     set_ck_clkdm_name (Some "alwon_l3_slow_clkdm");
     set_ck_recalc (Some followparent_recalc_fn)].
Definition sata_ick : clk :=
  struct_clk "sata_ick" clkops_ti81xx_dflt_wait
    [set_ck_parent (Some "sysclk5_ck");
     set_ck_enable_reg 0xfa180560;
     set_ck_enable_bit 1;
     set_ck_clkdm_name (Some "alwon2_l3_med_clkdm");
     set_ck_recalc (Some followparent_recalc_fn)].
Definition sata1_ick : clk :=
  struct_clk "sata1_ick" clkops_ti81xx_dflt_wait
    [set_ck_parent (Some "sysclk5_ck");
     set_ck_enable_reg 0xfa180554;
     set_ck_enable_bit 1;
     set_ck_clkdm_name (Some "alwon2_sata1_clkdm");
     set_ck_recalc (Some followparent_recalc_fn)].
Definition pcie_ck : clk :=
  struct_clk "pcie_ck" clkops_ti81xx_pcie
    [set_ck_parent (Some "sysclk5_ck");
     set_ck_enable_reg 0xfa180578;
     set_ck_enable_bit 1;
     set_ck_clkdm_name (Some "alwon2_pcie_clkdm");
     set_ck_recalc (Some followparent_recalc_fn)].
Definition vcp2_fck : clk :=
  struct_clk "vcp2_fck" clkops_ti81xx_dflt_wait
    [set_ck_parent (Some "sysclk5_ck");
     set_ck_enable_reg 0xfa1815b8;
     set_ck_enable_bit 1;
     set_ck_clkdm_name (Some "alwon_l3_med_clkdm");
     set_ck_recalc (Some followparent_recalc_fn)].
Definition mlb_ick : clk :=
  struct_clk "mlb_ick" clkops_ti81xx_dflt_wait
    [set_ck_parent (Some "sysclk5_ck");
     set_ck_enable_reg 0xfa181574;
     set_ck_enable_bit 1;
     set_ck_clkdm_name (Some "alwon_l3_slow_clkdm");
     set_ck_recalc (Some followparent_recalc_fn)].
Definition fdif_fck : clk :=
  struct_clk "fdif_fck" clkops_null
    [set_ck_parent (Some "sysclk5_ck");
     set_ck_clkdm_name (Some "alwon_l3_slow_clkdm");
     set_ck_recalc (Some followparent_recalc_fn)].
Definition dap_ick : clk :=
  struct_clk "dap_ick" clkops_null
    [set_ck_parent (Some "sysclk5_ck");
     set_ck_clkdm_name (Some "alwon_l3_slow_clkdm");
     set_ck_recalc (Some followparent_recalc_fn)].
Definition ocmc_ram_ick : clk :=
  struct_clk "ocmc_ram_ick" clkops_ti81xx_dflt_wait
    [set_ck_parent (Some "sysclk5_ck");
     set_ck_enable_reg 0xfa1815b4;
     set_ck_enable_bit 1;
     set_ck_clkdm_name (Some "alwon_ocmc_clkdm");
     set_ck_recalc (Some followparent_recalc_fn);
     set_ck_flags 8].
Definition mmchs3_ick : clk :=
  struct_clk "mmchs3_ick" clkops_null
    [set_ck_parent (Some "sysclk5_ck");
     set_ck_clkdm_name (Some "alwon_l3_slow_clkdm");
     set_ck_recalc (Some followparent_recalc_fn)].
Definition cpsw_ick : clk :=
  struct_clk "cpsw_ick" clkops_ti81xx_dflt_wait
    [set_ck_parent (Some "sysclk5_ck");
     set_ck_enable_reg 0xfa1815d4;
     set_ck_enable_bit 1;
     set_ck_clkdm_name (Some "alwon_ethernet_clkdm");
     set_ck_recalc (Some followparent_recalc_fn)].
Definition gem_trc_fck : clk :=
  struct_clk "gem_trc_fck" clkops_null
    [set_ck_parent (Some "sysclk5_ck");
     set_ck_clkdm_name (Some "gem_clkdm");
     set_ck_recalc (Some followparent_recalc_fn)].
Definition mcasp4_ick : clk :=
  struct_clk "mcasp4_ick" clkops_null
    [set_ck_parent (Some "sysclk5_ck");
     set_ck_clkdm_name (Some "alwon_l3_slow_clkdm");
     set_ck_recalc (Some followparent_recalc_fn)].
Definition mcasp5_ick : clk :=
  struct_clk "mcasp5_ick" clkops_null
    [set_ck_parent (Some "sysclk5_ck");
     set_ck_clkdm_name (Some "alwon_l3_slow_clkdm");
     set_ck_recalc (Some followparent_recalc_fn)].
Definition mcasp6_ick : clk :=
  struct_clk "mcasp6_ick" clkops_null
    [set_ck_parent (Some "sysclk5_ck");
     set_ck_clkdm_name (Some "alwon_l3_slow_clkdm");
     set_ck_recalc (Some followparent_recalc_fn)].
Definition hdvpss_l4_ick : clk :=
  struct_clk "hdvpss_l4_ick" clkops_null
    [set_ck_parent (Some "sysclk5_ck");
     set_ck_clkdm_name (Some "hdvpss_clkdm");
     set_ck_recalc (Some followparent_recalc_fn)].
Definition sysclk6_ck : clk :=
  struct_clk "sysclk6_ck" clkops_null
    [set_ck_parent (Some "sysclk4_ck");
     set_ck_clksel (Some sysclk6_div);
     set_ck_clksel_reg 0xfa180314;
     set_ck_clksel_mask 1;
     set_ck_recalc (Some omap2_clksel_recalc_fn);
     set_ck_round_rate (Some omap2_clksel_round_rate_fn);
     set_ck_set_rate (Some omap2_clksel_set_rate_fn)].
Definition l3_slow_ick : clk :=
  struct_clk "l3_slow_ick" clkops_ti81xx_dflt_wait
    [set_ck_parent (Some "sysclk6_ck");
     set_ck_enable_reg 0xfa1815e4;
     set_ck_enable_bit 1;
     set_ck_clkdm_name (Some "alwon_l3_slow_clkdm");
     set_ck_recalc (Some followparent_recalc_fn)].
Definition l4_slow_ick : clk :=
  struct_clk "l4_slow_ick" clkops_ti81xx_dflt_wait
    [set_ck_parent (Some "sysclk6_ck");
     set_ck_enable_reg 0xfa1815ec;
     set_ck_enable_bit 1;
     set_ck_clkdm_name (Some "alwon_l3_slow_clkdm");
     set_ck_recalc (Some followparent_recalc_fn)].
Definition uart1_ick : clk :=
  struct_clk "uart1_ick" clkops_null
    [set_ck_parent (Some "sysclk6_ck");
     set_ck_clkdm_name (Some "alwon_l3_slow_clkdm");
     set_ck_recalc (Some followparent_recalc_fn)].
Definition uart2_ick : clk :=
  struct_clk "uart2_ick" clkops_null
    [set_ck_parent (Some "sysclk6_ck");
     set_ck_clkdm_name (Some "alwon_l3_slow_clkdm");
     set_ck_recalc (Some followparent_recalc_fn)].
Definition uart3_ick : clk :=
  struct_clk "uart3_ick" clkops_null
    [set_ck_parent (Some "sysclk6_ck");
     set_ck_clkdm_name (Some "alwon_l3_slow_clkdm");
     set_ck_recalc (Some followparent_recalc_fn)].
Definition uart4_ick : clk :=
  struct_clk "uart4_ick" clkops_null
    [set_ck_parent (Some "sysclk6_ck");
     set_ck_clkdm_name (Some "alwon_l3_slow_clkdm");
     set_ck_recalc (Some followparent_recalc_fn)].
Definition uart5_ick : clk :=
  struct_clk "uart5_ick" clkops_null
    [set_ck_parent (Some "sysclk6_ck");
     set_ck_clkdm_name (Some "alwon_l3_slow_clkdm");
     set_ck_recalc (Some followparent_recalc_fn)].
Definition uart6_ick : clk :=
  struct_clk "uart6_ick" clkops_null
    [set_ck_parent (Some "sysclk6_ck");
     set_ck_clkdm_name (Some "alwon_l3_slow_clkdm");
     set_ck_recalc (Some followparent_recalc_fn)].
Definition i2c1_ick : clk :=
  struct_clk "i2c1_ick" clkops_null
    [set_ck_parent (Some "sysclk6_ck");
     set_ck_clkdm_name (Some "alwon_l3_slow_clkdm");
     set_ck_recalc (Some followparent_recalc_fn)].
Definition i2c2_ick : clk :=
  struct_clk "i2c2_ick" clkops_null
    [set_ck_parent (Some "sysclk6_ck");
     set_ck_clkdm_name (Some "alwon_l3_slow_clkdm");
     set_ck_recalc (Some followparent_recalc_fn)].
Definition i2c3_ick : clk :=
  struct_clk "i2c3_ick" clkops_null
    [set_ck_parent (Some "sysclk6_ck");
     set_ck_clkdm_name (Some "alwon_l3_slow_clkdm");
     set_ck_recalc (Some followparent_recalc_fn)].
Definition i2c4_ick : clk :=
  struct_clk "i2c4_ick" clkops_null
    [set_ck_parent (Some "sysclk6_ck");
     set_ck_clkdm_name (Some "alwon_l3_slow_clkdm");
     set_ck_recalc (Some followparent_recalc_fn)].
Definition mcspi1_ick : clk :=
  struct_clk "mcspi1_ick" clkops_null
    [set_ck_parent (Some "sysclk6_ck");
     set_ck_clkdm_name (Some "alwon_l3_slow_clkdm");
     set_ck_recalc (Some followparent_recalc_fn)].
Definition mcspi2_ick : clk :=
  struct_clk "mcspi2_ick" clkops_null
    [set_ck_parent (Some "sysclk6_ck");
     set_ck_clkdm_name (Some "alwon_l3_slow_clkdm");
     set_ck_recalc (Some followparent_recalc_fn)].
Definition mcspi3_ick : clk :=
  struct_clk "mcspi3_ick" clkops_null
    [set_ck_parent (Some "sysclk6_ck");
     set_ck_clkdm_name (Some "alwon_l3_slow_clkdm");
     set_ck_recalc (Some followparent_recalc_fn)].
Definition mcspi4_ick : clk :=
  struct_clk "mcspi4_ick" clkops_null
    [set_ck_parent (Some "sysclk6_ck");
     set_ck_clkdm_name (Some "alwon_l3_slow_clkdm");
     set_ck_recalc (Some followparent_recalc_fn)].
Definition sdio_ick : clk :=
  struct_clk "sdio_ick" clkops_null
    [set_ck_parent (Some "sysclk6_ck");
     set_ck_clkdm_name (Some "alwon_l3_slow_clkdm");
     set_ck_recalc (Some followparent_recalc_fn)].
Definition gpt1_ick : clk :=
  struct_clk "gpt1_ick" clkops_null
    [set_ck_parent (Some "sysclk6_ck");
     set_ck_clkdm_name (Some "alwon_l3_slow_clkdm");
     set_ck_recalc (Some followparent_recalc_fn)].
Definition gpt2_ick : clk :=
  struct_clk "gpt2_ick" clkops_null
    [set_ck_parent (Some "sysclk6_ck");
     set_ck_clkdm_name (Some "alwon_l3_slow_clkdm");
     set_ck_recalc (Some followparent_recalc_fn)].
Definition gpt3_ick : clk :=
  struct_clk "gpt3_ick" clkops_null
    [set_ck_parent (Some "sysclk6_ck");
     set_ck_clkdm_name (Some "alwon_l3_slow_clkdm");
     set_ck_recalc (Some followparent_recalc_fn)].
Definition gpt4_ick : clk :=
  struct_clk "gpt4_ick" clkops_null
    [set_ck_parent (Some "sysclk6_ck");
     set_ck_clkdm_name (Some "alwon_l3_slow_clkdm");
     set_ck_recalc (Some followparent_recalc_fn)].
Definition gpt5_ick : clk :=
  struct_clk "gpt5_ick" clkops_null
    [set_ck_parent (Some "sysclk6_ck");
     set_ck_clkdm_name (Some "alwon_l3_slow_clkdm");
     set_ck_recalc (Some followparent_recalc_fn)].
Definition gpt6_ick : clk :=
  struct_clk "gpt6_ick" clkops_null
    [set_ck_parent (Some "sysclk6_ck");
     set_ck_clkdm_name (Some "alwon_l3_slow_clkdm");
     set_ck_recalc (Some followparent_recalc_fn)].
Definition gpt7_ick : clk :=
  struct_clk "gpt7_ick" clkops_null
    [set_ck_parent (Some "sysclk6_ck");
     set_ck_clkdm_name (Some "alwon_l3_slow_clkdm");
     set_ck_recalc (Some followparent_recalc_fn)].
Definition gpt8_ick : clk :=
  struct_clk "gpt8_ick" clkops_null
    [set_ck_parent (Some "sysclk6_ck");
     set_ck_clkdm_name (Some "alwon_l3_slow_clkdm");
     set_ck_recalc (Some followparent_recalc_fn)].
Definition gpio234_ick : clk :=
  struct_clk "gpio234_ick" clkops_ti81xx_dflt_wait
    [set_ck_parent (Some "sysclk6_ck");
     set_ck_enable_reg 0xfa181560;
     set_ck_enable_bit 1;
     set_ck_clkdm_name (Some "alwon_l3_slow_clkdm");
     set_ck_recalc (Some followparent_recalc_fn)].
Definition gpio1_ick : clk :=
  struct_clk "gpio1_ick" clkops_ti81xx_dflt_wait
    [set_ck_parent (Some "sysclk6_ck");
     set_ck_enable_reg 0xfa18155c;
     set_ck_enable_bit 1;
     set_ck_clkdm_name (Some "alwon_l3_slow_clkdm");
     set_ck_recalc (Some followparent_recalc_fn)].
Definition gpio2_ick : clk :=
  struct_clk "gpio2_ick" clkops_null
    [set_ck_parent (Some "gpio234_ick");
     set_ck_clkdm_name (Some "alwon_l3_slow_clkdm");
     set_ck_recalc (Some followparent_recalc_fn)].
Definition gpio3_ick : clk :=
  struct_clk "gpio3_ick" clkops_null
    [set_ck_parent (Some "gpio234_ick");
     set_ck_clkdm_name (Some "alwon_l3_slow_clkdm");
     set_ck_recalc (Some followparent_recalc_fn)].
Definition gpio4_ick : clk :=
  struct_clk "gpio4_ick" clkops_null
    [set_ck_parent (Some "gpio234_ick");
     set_ck_clkdm_name (Some "alwon_l3_slow_clkdm");
     set_ck_recalc (Some followparent_recalc_fn)].
Definition prcm_ick : clk :=
  struct_clk "prcm_ick" clkops_null
    [set_ck_parent (Some "sysclk6_ck");
     set_ck_clkdm_name (Some "alwon_l3_slow_clkdm");
     set_ck_recalc (Some followparent_recalc_fn)].
Definition smartcard1_ick : clk :=
  struct_clk "smartcard1_ick" clkops_ti81xx_dflt_wait
    [set_ck_parent (Some "sysclk6_ck");
     set_ck_enable_reg 0xfa1815bc;
     set_ck_enable_bit 1;
     set_ck_clkdm_name (Some "alwon_l3_slow_clkdm");
     set_ck_recalc (Some followparent_recalc_fn)].
Definition smartcard2_ick : clk :=
  struct_clk "smartcard2_ick" clkops_ti81xx_dflt_wait
    [set_ck_parent (Some "sysclk6_ck");
     set_ck_enable_reg 0xfa1815c0;
     set_ck_enable_bit 1;
     set_ck_clkdm_name (Some "alwon_l3_slow_clkdm");
     set_ck_recalc (Some followparent_recalc_fn)].
Definition mcasp1_ick : clk :=
  struct_clk "mcasp1_ick" clkops_null
    [set_ck_parent (Some "sysclk6_ck");
     set_ck_clkdm_name (Some "alwon_l3_slow_clkdm");
     set_ck_recalc (Some followparent_recalc_fn)].
Definition mcasp2_ick : clk :=
  struct_clk "mcasp2_ick" clkops_null
    [set_ck_parent (Some "sysclk6_ck");
     set_ck_clkdm_name (Some "alwon_l3_slow_clkdm");
     set_ck_recalc (Some followparent_recalc_fn)].
Definition mcasp3_ick : clk :=
  struct_clk "mcasp3_ick" clkops_null
    [set_ck_parent (Some "sysclk6_ck");
     set_ck_clkdm_name (Some "alwon_l3_slow_clkdm");
     set_ck_recalc (Some followparent_recalc_fn)].
Definition mcbsp_ick : clk :=
  struct_clk "mcbsp_ick" clkops_null
    [set_ck_parent (Some "sysclk6_ck");
     set_ck_clkdm_name (Some "alwon_l3_slow_clkdm");
     set_ck_recalc (Some followparent_recalc_fn)].
Definition gpmc_fck : clk :=
  struct_clk "gpmc_fck" clkops_ti81xx_dflt_wait
    [set_ck_parent (Some "sysclk6_ck");
     set_ck_enable_reg 0xfa1815d0;
     set_ck_enable_bit 1;
     set_ck_clkdm_name (Some "alwon_l3_slow_clkdm");
     set_ck_recalc (Some followparent_recalc_fn)].
Definition hdmi_ick : clk :=
  struct_clk "hdmi_ick" clkops_null
    [set_ck_parent (Some "sysclk6_ck");
     set_ck_clkdm_name (Some "alwon_l3_slow_clkdm");
     set_ck_recalc (Some followparent_recalc_fn)].
Definition mlbp_ick : clk :=
  struct_clk "mlbp_ick" clkops_ti81xx_dflt_wait
    [set_ck_parent (Some "sysclk6_ck");
     set_ck_enable_reg 0xfa181574;
     set_ck_enable_bit 1;
     set_ck_clkdm_name (Some "alwon_l3_slow_clkdm");
     set_ck_recalc (Some followparent_recalc_fn)].
Definition wdt1_ick : clk :=
  struct_clk "wdt1_ick" clkops_ti81xx_dflt_wait
    [set_ck_parent (Some "sysclk6_ck");
     set_ck_enable_reg 0xfa18158c;
     set_ck_enable_bit 1;
     set_ck_clkdm_name (Some "alwon_l3_slow_clkdm");
     set_ck_recalc (Some followparent_recalc_fn)].
Definition wdt2_ick : clk :=
  struct_clk "wdt2_ick" clkops_null
    [set_ck_parent (Some "sysclk6_ck");
     set_ck_clkdm_name (Some "alwon_l3_slow_clkdm");
     set_ck_recalc (Some followparent_recalc_fn)].
Definition sync_timer_ick : clk :=
  struct_clk "sync_timer_ick" clkops_null
    [set_ck_parent (Some "sysclk6_ck");
     set_ck_clkdm_name (Some "alwon_l3_slow_clkdm");
     set_ck_recalc (Some followparent_recalc_fn)].
Definition pata_ick : clk :=
  struct_clk "pata_ick" clkops_ti81xx_dflt_wait
    [set_ck_parent (Some "sysclk6_ck");
     set_ck_enable_reg 0xfa181578;
     set_ck_enable_bit 1;
     set_ck_clkdm_name (Some "alwon_l3_slow_clkdm");
     set_ck_recalc (Some followparent_recalc_fn)].
Definition mailbox_ick : clk :=
  struct_clk "mailbox_ick" clkops_ti81xx_dflt_wait
    [set_ck_parent (Some "sysclk6_ck");
     set_ck_enable_reg 0xfa181594;
     set_ck_enable_bit 1;
     set_ck_clkdm_name (Some "alwon_l3_slow_clkdm");
     set_ck_recalc (Some followparent_recalc_fn)].
Definition spinbox_ick : clk :=
  struct_clk "spinbox_ick" clkops_ti81xx_dflt_wait
    [set_ck_parent (Some "sysclk6_ck");
     set_ck_enable_reg 0xfa181598;
     set_ck_enable_bit 1;
     set_ck_clkdm_name (Some "alwon_l3_slow_clkdm");
     set_ck_recalc (Some followparent_recalc_fn)].
Definition sr1_ick : clk :=
  struct_clk "sr1_ick" clkops_ti81xx_dflt_wait
    [set_ck_parent (Some "sysclk6_ck");
     set_ck_enable_reg 0xfa181608;
     set_ck_enable_bit 1;
     set_ck_clkdm_name (Some "alwon_l3_slow_clkdm");
     set_ck_recalc (Some followparent_recalc_fn)].
Definition sr2_ick : clk :=
  struct_clk "sr2_ick" clkops_ti81xx_dflt_wait
    [set_ck_parent (Some "sysclk6_ck");
     set_ck_enable_reg 0xfa18160c;
     set_ck_enable_bit 1;
     set_ck_clkdm_name (Some "alwon_l3_slow_clkdm");
     set_ck_recalc (Some followparent_recalc_fn)].
Definition sr3_ick : clk :=
  struct_clk "sr3_ick" clkops_ti81xx_dflt_wait
    [set_ck_parent (Some "sysclk6_ck");
     set_ck_enable_reg 0xfa181610;
     set_ck_enable_bit 1;
     set_ck_clkdm_name (Some "alwon_l3_slow_clkdm");
     set_ck_recalc (Some followparent_recalc_fn)].
Definition sr4_ick : clk :=
  struct_clk "sr4_ick" clkops_ti81xx_dflt_wait
    [set_ck_parent (Some "sysclk6_ck");
     set_ck_enable_reg 0xfa181614;
     set_ck_enable_bit 1;
     set_ck_clkdm_name (Some "alwon_l3_slow_clkdm");
     set_ck_recalc (Some followparent_recalc_fn)].
Definition usbotg_ick : clk :=
  struct_clk "usb_ick" clkops_ti81xx_usb
    [set_ck_parent (Some "sysclk6_ck");
     set_ck_enable_reg 0xfa180558;
     set_ck_enable_bit 1;
     set_ck_clkdm_name (Some "alwon2_usb_clkdm");
     set_ck_recalc (Some followparent_recalc_fn)].
Definition mmu_cfg_ick : clk :=
  struct_clk "mmu_cfg_ick" clkops_ti81xx_dflt_wait
    [set_ck_parent (Some "sysclk6_ck");
     set_ck_enable_reg 0xfa1815a8;
     set_ck_enable_bit 1;
     set_ck_clkdm_name (Some "mmu_cfg_clkdm");
     set_ck_recalc (Some followparent_recalc_fn)].
Definition p1500_ick : clk :=
  struct_clk "p1500_ick" clkops_null
    [set_ck_parent (Some "sysclk6_ck");
     set_ck_clkdm_name (Some "alwon_l3_slow_clkdm");
     set_ck_recalc (Some followparent_recalc_fn)].
Definition elm_ick : clk :=
  struct_clk "elm_ick" clkops_null
    [set_ck_parent (Some "sysclk6_ck");
     set_ck_clkdm_name (Some "alwon_l3_slow_clkdm");
     set_ck_recalc (Some followparent_recalc_fn)].
Definition elm_fck : clk :=
  struct_clk "elm_fck" clkops_null
    [set_ck_parent (Some "sysclk6_ck");
     set_ck_clkdm_name (Some "alwon_l3_slow_clkdm");
     set_ck_recalc (Some followparent_recalc_fn)].
Definition mmchs1_ick : clk :=
  struct_clk "mmchs1_ick" clkops_null
    [set_ck_parent (Some "sysclk6_ck");
     set_ck_clkdm_name (Some "alwon_l3_slow_clkdm");
     set_ck_recalc (Some followparent_recalc_fn)].
Definition mmchs2_ick : clk :=
  struct_clk "mmchs2_ick" clkops_null
    [set_ck_parent (Some "sysclk6_ck");
     set_ck_clkdm_name (Some "alwon_l3_slow_clkdm");
     set_ck_recalc (Some followparent_recalc_fn)].
Definition atl_ick : clk :=
  struct_clk "atl_ick" clkops_null
    [set_ck_parent (Some "sysclk6_ck");
     set_ck_clkdm_name (Some "alwon_l3_slow_clkdm");
     set_ck_recalc (Some followparent_recalc_fn)].
Definition fdif_enb_ck : clk :=
  struct_clk "fdif_enb_ck" clkops_ti81xx_dflt_wait
    [set_ck_parent (Some "sysclk6_ck");
     set_ck_enable_reg 0xfa180724;
     set_ck_enable_bit 1;
     set_ck_clkdm_name (Some "alwon_l3_slow_clkdm");
     set_ck_recalc (Some followparent_recalc_fn)].
Definition rtc_c32k_ick : clk :=
  struct_clk "rtc_c32k_ick" clkops_null
    [set_ck_parent (Some "sysclk6_ck");
     set_ck_clkdm_name (Some "alwon_l3_slow_clkdm");
     set_ck_recalc (Some followparent_recalc_fn)].
Definition dcan0_ick : clk :=
  struct_clk "dcan0_ick" clkops_null
    [set_ck_parent (Some "sysclk6_ck");
     set_ck_clkdm_name (Some "alwon_l3_slow_clkdm");
     set_ck_recalc (Some followparent_recalc_fn)].
Definition dcan1_ick : clk :=
  struct_clk "dcan1_ick" clkops_null
    [set_ck_parent (Some "sysclk6_ck");
     set_ck_clkdm_name (Some "alwon_l3_slow_clkdm");
     set_ck_recalc (Some followparent_recalc_fn)].
Definition iss_dpll_ck : clk :=
  struct_clk "iss_dpll_ck" clkops_ti814x_dpll_ops
    [set_ck_parent (Some "osc0_clkin_ck");
     set_ck_dpll_data (Some "iss_dpll_dd");
     set_ck_clkdm_name (Some "alwon_l3_slow_clkdm");
     set_ck_recalc (Some ti814x_dpll_recalc_fn);
     set_ck_round_rate (Some ti814x_dpll_round_rate_fn);
     set_ck_set_rate (Some ti814x_dpll_set_rate_fn)].
Definition iss_ick : clk :=
  struct_clk "iss_ick" clkops_null
    [set_ck_parent (Some "iss_dpll_ck");
     set_ck_clkdm_name (Some "alwon_l3_slow_clkdm");
     set_ck_recalc (Some followparent_recalc_fn);
     set_ck_set_rate (Some ti814x_clksel_set_rate_fn)].
Definition isp_ick : clk :=
  struct_clk "isp_ick" clkops_ti81xx_dflt_wait
    [set_ck_parent (Some "iss_dpll_ck");
     set_ck_enable_reg 0xfa180720;
     set_ck_enable_bit 1;
     set_ck_clkdm_name (Some "isp_clkdm");
     set_ck_recalc (Some followparent_recalc_fn)].
Definition tppss_tso_ick : clk :=
  struct_clk "tppss_tso_ick" clkops_null
    [set_ck_parent (Some "iss_dpll_ck");
     set_ck_clkdm_name (Some "iss_clkdm");
     set_ck_recalc (Some followparent_recalc_fn);
     set_ck_set_rate (Some ti814x_clksel_set_rate_fn)].
Definition iss_dpll_d2_ck : clk :=
  struct_clk "iss_dpll_d2_ck" clkops_null
    [set_ck_parent (Some "iss_dpll_ck");
     set_ck_clkdm_name (Some "iss_clkdm");
     set_ck_fixed_div 2;
     set_ck_recalc (Some omap_fixed_divisor_recalc_fn)].
Definition ducati_ick : clk :=
  struct_clk "ducati_ick" clkops_omap2_dflt
    [set_ck_parent (Some "iss_dpll_d2_ck");
     set_ck_enable_reg 0xfa180574;
     set_ck_enable_bit 1;
     set_ck_clkdm_name (Some "alwon2_mc_clkdm");
     set_ck_recalc (Some followparent_recalc_fn)].
Definition hdvpss_dpll_ck : clk :=
  struct_clk "hdvpss_dpll_ck" clkops_ti814x_dpll_ops
    [set_ck_parent (Some "osc0_clkin_ck");
     set_ck_dpll_data (Some "hdvpss_dpll_dd");
     set_ck_round_rate (Some ti814x_dpll_round_rate_fn);
     set_ck_set_rate (Some ti814x_dpll_set_rate_fn);
     set_ck_clkdm_name (Some "hdvpss_clkdm");
     set_ck_recalc (Some ti814x_dpll_recalc_fn)].
Definition hdvpss_proc_fck : clk :=
  struct_clk "hdvpss_proc_fck" clkops_null
    [set_ck_parent (Some "hdvpss_dpll_ck");
     set_ck_clkdm_name (Some "hdvpss_clkdm");
     set_ck_recalc (Some followparent_recalc_fn);
     set_ck_set_rate (Some ti814x_clksel_set_rate_fn)].
Definition hdvpss_proc_d2_fck : clk :=
  struct_clk "hdvpss_proc_d2_fck" clkops_null
    [set_ck_parent (Some "hdvpss_dpll_ck");
     set_ck_clkdm_name (Some "hdvpss_clkdm");
     set_ck_fixed_div 2;
     set_ck_recalc (Some omap_fixed_divisor_recalc_fn)].
Definition dvi_ch1_ck : clk :=
  struct_clk "dvi_ch1_ck" clkops_null
    [set_ck_rate 0x9e4f580;
     set_ck_flags 64].
Definition dvi_ch2_ck : clk :=
  struct_clk "dvi_ch2_ck" clkops_null
    [set_ck_rate 0x9e4f580;
     set_ck_flags 64].
Definition dvi_ch3_ck : clk :=
  struct_clk "dvi_ch3_ck" clkops_null
    [set_ck_rate 0x9e4f580;
     set_ck_flags 64].
Definition dvi_ch4_ck : clk :=
  struct_clk "dvi_ch4_ck" clkops_null
    [set_ck_rate 0x9e4f580;
     set_ck_flags 64].
Definition dvoi1_ck : clk :=
  struct_clk "dvoi1_ck" clkops_null
    [set_ck_rate 0x9a7ec80;
     set_ck_flags 64].
Definition dvoi2_ck : clk :=
  struct_clk "dvoi2_ck" clkops_null
    [set_ck_rate 0x9a7ec80;
     set_ck_flags 64].
Definition usb_dpll_clkin_ck : clk :=
  struct_clk "usb_dpll_clkin_ck" clkops_null
    [set_ck_parent (Some "osc0_clkin_ck");
     set_ck_recalc (Some followparent_recalc_fn)].
Definition usb_dpll_ck : clk :=
  struct_clk "usb_dpll_ck" clkops_ti814x_dpll_ops
    [set_ck_parent (Some "usb_dpll_clkin_ck");
     set_ck_dpll_data (Some "usb_dpll_dd");
     set_ck_clkdm_name (Some "alwon2_usb_clkdm");
     set_ck_recalc (Some ti814x_dpll_recalc_fn);
     set_ck_round_rate (Some ti814x_dpll_round_rate_fn);
     set_ck_set_rate (Some ti814x_dpll_set_rate_fn)].
Definition usb_phy0_rclk_ick : clk :=
  struct_clk "usb_phy0_rclk_ick" clkops_null
    [set_ck_parent (Some "usb_dpll_clkin_ck");
     set_ck_dpll_data (Some "usb_dpll_dd");
     set_ck_clkdm_name (Some "alwon2_usb_clkdm");
     set_ck_recalc (Some ti814x_dpll_dco_recalc_fn)].
Definition usb_phy1_rclk_ick : clk :=
  struct_clk "usb_phy1_rclk_ick" clkops_null
    [set_ck_parent (Some "usb_dpll_clkin_ck");
     set_ck_dpll_data (Some "usb_dpll_dd");
     set_ck_clkdm_name (Some "alwon2_usb_clkdm");
     set_ck_recalc (Some ti814x_dpll_dco_recalc_fn)].
Definition usb_dpll_div5_ck : clk :=
  struct_clk "usb_dpll_clk2_ck" clkops_null
    [set_ck_parent (Some "usb_dpll_ck");
     set_ck_fixed_div 5;
     set_ck_recalc (Some omap_fixed_divisor_recalc_fn)].
Definition sysclk10_ck : clk :=
  struct_clk "sysclk10_ck" clkops_null
    [set_ck_parent (Some "usb_dpll_div5_ck");
     set_ck_clksel (Some sysclk10_div);
     set_ck_clksel_reg 0xfa180324;
     set_ck_clksel_mask 7;
     set_ck_recalc (Some omap2_clksel_recalc_fn)].
Definition mcspi1_fck : clk :=
  struct_clk "mcspi1_fck" clkops_ti81xx_dflt_wait
    [set_ck_parent (Some "sysclk10_ck");
     set_ck_enable_reg 0xfa181590;
     set_ck_enable_bit 1;
     set_ck_clkdm_name (Some "alwon_l3_slow_clkdm");
     set_ck_recalc (Some followparent_recalc_fn)].
Definition mcspi2_fck : clk :=
  struct_clk "mcspi2_fck" clkops_ti81xx_dflt_wait
    [set_ck_parent (Some "sysclk10_ck");
     set_ck_enable_reg 0xfa181590;
     set_ck_enable_bit 1;
     set_ck_clkdm_name (Some "alwon_l3_slow_clkdm");
     set_ck_recalc (Some followparent_recalc_fn)].
Definition mcspi3_fck : clk :=
  struct_clk "mcspi3_fck" clkops_ti81xx_dflt_wait
    [set_ck_parent (Some "sysclk10_ck");
     set_ck_enable_reg 0xfa181590;
     set_ck_enable_bit 1;
     set_ck_clkdm_name (Some "alwon_l3_slow_clkdm");
     set_ck_recalc (Some followparent_recalc_fn)].
Definition mcspi4_fck : clk :=
  struct_clk "mcspi4_fck" clkops_ti81xx_dflt_wait
    [set_ck_parent (Some "sysclk10_ck");
     set_ck_enable_reg 0xfa181590;
     set_ck_enable_bit 1;
     set_ck_clkdm_name (Some "alwon_l3_slow_clkdm");
     set_ck_recalc (Some followparent_recalc_fn)].
Definition i2c02_ck : clk :=
  struct_clk "i2c02_ck" clkops_ti81xx_dflt_wait
    [set_ck_parent (Some "sysclk10_ck");
     set_ck_enable_reg 0xfa181564;
     set_ck_enable_bit 1;
     set_ck_clkdm_name (Some "alwon_l3_slow_clkdm");
     set_ck_recalc (Some followparent_recalc_fn)].
Definition i2c13_ck : clk :=
  struct_clk "i2c13_ck" clkops_ti81xx_dflt_wait
    [set_ck_parent (Some "sysclk10_ck");
     set_ck_enable_reg 0xfa181568;
     set_ck_enable_bit 1;
     set_ck_clkdm_name (Some "alwon_l3_slow_clkdm");
     set_ck_recalc (Some followparent_recalc_fn)].
Definition i2c1_fck : clk :=
  struct_clk "i2c1_fck" clkops_null
    [set_ck_parent (Some "i2c02_ck");
     set_ck_clkdm_name (Some "alwon_l3_slow_clkdm");
     set_ck_recalc (Some followparent_recalc_fn)].
Definition i2c2_fck : clk :=
  struct_clk "i2c2_fck" clkops_null
    [set_ck_parent (Some "i2c13_ck");
     set_ck_clkdm_name (Some "alwon_l3_slow_clkdm");
     set_ck_recalc (Some followparent_recalc_fn)].
Definition i2c3_fck : clk :=
  struct_clk "i2c3_fck" clkops_null
    [set_ck_parent (Some "i2c02_ck");
     set_ck_clkdm_name (Some "alwon_l3_slow_clkdm");
     set_ck_recalc (Some followparent_recalc_fn)].
Definition i2c4_fck : clk :=
  struct_clk "i2c4_fck" clkops_null
    [set_ck_parent (Some "i2c13_ck");
     set_ck_clkdm_name (Some "alwon_l3_slow_clkdm");
     set_ck_recalc (Some followparent_recalc_fn)].
Definition uart1_fck : clk :=
  struct_clk "uart1_fck" clkops_ti81xx_dflt_wait
    [set_ck_parent (Some "sysclk10_ck");
     set_ck_enable_reg 0xfa181550;
     set_ck_enable_bit 1;
     set_ck_clkdm_name (Some "alwon_l3_slow_clkdm");
     set_ck_recalc (Some followparent_recalc_fn)].
Definition uart2_fck : clk :=
  struct_clk "uart2_fck" clkops_ti81xx_dflt_wait
    [set_ck_parent (Some "sysclk10_ck");
     set_ck_enable_reg 0xfa181554;
     set_ck_enable_bit 1;
     set_ck_clkdm_name (Some "alwon_l3_slow_clkdm");
     set_ck_recalc (Some followparent_recalc_fn)].
Definition uart3_fck : clk :=
  struct_clk "uart3_fck" clkops_ti81xx_dflt_wait
    [set_ck_parent (Some "sysclk10_ck");
     set_ck_enable_reg 0xfa181558;
     set_ck_enable_bit 1;
     set_ck_clkdm_name (Some "alwon_l3_slow_clkdm");
     set_ck_recalc (Some followparent_recalc_fn)].
Definition hdmi_cec_dcc_fck : clk :=
  struct_clk "hdmi_cec_dcc_fck" clkops_null
    [set_ck_parent (Some "sysclk10_ck");
     set_ck_clkdm_name (Some "alwon_l3_slow_clkdm");
     set_ck_recalc (Some followparent_recalc_fn)].
Definition sysclk8_ck : clk :=
  struct_clk "sysclk8_ck" clkops_null
    [set_ck_parent (Some "usb_dpll_div5_ck");
     set_ck_clksel (Some sysclk8_div);
     set_ck_recalc (Some followparent_recalc_fn)].
Definition mmchs1_fck : clk :=
  struct_clk "mmchs1_fck" clkops_ti81xx_dflt_wait
    [set_ck_parent (Some "sysclk8_ck");
     set_ck_enable_reg 0xfa18161c;
     set_ck_enable_bit 1;
     set_ck_clkdm_name (Some "alwon_l3_slow_clkdm");
     set_ck_recalc (Some followparent_recalc_fn)].
Definition mmchs2_fck : clk :=
  struct_clk "mmchs2_fck" clkops_ti81xx_dflt_wait
    [set_ck_parent (Some "sysclk8_ck");
     set_ck_enable_reg 0xfa181620;
     set_ck_enable_bit 1;
     set_ck_clkdm_name (Some "alwon_l3_slow_clkdm");
     set_ck_recalc (Some followparent_recalc_fn)].
Definition mmchs3_fck : clk :=
  struct_clk "mmchs3_fck" clkops_ti81xx_dflt_wait
    [set_ck_parent (Some "sysclk8_ck");
     set_ck_enable_reg 0xfa181624;
     set_ck_enable_bit 1;
     set_ck_clkdm_name (Some "alwon_l3_slow_clkdm");
     set_ck_recalc (Some followparent_recalc_fn)].
Definition uart4_fck : clk :=
  struct_clk "uart4_fck" clkops_ti81xx_dflt_wait
    [set_ck_init (Some omap2_init_clksel_parent_fn);
     set_ck_enable_reg 0xfa181580;
     set_ck_enable_bit 1;
     set_ck_clksel (Some uart456_mux_sel);
     set_ck_clksel_reg 0xfa1c52d8;
     set_ck_clksel_mask 24;
     set_ck_clkdm_name (Some "alwon_l3_slow_clkdm");
     set_ck_recalc (Some omap2_clksel_recalc_fn);
     set_ck_set_rate (Some ti814x_clksel_set_rate_fn)].
Definition uart5_fck : clk :=
  struct_clk "uart5_fck" clkops_ti81xx_dflt_wait
    [set_ck_init (Some omap2_init_clksel_parent_fn);
     set_ck_enable_reg 0xfa181584;
     set_ck_enable_bit 1;
     set_ck_clksel (Some uart456_mux_sel);
     set_ck_clksel_reg 0xfa1c52d8;
     set_ck_clksel_mask 24;
     set_ck_clkdm_name (Some "alwon_l3_slow_clkdm");
     set_ck_recalc (Some omap2_clksel_recalc_fn);
     set_ck_set_rate (Some ti814x_clksel_set_rate_fn)].
Definition uart6_fck : clk :=
  struct_clk "uart6_fck" clkops_ti81xx_dflt_wait
    [set_ck_init (Some omap2_init_clksel_parent_fn);
     set_ck_enable_reg 0xfa181588;
     set_ck_enable_bit 1;
     set_ck_clksel (Some uart456_mux_sel);
     set_ck_clksel_reg 0xfa1c52d8;
     set_ck_clksel_mask 24;
     set_ck_clkdm_name (Some "alwon_l3_slow_clkdm");
     set_ck_recalc (Some omap2_clksel_recalc_fn);
     set_ck_set_rate (Some ti814x_clksel_set_rate_fn)].
Definition securess_fck : clk :=
  struct_clk "securess_fck" clkops_omap2_dflt
    [set_ck_init (Some omap2_init_clksel_parent_fn);
     set_ck_enable_reg 0xfa1815c8;
     set_ck_enable_bit 1;
     set_ck_clksel (Some secureSS_mux_sel);
     set_ck_clksel_reg 0xfa1c52ec;
     set_ck_clksel_mask 1;
     set_ck_clkdm_name (Some "alwon_l3_med_clkdm");
     set_ck_recalc (Some omap2_clksel_recalc_fn)].
Definition tppss_fck : clk :=
  struct_clk "tppss_fck" clkops_null
    [set_ck_parent (Some "iss_dpll_ck");
     set_ck_clkdm_name (Some "alwon_l3_slow_clkdm");
     set_ck_fixed_div 2;
     set_ck_recalc (Some omap_fixed_divisor_recalc_fn)].
Definition csi2_phy_fck : clk :=
  struct_clk "csi2_phy_fck" clkops_null
    [set_ck_parent (Some "usb_dpll_div5_ck");
     set_ck_clkdm_name (Some "alwon_l3_slow_clkdm");
     set_ck_fixed_div 2;
     set_ck_recalc (Some omap_fixed_divisor_recalc_fn)].
Definition ddr_dpll_clkin_ck : clk :=
  struct_clk "ddr_dpll_clkin_ck" clkops_null
    [set_ck_parent (Some "osc0_clkin_ck");
     set_ck_recalc (Some followparent_recalc_fn)].
Definition ddr_dpll_ck : clk :=
  struct_clk "ddr_dpll_ck" clkops_ti814x_dpll_ops
    [set_ck_parent (Some "ddr_dpll_clkin_ck");
     set_ck_dpll_data (Some "ddr_dpll_dd");
     set_ck_clkdm_name (Some "alwon_l3_slow_clkdm");
     set_ck_recalc (Some ti814x_dpll_recalc_fn);
     set_ck_round_rate (Some ti814x_dpll_round_rate_fn);
     set_ck_set_rate (Some ti814x_dpll_set_rate_fn)].
Definition ddr0_phy_fck : clk :=
  struct_clk "ddr0_phy_fck" clkops_omap2_dflt
    [set_ck_parent (Some "ddr_dpll_ck");
     set_ck_enable_reg 0xfa1c530c;
     set_ck_enable_bit 2;
     set_ck_clkdm_name (Some "alwon_l3_slow_clkdm");
     set_ck_recalc (Some followparent_recalc_fn)].
Definition ddr1_phy_fck : clk :=
  struct_clk "ddr1_phy_fck" clkops_omap2_dflt
    [set_ck_parent (Some "ddr_dpll_ck");
     set_ck_enable_reg 0xfa1c530c;
     set_ck_enable_bit 0;
     set_ck_clkdm_name (Some "alwon_l3_slow_clkdm");
     set_ck_recalc (Some followparent_recalc_fn)].
Definition ddr0_half_fck : clk :=
  struct_clk "ddr0_half_fck" clkops_omap2_dflt
    [set_ck_parent (Some "ddr_dpll_ck");
     set_ck_enable_reg 0xfa1c530c;
     set_ck_enable_bit 0;
     set_ck_clkdm_name (Some "alwon_l3_slow_clkdm");
     set_ck_fixed_div 2;
     set_ck_recalc (Some omap_fixed_divisor_recalc_fn)].
Definition ddr1_half_fck : clk :=
  struct_clk "ddr1_half_fck" clkops_omap2_dflt
    [set_ck_parent (Some "ddr_dpll_ck");
     set_ck_enable_reg 0xfa1c530c;
     set_ck_enable_bit 2;
     set_ck_clkdm_name (Some "alwon_l3_slow_clkdm");
     set_ck_fixed_div 2;
     set_ck_recalc (Some omap_fixed_divisor_recalc_fn)].
Definition ddr0_phy_d2_fck : clk :=
  struct_clk "ddr0_phy_d2_fck" clkops_null
    [set_ck_parent (Some "ddr0_half_fck");
     set_ck_clkdm_name (Some "alwon_l3_slow_clkdm");
     set_ck_recalc (Some followparent_recalc_fn)].
Definition ddr0_emif_fck : clk :=
  struct_clk "ddr0_emif_fck" clkops_null
    [set_ck_parent (Some "ddr0_half_fck");
     set_ck_clkdm_name (Some "alwon_l3_slow_clkdm");
     set_ck_recalc (Some followparent_recalc_fn)].
Definition dmm_phy_fck : clk :=
  struct_clk "dmm_phy_fck" clkops_null
    [set_ck_parent (Some "ddr0_half_fck");
     set_ck_clkdm_name (Some "alwon_l3_slow_clkdm");
     set_ck_recalc (Some followparent_recalc_fn)].
Definition ddr1_phy_d2_fck : clk :=
  struct_clk "ddr1_phy_d2_fck" clkops_null
    [set_ck_parent (Some "ddr1_half_fck");
     set_ck_clkdm_name (Some "alwon_l3_slow_clkdm");
     set_ck_recalc (Some followparent_recalc_fn)].
Definition ddr1_emif_fck : clk :=
  struct_clk "ddr1_emif_fck" clkops_null
    [set_ck_parent (Some "ddr1_half_fck");
     set_ck_clkdm_name (Some "alwon_l3_slow_clkdm");
     set_ck_recalc (Some followparent_recalc_fn)].
Definition video0_dpll_clkin_ck : clk :=
  struct_clk "video0_dpll_clkin_ck" clkops_null
    [set_ck_init (Some omap2_init_clksel_parent_fn);
     set_ck_clksel (Some osc_video0_dpll_mux_sel);
     set_ck_clksel_reg 0xfa1c52c0;
     set_ck_clksel_mask 0x10000;
     set_ck_recalc (Some omap2_clksel_recalc_fn)].
Definition video0_dpll_ck : clk :=
  struct_clk "video0_dpll_ck" clkops_ti814x_dpll_ops
    [set_ck_parent (Some "video0_dpll_clkin_ck");
     set_ck_dpll_data (Some "video0_dpll_dd");
     set_ck_clkdm_name (Some "alwon_l3_slow_clkdm");
     set_ck_recalc (Some ti814x_dpll_recalc_fn);
     set_ck_round_rate (Some ti814x_dpll_round_rate_fn);
     set_ck_set_rate (Some ti814x_dpll_set_rate_fn)].
Definition video1_dpll_clkin_ck : clk :=
  struct_clk "video1_dpll_clkin_ck" clkops_null
    [set_ck_init (Some omap2_init_clksel_parent_fn);
     set_ck_clksel (Some osc_video1_dpll_mux_sel);
     set_ck_clksel_reg 0xfa1c52c0;
     set_ck_clksel_mask 0x20000;
     set_ck_recalc (Some omap2_clksel_recalc_fn)].
Definition video1_dpll_ck : clk :=
  struct_clk "video1_dpll_ck" clkops_ti814x_dpll_ops
    [set_ck_parent (Some "video1_dpll_clkin_ck");
     set_ck_dpll_data (Some "video1_dpll_dd");
     set_ck_clkdm_name (Some "alwon_l3_slow_clkdm");
     set_ck_recalc (Some ti814x_dpll_recalc_fn);
     set_ck_round_rate (Some ti814x_dpll_round_rate_fn);
     set_ck_set_rate (Some ti814x_dpll_set_rate_fn)].
Definition hdmi_dpll_clkin_ck : clk :=
  struct_clk "hdmi_dpll_clkin_ck" clkops_null
    [set_ck_init (Some omap2_init_clksel_parent_fn);
     set_ck_clksel (Some osc_hdmi_dpll_mux_sel);
     set_ck_clksel_reg 0xfa1c52c0;
     set_ck_clksel_mask 0x40000;
     set_ck_recalc (Some omap2_clksel_recalc_fn)].
Definition hdmi_dpll_ck : clk :=
  struct_clk "hdmi_dpll_ck" clkops_ti814x_dpll_ops
    [set_ck_parent (Some "hdmi_dpll_clkin_ck");
     set_ck_dpll_data (Some "hdmi_dpll_dd");
     set_ck_clkdm_name (Some "alwon_l3_slow_clkdm");
     set_ck_recalc (Some ti814x_dpll_recalc_fn);
     set_ck_round_rate (Some ti814x_dpll_round_rate_fn);
     set_ck_set_rate (Some ti814x_dpll_set_rate_fn)].
Definition video_m_pclk_ck : clk :=
  struct_clk "video_m_pclk_ck" clkops_null
    [set_ck_rate 0x9d5b340;
     set_ck_flags 96].
Definition hdmi_phy_tclk_ck : clk :=
  struct_clk "hdmi_phy_tclk_ck" clkops_null
    [set_ck_rate 0xb1069a8;
     set_ck_flags 96].
Definition hdmi_dpll_muxout_ck : clk :=
  struct_clk "hdmi_dpll_muxout_ck" clkops_null
    [set_ck_init (Some omap2_init_clksel_parent_fn);
     set_ck_clksel (Some video_dpll_clk_mux_sel);
     set_ck_clksel_reg 0xfa1c52c8;
     set_ck_clksel_mask 1;
     set_ck_recalc (Some omap2_clksel_recalc_fn);
     set_ck_set_rate (Some ti814x_clksel_set_rate_fn)].
Definition video012_dpll_muxout_ck : clk :=
  struct_clk "video012_dpll_muxout_ck" clkops_null
    [set_ck_init (Some omap2_init_clksel_parent_fn);
     set_ck_clksel (Some audio_dpll_prcm_mux_sel);
     set_ck_clksel_reg 0xfa1c52c8;
     set_ck_clksel_mask 0x300;
     set_ck_recalc (Some omap2_clksel_recalc_fn);
     set_ck_set_rate (Some ti814x_clksel_set_rate_fn)].
Definition sysclk16_d1mux_ck : clk :=
  struct_clk "sysclk16_d1mux_ck" clkops_null
    [set_ck_parent (Some "video0_dpll_ck");
     set_ck_clksel (Some sysclk16_d1_div);
     set_ck_clksel_reg 0xfa180348;
     set_ck_clksel_mask 7;
     set_ck_recalc (Some omap2_clksel_recalc_fn);
     set_ck_set_rate (Some ti814x_clksel_set_rate_fn)].
Definition sysclk16_b3mux_ck : clk :=
  struct_clk "sysclk16_b3mux_ck" clkops_null
    [set_ck_parent (Some "hdmi_dpll_muxout_ck");
     set_ck_clksel (Some sysclk16_b3_div);
     set_ck_clksel_reg 0xfa180340;
     set_ck_clksel_mask 3;
     set_ck_recalc (Some omap2_clksel_recalc_fn);
     set_ck_round_rate (Some omap2_clksel_round_rate_fn);
     set_ck_set_rate (Some omap2_clksel_set_rate_fn)].
Definition sysclk14_c1mux_ck : clk :=
  struct_clk "sysclk14_c1mux_ck" clkops_null
    [set_ck_parent (Some "video1_dpll_ck");
     set_ck_clksel (Some sysclk14_c1_div);
     set_ck_clksel_reg 0xfa180344;
     set_ck_clksel_mask 1;
     set_ck_recalc (Some omap2_clksel_recalc_fn)].
Definition sysclk16_ck : clk :=
  struct_clk "sysclk16_ck" clkops_null
    [set_ck_init (Some omap2_init_clksel_parent_fn);
     set_ck_clksel (Some sysclk16_clk_mux_sel);
     set_ck_clksel_reg 0xfa180374;
     set_ck_clksel_mask 1;
     set_ck_recalc (Some omap2_clksel_recalc_fn);
     set_ck_round_rate (Some omap2_clksel_round_rate_fn);
     set_ck_set_rate (Some omap2_clksel_set_rate_fn)].
Definition tppss_stc1_fck : clk :=
  struct_clk "tppss_stc1_fck" clkops_null
    [set_ck_parent (Some "sysclk16_ck");
     set_ck_clkdm_name (Some "alwon_l3_slow_clkdm");
     set_ck_recalc (Some followparent_recalc_fn);
     set_ck_set_rate (Some ti814x_clksel_set_rate_fn)].
Definition hd_venc_g_ck : clk :=
  struct_clk "hd_venc_g_ck" clkops_null
    [set_ck_init (Some omap2_init_clksel_parent_fn);
     set_ck_clksel (Some hdvpss_clk_mux_sel);
     set_ck_clksel_reg 0xfa1c52c8;
     set_ck_clksel_mask 0x1000000;
     set_ck_clkdm_name (Some "alwon_l3_slow_clkdm");
     set_ck_recalc (Some omap2_clksel_recalc_fn);
     set_ck_set_rate (Some ti814x_clksel_set_rate_fn)].
Definition hd_venc_d_ck : clk :=
  struct_clk "hd_venc_d_ck" clkops_null
    [set_ck_parent (Some "hdmi_dpll_muxout_ck");
     set_ck_clkdm_name (Some "alwon_l3_slow_clkdm");
     set_ck_recalc (Some followparent_recalc_fn)].
Definition hd_venc_a_ck : clk :=
  struct_clk "hd_venc_a_ck" clkops_null
    [set_ck_init (Some omap2_init_clksel_parent_fn);
     set_ck_clksel (Some hd_venc_a_mux_sel);
     set_ck_clksel_reg 0xfa1c52f8;
     set_ck_clksel_mask 3;
     set_ck_clkdm_name (Some "alwon_l3_slow_clkdm");
     set_ck_recalc (Some omap2_clksel_recalc_fn);
     set_ck_set_rate (Some ti814x_clksel_set_rate_fn)].
Definition hd_dac_ck : clk :=
  struct_clk "hd_dac_ck" clkops_null
    [set_ck_parent (Some "hd_venc_a_ck");
     set_ck_clkdm_name (Some "alwon_l3_slow_clkdm");
     set_ck_recalc (Some followparent_recalc_fn)].
Definition hdmi_phy_gclk_ck : clk :=
  struct_clk "hdmi_phy_gclk_ck" clkops_null
    [set_ck_parent (Some "hd_venc_d_ck");
     set_ck_clkdm_name (Some "alwon_l3_slow_clkdm");
     set_ck_recalc (Some followparent_recalc_fn)].
Definition sd_venc_ck : clk :=
  struct_clk "sd_venc_ck" clkops_null
    [set_ck_parent (Some "video0_dpll_ck");
     set_ck_clkdm_name (Some "alwon_l3_slow_clkdm");
     set_ck_recalc (Some followparent_recalc_fn)].
Definition sysclk14_ck : clk :=
  struct_clk "sysclk14_ck" clkops_null
    [set_ck_init (Some omap2_init_clksel_parent_fn);
     set_ck_clksel (Some sysclk14_ck_mux_sel);
     set_ck_clksel_reg 0xfa180370;
     set_ck_clksel_mask 3;
     set_ck_recalc (Some omap2_clksel_recalc_fn)].
Definition tppss_stc0_fck : clk :=
  struct_clk "tppss_stc0_fck" clkops_null
    [set_ck_init (Some omap2_init_clksel_parent_fn);
     set_ck_clksel (Some video_dpll_xref_ck_mux_sel);
     set_ck_clksel_reg 0xfa1c52c8;
     set_ck_clksel_mask 0x30000;
     set_ck_clkdm_name (Some "alwon_l3_slow_clkdm");
     set_ck_recalc (Some omap2_clksel_recalc_fn)].
Definition audio_dpll_clk2_ck : clk :=
  struct_clk "audio_dpll_clk2_ck" clkops_null
    [set_ck_init (Some omap2_init_clksel_parent_fn);
     set_ck_clksel (Some tppss_tso_dclk_mux_sel);
     set_ck_clksel_reg 0xfa1c52c8;
     set_ck_clksel_mask 0xc0000;
     set_ck_recalc (Some omap2_clksel_recalc_fn)].
Definition audio_dpll_clkin_ck : clk :=
  struct_clk "audio_dpll_clkin_ck" clkops_null
    [set_ck_init (Some omap2_init_clksel_parent_fn);
     set_ck_clksel (Some osc_audio_dpll_mux_sel);
     set_ck_clksel_reg 0xfa1c52c0;
     set_ck_clksel_mask 0x1000000;
     set_ck_recalc (Some omap2_clksel_recalc_fn)].
Definition audio_dpll_ck : clk :=
  struct_clk "audio_dpll_ck" clkops_ti814x_dpll_ops
    [set_ck_parent (Some "audio_dpll_clkin_ck");
     set_ck_dpll_data (Some "audio_dpll_dd");
     set_ck_clkdm_name (Some "alwon_l3_slow_clkdm");
     set_ck_recalc (Some ti814x_dpll_recalc_fn);
     set_ck_round_rate (Some ti814x_dpll_round_rate_fn);
     set_ck_set_rate (Some ti814x_dpll_set_rate_fn)].
Definition audio_dpll_clk1_ck : clk :=
  struct_clk "audio_dpll_clk1_ck" clkops_null
    [set_ck_parent (Some "rtc_divider_ck");
     set_ck_init (Some omap2_init_clksel_parent_fn);
     set_ck_clksel (Some sysclk18_a_div);
     set_ck_clksel_reg 0xfa18035c;
     set_ck_clksel_mask 7;
     set_ck_clkdm_name (Some "alwon_l3_slow_clkdm");
     set_ck_recalc (Some omap2_clksel_recalc_fn)].
Definition audio_prcm_clkin_ck : clk :=
  struct_clk "audio_prcm_clkin_ck" clkops_null
    [set_ck_init (Some omap2_init_clksel_parent_fn);
     set_ck_clksel (Some rtc_clkin32_mux_sel);
     set_ck_clksel_reg 0xfa1c52f0;
     set_ck_clksel_mask 1;
     set_ck_clkdm_name (Some "alwon_l3_slow_clkdm");
     set_ck_recalc (Some omap2_clksel_recalc_fn)].
Definition sysclk18_ck : clk :=
  struct_clk "sysclk18_ck" clkops_null
    [set_ck_init (Some omap2_init_clksel_parent_fn);
     set_ck_clksel (Some sysclk18_mux_sel);
     set_ck_clksel_reg 0xfa180378;
     set_ck_clksel_mask 1;
     set_ck_recalc (Some omap2_clksel_recalc_fn)].
Definition rtc_c32k_fck : clk :=
  struct_clk "rtc_c32k_fck" clkops_null
    [set_ck_parent (Some "sysclk18_ck");
     set_ck_clkdm_name (Some "alwon_l3_slow_clkdm");
     set_ck_recalc (Some followparent_recalc_fn)].
Definition sysclk19_ck : clk :=
  struct_clk "sysclk19_ck" clkops_null
    [set_ck_parent (Some "audio_dpll_clk2_ck");
     set_ck_init (Some omap2_init_clksel_parent_fn);
     set_ck_clksel (Some sysclk19_b_div);
     set_ck_clksel_reg 0xfa18034c;
     set_ck_clksel_mask 7;
     set_ck_recalc (Some omap2_clksel_recalc_fn);
     set_ck_round_rate (Some omap2_clksel_round_rate_fn);
     set_ck_set_rate (Some omap2_clksel_set_rate_fn)].
Definition sysclk20_ck : clk :=
  struct_clk "sysclk20_ck" clkops_null
    [set_ck_parent (Some "audio_dpll_ck");
     set_ck_init (Some omap2_init_clksel_parent_fn);
     set_ck_clksel (Some sysclk20_c_div);
     set_ck_clksel_reg 0xfa180350;
     set_ck_clksel_mask 7;
     set_ck_recalc (Some omap2_clksel_recalc_fn);
     set_ck_round_rate (Some omap2_clksel_round_rate_fn);
     set_ck_set_rate (Some omap2_clksel_set_rate_fn)].
Definition sysclk21_ck : clk :=
  struct_clk "sysclk21_ck" clkops_null
    [set_ck_parent (Some "video012_dpll_muxout_ck");
     set_ck_init (Some omap2_init_clksel_parent_fn);
     set_ck_clksel (Some sysclk21_d_div);
     set_ck_clksel_reg 0xfa180354;
     set_ck_clksel_mask 7;
     set_ck_recalc (Some omap2_clksel_recalc_fn);
     set_ck_round_rate (Some omap2_clksel_round_rate_fn);
     set_ck_set_rate (Some omap2_clksel_set_rate_fn)].
Definition sysclk22_ck : clk :=
  struct_clk "sysclk22_ck" clkops_null
    [set_ck_parent (Some "osc0_clkin_ck");
     set_ck_clksel (Some sysclk22_e_div);
     set_ck_clksel_reg 0xfa180358;
     set_ck_clksel_mask 7;
     set_ck_recalc (Some followparent_recalc_fn);
     set_ck_round_rate (Some omap2_clksel_round_rate_fn);
     set_ck_set_rate (Some omap2_clksel_set_rate_fn)].
Definition audio_prcm1_out_ck : clk :=
  struct_clk "audio_prcm1_out_ck" clkops_ti81xx_dflt_wait
    [set_ck_init (Some omap2_init_clksel_parent_fn);
     set_ck_enable_reg 0xfa18154c;
     set_ck_enable_bit 1;
     set_ck_clksel (Some audio_prcm_mux_sel);
     set_ck_clksel_reg 0xfa180388;
     set_ck_clksel_mask 3;
     set_ck_recalc (Some omap2_clksel_recalc_fn);
     set_ck_set_rate (Some ti814x_clksel_set_rate_fn)].
Definition mcbsp_fck : clk :=
  struct_clk "mcbsp_fck" clkops_null
    [set_ck_init (Some omap2_init_clksel_parent_fn);
     set_ck_clksel (Some mcbsp_clks_mux_sel);
     set_ck_clksel_reg 0xfa1c52d8;
     set_ck_clksel_mask 7;
     set_ck_clkdm_name (Some "alwon_l3_slow_clkdm");
     set_ck_recalc (Some omap2_clksel_recalc_fn);
     set_ck_set_rate (Some ti814x_clksel_set_rate_fn)].
Definition mcasp1_fck : clk :=
  struct_clk "mcasp1_fck" clkops_ti81xx_dflt_wait
    [set_ck_init (Some omap2_init_clksel_parent_fn);
     set_ck_clksel (Some audio_prcm_mux_sel);
     set_ck_enable_reg 0xfa181540;
     set_ck_enable_bit 1;
     set_ck_clksel_reg 0xfa18037c;
     set_ck_clksel_mask 3;
     set_ck_clkdm_name (Some "alwon_l3_slow_clkdm");
     set_ck_recalc (Some omap2_clksel_recalc_fn);
     set_ck_set_rate (Some ti814x_clksel_set_rate_fn)].
Definition mcasp2_fck : clk :=
  struct_clk "mcasp2_fck" clkops_ti81xx_dflt_wait
    [set_ck_init (Some omap2_init_clksel_parent_fn);
     set_ck_clksel (Some audio_prcm_mux_sel);
     set_ck_enable_reg 0xfa181544;
     set_ck_enable_bit 1;
     set_ck_clksel_reg 0xfa180380;
     set_ck_clksel_mask 3;
     set_ck_clkdm_name (Some "alwon_l3_slow_clkdm");
     set_ck_recalc (Some omap2_clksel_recalc_fn);
     set_ck_set_rate (Some ti814x_clksel_set_rate_fn)].
Definition mcasp3_fck : clk :=
  struct_clk "mcasp3_fck" clkops_ti81xx_dflt_wait
    [set_ck_init (Some omap2_init_clksel_parent_fn);
     set_ck_clksel (Some audio_prcm_mux_sel);
     set_ck_enable_reg 0xfa181548;
     set_ck_enable_bit 1;
     set_ck_clksel_reg 0xfa180384;
     set_ck_clksel_mask 3;
     set_ck_clkdm_name (Some "alwon_l3_slow_clkdm");
     set_ck_recalc (Some omap2_clksel_recalc_fn);
     set_ck_set_rate (Some ti814x_clksel_set_rate_fn)].
Definition hdmi_i2s_ck : clk :=
  struct_clk "hdmi_i2s_ck" clkops_ti81xx_dflt_wait
    [set_ck_init (Some omap2_init_clksel_parent_fn);
     set_ck_clksel (Some audio_prcm_mux_sel);
     set_ck_enable_reg 0xfa180824;
     set_ck_enable_bit 1;
     set_ck_clksel_reg 0xfa1803ac;
     set_ck_clksel_mask 3;
     set_ck_clkdm_name (Some "alwon_l3_slow_clkdm");
     set_ck_recalc (Some omap2_clksel_recalc_fn);
     set_ck_set_rate (Some ti814x_clksel_set_rate_fn)].
Definition hdmi_i2s_fck : clk :=
  struct_clk "hdmi_i2s_fck" clkops_null
    [set_ck_init (Some omap2_init_clksel_parent_fn);
     set_ck_clksel (Some hdmi_i2s_mclk_mux_sel);
     set_ck_clksel_reg 0xfa1c52dc;
     set_ck_clksel_mask 7;
     set_ck_clkdm_name (Some "alwon_l3_slow_clkdm");
     set_ck_recalc (Some omap2_clksel_recalc_fn);
     set_ck_set_rate (Some ti814x_clksel_set_rate_fn)].
Definition tppss_tso_fck : clk :=
  struct_clk "tppss_tso_fck" clkops_ti81xx_dflt_wait
    [set_ck_parent (Some "sysclk19_ck");
     set_ck_enable_reg 0xfa180554;
     set_ck_enable_bit 1;
     set_ck_clkdm_name (Some "alwon_l3_slow_clkdm");
     set_ck_recalc (Some followparent_recalc_fn)].
Definition atl_fck : clk :=
  struct_clk "atl_fck" clkops_ti81xx_dflt_wait
    [set_ck_init (Some omap2_init_clksel_parent_fn);
     set_ck_enable_reg 0xfa181570;
     set_ck_enable_bit 1;
     set_ck_clksel (Some atlp_clk_mux_sel);
     set_ck_clksel_reg 0xfa1c52dc;
     set_ck_clksel_mask 7;
     set_ck_clkdm_name (Some "alwon_l3_slow_clkdm");
     set_ck_recalc (Some omap2_clksel_recalc_fn)].
Definition gpio234_dbck : clk :=
  struct_clk "gpio234_dbck" clkops_ti81xx_dflt_wait
    [set_ck_parent (Some "sysclk18_ck");
     set_ck_enable_reg 0xfa181560;
     set_ck_enable_bit 8;
     set_ck_clkdm_name (Some "alwon_l3_slow_clkdm");
     set_ck_recalc (Some followparent_recalc_fn)].
Definition gpio1_dbck : clk :=
  struct_clk "gpio1_dbck" clkops_ti81xx_dflt_wait
    [set_ck_parent (Some "sysclk18_ck");
     set_ck_enable_reg 0xfa18155c;
     set_ck_enable_bit 8;
     set_ck_clkdm_name (Some "alwon_l3_slow_clkdm");
     set_ck_recalc (Some followparent_recalc_fn)].
Definition gpio2_dbck : clk :=
  struct_clk "gpio2_dbck" clkops_null
    [set_ck_parent (Some "gpio234_dbck");
     set_ck_clkdm_name (Some "alwon_l3_slow_clkdm");
     set_ck_recalc (Some followparent_recalc_fn)].
Definition gpio3_dbck : clk :=
  struct_clk "gpio3_dbck" clkops_null
    [set_ck_parent (Some "gpio234_dbck");
     set_ck_clkdm_name (Some "alwon_l3_slow_clkdm");
     set_ck_recalc (Some followparent_recalc_fn)].
Definition gpio4_dbck : clk :=
  struct_clk "gpio4_dbck" clkops_null
    [set_ck_parent (Some "gpio234_dbck");
     set_ck_clkdm_name (Some "alwon_l3_slow_clkdm");
     set_ck_recalc (Some followparent_recalc_fn)].
Definition rtc_fck : clk :=
  struct_clk "rtc_fck" clkops_null
    [set_ck_parent (Some "sysclk18_ck");
     set_ck_clkdm_name (Some "alwon_l3_slow_clkdm");
     set_ck_recalc (Some followparent_recalc_fn)].
Definition mmchs1_dbck : clk :=
  struct_clk "mmchs1_dbck" clkops_null
    [set_ck_parent (Some "sysclk18_ck");
     set_ck_clkdm_name (Some "alwon_l3_slow_clkdm");
     set_ck_recalc (Some followparent_recalc_fn)].
Definition mmchs2_dbck : clk :=
  struct_clk "mmchs2_dbck" clkops_null
    [set_ck_parent (Some "sysclk18_ck");
     set_ck_clkdm_name (Some "alwon_l3_slow_clkdm");
     set_ck_recalc (Some followparent_recalc_fn)].
Definition mmchs3_dbck : clk :=
  struct_clk "mmchs3_dbck" clkops_null
    [set_ck_parent (Some "sysclk18_ck");
     set_ck_clkdm_name (Some "alwon_l3_slow_clkdm");
     set_ck_recalc (Some followparent_recalc_fn)].
Definition sync_timer_fck : clk :=
  struct_clk "sync_timer_fck" clkops_null
    [set_ck_parent (Some "sysclk18_ck");
     set_ck_clkdm_name (Some "alwon_l3_slow_clkdm");
     set_ck_recalc (Some followparent_recalc_fn)].
Definition bandgaps_fck : clk :=
  struct_clk "bandgaps_fck" clkops_null
    [set_ck_parent (Some "sysclk18_ck");
     set_ck_clkdm_name (Some "alwon_l3_slow_clkdm");
     set_ck_recalc (Some followparent_recalc_fn)].
Definition arm_oper_fck : clk :=
  struct_clk "arm_oper_fck" clkops_null
    [set_ck_parent (Some "sysclk18_ck");
     set_ck_clkdm_name (Some "alwon_l3_slow_clkdm");
     set_ck_recalc (Some followparent_recalc_fn)].
Definition gpt1_fck : clk :=
  struct_clk "gpt1_fck" clkops_null
    [set_ck_init (Some omap2_init_clksel_parent_fn);
     set_ck_clksel (Some gpt0to7_fclk_mux_sel);
     set_ck_clksel_reg 0xfa1c52e0;
     set_ck_clksel_mask 56;
     set_ck_clkdm_name (Some "alwon_l3_slow_clkdm");
     set_ck_recalc (Some omap2_clksel_recalc_fn)].
Definition gpt2_fck : clk :=
  struct_clk "gpt2_fck" clkops_null
    [set_ck_init (Some omap2_init_clksel_parent_fn);
     set_ck_clksel (Some gpt0to7_fclk_mux_sel);
     set_ck_clksel_reg 0xfa1c52e0;
     set_ck_clksel_mask 0x1c0;
     set_ck_clkdm_name (Some "alwon_l3_slow_clkdm");
     set_ck_recalc (Some omap2_clksel_recalc_fn)].
Definition gpt3_fck : clk :=
  struct_clk "gpt3_fck" clkops_null
    [set_ck_init (Some omap2_init_clksel_parent_fn);
     set_ck_clksel (Some gpt0to7_fclk_mux_sel);
     set_ck_clksel_reg 0xfa1c52e0;
     set_ck_clksel_mask 0xe00;
     set_ck_clkdm_name (Some "alwon_l3_slow_clkdm");
     set_ck_recalc (Some omap2_clksel_recalc_fn)].
Definition gpt4_fck : clk :=
  struct_clk "gpt4_fck" clkops_null
    [set_ck_init (Some omap2_init_clksel_parent_fn);
     set_ck_clksel (Some gpt0to7_fclk_mux_sel);
     set_ck_clksel_reg 0xfa1c52e0;
     set_ck_clksel_mask 0x70000;
     set_ck_clkdm_name (Some "alwon_l3_slow_clkdm");
     set_ck_recalc (Some omap2_clksel_recalc_fn)].
Definition gpt5_fck : clk :=
  struct_clk "gpt5_fck" clkops_null
    [set_ck_init (Some omap2_init_clksel_parent_fn);
     set_ck_clksel (Some gpt0to7_fclk_mux_sel);
     set_ck_clksel_reg 0xfa1c52e0;
     set_ck_clksel_mask 0x380000;
     set_ck_clkdm_name (Some "alwon_l3_slow_clkdm");
     set_ck_recalc (Some omap2_clksel_recalc_fn)].
Definition gpt6_fck : clk :=
  struct_clk "gpt6_fck" clkops_null
    [set_ck_init (Some omap2_init_clksel_parent_fn);
     set_ck_clksel (Some gpt0to7_fclk_mux_sel);
     set_ck_clksel_reg 0xfa1c52e0;
     set_ck_clksel_mask 0x1c00000;
     set_ck_clkdm_name (Some "alwon_l3_slow_clkdm");
     set_ck_recalc (Some omap2_clksel_recalc_fn)].
Definition gpt7_fck : clk :=
  struct_clk "gpt7_fck" clkops_null
    [set_ck_init (Some omap2_init_clksel_parent_fn);
     set_ck_clksel (Some gpt0to7_fclk_mux_sel);
     set_ck_clksel_reg 0xfa1c52e0;
     set_ck_clksel_mask 0xe000000;
     set_ck_clkdm_name (Some "alwon_l3_slow_clkdm");
     set_ck_recalc (Some omap2_clksel_recalc_fn)].
Definition gpt8_fck : clk :=
  struct_clk "gpt8_fck" clkops_null
    [set_ck_init (Some omap2_init_clksel_parent_fn);
     set_ck_clksel (Some gpt0to7_fclk_mux_sel);
     set_ck_clksel_reg 0xfa1c52e0;
     set_ck_clksel_mask 7;
     set_ck_clkdm_name (Some "alwon_l3_slow_clkdm");
     set_ck_recalc (Some omap2_clksel_recalc_fn)].
Definition mcasp_auxclk_mux0_ck : clk :=
  struct_clk "mcasp_auxclk_mux0_ck" clkops_null
    [set_ck_init (Some omap2_init_clksel_parent_fn);
     set_ck_clksel (Some mlb0to1_clk_mux_sel);
     set_ck_clksel_reg 0xfa1c52cc;
     set_ck_clksel_mask 1;
     set_ck_recalc (Some omap2_clksel_recalc_fn)].
Definition mcasp4_fck : clk :=
  struct_clk "mcasp4_fck" clkops_null
    [set_ck_init (Some omap2_init_clksel_parent_fn);
     set_ck_clksel (Some mcasp0to6_auxclk_mux_sel);
     set_ck_clksel_reg 0xfa1c52d0;
     set_ck_clksel_mask 7;
     set_ck_clkdm_name (Some "alwon_l3_slow_clkdm");
     set_ck_recalc (Some omap2_clksel_recalc_fn)].
Definition mcasp5_fck : clk :=
  struct_clk "mcasp5_fck" clkops_null
    [set_ck_init (Some omap2_init_clksel_parent_fn);
     set_ck_clksel (Some mcasp0to6_auxclk_mux_sel);
     set_ck_clksel_reg 0xfa1c52d0;
     set_ck_clksel_mask 0x700;
     set_ck_clkdm_name (Some "alwon_l3_slow_clkdm");
     set_ck_recalc (Some omap2_clksel_recalc_fn)].
Definition mcasp6_fck : clk :=
  struct_clk "mcasp6_fck" clkops_null
    [set_ck_init (Some omap2_init_clksel_parent_fn);
     set_ck_clksel (Some mcasp0to6_auxclk_mux_sel);
     set_ck_clksel_reg 0xfa1c52d0;
     set_ck_clksel_mask 0x70000;
     set_ck_clkdm_name (Some "alwon_l3_slow_clkdm");
     set_ck_recalc (Some omap2_clksel_recalc_fn)].
Definition mcasp1_ahx_ck : clk :=
  struct_clk "mcasp1_ahx_ck" clkops_null
    [set_ck_init (Some omap2_init_clksel_parent_fn);
     set_ck_clksel (Some mcasp0to7_ahclk_mux_sel);
     set_ck_clksel_reg 0xfa1c52d4;
     set_ck_clksel_mask 7;
     set_ck_clkdm_name (Some "alwon_l3_slow_clkdm");
     set_ck_recalc (Some omap2_clksel_recalc_fn)].
Definition mcasp1_ahr_ck : clk :=
  struct_clk "mcasp1_ahr_ck" clkops_null
    [set_ck_init (Some omap2_init_clksel_parent_fn);
     set_ck_clksel (Some mcasp0to7_ahclk_mux_sel);
     set_ck_clksel_reg 0xfa1c52d4;
     set_ck_clksel_mask 56;
     set_ck_clkdm_name (Some "alwon_l3_slow_clkdm");
     set_ck_recalc (Some omap2_clksel_recalc_fn)].
Definition mcasp2_ahx_ck : clk :=
  struct_clk "mcasp2_ahx_ck" clkops_null
    [set_ck_init (Some omap2_init_clksel_parent_fn);
     set_ck_clksel (Some mcasp0to7_ahclk_mux_sel);
     set_ck_clksel_reg 0xfa1c52d4;
     set_ck_clksel_mask 0x1c0;
     set_ck_clkdm_name (Some "alwon_l3_slow_clkdm");
     set_ck_recalc (Some omap2_clksel_recalc_fn)].
Definition mcasp2_ahr_ck : clk :=
  struct_clk "mcasp2_ahr_ck" clkops_null
    [set_ck_init (Some omap2_init_clksel_parent_fn);
     set_ck_clksel (Some mcasp0to7_ahclk_mux_sel);
     set_ck_clksel_reg 0xfa1c52d4;
     set_ck_clksel_mask 0xe00;
     set_ck_clkdm_name (Some "alwon_l3_slow_clkdm");
     set_ck_recalc (Some omap2_clksel_recalc_fn)].
Definition mcasp3_ahx_ck : clk :=
  struct_clk "mcasp3_ahx_ck" clkops_null
    [set_ck_init (Some omap2_init_clksel_parent_fn);
     set_ck_clksel (Some mcasp0to7_ahclk_mux_sel);
     set_ck_clksel_reg 0xfa1c52d4;
     set_ck_clksel_mask 0x70000;
     set_ck_clkdm_name (Some "alwon_l3_slow_clkdm");
     set_ck_recalc (Some omap2_clksel_recalc_fn)].
Definition mcasp4_ahx_ck : clk :=
  struct_clk "mcasp4_ahx_ck" clkops_null
    [set_ck_init (Some omap2_init_clksel_parent_fn);
     set_ck_clksel (Some mcasp0to7_ahclk_mux_sel);
     set_ck_clksel_reg 0xfa1c52d4;
     set_ck_clksel_mask 0x380000;
     set_ck_clkdm_name (Some "alwon_l3_slow_clkdm");
     set_ck_recalc (Some omap2_clksel_recalc_fn)].
Definition mcasp5_ahx_ck : clk :=
  struct_clk "mcasp5_ahx_ck" clkops_null
    [set_ck_init (Some omap2_init_clksel_parent_fn);
     set_ck_clksel (Some mcasp0to7_ahclk_mux_sel);
     set_ck_clksel_reg 0xfa1c52d4;
     set_ck_clksel_mask 0x1c00000;
     set_ck_clkdm_name (Some "alwon_l3_slow_clkdm");
     set_ck_recalc (Some omap2_clksel_recalc_fn)].
Definition mcasp6_ahx_ck : clk :=
  struct_clk "mcasp6_ahx_ck" clkops_null
    [set_ck_init (Some omap2_init_clksel_parent_fn);
     set_ck_clksel (Some mcasp0to7_ahclk_mux_sel);
     set_ck_clksel_reg 0xfa1c52d4;
     set_ck_clksel_mask 0xe000000;
     set_ck_clkdm_name (Some "alwon_l3_slow_clkdm");
     set_ck_recalc (Some omap2_clksel_recalc_fn)].
Definition cpts_rft_clk_ck : clk :=
  struct_clk "cpts_rft_clk_ck" clkops_null
    [set_ck_init (Some omap2_init_clksel_parent_fn);
     set_ck_clksel (Some cpts0to4_rft_clk_mux_sel);
     set_ck_clksel_reg 0xfa1c52e8;
     set_ck_clksel_mask 14;
     set_ck_clkdm_name (Some "alwon_l3_slow_clkdm");
     set_ck_recalc (Some omap2_clksel_recalc_fn);
     set_ck_set_rate (Some ti814x_clksel_set_rate_fn)].
Definition cpts_rft_div5_ck : clk :=
  struct_clk "cpts_rft_div5_ck" clkops_null
    [set_ck_parent (Some "cpts_rft_clk_ck");
     set_ck_clkdm_name (Some "alwon_l3_slow_clkdm");
     set_ck_fixed_div 5;
     set_ck_recalc (Some omap_fixed_divisor_recalc_fn)].
Definition cpts_rft_div2_ck : clk :=
  struct_clk "cpts_rft_div2_ck" clkops_null
    [set_ck_parent (Some "cpts_rft_clk_ck");
     set_ck_clkdm_name (Some "alwon_l3_slow_clkdm");
     set_ck_fixed_div 2;
     set_ck_recalc (Some omap_fixed_divisor_recalc_fn)].
Definition ljcb_serdesp_ck : clk :=
  struct_clk "ljcb_serdesp_ck" clkops_null
    [set_ck_rate 0x5f5e100;
     set_ck_flags 96].
Definition ljcb_serdesn_ck : clk :=
  struct_clk "ljcb_serdesn_ck" clkops_null
    [set_ck_rate 0x5f5e100;
     set_ck_flags 96].
Definition pciess_20m_ck : clk :=
  struct_clk "pciess_20m_ck" clkops_null
    [set_ck_parent (Some "osc0_clkin_ck");
     set_ck_recalc (Some followparent_recalc_fn)].
Definition pciessp_ck : clk :=
  struct_clk "pciessp_ck" clkops_null
    [set_ck_parent (Some "ljcb_serdesp_ck");
     set_ck_recalc (Some followparent_recalc_fn)].
Definition pciessn_ck : clk :=
  struct_clk "pciessn_ck" clkops_null
    [set_ck_parent (Some "ljcb_serdesn_ck");
     set_ck_recalc (Some followparent_recalc_fn)].
Definition pciess_50m_ck : clk :=
  struct_clk "pciess_50m_ck" clkops_null
    [set_ck_rate 0x2faf080;
     set_ck_flags 96].
Definition pciess_125m_ck : clk :=
  struct_clk "pciess_125m_ck" clkops_null
    [set_ck_rate 0x7735940;
     set_ck_flags 96].
Definition satassp_ck : clk :=
  struct_clk "satassp_ck" clkops_null
    [set_ck_rate 0x5f5e100;
     set_ck_flags 96].
Definition satassn_ck : clk :=
  struct_clk "satassn_ck" clkops_null
    [set_ck_rate 0x5f5e100;
     set_ck_flags 96].
Definition satass_20m_ck : clk :=
  struct_clk "satass_20m_ck" clkops_null
    [set_ck_rate 0x1312d00;
     set_ck_flags 96].
Definition satass_50m_ck : clk :=
  struct_clk "satass_50m_ck" clkops_null
    [set_ck_rate 0x2faf080;
     set_ck_flags 96].
Definition satass_125m_ck : clk :=
  struct_clk "satass_125m_ck" clkops_null
    [set_ck_rate 0x7735940;
     set_ck_flags 96].
Definition sata1ssp_ck : clk :=
  struct_clk "sata1ssp_ck" clkops_null
    [set_ck_rate 0x5f5e100;
     set_ck_flags 32].
Definition sata1ssn_ck : clk :=
  struct_clk "sata1ssn_ck" clkops_null
    [set_ck_rate 0x5f5e100;
     set_ck_flags 32].
Definition sata1ss_20m_ck : clk :=
  struct_clk "sata1ss_20m_ck" clkops_null
    [set_ck_rate 0x1312d00;
     set_ck_flags 32].
Definition sata1ss_50m_ck : clk :=
  struct_clk "sata1ss_50m_ck" clkops_null
    [set_ck_rate 0x2faf080;
     set_ck_flags 32].
Definition sata1ss_125m_ck : clk :=
  struct_clk "sata1ss_125m_ck" clkops_null
    [set_ck_rate 0x7735940;
     set_ck_flags 32].
Definition sata01_50m_mux_out_ck : clk :=
  struct_clk "sata01_50m_mux_out_ck" clkops_null
    [set_ck_init (Some omap2_init_clksel_parent_fn);
     set_ck_clksel (Some sata01_50m_mux_sel);
     set_ck_clksel_reg 0xfa1c631c;
     set_ck_clksel_mask 0x400;
     set_ck_clkdm_name (Some "alwon_l3_slow_clkdm");
     set_ck_recalc (Some omap2_clksel_recalc_fn)].
Definition gmac0to1_mux_out_ck : clk :=
  struct_clk "gmac0to1_mux_out_ck" clkops_null
    [set_ck_init (Some omap2_init_clksel_parent_fn);
     set_ck_clksel (Some gmac0to1_mux_sel);
     set_ck_clksel_reg 0xfa1c52e8;
     set_ck_clksel_mask 1;
     set_ck_clkdm_name (Some "alwon_l3_slow_clkdm");
     set_ck_recalc (Some omap2_clksel_recalc_fn)].
Definition sata01_125m_mux_out_ck : clk :=
  struct_clk "sata01_125m_mux_out_ck" clkops_null
    [set_ck_init (Some omap2_init_clksel_parent_fn);
     set_ck_clksel (Some sata01_125m_mux_sel);
     set_ck_clksel_reg 0xfa1c631c;
     set_ck_clksel_mask 0x400;
     set_ck_clkdm_name (Some "alwon_l3_slow_clkdm");
     set_ck_recalc (Some omap2_clksel_recalc_fn)].
Definition emac_rmii_fck : clk :=
  struct_clk "emac_rmii_fck" clkops_null
    [set_ck_init (Some omap2_init_clksel_parent_fn);
     set_ck_clksel (Some gmac0to1_mux_sel);
     set_ck_clksel_reg 0xfa1c52e8;
     set_ck_clksel_mask 1;
     set_ck_clkdm_name (Some "alwon_l3_slow_clkdm");
     set_ck_recalc (Some omap2_clksel_recalc_fn)].
Definition emac_gmii_fck : clk :=
  struct_clk "emac_gmii_fck" clkops_null
    [set_ck_parent (Some "satass_125m_ck");
     set_ck_clkdm_name (Some "alwon_l3_slow_clkdm");
     set_ck_recalc (Some followparent_recalc_fn)].
Definition wdt1_fck : clk :=
  struct_clk "wdt1_fck" clkops_null
    [set_ck_init (Some omap2_init_clksel_parent_fn);
     set_ck_clksel (Some wdt0to1_fclk_mux_sel);
     set_ck_clksel_reg 0xfa1c52f4;
     set_ck_clksel_mask 1;
     set_ck_clkdm_name (Some "alwon_l3_slow_clkdm");
     set_ck_recalc (Some omap2_clksel_recalc_fn)].
Definition wdt2_fck : clk :=
  struct_clk "wdt2_fck" clkops_null
    [set_ck_parent (Some "rcosc_32k_ck");
     set_ck_clkdm_name (Some "alwon_l3_slow_clkdm");
     set_ck_recalc (Some followparent_recalc_fn)].
Definition dummy_clk_ck : clk :=
  struct_clk "dummy_clk_ck" clkops_null
    [set_ck_flags 32].
Definition clkout_prcm_mux_ck : clk :=
  struct_clk "clkout_prcm_mux_ck" clkops_null
    [set_ck_init (Some omap2_init_clksel_parent_fn);
     set_ck_clksel (Some clkout0to3_mux_sel);
     set_ck_clksel_reg 0xfa180100;
     set_ck_clksel_mask 3;
     set_ck_clkdm_name (Some "alwon_l3_slow_clkdm");
     set_ck_recalc (Some omap2_clksel_recalc_fn)].
Definition clkout_prcm_ck : clk :=
  struct_clk "clkout_prcm_ck" clkops_omap2_dflt
    [set_ck_parent (Some "clkout_prcm_mux_ck");
     set_ck_enable_reg 0xfa180100;
     set_ck_enable_bit 128;
     set_ck_clksel (Some clkout_1to16_div);
     set_ck_clksel_reg 0xfa180100;
     set_ck_clksel_mask 56;
     set_ck_clkdm_name (Some "alwon_l3_slow_clkdm");
     set_ck_recalc (Some omap2_clksel_recalc_fn)].
Definition sys_clkout1 : clk :=
  struct_clk "sys_clkout1" clkops_null
    [set_ck_init (Some omap2_init_clksel_parent_fn);
     set_ck_clksel (Some clkout0to10_mux_sel);
     set_ck_clksel_reg 0xfa1c52e4;
     set_ck_clksel_mask 15;
     set_ck_clkdm_name (Some "alwon_l3_slow_clkdm");
     set_ck_recalc (Some omap2_clksel_recalc_fn)].
Definition sys_clkout2 : clk :=
  struct_clk "sys_clkout2" clkops_null
    [set_ck_init (Some omap2_init_clksel_parent_fn);
     set_ck_clksel (Some clkout0to10_mux_sel);
     set_ck_clksel_reg 0xfa1c52e4;
     set_ck_clksel_mask 0xf0000;
     set_ck_clkdm_name (Some "alwon_l3_slow_clkdm");
     set_ck_recalc (Some omap2_clksel_recalc_fn)].

(** ** The stores *)

Definition ti814x_dpll_store : gmap string dpll_data := list_to_map
  [("arm_dpll_dd", arm_dpll_dd);
   ("dsp_dpll_dd", dsp_dpll_dd);
   ("sgx_dpll_dd", sgx_dpll_dd);
   ("hdvicp_dpll_dd", hdvicp_dpll_dd);
   ("l3_dpll_dd", l3_dpll_dd);
   ("iss_dpll_dd", iss_dpll_dd);
   ("hdvpss_dpll_dd", hdvpss_dpll_dd);
   ("usb_dpll_dd", usb_dpll_dd);
   ("ddr_dpll_dd", ddr_dpll_dd);
   ("video0_dpll_dd", video0_dpll_dd);
   ("video1_dpll_dd", video1_dpll_dd);
   ("hdmi_dpll_dd", hdmi_dpll_dd);
   ("audio_dpll_dd", audio_dpll_dd)].
Definition ti814x_clk_list : list (string * clk) :=
  [("rcosc_32k_ck", rcosc_32k_ck);
   ("sys_32k_clkin_ck", sys_32k_clkin_ck);
   ("tclkin_ck", tclkin_ck);
   ("osc0_clkin_ck", osc0_clkin_ck);
   ("osc1_clkin_ck", osc1_clkin_ck);
   ("rtc_divider_ck", rtc_divider_ck);
   ("osc1_x1_ck", osc1_x1_ck);
   ("xref0_ck", xref0_ck);
   ("xref1_ck", xref1_ck);
   ("xref2_ck", xref2_ck);
   ("tsi0_dck_ck", tsi0_dck_ck);
   ("tsi1_dck_ck", tsi1_dck_ck);
   ("external_ck", external_ck);
   ("atl0_clk_ck", atl0_clk_ck);
   ("atl1_clk_ck", atl1_clk_ck);
   ("atl2_clk_ck", atl2_clk_ck);
   ("atl3_clk_ck", atl3_clk_ck);
   ("dcan0_fck", dcan0_fck);
   ("dcan1_fck", dcan1_fck);
   ("sr1_fck", sr1_fck);
   ("sr2_fck", sr2_fck);
   ("sr3_fck", sr3_fck);
   ("sr4_fck", sr4_fck);
   ("arm_dpll_clkin_ck", arm_dpll_clkin_ck);
   ("arm_dpll_ck", arm_dpll_ck);
   ("mpu_ck", mpu_ck);
   ("dsp_dpll_ck", dsp_dpll_ck);
   ("gem_fck", gem_fck);
   ("sgx_dpll_ck", sgx_dpll_ck);
   ("sysclk23_ck", sysclk23_ck);
   ("sgx_ck", sgx_ck);
   ("sgx_sys_ck", sgx_sys_ck);
   ("sgx_mem_ck", sgx_mem_ck);
   ("hdvicp_dpll_ck", hdvicp_dpll_ck);
   ("sysclk3_ck", sysclk3_ck);
   ("ivahd0_ck", ivahd0_ck);
   ("l3_dpll_clkin_ck", l3_dpll_clkin_ck);
   ("l3_dpll_ck", l3_dpll_ck);
   ("sysclk4_ck", sysclk4_ck);
   ("l3_fast_ick", l3_fast_ick);
   ("ivahd0_ick", ivahd0_ick);
   ("exp_slot_ick", exp_slot_ick);
   ("mmu_ick", mmu_ick);
   ("gem_ick", gem_ick);
   ("tptc0_ick", tptc0_ick);
   ("tptc1_ick", tptc1_ick);
   ("tptc2_ick", tptc2_ick);
   ("tptc3_ick", tptc3_ick);
   ("ivahd0_sl2_ick", ivahd0_sl2_ick);
   ("tpcc_ick", tpcc_ick);
   ("fdif_ick", fdif_ick);
   ("hdvpss_l3_ick", hdvpss_l3_ick);
   ("sysclk5_ck", sysclk5_ck);
   ("l3_med_ick", l3_med_ick);
   ("l4_fast_ick", l4_fast_ick);
   ("securess_ick", securess_ick);
   ("tpgsw_ick", tpgsw_ick);
   ("sata_ick", sata_ick);
   ("sata1_ick", sata1_ick);
   ("pcie_ck", pcie_ck);
   ("vcp2_fck", vcp2_fck);
   ("mlb_ick", mlb_ick);
   ("fdif_fck", fdif_fck);
   ("dap_ick", dap_ick);
   ("ocmc_ram_ick", ocmc_ram_ick);
   ("mmchs3_ick", mmchs3_ick);
   ("cpsw_ick", cpsw_ick);
   ("gem_trc_fck", gem_trc_fck);
   ("mcasp4_ick", mcasp4_ick);
   ("mcasp5_ick", mcasp5_ick);
   ("mcasp6_ick", mcasp6_ick);
   ("hdvpss_l4_ick", hdvpss_l4_ick);
   ("sysclk6_ck", sysclk6_ck);
   ("l3_slow_ick", l3_slow_ick);
   ("l4_slow_ick", l4_slow_ick);
   ("uart1_ick", uart1_ick);
   ("uart2_ick", uart2_ick);
   ("uart3_ick", uart3_ick);
   ("uart4_ick", uart4_ick);
   ("uart5_ick", uart5_ick);
   ("uart6_ick", uart6_ick);
   ("i2c1_ick", i2c1_ick);
   ("i2c2_ick", i2c2_ick);
   ("i2c3_ick", i2c3_ick);
   ("i2c4_ick", i2c4_ick);
   ("mcspi1_ick", mcspi1_ick);
   ("mcspi2_ick", mcspi2_ick);
   ("mcspi3_ick", mcspi3_ick);
   ("mcspi4_ick", mcspi4_ick);
   ("sdio_ick", sdio_ick);
   ("gpt1_ick", gpt1_ick);
   ("gpt2_ick", gpt2_ick);
   ("gpt3_ick", gpt3_ick);
   ("gpt4_ick", gpt4_ick);
   ("gpt5_ick", gpt5_ick);
   ("gpt6_ick", gpt6_ick);
   ("gpt7_ick", gpt7_ick);
   ("gpt8_ick", gpt8_ick);
   ("gpio234_ick", gpio234_ick);
   ("gpio1_ick", gpio1_ick);
   ("gpio2_ick", gpio2_ick);
   ("gpio3_ick", gpio3_ick);
   ("gpio4_ick", gpio4_ick);
   ("prcm_ick", prcm_ick);
   ("smartcard1_ick", smartcard1_ick);
   ("smartcard2_ick", smartcard2_ick);
   ("mcasp1_ick", mcasp1_ick);
   ("mcasp2_ick", mcasp2_ick);
   ("mcasp3_ick", mcasp3_ick);
   ("mcbsp_ick", mcbsp_ick);
   ("gpmc_fck", gpmc_fck);
   ("hdmi_ick", hdmi_ick);
   ("mlbp_ick", mlbp_ick);
   ("wdt1_ick", wdt1_ick);
   ("wdt2_ick", wdt2_ick);
   ("sync_timer_ick", sync_timer_ick);
   ("pata_ick", pata_ick);
   ("mailbox_ick", mailbox_ick);
   ("spinbox_ick", spinbox_ick);
   ("sr1_ick", sr1_ick);
   ("sr2_ick", sr2_ick);
   ("sr3_ick", sr3_ick);
   ("sr4_ick", sr4_ick);
   ("usbotg_ick", usbotg_ick);
   ("mmu_cfg_ick", mmu_cfg_ick);
   ("p1500_ick", p1500_ick);
   ("elm_ick", elm_ick);
   ("elm_fck", elm_fck);
   ("mmchs1_ick", mmchs1_ick);
   ("mmchs2_ick", mmchs2_ick);
   ("atl_ick", atl_ick);
   ("fdif_enb_ck", fdif_enb_ck);
   ("rtc_c32k_ick", rtc_c32k_ick);
   ("dcan0_ick", dcan0_ick);
   ("dcan1_ick", dcan1_ick);
   ("iss_dpll_ck", iss_dpll_ck);
   ("iss_ick", iss_ick);
   ("isp_ick", isp_ick);
   ("tppss_tso_ick", tppss_tso_ick);
   ("iss_dpll_d2_ck", iss_dpll_d2_ck);
   ("ducati_ick", ducati_ick);
   ("hdvpss_dpll_ck", hdvpss_dpll_ck);
   ("hdvpss_proc_fck", hdvpss_proc_fck);
   ("hdvpss_proc_d2_fck", hdvpss_proc_d2_fck);
   ("dvi_ch1_ck", dvi_ch1_ck);
   ("dvi_ch2_ck", dvi_ch2_ck);
   ("dvi_ch3_ck", dvi_ch3_ck);
   ("dvi_ch4_ck", dvi_ch4_ck);
   ("dvoi1_ck", dvoi1_ck);
   ("dvoi2_ck", dvoi2_ck);
   ("usb_dpll_clkin_ck", usb_dpll_clkin_ck);
   ("usb_dpll_ck", usb_dpll_ck);
   ("usb_phy0_rclk_ick", usb_phy0_rclk_ick);
   ("usb_phy1_rclk_ick", usb_phy1_rclk_ick);
   ("usb_dpll_div5_ck", usb_dpll_div5_ck);
   ("sysclk10_ck", sysclk10_ck);
   ("mcspi1_fck", mcspi1_fck);
   ("mcspi2_fck", mcspi2_fck);
   ("mcspi3_fck", mcspi3_fck);
   ("mcspi4_fck", mcspi4_fck);
   ("i2c02_ck", i2c02_ck);
   ("i2c13_ck", i2c13_ck);
   ("i2c1_fck", i2c1_fck);
   ("i2c2_fck", i2c2_fck);
   ("i2c3_fck", i2c3_fck);
   ("i2c4_fck", i2c4_fck);
   ("uart1_fck", uart1_fck);
   ("uart2_fck", uart2_fck);
   ("uart3_fck", uart3_fck);
   ("hdmi_cec_dcc_fck", hdmi_cec_dcc_fck);
   ("sysclk8_ck", sysclk8_ck);
   ("mmchs1_fck", mmchs1_fck);
   ("mmchs2_fck", mmchs2_fck);
   ("mmchs3_fck", mmchs3_fck);
   ("uart4_fck", uart4_fck);
   ("uart5_fck", uart5_fck);
   ("uart6_fck", uart6_fck);
   ("securess_fck", securess_fck);
   ("tppss_fck", tppss_fck);
   ("csi2_phy_fck", csi2_phy_fck);
   ("ddr_dpll_clkin_ck", ddr_dpll_clkin_ck);
   ("ddr_dpll_ck", ddr_dpll_ck);
   ("ddr0_phy_fck", ddr0_phy_fck);
   ("ddr1_phy_fck", ddr1_phy_fck);
   ("ddr0_half_fck", ddr0_half_fck);
   ("ddr1_half_fck", ddr1_half_fck);
   ("ddr0_phy_d2_fck", ddr0_phy_d2_fck);
   ("ddr0_emif_fck", ddr0_emif_fck);
   ("dmm_phy_fck", dmm_phy_fck);
   ("ddr1_phy_d2_fck", ddr1_phy_d2_fck);
   ("ddr1_emif_fck", ddr1_emif_fck);
   ("video0_dpll_clkin_ck", video0_dpll_clkin_ck);
   ("video0_dpll_ck", video0_dpll_ck);
   ("video1_dpll_clkin_ck", video1_dpll_clkin_ck);
   ("video1_dpll_ck", video1_dpll_ck);
   ("hdmi_dpll_clkin_ck", hdmi_dpll_clkin_ck);
   ("hdmi_dpll_ck", hdmi_dpll_ck);
   ("video_m_pclk_ck", video_m_pclk_ck);
   ("hdmi_phy_tclk_ck", hdmi_phy_tclk_ck);
   ("hdmi_dpll_muxout_ck", hdmi_dpll_muxout_ck);
   ("video012_dpll_muxout_ck", video012_dpll_muxout_ck);
   ("sysclk16_d1mux_ck", sysclk16_d1mux_ck);
   ("sysclk16_b3mux_ck", sysclk16_b3mux_ck);
   ("sysclk14_c1mux_ck", sysclk14_c1mux_ck);
   ("sysclk16_ck", sysclk16_ck);
   ("tppss_stc1_fck", tppss_stc1_fck);
   ("hd_venc_g_ck", hd_venc_g_ck);
   ("hd_venc_d_ck", hd_venc_d_ck);
   ("hd_venc_a_ck", hd_venc_a_ck);
   ("hd_dac_ck", hd_dac_ck);
   ("hdmi_phy_gclk_ck", hdmi_phy_gclk_ck);
   ("sd_venc_ck", sd_venc_ck);
   ("sysclk14_ck", sysclk14_ck);
   ("tppss_stc0_fck", tppss_stc0_fck);
   ("audio_dpll_clk2_ck", audio_dpll_clk2_ck);
   ("audio_dpll_clkin_ck", audio_dpll_clkin_ck);
   ("audio_dpll_ck", audio_dpll_ck);
   ("audio_dpll_clk1_ck", audio_dpll_clk1_ck);
   ("audio_prcm_clkin_ck", audio_prcm_clkin_ck);
   ("sysclk18_ck", sysclk18_ck);
   ("rtc_c32k_fck", rtc_c32k_fck);
   ("sysclk19_ck", sysclk19_ck);
   ("sysclk20_ck", sysclk20_ck);
   ("sysclk21_ck", sysclk21_ck);
   ("sysclk22_ck", sysclk22_ck);
   ("audio_prcm1_out_ck", audio_prcm1_out_ck);
   ("mcbsp_fck", mcbsp_fck);
   ("mcasp1_fck", mcasp1_fck);
   ("mcasp2_fck", mcasp2_fck);
   ("mcasp3_fck", mcasp3_fck);
   ("hdmi_i2s_ck", hdmi_i2s_ck);
   ("hdmi_i2s_fck", hdmi_i2s_fck);
   ("tppss_tso_fck", tppss_tso_fck);
   ("atl_fck", atl_fck);
   ("gpio234_dbck", gpio234_dbck);
   ("gpio1_dbck", gpio1_dbck);
   ("gpio2_dbck", gpio2_dbck);
   ("gpio3_dbck", gpio3_dbck);
   ("gpio4_dbck", gpio4_dbck);
   ("rtc_fck", rtc_fck);
   ("mmchs1_dbck", mmchs1_dbck);
   ("mmchs2_dbck", mmchs2_dbck);
   ("mmchs3_dbck", mmchs3_dbck);
   ("sync_timer_fck", sync_timer_fck);
   ("bandgaps_fck", bandgaps_fck);
   ("arm_oper_fck", arm_oper_fck);
   ("gpt1_fck", gpt1_fck);
   ("gpt2_fck", gpt2_fck);
   ("gpt3_fck", gpt3_fck);
   ("gpt4_fck", gpt4_fck);
   ("gpt5_fck", gpt5_fck);
   ("gpt6_fck", gpt6_fck);
   ("gpt7_fck", gpt7_fck);
   ("gpt8_fck", gpt8_fck);
   ("mcasp_auxclk_mux0_ck", mcasp_auxclk_mux0_ck);
   ("mcasp4_fck", mcasp4_fck);
   ("mcasp5_fck", mcasp5_fck);
   ("mcasp6_fck", mcasp6_fck);
   ("mcasp1_ahx_ck", mcasp1_ahx_ck);
   ("mcasp1_ahr_ck", mcasp1_ahr_ck);
   ("mcasp2_ahx_ck", mcasp2_ahx_ck);
   ("mcasp2_ahr_ck", mcasp2_ahr_ck);
   ("mcasp3_ahx_ck", mcasp3_ahx_ck);
   ("mcasp4_ahx_ck", mcasp4_ahx_ck);
   ("mcasp5_ahx_ck", mcasp5_ahx_ck);
   ("mcasp6_ahx_ck", mcasp6_ahx_ck);
   ("cpts_rft_clk_ck", cpts_rft_clk_ck);
   ("cpts_rft_div5_ck", cpts_rft_div5_ck);
   ("cpts_rft_div2_ck", cpts_rft_div2_ck);
   ("ljcb_serdesp_ck", ljcb_serdesp_ck);
   ("ljcb_serdesn_ck", ljcb_serdesn_ck);
   ("pciess_20m_ck", pciess_20m_ck);
   ("pciessp_ck", pciessp_ck);
   ("pciessn_ck", pciessn_ck);
   ("pciess_50m_ck", pciess_50m_ck);
   ("pciess_125m_ck", pciess_125m_ck);
   ("satassp_ck", satassp_ck);
   ("satassn_ck", satassn_ck);
   ("satass_20m_ck", satass_20m_ck);
   ("satass_50m_ck", satass_50m_ck);
   ("satass_125m_ck", satass_125m_ck);
   ("sata1ssp_ck", sata1ssp_ck);
   ("sata1ssn_ck", sata1ssn_ck);
   ("sata1ss_20m_ck", sata1ss_20m_ck);
   ("sata1ss_50m_ck", sata1ss_50m_ck);
   ("sata1ss_125m_ck", sata1ss_125m_ck);
   ("sata01_50m_mux_out_ck", sata01_50m_mux_out_ck);
   ("gmac0to1_mux_out_ck", gmac0to1_mux_out_ck);
   ("sata01_125m_mux_out_ck", sata01_125m_mux_out_ck);
   ("emac_rmii_fck", emac_rmii_fck);
   ("emac_gmii_fck", emac_gmii_fck);
   ("wdt1_fck", wdt1_fck);
   ("wdt2_fck", wdt2_fck);
   ("dummy_clk_ck", dummy_clk_ck);
   ("clkout_prcm_mux_ck", clkout_prcm_mux_ck);
   ("clkout_prcm_ck", clkout_prcm_ck);
   ("sys_clkout1", sys_clkout1);
   ("sys_clkout2", sys_clkout2)].

(** ** The table of clocks *)

Definition ti814x_clks_1 : list omap_clk :=
  [CLK None (Some "rcosc_32k_ck") "rcosc_32k_ck" 0x5000;
   CLK None (Some "sys_32k_clkin_ck") "sys_32k_clkin_ck" 0x5000;
   CLK None (Some "tclkin_ck") "tclkin_ck" 0x5000;
   CLK None (Some "osc0_clkin_ck") "osc0_clkin_ck" 0x5000;
   CLK None (Some "osc1_clkin_ck") "osc1_clkin_ck" 0x5000;
   CLK None (Some "rtc_divider_ck") "rtc_divider_ck" 0x5000;
   CLK None (Some "osc1_x1_ck") "osc1_x1_ck" 0x5000;
   CLK None (Some "xref0_ck") "xref0_ck" 0x5000;
   CLK None (Some "xref1_ck") "xref1_ck" 0x5000;
   CLK None (Some "xref2_ck") "xref2_ck" 0x5000;
   CLK None (Some "tsi0_dck_ck") "tsi0_dck_ck" 0x1000;
   CLK None (Some "tsi1_dck_ck") "tsi1_dck_ck" 0x1000;
   CLK None (Some "external_ck") "external_ck" 0x5000;
   CLK None (Some "atl0_clk_ck") "atl0_clk_ck" 0x5000;
   CLK None (Some "atl1_clk_ck") "atl1_clk_ck" 0x5000;
   CLK None (Some "atl2_clk_ck") "atl2_clk_ck" 0x5000;
   CLK None (Some "atl3_clk_ck") "atl3_clk_ck" 0x5000;
   CLK None (Some "dcan0_fck") "dcan0_fck" 0x5000;
   CLK None (Some "dcan1_fck") "dcan1_fck" 0x5000;
   CLK None (Some "sr1_fck") "sr1_fck" 0x5000;
   CLK None (Some "sr2_fck") "sr2_fck" 0x5000;
   CLK None (Some "sr3_fck") "sr3_fck" 0x5000;
   CLK None (Some "sr4_fck") "sr4_fck" 0x1000;
   CLK None (Some "arm_dpll_clkin_ck") "arm_dpll_clkin_ck" 0x5000;
   CLK None (Some "arm_dpll_ck") "arm_dpll_ck" 0x5000;
   CLK None (Some "mpu_ck") "mpu_ck" 0x5000;
   CLK None (Some "dsp_dpll_ck") "dsp_dpll_ck" 0x1000;
   CLK None (Some "gem_fck") "gem_fck" 0x1000;
   CLK None (Some "sgx_dpll_ck") "sgx_dpll_ck" 0x1000;
   CLK None (Some "sysclk23_ck") "sysclk23_ck" 0x1000;
   CLK None (Some "sgx_ck") "sgx_ck" 0x1000;
   CLK None (Some "sgx_sys_ck") "sgx_sys_ck" 0x1000;
   CLK None (Some "sgx_mem_ck") "sgx_mem_ck" 0x1000;
   CLK None (Some "hdvicp_dpll_ck") "hdvicp_dpll_ck" 0x5000;
   CLK None (Some "sysclk3_ck") "sysclk3_ck" 0x5000;
   CLK None (Some "ivahd0_ck") "ivahd0_ck" 0x5000;
   CLK None (Some "l3_dpll_clkin_ck") "l3_dpll_clkin_ck" 0x5000;
   CLK None (Some "l3_dpll_ck") "l3_dpll_ck" 0x5000;
   CLK None (Some "sysclk4_ck") "sysclk4_ck" 0x5000;
   CLK None (Some "l3_fast_ick") "l3_fast_ick" 0x5000;
   CLK None (Some "ivahd0_ick") "ivahd0_ick" 0x5000;
   CLK None (Some "exp_slot_ick") "exp_slot_ick" 0x5000;
   CLK None (Some "mmu_ick") "mmu_ick" 0x5000;
   CLK None (Some "gem_ick") "gem_ick" 0x1000;
   CLK None (Some "tptc0_ick") "tptc0_ick" 0x5000;
   CLK None (Some "tptc1_ick") "tptc1_ick" 0x5000;
   CLK None (Some "tptc2_ick") "tptc2_ick" 0x5000;
   CLK None (Some "tptc3_ick") "tptc3_ick" 0x5000;
   CLK None (Some "ivahd0_sl2_ick") "ivahd0_sl2_ick" 0x5000;
   CLK None (Some "tpcc_ick") "tpcc_ick" 0x5000;
   CLK None (Some "fdif_ick") "fdif_ick" 0x5000;
   CLK None (Some "hdvpss_l3_ick") "hdvpss_l3_ick" 0x5000;
   CLK None (Some "sysclk5_ck") "sysclk5_ck" 0x5000;
   CLK None (Some "l3_med_ick") "l3_med_ick" 0x5000;
   CLK None (Some "l4_fast_ick") "l4_fast_ick" 0x5000;
   CLK None (Some "securess_ick") "securess_ick" 0x5000;
   CLK None (Some "tpgsw_ick") "tpgsw_ick" 0x5000;
   CLK (Some "ahci.0") None "sata_ick" 0x5000;
   CLK (Some "ahci.1") None "sata1_ick" 0x4000;
   CLK None (Some "pcie_ck") "pcie_ck" 0x5000;
   CLK None (Some "vcp2_fck") "vcp2_fck" 0x1000;
   CLK None (Some "mlb_ick") "mlb_ick" 0x1000;
   CLK None (Some "fdif_fck") "fdif_fck" 0x5000;
   CLK None (Some "dap_ick") "dap_ick" 0x5000;
   CLK None (Some "ocmc_ram_ick") "ocmc_ram_ick" 0x5000;
   CLK (Some "mmci-omap-hs.2") (Some "ick") "mmchs3_ick" 0x5000;
   CLK (Some "cpsw.0") None "cpsw_ick" 0x5000;
   CLK None (Some "gem_trc_fck") "gem_trc_fck" 0x1000;
   CLK None (Some "mcasp4_ick") "mcasp4_ick" 0x1000;
   CLK None (Some "mcasp5_ick") "mcasp5_ick" 0x1000;
   CLK None (Some "mcasp6_ick") "mcasp6_ick" 0x1000;
   CLK None (Some "hdvpss_l4_ick") "hdvpss_l4_ick" 0x5000;
   CLK None (Some "sysclk6_ck") "sysclk6_ck" 0x5000;
   CLK None (Some "l3_slow_ick") "l3_slow_ick" 0x5000;
   CLK None (Some "l4_slow_ick") "l4_slow_ick" 0x5000;
   CLK None (Some "uart1_ick") "uart1_ick" 0x5000;
   CLK None (Some "uart2_ick") "uart2_ick" 0x5000;
   CLK None (Some "uart3_ick") "uart3_ick" 0x5000;
   CLK None (Some "uart4_ick") "uart4_ick" 0x1000;
   CLK None (Some "uart5_ick") "uart5_ick" 0x1000;
   CLK None (Some "uart6_ick") "uart6_ick" 0x1000;
   CLK (Some "omap_i2c.1") (Some "ick") "i2c1_ick" 0x5000;
   CLK (Some "omap_i2c.2") (Some "ick") "i2c2_ick" 0x5000;
   CLK (Some "omap_i2c.3") (Some "ick") "i2c3_ick" 0x5000;
   CLK (Some "omap_i2c.4") (Some "ick") "i2c4_ick" 0x5000;
   CLK (Some "omap2_mcspi.1") (Some "ick") "mcspi1_ick" 0x5000;
   CLK (Some "omap2_mcspi.2") (Some "ick") "mcspi2_ick" 0x5000;
   CLK (Some "omap2_mcspi.3") (Some "ick") "mcspi3_ick" 0x1000;
   CLK (Some "omap2_mcspi.4") (Some "ick") "mcspi4_ick" 0x1000;
   CLK None (Some "sdio_ick") "sdio_ick" 0x5000;
   CLK None (Some "gpt1_ick") "gpt1_ick" 0x5000;
   CLK None (Some "gpt2_ick") "gpt2_ick" 0x5000;
   CLK None (Some "gpt3_ick") "gpt3_ick" 0x5000;
   CLK None (Some "gpt4_ick") "gpt4_ick" 0x5000;
   CLK None (Some "gpt5_ick") "gpt5_ick" 0x5000;
   CLK None (Some "gpt6_ick") "gpt6_ick" 0x5000;
   CLK None (Some "gpt7_ick") "gpt7_ick" 0x5000;
   CLK None (Some "gpt8_ick") "gpt8_ick" 0x5000;
   CLK None (Some "gpio234_ick") "gpio234_ick" 0x5000;
   CLK None (Some "gpio1_ick") "gpio1_ick" 0x5000].
Definition ti814x_clks_2 : list omap_clk :=
  [CLK None (Some "gpio2_ick") "gpio2_ick" 0x5000;
   CLK None (Some "gpio3_ick") "gpio3_ick" 0x5000;
   CLK None (Some "gpio4_ick") "gpio4_ick" 0x5000;
   CLK None (Some "prcm_ick") "prcm_ick" 0x5000;
   CLK None (Some "smartcard1_ick") "smartcard1_ick" 0x1000;
   CLK None (Some "smartcard2_ick") "smartcard2_ick" 0x1000;
   CLK None (Some "mcasp1_ick") "mcasp1_ick" 0x5000;
   CLK None (Some "mcasp2_ick") "mcasp2_ick" 0x5000;
   CLK None (Some "mcasp3_ick") "mcasp3_ick" 0x1000;
   CLK None (Some "mcbsp_ick") "mcbsp_ick" 0x1000;
   CLK None (Some "gpmc_fck") "gpmc_fck" 0x5000;
   CLK None (Some "hdmi_ick") "hdmi_ick" 0x5000;
   CLK None (Some "mlbp_ick") "mlbp_ick" 0x1000;
   CLK (Some "omap_wdt") (Some "wdt1_ick") "wdt1_ick" 0x5000;
   CLK (Some "omap_wdt") (Some "wdt2_ick") "wdt2_ick" 0x5000;
   CLK None (Some "sync_timer_ick") "sync_timer_ick" 0x5000;
   CLK None (Some "pata_ick") "pata_ick" 0x1000;
   CLK None (Some "mailbox_ick") "mailbox_ick" 0x5000;
   CLK None (Some "spinbox_ick") "spinbox_ick" 0x5000;
   CLK None (Some "sr1_ick") "sr1_ick" 0x5000;
   CLK None (Some "sr2_ick") "sr2_ick" 0x5000;
   CLK None (Some "sr3_ick") "sr3_ick" 0x5000;
   CLK None (Some "sr4_ick") "sr4_ick" 0x1000;
   CLK (Some "ti81xx-usbss") (Some "usb_ick") "usbotg_ick" 0x5000;
   CLK None (Some "mmu_cfg_ick") "mmu_cfg_ick" 0x5000;
   CLK None (Some "p1500_ick") "p1500_ick" 0x5000;
   CLK None (Some "elm_ick") "elm_ick" 0x5000;
   CLK None (Some "elm_fck") "elm_fck" 0x5000;
   CLK (Some "mmci-omap-hs.0") (Some "ick") "mmchs1_ick" 0x5000;
   CLK (Some "mmci-omap-hs.1") (Some "ick") "mmchs2_ick" 0x5000;
   CLK None (Some "atl_ick") "atl_ick" 0x5000;
   CLK None (Some "fdif_enb_ck") "fdif_enb_ck" 0x5000;
   CLK None (Some "rtc_c32k_ick") "rtc_c32k_ick" 0x5000;
   CLK None (Some "dcan0_ick") "dcan0_ick" 0x5000;
   CLK None (Some "dcan1_ick") "dcan1_ick" 0x5000;
   CLK None (Some "iss_dpll_ck") "iss_dpll_ck" 0x5000;
   CLK None (Some "iss_ick") "iss_ick" 0x5000;
   CLK None (Some "isp_ick") "isp_ick" 0x5000;
   CLK None (Some "tppss_tso_ick") "tppss_tso_ick" 0x1000;
   CLK None (Some "iss_dpll_d2_ck") "iss_dpll_d2_ck" 0x5000;
   CLK None (Some "ducati_ick") "ducati_ick" 0x5000;
   CLK None (Some "hdvpss_dpll_ck") "hdvpss_dpll_ck" 0x5000;
   CLK None (Some "hdvpss_proc_fck") "hdvpss_proc_fck" 0x5000;
   CLK None (Some "hdvpss_proc_d2_fck") "hdvpss_proc_d2_fck" 0x5000;
   CLK None (Some "dvi_ch1_ck") "dvi_ch1_ck" 0x5000;
   CLK None (Some "dvi_ch2_ck") "dvi_ch2_ck" 0x5000;
   CLK None (Some "dvi_ch3_ck") "dvi_ch3_ck" 0x5000;
   CLK None (Some "dvi_ch4_ck") "dvi_ch4_ck" 0x5000;
   CLK None (Some "dvoi1_ck") "dvoi1_ck" 0x5000;
   CLK None (Some "dvoi2_ck") "dvoi2_ck" 0x5000;
   CLK None (Some "usb_dpll_clkin_ck") "usb_dpll_clkin_ck" 0x5000;
   CLK None (Some "usb_dpll_ck") "usb_dpll_ck" 0x5000;
   CLK None (Some "usb_phy0_rclk_ick") "usb_phy0_rclk_ick" 0x5000;
   CLK None (Some "usb_phy1_rclk_ick") "usb_phy1_rclk_ick" 0x5000;
   CLK None (Some "usb_dpll_div5_ck") "usb_dpll_div5_ck" 0x5000;
   CLK None (Some "sysclk10_ck") "sysclk10_ck" 0x5000;
   CLK (Some "omap2_mcspi.1") (Some "fck") "mcspi1_fck" 0x5000;
   CLK (Some "omap2_mcspi.2") (Some "fck") "mcspi2_fck" 0x5000;
   CLK (Some "omap2_mcspi.3") (Some "fck") "mcspi3_fck" 0x5000;
   CLK (Some "omap2_mcspi.4") (Some "fck") "mcspi4_fck" 0x5000;
   CLK None (Some "i2c02_ck") "i2c02_ck" 0x5000;
   CLK None (Some "i2c13_ck") "i2c13_ck" 0x5000;
   CLK (Some "omap_i2c.1") (Some "fck") "i2c1_fck" 0x5000;
   CLK (Some "omap_i2c.2") (Some "fck") "i2c2_fck" 0x5000;
   CLK None (Some "i2c3_fck") "i2c3_fck" 0x5000;
   CLK (Some "omap_i2c.4") (Some "fck") "i2c4_fck" 0x5000;
   CLK None (Some "uart1_fck") "uart1_fck" 0x5000;
   CLK None (Some "uart2_fck") "uart2_fck" 0x5000;
   CLK None (Some "uart3_fck") "uart3_fck" 0x5000;
   CLK None (Some "hdmi_cec_dcc_fck") "hdmi_cec_dcc_fck" 0x5000;
   CLK None (Some "sysclk8_ck") "sysclk8_ck" 0x5000;
   CLK (Some "mmci-omap-hs.0") (Some "fck") "mmchs1_fck" 0x5000;
   CLK (Some "mmci-omap-hs.1") (Some "fck") "mmchs2_fck" 0x5000;
   CLK (Some "mmci-omap-hs.2") (Some "fck") "mmchs3_fck" 0x5000;
   CLK None (Some "uart4_fck") "uart4_fck" 0x1000;
   CLK None (Some "uart5_fck") "uart5_fck" 0x1000;
   CLK None (Some "uart6_fck") "uart6_fck" 0x1000;
   CLK None (Some "securess_fck") "securess_fck" 0x5000;
   CLK None (Some "tppss_fck") "tppss_fck" 0x1000;
   CLK None (Some "csi2_phy_fck") "csi2_phy_fck" 0x5000;
   CLK None (Some "ddr_dpll_clkin_ck") "ddr_dpll_clkin_ck" 0x5000;
   CLK None (Some "ddr_dpll_ck") "ddr_dpll_ck" 0x5000;
   CLK None (Some "ddr0_phy_fck") "ddr0_phy_fck" 0x5000;
   CLK None (Some "ddr1_phy_fck") "ddr1_phy_fck" 0x1000;
   CLK None (Some "ddr0_half_fck") "ddr0_half_fck" 0x5000;
   CLK None (Some "ddr1_half_fck") "ddr1_half_fck" 0x1000;
   CLK None (Some "ddr0_phy_d2_fck") "ddr0_phy_d2_fck" 0x5000;
   CLK None (Some "ddr0_emif_fck") "ddr0_emif_fck" 0x5000;
   CLK None (Some "dmm_phy_fck") "dmm_phy_fck" 0x5000;
   CLK None (Some "ddr1_phy_d2_fck") "ddr1_phy_d2_fck" 0x1000;
   CLK None (Some "ddr1_emif_fck") "ddr1_emif_fck" 0x1000;
   CLK None (Some "video0_dpll_clkin_ck") "video0_dpll_clkin_ck" 0x5000;
   CLK None (Some "video0_dpll_ck") "video0_dpll_ck" 0x5000;
   CLK None (Some "video1_dpll_clkin_ck") "video1_dpll_clkin_ck" 0x5000;
   CLK None (Some "video1_dpll_ck") "video1_dpll_ck" 0x5000;
   CLK None (Some "hdmi_dpll_clkin_ck") "hdmi_dpll_clkin_ck" 0x5000;
   CLK None (Some "hdmi_dpll_ck") "hdmi_dpll_ck" 0x5000;
   CLK None (Some "video_m_pclk_ck") "video_m_pclk_ck" 0x5000;
   CLK None (Some "hdmi_phy_tclk_ck") "hdmi_phy_tclk_ck" 0x5000;
   CLK None (Some "hdmi_dpll_muxout_ck") "hdmi_dpll_muxout_ck" 0x5000].
Definition ti814x_clks_3 : list omap_clk :=
  [CLK None (Some "video012_dpll_muxout_ck") "video012_dpll_muxout_ck" 0x5000;
   CLK None (Some "sysclk16_d1mux_ck") "sysclk16_d1mux_ck" 0x1000;
   CLK None (Some "sysclk16_b3mux_ck") "sysclk16_b3mux_ck" 0x1000;
   CLK None (Some "sysclk14_c1mux_ck") "sysclk14_c1mux_ck" 0x1000;
   CLK None (Some "sysclk16_ck") "sysclk16_ck" 0x1000;
   CLK None (Some "tppss_stc1_fck") "tppss_stc1_fck" 0x1000;
   CLK None (Some "hd_venc_g_ck") "hd_venc_g_ck" 0x5000;
   CLK None (Some "hd_venc_d_ck") "hd_venc_d_ck" 0x5000;
   CLK None (Some "hd_venc_a_ck") "hd_venc_a_ck" 0x4000;
   CLK None (Some "hd_dac_ck") "hd_dac_ck" 0x4000;
   CLK None (Some "hdmi_phy_gclk_ck") "hdmi_phy_gclk_ck" 0x5000;
   CLK None (Some "sd_venc_ck") "sd_venc_ck" 0x5000;
   CLK None (Some "sysclk14_ck") "sysclk14_ck" 0x1000;
   CLK None (Some "tppss_stc0_fck") "tppss_stc0_fck" 0x1000;
   CLK None (Some "audio_dpll_clk2_ck") "audio_dpll_clk2_ck" 0x5000;
   CLK None (Some "audio_dpll_clkin_ck") "audio_dpll_clkin_ck" 0x5000;
   CLK None (Some "audio_dpll_ck") "audio_dpll_ck" 0x5000;
   CLK None (Some "audio_dpll_clk1_ck") "audio_dpll_clk1_ck" 0x5000;
   CLK None (Some "audio_prcm_clkin_ck") "audio_prcm_clkin_ck" 0x5000;
   CLK None (Some "sysclk18_ck") "sysclk18_ck" 0x5000;
   CLK None (Some "rtc_c32k_fck") "rtc_c32k_fck" 0x5000;
   CLK None (Some "sysclk19_ck") "sysclk19_ck" 0x5000;
   CLK None (Some "sysclk20_ck") "sysclk20_ck" 0x5000;
   CLK None (Some "sysclk21_ck") "sysclk21_ck" 0x5000;
   CLK None (Some "sysclk22_ck") "sysclk22_ck" 0x5000;
   CLK None (Some "audio_prcm1_out_ck") "audio_prcm1_out_ck" 0x5000;
   CLK None (Some "mcbsp_fck") "mcbsp_fck" 0x5000;
   CLK (Some "davinci-mcasp.0") None "mcasp1_fck" 0x5000;
   CLK (Some "davinci-mcasp.1") None "mcasp2_fck" 0x5000;
   CLK (Some "davinci-mcasp.2") None "mcasp3_fck" 0x1000;
   CLK None (Some "hdmi_i2s_ck") "hdmi_i2s_ck" 0x5000;
   CLK (Some "hdmi-dai") None "hdmi_i2s_fck" 0x5000;
   CLK None (Some "tppss_tso_fck") "tppss_tso_fck" 0x1000;
   CLK None (Some "atl_fck") "atl_fck" 0x5000;
   CLK None (Some "gpio234_dbck") "gpio234_dbck" 0x5000;
   CLK None (Some "gpio1_dbck") "gpio1_dbck" 0x5000;
   CLK None (Some "gpio2_dbck") "gpio2_dbck" 0x5000;
   CLK None (Some "gpio3_dbck") "gpio3_dbck" 0x5000;
   CLK None (Some "gpio4_dbck") "gpio4_dbck" 0x5000;
   CLK None (Some "rtc_fck") "rtc_fck" 0x5000;
   CLK (Some "mmci-omap-hs.0") (Some "mmchs1_dbck") "mmchs1_dbck" 0x5000;
   CLK (Some "mmci-omap-hs.1") (Some "mmchs2_dbck") "mmchs2_dbck" 0x5000;
   CLK (Some "mmci-omap-hs.2") (Some "mmchs3_dbck") "mmchs3_dbck" 0x5000;
   CLK None (Some "sync_timer_fck") "sync_timer_fck" 0x5000;
   CLK None (Some "bandgaps_fck") "bandgaps_fck" 0x5000;
   CLK None (Some "arm_oper_fck") "arm_oper_fck" 0x1000;
   CLK None (Some "gpt1_fck") "gpt1_fck" 0x5000;
   CLK None (Some "gpt2_fck") "gpt2_fck" 0x5000;
   CLK None (Some "gpt3_fck") "gpt3_fck" 0x5000;
   CLK None (Some "gpt4_fck") "gpt4_fck" 0x5000;
   CLK None (Some "gpt5_fck") "gpt5_fck" 0x5000;
   CLK None (Some "gpt6_fck") "gpt6_fck" 0x5000;
   CLK None (Some "gpt7_fck") "gpt7_fck" 0x5000;
   CLK None (Some "gpt8_fck") "gpt8_fck" 0x5000;
   CLK None (Some "mcasp_auxclk_mux0_ck") "mcasp_auxclk_mux0_ck" 0x1000;
   CLK (Some "davinci-mcasp.3") None "mcasp4_fck" 0x1000;
   CLK (Some "davinci-mcasp.4") None "mcasp5_fck" 0x1000;
   CLK (Some "davinci-mcasp.5") None "mcasp6_fck" 0x1000;
   CLK None (Some "mcasp1_ahx_ck") "mcasp1_ahx_ck" 0x5000;
   CLK None (Some "mcasp1_ahr_ck") "mcasp1_ahr_ck" 0x5000;
   CLK None (Some "mcasp2_ahx_ck") "mcasp2_ahx_ck" 0x5000;
   CLK None (Some "mcasp2_ahr_ck") "mcasp2_ahr_ck" 0x5000;
   CLK None (Some "mcasp3_ahx_ck") "mcasp3_ahx_ck" 0x1000;
   CLK None (Some "mcasp4_ahx_ck") "mcasp4_ahx_ck" 0x1000;
   CLK None (Some "mcasp5_ahx_ck") "mcasp5_ahx_ck" 0x1000;
   CLK None (Some "mcasp6_ahx_ck") "mcasp6_ahx_ck" 0x1000;
   CLK None (Some "cpts_rft_clk_ck") "cpts_rft_clk_ck" 0x5000;
   CLK None (Some "cpts_rft_div5_ck") "cpts_rft_div5_ck" 0x4000;
   CLK None (Some "cpts_rft_div2_ck") "cpts_rft_div2_ck" 0x4000;
   CLK None (Some "ljcb_serdesp_ck") "ljcb_serdesp_ck" 0x5000;
   CLK None (Some "ljcb_serdesn_ck") "ljcb_serdesn_ck" 0x5000;
   CLK None (Some "pciessp_ck") "pciessp_ck" 0x5000;
   CLK None (Some "pciessn_ck") "pciessn_ck" 0x5000;
   CLK None (Some "pciess_20m_ck") "pciess_20m_ck" 0x5000;
   CLK None (Some "pciess_50m_ck") "pciess_50m_ck" 0x5000;
   CLK None (Some "pciess_125m_ck") "pciess_125m_ck" 0x5000;
   CLK None (Some "satassp_ck") "satassp_ck" 0x5000;
   CLK None (Some "satassn_ck") "satassn_ck" 0x5000;
   CLK None (Some "satass_20m_ck") "satass_20m_ck" 0x5000;
   CLK None (Some "satass_50m_ck") "satass_50m_ck" 0x5000;
   CLK None (Some "satass_125m_ck") "satass_125m_ck" 0x5000;
   CLK None (Some "sata1ssp_ck") "sata1ssp_ck" 0x4000;
   CLK None (Some "sata1ssn_ck") "sata1ssn_ck" 0x4000;
   CLK None (Some "sata1ss_20m_ck") "sata1ss_20m_ck" 0x4000;
   CLK None (Some "sata1ss_50m_ck") "sata1ss_50m_ck" 0x4000;
   CLK None (Some "sata1ss_125m_ck") "sata1ss_125m_ck" 0x4000;
   CLK None (Some "sata01_50m_mux_out_ck") "sata01_50m_mux_out_ck" 0x4000;
   CLK None (Some "sata01_125m_mux_out_ck") "sata01_125m_mux_out_ck" 0x4000;
   CLK None (Some "gmac0to1_mux_out_ck") "gmac0to1_mux_out_ck" 0x4000;
   CLK None (Some "emac_rmii_fck") "emac_rmii_fck" 0x5000;
   CLK None (Some "emac_gmii_fck") "emac_gmii_fck" 0x5000;
   CLK (Some "omap_wdt") (Some "wdt1_fck") "wdt1_fck" 0x5000;
   CLK (Some "omap_wdt") (Some "wdt2_fck") "wdt2_fck" 0x5000;
   CLK None (Some "dummy_clk_ck") "dummy_clk_ck" 0x4000;
   CLK None (Some "clkout_prcm_mux_ck") "clkout_prcm_mux_ck" 0x5000;
   CLK None (Some "clkout_prcm_ck") "clkout_prcm_ck" 0x5000;
   CLK None (Some "sys_clkout1") "sys_clkout1" 0x5000;
   CLK None (Some "sys_clkout2") "sys_clkout2" 0x5000].
Definition ti814x_clks : list omap_clk :=
  ti814x_clks_1 ++ ti814x_clks_2 ++ ti814x_clks_3.

(** ** Registration *)

Section Init.
  Context `{SOC : Soc} `{HW : Hardware} (arch : option pwrdm_ops).

Definition _update_fixed_divisors : M world unit :=
  if cpu_is_dm385 || (cpu_is_ti814x && (TI8148_REV_ES1_0 <? omap_rev))
  then upd_clk "usb_dpll_div5_ck" (set_ck_fixed_div 1)
  else upd_clk "usb_dpll_div5_ck" (set_ck_fixed_div 5).

Definition _update_data_for_dm385 : M world unit :=
  upd_clk "osc1_clkin_ck" (set_ck_rate 27000000);;
  upd_clk "gmac0to1_mux_out_ck" (set_ck_clksel (Some gmac0to1_385_mux_sel));;
  upd_clk "emac_rmii_fck" (set_ck_clksel (Some rmii_mux_sel));;
  upd_clk "emac_gmii_fck" (set_ck_clksel (Some gmii_mux_sel));;
  upd_clk "clkout_prcm_mux_ck" (set_ck_clksel (Some clkout0to3_385_mux_sel));;
  upd_clk "sys_clkout1" (set_ck_clksel (Some clkout0to10_385_mux_sel));;
  upd_clk "sys_clkout2" (set_ck_clksel (Some clkout0to10_385_mux_sel)).

(** The entries with their positions. *)
Definition numbered (l : list omap_clk) : list (nat * omap_clk) := imap (fun i c => (i, c)) l.

(** [depth] and [fuel] bound the recursions of [ClkRate]. *)
Definition ti814x_clk_init (depth fuel : nat) : M world Z :=
  cpu_clkflg ← (if cpu_is_ti81xx then
                  if cpu_is_dm385 then
                    modify (fun w => set_w_cpu_mask RATE_IN_DM385 w);; ret CK_DM385
                  else
                    modify (fun w => set_w_cpu_mask RATE_IN_TI814X w);; ret CK_TI814X
                else ret CK_TI814X);
  _update_fixed_divisors;;
  when cpu_is_dm385 _update_data_for_dm385;;
  arch_clock ← clk_init (Some (omap2_clk_functions arch depth fuel));
  for_each ti814x_clks (fun c => clk_preinit (oc_clk c));;
  for_each (numbered ti814x_clks) (fun '(i, c) =>
    when (negb (Z.land (oc_cpu c) cpu_clkflg =? 0))
      (clkdev_add (mkLookup (Z.of_nat i) (oc_dev_id c) (oc_con_id c) (oc_clk c));;
       clk_register (Some (oc_clk c));;
       omap2_init_clk_clkdm (oc_clk c)));;
  recalculate_root_clocks fuel;;
  clk_enable_init_clocks arch_clock;;
  ret 0.
End Init.

