(* ===== verification/Dm8148.v ===== *)
(** * The DM8148 after boot

    A device model of the chip (registers are memory, the ADPLL status registers follow
    the control registers), the state in which [pm_boot] and [ti814x_clk_init] leave the
    kernel's own tables on it, and the theorems of the other files applied to that
    state: they hold of the tables the code ships. *)

From Stdlib Require Import Znumtheory.
From S2P Require Import Prelude Platform Prcm Powerdomain Clockdomain ClkCore.
From S2P Require Import Clksel ClkEnable Adpll Clkdev ClkRate Clk814xData.

(** ** The device *)

Definition dpll_list : list dpll_data :=
  Eval vm_compute in snd <$> map_to_list ti814x_dpll_store.

(** The OCP_SYSSTATUS registers of the modules that report the end of a reset: the four SPIs, MMC2,
    the four GPIO banks and the ELM. *)
Definition sysstatus_regs : list Z :=
  [0xfa030114; 0xfa1a0114; 0xfa1a2114; 0xfa1a4114; 0xf9810114;
   0xfa032114; 0xfa04c114; 0xfa1ac114; 0xfa1ae114; 0xfa080014].

(** The boot loader has set the ARM PLL to 600 MHz and the others to 500 MHz; no module is in
    reset. *)
Definition boot_reg (a : Z) : Z :=
  match List.find (fun d => (a =? dd_div_m2n_reg d) || (a =? dd_mult_div1_reg d)) dpll_list with
  | Some d =>
      if a =? dd_div_m2n_reg d then Z.lor 0x10000 (dd_pre_div_n d)
      else if has_type d TI814X_ADPLL_LS_TYPE then 60 else 500
  | None => if existsb (Z.eqb a) sysstatus_regs then 1 else 0
  end.

(** What the status register says when the control register holds [c]. *)
Definition adpll_status (d : dpll_data) (c : Z) : Z :=
  Z.lor (if Z.testbit c (dd_bypass_bit d) then ST_ADPLL_BYPASSED else ST_ADPLL_LOCKED)
        (if Z.testbit c (dd_stby_ret_bit d) then TI814X_ADPLL_STBYRET_ACK_MASK else 0).

Definition status_of (a : Z) : option dpll_data :=
  List.find (fun d => a =? dd_idlest_reg d) dpll_list.

#[local] Arguments status_of : simpl never.
#[local] Arguments boot_reg : simpl never.

Definition dm8148_hw : Hardware := {|
  hw_read := fun h a =>
    match status_of a with
    | Some d => adpll_status d (last_write boot_reg h (dd_control_reg d))
    | None => last_write boot_reg h a
    end;
  hw_sched_clock := fun h => Z.of_nat (length h)
|}.

(** The same chip with the lowest bit of every M2 divider tied to 1, so that no value
    written to it makes the divider 0. *)
Definition tied_hw : Hardware := {|
  hw_read := fun h a =>
    match List.find (fun d => a =? dd_div_m2n_reg d) dpll_list with
    | Some _ => Z.lor (last_write boot_reg h a) 0x10000
    | None => @hw_read dm8148_hw h a
    end;
  hw_sched_clock := fun h => Z.of_nat (length h)
|}.

Lemma dm8148_plain a : status_of a = None -> @plain_reg dm8148_hw a.
Proof. intros Ha e h. cbn. rewrite Ha. by destruct e. Qed.

(** ** Booting *)

Abbreviation dm8148_arch := (Some ti81xx_pwrdm_operations).

Section Boot.
  #[local] Existing Instance dm8148_soc.
  #[local] Existing Instance dm8148_hw.

(** The bounds on the recursions: the clock tree is less than 20 deep. *)
Definition DEPTH : nat := 10.
Definition FUEL : nat := 20.

Definition boot_world : world :=
  set_w_clks (list_to_map ti814x_clk_list) (set_w_dplls ti814x_dpll_store boot_pm_world).

(** [omap2_init_common_infrastructure] of io.c as far as these tables go. *)
Definition boot : M world Z := pm_boot;; ti814x_clk_init dm8148_arch DEPTH FUEL.

Definition end_world {A} (o : outcome world A) : world :=
  match o with Done _ w => w | Fault _ => empty_world end.

Definition booted : world := Eval vm_compute in end_world (boot boot_world).

Lemma boot_runs : boot boot_world = Done 0 booted.
Proof. exact (eq_refl (boot boot_world) <: boot boot_world = Done 0 booted). Qed.

(** The distance of a clock from the root of its tree. *)
Fixpoint clk_depth (par : string -> option string) (n : nat) (c : string) : nat :=
  match n with
  | O => O
  | S n' => match par c with Some p => S (clk_depth par n' p) | None => O end
  end.
Definition clk_rank (c : string) : nat := clk_depth (parent_of booted) FUEL c.

Definition clk_names : list string := fst <$> map_to_list (w_clks booted).
End Boot.

#[global] Opaque booted.

(** ** Checking the tables *)

Lemma forallb_map {A} (f : string * A -> bool) (m : gmap string A) c k :
  forallb f (map_to_list m) = true -> m !! c = Some k -> f (c, k) = true.
Proof.
  intros H Hk. apply elem_of_map_to_list, list_elem_of_In in Hk.
  by eapply forallb_forall in H.
Qed.

Definition tree_check (rank : string -> nat) (N : nat) (w : world) : bool :=
  forallb (fun '(c, k) =>
    bool_decide (NoDup (ck_children k)) && (rank c <? N)%nat &&
    forallb (fun d => bool_decide (parent_of w d = Some c)) (ck_children k) &&
    match ck_parent k with Some p => (rank p <? rank c)%nat | None => true end)
    (map_to_list (w_clks w)).

Lemma tree_check_sound rank N w : tree_check rank N w = true -> clk_tree rank N w.
Proof.
  intros H. assert (forall c k, w_clks w !! c = Some k ->
    NoDup (ck_children k) /\ (rank c < N)%nat /\
    (forall d, d ∈ ck_children k -> parent_of w d = Some c) /\
    match ck_parent k with Some p => (rank p < rank c)%nat | None => True end) as Hc.
  { intros c k Hk. pose proof (forallb_map _ _ _ _ H Hk) as E. cbn in E.
    apply andb_true_iff in E as [[[E1 E2]%andb_true_iff E3]%andb_true_iff E4].
    apply bool_decide_eq_true in E1. apply Nat.ltb_lt in E2. split_and!; try done.
    - intros d Hd. apply list_elem_of_In in Hd. eapply forallb_forall in E3; [|exact Hd].
      by apply bool_decide_eq_true in E3.
    - destruct (ck_parent k); [by apply Nat.ltb_lt|done]. }
  split.
  - intros c k d Hk Hd. destruct (Hc c k Hk) as (_ & _ & Hp & _). specialize (Hp d Hd).
    unfold parent_of in Hp. destruct (w_clks w !! d) as [kd|]; [by exists kd | done].
  - intros c k Hk. by destruct (Hc c k Hk).
  - intros d kd p Hk Hp. destruct (Hc d kd Hk) as (_ & _ & _ & Hr). by rewrite Hp in Hr.
  - intros c k Hk. by destruct (Hc c k Hk) as (_ & ? & _).
Qed.

Lemma booted_tree : clk_tree clk_rank FUEL booted.
Proof. apply tree_check_sound. vm_compute. reflexivity. Qed.

Definition is_none {A} (o : option A) : bool := match o with None => true | Some _ => false end.
Lemma is_none_true {A} (o : option A) : is_none o = true -> o = None.
Proof. by destruct o. Qed.

Section Checks.
  #[local] Existing Instance dm8148_soc.
  #[local] Existing Instance dm8148_hw.

Definition dpll_ready_check (k : clk) (w : world) : bool :=
  match ck_dpll_data k with
  | None => false
  | Some d =>
      match w_dplls w !! d with
      | None => false
      | Some dd =>
          is_none (status_of (dd_control_reg dd)) && is_none (status_of (dd_mult_div1_reg dd)) &&
          is_none (status_of (dd_frac_mult_reg dd)) && is_none (status_of (dd_div_m2n_reg dd)) &&
          bool_decide (ck_parent k = Some (dd_clk_bypass dd)) &&
          bool_decide (dd_clk_ref dd = dd_clk_bypass dd) &&
          (out_of_lock dd (regval w (dd_control_reg dd)) ||
           negb (reg_den dd (regval w (dd_div_m2n_reg dd)) =? 0))
      end
  end.

Definition ready_check (w : world) : bool :=
  forallb (fun '(c, k) =>
    negb (ck_node k) ||
    match ck_recalc k with
    | None => true
    | Some f =>
        negb (is_none (parent_rate w c)) &&
        match f with
        | followparent_recalc_fn => true
        | omap_fixed_divisor_recalc_fn => negb (ck_fixed_div k =? 0)
        | omap2_clksel_recalc_fn => no_clksel k || is_none (status_of (ck_clksel_reg k))
        | ti814x_dpll_recalc_fn | ti814x_dpll_dco_recalc_fn => dpll_ready_check k w
        end
    end) (map_to_list (w_clks w)).

Lemma dpll_ready_check_sound k w : dpll_ready_check k w = true -> dpll_recalc_ready k w.
Proof.
  unfold dpll_ready_check. destruct (ck_dpll_data k) as [d|] eqn:Ed; [|done].
  destruct (w_dplls w !! d) as [dd|] eqn:Edd; [|done]. intros H.
  repeat match goal with H : (_ && _)%bool = true |- _ => apply andb_true_iff in H as [? ?] end.
  repeat match goal with H : is_none _ = true |- _ => apply is_none_true in H end.
  repeat match goal with H : bool_decide _ = true |- _ => apply bool_decide_eq_true in H end.
  exists d, dd. split_and!; try done; [by split; apply dm8148_plain|].
  intros E. rewrite E in *. cbn [orb] in *. by bool_to_prop.
Qed.

(** Whether the clock has been registered. *)
Definition registered (w : world) (c : string) : bool :=
  match w_clks w !! c with Some k => ck_node k | None => false end.

Lemma ready_check_sound w c :
  ready_check w = true -> registered w c = true -> dm8148_recalc_ready c w.
Proof.
  intros H Hn k f Hk Hf. unfold registered in Hn. rewrite Hk in Hn.
  pose proof (forallb_map _ _ _ _ H Hk) as E. cbn in E. rewrite Hn, Hf in E. cbn [negb orb] in E.
  apply andb_true_iff in E as [Hp E].
  split; [destruct (parent_rate w c); [by eexists | done]|].
  destruct f; try done; try (by apply dpll_ready_check_sound); [by bool_to_prop|].
  intros Hs. rewrite Hs in E. by apply dm8148_plain, is_none_true.
Qed.

Lemma booted_ready c : registered booted c = true -> dm8148_recalc_ready c booted.
Proof. apply ready_check_sound. vm_compute. reflexivity. Qed.

(** Children are registered clocks. *)
Lemma booted_below c d : below booted c d -> registered booted d = true.
Proof.
  assert (forallb (fun '(_, k) => forallb (registered booted) (ck_children k))
    (map_to_list (w_clks booted)) = true) as H by (vm_compute; reflexivity).
  assert (forall x k, w_clks booted !! x = Some k -> forall y, y ∈ ck_children k ->
    registered booted y = true) as Hc.
  { intros x k Hk y Hy. pose proof (forallb_map _ _ _ _ H Hk) as E. cbn in E.
    apply list_elem_of_In in Hy. by eapply forallb_forall in E. }
  destruct 1; by eapply Hc.
Qed.

(** The rates of the registered clocks. *)
Definition rates_check (w : world) : bool :=
  forallb (fun '(c, k) =>
    match ck_recalc k with
    | Some f => negb (ck_node k) || (ck_rate k =? dm8148_recalc_val f c w)
    | None => true
    end) (map_to_list (w_clks w)).

Lemma booted_rates c k f :
  w_clks booted !! c = Some k -> ck_node k = true -> ck_recalc k = Some f ->
  ck_rate k = dm8148_recalc_val f c booted.
Proof.
  intros Hk Hn Hf. assert (rates_check booted = true) as H by (vm_compute; reflexivity).
  pose proof (forallb_map _ _ _ _ H Hk) as E. cbn in E. rewrite Hf, Hn in E.
  by apply Z.eqb_eq.
Qed.

(** The reference counts. *)
Definition count_check (L : list string) (ext : string -> Z) (w : world) : bool :=
  forallb (fun '(c, k) =>
    (ck_usecount k =? ext c + zsum (child_use w c) L) &&
    (0 <=? ck_usecount k) && (ck_usecount k <=? 127) && bool_decide (c ∈ L))
    (map_to_list (w_clks w)) &&
  forallb (fun '(d, cd) => cd_usecount cd =? s32 (zsum (clkdm_use w d) L))
    (map_to_list (w_clkdms w)).

Lemma count_check_sound L ext w :
  count_check L ext w = true -> counted L ext (fun _ => 0) w.
Proof.
  intros [Hc Hd]%andb_true_iff. split.
  - intros c k Hk. pose proof (forallb_map _ _ _ _ Hc Hk) as E. cbn in E. by bool_to_prop.
  - intros d cd Hk. pose proof (forallb_map _ _ _ _ Hd Hk) as E. cbn in E. by bool_to_prop.
  - intros c k Hk. pose proof (forallb_map _ _ _ _ Hc Hk) as E. cbn in E. by bool_to_prop.
  - intros c k Hk. pose proof (forallb_map _ _ _ _ Hc Hk) as E. cbn in E.
    apply andb_true_iff in E as [_ E]. by apply bool_decide_eq_true in E.
Qed.

(** After boot one reference is held, to the on-chip memory (ENABLE_ON_INIT). *)
Definition boot_refs (c : string) : Z := if String.eqb c "ocmc_ram_ick" then 1 else 0.

Lemma booted_refcounted : refcounted clk_names boot_refs booted.
Proof.
  split; [apply count_check_sound; vm_compute; reflexivity|].
  intros x. unfold boot_refs. case_bool; lia.
Qed.

(** Booting the DM8148 with the clock, clockdomain and powerdomain tables of the
    source.  [ti814x_clk_init] returns 0; the registered clocks are exactly the table
    entries of the TI814x, in order; they form a tree less than 20 deep; the rate of
    every registered clock is what its function computes from the registers and its
    parent; and the use counts are those of one reference, to the on-chip memory. *)
Theorem clk_boot_correct :
  boot boot_world = Done 0 booted /\
  reverse (w_clocks booted) =
    oc_clk <$> filter (fun c => Z.land (oc_cpu c) CK_TI814X <> 0) ti814x_clks /\
  clk_tree clk_rank FUEL booted /\
  (forall c k f, w_clks booted !! c = Some k -> ck_node k = true -> ck_recalc k = Some f ->
     ck_rate k = dm8148_recalc_val f c booted) /\
  refcounted clk_names boot_refs booted.
Proof.
  split; [exact boot_runs|]. split; [vm_compute; reflexivity|]. split; [exact booted_tree|].
  split; [exact booted_rates | exact booted_refcounted].
Qed.
End Checks.

(** ** The divisor and parent tables *)

Fixpoint sorted_check (l : list clksel_rate) : bool :=
  match l with
  | [] => true
  | a :: l' => forallb (fun b => cr_div a <? cr_div b) l' && sorted_check l'
  end.

Definition rates_ok_check (cpu mask : Z) (l : list clksel_rate) : bool :=
  sorted_check (filter (fun r => rate_enabled cpu r) l) &&
  forallb (fun e => 0 <? cr_div e) l &&
  forallb (fun e => negb (rate_enabled cpu e) ||
    field_fits mask (cr_val e) && negb (cr_val e =? ALL_ONES)) l &&
  forallb (fun e => forallb (fun e' =>
    negb (rate_enabled cpu e) || negb (rate_enabled cpu e') || negb (cr_val e =? cr_val e') ||
    (cr_div e =? cr_div e')) l) l.

Lemma sorted_check_sound l :
  sorted_check l = true -> Sorted.StronglySorted (fun a b => cr_div a < cr_div b) l.
Proof.
  induction l as [|a l IH]; cbn; [constructor|]. intros [Ha Hl]%andb_true_iff.
  constructor; [by apply IH|]. apply List.Forall_forall. intros b Hb.
  eapply forallb_forall in Ha; [|exact Hb]. by apply Z.ltb_lt.
Qed.

Lemma rates_ok_check_sound cpu mask l : rates_ok_check cpu mask l = true -> rates_ok cpu mask l.
Proof.
  intros [[[H1 H2]%andb_true_iff H3]%andb_true_iff H4]%andb_true_iff. split.
  - by apply sorted_check_sound.
  - intros e He%list_elem_of_In. eapply forallb_forall in H2; [|exact He]. by apply Z.ltb_lt.
  - intros e He%list_elem_of_In Hen. eapply forallb_forall in H3; [|exact He].
    rewrite Hen in H3. cbn in H3. apply andb_true_iff in H3 as [Hf Hn]. by bool_to_prop.
  - intros e e' He%list_elem_of_In He'%list_elem_of_In Hen Hen' Hv.
    eapply forallb_forall in H4; [|exact He]. eapply forallb_forall in H4; [|exact He'].
    rewrite Hen, Hen', Hv, Z.eqb_refl in H4. by apply Z.eqb_eq.
Qed.

Definition unambiguous_check (cpu : Z) (l : list clksel) : bool :=
  forallb (fun s => forallb (fun s' => forallb (fun e => forallb (fun e' =>
    negb (rate_enabled cpu e) || negb (rate_enabled cpu e') || negb (cr_val e =? cr_val e') ||
    (String.eqb (cs_parent s) (cs_parent s') && (cr_div e =? cr_div e')))
    (cs_rates s')) (cs_rates s)) l) l.

Lemma unambiguous_check_sound cpu l :
  unambiguous_check cpu l = true -> clksel_unambiguous cpu l.
Proof.
  intros H s s' e e' Hs%list_elem_of_In Hs'%list_elem_of_In He%list_elem_of_In
    He'%list_elem_of_In Hen Hen' Hv.
  eapply forallb_forall in H; [|exact Hs]. eapply forallb_forall in H; [|exact Hs'].
  eapply forallb_forall in H; [|exact He]. eapply forallb_forall in H; [|exact He'].
  rewrite Hen, Hen', Hv, Z.eqb_refl in H. cbn in H. apply andb_true_iff in H as [H1 H2].
  split; [by apply String.eqb_eq | by apply Z.eqb_eq].
Qed.

(** The two clocks whose table has a second entry for divisor 1. *)
Definition hacked : list string := ["sysclk16_b3mux_ck"; "sysclk14_c1mux_ck"].

Definition tables_check (cpu : Z) : bool :=
  forallb (fun '(c, k) =>
    bool_decide (c ∈ hacked) ||
    match ck_clksel k with
    | Some l =>
        (ck_clksel_mask k =? 0) ||
        unambiguous_check cpu l &&
        forallb (fun s => rates_ok_check cpu (ck_clksel_mask k) (cs_rates s)) l
    | None => true
    end) ti814x_clk_list.

(** The divisor and parent tables, as the source initialises them, are fit for the
    code that searches them: for every clock of the table, on a DM8148 and on a DM385, the divisors of
    each parent grow strictly, every field value fits the field, and no field value
    stands for two parents or two divisors.  The exceptions are the two clocks with
    div4_b3c1_rates, whose table is not sorted on either chip. *)
Theorem clksel_tables_wf :
  (forall c k l cpu, (c, k) ∈ ti814x_clk_list -> c ∉ hacked ->
     cpu = RATE_IN_TI814X \/ cpu = RATE_IN_DM385 ->
     ck_clksel k = Some l -> ck_clksel_mask k <> 0 ->
     clksel_unambiguous cpu l /\
     forall s, s ∈ l -> rates_ok cpu (ck_clksel_mask k) (cs_rates s)) /\
  sorted_check (filter (fun r => rate_enabled RATE_IN_TI814X r) div4_b3c1_rates) = false /\
  sorted_check (filter (fun r => rate_enabled RATE_IN_DM385 r) div4_b3c1_rates) = false.
Proof.
  split; [|by vm_compute].
  intros c k l cpu Hin Hnh Hcpu Hl Hm.
  assert (tables_check cpu = true) as H by (destruct Hcpu as [-> | ->]; vm_compute; reflexivity).
  apply list_elem_of_In in Hin. unfold tables_check in H.
  eapply forallb_forall in H; [|exact Hin]. cbv beta iota in H.
  rewrite (bool_decide_eq_false_2 _ Hnh), Hl, (proj2 (Z.eqb_neq _ 0) Hm) in H. cbn [orb] in H.
  apply andb_true_iff in H as [Hu Hr]. split; [by apply unambiguous_check_sound|].
  intros s Hs%list_elem_of_In. eapply forallb_forall in Hr; [|exact Hs].
  by apply rates_ok_check_sound.
Qed.

(** ** The theorems at work on the booted chip *)

Definition clk_at (c : string) : clk :=
  match w_clks booted !! c with Some k => k | None => osc0_clkin_ck end.

#[global] Opaque clk_at.

Section RateWitnesses.
  #[local] Existing Instance dm8148_soc.
  #[local] Existing Instance dm8148_hw.

Lemma propagate_rate_correct_witness :
  wp (propagate_rate FUEL "osc0_clkin_ck")
     (fun _ w' => rates_only booted w' /\
        (forall d, ~ below booted "osc0_clkin_ck" d -> clk_rate w' d = clk_rate booted d) /\
        (forall d k f, below booted "osc0_clkin_ck" d -> w_clks w' !! d = Some k ->
           ck_recalc k = Some f -> ck_rate k = dm8148_recalc_val f d w')) booted.
Proof.
  apply (propagate_rate_correct clk_rank FUEL FUEL "osc0_clkin_ck" booted).
  - exact booted_tree.
  - vm_compute. lia.
  - exists (clk_at "osc0_clkin_ck"). vm_compute. reflexivity.
  - intros d Hd. by eapply booted_ready, booted_below.
Defined.

(** sysclk6 runs from sysclk4 (500 MHz) with the divisors 2 and 4. *)
Definition sysclk6_sel : clksel := mkClksel "sysclk4_ck" div2_sysclk6_rates.

Lemma sysclk6_clksel :
  clksel_clk "sysclk6_ck" (clk_at "sysclk6_ck") "sysclk4_ck" (clk_at "sysclk4_ck")
    sysclk6_sel booted.
Proof.
  split; [vm_compute; reflexivity .. | |].
  - exists sysclk6_div. split; vm_compute; reflexivity.
  - apply rates_ok_check_sound. vm_compute. reflexivity.
Qed.

Lemma clksel_round_rate_optimal_witness :
  wp (omap2_clksel_round_rate_div "sysclk6_ck" 130000000 0)
     (fun '(r, d) w' => w' = booted /\ r <= 130000000 \/ r = ALL_ONES) booted.
Proof.
  eapply wp_mono; [apply (clksel_round_rate_optimal "sysclk6_ck" _ _ _ _ 130000000 0 booted
                            sysclk6_clksel)|].
  - vm_compute. discriminate.
  - intros [r d] w' [-> [(e & (_ & _ & Hle & _) & -> & _)|[-> _]]]; [by left | by right].
Defined.

Lemma clksel_set_rate_roundtrip_witness :
  wp (omap2_clksel_set_rate "sysclk6_ck" 125000000)
     (fun r w' => (r = 0 /\ wp (omap2_clksel_recalc "sysclk6_ck")
                              (fun r' _ => r' = 125000000) w') \/ r = - EINVAL) booted.
Proof.
  eapply wp_mono; [apply (clksel_set_rate_roundtrip "sysclk6_ck" _ _ _ _ 125000000 booted
                            sysclk6_clksel)|].
  - vm_compute. discriminate.
  - vm_compute. reflexivity.
  - discriminate.
  - apply dm8148_plain. vm_compute. reflexivity.
  - cbn beta. intros r w' [(-> & _ & _ & H)|(-> & _)]; [left | by right].
    split; [done|]. eapply wp_mono; [exact H|]. cbn beta. tauto.
Defined.

(** Every clock in the tree is ready, and no DPLL uses the register of a clksel field. *)
Lemma booted_apart reg c :
  forallb (fun d => negb (dd_control_reg d =? reg) && negb (dd_div_m2n_reg d =? reg)) dpll_list = true ->
  dpll_apart reg c booted.
Proof.
  intros H k d dd _ _ Hdd.
  assert (forallb (fun '(_, x) => existsb (fun y => (dd_control_reg y =? dd_control_reg x) &&
    (dd_div_m2n_reg y =? dd_div_m2n_reg x)) dpll_list) (map_to_list (w_dplls booted)) = true) as Hl
    by (vm_compute; reflexivity).
  pose proof (forallb_map _ _ _ _ Hl Hdd) as E. cbv beta iota in E.
  apply existsb_exists in E as (y & Hy & E). eapply forallb_forall in H; [|exact Hy].
  bool_to_prop. lia.
Qed.

Lemma clk_set_rate_correct_witness :
  wp (clk_set_rate (omap2_clk_functions dm8148_arch DEPTH FUEL) FUEL (Some "sysclk6_ck") 125000000)
     (fun r w' =>
        r = 0 /\ clk_rate w' "sysclk6_ck" = Some 125000000 /\
         (forall d k f, below booted "sysclk6_ck" d -> w_clks w' !! d = Some k ->
            ck_recalc k = Some f -> ck_rate k = dm8148_recalc_val f d w')) booted.
Proof.
  eapply wp_mono; [apply (clk_set_rate_correct dm8148_arch clk_rank FUEL 9 FUEL
    "sysclk6_ck" _ _ _ _ 125000000 booted sysclk6_clksel)|].
  - vm_compute. reflexivity.
  - vm_compute. reflexivity.
  - vm_compute. discriminate.
  - vm_compute. reflexivity.
  - apply dm8148_plain. vm_compute. reflexivity.
  - exact booted_tree.
  - vm_compute. lia.
  - intros d Hd. split; [|apply booted_apart; vm_compute; reflexivity].
    apply booted_ready. destruct Hd as [->|Hd]; [vm_compute; reflexivity | by eapply booted_below].
  - cbn beta. intros r w' [(-> & _ & Hr & Hd & _)|(_ & Hno & _)]; [done|].
    destruct Hno. exists (mkRate 4 1 0x60). split; [right; left|]. split; vm_compute; reflexivity.
Defined.

Lemma gpt1_mux :
  mux_clk (w_cpu_mask booted) "gpt1_fck" (clk_at "gpt1_fck") gpt0to7_fclk_mux_sel "osc0_clkin_ck"
    (mkClksel "osc0_clkin_ck" div_1_4_rates).
Proof.
  split; [vm_compute; reflexivity | vm_compute; discriminate | vm_compute; reflexivity | | |].
  - apply rates_ok_check_sound. vm_compute. reflexivity.
  - exists (mkRate 1 4 0x60). split; [left | vm_compute; reflexivity].
  - apply unambiguous_check_sound. vm_compute. reflexivity.
Qed.

Lemma clksel_set_parent_roundtrip_witness :
  wp (omap2_clksel_set_parent "gpt1_fck" "osc0_clkin_ck")
     (fun r w' => r = 0 /\ parent_of w' "gpt1_fck" = Some "osc0_clkin_ck") booted.
Proof.
  eapply wp_mono; [apply (clksel_set_parent_roundtrip "gpt1_fck" (clk_at "gpt1_fck") _
    "osc0_clkin_ck" (clk_at "osc0_clkin_ck") _ booted) with (4 := gpt1_mux)|].
  - vm_compute. reflexivity.
  - vm_compute. reflexivity.
  - discriminate.
  - apply dm8148_plain. vm_compute. reflexivity.
  - cbn beta. intros r w' (-> & Hp & _). done.
Defined.

Lemma clk_set_parent_correct_witness :
  wp (clk_set_parent (omap2_clk_functions dm8148_arch DEPTH FUEL) (fun _ => ret None) FUEL
        (Some "gpt1_fck") (Some "osc0_clkin_ck"))
     (fun r w' => r = 0 /\ parent_of w' "gpt1_fck" = Some "osc0_clkin_ck" /\
        clk_tree clk_rank FUEL w') booted.
Proof.
  eapply wp_mono; [apply (clk_set_parent_correct dm8148_arch clk_rank FUEL DEPTH FUEL
    "gpt1_fck" (clk_at "gpt1_fck") _ "osc0_clkin_ck" (clk_at "osc0_clkin_ck") _ booted)
    with (4 := gpt1_mux)|].
  - vm_compute. reflexivity.
  - vm_compute. reflexivity.
  - vm_compute. lia.
  - apply dm8148_plain. vm_compute. reflexivity.
  - vm_compute. reflexivity.
  - vm_compute. discriminate.
  - vm_compute. reflexivity.
  - exact booted_tree.
  - vm_compute. lia.
  - intros d Hd. split; [by eapply booted_ready, booted_below|].
    apply booted_apart. vm_compute. reflexivity.
  - cbn beta. intros r w' (-> & Hp & T & _). done.
Defined.
End RateWitnesses.

(** ** Reference counting *)

(** An odd M2 never makes the divisor vanish, even where it wraps. *)
Lemma adpll_den_odd n m2 : 0 <= n < 2 ^ 13 -> Z.odd m2 = true -> adpll_den n m2 <> 0.
Proof.
  intros Hn Hm E. unfold adpll_den in E. rewrite (wrapu_small 32 (n + 1)) in E by (split; lia).
  rewrite lsl_small in E by lia. unfold wrapu in E.
  apply Z.mod_divide in E as [q E]; [|lia].
  assert ((n + 1) * m2 = q * 2 ^ 14) as E2 by lia.
  assert (Z.gcd (2 ^ 14) m2 = 1) as Hg.
  { apply Z.coprime_pow_l; [lia|]. apply Z.coprime_prime_l; [exact Z.prime_2|].
    intros [x ->]. by rewrite Z.mul_comm, Z.odd_mul in Hm. }
  assert ((2 ^ 14 | n + 1)) as [y Hy].
  { apply (Z.gauss (2 ^ 14) m2); [|done]. exists q. lia. }
  nia.
Qed.

(** The fields of the DPLL registers of the tables. *)
Definition den_check (dd : dpll_data) : bool :=
  ((dd_div_m2_mask dd =? 0x7f0000) || (dd_div_m2_mask dd =? 0x1f0000)) &&
  ((dd_div_n_mask dd =? 0xff) || (dd_div_n_mask dd =? 0x7f)) &&
  negb (is_none (List.find (fun d => dd_div_m2n_reg dd =? dd_div_m2n_reg d) dpll_list)) &&
  bool_decide (uint 32 (dd_enable_mask dd)).

Lemma tied_den dd h :
  den_check dd = true -> reg_den dd (u32 (@hw_read tied_hw h (dd_div_m2n_reg dd))) <> 0.
Proof.
  unfold den_check. intros H. apply andb_true_iff in H as [H _].
  apply andb_true_iff in H as [[Hm Hn]%andb_true_iff Hf].
  cbn [hw_read tied_hw]. destruct (List.find _ dpll_list); [|done].
  set (v := u32 _). assert (Z.testbit v 16 = true) as Hb.
  { unfold v, wrapu. rewrite Z.mod_pow2_bits_low by lia. by rewrite Z.lor_spec, orb_true_r. }
  assert (uint 32 v) as Hv by (apply wrapu_range; lia).
  unfold reg_den. apply adpll_den_odd.
  - apply orb_true_iff in Hn as [->%Z.eqb_eq | ->%Z.eqb_eq].
    + unfold field_get. change (__ffs 0xff) with 0. rewrite lsr_in, Z.shiftr_0_r by lia.
      change 0xff with (Z.ones 8). rewrite Z.land_ones by lia.
      pose proof (Z.mod_pos_bound v (2 ^ 8)). lia.
    + unfold field_get. change (__ffs 0x7f) with 0. rewrite lsr_in, Z.shiftr_0_r by lia.
      change 0x7f with (Z.ones 7). rewrite Z.land_ones by lia.
      pose proof (Z.mod_pos_bound v (2 ^ 7)). lia.
  - rewrite <- Z.bit0_odd. unfold field_get.
    apply orb_true_iff in Hm as [-> %Z.eqb_eq | ->%Z.eqb_eq].
    + change (__ffs 0x7f0000) with 16. rewrite lsr_in, Z.shiftr_spec, Z.land_spec by lia.
      by rewrite Z.add_0_l, Hb.
    + change (__ffs 0x1f0000) with 16. rewrite lsr_in, Z.shiftr_spec, Z.land_spec by lia.
      by rewrite Z.add_0_l, Hb.
Qed.

Section CountWitnesses.
  #[local] Existing Instance dm8148_soc.
  #[local] Existing Instance tied_hw.

Definition static_check (rank : string -> nat) (w : world) : bool :=
  forallb (fun '(c, k) =>
    match ck_parent k with
    | Some p => negb (is_none (w_clks w !! p)) && (rank p <? rank c)%nat
    | None => true
    end &&
    match ck_clkdm k with
    | Some d =>
        match w_clkdms w !! d with
        | Some cd =>
            match cd_pwrdm cd with
            | PwrdmPtr p =>
                match w_pwrdms w !! p with
                | Some pd => (pd_state pd =? 0) && bool_decide (pd_state_counter pd = [1; 0; 0; 0]) &&
                             (length (pd_state_timer pd) =? 4)%nat
                | None => false
                end
            | _ => false
            end
        | None => false
        end
    | None => true
    end &&
    (negb (bool_decide (ck_ops k = clkops_ti814x_dpll_ops)) ||
     match ck_dpll_data k with
     | Some d =>
         match w_dplls w !! d with
         | Some dd => negb (is_none (w_clks w !! dd_clk_bypass dd)) &&
                      negb (is_none (w_clks w !! dd_clk_ref dd)) && den_check dd
         | None => false
         end
     | None => false
     end)) (map_to_list (w_clks w)).

Lemma not_none {A} (o : option A) : negb (is_none o) = true -> is_Some o.
Proof. destruct o; [by eexists | done]. Qed.

Lemma static_check_sound rank w : static_check rank w = true -> clk_static rank w.
Proof.
  intros H. split.
  - intros c k p Hk Hp. pose proof (forallb_map _ _ _ _ H Hk) as E. cbv beta iota in E.
    rewrite Hp in E. apply andb_true_iff in E as [[E _]%andb_true_iff _].
    apply andb_true_iff in E as [E1 E2]. split; [by apply not_none | by apply Nat.ltb_lt].
  - intros c k d Hk Hd. pose proof (forallb_map _ _ _ _ H Hk) as E. cbv beta iota in E.
    rewrite Hd in E. apply andb_true_iff in E as [[_ E]%andb_true_iff _].
    destruct (w_clkdms w !! d) as [cd|]; [|done]. destruct (cd_pwrdm cd) as [|p] eqn:Ep; [done|].
    destruct (w_pwrdms w !! p) as [pd|] eqn:Epd; [|done].
    exists cd, p. split; [done|]. split; [done|]. exists pd, [0]. split; [done|].
    apply andb_true_iff in E as [[E1%Z.eqb_eq E2]%andb_true_iff E3%Nat.eqb_eq].
    apply bool_decide_eq_true in E2.
    split; rewrite ?E1, ?E2; try done; [by exists []|].
    intros s Hs. unfold PWRDM_MAX_PWRSTS in Hs.
    assert (s = 0 \/ s = 1 \/ s = 2 \/ s = 3) as [->|[->|[->| ->]]] by lia; done.
  - intros c k Hk k' Hk' Ho. rewrite Hk in Hk'. apply (inj Some) in Hk' as <-.
    pose proof (forallb_map _ _ _ _ H Hk) as E. cbv beta iota in E.
    apply andb_true_iff in E as [_ E]. rewrite bool_decide_true in E by done. cbn [negb orb] in E.
    destruct (ck_dpll_data k) as [d|] eqn:Ed; [|done].
    destruct (w_dplls w !! d) as [dd|] eqn:Edd; [|done].
    apply andb_true_iff in E as [[E1%not_none E2%not_none]%andb_true_iff E3].
    exists d, dd. split_and!; try done; [|intros h; by apply tied_den].
    apply andb_true_iff in E3 as [_ E3]. by apply bool_decide_eq_true in E3.
Qed.

Lemma booted_forest : clk_forest clk_rank FUEL clk_names booted.
Proof.
  split.
  - vm_compute. reflexivity.
  - apply NoDup_fst_map_to_list.
  - apply static_check_sound. vm_compute. reflexivity.
  - intros c k Hk. by eapply (ct_bound _ _ _ booted_tree).
Qed.

Lemma booted_room x : usecount_of booted x < 127.
Proof.
  assert (forallb (fun '(_, k) => ck_usecount k <? 127) (map_to_list (w_clks booted)) = true) as H
    by (vm_compute; reflexivity).
  unfold usecount_of. destruct (w_clks booted !! x) as [k|] eqn:Hk; [|lia].
  pose proof (forallb_map _ _ _ _ H Hk) as E. cbv beta iota in E. by apply Z.ltb_lt.
Qed.

Lemma clk_enable_refcount_witness :
  wp (omap2_clk_enable dm8148_arch FUEL "uart1_fck")
     (fun r w' => r = 0 /\ refcounted clk_names (bump boot_refs "uart1_fck" 1) w' \/
        r <> 0 /\ refcounted clk_names boot_refs w') booted.
Proof.
  eapply wp_mono; [apply (clk_enable_refcount dm8148_arch clk_rank FUEL clk_names FUEL "uart1_fck"
    boot_refs booted booted_forest booted_refcounted)|].
  - exists (clk_at "uart1_fck"). vm_compute. reflexivity.
  - vm_compute. lia.
  - exact booted_room.
  - cbn beta. intros r w' (_ & [(-> & H & _)|(Hr & _ & H & _)]); [by left | by right].
Defined.

Lemma clk_disable_refcount_witness :
  wp (omap2_clk_disable dm8148_arch FUEL "ocmc_ram_ick")
     (fun _ w' => refcounted clk_names (bump boot_refs "ocmc_ram_ick" (-1)) w') booted.
Proof.
  eapply wp_mono; [apply (clk_disable_refcount dm8148_arch clk_rank FUEL clk_names FUEL
    "ocmc_ram_ick" boot_refs booted booted_forest booted_refcounted)|].
  - exists (clk_at "ocmc_ram_ick"). vm_compute. reflexivity.
  - vm_compute. lia.
  - vm_compute. reflexivity.
  - cbn beta. by intros _ w' [_ H].
Defined.

Lemma clk_enable_disable_roundtrip_witness :
  wp (r ← omap2_clk_enable dm8148_arch FUEL "uart1_fck";
      when (r =? 0) (omap2_clk_disable dm8148_arch FUEL "uart1_fck"))
     (fun _ w' => refcounted clk_names boot_refs w' /\
        forall x, usecount_of w' x = usecount_of booted x) booted.
Proof.
  apply (clk_enable_disable_roundtrip dm8148_arch clk_rank FUEL clk_names FUEL "uart1_fck"
    boot_refs booted booted_forest booted_refcounted).
  - exists (clk_at "uart1_fck"). vm_compute. reflexivity.
  - vm_compute. lia.
  - exact booted_room.
Defined.

(** A root clock held by 127 drivers. *)
Definition full_clk : clk := set_ck_usecount 127 rcosc_32k_ck.

Lemma clk_enable_usecount_overflow_witness :
  let w := set_w_clks {["rcosc_32k_ck" := full_clk]} empty_world in
  wp (omap2_clk_enable dm8148_arch FUEL "rcosc_32k_ck")
     (fun r w' => r = 0 /\ usecount_of w' "rcosc_32k_ck" = -128) w.
Proof.
  intros w. apply (clk_enable_usecount_overflow dm8148_arch 19 "rcosc_32k_ck" full_clk w);
    reflexivity.
Defined.
End CountWitnesses.

(** ** DPLLs *)

Section DpllWitnesses.
  #[local] Existing Instance dm8148_soc.
  #[local] Existing Instance dm8148_hw.

Lemma dsp_dpll_clk : dpll_clk "dsp_dpll_ck" (clk_at "dsp_dpll_ck") "dsp_dpll_dd" dsp_dpll_dd booted.
Proof. split; vm_compute; reflexivity. Qed.

(** The DSP PLL runs from the 20 MHz oscillator. *)
Lemma dpll_round_rate_accurate_witness :
  wp (ti814x_dpll_round_rate (Some "dsp_dpll_ck") 594123457)
     (fun r w' => 0 <= r <= 594123457 /\ 594123457 - r - 1 < 8) booted.
Proof.
  eapply wp_mono; [apply (dpll_round_rate_accurate "dsp_dpll_ck" (clk_at "dsp_dpll_ck")
    "dsp_dpll_dd" dsp_dpll_dd "osc0_clkin_ck" (clk_at "osc0_clkin_ck") 2000 594123457 booted
    dsp_dpll_clk)|].
  - vm_compute. reflexivity.
  - reflexivity.
  - vm_compute. reflexivity.
  - vm_compute. reflexivity.
  - split; vm_compute; try (split; discriminate); discriminate.
  - vm_compute. discriminate.
  - discriminate.
  - vm_compute. reflexivity.
  - cbn beta. intros r w' (dd' & -> & [(_ & Hr & _ & (Hm2 & _) & _ & _ & Hb)|(Hno & _)]).
    2: { destruct Hno. exists 1. split; [|vm_compute; split; discriminate].
         split; [vm_compute; split; discriminate|]. split; [vm_compute; split; discriminate|].
         change (dd_post_div_m2 dsp_dpll_dd) with 1. lia. }
    split; [done|]. change (dd_post_div_m2 dsp_dpll_dd) with 1 in Hm2.
    change (dd_pre_div_n dsp_dpll_dd) with 19 in Hb.
    assert (ck_rate (clk_at "osc0_clkin_ck") = 20000000) as E by (vm_compute; reflexivity).
    rewrite E in Hb. nia.
Defined.

Lemma dsp_regs_ok : dpll_regs_ok dsp_dpll_dd.
Proof.
  split.
  - split; apply dm8148_plain; vm_compute; reflexivity.
  - apply (bool_decide_eq_true_1 _). vm_compute. reflexivity.
  - apply (bool_decide_eq_true_1 _). vm_compute. reflexivity.
  - apply (bool_decide_eq_true_1 _). vm_compute. reflexivity.
  - reflexivity.
  - intros _. split; [reflexivity|]. intros sd Hsd. unfold field_fits.
    change (dd_sddiv_mask dsp_dpll_dd) with (Z.ones 8 * 2 ^ 24).
    change (__ffs (Z.ones 8 * 2 ^ 24)) with 24. rewrite (proj2 (Z.leb_le 0 sd)) by lia.
    cbn [andb]. rewrite <- Z.shiftl_mul_pow2, <- Z.shiftl_land, Z.land_ones by lia.
    rewrite Z.mod_small by lia. by rewrite Z.eqb_refl.
  - split_and!; try (vm_compute; (reflexivity || discriminate));
      apply (bool_decide_eq_true_1 _); vm_compute; reflexivity.
Qed.


(** Changing the rate of the DSP PLL on the booted chip, end to end.  A rate that
    can be reached is programmed: the result is 0, the clock and the DSP behind it run
    at the new rate, and the registers read back as that rate; all use counts are as
    before.  A rate above the range of the DCO gives -EINVAL, but the references taken
    on the source clock are kept: its use count has grown by two. *)
Theorem dpll_set_rate_on_chip :
  let set r := ti814x_dpll_set_rate dm8148_arch FUEL (Some "dsp_dpll_ck") r booted in
  match set 600000000 with
  | Done r w =>
      r = 0 /\ clk_rate w "dsp_dpll_ck" = Some 600000000 /\ clk_rate w "gem_fck" = Some 600000000 /\
      (match ti814x_get_dpll_rate "dsp_dpll_ck" w with Done x _ => x | Fault _ => 0 end) = 600000000 /\
      forallb (fun c => usecount_of w c =? usecount_of booted c) clk_names = true
  | Fault _ => False
  end /\
  match set 3000000000 with
  | Done r w =>
      r = - EINVAL /\ clk_rate w "dsp_dpll_ck" = clk_rate booted "dsp_dpll_ck" /\
      usecount_of w "osc0_clkin_ck" = usecount_of booted "osc0_clkin_ck" + 2
  | Fault _ => False
  end.
Proof. vm_compute. split_and!; reflexivity. Qed.
End DpllWitnesses.

(** A chip whose DPLLs never change state: registers always read as the boot loader
    left them and the status registers as 0. *)
Definition stuck_hw : Hardware := {|
  hw_read := fun _ a => boot_reg a;
  hw_sched_clock := fun h => 0
|}.

Section Stuck.
  #[local] Existing Instance dm8148_soc.
  #[local] Existing Instance stuck_hw.

(** When the DPLL does not enter bypass, so that nothing can be programmed,
    [ti814x_dpll_set_rate] still returns 0: the caller sees success and the clock keeps
    its old rate. *)
Theorem dpll_set_rate_hides_failure :
  match ti814x_dpll_program "dsp_dpll_ck" 600 0 19 1 2 true booted with
  | Done r _ => r = - EBUSY
  | Fault _ => False
  end /\
  match ti814x_dpll_set_rate dm8148_arch FUEL (Some "dsp_dpll_ck") 600000000 booted with
  | Done r w => r = 0 /\ clk_rate w "dsp_dpll_ck" = Some 500000000
  | Fault _ => False
  end.
Proof. vm_compute. split_and!; reflexivity. Qed.
End Stuck.

Section DcoWitness.
  #[local] Existing Instance dm8148_soc.
  #[local] Existing Instance tied_hw.

Lemma dco_recalc_is_zero_witness :
  wp (ti814x_dpll_dco_recalc "usb_phy0_rclk_ick") (fun r w' => r = 0 /\ io_reads booted w') booted.
Proof.
  apply (dco_recalc_is_zero "usb_phy0_rclk_ick" (clk_at "usb_phy0_rclk_ick") "usb_dpll_dd" usb_dpll_dd
    (clk_at "usb_dpll_clkin_ck") (clk_at "usb_dpll_clkin_ck") booted).
  - vm_compute. discriminate.
  - split; vm_compute; reflexivity.
  - vm_compute. reflexivity.
  - vm_compute. reflexivity.
  - intros h. apply tied_den. vm_compute. reflexivity.
  - reflexivity.
Defined.
End DcoWitness.
