(* ===== verification/Resource.v ===== *)
(** * The resource tree

    kernel/resource.c: the tree of address ranges in which the kernel and its drivers
    reserve I/O memory.

    A [struct resource] is an object of [memory] at an address (a [positive]); the
    [parent], [sibling] and [child] pointers are addresses, NULL is [None].  The
    pointer-to-pointer [p] of the list walks is a [slot]: the [child] or the [sibling]
    field of an object.  [resource_size_t] is 32 bits wide on this machine.

    A walk along the tree is given one step more than there are objects: a walk that is
    longer visits an object twice without having changed anything, so it never ends.
    [NoFuel] stands for such an endless loop.

    The lock is held around every operation. *)

From S2P Require Import Prelude.

Definition IORESOURCE_IO : Z := 0x00000100.
Definition IORESOURCE_MEM : Z := 0x00000200.
Definition IORESOURCE_SIZEALIGN : Z := 0x00040000.
Definition IORESOURCE_STARTALIGN : Z := 0x00080000.
Definition IORESOURCE_MUXED : Z := 0x00400000.
Definition IORESOURCE_EXCLUSIVE : Z := 0x08000000.
Definition IORESOURCE_BUSY : Z := 0x80000000.
Definition PAGE_SHIFT : Z := 12.
Definition PAGE_SIZE : Z := 4096.
Definition PAGE_MASK : Z := 0xfffff000.  (* unsigned long *)

#[local] Set Primitive Projections.

(** struct resource *)
Record resource := mkResource {
  rs_start : Z;  (* resource_size_t *)
  rs_end : Z;  (* resource_size_t *)
  rs_name : option string;
  rs_flags : Z;  (* unsigned long *)
  rs_parent : option positive;
  rs_sibling : option positive;
  rs_child : option positive
}.

Definition set_rs_start : Z -> resource -> resource :=
  Eval cbv beta zeta in ltac:(record_setter rs_start).
Definition set_rs_end : Z -> resource -> resource :=
  Eval cbv beta zeta in ltac:(record_setter rs_end).
Definition set_rs_parent : option positive -> resource -> resource :=
  Eval cbv beta zeta in ltac:(record_setter rs_parent).
Definition set_rs_sibling : option positive -> resource -> resource :=
  Eval cbv beta zeta in ltac:(record_setter rs_sibling).
Definition set_rs_child : option positive -> resource -> resource :=
  Eval cbv beta zeta in ltac:(record_setter rs_child).

(** The objects, and the fate of the coming allocations: [true] for one that fails; those
    after the list succeed. *)
Record memory := mkMemory {
  m_res : gmap positive resource;
  m_oom : list bool
}.

Definition set_m_res : gmap positive resource -> memory -> memory :=
  Eval cbv beta zeta in ltac:(record_setter m_res).
Definition set_m_oom : list bool -> memory -> memory :=
  Eval cbv beta zeta in ltac:(record_setter m_oom).
#[local] Unset Primitive Projections.

Definition get_res (a : positive) : M memory resource :=
  h ← gets (fun m => m_res m);
  deref (h !! a).

Definition upd_res (a : positive) (f : resource -> resource) : M memory unit :=
  r ← get_res a;
  modify (fun m => set_m_res (<[a := f r]> (m_res m)) m).

(** [&r->child] and [&r->sibling] *)
Inductive slot := ChildOf (a : positive) | SiblingOf (a : positive).

Definition read_slot (s : slot) : M memory (option positive) :=
  match s with
  | ChildOf a => r ← get_res a; ret (rs_child r)
  | SiblingOf a => r ← get_res a; ret (rs_sibling r)
  end.

Definition write_slot (s : slot) (v : option positive) : M memory unit :=
  match s with
  | ChildOf a => upd_res a (set_rs_child v)
  | SiblingOf a => upd_res a (set_rs_sibling v)
  end.

(** [kzalloc(sizeof(struct resource))] followed by the initialisation, and [kfree]. *)
Definition kzalloc (r : resource) : M memory (option positive) :=
  o ← gets (fun m => m_oom m);
  modify (fun m => set_m_oom (tail o) m);;
  if head o is Some true then ret None else
  h ← gets (fun m => m_res m);
  let a := fresh (dom h : gset positive) in
  modify (fun m => set_m_res (<[a := r]> h) m);;
  ret (Some a).

Definition kfree (a : positive) : M memory unit :=
  modify (fun m => set_m_res (delete a (m_res m)) m).

Definition walk_bound : M memory nat := gets (fun m => S (size (m_res m))).

(** [resource_size] and [ALIGN] at 32 bits *)
Definition resource_size (r : resource) : Z := u32 (rs_end r - rs_start r + 1).
Definition ALIGN (x a : Z) : Z := Z.land (u32 (x + (a - 1))) (Z.lnot (a - 1)).

(** &iomem_resource *)
Definition iomem_resource : positive := 1.
Definition iomem_resource_init : resource :=
  mkResource 0 0xffffffff (Some "PCI mem") IORESOURCE_MEM None None None.

(** ** Requesting and releasing *)

Fixpoint request_loop (fuel : nat) (root new : positive) (start end_ : Z) (p : slot)
    : M memory (option positive) :=
  match fuel with
  | O => fail NoFuel
  | S fuel' =>
      tmp ← read_slot p;
      let link :=
        upd_res new (set_rs_sibling tmp);;
        write_slot p (Some new);;
        upd_res new (set_rs_parent (Some root));;
        ret None in
      match tmp with
      | None => link
      | Some t =>
          tr ← get_res t;
          if end_ <? rs_start tr then link else
          if rs_end tr <? start then request_loop fuel' root new start end_ (SiblingOf t)
          else ret (Some t)
      end
  end.

(** The conflicting resource, or NULL. *)
Definition __request_resource (root new : positive) : M memory (option positive) :=
  nr ← get_res new;
  if rs_end nr <? rs_start nr then ret (Some root) else
  rr ← get_res root;
  if rs_start nr <? rs_start rr then ret (Some root) else
  if rs_end rr <? rs_end nr then ret (Some root) else
  n ← walk_bound;
  request_loop n root new (rs_start nr) (rs_end nr) (ChildOf root).

Fixpoint release_loop (fuel : nat) (old : positive) (p : slot) : M memory Z :=
  match fuel with
  | O => fail NoFuel
  | S fuel' =>
      tmp ← read_slot p;
      match tmp with
      | None => ret (- EINVAL)
      | Some t =>
          if decide (t = old) then
            tr ← get_res t;
            write_slot p (rs_sibling tr);;
            upd_res old (set_rs_parent None);;
            ret 0
          else release_loop fuel' old (SiblingOf t)
      end
  end.

Definition __release_resource (old : positive) : M memory Z :=
  r ← get_res old;
  parent ← deref (rs_parent r);
  n ← walk_bound;
  release_loop n old (ChildOf parent).

(** [fuel] bounds the depth of the tree. *)
Fixpoint __release_child_resources (fuel : nat) (r : positive) : M memory unit :=
  match fuel with
  | O => fail NoFuel
  | S fuel' =>
      rr ← get_res r;
      upd_res r (set_rs_child None);;
      n ← walk_bound;
      (fix loop (n : nat) (p : option positive) : M memory unit :=
         match n, p with
         | _, None => ret tt
         | O, _ => fail NoFuel
         | S n', Some tmp =>
             tr ← get_res tmp;
             upd_res tmp (set_rs_parent None);;
             upd_res tmp (set_rs_sibling None);;
             __release_child_resources fuel' tmp;;
             tr' ← get_res tmp;
             let size := resource_size tr' in
             upd_res tmp (set_rs_start 0);;
             upd_res tmp (set_rs_end (u32 (size - 1)));;
             loop n' (rs_sibling tr)
         end) n (rs_child rr)
  end.

Definition release_child_resources (r : positive) : M memory unit :=
  n ← walk_bound; __release_child_resources n r.

Definition request_resource_conflict (root new : positive) : M memory (option positive) :=
  __request_resource root new.

Definition request_resource (root new : positive) : M memory Z :=
  conflict ← request_resource_conflict root new;
  match conflict with Some _ => ret (- EBUSY) | None => ret 0 end.

Definition release_resource (old : positive) : M memory Z := __release_resource old.

(** ** System RAM *)

(** [strcmp(p->name, name)]; a NULL name in the tree is dereferenced. *)
Definition name_is (p : resource) (name : string) : M memory bool :=
  n ← deref (rs_name p); ret (String.eqb n name).

Fixpoint ram_loop (fuel : nat) (start end_ flags : Z) (name : option string) (p : option positive)
    : M memory (option resource) :=
  match fuel, p with
  | _, None => ret None
  | O, _ => fail NoFuel
  | S fuel', Some a =>
      r ← get_res a;
      let next := ram_loop fuel' start end_ flags name (rs_sibling r) in
      if negb (rs_flags r =? flags) then next else
      same ← match name with None => ret true | Some n => name_is r n end;
      if negb same then next else
      if end_ <? rs_start r then ret None else
      if (start <=? rs_end r) && (rs_start r <? end_) then ret (Some r) else next
  end.

(** The range it finds, or NULL for -1. *)
Definition find_next_system_ram (start end_ flags : Z) (name : option string)
    : M memory (option (Z * Z)) :=
  if end_ <=? start then fail Bug else
  root ← get_res iomem_resource;
  n ← walk_bound;
  p ← ram_loop n start end_ flags name (rs_child root);
  match p with
  | None => ret None
  | Some r => ret (Some (Z.max start (rs_start r), Z.min end_ (rs_end r)))
  end.

Fixpoint walk_ram (fuel : nat) (func : Z -> Z -> M memory Z) (orig_end start end_ rv : Z)
    : M memory Z :=
  match fuel with
  | O => fail NoFuel
  | S fuel' =>
      if end_ <=? start then ret rv else
      found ← find_next_system_ram start end_ (Z.lor IORESOURCE_MEM IORESOURCE_BUSY)
                (Some "System RAM");
      match found with
      | None => ret rv
      | Some (s, e) =>
          let pfn := Z.shiftr (u32 (s + PAGE_SIZE - 1)) PAGE_SHIFT in
          let end_pfn := Z.shiftr (u32 (e + 1)) PAGE_SHIFT in
          rv ← (if pfn <? end_pfn then func pfn (end_pfn - pfn) else ret rv);
          if negb (rv =? 0) then ret rv else
          walk_ram fuel' func orig_end (u32 (e + 1)) orig_end rv
      end
  end.

Definition walk_system_ram_range (start_pfn nr_pages : Z) (func : Z -> Z -> M memory Z)
    : M memory Z :=
  let start := u32 (Z.shiftl start_pfn PAGE_SHIFT) in
  let end_ := u32 (Z.shiftl (u32 (start_pfn + nr_pages)) PAGE_SHIFT - 1) in
  n ← walk_bound;
  walk_ram n func end_ start end_ (-1).

Definition __is_ram (pfn nr_pages : Z) : M memory Z := ret 1.

Definition page_is_ram (pfn : Z) : M memory bool :=
  r ← walk_system_ram_range pfn 1 __is_ram; ret (r =? 1).

(** ** Allocating *)

Definition simple_align_resource (avail : resource) (size align : Z) : Z := rs_start avail.

Definition resource_clip (min max : Z) (r : resource) : resource :=
  let r := if rs_start r <? min then set_rs_start min r else r in
  if max <? rs_end r then set_rs_end max r else r.

Definition resource_contains (res1 res2 : resource) : bool :=
  (rs_start res1 <=? rs_start res2) && (rs_end res2 <=? rs_end res1).

(** The slot of [size] bytes in the gap [tmp], or [None]. *)
Definition try_gap (new tmp : resource) (size align : Z) (alignf : resource -> Z -> Z -> Z)
    : option (Z * Z) :=
  let avail := set_rs_end (rs_end tmp) (set_rs_start (ALIGN (rs_start tmp) align) new) in
  if rs_start tmp <=? rs_start avail then
    let start := alignf avail size align in
    let end_ := u32 (start + size - 1) in
    if resource_contains avail (set_rs_end end_ (set_rs_start start new))
    then Some (start, end_) else None
  else None.

Fixpoint find_loop (fuel : nat) (root new : positive) (size min max align : Z)
    (alignf : resource -> Z -> Z -> Z) (tmp : resource) (this : option positive) : M memory Z :=
  match fuel with
  | O => fail NoFuel
  | S fuel' =>
      end_ ← match this with
             | Some t => tr ← get_res t; ret (u32 (rs_start tr - 1))
             | None => rr ← get_res root; ret (rs_end rr)
             end;
      let tmp := resource_clip min max (set_rs_end end_ tmp) in
      nr ← get_res new;
      match try_gap nr tmp size align alignf with
      | Some (start, end_) =>
          upd_res new (set_rs_start start);;
          upd_res new (set_rs_end end_);;
          ret 0
      | None =>
          match this with
          | None => ret (- EBUSY)
          | Some t =>
              tr ← get_res t;
              find_loop fuel' root new size min max align alignf
                (set_rs_start (u32 (rs_end tr + 1)) tmp) (rs_sibling tr)
          end
      end
  end.

(** A resource that starts at 0 is skipped first. *)
Definition find_resource (root new : positive) (size min max align : Z)
    (alignf : resource -> Z -> Z -> Z) : M memory Z :=
  rr ← get_res root;
  nr ← get_res new;
  n ← walk_bound;
  let this := rs_child rr in
  let tmp := set_rs_start (rs_start rr) nr in
  let go := find_loop n root new size min max align alignf in
  match this with
  | None => go tmp this
  | Some t =>
      tr ← get_res t;
      if rs_start tr =? 0 then go (set_rs_start (u32 (rs_end tr + 1)) tmp) (rs_sibling tr)
      else go tmp this
  end.

Definition allocate_resource (root new : positive) (size min max align : Z)
    (alignf : option (resource -> Z -> Z -> Z)) : M memory Z :=
  let alignf := match alignf with Some f => f | None => simple_align_resource end in
  err ← find_resource root new size min max align alignf;
  if err <? 0 then ret err else
  conflict ← __request_resource root new;
  match conflict with Some _ => ret (- EBUSY) | None => ret err end.

(** ** Inserting *)

(** The first loop of [__insert_resource]: its result when it returns, or the parent
    and the first conflict when it breaks. *)
Fixpoint insert_find (fuel : nat) (parent new : positive)
    : M memory (option positive + positive * positive) :=
  match fuel with
  | O => fail NoFuel
  | S fuel' =>
      first ← __request_resource parent new;
      match first with
      | None => ret (inl None)
      | Some f =>
          if decide (f = parent) then ret (inl (Some f)) else
          if decide (f = new) then ret (inl (Some f)) else
          fr ← get_res f;
          nr ← get_res new;
          if (rs_start nr <? rs_start fr) || (rs_end fr <? rs_end nr)
          then ret (inr (parent, f)) else
          if (rs_start fr =? rs_start nr) && (rs_end fr =? rs_end nr)
          then ret (inr (parent, f))
          else insert_find fuel' f new
      end
  end.

(** The second loop: a partial overlap, or the last resource that [new] covers. *)
Fixpoint insert_last (fuel : nat) (new next : positive) : M memory (positive + positive) :=
  match fuel with
  | O => fail NoFuel
  | S fuel' =>
      xr ← get_res next;
      nr ← get_res new;
      if (rs_start xr <? rs_start nr) || (rs_end nr <? rs_end xr) then ret (inl next) else
      match rs_sibling xr with
      | None => ret (inr next)
      | Some s =>
          sr ← get_res s;
          if rs_end nr <? rs_start sr then ret (inr next) else insert_last fuel' new s
      end
  end.

(** [for (next = first; next; next = next->sibling) next->parent = new] *)
Fixpoint adopt_loop (fuel : nat) (new : positive) (next : option positive) : M memory unit :=
  match fuel, next with
  | _, None => ret tt
  | O, _ => fail NoFuel
  | S fuel', Some a =>
      upd_res a (set_rs_parent (Some new));;
      r ← get_res a;
      adopt_loop fuel' new (rs_sibling r)
  end.

(** [while (next->sibling != x) next = next->sibling] *)
Fixpoint find_prev (fuel : nat) (x next : positive) : M memory positive :=
  match fuel with
  | O => fail NoFuel
  | S fuel' =>
      r ← get_res next;
      if decide (rs_sibling r = Some x) then ret next else
      s ← deref (rs_sibling r);
      find_prev fuel' x s
  end.

Definition __insert_resource (parent new : positive) : M memory (option positive) :=
  n ← walk_bound;
  found ← insert_find n parent new;
  match found with
  | inl r => ret r
  | inr (parent, first) =>
      last ← insert_last n new first;
      match last with
      | inl conflict => ret (Some conflict)
      | inr next =>
          upd_res new (set_rs_parent (Some parent));;
          xr ← get_res next;
          upd_res new (set_rs_sibling (rs_sibling xr));;
          upd_res new (set_rs_child (Some first));;
          upd_res next (set_rs_sibling None);;
          adopt_loop n new (Some first);;
          pr ← get_res parent;
          (if decide (rs_child pr = Some first) then upd_res parent (set_rs_child (Some new))
           else
             c ← deref (rs_child pr);
             prev ← find_prev n first c;
             upd_res prev (set_rs_sibling (Some new)));;
          ret None
      end
  end.

Definition insert_resource_conflict (parent new : positive) : M memory (option positive) :=
  __insert_resource parent new.

Definition insert_resource (parent new : positive) : M memory Z :=
  conflict ← insert_resource_conflict parent new;
  match conflict with Some _ => ret (- EBUSY) | None => ret 0 end.

Fixpoint expand_loop (fuel : nat) (root new : positive) : M memory unit :=
  match fuel with
  | O => fail NoFuel
  | S fuel' =>
      conflict ← __insert_resource root new;
      match conflict with
      | None => ret tt
      | Some c =>
          if decide (c = root) then ret tt else
          cr ← get_res c;
          nr ← get_res new;
          when (rs_start cr <? rs_start nr) (upd_res new (set_rs_start (rs_start cr)));;
          when (rs_end nr <? rs_end cr) (upd_res new (set_rs_end (rs_end cr)));;
          expand_loop fuel' root new
      end
  end.

(** Every round but the last covers one more resource. *)
Definition insert_resource_expand_to_fit (root new : positive) : M memory unit :=
  nr ← get_res new;
  match rs_parent nr with
  | Some _ => ret tt
  | None => n ← walk_bound; expand_loop n root new
  end.

(** ** Adjusting *)

(** Whether all children from [tmp] on lie within [start] and [end_]. *)
Fixpoint children_within (fuel : nat) (start end_ : Z) (tmp : option positive) : M memory bool :=
  match fuel, tmp with
  | _, None => ret true
  | O, _ => fail NoFuel
  | S fuel', Some a =>
      r ← get_res a;
      if (rs_start r <? start) || (end_ <? rs_end r) then ret false
      else children_within fuel' start end_ (rs_sibling r)
  end.

Definition adjust_resource (res : positive) (start size : Z) : M memory Z :=
  r ← get_res res;
  let end_ := u32 (start + size - 1) in
  parent ← deref (rs_parent r);
  pr ← get_res parent;
  if (start <? rs_start pr) || (rs_end pr <? end_) then ret (- EBUSY) else
  n ← walk_bound;
  ok ← children_within n start end_ (rs_child r);
  if negb ok then ret (- EBUSY) else
  free ← match rs_sibling r with
         | None => ret true
         | Some s => sr ← get_res s; ret (negb (rs_start sr <=? end_))
         end;
  if negb free then ret (- EBUSY) else
  after ← (if decide (rs_child pr = Some res) then ret true
           else
             c ← deref (rs_child pr);
             prev ← find_prev n res c;
             vr ← get_res prev;
             ret (negb (start <=? rs_end vr)));
  if negb after then ret (- EBUSY) else
  upd_res res (set_rs_start start);;
  upd_res res (set_rs_end end_);;
  ret 0.

(** [resource_alignment] *)
Definition resource_alignment (r : resource) : Z :=
  let f := Z.land (rs_flags r) (Z.lor IORESOURCE_SIZEALIGN IORESOURCE_STARTALIGN) in
  if f =? IORESOURCE_SIZEALIGN then resource_size r
  else if f =? IORESOURCE_STARTALIGN then rs_start r
  else 0.

(** ** Busy regions *)

(** [fuel] bounds the recursion. *)
Fixpoint __reserve_region_with_split (fuel : nat) (root : positive) (start end_ : Z)
    (name : option string) : M memory unit :=
  match fuel with
  | O => fail NoFuel
  | S fuel' =>
      res ← kzalloc (mkResource start end_ name IORESOURCE_BUSY None None None);
      match res with
      | None => ret tt
      | Some res =>
          conflict ← __request_resource root res;
          match conflict with
          | None => ret tt
          | Some c =>
              kfree res;;
              cr ← get_res c;
              if (rs_start cr <=? start) && (end_ <=? rs_end cr) then ret tt else
              when (start <? rs_start cr)
                (__reserve_region_with_split fuel' root start (u32 (rs_start cr - 1)) name);;
              cr ← get_res c;
              when (rs_end cr <? end_)
                (__reserve_region_with_split fuel' root (u32 (rs_end cr + 1)) end_ name)
          end
      end
  end.

(** What [__request_region] comes to: the new region or NULL, or sleeping on a muxed
    region with the values of [parent] and [res] it goes on with. *)
Inductive region_result :=
| Region (res : option positive)
| Sleep (parent res : positive).

(** The loop of [__request_region]; started again with what [Sleep] holds when the
    task is woken up. *)
Fixpoint region_loop (fuel : nat) (parent res : positive) (flags : Z) : M memory region_result :=
  match fuel with
  | O => fail NoFuel
  | S fuel' =>
      conflict ← __request_resource parent res;
      match conflict with
      | None => ret (Region (Some res))
      | Some c =>
          cr ← get_res c;
          if negb (bool_decide (c = parent)) && (Z.land (rs_flags cr) IORESOURCE_BUSY =? 0)
          then region_loop fuel' c res flags
          else if negb (Z.land (Z.land (rs_flags cr) flags) IORESOURCE_MUXED =? 0)
          then ret (Sleep c res)
          else kfree res;; ret (Region None)
      end
  end.

Definition __request_region (parent : positive) (start n : Z) (name : option string) (flags : Z)
    : M memory region_result :=
  res ← kzalloc (mkResource start (u32 (start + n - 1)) name (Z.lor IORESOURCE_BUSY flags)
                   None None None);
  match res with
  | None => ret (Region None)
  | Some res => k ← walk_bound; region_loop k parent res flags
  end.

Definition __check_region (parent : positive) (start n : Z) : M memory Z :=
  r ← __request_region parent start n (Some "check-region") 0;
  match r with
  | Region (Some res) => release_resource res;; kfree res;; ret 0
  | _ => ret (- EBUSY)
  end.

(** [fuel] bounds the steps: one along a level or one down for each. *)
Fixpoint release_region_loop (fuel : nat) (start end_ : Z) (p : slot) : M memory unit :=
  match fuel with
  | O => fail NoFuel
  | S fuel' =>
      res ← read_slot p;
      match res with
      | None => ret tt
      | Some a =>
          r ← get_res a;
          if (rs_start r <=? start) && (end_ <=? rs_end r) then
            if Z.land (rs_flags r) IORESOURCE_BUSY =? 0
            then release_region_loop fuel' start end_ (ChildOf a)
            else if negb (rs_start r =? start) || negb (rs_end r =? end_) then ret tt
            else write_slot p (rs_sibling r);; kfree a
          else release_region_loop fuel' start end_ (SiblingOf a)
      end
  end.

Definition __release_region (parent : positive) (start n : Z) : M memory unit :=
  k ← walk_bound;
  release_region_loop k start (u32 (start + n - 1)) (ChildOf parent).

(** ** Walking the whole tree *)

(** [while (!p->sibling && p->parent) p = p->parent; return p->sibling] *)
Fixpoint climb (fuel : nat) (p : positive) : M memory (option positive) :=
  match fuel with
  | O => fail NoFuel
  | S fuel' =>
      r ← get_res p;
      match rs_sibling r, rs_parent r with
      | None, Some q => climb fuel' q
      | s, _ => ret s
      end
  end.

Definition r_next (p : positive) : M memory (option positive) :=
  r ← get_res p;
  match rs_child r with
  | Some c => ret (Some c)
  | None => n ← walk_bound; climb n p
  end.

Definition PFN_DOWN (x : Z) : Z := Z.shiftr x PAGE_SHIFT.

Fixpoint sanity_loop (fuel : nat) (addr size : Z) (p : option positive) : M memory Z :=
  match fuel, p with
  | _, None => ret 0
  | O, _ => fail NoFuel
  | S fuel', Some a =>
      r ← get_res a;
      if (u32 (addr + size) <=? rs_start r) || (rs_end r <? addr) ||
         ((PFN_DOWN (rs_start r) <=? PFN_DOWN addr) &&
          (PFN_DOWN (u32 (addr + size - 1)) <=? PFN_DOWN (rs_end r))) ||
         negb (Z.land (rs_flags r) IORESOURCE_BUSY =? 0)
      then q ← r_next a; sanity_loop fuel' addr size q
      else ret (-1)
  end.

Definition iomem_map_sanity_check (addr size : Z) : M memory Z :=
  r ← get_res iomem_resource;
  n ← walk_bound;
  sanity_loop n addr size (rs_child r).

Fixpoint exclusive_loop (fuel : nat) (addr : Z) (p : option positive) : M memory Z :=
  match fuel, p with
  | _, None => ret 0
  | O, _ => fail NoFuel
  | S fuel', Some a =>
      r ← get_res a;
      if addr + PAGE_SIZE <=? rs_start r then ret 0 else
      if negb (rs_end r <? addr) && negb (Z.land (rs_flags r) IORESOURCE_BUSY =? 0) &&
         negb (Z.land (rs_flags r) IORESOURCE_EXCLUSIVE =? 0)
      then ret 1
      else q ← r_next a; exclusive_loop fuel' addr q
  end.

(** [strict] is the variable [strict_iomem_checks]. *)
Definition iomem_is_exclusive (strict : bool) (addr : Z) : M memory Z :=
  if negb strict then ret 0 else
  r ← get_res iomem_resource;
  n ← walk_bound;
  exclusive_loop n (Z.land addr PAGE_MASK) (rs_child r).
