(* ===== verification/ResourceTree.v ===== *)
(** * Correctness of the resource tree

    The invariant of kernel/resource.c as a predicate on the objects of Resource.v, and
    what requesting, releasing, allocating, inserting and adjusting do to a tree that
    satisfies it. *)

From Stdlib Require Import Sorted.
From stdpp Require Import sorting.
From S2P Require Import Prelude Resource.

(** ** The shape of the tree *)

Implicit Types h : gmap positive resource.

(** [seg h p l q]: following the [sibling] pointers from [p] visits [l] and ends in [q]. *)
Fixpoint seg h (p : option positive) (l : list positive) (q : option positive) : Prop :=
  match l with
  | [] => p = q
  | a :: l' => p = Some a /\ exists r, h !! a = Some r /\ seg h (rs_sibling r) l' q
  end.

(** The children of [a], in order. *)
Definition level h (a : positive) (l : list positive) : Prop :=
  exists r, h !! a = Some r /\ seg h (rs_child r) l None.

Definition start_of h (a : positive) : Z := match h !! a with Some r => rs_start r | None => 0 end.
Definition end_of h (a : positive) : Z := match h !! a with Some r => rs_end r | None => 0 end.

Definition before h (a b : positive) : Prop := end_of h a < start_of h b.

(** The children [l] of [a]: they point to it, lie within it, and are in order without
    overlap. *)
Record kids_ok h (a : positive) (l : list positive) : Prop := {
  ko_kid : forall c, c ∈ l -> exists k, h !! c = Some k /\ rs_parent k = Some a /\
    start_of h a <= rs_start k /\ rs_start k <= rs_end k /\ rs_end k <= end_of h a;
  ko_sorted : StronglySorted (before h) l
}.

(** The invariant of resource.c: the objects are trees of nested, disjoint ranges. *)
Record tree_ok h : Prop := {
  to_level : forall a, is_Some (h !! a) -> exists l, level h a l /\ kids_ok h a l;
  to_linked : forall c k a, h !! c = Some k -> rs_parent k = Some a ->
    exists l, level h a l /\ c ∈ l;
  to_range : forall a r, h !! a = Some r -> uint 32 (rs_start r) /\ uint 32 (rs_end r)
}.

Lemma seg_app h p l1 l2 q :
  seg h p (l1 ++ l2) q <-> exists r, seg h p l1 r /\ seg h r l2 q.
Proof.
  revert p. induction l1 as [|a l1 IH]; intros p; cbn.
  - split; [eauto | by intros (r & -> & ?)].
  - split.
    + intros (-> & r & Ha & (x & H1 & H2)%IH). eauto 8.
    + intros (x & (-> & r & Ha & H1) & H2). split; [done|]. exists r. split; [done|].
      apply IH. eauto.
Qed.

Lemma seg_det h p l l' : seg h p l None -> seg h p l' None -> l = l'.
Proof.
  revert p l'. induction l as [|a l IH]; intros p [|b l']; cbn; try done.
  - by intros -> [? _].
  - by intros [-> _] ?.
  - intros (-> & r & Ha & H) ([= <-] & r' & Ha' & H'). rewrite Ha in Ha'.
    apply (inj Some) in Ha' as <-. f_equal. by eapply IH.
Qed.

Lemma level_det h a l l' : level h a l -> level h a l' -> l = l'.
Proof.
  intros (r & Ha & H) (r' & Ha' & H'). rewrite Ha in Ha'. apply (inj Some) in Ha' as <-.
  by eapply seg_det.
Qed.

(** A segment depends on the [sibling] pointers of its members. *)
Lemma seg_frame h h' p l q :
  (forall a, a ∈ l -> (fun r => rs_sibling r) <$> h' !! a = (fun r => rs_sibling r) <$> h !! a) ->
  seg h p l q -> seg h' p l q.
Proof.
  revert p. induction l as [|a l IH]; intros p Hf; [done|]. cbn. intros (-> & r & Ha & H).
  split; [done|]. pose proof (Hf a ltac:(left)) as E. rewrite Ha in E.
  destruct (h' !! a) as [r'|] eqn:Ha'; [|done]. injection E as E. exists r'. split; [done|].
  rewrite E. apply IH; [|done]. intros b Hb. apply Hf. by right.
Qed.

(** The pointer that leads past the siblings [l] of a level. *)
Definition slot_after (root : positive) (l : list positive) : slot :=
  match last l with None => ChildOf root | Some a => SiblingOf a end.

Definition slot_set (s : slot) (v : option positive) h : gmap positive resource :=
  match s with
  | ChildOf a => alter (set_rs_child v) a h
  | SiblingOf a => alter (set_rs_sibling v) a h
  end.

Lemma slot_after_snoc root l a : slot_after root (l ++ [a]) = SiblingOf a.
Proof. unfold slot_after. by rewrite last_snoc. Qed.

(** Redirecting that pointer to a chain [l'] makes the level [l ++ l']. *)
Lemma splice h root rr l q v l' :
  h !! root = Some rr -> seg h (rs_child rr) l q -> seg h v l' None ->
  NoDup (l ++ l') -> level (slot_set (slot_after root l) v h) root (l ++ l').
Proof.
  intros Hr Hs Hv Hnd. destruct l as [|x l _] using rev_ind.
  - cbn. exists (set_rs_child v rr). split; [by rewrite lookup_alter_eq, Hr|].
    eapply seg_frame; [|exact Hv]. intros a _. destruct (decide (a = root)) as [->|].
    + by rewrite lookup_alter_eq, Hr.
    + by rewrite lookup_alter_ne.
  - rewrite slot_after_snoc. cbn [slot_set]. rewrite <- app_assoc in *. cbn in *.
    apply seg_app in Hs as (y & Hs & -> & r & Hx & <-).
    apply NoDup_app in Hnd as (_ & Hl & [Hx' _]%NoDup_cons).
    assert (x ∉ l) as Hxl by (intros H; apply (Hl x H); left).
    set (h' := alter _ x h).
    assert (forall a, a <> x -> h' !! a = h !! a) as Hne
      by (intros a Ha; unfold h'; by rewrite lookup_alter_ne).
    assert (h' !! x = Some (set_rs_sibling v r)) as Hx2 by (unfold h'; by rewrite lookup_alter_eq, Hx).
    assert (exists r', h' !! root = Some r' /\ rs_child r' = rs_child rr) as (r' & Hr' & Ec).
    { destruct (decide (root = x)) as [->|]; [|exists rr; by rewrite Hne].
      rewrite Hr in Hx. apply (inj Some) in Hx as ->. by eexists. }
    exists r'. split; [done|]. rewrite Ec. apply seg_app. exists (Some x). split.
    + eapply seg_frame; [|exact Hs]. intros a Ha. rewrite Hne; [done|]. by intros ->.
    + split; [done|]. eexists. split; [exact Hx2|]. change (rs_sibling _) with v.
      eapply seg_frame; [|exact Hv]. intros a Ha. rewrite Hne; [done|]. by intros ->.
Qed.

(** ** Triples of the accesses *)

Lemma wp_get_res a r Q m :
  m_res m !! a = Some r -> Q r m -> wp (get_res a) Q m.
Proof. intros Ha HQ. unfold get_res. wp_pure. by eapply wp_deref. Qed.

Lemma wp_upd_res a r f Q m :
  m_res m !! a = Some r -> Q tt (set_m_res (<[a := f r]> (m_res m)) m) -> wp (upd_res a f) Q m.
Proof. intros Ha HQ. unfold upd_res. wp_pure. by eapply wp_get_res. Qed.

Definition owner (s : slot) : positive := match s with ChildOf a | SiblingOf a => a end.
Definition slot_val h (s : slot) : option positive :=
  match s with
  | ChildOf a => r ← h !! a; rs_child r
  | SiblingOf a => r ← h !! a; rs_sibling r
  end%stdpp.

Lemma wp_read_slot s Q m :
  is_Some (m_res m !! owner s) -> Q (slot_val (m_res m) s) m -> wp (read_slot s) Q m.
Proof.
  intros [r Hr] HQ. destruct s; cbn in *; wp_pure; (eapply wp_get_res; [done|]); wp_pure;
    by rewrite Hr in HQ.
Qed.

Lemma alter_is_insert h a r f : h !! a = Some r -> alter f a h = <[a := f r]> h.
Proof.
  intros Ha. apply map_eq. intros b. destruct (decide (a = b)) as [->|].
  - by rewrite lookup_alter_eq, lookup_insert_eq, Ha.
  - by rewrite lookup_alter_ne, lookup_insert_ne.
Qed.

Lemma wp_write_slot s v Q m :
  is_Some (m_res m !! owner s) -> Q tt (set_m_res (slot_set s v (m_res m)) m) ->
  wp (write_slot s v) Q m.
Proof.
  intros [r Hr] HQ. destruct s; cbn in *; (eapply wp_upd_res; [done|]);
    by erewrite <- alter_is_insert.
Qed.

(** Runs the next access whose object is known. *)
Ltac res_step :=
  wp_pure;
  lazymatch goal with
  | |- wp (get_res _) _ _ => eapply wp_get_res; [eassumption|]
  | |- wp (upd_res _ _) _ _ => eapply wp_upd_res; [eassumption|]
  | |- wp walk_bound _ _ => unfold walk_bound
  end; wp_pure.

(** ** Order *)

Lemma start_of_eq h a r : h !! a = Some r -> start_of h a = rs_start r.
Proof. unfold start_of. by intros ->. Qed.

Lemma end_of_eq h a r : h !! a = Some r -> end_of h a = rs_end r.
Proof. unfold end_of. by intros ->. Qed.

Lemma kid_range h a l c : kids_ok h a l -> c ∈ l ->
  start_of h a <= start_of h c /\ start_of h c <= end_of h c /\ end_of h c <= end_of h a.
Proof.
  intros K Hc. destruct (ko_kid _ _ _ K c Hc) as (k & Ek & _ & H).
  by rewrite (start_of_eq _ _ _ Ek), (end_of_eq _ _ _ Ek).
Qed.

Lemma elem_of_next {A} (l1 : list A) c l2 : c ∈ l1 ++ c :: l2.
Proof. apply elem_of_app. right. by left. Qed.

(** The children before one end before it starts. *)
Lemma sorted_before h a l1 c l2 d : kids_ok h a (l1 ++ c :: l2) -> d ∈ l1 -> end_of h d < start_of h c.
Proof. intros [_ [H _]%StronglySorted_app] Hd. by apply (H d c Hd ltac:(left)). Qed.

Lemma sorted_next h a l1 c l2 d : kids_ok h a (l1 ++ c :: l2) -> d ∈ l2 -> end_of h c < start_of h d.
Proof.
  intros [_ (_ & _ & [_ H]%StronglySorted_inv)%StronglySorted_app] Hd.
  rewrite Forall_forall in H. by apply H.
Qed.

Lemma kids_nodup h a l : kids_ok h a l -> NoDup l.
Proof.
  intros [Hk Hs]. induction Hs as [|x l Hs IH Hx]; [constructor|].
  apply NoDup_cons. split.
  - intros Hin. rewrite Forall_forall in Hx. specialize (Hx x Hin).
    destruct (Hk x ltac:(left)) as (k & Ek & _ & _ & Hle & _).
    unfold before, start_of, end_of in Hx. rewrite Ek in Hx. lia.
  - apply IH. intros c Hc. apply Hk. by right.
Qed.

Lemma length_dom h l : NoDup l -> (forall c, c ∈ l -> is_Some (h !! c)) -> (length l <= size h)%nat.
Proof.
  intros Hnd Hin. rewrite <- (size_list_to_set (C := gset positive) l) by done.
  rewrite <- size_dom. apply subseteq_size. intros c Hc. apply elem_of_list_to_set in Hc.
  by apply elem_of_dom, Hin.
Qed.

Lemma kids_length h a l : kids_ok h a l -> (length l <= size h)%nat.
Proof.
  intros Hk. apply length_dom; [by eapply kids_nodup|].
  intros c Hc. destruct (ko_kid _ _ _ Hk c Hc) as (k & -> & _). eauto.
Qed.

(** What the tree says of one node. *)
Lemma level_ok h a l : tree_ok h -> level h a l -> kids_ok h a l.
Proof.
  intros T L. destruct (to_level _ T a) as (l' & L' & K).
  - destruct L as (r & -> & _). eauto.
  - by rewrite (level_det _ _ _ _ L L').
Qed.

(** A node without a parent is on no level. *)
Lemma orphan_unlinked h a l c k :
  kids_ok h a l -> h !! c = Some k -> rs_parent k <> Some a -> c ∉ l.
Proof.
  intros K Hc Hp Hin. destruct (ko_kid _ _ _ K c Hin) as (k' & Hc' & Hp' & _).
  rewrite Hc in Hc'. apply (inj Some) in Hc' as <-. done.
Qed.

(** ** Changing part of a tree *)

Definition links (r : resource) : option positive * option positive := (rs_sibling r, rs_parent r).
Definition range (r : resource) : Z * Z := (rs_start r, rs_end r).

Lemma fmap_lookup_eq {A} (f : resource -> A) h h' a r :
  f <$> h' !! a = f <$> h !! a -> h !! a = Some r -> exists r', h' !! a = Some r' /\ f r' = f r.
Proof.
  intros E Ha. rewrite Ha in E. destruct (h' !! a) as [r'|]; [|done]. injection E. eauto.
Qed.

Lemma range_start h h' a : range <$> h' !! a = range <$> h !! a -> start_of h' a = start_of h a.
Proof. unfold start_of. by destruct (h' !! a), (h !! a); intros [=]. Qed.

Lemma range_end h h' a : range <$> h' !! a = range <$> h !! a -> end_of h' a = end_of h a.
Proof. unfold end_of. by destruct (h' !! a), (h !! a); intros [=]. Qed.

Lemma sorted_frame h h' l :
  (forall a, a ∈ l -> range <$> h' !! a = range <$> h !! a) ->
  StronglySorted (before h) l -> StronglySorted (before h') l.
Proof.
  intros Hr. induction 1 as [|x l Hs IH Hx]; constructor.
  - apply IH. intros a Ha. apply Hr. by right.
  - rewrite Forall_forall in *. intros y Hy. specialize (Hx y Hy). unfold before in *.
    rewrite (range_end h h'), (range_start h h'); [done | apply Hr; by right | apply Hr; by left].
Qed.

Lemma kids_frame h h' a l :
  (forall c, c ∈ a :: l -> range <$> h' !! c = range <$> h !! c) ->
  (forall c, c ∈ l -> links <$> h' !! c = links <$> h !! c) ->
  kids_ok h a l -> kids_ok h' a l.
Proof.
  intros Hr Hl [Hk Hs]. split; [|eapply sorted_frame; [|done]; intros c Hc; apply Hr; by right].
  intros c Hc. destruct (Hk c Hc) as (k & Ek & Hp & H).
  destruct (fmap_lookup_eq _ _ _ _ _ (Hl c Hc) Ek) as (k' & Ek' & [= _ Ep]).
  pose proof (Hr c ltac:(by right)) as E. rewrite Ek, Ek' in E. injection E as Es Ee.
  exists k'. rewrite (range_start h h'), (range_end h h'), Es, Ee by (apply Hr; by left).
  split_and!; [done | congruence | tauto..].
Qed.

Lemma links_sibling (o o' : option resource) :
  links <$> o = links <$> o' -> (fun r => rs_sibling r) <$> o = (fun r => rs_sibling r) <$> o'.
Proof. destruct o, o'; try done. intros [= E _]. cbn. by rewrite E. Qed.

Lemma level_frame h h' a l :
  (fun r => rs_child r) <$> h' !! a = (fun r => rs_child r) <$> h !! a ->
  (forall c, c ∈ l -> (fun r => rs_sibling r) <$> h' !! c = (fun r => rs_sibling r) <$> h !! c) ->
  level h a l -> level h' a l.
Proof.
  intros Hc Hl (r & Hr & Hs). destruct (fmap_lookup_eq _ _ _ _ _ Hc Hr) as (r' & Hr' & E).
  exists r'. cbv beta in E. rewrite E. split; [done|]. by eapply seg_frame.
Qed.

(** The nodes of [R] get other children, the nodes of [D] other siblings and parents;
    the rest of the tree stays. *)
Lemma tree_frame h h' (R D : list positive) :
  tree_ok h ->
  (forall a, range <$> h' !! a = range <$> h !! a) ->
  (forall a, a ∉ R -> (fun r => rs_child r) <$> h' !! a = (fun r => rs_child r) <$> h !! a) ->
  (forall c, c ∉ D -> links <$> h' !! c = links <$> h !! c) ->
  (forall c k a, c ∈ D -> h !! c = Some k -> rs_parent k = Some a -> a ∈ R) ->
  (forall a, a ∈ R -> exists l, level h' a l /\ kids_ok h' a l) ->
  (forall c k a, h' !! c = Some k -> rs_parent k = Some a -> c ∈ D \/ a ∈ R ->
    exists l, level h' a l /\ c ∈ l) ->
  tree_ok h'.
Proof.
  intros T Hr Hc Hl HD HR Hin.
  assert (forall a l, a ∉ R -> level h a l -> forall c, c ∈ l -> links <$> h' !! c = links <$> h !! c)
    as Hfix.
  { intros a l Ha L c Hcl. apply Hl. intros HcD.
    destruct (ko_kid _ _ _ (level_ok _ _ _ T L) c Hcl) as (k & Ek & Ep & _). by apply Ha, (HD c k a). }
  split.
  - intros a Ha. destruct (decide (a ∈ R)) as [HaR|HaR]; [by apply HR|].
    assert (is_Some (h !! a)) as Ha'.
    { pose proof (Hr a) as E. destruct Ha as [r Er]. rewrite Er in E. by destruct (h !! a). }
    destruct (to_level _ T a Ha') as (l & L & K). exists l.
    pose proof (Hfix a l HaR L). split.
    + eapply level_frame; [by apply Hc | eauto using links_sibling | done].
    + eapply kids_frame; [|done..]. by intros c _.
  - intros c k a Ek Ep. destruct (decide (c ∈ D)) as [HcD|HcD]; [by apply (Hin c k); auto|].
    destruct (decide (a ∈ R)) as [HaR|HaR]; [by apply (Hin c k); auto|].
    destruct (fmap_lookup_eq _ _ _ _ _ (eq_sym (Hl c HcD)) Ek) as (k' & Ek' & [= _ Ep']).
    destruct (to_linked _ T c k' a Ek' ltac:(congruence)) as (l & L & Hcl). exists l.
    split; [|done]. eapply level_frame; [by apply Hc | eauto using links_sibling | done].
  - intros a r Ea. destruct (fmap_lookup_eq _ _ _ _ _ (eq_sym (Hr a)) Ea) as (r' & Ea' & [= <- <-]).
    by apply (to_range _ T a r').
Qed.

Lemma fmap_alter {A} (f : resource -> A) g a b h :
  (forall r, f (g r) = f r) -> f <$> alter g a h !! b = f <$> h !! b.
Proof.
  intros E. destruct (decide (a = b)) as [->|].
  - rewrite lookup_alter_eq. destruct (h !! b); cbn; by rewrite ?E.
  - by rewrite lookup_alter_ne.
Qed.

Lemma slot_set_range s v h b : range <$> slot_set s v h !! b = range <$> h !! b.
Proof. destruct s; by apply fmap_alter. Qed.

Lemma slot_set_parent s v h b :
  (fun r => rs_parent r) <$> slot_set s v h !! b = (fun r => rs_parent r) <$> h !! b.
Proof. destruct s; by apply fmap_alter. Qed.

Lemma slot_set_child root l v h b : b <> root ->
  (fun r => rs_child r) <$> slot_set (slot_after root l) v h !! b = (fun r => rs_child r) <$> h !! b.
Proof.
  intros Hb. unfold slot_after. destruct (last l); cbn; [by apply fmap_alter|].
  by rewrite lookup_alter_ne.
Qed.

Lemma slot_set_other root l v h b : b ∉ l ->
  links <$> slot_set (slot_after root l) v h !! b = links <$> h !! b.
Proof.
  intros Hb. unfold slot_after. destruct (last l) as [x|] eqn:E; cbn; [|by apply fmap_alter].
  rewrite lookup_alter_ne; [done|]. intros ->. apply Hb. apply last_Some in E as [l' ->].
  apply elem_of_app. right. by left.
Qed.

Lemma seg_head h p l : seg h p l None -> p = head l.
Proof. destruct l; [done|]. by intros [-> _]. Qed.

Lemma elem_of_middle {A} (c x : A) l1 l2 : c ∈ l1 ++ x :: l2 <-> c = x \/ c ∈ l1 ++ l2.
Proof. rewrite !elem_of_app, elem_of_cons. tauto. Qed.

(** What requesting does to the objects: [new] goes between the siblings [l1] and [l2]. *)
Definition link h (root new : positive) (l1 l2 : list positive) : gmap positive resource :=
  alter (set_rs_parent (Some root)) new
    (slot_set (slot_after root l1) (Some new) (alter (set_rs_sibling (head l2)) new h)).

Section Link.
Context (h : gmap positive resource) (root new : positive) (l1 l2 : list positive) (nr : resource).
Hypothesis T : tree_ok h.
Hypothesis L : level h root (l1 ++ l2).
Hypothesis Hn : h !! new = Some nr.
Hypothesis Hp : rs_parent nr = None.
Hypothesis Hne : new <> root.

Lemma link_fresh : new ∉ l1 ++ l2.
Proof. eapply orphan_unlinked; [by apply level_ok | done | by rewrite Hp]. Qed.

Lemma link_level : level (link h root new l1 l2) root (l1 ++ new :: l2).
Proof.
  pose proof link_fresh as Hf. pose proof (kids_nodup _ _ _ (level_ok _ _ _ T L)) as Hd.
  destruct L as (rr & Hr & (q & H1 & H2)%seg_app).
  set (h1 := alter (set_rs_sibling (head l2)) new h).
  assert (forall l : list positive, (forall c, c ∈ l -> c <> new) -> forall c, c ∈ l ->
    (fun r => rs_sibling r) <$> h1 !! c = (fun r => rs_sibling r) <$> h !! c) as Hs.
  { intros l Hl c Hc. unfold h1. rewrite lookup_alter_ne; [done|]. symmetry. by apply Hl. }
  eapply (level_frame (slot_set (slot_after root l1) (Some new) h1)).
  - by apply fmap_alter.
  - intros c _. by apply fmap_alter.
  - eapply (splice h1 root rr l1 q).
    + unfold h1. by rewrite lookup_alter_ne.
    + eapply seg_frame; [apply Hs|done]. intros c Hc ->. apply Hf, elem_of_app. by left.
    + split; [done|]. exists (set_rs_sibling (head l2) nr). split.
      { unfold h1. by rewrite lookup_alter_eq, Hn. }
      change (rs_sibling _) with (head l2). rewrite <- (seg_head _ _ _ H2).
      eapply seg_frame; [apply Hs|done]. intros c Hc ->. apply Hf, elem_of_app. by right.
    + by rewrite <- Permutation_middle, NoDup_cons.
Qed.

Lemma link_range a : range <$> link h root new l1 l2 !! a = range <$> h !! a.
Proof. unfold link. rewrite fmap_alter, slot_set_range, fmap_alter; done. Qed.

Lemma link_links c : c ∉ new :: l1 ++ l2 ->
  links <$> link h root new l1 l2 !! c = links <$> h !! c.
Proof.
  intros [Hc Hl]%not_elem_of_cons. unfold link. rewrite lookup_alter_ne by done.
  rewrite slot_set_other by (intros H; apply Hl, elem_of_app; by left).
  by rewrite lookup_alter_ne.
Qed.

Lemma link_child a : a <> root ->
  (fun r => rs_child r) <$> link h root new l1 l2 !! a = (fun r => rs_child r) <$> h !! a.
Proof. intros Ha. unfold link. by rewrite fmap_alter, slot_set_child, fmap_alter. Qed.

Lemma link_parent c k : link h root new l1 l2 !! c = Some k -> c <> new ->
  exists k', h !! c = Some k' /\ rs_parent k' = rs_parent k.
Proof.
  intros E Hc. apply (fmap_lookup_eq (fun r => rs_parent r)) with (2 := E). unfold link.
  by rewrite lookup_alter_ne, slot_set_parent, fmap_alter.
Qed.

Lemma link_new : exists k, link h root new l1 l2 !! new = Some k /\
  rs_parent k = Some root /\ range k = range nr.
Proof.
  pose proof (link_range new) as E. rewrite Hn in E.
  destruct (link h root new l1 l2 !! new) as [k|] eqn:Ek; [|done]. injection E as E1 E2.
  exists k. split; [done|]. unfold range. rewrite E1, E2. split; [|done].
  unfold link in Ek. rewrite lookup_alter_eq in Ek. apply fmap_Some in Ek as (x & _ & ->). done.
Qed.

Hypothesis Hin : start_of h root <= rs_start nr /\ rs_start nr <= rs_end nr /\ rs_end nr <= end_of h root.
Hypothesis H1 : forall c, c ∈ l1 -> end_of h c < rs_start nr.
Hypothesis H2 : forall c, c ∈ l2 -> rs_end nr < start_of h c.

Lemma link_sorted : StronglySorted (before h) (l1 ++ new :: l2).
Proof.
  destruct (level_ok _ _ _ T L) as [_ Hs]. apply StronglySorted_app in Hs as (Hs & Hs1 & Hs2).
  apply StronglySorted_app. split_and!.
  - intros a b Ha [->|Hb]%elem_of_cons; [|by apply Hs]. unfold before, start_of. rewrite Hn. by apply H1.
  - done.
  - constructor; [done|]. apply Forall_forall. intros c Hc. unfold before, end_of. rewrite Hn. by apply H2.
Qed.

Lemma link_kids : kids_ok (link h root new l1 l2) root (l1 ++ new :: l2).
Proof.
  split; [|eapply sorted_frame; [|apply link_sorted]; intros; apply link_range].
  intros c Hc. rewrite (range_start h), (range_end h) by apply link_range.
  destruct (decide (c = new)) as [->|Hcn].
  - destruct link_new as (k & Ek & Ep & [= Es Ee]). exists k. by rewrite Es, Ee.
  - assert (c ∈ l1 ++ l2) as Hc' by (apply elem_of_middle in Hc as [|]; done).
    destruct (ko_kid _ _ _ (level_ok _ _ _ T L) c Hc') as (k & Ek & Ep & Hr).
    pose proof (link_range c) as E. rewrite Ek in E.
    destruct (link h root new l1 l2 !! c) as [k'|] eqn:Ek'; [|done]. injection E as Es Ee.
    destruct (link_parent c k' Ek' Hcn) as (x & Ex & Epx). rewrite Ek in Ex.
    apply (inj Some) in Ex as <-. exists k'. rewrite Es, Ee. split_and!; try done; [congruence|tauto..].
Qed.

Lemma link_tree : tree_ok (link h root new l1 l2).
Proof.
  pose proof link_level as L'.
  apply (tree_frame h _ [root] (new :: l1 ++ l2)); [done | apply link_range | | apply link_links | | | ].
  - intros a Ha. apply link_child. intros ->. apply Ha. by left.
  - intros c k a [->|Hc]%elem_of_cons Ek Ep.
    + rewrite Hn in Ek. apply (inj Some) in Ek as <-. congruence.
    + destruct (ko_kid _ _ _ (level_ok _ _ _ T L) c Hc) as (k' & Ek' & Ep' & _).
      rewrite Ek in Ek'. apply (inj Some) in Ek' as <-. apply list_elem_of_singleton. congruence.
  - intros a ->%list_elem_of_singleton. eauto using link_kids.
  - intros c k a Ek Ep Hor. destruct (decide (c = new)) as [->|Hcn].
    { destruct link_new as (k' & Ek' & Ep' & _). rewrite Ek in Ek'. apply (inj Some) in Ek' as <-.
      rewrite Ep in Ep'. injection Ep' as ->. exists (l1 ++ new :: l2). split; [done|].
      apply elem_of_middle. by left. }
    destruct (link_parent c k Ek Hcn) as (k' & Ek' & Ep').
    destruct (to_linked _ T c k' a Ek' ltac:(congruence)) as (l & La & Hcl).
    assert (a = root) as ->.
    { destruct Hor as [[->|Hc]%elem_of_cons|Ha]; [done | | by apply list_elem_of_singleton].
      destruct (ko_kid _ _ _ (level_ok _ _ _ T L) c Hc) as (x & Ex & Epx & _).
      rewrite Ek' in Ex. apply (inj Some) in Ex as <-. congruence. }
    exists (l1 ++ new :: l2). split; [done|]. rewrite (level_det _ _ _ _ La L) in Hcl.
    apply elem_of_middle. by right.
Qed.
End Link.

(** ** Requesting *)

Lemma wp_upd_alter a f Q m :
  is_Some (m_res m !! a) -> Q tt (set_m_res (alter f a (m_res m)) m) -> wp (upd_res a f) Q m.
Proof. intros [r Hr] HQ. eapply wp_upd_res; [done|]. by erewrite <- alter_is_insert. Qed.

Lemma alter_is_Some h a f b : is_Some (h !! b) -> is_Some (alter f a h !! b).
Proof. intros. by apply lookup_alter_is_Some. Qed.

Lemma level_owner h root l1 l2 : level h root (l1 ++ l2) -> is_Some (h !! owner (slot_after root l1)).
Proof.
  intros (rr & Hr & (q & H1 & H2)%seg_app). destruct l1 as [|x l1 _] using rev_ind; [eauto|].
  rewrite slot_after_snoc. apply seg_app in H1 as (y & _ & -> & r & Hx & _). cbn. eauto.
Qed.

Lemma level_slot h root l1 l2 : level h root (l1 ++ l2) -> slot_val h (slot_after root l1) = head l2.
Proof.
  intros (rr & Hr & (q & H1 & H2)%seg_app). rewrite <- (seg_head _ _ _ H2). destruct l1 as [|x l1 _] using rev_ind.
  - cbn. rewrite Hr. done.
  - rewrite slot_after_snoc. apply seg_app in H1 as (y & _ & -> & r & Hx & Hq). cbn. by rewrite Hx.
Qed.

(** The range of [c] meets that from [s] to [e]. *)
Definition clash h (s e : Z) (c : positive) : Prop := start_of h c <= e /\ s <= end_of h c.

(** Where the search among the siblings [l] ends. *)
Inductive placed h (root new : positive) (s e : Z) (l : list positive)
    : option positive -> gmap positive resource -> Prop :=
| placed_free l1 l2 : l = l1 ++ l2 ->
    (forall c, c ∈ l1 -> end_of h c < s) -> (forall c, c ∈ l2 -> e < start_of h c) ->
    placed h root new s e l None (link h root new l1 l2)
| placed_clash l1 c l2 : l = l1 ++ c :: l2 ->
    (forall c, c ∈ l1 -> end_of h c < s) -> clash h s e c ->
    placed h root new s e l (Some c) h.

Lemma sorted_after h root l1 c l2 k e :
  kids_ok h root (l1 ++ c :: l2) -> h !! c = Some k -> e < rs_start k ->
  forall d, d ∈ c :: l2 -> e < start_of h d.
Proof.
  intros [Hk Hs] Ek He d Hd. apply StronglySorted_app in Hs as (_ & _ & Hs).
  apply StronglySorted_inv in Hs as [_ Hs]. rewrite Forall_forall in Hs.
  apply elem_of_cons in Hd as [->|Hd]; [unfold start_of; by rewrite Ek|].
  specialize (Hs d Hd). unfold before, end_of in Hs. rewrite Ek in Hs.
  destruct (Hk c) as (k' & Ek' & _ & _ & Hle & _); [apply elem_of_app; right; by left|].
  rewrite Ek in Ek'. apply (inj Some) in Ek' as <-. lia.
Qed.

Lemma request_link_wp m root new nr l1 l2 (Q : option positive -> memory -> Prop) :
  level (m_res m) root (l1 ++ l2) -> m_res m !! new = Some nr ->
  Q None (set_m_res (link (m_res m) root new l1 l2) m) ->
  wp (upd_res new (set_rs_sibling (head l2));;
      write_slot (slot_after root l1) (Some new);;
      upd_res new (set_rs_parent (Some root));;
      ret None) Q m.
Proof.
  intros L Hn HQ. pose proof (level_owner _ _ _ _ L) as Ho. apply wp_bind, wp_upd_alter; [eauto|].
  apply wp_bind, wp_write_slot; [by apply alter_is_Some|].
  apply wp_bind, wp_upd_alter; [|by apply wp_ret].
  cbn [m_res set_m_res]. destruct (slot_after root l1); by repeat apply alter_is_Some.
Qed.

Lemma request_loop_wp fuel m root new nr l1 l2 s e :
  tree_ok (m_res m) -> level (m_res m) root (l1 ++ l2) -> m_res m !! new = Some nr ->
  (length l2 < fuel)%nat -> (forall c, c ∈ l1 -> end_of (m_res m) c < s) ->
  wp (request_loop fuel root new s e (slot_after root l1))
    (fun r m' => exists h', m' = set_m_res h' m /\ placed (m_res m) root new s e (l1 ++ l2) r h') m.
Proof.
  intros T. revert l1 l2. induction fuel as [|fuel IH]; intros l1 l2 L Hn Hlen H1; [lia|].
  cbn [request_loop]. apply wp_bind, wp_read_slot; [by eapply level_owner|].
  rewrite (level_slot _ _ _ _ L). pose proof (level_ok _ _ _ T L) as K. destruct l2 as [|c l2]; cbn [head].
  { eapply (request_link_wp m root new nr l1 []); [done..|]. eexists. split; [done|].
    apply placed_free; [done..|]. by intros ? ?%elem_of_nil. }
  destruct (ko_kid _ _ _ K c) as (k & Ek & _); [apply elem_of_app; right; by left|].
  apply wp_bind. eapply wp_get_res; [exact Ek|]. cbv beta. destruct (e <? rs_start k) eqn:E1.
  { eapply (request_link_wp m root new nr l1 (c :: l2)); [done..|]. eexists. split; [done|].
    apply placed_free; [done..|]. bool_to_prop. by eapply sorted_after. }
  destruct (rs_end k <? s) eqn:E2; bool_to_prop.
  - rewrite <- (slot_after_snoc root l1 c).
    replace (l1 ++ c :: l2) with ((l1 ++ [c]) ++ l2) in * by (by rewrite <- app_assoc).
    apply IH; [done.. | cbn in Hlen; lia |].
    intros d [Hd| ->%list_elem_of_singleton]%elem_of_app; [by apply H1|]. unfold end_of. by rewrite Ek.
  - apply wp_ret. exists (m_res m). split; [done|]. eapply placed_clash; [done..|].
    unfold clash, start_of, end_of. rewrite Ek. done.
Qed.

(** A node that heads a tree of its own. *)
Definition loose (m : memory) (root new : positive) (nr : resource) : Prop :=
  m_res m !! new = Some nr /\ rs_parent nr = None /\ new <> root.

(** The range from [s] to [e] is a free one of [root], whose children are [l]. *)
Definition fits h (root : positive) (l : list positive) (s e : Z) : Prop :=
  s <= e /\ start_of h root <= s /\ e <= end_of h root /\ forall c, c ∈ l -> ~ clash h s e c.

(** The three ends of [__request_resource]. *)
Inductive requested h (root new : positive) (s e : Z) (l : list positive)
    : option positive -> gmap positive resource -> Prop :=
| req_linked l1 l2 : l = l1 ++ l2 -> fits h root l s e ->
    tree_ok (link h root new l1 l2) -> level (link h root new l1 l2) root (l1 ++ new :: l2) ->
    requested h root new s e l None (link h root new l1 l2)
| req_outside : e < s \/ s < start_of h root \/ end_of h root < e ->
    requested h root new s e l (Some root) h
| req_clash l1 c l2 : l = l1 ++ c :: l2 -> s <= e -> start_of h root <= s -> e <= end_of h root ->
    (forall d, d ∈ l1 -> end_of h d < s) -> clash h s e c ->
    requested h root new s e l (Some c) h.

Lemma requested_none h root new s e l r h' :
  requested h root new s e l r h' -> (r = None <-> fits h root l s e).
Proof.
  intros [l1 l2 -> Hf _ _|Ho|l1 c l2 -> Hse Hs He _ Hc]; split; try done.
  - intros (? & ? & ? & _). lia.
  - intros (_ & _ & _ & Hf). exfalso. apply (Hf c); [|done]. apply elem_of_app. right. by left.
Qed.

Lemma fits_around h root l1 l2 s e : s <= e -> start_of h root <= s -> e <= end_of h root ->
  (forall c, c ∈ l1 -> end_of h c < s) -> (forall c, c ∈ l2 -> e < start_of h c) ->
  fits h root (l1 ++ l2) s e.
Proof.
  intros Hse Hs He H1 H2. split_and!; [done..|]. intros c [Hc|Hc]%elem_of_app [? ?].
  - specialize (H1 c Hc). lia.
  - specialize (H2 c Hc). lia.
Qed.

Lemma request_wp m root new nr l :
  tree_ok (m_res m) -> level (m_res m) root l -> loose m root new nr ->
  wp (__request_resource root new)
    (fun r m' => exists h', m' = set_m_res h' m /\
       requested (m_res m) root new (rs_start nr) (rs_end nr) l r h') m.
Proof.
  intros T L (Hn & Hp & Hne). unfold __request_resource. res_step.
  destruct L as (rr & Hr & Hs). assert (level (m_res m) root l) as L by (by exists rr).
  assert (start_of (m_res m) root = rs_start rr) as Es by (unfold start_of; by rewrite Hr).
  assert (end_of (m_res m) root = rs_end rr) as Ee by (unfold end_of; by rewrite Hr).
  case_bool; bool_to_prop; [wp_pure; eexists; split; [done|]; apply req_outside; lia|]. res_step.
  case_bool; bool_to_prop; [wp_pure; eexists; split; [done|]; apply req_outside; lia|].
  case_bool; bool_to_prop; [wp_pure; eexists; split; [done|]; apply req_outside; lia|].
  unfold walk_bound. wp_pure. eapply wp_mono; [apply (request_loop_wp _ m root new nr [] l); try done|].
  - pose proof (kids_length _ _ _ (level_ok _ _ _ T L)). lia.
  - by intros ? ?%elem_of_nil.
  - intros r m' (h' & -> & Hpl). exists h'. split; [done|]. change ([] ++ l) with l in Hpl.
    destruct Hpl as [l1 l2 -> H1 H2|l1 c l2 -> H1 Hc].
    + apply req_linked; [done | apply fits_around; try done; lia | | by eapply link_level].
      eapply link_tree; try done. lia.
    + eapply req_clash; try done; lia.
Qed.

Lemma request_resource_wp m root new nr l :
  tree_ok (m_res m) -> level (m_res m) root l -> loose m root new nr ->
  wp (request_resource root new) (fun r m' => exists (c : option positive) h',
    m' = set_m_res h' m /\ r = match c with Some _ => - EBUSY | None => 0 end /\
    requested (m_res m) root new (rs_start nr) (rs_end nr) l c h') m.
Proof.
  intros T L Hn. unfold request_resource, request_resource_conflict. apply wp_bind.
  eapply wp_mono; [by apply (request_wp m root new nr l)|]. intros c m' (h' & -> & Hq).
  destruct c as [c|]; apply wp_ret; [exists (Some c), h' | exists None, h']; done.
Qed.

(** C6: requesting on a tree that is in order links the resource and keeps the order
    exactly when its range is a free one of the root, and otherwise answers -EBUSY and
    changes nothing. *)
Theorem request_resource_correct m root new nr l :
  tree_ok (m_res m) -> level (m_res m) root l -> loose m root new nr ->
  wp (request_resource root new) (fun r m' =>
    (fits (m_res m) root l (rs_start nr) (rs_end nr) /\ r = 0 /\ tree_ok (m_res m') /\
     exists l1 l2, l = l1 ++ l2 /\ m' = set_m_res (link (m_res m) root new l1 l2) m /\
       level (m_res m') root (l1 ++ new :: l2)) \/
    (~ fits (m_res m) root l (rs_start nr) (rs_end nr) /\ r = - EBUSY /\ m' = m)) m.
Proof.
  intros T L Hn. eapply wp_mono; [by apply (request_resource_wp m root new nr l)|].
  intros r m' (c & h' & -> & -> & Hq). pose proof (requested_none _ _ _ _ _ _ _ _ Hq) as Hfit.
  destruct Hq; [left|right..].
  - split_and!; try done. eauto 6.
  - split_and!; [by intros ?%Hfit | done | by destruct m].
  - split_and!; [by intros ?%Hfit | done | by destruct m].
Qed.

(** ** Releasing *)

(** What releasing does: [old] leaves the siblings [l1] and [l2]. *)
Definition unlink h (root old : positive) (l1 l2 : list positive) : gmap positive resource :=
  alter (set_rs_parent None) old (slot_set (slot_after root l1) (head l2) h).

Section Unlink.
Context (h : gmap positive resource) (root old : positive) (l1 l2 : list positive).
Hypothesis T : tree_ok h.
Hypothesis L : level h root (l1 ++ old :: l2).

Lemma unlink_before : kids_ok h root (l1 ++ old :: l2).
Proof. by apply level_ok. Qed.

Lemma unlink_fresh : (old ∉ l1 ++ l2) /\ NoDup (l1 ++ l2).
Proof. pose proof (kids_nodup _ _ _ unlink_before) as Hd. by rewrite <- Permutation_middle, NoDup_cons in Hd. Qed.

Lemma unlink_level : level (unlink h root old l1 l2) root (l1 ++ l2).
Proof.
  eapply (level_frame (slot_set (slot_after root l1) (head l2) h));
    [by apply fmap_alter | intros c _; by apply fmap_alter |].
  destruct L as (rr & Hr & Hs). apply seg_app in Hs as (q & H1 & -> & r & Ho & H2).
  eapply splice; [done | done | | apply unlink_fresh]. by rewrite <- (seg_head _ _ _ H2).
Qed.

Lemma unlink_range a : range <$> unlink h root old l1 l2 !! a = range <$> h !! a.
Proof. unfold unlink. by rewrite fmap_alter, slot_set_range. Qed.

Lemma unlink_parent c : c <> old ->
  (fun r => rs_parent r) <$> unlink h root old l1 l2 !! c = (fun r => rs_parent r) <$> h !! c.
Proof. intros Hc. unfold unlink. by rewrite lookup_alter_ne, slot_set_parent. Qed.

Lemma unlink_sorted : StronglySorted (before h) (l1 ++ l2).
Proof.
  destruct unlink_before as [_ Hs]. apply StronglySorted_app in Hs as (H & H1 & [H2 _]%StronglySorted_inv).
  apply StronglySorted_app. split_and!; [|done..]. intros a b Ha Hb. apply H; [done|]. by right.
Qed.

Lemma unlink_kids : kids_ok (unlink h root old l1 l2) root (l1 ++ l2).
Proof.
  split; [|eapply sorted_frame; [|apply unlink_sorted]; intros; apply unlink_range].
  intros c Hc. rewrite (range_start h), (range_end h) by apply unlink_range.
  destruct (ko_kid _ _ _ unlink_before c) as (k & Ek & Ep & Hr); [apply elem_of_middle; by right|].
  assert (c <> old) as Hco by (intros ->; by apply unlink_fresh).
  destruct (fmap_lookup_eq _ _ _ _ _ (unlink_parent c Hco) Ek) as (k' & Ek' & Ep').
  pose proof (unlink_range c) as E. rewrite Ek, Ek' in E. injection E as Es Ee.
  exists k'. rewrite Es, Ee. cbv beta in Ep'. split_and!; [done | congruence | tauto..].
Qed.

Lemma unlink_tree : tree_ok (unlink h root old l1 l2).
Proof.
  pose proof unlink_level as L'.
  assert (forall c k a, c ∈ l1 ++ old :: l2 -> h !! c = Some k -> rs_parent k = Some a -> a = root) as Hroot.
  { intros c k a Hc Ek Ep. destruct (ko_kid _ _ _ unlink_before c Hc) as (k' & Ek' & Ep' & _).
    rewrite Ek in Ek'. apply (inj Some) in Ek' as <-. congruence. }
  apply (tree_frame h _ [root] (l1 ++ old :: l2)); [done | apply unlink_range | | | | | ].
  - intros a Ha. unfold unlink. rewrite fmap_alter by done. apply slot_set_child.
    intros ->. apply Ha. by left.
  - intros c Hc. unfold unlink. rewrite lookup_alter_ne by (intros ->; apply Hc, elem_of_middle; by left).
    apply slot_set_other. intros H. apply Hc, elem_of_app. by left.
  - intros c k a Hc Ek Ep. rewrite (Hroot c k a); [by left|done..].
  - intros a ->%list_elem_of_singleton. eauto using unlink_kids.
  - intros c k a Ek Ep Hor. assert (c <> old) as Hco.
    { intros ->. unfold unlink in Ek. rewrite lookup_alter_eq in Ek.
      apply fmap_Some in Ek as (x & _ & ->). done. }
    destruct (fmap_lookup_eq _ _ _ _ _ (eq_sym (unlink_parent c Hco)) Ek) as (k' & Ek' & Ep').
    cbv beta in Ep'. rewrite <- Ep' in Ep.
    destruct (to_linked _ T c k' a Ek' Ep) as (l & La & Hcl).
    assert (a = root) as ->.
    { destruct Hor as [Hc|Ha]; [by apply (Hroot c k') | by apply list_elem_of_singleton]. }
    exists (l1 ++ l2). split; [done|]. rewrite (level_det _ _ _ _ La L) in Hcl.
    by apply elem_of_middle in Hcl as [?|].
Qed.
End Unlink.

Lemma release_loop_wp fuel m root old l1 l2 l3 :
  level (m_res m) root ((l1 ++ l2) ++ old :: l3) -> old ∉ l1 ++ l2 -> (length l2 < fuel)%nat ->
  wp (release_loop fuel old (slot_after root l1))
    (fun r m' => r = 0 /\ m' = set_m_res (unlink (m_res m) root old (l1 ++ l2) l3) m) m.
Proof.
  revert l1 l2. induction fuel as [|fuel IH]; intros l1 l2 L Hf Hlen; [lia|].
  assert (level (m_res m) root (l1 ++ l2 ++ old :: l3)) as L1 by (by rewrite app_assoc).
  cbn [release_loop]. apply wp_bind, wp_read_slot; [by eapply level_owner|].
  rewrite (level_slot _ _ _ _ L1). destruct l2 as [|c l2]; cbn.
  - destruct (decide (old = old)) as [_|]; [|done]. destruct L1 as (rr & Hr & (q & _ & Hs)%seg_app).
    cbn in Hs. destruct Hs as (_ & r & Ho & Hs). apply wp_bind. eapply wp_get_res; [done|].
    rewrite (seg_head _ _ _ Hs). rewrite app_nil_r in *.
    apply wp_bind, wp_write_slot; [by eapply level_owner|].
    apply wp_bind, wp_upd_alter; [|by apply wp_ret].
    cbn [m_res set_m_res]. destruct (slot_after root l1); apply alter_is_Some; eauto.
  - destruct (decide (c = old)) as [->|]; [exfalso; apply Hf, elem_of_app; right; by left|].
    rewrite <- (slot_after_snoc root l1 c).
    replace (l1 ++ c :: l2) with ((l1 ++ [c]) ++ l2) in * by (by rewrite <- app_assoc).
    apply IH; [done | done | cbn in Hlen; lia].
Qed.

Lemma release_wp m root old r :
  tree_ok (m_res m) -> m_res m !! old = Some r -> rs_parent r = Some root ->
  wp (release_resource old) (fun ret m' => ret = 0 /\
    exists l1 l2, level (m_res m) root (l1 ++ old :: l2) /\
      m' = set_m_res (unlink (m_res m) root old l1 l2) m) m.
Proof.
  intros T Ho Hp. unfold release_resource, __release_resource. res_step. eapply wp_deref; [done|].
  res_step. destruct (to_linked _ T old r root Ho Hp) as (l & L & Hin).
  pose proof (level_ok _ _ _ T L) as K. pose proof (kids_nodup _ _ _ K) as Hd.
  pose proof (kids_length _ _ _ K) as Hlen.
  apply list_elem_of_split in Hin as (l1 & l2 & ->).
  eapply wp_mono; [apply (release_loop_wp _ m root old [] l1 l2); [done| |]|].
  - intros H. apply NoDup_app in Hd as (_ & H' & _).
    apply (H' old H). by left.
  - rewrite length_app in Hlen. lia.
  - intros ret m' [-> ->]. cbn. eauto 6.
Qed.

(** Releasing a child takes it off its level and keeps the order. *)
Theorem release_resource_correct m root old r l :
  tree_ok (m_res m) -> m_res m !! old = Some r -> rs_parent r = Some root -> level (m_res m) root l ->
  wp (release_resource old) (fun ret m' => ret = 0 /\ tree_ok (m_res m') /\
    (exists r', m_res m' !! old = Some r' /\ rs_parent r' = None) /\
    exists l1 l2, l = l1 ++ old :: l2 /\ level (m_res m') root (l1 ++ l2)) m.
Proof.
  intros T Ho Hp L. eapply wp_mono; [by eapply release_wp|].
  intros ret m' (-> & l1 & l2 & L' & ->). rewrite (level_det _ _ _ _ L L') in *. cbn [m_res set_m_res].
  split_and!; [done | by apply unlink_tree | | exists l1, l2; split; [done | by apply unlink_level]].
  assert (is_Some (slot_set (slot_after root l1) (head l2) (m_res m) !! old)) as [x Hx].
  { destruct (slot_after root l1); apply alter_is_Some; eauto. }
  exists (set_rs_parent None x). unfold unlink. by rewrite lookup_alter_eq, Hx.
Qed.

Lemma alter_same h a f r : h !! a = Some r -> f r = r -> alter f a h = h.
Proof. intros Ha Hf. rewrite (alter_is_insert _ _ _ _ Ha), Hf. by apply insert_id. Qed.

Lemma slot_set_set s v v' h : slot_set s v (slot_set s v' h) = slot_set s v h.
Proof. destruct s; cbn; by rewrite alter_alter_eq. Qed.

Lemma slot_set_val s h : is_Some (h !! owner s) -> slot_set s (slot_val h s) h = h.
Proof. intros [r Hr]. destruct s; cbn in *; rewrite Hr; by apply (alter_same _ _ _ r). Qed.

Lemma slot_set_alter s v h a f : owner s <> a -> slot_set s v (alter f a h) = alter f a (slot_set s v h).
Proof. intros Ha. destruct s; cbn in *; by rewrite alter_alter_ne. Qed.

Lemma owner_ne root l a : a <> root -> a ∉ l -> owner (slot_after root l) <> a.
Proof.
  intros Ha Hl. unfold slot_after. destruct (last l) as [x|] eqn:E; cbn; [|done].
  intros ->. apply Hl. apply last_Some in E as [l' ->]. apply elem_of_app. right. by left.
Qed.

(** Taking out what was put in leaves a trace in its [sibling] field alone. *)
Lemma unlink_link h root new l1 l2 nr :
  tree_ok h -> level h root (l1 ++ l2) -> h !! new = Some nr -> rs_parent nr = None -> new <> root ->
  unlink (link h root new l1 l2) root new l1 l2 = alter (set_rs_sibling (head l2)) new h.
Proof.
  intros T L Hn Hp Hne. pose proof (link_fresh h root new l1 l2 nr T L Hn Hp) as Hf.
  assert (owner (slot_after root l1) <> new) as Ho.
  { apply owner_ne; [done|]. intros H. apply Hf, elem_of_app. by left. }
  unfold unlink, link. rewrite slot_set_alter, slot_set_set, slot_set_alter by done.
  rewrite <- (level_slot _ _ _ _ L), slot_set_val by (by eapply level_owner).
  rewrite !alter_alter_eq, !(alter_is_insert _ _ _ _ Hn). f_equal. by destruct nr; cbn in *; subst.
Qed.

Lemma nodup_split (x : positive) l1 l2 l1' l2' :
  l1 ++ x :: l2 = l1' ++ x :: l2' -> NoDup (l1 ++ x :: l2) -> l1 = l1' /\ l2 = l2'.
Proof.
  revert l1'. induction l1 as [|a l1 IH]; intros [|b l1']; cbn.
  - by intros [= ->].
  - intros [= <- ->] [H _]%NoDup_cons. exfalso. apply H, elem_of_app. right. by left.
  - intros [= -> <-] [H _]%NoDup_cons. exfalso. apply H, elem_of_app. right. by left.
  - intros [= <- E] [_ Hd]%NoDup_cons. by destruct (IH l1' E Hd) as [-> ->].
Qed.

(** C33: a resource that was requested can be released, and then every object is what it
    was before the request, but for the left-over [sibling] pointer of the resource. *)
Theorem request_release_roundtrip m root new nr l :
  tree_ok (m_res m) -> level (m_res m) root l -> loose m root new nr ->
  fits (m_res m) root l (rs_start nr) (rs_end nr) ->
  wp (r1 ← request_resource root new; r2 ← release_resource new; ret (r1, r2))
    (fun r m' => r = (0, 0) /\
       exists s, m' = set_m_res (<[new := set_rs_sibling s nr]> (m_res m)) m) m.
Proof.
  intros T L Hn Hfit. apply wp_bind. eapply wp_mono; [by apply (request_resource_wp m root new nr l)|].
  intros r m' (c & h' & -> & -> & Hq). apply (requested_none _ _ _ _ _ _ _ _ Hq) in Hfit as ->.
  inversion Hq as [l1 l2 -> _ T' L' E1 E2| |]; subst. destruct Hn as (Hn & Hp & Hne).
  destruct (link_new (m_res m) root new l1 l2 nr Hn) as (k & Ek & Epk & _).
  apply wp_bind. eapply wp_mono; [by apply (release_wp _ root new k)|].
  intros r2 m' (-> & l1' & l2' & L2 & ->). apply wp_ret. split; [done|]. cbn [m_res set_m_res] in *.
  pose proof (level_det _ _ _ _ L' L2) as E.
  apply nodup_split in E as [<- <-]; [|by eapply kids_nodup, level_ok].
  exists (head l2). by rewrite (unlink_link _ _ _ _ _ nr), (alter_is_insert _ _ _ _ Hn).
Qed.

(** ** What clients see of a resource *)

Definition view (r : resource) : Z * Z * option positive * option positive :=
  (rs_start r, rs_end r, rs_parent r, rs_child r).

Lemma view_parent v k : view (set_rs_parent v k) = let '(s, e, _, c) := view k in (s, e, v, c).
Proof. done. Qed.

Lemma slot_set_view root l v h c : c <> root ->
  view <$> slot_set (slot_after root l) v h !! c = view <$> h !! c.
Proof.
  intros Hc. unfold slot_after. destruct (last l); cbn; [by apply fmap_alter|].
  by rewrite lookup_alter_ne.
Qed.

(** Linking and unlinking show at the node itself and at the root alone. *)
Lemma link_view h root new l1 l2 c : c <> new -> c <> root ->
  view <$> link h root new l1 l2 !! c = view <$> h !! c.
Proof. intros Hn Hr. unfold link. by rewrite lookup_alter_ne, slot_set_view, lookup_alter_ne. Qed.

Lemma link_view_new h root new l1 l2 nr : h !! new = Some nr -> new <> root ->
  view <$> link h root new l1 l2 !! new = Some (rs_start nr, rs_end nr, Some root, rs_child nr).
Proof.
  intros Hn Hr. unfold link. rewrite lookup_alter_eq.
  pose proof (slot_set_view root l1 (Some new) (alter (set_rs_sibling (head l2)) new h) new Hr) as E.
  rewrite lookup_alter_eq, Hn in E. destruct (slot_set _ _ _ !! new) as [k|]; [|done].
  apply (inj Some) in E. cbn [fmap option_fmap option_map]. by rewrite view_parent, E.
Qed.

Lemma unlink_view h root old l1 l2 c : c <> old -> c <> root ->
  view <$> unlink h root old l1 l2 !! c = view <$> h !! c.
Proof. intros Ho Hr. unfold unlink. by rewrite lookup_alter_ne, slot_set_view. Qed.

Lemma unlink_view_old h root old l1 l2 r : h !! old = Some r -> old <> root ->
  view <$> unlink h root old l1 l2 !! old = Some (rs_start r, rs_end r, None, rs_child r).
Proof.
  intros Hn Hr. unfold unlink. rewrite lookup_alter_eq.
  pose proof (slot_set_view root l1 (head l2) h old Hr) as E. rewrite Hn in E.
  destruct (slot_set _ _ _ !! old) as [k|]; [|done].
  apply (inj Some) in E. cbn [fmap option_fmap option_map]. by rewrite view_parent, E.
Qed.

(** Two children of a node lie apart. *)
Lemma kids_apart h a l c d : kids_ok h a l -> c ∈ l -> d ∈ l -> c <> d ->
  end_of h c < start_of h d \/ end_of h d < start_of h c.
Proof.
  intros K Hc Hd Hne. apply list_elem_of_split in Hc as (l1 & l2 & ->).
  apply elem_of_app in Hd as [Hd|[->|Hd]%elem_of_cons]; [|done|].
  - right. by eapply sorted_before.
  - left. by eapply sorted_next.
Qed.

(** ** Checking a concrete tree *)

Fixpoint chain (n : nat) h (p : option positive) : option (list positive) :=
  match p, n with
  | None, _ => Some []
  | Some _, O => None
  | Some a, S n' => r ← h !! a; l ← chain n' h (rs_sibling r); Some (a :: l)
  end%stdpp.

Lemma chain_sound n h p l : chain n h p = Some l -> seg h p l None.
Proof.
  revert p l. induction n as [|n IH]; intros [a|] l; cbn; try (by intros [= <-]); try done.
  destruct (h !! a) as [r|] eqn:Ha; [|done]. cbn. destruct (chain n h (rs_sibling r)) as [l'|] eqn:E; [|done].
  intros [= <-]. split; [done|]. exists r. split; [done | by apply IH].
Qed.

Definition kids_of h (a : positive) : option (list positive) :=
  (r ← h !! a; chain (size h) h (rs_child r))%stdpp.

Lemma kids_of_sound h a l : kids_of h a = Some l -> level h a l.
Proof.
  unfold kids_of. destruct (h !! a) as [r|] eqn:Ha; [|done]. intros H%chain_sound. by exists r.
Qed.

Fixpoint res_sorted_check h (l : list positive) : bool :=
  match l with
  | [] => true
  | a :: l' => forallb (fun b => end_of h a <? start_of h b) l' && res_sorted_check h l'
  end.

Definition kid_check h (a c : positive) : bool :=
  match h !! c with
  | None => false
  | Some k => bool_decide (rs_parent k = Some a) && (start_of h a <=? rs_start k) &&
      (rs_start k <=? rs_end k) && (rs_end k <=? end_of h a)
  end.

Definition uintb (x : Z) : bool := (0 <=? x) && (x <? 2 ^ 32).

Definition node_check h (ar : positive * resource) : bool :=
  uintb (rs_start ar.2) && uintb (rs_end ar.2) &&
  match kids_of h ar.1 with
  | None => false
  | Some l => forallb (kid_check h ar.1) l && res_sorted_check h l
  end &&
  match rs_parent ar.2 with
  | None => true
  | Some p => match kids_of h p with None => false | Some l => bool_decide (ar.1 ∈ l) end
  end.

Definition res_tree_check h : bool := forallb (node_check h) (map_to_list h).

Lemma res_sorted_check_sound h l : res_sorted_check h l = true -> StronglySorted (before h) l.
Proof.
  induction l as [|a l IH]; cbn; constructor; bool_to_prop; [by apply IH|].
  apply Forall_forall. intros b Hb. rewrite forallb_forall in H.
  apply Z.ltb_lt, H. by apply list_elem_of_In.
Qed.

Lemma kid_check_sound h a l : forallb (kid_check h a) l = true -> res_sorted_check h l = true -> kids_ok h a l.
Proof.
  intros Hk Hs. split; [|by apply res_sorted_check_sound]. rewrite forallb_forall in Hk.
  intros c Hc. specialize (Hk c (proj1 (list_elem_of_In _ _) Hc)). unfold kid_check in Hk.
  destruct (h !! c) as [k|]; [|done]. bool_to_prop. exists k.
  split; [done|]. split; [by eapply bool_decide_eq_true_1 | done].
Qed.

Lemma res_tree_check_sound h : res_tree_check h = true -> tree_ok h.
Proof.
  unfold res_tree_check. rewrite forallb_forall. intros H.
  assert (forall a r, h !! a = Some r -> node_check h (a, r) = true) as Hn.
  { intros a r Ha. by apply H, list_elem_of_In, elem_of_map_to_list. }
  clear H. unfold node_check, uintb in Hn. cbn [fst snd] in Hn. split.
  - intros a [r Ha]. specialize (Hn a r Ha). bool_to_prop.
    destruct (kids_of h a) as [l|] eqn:E; [|done]. bool_to_prop.
    exists l. split; [by apply kids_of_sound | by apply kid_check_sound].
  - intros c k a Hc Hp. specialize (Hn c k Hc). bool_to_prop. rewrite Hp in *.
    destruct (kids_of h a) as [l|] eqn:E; [|done]. exists l.
    split; [by apply kids_of_sound | by eapply bool_decide_eq_true_1].
  - intros a r Ha. specialize (Hn a r Ha). bool_to_prop. by repeat split.
Qed.
