(* ===== verification/ResourceAlloc.v ===== *)
(** * Allocating and adjusting resources

    What [allocate_resource] and [adjust_resource] of kernel/resource.c do to a tree that is
    in order. *)

From Stdlib Require Import Sorted.
From stdpp Require Import sorting.
From S2P Require Import Prelude Resource ResourceTree.

Implicit Types h : gmap positive resource.

Definition resize (s e : Z) (r : resource) : resource := set_rs_end e (set_rs_start s r).

(** A change of a range keeps the pointers. *)
Section Resize.
Context (h : gmap positive resource) (a : positive) (r : resource) (s e : Z).
Hypothesis Ha : h !! a = Some r.
#[local] Abbreviation h' := (<[a := resize s e r]> h).

Lemma resize_links b : links <$> h' !! b = links <$> h !! b.
Proof.
  destruct (decide (a = b)) as [<-|]; [|by rewrite lookup_insert_ne].
  by rewrite lookup_insert_eq, Ha.
Qed.

Lemma resize_child b : (fun r => rs_child r) <$> h' !! b = (fun r => rs_child r) <$> h !! b.
Proof.
  destruct (decide (a = b)) as [<-|]; [|by rewrite lookup_insert_ne].
  by rewrite lookup_insert_eq, Ha.
Qed.

Lemma resize_level b l : level h b l <-> level h' b l.
Proof.
  split; (eapply level_frame; [|intros c _; apply links_sibling]);
    first [apply resize_child | apply resize_links | symmetry; apply resize_child |
           symmetry; apply resize_links].
Qed.

Lemma resize_range b : b <> a -> range <$> h' !! b = range <$> h !! b.
Proof. intros. by rewrite lookup_insert_ne. Qed.

(** The order is kept when the new range suits the children and the siblings. *)
Lemma resize_tree :
  tree_ok h -> uint 32 s -> uint 32 e ->
  (forall l, level h a l -> kids_ok h' a l) ->
  (forall p l, rs_parent r = Some p -> level h p l -> kids_ok h' p l) ->
  tree_ok h'.
Proof.
  intros T Hs He Hown Hpar. split.
  - intros b Hb. destruct (to_level _ T b) as (l & L & K).
    { destruct (decide (a = b)) as [<-|]; [by rewrite Ha|]. by rewrite lookup_insert_ne in Hb. }
    exists l. split; [by apply resize_level|]. destruct (decide (b = a)) as [->|Hba]; [by apply Hown|].
    destruct (decide (a ∈ l)) as [Hin|Hin].
    + destruct (ko_kid _ _ _ K a Hin) as (k & Ek & Ep & _). rewrite Ha in Ek.
      apply (inj Some) in Ek as <-. by apply Hpar.
    + eapply kids_frame; [|intros c _; apply resize_links|done].
      intros c Hc. apply resize_range. apply elem_of_cons in Hc as [->|]; [done|]. by intros ->.
  - intros c k p Ek Ep. destruct (fmap_lookup_eq _ _ _ _ _ (eq_sym (resize_links c)) Ek) as (k' & Ek' & [= _ E]).
    destruct (to_linked _ T c k' p Ek' ltac:(congruence)) as (l & L & Hc).
    exists l. split; [by apply resize_level | done].
  - intros b k. destruct (decide (a = b)) as [<-|]; [rewrite lookup_insert_eq | rewrite lookup_insert_ne by done].
    + by intros <-%(inj Some).
    + apply (to_range _ T).
Qed.
End Resize.

(** A resource that is in no tree and has no children can take any range. *)
Lemma resize_loose h a r s e :
  tree_ok h -> h !! a = Some r -> rs_parent r = None -> rs_child r = None ->
  uint 32 s -> uint 32 e -> tree_ok (<[a := resize s e r]> h).
Proof.
  intros T Ha Hp Hc Hs He. apply resize_tree; try done; [|congruence].
  intros l (r' & Hr' & Hl). rewrite Ha in Hr'. apply (inj Some) in Hr' as <-. rewrite Hc in Hl.
  destruct l as [|x l]; [|by destruct Hl]. split; [by intros ? ?%elem_of_nil | constructor].
Qed.

(** ** Allocating *)

Lemma clip_start min max r : rs_start (resource_clip min max r) = Z.max (rs_start r) min.
Proof.
  destruct r as [s e ? ? ? ? ?]. unfold resource_clip. cbn.
  destruct (Z.ltb_spec s min); cbn; destruct (Z.ltb_spec max e); cbn; lia.
Qed.

Lemma clip_end min max r : rs_end (resource_clip min max r) = Z.min (rs_end r) max.
Proof.
  destruct r as [s e ? ? ? ? ?]. unfold resource_clip. cbn.
  destruct (Z.ltb_spec s min); cbn; destruct (Z.ltb_spec max e); cbn; lia.
Qed.

(** What a slot found by the search is like. *)
Inductive slot_ok (nr : resource) (size min max align : Z) (alignf : resource -> Z -> Z -> Z)
    (s e : Z) : Prop :=
| slot_ok_intro t av : min <= t -> rs_start av = ALIGN t align -> t <= rs_start av -> rs_end av <= max ->
    s = alignf av size align -> rs_start av <= s -> e = u32 (s + size - 1) -> e <= rs_end av ->
    slot_ok nr size min max align alignf s e.

Lemma try_gap_ok nr tmp size min max align alignf s e :
  try_gap nr (resource_clip min max tmp) size align alignf = Some (s, e) ->
  slot_ok nr size min max align alignf s e.
Proof.
  unfold try_gap, resource_contains. case_bool; [|done].
  match goal with |- context [alignf ?av size align] => set (a := av) end.
  case_bool; [|done]. intros [= <- <-]. bool_to_prop.
  apply (slot_ok_intro nr _ _ _ _ _ _ _ (rs_start (resource_clip min max tmp)) a); try done.
  - rewrite clip_start. lia.
  - change (rs_end a) with (rs_end (resource_clip min max tmp)). rewrite clip_end. lia.
Qed.

Inductive found m (new : positive) (nr : resource) (size min max align : Z)
    (alignf : resource -> Z -> Z -> Z) : Z -> memory -> Prop :=
| found_none : found m new nr size min max align alignf (- EBUSY) m
| found_slot s e : slot_ok nr size min max align alignf s e ->
    found m new nr size min max align alignf 0
      (set_m_res (<[new := resize s e nr]> (m_res m)) m).

Lemma resize_wp m new nr s e Q :
  m_res m !! new = Some nr -> Q 0 (set_m_res (<[new := resize s e nr]> (m_res m)) m) ->
  wp (upd_res new (set_rs_start s);; upd_res new (set_rs_end e);; ret 0) Q m.
Proof.
  intros Hn HQ. res_step. eapply wp_upd_res; [apply lookup_insert_eq|]. wp_pure.
  cbn [m_res set_m_res]. by rewrite insert_insert_eq.
Qed.

(** The children still to be passed, in the order of the search. *)
Lemma level_next h root l1 c l2 : level h root (l1 ++ c :: l2) ->
  exists k, h !! c = Some k /\ rs_sibling k = head l2.
Proof.
  intros (r & _ & Hs). apply seg_app in Hs as (q & _ & _ & k & Hk & Hs).
  exists k. by rewrite (seg_head _ _ _ Hs).
Qed.

Lemma find_loop_sound fuel m root new nr size min max align alignf tmp l1 l2 :
  level (m_res m) root (l1 ++ l2) -> m_res m !! new = Some nr -> (length l2 < fuel)%nat ->
  wp (find_loop fuel root new size min max align alignf tmp (head l2))
    (found m new nr size min max align alignf) m.
Proof.
  revert l1 l2 tmp. induction fuel as [|fuel IH]; intros l1 l2 tmp L Hn Hlen; [lia|].
  pose proof L as (rr & Hr & _). cbn [find_loop]. destruct l2 as [|c l2]; cbn [head].
  - do 2 res_step. destruct (try_gap _ _ _ _ _) as [[s e]|] eqn:E.
    + apply (resize_wp m new nr); [done|]. apply found_slot. by eapply try_gap_ok.
    + wp_pure. constructor.
  - destruct (level_next _ _ _ _ _ L) as (k & Hk & Hs).
    do 2 res_step. destruct (try_gap _ _ _ _ _) as [[s e]|] eqn:E.
    + apply (resize_wp m new nr); [done|]. apply found_slot. by eapply try_gap_ok.
    + res_step. rewrite Hs. apply (IH (l1 ++ [c])); [by rewrite <- app_assoc | done | cbn in Hlen; lia].
Qed.

Lemma find_resource_sound m root new nr size min max align alignf l :
  level (m_res m) root l -> kids_ok (m_res m) root l -> m_res m !! new = Some nr ->
  wp (find_resource root new size min max align alignf) (found m new nr size min max align alignf) m.
Proof.
  intros L K Hn. pose proof (kids_length _ _ _ K) as Hlen. unfold find_resource.
  pose proof L as (rr & Hr & Hs). do 3 res_step. rewrite (seg_head _ _ _ Hs). destruct l as [|c l]; cbn [head].
  - by apply (find_loop_sound _ m root new nr _ _ _ _ _ _ [] []); [| |cbn; lia].
  - destruct (level_next _ _ [] _ _ L) as (k & Hk & Hsk). cbn in Hlen. res_step. case_bool.
    + rewrite Hsk. by apply (find_loop_sound _ m root new nr _ _ _ _ _ _ [c] l); [| |lia].
    + by apply (find_loop_sound _ m root new nr _ _ _ _ _ _ [] (c :: l)); [| |cbn; lia].
Qed.

(** *** Alignment to a power of two *)

Lemma land_lnot_ones x k : 0 <= k -> Z.land x (Z.lnot (2 ^ k - 1)) = 2 ^ k * (x / 2 ^ k).
Proof.
  intros Hk. replace (2 ^ k - 1) with (Z.ones k) by (rewrite Z.ones_equiv; lia).
  rewrite <- Z.ldiff_land, Z.ldiff_ones_r, Z.shiftl_mul_pow2, Z.shiftr_div_pow2 by done. lia.
Qed.

Lemma ALIGN_aligned t k : 0 <= k -> ALIGN t (2 ^ k) mod 2 ^ k = 0.
Proof.
  intros Hk. unfold ALIGN. rewrite land_lnot_ones by done. rewrite Z.mul_comm. apply Z.mod_mul. lia.
Qed.

(** The lowest aligned address from [t] on, when there is one at all. *)
Lemma ALIGN_least t k s : 0 <= k <= 32 -> 0 <= t <= s -> s < 2 ^ 32 -> s mod 2 ^ k = 0 ->
  t <= ALIGN t (2 ^ k) <= s.
Proof.
  intros Hk Ht Hs Ha. unfold ALIGN. rewrite land_lnot_ones by lia.
  assert (0 < 2 ^ k) as Hp by lia. apply Z.mod_divide in Ha as [q ->]; [|lia].
  assert (q + 1 <= 2 ^ (32 - k)) as Hq.
  { apply Z.lt_pred_le. assert (2 ^ 32 = 2 ^ (32 - k) * 2 ^ k) as E by (rewrite <- Z.pow_add_r by lia; f_equal; lia).
    rewrite E in Hs. apply Z.mul_lt_mono_pos_r in Hs; lia. }
  assert ((q + 1) * 2 ^ k <= 2 ^ 32) as Hq'.
  { replace (2 ^ 32) with (2 ^ (32 - k) * 2 ^ k) by (rewrite <- Z.pow_add_r by lia; f_equal; lia). nia. }
  rewrite (wrapu_small 32) by (split; lia).
  pose proof (Z.mul_div_le (t + (2 ^ k - 1)) (2 ^ k) Hp).
  pose proof (Z.mod_pos_bound (t + (2 ^ k - 1)) (2 ^ k) Hp).
  pose proof (Z.div_mod (t + (2 ^ k - 1)) (2 ^ k)).
  split; [lia|]. assert ((t + (2 ^ k - 1)) / 2 ^ k < q + 1); [|nia].
  apply Z.div_lt_upper_bound; lia.
Qed.

(** *** The search is complete *)

(** The addresses [allocate_resource] may choose from. *)
Definition candidate h (root : positive) (l : list positive) (size min max align s : Z) : Prop :=
  s mod align = 0 /\ min <= s /\ s + size - 1 <= max /\ fits h root l s (s + size - 1).

Section Search.
Context (size k : Z).
Hypothesis Hk : 0 <= k <= 32.
Hypothesis Hsize : 1 <= size.

Lemma try_gap_spec nr tmp s0 :
  0 <= rs_start tmp <= s0 -> s0 mod 2 ^ k = 0 -> s0 + size - 1 < 2 ^ 32 ->
  exists s, rs_start tmp <= s <= s0 /\
    try_gap nr tmp size (2 ^ k) simple_align_resource =
      (if s + size - 1 <=? rs_end tmp then Some (s, s + size - 1) else None).
Proof.
  intros Ht Ha Hmax. pose proof (ALIGN_least (rs_start tmp) k s0 Hk Ht ltac:(lia) Ha) as HA.
  exists (ALIGN (rs_start tmp) (2 ^ k)). split; [done|].
  unfold try_gap, resource_contains, simple_align_resource.
  change (rs_start (set_rs_end ?e ?r)) with (rs_start r).
  change (rs_end (set_rs_end ?e ?r)) with e. change (rs_start (set_rs_start ?e ?r)) with e.
  rewrite (proj2 (Z.leb_le _ _) (proj1 HA)), Z.leb_refl. cbn [andb].
  by rewrite (wrapu_small 32) by (split; lia).
Qed.

Context (m : memory) (root new : positive) (nr : resource) (min max : Z) (l : list positive) (s0 : Z).
Hypothesis T : tree_ok (m_res m).
Hypothesis L : level (m_res m) root l.
Hypothesis Hn : m_res m !! new = Some nr.
Hypothesis Hmin : 0 <= min.
Hypothesis Hmax : max < 2 ^ 32.
Hypothesis Hs0 : candidate (m_res m) root l size min max (2 ^ k) s0.

(** A slot not above [s0] was found. *)
Definition found_low (r : Z) (m' : memory) : Prop := exists s,
  r = 0 /\ m' = set_m_res (<[new := resize s (s + size - 1) nr]> (m_res m)) m /\
  s <= s0 /\ fits (m_res m) root l s (s + size - 1).

(** The gap from [t] to [e], between [l1] and [l2]. *)
Lemma gap_fits l1 l2 t e s : l = l1 ++ l2 -> start_of (m_res m) root <= t -> e <= end_of (m_res m) root ->
  (forall c, c ∈ l1 -> end_of (m_res m) c < t) -> (forall c, c ∈ l2 -> e < start_of (m_res m) c) ->
  t <= s -> s + size - 1 <= e -> fits (m_res m) root l s (s + size - 1).
Proof.
  intros -> Hr He H1 H2 Hts Hse. apply fits_around; try lia.
  - intros c Hc. specialize (H1 c Hc). lia.
  - intros c Hc. specialize (H2 c Hc). lia.
Qed.

(** Where the gap before [l2] ends. *)
Definition gap_end (l2 : list positive) : Z :=
  match l2 with c :: _ => start_of (m_res m) c - 1 | [] => end_of (m_res m) root end.

Lemma gap_end_wp l1 l2 (Q : Z -> memory -> Prop) :
  l = l1 ++ l2 -> (forall c, c ∈ l2 -> 1 <= start_of (m_res m) c) -> Q (gap_end l2) m ->
  wp match head l2 with
     | Some t => tr ← get_res t; ret (u32 (rs_start tr - 1))
     | None => rr ← get_res root; ret (rs_end rr)
     end Q m.
Proof.
  intros El H2 HQ. destruct l2 as [|c l2]; cbn [head gap_end] in *.
  - pose proof L as (rr & Hr & _). unfold end_of in HQ. rewrite Hr in HQ. by res_step.
  - pose proof L as L'. rewrite El in L'. destruct (level_next _ _ _ _ _ L') as (x & Hx & _). res_step.
    pose proof (H2 c ltac:(left)) as H. unfold start_of in H, HQ. rewrite Hx in H, HQ.
    destruct (to_range _ T c x Hx) as [[? ?] _]. by rewrite (wrapu_small 32) by (split; lia).
Qed.

(** No gap before [l2] reaches beyond the root or into [l2]. *)
Lemma gap_end_le l1 l2 : l = l1 ++ l2 ->
  gap_end l2 <= end_of (m_res m) root /\ forall c, c ∈ l2 -> gap_end l2 < start_of (m_res m) c.
Proof.
  intros El. pose proof (level_ok _ _ _ T L) as K. rewrite El in K.
  destruct l2 as [|c l2]; cbn [gap_end]; [split; [done|]; by intros ? ?%elem_of_nil|].
  pose proof (kid_range _ _ _ c K (elem_of_next _ _ _)).
  destruct (ko_kid _ _ _ K c (elem_of_next _ _ _)) as (x & Hx & _).
  rewrite (start_of_eq _ _ _ Hx) in *. split; [lia|].
  apply (sorted_after _ root l1 c l2 x); [done..|lia].
Qed.

Lemma find_loop_complete fuel l1 l2 tmp :
  l = l1 ++ l2 -> (length l2 < fuel)%nat ->
  0 <= rs_start tmp <= s0 -> start_of (m_res m) root <= rs_start tmp ->
  (forall c, c ∈ l1 -> end_of (m_res m) c < rs_start tmp) ->
  (forall c, c ∈ l2 -> 1 <= start_of (m_res m) c) ->
  wp (find_loop fuel root new size min max (2 ^ k) simple_align_resource tmp (head l2)) found_low m.
Proof.
  revert l1 l2 tmp. induction fuel as [|fuel IH]; intros l1 l2 tmp El Hlen Ht Hrt H1 H2; [lia|].
  pose proof Hs0 as (Ha & Hmin0 & Hmax0 & _ & Hrs & Hre & Hc0).
  cbn [find_loop]. apply wp_bind, (gap_end_wp l1 l2); [done..|]. destruct (gap_end_le l1 l2 El) as [Hge1 Hge2].
  set (tmp' := resource_clip min max (set_rs_end (gap_end l2) tmp)).
  assert (rs_start tmp' = Z.max (rs_start tmp) min) as Et by (unfold tmp'; by rewrite clip_start).
  assert (rs_end tmp' = Z.min (gap_end l2) max) as Ee by (unfold tmp'; by rewrite clip_end).
  destruct (try_gap_spec nr tmp' s0) as (s & Hs & Htry); [lia | done | lia |].
  res_step. rewrite Htry. destruct (Z.leb_spec (s + size - 1) (rs_end tmp')) as [Hle|Hgt].
  - apply (resize_wp m new nr); [done|]. exists s. split_and!; try done; [lia|].
    apply (gap_fits l1 l2 (rs_start tmp) (gap_end l2)); try done; lia.
  - destruct l2 as [|c l2]; cbn [head gap_end] in *; [lia|].
    pose proof L as L'. rewrite El in L', Hc0. pose proof (level_ok _ _ _ T L') as K.
    destruct (level_next _ _ _ _ _ L') as (x & Hx & Hsx). res_step.
    pose proof (kid_range _ _ _ c K (elem_of_next _ _ _)) as Hkid.
    pose proof (Hc0 c (elem_of_next _ _ _)) as Hcl. unfold clash in Hcl.
    destruct (to_range _ T c x Hx) as [_ [Hx0 _]]. rewrite <- (end_of_eq _ _ _ Hx) in *.
    rewrite (wrapu_small 32) by (split; lia).
    rewrite Hsx. apply (IH (l1 ++ [c])); change (rs_start (set_rs_start ?v ?r)) with v; try lia.
    + by rewrite <- app_assoc.
    + cbn in Hlen. lia.
    + intros d [Hd| ->%list_elem_of_singleton]%elem_of_app; [|lia].
      pose proof (sorted_before _ _ _ _ _ _ K Hd). lia.
    + intros d Hd. apply H2. by right.
Qed.

End Search.

Lemma find_resource_complete size k m root new nr min max l s0 :
  0 <= k <= 32 -> 1 <= size -> tree_ok (m_res m) -> level (m_res m) root l ->
  m_res m !! new = Some nr -> 0 <= min -> max < 2 ^ 32 ->
  candidate (m_res m) root l size min max (2 ^ k) s0 ->
  wp (find_resource root new size min max (2 ^ k) simple_align_resource)
    (found_low size m root new nr l s0) m.
Proof.
  intros Hk Hsize T L Hn Hmin Hmax Hs0.
  pose proof (level_ok _ _ _ T L) as K. pose proof (kids_length _ _ _ K) as Hlen.
  pose proof L as (rr & Hr & Hs). pose proof (start_of_eq _ _ _ Hr) as Er.
  destruct (to_range _ T root rr Hr) as [[Hr0 _] _].
  pose proof Hs0 as (_ & _ & Hmax0 & _ & Hrs & _ & Hc0).
  unfold find_resource. do 3 res_step. rewrite (seg_head _ _ _ Hs).
  destruct l as [|c l2]; cbn [head].
  { apply (find_loop_complete size k) with (l1 := []) (l2 := []) (min := min) (max := max); try done; change (rs_start (set_rs_start ?v ?r)) with v;
      [cbn; lia | lia | lia | by intros ? ?%elem_of_nil..]. }
  destruct (level_next _ _ [] _ _ L) as (x & Hx & Hsx). cbn in Hlen. res_step.
  pose proof (kid_range _ _ _ c K ltac:(left)) as Hkid.
  assert (forall d, d ∈ l2 -> end_of (m_res m) c < start_of (m_res m) d) as Hafter.
  { destruct K as [_ [_ H]%StronglySorted_inv]. by rewrite Forall_forall in H. }
  rewrite <- (start_of_eq _ _ _ Hx), <- (end_of_eq _ _ _ Hx).
  destruct (to_range _ T c x Hx) as [[Hx0 _] [_ Hx1]].
  rewrite <- (start_of_eq _ _ _ Hx) in Hx0.
  destruct (Z.eqb_spec (start_of (m_res m) c) 0) as [E0|E0].
  - pose proof (Hc0 c ltac:(left)) as Hcl. unfold clash in Hcl. rewrite Hsx.
    rewrite (wrapu_small 32) by (split; lia).
    apply (find_loop_complete size k) with (l1 := [c]) (l2 := l2) (min := min) (max := max); change (rs_start (set_rs_start ?v ?r)) with v; try done; try lia.
    + intros d ->%list_elem_of_singleton. lia.
    + intros d Hd. specialize (Hafter d Hd). lia.
  - apply (find_loop_complete size k) with (l1 := []) (l2 := (c :: l2)) (min := min) (max := max); change (rs_start (set_rs_start ?v ?r)) with v; try done; try lia.
    + cbn. lia.
    + by intros ? ?%elem_of_nil.
    + intros d [->|Hd]%elem_of_cons; [lia|]. specialize (Hafter d Hd). lia.
Qed.

(** *** The allocation *)

(** [m'] is [m] with [new] linked below [root] at the range from [s] to [e]. *)
Definition linked_at m (root new : positive) (nr : resource) (l : list positive) (s e : Z) m' : Prop :=
  exists l1 l2, l = l1 ++ l2 /\
    m' = set_m_res (link (<[new := resize s e nr]> (m_res m)) root new l1 l2) m /\
    tree_ok (m_res m') /\ level (m_res m') root (l1 ++ new :: l2).

Lemma fits_resize h root new nr l s e s' e' :
  new <> root -> new ∉ l -> fits (<[new := resize s' e' nr]> h) root l s e <-> fits h root l s e.
Proof.
  intros Hne Hl. unfold fits, clash.
  assert (forall c, c <> new -> start_of (<[new := resize s' e' nr]> h) c = start_of h c /\
                        end_of (<[new := resize s' e' nr]> h) c = end_of h c) as E.
  { intros c Hc. unfold start_of, end_of. by rewrite lookup_insert_ne. }
  destruct (E root) as [-> ->]; [done|].
  split; intros (? & ? & ? & Hc); split_and!; try done; intros c Hin;
    (destruct (E c) as [Es Ee]; [by intros -> |]); specialize (Hc c Hin); by rewrite ?Es, ?Ee in *.
Qed.

(** The allocation, given what the search found. *)
Lemma allocate_link_wp m root new nr l s e :
  tree_ok (m_res m) -> level (m_res m) root l -> loose m root new nr -> rs_child nr = None ->
  uint 32 s -> uint 32 e ->
  wp (conflict ← __request_resource root new;
      match conflict with Some _ => ret (- EBUSY) | None => ret 0 end)
    (fun r m' =>
       (r = 0 /\ fits (m_res m) root l s e /\ linked_at m root new nr l s e m') \/
       (r = - EBUSY /\ ~ fits (m_res m) root l s e /\
        m' = set_m_res (<[new := resize s e nr]> (m_res m)) m))
    (set_m_res (<[new := resize s e nr]> (m_res m)) m).
Proof.
  intros T L (Hn & Hp & Hne) Hc Hs He. set (h2 := <[new := resize s e nr]> (m_res m)).
  assert (tree_ok h2) as T2 by (by apply resize_loose).
  assert (level h2 root l) as L2 by (by apply resize_level).
  assert (new ∉ l) as Hf.
  { apply (orphan_unlinked (m_res m) root l new nr); [by apply level_ok | done | by rewrite Hp]. }
  apply wp_bind. eapply wp_mono.
  { apply (request_wp (set_m_res h2 m) root new (resize s e nr) l); [done..|].
    split; [apply lookup_insert_eq | done]. }
  intros r m' (h' & -> & Hq). pose proof (requested_none _ _ _ _ _ _ _ _ Hq) as Hfit.
  cbn [m_res set_m_res] in *. change (rs_start (resize s e nr)) with s in *.
  change (rs_end (resize s e nr)) with e in *. unfold h2 in Hfit at 1. rewrite fits_resize in Hfit by done.
  destruct Hq as [l1 l2 -> _ T' L'| |]; apply wp_ret; [left|right..];
    split_and!; try done; try (by intros ?%Hfit); [by apply Hfit|].
  exists l1, l2. done.
Qed.

Section Allocate.
Context (m : memory) (root new : positive) (nr : resource) (l : list positive) (size min max align : Z).
Hypothesis T : tree_ok (m_res m).
Hypothesis L : level (m_res m) root l.
Hypothesis Hn : loose m root new nr.
Hypothesis Hc : rs_child nr = None.
Hypothesis Hsize : 1 <= size <= 2 ^ 32.
Hypothesis Hmin : 0 <= min.
Hypothesis Hmax : max < 2 ^ 32.

Lemma ALIGN_uint t a : uint 32 (ALIGN t a).
Proof. apply land_uint_l; [lia|]. apply wrapu_range. lia. Qed.

Lemma slot_size alignf s e : slot_ok nr size min max align alignf s e -> uint 32 s -> s <= e ->
  e = s + size - 1 /\ min <= s /\ e <= max.
Proof.
  intros [t av Ht Ea Hta Ham Es Has Ee Hea] [Hs0 Hs1] Hse. split; [|lia].
  rewrite Ee in *. destruct (Z.lt_ge_cases (s + size - 1) (2 ^ 32)) as [H|H].
  - by rewrite (wrapu_small 32) by (split; lia).
  - exfalso. assert (u32 (s + size - 1) = s + size - 1 - 2 ^ 32) as E.
    { unfold wrapu. rewrite <- (Z.mod_small (s + size - 1 - 2 ^ 32) (2 ^ 32)) by lia.
      by rewrite <- (Z.mod_add _ (-1) (2 ^ 32)) by lia. }
    lia.
Qed.

(** The outcome for any alignment function whose results are 32 bits wide. *)
Lemma allocate_wp alignf :
  (forall av, uint 32 (rs_start av) -> uint 32 (alignf av size align)) ->
  wp (err ← find_resource root new size min max align alignf;
      if err <? 0 then ret err else
      conflict ← __request_resource root new;
      match conflict with Some _ => ret (- EBUSY) | None => ret err end)
    (fun r m' =>
       (r = 0 /\ exists s e, slot_ok nr size min max align alignf s e /\ e = s + size - 1 /\ min <= s /\
          e <= max /\ fits (m_res m) root l s e /\ linked_at m root new nr l s e m') \/
       (r = - EBUSY /\ tree_ok (m_res m') /\
          exists s e, m' = set_m_res (<[new := resize s e nr]> (m_res m)) m)) m.
Proof.
  intros Hal. pose proof Hn as (Hn' & Hp & _). apply wp_bind. eapply wp_mono.
  { apply (find_resource_sound m root new nr _ _ _ _ _ l); [done | by apply level_ok | done]. }
  intros err m' [|s e Hslot].
  - apply wp_ret. right. split; [done|]. split; [done|]. exists (rs_start nr), (rs_end nr).
    change (resize (rs_start nr) (rs_end nr) nr) with nr. rewrite insert_id by done. by destruct m.
  - change (0 <? 0) with false. cbv iota.
    assert (uint 32 s /\ uint 32 e) as [Hs He].
    { destruct Hslot as [t av _ Ea _ _ -> _ -> _]. split; [|by apply wrapu_range].
      apply Hal. rewrite Ea. apply ALIGN_uint. }
    eapply wp_mono; [by apply (allocate_link_wp m root new nr l s e)|].
    intros r m'' [(-> & Hf & Hl)|(-> & Hf & ->)]; [left|right].
    + split; [done|]. destruct (slot_size alignf s e) as (? & ? & ?); [done..|apply Hf|]. exists s, e. done.
    + split; [done|]. split; [by apply resize_loose | eauto].
Qed.
End Allocate.

(** Whatever the alignment function answers, a range that [allocate_resource] gives out
    has the size asked for, lies within the bounds asked for and within the root and meets
    no other child, the tree stays in order, and a failure links nothing. *)
Theorem allocate_resource_safe m root new nr l size min max align alignf :
  tree_ok (m_res m) -> level (m_res m) root l -> loose m root new nr -> rs_child nr = None ->
  1 <= size <= 2 ^ 32 -> 0 <= min -> max < 2 ^ 32 ->
  (forall av, uint 32 (alignf av size align)) ->
  wp (allocate_resource root new size min max align (Some alignf)) (fun r m' =>
    tree_ok (m_res m') /\
    ((r = 0 /\ exists s e, e = s + size - 1 /\ min <= s /\ e <= max /\
        fits (m_res m) root l s e /\ linked_at m root new nr l s e m') \/
     (r = - EBUSY /\ exists s e, m' = set_m_res (<[new := resize s e nr]> (m_res m)) m))) m.
Proof.
  intros T L Hn Hc Hsize Hmin Hmax Hal. eapply wp_mono; [by apply (allocate_wp m root new nr l)|].
  intros r m' [(-> & s & e & _ & ? & ? & ? & ? & Hl)|(-> & T' & H)].
  - pose proof Hl as (? & ? & _ & _ & T' & _). split; [done|]. left. eauto 10.
  - split; [done|]. by right.
Qed.

Lemma linked_at_start m root new nr l s e s' e' m' :
  linked_at m root new nr l s e m' -> linked_at m root new nr l s' e' m' -> s = s'.
Proof.
  assert (forall s e, linked_at m root new nr l s e m' -> start_of (m_res m') new = s) as H.
  { intros x y (l1 & l2 & _ & -> & _). cbn [m_res set_m_res].
    erewrite range_start by apply link_range. by rewrite (start_of_eq _ _ _ (lookup_insert_eq _ _ _)). }
  intros H1%H H2%H. congruence.
Qed.

Lemma allocate_complete m root new nr l size min max k s0 :
  tree_ok (m_res m) -> level (m_res m) root l -> loose m root new nr -> rs_child nr = None ->
  1 <= size <= 2 ^ 32 -> 0 <= min -> max < 2 ^ 32 -> 0 <= k <= 32 ->
  candidate (m_res m) root l size min max (2 ^ k) s0 ->
  wp (allocate_resource root new size min max (2 ^ k) None) (fun r m' =>
    r = 0 /\ exists s, s <= s0 /\ linked_at m root new nr l s (s + size - 1) m') m.
Proof.
  intros T L Hn Hc Hsize Hmin Hmax Hk Hs0. pose proof Hn as (Hn' & _). apply wp_bind. eapply wp_mono.
  { apply (find_resource_complete size k m root new nr min max l s0); try done. lia. }
  intros err m' (s & -> & -> & Hle & Hf). change (0 <? 0) with false. cbv iota.
  assert (0 <= s) as Hs.
  { destruct Hf as (_ & Hr & _). pose proof L as (rr & Hrr & _). destruct (to_range _ T root rr Hrr) as [[? _] _].
    rewrite (start_of_eq _ _ _ Hrr) in Hr. lia. }
  destruct Hs0 as (_ & _ & Hmax0 & _).
  eapply wp_mono; [apply (allocate_link_wp m root new nr l s (s + size - 1)); try done; split; lia|].
  intros r m' [(-> & _ & Hl)|(_ & Hf' & _)]; [|done]. eauto.
Qed.

Lemma allocate_lowest m root new nr l size min max k :
  tree_ok (m_res m) -> level (m_res m) root l -> loose m root new nr -> rs_child nr = None ->
  1 <= size <= 2 ^ 32 -> 0 <= min -> max < 2 ^ 32 -> 0 <= k <= 32 ->
  wp (allocate_resource root new size min max (2 ^ k) None) (fun r m' =>
    (r = 0 /\ exists s, candidate (m_res m) root l size min max (2 ^ k) s /\
       (forall s', candidate (m_res m) root l size min max (2 ^ k) s' -> s <= s') /\
       linked_at m root new nr l s (s + size - 1) m') \/
    (r = - EBUSY /\ (forall s, ~ candidate (m_res m) root l size min max (2 ^ k) s) /\
       tree_ok (m_res m') /\ exists s e, m' = set_m_res (<[new := resize s e nr]> (m_res m)) m)) m.
Proof.
  intros T L Hn Hc Hsize Hmin Hmax Hk. eapply wp_mono.
  { apply wp_forall with (P := candidate (m_res m) root l size min max (2 ^ k)).
    - by apply (allocate_wp m root new nr l).
    - intros s0 Hs0. by apply (allocate_complete m root new nr l size min max k s0). }
  intros r m' [[(-> & s & e & Hs & -> & ? & ? & Hf & Hl)|(-> & T' & Hr)] Hall]; [left|right].
  - split; [done|]. exists s. split_and!; [|by intros s0 (_ & s' & Hle & <-%(linked_at_start _ _ _ _ _ s (s + size - 1)))%Hall|done].
    split_and!; try done. destruct Hs as [t av _ Ea _ _ -> _ _ _].
    unfold simple_align_resource. rewrite Ea. apply ALIGN_aligned. lia.
  - split; [done|]. split; [by intros s (Hr' & _)%Hall | done].
Qed.

(** C7: with the default alignment function and an alignment that is a power of two,
    [allocate_resource] gives out the lowest aligned range of the size that is free and
    within the bounds, and answers -EBUSY only when there is none. *)
Theorem allocate_resource_lowest m root new nr l size min max k :
  tree_ok (m_res m) -> level (m_res m) root l -> loose m root new nr -> rs_child nr = None ->
  1 <= size <= 2 ^ 32 -> 0 <= min -> max < 2 ^ 32 -> 0 <= k <= 32 ->
  wp (allocate_resource root new size min max (2 ^ k) None) (fun r m' =>
    (r = 0 /\ exists s, candidate (m_res m) root l size min max (2 ^ k) s /\
       (forall s', candidate (m_res m) root l size min max (2 ^ k) s' -> s <= s') /\
       linked_at m root new nr l s (s + size - 1) m') \/
    (r = - EBUSY /\ forall s, ~ candidate (m_res m) root l size min max (2 ^ k) s)) m.
Proof.
  intros T L Hn Hc Hsize Hmin Hmax Hk. eapply wp_mono; [by apply (allocate_lowest m root new nr l)|].
  intros r m' [?|(-> & Hnone & _)]; [by left | by right].
Qed.

(** ** Adjusting *)

(** [find_prev] walks to the sibling before [x]. *)
Lemma find_prev_wp fuel m root l1 c l2 v x l3 Q :
  level (m_res m) root (l1 ++ (c :: l2) ++ x :: l3) -> NoDup (l1 ++ (c :: l2) ++ x :: l3) ->
  last (c :: l2) = Some v -> (length l2 < fuel)%nat -> Q v m ->
  wp (find_prev fuel x c) Q m.
Proof.
  revert l1 c l2. induction fuel as [|fuel IH]; intros l1 c l2 L Hd Hv Hlen HQ; [lia|].
  destruct (level_next _ _ _ _ _ L) as (k & Hk & Hs). cbn [find_prev]. res_step. rewrite Hs.
  destruct l2 as [|d l2]; cbn [app head].
  - rewrite decide_True by done. injection Hv as ->. by apply wp_ret.
  - rewrite decide_False.
    + apply wp_bind. eapply wp_deref; [done|].
      apply (IH (l1 ++ [c]) d l2); [by rewrite <- app_assoc.. | done | cbn in Hlen; lia | done].
    + intros [= ->]. apply NoDup_app in Hd as (_ & _ & Hd). cbn in Hd.
      apply NoDup_cons in Hd as [_ [Hd _]%NoDup_cons]. apply Hd, elem_of_next.
Qed.

Lemma children_within_wp fuel m root s e l1 l2 :
  level (m_res m) root (l1 ++ l2) -> (length l2 <= fuel)%nat ->
  wp (children_within fuel s e (head l2)) (fun b m' => m' = m /\
    (b = true <-> forall c, c ∈ l2 -> s <= start_of (m_res m) c /\ end_of (m_res m) c <= e)) m.
Proof.
  revert l1 l2. induction fuel as [|fuel IH]; intros l1 [|c l2] L Hlen; cbn [length] in *; try lia.
  1, 2: cbn; apply wp_ret; split; [done|]; split; [by intros _ ? ?%elem_of_nil | done].
  cbn [children_within head]. destruct (level_next _ _ _ _ _ L) as (k & Hk & Hs). res_step.
  rewrite <- (start_of_eq _ _ _ Hk), <- (end_of_eq _ _ _ Hk), Hs. case_bool.
  - wp_pure. split; [done|]. split; [done|]. intros H. destruct (H c ltac:(left)).
    apply orb_true_iff in Heqb as [?|?]; bool_to_prop; lia.
  - bool_to_prop. eapply wp_mono; [apply (IH (l1 ++ [c])); [by rewrite <- app_assoc | lia]|].
    intros b m' [-> Hb]. split; [done|]. rewrite Hb. split; [|intros Hall d Hd; apply Hall; by right].
    intros Hall d [->|Hd]%elem_of_cons; [done | by apply Hall].
Qed.

(** What [adjust_resource] asks of the new range: it stays between the siblings [l1] and [l2],
    within the parent [p], and around the children [kids]. *)
Definition adjustable h (p : positive) (l1 l2 kids : list positive) (s e : Z) : Prop :=
  (start_of h p <= s /\ e <= end_of h p) /\
  (forall c, c ∈ kids -> s <= start_of h c /\ end_of h c <= e) /\
  (forall c, c ∈ l2 -> e < start_of h c) /\ (forall c, c ∈ l1 -> end_of h c < s).

Section Adjust.
Context (m : memory) (res p : positive) (r : resource) (l1 l2 kids : list positive) (s size : Z).
Hypothesis T : tree_ok (m_res m).
Hypothesis Hr : m_res m !! res = Some r.
Hypothesis Hp : rs_parent r = Some p.
Hypothesis Hne : p <> res.
Hypothesis L : level (m_res m) p (l1 ++ res :: l2).
Hypothesis Lk : level (m_res m) res kids.
Hypothesis Hs : 0 <= s.
Hypothesis Hsize : 1 <= size.
Hypothesis He : s + size <= 2 ^ 32.
#[local] Abbreviation e := (s + size - 1).
#[local] Abbreviation h' := (<[res := resize s e r]> (m_res m)).

Lemma adjust_other c : c <> res -> start_of h' c = start_of (m_res m) c /\ end_of h' c = end_of (m_res m) c.
Proof. intros Hc. unfold start_of, end_of. by rewrite lookup_insert_ne. Qed.

Lemma adjust_self : start_of h' res = s /\ end_of h' res = e.
Proof. unfold start_of, end_of. by rewrite lookup_insert_eq. Qed.

Lemma adjust_fresh : (forall c, c ∈ l1 ++ l2 -> c <> res) /\ (forall c, c ∈ kids -> c <> res).
Proof.
  assert ((res ∉ l1 ++ l2) /\ NoDup (l1 ++ l2)) as [Hf _] by (by apply (unlink_fresh (m_res m) p)).
  split; [by intros c Hc ->|]. intros c Hc ->.
  apply (orphan_unlinked _ _ _ _ _ (level_ok _ _ _ T Lk) Hr); [|done]. rewrite Hp. by intros [= ?].
Qed.

Lemma adjust_sorted : adjustable (m_res m) p l1 l2 kids s e -> StronglySorted (before h') (l1 ++ res :: l2).
Proof.
  intros (_ & _ & H2 & H1). destruct adjust_self as [Es Ee]. destruct adjust_fresh as [Hcne _].
  assert (StronglySorted (before h') (l1 ++ l2)) as Hso.
  { eapply sorted_frame; [|by apply (unlink_sorted (m_res m) p res)].
    intros c Hc. by apply resize_range, Hcne. }
  apply StronglySorted_app in Hso as (Ha & Hb & Hc). apply StronglySorted_app. split_and!; [|done|].
  - intros a b Ha' [->|Hb']%elem_of_cons; [|by apply Ha]. unfold before. rewrite Es.
    destruct (adjust_other a) as [_ ->]; [apply Hcne, elem_of_app; by left|]. by apply H1.
  - constructor; [done|]. apply Forall_forall. intros c Hc'. unfold before. rewrite Ee.
    destruct (adjust_other c) as [-> _]; [apply Hcne, elem_of_app; by right|]. by apply H2.
Qed.

Lemma adjust_tree : adjustable (m_res m) p l1 l2 kids s e -> tree_ok h'.
Proof.
  intros Hadj. pose proof Hadj as ((Hps & Hpe) & Hk & _). destruct adjust_self as [Es Ee].
  destruct (adjust_other p Hne) as [Eps Epe]. destruct adjust_fresh as [_ Hkne].
  apply resize_tree; try done; [split; lia | split; lia | |].
  - intros l Ll. rewrite (level_det _ _ _ _ Ll Lk). destruct (level_ok _ _ _ T Lk) as [Hkk Hks]. split.
    + intros c Hc. destruct (Hkk c Hc) as (k & Ek & Epk & Hb). destruct (Hk c Hc) as [Hk1 Hk2].
      rewrite (start_of_eq _ _ _ Ek) in Hk1. rewrite (end_of_eq _ _ _ Ek) in Hk2.
      exists k. rewrite lookup_insert_ne by (by apply not_eq_sym, Hkne). rewrite Es, Ee. split_and!; try done; lia.
    + eapply sorted_frame; [|done]. intros c Hc. by apply resize_range, Hkne.
  - intros p' l Hp' Ll. rewrite Hp in Hp'. injection Hp' as <-. rewrite (level_det _ _ _ _ Ll L).
    split; [|by apply adjust_sorted]. intros c Hc. rewrite Eps, Epe. destruct (decide (c = res)) as [->|Hcr].
    + exists (resize s e r). rewrite lookup_insert_eq.
      change (rs_start (resize s e r)) with s. change (rs_end (resize s e r)) with e. split_and!; try done; lia.
    + rewrite lookup_insert_ne by done. by apply (ko_kid _ _ _ (level_ok _ _ _ T L)).
Qed.

(** The test against the sibling before: its end, or nothing to test. *)
Lemma adjust_before pr n (Q : bool -> memory -> Prop) :
  m_res m !! p = Some pr -> (length (l1 ++ res :: l2) <= n)%nat ->
  (forall b, (b = true <-> forall c, c ∈ l1 -> end_of (m_res m) c < s) -> Q b m) ->
  wp (if decide (rs_child pr = Some res) then ret true
      else
        c ← deref (rs_child pr);
        prev ← find_prev n res c;
        vr ← get_res prev;
        ret (negb (s <=? rs_end vr))) Q m.
Proof.
  intros Hpr Hlen HQ. pose proof L as (pr' & Hpr' & Hseg). rewrite Hpr in Hpr'. apply (inj Some) in Hpr' as <-.
  rewrite (seg_head _ _ _ Hseg). pose proof (level_ok _ _ _ T L) as K. pose proof (kids_nodup _ _ _ K) as Hd.
  destruct l1 as [|c l]; cbn [app head].
  { rewrite decide_True by done. apply wp_ret, HQ. split; [by intros _ ? ?%elem_of_nil | done]. }
  assert (c <> res) as Hcr by (intros ->; apply NoDup_cons in Hd as [Hd _]; apply Hd, elem_of_next).
  rewrite decide_False by (by intros [= ?]). apply wp_bind. eapply wp_deref; [done|].
  destruct (last (c :: l)) as [v|] eqn:Hv; [|by apply last_None in Hv].
  pose proof Hv as [l' El]%last_Some.
  destruct (ko_kid _ _ _ K v) as (k & Ek & _); [rewrite El; apply elem_of_app; left; apply elem_of_next|].
  apply wp_bind. eapply (find_prev_wp n m p [] c l v res l2); [done | done | done | |].
  { rewrite length_app in Hlen. cbn in Hlen. lia. }
  res_step. apply HQ. rewrite <- (end_of_eq _ _ _ Ek), negb_true_iff, Z.leb_gt.
  rewrite El in K |- *. rewrite <- app_assoc in K. cbn [app] in K. split.
  - intros H d [Hd'| ->%list_elem_of_singleton]%elem_of_app; [|done].
    pose proof (sorted_before _ _ _ _ _ _ K Hd'). pose proof (kid_range _ _ _ v K (elem_of_next _ _ _)). lia.
  - intros H. apply H, elem_of_next.
Qed.

(** The test against the sibling after. *)
Lemma adjust_after (Q : bool -> memory -> Prop) :
  (forall b, (b = true <-> forall c, c ∈ l2 -> e < start_of (m_res m) c) -> Q b m) ->
  wp match rs_sibling r with
     | None => ret true
     | Some a => sr ← get_res a; ret (negb (rs_start sr <=? e))
     end Q m.
Proof.
  intros HQ. destruct (level_next _ _ _ _ _ L) as (r' & Hr' & Esib).
  rewrite Hr in Hr'. apply (inj Some) in Hr' as <-. rewrite Esib. destruct l2 as [|c l]; cbn [head].
  { apply wp_ret, HQ. split; [by intros _ ? ?%elem_of_nil | done]. }
  assert (kids_ok (m_res m) p ((l1 ++ [res]) ++ c :: l)) as K.
  { rewrite <- app_assoc. by apply level_ok. }
  destruct (ko_kid _ _ _ K c (elem_of_next _ _ _)) as (k & Ek & _). res_step. apply HQ.
  rewrite negb_true_iff, Z.leb_gt. split; [by eapply sorted_after|].
  intros H. rewrite <- (start_of_eq _ _ _ Ek). apply H. by left.
Qed.
End Adjust.

