(* ===== verification/ResourceInsert.v ===== *)
(** * Inserting resources

    [__insert_resource] of kernel/resource.c: a resource goes into the deepest node that
    contains it, and the children of that node that it covers become its own. *)

From Stdlib Require Import Sorted.
From stdpp Require Import sorting.
From S2P Require Import Prelude Resource ResourceTree ResourceAlloc.

Implicit Types h : gmap positive resource.

(** [for (next = first; next; next = next->sibling) next->parent = new] *)
Definition adopted (new : positive) (mid : list positive) h : gmap positive resource :=
  foldl (fun h a => alter (set_rs_parent (Some new)) a h) h mid.

(** What inserting [new] over the children [mid] of [q] does to the objects. *)
Definition insert_over h (q new : positive) (l1 mid l2 : list positive) : gmap positive resource :=
  let h1 := alter (set_rs_child (head mid)) new
              (alter (set_rs_sibling (head l2)) new (alter (set_rs_parent (Some q)) new h)) in
  slot_set (slot_after q l1) (Some new) (adopted new mid (slot_set (slot_after new mid) None h1)).

Lemma adopted_other {A} (f : resource -> A) new mid h b :
  (forall r v, f (set_rs_parent v r) = f r) -> f <$> adopted new mid h !! b = f <$> h !! b.
Proof.
  intros Hf. revert h. induction mid as [|a mid IH]; intros h; [done|]. cbn. unfold adopted in IH.
  rewrite IH. by apply fmap_alter.
Qed.

Lemma adopted_notin new mid h b : b ∉ mid -> adopted new mid h !! b = h !! b.
Proof.
  revert h. induction mid as [|a mid IH]; intros h; [done|].
  intros [Hb1 Hb2]%not_elem_of_cons. cbn. unfold adopted in IH. rewrite IH by done. by apply lookup_alter_ne.
Qed.

Lemma adopted_in new mid h b : b ∈ mid -> is_Some (h !! b) ->
  (fun r => rs_parent r) <$> adopted new mid h !! b = Some (Some new).
Proof.
  revert h. induction mid as [|a mid IH]; intros h Hb Hs; [by apply elem_of_nil in Hb|].
  cbn. destruct (decide (b ∈ mid)) as [Hin|Hin]; [by apply IH; [|apply alter_is_Some]|].
  change (foldl _ ?x mid) with (adopted new mid x). rewrite adopted_notin by done.
  apply elem_of_cons in Hb as [->|]; [|done]. destruct Hs as [r Hr]. by rewrite lookup_alter_eq, Hr.
Qed.

Section Insert.
Context (h : gmap positive resource) (q new : positive) (l1 mid l2 : list positive) (nr : resource).
Hypothesis T : tree_ok h.
Hypothesis L : level h q (l1 ++ mid ++ l2).
Hypothesis Hn : h !! new = Some nr.
Hypothesis Hp : rs_parent nr = None.
Hypothesis Hc : rs_child nr = None.
Hypothesis Hne : new <> q.
Hypothesis Hmid : mid <> [].
#[local] Abbreviation h' := (insert_over h q new l1 mid l2).
#[local] Abbreviation h1 := (alter (set_rs_child (head mid)) new
  (alter (set_rs_sibling (head l2)) new (alter (set_rs_parent (Some q)) new h))).

Lemma ins_fresh : new ∉ l1 ++ mid ++ l2.
Proof. eapply orphan_unlinked; [by apply level_ok | done | by rewrite Hp]. Qed.

Lemma ins_split : ((new ∉ l1) /\ (new ∉ mid) /\ (new ∉ l2)) /\ NoDup (l1 ++ mid ++ l2) /\
  (forall c, c ∈ l1 -> c ∉ mid) /\ (forall c, c ∈ l2 -> c ∉ mid) /\ (forall c, c ∈ l1 -> c ∉ l2).
Proof.
  pose proof ins_fresh as Hf. rewrite !elem_of_app in Hf.
  pose proof (kids_nodup _ _ _ (level_ok _ _ _ T L)) as Hd. split; [tauto|]. split; [done|].
  apply NoDup_app in Hd as (_ & H1 & (_ & H2 & _)%NoDup_app). split_and!.
  - intros c Hc1 Hc2. apply (H1 c Hc1), elem_of_app. by left.
  - intros c Hc1 Hc2. by apply (H2 c Hc2).
  - intros c Hc1 Hc2. apply (H1 c Hc1), elem_of_app. by right.
Qed.

Lemma ins_h1 c : c <> new -> h1 !! c = h !! c.
Proof. intros. by rewrite !lookup_alter_ne. Qed.

Lemma ins_h1_new : exists k, h1 !! new = Some k /\ rs_child k = head mid /\ rs_sibling k = head l2 /\
  rs_parent k = Some q.
Proof. eexists. by rewrite !lookup_alter_eq, Hn. Qed.

Lemma ins_range a : range <$> h' !! a = range <$> h !! a.
Proof. unfold insert_over. rewrite slot_set_range, adopted_other, slot_set_range, !fmap_alter; done. Qed.

(** The covered children hang below [new]. *)
Lemma ins_level_new : level h' new mid.
Proof.
  destruct ins_split as ((Hf1 & Hfm & Hf2) & Hd & D1 & D2 & D3).
  destruct ins_h1_new as (k & Hk & Hck & _). destruct L as (qr & Hq & Hs).
  apply seg_app in Hs as (x & Hs1 & Hs). apply seg_app in Hs as (y & Hsm & Hs2).
  assert (level (slot_set (slot_after new mid) None h1) new (mid ++ [])) as Lm.
  { eapply (splice h1 new k mid y None []); [done | | done |].
    - rewrite Hck. assert (x = head mid) as -> by (destruct mid; [done | by destruct Hsm]).
      eapply seg_frame; [|exact Hsm]. intros c Hcm. by rewrite ins_h1 by (by intros ->).
    - rewrite app_nil_r. apply NoDup_app in Hd as (_ & _ & (Hd & _)%NoDup_app). done. }
  rewrite app_nil_r in Lm. eapply level_frame; [| |exact Lm].
  - unfold insert_over. rewrite (slot_set_child q) by done. by apply adopted_other.
  - intros c Hcm. unfold insert_over. rewrite (links_sibling _ _ (slot_set_other q l1 (Some new) _ c ltac:(intros H; by apply (D1 c H)))).
    by apply adopted_other.
Qed.

(** [new] takes the place of the covered children. *)
Lemma ins_level_q : level h' q (l1 ++ new :: l2).
Proof.
  destruct ins_split as ((Hf1 & Hfm & Hf2) & Hd & D1 & D2 & D3).
  destruct ins_h1_new as (k & Hk & _ & Hsk & _). destruct L as (qr & Hq & Hs).
  apply seg_app in Hs as (x & Hs1 & Hs). apply seg_app in Hs as (y & Hsm & Hs2).
  set (h2 := adopted new mid (slot_set (slot_after new mid) None h1)).
  assert (forall c, c <> new -> c ∉ mid ->
    (fun r => rs_sibling r) <$> h2 !! c = (fun r => rs_sibling r) <$> h !! c) as Hsib.
  { intros c Hcn Hcm. unfold h2. rewrite adopted_notin by done.
    rewrite (links_sibling _ _ (slot_set_other new mid None _ c Hcm)). by rewrite ins_h1. }
  assert (exists r, h2 !! q = Some r /\ rs_child r = rs_child qr) as (r & Hr & Er).
  { apply (fmap_lookup_eq (fun r => rs_child r) h); [|done]. unfold h2. rewrite adopted_other by done.
    rewrite slot_set_child by done. by rewrite ins_h1. }
  assert (exists kn, h2 !! new = Some kn /\ rs_sibling kn = head l2) as (kn & Hkn & Ekn).
  { rewrite <- Hsk. apply (fmap_lookup_eq (fun r => rs_sibling r) h1); [|done]. unfold h2.
    rewrite adopted_notin by done. by apply links_sibling, slot_set_other. }
  apply (splice h2 q r l1 x); [done | | |].
  - rewrite Er. eapply seg_frame; [|exact Hs1]. intros c Hc1. apply Hsib; [by intros -> | by apply D1].
  - split; [done|]. exists kn. split; [done|]. rewrite Ekn, <- (seg_head _ _ _ Hs2).
    eapply seg_frame; [|exact Hs2]. intros c Hc2. apply Hsib; [by intros -> | by apply D2].
  - rewrite <- Permutation_middle, NoDup_cons, elem_of_app. split; [tauto|].
    rewrite (Permutation_app_comm mid l2), app_assoc in Hd. by apply NoDup_app in Hd as (Hd & _).
Qed.

Lemma ins_child a : a ∉ [q; new] -> (fun r => rs_child r) <$> h' !! a = (fun r => rs_child r) <$> h !! a.
Proof.
  rewrite !not_elem_of_cons. intros (Haq & Han & _). unfold insert_over.
  by rewrite slot_set_child, adopted_other, slot_set_child, ins_h1.
Qed.

Lemma ins_links c : c ∉ new :: l1 ++ mid ++ l2 -> links <$> h' !! c = links <$> h !! c.
Proof.
  rewrite not_elem_of_cons, !elem_of_app. intros (Hcn & Hcl). unfold insert_over.
  by rewrite slot_set_other, adopted_notin, slot_set_other, ins_h1 by tauto.
Qed.

(** The parents after the insertion. *)
Lemma ins_parent c k : h' !! c = Some k -> exists k0, h !! c = Some k0 /\
  rs_parent k = if decide (c = new) then Some q else if decide (c ∈ mid) then Some new else rs_parent k0.
Proof.
  intros Hk. destruct (h !! c) as [k0|] eqn:Hk0.
  2:{ pose proof (ins_range c) as E. rewrite Hk, Hk0 in E. done. }
  exists k0. split; [done|]. destruct ins_split as ((Hf1 & Hfm & Hf2) & _).
  pose proof (slot_set_parent (slot_after q l1) (Some new)
    (adopted new mid (slot_set (slot_after new mid) None h1)) c) as E.
  unfold insert_over in Hk. rewrite Hk in E.
  destruct (decide (c = new)) as [->|Hcn]; [|destruct (decide (c ∈ mid)) as [Hcm|Hcm]].
  - rewrite adopted_notin, slot_set_parent in E by done. destruct ins_h1_new as (x & Hx & _ & _ & Ex).
    rewrite Hx in E. cbn in E. congruence.
  - rewrite adopted_in in E; [cbn in E; congruence | done |].
    pose proof (slot_set_range (slot_after new mid) None h1 c) as Er. rewrite ins_h1, Hk0 in Er by done.
    destruct (slot_set (slot_after new mid) None h1 !! c); [eauto | done].
  - rewrite adopted_notin, slot_set_parent, ins_h1, Hk0 in E by done. cbn in E. congruence.
Qed.

(** Before [new] is linked, the level of [q] ends with the covered children. *)
Lemma ins_level_mid : level (adopted new mid (slot_set (slot_after new mid) None h1)) q (l1 ++ mid).
Proof.
  destruct ins_split as ((Hf1 & Hfm & Hf2) & Hd & _).
  assert (slot_after new mid = slot_after q (l1 ++ mid)) as ->.
  { unfold slot_after. rewrite last_app. destruct (last mid) as [x|] eqn:E; [done|]. by apply last_None in E. }
  destruct L as (qr & Hq & Hs). rewrite app_assoc in Hs. apply seg_app in Hs as (x & Hs1 & Hs2).
  assert (level (slot_set (slot_after q (l1 ++ mid)) None h1) q ((l1 ++ mid) ++ [])) as Lm.
  { eapply (splice h1 q qr (l1 ++ mid) x None []); [by rewrite ins_h1 | | done |].
    - eapply seg_frame; [|exact Hs1]. intros c Hcm. rewrite ins_h1; [done|]. intros ->.
      apply elem_of_app in Hcm. tauto.
    - rewrite app_nil_r. rewrite app_assoc in Hd. by apply NoDup_app in Hd as (Hd & _). }
  rewrite app_nil_r in Lm. eapply level_frame; [by apply adopted_other | intros; by apply adopted_other | done].
Qed.

Hypothesis Hin : start_of h q <= rs_start nr /\ rs_start nr <= rs_end nr /\ rs_end nr <= end_of h q.
Hypothesis H1 : forall c, c ∈ l1 -> end_of h c < rs_start nr.
Hypothesis Hm : forall c, c ∈ mid -> rs_start nr <= start_of h c /\ end_of h c <= rs_end nr.
Hypothesis H2 : forall c, c ∈ l2 -> rs_end nr < start_of h c.

(** An object whose range is that of before and whose parent is known. *)
Lemma ins_kid a c p : is_Some (h !! c) ->
  (if decide (c = new) then Some q else if decide (c ∈ mid) then Some new
   else k ← h !! c; rs_parent k)%stdpp = Some p ->
  start_of h a <= start_of h c /\ start_of h c <= end_of h c /\ end_of h c <= end_of h a ->
  exists k, h' !! c = Some k /\ rs_parent k = Some p /\
    start_of h' a <= rs_start k /\ rs_start k <= rs_end k /\ rs_end k <= end_of h' a.
Proof.
  intros [k0 Hk0] Hpar Hr. rewrite (range_start h), (range_end h) by apply ins_range.
  rewrite (start_of_eq _ _ _ Hk0), (end_of_eq _ _ _ Hk0) in Hr. pose proof (ins_range c) as E.
  rewrite Hk0 in E. destruct (h' !! c) as [k|] eqn:Hk; [|done]. injection E as Es Ee.
  exists k. rewrite Es, Ee. split; [done|]. split; [|done].
  destruct (ins_parent c k Hk) as (k1 & Hk1 & ->). rewrite Hk0 in Hk1. apply (inj Some) in Hk1 as <-.
  rewrite Hk0 in Hpar. done.
Qed.

Lemma ins_kids_q : kids_ok h' q (l1 ++ new :: l2).
Proof.
  pose proof (level_ok _ _ _ T L) as K. destruct ins_split as ((Hf1 & Hfm & Hf2) & _ & D1 & D2 & _). split.
  - intros c [->|Hcl]%elem_of_middle; apply ins_kid.
    + eauto.
    + by rewrite decide_True.
    + by rewrite (start_of_eq _ _ _ Hn), (end_of_eq _ _ _ Hn).
    + destruct (ko_kid _ _ _ K c) as (k & -> & _); [|eauto]. apply elem_of_app in Hcl. rewrite !elem_of_app. tauto.
    + apply elem_of_app in Hcl. destruct (ko_kid _ _ _ K c) as (k & -> & Ep & _); [rewrite !elem_of_app; tauto|].
      rewrite !decide_False; [done | |]; [destruct Hcl; [by apply D1 | by apply D2] | by intros ->; destruct Hcl].
    + apply (kid_range _ _ _ c K). apply elem_of_app in Hcl. rewrite !elem_of_app. tauto.
  - eapply sorted_frame; [intros; apply ins_range|]. destruct K as [_ Hs].
    apply StronglySorted_app in Hs as (Ha & Hs1 & (_ & _ & Hs2)%StronglySorted_app).
    apply StronglySorted_app. split_and!; [|done|].
    + intros a b Hal [->|Hb]%elem_of_cons.
      * unfold before. rewrite (start_of_eq _ _ _ Hn). by apply H1.
      * apply Ha; [done|]. apply elem_of_app. by right.
    + constructor; [done|]. apply Forall_forall. intros c Hcl. unfold before. rewrite (end_of_eq _ _ _ Hn). by apply H2.
Qed.

Lemma ins_kids_new : kids_ok h' new mid.
Proof.
  pose proof (level_ok _ _ _ T L) as K. destruct ins_split as ((Hf1 & Hfm & Hf2) & _). split.
  - intros c Hcm. assert (c ∈ l1 ++ mid ++ l2) as Hin' by (rewrite !elem_of_app; tauto). apply ins_kid.
    + destruct (ko_kid _ _ _ K c Hin') as (k & -> & _). eauto.
    + rewrite decide_False by (by intros ->). by rewrite decide_True.
    + rewrite (start_of_eq _ _ _ Hn), (end_of_eq _ _ _ Hn). pose proof (kid_range _ _ _ c K Hin').
      specialize (Hm c Hcm). lia.
  - eapply sorted_frame; [intros; apply ins_range|]. destruct K as [_ Hs].
    by apply StronglySorted_app in Hs as (_ & _ & (_ & Hs & _)%StronglySorted_app).
Qed.

Lemma ins_tree : tree_ok h'.
Proof.
  pose proof ins_level_q as Lq. pose proof ins_level_new as Ln. pose proof (level_ok _ _ _ T L) as K.
  apply (tree_frame h _ [q; new] (new :: l1 ++ mid ++ l2));
    [done | apply ins_range | apply ins_child | apply ins_links | | | ].
  - intros c k a [->|Hcl]%elem_of_cons Ek Ep.
    + rewrite Hn in Ek. apply (inj Some) in Ek as <-. congruence.
    + destruct (ko_kid _ _ _ K c Hcl) as (k' & Ek' & Ep' & _). rewrite Ek in Ek'. apply (inj Some) in Ek' as <-.
      rewrite Ep in Ep'. injection Ep' as ->. by left.
  - intros a Ha. rewrite !elem_of_cons, elem_of_nil in Ha. destruct Ha as [->|[->|[]]]; eauto using ins_kids_q, ins_kids_new.
  - intros c k a Ek Ep Hor. destruct (ins_parent c k Ek) as (k0 & Ek0 & E). rewrite Ep in E.
    destruct (decide (c = new)) as [->|Hcn].
    { injection E as ->. exists (l1 ++ new :: l2). split; [done | apply elem_of_next]. }
    destruct (decide (c ∈ mid)) as [Hcm|Hcm]; [injection E as ->; by exists mid|].
    destruct (to_linked _ T c k0 a Ek0 ltac:(done)) as (l & La & Hcl).
    assert (a <> new) as Han.
    { intros ->. destruct La as (x & Hx & Hs). rewrite Hn in Hx. apply (inj Some) in Hx as <-.
      rewrite Hc in Hs. destruct l; [by apply elem_of_nil in Hcl | by destruct Hs]. }
    assert (a = q) as ->.
    { destruct Hor as [[?|Hcl']%elem_of_cons|Ha]; [done | |].
      - destruct (ko_kid _ _ _ K c Hcl') as (x & Hx & Epx & _). rewrite Ek0 in Hx. apply (inj Some) in Hx as <-. congruence.
      - rewrite !elem_of_cons, elem_of_nil in Ha. tauto. }
    rewrite (level_det _ _ _ _ La L), !elem_of_app in Hcl. exists (l1 ++ new :: l2). split; [done|].
    apply elem_of_middle. rewrite elem_of_app. tauto.
Qed.
End Insert.

(** ** The loops *)

Lemma adopt_loop_wp fuel m new mid :
  seg (m_res m) (head mid) mid None -> (length mid <= fuel)%nat ->
  wp (adopt_loop fuel new (head mid)) (fun _ m' => m' = set_m_res (adopted new mid (m_res m)) m) m.
Proof.
  revert m mid. induction fuel as [|fuel IH]; intros m [|a mid] Hs Hlen; cbn [length] in *; try lia;
    try (apply wp_ret; by destruct m).
  cbn [adopt_loop head]. destruct Hs as (_ & r & Hr & Hs).
  apply wp_bind, wp_upd_alter; [eauto|]. apply wp_bind.
  eapply wp_get_res; [cbn; by rewrite lookup_alter_eq, Hr|].
  change (rs_sibling (set_rs_parent _ r)) with (rs_sibling r). pose proof (seg_head _ _ _ Hs) as Eh. rewrite Eh in Hs |- *.
  eapply wp_mono; [apply IH; [|lia]|by intros u m' ->].
  eapply seg_frame; [|exact Hs]. intros c _. cbn. by apply fmap_alter.
Qed.

(** [c] lies within the range from [s] to [e]. *)
Definition covered h (s e : Z) (c : positive) : Prop := s <= start_of h c /\ end_of h c <= e.

Lemma insert_last_wp fuel m new nr q l0 f l2 :
  tree_ok (m_res m) -> level (m_res m) q (l0 ++ f :: l2) -> m_res m !! new = Some nr ->
  (length l2 < fuel)%nat -> start_of (m_res m) f <= rs_end nr ->
  wp (insert_last fuel new f) (fun r m' => m' = m /\
    ((exists c, r = inl c /\ c ∈ f :: l2 /\ start_of (m_res m) c <= rs_end nr /\
        ~ covered (m_res m) (rs_start nr) (rs_end nr) c) \/
     (exists x mid rest, r = inr x /\ f :: l2 = mid ++ rest /\ last mid = Some x /\
        (forall c, c ∈ mid -> covered (m_res m) (rs_start nr) (rs_end nr) c) /\
        (forall c, c ∈ rest -> rs_end nr < start_of (m_res m) c)))) m.
Proof.
  intros T. revert l0 f l2. induction fuel as [|fuel IH]; intros l0 f l2 L Hn Hlen Hf; [lia|].
  destruct (level_next _ _ _ _ _ L) as (k & Hk & Hs). cbn [insert_last]. do 2 res_step.
  rewrite <- (start_of_eq _ _ _ Hk), <- (end_of_eq _ _ _ Hk), Hs. case_bool.
  { wp_pure. split; [done|]. left. exists f. split_and!; [done | by left | done|]. intros [? ?].
    apply orb_true_iff in Heqb as [?|?]; bool_to_prop; lia. }
  assert (covered (m_res m) (rs_start nr) (rs_end nr) f) as Hcov by (bool_to_prop; done).
  destruct l2 as [|c l2]; cbn [head].
  { wp_pure. split; [done|]. right. exists f, [f], []. split_and!; try done.
    - by intros c ->%list_elem_of_singleton.
    - by intros c ?%elem_of_nil. }
  assert (level (m_res m) q ((l0 ++ [f]) ++ c :: l2)) as L' by (by rewrite <- app_assoc).
  destruct (level_next _ _ _ _ _ L') as (kc & Hkc & _). res_step. case_bool; bool_to_prop.
  { wp_pure. split; [done|]. right. exists f, [f], (c :: l2). split_and!; try done.
    - by intros d ->%list_elem_of_singleton.
    - by apply (sorted_after _ q (l0 ++ [f]) c l2 kc); [apply level_ok|..]. }
  eapply wp_mono; [apply (IH (l0 ++ [f]) c l2); [done | done | cbn in Hlen; lia | by rewrite (start_of_eq _ _ _ Hkc)]|].
  intros r m' [-> [(d & -> & Hd & Hd')|(x & mid & rest & -> & E & Hx & Hmid & Hrest)]]; split; try done.
  - left. exists d. split; [done|]. split; [by right | done].
  - right. exists x, (f :: mid), rest. split_and!; [done | by rewrite E | | | done].
    + destruct mid; [done|]. exact Hx.
    + intros d [->|Hd]%elem_of_cons; [done | by apply Hmid].
Qed.

(** ** The insertion *)

(** The nodes that the search comes to: [parent], and the children on the way that contain
    the range and more than the range. *)
Inductive below h (s e : Z) (parent : positive) : positive -> Prop :=
| below_refl : below h s e parent parent
| below_child q l c : below h s e parent q -> level h q l -> c ∈ l ->
    start_of h c <= s -> e <= end_of h c -> ~ (start_of h c = s /\ end_of h c = e) ->
    below h s e parent c.

(** [c] meets the range, but neither contains the other. *)
Definition partial h (s e : Z) (c : positive) : Prop :=
  clash h s e c /\ ~ covered h s e c /\ ~ (start_of h c <= s /\ e <= end_of h c).

(** The ends of [__insert_resource]. *)
Inductive inserted h (parent new : positive) (s e : Z) : option positive -> gmap positive resource -> Prop :=
| ins_linked q l1 l2 : below h s e parent q -> level h q (l1 ++ l2) -> fits h q (l1 ++ l2) s e ->
    tree_ok (link h q new l1 l2) -> level (link h q new l1 l2) q (l1 ++ new :: l2) ->
    inserted h parent new s e None (link h q new l1 l2)
| ins_covering q l1 mid l2 : below h s e parent q -> level h q (l1 ++ mid ++ l2) -> mid <> [] ->
    (forall c, c ∈ mid -> covered h s e c) -> (forall c, c ∈ l1 ++ l2 -> ~ clash h s e c) ->
    tree_ok (insert_over h q new l1 mid l2) ->
    level (insert_over h q new l1 mid l2) q (l1 ++ new :: l2) ->
    level (insert_over h q new l1 mid l2) new mid ->
    inserted h parent new s e None (insert_over h q new l1 mid l2)
| ins_outside : e < s \/ s < start_of h parent \/ end_of h parent < e ->
    inserted h parent new s e (Some parent) h
| ins_partial q l c : below h s e parent q -> level h q l -> c ∈ l -> partial h s e c ->
    inserted h parent new s e (Some c) h.

(** What the first loop finds when it breaks. *)
Definition breaks h (parent : positive) (s e : Z) (q f : positive) : Prop := exists l1 l2,
  below h s e parent q /\ level h q (l1 ++ f :: l2) /\ s <= e /\ start_of h q <= s /\ e <= end_of h q /\
  (forall d, d ∈ l1 -> end_of h d < s) /\ clash h s e f /\
  (start_of h f = s /\ end_of h f = e \/ ~ (start_of h f <= s /\ e <= end_of h f)).

Section InsertRun.
Context (m : memory) (new : positive) (nr : resource) (rank : positive -> nat).
Hypothesis T : tree_ok (m_res m).
Hypothesis Hn : m_res m !! new = Some nr.
Hypothesis Hp : rs_parent nr = None.
Hypothesis Hc : rs_child nr = None.
Hypothesis Hrank : forall a l c, level (m_res m) a l -> c ∈ l -> (rank c < rank a)%nat.
#[local] Abbreviation s := (rs_start nr).
#[local] Abbreviation e := (rs_end nr).

Lemma kid_not_new a l c : level (m_res m) a l -> c ∈ l -> new <> c.
Proof.
  intros L Hin ->. apply (orphan_unlinked _ _ _ _ _ (level_ok _ _ _ T L) Hn); [by rewrite Hp | done].
Qed.

Lemma insert_find_wp fuel parent q :
  below (m_res m) s e parent q -> is_Some (m_res m !! q) -> new <> q -> (rank q < fuel)%nat ->
  q = parent \/ s <= e /\ start_of (m_res m) q <= s /\ e <= end_of (m_res m) q ->
  wp (insert_find fuel q new) (fun r m' =>
    (exists c h', r = inl c /\ m' = set_m_res h' m /\ inserted (m_res m) parent new s e c h') \/
    (exists q' f, r = inr (q', f) /\ m' = m /\ breaks (m_res m) parent s e q' f)) m.
Proof.
  revert q. induction fuel as [|fuel IH]; intros q Hb Hq Hne Hr Hin; [lia|].
  destruct (to_level _ T q Hq) as (l & L & K). cbn [insert_find]. apply wp_bind.
  eapply wp_mono; [by apply (request_wp m q new nr l)|]. intros c m' (h' & -> & Hreq).
  destruct Hreq as [l1 l2 -> Hfit T' L'|Hout|l1 c l2 -> Hse Hqs Hqe H1 Hcl].
  - wp_pure. left. exists None, (link (m_res m) q new l1 l2). split_and!; try done. by apply ins_linked.
  - rewrite decide_True by done. wp_pure. left. exists (Some q), (m_res m). split_and!; [done|done|].
    destruct Hin as [->|Hin]; [by apply ins_outside | lia].
  - pose proof (Hrank q _ c L (elem_of_next _ _ _)) as Hrc. pose proof (kid_not_new q _ c L (elem_of_next _ _ _)) as Hcn.
    rewrite decide_False by (intros ->; lia). rewrite decide_False by done.
    destruct (ko_kid _ _ _ K c (elem_of_next _ _ _)) as (k & Hk & _). replace (set_m_res (m_res m) m) with m by (by destruct m).
    do 2 res_step. rewrite <- (start_of_eq _ _ _ Hk), <- (end_of_eq _ _ _ Hk). case_bool.
    { wp_pure. right. exists q, c. split_and!; try done. exists l1, l2. split_and!; try done. right.
      apply orb_true_iff in Heqb as [?|?]; bool_to_prop; lia. }
    bool_to_prop. case_bool; bool_to_prop.
    { wp_pure. right. exists q, c. split_and!; try done. exists l1, l2. split_and!; try done. by left. }
    apply IH; [eapply below_child; [done | done | apply elem_of_next | lia..] | eauto | done | lia | by right].
Qed.

(** The pointer to the first covered child is redirected to [new]. *)
Lemma insert_redirect_wp n m1 q l1 f mid (Q : option positive -> memory -> Prop) :
  level (m_res m1) q (l1 ++ f :: mid) -> NoDup (l1 ++ f :: mid) -> (length l1 <= n)%nat ->
  Q None (set_m_res (slot_set (slot_after q l1) (Some new) (m_res m1)) m1) ->
  wp (pr ← get_res q;
      (if decide (rs_child pr = Some f) then upd_res q (set_rs_child (Some new))
       else c ← deref (rs_child pr); prev ← find_prev n f c; upd_res prev (set_rs_sibling (Some new)));;
      ret None) Q m1.
Proof.
  intros L Hd Hlen HQ. pose proof L as (qr & Hq & Hs). res_step. rewrite (seg_head _ _ _ Hs).
  destruct l1 as [|c l1]; cbn [app head].
  - rewrite decide_True by done. apply wp_upd_alter; [eauto | by apply wp_ret].
  - rewrite decide_False by (intros [= ->]; apply NoDup_cons in Hd as [Hd _]; apply Hd, elem_of_next).
    apply wp_bind. eapply wp_deref; [done|]. destruct (last (c :: l1)) as [v|] eqn:Hv; [|by apply last_None in Hv].
    apply wp_bind. eapply (find_prev_wp n m1 q [] c l1 v f mid); [done | done | done | cbn in Hlen; lia |].
    pose proof (level_owner _ _ (c :: l1) (f :: mid) L) as Ho. unfold slot_after in HQ, Ho. rewrite Hv in HQ, Ho.
    apply wp_upd_alter; [done | by apply wp_ret].
Qed.

Lemma insert_over_wp n q l1 f mid x l2 (Q : option positive -> memory -> Prop) :
  level (m_res m) q (l1 ++ (f :: mid) ++ l2) -> new <> q -> last (f :: mid) = Some x ->
  (length (l1 ++ (f :: mid) ++ l2) <= n)%nat ->
  Q None (set_m_res (insert_over (m_res m) q new l1 (f :: mid) l2) m) ->
  wp (upd_res new (set_rs_parent (Some q));;
      xr ← get_res x;
      upd_res new (set_rs_sibling (rs_sibling xr));;
      upd_res new (set_rs_child (Some f));;
      upd_res x (set_rs_sibling None);;
      adopt_loop n new (Some f);;
      pr ← get_res q;
      (if decide (rs_child pr = Some f) then upd_res q (set_rs_child (Some new))
       else c ← deref (rs_child pr); prev ← find_prev n f c; upd_res prev (set_rs_sibling (Some new)));;
      ret None) Q m.
Proof.
  intros L Hne Hx Hlen HQ. rewrite !length_app in Hlen. cbn in Hlen.
  pose proof Hx as [mid' Em]%last_Some.
  assert (x ∈ l1 ++ (f :: mid) ++ l2) as Hxl by (rewrite Em, !elem_of_app; right; left; right; by left).
  pose proof (kid_not_new q _ x L Hxl) as Hxn.
  assert (exists k, m_res m !! x = Some k /\ rs_sibling k = head l2) as (k & Hk & Esk).
  { apply (level_next _ q (l1 ++ mid')). by rewrite Em, <- app_assoc in L; rewrite <- app_assoc. }
  apply wp_bind, wp_upd_alter; [eauto|]. apply wp_bind.
  eapply wp_get_res; [cbn; by rewrite lookup_alter_ne|]. rewrite Esk.
  apply wp_bind, wp_upd_alter; [cbn; apply alter_is_Some; eauto|].
  apply wp_bind, wp_upd_alter; [cbn; do 2 apply alter_is_Some; eauto|].
  apply wp_bind, wp_upd_alter; [cbn; do 3 apply alter_is_Some; eauto|]. cbn [m_res set_m_res].
  pose proof (ins_level_mid (m_res m) q new l1 (f :: mid) l2 nr T L Hn Hp Hne ltac:(done)) as Lm.
  pose proof (kids_nodup _ _ _ (level_ok _ _ _ T L)) as Hd. rewrite app_assoc in Hd.
  apply NoDup_app in Hd as (Hd & _).
  assert (forall h, alter (set_rs_sibling None) x h = slot_set (slot_after new (f :: mid)) None h) as Eslot
    by (intros h; unfold slot_after; by rewrite Hx).
  rewrite Eslot. change (Some f) with (head (f :: mid)) at 1 2. apply wp_bind. eapply wp_mono.
  { apply adopt_loop_wp; [|cbn; lia]. cbn [m_res set_m_res]. destruct Lm as (qr & _ & Hs).
    apply seg_app in Hs as (y & _ & Hs). rewrite (seg_head _ _ _ Hs) in Hs.
    eapply seg_frame; [|exact Hs]. intros c _. symmetry. by apply adopted_other. }
  intros u m' ->. cbn [m_res set_m_res head] in *.
  apply (insert_redirect_wp n _ q l1 f mid); [done | done | lia | done].
Qed.

(** The child at which the second loop stops meets the range in part. *)
Lemma last_partial q l1 f l2 c :
  level (m_res m) q (l1 ++ f :: l2) -> clash (m_res m) s e f ->
  (start_of (m_res m) f = s /\ end_of (m_res m) f = e \/
   ~ (start_of (m_res m) f <= s /\ e <= end_of (m_res m) f)) ->
  c ∈ f :: l2 -> start_of (m_res m) c <= e -> ~ covered (m_res m) s e c -> partial (m_res m) s e c.
Proof.
  intros L Hcl Hf Hin Hce Hcov. pose proof (level_ok _ _ _ T L) as K. unfold partial, clash, covered in *.
  assert (c ∈ l1 ++ f :: l2) as Hin' by (apply elem_of_app; by right).
  pose proof (kid_range _ _ _ c K Hin'). apply elem_of_cons in Hin as [->|Hin]; [lia|].
  pose proof (sorted_next _ _ _ _ _ _ K Hin). lia.
Qed.

Lemma insert_wp parent :
  is_Some (m_res m !! parent) -> new <> parent -> (rank parent <= size (m_res m))%nat ->
  wp (__insert_resource parent new)
    (fun c m' => exists h', m' = set_m_res h' m /\ inserted (m_res m) parent new s e c h') m.
Proof.
  intros Hpar Hne Hr. unfold __insert_resource, walk_bound. apply wp_bind, wp_gets, wp_bind. eapply wp_mono.
  { apply (insert_find_wp _ parent parent); [constructor | done | done | lia | by left]. }
  intros r m' [(c & h' & -> & -> & Hi)|(q & f & -> & -> & l1 & l2 & Hb & L & Hse & Hqs & Hqe & H1 & Hcl & Hf)].
  { apply wp_ret. eauto. }
  pose proof (level_ok _ _ _ T L) as K. pose proof (kids_length _ _ _ K) as Hlen.
  assert (new <> q) as Hnq.
  { intros ->. destruct L as (x & Hx & Hs). rewrite Hn in Hx. apply (inj Some) in Hx as <-.
    rewrite Hc in Hs. destruct l1; by destruct Hs. }
  apply wp_bind. eapply wp_mono.
  { apply (insert_last_wp _ m new nr q l1 f l2); try done; [|apply Hcl]. rewrite length_app in Hlen. cbn in Hlen. lia. }
  intros r m' [-> [(c & -> & Hin & Hce & Hcov)|(x & mid & rest & -> & E & Hx & Hmid & Hrest)]].
  { apply wp_ret. exists (m_res m). split; [by destruct m|]. eapply ins_partial; [done | done | |by eapply last_partial].
    apply elem_of_app. by right. }
  destruct mid as [|f' mid]; [done|]. injection E as <- E. subst l2.
  change (f :: mid ++ rest) with ((f :: mid) ++ rest) in L, Hlen.
  apply (insert_over_wp _ q l1 f mid x rest); try done; [lia|]. eexists. split; [done|].
  apply ins_covering; try done.
  - intros c [Hc1|Hc2]%elem_of_app [? ?]; [specialize (H1 c Hc1) | specialize (Hrest c Hc2)]; lia.
  - by apply (ins_tree _ _ _ _ _ _ nr).
  - by eapply ins_level_q.
  - by eapply ins_level_new.
Qed.
End InsertRun.

(** C8: inserting into a tree that is in order puts the resource below the deepest node on
    the way that contains its range and more (or below the parent itself) and makes the
    siblings it covers, one of the very same range included, its children, and the tree stays
    in order; a range that is empty or lies outside the parent, or that a resource on the way
    meets in part, is answered with -EBUSY and changes nothing. *)
Theorem insert_resource_correct m parent new nr rank :
  tree_ok (m_res m) -> is_Some (m_res m !! parent) -> loose m parent new nr -> rs_child nr = None ->
  (forall a l c, level (m_res m) a l -> c ∈ l -> (rank c < rank a)%nat) ->
  (rank parent <= size (m_res m))%nat ->
  wp (insert_resource parent new) (fun r m' => exists c h',
    m' = set_m_res h' m /\ tree_ok h' /\ r = match c with Some _ => - EBUSY | None => 0 end /\
    inserted (m_res m) parent new (rs_start nr) (rs_end nr) c h') m.
Proof.
  intros T Hpar (Hn & Hp & Hne) Hc Hrank Hr. unfold insert_resource, insert_resource_conflict. apply wp_bind.
  eapply wp_mono; [by apply (insert_wp m new nr rank)|]. intros c m' (h' & -> & Hi).
  assert (tree_ok h') as T' by (by destruct Hi). destruct c as [c|]; apply wp_ret; [exists (Some c), h' | exists None, h']; done.
Qed.
