(* ===== verification/ResourceRegion.v ===== *)
(** * Busy regions

    [__request_region] and [__release_region] of kernel/resource.c: the round trip of a region
    that is requested and released, and the behaviour of the corner cases: a task that slept
    on a muxed region, a reservation that starts below its root, a range of no size, and system
    RAM of less than a page. *)

From Stdlib Require Import Sorted.
From stdpp Require Import sorting.
From S2P Require Import Prelude Resource ResourceTree ResourceAlloc.

Implicit Types h : gmap positive resource.

(** ** A new object *)

Section New.
Context (h : gmap positive resource) (a : positive) (r : resource).
Hypothesis Ha : h !! a = None.

Lemma new_lookup b : is_Some (h !! b) -> <[a := r]> h !! b = h !! b.
Proof. intros [x Hb]. apply lookup_insert_ne. intros ->. congruence. Qed.

Lemma seg_new p l q : seg h p l q -> seg (<[a := r]> h) p l q.
Proof.
  intros Hs. eapply seg_frame; [|done]. intros c Hc. revert p Hs. induction l as [|x l IH]; [by apply elem_of_nil in Hc|].
  intros p (-> & y & Hx & Hs). apply elem_of_cons in Hc as [->|Hc]; [|by eapply IH].
  rewrite new_lookup; eauto.
Qed.

Lemma level_new b l : level h b l -> level (<[a := r]> h) b l.
Proof. intros (x & Hb & Hs). exists x. rewrite new_lookup by eauto. split; [done | by apply seg_new]. Qed.

Lemma tree_new : tree_ok h -> rs_parent r = None -> rs_child r = None ->
  uint 32 (rs_start r) -> uint 32 (rs_end r) -> tree_ok (<[a := r]> h).
Proof.
  intros T Hp Hc Hs He. split.
  - intros b Hb. destruct (decide (b = a)) as [->|Hba].
    + exists []. split; [exists r; by rewrite lookup_insert_eq|].
      split; [by intros ? ?%elem_of_nil | constructor].
    + rewrite lookup_insert_ne in Hb by done. destruct (to_level _ T b Hb) as (l & L & K). exists l.
      split; [by apply level_new|].
      assert (forall c, c ∈ b :: l -> <[a := r]> h !! c = h !! c) as E.
      { intros c Hcl. apply new_lookup. apply elem_of_cons in Hcl as [->|Hcl]; [done|].
        destruct (ko_kid _ _ _ K c Hcl) as (k & -> & _). eauto. }
      eapply kids_frame; [| |done]; intros c Hcl; [by rewrite E | rewrite E; [done | by right]].
  - intros c k p Ek Ep. destruct (decide (c = a)) as [->|Hca].
    + rewrite lookup_insert_eq in Ek. apply (inj Some) in Ek as <-. congruence.
    + rewrite lookup_insert_ne in Ek by done. destruct (to_linked _ T c k p Ek Ep) as (l & L & Hin).
      exists l. split; [by apply level_new | done].
  - intros b k. destruct (decide (b = a)) as [->|Hba].
    + rewrite lookup_insert_eq. by intros <-%(inj Some).
    + rewrite lookup_insert_ne by done. apply (to_range _ T).
Qed.
End New.

Lemma kzalloc_wp m r Q :
  head (m_oom m) <> Some true ->
  (forall a, m_res m !! a = None -> Q (Some a) (mkMemory (<[a := r]> (m_res m)) (tail (m_oom m)))) ->
  wp (kzalloc r) Q m.
Proof.
  intros Ho HQ. unfold kzalloc. wp_pure. cbn [m_oom set_m_oom m_res].
  destruct (head (m_oom m)) as [[]|]; [done|..]; wp_pure; apply HQ, not_elem_of_dom, is_fresh.
Qed.

(** ** A region that is requested and released *)

Lemma release_region_wp fuel m root res k s e l0 l1 l2 :
  tree_ok (m_res m) -> level (m_res m) root (l0 ++ l1 ++ res :: l2) -> (length l1 < fuel)%nat ->
  (forall c, c ∈ l1 -> end_of (m_res m) c < s) -> s <= e ->
  m_res m !! res = Some k -> range k = (s, e) -> Z.land (rs_flags k) IORESOURCE_BUSY <> 0 ->
  wp (release_region_loop fuel s e (slot_after root l0)) (fun _ m' =>
    m' = set_m_res (delete res (slot_set (slot_after root (l0 ++ l1)) (head l2) (m_res m))) m) m.
Proof.
  intros T. revert l0 l1. induction fuel as [|fuel IH]; intros l0 l1 L Hlen H1 Hse Hk Hrk Hbusy; [lia|].
  cbn [release_region_loop]. apply wp_bind, wp_read_slot; [by eapply level_owner|].
  rewrite (level_slot _ _ _ _ L). pose proof Hrk as [= Es Ee]. destruct l1 as [|c l1]; cbn [app head].
  - res_step. rewrite Es, Ee, !Z.leb_refl, !Z.eqb_refl. cbn [andb negb orb].
    rewrite (proj2 (Z.eqb_neq _ _) Hbusy). rewrite app_nil_r.
    destruct (level_next _ _ _ _ _ L) as (k' & Hk' & Hs). rewrite Hk in Hk'. apply (inj Some) in Hk' as <-.
    rewrite Hs. apply wp_bind, wp_write_slot; [by eapply level_owner|]. unfold kfree. by apply wp_modify.
  - destruct (level_next _ _ _ _ _ L) as (x & Hx & _). res_step.
    pose proof (H1 c ltac:(left)) as Hc. rewrite (end_of_eq _ _ _ Hx) in Hc.
    rewrite (proj2 (Z.leb_gt e (rs_end x))) by lia. rewrite andb_false_r.
    rewrite <- (slot_after_snoc root l0 c).
    replace (l0 ++ c :: l1) with ((l0 ++ [c]) ++ l1) by (by rewrite <- app_assoc).
    apply IH; try done; [by rewrite <- app_assoc | cbn in Hlen; lia |].
    intros d Hd. apply H1. by right.
Qed.

Lemma link_flags h root new l1 l2 a :
  (fun r => rs_flags r) <$> link h root new l1 l2 !! a = (fun r => rs_flags r) <$> h !! a.
Proof.
  unfold link. rewrite fmap_alter by done. destruct (slot_after root l1); cbn [slot_set];
    by rewrite !fmap_alter.
Qed.

(** Taking a new object out of its level again and freeing it. *)
Lemma delete_link h root a r l1 l2 :
  tree_ok (<[a := r]> h) -> level h root (l1 ++ l2) -> h !! a = None -> rs_parent r = None ->
  delete a (slot_set (slot_after root l1) (head l2) (link (<[a := r]> h) root a l1 l2)) = h.
Proof.
  intros T L Ha Hp. pose proof (level_new h a r Ha _ _ L) as L'.
  assert (a <> root) as Hne by (intros ->; destruct L as (x & Hx & _); congruence).
  pose proof (unlink_link _ root a l1 l2 r T L' (lookup_insert_eq _ _ _) Hp Hne) as E.
  assert (delete a (slot_set (slot_after root l1) (head l2) (link (<[a := r]> h) root a l1 l2)) =
          delete a (unlink (link (<[a := r]> h) root a l1 l2) root a l1 l2)) as ->.
  { unfold unlink. apply map_eq. intros b. destruct (decide (a = b)) as [<-|].
    - by rewrite !lookup_delete_eq.
    - by rewrite !lookup_delete_ne, lookup_alter_ne. }
  rewrite E, (alter_is_insert _ _ r), insert_insert_eq by apply lookup_insert_eq.
  rewrite delete_insert_eq. by apply delete_id.
Qed.

Lemma land_lor_busy f : Z.land (Z.lor IORESOURCE_BUSY f) IORESOURCE_BUSY <> 0.
Proof.
  intros H. assert (Z.testbit (Z.land (Z.lor IORESOURCE_BUSY f) IORESOURCE_BUSY) 31 = true) as E.
  { by rewrite Z.land_spec, Z.lor_spec. }
  rewrite H in E. done.
Qed.

Lemma fits_new h a r root l s e : tree_ok h -> level h root l -> h !! a = None ->
  fits h root l s e -> fits (<[a := r]> h) root l s e.
Proof.
  intros T L Ha (? & ? & ? & Hc). pose proof (new_lookup h a r Ha) as E.
  unfold fits, clash, start_of, end_of in *. rewrite (E root) by (destruct L as (x & Hx & _); eauto).
  split_and!; try done. intros c Hin. rewrite E; [by apply Hc|].
  destruct (ko_kid _ _ _ (level_ok _ _ _ T L) c Hin) as (k & -> & _). eauto.
Qed.

(** The object that [__request_region] fills in. *)
Definition region (start n : Z) (name : option string) (flags : Z) : resource :=
  mkResource start (u32 (start + n - 1)) name (Z.lor IORESOURCE_BUSY flags) None None None.

Lemma request_region_wp m root l start n name flags :
  tree_ok (m_res m) -> level (m_res m) root l -> head (m_oom m) <> Some true ->
  0 <= start -> 1 <= n -> start + n <= 2 ^ 32 ->
  fits (m_res m) root l start (start + n - 1) ->
  wp (__request_region root start n name flags) (fun r m' => exists a l1 l2,
    r = Region (Some a) /\ l = l1 ++ l2 /\ m_res m !! a = None /\
    m' = mkMemory (link (<[a := region start n name flags]> (m_res m)) root a l1 l2) (tail (m_oom m)) /\
    tree_ok (<[a := region start n name flags]> (m_res m)) /\
    tree_ok (m_res m') /\ level (m_res m') root (l1 ++ a :: l2)) m.
Proof.
  intros T L Ho H0 Hn He Hfit. unfold __request_region. fold (region start n name flags).
  apply wp_bind, kzalloc_wp; [done|]. intros a Ha. cbv beta iota.
  set (r := region start n name flags).
  assert (rs_start r = start) as Es by done.
  assert (rs_end r = start + n - 1) as Ee by (apply wrapu_small; split; lia).
  set (m1 := mkMemory (<[a := r]> (m_res m)) (tail (m_oom m))).
  assert (tree_ok (m_res m1)) as T1 by (apply tree_new; try done; rewrite ?Es, ?Ee; split; lia).
  assert (level (m_res m1) root l) as L1 by (by apply level_new).
  assert (a <> root) as Hne by (intros ->; destruct L as (x & Hx & _); congruence).
  pose proof (fits_new _ a r _ _ _ _ T L Ha Hfit) as Hfit1.
  apply wp_bind. unfold walk_bound. apply wp_gets. cbn [region_loop]. apply wp_bind. eapply wp_mono.
  { apply (request_wp m1 root a r l); [done..|]. split; [apply lookup_insert_eq | done]. }
  intros c m2 (h2 & -> & Hq). rewrite Es, Ee in Hq. apply (requested_none _ _ _ _ _ _ _ _ Hq) in Hfit1 as ->.
  inversion Hq as [l1 l2 -> _ T2 L2 E1 E2| |]; subst h2. wp_pure. by exists a, l1, l2.
Qed.

(** The region as it stands in the tree. *)
Lemma region_linked h root a l1 l2 start n name flags :
  0 <= start -> 1 <= n -> start + n <= 2 ^ 32 ->
  exists k, link (<[a := region start n name flags]> h) root a l1 l2 !! a = Some k /\
    range k = (start, start + n - 1) /\ rs_flags k = Z.lor IORESOURCE_BUSY flags.
Proof.
  intros H0 Hn He. set (r := region start n name flags).
  pose proof (link_range (<[a := r]> h) root a l1 l2 a) as Hr.
  pose proof (link_flags (<[a := r]> h) root a l1 l2 a) as Hfl.
  rewrite lookup_insert_eq in Hr, Hfl. destruct (link _ root a l1 l2 !! a) as [k|]; [|done].
  exists k. split; [done|]. apply (inj Some) in Hfl, Hr. split; [|done].
  rewrite Hr. unfold range, r. cbn. by rewrite (wrapu_small 32) by (split; lia).
Qed.

(** Releasing a region that is a child of [root]. *)
Lemma release_child_region m root a k l1 l2 start n :
  tree_ok (m_res m) -> level (m_res m) root (l1 ++ a :: l2) ->
  0 <= start -> 1 <= n -> start + n <= 2 ^ 32 ->
  m_res m !! a = Some k -> range k = (start, start + n - 1) -> Z.land (rs_flags k) IORESOURCE_BUSY <> 0 ->
  wp (__release_region root start n) (fun _ m' =>
    m' = set_m_res (delete a (slot_set (slot_after root l1) (head l2) (m_res m))) m) m.
Proof.
  intros T L H0 Hn He Hk Hrk Hbusy. unfold __release_region, walk_bound. wp_pure.
  rewrite (wrapu_small 32 (start + n - 1)) by (split; lia). pose proof (level_ok _ _ _ T L) as K.
  pose proof (kids_length _ _ _ K) as Hlen. rewrite length_app in Hlen.
  apply (release_region_wp _ m root a k _ _ [] l1 l2); try done; [lia | | lia].
  intros c Hc. pose proof (sorted_before _ _ _ _ _ _ K Hc) as Hb. injection Hrk as Es _.
  by rewrite (start_of_eq _ _ _ Hk), Es in Hb.
Qed.

(** Releasing a region that [__request_region] has linked gives the old tree back. *)
Lemma release_requested m oom root a l1 l2 start n name flags :
  let r := region start n name flags in
  level (m_res m) root (l1 ++ l2) -> m_res m !! a = None -> tree_ok (<[a := r]> (m_res m)) ->
  tree_ok (link (<[a := r]> (m_res m)) root a l1 l2) ->
  level (link (<[a := r]> (m_res m)) root a l1 l2) root (l1 ++ a :: l2) ->
  0 <= start -> 1 <= n -> start + n <= 2 ^ 32 ->
  wp (__release_region root start n) (fun _ m' => m' = mkMemory (m_res m) oom)
    (mkMemory (link (<[a := r]> (m_res m)) root a l1 l2) oom).
Proof.
  intros r L Ha T1 T2 L2 H0 Hn He.
  destruct (region_linked (m_res m) root a l1 l2 start n name flags) as (k & Hk & Hrk & Hfl); [done..|].
  eapply wp_mono; [apply (release_child_region _ root a k l1 l2 start n); try done|].
  - rewrite Hfl. apply land_lor_busy.
  - intros _ m' ->. unfold set_m_res. cbn. by rewrite delete_link.
Qed.

(** A new object was taken and freed: the memory has its old contents. *)
Definition given_back (m : memory) (a : positive) (m' : memory) : Prop :=
  m_res m !! a = None /\ m' = mkMemory (m_res m) (tail (m_oom m)).

(** C36: a region that is free in its parent can be requested, and releasing it gives every
    object of the tree its old contents back; the region itself is freed. *)
Theorem region_roundtrip m root l start n name flags :
  tree_ok (m_res m) -> level (m_res m) root l -> head (m_oom m) <> Some true ->
  0 <= start -> 1 <= n -> start + n <= 2 ^ 32 ->
  fits (m_res m) root l start (start + n - 1) ->
  wp (r ← __request_region root start n name flags; __release_region root start n;; ret r)
    (fun r m' => exists a, r = Region (Some a) /\ given_back m a m') m.
Proof.
  intros T L Ho H0 Hn He Hfit. apply wp_bind. eapply wp_mono; [by apply (request_region_wp m root l)|].
  intros r m' (a & l1 & l2 & -> & -> & Ha & -> & T1 & T2 & L2).
  apply wp_bind. eapply wp_mono; [by apply release_requested|].
  intros _ m' ->. wp_pure. by exists a.
Qed.

(** ** A reservation that starts below its root *)

Lemma kzalloc_run m r : m_oom m = [] -> exists a, m_res m !! a = None /\
  kzalloc r m = Done (Some a) (set_m_res (<[a := r]> (m_res m)) m).
Proof.
  destruct m as [h o]. cbn. intros ->. exists (fresh (dom h : gset positive)).
  split; [apply not_elem_of_dom, is_fresh | done].
Qed.

(** [__reserve_region_with_split] asked for a range that starts below its root never
    returns: it calls itself with the same start again and again, whatever the bound on the
    recursion. *)
Theorem reserve_split_diverges fuel m root rr start end_ name :
  m_oom m = [] -> m_res m !! root = Some rr -> start < rs_start rr ->
  __reserve_region_with_split fuel root start end_ name m = Fault NoFuel.
Proof.
  intros Ho Hr Hs. revert end_. induction fuel as [|fuel IH]; intros end_; [done|].
  cbn [__reserve_region_with_split].
  destruct (kzalloc_run m (mkResource start end_ name IORESOURCE_BUSY None None None) Ho) as (a & Ha & E).
  rewrite (bind_Done _ _ _ _ _ E). set (m1 := set_m_res _ m). cbv beta iota.
  assert (a <> root) as Hne by congruence.
  assert (__request_resource root a m1 = Done (Some root) m1) as E1.
  { destruct (wp_run (__request_resource root a) (fun c m' => c = Some root /\ m' = m1) m1)
      as (c & m' & -> & -> & ->); [|done].
    unfold __request_resource. apply wp_bind. eapply wp_get_res; [apply lookup_insert_eq|].
    case_bool; [by apply wp_ret|]. apply wp_bind.
    eapply wp_get_res; [unfold m1; cbn; by rewrite lookup_insert_ne|].
    change (rs_start (mkResource start _ _ _ _ _ _)) with start.
    rewrite (proj2 (Z.ltb_lt _ _) Hs). by apply wp_ret. }
  rewrite (bind_Done _ _ _ _ _ E1).
  assert (kfree a m1 = Done tt m) as E2.
  { unfold kfree, modify, m1. unfold set_m_res. cbn. rewrite delete_insert_eq, delete_id by done. by destruct m. }
  rewrite (bind_Done _ _ _ _ _ E2).
  assert (get_res root m = Done rr m) as E3 by (unfold get_res, bind, gets; by rewrite Hr).
  rewrite (bind_Done _ _ _ _ _ E3). rewrite (proj2 (Z.leb_gt _ _) Hs). cbn [andb].
  rewrite (proj2 (Z.ltb_lt _ _) Hs). apply bind_Fault. apply IH.
Qed.

(** ** Waking up from a muxed region *)

(** A clash with a child of the same range is a clash with that child alone. *)
Lemma clash_unique h root l1 a l2 s e c : kids_ok h root (l1 ++ a :: l2) ->
  start_of h a = s -> end_of h a = e -> c ∈ l1 ++ a :: l2 -> clash h s e c -> c = a.
Proof.
  intros K Es Ee [Hin|[->|Hin]%elem_of_cons]%elem_of_app [Hc1 Hc2]; [|done|]; exfalso.
  - pose proof (sorted_before _ _ _ _ _ _ K Hin). lia.
  - pose proof (sorted_next _ _ _ _ _ _ K Hin). lia.
Qed.

(** A second request for the range of a muxed region sleeps on that region. *)
Lemma request_sleeps m root a k l1 l2 start n name flags :
  tree_ok (m_res m) -> level (m_res m) root (l1 ++ a :: l2) -> head (m_oom m) <> Some true ->
  0 <= start -> 1 <= n -> start + n <= 2 ^ 32 -> m_res m !! a = Some k -> range k = (start, start + n - 1) ->
  Z.land (rs_flags k) IORESOURCE_BUSY <> 0 -> Z.land (Z.land (rs_flags k) flags) IORESOURCE_MUXED <> 0 ->
  wp (__request_region root start n name flags) (fun r m' => exists b, r = Sleep a b /\
    m_res m !! b = None /\
    m' = mkMemory (<[b := region start n name flags]> (m_res m)) (tail (m_oom m))) m.
Proof.
  intros T L Ho H0 Hn He Hk [= Es1 Ee1] Hbusy Hmux. unfold __request_region. fold (region start n name flags).
  apply wp_bind, kzalloc_wp; [done|]. intros b Hb. cbv beta iota. set (r := region start n name flags).
  assert (rs_end r = start + n - 1) as Ee by (apply wrapu_small; split; lia).
  set (m1 := mkMemory (<[b := r]> (m_res m)) (tail (m_oom m))).
  assert (tree_ok (m_res m1)) as T1
    by (apply tree_new; try done; [split; [exact H0 | cbn; lia] | rewrite Ee; split; lia]).
  assert (level (m_res m1) root (l1 ++ a :: l2)) as L1 by (by apply level_new).
  pose proof (level_ok _ _ _ T1 L1) as K1.
  assert (m_res m1 !! a = Some k) as Hk1 by (unfold m1; cbn; rewrite new_lookup; eauto).
  pose proof (start_of_eq _ _ _ Hk1) as Ea1. pose proof (end_of_eq _ _ _ Hk1) as Ea2.
  pose proof (kid_range _ _ _ a K1 (elem_of_next _ _ _)) as Hin.
  apply wp_bind. unfold walk_bound. apply wp_gets. cbn [region_loop]. apply wp_bind. eapply wp_mono.
  { apply (request_wp m1 root b r _ T1 L1). split; [apply lookup_insert_eq|]. split; [done|].
    intros ->. destruct L as (x & Hx & _). congruence. }
  intros c m2 (h2 & -> & Hq). change (rs_start r) with start in Hq. rewrite Ee in Hq.
  assert (c = Some a /\ h2 = m_res m1) as [-> ->].
  { destruct Hq as [x1 x2 _ (_ & _ & _ & Hf) _ _|Ho'|x1 c x2 Ex _ _ _ Hx1 Hc].
    - exfalso. apply (Hf a (elem_of_next _ _ _)). unfold clash. lia.
    - lia.
    - split; [|done]. f_equal. apply (clash_unique _ _ _ _ _ start (start + n - 1) c K1); [lia..| |done].
      rewrite Ex. apply elem_of_next. }
  cbv iota. res_step. rewrite (proj2 (Z.eqb_neq _ _) Hbusy), andb_false_r, (proj2 (Z.eqb_neq _ _) Hmux).
  cbn [negb]. wp_pure. by exists b.
Qed.

(** Searching a parent that has been freed. *)
Lemma resume_on_freed m a b se :
  m_res m !! a = None -> se.1 <= se.2 -> range <$> m_res m !! b = Some se ->
  __request_resource a b m = Fault NullDeref.
Proof.
  intros Ha Hse (r & Hb & ->)%fmap_Some. unfold __request_resource.
  rewrite (bind_Done _ _ r m m) by (unfold get_res, bind, gets; by rewrite Hb).
  cbn in Hse. rewrite (proj2 (Z.ltb_ge _ _) Hse). apply bind_Fault. unfold get_res, bind, gets. by rewrite Ha.
Qed.

(** Two tasks ask for the same free range as a muxed region.  The first gets it, the
    second sleeps; when the first has released the region, the second goes on with the freed
    region as the parent to search, and dereferences it. *)
Theorem muxed_region_use_after_free m root l start n name1 name2 flags :
  tree_ok (m_res m) -> level (m_res m) root l -> m_oom m = [] ->
  0 <= start -> 1 <= n -> start + n <= 2 ^ 32 ->
  fits (m_res m) root l start (start + n - 1) -> Z.land flags IORESOURCE_MUXED <> 0 ->
  exists a b m1 m2 m3,
    __request_region root start n name1 flags m = Done (Region (Some a)) m1 /\
    __request_region root start n name2 flags m1 = Done (Sleep a b) m2 /\
    __release_region root start n m2 = Done tt m3 /\
    forall fuel, region_loop (S fuel) a b flags m3 = Fault NullDeref.
Proof.
  intros T L Ho H0 Hn He Hfit Hmux.
  destruct (wp_run _ _ _ (request_region_wp m root l start n name1 flags T L ltac:(by rewrite Ho) H0 Hn He Hfit))
    as (r1 & m1 & E1 & a & l1 & l2 & -> & -> & Ha & Em1 & _ & T1 & L1).
  destruct (region_linked (m_res m) root a l1 l2 start n name1 flags) as (k & Hk & Hrk & Hfl); [done..|].
  assert (m_res m1 !! a = Some k) as Hk1 by (by rewrite Em1).
  assert (Z.land (rs_flags k) IORESOURCE_BUSY <> 0) as Hbusy by (rewrite Hfl; apply land_lor_busy).
  assert (Z.land (Z.land (rs_flags k) flags) IORESOURCE_MUXED <> 0) as Hmux1.
  { rewrite Hfl. intros E. apply Hmux. apply Z.bits_inj'. intros i Hi. rewrite Z.bits_0.
    assert (Z.testbit (Z.land (Z.land (Z.lor IORESOURCE_BUSY flags) flags) IORESOURCE_MUXED) i = false) as Ei
      by (rewrite E; apply Z.bits_0).
    rewrite !Z.land_spec, Z.lor_spec in *. by destruct (Z.testbit flags i), (Z.testbit IORESOURCE_BUSY i). }
  assert (m_oom m1 = []) as Ho1 by (rewrite Em1; cbn; by rewrite Ho).
  destruct (wp_run _ _ _ (request_sleeps m1 root a k l1 l2 start n name2 flags T1 L1 ltac:(by rewrite Ho1)
    H0 Hn He Hk1 Hrk Hbusy Hmux1)) as (r2 & m2 & E2 & b & -> & Hb & Em2).
  assert (tree_ok (m_res m2)) as T2.
  { rewrite Em2. apply tree_new; try done; cbn; [split; lia|]. rewrite (wrapu_small 32); split; lia. }
  assert (level (m_res m2) root (l1 ++ a :: l2)) as L2 by (rewrite Em2; by apply level_new).
  assert (m_res m2 !! a = Some k) as Hk2 by (rewrite Em2; cbn; rewrite new_lookup; eauto).
  destruct (wp_run _ _ _ (release_child_region m2 root a k l1 l2 start n T2 L2 H0 Hn He Hk2 Hrk Hbusy))
    as (u & m3 & E3 & Em3). destruct u. exists a, b, m1, m2, m3. split_and!; try done.
  intros fuel. apply bind_Fault. apply (resume_on_freed m3 a b (start, start + n - 1)); [|cbn; lia|].
  - rewrite Em3. apply lookup_delete_eq.
  - rewrite Em3. cbn [m_res set_m_res]. rewrite lookup_delete_ne by congruence.
    rewrite slot_set_range, Em2. cbn [m_res]. rewrite lookup_insert_eq. unfold range. cbn.
    by rewrite (wrapu_small 32) by (split; lia).
Qed.
