(* ===== verification/ResourceExamples.v ===== *)
(** * The resource tree at work

    A small tree of I/O memory on which the theorems of ResourceTree.v, ResourceAlloc.v and
    ResourceRegion.v are applied, and the inputs on which [adjust_resource] and
    [walk_system_ram_range] of kernel/resource.c go wrong. *)

From S2P Require Import Prelude Resource ResourceTree ResourceAlloc ResourceRegion.
From S2P Require Import ResourceInsert.

(** The root with two devices, and a resource at address 4 that is not in the tree. *)
Definition sample : memory := mkMemory
  (list_to_map [
     (1%positive, set_rs_child (Some 2%positive) iomem_resource_init);
     (2%positive, mkResource 0x1000 0x1fff (Some "uart") IORESOURCE_MEM (Some 1%positive) (Some 3%positive) None);
     (3%positive, mkResource 0x8000 0x8fff (Some "spi") IORESOURCE_MEM (Some 1%positive) None None);
     (4%positive, mkResource 0x4000 0x47ff (Some "nand") IORESOURCE_MEM None None None)]) [].

Definition nand : resource := mkResource 0x4000 0x47ff (Some "nand") IORESOURCE_MEM None None None.
Definition uart : resource :=
  mkResource 0x1000 0x1fff (Some "uart") IORESOURCE_MEM (Some 1%positive) (Some 3%positive) None.

Lemma sample_tree : tree_ok (m_res sample).
Proof. by apply res_tree_check_sound. Qed.

Lemma sample_level : level (m_res sample) 1 [2%positive; 3%positive].
Proof. by apply kids_of_sound. Qed.

Lemma sample_loose : loose sample 1 4 nand.
Proof. done. Qed.

Lemma sample_fits s e : 0x2000 <= s -> s <= e -> e < 0x8000 ->
  fits (m_res sample) 1 [2%positive; 3%positive] s e.
Proof.
  intros. apply (fits_around (m_res sample) 1 [2%positive] [3%positive]); try done.
  - change (start_of _ _) with 0. lia.
  - change (end_of _ _) with 0xffffffff. lia.
  - intros c ->%list_elem_of_singleton. change (end_of _ _) with 0x1fff. lia.
  - intros c ->%list_elem_of_singleton. change (start_of _ _) with 0x8000. lia.
Qed.

Lemma request_resource_correct_witness :
  exists m', request_resource 1 4 sample = Done 0 m' /\ tree_ok (m_res m') /\
    level (m_res m') 1 [2%positive; 4%positive; 3%positive].
Proof.
  destruct (wp_run _ _ _ (request_resource_correct sample 1 4 nand _ sample_tree sample_level sample_loose))
    as (r & m' & E & [(_ & -> & T & _)|(H & _)]).
  - exists m'. split; [done|]. split; [done|]. apply kids_of_sound.
    assert (m' = match request_resource 1 4 sample with Done _ m => m | Fault _ => sample end) as -> by (by rewrite E).
    by vm_compute.
  - destruct H. by apply sample_fits.
Defined.

Lemma request_release_roundtrip_witness :
  exists s m', (r1 ← request_resource 1 4; r2 ← release_resource 4; ret (r1, r2)) sample = Done (0, 0) m' /\
    m_res m' = <[4%positive := set_rs_sibling s nand]> (m_res sample).
Proof.
  destruct (wp_run _ _ _ (request_release_roundtrip sample 1 4 nand _ sample_tree sample_level sample_loose
    ltac:(by apply sample_fits))) as (r & m' & E & -> & s & ->).
  by exists s, (set_m_res (<[4%positive := set_rs_sibling s nand]> (m_res sample)) sample).
Defined.

Lemma allocate_resource_safe_witness :
  exists m', allocate_resource 1 4 0x800 0 0xffffffff 0x1000 (Some (fun av _ _ => u32 (rs_start av + 0x100))) sample
    = Done 0 m' /\ tree_ok (m_res m').
Proof.
  destruct (wp_run _ _ _ (allocate_resource_safe sample 1 4 nand _ 0x800 0 0xffffffff 0x1000
    (fun av _ _ => u32 (rs_start av + 0x100)) sample_tree sample_level sample_loose eq_refl
    ltac:(lia) ltac:(lia) ltac:(lia) ltac:(intros; apply wrapu_range; lia))) as (r & m' & E & T & H).
  exists m'. split; [|done]. destruct H as [[-> _]|[-> _]]; [done|]. exfalso. by vm_compute in E.
Defined.

(** The first 0x3000 aligned bytes are those after the first device. *)
Lemma allocate_resource_lowest_witness :
  exists m', allocate_resource 1 4 0x3000 0x1000 0xffffffff (2 ^ 12) None sample = Done 0 m' /\
    linked_at sample 1 4 nand [2%positive; 3%positive] 0x2000 0x4fff m'.
Proof.
  destruct (wp_run _ _ _ (allocate_resource_lowest sample 1 4 nand _ 0x3000 0x1000 0xffffffff 12
    sample_tree sample_level sample_loose eq_refl ltac:(lia) ltac:(lia) ltac:(lia) ltac:(lia)))
    as (r & m' & E & [(-> & s & (Ha & Hmin & Hmax & Hf) & Hlow & Hl)|(-> & H)]).
  - exists m'. split; [done|].
    assert (s <= 0x2000) as Hle.
    { apply Hlow. split; [done|]. split; [lia|]. split; [lia|]. apply sample_fits; lia. }
    destruct Hf as (_ & _ & _ & Hc). specialize (Hc 2%positive ltac:(left)).
    unfold clash in Hc. change (start_of _ _) with 0x1000 in Hc. change (end_of _ _) with 0x1fff in Hc.
    assert (s = 0x2000) as -> by lia. done.
  - exfalso. apply (H 0x2000). split; [done|]. split; [lia|]. split; [lia|]. apply sample_fits; lia.
Defined.


(** The resource of [sample] with a range that covers both devices. *)
Definition bus : resource := mkResource 0x800 0x9fff (Some "nand") IORESOURCE_MEM None None None.
Definition sample_bus : memory := set_m_res (<[4%positive := bus]> (m_res sample)) sample.

Definition bus_rank (a : positive) : nat := if decide (a = 1%positive) then 1 else 0.

Lemma sample_bus_level a l : level (m_res sample_bus) a l ->
  a = 1%positive /\ l = [2%positive; 3%positive] \/ l = [].
Proof.
  intros L. destruct (decide (a = 1%positive)) as [->|Ha].
  - left. split; [done|]. apply (level_det _ _ _ _ L). by apply kids_of_sound.
  - right. destruct L as (r & Hr & Hs).
    assert (forallb (fun ar => bool_decide (ar.1 = 1%positive) || bool_decide (rs_child ar.2 = None))
      (map_to_list (m_res sample_bus)) = true) as Hall by (by vm_compute).
    rewrite forallb_forall in Hall. apply elem_of_map_to_list, list_elem_of_In in Hr.
    specialize (Hall _ Hr). cbn in Hall. rewrite bool_decide_false in Hall by done.
    apply bool_decide_eq_true_1 in Hall. rewrite Hall in Hs. destruct l; [done | by destruct Hs].
Qed.

Lemma insert_resource_correct_witness :
  exists m', insert_resource 1 4 sample_bus = Done 0 m' /\ tree_ok (m_res m') /\
    level (m_res m') 1 [4%positive] /\ level (m_res m') 4 [2%positive; 3%positive].
Proof.
  destruct (wp_run _ _ _ (insert_resource_correct sample_bus 1 4 bus bus_rank
    ltac:(by apply res_tree_check_sound) ltac:(by eexists) ltac:(done) eq_refl
    ltac:(intros a l c [[-> ->]| ->]%sample_bus_level Hin;
          [rewrite !elem_of_cons, elem_of_nil in Hin; destruct Hin as [->|[->|[]]]; by apply Nat.ltb_lt
          | by apply elem_of_nil in Hin])
    ltac:(vm_compute; lia))) as (r & m' & E & c & h' & -> & T & -> & _).
  assert (Done (match c with Some _ => - EBUSY | None => 0 end) (set_m_res h' sample_bus) =
    match insert_resource 1 4 sample_bus with Done r m => Done r m | Fault f => Fault f end) as E' by (by rewrite E).
  rewrite E. destruct c; [by vm_compute in E'|]. eexists. split; [done|]. split; [done|].
  assert (set_m_res h' sample_bus = match insert_resource 1 4 sample_bus with Done _ m => m | Fault _ => sample end)
    as -> by (by rewrite E). split; by apply kids_of_sound; vm_compute.
Defined.

Lemma region_roundtrip_witness :
  exists a m', (r ← __request_region 1 0x3000 0x100 (Some "gpio") 0; __release_region 1 0x3000 0x100;; ret r) sample
    = Done (Region (Some a)) m' /\ m_res m' = m_res sample.
Proof.
  destruct (wp_run _ _ _ (region_roundtrip sample 1 _ 0x3000 0x100 (Some "gpio") 0 sample_tree sample_level
    ltac:(done) ltac:(lia) ltac:(lia) ltac:(lia) ltac:(apply sample_fits; lia)))
    as (r & m' & E & a & -> & _ & ->).
  by eexists _, _.
Defined.

(** A root that starts at 0x8000: a reservation from 0x1000 on. *)
Lemma reserve_split_diverges_witness :
  __reserve_region_with_split 100 3 0x1000 0x8100 (Some "rom") sample = Fault NoFuel.
Proof. by eapply reserve_split_diverges. Defined.

Lemma muxed_region_use_after_free_witness :
  exists a b m3, region_loop 10 a b IORESOURCE_MUXED m3 = Fault NullDeref.
Proof.
  destruct (muxed_region_use_after_free sample 1 _ 0x3000 0x100 (Some "w83627") (Some "f71805f")
    IORESOURCE_MUXED sample_tree sample_level eq_refl ltac:(lia) ltac:(lia) ltac:(lia)
    ltac:(apply sample_fits; lia) ltac:(done)) as (a & b & _ & _ & m3 & _ & _ & _ & H).
  by exists a, b, m3.
Defined.

(** ** Where the code goes wrong *)

(** [adjust_resource] accepts a size of 0: the child then ends before it starts. *)
Example adjust_to_nothing :
  match adjust_resource 2 0x5000 0 sample with
  | Done 0 m => (start_of (m_res m) 2, end_of (m_res m) 2) = (0x5000, 0x4fff)
  | _ => False
  end.
Proof. by vm_compute. Qed.

(** Half a page of RAM before a whole one. *)
Definition ragged_ram : memory := mkMemory
  (list_to_map [
     (1%positive, set_rs_child (Some 2%positive) iomem_resource_init);
     (2%positive, mkResource 0x1800 0x1fff (Some "System RAM") (Z.lor IORESOURCE_MEM IORESOURCE_BUSY)
        (Some 1%positive) (Some 3%positive) None);
     (3%positive, mkResource 0x4000 0x4fff (Some "System RAM") (Z.lor IORESOURCE_MEM IORESOURCE_BUSY)
        (Some 1%positive) None None)]) [].

(** [walk_system_ram_range] over pages 1 to 4 gives up at the half page and never calls the
    function for page 4, which is RAM. *)
Example ragged_ram_skipped :
  walk_system_ram_range 1 4 (fun _ _ => fail Bug) ragged_ram = Done (-1) ragged_ram /\
  page_is_ram 4 ragged_ram = Done true ragged_ram.
Proof. by vm_compute. Qed.
