(* ===== verification/Gpmc.v ===== *)
(** * The general-purpose memory controller

    mach-omap2/gpmc.c: the chip selects of the external memory bus.  A chip select gets a
    window of the address space from the resource tree (Resource.v), its timings are programmed
    in ticks of the functional clock (ClkCore.v), and NAND accesses, the prefetch engine and the
    ECC engine go through its registers (Platform.v).

    The static variables of gpmc.c are the fields of [gpmc]; [gpmc_mem_root] and the array
    [gpmc_cs_mem] are objects of the resource memory at fixed addresses. *)

From S2P Require Import Prelude Bytes Platform ClkCore Clkdev Resource.

Definition GPMC_REVISION : Z := 0x00.
Definition GPMC_SYSCONFIG : Z := 0x10.
Definition GPMC_IRQSTATUS : Z := 0x18.
Definition GPMC_IRQENABLE : Z := 0x1c.
Definition GPMC_CONFIG : Z := 0x50.
Definition GPMC_STATUS : Z := 0x54.
Definition GPMC_PREFETCH_CONFIG1 : Z := 0x1e0.
Definition GPMC_PREFETCH_CONFIG2 : Z := 0x1e4.
Definition GPMC_PREFETCH_CONTROL : Z := 0x1ec.
Definition GPMC_PREFETCH_STATUS : Z := 0x1f0.
Definition GPMC_ECC_CONFIG : Z := 0x1f4.
Definition GPMC_ECC_CONTROL : Z := 0x1f8.
Definition GPMC_ECC_SIZE_CONFIG : Z := 0x1fc.
Definition GPMC_ECC1_RESULT : Z := 0x200.
Definition GPMC_ECC_BCH_RESULT_0 : Z := 0x240.
Definition GPMC_CS0_OFFSET : Z := 0x60.
Definition GPMC_CS_SIZE : Z := 0x30.
Definition GPMC_MEM_START : Z := 0x00000000.
Definition GPMC_MEM_END : Z := 0x3FFFFFFF.
Definition BOOT_ROM_SPACE : Z := 0x100000.
Definition GPMC_CHUNK_SHIFT : Z := 24.
Definition GPMC_SECTION_SHIFT : Z := 28.
Definition CS_NUM_SHIFT : Z := 24.
Definition ENABLE_PREFETCH : Z := Z.shiftl 1 7.
Definition DMA_MPU_MODE : Z := 2.

(** plat/gpmc.h *)
Definition GPMC_CS_NUM : Z := 8.
Definition GPMC_CS_CONFIG1 : Z := 0x00.
Definition GPMC_CS_CONFIG2 : Z := 0x04.
Definition GPMC_CS_CONFIG3 : Z := 0x08.
Definition GPMC_CS_CONFIG4 : Z := 0x0c.
Definition GPMC_CS_CONFIG5 : Z := 0x10.
Definition GPMC_CS_CONFIG6 : Z := 0x14.
Definition GPMC_CS_CONFIG7 : Z := 0x18.
Definition GPMC_CS_NAND_COMMAND : Z := 0x1c.
Definition GPMC_CS_NAND_ADDRESS : Z := 0x20.
Definition GPMC_CS_NAND_DATA : Z := 0x24.
Definition GPMC_CONFIG_RDY_BSY : Z := 1.
Definition GPMC_CONFIG_DEV_SIZE : Z := 2.
Definition GPMC_CONFIG_DEV_TYPE : Z := 3.
Definition GPMC_SET_IRQ_STATUS : Z := 4.
Definition GPMC_CONFIG_WP : Z := 5.
Definition GPMC_GET_IRQ_STATUS : Z := 6.
Definition GPMC_PREFETCH_FIFO_CNT : Z := 7.
Definition GPMC_PREFETCH_COUNT : Z := 8.
Definition GPMC_STATUS_BUFFER : Z := 9.
Definition GPMC_NAND_COMMAND : Z := 10.
Definition GPMC_NAND_ADDRESS : Z := 11.
Definition GPMC_NAND_DATA : Z := 12.
Definition GPMC_ENABLE_IRQ : Z := 13.
Definition GPMC_ECC_READ : Z := 0.
Definition GPMC_ECC_WRITE : Z := 1.
Definition GPMC_ECC_READSYN : Z := 2.
Definition GPMC_CONFIG1_READTYPE_SYNC : Z := bit 29.
Definition GPMC_CONFIG1_WRITETYPE_SYNC : Z := bit 27.
Definition GPMC_CONFIG1_DEVICESIZE (val : Z) : Z := Z.shiftl (Z.land val 3) 12.
Definition GPMC_CONFIG1_DEVICETYPE (val : Z) : Z := Z.shiftl (Z.land val 3) 10.
Definition GPMC_CONFIG1_MUXADDDATA : Z := bit 9.
Definition GPMC_CONFIG7_CSVALID : Z := bit 6.
Definition GPMC_DEVICETYPE_NOR : Z := 0.
Definition GPMC_CONFIG_WRITEPROTECT : Z := 0x10.
Definition GPMC_STATUS_BUFF_EMPTY : Z := 0x1.
Definition WR_RD_PIN_MONITORING : Z := 0x00600000.
Definition GPMC_PREFETCH_STATUS_FIFO_CNT (val : Z) : Z := Z.land (Z.shiftr val 24) 0x7f.
Definition GPMC_PREFETCH_STATUS_COUNT (val : Z) : Z := Z.land val 0x3fff.
Definition PREFETCH_FIFOTHRESHOLD_MAX : Z := 0x40.
Definition PREFETCH_FIFOTHRESHOLD (val : Z) : Z := lsl val 8.
Definition OMAP_ECC_BCH4_CODE_HW : Z := 3.
Definition OMAP_ECC_BCH8_CODE_HW : Z := 4.

(** plat/irqs.h; the numbers of the chip select interrupts follow those of the other blocks
    that are configured. *)
Definition INT_34XX_GPMC_IRQ : Z := 20.
Definition OMAP_GPMC_NR_IRQS : Z := 7.
Definition OMAP44XX_GPMC_BASE : Z := 0x50000000.

#[local] Set Primitive Projections.

(** struct gpmc_timings *)
Record gpmc_timings := mkTimings {
  sync_clk : Z;
  cs_on : Z; cs_rd_off : Z; cs_wr_off : Z;
  adv_on : Z; adv_rd_off : Z; adv_wr_off : Z;
  we_on : Z; we_off : Z;
  oe_on : Z; oe_off : Z;
  page_burst_access : Z; access : Z; rd_cycle : Z; wr_cycle : Z;
  wr_access : Z; wr_data_mux_bus : Z
}.

(** The state: the clocks and registers, the resources, the static variables of gpmc.c, and
    the interrupts that were made valid and those that were passed on. *)
Record gpmc := mkGpmc {
  g_w : world;
  g_mem : memory;
  g_cs_map : Z;  (* unsigned int *)
  g_base : Z;  (* void __iomem * *)
  g_l3_clk : option string;
  g_irqs : list Z;
  g_handled : list Z
}.

Definition set_g_w : world -> gpmc -> gpmc := Eval cbv beta zeta in ltac:(record_setter g_w).
Definition set_g_mem : memory -> gpmc -> gpmc := Eval cbv beta zeta in ltac:(record_setter g_mem).
Definition set_g_cs_map : Z -> gpmc -> gpmc := Eval cbv beta zeta in ltac:(record_setter g_cs_map).
Definition set_g_base : Z -> gpmc -> gpmc := Eval cbv beta zeta in ltac:(record_setter g_base).
Definition set_g_l3_clk : option string -> gpmc -> gpmc :=
  Eval cbv beta zeta in ltac:(record_setter g_l3_clk).
Definition set_g_irqs : list Z -> gpmc -> gpmc := Eval cbv beta zeta in ltac:(record_setter g_irqs).
Definition set_g_handled : list Z -> gpmc -> gpmc :=
  Eval cbv beta zeta in ltac:(record_setter g_handled).
#[local] Unset Primitive Projections.

(** A call into another component. *)
Definition on_world {A} (m : M world A) : M gpmc A := fun s =>
  match m (g_w s) with Done a w => Done a (set_g_w w s) | Fault f => Fault f end.
Definition on_mem {A} (m : M memory A) : M gpmc A := fun s =>
  match m (g_mem s) with Done a x => Done a (set_g_mem x s) | Fault f => Fault f end.

(** [&gpmc_mem_root], and [&gpmc_cs_mem[cs]], which must not be followed outside the array. *)
Definition gpmc_mem_root : positive := 100.
Definition cs_mem (cs : Z) : positive := Z.to_pos (101 + cs).
Definition gpmc_cs_mem (cs : Z) : M gpmc positive :=
  if (0 <=? cs) && (cs <? GPMC_CS_NUM) then ret (cs_mem cs) else fail OutOfBounds.

(** ** Registers *)

Section Gpmc.
  Context `{SOC : Soc} `{HW : Hardware}.
Variable arch_clock : clk_functions.
Variable OMAP_GPMC_IRQ_BASE : Z.

Definition OMAP_GPMC_IRQ_END : Z := OMAP_GPMC_IRQ_BASE + OMAP_GPMC_NR_IRQS.
Definition NR_IRQS : Z := OMAP_GPMC_IRQ_END.

Definition gpmc_write_reg (idx val : Z) : M gpmc unit :=
  base ← gets (fun s => g_base s);
  on_world (__raw_writel val (base + idx)).

Definition gpmc_read_reg (idx : Z) : M gpmc Z :=
  base ← gets (fun s => g_base s);
  on_world (__raw_readl (base + idx)).

Definition cs_addr (base cs idx : Z) : Z := base + GPMC_CS0_OFFSET + cs * GPMC_CS_SIZE + idx.

Definition gpmc_cs_write_byte (cs idx val : Z) : M gpmc unit :=
  base ← gets (fun s => g_base s);
  on_world (__raw_writeb val (cs_addr base cs idx)).

Definition gpmc_cs_read_byte (cs idx : Z) : M gpmc Z :=
  base ← gets (fun s => g_base s);
  on_world (__raw_readb (cs_addr base cs idx)).

Definition gpmc_cs_write_reg (cs idx val : Z) : M gpmc unit :=
  base ← gets (fun s => g_base s);
  on_world (__raw_writel val (cs_addr base cs idx)).

Definition gpmc_cs_read_reg (cs idx : Z) : M gpmc Z :=
  base ← gets (fun s => g_base s);
  on_world (__raw_readl (cs_addr base cs idx)).

(** ** Timings *)

Definition gpmc_get_fclk_period : M gpmc Z :=
  c ← gets (fun s => g_l3_clk s);
  rate ← on_world (clk_get_rate c);
  if rate =? 0 then ret 0 else divu 1000000000 (rate / 1000).

Definition gpmc_ns_to_ticks (time_ns : Z) : M gpmc Z :=
  tick_ps ← gpmc_get_fclk_period;
  divu (u32 (time_ns * 1000 + tick_ps - 1)) tick_ps.

Definition gpmc_ps_to_ticks (time_ps : Z) : M gpmc Z :=
  tick_ps ← gpmc_get_fclk_period;
  divu (u32 (time_ps + tick_ps - 1)) tick_ps.

Definition gpmc_ticks_to_ns (ticks : Z) : M gpmc Z :=
  p ← gpmc_get_fclk_period;
  ret (u32 (ticks * p) / 1000).

Definition gpmc_round_ns_to_ticks (time_ns : Z) : M gpmc Z :=
  ticks ← gpmc_ns_to_ticks time_ns;
  p ← gpmc_get_fclk_period;
  ret (u32 (ticks * p) / 1000).

Definition set_gpmc_timing_reg (cs reg st_bit end_bit time : Z) : M gpmc Z :=
  ticks ← (if time =? 0 then ret 0 else t ← gpmc_ns_to_ticks time; ret (s32 t));
  let nr_bits := end_bit - st_bit + 1 in
  if Z.shiftl 1 nr_bits <=? ticks then ret (-1) else
  let mask := Z.shiftl 1 nr_bits - 1 in
  l ← gpmc_cs_read_reg cs reg;
  let l := Z.land l (u32 (Z.lnot (Z.shiftl mask st_bit))) in
  let l := Z.lor l (lsl (u32 ticks) st_bit) in
  gpmc_cs_write_reg cs reg l;;
  ret 0.

(** The macro of the same name: the rest of the function follows as [k]. *)
Definition GPMC_SET_ONE (cs reg st end_ time : Z) (k : M gpmc Z) : M gpmc Z :=
  r ← set_gpmc_timing_reg cs reg st end_ time;
  if r <? 0 then ret (-1) else k.

Definition gpmc_cs_calc_divider (cs sync_clk : Z) : M gpmc Z :=
  p ← gpmc_get_fclk_period;
  let l := u32 (sync_clk + (p - 1)) in
  p ← gpmc_get_fclk_period;
  q ← divu l p;
  let div := s32 q in
  if 4 <? div then ret (-1) else
  ret (if div <=? 0 then 1 else div).

Definition gpmc_cs_set_timings (cs : Z) (t : gpmc_timings) : M gpmc Z :=
  div ← gpmc_cs_calc_divider cs (sync_clk t);
  if div <? 0 then ret (-1) else
  GPMC_SET_ONE cs GPMC_CS_CONFIG2 0 3 (cs_on t) (
  GPMC_SET_ONE cs GPMC_CS_CONFIG2 8 12 (cs_rd_off t) (
  GPMC_SET_ONE cs GPMC_CS_CONFIG2 16 20 (cs_wr_off t) (
  GPMC_SET_ONE cs GPMC_CS_CONFIG3 0 3 (adv_on t) (
  GPMC_SET_ONE cs GPMC_CS_CONFIG3 8 12 (adv_rd_off t) (
  GPMC_SET_ONE cs GPMC_CS_CONFIG3 16 20 (adv_wr_off t) (
  GPMC_SET_ONE cs GPMC_CS_CONFIG4 0 3 (oe_on t) (
  GPMC_SET_ONE cs GPMC_CS_CONFIG4 8 12 (oe_off t) (
  GPMC_SET_ONE cs GPMC_CS_CONFIG4 16 19 (we_on t) (
  GPMC_SET_ONE cs GPMC_CS_CONFIG4 24 28 (we_off t) (
  GPMC_SET_ONE cs GPMC_CS_CONFIG5 0 4 (rd_cycle t) (
  GPMC_SET_ONE cs GPMC_CS_CONFIG5 8 12 (wr_cycle t) (
  GPMC_SET_ONE cs GPMC_CS_CONFIG5 16 20 (access t) (
  GPMC_SET_ONE cs GPMC_CS_CONFIG5 24 27 (page_burst_access t) (
  let config1 :=
    l ← gpmc_cs_read_reg cs GPMC_CS_CONFIG1;
    when (negb (Z.land l (Z.lor GPMC_CONFIG1_READTYPE_SYNC GPMC_CONFIG1_WRITETYPE_SYNC) =? 0))
      (gpmc_cs_write_reg cs GPMC_CS_CONFIG1 (Z.lor (Z.land l (u32 (Z.lnot 0x03))) (div - 1)));;
    ret 0 in
  if cpu_is_omap34xx then
    GPMC_SET_ONE cs GPMC_CS_CONFIG6 16 19 (wr_data_mux_bus t) (
    GPMC_SET_ONE cs GPMC_CS_CONFIG6 24 28 (wr_access t) config1)
  else config1)))))))))))))).

(** ** Memory windows *)

Definition gpmc_cs_enable_mem (cs base size : Z) : M gpmc unit :=
  let mask := u32 (Z.shiftl 1 GPMC_SECTION_SHIFT - size) in
  l ← gpmc_cs_read_reg cs GPMC_CS_CONFIG7;
  let l := Z.land l (u32 (Z.lnot 0x3f)) in
  let l := Z.land (Z.shiftr base GPMC_CHUNK_SHIFT) 0x3f in
  let l := Z.land l (u32 (Z.lnot (Z.shiftl 0x0f 8))) in
  let l := Z.lor l (Z.shiftl (Z.land (Z.shiftr mask GPMC_CHUNK_SHIFT) 0x0f) 8) in
  let l := Z.lor l GPMC_CONFIG7_CSVALID in
  gpmc_cs_write_reg cs GPMC_CS_CONFIG7 l.

Definition gpmc_cs_disable_mem (cs : Z) : M gpmc unit :=
  l ← gpmc_cs_read_reg cs GPMC_CS_CONFIG7;
  gpmc_cs_write_reg cs GPMC_CS_CONFIG7 (Z.land l (u32 (Z.lnot GPMC_CONFIG7_CSVALID))).

(** The base and the size. *)
Definition gpmc_cs_get_memconf (cs : Z) : M gpmc (Z * Z) :=
  l ← gpmc_cs_read_reg cs GPMC_CS_CONFIG7;
  let base := Z.shiftl (Z.land l 0x3f) GPMC_CHUNK_SHIFT in
  let mask := Z.land (Z.shiftr l 8) 0x0f in
  ret (base, u32 (Z.shiftl 1 GPMC_SECTION_SHIFT - Z.shiftl mask GPMC_CHUNK_SHIFT)).

Definition gpmc_cs_mem_enabled (cs : Z) : M gpmc Z :=
  l ← gpmc_cs_read_reg cs GPMC_CS_CONFIG7;
  ret (Z.land l GPMC_CONFIG7_CSVALID).

Definition gpmc_cs_set_reserved (cs : Z) (reserved : bool) : M gpmc Z :=
  if GPMC_CS_NUM <? cs then ret (- ENODEV) else
  map ← gets (fun s => g_cs_map s);
  let map := Z.land map (u32 (Z.lnot (lsl 1 cs))) in
  modify (set_g_cs_map (Z.lor map (lsl (if reserved then 1 else 0) cs)));;
  ret 0.

Definition gpmc_cs_reserved (cs : Z) : M gpmc Z :=
  if GPMC_CS_NUM <? cs then ret (- ENODEV) else
  map ← gets (fun s => g_cs_map s);
  ret (Z.land map (lsl 1 cs)).

(** The loop of [gpmc_mem_align]: the order it ends with.  Every round but the last halves
    a size below 2^32. *)
Fixpoint align_loop (fuel : nat) (size order : Z) : Z :=
  match fuel with
  | O => order
  | S fuel' =>
      let size := Z.shiftr size 1 in
      let order := order + 1 in
      if size =? 0 then order else align_loop fuel' size order
  end.

Definition gpmc_mem_align (size : Z) : Z :=
  let size := Z.shiftr (u32 (size - 1)) (GPMC_CHUNK_SHIFT - 1) in
  lsl 1 (align_loop 32 size (GPMC_CHUNK_SHIFT - 1)).

Definition gpmc_cs_insert_mem (cs base size : Z) : M gpmc Z :=
  res ← gpmc_cs_mem cs;
  let size := gpmc_mem_align size in
  on_mem (upd_res res (set_rs_start base));;
  on_mem (upd_res res (set_rs_end (u32 (base + size - 1))));;
  on_mem (request_resource gpmc_mem_root res).

(** The result, and what [*base] is set to, if it is. *)
Definition gpmc_cs_request (cs size : Z) : M gpmc (Z * option Z) :=
  if GPMC_CS_NUM <? cs then ret (- ENODEV, None) else
  let size := gpmc_mem_align size in
  if Z.shiftl 1 GPMC_SECTION_SHIFT <? size then ret (- ENOMEM, None) else
  reserved ← gpmc_cs_reserved cs;
  if negb (reserved =? 0) then ret (- EBUSY, None) else
  enabled ← gpmc_cs_mem_enabled cs;
  r ← (if enabled =? 0 then ret (-1) else
       res ← gpmc_cs_mem cs;
       rr ← on_mem (get_res res);
       on_mem (adjust_resource res (Z.land (rs_start rr) (u32 (Z.lnot (size - 1)))) size));
  r ← (if r <? 0 then
         res ← gpmc_cs_mem cs;
         on_mem (allocate_resource gpmc_mem_root res size 0 (u32 (Z.lnot 0)) size None)
       else ret r);
  if r <? 0 then ret (r, None) else
  res ← gpmc_cs_mem cs;
  rr ← on_mem (get_res res);
  gpmc_cs_enable_mem cs (rs_start rr) (resource_size rr);;
  gpmc_cs_set_reserved cs true;;
  ret (r, Some (rs_start rr)).

Definition gpmc_cs_free (cs : Z) : M gpmc unit :=
  free ← (if (GPMC_CS_NUM <=? cs) || (cs <? 0) then ret true
          else r ← gpmc_cs_reserved cs; ret (r =? 0));
  if free then fail Bug else
  gpmc_cs_disable_mem cs;;
  res ← gpmc_cs_mem cs;
  on_mem (release_resource res);;
  gpmc_cs_set_reserved cs false;;
  ret tt.

(** ** Status, configuration and NAND accesses *)

Definition gpmc_read_status (cmd : Z) : M gpmc Z :=
  if cmd =? GPMC_GET_IRQ_STATUS then v ← gpmc_read_reg GPMC_IRQSTATUS; ret (s32 v)
  else if cmd =? GPMC_PREFETCH_FIFO_CNT then
    regval ← gpmc_read_reg GPMC_PREFETCH_STATUS; ret (GPMC_PREFETCH_STATUS_FIFO_CNT regval)
  else if cmd =? GPMC_PREFETCH_COUNT then
    regval ← gpmc_read_reg GPMC_PREFETCH_STATUS; ret (GPMC_PREFETCH_STATUS_COUNT regval)
  else if cmd =? GPMC_STATUS_BUFFER then
    regval ← gpmc_read_reg GPMC_STATUS; ret (Z.land regval GPMC_STATUS_BUFF_EMPTY)
  else ret (- EINVAL).

Definition gpmc_cs_configure (cs cmd wval : Z) : M gpmc Z :=
  if cmd =? GPMC_ENABLE_IRQ then gpmc_write_reg GPMC_IRQENABLE (u32 wval);; ret 0
  else if cmd =? GPMC_SET_IRQ_STATUS then gpmc_write_reg GPMC_IRQSTATUS (u32 wval);; ret 0
  else if cmd =? GPMC_CONFIG_WP then
    regval ← gpmc_read_reg GPMC_CONFIG;
    gpmc_write_reg GPMC_CONFIG
      (if wval =? 0 then Z.lor regval GPMC_CONFIG_WRITEPROTECT
       else Z.land regval (u32 (Z.lnot GPMC_CONFIG_WRITEPROTECT)));;
    ret 0
  else if cmd =? GPMC_CONFIG_RDY_BSY then
    regval ← gpmc_cs_read_reg cs GPMC_CS_CONFIG1;
    gpmc_cs_write_reg cs GPMC_CS_CONFIG1
      (if wval =? 0 then Z.land regval (u32 (Z.lnot WR_RD_PIN_MONITORING))
       else Z.lor regval WR_RD_PIN_MONITORING);;
    ret 0
  else if cmd =? GPMC_CONFIG_DEV_SIZE then
    regval ← gpmc_cs_read_reg cs GPMC_CS_CONFIG1;
    gpmc_cs_write_reg cs GPMC_CS_CONFIG1 (Z.lor regval (GPMC_CONFIG1_DEVICESIZE wval));;
    ret 0
  else if cmd =? GPMC_CONFIG_DEV_TYPE then
    regval ← gpmc_cs_read_reg cs GPMC_CS_CONFIG1;
    let regval := Z.lor regval (GPMC_CONFIG1_DEVICETYPE wval) in
    let regval := if wval =? GPMC_DEVICETYPE_NOR then Z.lor regval GPMC_CONFIG1_MUXADDDATA
                  else regval in
    gpmc_cs_write_reg cs GPMC_CS_CONFIG1 regval;;
    ret 0
  else ret (- EINVAL).

Definition gpmc_nand_read (cs cmd : Z) : M gpmc Z :=
  if cmd =? GPMC_NAND_DATA then gpmc_cs_read_byte cs GPMC_CS_NAND_DATA else ret (- EINVAL).

(** The case of the data falls through to the default. *)
Definition gpmc_nand_write (cs cmd wval : Z) : M gpmc Z :=
  if cmd =? GPMC_NAND_COMMAND then gpmc_cs_write_byte cs GPMC_CS_NAND_COMMAND wval;; ret 0
  else if cmd =? GPMC_NAND_ADDRESS then gpmc_cs_write_byte cs GPMC_CS_NAND_ADDRESS wval;; ret 0
  else if cmd =? GPMC_NAND_DATA then
    gpmc_cs_write_byte cs GPMC_CS_NAND_DATA wval;; ret (- EINVAL)
  else ret (- EINVAL).

Definition gpmc_prefetch_enable (cs fifo_th dma_mode u32_count is_write : Z) : M gpmc Z :=
  if PREFETCH_FIFOTHRESHOLD_MAX <? fifo_th then ret (-1) else
  ctl ← gpmc_read_reg GPMC_PREFETCH_CONTROL;
  if ctl =? 0 then
    gpmc_write_reg GPMC_PREFETCH_CONFIG2 u32_count;;
    gpmc_write_reg GPMC_PREFETCH_CONFIG1
      (Z.lor (Z.lor (Z.lor (Z.lor (lsl cs CS_NUM_SHIFT) (PREFETCH_FIFOTHRESHOLD fifo_th))
         ENABLE_PREFETCH) (lsl dma_mode DMA_MPU_MODE)) (Z.land 1 is_write));;
    gpmc_write_reg GPMC_PREFETCH_CONTROL 1;;
    ret 0
  else ret (- EBUSY).

Definition gpmc_prefetch_reset (cs : Z) : M gpmc Z :=
  config1 ← gpmc_read_reg GPMC_PREFETCH_CONFIG1;
  if negb (Z.land (Z.shiftr config1 CS_NUM_SHIFT) 0x7 =? cs) then ret (- EINVAL) else
  gpmc_write_reg GPMC_PREFETCH_CONTROL 0;;
  gpmc_write_reg GPMC_PREFETCH_CONFIG1 0;;
  ret 0.

(** ** Initialisation and interrupts *)

(** No board but the apollon, which this kernel is not configured for. *)
Definition machine_is_omap_apollon : bool := false.

Definition gpmc_mem_init : M gpmc unit :=
  let boot_rom_space := if machine_is_omap_apollon then 0 else BOOT_ROM_SPACE in
  on_mem (upd_res gpmc_mem_root (set_rs_start (GPMC_MEM_START + boot_rom_space)));;
  on_mem (upd_res gpmc_mem_root (set_rs_end GPMC_MEM_END));;
  for_each (Z.of_nat <$> seq 0 (Z.to_nat GPMC_CS_NUM)) (fun cs =>
    enabled ← gpmc_cs_mem_enabled cs;
    when (negb (enabled =? 0))
      ('(base, size) ← gpmc_cs_get_memconf cs;
       r ← gpmc_cs_insert_mem cs base size;
       when (r <? 0) (fail Bug))).

(** [irq_desc] has [NR_IRQS] entries. *)
Definition irq_to_desc (irq : Z) : option Z :=
  if (0 <=? irq) && (irq <? NR_IRQS) then Some irq else None.

(** [set_irq_handler(irq, handle_simple_irq)] and [set_irq_flags(irq, IRQF_VALID)], which
    refuse a number without a descriptor. *)
Definition set_irq_valid (irq : Z) : M gpmc unit :=
  match irq_to_desc irq with
  | None => ret tt
  | Some _ => modify (fun s => set_g_irqs (irq :: g_irqs s) s)
  end.

(** [desc->handle_irq(irq, desc)] *)
Definition generic_handle_irq (irq : Z) : M gpmc unit :=
  _ ← deref (irq_to_desc irq);
  modify (fun s => set_g_handled (irq :: g_handled s) s).

(** [mapped] is the result of [ioremap]; that of [request_irq] only matters for a message. *)
Definition gpmc_init (mapped : option Z) : M gpmc unit :=
  let ck := if cpu_is_omap24xx then Some "core_l3_ck" else
            if cpu_is_omap34xx then Some "gpmc_fck" else
            if cpu_is_omap44xx then Some "gpmc_ck" else
            if cpu_is_ti81xx then Some "gpmc_fck" else None in
  match ck with
  | None => ret tt
  | Some ck =>
      clk ← on_world (clk_get None (Some ck));
      modify (set_g_l3_clk clk);;
      match clk with
      | None => fail Bug
      | Some _ =>
          match mapped with
          | None => fail Bug
          | Some base =>
              modify (set_g_base base);;
              on_world (clk_enable arch_clock clk);;
              gpmc_read_reg GPMC_REVISION;;
              l ← gpmc_read_reg GPMC_SYSCONFIG;
              let l := Z.land l (Z.shiftl 0x03 3) in
              gpmc_write_reg GPMC_SYSCONFIG (Z.lor l (Z.lor (Z.shiftl 0x02 3) 1));;
              gpmc_mem_init;;
              for_each ((fun i => OMAP_GPMC_IRQ_BASE + Z.of_nat i) <$> seq 0 (Z.to_nat GPMC_CS_NUM))
                set_irq_valid
          end
      end
  end.

Definition gpmc_handle_irq (irq : Z) : M gpmc unit :=
  if negb (irq =? INT_34XX_GPMC_IRQ) then ret tt else
  v ← gpmc_read_reg GPMC_PREFETCH_CONFIG1;
  let cs := Z.land (Z.shiftr v CS_NUM_SHIFT) 0x7 in
  when (OMAP_GPMC_IRQ_BASE + cs <=? OMAP_GPMC_IRQ_END)
    (generic_handle_irq (OMAP_GPMC_IRQ_BASE + cs)).

(** ** Error correction *)

(** [eccsize1], [eccsize0], [bch_mod] and [bch_wrapmode] *)
Definition ecc_geometry (ecc_type mode ecc_size : Z) : Z * Z * Z * Z :=
  let hamming := (u32 (Z.shiftr ecc_size 1 - 1), 0, 0, 0) in
  if mode =? GPMC_ECC_READ then
    if ecc_type =? OMAP_ECC_BCH4_CODE_HW then (0xD, 0x48, 0, 0x09) else
    if ecc_type =? OMAP_ECC_BCH8_CODE_HW then (0x2, 0x1A, 1, 0x01) else hamming
  else if mode =? GPMC_ECC_READSYN then (0, 0, 0, 0)
  else if mode =? GPMC_ECC_WRITE then
    if ecc_type =? OMAP_ECC_BCH4_CODE_HW then (0x1c, 0x00, 0, 0x06) else
    if ecc_type =? OMAP_ECC_BCH8_CODE_HW then (0x1c, 0x00, 1, 0x01) else hamming
  else (0, 0, 0, 0).

Definition gpmc_enable_hwecc (ecc_type cs mode dev_width ecc_size : Z) : M gpmc Z :=
  let '(eccsize1, eccsize0, bch_mod, bch_wrapmode) := ecc_geometry ecc_type mode ecc_size in
  '(ecc_size_conf_val, ecc_conf_val) ←
    (if (ecc_type =? OMAP_ECC_BCH4_CODE_HW) || (ecc_type =? OMAP_ECC_BCH8_CODE_HW) then
       gpmc_write_reg GPMC_ECC_CONTROL 0x1;;
       ret (Z.lor (lsl eccsize1 22) (lsl eccsize0 12),
            Z.lor (Z.lor (Z.lor (Z.lor (Z.lor (Z.shiftl 0x01 16) (lsl bch_mod 12))
              (lsl bch_wrapmode 8)) (lsl dev_width 7)) (lsl cs 1)) 0x1)
     else
       gpmc_write_reg GPMC_ECC_CONTROL 0x101;;
       ret (Z.lor (lsl eccsize1 22) 0xF, Z.lor (Z.lor (lsl dev_width 7) (lsl cs 1)) 0x1));
  gpmc_write_reg GPMC_ECC_SIZE_CONFIG ecc_size_conf_val;;
  gpmc_write_reg GPMC_ECC_CONFIG ecc_conf_val;;
  gpmc_write_reg GPMC_ECC_CONTROL 0x101;;
  ret 0.

(** The bytes it stores at [ecc_code]. *)
Definition gpmc_calculate_ecc (ecc_type cs : Z) : M gpmc (list Z) :=
  if (ecc_type =? OMAP_ECC_BCH4_CODE_HW) || (ecc_type =? OMAP_ECC_BCH8_CODE_HW) then
    let reg := GPMC_ECC_BCH_RESULT_0 in
    val1 ← gpmc_read_reg reg;
    val2 ← gpmc_read_reg (reg + 4);
    head ← (if ecc_type =? OMAP_ECC_BCH8_CODE_HW then
              val3 ← gpmc_read_reg (reg + 8);
              val4 ← gpmc_read_reg (reg + 12);
              ret [byte_at val4 0; byte_at val3 24; byte_at val3 16; byte_at val3 8;
                   byte_at val3 0; byte_at val2 24]
            else ret []);
    ret (head ++ [byte_at val2 16; byte_at val2 8; byte_at val2 0; byte_at val1 24;
                  byte_at val1 16; byte_at val1 8; byte_at val1 0])
  else
    val1 ← gpmc_read_reg GPMC_ECC1_RESULT;
    ret [u8 val1; u8 (Z.shiftr val1 16);
         Z.lor (Z.land (Z.shiftr val1 8) 0x0f) (Z.land (Z.shiftr val1 20) 0xf0)].
End Gpmc.
