(* ===== verification/GpmcWindow.v ===== *)
(** * The memory windows of the chip selects

    What [gpmc_cs_request] and [gpmc_cs_free] of mach-omap2/gpmc.c do: the windows that the
    configuration registers describe are those of the resource tree, and never overlap. *)

From S2P Require Import Prelude Platform Resource ResourceTree ResourceAlloc Gpmc.

(** ** Triples of the calls *)

Lemma wp_on_world {A} (m : M world A) Q s :
  wp m (fun a w => Q a (set_g_w w s)) (g_w s) -> wp (on_world m) Q s.
Proof. unfold wp, on_world. by destruct (m (g_w s)). Qed.

Lemma wp_on_mem {A} (m : M memory A) Q s :
  wp m (fun a x => Q a (set_g_mem x s)) (g_mem s) -> wp (on_mem m) Q s.
Proof. unfold wp, on_mem. by destruct (m (g_mem s)). Qed.

Ltac g_simpl :=
  change (g_w (set_g_w ?w ?s)) with w in *; change (g_base (set_g_w ?w ?s)) with (g_base s) in *;
  change (g_mem (set_g_w ?w ?s)) with (g_mem s) in *;
  change (g_cs_map (set_g_w ?w ?s)) with (g_cs_map s) in *;
  change (g_w (set_g_mem ?w ?s)) with (g_w s) in *; change (g_base (set_g_mem ?w ?s)) with (g_base s) in *;
  change (g_mem (set_g_mem ?w ?s)) with w in *;
  change (g_cs_map (set_g_mem ?w ?s)) with (g_cs_map s) in *;
  change (g_w (set_g_cs_map ?w ?s)) with (g_w s) in *;
  change (g_base (set_g_cs_map ?w ?s)) with (g_base s) in *;
  change (g_mem (set_g_cs_map ?w ?s)) with (g_mem s) in *;
  change (g_cs_map (set_g_cs_map ?w ?s)) with w in *.

(** ** The alignment of sizes *)

Lemma align_loop_log2 fuel x o : 0 <= x < 2 ^ Z.of_nat fuel -> (0 < fuel)%nat ->
  align_loop fuel x o = o + 1 + Z.log2 x.
Proof.
  revert x o. induction fuel as [|fuel IH]; intros x o Hx Hf; [lia|]. cbn [align_loop].
  rewrite Z.shiftr_div_pow2 by lia. change (2 ^ 1) with 2.
  pose proof (Z.div_mod x 2 ltac:(lia)). pose proof (Z.mod_pos_bound x 2 ltac:(lia)).
  destruct (Z.eqb_spec (x / 2) 0) as [E|E].
  - assert (x = 0 \/ x = 1) as [->| ->] by lia; cbn; lia.
  - assert (0 < fuel)%nat as Hf'.
    { destruct fuel; [|lia]. change (2 ^ Z.of_nat 1) with 2 in Hx. lia. }
    rewrite Nat2Z.inj_succ, Z.pow_succ_r in Hx by lia. rewrite IH by (lia || done).
    pose proof (Z.log2_shiftr x 1 ltac:(lia)) as Hl. rewrite Z.shiftr_div_pow2 in Hl by lia.
    change (2 ^ 1) with 2 in Hl. assert (1 <= Z.log2 x) by (apply Z.log2_le_pow2; lia). lia.
Qed.

(** The smallest power of two, from 16 MB on, that is not below the size. *)
Lemma gpmc_mem_align_spec size : 1 <= size <= 2 ^ 31 ->
  exists k, 24 <= k <= 31 /\ gpmc_mem_align size = 2 ^ k /\ size <= 2 ^ k /\
    (k = 24 \/ 2 ^ (k - 1) < size).
Proof.
  intros Hs. unfold gpmc_mem_align, GPMC_CHUNK_SHIFT. rewrite (wrapu_small 32) by (split; lia).
  change (24 - 1) with 23. set (x := Z.shiftr (size - 1) 23).
  assert (x = (size - 1) / 2 ^ 23) as Ex by (unfold x; apply Z.shiftr_div_pow2; lia).
  pose proof (Z.div_mod (size - 1) (2 ^ 23) ltac:(lia)) as Hd.
  pose proof (Z.mod_pos_bound (size - 1) (2 ^ 23) ltac:(lia)) as Hm. rewrite <- Ex in Hd.
  assert (0 <= x < 256) as Hx by (split; [subst x; apply Z.shiftr_nonneg; lia | lia]).
  rewrite align_loop_log2 by (cbn; lia). exists (24 + Z.log2 x).
  assert (0 <= Z.log2 x <= 7) as Hl.
  { split; [apply Z.log2_nonneg|]. destruct (decide (x = 0)) as [->|]; [done|].
    assert (Z.log2 x < 8); [apply Z.log2_lt_pow2; lia | lia]. }
  split; [lia|]. split; [rewrite lsl_1 by lia; f_equal; lia|].
  destruct (decide (x = 0)) as [E|E].
  - rewrite E. cbn. split; [lia | by left].
  - pose proof (Z.log2_spec x ltac:(lia)) as [Hlo Hhi]. rewrite Z.pow_add_r by lia.
    rewrite Z.pow_succ_r in Hhi by lia. split; [nia|].
    destruct (decide (Z.log2 x = 0)) as [E0|E0]; [left; lia|]. right.
    replace (24 + Z.log2 x - 1) with (23 + Z.log2 x) by lia. rewrite Z.pow_add_r by lia. nia.
Qed.

(** ** The configuration register *)

(** What [gpmc_cs_enable_mem] writes, and what a register value says of the window. *)
Definition config7 (base size : Z) : Z :=
  Z.lor (Z.lor (Z.land (Z.land (Z.shiftr base GPMC_CHUNK_SHIFT) 0x3f) (u32 (Z.lnot (Z.shiftl 0x0f 8))))
    (Z.shiftl (Z.land (Z.shiftr (u32 (Z.shiftl 1 GPMC_SECTION_SHIFT - size)) GPMC_CHUNK_SHIFT) 0x0f) 8))
    GPMC_CONFIG7_CSVALID.

Definition memconf (v : Z) : Z * Z :=
  (Z.shiftl (Z.land v 0x3f) GPMC_CHUNK_SHIFT,
   u32 (Z.shiftl 1 GPMC_SECTION_SHIFT - Z.shiftl (Z.land (Z.shiftr v 8) 0x0f) GPMC_CHUNK_SHIFT)).

Definition window (v : Z) : option (Z * Z) :=
  if Z.land v GPMC_CONFIG7_CSVALID =? 0 then None else Some (memconf v).

(** The windows the register can describe: 1 to 16 chunks of 16 MB, in the low GB. *)
Lemma window_config7 b n : 0 <= b < 64 -> 1 <= n <= 16 ->
  window (config7 (b * 2 ^ 24) (n * 2 ^ 24)) = Some (b * 2 ^ 24, n * 2 ^ 24) /\
  uint 32 (config7 (b * 2 ^ 24) (n * 2 ^ 24)).
Proof.
  intros Hb Hn.
  assert (forallb (fun i => forallb (fun j => bool_decide (
    window (config7 (Z.of_nat i * 2 ^ 24) (Z.of_nat j * 2 ^ 24)) =
      Some (Z.of_nat i * 2 ^ 24, Z.of_nat j * 2 ^ 24) /\
    uint 32 (config7 (Z.of_nat i * 2 ^ 24) (Z.of_nat j * 2 ^ 24)))) (seq 1 16)) (seq 0 64) = true) as H
    by (by vm_compute).
  rewrite forallb_forall in H. specialize (H (Z.to_nat b)). rewrite forallb_forall in H.
  specialize (H ltac:(apply in_seq; lia) (Z.to_nat n) ltac:(apply in_seq; lia)).
  rewrite !Z2Nat.id in H by lia. by apply bool_decide_eq_true_1 in H.
Qed.

Section Window.
  Context `{HW : Hardware}.
Implicit Types s : gpmc.

(** The configuration register [idx] of a chip select, and its address. *)
Definition csaddr s (cs idx : Z) : Z := cs_addr (g_base s) cs idx.
Definition csreg s (cs idx : Z) : Z := regval (g_w s) (csaddr s cs idx).

(** From [s] to [s'] one register of one chip select was written. *)
Definition cs_wrote (cs idx v : Z) s s' : Prop :=
  exists w', s' = set_g_w w' s /\ wrote (csaddr s cs idx) v (g_w s) w'.

Lemma cs_rmw_wp cs idx f s :
  (forall x, uint 32 x -> uint 32 (f x)) ->
  wp (l ← gpmc_cs_read_reg cs idx; gpmc_cs_write_reg cs idx (f l))
    (fun _ s' => cs_wrote cs idx (f (csreg s cs idx)) s s') s.
Proof.
  intros Hf. unfold gpmc_cs_read_reg, gpmc_cs_write_reg. wp_pure. apply wp_on_world, wp_readl. wp_pure.
  apply wp_on_world, wp_writel. eexists. split; [reflexivity|].
  exact (read_write_wp (csaddr s cs idx) f (g_w s) Hf).
Qed.

Lemma cs_rmw_then {A} cs idx f (k : M gpmc A) Q s :
  (forall x, uint 32 x -> uint 32 (f x)) ->
  (forall s', cs_wrote cs idx (f (csreg s cs idx)) s s' -> wp k Q s') ->
  wp (l ← gpmc_cs_read_reg cs idx; gpmc_cs_write_reg cs idx (f l);; k) Q s.
Proof.
  intros Hf Hk. pose proof (cs_rmw_wp cs idx f s Hf) as H. unfold wp, bind in *.
  destruct (gpmc_cs_read_reg cs idx s) as [l s1|]; [|done].
  destruct (gpmc_cs_write_reg cs idx (f l) s1) as [u s2|]; [|done]. by apply Hk.
Qed.

(** The window the hardware has open for a chip select. *)
Definition g_window s (cs : Z) : option (Z * Z) := window (csreg s cs GPMC_CS_CONFIG7).

Definition is_cs (cs : Z) : Prop := 0 <= cs < GPMC_CS_NUM.

(** The configuration registers hold what is written to them. *)
Definition windows_plain s : Prop :=
  forall cs, is_cs cs -> plain_reg (csaddr s cs GPMC_CS_CONFIG7).

Definition cs_view s (cs : Z) := view <$> m_res (g_mem s) !! cs_mem cs.

(** The invariant: the chip selects whose windows are open are children of [gpmc_mem_root],
    and the windows start with their ranges and lie within them (a boot loader may leave a
    window whose size is no power of two, for which the driver claims the next one); a
    reserved chip select has one.  During the initialisation it holds for the chip selects [P]
    that were looked at. *)
Record gpmc_ok_for (P : Z -> Prop) s (l : list positive) : Prop := {
  go_tree : tree_ok (m_res (g_mem s));
  go_level : level (m_res (g_mem s)) gpmc_mem_root l;
  go_root : start_of (m_res (g_mem s)) gpmc_mem_root = GPMC_MEM_START + BOOT_ROM_SPACE /\
            end_of (m_res (g_mem s)) gpmc_mem_root = GPMC_MEM_END;
  go_cs : forall cs, is_cs cs -> exists st en p, cs_view s cs = Some (st, en, p, None) /\
    match p with
    | None => (P cs -> g_window s cs = None) /\ Z.testbit (g_cs_map s) cs = false
    | Some a => a = gpmc_mem_root /\ exists n, g_window s cs = Some (st, n) /\ st + n - 1 <= en
    end
}.

Definition gpmc_ok : gpmc -> list positive -> Prop := gpmc_ok_for (fun _ => True).

Lemma cs_mem_inj cs cs' : is_cs cs -> is_cs cs' -> cs_mem cs = cs_mem cs' -> cs = cs'.
Proof. unfold is_cs, cs_mem, GPMC_CS_NUM. lia. Qed.

Lemma cs_mem_root cs : is_cs cs -> cs_mem cs <> gpmc_mem_root.
Proof. unfold is_cs, cs_mem, gpmc_mem_root, GPMC_CS_NUM. lia. Qed.

Lemma csaddr_inj s cs cs' idx : csaddr s cs idx = csaddr s cs' idx -> cs = cs'.
Proof. unfold csaddr, cs_addr, GPMC_CS_SIZE. lia. Qed.

Lemma cs_wrote_window cs v s s' cs' : windows_plain s -> is_cs cs -> is_cs cs' ->
  cs_wrote cs GPMC_CS_CONFIG7 v s s' ->
  g_window s' cs' = if decide (cs' = cs) then window v else g_window s cs'.
Proof.
  intros Hp Hcs Hcs' (w' & -> & [_ Hv Ho]). unfold g_window, csreg, csaddr in *. g_simpl.
  destruct (decide (cs' = cs)) as [->|Hne]; [by rewrite Hv by by apply Hp|].
  rewrite Ho; [done | by apply Hp |]. intros E. by apply (csaddr_inj s) in E.
Qed.

Lemma reads_window s w' cs : windows_plain s -> is_cs cs -> io_reads (g_w s) w' ->
  g_window (set_g_w w' s) cs = g_window s cs.
Proof.
  intros Hp Hcs Hw. unfold g_window, csreg, csaddr. g_simpl.
  by rewrite (regval_reads _ (g_w s)) by (done || by apply Hp).
Qed.

(** ** The reservation bits *)

Lemma reserved_test map cs : is_cs cs -> (Z.land map (lsl 1 cs) =? 0) = negb (Z.testbit map cs).
Proof.
  unfold is_cs, GPMC_CS_NUM. intros H. rewrite lsl_1 by lia. apply land_pow2_test. lia.
Qed.

Definition map_set (cs : Z) (b : bool) (map : Z) : Z :=
  Z.lor (Z.land map (u32 (Z.lnot (lsl 1 cs)))) (lsl (if b then 1 else 0) cs).

Lemma map_set_bit cs b map i : is_cs cs -> 0 <= i < 32 ->
  Z.testbit (map_set cs b map) i = if decide (i = cs) then b else Z.testbit map i.
Proof.
  unfold is_cs, GPMC_CS_NUM. intros Hcs Hi. unfold map_set.
  assert (lsl (if b then 1 else 0) cs = if b then 2 ^ cs else 0) as ->.
  { destruct b; [apply lsl_1; lia|]. rewrite lsl_in by lia. by rewrite Z.shiftl_0_l. }
  rewrite Z.lor_spec, Z.land_spec, lsl_1 by lia. unfold wrapu.
  rewrite Z.mod_pow2_bits_low, Z.lnot_spec, Z.pow2_bits_eqb by lia.
  assert (Z.testbit (if b then 2 ^ cs else 0) i = b && (cs =? i)) as ->.
  { destruct b; [by rewrite Z.pow2_bits_eqb by lia | by rewrite Z.bits_0]. }
  destruct (decide (i = cs)) as [->|Hne].
  - rewrite Z.eqb_refl, andb_false_r. by destruct b.
  - rewrite (proj2 (Z.eqb_neq cs i)) by lia. rewrite andb_true_r, andb_false_r. by rewrite orb_false_r.
Qed.

Lemma set_reserved_wp cs b Q s : is_cs cs ->
  Q 0 (set_g_cs_map (map_set cs b (g_cs_map s)) s) -> wp (gpmc_cs_set_reserved cs b) Q s.
Proof.
  unfold is_cs. intros Hcs HQ. unfold gpmc_cs_set_reserved. rewrite (proj2 (Z.ltb_ge _ _)) by lia.
  by wp_pure.
Qed.

Lemma gpmc_cs_mem_wp cs Q s : is_cs cs -> Q (cs_mem cs) s -> wp (gpmc_cs_mem cs) Q s.
Proof.
  unfold is_cs, gpmc_cs_mem. intros Hcs HQ.
  by rewrite (proj2 (Z.leb_le 0 cs)), (proj2 (Z.ltb_lt cs _)) by lia.
Qed.

Lemma mem_enabled_wp cs Q s :
  (forall w', io_reads (g_w s) w' -> Q (Z.land (csreg s cs GPMC_CS_CONFIG7) GPMC_CONFIG7_CSVALID) (set_g_w w' s)) ->
  wp (gpmc_cs_mem_enabled cs) Q s.
Proof.
  intros HQ. unfold gpmc_cs_mem_enabled, gpmc_cs_read_reg. wp_pure. apply wp_on_world, wp_readl.
  wp_pure. apply HQ. by apply io_reads_1.
Qed.

Lemma enable_mem_wp cs base size s : uint 32 (config7 base size) ->
  wp (gpmc_cs_enable_mem cs base size)
    (fun _ s' => cs_wrote cs GPMC_CS_CONFIG7 (config7 base size) s s') s.
Proof. intros Hc. apply (cs_rmw_wp cs GPMC_CS_CONFIG7 (fun _ => config7 base size) s). done. Qed.

(** ** The invariant *)

Lemma view_lookup (h : gmap positive resource) c st en p ch : view <$> h !! c = Some (st, en, p, ch) ->
  exists r, h !! c = Some r /\ rs_start r = st /\ rs_end r = en /\ rs_parent r = p /\ rs_child r = ch.
Proof. intros (r & Hr & E)%fmap_Some. exists r. injection E as -> -> -> ->. done. Qed.

Lemma linked_cs P s l cs st en : gpmc_ok_for P s l -> cs_view s cs = Some (st, en, Some gpmc_mem_root, None) ->
  cs_mem cs ∈ l /\ start_of (m_res (g_mem s)) (cs_mem cs) = st /\ end_of (m_res (g_mem s)) (cs_mem cs) = en.
Proof.
  intros G (r & Hr & Es & Ee & Ep & _)%view_lookup.
  rewrite (start_of_eq _ _ _ Hr), (end_of_eq _ _ _ Hr). split; [|done].
  destruct (to_linked _ (go_tree _ _ _ G) _ _ _ Hr Ep) as (l' & L' & Hin).
  by rewrite (level_det _ _ _ _ (go_level _ _ _ G) L').
Qed.

Lemma open_window s l cs b n : gpmc_ok s l -> is_cs cs -> g_window s cs = Some (b, n) ->
  cs_mem cs ∈ l /\ start_of (m_res (g_mem s)) (cs_mem cs) = b /\
  b + n - 1 <= end_of (m_res (g_mem s)) (cs_mem cs).
Proof.
  intros G Hcs Hw. destruct (go_cs _ _ _ G cs Hcs) as (st & en & p & Hv & H).
  destruct p as [a|]; [|by destruct H as [Hw' _]; rewrite (Hw' I) in Hw].
  destruct H as [-> (n' & Hw' & Hn)]. rewrite Hw in Hw'. injection Hw' as -> ->.
  destruct (linked_cs _ _ _ _ _ _ G Hv) as (? & ? & ?). split; [done|]. lia.
Qed.

Lemma windows_apart s l cs cs' b n b' n' :
  gpmc_ok s l -> is_cs cs -> is_cs cs' -> cs <> cs' ->
  g_window s cs = Some (b, n) -> g_window s cs' = Some (b', n') -> b + n <= b' \/ b' + n' <= b.
Proof.
  intros G Hcs Hcs' Hne Hw Hw'.
  destruct (open_window _ _ _ _ _ G Hcs Hw) as (Hin & Es & Ee).
  destruct (open_window _ _ _ _ _ G Hcs' Hw') as (Hin' & Es' & Ee').
  pose proof (level_ok _ _ _ (go_tree _ _ _ G) (go_level _ _ _ G)) as K.
  destruct (kids_apart _ _ _ _ _ K Hin Hin') as [H|H]; [intros E; by apply cs_mem_inj in E | |]; lia.
Qed.

(** A chip select that is neither reserved nor open. *)
Definition cs_idle s (cs : Z) : Prop := exists st en, cs_view s cs = Some (st, en, None, None).

(** The free windows of [n] bytes. *)
Definition free_window s (l : list positive) (n b : Z) : Prop :=
  candidate (m_res (g_mem s)) gpmc_mem_root l n 0 0xffffffff n b.

(** The state after a range was given out, and a window within it. *)
Lemma request_ok (P P' : Z -> Prop) s l cs r b n e s' m' :
  gpmc_ok_for P s l -> is_cs cs -> (forall c, P' c -> P c \/ c = cs) ->
  m_res (g_mem s) !! cs_mem cs = Some r -> rs_parent r = None -> rs_child r = None ->
  linked_at (g_mem s) gpmc_mem_root (cs_mem cs) r l b e m' -> b + n - 1 <= e ->
  (forall c, is_cs c -> g_window s' c = if decide (c = cs) then Some (b, n) else g_window s c) ->
  g_mem s' = m' -> (forall c, is_cs c -> c <> cs -> Z.testbit (g_cs_map s') c = Z.testbit (g_cs_map s) c) ->
  exists l1 l2, l = l1 ++ l2 /\ gpmc_ok_for P' s' (l1 ++ cs_mem cs :: l2).
Proof.
  intros G Hcs HP Hr Hpar Hch (l1 & l2 & -> & Em & T' & L') Hne Hw <- Hmap. cbn in Em.
  pose proof (cs_mem_root cs Hcs) as Hroot. exists l1, l2. split; [done|]. split; try done.
  - assert (forall a, a <> cs_mem cs ->
      range <$> m_res (g_mem s') !! a = range <$> m_res (g_mem s) !! a) as E.
    { intros a Ha. rewrite Em. cbn. rewrite link_range. by rewrite lookup_insert_ne. }
    rewrite (range_start (m_res (g_mem s))), (range_end (m_res (g_mem s))) by (by apply E). apply (go_root _ _ _ G).
  - intros c Hc. rewrite (Hw c Hc).
    unfold cs_view. rewrite Em. cbn [m_res set_m_res]. destruct (decide (c = cs)) as [->|Hnc].
    + exists b, e, (Some gpmc_mem_root).
      rewrite (link_view_new _ _ _ _ _ (resize b e r)) by (done || apply lookup_insert_eq).
      split; [by rewrite <- Hch|]. split; [done|]. by exists n.
    + assert (cs_mem c <> cs_mem cs) as Hcc by (intros E; by apply cs_mem_inj in E).
      rewrite link_view by (done || by apply cs_mem_root). rewrite lookup_insert_ne, Hmap by done.
      destruct (go_cs _ _ _ G c Hc) as (st & en & p & Hv & H). exists st, en, p. split; [done|].
      destruct p; [done|]. destruct H as [H1 H2]. split; [|done]. intros [HPc|?]%HP; [by apply H1 | done].
Qed.

(** A failed request leaves the windows and the tree as they are. *)
Lemma refused_ok s l cs r st en s' :
  gpmc_ok s l -> is_cs cs -> m_res (g_mem s) !! cs_mem cs = Some r -> rs_parent r = None -> rs_child r = None ->
  tree_ok (m_res (g_mem s')) ->
  g_mem s' = set_m_res (<[cs_mem cs := resize st en r]> (m_res (g_mem s))) (g_mem s) ->
  (forall c, is_cs c -> g_window s' c = g_window s c) -> g_cs_map s' = g_cs_map s -> gpmc_ok s' l.
Proof.
  intros G Hcs Hr Hpar Hch T Em Hw Hmap. pose proof (cs_mem_root cs Hcs) as Hroot. split; [done | | |].
  - rewrite Em. cbn. apply resize_level; [done | apply (go_level _ _ _ G)].
  - rewrite Em. unfold start_of, end_of. cbn. rewrite lookup_insert_ne by done. apply (go_root _ _ _ G).
  - intros c Hc. rewrite (Hw c Hc), Hmap. destruct (go_cs _ _ _ G c Hc) as (st0 & en0 & p & Hv & H).
    unfold cs_view in *. rewrite Em. cbn [m_res set_m_res]. destruct (decide (c = cs)) as [->|Hne].
    + rewrite lookup_insert_eq. exists st, en, None. rewrite Hr in Hv. injection Hv as _ _ <- _.
      rewrite Hpar in H. split; [|done].
      change (view <$> Some (resize st en r)) with (Some (st, en, rs_parent r, rs_child r)). by rewrite Hpar, Hch.
    + rewrite lookup_insert_ne by (intros E; by apply cs_mem_inj in E). eauto.
Qed.

(** The register fields hold the window that was chosen. *)
Lemma chosen_window s l k b : gpmc_ok s l -> 24 <= k <= 28 -> free_window s l (2 ^ k) b ->
  window (config7 b (2 ^ k)) = Some (b, 2 ^ k) /\ uint 32 (config7 b (2 ^ k)) /\ 0 <= b /\ b + 2 ^ k <= 2 ^ 30.
Proof.
  intros G Hk (Ha & _ & _ & _ & Hlo & Hhi & _). destruct (go_root _ _ _ G) as [Er1 Er2]. rewrite Er1 in Hlo. rewrite Er2 in Hhi.
  unfold GPMC_MEM_START, BOOT_ROM_SPACE, GPMC_MEM_END in *. apply Z.mod_divide in Ha as [q ->]; [|lia].
  assert (2 ^ k = 2 ^ (k - 24) * 2 ^ 24) as Ek by (rewrite <- Z.pow_add_r by lia; f_equal; lia).
  assert (1 <= 2 ^ (k - 24) <= 16) as Hn.
  { split; [lia|]. change 16 with (2 ^ 4). apply Z.pow_le_mono_r; lia. }
  rewrite Ek in *. replace (q * (2 ^ (k - 24) * 2 ^ 24)) with (q * 2 ^ (k - 24) * 2 ^ 24) in * by lia.
  set (n := 2 ^ (k - 24)) in *. set (m := q * n) in *.
  destruct (window_config7 m n) as [H1 H2]; [lia | lia |]. split_and!; try done; lia.
Qed.

Lemma linked_view m root new nr l st en m' : linked_at m root new nr l st en m' -> new <> root ->
  view <$> m_res m' !! new = Some (st, en, Some root, rs_child nr).
Proof.
  intros (l1 & l2 & _ & -> & _) Hne. cbn [m_res set_m_res].
  by rewrite (link_view_new _ _ _ _ _ (resize st en nr)) by (done || apply lookup_insert_eq).
Qed.

(** What [gpmc_cs_request] does once it has a window. *)
Lemma request_tail_wp s l cs r k b m' w1 :
  gpmc_ok s l -> windows_plain s -> is_cs cs -> 24 <= k <= 28 -> free_window s l (2 ^ k) b ->
  linked_at (g_mem s) gpmc_mem_root (cs_mem cs) r l b (b + 2 ^ k - 1) m' -> io_reads (g_w s) w1 ->
  wp (res ← gpmc_cs_mem cs;
      rr ← on_mem (get_res res);
      gpmc_cs_enable_mem cs (rs_start rr) (resource_size rr);;
      gpmc_cs_set_reserved cs true;;
      ret (0, Some (rs_start rr)))
    (fun '(ret, base) s' => ret = 0 /\ base = Some b /\ g_mem s' = m' /\
       g_cs_map s' = map_set cs true (g_cs_map s) /\ g_base s' = g_base s /\
       forall c, is_cs c -> g_window s' c = if decide (c = cs) then Some (b, 2 ^ k) else g_window s c)
    (set_g_mem m' (set_g_w w1 s)).
Proof.
  intros G Hp Hcs Hk Hfree Hl Hw1. destruct (chosen_window s l k b G Hk Hfree) as (Hwin & Hu & Hb0 & Hb1).
  pose proof (linked_view _ _ _ _ _ _ _ _ Hl (cs_mem_root cs Hcs)) as (rr & Hrr & Es & Ee & _)%view_lookup.
  assert (2 ^ k <= 2 ^ 28) as Hk28 by (apply Z.pow_le_mono_r; lia).
  apply wp_bind, gpmc_cs_mem_wp; [done|]. apply wp_bind, wp_on_mem. eapply wp_get_res; [exact Hrr|].
  assert (resource_size rr = 2 ^ k) as ->.
  { unfold resource_size. rewrite Es, Ee. rewrite (wrapu_small 32); [lia | split; lia]. }
  rewrite Es. apply wp_bind. eapply wp_mono; [by apply enable_mem_wp|]. intros u s2 Hs2.
  apply wp_bind, set_reserved_wp; [done|]. wp_pure. pose proof Hs2 as (w2 & E2 & _).
  split; [done|]. split; [done|]. do 3 (split; [by rewrite E2|]).
  intros c Hc. change (g_window (set_g_cs_map ?x ?y) c) with (g_window y c).
  pose proof (cs_wrote_window cs _ (set_g_mem m' (set_g_w w1 s)) s2 c Hp Hcs Hc Hs2) as E. rewrite E.
  destruct (decide (c = cs)); [done|].
  change (g_window (set_g_mem ?x ?y) c) with (g_window y c). by apply reads_window.
Qed.

(** [n] is the least power of two that is at least 16 MB and at least the size. *)
Definition least_size (size n : Z) : Prop :=
  exists k, n = 2 ^ k /\ 24 <= k /\ size <= n /\ forall j, 24 <= j -> size <= 2 ^ j -> n <= 2 ^ j.

Lemma mem_align_least size k :
  24 <= k -> size <= 2 ^ k -> k = 24 \/ 2 ^ (k - 1) < size -> least_size size (2 ^ k).
Proof.
  intros Hk Hs Hl. exists k. split_and!; try done. intros j Hj Hsj. apply Z.pow_le_mono_r; [lia|].
  destruct Hl as [->|Hl]; [done|]. destruct (Z.le_gt_cases k j) as [|Hgt]; [done|].
  pose proof (Z.pow_le_mono_r 2 j (k - 1) ltac:(lia) ltac:(lia)). lia.
Qed.

(** Registers were read, and the range of the resource of the chip select was changed, which
    is in no tree: nothing else differs. *)
Definition only_tried s (cs : Z) s' : Prop :=
  exists w' r st en, io_reads (g_w s) w' /\ m_res (g_mem s) !! cs_mem cs = Some r /\
    s' = set_g_mem (set_m_res (<[cs_mem cs := resize st en r]> (m_res (g_mem s))) (g_mem s)) (set_g_w w' s).

(** A window was given to the chip select: its register and its resource hold it, it is
    reserved; every other chip select has the window, the range and the reservation it had. *)
Definition given s (cs b n : Z) s' : Prop :=
  (forall c, is_cs c -> g_window s' c = if decide (c = cs) then Some (b, n) else g_window s c) /\
  (forall c, is_cs c -> cs_view s' c =
     if decide (c = cs) then Some (b, b + n - 1, Some gpmc_mem_root, None) else cs_view s c) /\
  (forall c, is_cs c -> Z.testbit (g_cs_map s') c = if decide (c = cs) then true else Z.testbit (g_cs_map s) c).

(** What [gpmc_cs_request] promises for an idle chip select. *)
Definition request_spec s l (cs size ret : Z) (base : option Z) s' : Prop := exists n, least_size size n /\
  ((ret = - ENOMEM /\ base = None /\ s' = s /\ 2 ^ 28 < n) \/
   (n <= 2 ^ 28 /\ exists l', gpmc_ok s' l' /\
     ((exists b, ret = 0 /\ base = Some b /\ free_window s l n b /\
         (forall b', free_window s l n b' -> b <= b') /\ given s cs b n s') \/
      (ret = - EBUSY /\ base = None /\ (forall b, ~ free_window s l n b) /\ only_tried s cs s')))).

(** The views after the linking. *)
Lemma linked_views s l cs r b e s' :
  is_cs cs -> rs_child r = None -> linked_at (g_mem s) gpmc_mem_root (cs_mem cs) r l b e (g_mem s') ->
  forall c, is_cs c -> cs_view s' c =
    if decide (c = cs) then Some (b, e, Some gpmc_mem_root, None) else cs_view s c.
Proof.
  intros Hcs Hch (l1 & l2 & _ & Em & _) c Hc. unfold cs_view. rewrite Em. cbn [m_res set_m_res].
  pose proof (cs_mem_root cs Hcs) as Hroot. destruct (decide (c = cs)) as [->|Hne].
  - rewrite (link_view_new _ _ _ _ _ (resize b e r)) by (done || apply lookup_insert_eq). by rewrite <- Hch.
  - assert (cs_mem c <> cs_mem cs) as Hcc by (intros E; by apply cs_mem_inj in E).
    rewrite link_view by (done || by apply cs_mem_root). by rewrite lookup_insert_ne.
Qed.

Lemma request_idle_wp s l cs size :
  gpmc_ok s l -> windows_plain s -> is_cs cs -> cs_idle s cs -> 1 <= size <= 2 ^ 31 ->
  wp (gpmc_cs_request cs size)
    (fun '(ret, base) s' => request_spec s l cs size ret base s' /\ g_base s' = g_base s) s.
Proof.
  intros G Hp Hcs (st & en & Hv) Hsize. destruct (gpmc_mem_align_spec size Hsize) as (k & Hk & En & Hks & Hkl).
  pose proof (mem_align_least size k ltac:(lia) Hks Hkl) as Hleast.
  unfold gpmc_cs_request. rewrite (proj2 (Z.ltb_ge GPMC_CS_NUM cs)) by (unfold is_cs in Hcs; lia). rewrite En.
  change (Z.shiftl 1 GPMC_SECTION_SHIFT) with (2 ^ 28).
  destruct (Z.ltb_spec (2 ^ 28) (2 ^ k)) as [Hbig|Hfit].
  { wp_pure. split; [|done]. exists (2 ^ k). split; [done | by left]. }
  assert (k <= 28) as Hk28 by (by apply (Z.pow_le_mono_r_iff 2)).
  destruct (go_cs _ _ _ G cs Hcs) as (st' & en' & p & Hv' & H). rewrite Hv in Hv'. injection Hv' as <- <- <-.
  destruct H as [Hwin Hbit]. specialize (Hwin I). apply view_lookup in Hv as (r & Hr & _ & _ & Hpar & Hch).
  unfold gpmc_cs_reserved. rewrite (proj2 (Z.ltb_ge GPMC_CS_NUM cs)) by (unfold is_cs in Hcs; lia). wp_pure.
  rewrite reserved_test, Hbit by done. cbn [negb]. apply wp_bind, mem_enabled_wp. intros w1 Hw1.
  unfold g_window, window in Hwin. destruct (_ =? 0); [|done]. wp_pure. change (-1 <? 0) with true. cbv iota.
  pose proof (fun c Hc => reads_window s w1 c Hp Hc Hw1) as Hreads.
  wp_pure. apply gpmc_cs_mem_wp; [done|]. apply wp_on_mem. eapply wp_mono.
  { apply (allocate_lowest (g_mem s) gpmc_mem_root (cs_mem cs) r l (2 ^ k) 0 (u32 (Z.lnot 0)) k);
      try done; [apply G | apply G | split_and!; [done..|by apply cs_mem_root] | lia | lia]. }
  change (u32 (Z.lnot 0)) with 0xffffffff.
  intros ret m' [(-> & b & Hfree & Hlow & Hl)|(-> & Hnone & T' & x & y & ->)].
  2:{ change (- EBUSY <? 0) with true. wp_pure. split; [|done]. exists (2 ^ k). split; [done|]. right.
      split; [done|]. exists l. split; [by apply (refused_ok s l cs r x y)|].
      right. split_and!; try done. by exists w1, r, x, y. }
  change (0 <? 0) with false. cbv iota. eapply wp_mono.
  { apply (request_tail_wp s l cs r k b m' w1); try done. lia. }
  intros [ret base] s' (-> & -> & Em & Emap & Hbase & Hw). split; [|done]. exists (2 ^ k). split; [done|].
  right. split; [done|].
  assert (forall c, is_cs c -> Z.testbit (g_cs_map s') c = if decide (c = cs) then true else Z.testbit (g_cs_map s) c) as Hmap.
  { intros c Hc. rewrite Emap. apply map_set_bit; [done | unfold is_cs, GPMC_CS_NUM in *; lia]. }
  destruct (request_ok (fun _ => True) (fun _ => True) s l cs r b (2 ^ k) (b + 2 ^ k - 1) s' m') as (l1 & l2 & _ & G'); try done.
  { by left. }
  { intros c Hc Hne. rewrite Hmap by done. by rewrite decide_False. }
  exists (l1 ++ cs_mem cs :: l2). split; [done|]. left. exists b. subst m'. split_and!; try done.
  split_and!; [done | by apply (linked_views s l cs r) | done].
Qed.

(** C24: a chip select that is idle gets the lowest free window of the size it asks for,
    rounded up to the least power of two of at least 16 MB, and aligned to it: the register
    and the tree both hold it, the chip select is marked as reserved, every other chip select
    keeps its window, its range and its reservation, and the invariant is kept.  The request
    is refused with -ENOMEM and an unchanged state when the rounded size is above 256 MB, and
    with -EBUSY when no window is free: then no register was written and only the range of the
    idle resource, which is in no tree, may differ. *)
Theorem gpmc_cs_request_correct s l cs size :
  gpmc_ok s l -> windows_plain s -> is_cs cs -> cs_idle s cs -> 1 <= size <= 2 ^ 31 ->
  wp (gpmc_cs_request cs size) (fun '(ret, base) s' => request_spec s l cs size ret base s') s.
Proof.
  intros G Hp Hcs Hidle Hsize. eapply wp_mono; [by apply (request_idle_wp s l)|]. by intros [ret base] s' [? _].
Qed.

(** A reserved chip select is refused. *)
Lemma request_reserved_wp s cs size : is_cs cs -> Z.testbit (g_cs_map s) cs = true ->
  wp (gpmc_cs_request cs size) (fun r s' => s' = s /\ (r.1 = - ENOMEM \/ r.1 = - EBUSY)) s.
Proof.
  intros Hcs Hbit. unfold gpmc_cs_request, gpmc_cs_reserved.
  rewrite (proj2 (Z.ltb_ge GPMC_CS_NUM cs)) by (unfold is_cs in Hcs; lia). case_bool; wp_pure; [auto|].
  rewrite reserved_test, Hbit by done. cbn [negb]. wp_pure. auto.
Qed.

(** ** Freeing *)

Lemma window_closed x : window (Z.land x (u32 (Z.lnot GPMC_CONFIG7_CSVALID))) = None.
Proof.
  unfold window. rewrite <- Z.land_assoc. change (Z.land (u32 _) _) with 0. by rewrite Z.land_0_r.
Qed.

Lemma disable_mem_wp cs s :
  wp (gpmc_cs_disable_mem cs) (fun _ s' => cs_wrote cs GPMC_CS_CONFIG7
    (Z.land (csreg s cs GPMC_CS_CONFIG7) (u32 (Z.lnot GPMC_CONFIG7_CSVALID))) s s') s.
Proof.
  apply (cs_rmw_wp cs GPMC_CS_CONFIG7 (fun x => Z.land x (u32 (Z.lnot GPMC_CONFIG7_CSVALID)))).
  intros x Hx. apply land_uint_l; [lia | done].
Qed.

(** The state after a window was closed. *)
Lemma freed_ok s l cs r l1 l2 s' :
  gpmc_ok s l -> is_cs cs -> m_res (g_mem s) !! cs_mem cs = Some r -> rs_child r = None ->
  level (m_res (g_mem s)) gpmc_mem_root (l1 ++ cs_mem cs :: l2) ->
  g_mem s' = set_m_res (unlink (m_res (g_mem s)) gpmc_mem_root (cs_mem cs) l1 l2) (g_mem s) ->
  (forall c, is_cs c -> g_window s' c = if decide (c = cs) then None else g_window s c) ->
  g_cs_map s' = map_set cs false (g_cs_map s) ->
  gpmc_ok s' (l1 ++ l2) /\ cs_idle s' cs.
Proof.
  intros G Hcs Hr Hch L Em Hw Hmap. pose proof (cs_mem_root cs Hcs) as Hroot. pose proof (go_tree _ _ _ G) as T.
  assert (cs_view s' cs = Some (rs_start r, rs_end r, None, None)) as Hv.
  { unfold cs_view. rewrite Em. cbn [m_res set_m_res]. by rewrite (unlink_view_old _ _ _ _ _ r), Hch. }
  split; [|by exists (rs_start r), (rs_end r)]. split.
  - rewrite Em. by apply unlink_tree.
  - rewrite Em. by apply unlink_level.
  - rewrite Em. cbn [m_res set_m_res].
    rewrite (range_start (m_res (g_mem s))), (range_end (m_res (g_mem s))) by apply unlink_range. apply (go_root _ _ _ G).
  - intros c Hc. rewrite (Hw c Hc), Hmap, map_set_bit by (unfold is_cs, GPMC_CS_NUM in *; done || lia).
    destruct (decide (c = cs)) as [->|Hne].
    + exists (rs_start r), (rs_end r), None. done.
    + destruct (go_cs _ _ _ G c Hc) as (st & en & p & Hv' & H). exists st, en, p. split; [|done].
      rewrite <- Hv'. unfold cs_view. rewrite Em. cbn [m_res set_m_res].
      apply unlink_view; [intros E; by apply cs_mem_inj in E | by apply cs_mem_root].
Qed.

Definition free_spec s (cs : Z) s' : Prop := exists l', gpmc_ok s' l' /\ cs_idle s' cs /\
  Z.testbit (g_cs_map s') cs = false /\ (cs_mem cs ∉ l') /\
  forall c, is_cs c -> g_window s' c = if decide (c = cs) then None else g_window s c.

Lemma free_wp s l cs :
  gpmc_ok s l -> windows_plain s -> is_cs cs -> Z.testbit (g_cs_map s) cs = true ->
  wp (gpmc_cs_free cs) (fun _ s' => free_spec s cs s' /\ g_base s' = g_base s) s.
Proof.
  intros G Hp Hcs Hbit. unfold gpmc_cs_free, gpmc_cs_reserved.
  rewrite (proj2 (Z.leb_gt GPMC_CS_NUM cs)), (proj2 (Z.ltb_ge cs 0)), (proj2 (Z.ltb_ge GPMC_CS_NUM cs))
    by (unfold is_cs in Hcs; lia). cbn [orb]. wp_pure. rewrite reserved_test, Hbit by done. cbn [negb].
  destruct (go_cs _ _ _ G cs Hcs) as (st & en & p & Hv & H). destruct p as [a|]; [|by destruct H; congruence].
  destruct H as [-> _]. destruct (linked_cs _ _ _ _ _ _ G Hv) as (Hin & _).
  apply view_lookup in Hv as (r & Hr & _ & _ & Hpar & Hch).
  apply wp_bind. eapply wp_mono; [apply disable_mem_wp|]. intros u s1 Hs1. pose proof Hs1 as (w1 & E1 & _).
  apply wp_bind, gpmc_cs_mem_wp; [done|]. apply wp_bind, wp_on_mem.
  assert (g_mem s1 = g_mem s) as Em1 by (by rewrite E1). rewrite Em1.
  eapply wp_mono; [apply (release_wp _ gpmc_mem_root _ r); [apply G | done | done]|].
  intros ret m' (_ & l1 & l2 & L & ->). apply wp_bind, set_reserved_wp; [done|]. wp_pure.
  set (s' := set_g_cs_map _ _).
  assert (forall c, is_cs c -> g_window s' c = if decide (c = cs) then None else g_window s c) as Hw.
  { intros c Hc. change (g_window s' c) with (g_window s1 c).
    rewrite (cs_wrote_window cs _ s s1 c Hp Hcs Hc Hs1). by rewrite window_closed. }
  destruct (freed_ok s l cs r l1 l2 s') as [G' Hidle]; try done; [unfold s'; by rewrite E1|].
  split; [|unfold s'; by rewrite E1].
  exists (l1 ++ l2). split_and!; try done.
  - unfold s'. g_simpl. rewrite map_set_bit by (unfold is_cs, GPMC_CS_NUM in *; done || lia). by rewrite decide_True.
  - by apply (unlink_fresh (m_res (g_mem s)) gpmc_mem_root); [apply G|].
Qed.

(** Freeing a reserved chip select closes its window, gives the range back and clears the
    reservation; no other window changes and the invariant is kept. *)
Theorem gpmc_cs_free_correct s l cs :
  gpmc_ok s l -> windows_plain s -> is_cs cs -> Z.testbit (g_cs_map s) cs = true ->
  wp (gpmc_cs_free cs) (fun _ s' => free_spec s cs s') s.
Proof.
  intros G Hp Hcs Hbit. eapply wp_mono; [by apply (free_wp s l)|]. by intros _ s' [? _].
Qed.

(** Freeing anything else stops the kernel. *)
Lemma free_bug s cs u s' : gpmc_cs_free cs s = Done u s' -> is_cs cs /\ Z.testbit (g_cs_map s) cs = true.
Proof.
  unfold gpmc_cs_free, is_cs. destruct (Z.leb_spec GPMC_CS_NUM cs); [done|].
  destruct (Z.ltb_spec cs 0); [done|]. cbn [orb]. intros E. split; [lia|].
  destruct (Z.testbit (g_cs_map s) cs) eqn:Hb; [done|]. rewrite (bind_Done _ _ true s s) in E; [done|].
  unfold gpmc_cs_reserved, bind, gets, ret. rewrite (proj2 (Z.ltb_ge GPMC_CS_NUM cs)) by lia.
  by rewrite reserved_test, Hb by (unfold is_cs; lia).
Qed.

(** A window that [gpmc_cs_enable_mem] opens, of 1 to 16 chunks of 16 MB below 1 GB, is what
    [gpmc_cs_get_memconf] reads back. *)
Theorem memconf_roundtrip s cs b n :
  windows_plain s -> is_cs cs -> 0 <= b < 64 -> 1 <= n <= 16 ->
  wp (gpmc_cs_enable_mem cs (b * 2 ^ 24) (n * 2 ^ 24);; gpmc_cs_get_memconf cs)
    (fun r s' => r = (b * 2 ^ 24, n * 2 ^ 24) /\ g_window s' cs = Some r) s.
Proof.
  intros Hp Hcs Hb Hn. destruct (window_config7 b n Hb Hn) as [Hw Hu].
  apply wp_bind. eapply wp_mono; [by apply enable_mem_wp|]. intros u s1 Hs1.
  pose proof (cs_wrote_window cs _ s s1 cs Hp Hcs Hcs Hs1) as E. rewrite decide_True, Hw in E by done.
  assert (windows_plain s1) as Hp1 by (destruct Hs1 as (w & -> & _); exact Hp).
  unfold gpmc_cs_get_memconf, gpmc_cs_read_reg. wp_pure. apply wp_on_world, wp_readl. wp_pure.
  assert (memconf (csreg s1 cs GPMC_CS_CONFIG7) = (b * 2 ^ 24, n * 2 ^ 24)) as Em.
  { unfold g_window, window in E. destruct (Z.land _ _ =? 0); [done|]. by apply (inj Some) in E. }
  split; [exact Em|]. rewrite reads_window by (done || by apply io_reads_1). rewrite E. f_equal. symmetry. exact Em.
Qed.

(** ** A chip select that does not exist *)

Lemma align_small size : 1 <= size <= 2 ^ 28 -> gpmc_mem_align size <= 2 ^ 28.
Proof.
  intros Hs. destruct (gpmc_mem_align_spec size ltac:(lia)) as (k & Hk & -> & _ & H).
  assert (k <= 28) as Hk28.
  { destruct (Z.le_gt_cases k 28) as [|Hgt]; [done|]. destruct H as [?|H]; [lia|].
    pose proof (Z.pow_le_mono_r 2 28 (k - 1)). lia. }
  apply Z.pow_le_mono_r; lia.
Qed.

(** The guards of the driver refuse a chip select with [cs > GPMC_CS_NUM], so that the
    number 8 passes them: a request for it, unless it is refused as reserved, follows a pointer
    behind the table of the eight windows whatever the size and the registers are. *)
Theorem gpmc_cs_request_off_by_one s size :
  1 <= size <= 2 ^ 28 -> Z.testbit (g_cs_map s) GPMC_CS_NUM = false ->
  ~ is_cs GPMC_CS_NUM /\ gpmc_cs_request GPMC_CS_NUM size s = Fault OutOfBounds.
Proof.
  intros Hs Hbit. split; [unfold is_cs; lia|]. pose proof (align_small size Hs) as Ha.
  unfold gpmc_cs_request, gpmc_cs_reserved. rewrite Z.ltb_irrefl.
  rewrite (proj2 (Z.ltb_ge _ _)) by exact Ha.
  unfold bind, gets, ret. rewrite lsl_1, land_pow2_test, Hbit by (unfold GPMC_CS_NUM; lia). cbn [negb].
  destruct (gpmc_cs_mem_enabled GPMC_CS_NUM s) as [en s'|f] eqn:E; [|done].
  by destruct (en =? 0).
Qed.
End Window.
