(* ===== verification/GpmcTiming.v ===== *)
(** * The timings of the chip selects

    [gpmc_cs_set_timings] of mach-omap2/gpmc.c: times in nanoseconds become ticks of the
    functional clock, each in its field of the configuration registers. *)

From Stdlib Require Import Sorted.
From S2P Require Import Prelude Platform ClkCore Resource Gpmc GpmcWindow.

(** ** Bit fields *)

(** [nb] bits from bit [st] on: what the code writes there, and what they hold. *)
Definition put (st nb t old : Z) : Z :=
  Z.lor (Z.land old (u32 (Z.lnot (Z.shiftl (Z.shiftl 1 nb - 1) st)))) (lsl (u32 t) st).
Definition field (st nb v : Z) : Z := Z.land (Z.shiftr v st) (Z.ones nb).

Lemma put_bit st nb t old i : 0 <= st -> 0 <= nb -> st + nb <= 32 -> 0 <= t < 2 ^ nb -> 0 <= i < 32 ->
  Z.testbit (put st nb t old) i =
    if (st <=? i) && (i <? st + nb) then Z.testbit t (i - st) else Z.testbit old i.
Proof.
  intros Hst Hnb Hw Ht Hi. unfold put. rewrite Z.shiftl_1_l.
  replace (2 ^ nb - 1) with (Z.ones nb) by (rewrite Z.ones_equiv; lia).
  assert (2 ^ nb <= 2 ^ 32) by (apply Z.pow_le_mono_r; lia).
  rewrite (wrapu_small 32 t) by (split; lia). rewrite Z.lor_spec, Z.land_spec.
  unfold wrapu at 1. rewrite Z.mod_pow2_bits_low, Z.lnot_spec, Z.shiftl_spec by lia.
  destruct (decide (st = 32)) as [->|Hst32].
  { rewrite (proj2 (Z.leb_gt 32 i)) by lia. cbn [andb]. rewrite (Z.testbit_neg_r (Z.ones nb)) by lia.
    unfold lsl. cbn. rewrite Z.bits_0, andb_true_r. by rewrite orb_false_r. }
  rewrite lsl_in by lia. unfold wrapu. rewrite Z.mod_pow2_bits_low, Z.shiftl_spec by lia.
  destruct (Z.leb_spec st i) as [H1|H1]; cbn [andb].
  - destruct (Z.ltb_spec i (st + nb)) as [H2|H2].
    + rewrite Z.ones_spec_low by lia. cbn. by rewrite andb_false_r.
    + rewrite Z.ones_spec_high by lia. rewrite (uint_bits nb t) by (done || lia). cbn. by rewrite andb_true_r, orb_false_r.
  - rewrite !(Z.testbit_neg_r _ (i - st)) by lia. cbn. by rewrite andb_true_r, orb_false_r.
Qed.

Lemma put_uint st nb t old : uint 32 old -> uint 32 (put st nb t old).
Proof. intros H. apply lor_uint; [lia | apply land_uint_l; [lia | done] | apply lsl_uint]. Qed.

Lemma field_bit st nb v i : 0 <= st -> 0 <= nb -> 0 <= i ->
  Z.testbit (field st nb v) i = (i <? nb) && Z.testbit v (i + st).
Proof.
  intros Hst Hnb Hi. unfold field. rewrite Z.land_spec, Z.shiftr_spec by lia.
  destruct (Z.ltb_spec i nb); [rewrite Z.ones_spec_low by lia | rewrite Z.ones_spec_high by lia].
  - by rewrite andb_true_r.
  - by rewrite andb_false_r.
Qed.

Lemma field_put st nb t old : 0 <= st -> 0 <= nb -> st + nb <= 32 -> 0 <= t < 2 ^ nb ->
  field st nb (put st nb t old) = t.
Proof.
  intros Hst Hnb Hw Ht. apply Z.bits_inj'. intros i Hi. rewrite field_bit by lia.
  destruct (Z.ltb_spec i nb); cbn [andb].
  - rewrite put_bit by lia. rewrite (proj2 (Z.leb_le st (i + st))), (proj2 (Z.ltb_lt (i + st) (st + nb))) by lia.
    cbn [andb]. f_equal. lia.
  - by rewrite (uint_bits nb t) by (done || lia).
Qed.

Lemma field_put_other st nb t old st' nb' : 0 <= st -> 0 <= nb -> st + nb <= 32 -> 0 <= t < 2 ^ nb ->
  0 <= st' -> 0 <= nb' -> st' + nb' <= 32 -> st + nb <= st' \/ st' + nb' <= st ->
  field st' nb' (put st nb t old) = field st' nb' old.
Proof.
  intros Hst Hnb Hw Ht Hst' Hnb' Hw' Hd. apply Z.bits_inj'. intros i Hi. rewrite !field_bit by lia.
  destruct (Z.ltb_spec i nb'); [|done]. cbn [andb]. rewrite put_bit by lia.
  destruct (Z.leb_spec st (i + st')), (Z.ltb_spec (i + st') (st + nb)); cbn [andb]; try done. lia.
Qed.

(** ** Ticks *)

(** The functional clock runs, with a period of [p] ps. *)
Definition fclk (s : gpmc) (p : Z) : Prop := exists c k,
  g_l3_clk s = Some c /\ w_clks (g_w s) !! c = Some k /\ 1000 <= ck_rate k < 2 ^ 32 /\
  p = 1000000000 / (ck_rate k / 1000).

(** The ticks that cover [t] ns. *)
Definition ticks_of (p t : Z) : Z := if t =? 0 then 0 else (t * 1000 + p - 1) / p.

Section Timing.
  Context `{HW : Hardware}.
Implicit Types s : gpmc.

Lemma fclk_range s p : fclk s p -> 1 <= p <= 1000000000.
Proof.
  intros (c & k & _ & _ & Hr & ->).
  assert (1 <= ck_rate k / 1000) by (apply Z.div_le_lower_bound; lia).
  assert (ck_rate k / 1000 <= 4294968) by (apply Z.div_le_upper_bound; lia).
  split; [apply Z.div_le_lower_bound; lia | apply Z.div_le_upper_bound; nia].
Qed.

Lemma fclk_wp s p Q : fclk s p -> Q p s -> wp gpmc_get_fclk_period Q s.
Proof.
  intros (c & k & Hc & Hk & Hr & ->) HQ. unfold gpmc_get_fclk_period. wp_pure. rewrite Hc.
  apply wp_on_world. cbn [clk_get_rate]. apply wp_bind. eapply wp_get_clk; [done|]. wp_pure.
  rewrite (proj2 (Z.eqb_neq _ _)) by lia.
  assert (1 <= ck_rate k / 1000) by (apply Z.div_le_lower_bound; lia).
  apply wp_divu; [lia|]. by destruct s.
Qed.

(** [gpmc_ns_to_ticks] gives the least number of ticks that last at least as long as
    asked for. *)
Theorem gpmc_ns_to_ticks_least s p t :
  fclk s p -> uint 16 t ->
  wp (gpmc_ns_to_ticks t) (fun n s' => s' = s /\ t * 1000 <= n * p /\
    forall n', 0 <= n' -> t * 1000 <= n' * p -> n <= n') s.
Proof.
  intros Hf [Ht0 Ht1]. pose proof (fclk_range s p Hf) as Hp. unfold gpmc_ns_to_ticks.
  apply wp_bind. eapply fclk_wp; [done|]. rewrite (wrapu_small 32) by (split; lia).
  apply wp_divu; [lia|]. split; [done|].
  pose proof (Z.div_mod (t * 1000 + p - 1) p ltac:(lia)). pose proof (Z.mod_pos_bound (t * 1000 + p - 1) p ltac:(lia)).
  split; [lia|]. intros n' Hn' Hle. apply Z.lt_succ_r. apply Z.div_lt_upper_bound; nia.
Qed.

Lemma ticks_range s p t : fclk s p -> uint 16 t -> 0 <= ticks_of p t < 2 ^ 31.
Proof.
  intros Hf [Ht0 Ht1]. pose proof (fclk_range s p Hf) as Hp. unfold ticks_of. case_bool; [lia|].
  split; [apply Z.div_pos; lia|]. apply Z.div_lt_upper_bound; nia.
Qed.

(** ** One field *)

Lemma timing_reg_wp s p cs reg st en t :
  fclk s p -> uint 16 t -> 0 <= st <= en -> en < 31 ->
  wp (set_gpmc_timing_reg cs reg st en t) (fun r s' =>
    (r = -1 /\ s' = s /\ 2 ^ (en - st + 1) <= ticks_of p t) \/
    (r = 0 /\ ticks_of p t < 2 ^ (en - st + 1) /\
     cs_wrote cs reg (put st (en - st + 1) (ticks_of p t) (csreg s cs reg)) s s')) s.
Proof.
  intros Hf Ht Hst Hen. pose proof (fclk_range s p Hf) as Hp. pose proof (ticks_range s p t Hf Ht) as Hn.
  unfold set_gpmc_timing_reg. apply wp_bind.
  assert (forall Q : Z -> gpmc -> Prop, Q (ticks_of p t) s ->
    wp (if t =? 0 then ret 0 else x ← gpmc_ns_to_ticks t; ret (s32 x)) Q s) as Hticks.
  { intros Q HQ. unfold ticks_of in *. destruct (t =? 0); [by apply wp_ret|]. unfold gpmc_ns_to_ticks.
    do 2 apply wp_bind. eapply fclk_wp; [done|]. destruct Ht. rewrite (wrapu_small 32) by (split; lia).
    apply wp_divu; [lia|]. apply wp_ret. by rewrite wraps_small by lia. }
  apply Hticks. cbv zeta. destruct (Z.leb_spec (Z.shiftl 1 (en - st + 1)) (ticks_of p t)) as [H|H];
    rewrite Z.shiftl_1_l in H; [apply wp_ret; by left|].
  apply (cs_rmw_then cs reg (put st (en - st + 1) (ticks_of p t))); [intros; by apply put_uint|].
  intros s' Hs'. wp_pure. by right.
Qed.

(** ** All fields *)

(** A field of the configuration registers and the time to be stored there: the register,
    the first and the last bit, and nanoseconds. *)
Definition entry : Type := Z * Z * Z * Z.

(** [GPMC_SET_ONE] for one entry after the other. *)
Fixpoint set_all (cs : Z) (l : list entry) (k : M gpmc Z) : M gpmc Z :=
  match l with
  | [] => k
  | (reg, st, en, t) :: l' => GPMC_SET_ONE cs reg st en t (set_all cs l' k)
  end.

Definition timing_table (t : gpmc_timings) : list entry :=
  [(GPMC_CS_CONFIG2, 0, 3, cs_on t); (GPMC_CS_CONFIG2, 8, 12, cs_rd_off t);
   (GPMC_CS_CONFIG2, 16, 20, cs_wr_off t);
   (GPMC_CS_CONFIG3, 0, 3, adv_on t); (GPMC_CS_CONFIG3, 8, 12, adv_rd_off t);
   (GPMC_CS_CONFIG3, 16, 20, adv_wr_off t);
   (GPMC_CS_CONFIG4, 0, 3, oe_on t); (GPMC_CS_CONFIG4, 8, 12, oe_off t);
   (GPMC_CS_CONFIG4, 16, 19, we_on t); (GPMC_CS_CONFIG4, 24, 28, we_off t);
   (GPMC_CS_CONFIG5, 0, 4, rd_cycle t); (GPMC_CS_CONFIG5, 8, 12, wr_cycle t);
   (GPMC_CS_CONFIG5, 16, 20, access t); (GPMC_CS_CONFIG5, 24, 27, page_burst_access t)].

(** The divider of the synchronous clock goes into CONFIG1. *)
Definition set_div (cs div : Z) : M gpmc Z :=
  l ← gpmc_cs_read_reg cs GPMC_CS_CONFIG1;
  when (negb (Z.land l (Z.lor GPMC_CONFIG1_READTYPE_SYNC GPMC_CONFIG1_WRITETYPE_SYNC) =? 0))
    (gpmc_cs_write_reg cs GPMC_CS_CONFIG1 (Z.lor (Z.land l (u32 (Z.lnot 0x03))) (div - 1)));;
  ret 0.

Lemma set_timings_eq cs t : gpmc_cs_set_timings cs t =
  (div ← gpmc_cs_calc_divider cs (sync_clk t);
   if div <? 0 then ret (-1) else set_all cs (timing_table t) (set_div cs div)).
Proof. reflexivity. Qed.

(** What an entry asks for, in a state. *)
Definition stored (p cs : Z) s (x : entry) : Prop :=
  let '(reg, st, en, t) := x in
  ticks_of p t < 2 ^ (en - st + 1) /\ field st (en - st + 1) (csreg s cs reg) = ticks_of p t.

Definition too_long (p : Z) (x : entry) : Prop :=
  let '(_, st, en, t) := x in 2 ^ (en - st + 1) <= ticks_of p t.

Definition entry_ok (x : entry) : Prop := let '(_, st, en, t) := x in uint 16 t /\ 0 <= st <= en /\ en < 31.

Definition entry_apart (x y : entry) : Prop :=
  let '(reg, st, en, _) := x in let '(reg', st', en', _) := y in
  reg <> reg' \/ en < st' \/ en' < st.

Lemma entry_apart_sym x y : entry_apart x y -> entry_apart y x.
Proof. destruct x as [[[? ?] ?] ?], y as [[[? ?] ?] ?]. cbn. lia. Qed.

(** What a sequence of entries leaves alone. *)
Record kept (cs : Z) (l : list entry) s s' : Prop := {
  kp_io : exists w', s' = set_g_w w' s /\ io_only (g_w s) w';
  kp_reg : forall a, plain_reg a -> (forall x, x ∈ l -> a <> csaddr s cs x.1.1.1) ->
    regval (g_w s') a = regval (g_w s) a;
  kp_field : forall y, entry_ok y -> plain_reg (csaddr s cs y.1.1.1) -> (forall x, x ∈ l -> entry_apart x y) ->
    field y.1.1.2 (y.1.2 - y.1.1.2 + 1) (csreg s' cs y.1.1.1) =
    field y.1.1.2 (y.1.2 - y.1.1.2 + 1) (csreg s cs y.1.1.1)
}.

Lemma kept_refl cs l s : kept cs l s s.
Proof. split; [|done..]. exists (g_w s). by destruct s. Qed.

Lemma kept_addr cs l s s' c idx : kept cs l s s' -> csaddr s' c idx = csaddr s c idx.
Proof. by intros [(w' & -> & _) _ _]. Qed.

Lemma kept_fclk cs l s s' p : kept cs l s s' -> fclk s p -> fclk s' p.
Proof. intros [(w' & -> & [h ->]) _ _] (c & k & H). by exists c, k. Qed.

Lemma kept_trans cs x l s s1 s2 : kept cs [x] s s1 -> kept cs l s1 s2 -> kept cs (x :: l) s s2.
Proof.
  intros K1 K2. pose proof (fun idx => kept_addr cs [x] s s1 cs idx K1) as Ea.
  destruct K1 as [(w1 & E1 & I1) R1 F1], K2 as [(w2 & E2 & I2) R2 F2]. split.
  - exists w2. subst s1. split; [done|]. by etrans.
  - intros a Ha Hne. rewrite R2, R1; [done | done | | done |].
    + intros y ->%list_elem_of_singleton. apply Hne. by left.
    + intros y Hy. rewrite Ea. apply Hne. by right.
  - intros y Hok Hp Hap. rewrite F2, F1; [done | done | done | | done | by rewrite Ea |].
    + intros z ->%list_elem_of_singleton. apply Hap. by left.
    + intros z Hz. apply Hap. by right.
Qed.

(** One field written. *)
Lemma wrote_kept p cs reg st en t s s' :
  entry_ok (reg, st, en, t) -> fclk s p -> ticks_of p t < 2 ^ (en - st + 1) -> plain_reg (csaddr s cs reg) ->
  cs_wrote cs reg (put st (en - st + 1) (ticks_of p t) (csreg s cs reg)) s s' ->
  kept cs [(reg, st, en, t)] s s' /\ stored p cs s' (reg, st, en, t).
Proof.
  intros (Ht & Hst & Hen) Hf Hlt Hp (w' & -> & [Hio Hv Ho]). pose proof (ticks_range s p t Hf Ht) as Hn.
  assert (csreg (set_g_w w' s) cs reg = put st (en - st + 1) (ticks_of p t) (csreg s cs reg)) as Er by exact (Hv Hp).
  split; [split|].
  - by exists w'.
  - intros a Ha Hne. apply Ho; [done|]. by apply (Hne (reg, st, en, t)), list_elem_of_singleton.
  - intros [[[reg' st'] en'] t'] (_ & Hst' & Hen') Hp' Hap. cbn [fst snd] in *.
    specialize (Hap _ (proj2 (list_elem_of_singleton _ _) eq_refl)). cbn in Hap.
    destruct (decide (reg' = reg)) as [->|Hne].
    + rewrite Er. apply field_put_other; lia.
    + f_equal. unfold csreg. apply Ho; [done|]. unfold csaddr, cs_addr. g_simpl. lia.
  - split; [done|]. rewrite Er. apply field_put; lia.
Qed.

Lemma set_all_wp p cs l k Q s :
  fclk s p -> (forall x, x ∈ l -> entry_ok x /\ plain_reg (csaddr s cs x.1.1.1)) ->
  StronglySorted entry_apart l ->
  (forall s', kept cs l s s' -> (forall x, x ∈ l -> stored p cs s' x) -> wp k Q s') ->
  (forall s', kept cs l s s' -> (exists x, x ∈ l /\ too_long p x) -> Q (-1) s') ->
  wp (set_all cs l k) Q s.
Proof.
  revert s. induction l as [|[[[reg st] en] t] l IH]; intros s Hf Hl Hs Hk Hlong.
  { cbn. apply Hk; [apply kept_refl|]. by intros x ?%elem_of_nil. }
  apply StronglySorted_inv in Hs as [Hs Hx]. rewrite Forall_forall in Hx.
  destruct (Hl _ ltac:(left)) as [Hok Hp]. pose proof Hok as (Ht & Hst & Hen).
  cbn [set_all]. unfold GPMC_SET_ONE. apply wp_bind. eapply wp_mono; [by apply (timing_reg_wp s p)|].
  intros r s1 [(-> & -> & Hbig)|(-> & Hlt & Hw)].
  { change (-1 <? 0) with true. wp_pure. apply Hlong; [apply kept_refl|]. eexists. split; [left | done]. }
  change (0 <? 0) with false. cbv iota.
  destruct (wrote_kept p cs reg st en t s s1) as [K1 S1]; [done..|].
  apply IH; [by eapply kept_fclk | | done | |].
  - intros x Hin. rewrite (kept_addr _ _ _ _ _ _ K1). apply Hl. by right.
  - intros s2 K2 S2. apply Hk; [by eapply kept_trans|]. intros x [->|Hin]%elem_of_cons; [|by apply S2].
    destruct S1 as [S1 S1']. split; [done|]. rewrite <- S1'.
    apply (kp_field _ _ _ _ K2 (reg, st, en, t)); [done | by rewrite (kept_addr _ _ _ _ _ _ K1) |].
    intros y Hy. by apply entry_apart_sym, Hx.
  - intros s2 K2 (x & Hin & Hb). apply Hlong; [by eapply kept_trans|]. exists x. split; [by right | done].
Qed.

(** The table: fields that fit and lie apart. *)
Definition timings_ok (t : gpmc_timings) : Prop :=
  0 <= sync_clk t < 2 ^ 31 /\ forall x, x ∈ timing_table t -> uint 16 x.2.

Lemma table_ok t : timings_ok t -> forall x, x ∈ timing_table t ->
  entry_ok x /\ x.1.1.1 ∈ [GPMC_CS_CONFIG2; GPMC_CS_CONFIG3; GPMC_CS_CONFIG4; GPMC_CS_CONFIG5].
Proof.
  intros [_ H16] [[[reg st] en] tm] Hx. pose proof (H16 _ Hx) as Hu. cbn in Hu.
  assert (forallb (fun '(r, a, b, _) => (0 <=? a) && (a <=? b) && (b <? 31) &&
    bool_decide (r ∈ [GPMC_CS_CONFIG2; GPMC_CS_CONFIG3; GPMC_CS_CONFIG4; GPMC_CS_CONFIG5])) (timing_table t) = true)
    as Hall by (by vm_compute).
  rewrite forallb_forall in Hall. specialize (Hall _ (proj1 (list_elem_of_In _ _) Hx)). cbn beta iota in Hall.
  bool_to_prop. split; [by split_and!|]. by eapply bool_decide_eq_true_1.
Qed.

Definition apartb (x y : entry) : bool :=
  let '(reg, st, en, _) := x in let '(reg', st', en', _) := y in
  negb (reg =? reg') || (en <? st') || (en' <? st).

Fixpoint all_apart (l : list entry) : bool :=
  match l with [] => true | x :: l' => forallb (apartb x) l' && all_apart l' end.

Lemma all_apart_sound l : all_apart l = true -> StronglySorted entry_apart l.
Proof.
  induction l as [|x l IH]; cbn; constructor; bool_to_prop; [by apply IH|].
  apply Forall_forall. intros y Hy. rewrite forallb_forall in H.
  specialize (H y (proj1 (list_elem_of_In _ _) Hy)).
  destruct x as [[[? ?] ?] ?], y as [[[? ?] ?] ?]. cbn in *. apply orb_true_iff in H as [H|H]; [apply orb_true_iff in H as [H|H]|];
    bool_to_prop; lia.
Qed.

Lemma table_apart t : StronglySorted entry_apart (timing_table t).
Proof. apply all_apart_sound. by vm_compute. Qed.

(** ** The divider *)

Lemma calc_divider_wp s p cs c : fclk s p -> 0 <= c < 2 ^ 31 ->
  wp (gpmc_cs_calc_divider cs c) (fun d s' => s' = s /\
    d = if 4 <? (c + p - 1) / p then -1 else Z.max 1 ((c + p - 1) / p)) s.
Proof.
  intros Hf Hc. pose proof (fclk_range s p Hf) as Hp. unfold gpmc_cs_calc_divider.
  apply wp_bind. eapply fclk_wp; [done|]. apply wp_bind. eapply fclk_wp; [done|].
  rewrite (wrapu_small 32) by (split; lia). replace (c + (p - 1)) with (c + p - 1) by lia.
  apply wp_bind, wp_divu; [lia|].
  assert (0 <= (c + p - 1) / p < 2 ^ 31) as Hq.
  { split; [apply Z.div_pos; lia|]. apply Z.div_lt_upper_bound; nia. }
  rewrite wraps_small by lia. set (q := (c + p - 1) / p) in *.
  destruct (4 <? q); apply wp_ret; split; try done. destruct (Z.leb_spec q 0); lia.
Qed.

(** What [set_div] makes of CONFIG1. *)
Definition with_div (div v : Z) : Z :=
  if Z.land v (Z.lor GPMC_CONFIG1_READTYPE_SYNC GPMC_CONFIG1_WRITETYPE_SYNC) =? 0 then v
  else Z.lor (Z.land v (u32 (Z.lnot 0x03))) (div - 1).

Lemma set_div_wp cs div s : 1 <= div <= 4 -> plain_reg (csaddr s cs GPMC_CS_CONFIG1) ->
  wp (set_div cs div) (fun r s' => r = 0 /\
    csreg s' cs GPMC_CS_CONFIG1 = with_div div (csreg s cs GPMC_CS_CONFIG1) /\
    (exists w', s' = set_g_w w' s /\ io_only (g_w s) w') /\
    forall a, plain_reg a -> a <> csaddr s cs GPMC_CS_CONFIG1 -> regval (g_w s') a = regval (g_w s) a) s.
Proof.
  intros Hd Hp. unfold set_div, with_div. set (v := csreg s cs GPMC_CS_CONFIG1).
  apply wp_bind. unfold gpmc_cs_read_reg. wp_pure. apply wp_on_world, wp_readl.
  change (regval (g_w s) (cs_addr (g_base s) cs GPMC_CS_CONFIG1)) with v. case_bool; cbn [negb]; wp_pure.
  - split_and!; [done | | eexists; split; [done | by eexists] |].
    + unfold csreg, csaddr. g_simpl. by rewrite plain_read.
    + intros a Ha _. g_simpl. by rewrite plain_read.
  - unfold gpmc_cs_write_reg. wp_pure. apply wp_on_world, wp_writel. wp_pure.
    assert (uint 32 (Z.lor (Z.land v (u32 (Z.lnot 3))) (div - 1))) as Hu.
    { apply lor_uint; [lia | apply land_uint_l; [lia | apply regval_uint] | split; lia]. }
    split_and!; [done | | eexists; split; [done | by eexists] |].
    + unfold csreg, csaddr. g_simpl. by rewrite plain_write.
    + intros a Ha Hne. g_simpl. unfold regval. cbn. rewrite Ha, (proj2 (Z.eqb_neq _ _)) by (by apply not_eq_sym). by rewrite Ha.
Qed.

(** CONFIG1 is not among the registers of the table. *)
Lemma config1_apart s cs reg :
  reg ∈ [GPMC_CS_CONFIG2; GPMC_CS_CONFIG3; GPMC_CS_CONFIG4; GPMC_CS_CONFIG5] ->
  csaddr s cs reg <> csaddr s cs GPMC_CS_CONFIG1.
Proof.
  rewrite !elem_of_cons, elem_of_nil. unfold csaddr, cs_addr, GPMC_CS_CONFIG1, GPMC_CS_CONFIG2,
    GPMC_CS_CONFIG3, GPMC_CS_CONFIG4, GPMC_CS_CONFIG5. lia.
Qed.

Lemma kept_config1 t cs s s' : kept cs (timing_table t) s s' -> timings_ok t ->
  plain_reg (csaddr s cs GPMC_CS_CONFIG1) -> csreg s' cs GPMC_CS_CONFIG1 = csreg s cs GPMC_CS_CONFIG1.
Proof.
  intros K Ht Hp. unfold csreg. rewrite (kept_addr _ _ _ _ _ _ K). apply (kp_reg _ _ _ _ K); [done|].
  intros x Hx. destruct (table_ok t Ht x Hx) as [_ Hreg]. by apply not_eq_sym, config1_apart.
Qed.

Lemma kept_other t cs s s' a : kept cs (timing_table t) s s' -> timings_ok t -> plain_reg a ->
  (forall reg, GPMC_CS_CONFIG1 <= reg <= GPMC_CS_CONFIG5 -> a <> csaddr s cs reg) ->
  regval (g_w s') a = regval (g_w s) a.
Proof.
  intros K Ht Ha Hne. apply (kp_reg _ _ _ _ K); [done|]. intros x Hx. apply Hne.
  destruct (table_ok t Ht x Hx) as [_ Hreg]. revert Hreg. rewrite !elem_of_cons, elem_of_nil.
  unfold GPMC_CS_CONFIG1, GPMC_CS_CONFIG2, GPMC_CS_CONFIG3, GPMC_CS_CONFIG4, GPMC_CS_CONFIG5. lia.
Qed.

Lemma stored_frame p cs s s' x :
  csreg s' cs x.1.1.1 = csreg s cs x.1.1.1 -> stored p cs s x -> stored p cs s' x.
Proof. destruct x as [[[reg st] en] t]. cbn. by intros ->. Qed.

(** C25: when [gpmc_cs_set_timings] succeeds, every timing field of the chip select holds the
    least number of ticks that covers its time, CONFIG1 has the divider in synchronous mode,
    and no register of another chip select has changed; it fails when a time needs more
    ticks than its field has room for, or the clock more than a division by 4. *)
Theorem gpmc_cs_set_timings_correct s p cs t :
  fclk s p -> timings_ok t ->
  (forall reg, reg ∈ [GPMC_CS_CONFIG1; GPMC_CS_CONFIG2; GPMC_CS_CONFIG3; GPMC_CS_CONFIG4; GPMC_CS_CONFIG5] ->
     plain_reg (csaddr s cs reg)) ->
  wp (gpmc_cs_set_timings cs t) (fun r s' =>
    let div := (sync_clk t + p - 1) / p in
    ((r = 0 /\ div <= 4 /\ (forall x, x ∈ timing_table t -> stored p cs s' x) /\
      csreg s' cs GPMC_CS_CONFIG1 = with_div (Z.max 1 div) (csreg s cs GPMC_CS_CONFIG1)) \/
     (r = -1 /\ (4 < div \/ exists x, x ∈ timing_table t /\ too_long p x))) /\
    forall a, plain_reg a -> (forall reg, GPMC_CS_CONFIG1 <= reg <= GPMC_CS_CONFIG5 -> a <> csaddr s cs reg) ->
      regval (g_w s') a = regval (g_w s) a) s.
Proof.
  intros Hf Ht Hp. rewrite set_timings_eq. pose proof Ht as [Hsync _].
  apply wp_bind. eapply wp_mono; [by apply (calc_divider_wp s p)|]. intros d s1 [-> ->].
  set (div := (sync_clk t + p - 1) / p). destruct (Z.ltb_spec 4 div) as [H4|H4].
  { change (-1 <? 0) with true. wp_pure. split; [|done]. right. auto. }
  rewrite (proj2 (Z.ltb_ge (Z.max 1 div) 0)) by lia.
  eapply set_all_wp; [done | | apply table_apart | |].
  - intros x Hx. destruct (table_ok t Ht x Hx) as [Hok Hreg]. split; [done|]. apply Hp. by right.
  - intros s1 K1 S1. pose proof (fun i => kept_addr _ _ _ _ cs i K1) as Ea. eapply wp_mono.
    { apply (set_div_wp cs (Z.max 1 div) s1); [lia|]. rewrite Ea. apply Hp. by left. }
    intros r s2 (-> & E1 & (w2 & -> & _) & Ho). rewrite Ea in Ho. split.
    + left. split_and!; [done | done | |].
      * intros x Hx. destruct (table_ok t Ht x Hx) as [_ Hreg].
        apply (stored_frame p cs s1); [|by apply S1]. unfold csreg.
        change (csaddr (set_g_w w2 s1) cs ?i) with (csaddr s1 cs i). rewrite Ea.
        apply Ho; [apply Hp; by right | by apply config1_apart].
      * rewrite E1. f_equal. apply (kept_config1 _ _ _ _ K1 Ht). apply Hp. by left.
    + intros a Ha Hne. rewrite Ho; [by apply (kept_other t cs s s1) | done | by apply Hne].
  - intros s1 K1 Hlong. split; [right; auto|]. intros a Ha Hne. by apply (kept_other t cs s s1).
Qed.
End Timing.
