(* ===== verification/GpmcInit.v ===== *)
(** * The memory controller from boot on

    [gpmc_mem_init] of mach-omap2/gpmc.c takes over the windows that the boot loader left open
    and establishes the invariant of GpmcWindow.v; requests and releases of chip selects keep
    it, so that the windows never overlap in any state that is reached. *)

From S2P Require Import Prelude Platform Resource ResourceTree ResourceAlloc Gpmc.
From S2P Require Import GpmcWindow.

Section Init.
  Context `{HW : Hardware} (W : Z -> option (Z * Z)).
Implicit Types s : gpmc.

(** The static resources as they are before the initialisation. *)
Record fresh_gpmc s : Prop := {
  fg_tree : tree_ok (m_res (g_mem s));
  fg_root : exists st en, view <$> m_res (g_mem s) !! gpmc_mem_root = Some (st, en, None, None);
  fg_cs : forall cs, is_cs cs -> cs_idle s cs;
  fg_map : g_cs_map s = 0
}.

(** After the chip selects below [i]. *)
Record inited (i : Z) s (l : list positive) : Prop := {
  in_ok : gpmc_ok_for (fun c => c < i) s l;
  in_kids : forall a, a ∈ l -> exists c, a = cs_mem c /\ is_cs c /\ c < i;
  in_rest : forall c, is_cs c -> i <= c -> cs_idle s c;
  in_win : forall c, is_cs c -> g_window s c = W c;
  in_plain : windows_plain s
}.

(** A closed chip select is passed over. *)
Lemma inited_closed i s l : inited i s l -> is_cs i -> W i = None -> inited (i + 1) s l.
Proof.
  intros I Hi Hw. pose proof (in_ok _ _ _ I) as G. split.
  - split; [apply G..|]. intros c Hc. destruct (go_cs _ _ _ G c Hc) as (st & en & p & Hv & H).
    exists st, en, p. split; [done|]. destruct p; [done|]. destruct H as [H1 H2]. split; [|done].
    intros Hci. destruct (decide (c = i)) as [->|]; [by rewrite (in_win _ _ _ I)|]. apply H1. lia.
  - intros a Ha. destruct (in_kids _ _ _ I a Ha) as (c & -> & Hc & Hci). exists c. split_and!; [done..|lia].
  - intros c Hc Hci. apply (in_rest _ _ _ I); [done | lia].
  - apply (in_win _ _ _ I).
  - apply (in_plain _ _ _ I).
Qed.

(** An open one becomes a child of the root. *)
Lemma inited_open i s l r b n e s' :
  inited i s l -> is_cs i -> W i = Some (b, n) ->
  m_res (g_mem s) !! cs_mem i = Some r -> rs_parent r = None -> rs_child r = None ->
  linked_at (g_mem s) gpmc_mem_root (cs_mem i) r l b e (g_mem s') -> b + n - 1 <= e ->
  (forall c, is_cs c -> g_window s' c = W c) -> windows_plain s' -> g_cs_map s' = g_cs_map s ->
  exists l', inited (i + 1) s' l'.
Proof.
  intros I Hi Hw Hr Hpar Hch Hl Hbe Hwin Hp Hmap. pose proof (in_ok _ _ _ I) as G.
  destruct (request_ok (fun c => c < i) (fun c => c < i + 1) s l i r b n e s' (g_mem s')) as (l1 & l2 & -> & G'); try done.
  { intros c. lia. }
  { intros c Hc. rewrite (Hwin c Hc). destruct (decide (c = i)) as [->|]; [done|]. by rewrite (in_win _ _ _ I). }
  { intros c _ _. by rewrite Hmap. }
  exists (l1 ++ cs_mem i :: l2). split; try done.
  - intros a [->|Ha]%elem_of_middle; [exists i; split_and!; [done..|lia]|].
    destruct (in_kids _ _ _ I a Ha) as (c & -> & Hc & Hci). exists c. split_and!; [done..|lia].
  - intros c Hc Hci. destruct Hl as (x1 & x2 & _ & Em & _).
    destruct (in_rest _ _ _ I c Hc ltac:(lia)) as (st & en & Hv). exists st, en. rewrite <- Hv.
    unfold cs_view. rewrite Em. cbn [m_res set_m_res].
    assert (cs_mem c <> cs_mem i) as Hne by (intros E; apply cs_mem_inj in E; [lia | done | done]).
    rewrite link_view by (done || by apply cs_mem_root). by rewrite lookup_insert_ne.
Qed.

(** What a configuration register can say. *)
Lemma memconf_range v b n : memconf v = (b, n) -> 0 <= b <= 63 * 2 ^ 24 /\ 2 ^ 24 <= n <= 2 ^ 28.
Proof.
  unfold memconf. rewrite !Z.shiftl_mul_pow2 by done. change 0x3f with (Z.ones 6). change 0x0f with (Z.ones 4).
  rewrite !Z.land_ones by done. intros E.
  pose proof (Z.mod_pos_bound v (2 ^ 6) ltac:(lia)). pose proof (Z.mod_pos_bound (Z.shiftr v 8) (2 ^ 4) ltac:(lia)).
  injection E as <- <-. unfold GPMC_SECTION_SHIFT, GPMC_CHUNK_SHIFT in *.
  set (x := v mod 2 ^ 6) in *. set (y := Z.shiftr v 8 mod 2 ^ 4) in *. clearbody x y.
  change (Z.ones 6) with 63. change (2 ^ 6) with 64 in *. change (2 ^ 4) with 16 in *.
  change (2 ^ 24) with 16777216. change (2 ^ 28) with 268435456.
  rewrite (wrapu_small 32) by (split; lia). lia.
Qed.

(** Claiming the range of a window that is open either succeeds, with a range that holds the
    window, or fails. *)
Lemma insert_mem_wp s l cs r b n :
  gpmc_ok_for (fun c => c < cs) s l -> is_cs cs -> 0 <= b <= 63 * 2 ^ 24 -> 2 ^ 24 <= n <= 2 ^ 28 ->
  m_res (g_mem s) !! cs_mem cs = Some r -> rs_parent r = None -> rs_child r = None ->
  wp (gpmc_cs_insert_mem cs b n) (fun ret s' => ret = - EBUSY \/
    exists e m', b + n - 1 <= e /\ linked_at (g_mem s) gpmc_mem_root (cs_mem cs) r l b e m' /\ s' = set_g_mem m' s) s.
Proof.
  intros G Hcs Hb Hn Hr Hpar Hch. unfold gpmc_cs_insert_mem.
  pose proof (align_small n ltac:(lia)) as Ha. destruct (gpmc_mem_align_spec n ltac:(lia)) as (k & Hk & En & Hnk & _).
  rewrite <- En in Hnk. set (n' := gpmc_mem_align n) in *. clearbody n'.
  rewrite (wrapu_small 32) by (split; lia). apply wp_bind, gpmc_cs_mem_wp; [done|].
  apply wp_bind, wp_on_mem. eapply wp_upd_res; [done|]. apply wp_bind, wp_on_mem.
  eapply wp_upd_res; [apply lookup_insert_eq|]. apply wp_on_mem.
  assert (set_m_res (<[cs_mem cs := resize b (b + n' - 1) r]> (m_res (g_mem s))) (g_mem s) =
    set_m_res (<[cs_mem cs := set_rs_end (b + n' - 1) (set_rs_start b r)]>
      (<[cs_mem cs := set_rs_start b r]> (m_res (g_mem s)))) (g_mem s)) as E by (by rewrite insert_insert_eq).
  assert (loose (g_mem s) gpmc_mem_root (cs_mem cs) r) as Hloose by (split_and!; [done..|by apply cs_mem_root]).
  pose proof (allocate_link_wp (g_mem s) gpmc_mem_root (cs_mem cs) r l b (b + n' - 1)
    (go_tree _ _ _ G) (go_level _ _ _ G) Hloose Hch ltac:(split; lia) ltac:(split; lia)) as H.
  rewrite E in H. eapply wp_mono; [exact H|].
  intros ret m' [(-> & _ & Hl)|(-> & _)]; [right | by left]. exists (b + n' - 1), m'. split_and!; [lia | done | done].
Qed.

(** One round of the loop: if it does not stop at BUG(), the window is in the tree. *)
Lemma init_round i s l : inited i s l -> is_cs i ->
  wlp (enabled ← gpmc_cs_mem_enabled i;
      when (negb (enabled =? 0))
        ('(base, size) ← gpmc_cs_get_memconf i;
         r ← gpmc_cs_insert_mem i base size;
         when (r <? 0) (fail Bug))) (fun _ s' => exists l', inited (i + 1) s' l') s.
Proof.
  intros I Hi. pose proof (in_plain _ _ _ I) as Hp. pose proof (in_win _ _ _ I i Hi) as Hwi.
  apply wlp_bind, wp_wlp, mem_enabled_wp. intros w1 Hw1.
  assert (forall w', io_reads (g_w s) w' -> inited i (set_g_w w' s) l) as Hreads.
  { intros w' Hw'. pose proof (in_ok _ _ _ I) as G. split; try apply I.
    - split; [apply G..|]. intros c Hc. rewrite (reads_window s w' c Hp Hc Hw'). apply (go_cs _ _ _ G c Hc).
    - intros c Hc. rewrite (reads_window s w' c Hp Hc Hw'). by apply (in_win _ _ _ I). }
  unfold g_window, window in Hwi. destruct (_ =? 0) eqn:E0; cbn [negb].
  { apply wp_wlp. wp_pure. exists l. apply inited_closed; [by apply Hreads | done..]. }
  destruct (memconf _) as [b n] eqn:Em. destruct (memconf_range _ _ _ Em) as [Hb Hn].
  assert (csreg (set_g_w w1 s) i GPMC_CS_CONFIG7 = csreg s i GPMC_CS_CONFIG7) as Er.
  { unfold csreg, csaddr. g_simpl. by rewrite (regval_reads _ (g_w s)) by (done || by apply Hp). }
  cbv delta [when] iota beta. apply wlp_bind, wp_wlp.
  unfold gpmc_cs_get_memconf, gpmc_cs_read_reg. wp_pure. apply wp_on_world, wp_readl. wp_pure.
  set (w2 := set_w_trace _ _). assert (io_reads (g_w s) w2) as Hw2 by (etrans; [done | by apply io_reads_1]).
  pose proof (Hreads w2 Hw2) as I2.
  destruct (in_rest _ _ _ I2 i Hi ltac:(lia)) as (st & en & (r & Hr & _ & _ & Hpar & Hch)%view_lookup).
  change (regval _ _) with (csreg (set_g_w w1 s) i GPMC_CS_CONFIG7). rewrite Er. injection Em as -> ->.
  apply wlp_bind, wp_wlp. eapply wp_mono; [by apply (insert_mem_wp (set_g_w w2 s) l i r b n); try apply I2|].
  intros ret s' [->|(e & m' & He & Hl & ->)]; [done|].
  intros [] s'' E. destruct (ret <? 0); [done|]. injection E as <-.
  apply (inited_open i (set_g_w w2 s) l r b n e); try done; apply I2.
Qed.

Lemma init_loop k i s l : inited i s l -> 0 <= i -> i + Z.of_nat k = GPMC_CS_NUM ->
  wlp (for_each (Z.of_nat <$> seq (Z.to_nat i) k) (fun cs =>
        enabled ← gpmc_cs_mem_enabled cs;
        when (negb (enabled =? 0))
          ('(base, size) ← gpmc_cs_get_memconf cs;
           r ← gpmc_cs_insert_mem cs base size;
           when (r <? 0) (fail Bug)))) (fun _ s' => exists l', inited GPMC_CS_NUM s' l') s.
Proof.
  revert i s l. induction k as [|k IH]; intros i s l I Hi Hk.
  - assert (i = GPMC_CS_NUM) as -> by lia. apply wp_wlp, wp_ret. eauto.
  - cbn [seq fmap list_fmap for_each]. rewrite Z2Nat.id by lia. apply wlp_bind. intros u s' E.
    destruct (init_round i s l I ltac:(unfold is_cs; lia) u s' E) as (l' & I').
    replace (S (Z.to_nat i)) with (Z.to_nat (i + 1)) by lia.
    apply (IH (i + 1) s' l' I'); lia.
Qed.

(** The root gets its range before the loop. *)
Lemma init_root s : fresh_gpmc s -> windows_plain s -> (forall cs, is_cs cs -> g_window s cs = W cs) ->
  forall r, m_res (g_mem s) !! gpmc_mem_root = Some r -> rs_parent r = None -> rs_child r = None ->
  inited 0 (set_g_mem (set_m_res (<[gpmc_mem_root := resize (GPMC_MEM_START + BOOT_ROM_SPACE) GPMC_MEM_END r]>
    (m_res (g_mem s))) (g_mem s)) s) [].
Proof.
  intros F Hp Hw r Hr Hpar Hch. set (h' := <[gpmc_mem_root := _]> _).
  assert (forall c, is_cs c -> view <$> h' !! cs_mem c = view <$> m_res (g_mem s) !! cs_mem c) as Hv.
  { intros c Hc. unfold h'. rewrite lookup_insert_ne; [done|]. by apply not_eq_sym, cs_mem_root. }
  split; [|by intros a ?%elem_of_nil | | done | done].
  - split.
    + apply resize_loose; [apply F | done..].
    + apply resize_level; [done|]. exists r. by rewrite Hch.
    + unfold start_of, end_of. g_simpl. unfold h'. cbn. by rewrite lookup_insert_eq.
    + intros c Hc. destruct (fg_cs _ F c Hc) as (st & en & E). exists st, en, None. unfold cs_view in *. g_simpl.
      cbn [m_res set_m_res]. rewrite (Hv c Hc), E. split; [done|]. split; [unfold is_cs in Hc; lia|].
      by rewrite (fg_map _ F), Z.bits_0.
  - intros c Hc _. destruct (fg_cs _ F c Hc) as (st & en & E). exists st, en. unfold cs_view in *. g_simpl.
    cbn [m_res set_m_res]. by rewrite (Hv c Hc).
Qed.

Lemma mem_init_wlp s : fresh_gpmc s -> windows_plain s -> (forall cs, is_cs cs -> g_window s cs = W cs) ->
  wlp gpmc_mem_init (fun _ s' => windows_plain s' /\ (forall cs, is_cs cs -> g_window s' cs = W cs) /\
    exists l, gpmc_ok s' l) s.
Proof.
  intros F Hp Hw. destruct (fg_root _ F) as (st & en & (r & Hr & _ & _ & Hpar & Hch)%view_lookup).
  unfold gpmc_mem_init. cbn [machine_is_omap_apollon]. apply wlp_bind, wp_wlp, wp_on_mem. eapply wp_upd_res; [done|].
  apply wlp_bind, wp_wlp, wp_on_mem. eapply wp_upd_res; [apply lookup_insert_eq|].
  pose proof (init_root s F Hp Hw r Hr Hpar Hch) as I0. intros u s' E.
  assert (exists l', inited GPMC_CS_NUM s' l') as (l & I).
  { refine (init_loop 8 0 _ [] _ _ _ u s' E); [|lia|done].
    assert (<[gpmc_mem_root := set_rs_end GPMC_MEM_END (set_rs_start (GPMC_MEM_START + BOOT_ROM_SPACE) r)]>
      (<[gpmc_mem_root := set_rs_start (GPMC_MEM_START + BOOT_ROM_SPACE) r]> (m_res (g_mem s))) =
      <[gpmc_mem_root := resize (GPMC_MEM_START + BOOT_ROM_SPACE) GPMC_MEM_END r]> (m_res (g_mem s))) as Ei
      by apply insert_insert_eq.
    rewrite <- Ei in I0. exact I0. }
  split; [apply I|]. split; [apply I|]. exists l. pose proof (in_ok _ _ _ I) as G.
  split; [apply G..|]. intros c Hc. destruct (go_cs _ _ _ G c Hc) as (x & y & p & Hv & H). exists x, y, p.
  split; [done|]. destruct p; [done|]. destruct H as [H1 H2]. split; [|done]. intros _. apply H1. apply Hc.
Qed.
End Init.

Section Reached.
  Context `{HW : Hardware}.
Implicit Types s : gpmc.

(** ** The states that are reached *)

(** A driver requests or frees a chip select.  A chip select that the boot loader left open
    and no driver has reserved yet is not requested. *)
Inductive client_step s : gpmc -> Prop :=
| client_request cs size r s' : is_cs cs -> 1 <= size <= 2 ^ 31 ->
    cs_idle s cs \/ Z.testbit (g_cs_map s) cs = true ->
    gpmc_cs_request cs size s = Done r s' -> client_step s s'
| client_free cs u s' : gpmc_cs_free cs s = Done u s' -> client_step s s'.

Definition safe s : Prop := windows_plain s /\ exists l, gpmc_ok s l.

Lemma step_safe s s' : safe s -> client_step s s' -> safe s'.
Proof.
  intros [Hp [l G]] Hs.
  assert (g_base s' = g_base s -> windows_plain s') as Hplain.
  { intros E c Hc. unfold csaddr. rewrite E. by apply Hp. }
  destruct Hs as [cs size r s' Hcs Hsize [Hidle|Hres] E|cs u s' E].
  - pose proof (request_idle_wp s l cs size G Hp Hcs Hidle Hsize) as H. unfold wp in H. rewrite E in H.
    destruct r as [ret base], H as [(n & _ & [(_ & _ & -> & _)|(_ & l' & G' & _)]) Hb]; (split; [by apply Hplain|]); eauto.
  - pose proof (request_reserved_wp s cs size Hcs Hres) as H. unfold wp in H. rewrite E in H.
    destruct H as [-> _]. split; [done|]. eauto.
  - destruct (free_bug s cs u s' E) as [Hcs Hbit]. pose proof (free_wp s l cs G Hp Hcs Hbit) as H.
    unfold wp in H. rewrite E in H. destruct H as [(l' & G' & _) Hb]. split; [by apply Hplain | eauto].
Qed.

(** C5: whatever windows the boot loader has left open, after [gpmc_mem_init] has taken them
    over without stopping at its BUG(), which it does when one of them cannot be claimed, no
    sequence of releases and of requests, for chip selects that are idle or already reserved,
    leads to a state in which the windows that the hardware has open for two chip selects
    overlap. *)
Theorem gpmc_windows_never_overlap s0 s1 s cs cs' b n b' n' :
  fresh_gpmc s0 -> windows_plain s0 ->
  gpmc_mem_init s0 = Done tt s1 -> rtc client_step s1 s ->
  is_cs cs -> is_cs cs' -> cs <> cs' -> g_window s cs = Some (b, n) -> g_window s cs' = Some (b', n') ->
  b + n <= b' \/ b' + n' <= b.
Proof.
  intros F Hp E Hsteps Hcs Hcs' Hne H1 H2.
  assert (safe s1) as S1.
  { destruct (mem_init_wlp (g_window s0) s0 F Hp ltac:(done) tt s1 E) as (Hp1 & _ & l & G). split; [done | eauto]. }
  assert (safe s) as [_ [l G]] by (clear -S1 Hsteps; induction Hsteps; eauto using step_safe).
  by apply (windows_apart s l cs cs').
Qed.
End Reached.

Section Interrupt.
  Context `{SOC : Soc} `{HW : Hardware}.
Variable OMAP_GPMC_IRQ_BASE : Z.

(** The chip select that the prefetch engine serves. *)
Definition prefetch_cs (s : gpmc) : Z :=
  Z.land (Z.shiftr (regval (g_w s) (g_base s + GPMC_PREFETCH_CONFIG1)) CS_NUM_SHIFT) 0x7.

(** The interrupt handler passes the interrupt of the controller on to the handler of the
    chip select that [GPMC_PREFETCH_CONFIG1] names, for the first seven of them; for the last
    one it follows the descriptor of an interrupt that does not exist, since it compares with
    [<= OMAP_GPMC_IRQ_END]. *)
Theorem gpmc_handle_irq_dispatch s : 0 <= OMAP_GPMC_IRQ_BASE ->
  if prefetch_cs s <? 7
  then wp (gpmc_handle_irq OMAP_GPMC_IRQ_BASE INT_34XX_GPMC_IRQ)
         (fun _ s' => g_handled s' = (OMAP_GPMC_IRQ_BASE + prefetch_cs s) :: g_handled s) s
  else gpmc_handle_irq OMAP_GPMC_IRQ_BASE INT_34XX_GPMC_IRQ s = Fault NullDeref.
Proof.
  intros Hb. unfold prefetch_cs. set (v := regval _ _). set (cs := Z.land _ 0x7).
  assert (0 <= cs < 2 ^ 3) as Hcs by (unfold cs; change 0x7 with (Z.ones 3); rewrite Z.land_ones by lia; by apply Z.mod_pos_bound).
  assert (gpmc_read_reg GPMC_PREFETCH_CONFIG1 s =
    Done v (set_g_w (set_w_trace (IoRead (g_base s + GPMC_PREFETCH_CONFIG1) v :: w_trace (g_w s)) (g_w s)) s)) as E by done.
  unfold wp, gpmc_handle_irq. rewrite Z.eqb_refl. cbn [negb]. unfold bind. rewrite E. fold cs.
  unfold OMAP_GPMC_IRQ_END, OMAP_GPMC_NR_IRQS. rewrite (proj2 (Z.leb_le _ _)) by lia.
  unfold when, generic_handle_irq, irq_to_desc, NR_IRQS, OMAP_GPMC_IRQ_END, OMAP_GPMC_NR_IRQS.
  rewrite (proj2 (Z.leb_le _ _)) by lia. cbn [andb]. destruct (Z.ltb_spec cs 7).
  - by rewrite (proj2 (Z.ltb_lt _ _)) by lia.
  - by rewrite (proj2 (Z.ltb_ge _ _)) by lia.
Qed.
End Interrupt.
