(* ===== verification/GpmcExamples.v ===== *)
(** * The memory controller at work

    The controller of the booted DM8148 (Dm8148.v) with two windows left open by the boot
    loader, on which the theorems of GpmcWindow.v, GpmcTiming.v and GpmcInit.v are applied, and
    the calls on which gpmc.c goes wrong. *)

From S2P Require Import Prelude Platform ClkCore ClkRate Clk814xData Dm8148.
From S2P Require Import Resource ResourceTree ResourceAlloc Gpmc GpmcWindow GpmcTiming.
From S2P Require Import GpmcInit.

Definition GBASE : Z := 0x50000000.
Definition IRQ_BASE : Z := 400.

(** CS1 at 128 MB and CS2 at 144 MB, of 16 MB each; the other registers are 0. *)
Definition boot_regs (a : Z) : Z :=
  if a =? cs_addr GBASE 1 GPMC_CS_CONFIG7 then 0xF48 else
  if a =? cs_addr GBASE 2 GPMC_CS_CONFIG7 then 0xF49 else 0.

Definition W0 (cs : Z) : option (Z * Z) :=
  if cs =? 1 then Some (0x08000000, 0x01000000) else
  if cs =? 2 then Some (0x09000000, 0x01000000) else None.

(** The controller beside the rest of the chip. *)
Definition in_gpmc (a : Z) : bool := (GBASE <=? a) && (a <? GBASE + 0x1000).
Definition chip_hw : Hardware := {|
  hw_read := fun h a => if in_gpmc a then last_write boot_regs h a else @hw_read dm8148_hw h a;
  hw_sched_clock := @hw_sched_clock dm8148_hw
|}.

#[local] Existing Instance dm8148_soc.
#[local] Existing Instance chip_hw.

Definition zero_resource : resource := mkResource 0 0 None 0 None None None.

(** The state in which [gpmc_init] is called, and after it. *)
Definition g_boot : gpmc := {|
  g_w := booted;
  g_mem := mkMemory (list_to_map ((fun i => (Pos.of_nat i, zero_resource)) <$> seq 100 9)) [];
  g_cs_map := 0; g_base := 0; g_l3_clk := None; g_irqs := []; g_handled := []
|}.

Definition arch_clock : clk_functions := omap2_clk_functions dm8148_arch DEPTH FUEL.

Definition run {A} (o : outcome gpmc A) (s : gpmc) : gpmc := match o with Done _ s' => s' | Fault _ => s end.

(** Just before the windows are taken over; of the clocks, only that of the controller is
    kept, at the rate it has on the booted chip. *)
Definition gpmc_world : world :=
  set_w_clks (<["gpmc_fck" := set_ck_rate 250000000 gpmc_fck]> ∅) empty_world.
Definition g0 : gpmc :=
  set_g_w gpmc_world (set_g_l3_clk (Some "gpmc_fck") (set_g_base GBASE g_boot)).
Definition g1 : gpmc := run (gpmc_mem_init g0) g0.

(** The initialisation runs: the clock is on, the windows stand, and the interrupts of seven
    of the eight chip selects are valid. *)
Example gpmc_init_runs :
  match gpmc_init arch_clock IRQ_BASE (Some GBASE) g_boot with
  | Done _ s => g_window s 1 = W0 1 /\ g_window s 2 = W0 2 /\ length (g_irqs s) = 7%nat /\
      (fun k => (ck_rate k, ck_usecount k)) <$> w_clks (g_w s) !! "gpmc_fck" = Some (250000000, 1)
  | Fault _ => False
  end.
Proof. by vm_compute. Qed.

(** ** The theorems on this controller *)

Lemma cs_cases cs : is_cs cs ->
  cs = 0 \/ cs = 1 \/ cs = 2 \/ cs = 3 \/ cs = 4 \/ cs = 5 \/ cs = 6 \/ cs = 7.
Proof. unfold is_cs, GPMC_CS_NUM. lia. Qed.

Lemma gpmc_plain a : in_gpmc a = true -> plain_reg a.
Proof. intros Ha e h. cbn. rewrite Ha. by destruct e. Qed.

Lemma chip_plain s : g_base s = GBASE -> windows_plain s.
Proof.
  intros Hb cs Hcs. apply gpmc_plain. unfold csaddr, in_gpmc. rewrite Hb.
  by destruct (cs_cases cs Hcs) as [->|[->|[->|[->|[->|[->|[->| ->]]]]]]].
Qed.

Lemma is_cs0 : is_cs 0.
Proof. done. Qed.

Lemma g0_windows cs : is_cs cs -> g_window g0 cs = W0 cs.
Proof. intros Hcs. by destruct (cs_cases cs Hcs) as [->|[->|[->|[->|[->|[->|[->| ->]]]]]]]; vm_compute. Qed.

Lemma g0_fresh : fresh_gpmc g0.
Proof.
  split; [by apply res_tree_check_sound | by eexists _, _ | | done].
  intros cs Hcs. exists 0, 0. by destruct (cs_cases cs Hcs) as [->|[->|[->|[->|[->|[->|[->| ->]]]]]]].
Qed.

Lemma g1_runs : gpmc_mem_init g0 = Done tt g1.
Proof. by vm_compute. Qed.

#[local] Opaque g1.

Lemma g1_ok : exists l, gpmc_ok g1 l.
Proof.
  apply (mem_init_wlp W0 g0 g0_fresh (chip_plain g0 eq_refl) g0_windows tt g1 g1_runs).
Qed.

Lemma g1_base : g_base g1 = GBASE.
Proof. by vm_compute. Qed.

Lemma g1_idle : cs_idle g1 0.
Proof. exists 0, 0. by vm_compute. Qed.

(** 20 MB for CS0 are rounded up to 32 MB, at 32 MB. *)
Definition g2 : gpmc := run (gpmc_cs_request 0 0x1400000 g1) g1.

Lemma g2_runs : gpmc_cs_request 0 0x1400000 g1 = Done (0, Some 0x2000000) g2.
Proof. by vm_compute. Qed.

#[local] Opaque g2.

Lemma gpmc_cs_request_correct_witness :
  exists l, gpmc_ok g1 l /\ request_spec g1 l 0 0x1400000 0 (Some 0x2000000) g2.
Proof.
  destruct g1_ok as [l G]. exists l. split; [done|].
  pose proof (gpmc_cs_request_correct g1 l 0 0x1400000 G (chip_plain g1 g1_base) ltac:(done) g1_idle ltac:(lia)) as H.
  unfold wp in H. by rewrite g2_runs in H.
Defined.

Lemma g2_ok : exists l, gpmc_ok g2 l.
Proof.
  destruct g1_ok as [l G].
  pose proof (request_idle_wp g1 l 0 0x1400000 G (chip_plain g1 g1_base) ltac:(done) g1_idle ltac:(lia)) as H.
  unfold wp in H. rewrite g2_runs in H. destruct H as [(n & _ & [(E & _)|(_ & l' & G' & _)]) _]; [done | eauto].
Qed.

Lemma g2_reserved : g_base g2 = GBASE /\ Z.testbit (g_cs_map g2) 0 = true.
Proof. by vm_compute. Qed.

Lemma g2_plain : windows_plain g2.
Proof. apply chip_plain, g2_reserved. Qed.

Lemma gpmc_cs_free_correct_witness : exists s', free_spec g2 0 s'.
Proof.
  destruct g2_ok as [l G]. destruct g2_reserved as [_ Hbit].
  pose proof (gpmc_cs_free_correct g2 l 0 G g2_plain is_cs0 Hbit) as H.
  apply wp_run in H as (u & s' & _ & H).
  by exists s'.
Defined.

Lemma memconf_roundtrip_witness :
  wp (gpmc_cs_enable_mem 3 (5 * 2 ^ 24) (2 * 2 ^ 24);; gpmc_cs_get_memconf 3)
    (fun r s' => r = (5 * 2 ^ 24, 2 * 2 ^ 24) /\ g_window s' 3 = Some r) g1.
Proof. apply (memconf_roundtrip g1 3 5 2); [apply chip_plain, g1_base | done | lia | lia]. Defined.

Lemma g2_window0 : g_window g2 0 = Some (0x2000000, 0x2000000).
Proof. by vm_compute. Qed.

Lemma g2_window1 : g_window g2 1 = Some (0x08000000, 0x01000000).
Proof. by vm_compute. Qed.

Lemma g1_steps : rtc client_step g1 g2.
Proof.
  apply rtc_once. apply (client_request _ 0 0x1400000 (0, Some 0x2000000)); [exact is_cs0 | lia | |exact g2_runs].
  left. exact g1_idle.
Qed.

Lemma gpmc_windows_never_overlap_witness :
  g_window g2 0 = Some (0x2000000, 0x2000000) /\ g_window g2 1 = Some (0x08000000, 0x01000000) /\
  (0x2000000 + 0x2000000 <= 0x08000000 \/ 0x08000000 + 0x01000000 <= 0x2000000).
Proof.
  split; [exact g2_window0|]. split; [exact g2_window1|].
  refine (gpmc_windows_never_overlap g0 g1 g2 0 1 _ _ _ _ g0_fresh (chip_plain g0 eq_refl)
    g1_runs g1_steps is_cs0 _ _ g2_window0 g2_window1); [by unfold is_cs, GPMC_CS_NUM | lia].
Defined.

(** The functional clock of the booted chip runs at 250 MHz: a tick is 4 ns. *)
Lemma g0_fclk : fclk g0 4000.
Proof.
  assert ((fun k => ck_rate k) <$> w_clks (g_w g0) !! "gpmc_fck" = Some 250000000) as E by (by vm_compute).
  apply fmap_Some in E as (k & Hk & Er). exists "gpmc_fck", k. rewrite <- Er. split; [done|]. split; [done|].
  split; [lia | done].
Qed.

Lemma gpmc_ns_to_ticks_least_witness :
  wp (gpmc_ns_to_ticks 45) (fun n s' => s' = g0 /\ 45 * 1000 <= n * 4000 /\
    forall n', 0 <= n' -> 45 * 1000 <= n' * 4000 -> n <= n') g0.
Proof. apply (gpmc_ns_to_ticks_least g0 4000 45); [apply g0_fclk | done]. Defined.

(** The timings of a NAND chip. *)
Definition nand_timings : gpmc_timings :=
  mkTimings 0 0 44 44 6 34 44 6 40 6 54 0 64 82 82 0 0.

Lemma gpmc_cs_set_timings_correct_witness :
  exists s', gpmc_cs_set_timings 0 nand_timings g0 = Done 0 s' /\
    forall x, x ∈ timing_table nand_timings -> stored 4000 0 s' x.
Proof.
  assert (timings_ok nand_timings) as Ht.
  { split; [done|]. apply Forall_forall. by repeat constructor. }
  assert (forall reg, reg ∈ [GPMC_CS_CONFIG1; GPMC_CS_CONFIG2; GPMC_CS_CONFIG3; GPMC_CS_CONFIG4; GPMC_CS_CONFIG5] ->
    plain_reg (csaddr g0 0 reg)) as Hp.
  { apply Forall_forall. repeat constructor; by apply gpmc_plain. }
  pose proof (gpmc_cs_set_timings_correct g0 4000 0 nand_timings g0_fclk Ht Hp) as H.
  apply wp_run in H as (r & s' & E & [(-> & _ & H & _)|(-> & _)] & _).
  - exists s'. split; [exact E | exact H].
  - exfalso. by vm_compute in E.
Defined.

(** ** Where the driver goes wrong *)

Lemma g1_map : Z.testbit (g_cs_map g1) GPMC_CS_NUM = false.
Proof. by vm_compute. Qed.

Lemma gpmc_cs_request_off_by_one_witness :
  ~ is_cs GPMC_CS_NUM /\ gpmc_cs_request GPMC_CS_NUM 0x1000000 g1 = Fault OutOfBounds.
Proof. apply gpmc_cs_request_off_by_one; [lia | exact g1_map]. Defined.

(** A driver for the last chip select has started the prefetch engine: PREFETCH_CONFIG1 says 7. *)
Definition g_last : gpmc := run (gpmc_prefetch_enable 7 0x20 0 512 0 g1) g1.

Lemma g_last_value : regval (g_w g_last) (g_base g_last + GPMC_PREFETCH_CONFIG1) = 0x07002080.
Proof. by vm_compute. Qed.

#[local] Opaque g_last.

Lemma gpmc_handle_irq_dispatch_witness :
  gpmc_handle_irq IRQ_BASE INT_34XX_GPMC_IRQ g_last = Fault NullDeref.
Proof.
  pose proof (gpmc_handle_irq_dispatch IRQ_BASE g_last ltac:(done)) as H.
  unfold prefetch_cs in H. rewrite g_last_value in H. exact H.
Defined.

(** A request for 32 MB at the window of CS2, which the boot loader has left open with 16 MB
    behind that of CS1: it cannot grow there, so it is allocated anew without having been
    released, and the list of the windows becomes circular. *)
Definition g3 : gpmc := run (gpmc_cs_request 2 0x2000000 g1) g1.

Definition sibling s (p : positive) : option positive := m_res (g_mem s) !! p ≫= fun r => rs_sibling r.

Example request_makes_cycle :
  gpmc_cs_request 2 0x2000000 g1 = Done (0, Some 0x2000000) g3 /\
  sibling g3 (cs_mem 1) = Some (cs_mem 2) /\ sibling g3 (cs_mem 2) = Some (cs_mem 1) /\
  gpmc_cs_request 0 0x10000000 g3 = Fault NoFuel.
Proof. by vm_compute. Qed.

(** A byte of data is written to the NAND chip, and the call says that this is not supported. *)
Lemma nand_write_data_refused cs v s :
  exists s', gpmc_nand_write cs GPMC_NAND_DATA v s = Done (- EINVAL) s' /\
    gpmc_cs_write_byte cs GPMC_CS_NAND_DATA v s = Done tt s'.
Proof. by eexists. Qed.

(** A size of 0, or above 2 GB, is rounded to 0 and passes the check of the size. *)
Example align_of_nothing : gpmc_mem_align 0 = 0 /\ gpmc_mem_align (2 ^ 31 + 1) = 0.
Proof. by vm_compute. Qed.
