(* ===== verification/Elm.v ===== *)
(** * The error location module

    mach-omap2/elm.c: the engine that finds the bits a NAND chip got wrong from the BCH syndrome
    that the memory controller (Gpmc.v) has computed.  The driver takes its registers from the
    resource tree (Resource.v), enables its clock (ClkCore.v), and sleeps until the interrupt
    handler signals that the engine is ready.

    The static variables of elm.c are the fields of [elm]; the completion is its count [done]. *)

From S2P Require Import Prelude Platform ClkCore Clkdev Resource.

Definition BCH8_ECC_BYTES : nat := 13.

Definition ELM_SYSCONFIG : Z := 0x010.
Definition ELM_SYSSTATUS : Z := 0x014.
Definition ELM_IRQSTATUS : Z := 0x018.
Definition ELM_IRQENABLE : Z := 0x01c.
Definition ELM_LOCATION_CONFIG : Z := 0x020.
Definition ELM_PAGE_CTRL : Z := 0x080.
Definition ELM_SYNDROME_FRAGMENT_0 : Z := 0x400.
Definition ELM_SYNDROME_FRAGMENT_6 : Z := 0x418.
Definition ELM_LOCATION_STATUS : Z := 0x800.
Definition ELM_ERROR_LOCATION_0 : Z := 0x880.
Definition ELM_SYSCONFIG_SOFTRESET : Z := Z.shiftl 1 1.
Definition ELM_SYSCONFIG_SIDLE_MASK : Z := Z.shiftl 3 3.
Definition ELM_SYSCONFIG_SMART_IDLE : Z := Z.shiftl 2 3.
Definition ELM_SYSSTATUS_RESETDONE : Z := Z.shiftl 1 0.
Definition INTR_STATUS_LOC_VALID_0 : Z := Z.shiftl 1 0.
Definition INTR_EN_LOCATION_MASK_0 : Z := Z.shiftl 1 0.
Definition ECC_BCH_LEVEL_MASK : Z := Z.shiftl 0x3 0.
Definition ELM_SYNDROME_VALID : Z := Z.shiftl 1 16.
Definition ECC_CORRECTABLE_MASK : Z := Z.shiftl 1 8.
Definition ECC_NB_ERRORS_MASK : Z := Z.shiftl 0x1f 0.

(** ** State *)

#[local] Set Primitive Projections.

Record elm := mkElm {
  e_w : world;
  e_mem : memory;
  e_base : Z;
  e_done : Z
}.

Definition set_e_w : world -> elm -> elm := Eval cbv beta zeta in ltac:(record_setter e_w).
Definition set_e_mem : memory -> elm -> elm := Eval cbv beta zeta in ltac:(record_setter e_mem).
Definition set_e_base : Z -> elm -> elm := Eval cbv beta zeta in ltac:(record_setter e_base).
Definition set_e_done : Z -> elm -> elm := Eval cbv beta zeta in ltac:(record_setter e_done).

#[local] Unset Primitive Projections.

(** A call into another component. *)
Definition in_world {A} (m : M world A) : M elm A := fun e =>
  match m (e_w e) with Done a w => Done a (set_e_w w e) | Fault f => Fault f end.
Definition in_mem {A} (m : M memory A) : M elm A := fun e =>
  match m (e_mem e) with Done a x => Done a (set_e_mem x e) | Fault f => Fault f end.

(** An element of an array, which must not be accessed outside. *)
Definition array_get (l : list Z) (i : nat) : M elm Z :=
  match l !! i with Some x => ret x | None => fail OutOfBounds end.
Definition array_set (l : list Z) (i : nat) (x : Z) : M elm (list Z) :=
  if decide (i < length l)%nat then ret (<[i := x]> l) else fail OutOfBounds.

(** ** The engine *)

Section Elm.
  Context `{SOC : Soc} `{HW : Hardware}.
Variable arch_clock : clk_functions.

Definition elm_write_reg (idx val : Z) : M elm unit :=
  base ← gets (fun e => e_base e);
  in_world (__raw_writel val (base + idx)).

Definition elm_read_reg (idx : Z) : M elm Z :=
  base ← gets (fun e => e_base e);
  in_world (__raw_readl (base + idx)).

(** The loop of [elm_reset] has no bound; [fuel] is the number of reads it is given. *)
Fixpoint reset_loop (fuel : nat) : M elm unit :=
  match fuel with
  | O => fail NoFuel
  | S fuel' =>
      v ← elm_read_reg ELM_SYSSTATUS;
      if negb (Z.land v ELM_SYSSTATUS_RESETDONE =? ELM_SYSSTATUS_RESETDONE)
      then reset_loop fuel' else ret tt
  end.

Definition elm_reset (fuel : nat) : M elm unit :=
  reg_val ← elm_read_reg ELM_SYSCONFIG;
  elm_write_reg ELM_SYSCONFIG (Z.lor reg_val ELM_SYSCONFIG_SOFTRESET);;
  reset_loop fuel;;
  reg_val ← elm_read_reg ELM_SYSCONFIG;
  let reg_val := Z.land reg_val (u32 (Z.lnot ELM_SYSCONFIG_SIDLE_MASK)) in
  elm_write_reg ELM_SYSCONFIG (Z.lor reg_val ELM_SYSCONFIG_SMART_IDLE).

Definition elm_config (bch_type : Z) : M elm unit :=
  let buffer_size := 0x7ff in
  elm_write_reg ELM_LOCATION_CONFIG
    (Z.lor (Z.land bch_type ECC_BCH_LEVEL_MASK) (lsl buffer_size 16));;
  reg_val ← elm_read_reg ELM_IRQSTATUS;
  elm_write_reg ELM_IRQSTATUS (Z.land reg_val INTR_STATUS_LOC_VALID_0);;
  elm_write_reg ELM_IRQSTATUS INTR_STATUS_LOC_VALID_0;;
  reg_val ← elm_read_reg ELM_IRQENABLE;
  elm_write_reg ELM_IRQENABLE (Z.lor reg_val INTR_EN_LOCATION_MASK_0);;
  elm_read_reg ELM_PAGE_CTRL;;
  elm_write_reg ELM_PAGE_CTRL 0.

(** A [char] is unsigned on this machine. *)
Definition elm_load_syndrome (bch_type : Z) (syndrome : list Z) : M elm unit :=
  for_each (seq 0 4) (fun i =>
    s0 ← array_get syndrome (4 * i);
    s1 ← array_get syndrome (4 * i + 1);
    s2 ← array_get syndrome (4 * i + 2);
    s3 ← array_get syndrome (4 * i + 3);
    elm_write_reg (ELM_SYNDROME_FRAGMENT_0 + Z.of_nat i * 4)
      (Z.lor (Z.lor (Z.lor s0 (lsl s1 8)) (lsl s2 16)) (lsl s3 24))).

Definition elm_start_processing : M elm unit :=
  reg_val ← elm_read_reg ELM_SYNDROME_FRAGMENT_6;
  elm_write_reg ELM_SYNDROME_FRAGMENT_6 (Z.lor reg_val ELM_SYNDROME_VALID).

(** The loop of [rotate_ecc_bytes], from [i] on for [n] rounds; the result is [dst]. *)
Fixpoint rotate_loop (n i : nat) (src dst : list Z) : M elm (list Z) :=
  match n with
  | O => ret dst
  | S n' =>
      b ← array_get src i;
      dst ← array_set dst (BCH8_ECC_BYTES - 1 - i) b;
      rotate_loop n' (S i) src dst
  end.

Definition rotate_ecc_bytes (src dst : list Z) : M elm (list Z) :=
  rotate_loop BCH8_ECC_BYTES 0 src dst.

(** [complete(&elm_completion)] *)
Definition complete : M elm unit := modify (fun e => set_e_done (u32 (e_done e + 1)) e).

Definition elm_isr : M elm Z :=
  reg_val ← elm_read_reg ELM_IRQSTATUS;
  if negb (Z.land reg_val INTR_STATUS_LOC_VALID_0 =? 0) then
    elm_write_reg ELM_IRQSTATUS (Z.land reg_val INTR_STATUS_LOC_VALID_0);;
    complete;;
    ret IRQ_HANDLED
  else ret IRQ_NONE.

(** [wait_for_completion(&elm_completion)]: while the task sleeps, [irqs] interrupts arrive,
    each of which runs the handler. *)
Fixpoint wait_for_completion (irqs : nat) : M elm unit :=
  done ← gets (fun e => e_done e);
  if 0 <? done then modify (set_e_done (done - 1)) else
  match irqs with
  | O => fail NoFuel
  | S irqs' => elm_isr;; wait_for_completion irqs'
  end.

(** The locations of [n] errors from the [i]-th on, stored at [err_loc]. *)
Fixpoint locations_loop (n i : nat) (err_loc : list Z) : M elm (list Z) :=
  match n with
  | O => ret err_loc
  | S n' =>
      reg_val ← elm_read_reg (ELM_ERROR_LOCATION_0 + Z.of_nat i * 4);
      err_loc ← array_set err_loc i reg_val;
      locations_loop n' (S i) err_loc
  end.

(** The result and the array [err_loc] afterwards. *)
Definition elm_decode_bch_error (irqs : nat) (bch_type : Z) (ecc_calc err_loc : list Z)
    : M elm (Z * list Z) :=
  ecc_data ← rotate_ecc_bytes ecc_calc (replicate 28 0);
  elm_load_syndrome bch_type ecc_data;;
  elm_start_processing;;
  wait_for_completion irqs;;
  reg_val ← elm_read_reg ELM_LOCATION_STATUS;
  if negb (Z.land reg_val ECC_CORRECTABLE_MASK =? 0) then
    let err_no := Z.land reg_val ECC_NB_ERRORS_MASK in
    err_loc ← locations_loop (Z.to_nat err_no) 0 err_loc;
    ret (err_no, err_loc)
  else ret (- EINVAL, err_loc).

(** ** The device *)

(** What [platform_get_resource] finds: the interrupt and the range of the registers. *)
Record platform_device := mkPdev {
  pv_name : string;
  pv_irq : option Z;
  pv_mem : option resource
}.

Definition release_mem_region (res : resource) : M elm unit :=
  in_mem (__release_region iomem_resource (rs_start res) (resource_size res)).

(** [mapped] is the result of [ioremap] and [irq_status] that of [request_irq]. *)
Definition omap_elm_probe (fuel : nat) (mapped : option Z) (irq_status : Z) (pdev : platform_device)
    : M elm Z :=
  match pv_irq pdev, pv_mem pdev with
  | None, _ | Some _, None => ret (- EBUSY)
  | Some _, Some res =>
      region ← in_mem (__request_region iomem_resource (rs_start res) (resource_size res)
                         (Some (pv_name pdev)) 0);
      match region with
      | Region (Some _) =>
          modify (set_e_base (default 0 mapped));;
          match mapped with
          | None => release_mem_region res;; ret (- ENOMEM)
          | Some _ =>
              elm_clk ← in_world (clk_get (Some (pv_name pdev)) (Some "elm_fck"));
              match elm_clk with
              | None => release_mem_region res;; ret (- ENOMEM)
              | Some _ =>
                  if negb (irq_status =? 0) then release_mem_region res;; ret irq_status else
                  in_world (clk_enable arch_clock elm_clk);;
                  elm_reset fuel;;
                  elm_config 1;;
                  modify (set_e_done 0);;
                  ret irq_status
              end
          end
      | _ => ret (- EBUSY)
      end
  end.

Definition omap_elm_remove (pdev : platform_device) : M elm Z :=
  match pv_mem pdev with
  | None => fail NullDeref
  | Some res => release_mem_region res;; ret 0
  end.
End Elm.
