(* ===== verification/ElmDecode.v ===== *)
(** * The error location module at work

    What mach-omap2/elm.c does: the syndrome that the memory controller computes reaches the
    engine unchanged, a task that waits for the engine is woken up, and a probe that fails
    leaves nothing behind. *)

From S2P Require Import Prelude Bytes Platform ClkCore Clkdev Resource ResourceTree ResourceAlloc.
From S2P Require Import ResourceRegion Gpmc GpmcWindow Elm.

Ltac e_simpl := cbn [e_w e_mem e_base e_done set_e_w set_e_mem set_e_base set_e_done] in *.

Section Elm.
  Context `{SOC : Soc} `{HW : Hardware}.
Implicit Types e : elm.

Lemma wp_in_world {A} (m : M world A) Q e :
  wp m (fun a w => Q a (set_e_w w e)) (e_w e) -> wp (in_world m) Q e.
Proof. unfold wp, in_world. by destruct (m (e_w e)). Qed.

Lemma wp_in_mem {A} (m : M memory A) Q e :
  wp m (fun a x => Q a (set_e_mem x e)) (e_mem e) -> wp (in_mem m) Q e.
Proof. unfold wp, in_mem. by destruct (m (e_mem e)). Qed.

(** ** The syndrome *)

(** What [rotate_ecc_bytes] leaves of thirteen bytes. *)
Lemma rotate_wp b0 b1 b2 b3 b4 b5 b6 b7 b8 b9 b10 b11 b12 e :
  wp (rotate_ecc_bytes [b0; b1; b2; b3; b4; b5; b6; b7; b8; b9; b10; b11; b12] (replicate 28 0))
    (fun dst e' => e' = e /\
       dst = [b12; b11; b10; b9; b8; b7; b6; b5; b4; b3; b2; b1; b0] ++ replicate 15 0) e.
Proof. split; reflexivity. Qed.

(** No plain register has changed. *)
Definition unchanged s s' : Prop :=
  g_base s' = g_base s /\ forall a, plain_reg a -> regval (g_w s') a = regval (g_w s) a.

Lemma read_reg_wp s0 s reg Q :
  unchanged s0 s -> plain_reg (g_base s0 + reg) ->
  (forall s', unchanged s0 s' -> Q (regval (g_w s0) (g_base s0 + reg)) s') ->
  wp (gpmc_read_reg reg) Q s.
Proof.
  intros [Hb Hr] Hp HQ. unfold gpmc_read_reg. wp_pure. apply wp_on_world, wp_readl. rewrite Hb, Hr by done.
  apply HQ. split; [done|]. intros a Ha. g_simpl. by rewrite plain_read, Hr.
Qed.

(** The [i]-th result register of the ECC engine, and the [i]-th fragment of the syndrome. *)
Definition bch_result s (i : Z) : Z := g_base s + (GPMC_ECC_BCH_RESULT_0 + 4 * i).
Definition fragment e (i : Z) : Z := e_base e + (ELM_SYNDROME_FRAGMENT_0 + i * 4).

(** The bytes that [gpmc_calculate_ecc] stores for BCH8. *)
Lemma calculate_bch8_wp s cs Q :
  (forall i, 0 <= i < 4 -> plain_reg (bch_result s i)) ->
  (forall s', let v := fun i => regval (g_w s) (bch_result s i) in
     Q [byte_at (v 3) 0; byte_at (v 2) 24; byte_at (v 2) 16; byte_at (v 2) 8; byte_at (v 2) 0;
        byte_at (v 1) 24; byte_at (v 1) 16; byte_at (v 1) 8; byte_at (v 1) 0; byte_at (v 0) 24;
        byte_at (v 0) 16; byte_at (v 0) 8; byte_at (v 0) 0] s') ->
  wp (gpmc_calculate_ecc OMAP_ECC_BCH8_CODE_HW cs) Q s.
Proof.
  intros Hp HQ. unfold gpmc_calculate_ecc. cbn [Z.eqb OMAP_ECC_BCH8_CODE_HW OMAP_ECC_BCH4_CODE_HW Pos.eqb orb].
  apply wp_bind, (read_reg_wp s); [done | by apply (Hp 0) |]. intros s1 H1.
  apply wp_bind, (read_reg_wp s); [done | by apply (Hp 1) |]. intros s2 H2. apply wp_bind.
  apply wp_bind, (read_reg_wp s); [done | by apply (Hp 2) |]. intros s3 H3.
  apply wp_bind, (read_reg_wp s); [done | by apply (Hp 3) |]. intros s4 H4. wp_pure. apply HQ.
Qed.

Lemma elm_write_wp e idx v Q :
  (forall e', e_base e' = e_base e -> (plain_reg (e_base e + idx) -> uint 32 v -> regval (e_w e') (e_base e + idx) = v) ->
     (forall a, plain_reg a -> a <> e_base e + idx -> regval (e_w e') a = regval (e_w e) a) -> Q tt e') ->
  wp (elm_write_reg idx v) Q e.
Proof.
  intros HQ. unfold elm_write_reg. wp_pure. apply wp_in_world, wp_writel. apply HQ; [done | |].
  - intros Hp Hv. e_simpl. by apply plain_write.
  - intros a Ha Hne. e_simpl. by apply plain_write_ne.
Qed.

Lemma array_get_wp l i x Q e : l !! i = Some x -> Q x e -> wp (array_get l i) Q e.
Proof. intros E HQ. unfold array_get. by rewrite E. Qed.

(** The [i]-th word of an array of bytes. *)
Definition word_at (syn : list Z) (i : nat) : option Z :=
  match syn !! (4 * i)%nat, syn !! (4 * i + 1)%nat, syn !! (4 * i + 2)%nat, syn !! (4 * i + 3)%nat with
  | Some s0, Some s1, Some s2, Some s3 => Some (word_of s0 s1 s2 s3)
  | _, _, _, _ => None
  end.

(** One round of the loop of [elm_load_syndrome]. *)
Definition load_word (syn : list Z) (i : nat) : M elm unit :=
  s0 ← array_get syn (4 * i);
  s1 ← array_get syn (4 * i + 1);
  s2 ← array_get syn (4 * i + 2);
  s3 ← array_get syn (4 * i + 3);
  elm_write_reg (ELM_SYNDROME_FRAGMENT_0 + Z.of_nat i * 4) (word_of s0 s1 s2 s3).

Lemma load_word_wp syn i v Q e :
  word_at syn i = Some v -> wp (elm_write_reg (ELM_SYNDROME_FRAGMENT_0 + Z.of_nat i * 4) v) Q e ->
  wp (load_word syn i) Q e.
Proof.
  unfold word_at, load_word. intros Hw HQ.
  destruct (syn !! (4 * i)%nat) as [s0|] eqn:E0; [|done]. destruct (syn !! (4 * i + 1)%nat) as [s1|] eqn:E1; [|done].
  destruct (syn !! (4 * i + 2)%nat) as [s2|] eqn:E2; [|done]. destruct (syn !! (4 * i + 3)%nat) as [s3|] eqn:E3; [|done].
  injection Hw as <-. repeat (apply wp_bind; eapply array_get_wp; [eassumption|]). done.
Qed.

(** The fragments from the [i]-th on are written, and nothing else. *)
Lemma load_loop_wp syn n i e :
  (forall j, (i <= j < i + n)%nat -> plain_reg (fragment e (Z.of_nat j)) /\ exists v, word_at syn j = Some v /\ uint 32 v) ->
  wp (for_each (seq i n) (load_word syn)) (fun _ e' => e_base e' = e_base e /\
    (forall j, (i <= j < i + n)%nat -> Some (regval (e_w e') (fragment e (Z.of_nat j))) = word_at syn j) /\
    forall a, plain_reg a -> (forall j, (i <= j < i + n)%nat -> a <> fragment e (Z.of_nat j)) ->
      regval (e_w e') a = regval (e_w e) a) e.
Proof.
  revert i e. induction n as [|n IH]; intros i e H; cbn [seq for_each].
  { apply wp_ret. split; [done|]. split; [intros; lia | done]. }
  destruct (H i ltac:(lia)) as (Hp & v & Hv & Hv32).
  apply wp_bind. eapply load_word_wp; [exact Hv|]. apply elm_write_wp. intros e1 Hb V K.
  assert (forall j, fragment e1 j = fragment e j) as Ef by (intros; unfold fragment; by rewrite Hb).
  eapply wp_mono; [apply IH; intros j Hj; rewrite Ef; apply H; lia|].
  intros _ e2 (Hb2 & W2 & K2). split; [congruence|]. split.
  - intros j Hj. destruct (decide (j = i)) as [->|Hji]; [|rewrite <- Ef; apply W2; lia].
    rewrite Hv, K2; [f_equal; by apply V | done |].
    intros k Hk. rewrite Ef. unfold fragment. lia.
  - intros a Ha Hne. rewrite K2; [apply K; [done|]; apply (Hne i); lia | done |].
    intros j Hj. rewrite Ef. apply Hne. lia.
Qed.

(** The fragment that belongs to a result register, of which the last has one byte. *)
Definition syndrome_of (i : nat) (v : Z) : Z := if decide (i = 3%nat) then byte_at v 0 else v.

Lemma word_of_byte v : word_of (byte_at v 0) 0 0 0 = byte_at v 0.
Proof. unfold word_of. by rewrite !Z.lor_0_r. Qed.

Lemma syndrome_uint i v : uint 32 v -> uint 32 (syndrome_of i v).
Proof. intros Hv. unfold syndrome_of. case_decide; [|done]. pose proof (byte_at_range v 0). split; lia. Qed.

(** C37: the syndrome that the ECC engine of the memory controller has computed reaches the error
    location module unchanged: after [gpmc_calculate_ecc] for BCH8, [rotate_ecc_bytes] and
    [elm_load_syndrome], the fragments hold what the result registers hold, of which the last
    has a single byte. *)
Theorem bch8_syndrome_roundtrip s cs t e :
  (forall i, 0 <= i < 4 -> plain_reg (bch_result s i)) ->
  (forall i, 0 <= i < 4 -> plain_reg (fragment e i)) ->
  wp (gpmc_calculate_ecc OMAP_ECC_BCH8_CODE_HW cs) (fun ecc _ =>
    wp (ecc_data ← rotate_ecc_bytes ecc (replicate 28 0); elm_load_syndrome t ecc_data) (fun _ e' =>
      forall i, (i < 4)%nat -> regval (e_w e') (fragment e (Z.of_nat i)) =
        syndrome_of i (regval (g_w s) (bch_result s (Z.of_nat i)))) e) s.
Proof.
  intros Hs He. apply calculate_bch8_wp; [done|]. intros s' v. apply wp_bind.
  eapply wp_mono; [apply rotate_wp|]. intros syn e0 [-> Hsyn].
  assert (forall i, (i < 4)%nat -> word_at syn i = Some (syndrome_of i (v (Z.of_nat i)))) as Hw.
  { assert (forall i, uint 32 (v i)) as Hv by (intros; apply regval_uint).
    intros i Hi. destruct i as [|[|[|[|]]]]; [..|lia]; subst syn; unfold word_at; cbn -[word_of byte_at v].
    all: unfold syndrome_of; cbn -[word_of byte_at v]; by rewrite ?word_of_bytes, ?word_of_byte. }
  eapply wp_mono; [apply (load_loop_wp syn 4 0)|].
  - intros j Hj. split; [apply He; lia|]. rewrite Hw by lia. eexists. split; [done|].
    apply syndrome_uint, regval_uint.
  - intros _ e' (_ & H & _) i Hi. specialize (H i ltac:(lia)). rewrite Hw in H by done. by apply (inj Some) in H.
Qed.

(** ** Waiting for the engine *)

(** The bus history after [k] interrupts that found nothing. *)
Fixpoint reread (a : Z) (k : nat) (h : list io_event) : list io_event :=
  match k with
  | O => h
  | S k' => reread a k' (IoRead a (u32 (hw_read h a)) :: h)
  end.

(** Whether the [k]-th interrupt from now on finds that the engine is ready. *)
Definition ready_at e (k : nat) : bool :=
  let a := e_base e + ELM_IRQSTATUS in
  Z.testbit (u32 (hw_read (reread a k (w_trace (e_w e))) a)) 0.

(** The state after an interrupt that found nothing. *)
Definition idle_isr e : elm :=
  let a := e_base e + ELM_IRQSTATUS in
  set_e_w (set_w_trace (IoRead a (regval (e_w e) a) :: w_trace (e_w e)) (e_w e)) e.

Lemma ready_next e k : ready_at (idle_isr e) k = ready_at e (S k).
Proof. done. Qed.

Lemma isr_ready e : ready_at e 0 = true ->
  exists e', elm_isr e = Done IRQ_HANDLED e' /\ e_done e' = u32 (e_done e + 1).
Proof.
  intros Hr. unfold elm_isr, elm_read_reg, bind, gets, in_world, __raw_readl.
  change (Z.land ?v INTR_STATUS_LOC_VALID_0) with (Z.land v (2 ^ 0)).
  rewrite land_pow2_test by lia. unfold ready_at in Hr. cbn [reread] in Hr. rewrite Hr. cbn [negb].
  by eexists.
Qed.

Lemma isr_idle e : ready_at e 0 = false -> elm_isr e = Done IRQ_NONE (idle_isr e).
Proof.
  intros Hr. unfold elm_isr, elm_read_reg, bind, gets, in_world, __raw_readl.
  change (Z.land ?v INTR_STATUS_LOC_VALID_0) with (Z.land v (2 ^ 0)).
  rewrite land_pow2_test by lia. unfold ready_at in Hr. cbn [reread] in Hr. by rewrite Hr.
Qed.

Lemma ready_later e n i : existsb (ready_at (idle_isr e)) (seq i n) = existsb (ready_at e) (seq (S i) n).
Proof. revert i. induction n as [|n IH]; intros i; [done|]. cbn [seq existsb]. by rewrite IH, ready_next. Qed.

(** A task that waits for the error location module goes on as soon as an interrupt finds
    the result valid, and has then used up the completion; as long as no interrupt does, it
    sleeps. *)
Theorem wait_for_completion_live irqs e :
  e_done e = 0 ->
  if existsb (ready_at e) (seq 0 irqs)
  then exists e', wait_for_completion irqs e = Done tt e' /\ e_done e' = 0
  else wait_for_completion irqs e = Fault NoFuel.
Proof.
  revert e. induction irqs as [|n IH]; intros e Hd.
  { cbn. unfold bind, gets. by rewrite Hd. }
  assert (wait_for_completion (S n) e =
    match elm_isr e with Done _ e' => wait_for_completion n e' | Fault f => Fault f end) as ->.
  { cbn [wait_for_completion]. unfold bind at 1, gets at 1. by rewrite Hd. }
  cbn [seq existsb]. destruct (ready_at e 0) eqn:Hr; cbn [orb].
  - destruct (isr_ready e Hr) as (e1 & -> & Hd1). rewrite Hd in Hd1. exists (set_e_done 0 e1). split; [|done].
    destruct n; cbn [wait_for_completion]; unfold bind, gets; by rewrite Hd1.
  - rewrite (isr_idle e Hr), <- ready_later. by apply IH.
Qed.

(** ** Probing *)

Lemma probe_release_wp e base a l1 l2 res name :
  let m := e_mem e in
  let r := region (rs_start res) (resource_size res) name 0 in
  level (m_res m) iomem_resource (l1 ++ l2) -> m_res m !! a = None -> tree_ok (<[a := r]> (m_res m)) ->
  let h := link (<[a := r]> (m_res m)) iomem_resource a l1 l2 in
  tree_ok h -> level h iomem_resource (l1 ++ a :: l2) ->
  0 <= rs_start res -> 1 <= resource_size res -> rs_start res + resource_size res <= 2 ^ 32 ->
  wp (release_mem_region res) (fun _ e' => e_w e' = e_w e /\ m_res (e_mem e') = m_res m)
    (set_e_base base (set_e_mem (mkMemory h (tail (m_oom m))) e)).
Proof.
  intros m r L Ha T1 h T2 L2 H0 Hn He. apply wp_in_mem. eapply wp_mono; [by apply release_requested|].
  by intros _ m' ->.
Qed.

(** Something that makes the probe fail. *)
Definition probe_fails e (mapped : option Z) (irq_status : Z) (pdev : platform_device) : Prop :=
  pv_irq pdev = None \/ pv_mem pdev = None \/ mapped = None \/ irq_status <> 0 \/
  clk_find_loop (Some (pv_name pdev)) (Some "elm_fck") (w_clkdevs (e_w e)) None 0 = None.

(** A probe of the error location module that fails, because the device has no interrupt or
    no registers, or because they cannot be mapped, the clock is not there, or the interrupt is
    refused, returns an error and leaves the clocks and the tree of I/O memory as they were. *)
Theorem elm_probe_failure_undone arch_clock fuel mapped irq_status pdev e l :
  tree_ok (m_res (e_mem e)) -> level (m_res (e_mem e)) iomem_resource l ->
  head (m_oom (e_mem e)) <> Some true ->
  (forall res, pv_mem pdev = Some res -> 0 <= rs_start res <= rs_end res /\ rs_end res < 2 ^ 32 - 1 /\
     fits (m_res (e_mem e)) iomem_resource l (rs_start res) (rs_end res)) ->
  probe_fails e mapped irq_status pdev ->
  wp (omap_elm_probe arch_clock fuel mapped irq_status pdev) (fun r e' => r <> 0 /\
    e_w e' = e_w e /\ m_res (e_mem e') = m_res (e_mem e)) e.
Proof.
  intros T L Ho Hres Hf. unfold omap_elm_probe.
  destruct (pv_irq pdev) as [irq|] eqn:Ei; [|by apply wp_ret].
  destruct (pv_mem pdev) as [res|] eqn:Em; [|by apply wp_ret].
  destruct (Hres res eq_refl) as (H1 & H2 & Hfit).
  assert (resource_size res = rs_end res - rs_start res + 1) as En by (apply wrapu_small; split; lia).
  apply wp_bind, wp_in_mem. eapply wp_mono.
  { apply (request_region_wp _ iomem_resource l); try done; try lia.
    by replace (rs_start res + resource_size res - 1) with (rs_end res) by lia. }
  intros r m' (a & l1 & l2 & -> & -> & Ha & -> & T1 & T2 & L2). wp_pure.
  assert (forall base v, v <> 0 -> wp (release_mem_region res;; ret v) (fun r e' => r <> 0 /\
    e_w e' = e_w e /\ m_res (e_mem e') = m_res (e_mem e)) (set_e_base base (set_e_mem
      (mkMemory (link (<[a := region (rs_start res) (resource_size res) (Some (pv_name pdev)) 0]>
        (m_res (e_mem e))) iomem_resource a l1 l2) (tail (m_oom (e_mem e)))) e))) as Hrel.
  { intros base v Hv. apply wp_bind. eapply wp_mono; [apply probe_release_wp; (done || lia)|].
    cbv beta. intros _ e' H. by apply wp_ret. }
  destruct mapped as [base|]; [|by apply Hrel]. wp_pure. apply wp_in_world.
  unfold clk_get, clk_get_sys, clk_find. wp_pure. e_simpl.
  destruct (clk_find_loop _ _ _ _ _) as [c|] eqn:Ec; [|by apply Hrel].
  assert (irq_status <> 0) as Hi by (destruct Hf as [?|[?|[?|[?|Hc]]]]; [congruence.. | done | by setoid_rewrite Hc in Ec]).
  rewrite (proj2 (Z.eqb_neq _ _) Hi). cbn [negb]. by apply Hrel.
Qed.
End Elm.
