(* ===== verification/ElmExamples.v ===== *)
(** * The error location module of the booted chip

    The module of the booted DM8148 (Dm8148.v), on which the theorems of ElmDecode.v are applied:
    a probe, a decoded syndrome, and what a removal leaves behind. *)

From S2P Require Import Prelude Platform ClkCore Clkdev ClkRate Clk814xData Dm8148.
From S2P Require Import Resource ResourceTree ResourceAlloc Gpmc GpmcExamples Elm ElmDecode.

Definition EBASE : Z := 0x48080000.

(** The ECC engine has computed a syndrome; the module is out of reset and has found two
    errors. *)
Definition ecc_regs (a : Z) : Z :=
  if a =? GBASE + 0x240 then 0x11223344 else if a =? GBASE + 0x244 then 0x55667788 else
  if a =? GBASE + 0x248 then 0x99aabbcc else if a =? GBASE + 0x24c then 0xddeeff01 else
  if a =? EBASE + ELM_SYSSTATUS then 1 else if a =? EBASE + ELM_IRQSTATUS then 1 else
  if a =? EBASE + ELM_LOCATION_STATUS then 0x102 else
  if a =? EBASE + ELM_ERROR_LOCATION_0 then 77 else
  if a =? EBASE + ELM_ERROR_LOCATION_0 + 4 then 4000 else 0.

Definition in_ecc (a : Z) : bool := in_gpmc a || ((EBASE <=? a) && (a <? EBASE + 0x2000)).
Definition elm_hw : Hardware := {|
  hw_read := fun h a => if in_ecc a then last_write ecc_regs h a else @hw_read dm8148_hw h a;
  hw_sched_clock := @hw_sched_clock dm8148_hw
|}.

#[local] Existing Instance dm8148_soc.
#[local] Existing Instance elm_hw.

Definition pdev : platform_device :=
  mkPdev "omap2_elm.1" (Some 4) (Some (mkResource EBASE (EBASE + 0x1fff) None IORESOURCE_MEM None None None)).

Definition e0 : elm := {|
  e_w := booted; e_mem := mkMemory {[ iomem_resource := iomem_resource_init ]} []; e_base := 0; e_done := 0
|}.
Definition e1 : elm :=
  match omap_elm_probe arch_clock 10 (Some EBASE) 0 pdev e0 with Done _ e => e | Fault _ => e0 end.

Definition usecount (e : elm) : option Z := (fun k => ck_usecount k) <$> w_clks (e_w e) !! "elm_fck".

(** The probe succeeds, and enables the clock. *)
Example elm_probe_runs :
  match omap_elm_probe arch_clock 10 (Some EBASE) 0 pdev e0 with
  | Done r e => r = 0 /\ usecount e = Some 1 /\ e_base e = EBASE /\ size (m_res (e_mem e)) = 2%nat
  | Fault _ => False
  end.
Proof. by vm_compute. Qed.

(** Decoding stores the two locations; the caller's array has room for eight. *)
Example elm_decode_runs :
  match elm_decode_bch_error 1 1 (Z.of_nat <$> seq 0 13) (replicate 8 0) e1 with
  | Done r _ => r = (2, [77; 4000; 0; 0; 0; 0; 0; 0])
  | Fault _ => False
  end.
Proof. by vm_compute. Qed.

(** Removing the device gives its registers back, and leaves the clock enabled: with every
    probe and removal its use count grows. *)
Example elm_remove_keeps_clock :
  match omap_elm_remove pdev e1 with
  | Done r e => r = 0 /\ size (m_res (e_mem e)) = 1%nat /\ usecount e = Some 1 /\
      match omap_elm_probe arch_clock 10 (Some EBASE) 0 pdev e with
      | Done r' e' => r' = 0 /\ usecount e' = Some 2
      | Fault _ => False
      end
  | Fault _ => False
  end.
Proof. by vm_compute. Qed.

#[local] Opaque booted.

Definition gs : gpmc := set_g_base GBASE g0.
Definition es : elm := set_e_base EBASE (set_e_w gpmc_world e0).

Lemma ecc_plain a : in_ecc a = true -> plain_reg a.
Proof. intros Ha e h. cbn. rewrite Ha. by destruct e. Qed.

Lemma four_cases (P : Z -> Prop) : P 0 -> P 1 -> P 2 -> P 3 -> forall i, 0 <= i < 4 -> P i.
Proof. intros ???? i Hi. assert (i = 0 \/ i = 1 \/ i = 2 \/ i = 3) as [->|[->|[->| ->]]] by lia; done. Qed.

Lemma bch8_syndrome_roundtrip_witness :
  wp (gpmc_calculate_ecc OMAP_ECC_BCH8_CODE_HW 0) (fun ecc _ =>
    wp (ecc_data ← rotate_ecc_bytes ecc (replicate 28 0); elm_load_syndrome 1 ecc_data) (fun _ e' =>
      forall i, (i < 4)%nat -> regval (e_w e') (fragment es (Z.of_nat i)) =
        syndrome_of i (regval (g_w gs) (bch_result gs (Z.of_nat i)))) es) gs.
Proof.
  apply (bch8_syndrome_roundtrip gs 0 1 es); apply four_cases; by apply ecc_plain.
Defined.

Lemma wait_for_completion_live_witness :
  exists e', wait_for_completion 1 es = Done tt e' /\ e_done e' = 0.
Proof. exact (wait_for_completion_live 1 es eq_refl). Defined.

Lemma e0_tree : tree_ok (m_res (e_mem e0)).
Proof. by apply res_tree_check_sound. Qed.

Lemma elm_probe_failure_undone_witness :
  wp (omap_elm_probe arch_clock 10 None 0 pdev) (fun r e' => r <> 0 /\
    e_w e' = e_w es /\ m_res (e_mem e') = m_res (e_mem es)) es.
Proof.
  apply (elm_probe_failure_undone arch_clock 10 None 0 pdev es []).
  - apply e0_tree.
  - exists iomem_resource_init. by split.
  - done.
  - intros res [= <-]. split; [done|]. split; [done|]. split_and!; try done. by intros ? ?%elem_of_nil.
  - do 2 right. by left.
Defined.
