(* ===== verification/KfifoRing.v ===== *)
(** * Ring buffers as lists

    What storing to and loading from a buffer that wraps around does to the list that one reads
    from a position [o] on, [rotate o d]. *)

From S2P Require Import Prelude.

Section Ring.
  Context {A : Type}.
Implicit Types (d src x : list A) (o n m : nat).

Lemma rotate_all d : rotate (length d) d = d.
Proof.
  unfold rotate. destruct d as [|a d]; [done|]. rewrite Nat.Div0.mod_same. cbn. by rewrite app_nil_r.
Qed.

Lemma rotate_mod o d : rotate (o mod length d) d = rotate o d.
Proof. unfold rotate. by rewrite Nat.Div0.mod_mod. Qed.

Lemma rotate_le n x : (n <= length x)%nat -> rotate n x = drop n x ++ take n x.
Proof.
  intros H. destruct (decide (n = length x)) as [->|].
  - by rewrite rotate_all, drop_all, firstn_all.
  - unfold rotate. by rewrite Nat.mod_small by lia.
Qed.

Lemma rotate_rotate n o d : rotate n (rotate o d) = rotate (o + n) d.
Proof.
  destruct (decide (length d = 0%nat)) as [Hl|Hl].
  { by rewrite (nil_length_inv (rotate n _)), (nil_length_inv (rotate (o + n) _)) by (by rewrite !length_rotate). }
  apply list_eq. intros i. destruct (decide (i < length d)%nat) as [Hi|Hi].
  2: by rewrite !lookup_ge_None_2 by (rewrite !length_rotate; lia).
  rewrite !lookup_rotate_r by (rewrite ?length_rotate; done || (apply rotate_nat_add_lt; lia)).
  rewrite length_rotate. unfold rotate_nat_add.
  rewrite Z2Nat.id by (apply Z.mod_pos_bound; lia). rewrite Zplus_mod_idemp_r. do 3 f_equal. lia.
Qed.

(** The two copies of a store that wraps around. *)
Definition ring_store (o : nat) (src d : list A) : list A :=
  let l := min (length src) (length d - o) in
  let d := take o d ++ take l src ++ drop (o + l) d in
  drop l src ++ drop (length src - l) d.

Lemma rotate_store o src d :
  (o < length d)%nat -> (length src <= length d)%nat ->
  rotate o (ring_store o src d) = src ++ drop (length src) (rotate o d).
Proof.
  intros Ho Hs. unfold ring_store. destruct (Nat.le_ge_cases (length src) (length d - o)) as [Hl|Hl].
  - rewrite Nat.min_l, Nat.sub_diag, drop_0, firstn_all, drop_all by done. cbn [app].
    rewrite !rotate_le by (rewrite ?length_app, ?length_take, ?length_drop; lia).
    rewrite drop_app_length', take_app_length' by (rewrite length_take; lia).
    rewrite drop_app_le, drop_drop by (rewrite length_drop; lia). by rewrite <- app_assoc.
  - rewrite Nat.min_r by done. rewrite (drop_ge d) by lia. rewrite app_nil_r.
    set (l := (length d - o)%nat) in *. set (b := (length src - l)%nat).
    rewrite drop_app_le by (rewrite length_take; lia).
    rewrite !rotate_le by (rewrite ?length_app, ?length_take, ?length_drop, ?length_take; lia).
    rewrite (app_assoc (drop l src)).
    rewrite drop_app_length', take_app_length' by (rewrite length_app, !length_drop, length_take; lia).
    rewrite drop_app_ge by (rewrite length_drop; lia). rewrite length_drop.
    by rewrite app_assoc, take_drop.
Qed.

Lemma length_ring_store o src d :
  (o < length d)%nat -> (length src <= length d)%nat -> length (ring_store o src d) = length d.
Proof.
  intros Ho Hs. unfold ring_store. rewrite !length_app, !length_drop, !length_app, !length_take, length_drop. lia.
Qed.

(** Storing behind [n] elements appends to them. *)
Lemma ring_append o n src d :
  (o < length d)%nat -> (n + length src <= length d)%nat ->
  take (n + length src) (rotate o (ring_store ((o + n) mod length d) src d)) =
  take n (rotate o d) ++ src.
Proof.
  intros Ho Hn. set (p := ((o + n) mod length d)%nat).
  assert (p < length d)%nat as Hp by (apply Nat.mod_upper_bound; lia).
  pose proof (rotate_store p src d Hp ltac:(lia)) as E.
  pose proof (length_ring_store p src d Hp ltac:(lia)) as Hl.
  set (d' := ring_store p src d) in *.
  unfold p in E. rewrite <- Hl in E at 1. rewrite rotate_mod, <- rotate_rotate in E.
  rewrite rotate_mod, <- rotate_rotate in E.
  set (x := rotate o d) in *. set (x' := rotate o d') in *.
  assert (length x = length d) as Hx by apply length_rotate.
  assert (length x' = length d) as Hx' by (unfold x'; by rewrite length_rotate).
  rewrite !rotate_le in E by lia. rewrite drop_app_le, drop_drop, app_assoc in E by (rewrite length_drop; lia).
  apply app_inj_1 in E as [E1 E2]; [|rewrite length_app, !length_drop; lia].
  rewrite <- (take_drop n x'), E1, E2, app_assoc.
  rewrite take_app_length'; [done|]. rewrite length_app, length_take. lia.
Qed.

(** Taking [m] elements away leaves the rest. *)
Lemma ring_remove o n m d :
  (m <= n)%nat -> (n <= length d)%nat ->
  take (n - m) (rotate ((o + m) mod length d) d) = drop m (take n (rotate o d)).
Proof.
  intros Hm Hn. rewrite rotate_mod, <- rotate_rotate. set (x := rotate o d).
  assert (length x = length d) as Hx by apply length_rotate.
  rewrite rotate_le by lia. rewrite take_app_le by (rewrite length_drop; lia).
  by rewrite take_drop_commute, Nat.add_comm, Nat.sub_add by lia.
Qed.

(** Loading [n] elements that wrap around. *)
Lemma ring_load o n d :
  (o < length d)%nat -> (n <= length d)%nat ->
  let l := min n (length d - o) in
  take l (drop o d) ++ take (n - l) d = take n (rotate o d).
Proof.
  intros Ho Hn l. rewrite rotate_le by lia. rewrite take_app, length_drop, firstn_firstn.
  unfold l. destruct (Nat.le_ge_cases n (length d - o)).
  - by rewrite Nat.min_l, !(proj2 (Nat.sub_0_le _ _)) by lia.
  - rewrite Nat.min_r by done. rewrite !(take_ge (drop o d)) by (rewrite length_drop; lia).
    f_equal. f_equal. lia.
Qed.
End Ring.
