(* ===== verification/Kfifo.v ===== *)
(** * The kernel FIFO

    kernel/kfifo.c and the macros of linux/kfifo.h: a ring buffer of bytes, elements or records.
    The indices [in] and [out] run freely over the 32-bit integers; the buffer is accessed at
    their low bits.  The scatter lists for DMA are not modelled.

    The state is the [struct __kfifo]; [data] is the buffer it points to, a list of bytes.  What
    a call stores in memory of the caller is part of its result. *)

From S2P Require Import Prelude.

#[local] Set Primitive Projections.
Record kfifo := mkKfifo {
  kf_in : Z;
  kf_out : Z;
  kf_mask : Z;
  kf_esize : Z;
  kf_data : option (list Z)
}.

Definition set_kf_in : Z -> kfifo -> kfifo := Eval cbv beta zeta in ltac:(record_setter kf_in).
Definition set_kf_out : Z -> kfifo -> kfifo := Eval cbv beta zeta in ltac:(record_setter kf_out).
Definition set_kf_mask : Z -> kfifo -> kfifo := Eval cbv beta zeta in ltac:(record_setter kf_mask).
Definition set_kf_esize : Z -> kfifo -> kfifo := Eval cbv beta zeta in ltac:(record_setter kf_esize).
Definition set_kf_data : option (list Z) -> kfifo -> kfifo :=
  Eval cbv beta zeta in ltac:(record_setter kf_data).
#[local] Unset Primitive Projections.

(** ** Memory *)

(** [len]: the length of a list as an integer of C. *)
Definition len {A} (l : list A) : Z := Z.of_nat (length l).

(** [d] with [src] stored from [off] on. *)
Definition store (off : Z) (src d : list Z) : list Z :=
  take (Z.to_nat off) d ++ src ++ drop (Z.to_nat (off + len src)) d.

(** [n] bytes of [d] from [off] on. *)
Definition load (off n : Z) (d : list Z) : list Z := take (Z.to_nat n) (drop (Z.to_nat off) d).

(** [memcpy(fifo->data + off, src, n)]; both ranges must be there. *)
Definition memcpy_to (off : Z) (src : list Z) (n : Z) : M kfifo unit :=
  if n =? 0 then ret tt else
  p ← gets (fun f => kf_data f);
  d ← deref p;
  if (off + n <=? len d) && (n <=? len src)
  then modify (set_kf_data (Some (store off (load 0 n src) d)))
  else fail OutOfBounds.

(** [memcpy(dst, fifo->data + off, n)] *)
Definition memcpy_from (off n : Z) : M kfifo (list Z) :=
  if n =? 0 then ret [] else
  p ← gets (fun f => kf_data f);
  d ← deref p;
  if off + n <=? len d then ret (load off n d) else fail OutOfBounds.

(** [copy_from_user(fifo->data + off, from, n)]: [from] is what the user can read there; the
    rest is filled up with zeros, and its length returned. *)
Definition copy_from_user (off : Z) (from : list Z) (n : Z) : M kfifo Z :=
  let got := load 0 n from in
  memcpy_to off (got ++ replicate (Z.to_nat (n - len got)) 0) n;;
  ret (n - len got).

(** [copy_to_user(to, fifo->data + off, n)]: [room] bytes are writable at [to].  The bytes
    stored there, and the number of those that are not. *)
Definition copy_to_user (room off n : Z) : M kfifo (list Z * Z) :=
  let m := Z.min (Z.max 0 room) n in
  d ← memcpy_from off m;
  ret (d, n - m).

(** ** Powers of two *)

Definition is_power_of_2 (n : Z) : bool := negb (n =? 0) && (Z.land n (u32 (n - 1)) =? 0).

Definition fls_long (n : Z) : Z := if n =? 0 then 0 else Z.log2 n + 1.

Definition __rounddown_pow_of_two (n : Z) : Z := lsl 1 (fls_long n - 1).

Definition DIV_ROUND_UP (n d : Z) : M kfifo Z := divu (u32 (n + d - 1)) d.

(** ** The macros of linux/kfifo.h *)

Definition kfifo_len (f : kfifo) : Z := u32 (kf_in f - kf_out f).
Definition kfifo_size (f : kfifo) : Z := u32 (kf_mask f + 1).
Definition kfifo_is_empty (f : kfifo) : bool := kf_in f =? kf_out f.
Definition kfifo_is_full (f : kfifo) : bool := kf_mask f <? kfifo_len f.

Definition kfifo_reset : M kfifo unit := modify (fun f => set_kf_in 0 (set_kf_out 0 f)).
Definition kfifo_reset_out : M kfifo unit := modify (fun f => set_kf_out (kf_in f) f).

(** ** Setting up *)

Section Alloc.
(** [kmalloc(n)]: a block of [n] bytes, if there is one. *)
Variable kmalloc : Z -> option (list Z).

Definition __kfifo_alloc (size esize : Z) : M kfifo Z :=
  let size := if negb (is_power_of_2 size) then __rounddown_pow_of_two size else size in
  modify (set_kf_in 0);;
  modify (set_kf_out 0);;
  modify (set_kf_esize esize);;
  if size <? 2 then
    modify (set_kf_data None);; modify (set_kf_mask 0);; ret (- EINVAL)
  else
    let data := kmalloc (u32 (size * esize)) in
    modify (set_kf_data data);;
    match data with
    | None => modify (set_kf_mask 0);; ret (- ENOMEM)
    | Some _ => modify (set_kf_mask (size - 1));; ret 0
    end.
End Alloc.

Definition __kfifo_free : M kfifo unit := modify (fun _ => mkKfifo 0 0 0 0 None).

Definition __kfifo_init (buffer : list Z) (size esize : Z) : M kfifo Z :=
  size ← divu size esize;
  let size := if negb (is_power_of_2 size) then __rounddown_pow_of_two size else size in
  modify (set_kf_in 0);;
  modify (set_kf_out 0);;
  modify (set_kf_esize esize);;
  modify (set_kf_data (Some buffer));;
  if size <? 2 then modify (set_kf_mask 0);; ret (- EINVAL)
  else modify (set_kf_mask (size - 1));; ret 0.

(** ** Bytes and elements *)

Definition kfifo_unused (f : kfifo) : Z := u32 (kf_mask f + 1 - (kf_in f - kf_out f)).

(** The beginning of every copying function: the offset, the length up to the end of the buffer
    and the whole length, in bytes. *)
Definition span (f : kfifo) (n off : Z) : Z * Z * Z :=
  let size := kfifo_size f in
  let esize := kf_esize f in
  let off := Z.land off (kf_mask f) in
  let '(off, size, n) := if negb (esize =? 1)
    then (u32 (off * esize), u32 (size * esize), u32 (n * esize)) else (off, size, n) in
  (off, Z.min n (u32 (size - off)), n).

Definition kfifo_copy_in (src : list Z) (n off : Z) : M kfifo unit :=
  f ← gets (fun f => f);
  let '(off, l, n) := span f n off in
  memcpy_to off src l;;
  memcpy_to 0 (drop (Z.to_nat l) src) (n - l).

Definition __kfifo_in (buf : list Z) (n : Z) : M kfifo Z :=
  f ← gets (fun f => f);
  let l := kfifo_unused f in
  let n := if l <? n then l else n in
  kfifo_copy_in buf n (kf_in f);;
  modify (fun f => set_kf_in (u32 (kf_in f + n)) f);;
  ret n.

Definition kfifo_copy_out (n off : Z) : M kfifo (list Z) :=
  f ← gets (fun f => f);
  let '(off, l, n) := span f n off in
  a ← memcpy_from off l;
  b ← memcpy_from 0 (n - l);
  ret (a ++ b).

(** The number of elements, and what is stored at [buf]. *)
Definition __kfifo_out_peek (n : Z) : M kfifo (Z * list Z) :=
  f ← gets (fun f => f);
  let l := kfifo_len f in
  let n := if l <? n then l else n in
  d ← kfifo_copy_out n (kf_out f);
  ret (n, d).

Definition __kfifo_out (n : Z) : M kfifo (Z * list Z) :=
  '(n, d) ← __kfifo_out_peek n;
  modify (fun f => set_kf_out (u32 (kf_out f + n)) f);;
  ret (n, d).

(** ** User space *)

(** The number of elements that are not copied, and [*copied]. *)
Definition kfifo_copy_from_user (from : list Z) (n off : Z) : M kfifo (Z * Z) :=
  f ← gets (fun f => f);
  let '(off, l, n) := span f n off in
  r ← copy_from_user off from l;
  r ← (if negb (r =? 0) then DIV_ROUND_UP (u32 (r + n - l)) (kf_esize f)
       else
         r ← copy_from_user 0 (drop (Z.to_nat l) from) (n - l);
         if negb (r =? 0) then DIV_ROUND_UP r (kf_esize f) else ret r);
  ret (r, u32 (n - r)).

(** The result and [*copied]. *)
Definition __kfifo_from_user (from : list Z) (n : Z) : M kfifo (Z * Z) :=
  f ← gets (fun f => f);
  n ← (if negb (kf_esize f =? 1) then divu n (kf_esize f) else ret n);
  let l := kfifo_unused f in
  let n := if l <? n then l else n in
  '(r, copied) ← kfifo_copy_from_user from n (kf_in f);
  let '(n, err) := if negb (r =? 0) then (n - r, - EFAULT) else (n, 0) in
  modify (fun f => set_kf_in (u32 (kf_in f + n)) f);;
  ret (err, copied).

(** The number of elements that are not copied, [*copied], and what is stored at [to]. *)
Definition kfifo_copy_to_user (room n off : Z) : M kfifo (Z * Z * list Z) :=
  f ← gets (fun f => f);
  let '(off, l, n) := span f n off in
  '(a, r) ← copy_to_user room off l;
  '(r, d) ← (if negb (r =? 0) then
               r ← DIV_ROUND_UP (u32 (r + n - l)) (kf_esize f); ret (r, a)
             else
               '(b, r) ← copy_to_user (room - l) 0 (n - l);
               r ← (if negb (r =? 0) then DIV_ROUND_UP r (kf_esize f) else ret r);
               ret (r, a ++ b));
  ret (r, u32 (n - r), d).

Definition __kfifo_to_user (room n : Z) : M kfifo (Z * Z * list Z) :=
  f ← gets (fun f => f);
  n ← (if negb (kf_esize f =? 1) then divu n (kf_esize f) else ret n);
  let l := kfifo_len f in
  let n := if l <? n then l else n in
  '(r, copied, d) ← kfifo_copy_to_user room n (kf_out f);
  let '(n, err) := if negb (r =? 0) then (n - r, - EFAULT) else (n, 0) in
  modify (fun f => set_kf_out (u32 (kf_out f + n)) f);;
  ret (err, copied, d).

(** ** Records *)

Definition __kfifo_max_r (n recsize : Z) : Z :=
  let max := u32 (lsl 1 (lsl recsize 3) - 1) in
  if max <? n then max else n.

(** [data[i & mask]] *)
Definition __KFIFO_PEEK (i : Z) : M kfifo Z :=
  f ← gets (fun f => f);
  d ← deref (kf_data f);
  aget d (Z.land i (kf_mask f)).

Definition __KFIFO_POKE (i val : Z) : M kfifo unit :=
  f ← gets (fun f => f);
  d ← deref (kf_data f);
  d ← aset d (Z.land i (kf_mask f)) (u8 val);
  modify (set_kf_data (Some d)).

Definition __kfifo_peek_n (recsize : Z) : M kfifo Z :=
  f ← gets (fun f => f);
  l ← __KFIFO_PEEK (kf_out f);
  if negb (u32 (recsize - 1) =? 0) then
    h ← __KFIFO_PEEK (u32 (kf_out f + 1)); ret (Z.lor l (lsl h 8))
  else ret l.

Definition __kfifo_poke_n (n recsize : Z) : M kfifo unit :=
  f ← gets (fun f => f);
  __KFIFO_POKE (kf_in f) n;;
  when (1 <? recsize) (__KFIFO_POKE (u32 (kf_in f + 1)) (Z.shiftr n 8)).

Definition __kfifo_len_r (recsize : Z) : M kfifo Z := __kfifo_peek_n recsize.

Definition __kfifo_in_r (buf : list Z) (n recsize : Z) : M kfifo Z :=
  f ← gets (fun f => f);
  if kfifo_unused f <? u32 (n + recsize) then ret 0 else
  __kfifo_poke_n n recsize;;
  kfifo_copy_in buf n (u32 (kf_in f + recsize));;
  modify (fun f => set_kf_in (u32 (kf_in f + (n + recsize))) f);;
  ret n.

(** The number of bytes copied, the length of the record, and the bytes. *)
Definition kfifo_out_copy_r (n recsize : Z) : M kfifo (Z * Z * list Z) :=
  f ← gets (fun f => f);
  m ← __kfifo_peek_n recsize;
  let n := if m <? n then m else n in
  d ← kfifo_copy_out n (u32 (kf_out f + recsize));
  ret (n, m, d).

Definition __kfifo_out_peek_r (n recsize : Z) : M kfifo (Z * list Z) :=
  f ← gets (fun f => f);
  if kf_in f =? kf_out f then ret (0, []) else
  '(n, _, d) ← kfifo_out_copy_r n recsize;
  ret (n, d).

Definition __kfifo_out_r (n recsize : Z) : M kfifo (Z * list Z) :=
  f ← gets (fun f => f);
  if kf_in f =? kf_out f then ret (0, []) else
  '(n, m, d) ← kfifo_out_copy_r n recsize;
  modify (fun f => set_kf_out (u32 (kf_out f + (m + recsize))) f);;
  ret (n, d).

Definition __kfifo_skip_r (recsize : Z) : M kfifo unit :=
  n ← __kfifo_peek_n recsize;
  modify (fun f => set_kf_out (u32 (kf_out f + (n + recsize))) f).

Definition __kfifo_from_user_r (from : list Z) (n recsize : Z) : M kfifo (Z * Z) :=
  f ← gets (fun f => f);
  let n := __kfifo_max_r n recsize in
  if kfifo_unused f <? u32 (n + recsize) then ret (0, 0) else
  __kfifo_poke_n n recsize;;
  '(r, copied) ← kfifo_copy_from_user from n (u32 (kf_in f + recsize));
  if negb (r =? 0) then ret (- EFAULT, 0) else
  modify (fun f => set_kf_in (u32 (kf_in f + (n + recsize))) f);;
  ret (0, copied).

Definition __kfifo_to_user_r (room n recsize : Z) : M kfifo (Z * Z * list Z) :=
  f ← gets (fun f => f);
  if kf_in f =? kf_out f then ret (0, 0, []) else
  m ← __kfifo_peek_n recsize;
  let n := if m <? n then m else n in
  '(r, copied, d) ← kfifo_copy_to_user room n (u32 (kf_out f + recsize));
  if negb (r =? 0) then ret (- EFAULT, 0, d) else
  modify (fun f => set_kf_out (u32 (kf_out f + (m + recsize))) f);;
  ret (0, copied, d).

(** ** The macros that choose between elements and records *)

(** [recsize] is 0 for a FIFO of elements. *)
Definition kfifo_avail (recsize : Z) (f : kfifo) : Z :=
  let avail := u32 (kfifo_size f - kfifo_len f) in
  if recsize =? 0 then avail else
  if avail <=? recsize then 0 else __kfifo_max_r (avail - recsize) recsize.

Definition kfifo_in (recsize : Z) (buf : list Z) (n : Z) : M kfifo Z :=
  if recsize =? 0 then __kfifo_in buf n else __kfifo_in_r buf n recsize.

Definition kfifo_out (recsize n : Z) : M kfifo (Z * list Z) :=
  if recsize =? 0 then __kfifo_out n else __kfifo_out_r n recsize.

Definition kfifo_out_peek (recsize n : Z) : M kfifo (Z * list Z) :=
  if recsize =? 0 then __kfifo_out_peek n else __kfifo_out_peek_r n recsize.

Definition kfifo_skip (recsize : Z) : M kfifo unit :=
  if recsize =? 0 then modify (fun f => set_kf_out (u32 (kf_out f + 1)) f)
  else __kfifo_skip_r recsize.

Definition kfifo_peek_len (recsize : Z) : M kfifo Z :=
  if recsize =? 0 then f ← gets (fun f => f); ret (u32 (kfifo_len f * kf_esize f))
  else __kfifo_len_r recsize.
