(* ===== verification/KfifoRefine.v ===== *)
(** * The kernel FIFO is a queue

    The invariant of kernel/kfifo.c, the queue of bytes that a FIFO stands for, and the proof
    that the operations implement those of the queue, with indices that wrap around. *)

From S2P Require Import Prelude KfifoRing Kfifo.

Implicit Types (f : kfifo) (d : list Z).

(** ** The invariant *)

(** The number of elements that fit. *)
Definition fifo_cap f : Z := kf_mask f + 1.

Record fifo_inv (k : Z) d f : Prop := {
  fi_k : 1 <= k <= 31;
  fi_mask : kf_mask f = 2 ^ k - 1;
  fi_esize : 1 <= kf_esize f;
  fi_bytes : 2 ^ k * kf_esize f < 2 ^ 32;
  fi_in : uint 32 (kf_in f);
  fi_out : uint 32 (kf_out f);
  fi_len : kfifo_len f <= 2 ^ k;
  fi_data : kf_data f = Some d;
  fi_size : len d = 2 ^ k * kf_esize f
}.

Definition fifo_ok f : Prop := exists k d, fifo_inv k d f.

(** The byte that an index stands for. *)
Definition pos_of f (i : Z) : Z := Z.land i (kf_mask f) * kf_esize f.

(** The bytes between [out] and [in]. *)
Definition fifo_bytes f : list Z :=
  match kf_data f with
  | None => []
  | Some d => take (Z.to_nat (kfifo_len f * kf_esize f)) (rotate (Z.to_nat (pos_of f (kf_out f))) d)
  end.

Section Inv.
Context (k : Z) (d : list Z) (f : kfifo).
Hypothesis I : fifo_inv k d f.

Lemma pow_range : 2 <= 2 ^ k <= 2 ^ 31.
Proof.
  destruct (fi_k _ _ _ I) as [H1 H2]. split.
  - change 2 with (2 ^ 1) at 1. apply Z.pow_le_mono_r; lia.
  - apply Z.pow_le_mono_r; lia.
Qed.

Lemma pos_of_eq i : pos_of f i = i mod 2 ^ k * kf_esize f.
Proof.
  unfold pos_of. rewrite (fi_mask _ _ _ I), Z.sub_1_r, <- Z.ones_equiv, Z.land_ones; [done|].
  destruct (fi_k _ _ _ I). lia.
Qed.

Lemma pos_of_range i : 0 <= pos_of f i /\ pos_of f i + kf_esize f <= 2 ^ k * kf_esize f.
Proof.
  rewrite pos_of_eq. pose proof pow_range. pose proof (Z.mod_pos_bound i (2 ^ k) ltac:(lia)).
  pose proof (fi_esize _ _ _ I). nia.
Qed.

Lemma len_range : 0 <= kfifo_len f <= 2 ^ k.
Proof. split; [apply Z.mod_pos_bound; lia | apply I]. Qed.

Lemma cap_eq : fifo_cap f = 2 ^ k.
Proof. unfold fifo_cap. rewrite (fi_mask _ _ _ I). lia. Qed.

Lemma size_eq : kfifo_size f = 2 ^ k.
Proof. unfold kfifo_size. rewrite (fi_mask _ _ _ I), Z.sub_add. pose proof pow_range. apply wrapu_small. split; lia. Qed.

Lemma unused_eq : kfifo_unused f = 2 ^ k - kfifo_len f.
Proof.
  unfold kfifo_unused, kfifo_len, wrapu. rewrite (fi_mask _ _ _ I). pose proof len_range as Hl.
  unfold kfifo_len, wrapu in Hl. replace (2 ^ k - 1 + 1) with (2 ^ k) by lia.
  rewrite <- Zminus_mod_idemp_r. apply Z.mod_small. pose proof pow_range. lia.
Qed.

(** The number of bytes of [n] elements stays within the machine. *)
Lemma span_eq n i : 0 <= n <= 2 ^ k ->
  span f n i = (pos_of f i, Z.min (n * kf_esize f) (2 ^ k * kf_esize f - pos_of f i), n * kf_esize f).
Proof.
  intros Hn. pose proof (pos_of_range i) as Hp. pose proof (fi_esize _ _ _ I) as He.
  pose proof (fi_bytes _ _ _ I) as Hb. pose proof pow_range as Hk. unfold span. rewrite size_eq.
  fold (pos_of f i). assert (0 <= n * kf_esize f <= 2 ^ k * kf_esize f) as HN by nia.
  destruct (Z.eqb_spec (kf_esize f) 1) as [E|E]; cbn [negb].
  - assert (Z.land i (kf_mask f) = pos_of f i) as -> by (unfold pos_of; rewrite E; lia).
    rewrite E, !Z.mul_1_r in *. by rewrite (wrapu_small 32) by (split; lia).
  - change (u32 (Z.land i (kf_mask f) * kf_esize f)) with (u32 (pos_of f i)).
    by rewrite !(wrapu_small 32) by (split; rewrite ?(wrapu_small 32); try split; lia).
Qed.
End Inv.

(** ** Copying *)

Lemma memcpy_from_wp f d off n Q :
  kf_data f = Some d -> 0 <= n -> off + n <= len d ->
  Q (take (Z.to_nat n) (drop (Z.to_nat off) d)) f -> wp (memcpy_from off n) Q f.
Proof.
  intros Hd Hn Ho HQ. unfold memcpy_from. destruct (Z.eqb_spec n 0) as [->|]; [exact HQ|].
  wp_pure. eapply wp_deref; [done|]. rewrite (proj2 (Z.leb_le _ _) Ho). exact HQ.
Qed.

Lemma memcpy_to_wp f d off src n Q :
  kf_data f = Some d -> 0 <= off -> 0 <= n -> off + n <= len d -> n <= len src ->
  Q tt (set_kf_data (Some (take (Z.to_nat off) d ++ take (Z.to_nat n) src ++
                           drop (Z.to_nat off + Z.to_nat n) d)) f) ->
  wp (memcpy_to off src n) Q f.
Proof.
  intros Hd H0 Hn Ho Hs HQ. unfold memcpy_to. destruct (Z.eqb_spec n 0) as [->|].
  - apply wp_ret. change (Z.to_nat 0) with 0%nat in HQ. rewrite take_0, app_nil_l, Nat.add_0_r, take_drop, <- Hd in HQ. exact HQ.
  - wp_pure. eapply wp_deref; [done|]. rewrite (proj2 (Z.leb_le _ _) Ho), (proj2 (Z.leb_le _ _) Hs). cbn [andb].
    apply wp_modify. unfold store, load. change (Z.to_nat 0) with 0%nat. rewrite drop_0.
    assert (len (take (Z.to_nat n) src) = n) as -> by (unfold len in *; rewrite length_take; lia).
    by rewrite Z2Nat.inj_add by lia.
Qed.

(** What a range of [n] elements from index [i] on holds. *)
Definition stretch f d (i n : Z) : list Z :=
  take (Z.to_nat (n * kf_esize f)) (rotate (Z.to_nat (pos_of f i)) d).

Lemma copy_out_wp k d f n i Q : fifo_inv k d f -> 0 <= n <= 2 ^ k ->
  Q (stretch f d i n) f -> wp (kfifo_copy_out n i) Q f.
Proof.
  intros I Hn HQ. unfold kfifo_copy_out. wp_pure. rewrite (span_eq k d f I) by done.
  pose proof (pos_of_range k d f I i) as Hp. pose proof (fi_esize _ _ _ I) as He.
  pose proof (fi_size _ _ _ I) as Hd. set (o := pos_of f i) in *. set (N := n * kf_esize f).
  assert (0 <= N <= len d) as HN by (unfold N; nia). rewrite <- Hd in *.
  apply wp_bind. apply (memcpy_from_wp f d); [apply I | lia | lia |].
  apply wp_bind. apply (memcpy_from_wp f d); [apply I | lia | lia |]. wp_pure.
  replace (stretch f d i n) with
    (take (Z.to_nat (Z.min N (len d - o))) (drop (Z.to_nat o) d) ++
     take (Z.to_nat (N - Z.min N (len d - o))) (drop (Z.to_nat 0) d)) in HQ; [exact HQ|].
  unfold stretch. fold o N. change (Z.to_nat 0) with 0%nat. rewrite drop_0. unfold len in *.
  rewrite <- ring_load by lia. rewrite Z2Nat.inj_sub, Z2Nat.inj_min, Z2Nat.inj_sub, Nat2Z.id by lia. done.
Qed.

(** The FIFO with the buffer [d']. *)
Lemma copy_in_wp k d f src n i Q : fifo_inv k d f -> 0 <= n <= 2 ^ k -> n * kf_esize f <= len src ->
  (let d' := ring_store (Z.to_nat (pos_of f i)) (take (Z.to_nat (n * kf_esize f)) src) d in
   Q tt (set_kf_data (Some d') f)) ->
  wp (kfifo_copy_in src n i) Q f.
Proof.
  intros I Hn Hs HQ. unfold kfifo_copy_in. wp_pure. rewrite (span_eq k d f I) by done.
  pose proof (pos_of_range k d f I i) as Hp. pose proof (fi_esize _ _ _ I) as He.
  pose proof (fi_size _ _ _ I) as Hd. set (o := pos_of f i) in *. set (N := n * kf_esize f) in *.
  assert (0 <= N <= len d) as HN by (unfold N; nia). rewrite <- Hd in *.
  set (l := Z.min N (len d - o)) in *.
  apply wp_bind. apply (memcpy_to_wp f d); [apply I | lia | lia | lia | lia |].
  set (d1 := take (Z.to_nat o) d ++ _).
  assert (len d1 = len d) as Hd1.
  { unfold d1, len in *. rewrite !length_app, !length_take, length_drop. lia. }
  apply (memcpy_to_wp _ d1); [done | lia | lia | lia | |].
  { unfold len in *. rewrite length_drop. lia. }
  cbv zeta in HQ. unfold ring_store in HQ. rewrite length_take in HQ. unfold len in *.
  replace (min (min (Z.to_nat N) (length src)) (length d - Z.to_nat o)) with (Z.to_nat l) in HQ by lia.
  rewrite firstn_firstn in HQ. replace (min (Z.to_nat l) (Z.to_nat N)) with (Z.to_nat l) in HQ by lia.
  fold d1 in HQ.
  change (Z.to_nat 0) with 0%nat. rewrite take_0, app_nil_l, Nat.add_0_l. replace (Z.to_nat (N - l)) with (Z.to_nat N - Z.to_nat l)%nat by lia.
  rewrite skipn_firstn_comm in HQ. replace (min (Z.to_nat N) (length src)) with (Z.to_nat N) in HQ by lia.
  exact HQ.
Qed.

(** ** The operations *)

(** Moving an index by [n] elements moves its byte by as many elements, around the buffer. *)
Lemma pos_of_add k d f i n : fifo_inv k d f -> 0 <= i -> 0 <= n ->
  Z.to_nat (pos_of f (u32 (i + n))) =
  ((Z.to_nat (pos_of f i) + Z.to_nat (n * kf_esize f)) mod length d)%nat.
Proof.
  intros I Hi Hn. pose proof (pow_range k d f I) as Hk. pose proof (fi_esize _ _ _ I) as He.
  pose proof (pos_of_range k d f I i) as Hp. pose proof (fi_size _ _ _ I) as Hd. unfold len in Hd.
  rewrite !(pos_of_eq k d f I) in *. apply Nat2Z.inj. rewrite Nat2Z.inj_mod, Nat2Z.inj_add, Hd.
  pose proof (Z.mod_pos_bound (u32 (i + n)) (2 ^ k) ltac:(lia)) as Hm.
  rewrite !Z2Nat.id by nia. rewrite <- Z.mul_add_distr_r, Z.mul_mod_distr_r by lia. f_equal.
  unfold wrapu. rewrite Z.add_mod_idemp_l by lia. apply Z.mod_mod_divide.
  exists (2 ^ (32 - k)). rewrite <- Z.pow_add_r by (destruct (fi_k _ _ _ I); lia). f_equal. lia.
Qed.

(** The bytes are those of the stretch from [out] on. *)
Lemma bytes_stretch k d f : fifo_inv k d f -> fifo_bytes f = stretch f d (kf_out f) (kfifo_len f).
Proof. intros I. unfold fifo_bytes. by rewrite (fi_data _ _ _ I). Qed.

Lemma in_is_out k d f : fifo_inv k d f -> kf_in f = u32 (kf_out f + kfifo_len f).
Proof.
  intros I. unfold kfifo_len, wrapu. rewrite Z.add_mod_idemp_r by lia.
  replace (kf_out f + (kf_in f - kf_out f)) with (kf_in f) by lia. symmetry. apply Z.mod_small, I.
Qed.

Lemma in_add k d f n : fifo_inv k d f -> u32 (kf_out f + (kfifo_len f + n)) = u32 (kf_in f + n).
Proof.
  intros I. rewrite (in_is_out k d f I). unfold wrapu. rewrite Zplus_mod_idemp_l. f_equal. lia.
Qed.

(** Moving [in] or [out] by a number of elements that are free or used. *)
Lemma len_add k d f n : fifo_inv k d f -> 0 <= n -> kfifo_len f + n <= 2 ^ k ->
  kfifo_len (set_kf_in (u32 (kf_in f + n)) f) = kfifo_len f + n.
Proof.
  intros I Hn Hl. pose proof (len_range k d f I). pose proof (pow_range k d f I).
  change (kfifo_len (set_kf_in ?v f)) with (u32 (v - kf_out f)).
  unfold kfifo_len, wrapu in *. rewrite Zminus_mod_idemp_l.
  transitivity ((kf_in f - kf_out f + n) mod 2 ^ 32); [f_equal; lia|].
  rewrite <- Zplus_mod_idemp_l. apply Z.mod_small. lia.
Qed.

Lemma len_sub k d f n : fifo_inv k d f -> 0 <= n <= kfifo_len f ->
  kfifo_len (set_kf_out (u32 (kf_out f + n)) f) = kfifo_len f - n.
Proof.
  intros I Hn. pose proof (len_range k d f I). pose proof (pow_range k d f I).
  change (kfifo_len (set_kf_out ?v f)) with (u32 (kf_in f - v)).
  unfold kfifo_len, wrapu in *. rewrite Zminus_mod_idemp_r.
  transitivity ((kf_in f - kf_out f - n) mod 2 ^ 32); [f_equal; lia|].
  rewrite <- Zminus_mod_idemp_l. apply Z.mod_small. lia.
Qed.

(** The buffer is replaced by one that holds [src] behind the bytes of the FIFO, and [in] moved
    over it. *)
Lemma append_ok k d f n (src d' : list Z) :
  fifo_inv k d f -> 0 <= n -> kfifo_len f + n <= 2 ^ k -> length d' = length d ->
  take (Z.to_nat ((kfifo_len f + n) * kf_esize f)) (rotate (Z.to_nat (pos_of f (kf_out f))) d') =
    fifo_bytes f ++ src ->
  let f' := set_kf_in (u32 (kf_in f + n)) (set_kf_data (Some d') f) in
  fifo_inv k d' f' /\ fifo_bytes f' = fifo_bytes f ++ src.
Proof.
  intros I Hn Hl Hd' Hb f'.
  assert (kfifo_len f' = kfifo_len f + n) as E by exact (len_add k d f n I Hn Hl). split.
  - split; try apply I; [apply Z.mod_pos_bound; lia | by rewrite E | done |].
    unfold len. rewrite Hd'. apply I.
  - unfold fifo_bytes. rewrite E. exact Hb.
Qed.

(** [out] moves over [n] elements. *)
Lemma remove_ok k d f n :
  fifo_inv k d f -> 0 <= n <= kfifo_len f ->
  let f' := set_kf_out (u32 (kf_out f + n)) f in
  fifo_inv k d f' /\ fifo_bytes f' = drop (Z.to_nat (n * kf_esize f)) (fifo_bytes f).
Proof.
  intros I Hn f'. assert (kfifo_len f' = kfifo_len f - n) as E by exact (len_sub k d f n I Hn).
  pose proof (len_range k d f I) as Hl. pose proof (fi_esize _ _ _ I) as He. pose proof (fi_size _ _ _ I) as Hd.
  split.
  - split; try apply I; [apply Z.mod_pos_bound; lia | rewrite E; lia].
  - rewrite (bytes_stretch k d f I). unfold fifo_bytes, stretch. change (kf_data f') with (kf_data f).
    rewrite (fi_data _ _ _ I), E. change (kf_esize f') with (kf_esize f).
    change (pos_of f' (kf_out f')) with (pos_of f (u32 (kf_out f + n))).
    rewrite (pos_of_add k d f _ n I) by (apply I || lia). unfold len in Hd.
    replace (Z.to_nat ((kfifo_len f - n) * kf_esize f)) with
      (Z.to_nat (kfifo_len f * kf_esize f) - Z.to_nat (n * kf_esize f))%nat by nia.
    apply ring_remove; nia.
Qed.

(** A store at the place of [n] elements behind the others. *)
Lemma store_behind k d f m n (bs src : list Z) :
  fifo_inv k d f -> 0 <= m -> 0 <= n -> m + n <= 2 ^ k -> len src = n * kf_esize f ->
  take (Z.to_nat (m * kf_esize f)) (rotate (Z.to_nat (pos_of f (kf_out f))) d) = bs ->
  let d' := ring_store (Z.to_nat (pos_of f (u32 (kf_out f + m)))) src d in
  length d' = length d /\
  take (Z.to_nat ((m + n) * kf_esize f)) (rotate (Z.to_nat (pos_of f (kf_out f))) d') = bs ++ src.
Proof.
  intros I Hm Hn Hl Hs <- d'. pose proof (fi_esize _ _ _ I) as He. pose proof (fi_size _ _ _ I) as Hd.
  pose proof (pos_of_range k d f I (kf_out f)) as Hp. pose proof (pos_of_range k d f I (u32 (kf_out f + m))) as Hp'.
  unfold d'. unfold len in *. split; [apply length_ring_store; nia|].
  rewrite (pos_of_add k d f _ m I) by (apply I || lia).
  replace (Z.to_nat ((m + n) * kf_esize f)) with (Z.to_nat (m * kf_esize f) + length src)%nat by nia.
  apply ring_append; nia.
Qed.

(** The same size and the same elements. *)
Definition same_shape f f' : Prop := kf_mask f' = kf_mask f /\ kf_esize f' = kf_esize f.

Lemma bytes_len f : fifo_ok f -> len (fifo_bytes f) = kfifo_len f * kf_esize f.
Proof.
  intros (k & d & I). rewrite (bytes_stretch k d f I). unfold stretch, len. rewrite length_take, length_rotate.
  pose proof (len_range k d f I). pose proof (fi_esize _ _ _ I). pose proof (fi_size _ _ _ I) as Hd.
  unfold len in Hd. nia.
Qed.

Lemma len_cap f : fifo_ok f -> 0 <= kfifo_len f <= fifo_cap f /\ 2 <= fifo_cap f <= 2 ^ 31.
Proof.
  intros (k & d & I). rewrite (cap_eq k d f I). split; [apply (len_range k d f I) | apply (pow_range k d f I)].
Qed.

Lemma kfifo_in_wp f buf n : fifo_ok f -> 0 <= n -> n * kf_esize f <= len buf ->
  wp (__kfifo_in buf n) (fun r f' => fifo_ok f' /\ same_shape f f' /\
    r = Z.min n (fifo_cap f - kfifo_len f) /\ kfifo_len f' = kfifo_len f + r /\
    fifo_bytes f' = fifo_bytes f ++ take (Z.to_nat (r * kf_esize f)) buf) f.
Proof.
  intros (k & d & I) Hn Hb. unfold __kfifo_in. wp_pure. rewrite (unused_eq k d f I).
  pose proof (len_range k d f I) as Hl. pose proof (fi_esize _ _ _ I) as He.
  replace (if 2 ^ k - kfifo_len f <? n then 2 ^ k - kfifo_len f else n) with
    (Z.min n (2 ^ k - kfifo_len f)) by (destruct (Z.ltb_spec (2 ^ k - kfifo_len f) n); lia).
  set (r := Z.min n (2 ^ k - kfifo_len f)). assert (0 <= r) as Hr by lia.
  apply wp_bind. apply (copy_in_wp k d); [done | lia | nia |]. cbv zeta.
  set (src := take (Z.to_nat (r * kf_esize f)) buf). wp_pure.
  assert (len src = r * kf_esize f) as Hs by (unfold src, len in *; rewrite length_take; nia).
  destruct (store_behind k d f (kfifo_len f) r (fifo_bytes f) src) as [Hd' E];
    [done | lia | lia | lia | done | by rewrite (bytes_stretch k d f I) |].
  rewrite <- (in_is_out k d f I) in Hd', E.
  destruct (append_ok k d f r src _ I Hr ltac:(lia) Hd' E) as [I' Eb].
  split; [exists k; eexists; exact I'|]. split; [done|]. split; [by rewrite (cap_eq k d f I)|].
  split; [exact (len_add k d f r I Hr ltac:(lia)) | exact Eb].
Qed.

Lemma kfifo_peek_wp f n : fifo_ok f -> 0 <= n ->
  wp (__kfifo_out_peek n) (fun r f' => f' = f /\ r.1 = Z.min n (kfifo_len f) /\
    r.2 = take (Z.to_nat (r.1 * kf_esize f)) (fifo_bytes f)) f.
Proof.
  intros (k & d & I) Hn. unfold __kfifo_out_peek. wp_pure. pose proof (len_range k d f I) as Hl.
  replace (if kfifo_len f <? n then kfifo_len f else n) with (Z.min n (kfifo_len f))
    by (destruct (Z.ltb_spec (kfifo_len f) n); lia).
  apply wp_bind. apply (copy_out_wp k d); [done | lia |]. wp_pure. split; [done|]. split; [done|]. cbn [fst snd].
  pose proof (fi_esize _ _ _ I). rewrite (bytes_stretch k d f I). unfold stretch. rewrite firstn_firstn. f_equal. nia.
Qed.

Lemma kfifo_out_wp f n : fifo_ok f -> 0 <= n ->
  wp (__kfifo_out n) (fun r f' => fifo_ok f' /\ same_shape f f' /\
    r.1 = Z.min n (kfifo_len f) /\ kfifo_len f' = kfifo_len f - r.1 /\
    r.2 = take (Z.to_nat (r.1 * kf_esize f)) (fifo_bytes f) /\
    fifo_bytes f' = drop (Z.to_nat (r.1 * kf_esize f)) (fifo_bytes f)) f.
Proof.
  intros Hf Hn. unfold __kfifo_out. apply wp_bind. eapply wp_mono; [by apply kfifo_peek_wp|].
  intros [r b] f' (-> & Er & Eb). cbn [fst snd] in *. wp_pure. destruct Hf as (k & d & I).
  pose proof (len_range k d f I) as Hl.
  destruct (remove_ok k d f r I) as [I' E]; [lia|]. cbn [fst snd].
  split; [by exists k, d|]. split; [done|]. split; [done|]. split; [|done].
  exact (len_sub k d f r I ltac:(lia)).
Qed.

(** ** Allocation *)

(** Both ways of rounding give the greatest power of two that is not above. *)
Lemma power_of_2_log n : 1 <= n < 2 ^ 32 -> is_power_of_2 n = true -> n = 2 ^ Z.log2 n.
Proof.
  intros Hn. unfold is_power_of_2. rewrite (wrapu_small 32) by (split; lia).
  rewrite andb_true_iff, Z.eqb_eq. intros [_ H]. destruct (Z.log2_spec n ltac:(lia)) as [H1 H2].
  destruct (Z.eq_dec n (2 ^ Z.log2 n)) as [|Hne]; [done|]. exfalso.
  assert (Z.log2 (n - 1) = Z.log2 n) as El by (apply Z.log2_unique; [apply Z.log2_nonneg | lia]).
  assert (Z.testbit (Z.land n (n - 1)) (Z.log2 n) = true) as Hb.
  { rewrite Z.land_spec, Z.bit_log2 by lia. rewrite <- El at 1. apply Z.bit_log2.
    pose proof (Z.pow_pos_nonneg 2 (Z.log2 n) ltac:(lia) (Z.log2_nonneg n)). lia. }
  by rewrite H, Z.bits_0 in Hb.
Qed.

Lemma log2_range n : 1 <= n < 2 ^ 32 -> 0 <= Z.log2 n <= 31.
Proof. intros Hn. split; [apply Z.log2_nonneg|]. assert (Z.log2 n < 32); [apply Z.log2_lt_pow2|]; lia. Qed.

Lemma rounded_size n : 1 <= n < 2 ^ 32 ->
  (if negb (is_power_of_2 n) then __rounddown_pow_of_two n else n) = 2 ^ Z.log2 n.
Proof.
  intros Hn. destruct (is_power_of_2 n) eqn:E; cbn [negb]; [by apply power_of_2_log|].
  unfold __rounddown_pow_of_two, fls_long. rewrite (proj2 (Z.eqb_neq n 0)), Z.add_simpl_r by lia.
  apply lsl_1. pose proof (log2_range n Hn). lia.
Qed.

Lemma rounded_0 : (if negb (is_power_of_2 0) then __rounddown_pow_of_two 0 else 0) = 0.
Proof. done. Qed.

Section Alloc.
Variable kmalloc : Z -> option (list Z).
(** A block has the length that was asked for. *)
Hypothesis kmalloc_length : forall n d, 0 <= n -> kmalloc n = Some d -> len d = n.

Lemma alloc_wp f size esize : 0 <= size < 2 ^ 32 -> 1 <= esize -> size * esize < 2 ^ 32 ->
  wp (__kfifo_alloc kmalloc size esize) (fun r f' =>
    (r = 0 /\ fifo_ok f' /\ fifo_bytes f' = [] /\ kf_esize f' = esize /\
     fifo_cap f' = 2 ^ Z.log2 size /\ 2 <= size) \/
    (r = - EINVAL /\ size < 2 /\ kf_data f' = None) \/
    (r = - ENOMEM /\ 2 <= size /\ kf_data f' = None)) f.
Proof.
  intros Hs He Hb. unfold __kfifo_alloc. destruct (Z.eq_dec size 0) as [->|Hs0].
  { rewrite rounded_0. wp_pure. right. by left. }
  rewrite rounded_size by lia. wp_pure. pose proof (log2_range size ltac:(lia)) as Hk.
  destruct (Z.log2_spec size ltac:(lia)) as [H1 H2].
  destruct (Z.ltb_spec (2 ^ Z.log2 size) 2) as [Hlt|Hge].
  { wp_pure. right. left. split_and!; try done. destruct (Z.eq_dec size 1) as [->|]; [done|].
    pose proof (Z.pow_le_mono_r 2 1 (Z.log2 size) ltac:(lia)). assert (1 <= Z.log2 size) by (apply Z.log2_le_pow2; lia). lia. }
  assert (1 <= Z.log2 size) as Hk1.
  { destruct (Z.eq_dec (Z.log2 size) 0) as [E|]; [rewrite E in Hge; lia | lia]. }
  assert (2 <= size) by lia. assert (0 <= 2 ^ Z.log2 size * esize < 2 ^ 32) as Hn by nia.
  rewrite (wrapu_small 32) by exact Hn. wp_pure. destruct (kmalloc _) as [d|] eqn:Ed.
  - wp_pure. left. split; [done|]. apply kmalloc_length in Ed; [|lia].
    set (f' := set_kf_mask _ _).
    assert (fifo_inv (Z.log2 size) d f') as I.
    { split; try done; [lia | cbn; lia | apply Z.pow_nonneg; lia]. }
    split; [by exists (Z.log2 size), d|]. split; [by rewrite (bytes_stretch _ _ _ I)|].
    split; [done|]. split; [apply (cap_eq _ _ _ I) | done].
  - wp_pure. right. by right.
Qed.
End Alloc.

(** ** Any sequence of operations *)

Inductive fifo_op :=
| FIn (buf : list Z) (n : Z)
| FOut (n : Z)
| FPeek (n : Z)
| FResetOut.

Definition run_op (o : fifo_op) : M kfifo (Z * list Z) :=
  match o with
  | FIn buf n => r ← __kfifo_in buf n; ret (r, [])
  | FOut n => __kfifo_out n
  | FPeek n => __kfifo_out_peek n
  | FResetOut => kfifo_reset_out;; ret (0, [])
  end.

(** The same on a list of bytes, which stand for elements of [esize] bytes. *)
Definition queue_op (cap esize : Z) (o : fifo_op) (q : list Z) : (Z * list Z) * list Z :=
  let used := len q / esize in
  match o with
  | FIn buf n => let r := Z.min n (cap - used) in ((r, []), q ++ take (Z.to_nat (r * esize)) buf)
  | FOut n => let r := Z.min n used in
      ((r, take (Z.to_nat (r * esize)) q), drop (Z.to_nat (r * esize)) q)
  | FPeek n => let r := Z.min n used in ((r, take (Z.to_nat (r * esize)) q), q)
  | FResetOut => ((0, []), [])
  end.

Definition op_ok (esize : Z) (o : fifo_op) : Prop :=
  match o with
  | FIn buf n => 0 <= n /\ n * esize <= len buf
  | FOut n | FPeek n => 0 <= n
  | FResetOut => True
  end.

Fixpoint run_ops (l : list fifo_op) : M kfifo (list (Z * list Z)) :=
  match l with
  | [] => ret []
  | o :: l' => r ← run_op o; rs ← run_ops l'; ret (r :: rs)
  end.

Fixpoint queue_ops (cap esize : Z) (l : list fifo_op) (q : list Z) : list (Z * list Z) * list Z :=
  match l with
  | [] => ([], q)
  | o :: l' => let '(r, q') := queue_op cap esize o q in
      let '(rs, q'') := queue_ops cap esize l' q' in (r :: rs, q'')
  end.

Lemma used_eq f : fifo_ok f -> len (fifo_bytes f) / kf_esize f = kfifo_len f.
Proof. intros Hf. rewrite bytes_len by done. destruct Hf as (k & d & I). apply Z.div_mul. pose proof (fi_esize _ _ _ I). lia. Qed.

Lemma run_op_wp f o : fifo_ok f -> op_ok (kf_esize f) o ->
  wp (run_op o) (fun r f' => fifo_ok f' /\ same_shape f f' /\
    (r, fifo_bytes f') = queue_op (fifo_cap f) (kf_esize f) o (fifo_bytes f)) f.
Proof.
  intros Hf Ho. unfold queue_op. rewrite (used_eq f Hf). destruct o as [buf n|n|n|]; cbn [run_op op_ok] in *.
  - apply wp_bind. eapply wp_mono; [apply kfifo_in_wp; [done | apply Ho..]|]. intros r f' (H1 & H2 & Er & _ & Eb).
    wp_pure. by rewrite Eb, Er.
  - eapply wp_mono; [by apply kfifo_out_wp|]. intros [r b] f' (H1 & H2 & Er & _ & Eb & ->). cbn [fst snd] in *.
    by rewrite Eb, Er.
  - eapply wp_mono; [by apply kfifo_peek_wp|]. intros [r b] f' (-> & Er & Eb). cbn [fst snd] in *. by rewrite Eb, Er.
  - unfold kfifo_reset_out. wp_pure. destruct Hf as (k & d & I). set (f' := set_kf_out _ _).
    assert (kfifo_len f' = 0) as E0 by (change (kfifo_len f') with (u32 (kf_in f - kf_in f)); by rewrite Z.sub_diag).
    assert (fifo_inv k d f') as I'.
    { split; try apply I. rewrite E0. pose proof (pow_range k d f I). lia. }
    split; [by exists k, d|]. split; [done|]. f_equal. rewrite (bytes_stretch k d f' I'), E0. done.
Qed.

Lemma run_ops_wp l f : fifo_ok f -> Forall (op_ok (kf_esize f)) l ->
  wp (run_ops l) (fun rs f' => fifo_ok f' /\ same_shape f f' /\
    (rs, fifo_bytes f') = queue_ops (fifo_cap f) (kf_esize f) l (fifo_bytes f)) f.
Proof.
  revert f. induction l as [|o l IH]; intros f Hf Hl; cbn [run_ops queue_ops].
  { by wp_pure. }
  inversion Hl as [|? ? Ho Hl']; subst. apply wp_bind. eapply wp_mono; [by apply run_op_wp|].
  intros r f1 (H1 & [S1 S2] & E1). rewrite <- E1. apply wp_bind.
  eapply wp_mono; [apply IH; [done | by rewrite S2]|].
  intros rs f2 (H2 & [S3 S4] & E2). unfold fifo_cap in *. rewrite S1, S2 in E2. rewrite <- E2. wp_pure.
  split; [done|]. split; [split; congruence | done].
Qed.

(** C9: the kernel FIFO is a bounded queue: once it is allocated, any sequence of putting in,
    taking out, peeking and emptying gives the same results, and leaves the same bytes behind,
    as on a list that holds up to the greatest power of two not above the size asked for, however
    often the 32-bit indices have wrapped around. *)
Theorem kfifo_refines_queue kmalloc size esize f l :
  (forall n d, 0 <= n -> kmalloc n = Some d -> len d = n) ->
  0 <= size < 2 ^ 32 -> 1 <= esize -> size * esize < 2 ^ 32 -> Forall (op_ok esize) l ->
  wp (r ← __kfifo_alloc kmalloc size esize;
      if r =? 0 then rs ← run_ops l; ret (Some rs) else ret None) (fun rs f' =>
    match rs with
    | Some rs => fifo_ok f' /\ (rs, fifo_bytes f') = queue_ops (2 ^ Z.log2 size) esize l []
    | None => kf_data f' = None
    end) f.
Proof.
  intros Hm Hs He Hb Hl. apply wp_bind. eapply wp_mono; [by apply alloc_wp|].
  intros r f1 [(-> & Hf & Eb & E1 & Ec & _)|[(-> & _ & H)|(-> & _ & H)]]; [|done..].
  cbn [Z.eqb]. apply wp_bind. eapply wp_mono; [apply run_ops_wp; [done | by rewrite E1]|].
  intros rs f2 (H2 & _ & E2). wp_pure. rewrite E1, Ec, Eb in E2. done.
Qed.
