(* ===== verification/KfifoRecord.v ===== *)
(** * Records in the kernel FIFO

    The record functions of kernel/kfifo.c: a FIFO of bytes in which every record is preceded by
    its length, in one or two bytes. *)

From S2P Require Import Prelude Bytes KfifoRing Kfifo KfifoRefine.

Implicit Types (f : kfifo) (d r : list Z).

(** The length that precedes a record. *)
Definition rec_header (recsize n : Z) : list Z :=
  if recsize =? 1 then [u8 n] else [u8 n; u8 (Z.shiftr n 8)].

Definition rec_bytes (recsize : Z) (r : list Z) : list Z := rec_header recsize (len r) ++ r.

(** The lengths that fit the header. *)
Definition rec_max (recsize : Z) : Z := 2 ^ (8 * recsize) - 1.

Definition rec_fifo f (recsize : Z) : Prop := fifo_ok f /\ kf_esize f = 1 /\ (recsize = 1 \/ recsize = 2).

Lemma rec_header_len recsize n : recsize = 1 \/ recsize = 2 -> len (rec_header recsize n) = recsize.
Proof. by intros [->| ->]. Qed.

(** ** The header *)

Lemma ring_store_1 (p : nat) (b : Z) d : (p < length d)%nat -> ring_store p [b] d = <[p := b]> d.
Proof.
  intros Hp. unfold ring_store. cbn [length]. rewrite Nat.min_l by lia. cbn [take drop Nat.sub app].
  by rewrite insert_take_drop, Nat.add_1_r by done.
Qed.

Section Header.
Context (k : Z) (d : list Z) (f : kfifo).
Hypothesis I : fifo_inv k d f.
Hypothesis E1 : kf_esize f = 1.

Lemma pos_1 i : pos_of f i = Z.land i (kf_mask f).
Proof. unfold pos_of. rewrite E1. lia. Qed.

Lemma pos_1_range i : 0 <= Z.land i (kf_mask f) < len d.
Proof. rewrite <- pos_1, (fi_size _ _ _ I). pose proof (pos_of_range k d f I i). rewrite E1 in *. lia. Qed.

Lemma peek_byte_wp i b Q : rotate (Z.to_nat (pos_of f i)) d !! 0%nat = Some b -> Q b f -> wp (__KFIFO_PEEK i) Q f.
Proof.
  intros Hb HQ. unfold __KFIFO_PEEK. wp_pure. eapply wp_deref; [apply I|]. pose proof (pos_1_range i) as Hp.
  eapply wp_aget; [lia | | done]. rewrite pos_1 in Hb. unfold len in Hp.
  rewrite lookup_rotate_r, rotate_nat_add_0 in Hb by lia. exact Hb.
Qed.

Lemma poke_byte_wp i v Q :
  Q tt (set_kf_data (Some (ring_store (Z.to_nat (pos_of f i)) [u8 v] d)) f) -> wp (__KFIFO_POKE i v) Q f.
Proof.
  intros HQ. unfold __KFIFO_POKE. wp_pure. eapply wp_deref; [apply I|]. wp_pure.
  pose proof (pos_1_range i) as Hp. apply wp_aset; [exact Hp|]. wp_pure.
  rewrite ring_store_1 in HQ by (rewrite pos_1; unfold len in Hp; lia). by rewrite pos_1 in HQ.
Qed.
End Header.

(** The invariant does not depend on the bytes. *)
Lemma inv_data k d d' f : fifo_inv k d f -> length d' = length d -> fifo_inv k d' (set_kf_data (Some d') f).
Proof. intros I H. split; try apply I; [done|]. unfold len. rewrite H. apply I. Qed.

(** The header is written behind the bytes of the FIFO. *)
Lemma poke_n_wp k d f recsize n Q :
  fifo_inv k d f -> kf_esize f = 1 -> recsize = 1 \/ recsize = 2 -> kfifo_len f + recsize <= 2 ^ k ->
  (forall d', length d' = length d ->
     take (Z.to_nat (kfifo_len f + recsize)) (rotate (Z.to_nat (pos_of f (kf_out f))) d') =
       fifo_bytes f ++ rec_header recsize n ->
     Q tt (set_kf_data (Some d') f)) ->
  wp (__kfifo_poke_n n recsize) Q f.
Proof.
  intros I E1 Hr Hl HQ. unfold __kfifo_poke_n. wp_pure. pose proof (len_range k d f I) as Hlen.
  apply (poke_byte_wp k d f I E1).
  destruct (store_behind k d f (kfifo_len f) 1 (fifo_bytes f) [u8 n]) as [Hd1 B1];
    [done | lia | lia | lia | by rewrite E1 | by rewrite (bytes_stretch k d f I) |].
  rewrite <- (in_is_out k d f I) in Hd1, B1. set (d1 := ring_store _ _ _) in *.
  rewrite E1, Z.mul_1_r in B1. destruct Hr as [->| ->].
  - wp_pure. by apply HQ.
  - change (1 <? 2) with true. pose proof (inv_data k d d1 f I Hd1) as I1. set (f1 := set_kf_data (Some d1) f) in *.
    apply (poke_byte_wp k d1 f1 I1 E1).
    destruct (store_behind k d1 f1 (kfifo_len f + 1) 1 (fifo_bytes f ++ [u8 n]) [u8 (Z.shiftr n 8)]) as [Hd2 B2];
      [done | lia | lia | lia | by change (kf_esize f1) with (kf_esize f); rewrite E1 | |].
    { change (kf_esize f1) with (kf_esize f). by rewrite E1, Z.mul_1_r. }
    change (kf_esize f1) with (kf_esize f) in B2. rewrite E1, Z.mul_1_r in B2.
    change (kf_out f1) with (kf_out f) in Hd2, B2. rewrite (in_add k d f 1 I) in Hd2, B2.
    apply HQ; [by rewrite Hd2|]. rewrite <- Z.add_assoc, <- app_assoc in B2. exact B2.
Qed.

(** ** Putting records in *)

Lemma in_r_wp f recsize r :
  rec_fifo f recsize -> len r < 2 ^ 31 ->
  wp (__kfifo_in_r r (len r) recsize) (fun n f' => rec_fifo f' recsize /\ same_shape f f' /\
    if fifo_cap f - kfifo_len f <? len r + recsize
    then n = 0 /\ f' = f
    else n = len r /\ fifo_bytes f' = fifo_bytes f ++ rec_header recsize (len r) ++ r) f.
Proof.
  intros ((k & d & I) & E1 & Hr) Hlen. assert (0 <= len r) as Hr0 by (unfold len; lia).
  unfold __kfifo_in_r. wp_pure. rewrite (unused_eq k d f I), (cap_eq k d f I), (wrapu_small 32) by (split; lia).
  destruct (Z.ltb_spec (2 ^ k - kfifo_len f) (len r + recsize)) as [Hfull|Hroom].
  { wp_pure. split; [|done]. split; [by exists k, d | done]. }
  pose proof (len_range k d f I) as Hl. apply wp_bind. apply (poke_n_wp k d); [done | done | done | lia |].
  intros d1 Hd1 B1. pose proof (inv_data k d d1 f I Hd1) as I1. set (f1 := set_kf_data (Some d1) f) in *.
  assert (kf_esize f1 = 1) as E1' by done.
  apply wp_bind. apply (copy_in_wp k d1); [done | lia | rewrite E1'; lia |]. cbv zeta.
  rewrite E1', Z.mul_1_r, (take_ge r) by (unfold len; lia).
  destruct (store_behind k d1 f1 (kfifo_len f + recsize) (len r) (fifo_bytes f ++ rec_header recsize (len r)) r)
    as [Hd2 B2]; [done | lia | lia | lia | by rewrite E1', Z.mul_1_r | by rewrite E1', Z.mul_1_r |].
  change (kf_out f1) with (kf_out f) in Hd2, B2. rewrite (in_add k d f recsize I) in Hd2, B2.
  rewrite <- Z.add_assoc, <- app_assoc in B2. change (pos_of f1) with (pos_of f) in *.
  change (kf_esize f1) with (kf_esize f) in B2. set (d2 := ring_store _ _ _) in *. wp_pure.
  replace (recsize + len r) with (len r + recsize) in B2 by lia.
  destruct (append_ok k d f (len r + recsize) (rec_header recsize (len r) ++ r) d2) as [I2 Eb];
    [done | lia | lia | congruence | exact B2 |].
  split; [|done]. split; [by exists k, d2 | done].
Qed.

(** ** Taking records out *)

Lemma stretch_bytes k d f m n :
  fifo_inv k d f -> kf_esize f = 1 -> 0 <= m -> 0 <= n -> m + n <= kfifo_len f ->
  stretch f d (u32 (kf_out f + m)) n = take (Z.to_nat n) (drop (Z.to_nat m) (fifo_bytes f)).
Proof.
  intros I E1 Hm Hn Hl. pose proof (len_range k d f I) as Hlen. pose proof (fi_size _ _ _ I) as Hd. unfold len in Hd.
  rewrite (bytes_stretch k d f I). unfold stretch. rewrite (pos_of_add k d f _ m I) by (apply I || lia).
  rewrite E1, !Z.mul_1_r in *. rewrite <- ring_remove by lia. rewrite firstn_firstn. f_equal. lia.
Qed.

Lemma byte_of_fifo k d f i b :
  fifo_inv k d f -> kf_esize f = 1 -> 0 <= i < kfifo_len f -> fifo_bytes f !! Z.to_nat i = Some b ->
  rotate (Z.to_nat (pos_of f (u32 (kf_out f + i)))) d !! 0%nat = Some b.
Proof.
  intros I E1 Hi Hb. pose proof (stretch_bytes k d f i 1 I E1 ltac:(lia) ltac:(lia) ltac:(lia)) as E.
  apply (f_equal (fun l => l !! 0%nat)) in E. unfold stretch in E. rewrite E1 in E.
  rewrite !lookup_take_lt, lookup_drop, Nat.add_0_r in E by (cbn; lia). by rewrite E.
Qed.

Lemma byte_at_u8 v n : byte_at v n = u8 (Z.shiftr v n).
Proof. unfold byte_at, wrapu. change 0xff with (Z.ones 8). by rewrite Z.land_ones. Qed.

Lemma byte_at_high v n : 0 <= v < 2 ^ n -> 0 <= n -> byte_at v n = 0.
Proof. intros Hv Hn. by rewrite byte_at_u8, Z.shiftr_div_pow2, Z.div_small by lia. Qed.

Lemma header_16 n : 0 <= n < 2 ^ 16 -> Z.lor (u8 n) (lsl (u8 (Z.shiftr n 8)) 8) = n.
Proof.
  intros Hn. rewrite <- (word_of_bytes n) at 3 by (split; lia).
  rewrite (byte_at_high n 16), (byte_at_high n 24) by lia.
  unfold word_of. by rewrite !byte_at_u8, Z.shiftr_0_r, !Z.lor_0_r.
Qed.

Lemma peek_n_wp k d f recsize n rest Q :
  fifo_inv k d f -> kf_esize f = 1 -> recsize = 1 \/ recsize = 2 -> 0 <= n <= rec_max recsize ->
  fifo_bytes f = rec_header recsize n ++ rest -> Q n f -> wp (__kfifo_peek_n recsize) Q f.
Proof.
  intros I E1 Hr Hn Hb HQ.
  assert (kfifo_len f = len (fifo_bytes f)) as Hl by (rewrite bytes_len, E1 by (by exists k, d); lia).
  rewrite Hb in Hl. unfold len in Hl. rewrite length_app in Hl.
  unfold __kfifo_peek_n, rec_header, rec_max in *. wp_pure.
  assert (rotate (Z.to_nat (pos_of f (kf_out f))) d !! 0%nat = Some (u8 n)) as H0.
  { replace (kf_out f) with (u32 (kf_out f + 0)) by (rewrite Z.add_0_r; apply wrapu_small, I).
    apply (byte_of_fifo k); [done | done | |]; destruct Hr as [->| ->]; cbn in *; (lia || by rewrite Hb). }
  apply (peek_byte_wp k d f I E1 _ _ _ H0). destruct Hr as [->| ->]; cbn [Z.eqb Pos.eqb] in *.
  - change (negb (u32 (1 - 1) =? 0)) with false. cbv iota. wp_pure. by rewrite (wrapu_small 8) by (split; lia).
  - change (negb (u32 (2 - 1) =? 0)) with true. cbv iota. wp_pure.
    assert (rotate (Z.to_nat (pos_of f (u32 (kf_out f + 1)))) d !! 0%nat = Some (u8 (Z.shiftr n 8))) as H1.
    { apply (byte_of_fifo k); [done | done | cbn in *; lia | by rewrite Hb]. }
    apply (peek_byte_wp k d f I E1 _ _ _ H1). wp_pure. by rewrite header_16 by lia.
Qed.

(** The bytes of the first record. *)
Lemma out_copy_r_wp k d f recsize n r rest Q :
  fifo_inv k d f -> kf_esize f = 1 -> recsize = 1 \/ recsize = 2 -> 0 <= n -> len r <= rec_max recsize ->
  fifo_bytes f = rec_bytes recsize r ++ rest ->
  Q (Z.min n (len r), len r, take (Z.to_nat n) r) f -> wp (kfifo_out_copy_r n recsize) Q f.
Proof.
  intros I E1 Hr Hn Hm Hb HQ. unfold kfifo_out_copy_r, rec_bytes in *. wp_pure.
  assert (0 <= len r) as Hr0 by (unfold len; lia). rewrite <- app_assoc in Hb.
  apply (peek_n_wp k d f recsize (len r) (r ++ rest)); [done | done | done | lia | done |].
  replace (if len r <? n then len r else n) with (Z.min n (len r)) by (destruct (Z.ltb_spec (len r) n); lia).
  assert (kfifo_len f = recsize + len r + len rest) as Hl.
  { assert (kfifo_len f = len (fifo_bytes f)) as -> by (rewrite bytes_len, E1 by (by exists k, d); lia).
    rewrite Hb. rewrite <- (rec_header_len recsize (len r) Hr) at 2. unfold len. rewrite !length_app. lia. }
  pose proof (len_range k d f I) as Hk. assert (0 <= len rest) by (unfold len; lia).
  apply wp_bind. apply (copy_out_wp k d); [done | lia |]. wp_pure.
  rewrite (stretch_bytes k d f recsize _ I E1) by lia. rewrite Hb.
  rewrite drop_app_length' by (pose proof (rec_header_len recsize (len r) Hr); unfold len in *; lia).
  rewrite take_app_le by (unfold len in *; lia).
  replace (take (Z.to_nat (Z.min n (len r))) r) with (take (Z.to_nat n) r); [exact HQ|].
  destruct (Z.le_ge_cases n (len r)); [by rewrite Z.min_l|]. rewrite Z.min_r by done.
  by rewrite !take_ge by (unfold len in *; lia).
Qed.

(** ** A queue of records *)

(** The FIFO holds the records [rs]. *)
Record rec_holds (recsize : Z) (rs : list (list Z)) f : Prop := {
  rh_fifo : rec_fifo f recsize;
  rh_max : Forall (fun r => len r <= rec_max recsize) rs;
  rh_bytes : fifo_bytes f = concat (rec_bytes recsize <$> rs)
}.

Inductive rec_op :=
| RIn (r : list Z)
| ROut (n : Z)
| RPeek (n : Z).

Definition run_rec (recsize : Z) (o : rec_op) : M kfifo (Z * list Z) :=
  match o with
  | RIn r => n ← __kfifo_in_r r (len r) recsize; ret (n, [])
  | ROut n => __kfifo_out_r n recsize
  | RPeek n => __kfifo_out_peek_r n recsize
  end.

(** The bytes that [rs] take in the FIFO. *)
Definition rec_used (recsize : Z) (rs : list (list Z)) : Z := len (concat (rec_bytes recsize <$> rs)).

(** The same on a list of records: a record that does not fit is refused; what does not fit the
    buffer of the caller is cut off. *)
Definition queue_rec (cap recsize : Z) (o : rec_op) (rs : list (list Z)) : (Z * list Z) * list (list Z) :=
  match o, rs with
  | RIn r, _ => if cap - rec_used recsize rs <? len r + recsize then ((0, []), rs) else ((len r, []), rs ++ [r])
  | _, [] => ((0, []), [])
  | ROut n, r :: rs' => ((Z.min n (len r), take (Z.to_nat n) r), rs')
  | RPeek n, r :: rs' => ((Z.min n (len r), take (Z.to_nat n) r), rs)
  end.

Definition rec_op_ok (recsize : Z) (o : rec_op) : Prop :=
  match o with RIn r => len r <= rec_max recsize | ROut n | RPeek n => 0 <= n end.

Lemma rec_bytes_len recsize r : recsize = 1 \/ recsize = 2 -> len (rec_bytes recsize r) = recsize + len r.
Proof.
  intros Hr. unfold rec_bytes. rewrite <- (rec_header_len recsize (len r) Hr) at 2.
  unfold len. rewrite length_app. lia.
Qed.

Lemma rec_len recsize rs f : rec_holds recsize rs f -> kfifo_len f = rec_used recsize rs.
Proof.
  intros [(Hf & E1 & _) _ Hb]. unfold rec_used. rewrite <- Hb, bytes_len by done. rewrite E1. lia.
Qed.

Lemma rec_empty recsize rs f : rec_holds recsize rs f -> (kf_in f =? kf_out f) = bool_decide (rs = []).
Proof.
  intros H. pose proof (rec_len _ _ _ H) as Hl. destruct H as [((k & d & I) & E1 & Hr) _ _].
  pose proof (in_is_out k d f I) as Hi. destruct rs as [|r rs].
  - unfold rec_used in Hl. cbn in Hl. rewrite Hl, Z.add_0_r, (wrapu_small 32) in Hi by apply I. by rewrite Hi, Z.eqb_refl.
  - apply Z.eqb_neq. intros E. unfold kfifo_len in Hl. rewrite E, Z.sub_diag in Hl.
    unfold rec_used in Hl. cbn [fmap list_fmap concat] in Hl. pose proof (rec_bytes_len recsize r Hr) as Hrl.
    unfold len in *. rewrite length_app in Hl. change (u32 0) with 0 in Hl. lia.
Qed.

Lemma in_rec_wp recsize rs f r : rec_holds recsize rs f -> len r <= rec_max recsize ->
  wp (run_rec recsize (RIn r)) (fun res f' => same_shape f f' /\
    exists rs', rec_holds recsize rs' f' /\ queue_rec (fifo_cap f) recsize (RIn r) rs = (res, rs')) f.
Proof.
  intros H Hm. pose proof (rec_len _ _ _ H) as Hl. destruct H as [Hf Hall Hb]. cbn [run_rec queue_rec].
  assert (len r < 2 ^ 31) as Hr.
  { unfold rec_max in Hm. destruct Hf as (_ & _ & [->| ->]); cbn in Hm; lia. }
  apply wp_bind. eapply wp_mono; [by apply in_r_wp|]. intros n f' (Hf' & Hs & Hc). wp_pure. split; [done|].
  rewrite Hl in Hc. destruct (_ <? _).
  - destruct Hc as [-> ->]. by exists rs.
  - destruct Hc as [-> Hb']. exists (rs ++ [r]). split; [|done]. split; [done | by apply Forall_app_2, Forall_singleton |].
    rewrite Hb', Hb, fmap_app, concat_app. cbn. by rewrite app_nil_r.
Qed.

Lemma out_rec_wp recsize rs f o : rec_holds recsize rs f -> rec_op_ok recsize o ->
  match o with RIn _ => False | _ => True end ->
  wp (run_rec recsize o) (fun res f' => same_shape f f' /\
    exists rs', rec_holds recsize rs' f' /\ queue_rec (fifo_cap f) recsize o rs = (res, rs')) f.
Proof.
  intros H Ho Hno. pose proof (rec_empty _ _ _ H) as He. destruct o as [|n|n]; [done| |]; cbn [run_rec rec_op_ok] in *.
  all: unfold __kfifo_out_r, __kfifo_out_peek_r; wp_pure; rewrite He; destruct rs as [|r rs];
    [rewrite bool_decide_true by done; wp_pure; split; [done | by exists []]|].
  all: rewrite bool_decide_false by done; pose proof H as [((k & d & I) & E1 & Hr) Hall Hb];
    cbn [fmap list_fmap concat] in Hb; inversion Hall as [|? ? Hm Hall']; subst; wp_pure;
    apply (out_copy_r_wp k d f recsize n r (concat (rec_bytes recsize <$> rs))); try done; wp_pure; (split; [done|]).
  - exists rs. split; [|done]. assert (kfifo_len f = recsize + len r + len (concat (rec_bytes recsize <$> rs))) as Hl.
    { rewrite (rec_len _ _ _ H). unfold rec_used. cbn [fmap list_fmap concat].
      rewrite <- (rec_bytes_len recsize r Hr). unfold len. rewrite length_app. lia. }
    destruct (remove_ok k d f (len r + recsize) I) as [I' Eb]; [unfold len in *; lia|].
    split; [split; [by exists k, d | done] | done |].
    rewrite Eb, Hb, E1. apply drop_app_length'. pose proof (rec_bytes_len recsize r Hr). unfold len in *. lia.
  - exists (r :: rs). split; [done | done].
Qed.

Fixpoint run_recs (recsize : Z) (l : list rec_op) : M kfifo (list (Z * list Z)) :=
  match l with
  | [] => ret []
  | o :: l' => r ← run_rec recsize o; rs ← run_recs recsize l'; ret (r :: rs)
  end.

Fixpoint queue_recs (cap recsize : Z) (l : list rec_op) (rs : list (list Z)) : list (Z * list Z) :=
  match l with
  | [] => []
  | o :: l' => let '(r, rs') := queue_rec cap recsize o rs in r :: queue_recs cap recsize l' rs'
  end.

(** C29: with records of a length that fits the header, the FIFO is a queue of records: any
    sequence of putting in, taking out and peeking gives the results of the same operations on a
    list of records, whatever part of a record a reader asks for. *)
Theorem kfifo_record_queue recsize l rs f :
  rec_holds recsize rs f -> Forall (rec_op_ok recsize) l ->
  wp (run_recs recsize l) (fun res f' => res = queue_recs (fifo_cap f) recsize l rs /\
    exists rs', rec_holds recsize rs' f') f.
Proof.
  revert rs f. induction l as [|o l IH]; intros rs f H Hl; cbn [run_recs queue_recs].
  { wp_pure. split; [done | by exists rs]. }
  inversion Hl as [|? ? Ho Hl']; subst. apply wp_bind.
  assert (wp (run_rec recsize o) (fun res f' => same_shape f f' /\ exists rs', rec_holds recsize rs' f' /\
    queue_rec (fifo_cap f) recsize o rs = (res, rs')) f) as W.
  { destruct o; [by apply in_rec_wp | by apply out_rec_wp..]. }
  eapply wp_mono; [exact W|]. cbv beta. intros r f1 ([Sm _] & rs1 & H1 & ->). apply wp_bind.
  eapply wp_mono; [by apply (IH rs1)|]. intros res f2 [-> H2]. wp_pure. split; [|done].
  unfold fifo_cap. by rewrite Sm.
Qed.
