(* ===== verification/KfifoSpsc.v ===== *)
(** * One reader and one writer without a lock

    linux/kfifo.h promises that one reader and one writer need no lock.  Here [__kfifo_in] and
    [__kfifo_out] are cut into the steps that other code may come between: looking at the index
    of the other side, copying a byte, and moving one's own index.  The memory is sequentially
    consistent, which is what the barriers of kernel/kfifo.c are for. *)

From S2P Require Import Prelude KfifoRing Kfifo KfifoRefine.

Implicit Types (f : kfifo) (d : list Z).

(** ** The steps *)

(** A writer that copies [src], [n] elements, and is at its byte [j]. *)
Inductive writer :=
| WIdle
| WCopy (src : list Z) (n : Z) (j : nat).

(** A reader that has copied [acc] of [n] elements. *)
Inductive reader :=
| RIdle
| RCopy (n : Z) (acc : list Z).

(** With what the writer has put in and the reader taken out so far. *)
Record spsc := mkSpsc {
  sp_fifo : kfifo;
  sp_writer : writer;
  sp_reader : reader;
  sp_sent : list Z;
  sp_received : list Z
}.

(** The place of byte [j] of the elements from index [i] on. *)
Definition byte_pos f (i : Z) (j : nat) : nat :=
  ((Z.to_nat (pos_of f i) + j) mod Z.to_nat (fifo_cap f * kf_esize f))%nat.

Inductive spsc_step : spsc -> spsc -> Prop :=
(** [l = kfifo_unused(fifo); if (len > l) len = l;] *)
| step_in_begin f r snt rcv buf n : 0 <= n -> n * kf_esize f <= len buf ->
    let m := Z.min n (kfifo_unused f) in
    spsc_step (mkSpsc f WIdle r snt rcv)
      (mkSpsc f (WCopy (take (Z.to_nat (m * kf_esize f)) buf) m 0) r snt rcv)
(** A byte of [kfifo_copy_in]. *)
| step_in_byte f d r snt rcv src n j b : kf_data f = Some d -> src !! j = Some b ->
    spsc_step (mkSpsc f (WCopy src n j) r snt rcv)
      (mkSpsc (set_kf_data (Some (<[byte_pos f (kf_in f) j := b]> d)) f) (WCopy src n (S j)) r snt rcv)
(** [fifo->in += len;] *)
| step_in_end f r snt rcv src n :
    spsc_step (mkSpsc f (WCopy src n (length src)) r snt rcv)
      (mkSpsc (set_kf_in (u32 (kf_in f + n)) f) WIdle r (snt ++ src) rcv)
(** [l = fifo->in - fifo->out; if (len > l) len = l;] *)
| step_out_begin f w snt rcv n : 0 <= n ->
    spsc_step (mkSpsc f w RIdle snt rcv) (mkSpsc f w (RCopy (Z.min n (kfifo_len f)) []) snt rcv)
(** A byte of [kfifo_copy_out]. *)
| step_out_byte f d w snt rcv n acc b : kf_data f = Some d -> len acc < n * kf_esize f ->
    d !! byte_pos f (kf_out f) (length acc) = Some b ->
    spsc_step (mkSpsc f w (RCopy n acc) snt rcv) (mkSpsc f w (RCopy n (acc ++ [b])) snt rcv)
(** [fifo->out += len;] *)
| step_out_end f w snt rcv n acc : len acc = n * kf_esize f ->
    spsc_step (mkSpsc f w (RCopy n acc) snt rcv)
      (mkSpsc (set_kf_out (u32 (kf_out f + n)) f) w RIdle snt (rcv ++ acc)).

(** ** The invariant *)

(** The buffer as the reader sees it. *)
Definition from_out f d : list Z := rotate (Z.to_nat (pos_of f (kf_out f))) d.

(** The number of bytes in the FIFO. *)
Definition used_bytes f : nat := Z.to_nat (kfifo_len f * kf_esize f).

Definition writer_ok (k : Z) f d (w : writer) : Prop :=
  match w with
  | WIdle => True
  | WCopy src n j => 0 <= n /\ kfifo_len f + n <= 2 ^ k /\ len src = n * kf_esize f /\
      (j <= length src)%nat /\ take j (drop (used_bytes f) (from_out f d)) = take j src
  end.

Definition reader_ok f (r : reader) : Prop :=
  match r with
  | RIdle => True
  | RCopy n acc => 0 <= n <= kfifo_len f /\ len acc <= n * kf_esize f /\
      acc = take (length acc) (fifo_bytes f)
  end.

Record spsc_inv (k : Z) d (s : spsc) : Prop := {
  si_fifo : fifo_inv k d (sp_fifo s);
  si_writer : writer_ok k (sp_fifo s) d (sp_writer s);
  si_reader : reader_ok (sp_fifo s) (sp_reader s);
  si_order : sp_sent s = sp_received s ++ fifo_bytes (sp_fifo s)
}.

Section Steps.
Context (k : Z) (d : list Z) (f : kfifo).
Hypothesis I : fifo_inv k d f.

Lemma length_nat : length d = Z.to_nat (fifo_cap f * kf_esize f).
Proof. rewrite (cap_eq k d f I). pose proof (fi_size _ _ _ I). unfold len in *. lia. Qed.

Lemma bytes_from_out : fifo_bytes f = take (used_bytes f) (from_out f d).
Proof. apply (bytes_stretch k d f I). Qed.

Lemma used_range : (used_bytes f <= length d)%nat.
Proof.
  rewrite length_nat, (cap_eq k d f I). unfold used_bytes. pose proof (len_range k d f I).
  pose proof (fi_esize _ _ _ I). nia.
Qed.

Lemma byte_pos_out j : (j < length d)%nat -> d !! byte_pos f (kf_out f) j = from_out f d !! j.
Proof.
  intros Hj. unfold byte_pos, from_out. rewrite <- length_nat, lookup_rotate_r by done. f_equal.
  unfold rotate_nat_add. apply Nat2Z.inj. rewrite Nat2Z.inj_mod, Z2Nat.id by (apply Z.mod_pos_bound; lia). lia.
Qed.

(** The place of a byte that is written, as the reader sees it. *)
Lemma byte_pos_in j : byte_pos f (kf_in f) j =
  rotate_nat_add (Z.to_nat (pos_of f (kf_out f))) (used_bytes f + j) (length d).
Proof.
  unfold byte_pos, used_bytes. rewrite <- length_nat. rewrite (in_is_out k d f I) at 1.
  pose proof (len_range k d f I) as Hl. rewrite (pos_of_add k d f _ _ I) by (apply I || lia).
  rewrite Nat.Div0.add_mod_idemp_l. unfold rotate_nat_add. rewrite Z2Nat.inj_mod, Z2Nat.inj_add, !Nat2Z.id by lia.
  f_equal. lia.
Qed.

Lemma insert_from_out j b : (used_bytes f + j < length d)%nat ->
  from_out f (<[byte_pos f (kf_in f) j := b]> d) = <[(used_bytes f + j)%nat := b]> (from_out f d).
Proof. intros Hj. unfold from_out. rewrite byte_pos_in. by apply rotate_insert_l. Qed.
End Steps.

(** ** Every step keeps it *)

Lemma writer_room k d f src n j :
  fifo_inv k d f -> writer_ok k f d (WCopy src n j) -> (used_bytes f + length src <= length d)%nat.
Proof.
  intros I (Hn & Hl & Hs & _). rewrite (length_nat k d f I), (cap_eq k d f I). unfold used_bytes, len in *.
  pose proof (fi_esize _ _ _ I). pose proof (len_range k d f I). nia.
Qed.

(** A byte is written behind those of the FIFO. *)
Lemma write_byte_ok k d f src n j b :
  fifo_inv k d f -> writer_ok k f d (WCopy src n j) -> src !! j = Some b ->
  let d' := <[byte_pos f (kf_in f) j := b]> d in
  let f' := set_kf_data (Some d') f in
  fifo_inv k d' f' /\ fifo_bytes f' = fifo_bytes f /\ writer_ok k f' d' (WCopy src n (S j)).
Proof.
  intros I (Hn & Hl & Hs & Hj & Hc) Hb d' f'. pose proof (lookup_lt_Some _ _ _ Hb) as Hlt.
  assert (used_bytes f + length src <= length d)%nat as Hroom by (by apply (writer_room k d f src n j)).
  assert (fifo_inv k d' f') as I'.
  { split; try apply I; [done|]. unfold len, d'. rewrite length_insert. apply I. }
  assert (from_out f' d' = <[(used_bytes f + j)%nat := b]> (from_out f d)) as E
    by (apply (insert_from_out k d f I); lia).
  assert (length (from_out f d) = length d) as Hx by apply length_rotate.
  split; [done|]. split.
  - rewrite (bytes_from_out k d f I), (bytes_from_out k d' f' I'), E.
    change (used_bytes f') with (used_bytes f). apply take_insert_ge. lia.
  - split_and!; try done. change (used_bytes f') with (used_bytes f). rewrite E, drop_insert_ge by lia.
    replace (used_bytes f + j - used_bytes f)%nat with j by lia.
    rewrite (take_S_r (<[j := b]> _) j b) by (apply list_lookup_insert_eq; rewrite length_drop; lia).
    rewrite (take_S_r src j b) by done.
    by rewrite take_insert_ge, Hc by lia.
Qed.

(** The writer has copied everything. *)
Lemma write_end_ok k d f src n :
  fifo_inv k d f -> writer_ok k f d (WCopy src n (length src)) ->
  let f' := set_kf_in (u32 (kf_in f + n)) f in
  fifo_inv k d f' /\ fifo_bytes f' = fifo_bytes f ++ src /\ kfifo_len f <= kfifo_len f'.
Proof.
  intros I (Hn & Hl & Hs & _ & Hc) f'. rewrite firstn_all in Hc.
  destruct (append_ok k d f n src d I Hn Hl eq_refl) as [I' E].
  { rewrite (bytes_from_out k d f I). fold (from_out f d).
    replace (Z.to_nat ((kfifo_len f + n) * kf_esize f)) with (used_bytes f + length src)%nat.
    - by rewrite <- take_take_drop, Hc.
    - unfold used_bytes, len in *. pose proof (fi_esize _ _ _ I). pose proof (len_range k d f I). nia. }
  assert (set_kf_data (Some d) f = f) as Ef by (rewrite <- (fi_data _ _ _ I); done).
  rewrite Ef in I', E. split; [done|]. split; [done|].
  unfold f'. rewrite (len_add k d f n I Hn Hl). lia.
Qed.

Lemma reader_ok_app f f' src r : kf_esize f' = kf_esize f -> kfifo_len f <= kfifo_len f' ->
  fifo_ok f -> fifo_bytes f' = fifo_bytes f ++ src -> reader_ok f r -> reader_ok f' r.
Proof.
  intros He Hl Hf Hb. destruct r as [|n acc]; [done|]. cbn [reader_ok]. intros (H1 & H2 & H3).
  rewrite He. split; [lia|]. split; [done|]. rewrite Hb, take_app_le; [done|].
  pose proof (bytes_len f Hf) as E. pose proof Hf as (k & d & I). pose proof (fi_esize _ _ _ I). unfold len in *. nia.
Qed.

(** The reader gives the bytes it has copied free. *)
Lemma read_end_ok k d f n acc w :
  fifo_inv k d f -> reader_ok f (RCopy n acc) -> len acc = n * kf_esize f -> writer_ok k f d w ->
  let f' := set_kf_out (u32 (kf_out f + n)) f in
  fifo_inv k d f' /\ fifo_bytes f = acc ++ fifo_bytes f' /\ writer_ok k f' d w.
Proof.
  intros I (Hn & _ & Ha) Hl Hw f'. destruct (remove_ok k d f n I Hn) as [I' E]. fold f' in I', E.
  assert (Z.to_nat (n * kf_esize f) = length acc) as Hla by (unfold len in Hl; lia). rewrite Hla in E.
  split; [done|]. split; [rewrite E, Ha at 1; by rewrite take_drop|].
  destruct w as [|src m j]; [done|]. destruct Hw as (H1 & H2 & H3 & H4 & H5).
  assert (kfifo_len f' = kfifo_len f - n) as El by exact (len_sub k d f n I Hn).
  split; [done|]. split; [lia|]. split; [done|]. split; [done|]. rewrite <- H5.
  assert (from_out f' d = rotate (length acc) (from_out f d)) as ->.
  { unfold from_out. change (pos_of f' (kf_out f')) with (pos_of f (u32 (kf_out f + n))).
    rewrite (pos_of_add k d f _ n I), Hla, rotate_mod by (apply I || lia). by rewrite rotate_rotate. }
  assert (length (from_out f d) = length d) as Hx by apply length_rotate. pose proof (used_range k d f I) as Hu.
  pose proof (fi_esize _ _ _ I) as He. assert (used_bytes f = used_bytes f' + length acc)%nat as Eu.
  { unfold used_bytes. change (kf_esize f') with (kf_esize f). rewrite El, <- Hla. nia. }
  assert (used_bytes f + length src <= length d)%nat as Hroom by (by apply (writer_room k d f src m j)).
  rewrite rotate_le by lia. rewrite drop_app_le by (rewrite length_drop; lia).
  rewrite drop_drop, take_app_le by (rewrite length_drop; lia). do 2 f_equal. lia.
Qed.

Lemma step_ok k d s s' : spsc_step s s' -> spsc_inv k d s -> exists d', spsc_inv k d' s'.
Proof.
  intros Hs [I Hw Hr Ho]. destruct Hs as [f r snt rcv buf n Hn Hb m|f d0 r snt rcv src n j b Hd Hb|
    f r snt rcv src n|f w snt rcv n Hn|f d0 w snt rcv n acc b Hd Hl Hb|f w snt rcv n acc Hl];
    cbn [sp_fifo sp_writer sp_reader sp_sent sp_received] in *.
  - exists d. split; [done| |done..]. cbn [sp_fifo sp_writer]. pose proof (len_range k d f I).
    pose proof (fi_esize _ _ _ I). assert (m = Z.min n (2 ^ k - kfifo_len f)) as Em by (unfold m; by rewrite (unused_eq k d f I)).
    split_and!; [lia | lia | unfold len in *; rewrite length_take; nia | lia | done].
  - assert (d0 = d) as -> by (apply (inj Some); rewrite <- Hd; apply I).
    destruct (write_byte_ok k d f src n j b I Hw Hb) as (I' & Eb & Hw').
    eexists. split; [exact I' | exact Hw' | |cbn [sp_sent sp_received sp_fifo]; by rewrite Eb]. cbn [sp_fifo sp_reader].
    destruct r; [done|]. cbn [reader_ok]. rewrite Eb. exact Hr.
  - destruct (write_end_ok k d f src n I Hw) as (I' & Eb & Hl). exists d.
    split; [done | done | | cbn [sp_sent sp_received sp_fifo]; by rewrite Eb, app_assoc, <- Ho].
    by apply (reader_ok_app f _ src); [| |exists k, d| |].
  - exists d. split; [done..| |done]. cbn [sp_fifo sp_reader]. pose proof (len_range k d f I).
    pose proof (fi_esize _ _ _ I). split_and!; [lia | lia | change (len []) with 0; nia | done].
  - assert (d0 = d) as -> by (apply (inj Some); rewrite <- Hd; apply I). exists d. split; [done..| |done].
    cbn [sp_fifo sp_reader]. destruct Hr as (H1 & _ & H3). split; [done|]. rewrite length_app. split.
    { unfold len in *. rewrite length_app. cbn. lia. }
    assert (length acc < used_bytes f)%nat as Hlt.
    { unfold used_bytes, len in *. pose proof (fi_esize _ _ _ I). nia. }
    cbn [length]. rewrite Nat.add_1_r, (take_S_r _ _ b); [by rewrite <- H3|].
    rewrite (byte_pos_out k d f I) in Hb by (pose proof (used_range k d f I); lia).
    by rewrite (bytes_from_out k d f I), lookup_take_lt.
  - destruct (read_end_ok k d f n acc w I Hr Hl Hw) as (I' & Eb & Hw'). exists d.
    split; [done | done | done | cbn [sp_sent sp_received sp_fifo]]. by rewrite <- app_assoc, <- Eb.
Qed.

Lemma steps_ok k d s s' : rtc spsc_step s s' -> spsc_inv k d s -> exists d', spsc_inv k d' s'.
Proof.
  intros H. revert d. induction H as [s|s1 s2 s3 H12 _ IH]; intros d Hi; [by exists d|].
  destruct (step_ok k d s1 s2 H12 Hi) as [d' Hi']. by apply (IH d').
Qed.

(** C10: with one reader and one writer no lock is needed.  However the two are interleaved, byte
    by byte, what the writer has put in is what the reader has taken out followed by what the
    FIFO holds, so that nothing is lost, torn, repeated or out of order; and a reader in the
    middle of a copy holds bytes of the FIFO. *)
Theorem kfifo_spsc_safe f s : fifo_ok f ->
  rtc spsc_step (mkSpsc f WIdle RIdle (fifo_bytes f) []) s ->
  fifo_ok (sp_fifo s) /\ sp_sent s = sp_received s ++ fifo_bytes (sp_fifo s) /\
  match sp_reader s with RIdle => True | RCopy _ acc => acc `prefix_of` fifo_bytes (sp_fifo s) end.
Proof.
  intros (k & d & I) Hs. destruct (steps_ok k d _ _ Hs) as (d' & [I' _ Hr Ho]); [by split|].
  split; [by exists k, d'|]. split; [done|]. destruct (sp_reader s) as [|n acc]; [done|].
  destruct Hr as (_ & _ & ->). apply prefix_take.
Qed.

(** ** The steps of one side are the code *)

Lemma rotate_inj o d d' : (o <= length d)%nat -> length d' = length d -> rotate o d = rotate o d' -> d = d'.
Proof.
  intros Ho Hl E. rewrite <- (rotate_all d), <- (rotate_all d'), Hl.
  replace (length d) with (o + (length d - o))%nat by lia. by rewrite <- !rotate_rotate, E.
Qed.

Lemma byte_pos_add k d f i j : fifo_inv k d f ->
  byte_pos f i j = rotate_nat_add (Z.to_nat (pos_of f i)) j (length d).
Proof.
  intros I. unfold byte_pos, rotate_nat_add. rewrite <- (length_nat k d f I).
  by rewrite <- Nat2Z.inj_add, <- Nat2Z.inj_mod, Nat2Z.id.
Qed.

Lemma data_inv k d d' f : fifo_inv k d f -> length d' = length d -> fifo_inv k d' (set_kf_data (Some d') f).
Proof. intros I Hl. split; try apply I; [done|]. unfold len. rewrite Hl. apply I. Qed.

(** The bytes that are left to write. *)
Lemma write_rest k f src n r snt rcv rest : forall d j,
  fifo_inv k d f -> kf_data f = Some d -> drop j src = rest -> (length src <= length d)%nat ->
  exists d', length d' = length d /\
    rtc spsc_step (mkSpsc f (WCopy src n j) r snt rcv)
      (mkSpsc (set_kf_data (Some d') f) (WCopy src n (j `max` length src)) r snt rcv) /\
    rotate (Z.to_nat (pos_of f (kf_in f))) d' =
      take j (rotate (Z.to_nat (pos_of f (kf_in f))) d) ++ rest ++
      drop (j `max` length src) (rotate (Z.to_nat (pos_of f (kf_in f))) d).
Proof.
  revert f. induction rest as [|b rest IH]; intros f d j I Hd Hr Hl.
  - assert (length src <= j)%nat by (assert (length (drop j src) = 0%nat) as H by (by rewrite Hr);
      rewrite length_drop in H; lia).
    exists d. rewrite Nat.max_l by done. split; [done|]. split; [|by cbn [app]; rewrite take_drop].
    rewrite <- Hd. apply rtc_refl.
  - assert (src !! j = Some b) as Hb by (by rewrite <- (Nat.add_0_r j), <- lookup_drop, Hr).
    assert (drop (S j) src = rest) as Hr' by (rewrite <- Nat.add_1_r, <- drop_drop, Hr; done).
    pose proof (lookup_lt_Some _ _ _ Hb) as Hj. set (p := Z.to_nat (pos_of f (kf_in f))) in *.
    set (d1 := <[byte_pos f (kf_in f) j := b]> d). assert (length d1 = length d) as Hl1 by apply length_insert.
    destruct (IH (set_kf_data (Some d1) f) d1 (S j)) as (d' & E1 & E2 & E3); [by apply (data_inv k d) | done..| lia |].
    exists d'. split; [congruence|]. replace (j `max` length src)%nat with (S j `max` length src)%nat by lia.
    split; [eapply rtc_l; [by apply step_in_byte | exact E2]|].
    change (pos_of (set_kf_data _ f) _) with (pos_of f (kf_in f)) in E3. fold p in E3. rewrite E3.
    assert (rotate p d1 = <[j := b]> (rotate p d)) as ->.
    { unfold d1. rewrite (byte_pos_add k d f) by done. apply rotate_insert_l. lia. }
    assert (length (rotate p d) = length d) as Hx by apply length_rotate.
    rewrite (take_S_r _ j b) by (apply list_lookup_insert_eq; lia).
    rewrite take_insert_ge, drop_insert_lt by lia. by rewrite <- app_assoc.
Qed.

(** Byte by byte the writer stores what the two copies of [kfifo_copy_in] store. *)
Lemma write_all k d f src n r snt rcv : fifo_inv k d f -> (length src <= length d)%nat ->
  rtc spsc_step (mkSpsc f (WCopy src n 0) r snt rcv)
    (mkSpsc (set_kf_data (Some (ring_store (Z.to_nat (pos_of f (kf_in f))) src d)) f)
      (WCopy src n (length src)) r snt rcv).
Proof.
  intros I Hl. destruct (write_rest k f src n r snt rcv src d 0) as (d' & El & Hs & E); try done; [apply I|].
  change (0 `max` length src)%nat with (length src) in *. cbn [take app] in E.
  pose proof (pos_of_range k d f I (kf_in f)) as Hp. pose proof (fi_size _ _ _ I) as Hd. pose proof (fi_esize _ _ _ I).
  assert (Z.to_nat (pos_of f (kf_in f)) < length d)%nat as Ho by (unfold len in Hd; lia).
  rewrite <- (rotate_store _ src d Ho Hl) in E. apply rotate_inj in E; [by rewrite <- E | lia |].
  by rewrite El, length_ring_store.
Qed.

(** The bytes that are left to read. *)
Lemma read_rest k d f n w snt rcv : fifo_inv k d f -> n <= kfifo_len f -> forall m acc,
  len acc + Z.of_nat m = n * kf_esize f -> acc = take (length acc) (from_out f d) ->
  rtc spsc_step (mkSpsc f w (RCopy n acc) snt rcv)
    (mkSpsc f w (RCopy n (take (length acc + m) (from_out f d))) snt rcv).
Proof.
  intros I Hn m. induction m as [|m IH]; intros acc Hm Ha.
  { rewrite Nat.add_0_r, <- Ha. apply rtc_refl. }
  pose proof (used_range k d f I) as Hu. pose proof (fi_esize _ _ _ I) as He.
  assert (length acc < used_bytes f)%nat as Hl by (unfold used_bytes, len in *; nia).
  destruct (lookup_lt_is_Some_2 (from_out f d) (length acc)) as [b Hb].
  { unfold from_out. rewrite length_rotate. lia. }
  eapply rtc_l.
  - apply (step_out_byte f d); [apply I | lia | rewrite (byte_pos_out k d f I) by lia; exact Hb].
  - replace (length acc + S m)%nat with (length (acc ++ [b]) + m)%nat by (rewrite length_app; cbn; lia).
    apply IH; [unfold len in *; rewrite length_app; cbn; lia|].
    rewrite length_app, Nat.add_1_r, (take_S_r _ _ b) by done. by rewrite <- Ha.
Qed.

(** C28: the steps are those of the code: [__kfifo_in] and [__kfifo_out] always return, and the
    writer or the reader, run from the beginning to the end of a call while the other side rests
    wherever it is, reaches the very state that the block copies of the code compute in two
    pieces, with the same number of elements and the same bytes. *)
Theorem kfifo_steps_equiv f buf n w r snt rcv :
  fifo_ok f -> 0 <= n -> n * kf_esize f <= len buf ->
  (exists m f', __kfifo_in buf n f = Done m f' /\
    rtc spsc_step (mkSpsc f WIdle r snt rcv)
      (mkSpsc f' WIdle r (snt ++ take (Z.to_nat (m * kf_esize f)) buf) rcv)) /\
  (exists m bs f', __kfifo_out n f = Done (m, bs) f' /\
    rtc spsc_step (mkSpsc f w RIdle snt rcv) (mkSpsc f' w RIdle snt (rcv ++ bs))).
Proof.
  intros (k & d & I) Hn Hb. pose proof (len_range k d f I) as Hl. pose proof (fi_esize _ _ _ I) as He.
  pose proof (length_nat k d f I) as Hd. rewrite (cap_eq k d f I) in Hd. split.
  - destruct (wp_run (__kfifo_in buf n) (fun m f' => rtc spsc_step (mkSpsc f WIdle r snt rcv)
      (mkSpsc f' WIdle r (snt ++ take (Z.to_nat (m * kf_esize f)) buf) rcv)) f) as (m & f' & E & H); [|by exists m, f'].
    unfold __kfifo_in. wp_pure. replace (if kfifo_unused f <? n then kfifo_unused f else n) with (Z.min n (kfifo_unused f))
      by (destruct (Z.ltb_spec (kfifo_unused f) n); lia).
    assert (0 <= Z.min n (kfifo_unused f) <= 2 ^ k) as Hm by (rewrite (unused_eq k d f I); lia).
    apply wp_bind. apply (copy_in_wp k d); [done | done | nia |]. cbv zeta. wp_pure.
    eapply rtc_l; [by apply (step_in_begin f r snt rcv buf n)|].
    etrans; [apply (write_all k d); [done | rewrite length_take; nia]|].
    apply rtc_once. apply step_in_end.
  - destruct (wp_run (__kfifo_out n) (fun p f' => rtc spsc_step (mkSpsc f w RIdle snt rcv)
      (mkSpsc f' w RIdle snt (rcv ++ p.2))) f) as ([m bs] & f' & E & H); [|by exists m, bs, f'].
    unfold __kfifo_out, __kfifo_out_peek. wp_pure. replace (if kfifo_len f <? n then kfifo_len f else n) with (Z.min n (kfifo_len f))
      by (destruct (Z.ltb_spec (kfifo_len f) n); lia).
    apply wp_bind. apply (copy_out_wp k d); [done | lia |]. wp_pure.
    eapply rtc_l; [by apply step_out_begin|]. set (m := Z.min n (kfifo_len f)).
    etrans; [apply (read_rest k d f m w snt rcv I ltac:(lia) (Z.to_nat (m * kf_esize f)) []); [|done]|].
    + change (len []) with 0. nia.
    + apply rtc_once. apply step_out_end. unfold len, stretch. cbn [snd]. rewrite length_take, length_rotate. nia.
Qed.
