(* ===== verification/KfifoExamples.v ===== *)
(** * The kernel FIFO on concrete inputs

    The theorems of KfifoRefine.v, KfifoRecord.v and KfifoSpsc.v applied, and what the code does
    where it differs from its comments. *)

From S2P Require Import Prelude KfifoRing Kfifo KfifoRefine KfifoRecord KfifoSpsc.

(** An allocator that always has memory, and whose memory is cleared. *)
Definition zeroed (n : Z) : option (list Z) := Some (replicate (Z.to_nat n) 0).

Lemma zeroed_length n d : 0 <= n -> zeroed n = Some d -> len d = n.
Proof. intros Hn [= <-]. unfold len. rewrite length_replicate. lia. Qed.

Definition no_fifo : kfifo := mkKfifo 0 0 0 0 None.

(** A FIFO of 8 bytes whose indices are about to wrap around; it holds 6 bytes. *)
Definition full_fifo : kfifo := mkKfifo 3 (2 ^ 32 - 3) 7 1 (Some [1; 2; 3; 0; 0; 7; 8; 9]).

Lemma full_fifo_ok : fifo_ok full_fifo.
Proof. exists 3, [1; 2; 3; 0; 0; 7; 8; 9]. split; [lia | done | done | done | split; done.. | done | done | done]. Qed.

Definition some_ops : list fifo_op := [FIn [1; 2; 3; 4; 5; 6] 3; FOut 2; FIn [7; 8; 9; 10; 11; 12] 3; FPeek 9].

Lemma kfifo_refines_queue_witness :
  wp (r ← __kfifo_alloc zeroed 7 2;
      if r =? 0 then rs ← run_ops some_ops; ret (Some rs) else ret None) (fun rs f' =>
    match rs with
    | Some rs => fifo_ok f' /\ (rs, fifo_bytes f') = queue_ops (2 ^ Z.log2 7) 2 some_ops []
    | None => kf_data f' = None
    end) no_fifo.
Proof.
  apply (kfifo_refines_queue zeroed 7 2 no_fifo some_ops zeroed_length); [done | done | done |].
  repeat constructor; done.
Defined.

Definition rec_ops : list rec_op := [RIn [1; 2; 3]; RIn [4]; RPeek 2; ROut 8; RIn [5; 6; 7; 8; 9]; ROut 1].

Definition empty_fifo : kfifo := mkKfifo 5 5 7 1 (Some (replicate 8 0)).

Lemma empty_fifo_ok : fifo_ok empty_fifo.
Proof. exists 3, (replicate 8 0). split; [lia | done | done | done | split; done.. | done | done | done]. Qed.

Lemma kfifo_record_queue_witness :
  wp (run_recs 1 rec_ops) (fun res f' => res = queue_recs (fifo_cap empty_fifo) 1 rec_ops [] /\
    exists rs', rec_holds 1 rs' f') empty_fifo.
Proof.
  apply (kfifo_record_queue 1 rec_ops [] empty_fifo).
  - split; [split; [exact empty_fifo_ok | split; [done | by left]] | constructor | done].
  - repeat constructor; done.
Defined.

(** The writer looks, writes its byte and is interrupted by a reader that takes two bytes. *)
Lemma kfifo_spsc_safe_witness :
  let f1 := set_kf_data (Some [1; 2; 3; 10; 0; 7; 8; 9]) full_fifo in
  let s := mkSpsc (set_kf_out (2 ^ 32 - 1) f1) (WCopy [10; 11] 2 1) RIdle [7; 8; 9; 1; 2; 3] [7; 8] in
  fifo_ok (sp_fifo s) /\ sp_sent s = sp_received s ++ fifo_bytes (sp_fifo s) /\
  match sp_reader s with RIdle => True | RCopy _ acc => acc `prefix_of` fifo_bytes (sp_fifo s) end.
Proof.
  apply (kfifo_spsc_safe full_fifo); [exact full_fifo_ok|].
  eapply rtc_l; [apply (step_in_begin full_fifo RIdle _ [] [10; 11; 12] 3); done|].
  eapply rtc_l; [eapply step_in_byte; done|].
  eapply rtc_l; [apply (step_out_begin _ _ _ _ 2); done|].
  eapply rtc_l; [eapply (step_out_byte _ _ _ _ _ _ _ 7); done|].
  eapply rtc_l; [eapply (step_out_byte _ _ _ _ _ _ _ 8); done|].
  eapply rtc_l; [apply step_out_end; done|]. apply rtc_refl.
Defined.

Lemma kfifo_steps_equiv_witness :
  (exists m f', __kfifo_in [10; 11; 12] 3 full_fifo = Done m f' /\
    rtc spsc_step (mkSpsc full_fifo WIdle RIdle [] [])
      (mkSpsc f' WIdle RIdle ([] ++ take (Z.to_nat (m * kf_esize full_fifo)) [10; 11; 12]) [])) /\
  (exists m bs f', __kfifo_out 3 full_fifo = Done (m, bs) f' /\
    rtc spsc_step (mkSpsc full_fifo WIdle RIdle [] []) (mkSpsc f' WIdle RIdle [] ([] ++ bs))).
Proof. apply (kfifo_steps_equiv full_fifo [10; 11; 12] 3 WIdle RIdle [] []); [exact full_fifo_ok | done | done]. Defined.

(** ** Where code and comments differ *)

(** The FIFO of [kfifo_alloc] is rounded down, not up, to a power of two. *)
Example kfifo_alloc_rounds_down :
  wp (__kfifo_alloc zeroed 7 1) (fun r f => r = 0 /\ kfifo_size f = 4) no_fifo.
Proof. by vm_compute. Qed.

(** Elements of 4 bytes: the user passes 8 bytes of which 5 can be read.  One element gets into
    the FIFO, but [*copied] says 7: the bytes of two elements less the one element that is not
    copied. *)
Example kfifo_from_user_copied_mixed :
  let f := mkKfifo 0 0 3 4 (Some (replicate 16 0)) in
  wp (__kfifo_from_user [1; 2; 3; 4; 5] 8) (fun r f' => r = (- EFAULT, 7) /\ kfifo_len f' = 1) f.
Proof. by vm_compute. Qed.

(** A record of 256 bytes is stored with the length 0 if the header has one byte; the reader
    gets an empty record and then reads inside of the first one. *)
Example kfifo_in_r_length_truncated :
  let f := mkKfifo 0 0 511 1 (Some (replicate 512 0)) in
  wp (n ← kfifo_in 1 (replicate 256 3) 256; r ← kfifo_out 1 256; m ← kfifo_peek_len 1; ret (n, r, m))
    (fun r _ => r = (256, (0, []), 3)) f.
Proof. by vm_compute. Qed.

(** Skipping in an empty FIFO moves [out] past [in]; the FIFO then counts 2^32 - 1 elements. *)
Example kfifo_skip_empty : wp (kfifo_skip 0) (fun _ f => kfifo_len f = 2 ^ 32 - 1) empty_fifo.
Proof. by vm_compute. Qed.
