(* ===== verification/Mailbox.v ===== *)
(** * Mailboxes

    plat-omap/mailbox.c with plat/mailbox.h: messages of 32 bits to and from the other processors
    of the chip.  A mailbox has a queue of messages to send, which a tasklet moves to the hardware
    FIFO, and one of received messages, which the interrupt handler fills and a work item hands
    to the notifier chain of the mailbox.

    The driver works on any device with the operations [omap_mbox_ops]; [D] is the state of that
    device.  Omap2Mailbox.v has the operations of mach-omap2/mailbox.c.

    - A [struct omap_mbox] is a C object with a static lifetime, known by its name; an operation
      gets the [priv] of the mailbox, which is all it uses of it.
    - A queue is allocated by [omap_mbox_startup] and belongs to its mailbox; [mq->mbox] leads
      back to it.  A queue that has been freed is marked as such: the pointer of the mailbox to
      it stays, and using it is a [Fault].
    - [mq_work] and [mq_tasklet] say whether the work item or the tasklet is scheduled.
    - [mx_delivered] is what the notifier chain was called with; the functions on the chain
      belong to the users of the mailbox and are not modelled. *)

From S2P Require Import Prelude Bytes Kfifo.

Inductive mbox_irq := IRQ_TX | IRQ_RX.
Inductive mbox_type := OMAP_MBOX_TYPE1 | OMAP_MBOX_TYPE2.

#[global] Instance mbox_irq_eq_dec : EqDecision mbox_irq.
Proof. solve_decision. Defined.
#[global] Instance mbox_type_eq_dec : EqDecision mbox_type.
Proof. solve_decision. Defined.

(** ** The operations of a device *)

Record omap_mbox_ops (D : Type) := mkMboxOps {
  op_type : mbox_type;
  op_startup : option (string -> M D Z);
  op_shutdown : option (string -> M D unit);
  op_fifo_read : string -> M D Z;
  op_fifo_write : string -> Z -> M D unit;
  op_fifo_empty : string -> M D Z;
  op_fifo_full : string -> M D Z;
  op_enable_irq : string -> mbox_irq -> M D unit;
  op_disable_irq : string -> mbox_irq -> M D unit;
  op_ack_irq : option (string -> mbox_irq -> M D unit);
  op_is_irq : string -> mbox_irq -> M D Z;
  op_save_ctx : option (string -> M D unit);
  op_restore_ctx : option (string -> M D unit)
}.
Arguments op_type {D} _.
Arguments op_startup {D} _.
Arguments op_shutdown {D} _.
Arguments op_fifo_read {D} _ _.
Arguments op_fifo_write {D} _ _ _.
Arguments op_fifo_empty {D} _ _.
Arguments op_fifo_full {D} _ _.
Arguments op_enable_irq {D} _ _ _.
Arguments op_disable_irq {D} _ _ _.
Arguments op_ack_irq {D} _.
Arguments op_is_irq {D} _ _ _.
Arguments op_save_ctx {D} _.
Arguments op_restore_ctx {D} _.

(** ** State *)

#[local] Set Primitive Projections.

Record omap_mbox_queue := mkQueue {
  mq_fifo : kfifo;
  mq_work : bool;
  mq_tasklet : bool;
  mq_full : bool;
  mq_freed : bool
}.

Definition set_mq_fifo : kfifo -> omap_mbox_queue -> omap_mbox_queue :=
  Eval cbv beta zeta in ltac:(record_setter mq_fifo).
Definition set_mq_work : bool -> omap_mbox_queue -> omap_mbox_queue :=
  Eval cbv beta zeta in ltac:(record_setter mq_work).
Definition set_mq_tasklet : bool -> omap_mbox_queue -> omap_mbox_queue :=
  Eval cbv beta zeta in ltac:(record_setter mq_tasklet).
Definition set_mq_full : bool -> omap_mbox_queue -> omap_mbox_queue :=
  Eval cbv beta zeta in ltac:(record_setter mq_full).
Definition set_mq_freed : bool -> omap_mbox_queue -> omap_mbox_queue :=
  Eval cbv beta zeta in ltac:(record_setter mq_freed).

Record omap_mbox := mkMbox {
  mx_name : string;
  mx_irq : Z;
  mx_txq : option omap_mbox_queue;
  mx_rxq : option omap_mbox_queue;
  mx_dev : bool;
  mx_priv : string;
  mx_use_count : Z;
  mx_notifier : list string;
  mx_delivered : list Z
}.

Definition set_mx_irq : Z -> omap_mbox -> omap_mbox := Eval cbv beta zeta in ltac:(record_setter mx_irq).
Definition set_mx_txq : option omap_mbox_queue -> omap_mbox -> omap_mbox :=
  Eval cbv beta zeta in ltac:(record_setter mx_txq).
Definition set_mx_rxq : option omap_mbox_queue -> omap_mbox -> omap_mbox :=
  Eval cbv beta zeta in ltac:(record_setter mx_rxq).
Definition set_mx_dev : bool -> omap_mbox -> omap_mbox := Eval cbv beta zeta in ltac:(record_setter mx_dev).
Definition set_mx_use_count : Z -> omap_mbox -> omap_mbox :=
  Eval cbv beta zeta in ltac:(record_setter mx_use_count).
Definition set_mx_notifier : list string -> omap_mbox -> omap_mbox :=
  Eval cbv beta zeta in ltac:(record_setter mx_notifier).
Definition set_mx_delivered : list Z -> omap_mbox -> omap_mbox :=
  Eval cbv beta zeta in ltac:(record_setter mx_delivered).

(** The device, the mailboxes, the static variables [mboxes], [mbox_configured] and
    [mbox_kfifo_size], and the interrupt handlers that are installed. *)
Record mbx (D : Type) := mkMbx {
  mb_dev : D;
  mb_boxes : gmap string omap_mbox;
  mb_list : option (list string);
  mb_configured : Z;
  mb_kfifo_size : Z;
  mb_irqs : list (Z * string)
}.
Arguments mkMbx {D} _ _ _ _ _ _.
Arguments mb_dev {D} _.
Arguments mb_boxes {D} _.
Arguments mb_list {D} _.
Arguments mb_configured {D} _.
Arguments mb_kfifo_size {D} _.
Arguments mb_irqs {D} _.

Definition set_mb_dev {D} : D -> mbx D -> mbx D := Eval cbv beta zeta in ltac:(record_setter (@mb_dev D)).
Definition set_mb_boxes {D} : gmap string omap_mbox -> mbx D -> mbx D :=
  Eval cbv beta zeta in ltac:(record_setter (@mb_boxes D)).
Definition set_mb_list {D} : option (list string) -> mbx D -> mbx D :=
  Eval cbv beta zeta in ltac:(record_setter (@mb_list D)).
Definition set_mb_configured {D} : Z -> mbx D -> mbx D :=
  Eval cbv beta zeta in ltac:(record_setter (@mb_configured D)).
Definition set_mb_kfifo_size {D} : Z -> mbx D -> mbx D :=
  Eval cbv beta zeta in ltac:(record_setter (@mb_kfifo_size D)).
Definition set_mb_irqs {D} : list (Z * string) -> mbx D -> mbx D :=
  Eval cbv beta zeta in ltac:(record_setter (@mb_irqs D)).

#[local] Unset Primitive Projections.

(** ** Messages *)

(** [sizeof(mbox_msg_t)] *)
Definition sizeof_msg : Z := 4.

(** A message in memory; the machine is little-endian. *)
Definition msg_bytes (m : Z) : list Z := [byte_at m 0; byte_at m 8; byte_at m 16; byte_at m 24].

(** The variable [msg] after [kfifo_out]; with fewer bytes it would not be initialised. *)
Definition msg_of {S} (bs : list Z) : M S Z :=
  match bs with
  | [a; b; c; d] => ret (word_of a b c d)
  | _ => fail Bug
  end.

(** ** The driver *)

Section Driver.
  Context {D : Type}.
(** The operations of the mailboxes, which share them, and [udelay]. *)
Variable ops : omap_mbox_ops D.
Variable udelay : Z -> M D unit.

Definition get_box (n : string) : M (mbx D) omap_mbox := r ← gets (fun s => mb_boxes s !! n); deref r.
Definition set_box (n : string) (b : omap_mbox) : M (mbx D) unit :=
  modify (fun s => set_mb_boxes (<[n := b]> (mb_boxes s)) s).
Definition upd_box (n : string) (f : omap_mbox -> omap_mbox) : M (mbx D) unit :=
  b ← get_box n; set_box n (f b).

(** An operation of the device. *)
Definition in_dev {A} (m : M D A) : M (mbx D) A := fun s =>
  match m (mb_dev s) with Done a d => Done a (set_mb_dev d s) | Fault e => Fault e end.

(** [mbox->txq] or [mbox->rxq] *)
Definition queue_of (q : mbox_irq) (b : omap_mbox) : option omap_mbox_queue :=
  match q with IRQ_TX => mx_txq b | IRQ_RX => mx_rxq b end.
Definition set_queue (q : mbox_irq) (x : option omap_mbox_queue) (b : omap_mbox) : omap_mbox :=
  match q with IRQ_TX => set_mx_txq x b | IRQ_RX => set_mx_rxq x b end.

Definition get_queue (q : mbox_irq) (n : string) : M (mbx D) omap_mbox_queue :=
  b ← get_box n;
  x ← deref (queue_of q b);
  if mq_freed x then fail UseAfterFree else ret x.
Definition upd_queue (q : mbox_irq) (n : string) (f : omap_mbox_queue -> omap_mbox_queue) : M (mbx D) unit :=
  x ← get_queue q n; upd_box n (set_queue q (Some (f x))).

(** A call on the FIFO of a queue. *)
Definition in_fifo {A} (q : mbox_irq) (n : string) (m : M kfifo A) : M (mbx D) A :=
  x ← get_queue q n;
  match m (mq_fifo x) with
  | Done a f => upd_queue q n (set_mq_fifo f);; ret a
  | Fault e => fail e
  end.

Definition mbox_fifo_read (n : string) : M (mbx D) Z := b ← get_box n; in_dev (op_fifo_read ops (mx_priv b)).
Definition mbox_fifo_write (n : string) (msg : Z) : M (mbx D) unit :=
  b ← get_box n; in_dev (op_fifo_write ops (mx_priv b) msg).
Definition mbox_fifo_empty (n : string) : M (mbx D) Z := b ← get_box n; in_dev (op_fifo_empty ops (mx_priv b)).
Definition mbox_fifo_full (n : string) : M (mbx D) Z := b ← get_box n; in_dev (op_fifo_full ops (mx_priv b)).

Definition ack_mbox_irq (n : string) (irq : mbox_irq) : M (mbx D) unit :=
  match op_ack_irq ops with
  | Some ack => b ← get_box n; in_dev (ack (mx_priv b) irq)
  | None => ret tt
  end.
Definition is_mbox_irq (n : string) (irq : mbox_irq) : M (mbx D) Z :=
  b ← get_box n; in_dev (op_is_irq ops (mx_priv b) irq).

Definition omap_mbox_enable_irq (n : string) (irq : mbox_irq) : M (mbx D) unit :=
  b ← get_box n; in_dev (op_enable_irq ops (mx_priv b) irq).
Definition omap_mbox_disable_irq (n : string) (irq : mbox_irq) : M (mbx D) unit :=
  b ← get_box n; in_dev (op_disable_irq ops (mx_priv b) irq).

Definition omap_mbox_save_ctx (n : string) : M (mbx D) unit :=
  match op_save_ctx ops with Some f => b ← get_box n; in_dev (f (mx_priv b)) | None => ret tt end.
Definition omap_mbox_restore_ctx (n : string) : M (mbx D) unit :=
  match op_restore_ctx ops with Some f => b ← get_box n; in_dev (f (mx_priv b)) | None => ret tt end.

(** *** Sending *)

Fixpoint poll_loop (i : nat) (n : string) : M (mbx D) Z :=
  match i with
  | O => ret (-1)
  | S i' =>
      full ← mbox_fifo_full n;
      if negb (full =? 0) then
        if decide (op_type ops = OMAP_MBOX_TYPE2) then ret (-1)
        else if (i' =? 0)%nat then ret (-1)
        else in_dev (udelay 1);; poll_loop i' n
      else ret 0
  end.

Definition __mbox_poll_for_space (n : string) : M (mbx D) Z := poll_loop 1000 n.

Definition tasklet_schedule (n : string) : M (mbx D) unit := upd_queue IRQ_TX n (set_mq_tasklet true).

Definition omap_mbox_msg_send (n : string) (msg : Z) : M (mbx D) Z :=
  avail ← in_fifo IRQ_TX n (gets (fun f => kfifo_avail 0 f));
  if avail <? sizeof_msg then ret (- ENOMEM) else
  empty ← in_fifo IRQ_TX n (gets (fun f => kfifo_is_empty f));
  direct ← (if empty : bool then p ← __mbox_poll_for_space n; ret (p =? 0) else ret false);
  if direct : bool then mbox_fifo_write n msg;; ret 0 else
  in_fifo IRQ_TX n (kfifo_in 0 (msg_bytes msg) sizeof_msg);;
  tasklet_schedule n;;
  ret 0.

(** [fuel] bounds the number of messages. *)
Fixpoint mbox_tx_tasklet (fuel : nat) (n : string) : M (mbx D) unit :=
  match fuel with
  | O => fail NoFuel
  | S fuel' =>
      l ← in_fifo IRQ_TX n (gets (fun f => kfifo_len f));
      if l =? 0 then ret tt else
      p ← __mbox_poll_for_space n;
      if negb (p =? 0) then omap_mbox_enable_irq n IRQ_TX else
      '(_, bs) ← in_fifo IRQ_TX n (kfifo_out 0 sizeof_msg);
      msg ← msg_of bs;
      mbox_fifo_write n msg;;
      mbox_tx_tasklet fuel' n
  end.

(** *** Receiving *)

(** The parts of the loop of [mbox_rx_work] that interrupts may come between: the test and
    [kfifo_out], the notifier chain, and what is done with interrupts disabled. *)
Definition rx_take (n : string) : M (mbx D) (option Z) :=
  l ← in_fifo IRQ_RX n (gets (fun f => kfifo_len f));
  if l <? sizeof_msg then ret None else
  '(_, bs) ← in_fifo IRQ_RX n (kfifo_out 0 sizeof_msg);
  msg ← msg_of bs;
  ret (Some msg).

(** [blocking_notifier_call_chain] *)
Definition rx_notify (n : string) (msg : Z) : M (mbx D) unit :=
  upd_box n (fun b => set_mx_delivered (mx_delivered b ++ [msg]) b).

Definition rx_refill (n : string) : M (mbx D) unit :=
  q ← get_queue IRQ_RX n;
  when (mq_full q)
    (upd_queue IRQ_RX n (set_mq_full false);;
     empty ← mbox_fifo_empty n;
     when (empty =? 0)
       (msg ← mbox_fifo_read n;
        in_fifo IRQ_RX n (kfifo_in 0 (msg_bytes msg) sizeof_msg);;
        ret tt);;
     omap_mbox_enable_irq n IRQ_RX).

Fixpoint mbox_rx_work (fuel : nat) (n : string) : M (mbx D) unit :=
  match fuel with
  | O => fail NoFuel
  | S fuel' =>
      o ← rx_take n;
      match o with
      | None => ret tt
      | Some msg => rx_notify n msg;; rx_refill n;; mbox_rx_work fuel' n
      end
  end.

(** *** Interrupts *)

Definition __mbox_tx_interrupt (n : string) : M (mbx D) unit :=
  omap_mbox_disable_irq n IRQ_TX;;
  ack_mbox_irq n IRQ_TX;;
  tasklet_schedule n.

Fixpoint rx_interrupt_loop (fuel : nat) (n : string) : M (mbx D) unit :=
  match fuel with
  | O => fail NoFuel
  | S fuel' =>
      empty ← mbox_fifo_empty n;
      if negb (empty =? 0) then ret tt else
      avail ← in_fifo IRQ_RX n (gets (fun f => kfifo_avail 0 f));
      if avail <? sizeof_msg then
        omap_mbox_disable_irq n IRQ_RX;;
        upd_queue IRQ_RX n (set_mq_full true)
      else
        msg ← mbox_fifo_read n;
        in_fifo IRQ_RX n (kfifo_in 0 (msg_bytes msg) sizeof_msg);;
        if decide (op_type ops = OMAP_MBOX_TYPE1) then ret tt else rx_interrupt_loop fuel' n
  end.

(** [queue_work(mboxd, &mbox->rxq->work)] *)
Definition queue_work (n : string) : M (mbx D) unit := upd_queue IRQ_RX n (set_mq_work true).

Definition __mbox_rx_interrupt (fuel : nat) (n : string) : M (mbx D) unit :=
  rx_interrupt_loop fuel n;;
  ack_mbox_irq n IRQ_RX;;
  queue_work n.

Definition mbox_interrupt (fuel : nat) : M (mbx D) Z :=
  l ← gets (fun s => mb_list s);
  l ← deref l;
  for_each l (fun n =>
    tx ← is_mbox_irq n IRQ_TX;
    when (negb (tx =? 0)) (__mbox_tx_interrupt n);;
    rx ← is_mbox_irq n IRQ_RX;
    when (negb (rx =? 0)) (__mbox_rx_interrupt fuel n));;
  ret IRQ_HANDLED.

(** The soft interrupt and the worker thread run what is scheduled. *)
Definition run_tasklet (fuel : nat) (n : string) : M (mbx D) unit :=
  q ← get_queue IRQ_TX n;
  when (mq_tasklet q) (upd_queue IRQ_TX n (set_mq_tasklet false);; mbox_tx_tasklet fuel n).

Definition run_work (fuel : nat) (n : string) : M (mbx D) unit :=
  q ← get_queue IRQ_RX n;
  when (mq_work q) (upd_queue IRQ_RX n (set_mq_work false);; mbox_rx_work fuel n).

(** *** Setting up *)

(** What the allocations for one queue give: the structure and the buffer of the FIFO. *)
Record heap := mkHeap { hp_queue : bool; hp_buffer : Z -> option (list Z) }.

Definition mbox_queue_alloc (h : heap) : M (mbx D) (option omap_mbox_queue) :=
  size ← gets (fun s => mb_kfifo_size s);
  if negb (hp_queue h) then ret None else
  match __kfifo_alloc (hp_buffer h) size 1 (mkKfifo 0 0 0 0 None) with
  | Done r f => ret (if r =? 0 then Some (mkQueue f false false false false) else None)
  | Fault e => fail e
  end.

(** The object is gone; the mailbox keeps the pointer to it. *)
Definition mbox_queue_free (q : mbox_irq) (n : string) : M (mbx D) unit :=
  in_fifo q n __kfifo_free;;
  upd_queue q n (set_mq_freed true).

Definition request_irq (status irq : Z) (n : string) : M (mbx D) Z :=
  when (status =? 0) (modify (fun s => set_mb_irqs (mb_irqs s ++ [(irq, n)]) s));;
  ret status.
Definition free_irq (irq : Z) (n : string) : M (mbx D) unit :=
  modify (fun s => set_mb_irqs (filter (fun p => p <> (irq, n)) (mb_irqs s)) s).

Definition fail_startup (r : Z) : M (mbx D) Z :=
  modify (fun s => set_mb_configured (wraps 32 (mb_configured s - 1)) s);; ret r.

Definition fail_request_irq (n : string) (r : Z) : M (mbx D) Z :=
  b ← get_box n;
  match op_shutdown ops with Some f => in_dev (f (mx_priv b)) | None => ret tt end;;
  upd_box n (fun b => set_mx_use_count (wraps 32 (mx_use_count b - 1)) b);;
  fail_startup r.

(** [irq_status] is the result of [request_irq]; [htx] and [hrx] are what the allocator gives. *)
Definition omap_mbox_startup (irq_status : Z) (htx hrx : heap) (n : string) : M (mbx D) Z :=
  b ← get_box n;
  c ← gets (fun s => mb_configured s);
  modify (set_mb_configured (wraps 32 (c + 1)));;
  '(r, failed) ← (if c =? 0 then
      match op_startup ops with
      | Some f => r ← in_dev (f (mx_priv b)); ret (r, negb (r =? 0))
      | None => ret (0, true)
      end
    else ret (0, false));
  if failed : bool then fail_startup r else
  upd_box n (fun b => set_mx_use_count (wraps 32 (mx_use_count b + 1)) b);;
  if mx_use_count b =? 0 then
    r ← request_irq irq_status (mx_irq b) n;
    if negb (r =? 0) then fail_request_irq n r else
    mq ← mbox_queue_alloc htx;
    match mq with
    | None => free_irq (mx_irq b) n;; fail_request_irq n (- ENOMEM)
    | Some _ =>
        upd_box n (set_mx_txq mq);;
        mq ← mbox_queue_alloc hrx;
        match mq with
        | None =>
            mbox_queue_free IRQ_TX n;;
            free_irq (mx_irq b) n;;
            fail_request_irq n (- ENOMEM)
        | Some _ => upd_box n (set_mx_rxq mq);; ret 0
        end
    end
  else ret 0.

(** [tasklet_kill] and [flush_work] wait until what is scheduled has run. *)
Definition omap_mbox_fini (fuel : nat) (n : string) : M (mbx D) unit :=
  upd_box n (fun b => set_mx_use_count (wraps 32 (mx_use_count b - 1)) b);;
  b ← get_box n;
  when (mx_use_count b =? 0)
    (free_irq (mx_irq b) n;;
     run_tasklet fuel n;;
     run_work fuel n;;
     mbox_queue_free IRQ_TX n;;
     mbox_queue_free IRQ_RX n);;
  match op_shutdown ops with
  | Some f =>
      modify (fun s => set_mb_configured (wraps 32 (mb_configured s - 1)) s);;
      c ← gets (fun s => mb_configured s);
      when (c =? 0) (in_dev (f (mx_priv b)))
  | None => ret tt
  end.

(** *** For the users of a mailbox *)

(** [inl] is ERR_PTR.  The loop advances the pointer to the first mailbox, not the pointer into
    the list, and a mailbox is not an element of an array. *)
Definition omap_mbox_get (irq_status : Z) (htx hrx : heap) (name : string) (nb : option string)
    : M (mbx D) (Z + string) :=
  l ← gets (fun s => mb_list s);
  match l with
  | None => ret (inl (- EINVAL))
  | Some [] => ret (inl (- ENOENT))
  | Some (n :: _) =>
      b ← get_box n;
      if decide (mx_name b = name) then
        r ← omap_mbox_startup irq_status htx hrx n;
        if negb (r =? 0) then ret (inl (- ENODEV)) else
        match nb with
        | Some nb => upd_box n (fun b => set_mx_notifier (mx_notifier b ++ [nb]) b)
        | None => ret tt
        end;;
        ret (inr n)
      else fail OutOfBounds
  end.

Definition omap_mbox_put (fuel : nat) (n nb : string) : M (mbx D) unit :=
  upd_box n (fun b => set_mx_notifier (filter (fun x => x <> nb) (mx_notifier b)) b);;
  omap_mbox_fini fuel n.

(** *** For the driver of the device *)

Definition device_unregister (n : string) : M (mbx D) unit := upd_box n (set_mx_dev false).

(** [created] is the result of [device_create]: 0 or an error.  [before] are the mailboxes
    already registered, the last one first. *)
Fixpoint register_loop (created : string -> Z) (before l : list string) : M (mbx D) Z :=
  match l with
  | [] => ret 0
  | n :: l' =>
      if negb (created n =? 0) then for_each before device_unregister;; ret (created n)
      else
        upd_box n (set_mx_dev true);;
        upd_box n (set_mx_notifier []);;
        register_loop created (n :: before) l'
  end.

Definition omap_mbox_register (created : string -> Z) (list : option (list string)) : M (mbx D) Z :=
  modify (set_mb_list list);;
  match list with
  | None => ret (- EINVAL)
  | Some l => register_loop created [] l
  end.

Definition omap_mbox_unregister : M (mbx D) Z :=
  l ← gets (fun s => mb_list s);
  match l with
  | None => ret (- EINVAL)
  | Some l => for_each l device_unregister;; modify (set_mb_list None);; ret 0
  end.

(** [err] is the result of [class_register], [mboxd] whether there is a work queue. *)
Definition omap_mbox_init (err : Z) (mboxd : bool) : M (mbx D) Z :=
  if negb (err =? 0) then ret err else
  if negb mboxd then ret (- ENOMEM) else
  size ← gets (fun s => mb_kfifo_size s);
  modify (set_mb_kfifo_size (Z.land (u32 (size + (sizeof_msg - 1))) (u32 (Z.lnot (sizeof_msg - 1)))));;
  size ← gets (fun s => mb_kfifo_size s);
  modify (set_mb_kfifo_size (Z.max size sizeof_msg));;
  ret 0.
End Driver.
