(* ===== verification/MailboxSpec.v ===== *)
(** * What a mailbox is for its users

    A specification of the mailbox driver: [abox], a mailbox as lists of messages, and what an
    operation does to it, depending on what the hardware answers.  [MboxDevice] is what the
    driver relies on of the device below it; [holds] relates the state of the driver to the
    specification.  MailboxRefine.v shows that the driver implements it, MailboxDevice.v that
    the hardware driver is such a device. *)

From S2P Require Import Prelude Bytes Kfifo KfifoRing KfifoRefine Mailbox.

(** ** The device *)

(** What went through the two hardware FIFOs of a mailbox, which of its interrupts are enabled,
    what the status of the FIFOs was when it was last looked at (the one for sending full, the one
    for receiving empty), and the interrupts that were acknowledged. *)
Record fifo_view := mkView {
  fv_sent : list Z;
  fv_got : list Z;
  fv_tx : bool;
  fv_rx : bool;
  fv_full : bool;
  fv_empty : bool;
  fv_acked : list mbox_irq
}.

Definition fv_armed (irq : mbox_irq) (v : fifo_view) : bool :=
  match irq with IRQ_TX => fv_tx v | IRQ_RX => fv_rx v end.

Definition push_sent (m : Z) (v : fifo_view) : fifo_view :=
  mkView (fv_sent v ++ [m]) (fv_got v) (fv_tx v) (fv_rx v) (fv_full v) (fv_empty v) (fv_acked v).
Definition push_got (m : Z) (v : fifo_view) : fifo_view :=
  mkView (fv_sent v) (fv_got v ++ [m]) (fv_tx v) (fv_rx v) (fv_full v) (fv_empty v) (fv_acked v).
Definition arm (irq : mbox_irq) (b : bool) (v : fifo_view) : fifo_view :=
  match irq with
  | IRQ_TX => mkView (fv_sent v) (fv_got v) b (fv_rx v) (fv_full v) (fv_empty v) (fv_acked v)
  | IRQ_RX => mkView (fv_sent v) (fv_got v) (fv_tx v) b (fv_full v) (fv_empty v) (fv_acked v)
  end.
Definition saw_full (b : bool) (v : fifo_view) : fifo_view :=
  mkView (fv_sent v) (fv_got v) (fv_tx v) (fv_rx v) b (fv_empty v) (fv_acked v).
Definition saw_empty (b : bool) (v : fifo_view) : fifo_view :=
  mkView (fv_sent v) (fv_got v) (fv_tx v) (fv_rx v) (fv_full v) b (fv_acked v).
Definition push_ack (irq : mbox_irq) (v : fifo_view) : fifo_view :=
  mkView (fv_sent v) (fv_got v) (fv_tx v) (fv_rx v) (fv_full v) (fv_empty v) (fv_acked v ++ [irq]).

(** [pending p irq d]: the hardware asks for the interrupt, whether it is enabled or not. *)
Class MboxView (D : Type) := {
  dev_ok : string -> D -> Prop;
  view : string -> D -> fifo_view;
  pending : string -> mbox_irq -> D -> bool
}.

(** The device went from [d] to [d']: [g] happened to the mailbox [p], nothing to the others. *)
Definition effect `{MboxView D} (p : string) (g : fifo_view -> fifo_view) (d d' : D) : Prop :=
  forall q, dev_ok q d -> dev_ok q d' /\ view q d' = if decide (q = p) then g (view q d) else view q d.

(** What the driver relies on: an answer other than 0 of [fifo_full], [fifo_empty] and [is_irq]
    means yes, and an interrupt is one that is enabled and pending. *)
Class MboxDevice {D} `{MboxView D} (ops : omap_mbox_ops D) (udelay : Z -> M D unit) : Prop := {
  law_delay p us d : dev_ok p d -> wp (udelay us) (fun _ => effect p id d) d;
  law_full p d : dev_ok p d ->
    wp (op_fifo_full ops p) (fun r d' => effect p (saw_full (negb (r =? 0))) d d') d;
  law_empty p d : dev_ok p d ->
    wp (op_fifo_empty ops p) (fun r d' => effect p (saw_empty (negb (r =? 0))) d d') d;
  law_is_irq p irq d : dev_ok p d -> wp (op_is_irq ops p irq) (fun r d' =>
    negb (r =? 0) = fv_armed irq (view p d) && pending p irq d /\ effect p id d d') d;
  law_ack ack p irq d : op_ack_irq ops = Some ack -> dev_ok p d ->
    wp (ack p irq) (fun _ => effect p (push_ack irq) d) d;
  law_read p d : dev_ok p d ->
    wp (op_fifo_read ops p) (fun v d' => uint 32 v /\ effect p (push_got v) d d') d;
  law_write p m d : dev_ok p d -> wp (op_fifo_write ops p m) (fun _ => effect p (push_sent m) d) d;
  law_enable p irq d : dev_ok p d -> wp (op_enable_irq ops p irq) (fun _ => effect p (arm irq true) d) d;
  law_disable p irq d : dev_ok p d -> wp (op_disable_irq ops p irq) (fun _ => effect p (arm irq false) d) d
}.

(** ** A mailbox *)

(** [a_priv] is the name of its device. *)
Record abox := mkAbox {
  a_priv : string;
  a_view : fifo_view;
  a_txq : list Z;
  a_rxq : list Z;
  a_tasklet : bool;
  a_work : bool;
  a_full : bool;
  a_delivered : list Z
}.

Definition set_a_view (v : fifo_view) (a : abox) : abox :=
  mkAbox (a_priv a) v (a_txq a) (a_rxq a) (a_tasklet a) (a_work a) (a_full a) (a_delivered a).
Definition set_a_tasklet (b : bool) (a : abox) : abox :=
  mkAbox (a_priv a) (a_view a) (a_txq a) (a_rxq a) b (a_work a) (a_full a) (a_delivered a).
Definition set_a_work (b : bool) (a : abox) : abox :=
  mkAbox (a_priv a) (a_view a) (a_txq a) (a_rxq a) (a_tasklet a) b (a_full a) (a_delivered a).
Definition set_a_full (b : bool) (a : abox) : abox :=
  mkAbox (a_priv a) (a_view a) (a_txq a) (a_rxq a) (a_tasklet a) (a_work a) b (a_delivered a).
Definition a_notify (m : Z) (a : abox) : abox :=
  mkAbox (a_priv a) (a_view a) (a_txq a) (a_rxq a) (a_tasklet a) (a_work a) (a_full a) (a_delivered a ++ [m]).
Definition a_queue (q : mbox_irq) (a : abox) : list Z :=
  match q with IRQ_TX => a_txq a | IRQ_RX => a_rxq a end.
Definition set_a_queue (q : mbox_irq) (l : list Z) (a : abox) : abox :=
  match q with
  | IRQ_TX => mkAbox (a_priv a) (a_view a) l (a_rxq a) (a_tasklet a) (a_work a) (a_full a) (a_delivered a)
  | IRQ_RX => mkAbox (a_priv a) (a_view a) (a_txq a) l (a_tasklet a) (a_work a) (a_full a) (a_delivered a)
  end.

(** What an operation does to a mailbox whose queues hold [c] messages; what it does depends on
    what the hardware answers, and on nothing else. *)
Section Spec.
Context {D : Type} `{V : MboxView D} (ops : omap_mbox_ops D).
Variable c : Z.

(** [omap_mbox_msg_send] with its result.  A message is written to the hardware if none waits
    and the hardware has space, and waits in the queue otherwise. *)
Inductive send_spec (m : Z) (a : abox) : Z -> abox -> Prop :=
| send_nomem : len (a_txq a) = c -> send_spec m a (- ENOMEM) a
| send_direct : a_txq a = [] -> send_spec m a 0 (set_a_view (push_sent m (saw_full false (a_view a))) a)
| send_full : a_txq a = [] -> send_spec m a 0
    (set_a_tasklet true (set_a_queue IRQ_TX [m] (set_a_view (saw_full true (a_view a)) a)))
| send_queued : a_txq a <> [] -> len (a_txq a) < c ->
    send_spec m a 0 (set_a_tasklet true (set_a_queue IRQ_TX (a_txq a ++ [m]) a)).

(** The tasklet moves messages as long as there are any and the hardware has space; without
    space it enables the interrupt that tells of it. *)
Inductive tasklet_spec : abox -> abox -> Prop :=
| tasklet_empty a : a_txq a = [] -> tasklet_spec a a
| tasklet_wait a m l : a_txq a = m :: l ->
    tasklet_spec a (set_a_view (arm IRQ_TX true (saw_full true (a_view a))) a)
| tasklet_move a m l a' : a_txq a = m :: l ->
    tasklet_spec (set_a_view (push_sent m (saw_full false (a_view a))) (set_a_queue IRQ_TX l a)) a' ->
    tasklet_spec a a'.

(** The acknowledgement, if the device has one. *)
Definition acked (irq : mbox_irq) (a : abox) : abox :=
  match op_ack_irq ops with Some _ => set_a_view (push_ack irq (a_view a)) a | None => a end.

Definition tx_irq_spec (a : abox) : abox :=
  set_a_tasklet true (acked IRQ_TX (set_a_view (arm IRQ_TX false (a_view a)) a)).

(** A message that is taken from the hardware. *)
Definition rx_taken (m : Z) (a : abox) : abox :=
  set_a_queue IRQ_RX (a_rxq a ++ [m]) (set_a_view (push_got m (saw_empty false (a_view a))) a).

(** The interrupt handler takes messages until the hardware has no more or the queue no space, in
    which case it disables the interrupt; from a device of type 1 it takes one. *)
Inductive rx_loop_spec : abox -> abox -> Prop :=
| rx_loop_end a : rx_loop_spec a (set_a_view (saw_empty true (a_view a)) a)
| rx_loop_full a : len (a_rxq a) = c ->
    rx_loop_spec a (set_a_full true (set_a_view (arm IRQ_RX false (saw_empty false (a_view a))) a))
| rx_loop_one a m : uint 32 m -> len (a_rxq a) < c -> op_type ops = OMAP_MBOX_TYPE1 ->
    rx_loop_spec a (rx_taken m a)
| rx_loop_take a m a' : uint 32 m -> len (a_rxq a) < c -> op_type ops <> OMAP_MBOX_TYPE1 ->
    rx_loop_spec (rx_taken m a) a' -> rx_loop_spec a a'.

Definition rx_irq_spec (a a' : abox) : Prop :=
  exists a1, rx_loop_spec a a1 /\ a' = set_a_work true (acked IRQ_RX a1).

Inductive take_spec (a : abox) : option Z -> abox -> Prop :=
| take_none : a_rxq a = [] -> take_spec a None a
| take_some m l : a_rxq a = m :: l -> take_spec a (Some m) (set_a_queue IRQ_RX l a).

(** After a message has been handed over: if the interrupt handler had found no space, the next
    message, if there is one, is taken from the hardware, and dropped if there still is no space. *)
Inductive refill_spec (a : abox) : abox -> Prop :=
| refill_no : a_full a = false -> refill_spec a a
| refill_empty : a_full a = true ->
    refill_spec a (set_a_full false (set_a_view (arm IRQ_RX true (saw_empty true (a_view a))) a))
| refill_msg m : a_full a = true -> uint 32 m -> refill_spec a
    (set_a_full false (set_a_view (arm IRQ_RX true (push_got m (saw_empty false (a_view a))))
      (set_a_queue IRQ_RX (if len (a_rxq a) <? c then a_rxq a ++ [m] else a_rxq a) a))).

(** An interrupt that is enabled and pending is handled. *)
Definition irq_taken (irq : mbox_irq) (a : abox) (d : D) : bool :=
  fv_armed irq (a_view a) && pending (a_priv a) irq d.

(** What the handler does to one mailbox, with the device in the state [d] before and [d'] after:
    it asks for the transmit interrupt in the state [d], and for the receive interrupt after
    that was handled, in the state [d1]. *)
Definition irq_spec (a : abox) (d : D) (a' : abox) (d' : D) : Prop := exists a1 d1,
  a1 = (if irq_taken IRQ_TX a d then tx_irq_spec a else a) /\
  dev_ok (a_priv a) d1 /\ view (a_priv a) d1 = a_view a1 /\
  (if irq_taken IRQ_RX a1 d1 then rx_irq_spec a1 a' else a' = a1) /\
  dev_ok (a_priv a) d' /\ view (a_priv a) d' = a_view a'.

(** The handler looks at each mailbox of the list, in order; [None] is one that is not open, to
    which nothing happens. *)
Inductive irqs_spec : list string -> gmap string abox -> D -> gmap string abox -> D -> Prop :=
| irqs_nil A d : irqs_spec [] A d A d
| irqs_closed n l A d d1 A' d' : A !! n = None ->
    (forall q, dev_ok q d -> dev_ok q d1 /\ view q d1 = view q d) ->
    irqs_spec l A d1 A' d' -> irqs_spec (n :: l) A d A' d'
| irqs_open n l A d a a1 d1 A' d' : A !! n = Some a -> irq_spec a d a1 d1 ->
    irqs_spec l (<[n := a1]> A) d1 A' d' -> irqs_spec (n :: l) A d A' d'.
End Spec.

(** ** The driver and the specification *)

(** The messages of a FIFO of [4 * c] bytes. *)
Record msgs_in (c : Z) (f : kfifo) (l : list Z) : Prop := {
  mi_ok : fifo_ok f;
  mi_esize : kf_esize f = 1;
  mi_cap : fifo_cap f = 4 * c;
  mi_bytes : fifo_bytes f = concat (msg_bytes <$> l);
  mi_range : Forall (uint 32) l
}.

Record box_holds `{MboxView D} (c : Z) (b : omap_mbox) (d : D) (a : abox) : Prop := {
  bh_queue q : exists x, queue_of q b = Some x /\ mq_freed x = false /\ msgs_in c (mq_fifo x) (a_queue q a);
  bh_tasklet : mq_tasklet <$> mx_txq b = Some (a_tasklet a);
  bh_work : mq_work <$> mx_rxq b = Some (a_work a);
  bh_full : mq_full <$> mx_rxq b = Some (a_full a);
  bh_delivered : mx_delivered b = a_delivered a;
  bh_priv : mx_priv b = a_priv a;
  bh_dev : dev_ok (mx_priv b) d;
  bh_view : view (mx_priv b) d = a_view a
}.

(** A mailbox that nobody has opened; none of its interrupts is enabled. *)
Definition closed `{MboxView D} (b : omap_mbox) (d : D) : Prop :=
  dev_ok (mx_priv b) d /\ forall irq, fv_armed irq (view (mx_priv b) d) = false.

(** The mailboxes of [A] are open and are as [A] says; all have devices of their own; those of
    the list [mboxes], [ns], that are not open are closed. *)
Record holds `{MboxView D} (c : Z) (ns : list string) (A : gmap string abox) (s : mbx D) : Prop := {
  h_box n a : A !! n = Some a -> exists b, mb_boxes s !! n = Some b /\ box_holds c b (mb_dev s) a;
  h_inj n m b b' : mb_boxes s !! n = Some b -> mb_boxes s !! m = Some b' -> mx_priv b = mx_priv b' -> n = m;
  h_list : mb_list s = Some ns;
  h_closed : Forall (fun n => is_Some (A !! n) \/ exists b, mb_boxes s !! n = Some b /\ closed b (mb_dev s)) ns
}.
