(* ===== verification/MailboxRefine.v ===== *)
(** * The mailbox driver implements its specification

    Every operation of Mailbox.v does to a mailbox what MailboxSpec.v allows, and nothing to the
    other mailboxes; the loops end within the fuel given. *)

From S2P Require Import Prelude Bytes Kfifo KfifoRing KfifoRefine Mailbox MailboxSpec.

(** ** Messages in a FIFO *)

Lemma concat_len (l : list Z) : len (concat (msg_bytes <$> l)) = 4 * len l.
Proof. unfold len. induction l as [|m l IH]; [done|]. cbn [fmap list_fmap concat]. rewrite length_app. cbn [length msg_bytes]. lia. Qed.

Section Msgs.
Context (c : Z) (f : kfifo) (l : list Z).
Hypothesis H : msgs_in c f l.

Lemma msgs_len : kfifo_len f = 4 * len l /\ 0 <= len l <= c /\ 1 <= c <= 2 ^ 29.
Proof.
  pose proof (bytes_len f (mi_ok _ _ _ H)) as E. rewrite (mi_bytes _ _ _ H), (mi_esize _ _ _ H), concat_len in E.
  destruct (len_cap f (mi_ok _ _ _ H)) as [H1 H2]. rewrite (mi_cap _ _ _ H) in H1, H2.
  assert (0 <= len l) by (unfold len; lia). lia.
Qed.

Lemma msgs_avail : kfifo_avail 0 f = 4 * (c - len l).
Proof.
  unfold kfifo_avail, kfifo_size. cbn [Z.eqb]. destruct msgs_len as (-> & H1 & H2).
  pose proof (mi_cap _ _ _ H) as Hc. unfold fifo_cap in Hc. rewrite Hc.
  rewrite (wrapu_small 32 (4 * c)) by (split; lia). rewrite (wrapu_small 32) by (split; lia). lia.
Qed.

Lemma msgs_empty : kfifo_is_empty f = bool_decide (l = []).
Proof.
  destruct msgs_len as (E & _). destruct (mi_ok _ _ _ H) as (k & d & I).
  unfold kfifo_is_empty, kfifo_len in *. pose proof (fi_in _ _ _ I) as [? ?]. pose proof (fi_out _ _ _ I) as [? ?].
  destruct (Z.eqb_spec (kf_in f) (kf_out f)) as [Ei|Hne]; symmetry.
  - rewrite Ei, Z.sub_diag in E. change (u32 0) with 0 in E. apply bool_decide_eq_true_2.
    destruct l; [done|]. unfold len in E. cbn in E. lia.
  - apply bool_decide_eq_false_2. intros ->. change (4 * len []) with 0 in E. unfold wrapu in E.
    apply Z.mod_divide in E; [|lia]. destruct E as [z Hz]. assert (z = 0) by nia. lia.
Qed.

Lemma msgs_put m : uint 32 m ->
  wp (kfifo_in 0 (msg_bytes m) sizeof_msg) (fun _ f' => msgs_in c f' (if len l <? c then l ++ [m] else l)) f.
Proof.
  intros Hm. destruct msgs_len as (E & H1 & H2). unfold kfifo_in. cbn [Z.eqb].
  eapply wp_mono; [apply kfifo_in_wp; [apply H | done |]|].
  { rewrite (mi_esize _ _ _ H). done. }
  intros r f' (Hf & [Sm Se] & Er & _ & Eb). unfold sizeof_msg in *. rewrite (mi_cap _ _ _ H), E in Er.
  rewrite (mi_bytes _ _ _ H), (mi_esize _ _ _ H) in Eb.
  assert (msgs_in c f' l -> msgs_in c f' l) as _ by done.
  split; [done | by rewrite Se, (mi_esize _ _ _ H) | unfold fifo_cap in *; rewrite Sm; apply H | |].
  - rewrite Eb. destruct (Z.ltb_spec (len l) c).
    + replace r with 4 by lia. rewrite fmap_app, concat_app. cbn [fmap list_fmap concat]. by rewrite app_nil_r.
    + replace r with 0 by lia. by rewrite app_nil_r.
  - pose proof (mi_range _ _ _ H). destruct (len l <? c); [|done]. apply Forall_app. split; [done | by constructor].
Qed.

Lemma msgs_get m l' : l = m :: l' ->
  wp (kfifo_out 0 sizeof_msg) (fun r f' => r.2 = msg_bytes m /\ uint 32 m /\ msgs_in c f' l') f.
Proof.
  intros El. destruct msgs_len as (E & H1 & H2). unfold kfifo_out. cbn [Z.eqb].
  eapply wp_mono; [apply kfifo_out_wp; [apply H | done]|].
  intros [r bs] f' (Hf & [Sm Se] & Er & _ & E1 & E2). cbn [fst snd] in *. unfold sizeof_msg in *.
  pose proof (mi_bytes _ _ _ H) as Hb. pose proof (mi_range _ _ _ H) as Hr. rewrite El in Hb, Hr, E.
  apply Forall_cons in Hr as [Hm Hr]. assert (r = 4) as -> by (unfold len in *; cbn [length] in *; lia).
  rewrite (mi_esize _ _ _ H), Hb in E1, E2. split; [exact E1|]. split; [done|].
  split; [done | by rewrite Se, (mi_esize _ _ _ H) | unfold fifo_cap in *; rewrite Sm; apply H | exact E2 | done].
Qed.
End Msgs.

Lemma msg_of_wp {S} m Q (s : S) : uint 32 m -> Q m s -> wp (msg_of (msg_bytes m)) Q s.
Proof. intros Hm HQ. unfold msg_of, msg_bytes. rewrite word_of_bytes by done. by wp_pure. Qed.

(** ** The primitives of the driver *)

Section Refine.
Context {D : Type} `{V : MboxView D} (ops : omap_mbox_ops D) (udelay : Z -> M D unit).
Context `{L : !MboxDevice ops udelay}.
Variables (c : Z) (ns : list string).
Implicit Types (A : gmap string abox) (a : abox) (s : mbx D) (n : string).

Lemma set_a_queue_same q a : set_a_queue q (a_queue q a) a = a.
Proof. by destruct q, a. Qed.

Lemma set_a_view_same a : set_a_view (a_view a) a = a.
Proof. by destruct a. Qed.

Lemma set_queue_priv q x b : mx_priv (set_queue q x b) = mx_priv b.
Proof. by destruct q. Qed.

Lemma get_box_wp A s n a Q : holds c ns A s -> A !! n = Some a ->
  (forall b, mb_boxes s !! n = Some b -> box_holds c b (mb_dev s) a -> Q b s) -> wp (get_box n) Q s.
Proof.
  intros H Ha HQ. destruct (h_box _ _ _ _ H n a Ha) as (b & Hb & Hh). unfold get_box. wp_pure.
  rewrite Hb. by apply (wp_deref _ b); [|apply HQ].
Qed.

Lemma holds_set A s n b b' a' : holds c ns A s -> mb_boxes s !! n = Some b -> mx_priv b' = mx_priv b ->
  box_holds c b' (mb_dev s) a' -> holds c ns (<[n := a']> A) (set_mb_boxes (<[n := b']> (mb_boxes s)) s).
Proof.
  intros H Hb Hp Hh. split.
  - intros m a Ha. change (mb_boxes (set_mb_boxes ?x s)) with x. change (mb_dev (set_mb_boxes ?x s)) with (mb_dev s).
    destruct (decide (n = m)) as [<-|Hne].
    + rewrite lookup_insert_eq in Ha. rewrite lookup_insert_eq. exists b'. split; [done|]. by apply (inj Some) in Ha as <-.
    + rewrite lookup_insert_ne in Ha by done. rewrite lookup_insert_ne by done. by apply (h_box _ _ _ _ H).
  - assert (forall m x, mb_boxes (set_mb_boxes (<[n := b']> (mb_boxes s)) s) !! m = Some x ->
      exists y, mb_boxes s !! m = Some y /\ mx_priv y = mx_priv x) as Hx.
    { intros m x. change (mb_boxes (set_mb_boxes ?x s)) with x. destruct (decide (n = m)) as [<-|Hne].
      - rewrite lookup_insert_eq. intros [= <-]. by exists b.
      - rewrite lookup_insert_ne by done. intros Hm. by exists x. }
    intros m m' x x' Hm Hm' E. apply Hx in Hm as (y & Hy & Ey), Hm' as (y' & Hy' & Ey').
    apply (h_inj _ _ _ _ H m m' y y'); congruence.
  - apply H.
  - eapply Forall_impl; [exact (h_closed _ _ _ _ H)|].
    change (mb_boxes (set_mb_boxes ?x s)) with x. intros m Hm. destruct (decide (n = m)) as [<-|Hne].
    + left. rewrite lookup_insert_eq. by eexists.
    + by rewrite !lookup_insert_ne by done.
Qed.

Lemma upd_box_wp A s n a a' (g : omap_mbox -> omap_mbox) : holds c ns A s -> A !! n = Some a ->
  (forall b, mx_priv (g b) = mx_priv b) ->
  (forall b d, box_holds c b d a -> box_holds c (g b) d a') ->
  wp (upd_box n g) (fun _ s' => holds c ns (<[n := a']> A) s') s.
Proof.
  intros H Ha Hp Hg. unfold upd_box, set_box. apply wp_bind. apply (get_box_wp A s n a); [done..|].
  intros b Hb Hh. wp_pure. apply (holds_set A s n b); [done..|]. by apply Hg.
Qed.

Lemma holds_closed_dev A s n a b g d' (f : abox -> abox) : holds c ns A s -> A !! n = Some a -> mb_boxes s !! n = Some b ->
  effect (mx_priv b) g (mb_dev s) d' ->
  Forall (fun m => is_Some (<[n := f a]> A !! m) \/ exists b, mb_boxes s !! m = Some b /\ closed b d') ns.
Proof.
  intros H Ha Hb He. eapply Forall_impl; [exact (h_closed _ _ _ _ H)|]. intros m Hm. destruct (decide (n = m)) as [<-|Hne].
  { left. rewrite lookup_insert_eq. by eexists. }
  rewrite lookup_insert_ne by done. destruct Hm as [Hm|(b' & Hb' & Ho & Hc)]; [by left|]. right. exists b'.
  split; [done|]. destruct (He (mx_priv b') Ho) as [Ho' Ev].
  rewrite decide_False in Ev by (intros E; apply Hne; symmetry; by apply (h_inj _ _ _ _ H m n b' b)).
  split; [done|]. by rewrite Ev.
Qed.

Lemma holds_dev A s n a b g d' : holds c ns A s -> A !! n = Some a -> mb_boxes s !! n = Some b ->
  effect (mx_priv b) g (mb_dev s) d' ->
  holds c ns (<[n := set_a_view (g (a_view a)) a]> A) (set_mb_dev d' s).
Proof.
  intros H Ha Hb He. split; [|apply H|apply H|by apply (holds_closed_dev A s n a b g)]. intros m x Hx.
  change (mb_boxes (set_mb_dev d' s)) with (mb_boxes s). change (mb_dev (set_mb_dev d' s)) with d'.
  destruct (decide (n = m)) as [<-|Hne].
  - rewrite lookup_insert_eq in Hx. apply (inj Some) in Hx as <-. exists b. split; [done|].
    destruct (h_box _ _ _ _ H n a Ha) as (b' & Hb' & Hh). assert (b' = b) as -> by congruence.
    destruct (He (mx_priv b) (bh_dev _ _ _ _ Hh)) as [Ho Ev]. rewrite decide_True in Ev by done.
    split; try apply Hh; [done|]. rewrite Ev, (bh_view _ _ _ _ Hh). done.
  - rewrite lookup_insert_ne in Hx by done. destruct (h_box _ _ _ _ H m x Hx) as (b' & Hb' & Hh).
    exists b'. split; [done|]. destruct (He (mx_priv b') (bh_dev _ _ _ _ Hh)) as [Ho Ev].
    rewrite decide_False in Ev by (intros E; apply Hne; symmetry; by apply (h_inj _ _ _ _ H m n b' b)).
    split; try apply Hh; [done|]. rewrite Ev. apply Hh.
Qed.

(** An operation of the device. *)
Lemma dev_wp {X} (m : string -> M D X) (g : X -> fifo_view -> fifo_view) (P : X -> Prop) A s n a :
  holds c ns A s -> A !! n = Some a ->
  (forall p d, dev_ok p d -> wp (m p) (fun r d' => P r /\ effect p (g r) d d') d) ->
  wp (b ← get_box n; in_dev (m (mx_priv b)))
    (fun r s' => P r /\ holds c ns (<[n := set_a_view (g r (a_view a)) a]> A) s') s.
Proof.
  intros H Ha Hm. apply wp_bind. apply (get_box_wp A s n a); [done..|]. intros b Hb Hh.
  pose proof (Hm (mx_priv b) (mb_dev s) (bh_dev _ _ _ _ Hh)) as W. unfold wp, in_dev in *.
  destruct (m (mx_priv b) (mb_dev s)) as [r d'|]; [|done]. destruct W as [HP He]. split; [done|].
  by apply (holds_dev A s n a b).
Qed.

(** Changing a queue. *)
Lemma upd_queue_wp A s n a a' q g : holds c ns A s -> A !! n = Some a ->
  (forall b d x, box_holds c b d a -> queue_of q b = Some x -> mq_freed x = false ->
    box_holds c (set_queue q (Some (g x)) b) d a') ->
  wp (upd_queue q n g) (fun _ s' => holds c ns (<[n := a']> A) s') s.
Proof.
  intros H Ha Hg. unfold upd_queue, get_queue, upd_box, set_box. apply wp_bind. apply wp_bind.
  apply (get_box_wp A s n a); [done..|]. intros b Hb Hh. destruct (bh_queue _ _ _ _ Hh q) as (x & Hx & Hfr & _).
  apply wp_bind, (wp_deref _ x); [done|]. rewrite Hfr. wp_pure. unfold get_box. wp_pure. rewrite Hb.
  apply (wp_deref _ b); [done|]. wp_pure. apply (holds_set A s n b); [done.. | apply set_queue_priv | by apply Hg].
Qed.

Lemma set_fifo_holds q l b d x f a : box_holds c b d a -> queue_of q b = Some x -> mq_freed x = false -> msgs_in c f l ->
  box_holds c (set_queue q (Some (set_mq_fifo f x)) b) d (set_a_queue q l a).
Proof.
  intros Hh Hx Hfr Hf. pose proof Hh as [Hq Ht Hw Hfu Hd Hp Ho Hv]. split; try (by destruct q).
  - intros q'. destruct (decide (q' = q)) as [->|Hne].
    + exists (set_mq_fifo f x). by destruct q.
    + destruct (Hq q') as (y & Hy & Hm). exists y. by destruct q, q'.
  - destruct q; cbn in *; by rewrite ?Hx in *.
  - destruct q; cbn in *; by rewrite ?Hx in *.
  - destruct q; cbn in *; by rewrite ?Hx in *.
Qed.

(** A call on a FIFO. *)
Lemma in_fifo_wp {X} (m : M kfifo X) (Q : X -> list Z -> Prop) A s n a q : holds c ns A s -> A !! n = Some a ->
  (forall f, msgs_in c f (a_queue q a) -> wp m (fun r f' => exists l, Q r l /\ msgs_in c f' l) f) ->
  wp (in_fifo q n m) (fun r s' => exists l, Q r l /\ holds c ns (<[n := set_a_queue q l a]> A) s') s.
Proof.
  intros H Ha Hm. unfold in_fifo, get_queue. apply wp_bind. apply wp_bind.
  apply (get_box_wp A s n a); [done..|]. intros b Hb Hh. destruct (bh_queue _ _ _ _ Hh q) as (x & Hx & Hfr & Hf).
  apply wp_bind, (wp_deref _ x); [done|]. rewrite Hfr. wp_pure. destruct (wp_run _ _ _ (Hm _ Hf)) as (r & f' & E & l & HQ & Hf').
  cbv beta. rewrite E. apply wp_bind. eapply wp_mono.
  - apply (upd_queue_wp A s n a (set_a_queue q l a)); [done..|]. intros b' d' x' Hh' Hx' Hfr'. by apply set_fifo_holds.
  - cbv beta. intros [] s' Hs'. wp_pure. by exists l.
Qed.

Lemma gets_fifo_wp {X} (g : kfifo -> X) v A s n a q : holds c ns A s -> A !! n = Some a ->
  (forall f, msgs_in c f (a_queue q a) -> g f = v) ->
  wp (in_fifo q n (gets g)) (fun r s' => r = v /\ holds c ns A s') s.
Proof.
  intros H Ha Hg. eapply wp_mono.
  - apply (in_fifo_wp (gets g) (fun r l => r = v /\ l = a_queue q a) A s n a); [done..|]. intros f Hf. wp_pure.
    exists (a_queue q a). by rewrite (Hg f Hf).
  - intros r s' (l & (Hr & ->) & Hs'). by rewrite set_a_queue_same, insert_id in Hs' by done.
Qed.

Lemma put_wp A s n a q m : holds c ns A s -> A !! n = Some a -> uint 32 m ->
  wp (in_fifo q n (kfifo_in 0 (msg_bytes m) sizeof_msg)) (fun _ s' =>
    holds c ns (<[n := set_a_queue q (if len (a_queue q a) <? c then a_queue q a ++ [m] else a_queue q a) a]> A) s') s.
Proof.
  intros H Ha Hm. eapply wp_mono.
  - apply (in_fifo_wp _ (fun _ l => l = if len (a_queue q a) <? c then a_queue q a ++ [m] else a_queue q a)
      A s n a); [done..|]. intros f Hf. eapply wp_mono; [by apply msgs_put|]. cbv beta. intros ? f' Hf'. by eexists.
  - by intros r s' (l & -> & Hs').
Qed.

Lemma get_wp {X} A s n a q m l (k : Z -> M (mbx D) X) Q : holds c ns A s -> A !! n = Some a -> a_queue q a = m :: l ->
  (forall s', uint 32 m -> holds c ns (<[n := set_a_queue q l a]> A) s' -> wp (k m) Q s') ->
  wp ('(_, bs) ← in_fifo q n (kfifo_out 0 sizeof_msg); msg ← msg_of bs; k msg) Q s.
Proof.
  intros H Ha Hq HQ. apply wp_bind. eapply wp_mono.
  - apply (in_fifo_wp _ (fun r l' => r.2 = msg_bytes m /\ uint 32 m /\ l' = l) A s n a); [done..|]. intros f Hf.
    eapply wp_mono; [by apply (msgs_get c f _ Hf m l)|]. intros r f' (E & Hm & Hf'). by exists l.
  - intros [r bs] s' (l' & (E & Hm & ->) & Hs'). cbn [snd] in E. rewrite E. apply wp_bind.
    apply msg_of_wp; [done|]. by apply HQ.
Qed.

(** ** Sending *)

Lemma full_wp A s n a : holds c ns A s -> A !! n = Some a ->
  wp (mbox_fifo_full ops n) (fun r s' =>
    holds c ns (<[n := set_a_view (saw_full (negb (r =? 0)) (a_view a)) a]> A) s') s.
Proof.
  intros H Ha. eapply wp_mono.
  - apply (dev_wp (op_fifo_full ops) (fun r => saw_full (negb (r =? 0))) (fun _ => True) A s n a); [done..|].
    intros p d Hd. eapply wp_mono; [by apply law_full|]. done.
  - by intros r s' [_ H'].
Qed.

Lemma delay_wp A s n a us : holds c ns A s -> A !! n = Some a -> wp (in_dev (udelay us)) (fun _ s' => holds c ns A s') s.
Proof.
  intros H Ha. destruct (h_box _ _ _ _ H n a Ha) as (b & Hb & Hh).
  pose proof (law_delay (mx_priv b) us (mb_dev s) (bh_dev _ _ _ _ Hh)) as W. unfold wp, in_dev in *.
  destruct (udelay us (mb_dev s)) as [u d'|]; [|done].
  pose proof (holds_dev A s n a b id d' H Ha Hb W) as Hd. cbn [id] in Hd.
  by rewrite set_a_view_same, insert_id in Hd.
Qed.

Lemma poll_loop_S i n : poll_loop ops udelay (S i) n =
  (full ← mbox_fifo_full ops n;
   if negb (full =? 0) then
     if decide (op_type ops = OMAP_MBOX_TYPE2) then ret (-1)
     else if (i =? 0)%nat then ret (-1) else in_dev (udelay 1);; poll_loop ops udelay i n
   else ret 0).
Proof. done. Qed.

(** The last answer counts. *)
Lemma poll_wp A s n a : holds c ns A s -> A !! n = Some a ->
  wp (__mbox_poll_for_space ops udelay n) (fun r s' =>
    holds c ns (<[n := set_a_view (saw_full (negb (r =? 0)) (a_view a)) a]> A) s') s.
Proof.
  unfold __mbox_poll_for_space. change 1000%nat with (S 999). generalize 999%nat as i. intros i. revert A s a.
  induction i as [|i IH]; intros A s a H Ha; rewrite poll_loop_S; apply wp_bind;
    (eapply wp_mono; [by apply (full_wp A s n a)|]); intros full s1 H1; cbv beta in H1;
    (destruct (negb (full =? 0)); [|wp_pure; exact H1]); (destruct (decide _); [wp_pure; exact H1|]);
    [wp_pure; exact H1|].
  change (S i =? 0)%nat with false. wp_pure.
  eapply wp_mono; [eapply (delay_wp _ s1 n _ 1 H1), lookup_insert_eq|]. intros u s2 H2.
  eapply wp_mono; [eapply (IH _ s2); [exact H2 | apply lookup_insert_eq]|].
  intros r s3 H3. cbv beta in H3. by rewrite insert_insert_eq in H3.
Qed.

Lemma set_tasklet_holds v b d x a : box_holds c b d a -> queue_of IRQ_TX b = Some x ->
  box_holds c (set_queue IRQ_TX (Some (set_mq_tasklet v x)) b) d (set_a_tasklet v a).
Proof.
  intros [Hq Ht Hw Hf Hd Hp Ho Hv] Hx. split; try done. intros q. destruct (Hq q) as (y & Hy & Hfr & Hm). destruct q.
  - exists (set_mq_tasklet v x). split; [done|]. by assert (y = x) as -> by congruence.
  - by exists y.
Qed.

Lemma set_rx_holds (g : omap_mbox_queue -> omap_mbox_queue) a' b d x a :
  (mq_fifo (g x) = mq_fifo x /\ mq_freed (g x) = mq_freed x /\ mq_work (g x) = a_work a' /\ mq_full (g x) = a_full a') ->
  (a_priv a' = a_priv a /\ a_view a' = a_view a /\ a_txq a' = a_txq a /\ a_rxq a' = a_rxq a /\ a_tasklet a' = a_tasklet a /\
    a_delivered a' = a_delivered a) ->
  box_holds c b d a -> queue_of IRQ_RX b = Some x -> box_holds c (set_queue IRQ_RX (Some (g x)) b) d a'.
Proof.
  intros (E1 & E0 & E2 & E3) (E & E4 & E5 & E6 & E7 & E8) [Hq Ht Hw Hf Hd Hp Ho Hv] Hx.
  split; try (cbn in *; congruence). intros q. destruct (Hq q) as (y & Hy & Hfr & Hm). destruct q; cbn [a_queue] in *.
  - exists y. by rewrite E5.
  - exists (g x). split; [done|]. rewrite E6, E1, E0. by assert (x = y) as -> by congruence.
Qed.

Lemma schedule_wp A s n a : holds c ns A s -> A !! n = Some a ->
  wp (tasklet_schedule n) (fun _ s' => holds c ns (<[n := set_a_tasklet true a]> A) s') s.
Proof.
  intros H Ha. apply (upd_queue_wp A s n a); [done..|]. intros b d x Hh Hx _. by apply set_tasklet_holds.
Qed.

Lemma write_wp A s n a m : holds c ns A s -> A !! n = Some a ->
  wp (mbox_fifo_write ops n m) (fun _ s' => holds c ns (<[n := set_a_view (push_sent m (a_view a)) a]> A) s') s.
Proof.
  intros H Ha. eapply wp_mono.
  - apply (dev_wp (fun p => op_fifo_write ops p m) (fun _ => push_sent m) (fun _ => True) A s n a); [done..|].
    intros p d Hd. eapply wp_mono; [by apply law_write|]. done.
  - by intros r s' [_ H'].
Qed.

Lemma enable_wp A s n a irq : holds c ns A s -> A !! n = Some a ->
  wp (omap_mbox_enable_irq ops n irq) (fun _ s' => holds c ns (<[n := set_a_view (arm irq true (a_view a)) a]> A) s') s.
Proof.
  intros H Ha. eapply wp_mono.
  - apply (dev_wp (fun p => op_enable_irq ops p irq) (fun _ => arm irq true) (fun _ => True) A s n a); [done..|].
    intros p d Hd. eapply wp_mono; [by apply law_enable|]. done.
  - by intros r s' [_ H'].
Qed.

Lemma disable_wp A s n a irq : holds c ns A s -> A !! n = Some a ->
  wp (omap_mbox_disable_irq ops n irq) (fun _ s' => holds c ns (<[n := set_a_view (arm irq false (a_view a)) a]> A) s') s.
Proof.
  intros H Ha. eapply wp_mono.
  - apply (dev_wp (fun p => op_disable_irq ops p irq) (fun _ => arm irq false) (fun _ => True) A s n a); [done..|].
    intros p d Hd. eapply wp_mono; [by apply law_disable|]. done.
  - by intros r s' [_ H'].
Qed.

Lemma ack_wp A s n a irq : holds c ns A s -> A !! n = Some a ->
  wp (ack_mbox_irq ops n irq) (fun _ s' => holds c ns (<[n := acked ops irq a]> A) s') s.
Proof.
  intros H Ha. unfold ack_mbox_irq, acked. destruct (op_ack_irq ops) as [ack|] eqn:E.
  2: { wp_pure. by rewrite insert_id. }
  eapply wp_mono.
  - apply (dev_wp (fun p => ack p irq) (fun _ => push_ack irq) (fun _ => True) A s n a); [done..|].
    intros p d Hd. eapply wp_mono; [by apply law_ack|]. done.
  - by intros r s' [_ H'].
Qed.

Lemma empty_wp A s n a : holds c ns A s -> A !! n = Some a ->
  wp (mbox_fifo_empty ops n) (fun r s' =>
    holds c ns (<[n := set_a_view (saw_empty (negb (r =? 0)) (a_view a)) a]> A) s') s.
Proof.
  intros H Ha. eapply wp_mono.
  - apply (dev_wp (op_fifo_empty ops) (fun r => saw_empty (negb (r =? 0))) (fun _ => True) A s n a); [done..|].
    intros p d Hd. eapply wp_mono; [by apply law_empty|]. done.
  - by intros r s' [_ H'].
Qed.

Lemma read_wp A s n a : holds c ns A s -> A !! n = Some a ->
  wp (mbox_fifo_read ops n)
    (fun v s' => uint 32 v /\ holds c ns (<[n := set_a_view (push_got v (a_view a)) a]> A) s') s.
Proof.
  intros H Ha. apply (dev_wp (op_fifo_read ops) push_got (fun v => uint 32 v) A s n a); [done..|]. apply law_read.
Qed.

Lemma queue_range A s n a q : holds c ns A s -> A !! n = Some a -> len (a_queue q a) <= c.
Proof.
  intros H Ha. destruct (h_box _ _ _ _ H n a Ha) as (b & _ & Hh). destruct (bh_queue _ _ _ _ Hh q) as (x & _ & _ & Hm).
  apply (msgs_len c _ _ Hm).
Qed.

Lemma send_wp A s n a m : holds c ns A s -> A !! n = Some a -> uint 32 m ->
  wp (omap_mbox_msg_send ops udelay n m)
    (fun r s' => exists a', send_spec c m a r a' /\ holds c ns (<[n := a']> A) s') s.
Proof.
  intros H Ha Hm. pose proof (queue_range A s n a IRQ_TX H Ha) as Hl. unfold omap_mbox_msg_send. apply wp_bind.
  eapply wp_mono; [apply (gets_fifo_wp _ (4 * (c - len (a_txq a))) A s n a); [done..|intros f Hf; exact (msgs_avail c f _ Hf)]|].
  intros r s1 [-> H1]. cbn [a_queue] in Hl. unfold sizeof_msg. destruct (Z.ltb_spec (4 * (c - len (a_txq a))) 4).
  { wp_pure. exists a. split; [apply send_nomem; lia | by rewrite insert_id]. }
  apply wp_bind. eapply wp_mono;
    [apply (gets_fifo_wp _ (bool_decide (a_txq a = [])) A s1 n a); [done..|intros f Hf; exact (msgs_empty c f _ Hf)]|].
  intros e s2 [-> H2]. case_bool_decide as He.
  - apply wp_bind, wp_bind. eapply wp_mono; [by apply (poll_wp A s2 n a)|].
    intros p s3 H3. wp_pure. cbv beta in H3. destruct (p =? 0); cbn [negb] in H3.
    + wp_pure. eapply wp_mono; [eapply (write_wp _ s3 n _ m); [exact H3 | apply lookup_insert_eq]|].
      intros u s4 H4. rewrite insert_insert_eq in H4. wp_pure. eexists. split; [by apply send_direct | done].
    + wp_pure. eapply wp_mono; [eapply (put_wp _ s3 n _ IRQ_TX m); [exact H3 | apply lookup_insert_eq | done]|].
      cbn [a_queue a_txq set_a_view]. intros u s4 H4.
      rewrite (proj2 (Z.ltb_lt _ _)), insert_insert_eq, He in H4 by lia. wp_pure.
      eapply wp_mono; [eapply (schedule_wp _ s4 n); [exact H4 | apply lookup_insert_eq]|].
      intros v s5 H5. rewrite insert_insert_eq in H5. wp_pure. eexists. split; [by apply send_full | done].
  - wp_pure. eapply wp_mono; [by apply (put_wp A s2 n a IRQ_TX m)|]. cbn [a_queue]. intros u s4 H4.
    rewrite (proj2 (Z.ltb_lt _ _)) in H4 by lia. wp_pure.
    eapply wp_mono; [eapply (schedule_wp _ s4 n); [exact H4 | apply lookup_insert_eq]|].
    intros v s5 H5. rewrite insert_insert_eq in H5. wp_pure. eexists. split; [by apply send_queued; [|lia] | done].
Qed.

Lemma tasklet_wp fuel : forall A s n a, holds c ns A s -> A !! n = Some a -> (length (a_txq a) < fuel)%nat ->
  wp (mbox_tx_tasklet ops udelay fuel n)
    (fun _ s' => exists a', tasklet_spec a a' /\ holds c ns (<[n := a']> A) s') s.
Proof.
  induction fuel as [|fuel IH]; intros A s n a H Ha Hf; [lia|]. cbn [mbox_tx_tasklet]. apply wp_bind.
  eapply wp_mono; [apply (gets_fifo_wp _ (4 * len (a_txq a)) A s n a); [done..|intros f Hi; apply (msgs_len c f _ Hi)]|].
  intros r s1 [-> H1]. destruct (a_txq a) as [|m l] eqn:El.
  { wp_pure. exists a. split; [by apply tasklet_empty | by rewrite insert_id]. }
  rewrite (proj2 (Z.eqb_neq _ 0)) by (unfold len; cbn; lia). apply wp_bind.
  eapply wp_mono; [by apply (poll_wp A s1 n a)|]. intros p s2 H2. cbv beta in H2. destruct (negb (p =? 0)).
  { eapply wp_mono; [eapply (enable_wp _ s2 n); [exact H2 | apply lookup_insert_eq]|]. intros u s3 H3.
    rewrite insert_insert_eq in H3. eexists. split; [by eapply tasklet_wait | done]. }
  eapply (get_wp _ s2 n _ IRQ_TX m l); [exact H2 | apply lookup_insert_eq | done|]. intros s3 Hm H3. apply wp_bind.
  rewrite insert_insert_eq in H3.
  eapply wp_mono; [eapply (write_wp _ s3 n); [exact H3 | apply lookup_insert_eq]|]. intros u s4 H4.
  rewrite insert_insert_eq in H4. eapply wp_mono.
  { eapply (IH _ s4 n); [exact H4 | apply lookup_insert_eq | cbn in *; lia]. }
  intros v s5 (a' & Hs & H5). rewrite insert_insert_eq in H5. exists a'. split; [|done].
  by eapply tasklet_move.
Qed.

(** ** Receiving *)

Lemma take_wp A s n a : holds c ns A s -> A !! n = Some a ->
  wp (rx_take n) (fun o s' => exists a', take_spec a o a' /\ holds c ns (<[n := a']> A) s') s.
Proof.
  intros H Ha. unfold rx_take. apply wp_bind.
  eapply wp_mono; [apply (gets_fifo_wp _ (4 * len (a_rxq a)) A s n a); [done..|intros f Hf; apply (msgs_len c f _ Hf)]|].
  intros r s1 [-> H1]. destruct (a_rxq a) as [|m l] eqn:El.
  { wp_pure. exists a. split; [by apply take_none | by rewrite insert_id]. }
  rewrite (proj2 (Z.ltb_ge _ _)) by (unfold len, sizeof_msg; cbn; lia).
  apply (get_wp A s1 n a IRQ_RX m l); [done..|]. intros s2 Hm H2. wp_pure.
  eexists. split; [by apply (take_some a m l) | done].
Qed.

Lemma notify_wp A s n a m : holds c ns A s -> A !! n = Some a ->
  wp (rx_notify n m) (fun _ s' => holds c ns (<[n := a_notify m a]> A) s') s.
Proof.
  intros H Ha. apply (upd_box_wp A s n a); [done..|]. intros b d [Hq Ht Hw Hf Hd Hp Ho Hv].
  split; try done. cbn. by rewrite Hd.
Qed.

Lemma set_full_wp A s n a v : holds c ns A s -> A !! n = Some a ->
  wp (upd_queue IRQ_RX n (set_mq_full v)) (fun _ s' => holds c ns (<[n := set_a_full v a]> A) s') s.
Proof.
  intros H Ha. apply (upd_queue_wp A s n a); [done..|]. intros b d x Hh Hx _. pose proof (bh_work _ _ _ _ Hh) as Hw.
  cbn in Hx. rewrite Hx in Hw. apply (set_rx_holds _ _ b d x a); [|done..]. apply (inj Some) in Hw. done.
Qed.

Lemma set_work_wp A s n a v : holds c ns A s -> A !! n = Some a ->
  wp (upd_queue IRQ_RX n (set_mq_work v)) (fun _ s' => holds c ns (<[n := set_a_work v a]> A) s') s.
Proof.
  intros H Ha. apply (upd_queue_wp A s n a); [done..|]. intros b d x Hh Hx _. pose proof (bh_full _ _ _ _ Hh) as Hw.
  cbn in Hx. rewrite Hx in Hw. apply (set_rx_holds _ _ b d x a); [|done..]. apply (inj Some) in Hw. done.
Qed.

(** A look at a queue. *)
Lemma get_queue_wp A s n a q Q : holds c ns A s -> A !! n = Some a ->
  (forall b x, box_holds c b (mb_dev s) a -> queue_of q b = Some x -> Q x s) -> wp (get_queue q n) Q s.
Proof.
  intros H Ha HQ. unfold get_queue. apply wp_bind. apply (get_box_wp A s n a); [done..|]. intros b Hb Hh.
  destruct (bh_queue _ _ _ _ Hh q) as (x & Hx & Hfr & _). apply wp_bind, (wp_deref _ x); [done|].
  rewrite Hfr. wp_pure. by apply (HQ b).
Qed.

Lemma refill_wp A s n a : holds c ns A s -> A !! n = Some a ->
  wp (rx_refill ops n) (fun _ s' => exists a', refill_spec c a a' /\ holds c ns (<[n := a']> A) s') s.
Proof.
  intros H Ha. unfold rx_refill. apply wp_bind. apply (get_queue_wp A s n a); [done..|]. intros b x Hh Hx.
  pose proof (bh_full _ _ _ _ Hh) as Hf. cbn in Hx. rewrite Hx in Hf. apply (inj Some) in Hf.
  assert (mq_full x = a_full a) as -> by exact Hf.
  destruct (a_full a) eqn:Ef; wp_pure.
  2: { exists a. split; [by apply refill_no | by rewrite insert_id]. }
  eapply wp_mono; [by apply (set_full_wp A s n a false)|]. intros u1 s1 H1. wp_pure.
  eapply wp_mono; [eapply (empty_wp _ s1 n); [exact H1 | apply lookup_insert_eq]|]. intros e s2 H2.
  cbv beta in H2. rewrite insert_insert_eq in H2. destruct (e =? 0); cbn [negb] in H2; wp_pure.
  - eapply wp_mono; [eapply (read_wp _ s2 n); [exact H2 | apply lookup_insert_eq]|]. intros m s3 [Hm H3].
    rewrite insert_insert_eq in H3. wp_pure.
    eapply wp_mono; [eapply (put_wp _ s3 n _ IRQ_RX m); [exact H3 | apply lookup_insert_eq | done]|].
    intros u4 s4 H4. rewrite insert_insert_eq in H4. wp_pure.
    eapply wp_mono; [eapply (enable_wp _ s4 n); [exact H4 | apply lookup_insert_eq]|]. intros u5 s5 H5.
    rewrite insert_insert_eq in H5. eexists. split; [by apply (refill_msg c a m) | done].
  - eapply wp_mono; [eapply (enable_wp _ s2 n); [exact H2 | apply lookup_insert_eq]|]. intros u5 s5 H5.
    rewrite insert_insert_eq in H5. eexists. split; [by apply refill_empty | done].
Qed.

(** ** Interrupts *)

Lemma tx_interrupt_wp A s n a : holds c ns A s -> A !! n = Some a ->
  wp (__mbox_tx_interrupt ops n) (fun _ s' => holds c ns (<[n := tx_irq_spec ops a]> A) s') s.
Proof.
  intros H Ha. unfold __mbox_tx_interrupt. wp_pure. eapply wp_mono; [by apply (disable_wp A s n a)|]. intros u1 s1 H1.
  wp_pure. eapply wp_mono; [eapply (ack_wp _ s1 n); [exact H1 | apply lookup_insert_eq]|]. intros u2 s2 H2.
  rewrite insert_insert_eq in H2.
  eapply wp_mono; [eapply (schedule_wp _ s2 n); [exact H2 | apply lookup_insert_eq]|]. intros u3 s3 H3.
  by rewrite insert_insert_eq in H3.
Qed.

Lemma rx_loop_wp fuel : forall A s n a, holds c ns A s -> A !! n = Some a -> (Z.to_nat (c - len (a_rxq a)) < fuel)%nat ->
  wp (rx_interrupt_loop ops fuel n) (fun _ s' => exists a', rx_loop_spec ops c a a' /\ holds c ns (<[n := a']> A) s') s.
Proof.
  induction fuel as [|fuel IH]; intros A s n a H Ha Hf; [lia|]. cbn [rx_interrupt_loop]. apply wp_bind.
  pose proof (queue_range A s n a IRQ_RX H Ha) as Hl. cbn [a_queue] in Hl.
  eapply wp_mono; [by apply (empty_wp A s n a)|]. intros e s1 H1. cbv beta in H1. destruct (negb (e =? 0)).
  { wp_pure. eexists. split; [apply rx_loop_end | exact H1]. }
  apply wp_bind. eapply wp_mono.
  { eapply (gets_fifo_wp _ (4 * (c - len (a_rxq a))) _ s1 n); [exact H1 | apply lookup_insert_eq|].
    intros f Hi. exact (msgs_avail c f _ Hi). }
  intros r s2 [-> H2]. unfold sizeof_msg. destruct (Z.ltb_spec (4 * (c - len (a_rxq a))) 4) as [Hlt|Hge]; wp_pure.
  { eapply wp_mono; [eapply (disable_wp _ s2 n); [exact H2 | apply lookup_insert_eq]|]. intros u3 s3 H3.
    eapply wp_mono; [eapply (set_full_wp _ s3 n _ true); [exact H3 | apply lookup_insert_eq]|]. intros u4 s4 H4.
    rewrite !insert_insert_eq in H4. eexists. split; [apply rx_loop_full; lia | done]. }
  eapply wp_mono; [eapply (read_wp _ s2 n); [exact H2 | apply lookup_insert_eq]|]. intros m s3 [Hm H3]. wp_pure.
  eapply wp_mono; [eapply (put_wp _ s3 n _ IRQ_RX m); [exact H3 | apply lookup_insert_eq | done]|].
  cbn [a_queue set_a_view a_rxq]. intros u4 s4 H4. rewrite !insert_insert_eq, (proj2 (Z.ltb_lt _ _)) in H4 by lia.
  case_match.
  { wp_pure. eexists. split; [apply (rx_loop_one ops c a m); [done | lia | done] | exact H4]. }
  eapply wp_mono.
  { eapply (IH _ s4 n); [exact H4 | apply lookup_insert_eq|]. cbn. unfold len in *. rewrite length_app. cbn. lia. }
  intros u5 s5 (a' & Hs & H5). rewrite insert_insert_eq in H5. exists a'. split; [|done].
  by apply (rx_loop_take ops c a m); [done | lia | |].
Qed.

Lemma rx_interrupt_wp fuel A s n a : holds c ns A s -> A !! n = Some a -> c < Z.of_nat fuel ->
  wp (__mbox_rx_interrupt ops fuel n) (fun _ s' => exists a', rx_irq_spec ops c a a' /\ holds c ns (<[n := a']> A) s') s.
Proof.
  intros H Ha Hf. unfold __mbox_rx_interrupt. wp_pure. eapply wp_mono; [apply (rx_loop_wp fuel A s n a); [done..|]|].
  { pose proof (queue_range A s n a IRQ_RX H Ha). unfold len in *. lia. }
  intros u1 s1 (a1 & Hs & H1). wp_pure.
  eapply wp_mono; [eapply (ack_wp _ s1 n); [exact H1 | apply lookup_insert_eq]|]. intros u2 s2 H2.
  rewrite insert_insert_eq in H2.
  eapply wp_mono; [eapply (set_work_wp _ s2 n _ true); [exact H2 | apply lookup_insert_eq]|]. intros u3 s3 H3.
  rewrite insert_insert_eq in H3. eexists. split; [by exists a1 | done].
Qed.

Lemma rx_loop_priv a a' : rx_loop_spec ops c a a' -> a_priv a' = a_priv a.
Proof. by induction 1. Qed.

Lemma rx_irq_priv a a' : rx_irq_spec ops c a a' -> a_priv a' = a_priv a.
Proof.
  intros (a1 & Hs & ->). rewrite <- (rx_loop_priv _ _ Hs). unfold acked. by destruct (op_ack_irq ops).
Qed.

(** Nothing happened to any mailbox. *)
Definition silent (d d' : D) : Prop := forall q, dev_ok q d -> dev_ok q d' /\ view q d' = view q d.

Lemma effect_silent p d d' : effect p id d d' -> silent d d'.
Proof. intros He q Hq. destruct (He q Hq) as [Ho Ev]. split; [done|]. by destruct (decide (q = p)). Qed.

Lemma holds_quiet A s d' : holds c ns A s -> silent (mb_dev s) d' -> holds c ns A (set_mb_dev d' s).
Proof.
  intros H He. split; [|apply H|apply H|].
  - intros n a Ha. destruct (h_box _ _ _ _ H n a Ha) as (b & Hb & Hh). exists b. split; [done|].
    destruct (He _ (bh_dev _ _ _ _ Hh)) as [Ho Ev]. split; try apply Hh; [done|].
    change (mb_dev (set_mb_dev d' s)) with d'. rewrite Ev. apply Hh.
  - eapply Forall_impl; [exact (h_closed _ _ _ _ H)|].
    intros n [Hn|(b & Hb & Ho & Hc)]; [by left|]. right. exists b. split; [done|]. destruct (He _ Ho) as [Ho' Ev].
    split; [done|]. change (mb_dev (set_mb_dev d' s)) with d'. by rewrite Ev.
Qed.

(** Asking for an interrupt. *)
Lemma is_irq_wp A s n b irq : holds c ns A s -> mb_boxes s !! n = Some b -> dev_ok (mx_priv b) (mb_dev s) ->
  wp (is_mbox_irq ops n irq) (fun r s' =>
    negb (r =? 0) = fv_armed irq (view (mx_priv b) (mb_dev s)) && pending (mx_priv b) irq (mb_dev s) /\
    holds c ns A s' /\ silent (mb_dev s) (mb_dev s') /\ mb_boxes s' = mb_boxes s) s.
Proof.
  intros H Hb Ho. unfold is_mbox_irq, get_box. wp_pure. rewrite Hb. apply (wp_deref _ b); [done|].
  pose proof (law_is_irq (mx_priv b) irq (mb_dev s) Ho) as W. unfold wp, in_dev in *.
  destruct (op_is_irq ops (mx_priv b) irq (mb_dev s)) as [r d'|]; [|done]. destruct W as [Hr He%effect_silent].
  split; [done|]. split; [by apply holds_quiet|]. by split.
Qed.

(** The device of an open mailbox. *)
Lemma box_dev A s n a : holds c ns A s -> A !! n = Some a -> exists b, mb_boxes s !! n = Some b /\
  mx_priv b = a_priv a /\ dev_ok (a_priv a) (mb_dev s) /\ view (a_priv a) (mb_dev s) = a_view a.
Proof.
  intros H Ha. destruct (h_box _ _ _ _ H n a Ha) as (b & Hb & Hh). exists b. split; [done|].
  pose proof (bh_priv _ _ _ _ Hh) as Ep. rewrite <- Ep. split; [done|]. split; [apply Hh | apply Hh].
Qed.

(** An interrupt of an open mailbox. *)
Lemma irq_asked_wp A s n a irq : holds c ns A s -> A !! n = Some a ->
  wp (is_mbox_irq ops n irq) (fun r s' => negb (r =? 0) = irq_taken irq a (mb_dev s) /\ holds c ns A s') s.
Proof.
  intros H Ha. destruct (box_dev A s n a H Ha) as (b & Hb & Ep & Ho & Ev).
  eapply wp_mono; [apply (is_irq_wp A s n b irq); [done..|by rewrite Ep]|]. intros r s' (Hr & H' & _).
  unfold irq_taken. rewrite <- Ev, <- Ep. done.
Qed.

(** The handler on one mailbox that is open, and on one that is closed. *)
Lemma irq_body_wp fuel A s n a : c < Z.of_nat fuel -> holds c ns A s -> A !! n = Some a ->
  wp (tx ← is_mbox_irq ops n IRQ_TX;
      when (negb (tx =? 0)) (__mbox_tx_interrupt ops n);;
      rx ← is_mbox_irq ops n IRQ_RX;
      when (negb (rx =? 0)) (__mbox_rx_interrupt ops fuel n))
    (fun _ s' => exists a', irq_spec ops c a (mb_dev s) a' (mb_dev s') /\ holds c ns (<[n := a']> A) s') s.
Proof.
  intros Hf H Ha. set (a1 := if irq_taken IRQ_TX a (mb_dev s) then tx_irq_spec ops a else a).
  assert (a_priv a1 = a_priv a) as Ep by (unfold a1, tx_irq_spec, acked; destruct (irq_taken _ _ _), (op_ack_irq ops); done).
  apply wp_bind. eapply wp_mono; [by apply (irq_asked_wp A s n a)|]. intros tx s1 [Etx H1]. apply wp_bind.
  apply (wp_mono _ (fun _ s' => holds c ns (<[n := a1]> A) s')).
  { unfold a1. rewrite Etx. destruct (irq_taken IRQ_TX a (mb_dev s)); wp_pure; [by apply tx_interrupt_wp|].
    by rewrite insert_id. }
  intros u2 s2 H2. apply wp_bind. eapply wp_mono; [eapply (irq_asked_wp _ s2 n); [exact H2 | apply lookup_insert_eq]|].
  intros rx s3 [Erx H3]. destruct (box_dev _ s2 n a1 H2 (lookup_insert_eq _ _ _)) as (_ & _ & _ & Ho2 & Ev2).
  assert (forall a' s', (if irq_taken IRQ_RX a1 (mb_dev s2) then rx_irq_spec ops c a1 a' else a' = a1) ->
    a_priv a' = a_priv a -> holds c ns (<[n := a']> A) s' -> irq_spec ops c a (mb_dev s) a' (mb_dev s')) as Hspec.
  { intros a' s' Hrx Ea H'. destruct (box_dev _ s' n a' H' (lookup_insert_eq _ _ _)) as (_ & _ & _ & Ho' & Ev').
    rewrite Ep in Ho2, Ev2. rewrite Ea in Ho', Ev'. by exists a1, (mb_dev s2). }
  rewrite Erx. destruct (irq_taken IRQ_RX a1 (mb_dev s2)); wp_pure; [|by exists a1; auto].
  eapply wp_mono; [eapply (rx_interrupt_wp fuel _ s3 n); [exact H3 | apply lookup_insert_eq | done]|].
  intros u4 s4 (a4 & Hs & H4). rewrite insert_insert_eq in H4. exists a4. split; [|done]. apply Hspec; [done | | done].
  rewrite <- Ep. by apply (rx_irq_priv a1).
Qed.

Lemma irq_closed_wp fuel A s n b : holds c ns A s -> mb_boxes s !! n = Some b -> closed b (mb_dev s) ->
  wp (tx ← is_mbox_irq ops n IRQ_TX;
      when (negb (tx =? 0)) (__mbox_tx_interrupt ops n);;
      rx ← is_mbox_irq ops n IRQ_RX;
      when (negb (rx =? 0)) (__mbox_rx_interrupt ops fuel n))
    (fun _ s' => silent (mb_dev s) (mb_dev s') /\ holds c ns A s') s.
Proof.
  intros H Hb [Ho Hc]. apply wp_bind. eapply wp_mono; [by apply (is_irq_wp A s n b)|].
  intros tx s1 (Etx & H1 & Hs1 & Eb1). destruct (Hs1 _ Ho) as [Ho1 Ev1]. rewrite (Hc IRQ_TX) in Etx. cbn [andb] in Etx. rewrite Etx. wp_pure.
  eapply wp_mono; [apply (is_irq_wp A s1 n b); [done | by rewrite Eb1 | done]|].
  intros rx s2 (Erx & H2 & Hs2 & _). rewrite Ev1, (Hc IRQ_RX) in Erx. cbn [andb] in Erx. rewrite Erx. wp_pure. split; [|done].
  intros q Hq. destruct (Hs1 q Hq) as [Hq1 Eq1], (Hs2 q (proj1 (Hs1 q Hq))) as [Hq2 Eq2]. split; [done | congruence].
Qed.

Lemma interrupt_loop_wp fuel l : c < Z.of_nat fuel -> forall A s, l ⊆ ns -> holds c ns A s ->
  wp (for_each l (fun n =>
        tx ← is_mbox_irq ops n IRQ_TX;
        when (negb (tx =? 0)) (__mbox_tx_interrupt ops n);;
        rx ← is_mbox_irq ops n IRQ_RX;
        when (negb (rx =? 0)) (__mbox_rx_interrupt ops fuel n)))
    (fun _ s' => exists A', irqs_spec ops c l A (mb_dev s) A' (mb_dev s') /\ holds c ns A' s') s.
Proof.
  intros Hf. induction l as [|n l IH]; intros A s Hl H; cbn [for_each].
  { wp_pure. exists A. split; [constructor | done]. }
  assert (n ∈ ns /\ l ⊆ ns) as [Hn Hl'] by set_solver. apply wp_bind. destruct (A !! n) as [a|] eqn:Ha.
  - eapply wp_mono; [by apply (irq_body_wp fuel A s n a)|]. intros u s1 (a1 & Hs & H1).
    eapply wp_mono; [exact (IH _ s1 Hl' H1)|]. intros u2 s2 (A' & Hr & H2). exists A'. split; [|done].
    by eapply irqs_open.
  - destruct (proj1 (Forall_forall _ _) (h_closed _ _ _ _ H) n Hn) as [[a Ha']|(b & Hb & Hc)]; [congruence|].
    eapply wp_mono; [by apply (irq_closed_wp fuel A s n b)|]. intros u s1 [Hs H1].
    eapply wp_mono; [exact (IH _ s1 Hl' H1)|]. intros u2 s2 (A' & Hr & H2). exists A'. split; [|done].
    by eapply irqs_closed.
Qed.

Lemma interrupt_wp fuel A s : holds c ns A s -> c < Z.of_nat fuel ->
  wp (mbox_interrupt ops fuel) (fun r s' => r = IRQ_HANDLED /\
    exists A', irqs_spec ops c ns A (mb_dev s) A' (mb_dev s') /\ holds c ns A' s') s.
Proof.
  intros H Hf. unfold mbox_interrupt. wp_pure. apply (wp_deref _ ns); [apply H|]. apply wp_bind.
  eapply wp_mono; [by apply (interrupt_loop_wp fuel ns)|]. intros u s' H'. by wp_pure.
Qed.

(** ** What runs later *)

Lemma run_tasklet_wp fuel A s n a : holds c ns A s -> A !! n = Some a -> c < Z.of_nat fuel ->
  wp (run_tasklet ops udelay fuel n) (fun _ s' => exists a', holds c ns (<[n := a']> A) s' /\
    if a_tasklet a then tasklet_spec (set_a_tasklet false a) a' else a' = a) s.
Proof.
  intros H Ha Hf. pose proof (queue_range A s n a IRQ_TX H Ha) as Hl. cbn [a_queue] in Hl. unfold run_tasklet.
  apply wp_bind. apply (get_queue_wp A s n a); [done..|]. intros b x Hh Hx.
  pose proof (bh_tasklet _ _ _ _ Hh) as Ht. cbn in Hx. rewrite Hx in Ht. apply (inj Some) in Ht.
  assert (mq_tasklet x = a_tasklet a) as -> by exact Ht. destruct (a_tasklet a); wp_pure.
  2: { exists a. split; [by rewrite insert_id | done]. }
  eapply wp_mono; [apply (upd_queue_wp A s n a (set_a_tasklet false a)); [done..|]; intros; by apply set_tasklet_holds|].
  intros u1 s1 H1. eapply wp_mono; [eapply (tasklet_wp fuel _ s1 n); [exact H1 | apply lookup_insert_eq|]|].
  { cbn. unfold len in Hl. lia. }
  intros u2 s2 (a2 & Hs & H2). rewrite insert_insert_eq in H2. by exists a2.
Qed.

(** The worker without interrupts in between; it may find one more message than the queue held. *)
Inductive work_spec : abox -> abox -> Prop :=
| work_end a : a_rxq a = [] -> work_spec a a
| work_msg a m a1 a2 a3 : take_spec a (Some m) a1 -> refill_spec c (a_notify m a1) a2 -> work_spec a2 a3 ->
    work_spec a a3.

Definition work_left (a : abox) : nat := length (a_rxq a) + (if a_full a then 1 else 0).

Lemma refill_left a a' : refill_spec c a a' -> (work_left a' <= work_left a)%nat.
Proof.
  unfold work_left. intros [Hf|Hf|m Hf Hm]; cbn [a_full a_rxq set_a_full set_a_view set_a_queue]; rewrite ?Hf; try lia.
  destruct (_ <? _); rewrite ?length_app; cbn; lia.
Qed.

Lemma work_wp fuel : forall A s n a, holds c ns A s -> A !! n = Some a -> (work_left a < fuel)%nat ->
  wp (mbox_rx_work ops fuel n) (fun _ s' => exists a', work_spec a a' /\ holds c ns (<[n := a']> A) s') s.
Proof.
  induction fuel as [|fuel IH]; intros A s n a H Ha Hf; [lia|]. cbn [mbox_rx_work]. apply wp_bind.
  eapply wp_mono; [by apply (take_wp A s n a)|]. intros o s1 (a1 & Ht & H1). destruct o as [m|]; wp_pure.
  2: { inversion Ht as [He|]. exists a. subst a1. split; [by apply work_end | done]. }
  eapply wp_mono; [eapply (notify_wp _ s1 n _ m); [exact H1 | apply lookup_insert_eq]|]. intros u2 s2 H2.
  rewrite insert_insert_eq in H2. wp_pure.
  eapply wp_mono; [eapply (refill_wp _ s2 n); [exact H2 | apply lookup_insert_eq]|]. intros u3 s3 (a3 & Hr & H3).
  rewrite insert_insert_eq in H3. eapply wp_mono; [eapply (IH _ s3 n); [exact H3 | apply lookup_insert_eq|]|].
  - apply refill_left in Hr. inversion Ht as [|m' l El Em Ea]. subst a1. unfold work_left in *. rewrite El in Hf.
    cbn in *. lia.
  - intros u4 s4 (a4 & Hw & H4). rewrite insert_insert_eq in H4. exists a4. split; [|done]. by eapply work_msg.
Qed.

(** C11: the mailbox driver implements its specification on every device that keeps the laws of
    [MboxDevice]: sending, the tasklet, the interrupt handler and each part of the work item
    always return, within a fuel of one more than the messages that fit a queue, and do to the
    mailboxes, as lists of messages, what [send_spec], [tasklet_spec], [irqs_spec], [take_spec],
    [refill_spec] and [work_spec] say for what the hardware answers when it is asked for space,
    for a message and for its interrupts, and nothing to any other mailbox.  The mailboxes that
    are not open have their interrupts disabled ([holds]); for one that was closed with its
    interrupt enabled see [MailboxExamples.closed_mailbox_interrupt]. *)
Theorem mailbox_refines A s n a fuel :
  holds c ns A s -> A !! n = Some a -> c + 1 < Z.of_nat fuel ->
  (forall m, uint 32 m -> wp (omap_mbox_msg_send ops udelay n m)
    (fun r s' => exists a', send_spec c m a r a' /\ holds c ns (<[n := a']> A) s') s) /\
  wp (mbox_tx_tasklet ops udelay fuel n)
    (fun _ s' => exists a', tasklet_spec a a' /\ holds c ns (<[n := a']> A) s') s /\
  wp (mbox_interrupt ops fuel) (fun _ s' =>
    exists A', irqs_spec ops c ns A (mb_dev s) A' (mb_dev s') /\ holds c ns A' s') s /\
  wp (rx_take n) (fun o s' => exists a', take_spec a o a' /\ holds c ns (<[n := a']> A) s') s /\
  wp (rx_refill ops n) (fun _ s' => exists a', refill_spec c a a' /\ holds c ns (<[n := a']> A) s') s /\
  wp (mbox_rx_work ops fuel n) (fun _ s' => exists a', work_spec a a' /\ holds c ns (<[n := a']> A) s') s.
Proof.
  intros H Ha Hf. pose proof (queue_range A s n a IRQ_TX H Ha) as Ht. pose proof (queue_range A s n a IRQ_RX H Ha) as Hr.
  cbn [a_queue] in *. unfold len in Ht, Hr. split; [intros m; by apply send_wp|].
  split; [apply tasklet_wp; [done..|lia]|].
  split; [eapply wp_mono; [apply interrupt_wp; [done|lia]|]; by intros r s' [_ H']|].
  split; [by apply take_wp|]. split; [by apply refill_wp|]. apply work_wp; [done..|].
  unfold work_left. destruct (a_full a); lia.
Qed.
End Refine.
