(* ===== verification/MailboxSteps.v ===== *)
(** * Sending and receiving messages at the same time

    The driver runs in four contexts: users that send, the tasklet, the interrupt handler, and
    the work item, whose parts the interrupt handler may come between.  Sending and the tasklet
    exclude each other ([spin_lock_bh]), and so do the interrupt handler and the part of the work
    item between [spin_lock_irq] and [spin_unlock_irq].  A history of the driver is a sequence of
    such steps for any of the mailboxes that are open. *)

From S2P Require Import Prelude Bytes Kfifo KfifoRing KfifoRefine Mailbox MailboxSpec MailboxRefine.

(** Where the work item of a mailbox is: not running, before the test of its loop, with a message
    in its hands, or before [spin_lock_irq]. *)
Inductive wpos := WOff | WLoop | WTook (m : Z) | WTold.

Definition in_hand (w : wpos) : list Z := match w with WTook m => [m] | _ => [] end.

(** The work item is between [kfifo_out] and [spin_unlock_irq]. *)
Definition busy (w : wpos) : bool := match w with WTook _ | WTold => true | _ => false end.

Section Steps.
Context {D : Type} `{V : MboxView D} (ops : omap_mbox_ops D) (udelay : Z -> M D unit).
Context `{L : !MboxDevice ops udelay}.
Variables (c : Z) (ns : list string) (fuel : nat).
(** The mailboxes that are open. *)
Variable opened : list string.
(** With [calm], interrupts do not come between the parts of one round of the work item. *)
Variables (calm : bool) (n : string).

Implicit Types (A : gmap string abox) (a : abox).

(** The state of the driver, the place of the work item of [n], and what users have sent
    through [n]. *)
Record session := mkSession { ss_mbx : mbx D; ss_work : wpos; ss_accepted : list Z }.

Inductive mail_step : session -> session -> Prop :=
| step_send k m r s s' w acc : k ∈ opened -> uint 32 m -> omap_mbox_msg_send ops udelay k m s = Done r s' ->
    mail_step (mkSession s w acc)
      (mkSession s' w (if decide (k = n /\ r = 0) then acc ++ [m] else acc))
| step_tasklet k s s' w acc : k ∈ opened -> run_tasklet ops udelay fuel k s = Done tt s' ->
    mail_step (mkSession s w acc) (mkSession s' w acc)
| step_irq r s s' w acc : (calm = true -> busy w = false) -> mbox_interrupt ops fuel s = Done r s' ->
    mail_step (mkSession s w acc) (mkSession s' w acc)
| step_start q s s' acc : get_queue IRQ_RX n s = Done q s -> mq_work q = true ->
    upd_queue IRQ_RX n (set_mq_work false) s = Done tt s' ->
    mail_step (mkSession s WOff acc) (mkSession s' WLoop acc)
| step_take o s s' acc : rx_take n s = Done o s' ->
    mail_step (mkSession s WLoop acc) (mkSession s' (match o with Some m => WTook m | None => WOff end) acc)
| step_notify m s s' acc : rx_notify n m s = Done tt s' ->
    mail_step (mkSession s (WTook m) acc) (mkSession s' WTold acc)
| step_refill s s' acc : rx_refill ops n s = Done tt s' ->
    mail_step (mkSession s WTold acc) (mkSession s' WLoop acc)
(** The work item of another mailbox. *)
| step_other k s s' w acc : k ∈ opened -> k <> n ->
    (upd_queue IRQ_RX k (set_mq_work false) s = Done tt s' \/ (exists o, rx_take k s = Done o s') \/
     (exists m, rx_notify k m s = Done tt s') \/ rx_refill ops k s = Done tt s') ->
    mail_step (mkSession s w acc) (mkSession s' w acc).

(** ** The invariant of a mailbox *)

Section Inv.
(** What had come from the hardware and had been delivered before, and whether the receive
    interrupt was enabled. *)
Variables (got0 delivered0 : list Z) (rx_on : bool).

Record box_inv (a : abox) (w : wpos) (acc : list Z) : Prop := {
  bi_sent : fv_sent (a_view a) ++ a_txq a = acc;
  bi_tx : a_txq a <> [] -> a_tasklet a = true \/ fv_tx (a_view a) = true;
  bi_got : exists X Y, fv_got (a_view a) = got0 ++ X /\ a_delivered a = delivered0 ++ Y /\
    Y ++ in_hand w ++ a_rxq a `sublist_of` X /\ (calm = true -> Y ++ in_hand w ++ a_rxq a = X);
  bi_rx : rx_on = true -> fv_rx (a_view a) = true \/ a_full a = true;
  bi_work : a_rxq a <> [] -> a_work a = true \/ w <> WOff;
  bi_full : a_full a = true -> a_rxq a <> [] \/ busy w = true;
  bi_space : calm = true -> busy w = true -> len (a_rxq a) < c
}.

Hypothesis Hc : 1 <= c.

Lemma nonempty (l : list Z) : len l = c -> l <> [].
Proof. intros E ->. change (len []) with 0 in E. lia. Qed.

Lemma inv_send a w acc m r a' : box_inv a w acc -> send_spec c m a r a' ->
  box_inv a' w (if decide (r = 0) then acc ++ [m] else acc).
Proof.
  intros [I1 I2 I3 I4 I5 I6 I7] [Hl|Ht|Ht|Hne Hl]; [rewrite decide_False by done; by split|..]; rewrite decide_True by done.
  - split; try done; cbn in *. rewrite Ht, app_nil_r in *. by rewrite I1.
  - split; try done; cbn in *; [|by left]. rewrite Ht, app_nil_r in I1. by rewrite I1.
  - split; try done; cbn in *; [by rewrite app_assoc, I1 | by left].
Qed.

Lemma inv_tasklet a a' : tasklet_spec a a' -> forall w acc,
  box_inv (set_a_tasklet true a) w acc -> box_inv a' w acc.
Proof.
  induction 1 as [a Ha|a m l Ha|a m l a' Ha Hs IH]; intros w acc [I1 I2 I3 I4 I5 I6 I7].
  - by split.
  - split; try done. by right.
  - apply IH. split; try done; cbn in *; [by rewrite <- app_assoc, <- I1, Ha | by left].
Qed.

(** Looking at the status and acknowledging do not matter. *)
Lemma inv_view a v w acc : fv_sent v = fv_sent (a_view a) -> fv_got v = fv_got (a_view a) ->
  fv_tx v = fv_tx (a_view a) -> fv_rx v = fv_rx (a_view a) ->
  box_inv a w acc -> box_inv (set_a_view v a) w acc.
Proof. intros E1 E2 E3 E4 [I1 I2 I3 I4 I5 I6 I7]. split; cbn in *; rewrite ?E1, ?E2, ?E3, ?E4; done. Qed.

Lemma inv_acked irq a w acc : box_inv a w acc -> box_inv (acked ops irq a) w acc.
Proof. unfold acked. destruct (op_ack_irq ops); [by apply inv_view | done]. Qed.

Lemma acked_tasklet irq b a : set_a_tasklet b (acked ops irq a) = acked ops irq (set_a_tasklet b a).
Proof. unfold acked. by destruct (op_ack_irq ops). Qed.

Lemma acked_work irq b a : set_a_work b (acked ops irq a) = acked ops irq (set_a_work b a).
Proof. unfold acked. by destruct (op_ack_irq ops). Qed.

Lemma inv_tx_irq a w acc : box_inv a w acc -> box_inv (tx_irq_spec ops a) w acc.
Proof.
  intros [I1 I2 I3 I4 I5 I6 I7]. unfold tx_irq_spec. rewrite acked_tasklet. apply inv_acked. split; try done. by left.
Qed.

Lemma inv_rx_taken m a w acc : (calm = true -> busy w = false) -> box_inv (set_a_work true a) w acc ->
  box_inv (set_a_work true (rx_taken m a)) w acc.
Proof.
  intros Hb [I1 I2 I3 I4 I5 I6 I7]. split; try done; cbn in *; [|by left|intros _; left; by destruct (a_rxq a)|].
  - destruct I3 as (X & Y & Eg & Ed & Hsub & Heq). exists (X ++ [m]), Y.
    rewrite Eg, <- app_assoc. split; [done|]. split; [done|]. rewrite !app_assoc. split.
    + apply sublist_app; [by rewrite <- app_assoc | done].
    + intros Hcalm. f_equal. rewrite <- app_assoc. by apply Heq.
  - intros Hcalm Hbusy. rewrite (Hb Hcalm) in Hbusy. done.
Qed.

Lemma inv_rx_loop a a' : rx_loop_spec ops c a a' -> forall w acc, (calm = true -> busy w = false) ->
  box_inv (set_a_work true a) w acc -> box_inv (set_a_work true a') w acc.
Proof.
  induction 1 as [a|a Hl|a m Hm Hl Ht|a m a' Hm Hl Ht Hs IH]; intros w acc Hb Hi.
  - by apply (inv_view (set_a_work true a)).
  - destruct Hi as [I1 I2 I3 I4 I5 I6 I7]. split; try done; cbn in *; [by right|]. intros _. left. by apply nonempty.
  - by apply inv_rx_taken.
  - apply IH; [done|]. by apply inv_rx_taken.
Qed.

Lemma inv_rx_irq a w acc a' : box_inv a w acc -> (calm = true -> busy w = false) -> rx_irq_spec ops c a a' ->
  box_inv a' w acc.
Proof.
  intros [I1 I2 I3 I4 I5 I6 I7] Hb (a1 & Hs & ->). rewrite acked_work. apply inv_acked, (inv_rx_loop a); [done..|].
  split; try done. by left.
Qed.

Lemma inv_irq a d a' d' w acc : irq_spec ops c a d a' d' -> (calm = true -> busy w = false) -> box_inv a w acc ->
  box_inv a' w acc.
Proof.
  intros (a1 & d1 & -> & _ & _ & Hr & _) Hb Hi.
  assert (box_inv (if irq_taken IRQ_TX a d then tx_irq_spec ops a else a) w acc) as Hi1
    by (clear Hr; destruct (irq_taken IRQ_TX a d); [by apply inv_tx_irq | done]).
  destruct (irq_taken IRQ_RX _ d1); [by eapply inv_rx_irq | by subst].
Qed.

Lemma inv_irqs l A d A' d' w acc : irqs_spec ops c l A d A' d' -> (calm = true -> busy w = false) ->
  (exists a, A !! n = Some a /\ box_inv a w acc) -> Forall (fun k => is_Some (A !! k)) opened ->
  (exists a, A' !! n = Some a /\ box_inv a w acc) /\ Forall (fun k => is_Some (A' !! k)) opened.
Proof.
  intros Hs Hb. induction Hs as [A d|k l A d d1 A' d' Hk _ _ IH|k l A d a a1 d1 A' d' Hk Hi _ IH]; [done | done|].
  intros (a0 & Ha & Hinv) Ho. apply IH.
  - destruct (decide (k = n)) as [->|Hne]; [|exists a0; by rewrite lookup_insert_ne].
    exists a1. rewrite lookup_insert_eq. split; [done|]. assert (a = a0) as -> by congruence. by eapply inv_irq.
  - eapply Forall_impl; [exact Ho|]. intros j Hj. destruct (decide (k = j)) as [<-|]; [|by rewrite lookup_insert_ne].
    rewrite lookup_insert_eq. by eexists.
Qed.

Lemma inv_start a acc : box_inv a WOff acc -> box_inv (set_a_work false a) WLoop acc.
Proof. intros [I1 I2 I3 I4 I5 I6 I7]. split; try done. by right. Qed.

Lemma inv_take a o a' acc : box_inv a WLoop acc -> take_spec a o a' -> len (a_rxq a) <= c ->
  box_inv a' (match o with Some m => WTook m | None => WOff end) acc.
Proof.
  intros [I1 I2 I3 I4 I5 I6 I7] [Hq|m l Hq] Hl.
  - by split.
  - split; try done; cbn in *; [by rewrite Hq in I3 | by right | by right|].
    intros _ _. rewrite Hq in Hl. unfold len in *. cbn in Hl. lia.
Qed.

Lemma inv_notify a m acc : box_inv a (WTook m) acc -> box_inv (a_notify m a) WTold acc.
Proof.
  intros [I1 I2 I3 I4 I5 I6 I7]. split; try done; cbn in *; [|by right].
  destruct I3 as (X & Y & Eg & Ed & Hsub & Heq). exists X, (Y ++ [m]). by rewrite Ed, <- !app_assoc.
Qed.

Lemma inv_refill a a' acc : box_inv a WTold acc -> refill_spec c a a' -> box_inv a' WLoop acc.
Proof.
  intros [I1 I2 I3 I4 I5 I6 I7] [Hf|Hf|m Hf Hm].
  - split; try done; [by right | by rewrite Hf].
  - split; try done; [by left|by right].
  - split; try done; cbn in *; [|by left|by right]. destruct I3 as (X & Y & Eg & Ed & Hsub & Heq).
    exists (X ++ [m]), Y. rewrite Eg, <- app_assoc. split; [done|]. split; [done|].
    destruct (Z.ltb_spec (len (a_rxq a)) c) as [Hlt|Hge].
    + rewrite !app_assoc. split; [by apply sublist_app | intros Hcalm; f_equal; by apply Heq].
    + split; [by apply sublist_inserts_r|]. intros Hcalm. specialize (I7 Hcalm eq_refl). lia.
Qed.

(** ** The invariant of a session *)

Definition session_inv (x : session) : Prop := exists A a,
  holds c ns A (ss_mbx x) /\ A !! n = Some a /\ Forall (fun k => is_Some (A !! k)) opened /\
  box_inv a (ss_work x) (ss_accepted x).

Lemma opened_insert A k a : Forall (fun k => is_Some (A !! k)) opened ->
  Forall (fun j => is_Some (<[k := a]> A !! j)) opened.
Proof.
  intros Ho. eapply Forall_impl; [exact Ho|]. intros j Hj. destruct (decide (k = j)) as [<-|]; [|by rewrite lookup_insert_ne].
  rewrite lookup_insert_eq. by eexists.
Qed.

(** An operation on the mailbox [k]. *)
Lemma session_op A a k (R : abox -> abox -> Prop) s' w w' acc acc' :
  A !! n = Some a -> Forall (fun k => is_Some (A !! k)) opened -> box_inv a w acc ->
  (exists ak ak', A !! k = Some ak /\ R ak ak' /\ holds c ns (<[k := ak']> A) s') ->
  (k = n -> forall a', R a a' -> box_inv a' w' acc') -> (k <> n -> w' = w /\ acc' = acc) ->
  session_inv (mkSession s' w' acc').
Proof.
  intros Ha Ho Hi (ak & ak' & Hk & HR & H') Hn Hne. destruct (decide (k = n)) as [->|Hkn].
  - assert (ak = a) as -> by congruence. exists (<[n := ak']> A), ak'.
    split; [done|]. split; [apply lookup_insert_eq|]. split; [by apply opened_insert|]. by apply Hn.
  - destruct (Hne Hkn) as [-> ->]. exists (<[k := ak']> A), a. split; [done|].
    split; [by rewrite lookup_insert_ne|]. split; [by apply opened_insert | done].
Qed.

Hypothesis Hfuel : c < Z.of_nat fuel.

Lemma inv_run_tasklet a w acc a' : box_inv a w acc ->
  (if a_tasklet a then tasklet_spec (set_a_tasklet false a) a' else a' = a) -> box_inv a' w acc.
Proof.
  intros Hi. destruct (a_tasklet a) eqn:E; [|by intros ->]. intros Hs. apply (inv_tasklet _ _ Hs).
  destruct Hi as [I1 I2 I3 I4 I5 I6 I7]. split; try done. by left.
Qed.

(** A step of the work item of another mailbox. *)
Lemma other_wp A s s' k ak : holds c ns A s -> A !! k = Some ak ->
  (upd_queue IRQ_RX k (set_mq_work false) s = Done tt s' \/ (exists o, rx_take k s = Done o s') \/
   (exists m, rx_notify k m s = Done tt s') \/ rx_refill ops k s = Done tt s') ->
  exists a', holds c ns (<[k := a']> A) s'.
Proof.
  intros H Hk [E|[[o E]|[[m E]|E]]].
  - eexists. exact (wp_done _ _ _ _ _ E (set_work_wp c ns A s k ak false H Hk)).
  - destruct (wp_done _ _ _ _ _ E (take_wp c ns A s k ak H Hk)) as (a' & _ & H'). by exists a'.
  - eexists. exact (wp_done _ _ _ _ _ E (notify_wp c ns A s k ak m H Hk)).
  - destruct (wp_done _ _ _ _ _ E (refill_wp ops udelay c ns A s k ak H Hk)) as (a' & _ & H'). by exists a'.
Qed.

Lemma opened_box A k : Forall (fun k => is_Some (A !! k)) opened -> k ∈ opened -> exists a, A !! k = Some a.
Proof. intros Ho Hk. exact (proj1 (Forall_forall _ _) Ho k Hk). Qed.

Lemma send_inv k m r s s' w acc : k ∈ opened -> uint 32 m -> omap_mbox_msg_send ops udelay k m s = Done r s' ->
  session_inv (mkSession s w acc) ->
  session_inv (mkSession s' w (if decide (k = n /\ r = 0) then acc ++ [m] else acc)).
Proof.
  intros Hk Hm E (A & a & H & Ha & Ho & Hi). destruct (opened_box A k Ho Hk) as [ak Hak].
  destruct (wp_done _ _ _ _ _ E (send_wp ops udelay c ns A s k ak m H Hak Hm)) as (a' & Hs & H').
  apply (session_op A a k (fun a a' => send_spec c m a r a') s' w w acc); [done..| | |].
  - by exists ak, a'.
  - intros -> a1 Ha1. pose proof (inv_send a w acc m r a1 Hi Ha1) as Hx. destruct (decide (r = 0)) as [Hr|Hr].
    + by rewrite decide_True.
    + rewrite decide_False; [done | tauto].
  - intros Hkn. split; [done|]. rewrite decide_False; [done | tauto].
Qed.

Lemma irq_inv r s s' w acc : (calm = true -> busy w = false) -> mbox_interrupt ops fuel s = Done r s' ->
  session_inv (mkSession s w acc) -> session_inv (mkSession s' w acc).
Proof.
  intros Hb E (A & a & H & Ha & Ho & Hi).
  destruct (wp_done _ _ _ _ _ E (interrupt_wp ops udelay c ns fuel A s H Hfuel)) as (_ & A' & Hs & H').
  destruct (inv_irqs _ _ _ _ _ w acc Hs Hb ltac:(by exists a) Ho) as [(a' & Ha' & Hi') Ho']. by exists A', a'.
Qed.

Lemma step_inv x x' : mail_step x x' -> session_inv x -> session_inv x'.
Proof.
  intros Hs Hx. pose proof Hx as (A & a & H & Ha & Ho & Hi).
  destruct Hs as [k m r s s' w acc Hk Hm E|k s s' w acc Hk E|r s s' w acc Hb E|
    q s s' acc Eq Hq E|o s s' acc E|m s s' acc E|s s' acc E|k s s' w acc Hk Hne E]; cbn [ss_mbx ss_work ss_accepted] in *.
  - by apply (send_inv k m r s).
  - destruct (opened_box A k Ho Hk) as [ak Hak].
    destruct (wp_done _ _ _ _ _ E (run_tasklet_wp ops udelay c ns fuel A s k ak H Hak Hfuel)) as (a' & H' & Hs).
    apply (session_op A a k (fun a a' => if a_tasklet a then tasklet_spec (set_a_tasklet false a) a' else a' = a)
      s' w w acc); [done..|by exists ak, a'| |done]. intros -> a1 Ha1. by apply (inv_run_tasklet a).
  - by apply (irq_inv r s).
  - pose proof (wp_done _ _ _ _ _ E (set_work_wp c ns A s n a false H Ha)) as H'.
    apply (session_op A a n (fun a a' => a' = set_a_work false a) s' WOff WLoop acc);
      [done..|by exists a, (set_a_work false a)| |done]. intros _ a1 ->. by apply inv_start.
  - destruct (wp_done _ _ _ _ _ E (take_wp c ns A s n a H Ha)) as (a' & Hs & H').
    apply (session_op A a n (fun a a' => take_spec a o a') s' WLoop _ acc); [done..|by exists a, a'| |done].
    intros _ a1 Ha1. apply (inv_take a); [done..|]. exact (queue_range c ns A s n a IRQ_RX H Ha).
  - pose proof (wp_done _ _ _ _ _ E (notify_wp c ns A s n a m H Ha)) as H'.
    apply (session_op A a n (fun a a' => a' = a_notify m a) s' (WTook m) WTold acc);
      [done..|by exists a, (a_notify m a)| |done]. intros _ a1 ->. by apply inv_notify.
  - destruct (wp_done _ _ _ _ _ E (refill_wp ops udelay c ns A s n a H Ha)) as (a' & Hs & H').
    apply (session_op A a n (fun a a' => refill_spec c a a') s' WTold WLoop acc); [done..|by exists a, a'| |done].
    intros _ a1 Ha1. by apply (inv_refill a).
  - destruct (opened_box A k Ho Hk) as [ak Hak]. destruct (other_wp A s s' k ak H Hak E) as [a' H'].
    apply (session_op A a k (fun _ _ => True) s' w w acc); [done..| |done|done]. by exists ak, a'.
Qed.

Lemma steps_inv x x' : rtc mail_step x x' -> session_inv x -> session_inv x'.
Proof. induction 1 as [|x1 x2 x3 Hs _ IH]; [done|]. intros Hi. apply IH. by apply (step_inv x1). Qed.

(** A mailbox that has just been opened. *)
Definition fresh (a : abox) : Prop := a_txq a = [] /\ a_rxq a = [] /\ a_full a = false.

Lemma fresh_inv a : fresh a -> got0 = fv_got (a_view a) -> delivered0 = a_delivered a ->
  (rx_on = true -> fv_rx (a_view a) = true) -> box_inv a WOff (fv_sent (a_view a)).
Proof.
  intros (Ht & Hr & Hf) -> -> Hx. split; rewrite ?Ht, ?Hr, ?Hf, ?app_nil_r; try done.
  - exists [], []. by rewrite !app_nil_r.
  - intros Hon. left. by apply Hx.
Qed.
End Inv.

Section Session.
Context (A : gmap string abox) (a : abox) (s : mbx D) (x : session).
Hypotheses (H : holds c ns A s) (Ha : A !! n = Some a) (Ho : Forall (fun k => is_Some (A !! k)) opened).
Hypotheses (Hfresh : fresh a) (Hfuel : c < Z.of_nat fuel).
Hypothesis Hx : rtc mail_step (mkSession s WOff (fv_sent (a_view a))) x.

(** Every state that a session reaches keeps the invariant. *)
Lemma session_reach : exists A' a', holds c ns A' (ss_mbx x) /\ A' !! n = Some a' /\
  box_inv (fv_got (a_view a)) (a_delivered a) (fv_rx (a_view a)) a' (ss_work x) (ss_accepted x).
Proof.
  assert (1 <= c) as Hc.
  { destruct (h_box _ _ _ _ H n a Ha) as (b & _ & Hh). destruct (bh_queue _ _ _ _ Hh IRQ_TX) as (y & _ & _ & Hm).
    apply (msgs_len c _ _ Hm). }
  destruct (steps_inv (fv_got (a_view a)) (a_delivered a) (fv_rx (a_view a)) Hc Hfuel _ _ Hx)
    as (A' & a' & H' & Ha' & _ & Hi).
  - exists A, a. split; [done|]. split; [done|]. split; [done|]. by apply fresh_inv.
  - by exists A', a'.
Qed.
End Session.
End Steps.

(** C12: however users, tasklets, interrupts and the work items of all open mailboxes are
    interleaved, the messages that were accepted for a mailbox are, in their order, those written
    to its hardware FIFO followed by those in its queue: nothing is lost, repeated or overtaken. *)
Theorem mailbox_send_order `{V : MboxView D} ops udelay `{L : !MboxDevice ops udelay}
    c ns fuel opened n A a s x :
  holds c ns A s -> A !! n = Some a -> Forall (fun k => is_Some (A !! k)) opened -> fresh a ->
  c < Z.of_nat fuel ->
  rtc (mail_step ops udelay fuel opened false n) (mkSession s WOff (fv_sent (a_view a))) x ->
  exists A' a', holds c ns A' (ss_mbx x) /\ A' !! n = Some a' /\
    fv_sent (a_view a') ++ a_txq a' = ss_accepted x.
Proof.
  intros H Ha Ho Hf Hl Hx. destruct (session_reach ops udelay c ns fuel opened false n A a s x H Ha Ho Hf Hl Hx)
    as (A' & a' & H' & Ha' & Hi). exists A', a'. split; [done|]. split; [done|]. apply Hi.
Qed.

(** C26: no wakeup is lost.  In every such history, messages that wait to be sent have the tasklet
    scheduled or the interrupt for space enabled; if the receive interrupt was enabled at first,
    it is, unless the handler has found the queue full; received messages have the work item
    scheduled or running; and if the queue was found full, the work item has a message to take
    or is on its way to enabling the interrupt again. *)
Theorem mailbox_no_lost_wakeup `{V : MboxView D} ops udelay `{L : !MboxDevice ops udelay}
    c ns fuel opened n A a s x :
  holds c ns A s -> A !! n = Some a -> Forall (fun k => is_Some (A !! k)) opened -> fresh a ->
  c < Z.of_nat fuel ->
  rtc (mail_step ops udelay fuel opened false n) (mkSession s WOff (fv_sent (a_view a))) x ->
  exists A' a', holds c ns A' (ss_mbx x) /\ A' !! n = Some a' /\
    (a_txq a' <> [] -> a_tasklet a' = true \/ fv_tx (a_view a') = true) /\
    (fv_rx (a_view a) = true -> fv_rx (a_view a') = true \/ a_full a' = true) /\
    (a_rxq a' <> [] -> a_work a' = true \/ ss_work x <> WOff) /\
    (a_full a' = true -> a_rxq a' <> [] \/ busy (ss_work x) = true).
Proof.
  intros H Ha Ho Hf Hl Hx. destruct (session_reach ops udelay c ns fuel opened false n A a s x H Ha Ho Hf Hl Hx)
    as (A' & a' & H' & Ha' & [_ I2 _ I4 I5 I6 _]). by exists A', a'.
Qed.

(** C27: messages are delivered in the order in which they come from the hardware, none twice:
    those delivered, the one the work item holds and those in the queue are a subsequence of
    those read.  If interrupts do not come between the parts of a round of the work item, none
    is lost. *)
Theorem mailbox_receive_order `{V : MboxView D} ops udelay `{L : !MboxDevice ops udelay}
    c ns fuel opened calm n A a s x :
  holds c ns A s -> A !! n = Some a -> Forall (fun k => is_Some (A !! k)) opened -> fresh a ->
  c < Z.of_nat fuel ->
  rtc (mail_step ops udelay fuel opened calm n) (mkSession s WOff (fv_sent (a_view a))) x ->
  exists A' a' got delivered, holds c ns A' (ss_mbx x) /\ A' !! n = Some a' /\
    fv_got (a_view a') = fv_got (a_view a) ++ got /\ a_delivered a' = a_delivered a ++ delivered /\
    delivered ++ in_hand (ss_work x) ++ a_rxq a' `sublist_of` got /\
    (calm = true -> delivered ++ in_hand (ss_work x) ++ a_rxq a' = got).
Proof.
  intros H Ha Ho Hf Hl Hx. destruct (session_reach ops udelay c ns fuel opened calm n A a s x H Ha Ho Hf Hl Hx)
    as (A' & a' & H' & Ha' & [_ _ (X & Y & E1 & E2 & E3 & E4) _ _ _ _]). by exists A', a', X, Y.
Qed.
