(* ===== verification/MailboxStartup.v ===== *)
(** * Opening and closing a mailbox

    [omap_mbox_startup] and [omap_mbox_fini]: opening a mailbox either sets everything up or
    gives back what it has taken and shuts the device down, and closing it again gives
    everything back. *)

From S2P Require Import Prelude Bytes Kfifo KfifoRing KfifoRefine Mailbox MailboxSpec MailboxRefine.

Section Startup.
Context {D : Type} (ops : omap_mbox_ops D) (udelay : Z -> M D unit).
Implicit Types (d : D) (bs : gmap string omap_mbox) (b : omap_mbox) (n : string) (iq : list (Z * string)).

(** ** The primitives on a state given by its fields *)

Lemma get_box_mk n b d bs l cf sz iq Q : bs !! n = Some b -> Q b (mkMbx d bs l cf sz iq) ->
  wp (get_box n) Q (mkMbx d bs l cf sz iq).
Proof. intros Hb HQ. unfold get_box. wp_pure. cbn [mb_boxes]. rewrite Hb. by apply (wp_deref _ b). Qed.

Lemma upd_box_mk n b g d bs l cf sz iq Q : bs !! n = Some b -> Q tt (mkMbx d (<[n := g b]> bs) l cf sz iq) ->
  wp (upd_box n g) Q (mkMbx d bs l cf sz iq).
Proof. intros Hb HQ. unfold upd_box. apply wp_bind, (get_box_mk n b); [done|]. exact HQ. Qed.

Lemma in_dev_mk {A} (m : M D A) d bs l cf sz iq Q :
  wp m (fun a d' => Q a (mkMbx d' bs l cf sz iq)) d -> wp (in_dev m) Q (mkMbx d bs l cf sz iq).
Proof. unfold wp, in_dev. cbn [mb_dev]. by destruct (m d). Qed.

(** What a queue holds that has just been allocated. *)
Definition empty_queue (c : Z) (q : omap_mbox_queue) : Prop :=
  exists f, q = mkQueue f false false false false /\ msgs_in c f [].

(** The number of messages that fit into a queue. *)
Definition queue_cap (size : Z) : Z := 2 ^ Z.log2 size / 4.

(** An allocator gives a block of the length that was asked for. *)
Definition heap_ok (h : heap) : Prop := forall k blk, 0 <= k -> hp_buffer h k = Some blk -> len blk = k.

(** The allocations for a queue of [sz] bytes succeed. *)
Definition gives (h : heap) (sz : Z) : Prop := hp_queue h = true /\ is_Some (hp_buffer h (2 ^ Z.log2 sz)).

Lemma alloc_gives kmalloc sz f : 4 <= sz < 2 ^ 32 ->
  wp (__kfifo_alloc kmalloc sz 1) (fun r _ => r = 0 <-> is_Some (kmalloc (2 ^ Z.log2 sz))) f.
Proof.
  intros Hs. unfold __kfifo_alloc. rewrite rounded_size by lia. wp_pure.
  assert (2 <= Z.log2 sz < 32) as Hl.
  { split; [change 2 with (Z.log2 4); apply Z.log2_le_mono; lia | apply Z.log2_lt_pow2; lia]. }
  pose proof (Z.pow_le_mono_r 2 2 (Z.log2 sz) ltac:(lia) ltac:(lia)) as H4.
  pose proof (Z.pow_lt_mono_r 2 (Z.log2 sz) 32 ltac:(lia) ltac:(lia) ltac:(lia)) as H32.
  rewrite (proj2 (Z.ltb_ge _ _)) by lia. rewrite Z.mul_1_r, (wrapu_small 32) by (split; lia). wp_pure.
  destruct (kmalloc _) as [blk|]; wp_pure; [by split; eauto|]. split; [done | by intros [? [=]]].
Qed.

Lemma queue_alloc_wp h d bs l cf sz iq : 4 <= sz < 2 ^ 32 -> heap_ok h ->
  wp (mbox_queue_alloc h) (fun o s' => s' = mkMbx d bs l cf sz iq /\
    match o with None => ~ gives h sz | Some q => gives h sz /\ empty_queue (queue_cap sz) q end) (mkMbx d bs l cf sz iq).
Proof.
  intros Hs Hh. unfold mbox_queue_alloc, gives. wp_pure. cbn [mb_kfifo_size].
  destruct (hp_queue h); cbn [negb]; [|by wp_pure; split; [done | by intros [? _]]].
  destruct (wp_run _ _ _ (alloc_wp (hp_buffer h) Hh (mkKfifo 0 0 0 0 None) sz 1 ltac:(lia) ltac:(lia) ltac:(lia)))
    as (r & f & E & Hr). pose proof (wp_done _ _ _ _ _ E (alloc_gives (hp_buffer h) sz _ Hs)) as Hg. cbv beta in Hg.
  rewrite E. wp_pure. split; [done|]. destruct (Z.eqb_spec r 0) as [->|Hne]; [|by intros [_ ?%Hg]].
  split; [split; [done | by apply Hg]|].
  destruct Hr as [(_ & Hf & Eb & Ee & Ec & _)|[[? _]|[? _]]]; [|done..]. exists f. split; [done|].
  split; try done. unfold queue_cap. rewrite Ec.
  assert (2 <= Z.log2 sz) as Hl by (change 2 with (Z.log2 4); apply Z.log2_le_mono; lia).
  replace (2 ^ Z.log2 sz) with (4 * 2 ^ (Z.log2 sz - 2)).
  - rewrite (Z.mul_comm 4), Z.div_mul by lia. lia.
  - change 4 with (2 ^ 2) at 1. rewrite <- Z.pow_add_r by lia. f_equal. lia.
Qed.

(** ** All or nothing *)

Definition set_open (tq rq : omap_mbox_queue) b : omap_mbox :=
  set_mx_rxq (Some rq) (set_mx_txq (Some tq) (set_mx_use_count 1 b)).

(** The mailbox [n] is open, with empty queues. *)
Definition opened_state (n : string) b (s s' : mbx D) : Prop := exists tq rq,
  empty_queue (queue_cap (mb_kfifo_size s)) tq /\ empty_queue (queue_cap (mb_kfifo_size s)) rq /\
  mb_boxes s' = <[n := set_open tq rq b]> (mb_boxes s) /\ mb_configured s' = mb_configured s + 1 /\
  mb_irqs s' = mb_irqs s ++ [(mx_irq b, n)] /\ mb_list s' = mb_list s /\ mb_kfifo_size s' = mb_kfifo_size s.

Section Open.
Context (n : string) (b : omap_mbox) (f : string -> M D Z) (g : string -> M D unit).

(** The device when the mailbox is to be set up, and what starting it has returned: it is
    started for the first mailbox that is opened. *)
Definition started (s : mbx D) (r1 : Z) (d1 : D) : Prop :=
  if mb_configured s =? 0 then f (mx_priv b) (mb_dev s) = Done r1 d1 else r1 = 0 /\ d1 = mb_dev s.

(** The ends of [omap_mbox_startup]: the device does not start; or the interrupt, the transmit
    queue or the receive queue cannot be had, and the device is shut down; or the mailbox is
    open.  The last failure leaves a pointer to the transmit queue, which was freed. *)
Inductive startup_spec (irq_status : Z) (htx hrx : heap) (s : mbx D) : Z -> mbx D -> Prop :=
| startup_device r1 d1 : started s r1 d1 -> r1 <> 0 -> startup_spec irq_status htx hrx s r1 (set_mb_dev d1 s)
| startup_irq d1 d2 : started s 0 d1 -> irq_status <> 0 -> g (mx_priv b) d1 = Done tt d2 ->
    startup_spec irq_status htx hrx s irq_status (set_mb_dev d2 s)
| startup_txq d1 d2 : started s 0 d1 -> irq_status = 0 -> ~ gives htx (mb_kfifo_size s) ->
    g (mx_priv b) d1 = Done tt d2 -> startup_spec irq_status htx hrx s (- ENOMEM) (set_mb_dev d2 s)
| startup_rxq d1 d2 x : started s 0 d1 -> irq_status = 0 -> gives htx (mb_kfifo_size s) ->
    ~ gives hrx (mb_kfifo_size s) -> g (mx_priv b) d1 = Done tt d2 -> mq_freed x = true ->
    startup_spec irq_status htx hrx s (- ENOMEM)
      (set_mb_dev d2 (set_mb_boxes (<[n := set_mx_txq (Some x) b]> (mb_boxes s)) s))
| startup_open s' : started s 0 (mb_dev s') -> irq_status = 0 -> gives htx (mb_kfifo_size s) ->
    gives hrx (mb_kfifo_size s) -> opened_state n b s s' -> startup_spec irq_status htx hrx s 0 s'.

(** The mailbox [n] is closed again: everything in the driver is as before, but for the pointers
    to the two queues, which were freed; the device was shut down if no other mailbox is open. *)
Definition closed_state (s s' : mbx D) : Prop := exists d1 x y,
  started s 0 d1 /\ (if mb_configured s =? 0 then g (mx_priv b) d1 = Done tt (mb_dev s') else mb_dev s' = d1) /\
  mq_freed x = true /\ mq_freed y = true /\
  mb_boxes s' = <[n := set_mx_rxq (Some y) (set_mx_txq (Some x) b)]> (mb_boxes s) /\
  mb_configured s' = mb_configured s /\ mb_irqs s' = mb_irqs s /\ mb_list s' = mb_list s /\
  mb_kfifo_size s' = mb_kfifo_size s.

Hypotheses (Hf : op_startup ops = Some f) (Hg : op_shutdown ops = Some g).
Context (Hu : mx_use_count b = 0).

(** The device can be shut down in the state [d]. *)
Definition stops (d : D) : Prop := wp (g (mx_priv b)) (fun _ _ => True) d.

Lemma stops_run d : stops d -> exists d', g (mx_priv b) d = Done tt d'.
Proof. intros H. apply wp_run in H as ([] & d' & E & _). by exists d'. Qed.

Lemma fail_request_wp r d d2 bs l cf sz iq b1 : bs !! n = Some b1 -> 0 <= cf < 2 ^ 31 - 1 ->
  g (mx_priv b) d = Done tt d2 -> mx_use_count b1 = 1 -> mx_priv b1 = mx_priv b ->
  wp (fail_request_irq ops n r) (fun x s' => x = r /\
    s' = mkMbx d2 (<[n := set_mx_use_count 0 b1]> bs) l cf sz iq) (mkMbx d bs l (cf + 1) sz iq).
Proof.
  intros Hb Hcf Hsh Eu Ep. unfold fail_request_irq, fail_startup.
  apply wp_bind, (get_box_mk n b1); [done|]. rewrite Hg, Ep. apply wp_bind, in_dev_mk.
  unfold wp. rewrite Hsh. apply wp_bind, (upd_box_mk n b1); [done|].
  rewrite Eu. wp_pure. split; [done|].
  change (wraps 32 (1 - 1)) with 0. change (mb_configured (mkMbx _ _ _ ?x _ _)) with x.
  rewrite wraps_small, Z.add_simpl_r by lia. done.
Qed.

Lemma back_0 : set_mx_use_count 0 (set_mx_use_count 1 b) = b.
Proof. destruct b. cbn in *. by subst. Qed.

Lemma back_1 q : set_mx_use_count 0 (set_mx_txq q (set_mx_use_count 1 b)) = set_mx_txq q b.
Proof. destruct b. cbn in *. by subst. Qed.

Lemma queue_free_mk q x b1 d bs l cf sz iq Q : bs !! n = Some b1 -> queue_of q b1 = Some x -> mq_freed x = false ->
  (forall x', mq_freed x' = true -> Q tt (mkMbx d (<[n := set_queue q (Some x') b1]> bs) l cf sz iq)) ->
  wp (mbox_queue_free q n) Q (mkMbx d bs l cf sz iq).
Proof.
  intros Hb1 Hx Hfr HQ. unfold mbox_queue_free, in_fifo, get_queue, upd_queue, get_queue. wp_pure.
  apply (get_box_mk n b1); [done|]. apply wp_bind, (wp_deref _ x); [done|]. rewrite Hfr. wp_pure.
  unfold __kfifo_free, modify. cbv beta iota. wp_pure.
  apply (get_box_mk n b1); [done|]. apply wp_bind, (wp_deref _ x); [done|]. rewrite Hfr. wp_pure.
  apply (upd_box_mk n b1); [done|]. wp_pure. set (x1 := set_mq_fifo _ x).
  apply (get_box_mk n (set_queue q (Some x1) b1)); [apply lookup_insert_eq|].
  apply wp_bind, (wp_deref _ x1); [by destruct q|]. change (mq_freed x1) with (mq_freed x). rewrite Hfr. wp_pure.
  apply (upd_box_mk n (set_queue q (Some x1) b1)); [apply lookup_insert_eq|].
  rewrite insert_insert_eq. specialize (HQ (set_mq_freed true x1) eq_refl). by destruct q.
Qed.

Lemma free_irq_last iq : (mx_irq b, n) ∉ iq ->
  filter (fun p => p <> (mx_irq b, n)) (iq ++ [(mx_irq b, n)]) = iq.
Proof.
  intros Hni. rewrite filter_app, filter_cons_False, filter_nil, app_nil_r by (intros H; by apply H).
  induction iq as [|p iq IH]; [done|]. apply not_elem_of_cons in Hni as [Hp Hni].
  rewrite filter_cons_True by done. by rewrite IH.
Qed.

(** The device is started when the first mailbox is opened. *)
Lemma startup_dev_wp s cf : mb_configured s = cf ->
  (cf = 0 -> wp (f (mx_priv b)) (fun r d' => r = 0 -> stops d') (mb_dev s)) -> (cf <> 0 -> stops (mb_dev s)) ->
  wp (if cf =? 0 then
        match op_startup ops with
        | Some f => r ← in_dev (f (mx_priv b)); ret (r, negb (r =? 0))
        | None => ret (0, true)
        end
      else ret (0, false))
    (fun x s' => exists d1, s' = set_mb_dev d1 (set_mb_configured (cf + 1) s) /\ started s x.1 d1 /\
      x.2 = negb (x.1 =? 0) /\ (x.1 = 0 -> stops d1))
    (set_mb_configured (cf + 1) s).
Proof.
  intros Ecf H0 H1. unfold started. rewrite Ecf. destruct (Z.eqb_spec cf 0) as [E|Hne].
  - rewrite Hf. apply wp_bind. destruct (wp_run _ _ _ (H0 E)) as (r & d1 & Er & Hr).
    unfold wp, in_dev. change (mb_dev (set_mb_configured _ s)) with (mb_dev s). rewrite Er. cbn. by exists d1.
  - wp_pure. exists (mb_dev s). split_and!; try done. intros _. by apply H1.
Qed.

(** The interrupt handler and the queues. *)
Lemma queues_wp irq_status htx hrx s d1 :
  mb_boxes s !! n = Some b -> 0 <= mb_configured s < 2 ^ 31 - 1 -> 4 <= mb_kfifo_size s < 2 ^ 32 ->
  heap_ok htx -> heap_ok hrx -> (mx_irq b, n) ∉ mb_irqs s -> started s 0 d1 -> stops d1 ->
  wp (r ← request_irq irq_status (mx_irq b) n;
      if negb (r =? 0) then fail_request_irq ops n r else
      mq ← mbox_queue_alloc htx;
      match mq with
      | None => free_irq (mx_irq b) n;; fail_request_irq ops n (- ENOMEM)
      | Some _ =>
          upd_box n (set_mx_txq mq);;
          mq ← mbox_queue_alloc hrx;
          match mq with
          | None => mbox_queue_free IRQ_TX n;; free_irq (mx_irq b) n;; fail_request_irq ops n (- ENOMEM)
          | Some _ => upd_box n (set_mx_rxq mq);; ret 0
          end
      end)
    (startup_spec irq_status htx hrx s)
    (mkMbx d1 (<[n := set_mx_use_count 1 b]> (mb_boxes s)) (mb_list s) (mb_configured s + 1) (mb_kfifo_size s) (mb_irqs s)).
Proof.
  destruct s as [d bs l cf sz iq]. cbn [mb_boxes mb_configured mb_kfifo_size mb_irqs mb_list mb_dev].
  intros Hb Hcf Hsz Htx Hrx Hni Hst (d2 & Hd2)%stops_run.
  unfold request_irq. wp_pure. destruct (Z.eqb_spec irq_status 0) as [->|Hne]; cbn [negb]; wp_pure.
  2: { rewrite (proj2 (Z.eqb_neq irq_status 0) Hne). cbn [negb].
       eapply wp_mono; [by apply (fail_request_wp irq_status d1 d2); [apply lookup_insert_eq|..]|]. intros x s' [-> ->].
       rewrite insert_insert_eq, back_0, insert_id by done. by eapply (startup_irq _ _ _ (mkMbx d bs l cf sz iq)). }
  change (negb (0 =? 0)) with false. wp_pure.
  change (set_mb_irqs _ _) with (mkMbx d1 (<[n := set_mx_use_count 1 b]> bs) l (cf + 1) sz (iq ++ [(mx_irq b, n)])).
  eapply wp_mono; [by apply queue_alloc_wp|]. intros [tq|] s2 [-> Htq].
  2: { unfold free_irq. wp_pure. change (set_mb_irqs ?x (mkMbx ?d ?bs ?l ?cf ?sz _)) with (mkMbx d bs l cf sz x).
       cbn [mb_irqs]. rewrite free_irq_last by done.
       eapply wp_mono; [by apply (fail_request_wp (- ENOMEM) d1 d2); [apply lookup_insert_eq|..]|]. intros x s' [-> ->].
       rewrite insert_insert_eq, back_0, insert_id by done. by eapply (startup_txq _ _ _ (mkMbx d bs l cf sz iq)). }
  destruct Htq as [Hgt Htq].
  apply wp_bind, (upd_box_mk n (set_mx_use_count 1 b)); [apply lookup_insert_eq|]. rewrite insert_insert_eq. apply wp_bind.
  eapply wp_mono; [by apply queue_alloc_wp|]. intros [rq|] s3 [-> Hrq].
  2: { apply wp_bind. eapply (queue_free_mk IRQ_TX tq); [apply lookup_insert_eq | done | by destruct Htq as (? & -> & _)|].
       intros x' Hx'. unfold free_irq. wp_pure.
       change (set_mb_irqs ?x (mkMbx ?d ?bs ?l ?cf ?sz _)) with (mkMbx d bs l cf sz x). cbn [mb_irqs].
       rewrite free_irq_last, insert_insert_eq by done.
       eapply wp_mono; [by apply (fail_request_wp (- ENOMEM) d1 d2); [apply lookup_insert_eq|..]|]. intros x s' [-> ->].
       rewrite insert_insert_eq. change (set_queue IRQ_TX (Some x') (set_mx_txq (Some tq) ?b)) with (set_mx_txq (Some x') b).
       rewrite back_1. by eapply (startup_rxq _ _ _ (mkMbx d bs l cf sz iq)). }
  destruct Hrq as [Hgr Hrq].
  apply wp_bind, (upd_box_mk n (set_mx_txq (Some tq) (set_mx_use_count 1 b))); [apply lookup_insert_eq|].
  rewrite insert_insert_eq. wp_pure. apply startup_open; try done. by exists tq, rq.
Qed.

(** What opening a mailbox relies on: nobody has opened it, there is no handler for it, and the
    device can be shut down once it has been started. *)
Record can_open (htx hrx : heap) (s : mbx D) : Prop := {
  co_box : mb_boxes s !! n = Some b;
  co_configured : 0 <= mb_configured s < 2 ^ 31 - 1;
  co_size : 4 <= mb_kfifo_size s < 2 ^ 32;
  co_tx : heap_ok htx;
  co_rx : heap_ok hrx;
  co_irqs : (mx_irq b, n) ∉ mb_irqs s;
  co_first : mb_configured s = 0 -> wp (f (mx_priv b)) (fun r d' => r = 0 -> stops d') (mb_dev s);
  co_more : mb_configured s <> 0 -> stops (mb_dev s)
}.

Lemma startup_wp irq_status htx hrx s : can_open htx hrx s ->
  wp (omap_mbox_startup ops irq_status htx hrx n) (startup_spec irq_status htx hrx s) s.
Proof.
  intros [Hb Hcf Hsz Htx Hrx Hni H0 H1]. unfold omap_mbox_startup. destruct s as [d bs l cf sz iq].
  apply wp_bind, (get_box_mk n b); [done|]. wp_pure. cbn [mb_configured] in *. rewrite wraps_small by lia.
  eapply wp_mono; [by apply (startup_dev_wp (mkMbx d bs l cf sz iq) cf)|].
  intros [r failed] s1 (d1 & -> & Hst & Ef & Hs). cbn [fst snd] in *. subst failed.
  change (set_mb_dev d1 (set_mb_configured (cf + 1) _)) with (mkMbx d1 bs l (cf + 1) sz iq).
  destruct (Z.eqb_spec r 0) as [->|Hne]; cbn [negb].
  2: { unfold fail_startup. wp_pure. change (mb_configured (mkMbx _ _ _ ?x _ _)) with x.
       rewrite wraps_small, Z.add_simpl_r by lia. by apply (startup_device _ _ _ (mkMbx d bs l cf sz iq)). }
  rewrite Hu. apply wp_bind, (upd_box_mk n b); [done|]. rewrite Hu. change (wraps 32 (0 + 1)) with 1. cbn [Z.eqb].
  apply (queues_wp irq_status htx hrx (mkMbx d bs l cf sz iq) d1); try done. by apply Hs.
Qed.

Lemma back_open x y q q' : set_queue IRQ_RX (Some y) (set_queue IRQ_TX (Some x) (set_mx_use_count 0 (set_open q q' b))) =
  set_mx_rxq (Some y) (set_mx_txq (Some x) b).
Proof. destruct b. cbn in *. by subst. Qed.

(** Closing a mailbox that has not been used. *)
Lemma fini_wp fuel s s1 : mb_boxes s !! n = Some b -> 0 <= mb_configured s < 2 ^ 31 - 1 -> (mx_irq b, n) ∉ mb_irqs s ->
  opened_state n b s s1 -> started s 0 (mb_dev s1) -> (mb_configured s = 0 -> stops (mb_dev s1)) ->
  wp (omap_mbox_fini ops udelay fuel n) (fun _ s' => closed_state s s') s1.
Proof.
  destruct s as [d bs l cf sz iq], s1 as [d1 bs1 l1 cf1 sz1 iq1]. unfold opened_state.
  cbn [mb_boxes mb_configured mb_kfifo_size mb_irqs mb_dev mb_list].
  intros Hb Hcf Hni (tq & rq & (ft & -> & _) & (fr & -> & _) & -> & -> & -> & -> & ->) Hst Hd1. unfold omap_mbox_fini.
  set (q1 := mkQueue ft _ _ _ _). set (q2 := mkQueue fr _ _ _ _).
  apply wp_bind, (upd_box_mk n (set_open q1 q2 b)); [apply lookup_insert_eq|].
  rewrite insert_insert_eq. change (mx_use_count (set_open _ _ b)) with 1. change (wraps 32 (1 - 1)) with 0.
  set (b1 := set_mx_use_count 0 _). apply wp_bind, (get_box_mk n b1); [apply lookup_insert_eq|].
  change (mx_use_count b1 =? 0) with true. unfold free_irq, run_tasklet, run_work, get_queue. wp_pure.
  change (mx_irq b1) with (mx_irq b). change (set_mb_irqs ?x (mkMbx ?d ?bs ?l ?cf ?sz _)) with (mkMbx d bs l cf sz x).
  cbn [mb_irqs]. rewrite free_irq_last by done.
  apply (get_box_mk n b1); [apply lookup_insert_eq|]. apply wp_bind, (wp_deref _ q1); [done|].
  change (mq_freed q1) with false. wp_pure. change (mq_tasklet q1) with false. wp_pure.
  apply (get_box_mk n b1); [apply lookup_insert_eq|]. apply wp_bind, (wp_deref _ q2); [done|].
  change (mq_freed q2) with false. wp_pure. change (mq_work q2) with false. wp_pure.
  apply (queue_free_mk IRQ_TX q1 b1); [apply lookup_insert_eq | done | done|]. intros x Hx.
  rewrite insert_insert_eq. apply (queue_free_mk IRQ_RX q2 (set_queue IRQ_TX (Some x) b1));
    [apply lookup_insert_eq | done | done|]. intros y Hy. rewrite insert_insert_eq. unfold b1. rewrite back_open.
  rewrite Hg. wp_pure. change (mb_configured (mkMbx _ _ _ ?x _ _)) with x. rewrite wraps_small, Z.add_simpl_r by lia.
  change (set_mb_configured ?x (mkMbx ?d ?bs ?l _ ?sz ?iq)) with (mkMbx d bs l x sz iq). wp_pure.
  cbn [mb_configured]. unfold closed_state. cbn [mb_boxes mb_configured mb_kfifo_size mb_irqs mb_dev mb_list].
  destruct (Z.eqb_spec cf 0) as [E|Hne]; wp_pure; [|by exists d1, x, y].
  apply in_dev_mk. destruct (stops_run _ (Hd1 E)) as [d2 Hd2]. unfold wp. change (mx_priv (set_mx_use_count 0 _)) with (mx_priv b). rewrite Hd2.
  by exists d1, x, y.
Qed.


End Open.
End Startup.
