(* ===== verification/Omap2Mailbox.v ===== *)
(** * The mailbox hardware

    mach-omap2/mailbox.c for the TI81xx: the operations that Mailbox.v works on, the tables of
    the three mailboxes, and the platform driver.

    The static variables [mbox_base] and [mbox_ick_handle] are fields of [omap2_mbox]; a
    [struct omap_mbox2_priv] is known by its name. *)

From S2P Require Import Prelude Platform ClkCore Clkdev Resource Kfifo Mailbox.

Definition MAILBOX_REVISION : Z := 0x000.
Definition MAILBOX_SYSCONFIG : Z := 0x010.
Definition MAILBOX_SYSSTATUS : Z := 0x014.
Definition MAILBOX_MESSAGE (m : Z) : Z := 0x040 + 4 * m.
Definition MAILBOX_FIFOSTATUS (m : Z) : Z := 0x080 + 4 * m.
Definition MAILBOX_MSGSTATUS (m : Z) : Z := 0x0c0 + 4 * m.
Definition OMAP4_MAILBOX_IRQSTATUS (u : Z) : Z := 0x104 + 10 * u.
Definition OMAP4_MAILBOX_IRQENABLE (u : Z) : Z := 0x108 + 10 * u.
Definition OMAP4_MAILBOX_IRQENABLE_CLR (u : Z) : Z := 0x10c + 10 * u.
Definition MAILBOX_IRQ_NEWMSG (m : Z) : Z := Z.shiftl 1 (2 * m).
Definition MAILBOX_IRQ_NOTFULL (m : Z) : Z := Z.shiftl 1 (2 * m + 1).

Definition AUTOIDLE : Z := Z.shiftl 1 0.
Definition SOFTRESET : Z := Z.shiftl 1 1.
Definition SMARTIDLE : Z := Z.shiftl 2 3.
Definition OMAP4_SOFTRESET : Z := Z.shiftl 1 0.
Definition OMAP4_SMARTIDLE : Z := Z.shiftl 2 2.
Definition RESETDONE : Z := Z.shiftl 1 0.

Definition MBOX_NR_REGS : nat := Z.to_nat (0x120 / 4).
Definition OMAP4_MBOX_NR_REGS : nat := Z.to_nat (0x130 / 4).
Definition TI81XX_MBOX_NR_REGS : nat := Z.to_nat (0x144 / 4).

#[local] Set Primitive Projections.

Record omap_mbox2_fifo := mkFifo2 { fi_msg : Z; fi_fifo_stat : Z; fi_msg_stat : Z }.

Record omap_mbox2_priv := mkPriv {
  pv_tx_fifo : omap_mbox2_fifo;
  pv_rx_fifo : omap_mbox2_fifo;
  pv_irqenable : Z;
  pv_irqstatus : Z;
  pv_newmsg_bit : Z;  (* u32 *)
  pv_notfull_bit : Z;  (* u32 *)
  pv_ctx : list Z;  (* u32[TI81XX_MBOX_NR_REGS] *)
  pv_irqdisable : Z
}.

Definition set_pv_ctx : list Z -> omap_mbox2_priv -> omap_mbox2_priv :=
  Eval cbv beta zeta in ltac:(record_setter pv_ctx).

Record omap2_mbox := mkOmap2 {
  om_w : world;
  om_base : Z;
  om_ick : option string;
  om_privs : gmap string omap_mbox2_priv
}.

Definition set_om_w : world -> omap2_mbox -> omap2_mbox := Eval cbv beta zeta in ltac:(record_setter om_w).
Definition set_om_base : Z -> omap2_mbox -> omap2_mbox := Eval cbv beta zeta in ltac:(record_setter om_base).
Definition set_om_ick : option string -> omap2_mbox -> omap2_mbox :=
  Eval cbv beta zeta in ltac:(record_setter om_ick).
Definition set_om_privs : gmap string omap_mbox2_priv -> omap2_mbox -> omap2_mbox :=
  Eval cbv beta zeta in ltac:(record_setter om_privs).

#[local] Unset Primitive Projections.

(** A call into the clock framework or an access to a register. *)
Definition in_world {A} (m : M world A) : M omap2_mbox A := fun d =>
  match m (om_w d) with Done a w => Done a (set_om_w w d) | Fault e => Fault e end.

Definition get_priv (p : string) : M omap2_mbox omap_mbox2_priv := r ← gets (fun d => om_privs d !! p); deref r.

(** [(irq == IRQ_TX) ? p->notfull_bit : p->newmsg_bit] *)
Definition irq_bit (pr : omap_mbox2_priv) (irq : mbox_irq) : Z :=
  match irq with IRQ_TX => pv_notfull_bit pr | IRQ_RX => pv_newmsg_bit pr end.

Section Omap2.
  Context `{SOC : Soc} `{HW : Hardware}.
Variable arch_clock : clk_functions.
(** The number of reads that fit into the 20 milliseconds of a reset, less one. *)
Variable polls : nat.

Definition mbox_read_reg (ofs : Z) : M omap2_mbox Z :=
  base ← gets (fun d => om_base d); in_world (__raw_readl (base + ofs)).
Definition mbox_write_reg (val ofs : Z) : M omap2_mbox unit :=
  base ← gets (fun d => om_base d); in_world (__raw_writel val (base + ofs)).

Definition mbox_udelay (us : Z) : M omap2_mbox unit := in_world (udelay us).

(** ** Interrupts *)

Definition omap2_mbox_enable_irq (p : string) (irq : mbox_irq) : M omap2_mbox unit :=
  pr ← get_priv p;
  let bit := irq_bit pr irq in
  l ← mbox_read_reg (pv_irqenable pr);
  let l := if cpu_is_ti81xx then bit else Z.lor l bit in
  mbox_write_reg l (pv_irqenable pr).

Definition omap2_mbox_disable_irq (p : string) (irq : mbox_irq) : M omap2_mbox unit :=
  pr ← get_priv p;
  let bit := irq_bit pr irq in
  l ← mbox_read_reg (pv_irqdisable pr);
  let l := if cpu_is_ti81xx then bit else Z.land l (u32 (Z.lnot bit)) in
  mbox_write_reg l (pv_irqdisable pr).

Definition omap2_mbox_ack_irq (p : string) (irq : mbox_irq) : M omap2_mbox unit :=
  pr ← get_priv p;
  mbox_write_reg (irq_bit pr irq) (pv_irqstatus pr);;
  mbox_read_reg (pv_irqstatus pr);;
  ret tt.

Definition omap2_mbox_is_irq (p : string) (irq : mbox_irq) : M omap2_mbox Z :=
  pr ← get_priv p;
  enable ← mbox_read_reg (pv_irqenable pr);
  status ← mbox_read_reg (pv_irqstatus pr);
  ret (wraps 32 (Z.land (Z.land enable status) (irq_bit pr irq))).

(** ** Preparing the hardware *)

(** The loop on the register [reg] that ends when [ready] or after [polls + 1] reads. *)
Fixpoint mbox_reset_loop (n : nat) (reg : Z) (ready : Z -> bool) : M omap2_mbox Z :=
  l ← mbox_read_reg reg;
  if ready l then ret l else
  match n with O => ret l | S n' => mbox_reset_loop n' reg ready end.

Definition omap2_mbox_reset : M omap2_mbox bool :=
  if cpu_is_omap44xx || cpu_is_ti81xx then
    mbox_write_reg OMAP4_SOFTRESET MAILBOX_SYSCONFIG;;
    l ← mbox_reset_loop polls MAILBOX_SYSCONFIG (fun l => Z.land l OMAP4_SOFTRESET =? 0);
    ret (Z.land l OMAP4_SOFTRESET =? 0)
  else
    mbox_write_reg SOFTRESET MAILBOX_SYSCONFIG;;
    l ← mbox_reset_loop polls MAILBOX_SYSSTATUS (fun l => negb (Z.land l RESETDONE =? 0));
    ret (negb (Z.land l RESETDONE =? 0)).

(** An error pointer of [clk_get] is -ENOENT. *)
Definition omap2_mbox_startup (p : string) : M omap2_mbox Z :=
  ick ← in_world (clk_get None (Some (if cpu_is_ti81xx then "mailbox_ick" else "mailboxes_ick")));
  modify (set_om_ick ick);;
  match ick with
  | None => ret (- ENOENT)
  | Some _ =>
      in_world (clk_enable arch_clock ick);;
      ready ← omap2_mbox_reset;
      if negb ready then ret (- ENODEV) else
      mbox_read_reg MAILBOX_REVISION;;
      mbox_write_reg (if cpu_is_omap44xx || cpu_is_ti81xx then OMAP4_SMARTIDLE else Z.lor SMARTIDLE AUTOIDLE)
        MAILBOX_SYSCONFIG;;
      omap2_mbox_enable_irq p IRQ_RX;;
      ret 0
  end.

(** [clk_put] does nothing on this machine. *)
Definition omap2_mbox_shutdown (p : string) : M omap2_mbox unit :=
  ick ← gets (fun d => om_ick d);
  in_world (clk_disable arch_clock ick);;
  modify (set_om_ick None).

(** ** The hardware FIFOs *)

Definition omap2_mbox_fifo_read (p : string) : M omap2_mbox Z :=
  pr ← get_priv p; mbox_read_reg (fi_msg (pv_rx_fifo pr)).

Definition omap2_mbox_fifo_write (p : string) (msg : Z) : M omap2_mbox unit :=
  pr ← get_priv p; mbox_write_reg msg (fi_msg (pv_tx_fifo pr)).

Definition omap2_mbox_fifo_empty (p : string) : M omap2_mbox Z :=
  pr ← get_priv p;
  v ← mbox_read_reg (fi_msg_stat (pv_rx_fifo pr));
  ret (if v =? 0 then 1 else 0).

Definition omap2_mbox_fifo_full (p : string) : M omap2_mbox Z :=
  pr ← get_priv p; v ← mbox_read_reg (fi_fifo_stat (pv_tx_fifo pr)); ret (wraps 32 v).

(** ** Saving and restoring the registers *)

Definition nr_regs : nat :=
  if cpu_is_omap44xx then OMAP4_MBOX_NR_REGS
  else if cpu_is_ti81xx then TI81XX_MBOX_NR_REGS else MBOX_NR_REGS.

Definition omap2_mbox_save_ctx (p : string) : M omap2_mbox unit :=
  for_each (seq 0 nr_regs) (fun i =>
    v ← mbox_read_reg (Z.of_nat i * 4);
    pr ← get_priv p;
    ctx ← aset (pv_ctx pr) (Z.of_nat i) v;
    modify (fun d => set_om_privs (<[p := set_pv_ctx ctx pr]> (om_privs d)) d)).

Definition omap2_mbox_restore_ctx (p : string) : M omap2_mbox unit :=
  for_each (seq 0 nr_regs) (fun i =>
    pr ← get_priv p;
    v ← aget (pv_ctx pr) (Z.of_nat i);
    mbox_write_reg v (Z.of_nat i * 4)).

Definition omap2_mbox_ops : omap_mbox_ops omap2_mbox := {|
  op_type := OMAP_MBOX_TYPE2;
  op_startup := Some omap2_mbox_startup;
  op_shutdown := Some omap2_mbox_shutdown;
  op_fifo_read := omap2_mbox_fifo_read;
  op_fifo_write := omap2_mbox_fifo_write;
  op_fifo_empty := omap2_mbox_fifo_empty;
  op_fifo_full := omap2_mbox_fifo_full;
  op_enable_irq := omap2_mbox_enable_irq;
  op_disable_irq := omap2_mbox_disable_irq;
  op_ack_irq := Some omap2_mbox_ack_irq;
  op_is_irq := omap2_mbox_is_irq;
  op_save_ctx := Some omap2_mbox_save_ctx;
  op_restore_ctx := Some omap2_mbox_restore_ctx
|}.

(** ** The mailboxes of the TI81xx *)

Definition omap2_mbox_ti81xx_dsp_priv : omap_mbox2_priv := {|
  pv_tx_fifo := mkFifo2 (MAILBOX_MESSAGE 3) (MAILBOX_FIFOSTATUS 3) 0;
  pv_rx_fifo := mkFifo2 (MAILBOX_MESSAGE 0) 0 (MAILBOX_MSGSTATUS 0);
  pv_irqenable := OMAP4_MAILBOX_IRQENABLE 0;
  pv_irqstatus := OMAP4_MAILBOX_IRQSTATUS 0;
  pv_notfull_bit := MAILBOX_IRQ_NOTFULL 3;
  pv_newmsg_bit := MAILBOX_IRQ_NEWMSG 0;
  pv_ctx := replicate TI81XX_MBOX_NR_REGS 0;
  pv_irqdisable := OMAP4_MAILBOX_IRQENABLE_CLR 0
|}.

Definition omap2_mbox_ti81xx_video_priv : omap_mbox2_priv := {|
  pv_tx_fifo := mkFifo2 (MAILBOX_MESSAGE 4) (MAILBOX_FIFOSTATUS 4) 0;
  pv_rx_fifo := mkFifo2 (MAILBOX_MESSAGE 6) 0 (MAILBOX_MSGSTATUS 6);
  pv_irqenable := OMAP4_MAILBOX_IRQENABLE 0;
  pv_irqstatus := OMAP4_MAILBOX_IRQSTATUS 0;
  pv_notfull_bit := MAILBOX_IRQ_NOTFULL 4;
  pv_newmsg_bit := MAILBOX_IRQ_NEWMSG 6;
  pv_ctx := replicate TI81XX_MBOX_NR_REGS 0;
  pv_irqdisable := OMAP4_MAILBOX_IRQENABLE_CLR 0
|}.

Definition omap2_mbox_ti81xx_vpss_priv : omap_mbox2_priv := {|
  pv_tx_fifo := mkFifo2 (MAILBOX_MESSAGE 5) (MAILBOX_FIFOSTATUS 5) 0;
  pv_rx_fifo := mkFifo2 (MAILBOX_MESSAGE 8) 0 (MAILBOX_MSGSTATUS 8);
  pv_irqenable := OMAP4_MAILBOX_IRQENABLE 0;
  pv_irqstatus := OMAP4_MAILBOX_IRQSTATUS 0;
  pv_notfull_bit := MAILBOX_IRQ_NOTFULL 5;
  pv_newmsg_bit := MAILBOX_IRQ_NEWMSG 8;
  pv_ctx := replicate TI81XX_MBOX_NR_REGS 0;
  pv_irqdisable := OMAP4_MAILBOX_IRQENABLE_CLR 0
|}.

Definition ti81xx_privs : gmap string omap_mbox2_priv := list_to_map
  [("omap2_mbox_ti81xx_dsp_priv", omap2_mbox_ti81xx_dsp_priv);
   ("omap2_mbox_ti81xx_video_priv", omap2_mbox_ti81xx_video_priv);
   ("omap2_mbox_ti81xx_vpss_priv", omap2_mbox_ti81xx_vpss_priv)].

Definition mbox_ti81xx_dsp_info : omap_mbox :=
  mkMbox "mailbox-dsp" 0 None None false "omap2_mbox_ti81xx_dsp_priv" 0 [] [].
Definition mbox_ti81xx_video_info : omap_mbox :=
  mkMbox "mailbox-video" 0 None None false "omap2_mbox_ti81xx_video_priv" 0 [] [].
Definition mbox_ti81xx_vpss_info : omap_mbox :=
  mkMbox "mailbox-vpss" 0 None None false "omap2_mbox_ti81xx_vpss_priv" 0 [] [].

Definition ti81xx_boxes : gmap string omap_mbox := list_to_map
  [("mbox_ti81xx_dsp_info", mbox_ti81xx_dsp_info);
   ("mbox_ti81xx_video_info", mbox_ti81xx_video_info);
   ("mbox_ti81xx_vpss_info", mbox_ti81xx_vpss_info)].

Definition ti81xx_mboxes : list string :=
  ["mbox_ti81xx_dsp_info"; "mbox_ti81xx_video_info"; "mbox_ti81xx_vpss_info"].

(** ** The platform driver *)

(** [irq] is the interrupt of the device, [mem] its registers, [mapped] the result of [ioremap],
    and [created] that of [device_create]. *)
Definition omap2_mbox_probe (irq : Z) (mem : option resource) (mapped : option Z) (created : string -> Z)
    : M (mbx omap2_mbox) Z :=
  if cpu_is_ti81xx then
    for_each ti81xx_mboxes (fun n => upd_box n (set_mx_irq (u32 irq)));;
    mem ← deref mem;
    in_dev (modify (set_om_base (default 0 mapped)));;
    match mapped with
    | None => ret (- ENOMEM)
    | Some _ =>
        r ← omap_mbox_register created (Some ti81xx_mboxes);
        if negb (r =? 0) then ret r else ret 0
    end
  else ret (- ENODEV).

Definition omap2_mbox_remove : M (mbx omap2_mbox) Z :=
  omap_mbox_unregister;;
  ret 0.
End Omap2.
