(* ===== verification/MailboxDevice.v ===== *)
(** * The mailbox hardware keeps the laws of a mailbox device

    [MboxDevice] of MailboxSpec.v for the operations of mach-omap2/mailbox.c on the TI81xx: what
    a mailbox has sent, what it has got, what its status registers said last, which of its
    interrupts are enabled and which were acknowledged is read off the accesses to its registers. *)

From S2P Require Import Prelude Platform ClkCore Clkdev Resource Kfifo KfifoRefine Mailbox MailboxSpec Omap2Mailbox.

Implicit Types (h : list io_event) (pr : omap_mbox2_priv).

(** ** What the accesses to the registers say *)

(** The values written to and read from an address, oldest first. *)
Fixpoint written (a : Z) h : list Z :=
  match h with
  | [] => []
  | IoWrite b v :: h' => written a h' ++ (if b =? a then [v] else [])
  | _ :: h' => written a h'
  end.

Fixpoint received (a : Z) h : list Z :=
  match h with
  | [] => []
  | IoRead b v :: h' => received a h' ++ (if b =? a then [v] else [])
  | _ :: h' => received a h'
  end.

(** An interrupt is enabled by writing its bit to [en], and disabled by writing it to [dis] or by
    a reset of the module. *)
Fixpoint enabled (base en dis bit : Z) h : bool :=
  match h with
  | [] => false
  | IoWrite b v :: h' =>
      if (b =? base + en) && negb (Z.land v bit =? 0) then true
      else if (b =? base + dis) && negb (Z.land v bit =? 0) then false
      else if (b =? base + MAILBOX_SYSCONFIG) && negb (Z.land v OMAP4_SOFTRESET =? 0) then false
      else enabled base en dis bit h'
  | _ :: h' => enabled base en dis bit h'
  end.

Definition irq_enabled (base : Z) pr (irq : mbox_irq) h : bool :=
  enabled base (pv_irqenable pr) (pv_irqdisable pr) (irq_bit pr irq) h.

(** The interrupts of the mailbox whose bits were written to the status register, oldest first. *)
Fixpoint acks (base : Z) pr h : list mbox_irq :=
  match h with
  | [] => []
  | IoWrite b v :: h' => acks base pr h' ++
      (if b =? base + pv_irqstatus pr
       then filter (fun irq => Z.land v (irq_bit pr irq) <> 0) [IRQ_TX; IRQ_RX] else [])
  | _ :: h' => acks base pr h'
  end.

(** What the register answered when it was last read, if it ever was. *)
Definition last_read (a : Z) h : option Z := last (received a h).

(** The FIFO for sending is full if its status is not 0; the one for receiving is empty if the
    number of its messages is 0. *)
Definition priv_view (base : Z) pr h : fifo_view := {|
  fv_sent := written (base + fi_msg (pv_tx_fifo pr)) h;
  fv_got := received (base + fi_msg (pv_rx_fifo pr)) h;
  fv_tx := irq_enabled base pr IRQ_TX h;
  fv_rx := irq_enabled base pr IRQ_RX h;
  fv_full := match last_read (base + fi_fifo_stat (pv_tx_fifo pr)) h with Some v => negb (v =? 0) | None => false end;
  fv_empty := match last_read (base + fi_msg_stat (pv_rx_fifo pr)) h with Some v => v =? 0 | None => false end;
  fv_acked := acks base pr h
|}.

(** ** The registers do not overlap *)

Definition ctl_regs pr : list Z := [pv_irqenable pr; pv_irqdisable pr; pv_irqstatus pr].
Definition polled_regs pr : list Z := [fi_fifo_stat (pv_tx_fifo pr); fi_msg_stat (pv_rx_fifo pr)].

(** The registers of one mailbox, and of two mailboxes, which share the control registers. *)
Definition regs_sep pr pr' : bool :=
  bool_decide (fi_msg (pv_tx_fifo pr) ∉ MAILBOX_SYSCONFIG :: ctl_regs pr') &&
  bool_decide (fi_msg (pv_rx_fifo pr) ∉ ctl_regs pr' ++ polled_regs pr') &&
  bool_decide (MAILBOX_SYSCONFIG ∉ ctl_regs pr) &&
  bool_decide (pv_irqenable pr <> pv_irqdisable pr') &&
  bool_decide (pv_irqstatus pr ∉ [pv_irqenable pr'; pv_irqdisable pr']) &&
  bool_decide (fi_fifo_stat (pv_tx_fifo pr) ∉ fi_msg_stat (pv_rx_fifo pr') :: ctl_regs pr') &&
  bool_decide (fi_msg_stat (pv_rx_fifo pr) ∉ ctl_regs pr').

Definition bits_sep pr pr' : bool :=
  bool_decide (fi_msg (pv_tx_fifo pr) <> fi_msg (pv_tx_fifo pr')) &&
  bool_decide (fi_msg (pv_rx_fifo pr) <> fi_msg (pv_rx_fifo pr')) &&
  bool_decide (fi_fifo_stat (pv_tx_fifo pr) <> fi_fifo_stat (pv_tx_fifo pr')) &&
  bool_decide (fi_msg_stat (pv_rx_fifo pr) <> fi_msg_stat (pv_rx_fifo pr')) &&
  forallb (fun i => forallb (fun j => Z.land (irq_bit pr i) (irq_bit pr' j) =? 0) [IRQ_TX; IRQ_RX]) [IRQ_TX; IRQ_RX].

(** Each interrupt has one bit, and they are not the same. *)
Definition bits_own pr : bool :=
  (Z.land (pv_notfull_bit pr) (pv_newmsg_bit pr) =? 0) &&
  (pv_notfull_bit pr =? 2 ^ Z.log2 (pv_notfull_bit pr)) && (pv_newmsg_bit pr =? 2 ^ Z.log2 (pv_newmsg_bit pr)) &&
  bool_decide (Z.log2 (pv_notfull_bit pr) < 32) && bool_decide (Z.log2 (pv_newmsg_bit pr) < 32).

Definition privs_sep (m : gmap string omap_mbox2_priv) : Prop :=
  forall p q pr pr', m !! p = Some pr -> m !! q = Some pr' ->
    regs_sep pr pr' = true /\ bits_own pr = true /\ (p <> q -> bits_sep pr pr' = true).

Definition sep_facts pr pr' : Prop :=
  (fi_msg (pv_tx_fifo pr) <> MAILBOX_SYSCONFIG /\ fi_msg (pv_tx_fifo pr) <> pv_irqenable pr' /\
   fi_msg (pv_tx_fifo pr) <> pv_irqdisable pr' /\ fi_msg (pv_tx_fifo pr) <> pv_irqstatus pr') /\
  (fi_msg (pv_rx_fifo pr) <> pv_irqenable pr' /\ fi_msg (pv_rx_fifo pr) <> pv_irqdisable pr' /\
   fi_msg (pv_rx_fifo pr) <> pv_irqstatus pr' /\ fi_msg (pv_rx_fifo pr) <> fi_fifo_stat (pv_tx_fifo pr') /\
   fi_msg (pv_rx_fifo pr) <> fi_msg_stat (pv_rx_fifo pr')) /\
  (MAILBOX_SYSCONFIG <> pv_irqenable pr /\ MAILBOX_SYSCONFIG <> pv_irqdisable pr /\
   MAILBOX_SYSCONFIG <> pv_irqstatus pr) /\
  pv_irqenable pr <> pv_irqdisable pr' /\
  (pv_irqstatus pr <> pv_irqenable pr' /\ pv_irqstatus pr <> pv_irqdisable pr') /\
  (fi_fifo_stat (pv_tx_fifo pr) <> fi_msg_stat (pv_rx_fifo pr') /\ fi_fifo_stat (pv_tx_fifo pr) <> pv_irqenable pr' /\
   fi_fifo_stat (pv_tx_fifo pr) <> pv_irqdisable pr' /\ fi_fifo_stat (pv_tx_fifo pr) <> pv_irqstatus pr') /\
  (fi_msg_stat (pv_rx_fifo pr) <> pv_irqenable pr' /\ fi_msg_stat (pv_rx_fifo pr) <> pv_irqdisable pr' /\
   fi_msg_stat (pv_rx_fifo pr) <> pv_irqstatus pr').

Lemma regs_sep_facts pr pr' : regs_sep pr pr' = true -> sep_facts pr pr'.
Proof.
  unfold regs_sep, ctl_regs, polled_regs, sep_facts. cbn [app].
  rewrite !andb_true_iff, !bool_decide_eq_true, !not_elem_of_cons. tauto.
Qed.

Lemma bits_sep_facts pr pr' : bits_sep pr pr' = true ->
  (fi_msg (pv_tx_fifo pr) <> fi_msg (pv_tx_fifo pr') /\ fi_msg (pv_rx_fifo pr) <> fi_msg (pv_rx_fifo pr') /\
   fi_fifo_stat (pv_tx_fifo pr) <> fi_fifo_stat (pv_tx_fifo pr') /\
   fi_msg_stat (pv_rx_fifo pr) <> fi_msg_stat (pv_rx_fifo pr')) /\
  forall i j, Z.land (irq_bit pr i) (irq_bit pr' j) = 0.
Proof.
  unfold bits_sep. cbn [forallb]. rewrite !andb_true_iff, !bool_decide_eq_true, !Z.eqb_eq.
  intros H. split; [tauto|]. intros [] []; tauto.
Qed.

(** The bit of an interrupt. *)
Lemma own_bit pr irq : bits_own pr = true -> exists k, 0 <= k < 32 /\ irq_bit pr irq = 2 ^ k.
Proof.
  unfold bits_own. rewrite !andb_true_iff, !Z.eqb_eq, !bool_decide_eq_true. intros ((((_ & H1) & H2) & H3) & H4).
  destruct irq; [exists (Z.log2 (pv_notfull_bit pr)) | exists (Z.log2 (pv_newmsg_bit pr))];
    (split; [split; [apply Z.log2_nonneg | done] | done]).
Qed.

Lemma own_bits pr i j : bits_own pr = true -> (Z.land (irq_bit pr i) (irq_bit pr j) =? 0) = negb (bool_decide (i = j)).
Proof.
  intros Ho. destruct (own_bit pr i Ho) as (k & Hk & E). pose proof Ho as H. unfold bits_own in H.
  rewrite !andb_true_iff, Z.eqb_eq in H. destruct H as ((((H1 & _) & _) & _) & _).
  case_bool_decide as Hij.
  - subst j. rewrite Z.land_diag, E. apply Z.eqb_neq. pose proof (Z.pow_pos_nonneg 2 k). lia.
  - cbn [negb]. apply Z.eqb_eq. destruct i, j; cbn [irq_bit] in *; try done. by rewrite Z.land_comm.
Qed.

(** ** One access *)

Section View.
Context (base : Z) (pr : omap_mbox2_priv) (h : list io_event).

Lemma shift_ne x y : x <> y -> base + x <> base + y.
Proof. lia. Qed.

Ltac sep := apply shift_ne; first [tauto | apply not_eq_sym; tauto].

Lemma last_read_other a b v : a <> b -> last_read a (IoRead b v :: h) = last_read a h.
Proof. intros Hne. unfold last_read. cbn [received]. rewrite (proj2 (Z.eqb_neq _ _)) by done. by rewrite app_nil_r. Qed.

Lemma last_read_same a v : last_read a (IoRead a v :: h) = Some v.
Proof. unfold last_read. cbn [received]. by rewrite Z.eqb_refl, last_snoc. Qed.

Lemma view_read_other ofs v : fi_msg (pv_rx_fifo pr) <> ofs -> fi_fifo_stat (pv_tx_fifo pr) <> ofs ->
  fi_msg_stat (pv_rx_fifo pr) <> ofs ->
  priv_view base pr (IoRead (base + ofs) v :: h) = priv_view base pr h.
Proof.
  intros H1 H2 H3. unfold priv_view. rewrite !last_read_other by lia.
  cbn [written received irq_enabled enabled acks]. rewrite (proj2 (Z.eqb_neq _ _)) by lia. by rewrite app_nil_r.
Qed.

Lemma view_read_msg v : sep_facts pr pr ->
  priv_view base pr (IoRead (base + fi_msg (pv_rx_fifo pr)) v :: h) = push_got v (priv_view base pr h).
Proof.
  unfold sep_facts. intros Hs. unfold priv_view. rewrite !last_read_other by sep.
  cbn [written received irq_enabled enabled acks]. by rewrite Z.eqb_refl.
Qed.

Lemma view_read_full v : sep_facts pr pr ->
  priv_view base pr (IoRead (base + fi_fifo_stat (pv_tx_fifo pr)) v :: h) =
    saw_full (negb (v =? 0)) (priv_view base pr h).
Proof.
  unfold sep_facts. intros Hs. unfold priv_view. rewrite last_read_same, last_read_other by sep.
  cbn [written received irq_enabled enabled acks]. rewrite (proj2 (Z.eqb_neq _ _)) by sep. by rewrite app_nil_r.
Qed.

Lemma view_read_empty v : sep_facts pr pr ->
  priv_view base pr (IoRead (base + fi_msg_stat (pv_rx_fifo pr)) v :: h) =
    saw_empty (v =? 0) (priv_view base pr h).
Proof.
  unfold sep_facts. intros Hs. unfold priv_view. rewrite last_read_same, last_read_other by sep.
  cbn [written received irq_enabled enabled acks]. rewrite (proj2 (Z.eqb_neq _ _)) by sep. by rewrite app_nil_r.
Qed.

Lemma view_delay ns : priv_view base pr (IoDelay ns :: h) = priv_view base pr h.
Proof. done. Qed.

(** A write that has none of the bits of the mailbox. *)
Lemma view_write_bits ofs v : fi_msg (pv_tx_fifo pr) <> ofs -> MAILBOX_SYSCONFIG <> ofs ->
  (forall irq, Z.land v (irq_bit pr irq) = 0) ->
  priv_view base pr (IoWrite (base + ofs) v :: h) = priv_view base pr h.
Proof.
  intros Ht Hs Hb. unfold priv_view, irq_enabled, last_read. cbn [written received enabled acks].
  rewrite (proj2 (Z.eqb_neq (base + ofs) (base + fi_msg _))) by sep.
  rewrite (proj2 (Z.eqb_neq (base + ofs) (base + MAILBOX_SYSCONFIG))) by sep.
  rewrite !Hb. cbn [Z.eqb negb]. rewrite !andb_false_r, app_nil_r.
  rewrite !filter_cons_False, filter_nil by (rewrite Hb; tauto). destruct (base + ofs =? _); by rewrite app_nil_r.
Qed.

Lemma view_write_other ofs v : fi_msg (pv_tx_fifo pr) <> ofs -> MAILBOX_SYSCONFIG <> ofs ->
  pv_irqenable pr <> ofs -> pv_irqdisable pr <> ofs -> pv_irqstatus pr <> ofs ->
  priv_view base pr (IoWrite (base + ofs) v :: h) = priv_view base pr h.
Proof.
  intros Ht Hs He Hd Hst. unfold priv_view, irq_enabled, last_read. cbn [written received enabled acks].
  rewrite (proj2 (Z.eqb_neq (base + ofs) (base + fi_msg _))) by sep.
  rewrite (proj2 (Z.eqb_neq (base + ofs) (base + pv_irqenable pr))) by sep.
  rewrite (proj2 (Z.eqb_neq (base + ofs) (base + pv_irqdisable pr))) by sep.
  rewrite (proj2 (Z.eqb_neq (base + ofs) (base + pv_irqstatus pr))) by sep.
  rewrite (proj2 (Z.eqb_neq (base + ofs) (base + MAILBOX_SYSCONFIG))) by sep. by rewrite !app_nil_r.
Qed.

Lemma view_write_msg v : sep_facts pr pr ->
  priv_view base pr (IoWrite (base + fi_msg (pv_tx_fifo pr)) v :: h) = push_sent v (priv_view base pr h).
Proof.
  unfold sep_facts. intros Hs. unfold priv_view, irq_enabled, last_read. cbn [written received enabled acks].
  rewrite Z.eqb_refl.
  rewrite (proj2 (Z.eqb_neq _ (base + pv_irqenable pr))) by sep.
  rewrite (proj2 (Z.eqb_neq _ (base + pv_irqdisable pr))) by sep.
  rewrite (proj2 (Z.eqb_neq _ (base + pv_irqstatus pr))) by sep.
  rewrite (proj2 (Z.eqb_neq _ (base + MAILBOX_SYSCONFIG))) by sep. by rewrite app_nil_r.
Qed.

(** Writing the bit of an interrupt to the register that enables or disables it. *)
Lemma view_arm irq (b : bool) : sep_facts pr pr -> bits_own pr = true ->
  priv_view base pr (IoWrite (base + (if b then pv_irqenable pr else pv_irqdisable pr)) (irq_bit pr irq) :: h) =
    arm irq b (priv_view base pr h).
Proof.
  unfold sep_facts. intros Hs Ho. unfold priv_view, irq_enabled, last_read. cbn [written received enabled acks].
  rewrite !own_bits by done.
  destruct b; rewrite (proj2 (Z.eqb_neq _ (base + fi_msg _))) by sep; rewrite Z.eqb_refl, app_nil_r;
    rewrite (proj2 (Z.eqb_neq _ (base + MAILBOX_SYSCONFIG))) by sep;
    rewrite (proj2 (Z.eqb_neq _ (base + pv_irqstatus pr))), app_nil_r by sep.
  - rewrite (proj2 (Z.eqb_neq _ (base + pv_irqdisable pr))) by sep. by destruct irq.
  - rewrite (proj2 (Z.eqb_neq _ (base + pv_irqenable pr))) by sep. by destruct irq.
Qed.

(** Writing it to the status register. *)
Lemma view_ack irq : sep_facts pr pr -> bits_own pr = true ->
  priv_view base pr (IoWrite (base + pv_irqstatus pr) (irq_bit pr irq) :: h) = push_ack irq (priv_view base pr h).
Proof.
  unfold sep_facts. intros Hs Ho. unfold priv_view, irq_enabled, last_read. cbn [written received enabled acks].
  rewrite Z.eqb_refl.
  rewrite (proj2 (Z.eqb_neq _ (base + fi_msg _))) by sep.
  rewrite (proj2 (Z.eqb_neq _ (base + pv_irqenable pr))) by sep.
  rewrite (proj2 (Z.eqb_neq _ (base + pv_irqdisable pr))) by sep.
  rewrite (proj2 (Z.eqb_neq _ (base + MAILBOX_SYSCONFIG))) by sep. rewrite app_nil_r.
  assert (filter (fun i => Z.land (irq_bit pr irq) (irq_bit pr i) <> 0) [IRQ_TX; IRQ_RX] = [irq]) as ->; [|done].
  assert (forall i, Z.land (irq_bit pr irq) (irq_bit pr i) <> 0 <-> irq = i) as Hi.
  { intros i. pose proof (own_bits pr irq i Ho) as E. case_bool_decide; [apply Z.eqb_neq in E | apply Z.eqb_eq in E]; tauto. }
  destruct irq.
  - rewrite filter_cons_True, filter_cons_False, filter_nil; [done | by rewrite Hi..].
  - rewrite filter_cons_False, filter_cons_True, filter_nil; [done | by rewrite Hi..].
Qed.
End View.

(** Bits of two words. *)
Lemma land_one_bit x y k : 0 <= k ->
  negb (Z.land (Z.land x y) (2 ^ k) =? 0) = negb (Z.land x (2 ^ k) =? 0) && negb (Z.land y (2 ^ k) =? 0).
Proof. intros Hk. rewrite !land_pow2_test by done. rewrite Z.land_spec. by rewrite !negb_involutive. Qed.

Lemma wraps_zero v : uint 32 v -> (wraps 32 v =? 0) = (v =? 0).
Proof.
  intros [H1 H2]. unfold wraps. destruct (Z.eqb_spec v 0) as [->|Hne]; [done|]. apply Z.eqb_neq.
  pose proof (Z.div_mod (v + 2 ^ (32 - 1)) (2 ^ 32) ltac:(lia)).
  pose proof (Z.mod_pos_bound (v + 2 ^ (32 - 1)) (2 ^ 32) ltac:(lia)). lia.
Qed.

Section Device.
  Context `{SOC : Soc} `{HW : Hardware}.

(** The enable register shows which interrupts are enabled. *)
Definition enable_reads (base : Z) pr : Prop :=
  forall irq h, negb (Z.land (u32 (hw_read h (base + pv_irqenable pr))) (irq_bit pr irq) =? 0) =
    irq_enabled base pr irq h.

(** What the status register answers when it is read after the enable register. *)
Definition status_now (base : Z) pr h : Z :=
  u32 (hw_read (IoRead (base + pv_irqenable pr) (u32 (hw_read h (base + pv_irqenable pr))) :: h) (base + pv_irqstatus pr)).

Definition omap2_ok (p : string) (d : omap2_mbox) : Prop :=
  privs_sep (om_privs d) /\ exists pr, om_privs d !! p = Some pr /\ enable_reads (om_base d) pr.

#[global] Instance omap2_view : MboxView omap2_mbox := {
  dev_ok := omap2_ok;
  view p d := match om_privs d !! p with
              | Some pr => priv_view (om_base d) pr (w_trace (om_w d))
              | None => mkView [] [] false false false false []
              end;
  pending p irq d := match om_privs d !! p with
                     | Some pr => negb (Z.land (status_now (om_base d) pr (w_trace (om_w d))) (irq_bit pr irq) =? 0)
                     | None => false
                     end
}.

(** The device after accesses to its registers. *)
Definition after (h : list io_event) (d : omap2_mbox) : omap2_mbox :=
  set_om_w (set_w_trace h (om_w d)) d.

(** What accesses do to the mailboxes. *)
Lemma effect_after p g h d :
  (forall q pr, om_privs d !! q = Some pr ->
    priv_view (om_base d) pr h = if decide (q = p) then g (priv_view (om_base d) pr (w_trace (om_w d)))
                                 else priv_view (om_base d) pr (w_trace (om_w d))) ->
  effect p g d (after h d).
Proof.
  intros Hv q (Hs & pr & Hq & He). split; [split; [done | by exists pr]|].
  cbn [view omap2_view]. change (om_privs (after h d)) with (om_privs d).
  change (om_base (after h d)) with (om_base d). change (w_trace (om_w (after h d))) with h.
  rewrite Hq. by apply Hv.
Qed.

Lemma mbox_read_wp ofs d Q :
  (forall v, uint 32 v -> v = u32 (hw_read (w_trace (om_w d)) (om_base d + ofs)) ->
    Q v (after (IoRead (om_base d + ofs) v :: w_trace (om_w d)) d)) ->
  wp (mbox_read_reg ofs) Q d.
Proof. intros HQ. unfold mbox_read_reg. wp_pure. apply HQ; [by apply wrapu_range | done]. Qed.

Lemma mbox_write_wp v ofs d Q :
  Q tt (after (IoWrite (om_base d + ofs) v :: w_trace (om_w d)) d) -> wp (mbox_write_reg v ofs) Q d.
Proof. intros HQ. exact HQ. Qed.

Lemma get_priv_wp p d pr Q : om_privs d !! p = Some pr -> Q pr d -> wp (get_priv p) Q d.
Proof. intros Hp HQ. unfold get_priv. wp_pure. by rewrite Hp; apply (wp_deref _ pr). Qed.

Section Ops.
Hypothesis Hti : cpu_is_ti81xx = true.
Context (p : string) (d : omap2_mbox).
Hypothesis Hok : dev_ok p d.

(** The registers of [p] and of another mailbox. *)
Lemma ok_priv : exists pr, om_privs d !! p = Some pr /\ enable_reads (om_base d) pr /\
  sep_facts pr pr /\ bits_own pr = true /\
  forall q pr', om_privs d !! q = Some pr' ->
    sep_facts pr pr' /\ sep_facts pr' pr /\ (q <> p -> bits_sep pr pr' = true).
Proof.
  destruct Hok as (Hs & pr & Hp & He). exists pr. split; [done|]. split; [done|].
  destruct (Hs p p pr pr Hp Hp) as (H1 & H2 & _). split; [by apply regs_sep_facts|]. split; [done|]. intros q pr' Hq.
  destruct (Hs p q pr pr' Hp Hq) as (H3 & _ & H4). destruct (Hs q p pr' pr Hq Hp) as (H5 & _ & _).
  split; [by apply regs_sep_facts|]. split; [by apply regs_sep_facts|]. intros Hne. by apply H4.
Qed.

(** One access, by what it does to [p] and to another mailbox. *)
Lemma effect_1 pr e g : om_privs d !! p = Some pr ->
  priv_view (om_base d) pr (e :: w_trace (om_w d)) = g (priv_view (om_base d) pr (w_trace (om_w d))) ->
  (forall q pr', om_privs d !! q = Some pr' -> q <> p ->
    priv_view (om_base d) pr' (e :: w_trace (om_w d)) = priv_view (om_base d) pr' (w_trace (om_w d))) ->
  effect p g d (after (e :: w_trace (om_w d)) d).
Proof.
  intros Hp Hg Ho. apply effect_after. intros q pr' Hq. destruct (decide (q = p)) as [->|Hne]; [|by apply (Ho q)].
  by assert (pr' = pr) as -> by congruence.
Qed.

Lemma full_law : wp (omap2_mbox_fifo_full p) (fun r d' => effect p (saw_full (negb (r =? 0))) d d') d.
Proof.
  destruct ok_priv as (pr & Hp & _ & Hs & _ & Hq). unfold omap2_mbox_fifo_full. apply wp_bind, (get_priv_wp p d pr); [done|].
  apply wp_bind, mbox_read_wp. intros v Hv _. wp_pure. rewrite wraps_zero by done. apply (effect_1 pr); [done | by apply view_read_full|].
  intros q pr' H Hne. destruct (Hq q pr' H) as (F1 & F2 & Hb). destruct (bits_sep_facts _ _ (Hb Hne)) as (F3 & _).
  unfold sep_facts in F1, F2. apply view_read_other; intuition congruence.
Qed.

Lemma empty_law : wp (omap2_mbox_fifo_empty p) (fun r d' => effect p (saw_empty (negb (r =? 0))) d d') d.
Proof.
  destruct ok_priv as (pr & Hp & _ & Hs & _ & Hq). unfold omap2_mbox_fifo_empty. apply wp_bind, (get_priv_wp p d pr); [done|].
  apply wp_bind, mbox_read_wp. intros v Hv _. wp_pure.
  replace (negb ((if v =? 0 then 1 else 0) =? 0)) with (v =? 0) by (by destruct (v =? 0)).
  apply (effect_1 pr); [done | by apply view_read_empty|].
  intros q pr' H Hne. destruct (Hq q pr' H) as (F1 & F2 & Hb). destruct (bits_sep_facts _ _ (Hb Hne)) as (F3 & _).
  unfold sep_facts in F1, F2. apply view_read_other; intuition congruence.
Qed.

Lemma read_law : wp (omap2_mbox_fifo_read p) (fun v d' => uint 32 v /\ effect p (push_got v) d d') d.
Proof.
  destruct ok_priv as (pr & Hp & _ & Hs & _ & Hq). unfold omap2_mbox_fifo_read. apply wp_bind, (get_priv_wp p d pr); [done|].
  apply mbox_read_wp. intros v Hv _. split; [done|]. apply (effect_1 pr); [done | by apply view_read_msg|].
  intros q pr' H Hne. destruct (Hq q pr' H) as (F1 & F2 & Hb). destruct (bits_sep_facts _ _ (Hb Hne)) as (F3 & _).
  unfold sep_facts in F1, F2. apply view_read_other; intuition congruence.
Qed.

Lemma write_law m : wp (omap2_mbox_fifo_write p m) (fun _ => effect p (push_sent m) d) d.
Proof.
  destruct ok_priv as (pr & Hp & _ & Hs & _ & Hq). unfold omap2_mbox_fifo_write. apply wp_bind, (get_priv_wp p d pr); [done|].
  apply mbox_write_wp. apply (effect_1 pr); [done | by apply view_write_msg|].
  intros q pr' H Hne. destruct (Hq q pr' H) as (F1 & F2 & Hb). destruct (bits_sep_facts _ _ (Hb Hne)) as (F3 & _).
  unfold sep_facts in F1, F2. apply view_write_other; intuition congruence.
Qed.

(** Reading a control register. *)
Lemma view_read_ctl q pr pr' ofs v h : om_privs d !! p = Some pr -> om_privs d !! q = Some pr' -> ofs ∈ ctl_regs pr ->
  priv_view (om_base d) pr' (IoRead (om_base d + ofs) v :: h) = priv_view (om_base d) pr' h.
Proof.
  intros Hp Hq Hofs. destruct ok_priv as (pr1 & Hp1 & _ & _ & _ & Hs). assert (pr1 = pr) as -> by congruence.
  destruct (Hs q pr' Hq) as (_ & F2 & _). unfold sep_facts in F2. unfold ctl_regs in Hofs.
  rewrite !elem_of_cons, elem_of_nil in Hofs. apply view_read_other; intuition congruence.
Qed.

(** Reading and then writing the register that enables or disables. *)
Lemma arm_effect pr irq b v : om_privs d !! p = Some pr ->
  let ofs := if b : bool then pv_irqenable pr else pv_irqdisable pr in
  effect p (arm irq b) d
    (after (IoWrite (om_base d + ofs) (irq_bit pr irq) :: IoRead (om_base d + ofs) v :: w_trace (om_w d)) d).
Proof.
  intros Hp ofs. destruct ok_priv as (pr1 & Hp1 & _ & Hs & Ho & Hq). assert (pr1 = pr) as -> by congruence.
  assert (ofs ∈ ctl_regs pr) as Hofs by (unfold ctl_regs; rewrite !elem_of_cons; destruct b; auto).
  apply effect_after. intros q pr' H. destruct (Hq q pr' H) as (F1 & F2 & Hb). unfold sep_facts in F1, F2.
  destruct (decide (q = p)) as [->|Hne].
  - assert (pr' = pr) as -> by congruence. unfold ofs. rewrite view_arm by done.
    by rewrite (view_read_ctl p pr).
  - destruct (bits_sep_facts _ _ (Hb Hne)) as (_ & Hl). rewrite view_write_bits.
    + by apply (view_read_ctl q pr).
    + destruct b; unfold ofs; intuition congruence.
    + destruct b; unfold ofs; tauto.
    + intros j. apply Hl.
Qed.

Lemma enable_law irq : wp (omap2_mbox_enable_irq p irq) (fun _ => effect p (arm irq true) d) d.
Proof.
  destruct ok_priv as (pr & Hp & _). unfold omap2_mbox_enable_irq. apply wp_bind, (get_priv_wp p d pr); [done|].
  apply wp_bind, mbox_read_wp. intros v _ _. rewrite Hti. apply mbox_write_wp. exact (arm_effect pr irq true v Hp).
Qed.

Lemma disable_law irq : wp (omap2_mbox_disable_irq p irq) (fun _ => effect p (arm irq false) d) d.
Proof.
  destruct ok_priv as (pr & Hp & _). unfold omap2_mbox_disable_irq. apply wp_bind, (get_priv_wp p d pr); [done|].
  apply wp_bind, mbox_read_wp. intros v _ _. rewrite Hti. apply mbox_write_wp. exact (arm_effect pr irq false v Hp).
Qed.

Lemma ack_law irq : wp (omap2_mbox_ack_irq p irq) (fun _ => effect p (push_ack irq) d) d.
Proof.
  destruct ok_priv as (pr & Hp & _ & Hs & Ho & Hq). unfold omap2_mbox_ack_irq. apply wp_bind, (get_priv_wp p d pr); [done|].
  apply wp_bind, mbox_write_wp. apply wp_bind, mbox_read_wp. intros v _ _. wp_pure.
  assert (pv_irqstatus pr ∈ ctl_regs pr) as Hofs by (unfold ctl_regs; rewrite !elem_of_cons; auto).
  apply (effect_after p (push_ack irq) (IoRead (om_base d + pv_irqstatus pr) v ::
    IoWrite (om_base d + pv_irqstatus pr) (irq_bit pr irq) :: w_trace (om_w d)) d).
  intros q pr' H. rewrite (view_read_ctl q pr) by done. destruct (decide (q = p)) as [->|Hne].
  - assert (pr' = pr) as -> by congruence. by apply view_ack.
  - destruct (Hq q pr' H) as (F1 & F2 & Hb). unfold sep_facts in F1, F2.
    destruct (bits_sep_facts _ _ (Hb Hne)) as (_ & Hl). apply view_write_bits; [intuition congruence | tauto |].
    intros j. apply Hl.
Qed.

Lemma is_irq_law irq : wp (omap2_mbox_is_irq p irq) (fun r d' =>
  negb (r =? 0) = fv_armed irq (view p d) && pending p irq d /\ effect p id d d') d.
Proof.
  destruct ok_priv as (pr & Hp & He & _ & Ho & Hq). unfold omap2_mbox_is_irq. apply wp_bind, (get_priv_wp p d pr); [done|].
  apply wp_bind, mbox_read_wp. intros v Hv Ev. apply wp_bind, mbox_read_wp. intros u Hu Eu. wp_pure. split.
  - rewrite wraps_zero by (apply land_uint_l; [lia | apply land_uint_l; [lia | done]]).
    destruct (own_bit pr irq Ho) as (k & Hk & Eb). rewrite Eb, land_one_bit by lia. rewrite <- Eb. f_equal.
    + rewrite Ev, He. cbn [view omap2_view]. rewrite Hp. by destruct irq.
    + cbn [pending omap2_view]. rewrite Hp. unfold status_now. rewrite <- Ev. by rewrite Eu.
  - apply (effect_after p id (IoRead (om_base d + pv_irqstatus pr) u :: IoRead (om_base d + pv_irqenable pr) v ::
      w_trace (om_w d)) d). intros q pr' H.
    rewrite !(view_read_ctl q pr) by (done || (unfold ctl_regs; rewrite !elem_of_cons; auto)). by destruct (decide (q = p)).
Qed.

Lemma delay_law us : wp (mbox_udelay us) (fun _ => effect p id d) d.
Proof.
  apply (effect_after p id (IoDelay (1000 * us) :: w_trace (om_w d)) d). intros q pr' H. rewrite view_delay.
  by destruct (decide (q = p)).
Qed.
End Ops.

(** The operations of mach-omap2/mailbox.c keep the laws. *)
Lemma omap2_device arch_clock polls : cpu_is_ti81xx = true ->
  MboxDevice (omap2_mbox_ops arch_clock polls) mbox_udelay.
Proof.
  intros Hti. split; cbn [omap2_mbox_ops op_fifo_full op_fifo_empty op_is_irq op_ack_irq op_fifo_read op_fifo_write
    op_enable_irq op_disable_irq].
  - intros p us d _. apply delay_law.
  - apply full_law.
  - apply empty_law.
  - intros p irq d Hd. by apply is_irq_law.
  - intros ack p irq d [= <-] Hd. by apply ack_law.
  - apply read_law.
  - intros p m d Hd. by apply write_law.
  - intros p irq d Hd. by apply enable_law.
  - intros p irq d Hd. by apply disable_law.
Qed.
End Device.

(** The tables give the three mailboxes of the TI81xx FIFOs and interrupt bits of their own, and
    no message register is also a control or status register. *)
Lemma ti81xx_privs_sep : privs_sep ti81xx_privs.
Proof.
  intros p q pr pr'. unfold ti81xx_privs. cbn [list_to_map foldr].
  rewrite !lookup_insert_Some, !lookup_empty. intros Hp Hq.
  destruct Hp as [[<- <-]|[? [[<- <-]|[? [[<- <-]|[? [=]]]]]]];
  destruct Hq as [[<- <-]|[? [[<- <-]|[? [[<- <-]|[? [=]]]]]]]; by vm_compute.
Qed.

Lemma ti81xx_box_priv n b : ti81xx_boxes !! n = Some b -> exists pr, ti81xx_privs !! mx_priv b = Some pr.
Proof.
  unfold ti81xx_boxes. cbn [list_to_map foldr]. rewrite !lookup_insert_Some, !lookup_empty.
  intros [[<- <-]|[? [[<- <-]|[? [[<- <-]|[? [=]]]]]]]; eexists; reflexivity.
Qed.

(** C31: the tables of the TI81xx describe three mailboxes with message registers, status
    registers and interrupt bits of their own, none of which is also a control register, so that
    each is a device, and the operations of mach-omap2/mailbox.c keep the laws that the mailbox
    driver relies on: full and empty say what the status registers say, an interrupt is reported
    exactly when it is enabled and the status register has its bit, and what is written, read,
    enabled, disabled and acknowledged is so for this mailbox and for no other.  It relies on the
    enable register to read as the interrupts that are enabled. *)
Theorem ti81xx_mailbox_devices `{SOC : Soc} `{HW : Hardware} arch_clock polls d :
  cpu_is_ti81xx = true -> om_privs d = ti81xx_privs ->
  (forall p pr, ti81xx_privs !! p = Some pr -> enable_reads (om_base d) pr) ->
  (forall n b, ti81xx_boxes !! n = Some b -> dev_ok (mx_priv b) d) /\
  MboxDevice (omap2_mbox_ops arch_clock polls) mbox_udelay.
Proof.
  intros Hti Hp He. split; [|by apply omap2_device]. intros n b Hb. destruct (ti81xx_box_priv n b Hb) as [pr Hpr].
  split; rewrite Hp; [apply ti81xx_privs_sep|]. exists pr. split; [done|]. by apply (He (mx_priv b)).
Qed.

(** ** Saving and restoring *)

(** Accesses to the registers from the [i]-th on. *)
Fixpoint ctx_events (ev : Z -> Z -> io_event) (base : Z) (i : nat) (vs : list Z) h : list io_event :=
  match vs with
  | [] => h
  | v :: vs' => ctx_events ev base (S i) vs' (ev (base + Z.of_nat i * 4) v :: h)
  end.

Lemma ctx_reads base j vs : forall i h,
  received (base + Z.of_nat j * 4) (ctx_events IoRead base i vs h) =
    received (base + Z.of_nat j * 4) h ++ (if decide (i <= j)%nat then option_list (vs !! (j - i)%nat) else []) /\
  written (base + Z.of_nat j * 4) (ctx_events IoRead base i vs h) = written (base + Z.of_nat j * 4) h.
Proof.
  induction vs as [|v vs IH]; intros i h; cbn [ctx_events].
  { rewrite lookup_nil. split; [destruct (decide _); by rewrite app_nil_r | done]. }
  destruct (IH (S i) (IoRead (base + Z.of_nat i * 4) v :: h)) as [-> ->]. cbn [received written]. split; [|done].
  destruct (Z.eqb_spec (base + Z.of_nat i * 4) (base + Z.of_nat j * 4)) as [E|Hne].
  - assert (i = j) as -> by lia. rewrite decide_False, decide_True by lia. rewrite Nat.sub_diag. by rewrite app_nil_r.
  - rewrite app_nil_r. destruct (decide (S i <= j)%nat).
    + rewrite decide_True by lia. by replace (j - i)%nat with (S (j - S i)) by lia.
    + rewrite decide_False by lia. done.
Qed.

Lemma ctx_writes base j vs : forall i h,
  written (base + Z.of_nat j * 4) (ctx_events IoWrite base i vs h) =
    written (base + Z.of_nat j * 4) h ++ (if decide (i <= j)%nat then option_list (vs !! (j - i)%nat) else []) /\
  received (base + Z.of_nat j * 4) (ctx_events IoWrite base i vs h) = received (base + Z.of_nat j * 4) h.
Proof.
  induction vs as [|v vs IH]; intros i h; cbn [ctx_events].
  { rewrite lookup_nil. split; [destruct (decide _); by rewrite app_nil_r | done]. }
  destruct (IH (S i) (IoWrite (base + Z.of_nat i * 4) v :: h)) as [-> ->]. cbn [received written]. split; [|done].
  destruct (Z.eqb_spec (base + Z.of_nat i * 4) (base + Z.of_nat j * 4)) as [E|Hne].
  - assert (i = j) as -> by lia. rewrite decide_False, decide_True by lia. rewrite Nat.sub_diag. by rewrite app_nil_r.
  - rewrite app_nil_r. destruct (decide (S i <= j)%nat).
    + rewrite decide_True by lia. by replace (j - i)%nat with (S (j - S i)) by lia.
    + rewrite decide_False by lia. done.
Qed.

Section Ctx.
  Context `{SOC : Soc} `{HW : Hardware}.

Lemma save_loop_wp p pr m : forall i ctx d, om_privs d !! p = Some (set_pv_ctx ctx pr) -> (i + m <= length ctx)%nat ->
  wp (for_each (seq i m) (fun i =>
        v ← mbox_read_reg (Z.of_nat i * 4);
        pr ← get_priv p;
        ctx ← aset (pv_ctx pr) (Z.of_nat i) v;
        modify (fun d => set_om_privs (<[p := set_pv_ctx ctx pr]> (om_privs d)) d)))
    (fun _ d' => exists vs, length vs = m /\ om_base d' = om_base d /\
      om_privs d' !! p = Some (set_pv_ctx (take i ctx ++ vs ++ drop (i + m) ctx) pr) /\
      w_trace (om_w d') = ctx_events IoRead (om_base d) i vs (w_trace (om_w d))) d.
Proof.
  induction m as [|m IH]; intros i ctx d Hp Hl; cbn [seq for_each].
  { wp_pure. exists []. split; [done|]. split; [done|]. split; [|done]. by rewrite Nat.add_0_r, app_nil_l, take_drop. }
  apply wp_bind, wp_bind, mbox_read_wp. intros v _ _. apply wp_bind, (get_priv_wp p _ (set_pv_ctx ctx pr)); [done|].
  apply wp_bind, wp_aset; [cbn; lia|]. change (pv_ctx (set_pv_ctx ctx pr)) with ctx. rewrite Nat2Z.id. wp_pure.
  eapply wp_mono; [apply (IH (S i) (<[i := v]> ctx)); [apply lookup_insert_eq | rewrite length_insert; lia]|].
  intros u d' (vs & El & Eb & Ep & Et). exists (v :: vs). split; [cbn; lia|]. split; [done|]. split; [|exact Et].
  rewrite Ep. do 2 f_equal. rewrite (take_S_r _ i v) by (apply list_lookup_insert_eq; lia).
  rewrite take_insert_ge, drop_insert_lt by lia. rewrite <- app_assoc, Nat.add_succ_r. done.
Qed.

Lemma restore_loop_wp p pr m : forall i d, om_privs d !! p = Some pr -> (i + m <= length (pv_ctx pr))%nat ->
  wp (for_each (seq i m) (fun i =>
        pr ← get_priv p;
        v ← aget (pv_ctx pr) (Z.of_nat i);
        mbox_write_reg v (Z.of_nat i * 4)))
    (fun _ d' => w_trace (om_w d') = ctx_events IoWrite (om_base d) i (take m (drop i (pv_ctx pr))) (w_trace (om_w d))) d.
Proof.
  induction m as [|m IH]; intros i d Hp Hl; cbn [seq for_each]; [done|].
  destruct (lookup_lt_is_Some_2 (pv_ctx pr) i) as [v Hv]; [lia|].
  apply wp_bind, wp_bind, (get_priv_wp p d pr); [done|]. apply wp_bind, (wp_aget _ _ v); [lia | by rewrite Nat2Z.id|].
  apply mbox_write_wp. eapply wp_mono; [by apply (IH (S i)); [|lia]|]. intros u d' Et. rewrite Et.
  by rewrite (drop_S _ v i) by done.
Qed.

(** Saving and restoring the context of a mailbox reads every register of the module once and
    writes the value back to it, the message registers too. *)
Theorem mailbox_ctx_roundtrip p pr d : om_privs d !! p = Some pr -> length (pv_ctx pr) = nr_regs ->
  wp (omap2_mbox_save_ctx p;; omap2_mbox_restore_ctx p) (fun _ d' => exists vs, length vs = nr_regs /\
    forall i v, vs !! i = Some v ->
      let a := om_base d + Z.of_nat i * 4 in
      received a (w_trace (om_w d')) = received a (w_trace (om_w d)) ++ [v] /\
      written a (w_trace (om_w d')) = written a (w_trace (om_w d)) ++ [v]) d.
Proof.
  intros Hp Hl. apply wp_bind. eapply wp_mono.
  { apply (save_loop_wp p pr nr_regs 0 (pv_ctx pr)); [done | lia]. }
  intros u d1 (vs & El & Eb & Ep & Et). cbn [take app Nat.add] in Ep. rewrite drop_ge, app_nil_r in Ep by lia.
  eapply wp_mono; [apply (restore_loop_wp p _ nr_regs 0 d1 Ep); exact (Nat.eq_le_incl _ _ (eq_sym El))|].
  assert (take nr_regs (drop 0 (pv_ctx (set_pv_ctx vs pr))) = vs) as Ev.
  { change (take nr_regs (drop 0 vs) = vs). rewrite drop_0. apply take_ge. by rewrite El. }
  cbv beta. intros u2 d2 Et2.
  apply (fun E => eq_trans E (f_equal (fun x => ctx_events IoWrite (om_base d1) 0 x (w_trace (om_w d1))) Ev)) in Et2.
  exists vs. split; [done|].
  intros i v Hv a. rewrite Et2, Eb. destruct (ctx_writes (om_base d) i vs 0 (w_trace (om_w d1))) as [Ew Er].
  destruct (ctx_reads (om_base d) i vs 0 (w_trace (om_w d))) as [Er1 Ew1]. unfold a. rewrite Ew, Er, Et, Er1, Ew1.
  rewrite !decide_True by lia. by rewrite Nat.sub_0_r, Hv.
Qed.
End Ctx.
