(* ===== verification/MailboxExamples.v ===== *)
(** * The mailboxes at work

    The mailbox of the DSP on a concrete device, on which the theorems of MailboxRefine.v,
    MailboxSteps.v, MailboxStartup.v and MailboxDevice.v are applied, and the calls on which the
    driver goes wrong. *)

From S2P Require Import Prelude Platform ClkCore ClkRate Clkdev Clk814xData Dm8148 Resource.
From S2P Require Import Bytes Kfifo KfifoRing KfifoRefine.
From S2P Require Import Mailbox MailboxSpec MailboxRefine MailboxSteps MailboxStartup Omap2Mailbox MailboxDevice.

(** ** A device *)

Definition MBASE : Z := 0x480C8000.

(** The enable register reads as the interrupts that are enabled. *)
Definition enable_reg (h : list io_event) : Z :=
  foldr (fun '(pr, irq) x => Z.lor (if irq_enabled MBASE pr irq h then irq_bit pr irq else 0) x) 0
    [(omap2_mbox_ti81xx_dsp_priv, IRQ_TX); (omap2_mbox_ti81xx_dsp_priv, IRQ_RX);
     (omap2_mbox_ti81xx_video_priv, IRQ_TX); (omap2_mbox_ti81xx_video_priv, IRQ_RX);
     (omap2_mbox_ti81xx_vpss_priv, IRQ_TX); (omap2_mbox_ti81xx_vpss_priv, IRQ_RX)].

(** The DSP sends the five messages 100 to 104, and takes two messages. *)
Definition mbox_read (h : list io_event) (a : Z) : Z :=
  let n := len (received (MBASE + MAILBOX_MESSAGE 0) h) in
  if a =? MBASE + OMAP4_MAILBOX_IRQENABLE 0 then enable_reg h else
  if a =? MBASE + OMAP4_MAILBOX_IRQSTATUS 0 then 0xffffffff else
  if a =? MBASE + MAILBOX_MSGSTATUS 0 then Z.max 0 (5 - n) else
  if a =? MBASE + MAILBOX_MESSAGE 0 then 100 + n else
  if a =? MBASE + MAILBOX_FIFOSTATUS 3 then
    if 2 <=? len (written (MBASE + MAILBOX_MESSAGE 3) h) then 1 else 0
  else 0.

(** The mailboxes beside the rest of the chip; [stuck] never comes out of reset. *)
Definition mbox_hw (stuck : bool) : Hardware := {|
  hw_read := fun h a =>
    if (MBASE <=? a) && (a <? MBASE + 0x144)
    then if stuck && (a =? MBASE + MAILBOX_SYSCONFIG) then OMAP4_SOFTRESET else mbox_read h a
    else @hw_read dm8148_hw h a;
  hw_sched_clock := @hw_sched_clock dm8148_hw
|}.

#[local] Existing Instance dm8148_soc.
#[local] Instance mailbox_hw : Hardware := mbox_hw false.

Definition arch_clock : clk_functions := omap2_clk_functions dm8148_arch DEPTH FUEL.
Definition POLLS : nat := 3.
Definition dsp_ops : omap_mbox_ops omap2_mbox := omap2_mbox_ops arch_clock POLLS.

Definition DSP : string := "mbox_ti81xx_dsp_info".
Definition VIDEO : string := "mbox_ti81xx_video_info".

Lemma ti81xx : cpu_is_ti81xx = true.
Proof. reflexivity. Qed.

#[local] Instance dsp_device : MboxDevice dsp_ops mbox_udelay := omap2_device arch_clock POLLS ti81xx.

Lemma enable_reads_dsp p pr : ti81xx_privs !! p = Some pr -> enable_reads MBASE pr.
Proof.
  unfold ti81xx_privs. cbn [list_to_map foldr]. rewrite !lookup_insert_Some, !lookup_empty.
  intros [[_ <-]|[_ [[_ <-]|[_ [[_ <-]|[_ [=]]]]]]] irq h; change (hw_read h (MBASE + _)) with (enable_reg h);
    unfold enable_reg; cbn [foldr snd];
    (destruct irq; repeat match goal with |- context [irq_enabled MBASE ?pr ?i h] =>
       destruct (irq_enabled MBASE pr i h) end; vm_compute; reflexivity).
Qed.

(** ** The mailbox of the DSP, open, with queues of two messages *)

Definition fifo8 : kfifo := mkKfifo 0 0 7 1 (Some (replicate 8 0)).
Definition queue8 : omap_mbox_queue := mkQueue fifo8 false false false false.
Definition dsp_open : omap_mbox := set_open queue8 queue8 mbox_ti81xx_dsp_info.

(** Of the accesses so far, only the one that enabled the receive interrupt is kept. *)
Definition dev0 : omap2_mbox :=
  mkOmap2 (set_w_trace [IoWrite (MBASE + OMAP4_MAILBOX_IRQENABLE 0) (MAILBOX_IRQ_NEWMSG 0)] empty_world)
    MBASE (Some "mailbox_ick") ti81xx_privs.
Definition st0 : mbx omap2_mbox :=
  mkMbx dev0 (<[DSP := dsp_open]> ti81xx_boxes) (Some ti81xx_mboxes) 1 8 [(0, DSP)].
Definition a0 : abox :=
  mkAbox "omap2_mbox_ti81xx_dsp_priv" (mkView [] [] false true false false []) [] [] false false false [].

Lemma fifo8_msgs : msgs_in 2 fifo8 [].
Proof.
  split; try done. exists 3, (replicate 8 0). split; [lia | done | done | done | split; done.. | done | done | done].
Qed.

Lemma priv_ok p pr : ti81xx_privs !! p = Some pr -> dev_ok p dev0.
Proof. intros Hp. split; [apply ti81xx_privs_sep|]. exists pr. split; [done|]. by apply (enable_reads_dsp p). Qed.

(** The boxes of the tables after DSP was opened. *)
Lemma st0_boxes n b : mb_boxes st0 !! n = Some b ->
  (n = DSP /\ b = dsp_open) \/ (n = VIDEO /\ b = mbox_ti81xx_video_info) \/
  (n = "mbox_ti81xx_vpss_info" /\ b = mbox_ti81xx_vpss_info).
Proof.
  unfold st0, ti81xx_boxes. cbn [mb_boxes list_to_map foldr fst snd]. rewrite !lookup_insert_Some, !lookup_empty.
  intros [[<- <-]|[? [[<- <-]|[? [[<- <-]|[? [[<- <-]|[? [=]]]]]]]]]; tauto.
Qed.

Lemma st0_holds : holds 2 ti81xx_mboxes {[DSP := a0]} st0.
Proof.
  split.
  - intros n a [<- <-]%lookup_singleton_Some. exists dsp_open. split; [reflexivity|]. split; try reflexivity.
    + intros q. exists queue8. split; [by destruct q|]. split; [done|]. destruct q; apply fifo8_msgs.
    + apply (priv_ok _ omap2_mbox_ti81xx_dsp_priv). reflexivity.
  - intros n m b b' H1%st0_boxes H2%st0_boxes.
    destruct H1 as [[-> ->]|[[-> ->]|[-> ->]]], H2 as [[-> ->]|[[-> ->]|[-> ->]]]; done.
  - reflexivity.
  - unfold ti81xx_mboxes. rewrite !Forall_cons, Forall_nil. split_and!; [| | |done].
    + left. eexists. apply lookup_insert_eq.
    + right. exists mbox_ti81xx_video_info. split; [reflexivity|]. split; [|by intros []].
      apply (priv_ok _ omap2_mbox_ti81xx_video_priv). reflexivity.
    + right. exists mbox_ti81xx_vpss_info. split; [reflexivity|]. split; [|by intros []].
      apply (priv_ok _ omap2_mbox_ti81xx_vpss_priv). reflexivity.
Qed.

Lemma fresh_a0 : fresh a0.
Proof. done. Qed.

Lemma opened_dsp : Forall (fun k => is_Some (({[DSP := a0]} : gmap string abox) !! k)) [DSP].
Proof. apply Forall_singleton. eexists. apply lookup_insert_eq. Qed.

Lemma mailbox_refines_witness :
  (forall m, uint 32 m -> wp (omap_mbox_msg_send dsp_ops mbox_udelay DSP m)
    (fun r s' => exists a', send_spec 2 m a0 r a' /\ holds 2 ti81xx_mboxes (<[DSP := a']> {[DSP := a0]}) s') st0) /\
  wp (mbox_tx_tasklet dsp_ops mbox_udelay 4 DSP)
    (fun _ s' => exists a', tasklet_spec a0 a' /\ holds 2 ti81xx_mboxes (<[DSP := a']> {[DSP := a0]}) s') st0 /\
  wp (mbox_interrupt dsp_ops 4)
    (fun _ s' => exists A', irqs_spec dsp_ops 2 ti81xx_mboxes {[DSP := a0]} (mb_dev st0) A' (mb_dev s') /\
       holds 2 ti81xx_mboxes A' s') st0 /\
  wp (rx_take DSP)
    (fun o s' => exists a', take_spec a0 o a' /\ holds 2 ti81xx_mboxes (<[DSP := a']> {[DSP := a0]}) s') st0 /\
  wp (rx_refill dsp_ops DSP)
    (fun _ s' => exists a', refill_spec 2 a0 a' /\ holds 2 ti81xx_mboxes (<[DSP := a']> {[DSP := a0]}) s') st0 /\
  wp (mbox_rx_work dsp_ops 4 DSP)
    (fun _ s' => exists a', work_spec 2 a0 a' /\ holds 2 ti81xx_mboxes (<[DSP := a']> {[DSP := a0]}) s') st0.
Proof.
  apply (mailbox_refines dsp_ops mbox_udelay 2 ti81xx_mboxes {[DSP := a0]} st0 DSP a0 4);
    [exact st0_holds | reflexivity | lia].
Defined.

(** *** A history: three messages are sent, an interrupt comes, the work item delivers one. *)

Definition run {A} (o : outcome (mbx omap2_mbox) A) : mbx omap2_mbox := match o with Done _ s => s | Fault _ => st0 end.

Definition st1 : mbx omap2_mbox := Eval vm_compute in run (omap_mbox_msg_send dsp_ops mbox_udelay DSP 7 st0).
Definition st2 : mbx omap2_mbox := Eval vm_compute in run (omap_mbox_msg_send dsp_ops mbox_udelay DSP 8 st1).
Definition st3 : mbx omap2_mbox := Eval vm_compute in run (omap_mbox_msg_send dsp_ops mbox_udelay DSP 9 st2).
Definition st4 : mbx omap2_mbox := Eval vm_compute in run (mbox_interrupt dsp_ops 3 st3).
Definition st5 : mbx omap2_mbox := Eval vm_compute in run (upd_queue IRQ_RX DSP (set_mq_work false) st4).
Definition st6 : mbx omap2_mbox := Eval vm_compute in run (rx_take DSP st5).

Definition rxq4 : omap_mbox_queue := Eval vm_compute in default queue8 (mb_boxes st4 !! DSP ≫= mx_rxq).

Lemma dsp_history calm : rtc (mail_step dsp_ops mbox_udelay 3 [DSP] calm DSP)
  (mkSession st0 WOff (fv_sent (a_view a0))) (mkSession st6 (WTook 100) [7; 8; 9]).
Proof.
  eapply rtc_l; [apply (step_send dsp_ops mbox_udelay 3 [DSP] calm DSP DSP 7 0 st0 st1 WOff []);
    [left | done | vm_compute; reflexivity]|].
  eapply rtc_l; [apply (step_send dsp_ops mbox_udelay 3 [DSP] calm DSP DSP 8 0 st1 st2 WOff [7]);
    [left | done | vm_compute; reflexivity]|].
  eapply rtc_l; [apply (step_send dsp_ops mbox_udelay 3 [DSP] calm DSP DSP 9 0 st2 st3 WOff [7; 8]);
    [left | done | vm_compute; reflexivity]|].
  eapply rtc_l; [apply (step_irq dsp_ops mbox_udelay 3 [DSP] calm DSP IRQ_HANDLED st3 st4); [done | vm_compute; reflexivity]|].
  eapply rtc_l; [apply (step_start dsp_ops mbox_udelay 3 [DSP] calm DSP rxq4 st4 st5); vm_compute; reflexivity|].
  eapply rtc_l; [apply (step_take dsp_ops mbox_udelay 3 [DSP] calm DSP (Some 100) st5 st6); vm_compute; reflexivity|].
  apply rtc_refl.
Qed.

Lemma mailbox_send_order_witness : exists A' a', holds 2 ti81xx_mboxes A' st6 /\ A' !! DSP = Some a' /\
  fv_sent (a_view a') ++ a_txq a' = [7; 8; 9].
Proof.
  apply (mailbox_send_order dsp_ops mbox_udelay 2 ti81xx_mboxes 3 [DSP] DSP {[DSP := a0]} a0 st0
    (mkSession st6 (WTook 100) [7; 8; 9]));
    [exact st0_holds | reflexivity | exact opened_dsp | exact fresh_a0 | lia | apply dsp_history].
Defined.

Lemma mailbox_no_lost_wakeup_witness : exists A' a', holds 2 ti81xx_mboxes A' st6 /\ A' !! DSP = Some a' /\
  (a_txq a' <> [] -> a_tasklet a' = true \/ fv_tx (a_view a') = true) /\
  (fv_rx (a_view a0) = true -> fv_rx (a_view a') = true \/ a_full a' = true) /\
  (a_rxq a' <> [] -> a_work a' = true \/ WTook 100 <> WOff) /\
  (a_full a' = true -> a_rxq a' <> [] \/ busy (WTook 100) = true).
Proof.
  apply (mailbox_no_lost_wakeup dsp_ops mbox_udelay 2 ti81xx_mboxes 3 [DSP] DSP {[DSP := a0]} a0 st0
    (mkSession st6 (WTook 100) [7; 8; 9]));
    [exact st0_holds | reflexivity | exact opened_dsp | exact fresh_a0 | lia | apply dsp_history].
Defined.

Lemma mailbox_receive_order_witness : exists A' a' got delivered, holds 2 ti81xx_mboxes A' st6 /\ A' !! DSP = Some a' /\
  fv_got (a_view a') = fv_got (a_view a0) ++ got /\ a_delivered a' = a_delivered a0 ++ delivered /\
  delivered ++ in_hand (WTook 100) ++ a_rxq a' `sublist_of` got /\
  (true = true -> delivered ++ in_hand (WTook 100) ++ a_rxq a' = got).
Proof.
  apply (mailbox_receive_order dsp_ops mbox_udelay 2 ti81xx_mboxes 3 [DSP] true DSP {[DSP := a0]} a0 st0
    (mkSession st6 (WTook 100) [7; 8; 9]));
    [exact st0_holds | reflexivity | exact opened_dsp | exact fresh_a0 | lia | apply dsp_history].
Defined.

Lemma ti81xx_mailbox_devices_witness :
  (forall n b, ti81xx_boxes !! n = Some b -> dev_ok (mx_priv b) dev0) /\
  MboxDevice (omap2_mbox_ops arch_clock POLLS) mbox_udelay.
Proof. apply (ti81xx_mailbox_devices arch_clock POLLS dev0); [reflexivity | reflexivity | exact enable_reads_dsp]. Defined.

Lemma mailbox_ctx_roundtrip_witness :
  wp (omap2_mbox_save_ctx "omap2_mbox_ti81xx_dsp_priv";; omap2_mbox_restore_ctx "omap2_mbox_ti81xx_dsp_priv")
    (fun _ d' => exists vs, length vs = nr_regs /\
      forall i v, vs !! i = Some v ->
        let a := om_base dev0 + Z.of_nat i * 4 in
        received a (w_trace (om_w d')) = received a (w_trace (om_w dev0)) ++ [v] /\
        written a (w_trace (om_w d')) = written a (w_trace (om_w dev0)) ++ [v]) dev0.
Proof.
  apply (mailbox_ctx_roundtrip "omap2_mbox_ti81xx_dsp_priv" omap2_mbox_ti81xx_dsp_priv dev0); reflexivity.
Defined.

(** ** Opening on the booted chip *)

Definition some_heap : heap := mkHeap true (fun n => Some (replicate (Z.to_nat n) 0)).

Lemma some_heap_ok : heap_ok some_heap.
Proof. intros k blk Hk [= <-]. unfold len. rewrite length_replicate. lia. Qed.

Definition mbox_res : resource := mkResource 0x480C8000 0x480C8143 None 0 None None None.

(** The chip after [omap2_mbox_probe]. *)
Definition probed : mbx omap2_mbox :=
  run (omap2_mbox_probe 77 (Some mbox_res) (Some MBASE) (fun _ => 0)
    (mkMbx (mkOmap2 booted 0 None ti81xx_privs) ti81xx_boxes None 0 256 [])).

Definition dsp_probed : omap_mbox := default mbox_ti81xx_dsp_info (mb_boxes probed !! DSP).

Lemma probed_can_open : can_open DSP dsp_probed (omap2_mbox_startup arch_clock POLLS)
  (omap2_mbox_shutdown arch_clock) some_heap some_heap probed.
Proof.
  split; try apply some_heap_ok; try (by vm_compute).
  change (mb_irqs probed) with ([] : list (Z * string)). apply not_elem_of_nil.
Qed.


(** The chip with the mailbox open. *)
Definition dsp_opened : mbx omap2_mbox := run (omap_mbox_startup dsp_ops 0 some_heap some_heap DSP probed).

Lemma run_done {A} (o : outcome (mbx omap2_mbox) A) a :
  match o with Done a' _ => Some a' | Fault _ => None end = Some a -> o = Done a (run o).
Proof. destruct o; [by intros [= ->] | done]. Qed.

Lemma dsp_opens : omap_mbox_startup dsp_ops 0 some_heap some_heap DSP probed = Done 0 dsp_opened.
Proof. apply run_done. by vm_compute. Qed.


(** ** Where the driver goes wrong *)

Definition ick_usecount (s : mbx omap2_mbox) : option Z :=
  (fun k => ck_usecount k) <$> w_clks (om_w (mb_dev s)) !! "mailbox_ick".

(** The interrupt handler fills the queue again after the work item has taken a message from it,
    and before the work item looks at [full]; the work item then reads the message 104 from the
    hardware and has no space for it. *)
Example rx_message_lost :
  wp (mbox_interrupt dsp_ops 3;;
      rx_take DSP;; rx_notify DSP 100;; rx_refill dsp_ops DSP;;
      rx_take DSP;; mbox_interrupt dsp_ops 3;; rx_notify DSP 101;; rx_refill dsp_ops DSP)
    (fun _ s => received (MBASE + MAILBOX_MESSAGE 0) (w_trace (om_w (mb_dev s))) = [100; 101; 102; 103; 104] /\
      (fun b => (mx_delivered b, (fun q => fifo_bytes (mq_fifo q)) <$> mx_rxq b)) <$> mb_boxes s !! DSP =
        Some ([100; 101], Some (concat (msg_bytes <$> [102; 103])))) st0.
Proof. by vm_compute. Qed.

(** The mailboxes behind the first one of the list cannot be opened: [omap_mbox_get] leaves the
    first [struct omap_mbox] and reads what lies behind it in memory. *)
Example get_second_mailbox :
  omap_mbox_get dsp_ops 0 some_heap some_heap "mailbox-video" None probed = Fault OutOfBounds.
Proof. by vm_compute. Qed.

Definition no_startup : omap_mbox_ops omap2_mbox :=
  mkMboxOps omap2_mbox OMAP_MBOX_TYPE2 None (op_shutdown dsp_ops) (op_fifo_read dsp_ops) (op_fifo_write dsp_ops)
    (op_fifo_empty dsp_ops) (op_fifo_full dsp_ops) (op_enable_irq dsp_ops) (op_disable_irq dsp_ops)
    (op_ack_irq dsp_ops) (op_is_irq dsp_ops) (op_save_ctx dsp_ops) (op_restore_ctx dsp_ops).

(** Without a [startup] operation, [omap_mbox_get] reports success for a mailbox that it has not
    opened. *)
Example get_without_startup :
  wp (omap_mbox_get no_startup 0 some_heap some_heap "mailbox-dsp" None) (fun r s =>
    r = inr DSP /\ (fun b => bool_decide (mx_txq b = None)) <$> mb_boxes s !! DSP = Some true) probed.
Proof. by vm_compute. Qed.

(** Opening a second mailbox fails because of its interrupt: the clock of the module is turned
    off although the first mailbox is open. *)
Example startup_failure_shuts_down :
  wp (omap_mbox_startup dsp_ops 0 some_heap some_heap DSP;;
      c ← gets ick_usecount; r ← omap_mbox_startup dsp_ops (- EBUSY) some_heap some_heap VIDEO; ret (c, r))
    (fun x s => x = (Some 1, - EBUSY) /\ ick_usecount s = Some 0 /\ mb_configured s = 1 /\ om_ick (mb_dev s) = None) probed.
Proof. by vm_compute. Qed.

(** A mailbox is closed while another one is open, and with its receive interrupt enabled: the
    handler, which looks at all mailboxes, finds its interrupt and uses its freed queue. *)
Example closed_mailbox_interrupt :
  match (omap_mbox_startup dsp_ops 0 some_heap some_heap DSP;;
         omap_mbox_startup dsp_ops 0 some_heap some_heap VIDEO;;
         omap_mbox_fini dsp_ops mbox_udelay 70 DSP) probed with
  | Done _ s => mb_irqs s = [(77, VIDEO)] /\
      match mbox_interrupt dsp_ops 70 s with Fault e => e = UseAfterFree | Done _ _ => False end
  | Fault _ => False
  end.
Proof. by vm_compute. Qed.

(** Only the mailbox that is opened first gets its receive interrupt enabled. *)
Example second_mailbox_deaf :
  wp (omap_mbox_startup dsp_ops 0 some_heap some_heap DSP;; omap_mbox_startup dsp_ops 0 some_heap some_heap VIDEO)
    (fun r s => r = 0 /\ fv_rx (view "omap2_mbox_ti81xx_dsp_priv" (mb_dev s)) = true /\
      fv_rx (view "omap2_mbox_ti81xx_video_priv" (mb_dev s)) = false) probed.
Proof. by vm_compute. Qed.

(** Saving and restoring the context takes a message out of the FIFO that nobody gets, and sends
    one that nobody has sent. *)
Example ctx_touches_fifos :
  wp (omap_mbox_save_ctx dsp_ops DSP;; omap_mbox_restore_ctx dsp_ops DSP)
    (fun _ s => received (MBASE + MAILBOX_MESSAGE 0) (w_trace (om_w (mb_dev s))) = [100] /\
      written (MBASE + MAILBOX_MESSAGE 3) (w_trace (om_w (mb_dev s))) = [0]) st0.
Proof. by vm_compute. Qed.

(** If the module does not come out of reset, the clock stays enabled. *)
Example reset_timeout_keeps_clock :
  wp (@omap_mbox_startup omap2_mbox (@omap2_mbox_ops dm8148_soc (mbox_hw true) arch_clock POLLS)
        0 some_heap some_heap DSP)
    (fun r s => r = - ENODEV /\ mb_configured s = 0 /\ ick_usecount s = Some 1) probed.
Proof. by vm_compute. Qed.
