(* ===== verification/Mux.v ===== *)
(** * Pin multiplexing

    mach-omap2/mux.c: the partitions of pads, looking up the pad of a signal, writing pad
    registers, the pads of a hardware module, and the initialisation from the tables.

    A partition and an entry of its list are allocated once and stay; a pointer to a partition
    is its number in the list [mux_partitions], a pointer to a mux its number in the list
    [muxmodes] of the partition.  The arrays of the tables end with the entry whose offset is
    OMAP_MUX_TERMINATOR; running past the end of a list is [OutOfBounds].

    CONFIG_OMAP_MUX and CONFIG_DEBUG_FS are set (tisdk_dm814x-evm_defconfig), so
    [omap_mux_late_init] only makes the files of debugfs, which are not modelled. *)

From Stdlib Require Import Ascii.
From S2P Require Import Prelude Platform.

(** mux.h *)
Definition OMAP_MUX_TERMINATOR : Z := 0xffff.
Definition OMAP_MUX_MODE3 : Z := 3.
Definition OMAP_MUX_MODE4 : Z := 4.
Definition OMAP_MUX_MODE7 : Z := 7.
Definition OMAP_MUX_NR_MODES : Z := 8.
Definition OMAP_MUX_NR_SIDES : Z := 2.
Definition OMAP_MUX_REG_8BIT : Z := Z.shiftl 1 0.
Definition OMAP_MUX_GPIO_IN_MODE3 : Z := Z.shiftl 1 1.
Definition OMAP_MUX_REG_32BIT : Z := Z.shiftl 1 2.
Definition OMAP_DEVICE_PAD_ENABLED : Z := Z.shiftl 1 7.
Definition OMAP_DEVICE_PAD_REMUX : Z := Z.shiftl 1 1.
Definition OMAP_DEVICE_PAD_WAKEUP : Z := Z.shiftl 1 0.

(** plat/omap_hwmod.h: the states of a hardware module. *)
Definition _HWMOD_STATE_UNKNOWN : Z := 0.
Definition _HWMOD_STATE_REGISTERED : Z := 1.
Definition _HWMOD_STATE_CLKS_INITED : Z := 2.
Definition _HWMOD_STATE_INITIALIZED : Z := 3.
Definition _HWMOD_STATE_ENABLED : Z := 4.
Definition _HWMOD_STATE_IDLE : Z := 5.
Definition _HWMOD_STATE_DISABLED : Z := 6.

#[local] Set Primitive Projections.

(** struct omap_mux; the two arrays have 8 and 2 elements. *)
Record omap_mux := mkMux {
  mx_reg_offset : Z;  (* u16 *)
  mx_gpio : Z;  (* u16 *)
  mx_muxnames : list (option string);
  mx_balls : list (option string)
}.

Definition set_mx_balls : list (option string) -> omap_mux -> omap_mux :=
  Eval cbv beta zeta in ltac:(record_setter mx_balls).

(** struct omap_ball *)
Record omap_ball := mkBall { bl_reg_offset : Z; bl_balls : list (option string) }.

(** struct omap_board_mux *)
Record omap_board_mux := mkBoardMux { bm_reg_offset : Z; bm_value : Z }.

(** struct omap_mux_partition *)
Record omap_mux_partition := mkPart {
  pt_name : string;
  pt_flags : Z;  (* u32 *)
  pt_phys : Z;  (* u32 *)
  pt_size : Z;  (* u32 *)
  pt_base : Z;  (* void __iomem * *)
  pt_muxmodes : list omap_mux
}.

Definition set_pt_muxmodes : list omap_mux -> omap_mux_partition -> omap_mux_partition :=
  Eval cbv beta zeta in ltac:(record_setter pt_muxmodes).

(** struct omap_device_pad *)
Record omap_device_pad := mkPad {
  pa_name : string;
  pa_flags : Z;  (* u8 *)
  pa_enable : Z;  (* u16 *)
  pa_idle : Z;  (* u16 *)
  pa_off : Z;  (* u16 *)
  pa_partition : option nat;
  pa_mux : option nat
}.

Definition set_pa_flags : Z -> omap_device_pad -> omap_device_pad :=
  Eval cbv beta zeta in ltac:(record_setter pa_flags).

(** struct omap_hwmod_mux_info *)
Record omap_hwmod_mux_info := mkMuxInfo { mi_nr_pads : Z; mi_pads : list omap_device_pad }.

(** The state: the registers, the static variables of mux.c, and whether the next allocations
    fail. *)
Record mux_state := mkMuxState {
  ms_w : world;
  ms_partitions : list omap_mux_partition;
  ms_partitions_cnt : Z;  (* u32 *)
  ms_options : option string;
  ms_oom : list bool
}.

Definition set_ms_w : world -> mux_state -> mux_state := Eval cbv beta zeta in ltac:(record_setter ms_w).
Definition set_ms_partitions : list omap_mux_partition -> mux_state -> mux_state :=
  Eval cbv beta zeta in ltac:(record_setter ms_partitions).
Definition set_ms_partitions_cnt : Z -> mux_state -> mux_state :=
  Eval cbv beta zeta in ltac:(record_setter ms_partitions_cnt).
Definition set_ms_options : option string -> mux_state -> mux_state :=
  Eval cbv beta zeta in ltac:(record_setter ms_options).
Definition set_ms_oom : list bool -> mux_state -> mux_state := Eval cbv beta zeta in ltac:(record_setter ms_oom).

#[local] Unset Primitive Projections.

(** An access to a register. *)
Definition mux_io {A} (m : M world A) : M mux_state A := fun s =>
  match m (ms_w s) with Done a w => Done a (set_ms_w w s) | Fault f => Fault f end.

(** [kzalloc] or [kmalloc]: whether there was memory. *)
Definition mux_alloc : M mux_state bool :=
  l ← gets (fun s => ms_oom s);
  match l with
  | [] => ret true
  | b :: l' => modify (set_ms_oom l');; ret (negb b)
  end.

(** Following a pointer to a partition, and to a mux of it. *)
Definition get_part (p : nat) : M mux_state omap_mux_partition :=
  l ← gets (fun s => ms_partitions s); deref (l !! p).
Definition upd_part (p : nat) (f : omap_mux_partition -> omap_mux_partition) : M mux_state unit :=
  r ← get_part p; modify (fun s => set_ms_partitions (<[p := f r]> (ms_partitions s)) s).
Definition get_mux (p m : nat) : M mux_state omap_mux :=
  r ← get_part p; deref (pt_muxmodes r !! m).

(** The numbers of the elements of a list. *)
Definition part_numbers (s : mux_state) : list nat := seq 0 (length (ms_partitions s)).

(** ** C strings *)

(** The string before the first [c], and what follows it: [strchr] and [strsep]. *)
Fixpoint strsep (c : ascii) (s : string) : string * option string :=
  match s with
  | EmptyString => (EmptyString, None)
  | String a s' =>
      if Ascii.eqb a c then (EmptyString, Some s')
      else let '(t, r) := strsep c s' in (String a t, r)
  end.

(** lib/vsprintf.c with the base 16. *)
Definition hex_value (a : ascii) : option Z :=
  let n := Z.of_nat (nat_of_ascii a) in
  if (48 <=? n) && (n <=? 57) then Some (n - 48)
  else if (97 <=? Z.lor n 32) && (Z.lor n 32 <=? 102) then Some (Z.lor n 32 - 97 + 10)
  else None.

Fixpoint hex_digits (result : Z) (s : string) : Z * string :=
  match s with
  | String a s' =>
      match hex_value a with
      | Some v => hex_digits (u64 (result * 16 + v)) s'
      | None => (result, s)
      end
  | EmptyString => (result, s)
  end.

Definition simple_strtoull (cp : string) : Z * string :=
  match cp with
  | String a (String b s') =>
      if Ascii.eqb a "0" && (Z.lor (Z.of_nat (nat_of_ascii b)) 32 =? 120) then hex_digits 0 s'
      else hex_digits 0 cp
  | _ => hex_digits 0 cp
  end.

Definition strict_strtoul (cp : string) : option Z :=
  if String.eqb cp "" then None else
  let '(val, tail) := simple_strtoull cp in
  if String.eqb tail cp then None else
  if String.eqb tail "" || String.eqb tail (String "010" "") then Some (u32 val) else None.

(** ** Pad registers *)

Section Mux.
  Context `{SOC : Soc} `{HW : Hardware}.

Fixpoint mux_find (name : string) (l : list omap_mux_partition) (i : nat) : option nat :=
  match l with
  | [] => None
  | p :: l' => if String.eqb name (pt_name p) then Some i else mux_find name l' (S i)
  end.

Definition omap_mux_get (name : string) : M mux_state (option nat) :=
  gets (fun s => mux_find name (ms_partitions s) 0).

Definition omap_mux_read (partition : nat) (reg : Z) : M mux_state Z :=
  p ← get_part partition;
  if negb (Z.land (pt_flags p) OMAP_MUX_REG_8BIT =? 0) then mux_io (__raw_readb (pt_base p + reg))
  else if negb (Z.land (pt_flags p) OMAP_MUX_REG_32BIT =? 0) then mux_io (__raw_readl (pt_base p + reg))
  else mux_io (__raw_readw (pt_base p + reg)).

Definition omap_mux_write (partition : nat) (val reg : Z) : M mux_state unit :=
  p ← get_part partition;
  val ← (if cpu_is_ti814x
         then v ← mux_io (__raw_readl (pt_base p + reg)); ret (Z.lor val (Z.land v 0xFFF00000))
         else ret val);
  when (negb (Z.land (pt_flags p) OMAP_MUX_REG_8BIT =? 0)) (mux_io (__raw_writeb val (pt_base p + reg)));;
  if negb (Z.land (pt_flags p) OMAP_MUX_REG_32BIT =? 0) then mux_io (__raw_writel val (pt_base p + reg))
  else mux_io (__raw_writew val (pt_base p + reg)).

Fixpoint omap_mux_write_array (partition : nat) (board_mux : list omap_board_mux) : M mux_state unit :=
  match board_mux with
  | [] => fail OutOfBounds
  | b :: l =>
      if bm_reg_offset b =? OMAP_MUX_TERMINATOR then ret tt else
      omap_mux_write partition (bm_value b) (bm_reg_offset b);;
      omap_mux_write_array partition l
  end.

(** ** Muxing by GPIO *)

(** The last mux of the GPIO and how many there are. *)
Fixpoint gpio_loop (gpio : Z) (l : list omap_mux) (gpio_mux : option omap_mux) (found : Z)
    : option omap_mux * Z :=
  match l with
  | [] => (gpio_mux, found)
  | m :: l' =>
      if gpio =? mx_gpio m then gpio_loop gpio l' (Some m) (found + 1)
      else gpio_loop gpio l' gpio_mux found
  end.

Definition _omap_mux_init_gpio (partition : nat) (gpio val : Z) : M mux_state Z :=
  if gpio =? 0 then ret (- EINVAL) else
  p ← get_part partition;
  let '(gpio_mux, found) := gpio_loop gpio (pt_muxmodes p) None 0 in
  if found =? 0 then ret (- ENODEV) else
  if 1 <? found then ret (- EINVAL) else
  m ← deref gpio_mux;
  omap_mux_read partition (mx_reg_offset m);;
  let mux_mode := u16 (Z.land val (Z.lnot (OMAP_MUX_NR_MODES - 1))) in
  let mux_mode := if negb (Z.land (pt_flags p) OMAP_MUX_GPIO_IN_MODE3 =? 0)
                  then Z.lor mux_mode OMAP_MUX_MODE3 else Z.lor mux_mode OMAP_MUX_MODE4 in
  omap_mux_write partition mux_mode (mx_reg_offset m);;
  ret 0.

Fixpoint init_gpio_loop (gpio val : Z) (l : list nat) : M mux_state Z :=
  match l with
  | [] => ret (- ENODEV)
  | partition :: l' =>
      r ← _omap_mux_init_gpio partition gpio val;
      if r =? 0 then ret r else init_gpio_loop gpio val l'
  end.

Definition omap_mux_init_gpio (gpio val : Z) : M mux_state Z :=
  l ← gets part_numbers; init_gpio_loop gpio val l.

(** ** Muxing by name *)

(** The loop over the modes of one mux: [*found_mux], [found] and [found_mode]. *)
Fixpoint mode_loop (mode_name : string) (mux : nat) (names : list (option string)) (i : Z)
    (acc : option nat * Z * Z) : option nat * Z * Z :=
  match names with
  | [] => acc
  | None :: l => mode_loop mode_name mux l (i + 1) acc
  | Some mode_cur :: l =>
      mode_loop mode_name mux l (i + 1)
        (if String.eqb mode_name mode_cur then (Some mux, snd (fst acc) + 1, i) else acc)
  end.

(** The loop over the muxes; [mode0] is the part of the name before the dot. *)
Fixpoint mux_loop (mode0 mode_name : string) (l : list omap_mux) (mux : nat)
    (acc : option nat * Z * Z) : M mux_state (option nat * Z * Z) :=
  match l with
  | [] => ret acc
  | m :: l' =>
      skip ← (if String.eqb mode0 "" then ret false
              else m0_entry ← deref (default None (mx_muxnames m !! 0%nat));
                   ret (negb (String.prefix mode0 m0_entry)));
      if skip then mux_loop mode0 mode_name l' (S mux) acc
      else mux_loop mode0 mode_name l' (S mux) (mode_loop mode_name mux (mx_muxnames m) 0 acc)
  end.

(** The mode of the signal, or an error, and its mux. *)
Definition _omap_mux_get_by_name (partition : nat) (muxname : string) : M mux_state (Z * option nat) :=
  p ← get_part partition;
  let '(mode0, mode_name) :=
    match strsep "." muxname with
    | (mode0, Some mode_name) => (mode0, mode_name)
    | (_, None) => ("", muxname)
    end in
  '(found_mux, found, found_mode) ← mux_loop mode0 mode_name (pt_muxmodes p) 0 (None, 0, 0);
  if found =? 1 then
    ret ((if cpu_is_ti814x then Z.shiftl 1 found_mode else found_mode), found_mux)
  else if 1 <? found then ret (- EINVAL, found_mux)
  else ret (- ENODEV, found_mux).

Fixpoint get_by_name_loop (muxname : string) (l : list nat) : M mux_state (Z + Z * nat * option nat) :=
  match l with
  | [] => ret (inl (- ENODEV))
  | partition :: l' =>
      '(mux_mode, mux) ← _omap_mux_get_by_name partition muxname;
      if mux_mode <? 0 then get_by_name_loop muxname l' else ret (inr (mux_mode, partition, mux))
  end.

(** The error, or the mode, the partition and the mux. *)
Definition omap_mux_get_by_name (muxname : string) : M mux_state (Z + Z * nat * option nat) :=
  l ← gets part_numbers; get_by_name_loop muxname l.

Definition omap_mux_init_signal (muxname : string) (val : Z) : M mux_state Z :=
  r ← omap_mux_get_by_name muxname;
  match r with
  | inl err => ret err
  | inr (mux_mode, partition, mux) =>
      mux ← deref mux;
      m ← get_mux partition mux;
      omap_mux_read partition (mx_reg_offset m);;
      omap_mux_write partition (u32 (Z.lor mux_mode val)) (mx_reg_offset m);;
      ret 0
  end.

(** ** The pads of a hardware module *)

(** The loop over the pads of the board; [None] is the jump to [err3]. *)
Fixpoint mux_init_pads (bpads : list omap_device_pad) : M mux_state (option (list omap_device_pad)) :=
  match bpads with
  | [] => ret (Some [])
  | bpad :: l =>
      r ← omap_mux_get_by_name (pa_name bpad);
      match r with
      | inl _ => ret None
      | inr (_, partition, mux) =>
          ok ← mux_alloc;
          if negb ok then ret None else
          rest ← mux_init_pads l;
          ret (match rest with
               | Some pads => Some (mkPad (pa_name bpad) (pa_flags bpad) (pa_enable bpad)
                   (pa_idle bpad) (pa_off bpad) (Some partition) mux :: pads)
               | None => None
               end)
      end
  end.

Definition omap_hwmod_mux_init (bpads : option (list omap_device_pad)) (nr_pads : Z)
    : M mux_state (option omap_hwmod_mux_info) :=
  match bpads with
  | None => ret None
  | Some bpads =>
      if nr_pads <? 1 then ret None else
      ok ← mux_alloc;
      if negb ok then ret None else
      ok ← mux_alloc;
      if negb ok then ret None else
      if Z.of_nat (length bpads) <? nr_pads then fail OutOfBounds else
      pads ← mux_init_pads (take (Z.to_nat nr_pads) bpads);
      ret (match pads with Some pads => Some (mkMuxInfo nr_pads pads) | None => None end)
  end.

(** What a pad is to be set to in a state of the module: the value, or -EINVAL, and the flags. *)
Definition pad_target (state : Z) (pad : omap_device_pad) : Z * Z :=
  let flags := pa_flags pad in
  if state =? _HWMOD_STATE_ENABLED then
    if negb (Z.land flags OMAP_DEVICE_PAD_ENABLED =? 0) then (- EINVAL, flags)
    else (pa_enable pad, Z.lor flags OMAP_DEVICE_PAD_ENABLED)
  else if state =? _HWMOD_STATE_IDLE then
    if Z.land flags OMAP_DEVICE_PAD_REMUX =? 0 then (- EINVAL, flags)
    else (pa_idle pad, Z.land flags (Z.lnot OMAP_DEVICE_PAD_ENABLED))
  else
    ((if negb (Z.land flags OMAP_DEVICE_PAD_REMUX =? 0) then pa_off pad else OMAP_MUX_MODE7),
     Z.land flags (Z.lnot OMAP_DEVICE_PAD_ENABLED)).

Definition mux_pad (state : Z) (pad : omap_device_pad) : M mux_state omap_device_pad :=
  let '(val, flags) := pad_target state pad in
  if 0 <=? val then
    partition ← deref (pa_partition pad);
    mux ← deref (pa_mux pad);
    m ← get_mux partition mux;
    omap_mux_write partition val (mx_reg_offset m);;
    ret (set_pa_flags (u8 flags) pad)
  else ret pad.

Fixpoint mux_pads (state : Z) (pads : list omap_device_pad) : M mux_state (list omap_device_pad) :=
  match pads with
  | [] => ret []
  | pad :: l => pad ← mux_pad state pad; l ← mux_pads state l; ret (pad :: l)
  end.

(** The pads after the call; only the module points to them. *)
Definition omap_hwmod_mux (hmux : omap_hwmod_mux_info) (state : Z) : M mux_state omap_hwmod_mux_info :=
  if Z.of_nat (length (mi_pads hmux)) <? mi_nr_pads hmux then fail OutOfBounds else
  let n := Z.to_nat (mi_nr_pads hmux) in
  pads ← mux_pads state (take n (mi_pads hmux));
  ret (mkMuxInfo (mi_nr_pads hmux) (pads ++ drop n (mi_pads hmux))).

(** ** Initialisation *)

(** The search of [omap_mux_package_fixup] for the pin of [p]. *)
Fixpoint fixup_pin (p : omap_mux) (superset : list omap_mux) : M mux_state (list omap_mux) :=
  match superset with
  | [] => fail OutOfBounds
  | s :: l =>
      if mx_reg_offset s =? OMAP_MUX_TERMINATOR then ret superset else
      if mx_reg_offset s =? mx_reg_offset p then ret (p :: l) else
      l ← fixup_pin p l; ret (s :: l)
  end.

Fixpoint omap_mux_package_fixup (p superset : list omap_mux) : M mux_state (list omap_mux) :=
  match p with
  | [] => fail OutOfBounds
  | p :: l =>
      if mx_reg_offset p =? OMAP_MUX_TERMINATOR then ret superset else
      superset ← fixup_pin p superset; omap_mux_package_fixup l superset
  end.

Fixpoint fixup_ball (b : omap_ball) (superset : list omap_mux) : M mux_state (list omap_mux) :=
  match superset with
  | [] => fail OutOfBounds
  | s :: l =>
      if mx_reg_offset s =? OMAP_MUX_TERMINATOR then ret superset else
      if mx_reg_offset s =? bl_reg_offset b then ret (set_mx_balls (bl_balls b) s :: l) else
      l ← fixup_ball b l; ret (s :: l)
  end.

Fixpoint omap_mux_package_init_balls (b : list omap_ball) (superset : list omap_mux)
    : M mux_state (list omap_mux) :=
  match b with
  | [] => fail OutOfBounds
  | b :: l =>
      if bl_reg_offset b =? OMAP_MUX_TERMINATOR then ret superset else
      superset ← fixup_ball b superset; omap_mux_package_init_balls l superset
  end.

Definition omap_mux_setup (options : option string) : M mux_state Z :=
  match options with
  | None => ret 0
  | Some o => modify (set_ms_options (Some o));; ret 1
  end.

(** [bound] is one more than the number of commas. *)
Fixpoint cmdline_loop (bound : nat) (next_opt : option string) : M mux_state unit :=
  match bound, next_opt with
  | _, None => ret tt
  | O, _ => fail NoFuel
  | S bound', Some s =>
      let '(token, next_opt) := strsep "," s in
      let '(name, keyval) := strsep "=" token in
      keyval ← deref keyval;
      match strict_strtoul keyval with
      | None => cmdline_loop bound' next_opt
      | Some val => omap_mux_init_signal name (s32 val);; cmdline_loop bound' next_opt
      end
  end.

Definition omap_mux_set_cmdline_signals : M mux_state unit :=
  o ← gets (fun s => ms_options s);
  match o with
  | None => ret tt
  | Some o => ok ← mux_alloc; if negb ok then ret tt else cmdline_loop (S (String.length o)) (Some o)
  end.

(** A pointer of a mux that is being copied: still the one of the source, or to memory of its
    own.  Freeing memory that was not allocated is a fault. *)
Inductive name_ptr := Borrowed (s : option string) | Owned (s : option string).
Definition name_of (p : name_ptr) : option string := match p with Borrowed s | Owned s => s end.
Definition kfree_name (p : name_ptr) : M mux_state unit :=
  match p with Borrowed (Some _) => fail Bug | _ => ret tt end.

(** One of the two loops of [omap_mux_copy_names]: whether it came to the end, and the pointers. *)
Fixpoint copy_names (l : list (option string)) : M mux_state (bool * list name_ptr) :=
  match l with
  | [] => ret (true, [])
  | None :: l' => '(ok, ps) ← copy_names l'; ret (ok, Borrowed None :: ps)
  | Some n :: l' =>
      ok ← mux_alloc;
      if negb ok then ret (false, Owned None :: (Borrowed <$> l')) else
      '(ok, ps) ← copy_names l';
      ret (ok, Owned (Some n) :: ps)
  end.

Definition omap_mux_free_names (names balls : list name_ptr) : M mux_state unit :=
  for_each names kfree_name;; for_each balls kfree_name.

(** -ENOMEM, or the copy; the destination starts as a copy of the pointers of the source. *)
Definition omap_mux_copy_names (src : omap_mux) : M mux_state (Z + omap_mux) :=
  '(ok, names) ← copy_names (mx_muxnames src);
  '(ok, balls) ← (if ok then copy_names (mx_balls src) else ret (false, Borrowed <$> mx_balls src));
  if ok then ret (inr (mkMux (mx_reg_offset src) (mx_gpio src) (name_of <$> names) (name_of <$> balls)))
  else omap_mux_free_names names balls;; ret (inl (- ENOMEM)).

Definition omap_mux_list_add (partition : nat) (src : omap_mux) : M mux_state bool :=
  ok ← mux_alloc;
  if negb ok then ret false else
  r ← omap_mux_copy_names src;
  match r with
  | inl _ => ret false
  | inr m => upd_part partition (fun p => set_pt_muxmodes (pt_muxmodes p ++ [m]) p);; ret true
  end.

Fixpoint omap_mux_init_list (partition : nat) (superset : list omap_mux) : M mux_state unit :=
  match superset with
  | [] => fail OutOfBounds
  | s :: l =>
      if mx_reg_offset s =? OMAP_MUX_TERMINATOR then ret tt else
      match mx_muxnames s !! 0%nat with
      | Some (Some _) =>
          ok ← omap_mux_list_add partition s;
          if ok then omap_mux_init_list partition l else ret tt
      | _ => omap_mux_init_list partition l
      end
  end.

Definition omap_mux_init_package (superset : list omap_mux) (package_subset : option (list omap_mux))
    (package_balls : option (list omap_ball)) : M mux_state (list omap_mux) :=
  superset ← match package_subset with
             | Some p => omap_mux_package_fixup p superset
             | None => ret superset
             end;
  match package_balls with
  | Some b => omap_mux_package_init_balls b superset
  | None => ret superset
  end.

Definition omap_mux_init_signals (partition : nat) (board_mux : list omap_board_mux) : M mux_state unit :=
  omap_mux_set_cmdline_signals;;
  omap_mux_write_array partition board_mux.

(** [mapped] is the result of [ioremap]. *)
Definition omap_mux_init (name : string) (flags mux_pbase mux_size mapped : Z)
    (superset : list omap_mux) (package_subset : option (list omap_mux))
    (board_mux : list omap_board_mux) (package_balls : option (list omap_ball)) : M mux_state Z :=
  ok ← mux_alloc;
  if negb ok then ret (- ENOMEM) else
  if mapped =? 0 then ret (- ENODEV) else
  partition ← gets (fun s => length (ms_partitions s));
  modify (fun s => set_ms_partitions
    (ms_partitions s ++ [mkPart name flags mux_pbase mux_size mapped []]) s);;
  modify (fun s => set_ms_partitions_cnt (u32 (ms_partitions_cnt s + 1)) s);;
  superset ← omap_mux_init_package superset package_subset package_balls;
  omap_mux_init_list partition superset;;
  omap_mux_init_signals partition board_mux;;
  ret 0.

(** ** Muxing GPIO pads while the system runs *)

Fixpoint get_by_gpio_loop (gpio : Z) (l : list omap_mux) : option omap_mux :=
  match l with
  | [] => None
  | m :: l' => if mx_gpio m =? gpio then Some m else get_by_gpio_loop gpio l'
  end.

Definition omap_mux_get_by_gpio (partition : nat) (gpio : Z) : M mux_state (option omap_mux) :=
  p ← get_part partition; ret (get_by_gpio_loop gpio (pt_muxmodes p)).

(** Without any partition the variable [m] is used uninitialised. *)
Fixpoint get_gpio_loop (gpio : Z) (l : list nat) : M mux_state Z :=
  match l with
  | [] => ret OMAP_MUX_TERMINATOR
  | partition :: l' =>
      m ← omap_mux_get_by_gpio partition gpio;
      match m with
      | Some m => v ← omap_mux_read partition (mx_reg_offset m); ret (u16 v)
      | None => get_gpio_loop gpio l'
      end
  end.

Definition omap_mux_get_gpio (gpio : Z) : M mux_state Z :=
  l ← gets part_numbers;
  match l with [] => fail Bug | _ => get_gpio_loop gpio l end.

Fixpoint set_gpio_loop (val gpio : Z) (l : list nat) : M mux_state unit :=
  match l with
  | [] => ret tt
  | partition :: l' =>
      m ← omap_mux_get_by_gpio partition gpio;
      match m with
      | Some m => omap_mux_write partition val (mx_reg_offset m)
      | None => set_gpio_loop val gpio l'
      end
  end.

Definition omap_mux_set_gpio (val gpio : Z) : M mux_state unit :=
  l ← gets part_numbers; set_gpio_loop (u16 val) gpio l.
End Mux.
