(* ===== verification/Mux814xData.v ===== *)
(** * The pads of the TI814x

    mach-omap2/mux814x.c: the table of the pads and their modes, and the initialisation; the
    pads that the board sets up (board-ti8148evm.c). *)

From S2P Require Import Prelude Platform Mux.

Definition TI81XX_CONTROL_PADCONF_MUX_PBASE : Z := 0x48140000.
Definition TI814X_CONTROL_PADCONF_MUX_SIZE : Z := 0x0C34 + 0x4.

Definition _TI814X_MUXENTRY (reg_offset g : Z) (m0 m1 m2 m3 m4 m5 m6 m7 : option string) : omap_mux :=
  mkMux reg_offset g [m0; m1; m2; m3; m4; m5; m6; m7] [None; None].

Definition ti814x_muxmodes : list omap_mux := [
  _TI814X_MUXENTRY 0x0800 0 (Some "mmc1_clk") None None None None None None None;
  _TI814X_MUXENTRY 0x0804 0 (Some "mmc1_cmd_mux0") None None None None None None (Some
    "gpio0_0");
  _TI814X_MUXENTRY 0x0808 0 (Some "mmc1_dat0") None None None None None None None;
  _TI814X_MUXENTRY 0x080c 0 (Some "mmc1_dat1") None None None None None None None;
  _TI814X_MUXENTRY 0x0810 0 (Some "mmc1_dat2") None None None None None None None;
  _TI814X_MUXENTRY 0x0814 0 (Some "mmc1_dat3") None None None None None None None;
  _TI814X_MUXENTRY 0x0818 0 (Some "osc_wake") (Some "spi1_cs1") None None None None (Some
    "timer5_mux1") (Some "gpio1_07_mux0");
  _TI814X_MUXENTRY 0x081c 0 (Some "mmc0_clk") None None (Some "sc1_c4") None None None (Some
    "gpio0_1");
  _TI814X_MUXENTRY 0x0820 0 (Some "mmc0_cmd") (Some "mmc1_cmd_mux1") None (Some "sc1_det") None
    None None (Some "gpio0_2");
  _TI814X_MUXENTRY 0x0824 0 (Some "mmc0_dat0") (Some "mmc1_dat4") None (Some "sc1_data") None
    None None (Some "gpio0_3");
  _TI814X_MUXENTRY 0x0828 0 (Some "mmc0_dat1") (Some "mmc1_dat5") None (Some "sc1_clk") None
    None None (Some "gpio0_4");
  _TI814X_MUXENTRY 0x082c 0 (Some "mmc0_dat2") (Some "mmc1_dat6") None (Some "sc1_rst") None
    None None (Some "gpio0_5");
  _TI814X_MUXENTRY 0x0830 0 (Some "mmc0_dat3") (Some "mmc1_dat7") None (Some "sc1_vccen") None
    None None (Some "gpio0_6");
  _TI814X_MUXENTRY 0x0834 0 (Some "xref_clk0") (Some "mcasp0_axr_7_mux1") (Some "mcasp0_ahclkx")
    (Some "mcasp3_ahclkx") (Some "atlclkout1") (Some "atlclkout0") (Some "vic0") (Some
    "usb1_drvvbus");
  _TI814X_MUXENTRY 0x0838 0 (Some "xref_clk1") (Some "mcasp0_axr_8_mux1") (Some "mcasp1_ahclkx")
    (Some "mcasp4_ahclkx") (Some "atlclkout2") (Some "xdma_evt_3_mux1") (Some "timer2_mux1") (Some
    "gpio0_8");
  _TI814X_MUXENTRY 0x083c 0 (Some "xref_clk2") (Some "mcasp0_axr_9_mux1") (Some "mcasp2_ahclkx")
    (Some "mcasp5_ahclkx") (Some "atlclkout3") (Some "xdma_evt_2_mux1") (Some "timer3_mux1") (Some
    "gpio0_9");
  _TI814X_MUXENTRY 0x083c 0 (Some "xref_clk2") (Some "mcasp0_axr_9_mux1") (Some "mcasp2_ahclkx")
    (Some "sata_act1_led_mux0") (Some "atlclkout3") (Some "xdma_evt_2_mux1") (Some "timer3_mux1")
    (Some "gpio0_9");
  _TI814X_MUXENTRY 0x0840 0 (Some "mcasp0_aclkx") None None None None None None None;
  _TI814X_MUXENTRY 0x0844 0 (Some "mcasp0_fsx") None None None None None None None;
  _TI814X_MUXENTRY 0x0848 0 (Some "mcasp0_aclkr") (Some "mcasp5_axr2") None None None None None
    None;
  _TI814X_MUXENTRY 0x084c 0 (Some "mcasp0_fsr") (Some "mcasp5_axr3") None None None None None
    None;
  _TI814X_MUXENTRY 0x0850 0 (Some "mcasp0_axr0") None None None None (Some "vic1") None None;
  _TI814X_MUXENTRY 0x0854 0 (Some "mcasp0_axr1") None None None None (Some "i2c3_scl_mux0") None
    None;
  _TI814X_MUXENTRY 0x0858 0 (Some "mcasp0_axr2") None None None None (Some "i2c3_sda_mux0") None
    None;
  _TI814X_MUXENTRY 0x085c 0 (Some "mcasp0_axr3") None None (Some "sc1_vppen") None None None
    None;
  _TI814X_MUXENTRY 0x0860 0 (Some "mcasp0_axr4") (Some "mcasp1_axr_8_mux0") None None None None
    None None;
  _TI814X_MUXENTRY 0x0864 0 (Some "mcasp0_axr5") (Some "mcasp1_axr_9_mux0") None None None None
    None None;
  _TI814X_MUXENTRY 0x0868 0 (Some "mcasp0_axr6") (Some "mcbsp_dr") None None None None None None;
  _TI814X_MUXENTRY 0x086c 0 (Some "mcasp0_axr_7_mux0") (Some "mcbsp_dx") None None None None
    None None;
  _TI814X_MUXENTRY 0x0870 0 (Some "mcasp0_axr_8_mux0") (Some "mcbsp_fsx") (Some
    "mcbsp_fsr_mux1") None None None None None;
  _TI814X_MUXENTRY 0x0874 0 (Some "mcasp0_axr_9_mux0") (Some "mcbsp_clkx") (Some
    "mcbsp_clkr_mux1") None None None None None;
  _TI814X_MUXENTRY 0x0878 0 (Some "mcasp1_aclkx") None None None None None None None;
  _TI814X_MUXENTRY 0x087c 0 (Some "mcasp1_fsx") None None None None None None None;
  _TI814X_MUXENTRY 0x0880 0 (Some "mcasp1_aclkr") (Some "mcasp1_axr4") None None None None None
    None;
  _TI814X_MUXENTRY 0x0884 0 (Some "mcasp1_fsr") (Some "mcasp1_axr5") None None None None None
    None;
  _TI814X_MUXENTRY 0x0888 0 (Some "mcasp1_axr0") (Some "mmc0_dat4") None (Some "sc0_rst") None
    None None None;
  _TI814X_MUXENTRY 0x088c 0 (Some "mcasp1_axr1") (Some "mmc0_dat5") None (Some "sc0_det") None
    None None None;
  _TI814X_MUXENTRY 0x0890 0 (Some "mcasp1_axr2") (Some "mcbsp_fsr_mux0") None None None None
    None None;
  _TI814X_MUXENTRY 0x0894 0 (Some "mcasp1_axr3") (Some "mcbsp_clkr_mux0") None None None None
    None None;
  _TI814X_MUXENTRY 0x0898 0 (Some "mcasp2_aclkx") None None (Some "sc0_c4") None None None (Some
    "gpio0_10_mux1");
  _TI814X_MUXENTRY 0x089c 0 (Some "mcasp2_fsx") None None (Some "sc0_data") None None None (Some
    "gpio0_11_mux1");
  _TI814X_MUXENTRY 0x08a0 0 (Some "mcasp2_axr0") (Some "mmc0_dat6") None (Some "sc0_clk") None
    (Some "uart5_rxd_mux3") None (Some "gpio0_12_mux1");
  _TI814X_MUXENTRY 0x08a4 0 (Some "mcasp2_axr1") (Some "mmc0_dat7") None (Some "sc0_vccen") None
    (Some "uart5_txd_mux3") None (Some "gpio0_13_mux1");
  _TI814X_MUXENTRY 0x08a8 0 (Some "mcasp2_axr2") (Some "mcasp1_axr6") None (Some "sc0_vppen")
    None None (Some "timer2_mux0") (Some "gpio0_14_mux1");
  _TI814X_MUXENTRY 0x08ac 0 (Some "mcasp2_axr3") (Some "mcasp1_axr7") None (Some "tso0_pacerr")
    None None (Some "timer3_mux0") (Some "gpio0_15_mux1");
  _TI814X_MUXENTRY 0x08b0 0 (Some "mcasp3_aclkx") None None (Some "tsi0_dclk") None None None
    (Some "gpio0_16_mux1");
  _TI814X_MUXENTRY 0x08b4 0 (Some "mcasp3_fsx") None None (Some "tsi0_bytstrt") None None None
    (Some "gpio0_17_mux1");
  _TI814X_MUXENTRY 0x08b8 0 (Some "mcasp3_axr0") None None (Some "tsi0_data") None None (Some
    "timer4_mux0") (Some "gpio0_18_mux1");
  _TI814X_MUXENTRY 0x08bc 0 (Some "mcasp3_axr1") None None (Some "tsi0_pacval") None None (Some
    "timer5_mux0") (Some "gpio0_19_mux1");
  _TI814X_MUXENTRY 0x08c0 0 (Some "mcasp3_axr2") (Some "mcasp1_axr_8_mux1") None (Some
    "tsi0_pacerr") None None None (Some "gpio0_20_mux1");
  _TI814X_MUXENTRY 0x08c4 0 (Some "mcasp3_axr3") (Some "mcasp1_axr_9_mux1") None (Some
    "tsi2_pacerr") None None None None;
  _TI814X_MUXENTRY 0x08c8 0 (Some "mcasp4_aclkx") None None (Some "tsi2_dclk") None None None
    (Some "gpio0_21_mux1");
  _TI814X_MUXENTRY 0x08cc 0 (Some "mcasp4_fsx") None None (Some "tsi2_bytstrt") None None None
    (Some "gpio0_22_mux1");
  _TI814X_MUXENTRY 0x08d0 0 (Some "mcasp4_axr0") None None (Some "tsi2_data") None None None
    (Some "gpio0_23_mux1");
  _TI814X_MUXENTRY 0x08d4 0 (Some "mcasp4_axr1") None None (Some "tsi2_pacval") None None (Some
    "timer6_mux0") (Some "gpio0_24_mux1");
  _TI814X_MUXENTRY 0x08d8 0 (Some "mcasp5_aclkx") None None (Some "tso0_dclk") None None None
    (Some "gpio0_25_mux1");
  _TI814X_MUXENTRY 0x08dc 0 (Some "mcasp5_fsx") None None (Some "tso0_bytstrt") None None None
    (Some "gpio0_26_mux1");
  _TI814X_MUXENTRY 0x08e0 0 (Some "mcasp5_axr0") (Some "mcasp4_axr2") None (Some "tso0_data")
    None None None (Some "gpio0_27_mux1");
  _TI814X_MUXENTRY 0x08e4 0 (Some "mcasp5_axr1") (Some "mcasp4_axr3") None (Some "tso0_pacval")
    None None (Some "timer7_mux0") (Some "gpio0_28_mux1");
  _TI814X_MUXENTRY 0x08e8 0 (Some "mlb_sig") None None (Some "uart2_rxd_mux1") None None None
    (Some "gpio0_29");
  _TI814X_MUXENTRY 0x08ec 0 (Some "mlb_dat") None None (Some "tclkin") None None None (Some
    "gpio0_30");
  _TI814X_MUXENTRY 0x08f0 0 (Some "mlb_clk") None None (Some "uart2_txd_mux1") None None None
    (Some "gpio0_31");
  _TI814X_MUXENTRY 0x08f4 0 (Some "mlbp_sig_p") None None None None None None (Some
    "gpio1_07_mux1");
  _TI814X_MUXENTRY 0x08f8 0 (Some "mlbp_sig_n") None None None None None None (Some
    "gpio1_08_mux1");
  _TI814X_MUXENTRY 0x08fc 0 (Some "mlbp_dat_p") None None None None None None (Some
    "gpio1_09_mux1");
  _TI814X_MUXENTRY 0x0900 0 None None None None None None None (Some "gpio1_10_mux1");
  _TI814X_MUXENTRY 0x0904 0 (Some "mlbp_clk_p") None None None None None None None;
  _TI814X_MUXENTRY 0x0908 0 (Some "mlbp_clk_n") None None None None None None None;
  _TI814X_MUXENTRY 0x090c 0 (Some "dcan0_tx") (Some "uart2_txd_mux2") None None None (Some
    "i2c3_sda_mux1") None (Some "gpio1_0");
  _TI814X_MUXENTRY 0x0910 0 (Some "dcan0_rx") (Some "uart2_rxd_mux2") None None None (Some
    "i2c3_scl_mux1") None (Some "gpio1_1");
  _TI814X_MUXENTRY 0x0914 0 (Some "uart0_rxd") None None None None None None None;
  _TI814X_MUXENTRY 0x0918 0 (Some "uart0_txd") None None None None None None None;
  _TI814X_MUXENTRY 0x091c 0 (Some "uart0_ctsn") (Some "uart4_rxd_mux3") None (Some "dcan1_tx")
    (Some "spi1_cs3") None (Some "mmc0_sdcd") None;
  _TI814X_MUXENTRY 0x0920 0 (Some "uart0_rtsn") (Some "uart4_txd_mux3") None (Some "dcan1_rx")
    (Some "spi1_cs2") None (Some "mmc2_sdcd") None;
  _TI814X_MUXENTRY 0x0924 0 (Some "uart0_dcdn") (Some "uart3_rxd_mux0") None None (Some
    "spi0_cs3") (Some "i2c2_scl_mux0") (Some "mmc1_pow") (Some "gpio1_2");
  _TI814X_MUXENTRY 0x0928 0 (Some "uart0_dsrn") (Some "uart3_txd_mux0") None None (Some
    "spi0_cs2") (Some "i2c2_sda_mux0") (Some "mmc1_sdwp") (Some "gpio1_3");
  _TI814X_MUXENTRY 0x092c 0 (Some "uart0_dtrn") (Some "uart3_ctsn_mux0") (Some "uart1_txd_mux0")
    None None None None (Some "gpio1_4");
  _TI814X_MUXENTRY 0x0930 0 (Some "uart0_rin") (Some "uart3_rtsn_mux0") (Some "uart1_rxd_mux0")
    None None None None (Some "gpio1_5");
  _TI814X_MUXENTRY 0x0934 0 (Some "i2c1_scl") (Some "hdmi_ddc_scl_mux0") None None None None
    None None;
  _TI814X_MUXENTRY 0x0938 0 (Some "i2c1_sda") (Some "hdmi_ddc_sda_mux0") None None None None
    None None;
  _TI814X_MUXENTRY 0x093c 0 (Some "spi0_cs1") (Some "mmc1_sdcd") (Some "sata_act0_led") None
    None (Some "xdma_evt_1_mux1") (Some "timer4_mux1") (Some "gpio1_6");
  _TI814X_MUXENTRY 0x0940 0 (Some "spi0_cs0") None None None None None None None;
  _TI814X_MUXENTRY 0x0944 0 (Some "spi0_sclk") None None None None None (Some "`") None;
  _TI814X_MUXENTRY 0x0948 0 (Some "spi0_d1") None None None None None None None;
  _TI814X_MUXENTRY 0x094c 0 (Some "spi0_d0") None None None None None None None;
  _TI814X_MUXENTRY 0x0950 0 (Some "spi1_cs0") None None None None None None (Some
    "gpio1_16_mux1");
  _TI814X_MUXENTRY 0x0954 0 (Some "spi1_sclk") None None None None None None (Some
    "gpio1_17_mux1");
  _TI814X_MUXENTRY 0x0958 0 (Some "spi1_d1") None None None None None None (Some
    "gpio1_18_mux1");
  _TI814X_MUXENTRY 0x095c 0 (Some "spi1_d0") None None None None None None (Some
    "gpio1_26_mux1");
  _TI814X_MUXENTRY 0x0960 0 (Some "gpmc_ad0") None None None None None None (Some "boot0");
  _TI814X_MUXENTRY 0x0964 0 (Some "gpmc_ad1") None None None None None None (Some "boot1");
  _TI814X_MUXENTRY 0x0968 0 (Some "gpmc_ad2") None None None None None None (Some "boot2");
  _TI814X_MUXENTRY 0x096c 0 (Some "gpmc_ad3") None None None None None None (Some "boot3");
  _TI814X_MUXENTRY 0x0970 0 (Some "gpmc_ad4") None None None None None None (Some "boot4");
  _TI814X_MUXENTRY 0x0974 0 (Some "gpmc_ad5") None None None None None None (Some "boot5");
  _TI814X_MUXENTRY 0x0978 0 (Some "gpmc_ad6") None None None None None None (Some "boot6");
  _TI814X_MUXENTRY 0x097c 0 (Some "gpmc_ad7") None None None None None None (Some "boot7");
  _TI814X_MUXENTRY 0x0980 0 (Some "gpmc_ad8") None None None None None None (Some "boot8");
  _TI814X_MUXENTRY 0x0984 0 (Some "gpmc_ad9") None None None None None None (Some "boot9");
  _TI814X_MUXENTRY 0x0988 0 (Some "gpmc_ad10") None None None None None None (Some "boot10");
  _TI814X_MUXENTRY 0x098c 0 (Some "gpmc_ad11") None None None None None None (Some "boot11");
  _TI814X_MUXENTRY 0x0990 0 (Some "gpmc_ad12") None None None None None None (Some "boot12");
  _TI814X_MUXENTRY 0x0994 0 (Some "gpmc_ad13") None None None None None None (Some "boot13");
  _TI814X_MUXENTRY 0x0998 0 (Some "gpmc_ad14") None None None None None None (Some "boot14");
  _TI814X_MUXENTRY 0x099c 0 (Some "gpmc_ad15") None None None None None None (Some "boot15");
  _TI814X_MUXENTRY 0x09a0 0 (Some "gpmc_a16") None None None None None None (Some
    "gpio2_05_mux0");
  _TI814X_MUXENTRY 0x09a4 0 (Some "gpmc_a17") None None None None None None (Some
    "gpio2_06_mux0");
  _TI814X_MUXENTRY 0x09a8 0 (Some "gpmc_a18") None None None None None (Some "timer2_mux2")
    (Some "gpio1_13_mux0");
  _TI814X_MUXENTRY 0x09ac 0 (Some "gpmc_a19") None None None None None (Some "timer3_mux2")
    (Some "gpio1_14_mux0");
  _TI814X_MUXENTRY 0x09b0 0 (Some "gpmc_a_20_mux0") None (Some "spi2_cs1") None None None None
    (Some "gpio1_15_mux0");
  _TI814X_MUXENTRY 0x09b4 0 (Some "gpmc_a_21_mux0") None (Some "spi2_d_0_mux0") None None None
    None (Some "gpio1_16_mux0");
  _TI814X_MUXENTRY 0x09b8 0 (Some "gpmc_a_22_mux0") None (Some "spi2_d_1_mux0") None (Some
    "hdmi_cec_mux0") None (Some "timer4_mux2") (Some "gpio1_17_mux0");
  _TI814X_MUXENTRY 0x09bc 0 (Some "gpmc_a_23_mux0") None (Some "spi2_sclk_mux0") None (Some
    "hdmi_hpd_mux0") None (Some "timer5_mux2") (Some "gpio1_18_mux0");
  _TI814X_MUXENTRY 0x09c0 0 (Some "mmc2_dat7") (Some "gpmc_a_24_mux0") (Some "gpmc_a_20_mux1")
    None None (Some "uart2_rxd_mux3") None (Some "gpio1_19");
  _TI814X_MUXENTRY 0x09c4 0 (Some "mmc2_dat6") (Some "gpmc_a_25_mux0") (Some "gpmc_a_21_mux1")
    None None (Some "uart2_txd_mux3") None (Some "gpio1_20");
  _TI814X_MUXENTRY 0x09c8 0 (Some "mmc2_dat5") (Some "gpmc_a_26_mux0") (Some "gpmc_a_22_mux1")
    None None None (Some "timer6_mux2") (Some "gpio1_21");
  _TI814X_MUXENTRY 0x09cc 0 (Some "mmc2_dat4") (Some "gpmc_a_27_mux0") (Some "gpmc_a_23_mux1")
    (Some "gpmc_cs7") None (Some "xdma_evt_0_mux1") (Some "timer7_mux2") (Some "gpio1_22");
  _TI814X_MUXENTRY 0x09d0 0 (Some "mmc2_dat3") (Some "gpmc_a_1_mux1") None None None None None
    (Some "gpio2_05_mux1");
  _TI814X_MUXENTRY 0x09d4 0 (Some "mmc2_dat2") (Some "gpmc_a_2_mux1") None None None None None
    (Some "gpio2_06_mux1");
  _TI814X_MUXENTRY 0x09d8 0 (Some "mmc2_dat1") (Some "gpmc_a_3_mux1") None None None None None
    (Some "gpio1_13_mux1");
  _TI814X_MUXENTRY 0x09dc 0 (Some "mmc2_dat0") (Some "gpmc_a_4_mux1") None None None None None
    (Some "gpio1_14_mux1");
  _TI814X_MUXENTRY 0x09e0 0 (Some "mmc2_clk") None None None None None None (Some
    "gpio1_15_mux1");
  _TI814X_MUXENTRY 0x09e4 0 (Some "gpmc_cs0") None None None None None None (Some "gpio1_23");
  _TI814X_MUXENTRY 0x09e8 0 (Some "gpmc_cs1") (Some "gpmc_a_25_mux1") None None None None None
    (Some "gpio1_24");
  _TI814X_MUXENTRY 0x09ec 0 (Some "gpmc_cs2") (Some "gpmc_a_24_mux1") None None None None None
    (Some "gpio1_25");
  _TI814X_MUXENTRY 0x09f0 0 (Some "gpmc_cs3") (Some "vin1_clk1") (Some "spi2_cs0") None None
    None None (Some "gpio1_26_mux0");
  _TI814X_MUXENTRY 0x09f4 0 (Some "gpmc_cs4") (Some "mmc2_cmd") None None None None None (Some
    "gpio1_08_mux0");
  _TI814X_MUXENTRY 0x09f8 0 (Some "gpmc_clk") (Some "gpmc_cs5") None (Some "gpmc_wait1") (Some
    "clkout1") (Some "xdma_evt_3_mux0") (Some "timer4_mux3") (Some "gpio1_27");
  _TI814X_MUXENTRY 0x09fc 0 (Some "gpmc_advn_ale") (Some "gpmc_cs6") None None None None (Some
    "timer5_mux3") (Some "gpio1_28");
  _TI814X_MUXENTRY 0x0a00 0 (Some "gpmc_oen_ren") None None None None None None None;
  _TI814X_MUXENTRY 0x0a04 0 (Some "gpmc_wen") None None None None None None None;
  _TI814X_MUXENTRY 0x0a08 0 (Some "gpmc_ben0") (Some "gpmc_a_25_mux2") None None None (Some
    "xdma_evt_2_mux0") (Some "timer6_mux3") (Some "gpio1_29");
  _TI814X_MUXENTRY 0x0a0c 0 (Some "gpmc_ben1") (Some "gpmc_a_24_mux2") None None None (Some
    "xdma_evt_1_mux0") (Some "timer7_mux3") (Some "gpio1_30");
  _TI814X_MUXENTRY 0x0a10 0 (Some "gpmc_wait0") (Some "gpmc_a_26_mux2") None None None (Some
    "xdma_evt_0_mux0") None (Some "gpio1_31");
  _TI814X_MUXENTRY 0x0a14 0 (Some "vin0_clk1") None None None None (Some "cam_xclka") None (Some
    "gpio1_09_mux0");
  _TI814X_MUXENTRY 0x0a18 0 (Some "vin0_de0_mux0") None None None (Some "vin0_hsync1") (Some
    "uart5_txd_mux1") (Some "i2c2_sda_mux1") (Some "gpio2_0");
  _TI814X_MUXENTRY 0x0a1c 0 (Some "vin0_fld0_mux0") None None None (Some "vin0_vsync1") (Some
    "uart5_rxd_mux1") (Some "i2c2_scl_mux3") (Some "gpio2_1");
  _TI814X_MUXENTRY 0x0a20 0 (Some "vin0_clk0") None None None None None None (Some
    "gpio2_02_mux1");
  _TI814X_MUXENTRY 0x0a24 0 (Some "vin0_hsync0") None None None None (Some "uart5_rtsn_mux1")
    None (Some "gpio2_3");
  _TI814X_MUXENTRY 0x0a28 0 (Some "vin0_vsync0") None None None None (Some "uart5_ctsn_mux1")
    None (Some "gpio2_4");
  _TI814X_MUXENTRY 0x0a2c 0 (Some "vin0_d0") None None None None None None (Some
    "gpio1_11_mux1");
  _TI814X_MUXENTRY 0x0a30 0 (Some "vin0_d1") None None None None None None (Some
    "gpio1_12_mux1");
  _TI814X_MUXENTRY 0x0a34 0 (Some "vin0_d2") None None None None None None (Some "gpio2_7");
  _TI814X_MUXENTRY 0x0a38 0 (Some "vin0_d3") None None None None None None (Some "gpio2_8");
  _TI814X_MUXENTRY 0x0a3c 0 (Some "vin0_d4") None None None None None None (Some "gpio2_9");
  _TI814X_MUXENTRY 0x0a40 0 (Some "vin0_d5") None None None None None None (Some "gpio2_10");
  _TI814X_MUXENTRY 0x0a44 0 (Some "vin0_d6") None None None None None None (Some "gpio2_11");
  _TI814X_MUXENTRY 0x0a48 0 (Some "vin0_d7") None None None None None None (Some "gpio2_12");
  _TI814X_MUXENTRY 0x0a4c 0 (Some "vin0_d8") None None None None None None (Some "gpio2_13");
  _TI814X_MUXENTRY 0x0a50 0 (Some "vin0_d9") None None None None None None (Some "gpio2_14");
  _TI814X_MUXENTRY 0x0a54 0 (Some "vin0_d10") None None None None None None (Some "gpio2_15");
  _TI814X_MUXENTRY 0x0a58 0 (Some "vin0_d11") None None None None (Some "cam_de_mux1") None
    (Some "gpio2_16");
  _TI814X_MUXENTRY 0x0a5c 0 (Some "vin0_d12") None None None None (Some "cam_xclkb") None (Some
    "gpio2_17");
  _TI814X_MUXENTRY 0x0a60 0 (Some "vin0_d13") None None None None (Some "cam_reset") None (Some
    "gpio2_18");
  _TI814X_MUXENTRY 0x0a64 0 (Some "vin0_d14") None None None None (Some "cam_strobe") None (Some
    "gpio2_19");
  _TI814X_MUXENTRY 0x0a68 0 (Some "vin0_d15") None None None None (Some "cam_shutter") None
    (Some "gpio2_20");
  _TI814X_MUXENTRY 0x0a6c 0 (Some "vin0_d16") (Some "cam_d8") None None None (Some
    "i2c2_scl_mux1") None (Some "gpio0_10_mux0");
  _TI814X_MUXENTRY 0x0a70 0 (Some "vin0_d17") (Some "cam_d9") None (Some "rmii1_rxer_mux1") None
    None None (Some "gpio0_11_mux0");
  _TI814X_MUXENTRY 0x0a74 0 (Some "vin0_d18") (Some "cam_d10") None (Some "rmii1_rxd1_mux1")
    None (Some "i2c3_scl_mux2") None (Some "gpio0_12_mux0");
  _TI814X_MUXENTRY 0x0a78 0 (Some "vin0_d19") (Some "cam_d11") None (Some "rmii1_rxd0_mux1")
    None (Some "i2c3_sda_mux2") None (Some "gpio0_13_mux0");
  _TI814X_MUXENTRY 0x0a7c 0 (Some "vin0_d20") (Some "cam_d12") None (Some "rmii1_crs_mux1") None
    (Some "spi3_cs0") None (Some "gpio0_14_mux0");
  _TI814X_MUXENTRY 0x0a80 0 (Some "vin0_d21") (Some "cam_d13") None (Some "rmii1_txd0_mux1")
    None (Some "spi3_sclk_mux0") None (Some "gpio0_15_mux0");
  _TI814X_MUXENTRY 0x0a84 0 (Some "vin0_d22") (Some "cam_d14") None (Some "rmii1_txd1_mux1")
    None (Some "spi3_d_1_mux0") None (Some "gpio0_16_mux0");
  _TI814X_MUXENTRY 0x0a88 0 (Some "vin0_d23") (Some "cam_d15") None (Some "rmii1_txen_mux1")
    None (Some "spi3_d_0_mux0") None (Some "gpio0_17_mux0");
  _TI814X_MUXENTRY 0x0a8c 0 (Some "vin0_de0_mux1") (Some "cam_d7") None (Some "pata_diorn") None
    None None (Some "gpio0_18_mux0");
  _TI814X_MUXENTRY 0x0a90 0 (Some "vin0_de1") (Some "cam_d6") None (Some "pata_csn1") None None
    None (Some "gpio0_19_mux0");
  _TI814X_MUXENTRY 0x0a94 0 (Some "vin0_fld0_mux1") (Some "cam_d5") None (Some "pata_csn0") None
    None None (Some "gpio0_20_mux0");
  _TI814X_MUXENTRY 0x0a98 0 (Some "vin0_fld1") (Some "cam_d4") None (Some "pata_diown") None
    None None (Some "gpio0_21_mux0");
  _TI814X_MUXENTRY 0x0a9c 0 (Some "vout1_g_y_yc1") (Some "cam_d3") None (Some "pata_dmackn")
    (Some "gpmc_a_5_mux1") (Some "uart4_rxd_mux0") None (Some "gpio0_22_mux0");
  _TI814X_MUXENTRY 0x0aa0 0 (Some "vout1_g_y_yc0") (Some "cam_d2") None (Some "pata_da2") (Some
    "gpmc_a_6_mux1") (Some "uart4_txd_mux0") None (Some "gpio0_23_mux0");
  _TI814X_MUXENTRY 0x0aa4 0 (Some "vout1_r_cr1") (Some "cam_d1") None (Some "pata_da1") (Some
    "gpmc_a_7_mux1") (Some "uart4_ctsn_mux0") None (Some "gpio0_24_mux0");
  _TI814X_MUXENTRY 0x0aa8 0 (Some "vout1_r_cr0") (Some "cam_d0") None (Some "pata_da0") (Some
    "gpmc_a_8_mux1") (Some "uart4_rtsn_mux0") None (Some "gpio0_25_mux0");
  _TI814X_MUXENTRY 0x0aac 0 (Some "vout1_b_cb_c1") (Some "cam_hs") None (Some "pata_dmarq")
    (Some "gpmc_a_9_mux1") (Some "uart2_rxd_mux0") None (Some "gpio0_26_mux0");
  _TI814X_MUXENTRY 0x0ab0 0 (Some "vout1_b_cb_c0") (Some "cam_vs") None (Some "pata_iordy")
    (Some "gpmc_a_10_mux1") (Some "uart2_txd_mux0") None (Some "gpio0_27_mux0");
  _TI814X_MUXENTRY 0x0ab4 0 (Some "vout1_fid") (Some "cam_fld") (Some "cam_de_mux0") (Some
    "pata_intrq") (Some "gpmc_a_11_mux1") (Some "uart2_ctsn") None (Some "gpio0_28_mux0");
  _TI814X_MUXENTRY 0x0ab8 0 (Some "vout0_fid_mux1") (Some "cam_pclk") None (Some "pata_resetn")
    (Some "gpmc_a_12_mux1") (Some "uart2_rtsn") None (Some "gpio2_02_mux0");
  _TI814X_MUXENTRY 0x0abc 0 (Some "vout0_clk") None None None None None None None;
  _TI814X_MUXENTRY 0x0ac0 0 (Some "vout0_hsync") None None None None None None None;
  _TI814X_MUXENTRY 0x0ac4 0 (Some "vout0_vsync") None None None None None None None;
  _TI814X_MUXENTRY 0x0ac8 0 (Some "vout0_avid") (Some "vout0_fid_mux0") None None (Some
    "spi3_sclk_mux2") None (Some "timer7_mux1") (Some "gpio2_21");
  _TI814X_MUXENTRY 0x0acc 0 (Some "vout0_b_cb_c2") (Some "emu2") None None None None None (Some
    "gpio2_22");
  _TI814X_MUXENTRY 0x0ad0 0 (Some "vout0_b_cb_c3") (Some "obs_event0") None None None None None
    (Some "gpio2_23");
  _TI814X_MUXENTRY 0x0ad4 0 (Some "vout0_b_cb_c4") None None None None None None None;
  _TI814X_MUXENTRY 0x0ad8 0 (Some "vout0_b_cb_c5") None None None None None None None;
  _TI814X_MUXENTRY 0x0adc 0 (Some "vout0_b_cb_c6") None None None None None None None;
  _TI814X_MUXENTRY 0x0ae0 0 (Some "vout0_b_cb_c7") None None None None None None None;
  _TI814X_MUXENTRY 0x0ae4 0 (Some "vout0_b_cb_c8") None None None None None None None;
  _TI814X_MUXENTRY 0x0ae8 0 (Some "vout0_b_cb_c9") None None None None None None None;
  _TI814X_MUXENTRY 0x0aec 0 (Some "vout0_g_y_yc2") (Some "emu3") None None None None None (Some
    "gpio2_24");
  _TI814X_MUXENTRY 0x0af0 0 (Some "vout0_g_y_yc3") None None None None None None (Some
    "gpio2_25");
  _TI814X_MUXENTRY 0x0af4 0 (Some "vout0_g_y_yc4") None None None None None None None;
  _TI814X_MUXENTRY 0x0af8 0 (Some "vout0_g_y_yc5") None None None None None None None;
  _TI814X_MUXENTRY 0x0afc 0 (Some "vout0_g_y_yc6") None None None None None None None;
  _TI814X_MUXENTRY 0x0b00 0 (Some "vout0_g_y_yc7") None None None None None None None;
  _TI814X_MUXENTRY 0x0b04 0 (Some "vout0_g_y_yc8") None None None None None None None;
  _TI814X_MUXENTRY 0x0b08 0 (Some "vout0_g_y_yc9") None None None None None None None;
  _TI814X_MUXENTRY 0x0b0c 0 (Some "vout0_r_cr2") (Some "emu4") None None None None None (Some
    "gpio2_26");
  _TI814X_MUXENTRY 0x0b10 0 (Some "vout0_r_cr3") (Some "obs_event1") None None None None None
    (Some "gpio2_27");
  _TI814X_MUXENTRY 0x0b14 0 (Some "vout0_r_cr4") None None None None None None None;
  _TI814X_MUXENTRY 0x0b18 0 (Some "vout0_r_cr5") None None None None None None None;
  _TI814X_MUXENTRY 0x0b1c 0 (Some "vout0_r_cr6") None None None None None None None;
  _TI814X_MUXENTRY 0x0b20 0 (Some "vout0_r_cr7") None None None None None None None;
  _TI814X_MUXENTRY 0x0b24 0 (Some "vout0_r_cr8") None None None None None None None;
  _TI814X_MUXENTRY 0x0b28 0 (Some "vout0_r_cr9") None None None None None None None;
  _TI814X_MUXENTRY 0x0b2c 0 (Some "vout1_clk") (Some "gmii1_txclk") (Some "vin1_hsync0") (Some
    "pata_hddir_mux0") None None None (Some "gpio2_28");
  _TI814X_MUXENTRY 0x0b30 0 (Some "vout1_hsync") (Some "gmii1_col") (Some "vin1_vsync0") (Some
    "pata_hddir_mux1") (Some "spi3_d_1_mux2") (Some "uart3_rtsn_mux1") None (Some "gpio2_29");
  _TI814X_MUXENTRY 0x0b34 0 (Some "vout1_vsync") (Some "gmii1_crs") (Some "vin1_fid0") (Some
    "vin1_de0") (Some "spi3_d_0_mux2") (Some "uart3_ctsn_mux1") None (Some "gpio2_30");
  _TI814X_MUXENTRY 0x0b38 0 (Some "vout1_avid") (Some "gmii1_rxer") (Some "vin1_clk0") None None
    (Some "uart4_rtsn_mux2") (Some "timer6_mux1") (Some "gpio2_31");
  _TI814X_MUXENTRY 0x0b3c 0 (Some "vout1_b_cb_c3") (Some "gmii1_rxclk") (Some "vin1a_d0") None
    None (Some "uart4_ctsn_mux2") None (Some "gpio3_0");
  _TI814X_MUXENTRY 0x0b40 0 (Some "vout1_b_cb_c4") (Some "gmii1_rxd0") (Some "vin1a_d1") None
    None (Some "uart4_rxd_mux2") None (Some "gpio3_1");
  _TI814X_MUXENTRY 0x0b44 0 (Some "vout1_b_cb_c5") (Some "gmii1_rxd1") (Some "vin1a_d2") None
    None (Some "uart4_txd_mux2") None (Some "gpio3_2");
  _TI814X_MUXENTRY 0x0b48 0 (Some "vout1_b_cb_c6") (Some "gmii1_rxd2") (Some "vin1a_d3") None
    None (Some "uart3_rxd_mux1") None (Some "gpio3_3");
  _TI814X_MUXENTRY 0x0b4c 0 (Some "vout1_b_cb_c7") (Some "gmii1_rxd3") (Some "vin1a_d4") None
    None (Some "uart3_txd_mux1") None (Some "gpio3_4");
  _TI814X_MUXENTRY 0x0b50 0 (Some "vout1_b_cb_c8") (Some "gmii1_rxd4") (Some "vin1a_d5") None
    None (Some "i2c3_scl_mux3") None (Some "gpio3_5");
  _TI814X_MUXENTRY 0x0b54 0 (Some "vout1_b_cb_c9") (Some "gmii1_rxd5") (Some "vin1a_d6") None
    None (Some "i2c3_sda_mux3") None (Some "gpio3_6");
  _TI814X_MUXENTRY 0x0b58 0 (Some "vout1_g_y_yc3") (Some "gmii1_rxd6") (Some "vin1a_d8") (Some
    "pata_d0") None None None (Some "gpio3_7");
  _TI814X_MUXENTRY 0x0b5c 0 (Some "vout1_g_y_yc4") (Some "gmii1_rxd7") (Some "vin1a_d9") (Some
    "pata_d1") None None None (Some "gpio3_8");
  _TI814X_MUXENTRY 0x0b60 0 (Some "vout1_g_y_yc5") (Some "gmii1_rxdv") (Some "vin1a_d10") (Some
    "pata_d2") None None None (Some "gpio3_9");
  _TI814X_MUXENTRY 0x0b64 0 (Some "vout1_g_y_yc6") (Some "gmii1_gtxclk") (Some "vin1a_d11")
    (Some "pata_d3") None None None (Some "gpio3_10");
  _TI814X_MUXENTRY 0x0b68 0 (Some "vout1_g_y_yc7") (Some "gmii1_txd0") (Some "vin1a_d12") (Some
    "pata_d4") None None None (Some "gpio3_11");
  _TI814X_MUXENTRY 0x0b6c 0 (Some "vout1_g_y_yc8") (Some "gmii1_txd1") (Some "vin1a_d13") (Some
    "pata_d5") None None None (Some "gpio3_12");
  _TI814X_MUXENTRY 0x0b70 0 (Some "vout1_g_y_yc9") (Some "gmii1_txd2") (Some "vin1a_d14") (Some
    "pata_d6") None None None (Some "gpio3_13");
  _TI814X_MUXENTRY 0x0b74 0 (Some "vout1_r_cr4") (Some "gmii1_txd3") (Some "vin1a_d15") (Some
    "pata_d7") None (Some "spi3_cs1") None (Some "gpio3_14");
  _TI814X_MUXENTRY 0x0b78 0 (Some "vout1_r_cr5") (Some "gmii1_txd4") (Some "vin1a_d16") (Some
    "pata_d8") None (Some "spi3_sclk_mux1") None (Some "gpio3_15");
  _TI814X_MUXENTRY 0x0b7c 0 (Some "vout1_r_cr6") (Some "gmii1_txd5") (Some "vin1a_d17") (Some
    "pata_d9") None (Some "spi3_d_1_mux1") None (Some "gpio3_16");
  _TI814X_MUXENTRY 0x0b80 0 (Some "vout1_r_cr7") (Some "gmii1_txd6") (Some "vin1a_d18") (Some
    "pata_d10") None (Some "spi3_d_0_mux1") None (Some "gpio3_17");
  _TI814X_MUXENTRY 0x0b84 0 (Some "vout1_r_cr8") (Some "gmii1_txd7") (Some "vin1a_d19") (Some
    "pata_d11") None (Some "uart5_rxd_mux2") None (Some "gpio3_18");
  _TI814X_MUXENTRY 0x0b88 0 (Some "vout1_r_cr9") (Some "gmii1_txen") (Some "vin1a_d20") (Some
    "pata_d12") None (Some "uart5_txd_mux2") None (Some "gpio3_19");
  _TI814X_MUXENTRY 0x0b8c 0 (Some "vout1_g_y_yc2") (Some "gpmc_a_13_mux1") (Some "vin1a_d21")
    (Some "pata_d13") (Some "hdmi_ddc_scl_mux1") (Some "spi2_cs2") (Some "i2c2_scl_mux2") (Some
    "gpio3_20");
  _TI814X_MUXENTRY 0x0b90 0 (Some "vout1_r_cr3") (Some "gpmc_a_14_mux1") (Some "vin1a_d22")
    (Some "pata_d14") (Some "hdmi_ddc_sda_mux1") (Some "spi2_sclk_mux1") (Some "i2c2_sda_mux2")
    (Some "gpio3_21");
  _TI814X_MUXENTRY 0x0b94 0 (Some "vout1_r_cr2") (Some "gpmc_a_15_mux1") (Some "vin1a_d23")
    (Some "pata_d15") (Some "hdmi_hpd_mux1") (Some "spi2_d_1_mux1") None (Some "gpio3_22");
  _TI814X_MUXENTRY 0x0b98 0 (Some "vout1_b_cb_c2") (Some "gpmc_a_0_mux1") (Some "vin1a_d7") None
    (Some "hdmi_cec_mux1") (Some "spi2_d_0_mux1") None (Some "gpio3_30_mux1");
  _TI814X_MUXENTRY 0x0b9c 0 (Some "rmii_refclk") None None None None None (Some "timer2_mux3")
    (Some "gpio1_10_mux0");
  _TI814X_MUXENTRY 0x0ba0 0 (Some "mdio_mclk") None None None None None None (Some
    "gpio1_11_mux0");
  _TI814X_MUXENTRY 0x0ba4 0 (Some "mdio_d") None None None None None None (Some "gpio1_12_mux0");
  _TI814X_MUXENTRY 0x0ba8 0 (Some "gmii0_txclk") (Some "vin1b_d0") None None None (Some
    "spi3_cs3") (Some "i2c2_sda_mux3") (Some "gpio3_23");
  _TI814X_MUXENTRY 0x0bac 0 (Some "gmii0_col") (Some "vin1b_d1") (Some "rmii0_rxd0") None None
    None None (Some "gpio3_24");
  _TI814X_MUXENTRY 0x0bb0 0 (Some "gmii0_crs") (Some "vin1b_d2") (Some "rmii0_rxd1") None None
    None None (Some "gpio3_25");
  _TI814X_MUXENTRY 0x0bb4 0 (Some "gmii0_rxer") (Some "vin1b_d3") (Some "rmii0_rxer") None None
    None None (Some "gpio3_26");
  _TI814X_MUXENTRY 0x0bb8 0 (Some "gmii0_rxclk") (Some "vin1b_d4") (Some "rmii0_crs") None None
    (Some "spi3_cs2") None (Some "gpio3_27");
  _TI814X_MUXENTRY 0x0bbc 0 (Some "gmii0_rxd0") (Some "vin1b_d5") (Some "rmii0_txd0") None None
    None None (Some "gpio3_28");
  _TI814X_MUXENTRY 0x0bc0 0 (Some "gmii0_rxd1") (Some "vin1b_d6") (Some "rmii0_txd1") None None
    None None (Some "gpio3_29");
  _TI814X_MUXENTRY 0x0bc4 0 (Some "gmii0_rxd2") (Some "vin1b_d7") (Some "rmii0_txen") None None
    None None (Some "gpio3_30_mux0");
  _TI814X_MUXENTRY 0x0bc8 0 (Some "gmii0_rxd3") None (Some "gpmc_a_27_mux1") (Some
    "gpmc_a_26_mux1") (Some "gpmc_a_0_mux0") (Some "uart5_rxd_mux0") None None;
  _TI814X_MUXENTRY 0x0bcc 0 (Some "gmii0_rxd4") None None None (Some "gpmc_a_1_mux0") (Some
    "uart5_txd_mux0") None None;
  _TI814X_MUXENTRY 0x0bd0 0 (Some "gmii0_rxd5") None None None (Some "gpmc_a_2_mux0") (Some
    "uart5_ctsn_mux0") None None;
  _TI814X_MUXENTRY 0x0bd4 0 (Some "gmii0_rxd6") None None None (Some "gpmc_a_3_mux0") (Some
    "uart5_rtsn_mux0") None None;
  _TI814X_MUXENTRY 0x0bd8 0 (Some "gmii0_rxd7") None None None (Some "gpmc_a_4_mux0") (Some
    "spi2_cs3") None None;
  _TI814X_MUXENTRY 0x0bdc 0 (Some "gmii0_rxdv") None None None (Some "gpmc_a_5_mux0") (Some
    "spi2_sclk_mux2") None None;
  _TI814X_MUXENTRY 0x0be0 0 (Some "gmii0_gtxclk") None None None (Some "gpmc_a_6_mux0") (Some
    "spi2_d_1_mux2") None None;
  _TI814X_MUXENTRY 0x0be4 0 (Some "gmii0_txd0") None None None (Some "gpmc_a_7_mux0") (Some
    "spi2_d_0_mux2") None None;
  _TI814X_MUXENTRY 0x0be8 0 (Some "gmii0_txd1") None None None (Some "gpmc_a_8_mux0") (Some
    "uart4_rxd_mux1") None None;
  _TI814X_MUXENTRY 0x0bec 0 (Some "gmii0_txd2") (Some "rmii1_rxd0_mux0") None None (Some
    "gpmc_a_9_mux0") (Some "uart4_txd_mux1") None None;
  _TI814X_MUXENTRY 0x0bf0 0 (Some "gmii0_txd3") (Some "rmii1_rxd1_mux0") None None (Some
    "gpmc_a_10_mux0") (Some "uart4_ctsn_mux1") None None;
  _TI814X_MUXENTRY 0x0bf4 0 (Some "gmii0_txd4") (Some "rmii1_rxer_mux0") None None (Some
    "gpmc_a_11_mux0") (Some "uart4_rtsn_mux1") None None;
  _TI814X_MUXENTRY 0x0bf8 0 (Some "gmii0_txd5") (Some "rmii1_crs_mux0") None None (Some
    "gpmc_a_12_mux0") (Some "uart1_rxd_mux1") None None;
  _TI814X_MUXENTRY 0x0bfc 0 (Some "gmii0_txd6") (Some "rmii1_txd0_mux0") None None (Some
    "gpmc_a_13_mux0") (Some "uart1_txd_mux1") None None;
  _TI814X_MUXENTRY 0x0c00 0 (Some "gmii0_txd7") (Some "rmii1_txd1_mux0") None None (Some
    "gpmc_a_14_mux0") (Some "uart1_ctsn") None None;
  _TI814X_MUXENTRY 0x0c04 0 (Some "gmii0_txen") (Some "rmii1_txen_mux0") None None (Some
    "gpmc_a_15_mux0") (Some "uart1_rtsn") None None;
  _TI814X_MUXENTRY 0x0c08 0 (Some "clkin32") None (Some "clkout0") None None None (Some
    "timer3_mux3") (Some "gpio3_31");
  _TI814X_MUXENTRY 0x0c0c 0 (Some "resetn") None None None None None None None;
  _TI814X_MUXENTRY 0x0c10 0 (Some "nmin") None None None None None None None;
  _TI814X_MUXENTRY 0x0c14 0 (Some "rstoutn") None None None None None None None;
  _TI814X_MUXENTRY 0x0c18 0 (Some "i2c0_scl") None None None None None None None;
  _TI814X_MUXENTRY 0x0c1c 0 (Some "i2c0_sda") None None None None None None None;
  _TI814X_MUXENTRY 0x0c34 0 (Some "usb0_drvvbus") (Some "gpio0_7") None None None None None None;
  mkMux OMAP_MUX_TERMINATOR 0 (replicate 8 None) (replicate 2 None)
].

Definition ti814x_mux_init `{SOC : Soc} `{HW : Hardware} (mapped : Z) (board_subset : list omap_board_mux)
    : M mux_state Z :=
  omap_mux_init "core" OMAP_MUX_REG_32BIT TI81XX_CONTROL_PADCONF_MUX_PBASE
    TI814X_CONTROL_PADCONF_MUX_SIZE mapped ti814x_muxmodes None board_subset None.

(** ** The board *)

(** mux.h *)
Definition TI814X_PULL_DIS : Z := Z.shiftl 1 16.
Definition TI814X_PULL_UP : Z := Z.shiftl 1 17.
Definition TI814X_INPUT_EN : Z := Z.shiftl 1 18.
Definition TI814X_PIN_INPUT_PULL_DIS : Z := Z.lor TI814X_INPUT_EN TI814X_PULL_DIS.
Definition TI814X_PIN_INPUT_PULL_UP : Z := Z.lor TI814X_INPUT_EN TI814X_PULL_UP.
Definition TI814X_PIN_OUTPUT_PULL_UP : Z := TI814X_PULL_UP.
Definition TI814X_PIN_OUTPUT_PULL_DOWN : Z := 0.

Definition TI814X_MUX (reg_offset mux_val : Z) : omap_board_mux :=
  mkBoardMux reg_offset (Z.lor (Z.land mux_val (Z.lnot 0xff)) (Z.shiftl 1 (Z.land mux_val 0x7))).

Definition board_mux : list omap_board_mux := [
  TI814X_MUX 0x08f4 (Z.lor 7 TI814X_PIN_INPUT_PULL_UP)  (* MLBP_SIG_P *);
  TI814X_MUX 0x08f8 (Z.lor 7 TI814X_PIN_OUTPUT_PULL_UP)  (* MLBP_SIG_N *);
  TI814X_MUX 0x08fc (Z.lor 7 TI814X_PIN_OUTPUT_PULL_UP)  (* MLBP_DAT_P *);
  TI814X_MUX 0x0900 (Z.lor 7 TI814X_PIN_OUTPUT_PULL_UP)  (* MLBP_DAT_N *);
  TI814X_MUX 0x08e8 (Z.lor 3 TI814X_PIN_INPUT_PULL_DIS)  (* MLB_SIG *);
  TI814X_MUX 0x08f0 (Z.lor 3 TI814X_PIN_INPUT_PULL_DIS)  (* MLB_CLK *);
  TI814X_MUX 0x092c (Z.lor 2 TI814X_PIN_INPUT_PULL_DIS)  (* UART0_DTRN *);
  TI814X_MUX 0x0930 (Z.lor 2 TI814X_PIN_INPUT_PULL_DIS)  (* UART0_RIN *);
  TI814X_MUX 0x09a8 (Z.lor 7 TI814X_PIN_OUTPUT_PULL_DOWN)  (* GPMC_A18 *);
  TI814X_MUX 0x0924 (Z.lor 1 TI814X_PIN_INPUT_PULL_DIS)  (* UART0_DCDN *);
  TI814X_MUX 0x0928 (Z.lor 1 TI814X_PIN_INPUT_PULL_DIS)  (* UART0_DSRN *);
  TI814X_MUX 0x09ac (Z.lor 7 TI814X_PIN_OUTPUT_PULL_DOWN)  (* GPMC_A19 *);
  TI814X_MUX 0x09a4 (Z.lor 7 TI814X_PIN_OUTPUT_PULL_UP)  (* GPMC_A17 *);
  TI814X_MUX 0x08d4 (Z.lor 6 TI814X_PIN_INPUT_PULL_UP)  (* MCASP4_AXR1 *);
  TI814X_MUX 0x08cc (Z.lor 7 TI814X_PIN_INPUT_PULL_UP)  (* MCASP4_FSX *);
  TI814X_MUX 0x0928 (Z.lor 4 TI814X_PIN_INPUT_PULL_UP)  (* UART0_DSRN *);
  TI814X_MUX 0x08e4 (Z.lor 6 TI814X_PIN_INPUT_PULL_UP)  (* MCASP5_AXR1 *);
  mkBoardMux OMAP_MUX_TERMINATOR 0
].
