(* ===== verification/MuxSignal.v ===== *)
(** * Selecting signals and pads

    What the lookup of a signal finds, in terms of the list of all places where the signal can
    be muxed, and what muxing a signal or the pads of a module does to the pad registers. *)

From Stdlib Require Import Ascii.
From S2P Require Import Prelude Platform Mux.

(** ** The places of a signal *)

(** The modes in which the mux has the signal [sig]. *)
Fixpoint mode_paths (sig : string) (names : list (option string)) (i : Z) : list Z :=
  match names with
  | [] => []
  | o :: l => (if bool_decide (o = Some sig) then [i] else []) ++ mode_paths sig l (i + 1)
  end.

(** Whether the mux may be meant by the part [mode0] of a name before the dot. *)
Definition pad_named (mode0 : string) (m : omap_mux) : bool :=
  String.eqb mode0 "" ||
  match mx_muxnames m !! 0%nat with Some (Some m0) => String.prefix mode0 m0 | _ => false end.

(** The two parts of a name. *)
Definition split_name (muxname : string) : string * string :=
  match strsep "." muxname with (mode0, Some sig) => (mode0, sig) | (_, None) => ("", muxname) end.

(** All the pairs of a mux and a mode that the name fits. *)
Fixpoint pad_paths (mode0 sig : string) (l : list omap_mux) (mux : nat) : list (nat * Z) :=
  match l with
  | [] => []
  | m :: l' =>
      (if pad_named mode0 m then pair mux <$> mode_paths sig (mx_muxnames m) 0 else []) ++
      pad_paths mode0 sig l' (S mux)
  end.

Definition signal_paths (muxname : string) (p : omap_mux_partition) : list (nat * Z) :=
  let '(mode0, sig) := split_name muxname in pad_paths mode0 sig (pt_muxmodes p) 0.

(** The first partition in which the name fits in one place only. *)
Fixpoint signal_pad_in (muxname : string) (l : list omap_mux_partition) (i : nat) : option (nat * nat * Z) :=
  match l with
  | [] => None
  | p :: l' =>
      match signal_paths muxname p with
      | [(mux, mode)] => Some (i, mux, mode)
      | _ => signal_pad_in muxname l' (S i)
      end
  end.

Definition signal_pad (muxname : string) (s : mux_state) : option (nat * nat * Z) :=
  signal_pad_in muxname (ms_partitions s) 0.

(** What the loops remember of the places found so far. *)
Definition summary (q : list (nat * Z)) : option nat * Z * Z :=
  match last q with
  | None => (None, 0, 0)
  | Some (mux, mode) => (Some mux, Z.of_nat (length q), mode)
  end.

Lemma summary_snoc q mux mode : summary (q ++ [(mux, mode)]) = (Some mux, snd (fst (summary q)) + 1, mode).
Proof.
  unfold summary. rewrite last_snoc, length_app. cbn. f_equal. f_equal.
  destruct q as [|x q' _] using rev_ind; [done|]. rewrite last_snoc, length_app. destruct x. cbn. lia.
Qed.

Lemma mode_paths_lookup sig names i k :
  k ∈ mode_paths sig names i -> i <= k /\ names !! Z.to_nat (k - i) = Some (Some sig).
Proof.
  revert i. induction names as [|o names IH]; intros i; cbn [mode_paths]; [by intros ?%not_elem_of_nil|].
  rewrite elem_of_app. intros [H|H].
  - case_bool_decide; [|by apply not_elem_of_nil in H]. apply list_elem_of_singleton in H as ->.
    subst o. rewrite Z.sub_diag. split; [lia | done].
  - apply IH in H as [Hle H]. split; [lia|].
    by replace (Z.to_nat (k - i)) with (S (Z.to_nat (k - (i + 1)))) by lia.
Qed.

Lemma mode_loop_spec sig mux names i q :
  mode_loop sig mux names i (summary q) = summary (q ++ (pair mux <$> mode_paths sig names i)).
Proof.
  revert i q. induction names as [|o names IH]; intros i q; [by rewrite app_nil_r|].
  cbn [mode_paths]. rewrite fmap_app. destruct o as [n|]; cbn [mode_loop].
  - destruct (String.eqb_spec sig n) as [->|Hne].
    + rewrite bool_decide_true by done. cbn [fmap list_fmap]. rewrite <- summary_snoc, IH, app_assoc. done.
    + rewrite bool_decide_false by congruence. apply IH.
  - rewrite bool_decide_false by done. apply IH.
Qed.

(** Every mux on the list has a name in mode 0; [omap_mux_init_list] leaves out the others. *)
Definition mux_named (m : omap_mux) : Prop := exists n, mx_muxnames m !! 0%nat = Some (Some n).

Lemma mux_loop_spec mode0 sig l mux q s :
  Forall mux_named l ->
  mux_loop mode0 sig l mux (summary q) s = Done (summary (q ++ pad_paths mode0 sig l mux)) s.
Proof.
  intros Hl. revert mux q. induction Hl as [|m l [n Hn] _ IH]; intros mux q; cbn [mux_loop pad_paths].
  { by rewrite app_nil_r. }
  unfold pad_named. rewrite Hn. destruct (String.eqb mode0 "") eqn:E; cbn [orb].
  - erewrite bind_Done by done. cbv iota. rewrite mode_loop_spec, IH, app_assoc. done.
  - erewrite bind_Done; [|cbn; reflexivity]. cbn beta. destruct (String.prefix mode0 n); cbn [negb].
    + rewrite mode_loop_spec, IH, app_assoc. done.
    + rewrite IH. done.
Qed.

(** The pads that the chip has: 32-bit registers, all of the listed muxes named. *)
Record part_ok (p : omap_mux_partition) : Prop := {
  po_named : Forall mux_named (pt_muxmodes p);
  po_width : pt_flags p = OMAP_MUX_REG_32BIT
}.

Section Signal.
  Context `{SOC : Soc} `{HW : Hardware} (Hti : cpu_is_ti814x = true).
Implicit Types s : mux_state.

Lemma run_get_part i p s : ms_partitions s !! i = Some p -> get_part i s = Done p s.
Proof. intros H. unfold get_part, bind, gets. by rewrite H. Qed.

Lemma get_by_name_part i p name s :
  ms_partitions s !! i = Some p -> Forall mux_named (pt_muxmodes p) ->
  exists r m, _omap_mux_get_by_name i name s = Done (r, m) s /\
    match signal_paths name p with
    | [(mux, mode)] => r = Z.shiftl 1 mode /\ m = Some mux
    | _ => r < 0
    end.
Proof.
  intros Hp Hn. unfold _omap_mux_get_by_name. erewrite bind_Done by by apply run_get_part.
  unfold signal_paths, split_name. set (sp := match strsep "." name with (m0, Some g) => (m0, g) | (_, None) => ("", name) end).
  destruct sp as [mode0 sig]. pose proof (mux_loop_spec mode0 sig (pt_muxmodes p) 0 [] s Hn) as E.
  change (summary []) with (@None nat, 0, 0) in E. erewrite bind_Done by exact E. clear E.
  rewrite app_nil_l. set (q := pad_paths _ _ _ _).
  destruct q as [|[mux mode] [|y q']] eqn:Eq.
  - eexists _, _. split; [reflexivity|]. done.
  - eexists _, _. split; [reflexivity|]. by rewrite Hti.
  - assert (exists x n mode', summary ((mux, mode) :: y :: q') = (Some x, n, mode') /\ 1 < n) as (x & n & mode' & -> & Hn1).
    { unfold summary. destruct (last ((mux, mode) :: y :: q')) as [[x m']|] eqn:El.
      - eexists _, _, _. split; [reflexivity|]. cbn [length]. lia.
      - by apply last_None in El. }
    cbv beta iota. rewrite (proj2 (Z.eqb_neq n 1)), (proj2 (Z.ltb_lt 1 n)) by lia. by eexists _, _.
Qed.

Lemma get_by_name_spec name l i s :
  (forall j p, l !! j = Some p -> ms_partitions s !! (i + j)%nat = Some p) ->
  Forall part_ok l ->
  get_by_name_loop name (seq i (length l)) s =
  Done (match signal_pad_in name l i with
        | Some (p, mux, mode) => inr (Z.shiftl 1 mode, p, Some mux)
        | None => inl (- ENODEV)
        end) s.
Proof.
  revert i. induction l as [|p l IH]; intros i Hl Hok; [done|]. inversion_clear Hok as [|? ? Hp Hok'].
  cbn [length seq get_by_name_loop signal_pad_in].
  destruct (get_by_name_part i p name s) as (r & m & E & Hr).
  { specialize (Hl 0%nat p eq_refl). by rewrite Nat.add_0_r in Hl. }
  { apply Hp. }
  erewrite bind_Done by exact E. cbn beta iota.
  assert (get_by_name_loop name (seq (S i) (length l)) s =
    Done (match signal_pad_in name l (S i) with
          | Some (p, mux, mode) => inr (Z.shiftl 1 mode, p, Some mux) | None => inl (- ENODEV) end) s) as IH'.
  { apply IH; [|done]. intros j q Hq. replace (S i + j)%nat with (i + S j)%nat by lia. by apply Hl. }
  destruct (signal_paths name p) as [|[mux mode] [|]].
  - by rewrite (proj2 (Z.ltb_lt r 0) Hr).
  - destruct Hr as [-> ->]. assert (0 <= Z.shiftl 1 mode) as Hs by (apply Z.shiftl_nonneg; lia).
    by rewrite (proj2 (Z.ltb_ge _ 0) Hs).
  - by rewrite (proj2 (Z.ltb_lt r 0) Hr).
Qed.

Lemma get_by_name_run name s :
  Forall part_ok (ms_partitions s) ->
  omap_mux_get_by_name name s =
  Done (match signal_pad name s with
        | Some (p, mux, mode) => inr (Z.shiftl 1 mode, p, Some mux)
        | None => inl (- ENODEV)
        end) s.
Proof.
  intros Hok. unfold omap_mux_get_by_name, part_numbers, bind, gets. by apply get_by_name_spec.
Qed.

(** The pad that was found is on the list. *)
Lemma pad_paths_lookup mode0 sig l n mux mode :
  (mux, mode) ∈ pad_paths mode0 sig l n -> exists m, l !! (mux - n)%nat = Some m /\ (n <= mux)%nat /\
    pad_named mode0 m = true /\ 0 <= mode /\ mx_muxnames m !! Z.to_nat mode = Some (Some sig).
Proof.
  revert n. induction l as [|m l IH]; intros n; cbn [pad_paths]; [by intros ?%not_elem_of_nil|].
  rewrite elem_of_app. intros [H|H].
  - destruct (pad_named mode0 m) eqn:En; [|by apply not_elem_of_nil in H].
    apply list_elem_of_fmap in H as (i & [= -> ->] & Hi). exists m. rewrite Nat.sub_diag. split; [done|].
    apply mode_paths_lookup in Hi as [Hle Hi]. rewrite Z.sub_0_r in Hi. by split_and!.
  - destruct (IH (S n) H) as (m' & Hm & Hle & ?). exists m'. split; [|split; [lia | done]].
    replace (mux - n)%nat with (S (mux - S n)) by lia. done.
Qed.

Lemma signal_pad_in_sound name l i p mux mode :
  signal_pad_in name l i = Some (p, mux, mode) ->
  exists part m, l !! (p - i)%nat = Some part /\ (i <= p)%nat /\ signal_paths name part = [(mux, mode)] /\
    pt_muxmodes part !! mux = Some m /\ pad_named (fst (split_name name)) m = true /\
    0 <= mode /\ mx_muxnames m !! Z.to_nat mode = Some (Some (snd (split_name name))).
Proof.
  revert i. induction l as [|q l IH]; intros i; cbn [signal_pad_in]; [done|].
  destruct (signal_paths name q) as [|[a b] [|y r]] eqn:E.
  2: { intros [= -> -> ->]. exists q. assert ((mux, mode) ∈ signal_paths name q) as Hin
      by (rewrite E; left). unfold signal_paths in Hin. destruct (split_name name) as [mode0 sig].
    destruct (pad_paths_lookup _ _ _ _ _ _ Hin) as (m & Hm & _ & Hn & Hmode & Hs).
    rewrite Nat.sub_0_r in Hm. exists m. rewrite Nat.sub_diag. by split_and!. }
  all: intros H; destruct (IH (S i) H) as (part & m & Hp & Hle & Hrest); exists part, m;
    replace (p - i)%nat with (S (p - S i)) by lia; split; [done|]; split; [lia | done].
Qed.

Lemma signal_pad_sound name s p mux mode :
  signal_pad name s = Some (p, mux, mode) ->
  exists part m, ms_partitions s !! p = Some part /\ signal_paths name part = [(mux, mode)] /\
    pt_muxmodes part !! mux = Some m /\ pad_named (fst (split_name name)) m = true /\
    0 <= mode /\ mx_muxnames m !! Z.to_nat mode = Some (Some (snd (split_name name))).
Proof.
  intros H. destruct (signal_pad_in_sound _ _ _ _ _ _ H) as (part & m & Hp & _ & Hr).
  rewrite Nat.sub_0_r in Hp. by exists part, m.
Qed.

(** ** Writing a pad *)

(** What a write leaves in a pad register that held [old]: bits 20 to 31 stay. *)
Definition pad_value (val old : Z) : Z := Z.lor val (Z.land old 0xFFF00000).

(** One pad register has changed. *)
Definition pad_wrote (a val : Z) (s s' : mux_state) : Prop :=
  s' = set_ms_w (ms_w s') s /\ wrote a (pad_value val (regval (ms_w s) a)) (ms_w s) (ms_w s').

Lemma wp_mux_io {A} (m : M world A) Q s :
  wp m (fun a w => Q a (set_ms_w w s)) (ms_w s) -> wp (mux_io m) Q s.
Proof. unfold wp, mux_io. by destruct (m (ms_w s)). Qed.

Lemma wp_get_part i p Q s : ms_partitions s !! i = Some p -> Q p s -> wp (get_part i) Q s.
Proof. intros Hp HQ. unfold get_part. wp_pure. by apply (wp_deref _ p). Qed.

Lemma mux_write_spec i p val reg s :
  ms_partitions s !! i = Some p -> pt_flags p = OMAP_MUX_REG_32BIT -> uint 32 val ->
  wp (omap_mux_write i val reg) (fun _ s' => pad_wrote (pt_base p + reg) val s s') s.
Proof.
  intros Hp Hf Hv. unfold omap_mux_write. rewrite Hti. wp_pure. eapply wp_get_part; [done|]. cbv beta.
  wp_pure. apply wp_mux_io, wp_readl. wp_pure. rewrite Hf. change (negb (Z.land OMAP_MUX_REG_32BIT OMAP_MUX_REG_8BIT =? 0)) with false.
  change (negb (Z.land OMAP_MUX_REG_32BIT OMAP_MUX_REG_32BIT =? 0)) with true. wp_pure.
  apply wp_mux_io, wp_writel. split; [done|]. split.
  - by eexists.
  - intros Ha. apply plain_write; [done|]. apply lor_uint; [lia | done |]. apply land_uint_l; [lia|].
    apply regval_uint.
  - intros b Hb Hne. etrans; [apply plain_write_ne; [done | by apply not_eq_sym] | by apply plain_read].
Qed.

Lemma mux_read_spec i p reg s :
  ms_partitions s !! i = Some p -> pt_flags p = OMAP_MUX_REG_32BIT ->
  wp (omap_mux_read i reg) (fun v s' => v = regval (ms_w s) (pt_base p + reg) /\
    s' = set_ms_w (ms_w s') s /\ io_reads (ms_w s) (ms_w s')) s.
Proof.
  intros Hp Hf. unfold omap_mux_read. wp_pure. eapply wp_get_part; [done|]. cbv beta. rewrite Hf.
  change (negb (Z.land OMAP_MUX_REG_32BIT OMAP_MUX_REG_8BIT =? 0)) with false.
  change (negb (Z.land OMAP_MUX_REG_32BIT OMAP_MUX_REG_32BIT =? 0)) with true. cbv iota.
  apply wp_mux_io, wp_readl. split; [done|]. split; [done|]. by apply io_reads_1.
Qed.

(** A read in between changes no plain register. *)
Lemma wrote_after_reads a v w w1 w2 :
  io_reads w w1 -> wrote a (pad_value v (regval w1 a)) w1 w2 -> wrote a (pad_value v (regval w a)) w w2.
Proof.
  intros Hr [Hio Hval Hoth]. split.
  - etrans; [by apply io_reads_only | done].
  - intros Ha. rewrite Hval, (regval_reads a w w1) by done. done.
  - intros b Hb Hne. rewrite Hoth, (regval_reads b w w1) by done. done.
Qed.


(** ** The pads of a module *)

(** Pads whose partition and mux exist, each with its register. *)
Definition pad_reg (s : mux_state) (pad : omap_device_pad) (a : Z) : Prop :=
  exists i j p m, pa_partition pad = Some i /\ pa_mux pad = Some j /\ ms_partitions s !! i = Some p /\
    pt_muxmodes p !! j = Some m /\ pt_flags p = OMAP_MUX_REG_32BIT /\ a = pt_base p + mx_reg_offset m.

(** The fields of a pad at their width. *)
Record pad_fits (pad : omap_device_pad) : Prop := {
  pf_flags : uint 8 (pa_flags pad);
  pf_enable : uint 16 (pa_enable pad);
  pf_idle : uint 16 (pa_idle pad);
  pf_off : uint 16 (pa_off pad)
}.

(** What becomes of a pad: whether and what is written to its register, and its flags.  Bit 7
    of the flags says that the pad is enabled, bit 1 that it is to be remuxed. *)
Definition pad_enabled (pad : omap_device_pad) : bool := Z.testbit (pa_flags pad) 7.
Definition pad_remuxed (pad : omap_device_pad) : bool := Z.testbit (pa_flags pad) 1.

Definition pad_writes (state : Z) (pad : omap_device_pad) : option Z :=
  if decide (state = _HWMOD_STATE_ENABLED) then if pad_enabled pad then None else Some (pa_enable pad)
  else if decide (state = _HWMOD_STATE_IDLE) then if pad_remuxed pad then Some (pa_idle pad) else None
  else Some (if pad_remuxed pad then pa_off pad else OMAP_MUX_MODE7).

Definition pad_after (state : Z) (pad : omap_device_pad) : omap_device_pad :=
  match pad_writes state pad with
  | Some _ =>
      set_pa_flags (if decide (state = _HWMOD_STATE_ENABLED) then Z.setbit (pa_flags pad) 7
                    else Z.clearbit (pa_flags pad) 7) pad
  | None => pad
  end.

(** From [s] to [s'] exactly the pads of the list that have to be were written. *)
Inductive pads_wrote (state : Z) : list omap_device_pad -> mux_state -> mux_state -> Prop :=
| pads_wrote_nil s : pads_wrote state [] s s
| pads_wrote_skip pad l s s' :
    pad_writes state pad = None -> pads_wrote state l s s' -> pads_wrote state (pad :: l) s s'
| pads_wrote_write pad val a l s s1 s' :
    pad_writes state pad = Some val -> pad_reg s pad a -> pad_wrote a val s s1 ->
    pads_wrote state l s1 s' -> pads_wrote state (pad :: l) s s'.

Lemma pad_writes_uint state pad val : pad_fits pad -> pad_writes state pad = Some val -> uint 16 val.
Proof.
  intros [Hf He Hi Ho]. unfold pad_writes.
  repeat case_decide; [destruct (pad_enabled pad) | destruct (pad_remuxed pad) ..]; intros [= <-]; done.
Qed.

Lemma pad_flags_uint pad :
  uint 8 (pa_flags pad) -> uint 8 (Z.setbit (pa_flags pad) 7) /\ uint 8 (Z.clearbit (pa_flags pad) 7).
Proof.
  intros Hf. split; (apply bits_uint; [lia | |]).
  - rewrite Z.setbit_spec'. apply Z.lor_nonneg. split; [apply Hf | done].
  - intros i Hi. rewrite Z.setbit_neq by lia. by apply (uint_bits 8).
  - rewrite Z.clearbit_spec'. apply Z.ldiff_nonneg. left. apply Hf.
  - intros i Hi. rewrite Z.clearbit_neq by lia. by apply (uint_bits 8).
Qed.

(** The code computes this. *)
Lemma pad_target_spec state pad :
  pad_fits pad ->
  match pad_writes state pad with
  | Some val => fst (pad_target state pad) = val /\ u8 (snd (pad_target state pad)) = pa_flags (pad_after state pad)
  | None => fst (pad_target state pad) = - EINVAL
  end.
Proof.
  intros [Hf _ _ _]. destruct (pad_flags_uint pad Hf) as [Hs Hc].
  assert (forall x, uint 8 x -> u8 x = x) as Hu by (intros; by apply wrapu_small).
  unfold pad_target, pad_after, pad_writes, pad_enabled, pad_remuxed.
  change OMAP_DEVICE_PAD_ENABLED with (2 ^ 7). change OMAP_DEVICE_PAD_REMUX with (2 ^ 1).
  rewrite !land_pow2_test, !negb_involutive by done.
  rewrite Z.clearbit_spec', Z.ldiff_land in *. rewrite Z.setbit_spec' in *.
  destruct (Z.eqb_spec state _HWMOD_STATE_ENABLED); [|destruct (Z.eqb_spec state _HWMOD_STATE_IDLE)];
    repeat case_decide; try congruence;
    [destruct (Z.testbit (pa_flags pad) 7) | destruct (Z.testbit (pa_flags pad) 1) ..];
    cbn [fst snd negb]; try done; (split; [done | by apply Hu]).
Qed.

Lemma pad_reg_frame s w pad a : pad_reg s pad a -> pad_reg (set_ms_w w s) pad a.
Proof. done. Qed.

Lemma mux_pad_spec state pad a s :
  pad_reg s pad a -> pad_fits pad ->
  wp (mux_pad state pad) (fun pad' s' => pad' = pad_after state pad /\ match pad_writes state pad with Some val => pad_wrote a val s s' | None => s' = s end) s.
Proof.
  intros (i & j & p & m & Hi & Hj & Hp & Hm & Hf & ->) Hfit. unfold mux_pad.
  pose proof (pad_writes_uint state pad) as Hu. pose proof (pad_target_spec state pad Hfit) as Ht.
  unfold pad_after in *. destruct (pad_target state pad) as [val flags]. cbn [fst snd] in Ht.
  destruct (pad_writes state pad) as [v|]; [destruct Ht as [-> Ht] | subst val; by apply wp_ret].
  pose proof (Hu v Hfit eq_refl) as [Hv _]. rewrite (proj2 (Z.leb_le 0 v) Hv).
  wp_pure. eapply wp_deref; [done|]. cbv beta. wp_pure. eapply wp_deref; [done|]. cbv beta.
  unfold get_mux. wp_pure. eapply wp_get_part; [done|]. cbv beta. wp_pure. eapply wp_deref; [done|].
  cbv beta. wp_pure. eapply wp_mono; [apply mux_write_spec; [done.. |]|].
  - apply (uint_mono 16); [lia|]. by apply (Hu v).
  - cbv beta. intros _ s' Hw. wp_pure. by rewrite Ht.
Qed.

Lemma mux_pads_spec state pads s :
  Forall (fun pad => (exists a, pad_reg s pad a) /\ pad_fits pad) pads ->
  wp (mux_pads state pads) (fun pads' s' => pads' = pad_after state <$> pads /\
    pads_wrote state pads s s' /\ s' = set_ms_w (ms_w s') s /\ io_only (ms_w s) (ms_w s')) s.
Proof.
  revert s. induction pads as [|pad pads IH]; intros s H; cbn [mux_pads].
  { apply wp_ret. split; [done|]. split; [constructor|]. split; [done|]. reflexivity. }
  inversion_clear H as [|? ? [[a Ha] Hfit] Hrest]. wp_pure.
  eapply wp_mono; [by apply mux_pad_spec|]. cbv beta. intros pad' s1 [-> Hs1].
  assert (s1 = set_ms_w (ms_w s1) s /\ io_only (ms_w s) (ms_w s1)) as [E1 Hio1].
  { destruct (pad_writes state pad); [destruct Hs1 as [E W]; split; [done | apply W]|].
    subst. split; [done | reflexivity]. }
  wp_pure. eapply wp_mono; [apply IH|].
  { eapply Forall_impl; [exact Hrest|]. cbv beta. intros pd [[b Hb] Hpd]. split; [|done]. exists b. rewrite E1.
    by apply pad_reg_frame. }
  cbv beta. intros pads' s2 (-> & Hw & E2 & Hio2). wp_pure. split; [done|]. split; [|split].
  - destruct (pad_writes state pad) eqn:Ep.
    + by eapply pads_wrote_write.
    + subst s1. by apply pads_wrote_skip.
  - rewrite E2, E1. done.
  - by etrans.
Qed.

(** The registers of a list of pads, if no two pads share one. *)
Definition pads_at (s : mux_state) (pads : list omap_device_pad) (regs : list Z) : Prop :=
  Forall2 (pad_reg s) pads regs /\ NoDup regs /\ Forall plain_reg regs.

Lemma pad_reg_unique s pad a b : pad_reg s pad a -> pad_reg s pad b -> a = b.
Proof. intros (i & j & p & m & ? & ? & ? & ? & ? & ->) (i' & j' & p' & m' & ? & ? & ? & ? & ? & ->). simplify_eq. done. Qed.

Definition pad_holds (state : Z) (w w' : world) (pad : omap_device_pad) (a : Z) : Prop :=
  regval w' a = match pad_writes state pad with
                | Some val => pad_value val (regval w a)
                | None => regval w a
                end.

Lemma pads_wrote_regs state pads regs s s' :
  pads_at s pads regs -> pads_wrote state pads s s' ->
  Forall2 (pad_holds state (ms_w s) (ms_w s')) pads regs /\
  forall b, plain_reg b -> b ∉ regs -> regval (ms_w s') b = regval (ms_w s) b.
Proof.
  intros (Hr & Hnd & Hpl) Hw. revert regs Hr Hnd Hpl.
  induction Hw as [s|pad l s s' Hn _ IH|pad val a l s s1 s' Hv Ha [E1 W] _ IH]; intros regs Hr Hnd Hpl;
    [inversion_clear Hr; by split|..];
    inversion Hr as [|? a' ? regs' Ha' Hr']; subst; apply NoDup_cons in Hnd as [Hni Hnd'];
    inversion_clear Hpl as [|? ? Hpa Hpl'].
  - destruct (IH regs' Hr' Hnd' Hpl') as [Hf Ho]. split.
    + constructor; [|done]. unfold pad_holds. rewrite Hn. by apply Ho.
    + intros b Hb Hnb. apply not_elem_of_cons in Hnb as [_ Hnb]. by apply Ho.
  - rewrite (pad_reg_unique _ _ _ _ Ha Ha') in W. clear a Ha.
    destruct (IH regs') as [Hf Ho]; [|done..|].
    { rewrite E1. eapply Forall2_impl; [exact Hr'|]. intros; by apply pad_reg_frame. }
    split.
    + constructor.
      * unfold pad_holds. rewrite Hv, Ho by done. by apply W.
      * rewrite Forall2_lookup in Hf |- *. rewrite Forall_forall in Hpl'. intros i. specialize (Hf i).
        destruct (l !! i) as [pd|] eqn:El, (regs' !! i) as [b|] eqn:Eb; inversion Hf; subst; [|constructor].
        constructor. assert (b ∈ regs') as Hb by by eapply list_elem_of_lookup_2.
        unfold pad_holds in *. rewrite <- (wr_other _ _ _ _ W b); [done | by apply Hpl' |].
        intros ->. done.
    + intros b Hb [Hne Hnb]%not_elem_of_cons. rewrite Ho by done. by apply W.
Qed.
End Signal.

(** A pad that was enabled stays as it is. *)
Lemma pad_after_enabled pad :
  pad_fits pad -> fst (pad_target _HWMOD_STATE_ENABLED (pad_after _HWMOD_STATE_ENABLED pad)) = - EINVAL.
Proof.
  intros Hf. assert (pad_enabled (pad_after _HWMOD_STATE_ENABLED pad) = true) as E.
  { unfold pad_after, pad_writes. rewrite decide_True by done. destruct (pad_enabled pad) eqn:E; [done|].
    apply Z.setbit_eq. lia. }
  unfold pad_target. rewrite Z.eqb_refl. change OMAP_DEVICE_PAD_ENABLED with (2 ^ 7).
  unfold pad_enabled in E. by rewrite land_pow2_test, E by done.
Qed.

Lemma mux_pads_enabled `{SOC : Soc} `{HW : Hardware} pads s :
  Forall pad_fits pads ->
  mux_pads _HWMOD_STATE_ENABLED (pad_after _HWMOD_STATE_ENABLED <$> pads) s =
  Done (pad_after _HWMOD_STATE_ENABLED <$> pads) s.
Proof.
  intros H. induction H as [|pad l Hf _ IH]; [done|]. cbn [fmap list_fmap mux_pads].
  erewrite bind_Done; [|unfold mux_pad; pose proof (pad_after_enabled pad Hf) as E;
    destruct (pad_target _ _); cbn [fst] in E; subst; reflexivity].
  erewrite bind_Done by exact IH. done.
Qed.

(** ** Properties *)

(** C19: muxing a signal by name on the TI814x.  If the name, with or without the name of the
    pad before a dot, fits exactly one mode of one pad of a partition, the register of that pad
    (of the first such partition) gets the bit of that mode and the given pull and direction
    bits, keeps its bits 20 to 31, and no other register changes; the pad is one that has the
    signal in that mode.  Otherwise -ENODEV is returned and nothing is touched. *)
Theorem mux_init_signal_correct `{SOC : Soc} `{HW : Hardware} name val s :
  cpu_is_ti814x = true -> Forall part_ok (ms_partitions s) ->
  wp (omap_mux_init_signal name val) (fun r s' =>
    match signal_pad name s with
    | None => r = - ENODEV /\ s' = s
    | Some (i, j, mode) => r = 0 /\ exists p m,
        ms_partitions s !! i = Some p /\ pt_muxmodes p !! j = Some m /\
        mx_muxnames m !! Z.to_nat mode = Some (Some (snd (split_name name))) /\
        signal_paths name p = [(j, mode)] /\
        pad_wrote (pt_base p + mx_reg_offset m) (u32 (Z.lor (Z.shiftl 1 mode) val)) s s'
    end) s.
Proof.
  intros Hti Hok. unfold omap_mux_init_signal, wp.
  erewrite bind_Done by by apply get_by_name_run.
  destruct (signal_pad name s) as [[[i j] mode]|] eqn:E; [|done].
  destruct (signal_pad_sound name s i j mode E) as (p & m & Hp & Hs & Hm & _ & _ & Hn).
  pose proof (Forall_lookup_1 _ _ _ _ Hok Hp) as [_ Hf].
  change (wp (mux ← deref (Some j); m ← get_mux i mux; omap_mux_read i (mx_reg_offset m);;
    omap_mux_write i (u32 (Z.lor (Z.shiftl 1 mode) val)) (mx_reg_offset m);; ret 0)
    (fun r s' => r = 0 /\ exists p m, ms_partitions s !! i = Some p /\ pt_muxmodes p !! j = Some m /\
      mx_muxnames m !! Z.to_nat mode = Some (Some (snd (split_name name))) /\
      signal_paths name p = [(j, mode)] /\
      pad_wrote (pt_base p + mx_reg_offset m) (u32 (Z.lor (Z.shiftl 1 mode) val)) s s') s).
  wp_pure. eapply wp_deref; [done|]. cbv beta. wp_pure. unfold get_mux. wp_pure.
  eapply wp_get_part; [done|]. cbv beta. wp_pure. eapply wp_deref; [done|]. cbv beta. wp_pure.
  eapply wp_mono; [by apply mux_read_spec|]. cbv beta. intros v s1 (_ & E1 & Hr1). wp_pure.
  eapply wp_mono; [apply (mux_write_spec Hti i p); [by rewrite E1 | done | apply wrapu_range; lia]|].
  cbv beta. intros _ s2 [E2 W]. wp_pure. split; [done|]. exists p, m. split_and!; try done.
  split; [rewrite E2, E1; done|]. by eapply wrote_after_reads.
Qed.

(** C21: the pads of a module follow its state.  Of pads with registers of their own, when the
    module is enabled those not yet enabled get their value for running, when it goes idle only
    those that are remuxed get their value for idling, when it is shut down all get their value
    for off or mode 7; a register keeps its bits 20 to 31, and no other register changes.  The
    flags of the pads record what was done, so that enabling once more does nothing. *)
Theorem hwmod_mux_correct `{SOC : Soc} `{HW : Hardware} hmux state regs s :
  cpu_is_ti814x = true -> mi_nr_pads hmux = Z.of_nat (length (mi_pads hmux)) ->
  pads_at s (mi_pads hmux) regs -> Forall pad_fits (mi_pads hmux) ->
  wp (omap_hwmod_mux hmux state) (fun hmux' s' =>
    hmux' = mkMuxInfo (mi_nr_pads hmux) (pad_after state <$> mi_pads hmux) /\
    ms_partitions s' = ms_partitions s /\
    Forall2 (pad_holds state (ms_w s) (ms_w s')) (mi_pads hmux) regs /\
    (forall b, plain_reg b -> b ∉ regs -> regval (ms_w s') b = regval (ms_w s) b) /\
    (state = _HWMOD_STATE_ENABLED -> omap_hwmod_mux hmux' state s' = Done hmux' s')) s.
Proof.
  intros Hti Hn Hat Hfit. unfold omap_hwmod_mux. rewrite Hn, Z.ltb_irrefl, Nat2Z.id. wp_pure.
  rewrite firstn_all, drop_all. eapply wp_mono; [apply mux_pads_spec; [done|]|].
  { destruct Hat as [Hr _]. rewrite Forall_forall in Hfit |- *. intros pad Hp. split; [|by apply Hfit].
    apply list_elem_of_lookup in Hp as [i Hi]. destruct (Forall2_lookup_l _ _ _ _ _ Hr Hi) as (a & _ & Ha).
    by exists a. }
  cbv beta. intros pads' s' (-> & Hw & E & _). wp_pure. rewrite app_nil_r. split; [done|].
  split; [by rewrite E|]. destruct (pads_wrote_regs state _ _ _ _ Hat Hw) as [Hf Ho].
  split; [done|]. split; [done|]. intros ->. cbn [mi_nr_pads mi_pads].
  rewrite length_fmap, Z.ltb_irrefl, Nat2Z.id.
  rewrite (firstn_all2 (pad_after _ <$> _)), (skipn_all2 (pad_after _ <$> _)) by (rewrite length_fmap; lia).
  erewrite bind_Done; [by rewrite app_nil_r|].
  by apply mux_pads_enabled.
Qed.
