(* ===== verification/MuxExamples.v ===== *)
(** * The pads of the board

    The tables of mux814x.c and board-ti8148evm.c run through the initialisation, the theorems
    on the state that results, and what the code does with inputs it does not expect. *)

From Stdlib Require Import Ascii.
From S2P Require Import Prelude Platform Mux Mux814xData MuxSignal.

Section Board.
  #[local] Existing Instance dm8148_soc.
  #[local] Existing Instance ram_hw.

(** The virtual address of the control module. *)
Definition PADCONF_VA : Z := 0xfa140000.

Definition mux_start : mux_state := mkMuxState empty_world [] 0 None [].

Definition mux_booted : mux_state :=
  Eval vm_compute in match ti814x_mux_init PADCONF_VA board_mux mux_start with
                     | Done _ s => s
                     | Fault _ => mux_start
                     end.

(** The pads of the table that have a name in mode 0. *)
Definition named_pads : list omap_mux :=
  filter (fun m => is_Some (default None (mx_muxnames m !! 0%nat))) (removelast ti814x_muxmodes).

Definition XREF_CLK2_OFFSET : Z := 0x083C.

(** The full name of each mode of each pad selects that mode of that pad. *)
Definition names_check (s : mux_state) (l : list omap_mux) : bool :=
  forallb (fun '(j, m) => (mx_reg_offset m =? XREF_CLK2_OFFSET) ||
    match mx_muxnames m !! 0%nat with
    | Some (Some m0) =>
        forallb (fun '(mode, o) =>
          match o with
          | Some sig => bool_decide (signal_pad (m0 +:+ "." +:+ sig) s = Some (0%nat, j, Z.of_nat mode))
          | None => true
          end) (imap pair (mx_muxnames m))
    | _ => false
    end) (imap pair l).

Lemma names_check_sound s l j m m0 mode sig :
  names_check s l = true -> l !! j = Some m -> mx_muxnames m !! 0%nat = Some (Some m0) ->
  mx_muxnames m !! mode = Some (Some sig) -> mx_reg_offset m <> XREF_CLK2_OFFSET ->
  signal_pad (m0 +:+ "." +:+ sig) s = Some (0%nat, j, Z.of_nat mode).
Proof.
  intros H Hj H0 Hm Hx. unfold names_check in H.
  assert (In (j, m) (imap pair l)) as Hin.
  { apply list_elem_of_In, elem_of_lookup_imap. by exists j, m. }
  eapply forallb_forall in H; [|exact Hin]. cbn in H. rewrite (proj2 (Z.eqb_neq _ _) Hx), H0 in H. cbn [orb] in H.
  assert (In (mode, Some sig) (imap pair (mx_muxnames m))) as Hin'.
  { apply list_elem_of_In, elem_of_lookup_imap. by exists mode, (Some sig). }
  eapply forallb_forall in H; [|exact Hin']. by apply bool_decide_eq_true in H.
Qed.

Lemma named_pads_named : Forall mux_named named_pads.
Proof.
  assert (forallb (fun m => match mx_muxnames m !! 0%nat with Some (Some _) => true | _ => false end)
    named_pads = true) as H by (vm_compute; reflexivity).
  apply Forall_forall. intros m Hm%list_elem_of_In. eapply forallb_forall in H; [|exact Hm].
  unfold mux_named. destruct (mx_muxnames m !! 0%nat) as [[n|]|]; [by exists n | done..].
Qed.

Lemma mux_booted_part : exists p, ms_partitions mux_booted = [p] /\ part_ok p /\ pt_base p = PADCONF_VA /\
  pt_muxmodes p = named_pads.
Proof.
  exists (mkPart "core" OMAP_MUX_REG_32BIT TI81XX_CONTROL_PADCONF_MUX_PBASE
    TI814X_CONTROL_PADCONF_MUX_SIZE PADCONF_VA named_pads).
  split; [vm_compute; reflexivity|]. split; [|done]. split; [exact named_pads_named | done].
Qed.

(** The last setting that the board has for a register. *)
Fixpoint board_value (a : Z) (l : list omap_board_mux) (v : Z) : Z :=
  match l with
  | [] => v
  | b :: l' => board_value a l' (if bm_reg_offset b =? a then bm_value b else v)
  end.

(** The pads of the chip at boot.  [ti814x_mux_init] with the pads of the board returns 0;
    the partition has, in order, the pads of the table with a name in mode 0; except for
    XREF_CLK2, which the table has twice, the full name of every mode of every pad selects
    that mode of that pad and no other; and every register that the board configures holds
    the last value the board has for it, every other pad register what it held before. *)
Theorem ti814x_mux_boot :
  ti814x_mux_init PADCONF_VA board_mux mux_start = Done 0 mux_booted /\
  (exists p, ms_partitions mux_booted = [p] /\ part_ok p /\ pt_base p = PADCONF_VA /\
    pt_muxmodes p = named_pads) /\
  (forall j m m0 mode sig, named_pads !! j = Some m -> mx_muxnames m !! 0%nat = Some (Some m0) ->
    mx_muxnames m !! mode = Some (Some sig) -> mx_reg_offset m <> XREF_CLK2_OFFSET ->
    signal_pad (m0 +:+ "." +:+ sig) mux_booted = Some (0%nat, j, Z.of_nat mode)) /\
  (forall m, m ∈ ti814x_muxmodes ->
    regval (ms_w mux_booted) (PADCONF_VA + mx_reg_offset m) = board_value (mx_reg_offset m) board_mux 0).
Proof.
  split; [vm_compute; reflexivity|]. split; [exact mux_booted_part|].
  split.
  - intros j m m0 mode sig. apply names_check_sound. vm_compute. reflexivity.
  - intros m Hm. assert (forallb (fun m => regval (ms_w mux_booted) (PADCONF_VA + mx_reg_offset m) =?
      board_value (mx_reg_offset m) board_mux 0) ti814x_muxmodes = true) as H by (vm_compute; reflexivity).
    apply list_elem_of_In in Hm. eapply forallb_forall in H; [|exact Hm]. by apply Z.eqb_eq.
Qed.

Lemma mux_booted_ok : Forall part_ok (ms_partitions mux_booted).
Proof.
  destruct mux_booted_part as (p & -> & Hp & _). by apply Forall_singleton.
Qed.

(** The receive pin of the second CAN controller: the call of devices.c. *)
Lemma mux_init_signal_correct_witness :
  signal_pad "uart0_rtsn.dcan1_rx" mux_booted = Some (0%nat, 72%nat, 3) /\
  wp (omap_mux_init_signal "uart0_rtsn.dcan1_rx" (Z.lor TI814X_INPUT_EN TI814X_PULL_UP)) (fun r s' =>
    r = 0 /\ regval (ms_w s') (PADCONF_VA + 0x0920) = 0x60008 /\
    regval (ms_w s') (PADCONF_VA + 0x0924) = regval (ms_w mux_booted) (PADCONF_VA + 0x0924)) mux_booted.
Proof.
  assert (signal_pad "uart0_rtsn.dcan1_rx" mux_booted = Some (0%nat, 72%nat, 3)) as E by (vm_compute; reflexivity).
  split; [exact E|].
  eapply wp_mono; [apply (mux_init_signal_correct "uart0_rtsn.dcan1_rx" (Z.lor TI814X_INPUT_EN TI814X_PULL_UP) mux_booted);
    [reflexivity | exact mux_booted_ok]|].
  cbv beta. rewrite E. intros r s' (-> & p & m & Hp & Hm & _ & _ & _ & W). split; [done|].
  assert (pt_base p + mx_reg_offset m = PADCONF_VA + 0x0920) as Ea.
  { vm_compute in Hp. apply (inj Some) in Hp. subst p. vm_compute in Hm. apply (inj Some) in Hm. subst m. reflexivity. }
  rewrite Ea in W. destruct W as [_ Hv Ho]. split.
  - rewrite Hv by apply mem_hw_plain. vm_compute. reflexivity.
  - apply Ho; [apply mem_hw_plain | done].
Defined.

(** Two pads of a serial port, the second one remuxed when the port is idle. *)
Definition uart_bpads : list omap_device_pad :=
  [mkPad "uart0_rxd.uart0_rxd" 0 0x01 0 0 None None;
   mkPad "uart0_txd.uart0_txd" OMAP_DEVICE_PAD_REMUX 0x01 0x80 0x80 None None].

Definition uart_mux : omap_hwmod_mux_info :=
  Eval vm_compute in match omap_hwmod_mux_init (Some uart_bpads) 2 mux_booted with
                     | Done (Some h) _ => h
                     | _ => mkMuxInfo 0 []
                     end.

Lemma hwmod_mux_correct_witness :
  length (mi_pads uart_mux) = 2%nat /\
  wp (omap_hwmod_mux uart_mux _HWMOD_STATE_ENABLED) (fun h s' =>
    Forall (fun a => regval (ms_w s') a = 0x01) [PADCONF_VA + 0x0914; PADCONF_VA + 0x0918] /\
    omap_hwmod_mux h _HWMOD_STATE_ENABLED s' = Done h s') mux_booted.
Proof.
  split; [reflexivity|].
  eapply wp_mono; [apply (hwmod_mux_correct uart_mux _HWMOD_STATE_ENABLED
    [PADCONF_VA + 0x0914; PADCONF_VA + 0x0918] mux_booted)|].
  - reflexivity.
  - reflexivity.
  - split; [|split].
    + apply Forall2_cons_2; [|apply Forall2_cons_2; [|apply Forall2_nil_2]];
        (eexists _, _, _, _; split_and!; vm_compute; reflexivity).
    + vm_compute. apply (bool_decide_unpack (NoDup [_; _])). vm_compute. exact I.
    + repeat constructor; apply mem_hw_plain.
  - repeat constructor; vm_compute; congruence || done.
  - cbv beta. intros h s' (-> & _ & Hf & _ & Hi). split; [|by apply Hi].
    inversion_clear Hf as [|? ? ? ? H1 Hf']. inversion_clear Hf' as [|? ? ? ? H2 _].
    constructor; [|constructor; [|constructor]].
    + etrans; [exact H1 | vm_compute; reflexivity].
    + etrans; [exact H2 | vm_compute; reflexivity].
Defined.

(** ** Unexpected inputs *)

(** The board sets UART0_DSRN twice: as the transmit pin of the third serial port and then as
    a chip select; the port is left without its pin. *)
Theorem board_uart3_txd_lost :
  bm_value (TI814X_MUX 0x0928 (Z.lor 1 TI814X_PIN_INPUT_PULL_DIS)) = 0x50002 /\
  regval (ms_w mux_booted) (PADCONF_VA + 0x0928) = 0x60010 /\
  signal_pad "uart0_dsrn.uart3_txd_mux0" mux_booted = Some (0%nat, 74%nat, 1).
Proof. vm_compute. split_and!; reflexivity. Qed.

(** The table has XREF_CLK2 twice, so none of the signals that both entries have can be muxed,
    not even by its full name. *)
Theorem xref_clk2_ambiguous :
  exists s', omap_mux_init_signal "xref_clk2.gpio0_9" 0 mux_booted = Done (- ENODEV) s'.
Proof. eexists. vm_compute. reflexivity. Qed.

(** A pad without a name in mode 0 is left out, and the signals of its other modes with it. *)
Theorem pad_without_mode0_left_out :
  (exists m, m ∈ ti814x_muxmodes /\ mx_muxnames m !! 7%nat = Some (Some "gpio1_10_mux1")) /\
  exists s', omap_mux_init_signal "gpio1_10_mux1" 0 mux_booted = Done (- ENODEV) s'.
Proof.
  split; [|eexists; vm_compute; reflexivity].
  exists (_TI814X_MUXENTRY 0x0900 0 None None None None None None None (Some "gpio1_10_mux1")).
  split; [|reflexivity]. apply (list_elem_of_lookup_2 _ 65). vm_compute. reflexivity.
Qed.

(** The name of the pad before the dot need only be a beginning of its name. *)
Theorem pad_name_is_a_prefix :
  signal_pad "u.uart0_rxd" mux_booted = signal_pad "uart0_rxd.uart0_rxd" mux_booted.
Proof. vm_compute. reflexivity. Qed.

(** On the TI814x a mode is one bit; shutting a module down writes the number 7 instead, which
    selects three modes at once. *)
Theorem shutdown_selects_three_modes :
  match omap_hwmod_mux uart_mux _HWMOD_STATE_DISABLED mux_booted with
  | Done _ s' => regval (ms_w s') (PADCONF_VA + 0x0914) = 7 /\ Z.land 7 (7 - 1) <> 0
  | Fault _ => False
  end.
Proof. vm_compute. split; [reflexivity | congruence]. Qed.

(** A partition of 8-bit registers: the write is followed by one of 16 bits to the same
    address, which overwrites the register of the next pad. *)
Theorem narrow_write_repeated :
  let s := mkMuxState empty_world [mkPart "narrow" OMAP_MUX_REG_8BIT 0 0 0x1000 []] 1 None [] in
  match @omap_mux_write {| omap_rev := 0x24200024; omap3_has_dsp := false; cm_base := 0; prm_base := 0 |}
    ram_hw 0 0x12 0 s with
  | Done _ s' => w_trace (ms_w s') = [IoWriteW 0x1000 0x12; IoWriteB 0x1000 0x12]
  | Fault _ => False
  end.
Proof. reflexivity. Qed.

(** An option of the command line without a value makes the kernel follow NULL. *)
Theorem cmdline_without_value_faults :
  omap_mux_set_cmdline_signals (set_ms_options (Some "uart0_rxd.uart0_rxd") mux_booted) = Fault NullDeref.
Proof. vm_compute. reflexivity. Qed.

(** When memory runs out in the middle of copying a pad, strings of the table are freed. *)
Theorem copy_names_frees_table :
  omap_mux_copy_names (_TI814X_MUXENTRY 0x0818 0 (Some "osc_wake") (Some "spi1_cs1") None None None None None None)
    (set_ms_oom [true] mux_start) = Fault Bug.
Proof. reflexivity. Qed.

(** The mode of a GPIO is kept in 16 bits, so the pull and direction bits of the TI814x are lost;
    and the mode is the number 4, which is the bit of mode 2. *)
Theorem gpio_mode_truncated :
  let s := mkMuxState empty_world
    [mkPart "core" OMAP_MUX_REG_32BIT 0 0 0x1000
       [mkMux 0 5 [Some "pin"; None; None; None; None; None; None; None] [None; None]]] 1 None [] in
  match omap_mux_init_gpio 5 TI814X_PIN_INPUT_PULL_UP s with
  | Done r s' => r = 0 /\ regval (ms_w s') 0x1000 = 4
  | Fault _ => False
  end.
Proof. split; reflexivity. Qed.
End Board.
