(* ===== verification/Hwmod.v ===== *)
(** * Hardware modules

    mach-omap2/omap_hwmod.c and plat-omap/include/plat/omap_hwmod.h: the modules of the chip,
    their OCP_SYSCONFIG registers, and the state machine that enables, idles, resets and shuts
    them down.

    A [struct omap_hwmod] and a [struct omap_hwmod_ocp_if] are C objects with a static lifetime,
    found by name in the stores of [hwmod_state]; the classes, which nothing changes, are values.
    The fields that omap_hwmod.c does not use are left out, and so are the branches for the
    OMAPs.  A function pointer of a class is the name of the function, which [HwmodFns] calls.

    The spin lock of a module is held around the public operations that change its state
    (omap_hwmod_enable, _idle, _shutdown, _reset, the clocks, the wakeup bit, the hard resets), so
    each of them is one step.  omap_hwmod_softreset and omap_hwmod_set_slave_idlemode take no
    lock: their definitions are what they do when no other operation comes between. *)

From S2P Require Import Prelude Platform Prcm Powerdomain Clockdomain ClkCore Mux.

Definition ETIMEDOUT : Z := 110.
Definition MAX_MODULE_SOFTRESET_WAIT : Z := 10000.
Definition MPU_INITIATOR_NAME : string := "mpu".

(** omap_hwmod.h *)
Definition SYSC_TYPE2_SOFTRESET_MASK : Z := Z.shiftl 1 0.
Definition SYSS_RESETDONE_MASK : Z := Z.shiftl 1 0.
Definition HWMOD_IDLEMODE_FORCE : Z := Z.shiftl 1 0.
Definition HWMOD_IDLEMODE_NO : Z := Z.shiftl 1 1.
Definition HWMOD_IDLEMODE_SMART : Z := Z.shiftl 1 2.
Definition HWMOD_IDLEMODE_SMART_WKUP : Z := Z.shiftl 1 3.
Definition ADDR_MAP_ON_INIT : Z := Z.shiftl 1 0.
Definition ADDR_TYPE_RT : Z := Z.shiftl 1 1.
Definition OCP_USER_MPU : Z := Z.shiftl 1 0.
Definition OCP_USER_SDMA : Z := Z.shiftl 1 1.
Definition OCPIF_SWSUP_IDLE : Z := Z.shiftl 1 0.
Definition SLAVE_IDLE_SHIFT : Z := 0.
Definition SIDLE_FORCE : Z := Z.shiftl HWMOD_IDLEMODE_FORCE SLAVE_IDLE_SHIFT.
Definition SIDLE_NO : Z := Z.shiftl HWMOD_IDLEMODE_NO SLAVE_IDLE_SHIFT.
Definition SIDLE_SMART : Z := Z.shiftl HWMOD_IDLEMODE_SMART SLAVE_IDLE_SHIFT.
Definition SIDLE_SMART_WKUP : Z := Z.shiftl HWMOD_IDLEMODE_SMART_WKUP SLAVE_IDLE_SHIFT.
Definition SYSC_HAS_AUTOIDLE : Z := Z.shiftl 1 0.
Definition SYSC_HAS_SOFTRESET : Z := Z.shiftl 1 1.
Definition SYSC_HAS_ENAWAKEUP : Z := Z.shiftl 1 2.
Definition SYSC_HAS_EMUFREE : Z := Z.shiftl 1 3.
Definition SYSC_HAS_CLOCKACTIVITY : Z := Z.shiftl 1 4.
Definition SYSC_HAS_SIDLEMODE : Z := Z.shiftl 1 5.
Definition SYSC_HAS_MIDLEMODE : Z := Z.shiftl 1 6.
Definition SYSS_HAS_RESET_STATUS : Z := Z.shiftl 1 7.
Definition SYSC_NO_CACHE : Z := Z.shiftl 1 8.
Definition SYSC_HAS_RESET_STATUS : Z := Z.shiftl 1 9.
Definition CLOCKACT_TEST_NONE : Z := 3.
Definition HWMOD_SWSUP_SIDLE : Z := Z.shiftl 1 0.
Definition HWMOD_SWSUP_MSTANDBY : Z := Z.shiftl 1 1.
Definition HWMOD_INIT_NO_RESET : Z := Z.shiftl 1 2.
Definition HWMOD_INIT_NO_IDLE : Z := Z.shiftl 1 3.
Definition HWMOD_NO_OCP_AUTOIDLE : Z := Z.shiftl 1 4.
Definition HWMOD_SET_DEFAULT_CLOCKACT : Z := Z.shiftl 1 5.
Definition HWMOD_NO_IDLEST : Z := Z.shiftl 1 6.
Definition HWMOD_CONTROL_OPT_CLKS_IN_RESET : Z := Z.shiftl 1 7.
Definition HWMOD_16BIT_REG : Z := Z.shiftl 1 8.
Definition _HWMOD_NO_MPU_PORT : Z := Z.shiftl 1 0.
Definition _HWMOD_WAKEUP_ENABLED : Z := Z.shiftl 1 1.
Definition _HWMOD_SYSCONFIG_LOADED : Z := Z.shiftl 1 2.

(** Whether [x & flag] is not 0. *)
Definition has (x flag : Z) : bool := negb (Z.land x flag =? 0).

#[local] Set Primitive Projections.

(** struct omap_hwmod_irq_info, omap_hwmod_dma_info, omap_hwmod_rst_info *)
Record omap_hwmod_irq_info := mkIrqInfo { ir_name : option string; ir_irq : Z (* u16 *) }.
Record omap_hwmod_dma_info := mkDmaInfo { dm_name : option string; dm_dma_req : Z (* u16 *) }.
Record omap_hwmod_rst_info := mkRstInfo { rs_name : string; rs_rst_shift : Z; rs_st_shift : Z }.

(** struct omap_hwmod_opt_clk *)
Record omap_hwmod_opt_clk := mkOptClk {
  ko_role : string;
  ko_clk : string;
  ko__clk : option string  (* struct clk * *)
}.

(** struct omap_hwmod_addr_space *)
Record omap_hwmod_addr_space := mkAddrSpace {
  as_name : option string;
  as_pa_start : Z;  (* u32 *)
  as_pa_end : Z;  (* u32 *)
  as_flags : Z  (* u8 *)
}.

(** struct omap_hwmod_ocp_if *)
Record omap_hwmod_ocp_if := mkOcpIf {
  if_master : string;  (* struct omap_hwmod * *)
  if_slave : string;  (* struct omap_hwmod * *)
  if_addr : list omap_hwmod_addr_space;
  if_clk : option string;
  if__clk : option string;  (* struct clk * *)
  if_addr_cnt : Z;  (* u8 *)
  if_user : Z;  (* u8 *)
  if_flags : Z  (* u8 *)
}.

Definition set_if__clk : option string -> omap_hwmod_ocp_if -> omap_hwmod_ocp_if :=
  Eval cbv beta zeta in ltac:(record_setter if__clk).

(** struct omap_hwmod_sysc_fields *)
Record omap_hwmod_sysc_fields := mkSyscFields {
  midle_shift : Z;
  clkact_shift : Z;
  sidle_shift : Z;
  enwkup_shift : Z;
  srst_shift : Z;
  autoidle_shift : Z
}.

(** struct omap_hwmod_class_sysconfig *)
Record omap_hwmod_class_sysconfig := mkSysc {
  sc_rev_offs : Z;  (* u16 *)
  sc_sysc_offs : Z;  (* u16 *)
  sc_syss_offs : Z;  (* u16 *)
  sc_sysc_flags : Z;  (* u16 *)
  sc_idlemodes : Z;  (* u8 *)
  sc_clockact : Z;  (* u8 *)
  sc_sysc_fields : option omap_hwmod_sysc_fields
}.

(** struct omap_hwmod_class *)
Record omap_hwmod_class := mkHwmodClass {
  hc_name : option string;
  hc_sysc : option omap_hwmod_class_sysconfig;
  hc_rev : Z;  (* u32 *)
  hc_pre_shutdown : option string;  (* a function *)
  hc_reset : option string  (* a function *)
}.

(** struct omap_hwmod; [oh_clkctrl_reg] is the member of [prcm.omap4]. *)
Record omap_hwmod := mkHwmod {
  oh_name : option string;
  oh_class : option omap_hwmod_class;
  oh_mux : option omap_hwmod_mux_info;
  oh_mpu_irqs : list omap_hwmod_irq_info;
  oh_sdma_reqs : list omap_hwmod_dma_info;
  oh_rst_lines : list omap_hwmod_rst_info;
  oh_clkctrl_reg : Z;  (* 0 is NULL *)
  oh_main_clk : option string;
  oh__clk : option string;  (* struct clk * *)
  oh_opt_clks : list omap_hwmod_opt_clk;
  oh_slaves : list string;  (* struct omap_hwmod_ocp_if *[] *)
  oh__sysc_cache : Z;  (* u32 *)
  oh__mpu_rt_va : Z;  (* void __iomem * *)
  oh_flags : Z;  (* u16 *)
  oh__mpu_port_index : Z;  (* u8 *)
  oh_mpu_irqs_cnt : Z;  (* u8 *)
  oh_sdma_reqs_cnt : Z;  (* u8 *)
  oh_rst_lines_cnt : Z;  (* u8 *)
  oh_opt_clks_cnt : Z;  (* u8 *)
  oh_slaves_cnt : Z;  (* u8 *)
  oh__int_flags : Z;  (* u8 *)
  oh__state : Z;  (* u8 *)
  oh__postsetup_state : Z;  (* u8 *)
  oh_omap_chip : Z
}.

Definition set_oh_mux : option omap_hwmod_mux_info -> omap_hwmod -> omap_hwmod :=
  Eval cbv beta zeta in ltac:(record_setter oh_mux).
Definition set_oh__clk : option string -> omap_hwmod -> omap_hwmod :=
  Eval cbv beta zeta in ltac:(record_setter oh__clk).
Definition set_oh_opt_clks : list omap_hwmod_opt_clk -> omap_hwmod -> omap_hwmod :=
  Eval cbv beta zeta in ltac:(record_setter oh_opt_clks).
Definition set_oh__sysc_cache : Z -> omap_hwmod -> omap_hwmod :=
  Eval cbv beta zeta in ltac:(record_setter oh__sysc_cache).
Definition set_oh__mpu_rt_va : Z -> omap_hwmod -> omap_hwmod :=
  Eval cbv beta zeta in ltac:(record_setter oh__mpu_rt_va).
Definition set_oh_flags : Z -> omap_hwmod -> omap_hwmod :=
  Eval cbv beta zeta in ltac:(record_setter oh_flags).
Definition set_oh__mpu_port_index : Z -> omap_hwmod -> omap_hwmod :=
  Eval cbv beta zeta in ltac:(record_setter oh__mpu_port_index).
Definition set_oh__int_flags : Z -> omap_hwmod -> omap_hwmod :=
  Eval cbv beta zeta in ltac:(record_setter oh__int_flags).
Definition set_oh__state : Z -> omap_hwmod -> omap_hwmod :=
  Eval cbv beta zeta in ltac:(record_setter oh__state).
Definition set_oh__postsetup_state : Z -> omap_hwmod -> omap_hwmod :=
  Eval cbv beta zeta in ltac:(record_setter oh__postsetup_state).

(** The state: the pads with the registers and clocks, the objects, and the static variables of
    omap_hwmod.c. *)
Record hwmod_state := mkHwmodState {
  hs_mux : mux_state;
  hs_ohs : gmap string omap_hwmod;
  hs_ifs : gmap string omap_hwmod_ocp_if;
  hs_list : list string;  (* omap_hwmod_list *)
  hs_mpu_oh : option string;
  hs_inited : bool
}.

Definition set_hs_mux : mux_state -> hwmod_state -> hwmod_state :=
  Eval cbv beta zeta in ltac:(record_setter hs_mux).
Definition set_hs_ohs : gmap string omap_hwmod -> hwmod_state -> hwmod_state :=
  Eval cbv beta zeta in ltac:(record_setter hs_ohs).
Definition set_hs_ifs : gmap string omap_hwmod_ocp_if -> hwmod_state -> hwmod_state :=
  Eval cbv beta zeta in ltac:(record_setter hs_ifs).
Definition set_hs_list : list string -> hwmod_state -> hwmod_state :=
  Eval cbv beta zeta in ltac:(record_setter hs_list).
Definition set_hs_mpu_oh : option string -> hwmod_state -> hwmod_state :=
  Eval cbv beta zeta in ltac:(record_setter hs_mpu_oh).
Definition set_hs_inited : bool -> hwmod_state -> hwmod_state :=
  Eval cbv beta zeta in ltac:(record_setter hs_inited).

#[local] Unset Primitive Projections.

(** The clocks and registers. *)
Definition hs_w (s : hwmod_state) : world := ms_w (hs_mux s).
Definition set_hs_w (w : world) (s : hwmod_state) : hwmod_state := set_hs_mux (set_ms_w w (hs_mux s)) s.

(** A call into another component. *)
Definition hw_io {A} (m : M world A) : M hwmod_state A := fun s =>
  match m (hs_w s) with Done a w => Done a (set_hs_w w s) | Fault f => Fault f end.
Definition on_mux {A} (m : M mux_state A) : M hwmod_state A := fun s =>
  match m (hs_mux s) with Done a x => Done a (set_hs_mux x s) | Fault f => Fault f end.

(** Following a pointer to a module or an interface, and assigning to its fields. *)
Definition get_oh (oh : string) : M hwmod_state omap_hwmod :=
  r ← gets (fun s => hs_ohs s !! oh); deref r.
Definition get_if (i : string) : M hwmod_state omap_hwmod_ocp_if :=
  r ← gets (fun s => hs_ifs s !! i); deref r.
Definition upd_oh (oh : string) (f : omap_hwmod -> omap_hwmod) : M hwmod_state unit :=
  r ← get_oh oh; modify (fun s => set_hs_ohs (<[oh := f r]> (hs_ohs s)) s).
Definition upd_if (i : string) (f : omap_hwmod_ocp_if -> omap_hwmod_ocp_if) : M hwmod_state unit :=
  r ← get_if i; modify (fun s => set_hs_ifs (<[i := f r]> (hs_ifs s)) s).

(** The first [cnt] elements of an array. *)
Definition elems {S A} (l : list A) (cnt : Z) : M S (list A) :=
  if Z.of_nat (length l) <? cnt then fail OutOfBounds else ret (take (Z.to_nat cnt) l).

(** [oh->class] and [oh->class->sysc] *)
Definition oh_cls (oh : string) : M hwmod_state omap_hwmod_class :=
  o ← get_oh oh; deref (oh_class o).
Definition oh_sysc (oh : string) : M hwmod_state (option omap_hwmod_class_sysconfig) :=
  c ← oh_cls oh; ret (hc_sysc c).

(** ** Fields of OCP_SYSCONFIG *)

(** [*v &= ~(mask << shift); *v |= f << shift] *)
Definition put_field (mask shift f v : Z) : Z :=
  Z.lor (Z.land v (Z.lnot (lsl mask shift))) (lsl f shift).

(** The functions that change the value [v] return the error and the new value.  *)
Definition _set_master_standbymode (sysc : option omap_hwmod_class_sysconfig) (standbymode v : Z) : Z * Z :=
  match sysc with
  | None => (- EINVAL, v)
  | Some sc =>
      if negb (has (sc_sysc_flags sc) SYSC_HAS_MIDLEMODE) then (- EINVAL, v) else
      match sc_sysc_fields sc with
      | None => (- EINVAL, v)
      | Some f => (0, put_field 3 (midle_shift f) (__ffs standbymode) v)
      end
  end.

Definition _set_slave_idlemode (sysc : option omap_hwmod_class_sysconfig) (idlemode v : Z) : Z * Z :=
  match sysc with
  | None => (- EINVAL, v)
  | Some sc =>
      if negb (has (sc_sysc_flags sc) SYSC_HAS_SIDLEMODE) then (- EINVAL, v) else
      match sc_sysc_fields sc with
      | None => (- EINVAL, v)
      | Some f => (0, put_field 3 (sidle_shift f) (__ffs idlemode) v)
      end
  end.

Definition _set_clockactivity (sysc : option omap_hwmod_class_sysconfig) (clockact v : Z) : Z * Z :=
  match sysc with
  | None => (- EINVAL, v)
  | Some sc =>
      if negb (has (sc_sysc_flags sc) SYSC_HAS_CLOCKACTIVITY) then (- EINVAL, v) else
      match sc_sysc_fields sc with
      | None => (- EINVAL, v)
      | Some f => (0, put_field 3 (clkact_shift f) clockact v)
      end
  end.

Definition _set_softreset (sysc : option omap_hwmod_class_sysconfig) (v : Z) : Z * Z :=
  match sysc with
  | None => (- EINVAL, v)
  | Some sc =>
      if negb (has (sc_sysc_flags sc) SYSC_HAS_SOFTRESET) then (- EINVAL, v) else
      match sc_sysc_fields sc with
      | None => (- EINVAL, v)
      | Some f => (0, Z.lor v (lsl 1 (srst_shift f)))
      end
  end.

Definition _set_module_autoidle (sysc : option omap_hwmod_class_sysconfig) (autoidle v : Z) : Z * Z :=
  match sysc with
  | None => (- EINVAL, v)
  | Some sc =>
      if negb (has (sc_sysc_flags sc) SYSC_HAS_AUTOIDLE) then (- EINVAL, v) else
      match sc_sysc_fields sc with
      | None => (- EINVAL, v)
      | Some f => (0, put_field 1 (autoidle_shift f) autoidle v)
      end
  end.

Definition _enable_wakeup (oh : string) (v : Z) : M hwmod_state (Z * Z) :=
  sysc ← oh_sysc oh;
  match sysc with
  | None => ret (- EINVAL, v)
  | Some sc =>
      if negb (has (sc_sysc_flags sc) SYSC_HAS_ENAWAKEUP || has (sc_idlemodes sc) SIDLE_SMART_WKUP)
      then ret (- EINVAL, v) else
      match sc_sysc_fields sc with
      | None => ret (- EINVAL, v)
      | Some f =>
          let v := Z.lor v (lsl 1 (enwkup_shift f)) in
          let v := if has (sc_idlemodes sc) SIDLE_SMART_WKUP
                   then snd (_set_slave_idlemode sysc HWMOD_IDLEMODE_SMART_WKUP v) else v in
          upd_oh oh (fun o => set_oh__int_flags (Z.lor (oh__int_flags o) _HWMOD_WAKEUP_ENABLED) o);;
          ret (0, v)
      end
  end.

Definition _disable_wakeup (oh : string) (v : Z) : M hwmod_state (Z * Z) :=
  sysc ← oh_sysc oh;
  match sysc with
  | None => ret (- EINVAL, v)
  | Some sc =>
      if negb (has (sc_sysc_flags sc) SYSC_HAS_ENAWAKEUP || has (sc_idlemodes sc) SIDLE_SMART_WKUP)
      then ret (- EINVAL, v) else
      match sc_sysc_fields sc with
      | None => ret (- EINVAL, v)
      | Some f =>
          let v := Z.land v (Z.lnot (lsl 1 (enwkup_shift f))) in
          let v := if has (sc_idlemodes sc) SIDLE_SMART_WKUP
                   then snd (_set_slave_idlemode sysc HWMOD_IDLEMODE_SMART v) else v in
          upd_oh oh (fun o => set_oh__int_flags (Z.land (oh__int_flags o) (Z.lnot _HWMOD_WAKEUP_ENABLED)) o);;
          ret (0, v)
      end
  end.

(** [class->reset(oh)] and [class->pre_shutdown(oh)] *)
Class HwmodFns := class_fn : string -> string -> M hwmod_state Z.

Section Hwmod.
  Context `{SOC : Soc} `{HW : Hardware} `{FNS : HwmodFns}.
Variable arch_clock : clk_functions.
(** [ioremap(start, size)] *)
Variable ioremap : Z -> Z -> Z.

(** ** Registers *)

Definition omap_hwmod_read (oh : string) (reg_offs : Z) : M hwmod_state Z :=
  o ← get_oh oh;
  if has (oh_flags o) HWMOD_16BIT_REG then hw_io (__raw_readw (oh__mpu_rt_va o + reg_offs))
  else hw_io (__raw_readl (oh__mpu_rt_va o + reg_offs)).

Definition omap_hwmod_write (v : Z) (oh : string) (reg_offs : Z) : M hwmod_state unit :=
  o ← get_oh oh;
  if has (oh_flags o) HWMOD_16BIT_REG then hw_io (__raw_writew v (oh__mpu_rt_va o + reg_offs))
  else hw_io (__raw_writel v (oh__mpu_rt_va o + reg_offs)).

Definition _update_sysc_cache (oh : string) : M hwmod_state Z :=
  sysc ← oh_sysc oh;
  match sysc with
  | None => ret (- EINVAL)
  | Some sc =>
      v ← omap_hwmod_read oh (sc_sysc_offs sc);
      upd_oh oh (set_oh__sysc_cache v);;
      when (negb (has (sc_sysc_flags sc) SYSC_NO_CACHE))
        (upd_oh oh (fun o => set_oh__int_flags (Z.lor (oh__int_flags o) _HWMOD_SYSCONFIG_LOADED) o));;
      ret 0
  end.

Definition _write_sysconfig (v : Z) (oh : string) : M hwmod_state unit :=
  sysc ← oh_sysc oh;
  match sysc with
  | None => ret tt
  | Some sc =>
      upd_oh oh (set_oh__sysc_cache v);;
      omap_hwmod_write v oh (sc_sysc_offs sc)
  end.

(** ** Dependencies *)

(** [oh->_clk->clkdm] *)
Definition oh_clkdm (clk : option string) : M hwmod_state (option string) :=
  c ← deref clk; k ← hw_io (get_clk c); ret (ck_clkdm k).

Definition _add_initiator_dep (oh : string) (init_oh : option string) : M hwmod_state Z :=
  o ← get_oh oh;
  match oh__clk o with
  | None => ret (- EINVAL)
  | Some _ =>
      d ← oh_clkdm (oh__clk o);
      i ← deref init_oh;
      io ← get_oh i;
      id ← oh_clkdm (oh__clk io);
      hw_io (clkdm_add_sleepdep d id)
  end.

Definition _del_initiator_dep (oh : string) (init_oh : option string) : M hwmod_state Z :=
  o ← get_oh oh;
  match oh__clk o with
  | None => ret (- EINVAL)
  | Some _ =>
      d ← oh_clkdm (oh__clk o);
      i ← deref init_oh;
      io ← get_oh i;
      id ← oh_clkdm (oh__clk io);
      hw_io (clkdm_del_sleepdep d id)
  end.

(** ** Clocks *)

Definition _init_main_clk (oh : string) : M hwmod_state Z :=
  o ← get_oh oh;
  match oh_main_clk o with
  | None => ret 0
  | Some name =>
      c ← hw_io (omap_clk_get_by_name name);
      upd_oh oh (set_oh__clk c);;
      match c with None => ret (- EINVAL) | Some _ => ret 0 end
  end.

Fixpoint interface_clks_loop (l : list string) (r : Z) : M hwmod_state Z :=
  match l with
  | [] => ret r
  | i :: l' =>
      os ← get_if i;
      match if_clk os with
      | None => interface_clks_loop l' r
      | Some name =>
          c ← hw_io (omap_clk_get_by_name name);
          upd_if i (set_if__clk c);;
          interface_clks_loop l' (match c with None => - EINVAL | Some _ => r end)
      end
  end.

Definition _init_interface_clks (oh : string) : M hwmod_state Z :=
  o ← get_oh oh;
  l ← elems (oh_slaves o) (oh_slaves_cnt o);
  interface_clks_loop l 0.

(** The optional clocks after the lookups, and the error. *)
Fixpoint opt_clks_loop (l : list omap_hwmod_opt_clk) (r : Z) : M hwmod_state (list omap_hwmod_opt_clk * Z) :=
  match l with
  | [] => ret ([], r)
  | oc :: l' =>
      c ← hw_io (omap_clk_get_by_name (ko_clk oc));
      '(l', r) ← opt_clks_loop l' (match c with None => - EINVAL | Some _ => r end);
      ret (mkOptClk (ko_role oc) (ko_clk oc) c :: l', r)
  end.

Definition _init_opt_clks (oh : string) : M hwmod_state Z :=
  o ← get_oh oh;
  l ← elems (oh_opt_clks o) (oh_opt_clks_cnt o);
  '(l, r) ← opt_clks_loop l 0;
  upd_oh oh (set_oh_opt_clks (l ++ drop (Z.to_nat (oh_opt_clks_cnt o)) (oh_opt_clks o)));;
  ret r.

(** The interface clocks that are switched with the module. *)
Definition swsup_clks (f : string -> M hwmod_state unit) (l : list string) : M hwmod_state unit :=
  for_each l (fun i =>
    os ← get_if i;
    match if__clk os with
    | Some c => when (has (if_flags os) OCPIF_SWSUP_IDLE) (f c)
    | None => ret tt
    end).

Definition _enable_clocks (oh : string) : M hwmod_state Z :=
  o ← get_oh oh;
  (match oh__clk o with
   | Some c => hw_io (clk_enable arch_clock (Some c));; ret tt
   | None => ret tt
   end);;
  l ← elems (oh_slaves o) (oh_slaves_cnt o);
  swsup_clks (fun c => hw_io (clk_enable arch_clock (Some c));; ret tt) l;;
  ret 0.

Definition _disable_clocks (oh : string) : M hwmod_state Z :=
  o ← get_oh oh;
  (match oh__clk o with
   | Some c => hw_io (clk_disable arch_clock (Some c))
   | None => ret tt
   end);;
  l ← elems (oh_slaves o) (oh_slaves_cnt o);
  swsup_clks (fun c => hw_io (clk_disable arch_clock (Some c))) l;;
  ret 0.

Definition _enable_optional_clocks (oh : string) : M hwmod_state unit :=
  o ← get_oh oh;
  l ← elems (oh_opt_clks o) (oh_opt_clks_cnt o);
  for_each l (fun oc =>
    match ko__clk oc with
    | Some c => hw_io (clk_enable arch_clock (Some c));; ret tt
    | None => ret tt
    end).

Definition _disable_optional_clocks (oh : string) : M hwmod_state unit :=
  o ← get_oh oh;
  l ← elems (oh_opt_clks o) (oh_opt_clks_cnt o);
  for_each l (fun oc =>
    match ko__clk oc with
    | Some c => hw_io (clk_disable arch_clock (Some c))
    | None => ret tt
    end).

(** ** Ports *)

Fixpoint mpu_port_loop (l : list string) (i : Z) : M hwmod_state Z :=
  match l with
  | [] => ret (- EINVAL)
  | x :: l' =>
      os ← get_if x;
      if has (if_user os) OCP_USER_MPU then ret i else mpu_port_loop l' (i + 1)
  end.

Definition _find_mpu_port_index (oh : string) : M hwmod_state Z :=
  o ← get_oh oh;
  if oh_slaves_cnt o =? 0 then ret (- EINVAL) else
  l ← elems (oh_slaves o) (oh_slaves_cnt o);
  mpu_port_loop l 0.

Fixpoint rt_loop (l : list omap_hwmod_addr_space) : option omap_hwmod_addr_space :=
  match l with
  | [] => None
  | mem :: l' => if has (as_flags mem) ADDR_TYPE_RT then Some mem else rt_loop l'
  end.

Definition _find_mpu_rt_base (oh : string) (index : Z) : M hwmod_state Z :=
  o ← get_oh oh;
  if oh_slaves_cnt o =? 0 then ret 0 else
  i ← aget (oh_slaves o) index;
  os ← get_if i;
  l ← elems (if_addr os) (if_addr_cnt os);
  match rt_loop l with
  | Some mem => ret (ioremap (as_pa_start mem) (u32 (as_pa_end mem - as_pa_start mem)))
  | None => ret 0
  end.

(** ** Idle modes *)

Definition _enable_sysc (oh : string) : M hwmod_state unit :=
  sysc ← oh_sysc oh;
  match sysc with
  | None => ret tt
  | Some sc =>
      o ← get_oh oh;
      let v := oh__sysc_cache o in
      let sf := u8 (sc_sysc_flags sc) in
      let v := if has sf SYSC_HAS_SIDLEMODE
               then snd (_set_slave_idlemode sysc
                 (if has (oh_flags o) HWMOD_SWSUP_SIDLE then HWMOD_IDLEMODE_NO else HWMOD_IDLEMODE_SMART) v)
               else v in
      let v := if has sf SYSC_HAS_MIDLEMODE
               then snd (_set_master_standbymode sysc
                 (if has (oh_flags o) HWMOD_SWSUP_MSTANDBY then HWMOD_IDLEMODE_NO else HWMOD_IDLEMODE_SMART) v)
               else v in
      let v := if has (oh_flags o) HWMOD_SET_DEFAULT_CLOCKACT && has sf SYSC_HAS_CLOCKACTIVITY
               then snd (_set_clockactivity sysc (sc_clockact sc) v) else v in
      v ← (if has sf SYSC_HAS_SIDLEMODE && negb (has (oh_flags o) HWMOD_SWSUP_SIDLE)
           then r ← _enable_wakeup oh v; ret (snd r) else ret v);
      _write_sysconfig v oh;;
      when (has sf SYSC_HAS_AUTOIDLE)
        (let v := snd (_set_module_autoidle sysc (if has (oh_flags o) HWMOD_NO_OCP_AUTOIDLE then 0 else 1) v) in
         _write_sysconfig v oh)
  end.

Definition _idle_sysc (oh : string) : M hwmod_state unit :=
  sysc ← oh_sysc oh;
  match sysc with
  | None => ret tt
  | Some sc =>
      o ← get_oh oh;
      let v := oh__sysc_cache o in
      let sf := u8 (sc_sysc_flags sc) in
      let v := if has sf SYSC_HAS_SIDLEMODE
               then snd (_set_slave_idlemode sysc
                 (if has (oh_flags o) HWMOD_SWSUP_SIDLE then HWMOD_IDLEMODE_FORCE else HWMOD_IDLEMODE_SMART) v)
               else v in
      let v := if has sf SYSC_HAS_MIDLEMODE
               then snd (_set_master_standbymode sysc
                 (if has (oh_flags o) HWMOD_SWSUP_MSTANDBY then HWMOD_IDLEMODE_FORCE else HWMOD_IDLEMODE_SMART) v)
               else v in
      v ← (if has sf SYSC_HAS_SIDLEMODE && negb (has (oh_flags o) HWMOD_SWSUP_SIDLE)
           then r ← _enable_wakeup oh v; ret (snd r) else ret v);
      _write_sysconfig v oh
  end.

Definition _shutdown_sysc (oh : string) : M hwmod_state unit :=
  sysc ← oh_sysc oh;
  match sysc with
  | None => ret tt
  | Some sc =>
      o ← get_oh oh;
      let v := oh__sysc_cache o in
      let sf := u8 (sc_sysc_flags sc) in
      let v := if has sf SYSC_HAS_SIDLEMODE
               then snd (_set_slave_idlemode sysc HWMOD_IDLEMODE_FORCE v) else v in
      let v := if has sf SYSC_HAS_MIDLEMODE
               then snd (_set_master_standbymode sysc HWMOD_IDLEMODE_FORCE v) else v in
      let v := if has sf SYSC_HAS_AUTOIDLE then snd (_set_module_autoidle sysc 1 v) else v in
      _write_sysconfig v oh
  end.

(** ** Lookup *)

Fixpoint lookup_loop (name : string) (l : list string) : M hwmod_state (option string) :=
  match l with
  | [] => ret None
  | temp_oh :: l' =>
      o ← get_oh temp_oh;
      n ← deref (oh_name o);
      if String.eqb name n then ret (Some temp_oh) else lookup_loop name l'
  end.

Definition _lookup (name : string) : M hwmod_state (option string) :=
  l ← gets (fun s => hs_list s); lookup_loop name l.

Definition omap_hwmod_lookup (name : option string) : M hwmod_state (option string) :=
  match name with None => ret None | Some n => _lookup n end.

Definition _init_clocks (oh : string) : M hwmod_state Z :=
  o ← get_oh oh;
  if negb (oh__state o =? _HWMOD_STATE_REGISTERED) then ret (- EINVAL) else
  r1 ← _init_main_clk oh;
  r2 ← _init_interface_clks oh;
  r3 ← _init_opt_clks oh;
  let r := Z.lor (Z.lor r1 r2) r3 in
  when (r =? 0) (upd_oh oh (set_oh__state _HWMOD_STATE_CLKS_INITED));;
  ret r.

Definition _wait_target_ready (oh : string) : M hwmod_state Z :=
  o ← get_oh oh;
  if has (oh__int_flags o) _HWMOD_NO_MPU_PORT then ret 0 else
  aget (oh_slaves o) (oh__mpu_port_index o);;
  if has (oh_flags o) HWMOD_NO_IDLEST then ret 0 else
  if cpu_is_ti81xx then hw_io (ti81xx_cm_wait_module_ready (oh_clkctrl_reg o)) else fail Bug.

(** ** Resets *)

(** The result is a byte, so -ENOENT becomes 254, which [IS_ERR_VALUE] does not take for an
    error. *)
Fixpoint hardreset_loop (l : list omap_hwmod_rst_info) (name : string) : Z :=
  match l with
  | [] => u8 (- ENOENT)
  | r :: l' => if String.eqb (rs_name r) name then 0 else hardreset_loop l' name
  end.

Definition _lookup_hardreset (oh name : string) : M hwmod_state Z :=
  o ← get_oh oh;
  l ← elems (oh_rst_lines o) (oh_rst_lines_cnt o);
  ret (hardreset_loop l name).

Definition IS_ERR_VALUE (x : Z) : bool := u32 (- 4095) <=? u32 x.

(** On the TI81xx the three operations are not supported. *)
Definition _assert_hardreset (oh : option string) (name : string) : M hwmod_state Z :=
  match oh with
  | None => ret (- EINVAL)
  | Some oh => r ← _lookup_hardreset oh name; if IS_ERR_VALUE r then ret r else ret (- EINVAL)
  end.

Definition _deassert_hardreset (oh : option string) (name : string) : M hwmod_state Z :=
  match oh with
  | None => ret (- EINVAL)
  | Some oh => r ← _lookup_hardreset oh name; if IS_ERR_VALUE r then ret r else ret (- EINVAL)
  end.

Definition _read_hardreset (oh : option string) (name : string) : M hwmod_state Z :=
  match oh with
  | None => ret (- EINVAL)
  | Some oh => r ← _lookup_hardreset oh name; if IS_ERR_VALUE r then ret r else ret (- EINVAL)
  end.

(** [omap_test_timeout] on a register of the module *)
Fixpoint hwmod_test_loop (cond : M hwmod_state bool) (n : nat) (index : Z) : M hwmod_state Z :=
  match n with
  | O => ret index
  | S n' =>
      b ← cond;
      if b then ret index else hw_io (udelay 1);; hwmod_test_loop cond n' (index + 1)
  end.

Definition _ocp_softreset (oh : string) : M hwmod_state Z :=
  sysc ← oh_sysc oh;
  match sysc with
  | None => ret (- EINVAL)
  | Some sc =>
      if negb (has (sc_sysc_flags sc) SYSC_HAS_SOFTRESET) then ret (- EINVAL) else
      o ← get_oh oh;
      if negb (oh__state o =? _HWMOD_STATE_ENABLED) then ret (- EINVAL) else
      when (has (oh_flags o) HWMOD_CONTROL_OPT_CLKS_IN_RESET) (_enable_optional_clocks oh);;
      let '(r, v) := _set_softreset sysc (oh__sysc_cache o) in
      r ← (if negb (r =? 0) then ret r else
           _write_sysconfig v oh;;
           c ← (if has (sc_sysc_flags sc) SYSS_HAS_RESET_STATUS then
                  hwmod_test_loop (v ← omap_hwmod_read oh (sc_syss_offs sc); ret (has v SYSS_RESETDONE_MASK))
                    (Z.to_nat MAX_MODULE_SOFTRESET_WAIT) 0
                else if has (sc_sysc_flags sc) SYSC_HAS_RESET_STATUS then
                  hwmod_test_loop (v ← omap_hwmod_read oh (sc_sysc_offs sc);
                                   ret (negb (has v SYSC_TYPE2_SOFTRESET_MASK)))
                    (Z.to_nat MAX_MODULE_SOFTRESET_WAIT) 0
                else ret 0);
           ret (if c =? MAX_MODULE_SOFTRESET_WAIT then - ETIMEDOUT else 0));
      when (has (oh_flags o) HWMOD_CONTROL_OPT_CLKS_IN_RESET) (_disable_optional_clocks oh);;
      ret r
  end.

Definition _reset (oh : string) : M hwmod_state Z :=
  c ← oh_cls oh;
  match hc_reset c with Some f => class_fn f oh | None => _ocp_softreset oh end.

(** ** The state machine *)

(** [if (oh->mux) omap_hwmod_mux(oh->mux, state)] *)
Definition mux_module (oh : string) (state : Z) : M hwmod_state unit :=
  o ← get_oh oh;
  match oh_mux o with
  | None => ret tt
  | Some hmux => h ← on_mux (omap_hwmod_mux hmux state); upd_oh oh (set_oh_mux (Some h))
  end.

Definition _enable (oh : string) : M hwmod_state Z :=
  o ← get_oh oh;
  let st := oh__state o in
  if negb (st =? _HWMOD_STATE_INITIALIZED) && negb (st =? _HWMOD_STATE_IDLE) &&
     negb (st =? _HWMOD_STATE_DISABLED) then ret (- EINVAL) else
  when (((st =? _HWMOD_STATE_INITIALIZED) || (st =? _HWMOD_STATE_DISABLED)) && (oh_rst_lines_cnt o =? 1))
    (r ← aget (oh_rst_lines o) 0; _deassert_hardreset (Some oh) (rs_name r);; ret tt);;
  mux_module oh _HWMOD_STATE_ENABLED;;
  mpu ← gets (fun s => hs_mpu_oh s);
  _add_initiator_dep oh mpu;;
  _enable_clocks oh;;
  r ← _wait_target_ready oh;
  if r =? 0 then
    upd_oh oh (set_oh__state _HWMOD_STATE_ENABLED);;
    sysc ← oh_sysc oh;
    (match sysc with
     | None => ret tt
     | Some _ =>
         o ← get_oh oh;
         when (negb (has (oh__int_flags o) _HWMOD_SYSCONFIG_LOADED)) (_update_sysc_cache oh;; ret tt);;
         _enable_sysc oh
     end);;
    ret r
  else _disable_clocks oh;; ret r.

Definition _idle (oh : string) : M hwmod_state Z :=
  o ← get_oh oh;
  if negb (oh__state o =? _HWMOD_STATE_ENABLED) then ret (- EINVAL) else
  _idle_sysc oh;;
  mpu ← gets (fun s => hs_mpu_oh s);
  _del_initiator_dep oh mpu;;
  _disable_clocks oh;;
  mux_module oh _HWMOD_STATE_IDLE;;
  upd_oh oh (set_oh__state _HWMOD_STATE_IDLE);;
  ret 0.

Definition _shutdown (oh : string) : M hwmod_state Z :=
  o ← get_oh oh;
  if negb (oh__state o =? _HWMOD_STATE_IDLE) && negb (oh__state o =? _HWMOD_STATE_ENABLED)
  then ret (- EINVAL) else
  c ← oh_cls oh;
  r ← match hc_pre_shutdown c with
      | None => ret 0
      | Some f =>
          let prev_state := oh__state o in
          when (prev_state =? _HWMOD_STATE_IDLE) (_enable oh;; ret tt);;
          r ← class_fn f oh;
          when (negb (r =? 0) && (prev_state =? _HWMOD_STATE_IDLE)) (_idle oh;; ret tt);;
          ret r
      end;
  if negb (r =? 0) then ret r else
  _shutdown_sysc oh;;
  when (oh_rst_lines_cnt o =? 1)
    (r ← aget (oh_rst_lines o) 0; _assert_hardreset (Some oh) (rs_name r);; ret tt);;
  o ← get_oh oh;
  when (oh__state o =? _HWMOD_STATE_ENABLED)
    (mpu ← gets (fun s => hs_mpu_oh s);
     _del_initiator_dep oh mpu;;
     _disable_clocks oh;;
     ret tt);;
  mux_module oh _HWMOD_STATE_DISABLED;;
  upd_oh oh (set_oh__state _HWMOD_STATE_DISABLED);;
  ret 0.

Definition _setup (oh : string) : M hwmod_state Z :=
  o ← get_oh oh;
  l ← elems (oh_slaves o) (oh_slaves_cnt o);
  for_each l (fun i =>
    os ← get_if i;
    match if__clk os with
    | None => ret tt
    | Some c =>
        if has (if_flags os) OCPIF_SWSUP_IDLE then ret tt
        else hw_io (clk_enable arch_clock (Some c));; ret tt
    end);;
  upd_oh oh (set_oh__state _HWMOD_STATE_INITIALIZED);;
  if has (oh_flags o) HWMOD_INIT_NO_RESET && (oh_rst_lines_cnt o =? 1) then ret 0 else
  r ← _enable oh;
  if negb (r =? 0) then ret 0 else
  when (negb (has (oh_flags o) HWMOD_INIT_NO_RESET))
    (_reset oh;;
     sysc ← oh_sysc oh;
     match sysc with
     | None => ret tt
     | Some _ => _update_sysc_cache oh;; _enable_sysc oh
     end);;
  o ← get_oh oh;
  let postsetup_state := oh__postsetup_state o in
  let postsetup_state := if postsetup_state =? _HWMOD_STATE_UNKNOWN then _HWMOD_STATE_ENABLED
                         else postsetup_state in
  let postsetup_state := if has (oh_flags o) HWMOD_INIT_NO_IDLE && (postsetup_state =? _HWMOD_STATE_IDLE)
                         then _HWMOD_STATE_ENABLED else postsetup_state in
  (if postsetup_state =? _HWMOD_STATE_IDLE then _idle oh;; ret tt
   else if postsetup_state =? _HWMOD_STATE_DISABLED then _shutdown oh;; ret tt
   else ret tt);;
  ret 0.

(** ** Registration *)

Definition _register (oh : option string) : M hwmod_state Z :=
  match oh with
  | None => ret (- EINVAL)
  | Some oh =>
      o ← get_oh oh;
      match oh_name o, oh_class o with
      | Some name, Some c =>
          match hc_name c with
          | None => ret (- EINVAL)
          | Some _ =>
              if negb (oh__state o =? _HWMOD_STATE_UNKNOWN) then ret (- EINVAL) else
              found ← _lookup name;
              match found with
              | Some _ => ret (- EEXIST)
              | None =>
                  ms_id ← _find_mpu_port_index oh;
                  (if negb (IS_ERR_VALUE ms_id) then
                     upd_oh oh (set_oh__mpu_port_index (u8 ms_id));;
                     va ← _find_mpu_rt_base oh (u8 ms_id);
                     upd_oh oh (set_oh__mpu_rt_va va)
                   else upd_oh oh (fun o => set_oh__int_flags (Z.lor (oh__int_flags o) _HWMOD_NO_MPU_PORT) o));;
                  modify (fun s => set_hs_list (hs_list s ++ [oh]) s);;
                  upd_oh oh (set_oh__state _HWMOD_STATE_REGISTERED);;
                  ret 0
              end
          end
      | _, _ => ret (- EINVAL)
      end
  end.

(** The array of the modules ends with NULL. *)
Definition omap_hwmod_init (ohs : option (list string)) : M hwmod_state Z :=
  inited ← gets (fun s => hs_inited s);
  if inited then ret (- EINVAL) else
  modify (set_hs_inited true);;
  match ohs with
  | None => ret 0
  | Some l =>
      for_each l (fun oh =>
        o ← get_oh oh;
        ours ← hw_io (omap_chip_is (oh_omap_chip o));
        when ours (_register (Some oh);; ret tt));;
      ret 0
  end.

(** ** Iterating *)

Fixpoint for_each_loop (fn : string -> M hwmod_state Z) (l : list string) (r : Z) : M hwmod_state Z :=
  match l with
  | [] => ret r
  | oh :: l' => r ← fn oh; if r =? 0 then for_each_loop fn l' r else ret r
  end.

(** Without any module the result is an uninitialised variable. *)
Definition omap_hwmod_for_each (fn : option (string -> M hwmod_state Z)) : M hwmod_state Z :=
  match fn with
  | None => ret (- EINVAL)
  | Some fn =>
      l ← gets (fun s => hs_list s);
      match l with [] => fail Bug | _ => for_each_loop fn l 0 end
  end.

Fixpoint by_class_loop (classname : string) (fn : string -> M hwmod_state Z) (l : list string) (r : Z)
    : M hwmod_state Z :=
  match l with
  | [] => ret r
  | oh :: l' =>
      c ← oh_cls oh;
      n ← deref (hc_name c);
      if String.eqb n classname
      then r ← fn oh; if r =? 0 then by_class_loop classname fn l' r else ret r
      else by_class_loop classname fn l' r
  end.

Definition omap_hwmod_for_each_by_class (classname : option string)
    (fn : option (string -> M hwmod_state Z)) : M hwmod_state Z :=
  match classname, fn with
  | Some n, Some f => l ← gets (fun s => hs_list s); by_class_loop n f l 0
  | _, _ => ret (- EINVAL)
  end.

Definition omap_hwmod_late_init : M hwmod_state Z :=
  omap_hwmod_for_each (Some _init_clocks);;
  mpu ← omap_hwmod_lookup (Some MPU_INITIATOR_NAME);
  modify (set_hs_mpu_oh mpu);;
  omap_hwmod_for_each (Some _setup);;
  ret 0.

(** ** The functions for drivers *)

Definition omap_hwmod_softreset (oh : option string) : M hwmod_state Z :=
  match oh with
  | None => ret (- EINVAL)
  | Some oh =>
      o ← get_oh oh;
      if oh__sysc_cache o =? 0 then ret (- EINVAL) else
      sysc ← oh_sysc oh;
      let '(r, v) := _set_softreset sysc (oh__sysc_cache o) in
      if negb (r =? 0) then ret r else
      _write_sysconfig v oh;;
      ret r
  end.

Definition omap_hwmod_set_slave_idlemode (oh : option string) (idlemode : Z) : M hwmod_state Z :=
  match oh with
  | None => ret (- EINVAL)
  | Some oh =>
      o ← get_oh oh;
      sysc ← oh_sysc oh;
      let '(r, v) := _set_slave_idlemode sysc idlemode (oh__sysc_cache o) in
      when (r =? 0) (_write_sysconfig v oh);;
      ret r
  end.

Definition omap_hwmod_enable (oh : option string) : M hwmod_state Z :=
  match oh with None => ret (- EINVAL) | Some oh => _enable oh end.

Definition omap_hwmod_idle (oh : option string) : M hwmod_state Z :=
  match oh with None => ret (- EINVAL) | Some oh => _idle oh;; ret 0 end.

Definition omap_hwmod_shutdown (oh : option string) : M hwmod_state Z :=
  match oh with None => ret (- EINVAL) | Some oh => _shutdown oh;; ret 0 end.

Definition omap_hwmod_enable_clocks (oh : string) : M hwmod_state Z := _enable_clocks oh;; ret 0.
Definition omap_hwmod_disable_clocks (oh : string) : M hwmod_state Z := _disable_clocks oh;; ret 0.

Definition omap_hwmod_ocp_barrier (oh : option string) : M hwmod_state unit :=
  match oh with
  | None => fail Bug
  | Some oh =>
      sysc ← oh_sysc oh;
      match sysc with
      | None => ret tt
      | Some sc =>
          if sc_sysc_flags sc =? 0 then ret tt else
          omap_hwmod_read oh (sc_sysc_offs sc);; ret tt
      end
  end.

Definition omap_hwmod_reset (oh : option string) : M hwmod_state Z :=
  match oh with None => ret (- EINVAL) | Some oh => _reset oh end.

Definition omap_hwmod_get_pwrdm (oh : option string) : M hwmod_state (option string) :=
  match oh with
  | None => ret None
  | Some oh =>
      o ← get_oh oh;
      match oh__clk o with
      | Some c => d ← oh_clkdm (Some c); hw_io (clkdm_get_pwrdm d)
      | None =>
          if has (oh__int_flags o) _HWMOD_NO_MPU_PORT then ret None else
          i ← aget (oh_slaves o) (oh__mpu_port_index o);
          os ← get_if i;
          d ← oh_clkdm (if__clk os);
          hw_io (clkdm_get_pwrdm d)
      end
  end.

Definition omap_hwmod_get_mpu_rt_va (oh : option string) : M hwmod_state Z :=
  match oh with
  | None => ret 0
  | Some oh =>
      o ← get_oh oh;
      if has (oh__int_flags o) _HWMOD_NO_MPU_PORT then ret 0 else
      if oh__state o =? _HWMOD_STATE_UNKNOWN then ret 0 else ret (oh__mpu_rt_va o)
  end.

Definition omap_hwmod_add_initiator_dep (oh init_oh : string) : M hwmod_state Z :=
  _add_initiator_dep oh (Some init_oh).
Definition omap_hwmod_del_initiator_dep (oh init_oh : string) : M hwmod_state Z :=
  _del_initiator_dep oh (Some init_oh).

Definition omap_hwmod_enable_wakeup (oh : string) : M hwmod_state Z :=
  sysc ← oh_sysc oh;
  match sysc with
  | None => ret (- EINVAL)
  | Some sc =>
      if negb (has (sc_sysc_flags sc) SYSC_HAS_ENAWAKEUP) then ret (- EINVAL) else
      o ← get_oh oh;
      r ← _enable_wakeup oh (oh__sysc_cache o);
      _write_sysconfig (snd r) oh;;
      ret 0
  end.

Definition omap_hwmod_disable_wakeup (oh : string) : M hwmod_state Z :=
  sysc ← oh_sysc oh;
  match sysc with
  | None => ret (- EINVAL)
  | Some sc =>
      if negb (has (sc_sysc_flags sc) SYSC_HAS_ENAWAKEUP) then ret (- EINVAL) else
      o ← get_oh oh;
      r ← _disable_wakeup oh (oh__sysc_cache o);
      _write_sysconfig (snd r) oh;;
      ret 0
  end.

Definition omap_hwmod_assert_hardreset (oh : option string) (name : string) : M hwmod_state Z :=
  match oh with None => ret (- EINVAL) | Some oh => _assert_hardreset (Some oh) name end.
Definition omap_hwmod_deassert_hardreset (oh : option string) (name : string) : M hwmod_state Z :=
  match oh with None => ret (- EINVAL) | Some oh => _deassert_hardreset (Some oh) name end.
Definition omap_hwmod_read_hardreset (oh : option string) (name : string) : M hwmod_state Z :=
  match oh with None => ret (- EINVAL) | Some oh => _read_hardreset (Some oh) name end.

Definition omap_hwmod_set_postsetup_state (oh : option string) (state : Z) : M hwmod_state Z :=
  match oh with
  | None => ret (- EINVAL)
  | Some oh =>
      if negb (state =? _HWMOD_STATE_DISABLED) && negb (state =? _HWMOD_STATE_ENABLED) &&
         negb (state =? _HWMOD_STATE_IDLE) then ret (- EINVAL) else
      o ← get_oh oh;
      if negb (oh__state o =? _HWMOD_STATE_REGISTERED) then ret (- EINVAL) else
      upd_oh oh (set_oh__postsetup_state state);;
      ret 0
  end.

Definition omap_hwmod_get_context_loss_count (oh : option string) : M hwmod_state Z :=
  p ← omap_hwmod_get_pwrdm oh;
  match p with
  | Some p => r ← hw_io (pwrdm_get_context_loss_count (Some p)); ret (u32 r)
  | None => ret 0
  end.
End Hwmod.
