(* ===== verification/Hwmod81xxData.v ===== *)
(** * The hardware modules of the TI81xx

    mach-omap2/omap_hwmod_81xx_data.c: the modules, their interfaces and classes, with the values
    of the macros; the shared classes of omap_hwmod_common_data.c.  A pointer to a module or an
    interface is the name of the object.  The lists of the master interfaces, which only
    document the interconnect, are left out. *)

From S2P Require Import Prelude Platform Mux Hwmod.

Definition ARRAY_SIZE {A} (l : list A) : Z := Z.of_nat (length l).

(** omap_hwmod_common_data.c *)
Definition omap_hwmod_sysc_type1 : omap_hwmod_sysc_fields := mkSyscFields 12 8 3 2 1 0.
Definition omap_hwmod_sysc_type2 : omap_hwmod_sysc_fields := mkSyscFields 4 0 2 0 0 0.
Definition l3_hwmod_class : omap_hwmod_class := mkHwmodClass (Some "l3") None 0 None None.
Definition l4_hwmod_class : omap_hwmod_class := mkHwmodClass (Some "l4") None 0 None None.
Definition mpu_hwmod_class : omap_hwmod_class := mkHwmodClass (Some "mpu") None 0 None None.

Definition ti814x_hsmmc2_addr_space : list omap_hwmod_addr_space :=
  [mkAddrSpace None 0x47810000 0x47811fff (Z.lor ADDR_MAP_ON_INIT ADDR_TYPE_RT)].

Definition ti814x_l3_fast__hsmmc2 : omap_hwmod_ocp_if :=
  mkOcpIf "ti814x_l3_fast_hwmod" "ti81xx_hsmmc2_hwmod" ti814x_hsmmc2_addr_space (Some "mmchs3_fck") None
    (ARRAY_SIZE ti814x_hsmmc2_addr_space) OCP_USER_MPU 0.

Definition ti816x_l3_slow__l4_slow : omap_hwmod_ocp_if :=
  mkOcpIf "ti816x_l3_slow_hwmod" "ti816x_l4_slow_hwmod" [] None None
    0 OCP_USER_MPU 0.

Definition ti816x_mpu__l3_fast : omap_hwmod_ocp_if :=
  mkOcpIf "ti816x_mpu_hwmod" "ti814x_l3_fast_hwmod" [] None None
    0 OCP_USER_MPU 0.

Definition ti816x_mpu__l3_slow : omap_hwmod_ocp_if :=
  mkOcpIf "ti816x_mpu_hwmod" "ti816x_l3_slow_hwmod" [] None None
    0 OCP_USER_MPU 0.

Definition ti814x_l3_fast_slaves : list string := ["ti816x_mpu__l3_fast"].

Definition ti816x_l3_slow_slaves : list string := ["ti816x_mpu__l3_slow"].

Definition ti814x_l3_fast_hwmod : omap_hwmod :=
  mkHwmod (Some "l3_fast") (Some l3_hwmod_class) None [] [] []
    0 None None [] ti814x_l3_fast_slaves
    0 0 HWMOD_NO_IDLEST 0 0 0 0 0 (ARRAY_SIZE ti814x_l3_fast_slaves)
    0 0 0 0x7000.

Definition ti816x_l3_slow_hwmod : omap_hwmod :=
  mkHwmod (Some "l3_slow") (Some l3_hwmod_class) None [] [] []
    0 None None [] ti816x_l3_slow_slaves
    0 0 HWMOD_NO_IDLEST 0 0 0 0 0 (ARRAY_SIZE ti816x_l3_slow_slaves)
    0 0 0 0x7000.

Definition ti816x_uart1_addr_space : list omap_hwmod_addr_space :=
  [mkAddrSpace None 0x48020000 0x48021fff (Z.lor ADDR_MAP_ON_INIT ADDR_TYPE_RT)].

Definition ti816x_l4_slow__uart1 : omap_hwmod_ocp_if :=
  mkOcpIf "ti816x_l4_slow_hwmod" "ti816x_uart1_hwmod" ti816x_uart1_addr_space (Some "uart1_ick") None
    (ARRAY_SIZE ti816x_uart1_addr_space) OCP_USER_MPU 0.

Definition ti816x_uart2_addr_space : list omap_hwmod_addr_space :=
  [mkAddrSpace None 0x48022000 0x48023fff (Z.lor ADDR_MAP_ON_INIT ADDR_TYPE_RT)].

Definition ti816x_l4_slow__uart2 : omap_hwmod_ocp_if :=
  mkOcpIf "ti816x_l4_slow_hwmod" "ti816x_uart2_hwmod" ti816x_uart2_addr_space (Some "uart2_ick") None
    (ARRAY_SIZE ti816x_uart2_addr_space) OCP_USER_MPU 0.

Definition ti816x_uart3_addr_space : list omap_hwmod_addr_space :=
  [mkAddrSpace None 0x48024000 0x48025fff (Z.lor ADDR_MAP_ON_INIT ADDR_TYPE_RT)].

Definition ti816x_l4_slow__uart3 : omap_hwmod_ocp_if :=
  mkOcpIf "ti816x_l4_slow_hwmod" "ti816x_uart3_hwmod" ti816x_uart3_addr_space (Some "uart3_ick") None
    (ARRAY_SIZE ti816x_uart3_addr_space) OCP_USER_MPU 0.

Definition ti814x_uart4_addr_space : list omap_hwmod_addr_space :=
  [mkAddrSpace None 0x481a6000 0x481a7fff (Z.lor ADDR_MAP_ON_INIT ADDR_TYPE_RT)].

Definition ti814x_l4_slow__uart4 : omap_hwmod_ocp_if :=
  mkOcpIf "ti816x_l4_slow_hwmod" "ti814x_uart4_hwmod" ti814x_uart4_addr_space (Some "uart4_ick") None
    (ARRAY_SIZE ti814x_uart4_addr_space) OCP_USER_MPU 0.

Definition ti814x_uart5_addr_space : list omap_hwmod_addr_space :=
  [mkAddrSpace None 0x481a8000 0x481a9fff (Z.lor ADDR_MAP_ON_INIT ADDR_TYPE_RT)].

Definition ti814x_l4_slow__uart5 : omap_hwmod_ocp_if :=
  mkOcpIf "ti816x_l4_slow_hwmod" "ti814x_uart5_hwmod" ti814x_uart5_addr_space (Some "uart5_ick") None
    (ARRAY_SIZE ti814x_uart5_addr_space) OCP_USER_MPU 0.

Definition ti814x_uart6_addr_space : list omap_hwmod_addr_space :=
  [mkAddrSpace None 0x481aa000 0x481abfff (Z.lor ADDR_MAP_ON_INIT ADDR_TYPE_RT)].

Definition ti814x_l4_slow__uart6 : omap_hwmod_ocp_if :=
  mkOcpIf "ti816x_l4_slow_hwmod" "ti814x_uart6_hwmod" ti814x_uart6_addr_space (Some "uart6_ick") None
    (ARRAY_SIZE ti814x_uart6_addr_space) OCP_USER_MPU 0.

Definition ti816x_wd_timer2_addrs : list omap_hwmod_addr_space :=
  [mkAddrSpace None 0x480c2000 0x480c2fff ADDR_TYPE_RT].

Definition ti814x_wd_timer1_addrs : list omap_hwmod_addr_space :=
  [mkAddrSpace None 0x481c7000 0x481c7fff ADDR_TYPE_RT].

Definition ti816x_l4_slow__wd_timer2 : omap_hwmod_ocp_if :=
  mkOcpIf "ti816x_l4_slow_hwmod" "ti816x_wd_timer2_hwmod" ti816x_wd_timer2_addrs (Some "wdt2_ick") None
    (ARRAY_SIZE ti816x_wd_timer2_addrs) OCP_USER_MPU 0.

Definition ti814x_l4_slow__wd_timer1 : omap_hwmod_ocp_if :=
  mkOcpIf "ti816x_l4_slow_hwmod" "ti814x_wd_timer1_hwmod" ti814x_wd_timer1_addrs (Some "wdt1_ick") None
    (ARRAY_SIZE ti814x_wd_timer1_addrs) OCP_USER_MPU 0.

Definition ti814x_spi1_addr_space : list omap_hwmod_addr_space :=
  [mkAddrSpace None 0x48030100 0x480310ff (Z.lor ADDR_MAP_ON_INIT ADDR_TYPE_RT)].

Definition ti814x_l4_slow__spi1 : omap_hwmod_ocp_if :=
  mkOcpIf "ti816x_l4_slow_hwmod" "ti81xx_spi1_hwmod" ti814x_spi1_addr_space (Some "mcspi1_fck") None
    (ARRAY_SIZE ti814x_spi1_addr_space) OCP_USER_MPU 0.

Definition ti814x_spi2_addr_space : list omap_hwmod_addr_space :=
  [mkAddrSpace None 0x481a0100 0x481a10ff (Z.lor ADDR_MAP_ON_INIT ADDR_TYPE_RT)].

Definition ti814x_l4_slow__spi2 : omap_hwmod_ocp_if :=
  mkOcpIf "ti816x_l4_slow_hwmod" "ti81xx_spi2_hwmod" ti814x_spi2_addr_space (Some "mcspi2_fck") None
    (ARRAY_SIZE ti814x_spi2_addr_space) OCP_USER_MPU 0.

Definition ti814x_spi3_addr_space : list omap_hwmod_addr_space :=
  [mkAddrSpace None 0x481a2100 0x481a30ff (Z.lor ADDR_MAP_ON_INIT ADDR_TYPE_RT)].

Definition ti814x_l4_slow__spi3 : omap_hwmod_ocp_if :=
  mkOcpIf "ti816x_l4_slow_hwmod" "ti81xx_spi3_hwmod" ti814x_spi3_addr_space (Some "mcspi3_fck") None
    (ARRAY_SIZE ti814x_spi3_addr_space) OCP_USER_MPU 0.

Definition ti814x_spi4_addr_space : list omap_hwmod_addr_space :=
  [mkAddrSpace None 0x481a4100 0x481a50ff (Z.lor ADDR_MAP_ON_INIT ADDR_TYPE_RT)].

Definition ti814x_l4_slow__spi4 : omap_hwmod_ocp_if :=
  mkOcpIf "ti816x_l4_slow_hwmod" "ti81xx_spi4_hwmod" ti814x_spi4_addr_space (Some "mcspi4_fck") None
    (ARRAY_SIZE ti814x_spi4_addr_space) OCP_USER_MPU 0.

Definition ti816x_i2c1_addr_space : list omap_hwmod_addr_space :=
  [mkAddrSpace None 0x48028000 0x48028fff (Z.lor ADDR_MAP_ON_INIT ADDR_TYPE_RT)].

Definition ti816x_l4_slow__i2c1 : omap_hwmod_ocp_if :=
  mkOcpIf "ti816x_l4_slow_hwmod" "ti81xx_i2c1_hwmod" ti816x_i2c1_addr_space (Some "i2c1_ick") None
    (ARRAY_SIZE ti816x_i2c1_addr_space) OCP_USER_MPU 0.

Definition ti816x_i2c2_addr_space : list omap_hwmod_addr_space :=
  [mkAddrSpace None 0x4802a000 0x4802afff (Z.lor ADDR_MAP_ON_INIT ADDR_TYPE_RT)].

Definition ti816x_l4_slow__i2c2 : omap_hwmod_ocp_if :=
  mkOcpIf "ti816x_l4_slow_hwmod" "ti816x_i2c2_hwmod" ti816x_i2c2_addr_space (Some "i2c2_ick") None
    (ARRAY_SIZE ti816x_i2c2_addr_space) OCP_USER_MPU 0.

Definition ti814x_i2c3_addr_space : list omap_hwmod_addr_space :=
  [mkAddrSpace None 0x4819c000 0x4819cfff (Z.lor ADDR_MAP_ON_INIT ADDR_TYPE_RT)].

Definition ti814x_l4_slow__i2c3 : omap_hwmod_ocp_if :=
  mkOcpIf "ti816x_l4_slow_hwmod" "ti814x_i2c3_hwmod" ti814x_i2c3_addr_space (Some "i2c3_ick") None
    (ARRAY_SIZE ti814x_i2c3_addr_space) OCP_USER_MPU 0.

Definition ti814x_i2c4_addr_space : list omap_hwmod_addr_space :=
  [mkAddrSpace None 0x4819e000 0x4819efff (Z.lor ADDR_MAP_ON_INIT ADDR_TYPE_RT)].

Definition ti814x_l4_slow__i2c4 : omap_hwmod_ocp_if :=
  mkOcpIf "ti816x_l4_slow_hwmod" "ti814x_i2c4_hwmod" ti814x_i2c4_addr_space (Some "i2c4_ick") None
    (ARRAY_SIZE ti814x_i2c4_addr_space) OCP_USER_MPU 0.

Definition ti81xx_gpio1_addrs : list omap_hwmod_addr_space :=
  [mkAddrSpace None 0x48032000 0x48032fff (Z.lor ADDR_MAP_ON_INIT ADDR_TYPE_RT)].

Definition ti81xx_l4_slow__gpio1 : omap_hwmod_ocp_if :=
  mkOcpIf "ti816x_l4_slow_hwmod" "ti81xx_gpio1_hwmod" ti81xx_gpio1_addrs None None
    (ARRAY_SIZE ti81xx_gpio1_addrs) (Z.lor OCP_USER_MPU OCP_USER_SDMA) 0.

Definition ti81xx_gpio2_addrs : list omap_hwmod_addr_space :=
  [mkAddrSpace None 0x4804c000 0x4804cfff (Z.lor ADDR_MAP_ON_INIT ADDR_TYPE_RT)].

Definition ti81xx_l4_slow__gpio2 : omap_hwmod_ocp_if :=
  mkOcpIf "ti816x_l4_slow_hwmod" "ti81xx_gpio2_hwmod" ti81xx_gpio2_addrs None None
    (ARRAY_SIZE ti81xx_gpio2_addrs) (Z.lor OCP_USER_MPU OCP_USER_SDMA) 0.

Definition ti814x_gpio3_addrs : list omap_hwmod_addr_space :=
  [mkAddrSpace None 0x481ac000 0x481acfff (Z.lor ADDR_MAP_ON_INIT ADDR_TYPE_RT)].

Definition ti814x_l4_slow__gpio3 : omap_hwmod_ocp_if :=
  mkOcpIf "ti816x_l4_slow_hwmod" "ti814x_gpio3_hwmod" ti814x_gpio3_addrs None None
    (ARRAY_SIZE ti814x_gpio3_addrs) (Z.lor OCP_USER_MPU OCP_USER_SDMA) 0.

Definition ti814x_gpio4_addrs : list omap_hwmod_addr_space :=
  [mkAddrSpace None 0x481ae000 0x481aefff (Z.lor ADDR_MAP_ON_INIT ADDR_TYPE_RT)].

Definition ti814x_l4_slow__gpio4 : omap_hwmod_ocp_if :=
  mkOcpIf "ti816x_l4_slow_hwmod" "ti814x_gpio4_hwmod" ti814x_gpio4_addrs None None
    (ARRAY_SIZE ti814x_gpio4_addrs) (Z.lor OCP_USER_MPU OCP_USER_SDMA) 0.

Definition ti816x_l4_slow_slaves : list string := ["ti816x_l3_slow__l4_slow"].

Definition ti816x_l4_slow_hwmod : omap_hwmod :=
  mkHwmod (Some "l4_slow") (Some l4_hwmod_class) None [] [] []
    0 None None [] ti816x_l4_slow_slaves
    0 0 HWMOD_NO_IDLEST 0 0 0 0 0 (ARRAY_SIZE ti816x_l4_slow_slaves)
    0 0 0 0x7000.

Definition ti816x_mpu_hwmod : omap_hwmod :=
  mkHwmod (Some "mpu") (Some mpu_hwmod_class) None [] [] []
    0 (Some "mpu_ck") None [] []
    0 0 0 0 0 0 0 0 0
    0 0 0 0x7000.

Definition uart_sysc : omap_hwmod_class_sysconfig :=
  mkSysc 80 84 88
    (Z.lor (Z.lor (Z.lor SYSC_HAS_SIDLEMODE SYSC_HAS_ENAWAKEUP) SYSC_HAS_SOFTRESET) SYSC_HAS_AUTOIDLE)
    (Z.lor (Z.lor SIDLE_FORCE SIDLE_NO) SIDLE_SMART) 0 (Some omap_hwmod_sysc_type1).

Definition uart_class : omap_hwmod_class :=
  mkHwmodClass (Some "uart") (Some uart_sysc) 0 None None.

Definition wd_timer_sysc : omap_hwmod_class_sysconfig :=
  mkSysc 0 16 20
    (Z.lor (Z.lor (Z.lor (Z.lor (Z.lor SYSC_HAS_SIDLEMODE SYSC_HAS_EMUFREE) SYSC_HAS_ENAWAKEUP) SYSC_HAS_SOFTRESET) SYSC_HAS_AUTOIDLE) SYSC_HAS_CLOCKACTIVITY)
    (Z.lor (Z.lor SIDLE_FORCE SIDLE_NO) SIDLE_SMART) 0 (Some omap_hwmod_sysc_type1).

Definition wd_timer_class : omap_hwmod_class :=
  mkHwmodClass (Some "wd_timer") (Some wd_timer_sysc) 0 None None.

Definition i2c_sysc : omap_hwmod_class_sysconfig :=
  mkSysc 0 16 144
    (Z.lor (Z.lor (Z.lor SYSC_HAS_SIDLEMODE SYSC_HAS_ENAWAKEUP) SYSC_HAS_SOFTRESET) SYSC_HAS_AUTOIDLE)
    (Z.lor (Z.lor SIDLE_FORCE SIDLE_NO) SIDLE_SMART) 0 (Some omap_hwmod_sysc_type1).

Definition i2c_class : omap_hwmod_class :=
  mkHwmodClass (Some "i2c") (Some i2c_sysc) 0 None None.

Definition spi_sysc : omap_hwmod_class_sysconfig :=
  mkSysc 0 16 20
    (Z.lor (Z.lor (Z.lor (Z.lor SYSC_HAS_SIDLEMODE SYSC_HAS_ENAWAKEUP) SYSC_HAS_SOFTRESET) SYSC_HAS_AUTOIDLE) SYSS_HAS_RESET_STATUS)
    (Z.lor (Z.lor SIDLE_FORCE SIDLE_NO) SIDLE_SMART) CLOCKACT_TEST_NONE (Some omap_hwmod_sysc_type1).

Definition spi_class : omap_hwmod_class :=
  mkHwmodClass (Some "spi") (Some spi_sysc) 0 None None.

Definition hsmmc_sysc : omap_hwmod_class_sysconfig :=
  mkSysc 0 0x110 0x114
    (Z.lor (Z.lor (Z.lor (Z.lor SYSC_HAS_SIDLEMODE SYSC_HAS_ENAWAKEUP) SYSC_HAS_SOFTRESET) SYSC_HAS_AUTOIDLE) SYSS_HAS_RESET_STATUS)
    (Z.lor (Z.lor SIDLE_FORCE SIDLE_NO) SIDLE_SMART) CLOCKACT_TEST_NONE (Some omap_hwmod_sysc_type1).

Definition hsmmc_class : omap_hwmod_class :=
  mkHwmodClass (Some "hsmmc") (Some hsmmc_sysc) 0 None None.

Definition ti81xx_gpio_sysc : omap_hwmod_class_sysconfig :=
  mkSysc 0 16 0x114
    (Z.lor (Z.lor (Z.lor (Z.lor SYSC_HAS_AUTOIDLE SYSC_HAS_ENAWAKEUP) SYSC_HAS_SIDLEMODE) SYSC_HAS_SOFTRESET) SYSS_HAS_RESET_STATUS)
    (Z.lor (Z.lor (Z.lor SIDLE_FORCE SIDLE_NO) SIDLE_SMART) SIDLE_SMART_WKUP) 0 (Some omap_hwmod_sysc_type1).

Definition ti81xx_gpio_hwmod_class : omap_hwmod_class :=
  mkHwmodClass (Some "gpio") (Some ti81xx_gpio_sysc) 2 None None.

Definition uart1_mpu_irqs : list omap_hwmod_irq_info :=
  [mkIrqInfo None 72].

Definition uart1_edma_reqs : list omap_hwmod_dma_info :=
  [mkDmaInfo (Some "tx") 0;
   mkDmaInfo (Some "rx") 0].

Definition ti816x_uart1_slaves : list string := ["ti816x_l4_slow__uart1"].

Definition ti816x_uart1_hwmod : omap_hwmod :=
  mkHwmod (Some "uart1") (Some uart_class) None uart1_mpu_irqs uart1_edma_reqs []
    0xfa181550 (Some "uart1_fck") None [] ti816x_uart1_slaves
    0 0 0 0 (ARRAY_SIZE uart1_mpu_irqs) (ARRAY_SIZE uart1_edma_reqs) 0 0 (ARRAY_SIZE ti816x_uart1_slaves)
    0 0 0 0x7000.

Definition uart2_mpu_irqs : list omap_hwmod_irq_info :=
  [mkIrqInfo None 73].

Definition uart2_edma_reqs : list omap_hwmod_dma_info :=
  [mkDmaInfo (Some "tx") 0;
   mkDmaInfo (Some "rx") 0].

Definition ti816x_uart2_slaves : list string := ["ti816x_l4_slow__uart2"].

Definition ti816x_uart2_hwmod : omap_hwmod :=
  mkHwmod (Some "uart2") (Some uart_class) None uart2_mpu_irqs uart2_edma_reqs []
    0xfa181554 (Some "uart2_fck") None [] ti816x_uart2_slaves
    0 0 0 0 (ARRAY_SIZE uart2_mpu_irqs) (ARRAY_SIZE uart2_edma_reqs) 0 0 (ARRAY_SIZE ti816x_uart2_slaves)
    0 0 0 0x7000.

Definition uart3_mpu_irqs : list omap_hwmod_irq_info :=
  [mkIrqInfo None 74].

Definition uart3_edma_reqs : list omap_hwmod_dma_info :=
  [mkDmaInfo (Some "tx") 0;
   mkDmaInfo (Some "rx") 0].

Definition ti816x_uart3_slaves : list string := ["ti816x_l4_slow__uart3"].

Definition ti816x_uart3_hwmod : omap_hwmod :=
  mkHwmod (Some "uart3") (Some uart_class) None uart3_mpu_irqs uart3_edma_reqs []
    0xfa181558 (Some "uart3_fck") None [] ti816x_uart3_slaves
    0 0 0 0 (ARRAY_SIZE uart3_mpu_irqs) (ARRAY_SIZE uart3_edma_reqs) 0 0 (ARRAY_SIZE ti816x_uart3_slaves)
    0 0 0 0x7000.

Definition uart4_mpu_irqs : list omap_hwmod_irq_info :=
  [mkIrqInfo None 44].

Definition uart4_edma_reqs : list omap_hwmod_dma_info :=
  [mkDmaInfo (Some "tx") 0;
   mkDmaInfo (Some "rx") 0].

Definition ti814x_uart4_slaves : list string := ["ti814x_l4_slow__uart4"].

Definition ti814x_uart4_hwmod : omap_hwmod :=
  mkHwmod (Some "uart4") (Some uart_class) None uart4_mpu_irqs uart4_edma_reqs []
    0xfa181580 (Some "uart4_fck") None [] ti814x_uart4_slaves
    0 0 0 0 (ARRAY_SIZE uart4_mpu_irqs) (ARRAY_SIZE uart4_edma_reqs) 0 0 (ARRAY_SIZE ti814x_uart4_slaves)
    0 0 0 0x2000.

Definition uart5_mpu_irqs : list omap_hwmod_irq_info :=
  [mkIrqInfo None 45].

Definition uart5_edma_reqs : list omap_hwmod_dma_info :=
  [mkDmaInfo (Some "tx") 0;
   mkDmaInfo (Some "rx") 0].

Definition ti814x_uart5_slaves : list string := ["ti814x_l4_slow__uart5"].

Definition ti814x_uart5_hwmod : omap_hwmod :=
  mkHwmod (Some "uart5") (Some uart_class) None uart5_mpu_irqs uart5_edma_reqs []
    0xfa181584 (Some "uart5_fck") None [] ti814x_uart5_slaves
    0 0 0 0 (ARRAY_SIZE uart5_mpu_irqs) (ARRAY_SIZE uart5_edma_reqs) 0 0 (ARRAY_SIZE ti814x_uart5_slaves)
    0 0 0 0x2000.

Definition uart6_mpu_irqs : list omap_hwmod_irq_info :=
  [mkIrqInfo None 46].

Definition uart6_edma_reqs : list omap_hwmod_dma_info :=
  [mkDmaInfo (Some "tx") 0;
   mkDmaInfo (Some "rx") 0].

Definition ti814x_uart6_slaves : list string := ["ti814x_l4_slow__uart6"].

Definition ti814x_uart6_hwmod : omap_hwmod :=
  mkHwmod (Some "uart6") (Some uart_class) None uart6_mpu_irqs uart6_edma_reqs []
    0xfa181588 (Some "uart6_fck") None [] ti814x_uart6_slaves
    0 0 0 0 (ARRAY_SIZE uart6_mpu_irqs) (ARRAY_SIZE uart6_edma_reqs) 0 0 (ARRAY_SIZE ti814x_uart6_slaves)
    0 0 0 0x2000.

Definition ti816x_wd_timer2_slaves : list string := ["ti816x_l4_slow__wd_timer2"].

Definition ti814x_wd_timer1_slaves : list string := ["ti814x_l4_slow__wd_timer1"].

Definition ti816x_wd_timer2_hwmod : omap_hwmod :=
  mkHwmod (Some "wd_timer2") (Some wd_timer_class) None [] [] []
    0xfa18158c (Some "wdt2_fck") None [] ti816x_wd_timer2_slaves
    0 0 HWMOD_INIT_NO_RESET 0 0 0 0 0 (ARRAY_SIZE ti816x_wd_timer2_slaves)
    0 0 0 0x1000.

Definition ti814x_wd_timer1_hwmod : omap_hwmod :=
  mkHwmod (Some "wd_timer1") (Some wd_timer_class) None [] [] []
    0xfa18158c (Some "wdt1_fck") None [] ti814x_wd_timer1_slaves
    0 0 HWMOD_INIT_NO_RESET 0 0 0 0 0 (ARRAY_SIZE ti814x_wd_timer1_slaves)
    0 0 0 0x6000.

Definition i2c1_mpu_irqs : list omap_hwmod_irq_info :=
  [mkIrqInfo None 70].

Definition i2c1_edma_reqs : list omap_hwmod_dma_info :=
  [mkDmaInfo (Some "tx") 0;
   mkDmaInfo (Some "rx") 0].

Definition ti816x_i2c1_slaves : list string := ["ti816x_l4_slow__i2c1"].

Definition ti81xx_i2c1_hwmod : omap_hwmod :=
  mkHwmod (Some "i2c1") (Some i2c_class) None i2c1_mpu_irqs i2c1_edma_reqs []
    0xfa181564 (Some "i2c1_fck") None [] ti816x_i2c1_slaves
    0 0 0 0 (ARRAY_SIZE i2c1_mpu_irqs) (ARRAY_SIZE i2c1_edma_reqs) 0 0 (ARRAY_SIZE ti816x_i2c1_slaves)
    0 0 0 0x7000.

Definition i2c2_mpu_irqs : list omap_hwmod_irq_info :=
  [mkIrqInfo None 71].

Definition i2c2_edma_reqs : list omap_hwmod_dma_info :=
  [mkDmaInfo (Some "tx") 0;
   mkDmaInfo (Some "rx") 0].

Definition ti816x_i2c2_slaves : list string := ["ti816x_l4_slow__i2c2"].

Definition ti816x_i2c2_hwmod : omap_hwmod :=
  mkHwmod (Some "i2c2") (Some i2c_class) None i2c2_mpu_irqs i2c2_edma_reqs []
    0xfa181568 (Some "i2c2_fck") None [] ti816x_i2c2_slaves
    0 0 0 0 (ARRAY_SIZE i2c2_mpu_irqs) (ARRAY_SIZE i2c2_edma_reqs) 0 0 (ARRAY_SIZE ti816x_i2c2_slaves)
    0 0 0 0x1000.

Definition i2c3_mpu_irqs : list omap_hwmod_irq_info :=
  [mkIrqInfo None 30].

Definition i2c3_edma_reqs : list omap_hwmod_dma_info :=
  [mkDmaInfo (Some "tx") 0;
   mkDmaInfo (Some "rx") 0].

Definition ti814x_i2c3_slaves : list string := ["ti814x_l4_slow__i2c3"].

Definition ti814x_i2c3_hwmod : omap_hwmod :=
  mkHwmod (Some "i2c3") (Some i2c_class) None i2c3_mpu_irqs i2c3_edma_reqs []
    0xfa181564 (Some "i2c3_fck") None [] ti814x_i2c3_slaves
    0 0 0 0 (ARRAY_SIZE i2c3_mpu_irqs) (ARRAY_SIZE i2c3_edma_reqs) 0 0 (ARRAY_SIZE ti814x_i2c3_slaves)
    0 0 0 0x6000.

Definition i2c4_mpu_irqs : list omap_hwmod_irq_info :=
  [mkIrqInfo None 31].

Definition i2c4_edma_reqs : list omap_hwmod_dma_info :=
  [mkDmaInfo (Some "tx") 0;
   mkDmaInfo (Some "rx") 0].

Definition ti814x_i2c4_slaves : list string := ["ti814x_l4_slow__i2c4"].

Definition ti814x_i2c4_hwmod : omap_hwmod :=
  mkHwmod (Some "i2c4") (Some i2c_class) None i2c4_mpu_irqs i2c4_edma_reqs []
    0xfa181568 (Some "i2c4_fck") None [] ti814x_i2c4_slaves
    0 0 0 0 (ARRAY_SIZE i2c4_mpu_irqs) (ARRAY_SIZE i2c4_edma_reqs) 0 0 (ARRAY_SIZE ti814x_i2c4_slaves)
    0 0 0 0x6000.

Definition spi1_mpu_irqs : list omap_hwmod_irq_info :=
  [mkIrqInfo None 65].

Definition spi1_edma_reqs : list omap_hwmod_dma_info :=
  [mkDmaInfo (Some "tx") 0;
   mkDmaInfo (Some "rx") 0].

Definition ti814x_spi1_slaves : list string := ["ti814x_l4_slow__spi1"].

Definition ti81xx_spi1_hwmod : omap_hwmod :=
  mkHwmod (Some "omap2_spi1") (Some spi_class) None spi1_mpu_irqs spi1_edma_reqs []
    0xfa181590 (Some "mcspi1_fck") None [] ti814x_spi1_slaves
    0 0 0 0 (ARRAY_SIZE spi1_mpu_irqs) (ARRAY_SIZE spi1_edma_reqs) 0 0 (ARRAY_SIZE ti814x_spi1_slaves)
    0 0 0 0x7000.

Definition spi2_mpu_irqs : list omap_hwmod_irq_info :=
  [mkIrqInfo None 125].

Definition spi2_edma_reqs : list omap_hwmod_dma_info :=
  [mkDmaInfo (Some "tx") 0;
   mkDmaInfo (Some "rx") 0].

Definition ti814x_spi2_slaves : list string := ["ti814x_l4_slow__spi2"].

Definition ti81xx_spi2_hwmod : omap_hwmod :=
  mkHwmod (Some "omap2_spi2") (Some spi_class) None spi2_mpu_irqs spi2_edma_reqs []
    0xfa181590 (Some "mcspi2_fck") None [] ti814x_spi2_slaves
    0 0 0 0 (ARRAY_SIZE spi2_mpu_irqs) (ARRAY_SIZE spi2_edma_reqs) 0 0 (ARRAY_SIZE ti814x_spi2_slaves)
    0 0 0 0x7000.

Definition spi3_mpu_irqs : list omap_hwmod_irq_info :=
  [mkIrqInfo None 126].

Definition spi3_edma_reqs : list omap_hwmod_dma_info :=
  [mkDmaInfo (Some "tx") 0;
   mkDmaInfo (Some "rx") 0].

Definition ti814x_spi3_slaves : list string := ["ti814x_l4_slow__spi3"].

Definition ti81xx_spi3_hwmod : omap_hwmod :=
  mkHwmod (Some "omap2_spi3") (Some spi_class) None spi3_mpu_irqs spi3_edma_reqs []
    0xfa181590 (Some "mcspi3_fck") None [] ti814x_spi3_slaves
    0 0 0 0 (ARRAY_SIZE spi3_mpu_irqs) (ARRAY_SIZE spi3_edma_reqs) 0 0 (ARRAY_SIZE ti814x_spi3_slaves)
    0 0 0 0x7000.

Definition spi4_mpu_irqs : list omap_hwmod_irq_info :=
  [mkIrqInfo None 127].

Definition spi4_edma_reqs : list omap_hwmod_dma_info :=
  [mkDmaInfo (Some "tx") 0;
   mkDmaInfo (Some "rx") 0].

Definition ti814x_spi4_slaves : list string := ["ti814x_l4_slow__spi4"].

Definition ti81xx_spi4_hwmod : omap_hwmod :=
  mkHwmod (Some "omap2_spi4") (Some spi_class) None spi4_mpu_irqs spi4_edma_reqs []
    0xfa181590 (Some "mcspi4_fck") None [] ti814x_spi4_slaves
    0 0 0 0 (ARRAY_SIZE spi4_mpu_irqs) (ARRAY_SIZE spi4_edma_reqs) 0 0 (ARRAY_SIZE ti814x_spi4_slaves)
    0 0 0 0x7000.

Definition hsmmc2_mpu_irqs : list omap_hwmod_irq_info :=
  [mkIrqInfo None 29].

Definition hsmmc2_edma_reqs : list omap_hwmod_dma_info :=
  [mkDmaInfo (Some "tx") 0;
   mkDmaInfo (Some "rx") 0].

Definition ti814x_hsmmc2_slaves : list string := ["ti814x_l3_fast__hsmmc2"].

Definition ti81xx_hsmmc2_hwmod : omap_hwmod :=
  mkHwmod (Some "omap2_hsmmc2") (Some hsmmc_class) None hsmmc2_mpu_irqs hsmmc2_edma_reqs []
    0xfa181624 (Some "mmchs3_fck") None [] ti814x_hsmmc2_slaves
    0 0 0 0 (ARRAY_SIZE hsmmc2_mpu_irqs) (ARRAY_SIZE hsmmc2_edma_reqs) 0 0 (ARRAY_SIZE ti814x_hsmmc2_slaves)
    0 0 0 0x7000.

Definition ti81xx_elm_sysc : omap_hwmod_class_sysconfig :=
  mkSysc 0 16 20
    (Z.lor (Z.lor (Z.lor SYSC_HAS_CLOCKACTIVITY SYSC_HAS_SIDLEMODE) SYSC_HAS_SOFTRESET) SYSS_HAS_RESET_STATUS)
    (Z.lor (Z.lor SIDLE_FORCE SIDLE_NO) SIDLE_SMART) 0 (Some omap_hwmod_sysc_type1).

Definition ti81xx_elm_hwmod_class : omap_hwmod_class :=
  mkHwmodClass (Some "elm") (Some ti81xx_elm_sysc) 0 None None.

Definition ti81xx_elm_irqs : list omap_hwmod_irq_info :=
  [mkIrqInfo None 4;
   mkIrqInfo None 0xffff].

Definition ti81xx_elm_addr_space : list omap_hwmod_addr_space :=
  [mkAddrSpace None 0x48080000 0x48081fff (Z.lor ADDR_MAP_ON_INIT ADDR_TYPE_RT)].

Definition ti81xx_l4_slow__elm : omap_hwmod_ocp_if :=
  mkOcpIf "ti816x_l4_slow_hwmod" "ti81xx_elm_hwmod" ti81xx_elm_addr_space None None
    (ARRAY_SIZE ti81xx_elm_addr_space) OCP_USER_MPU 0.

Definition ti81xx_elm_slaves : list string := ["ti81xx_l4_slow__elm"].

Definition ti81xx_elm_hwmod : omap_hwmod :=
  mkHwmod (Some "elm") (Some ti81xx_elm_hwmod_class) None ti81xx_elm_irqs [] []
    0 (Some "elm_fck") None [] ti81xx_elm_slaves
    0 0 0 0 (ARRAY_SIZE ti81xx_elm_irqs) 0 0 0 (ARRAY_SIZE ti81xx_elm_slaves)
    0 0 0 0x7000.

Definition ti81xx_gpio1_irqs : list omap_hwmod_irq_info :=
  [mkIrqInfo None 96;
   mkIrqInfo None 97].

Definition ti81xx_gpio1_slaves : list string := ["ti81xx_l4_slow__gpio1"].

Definition gpio1_opt_clks : list omap_hwmod_opt_clk :=
  [mkOptClk "dbclk" "gpio1_dbck" None].

Definition ti81xx_gpio1_hwmod : omap_hwmod :=
  mkHwmod (Some "gpio1") (Some ti81xx_gpio_hwmod_class) None ti81xx_gpio1_irqs [] []
    0xfa18155c (Some "gpio1_ick") None gpio1_opt_clks ti81xx_gpio1_slaves
    0 0 0 0 (ARRAY_SIZE ti81xx_gpio1_irqs) 0 0 (ARRAY_SIZE gpio1_opt_clks) (ARRAY_SIZE ti81xx_gpio1_slaves)
    0 0 0 0x7000.

Definition ti81xx_gpio2_irqs : list omap_hwmod_irq_info :=
  [mkIrqInfo None 98;
   mkIrqInfo None 99].

Definition ti81xx_gpio2_slaves : list string := ["ti81xx_l4_slow__gpio2"].

Definition gpio2_opt_clks : list omap_hwmod_opt_clk :=
  [mkOptClk "dbclk" "gpio2_dbck" None].

Definition ti81xx_gpio2_hwmod : omap_hwmod :=
  mkHwmod (Some "gpio2") (Some ti81xx_gpio_hwmod_class) None ti81xx_gpio2_irqs [] []
    0xfa181560 (Some "gpio2_ick") None gpio2_opt_clks ti81xx_gpio2_slaves
    0 0 0 0 (ARRAY_SIZE ti81xx_gpio2_irqs) 0 0 (ARRAY_SIZE gpio2_opt_clks) (ARRAY_SIZE ti81xx_gpio2_slaves)
    0 0 0 0x7000.

Definition ti814x_gpio3_irqs : list omap_hwmod_irq_info :=
  [mkIrqInfo None 32;
   mkIrqInfo None 33].

Definition ti814x_gpio3_slaves : list string := ["ti814x_l4_slow__gpio3"].

Definition gpio3_opt_clks : list omap_hwmod_opt_clk :=
  [mkOptClk "dbclk" "gpio3_dbck" None].

Definition ti814x_gpio3_hwmod : omap_hwmod :=
  mkHwmod (Some "gpio3") (Some ti81xx_gpio_hwmod_class) None ti814x_gpio3_irqs [] []
    0xfa181560 (Some "gpio3_ick") None gpio3_opt_clks ti814x_gpio3_slaves
    0 0 0 0 (ARRAY_SIZE ti814x_gpio3_irqs) 0 0 (ARRAY_SIZE gpio3_opt_clks) (ARRAY_SIZE ti814x_gpio3_slaves)
    0 0 0 0x6000.

Definition ti814x_gpio4_irqs : list omap_hwmod_irq_info :=
  [mkIrqInfo None 62;
   mkIrqInfo None 63].

Definition ti814x_gpio4_slaves : list string := ["ti814x_l4_slow__gpio4"].

Definition gpio4_opt_clks : list omap_hwmod_opt_clk :=
  [mkOptClk "dbclk" "gpio4_dbck" None].

Definition ti814x_gpio4_hwmod : omap_hwmod :=
  mkHwmod (Some "gpio4") (Some ti81xx_gpio_hwmod_class) None ti814x_gpio4_irqs [] []
    0xfa181560 (Some "gpio4_ick") None gpio4_opt_clks ti814x_gpio4_slaves
    0 0 0 0 (ARRAY_SIZE ti814x_gpio4_irqs) 0 0 (ARRAY_SIZE gpio4_opt_clks) (ARRAY_SIZE ti814x_gpio4_slaves)
    0 0 0 0x6000.

Definition ti81xx_usbss_addr_space : list omap_hwmod_addr_space :=
  [mkAddrSpace (Some "usbss") 0x47400000 0x47400fff ADDR_TYPE_RT;
   mkAddrSpace (Some "musb0") 0x47401000 0x474017ff ADDR_TYPE_RT;
   mkAddrSpace (Some "musb1") 0x47401800 0x47401fff ADDR_TYPE_RT].

Definition ti81xx_usbhsotg_sysc : omap_hwmod_class_sysconfig :=
  mkSysc 0 16 0
    0
    0 0 None.

Definition ti81xx_usbotg_class : omap_hwmod_class :=
  mkHwmodClass (Some "usbotg") (Some ti81xx_usbhsotg_sysc) 0 None None.

Definition ti81xx_usbss_mpu_irqs : list omap_hwmod_irq_info :=
  [mkIrqInfo (Some "usbss-irq") 17;
   mkIrqInfo (Some "musb0-irq") 18;
   mkIrqInfo (Some "musb1-irq") 19].

Definition ti81xx_l3_slow__usbss : omap_hwmod_ocp_if :=
  mkOcpIf "ti816x_l3_slow_hwmod" "ti81xx_usbss_hwmod" ti81xx_usbss_addr_space (Some "usb_ick") None
    (ARRAY_SIZE ti81xx_usbss_addr_space) OCP_USER_MPU 0.

Definition ti81xx_usbss_slaves : list string := ["ti81xx_l3_slow__usbss"].

Definition ti81xx_usbss_hwmod : omap_hwmod :=
  mkHwmod (Some "usb_otg_hs") (Some ti81xx_usbotg_class) None ti81xx_usbss_mpu_irqs [] []
    0xfa180558 (Some "usb_ick") None [] ti81xx_usbss_slaves
    0 0 0 0 (ARRAY_SIZE ti81xx_usbss_mpu_irqs) 0 0 0 (ARRAY_SIZE ti81xx_usbss_slaves)
    0 0 0 0x7000.

Definition ti81xx_hwmods : list string := [
  "ti814x_l3_fast_hwmod";
  "ti816x_l3_slow_hwmod";
  "ti816x_l4_slow_hwmod";
  "ti816x_mpu_hwmod";
  "ti81xx_hsmmc2_hwmod";
  "ti816x_uart1_hwmod";
  "ti816x_uart2_hwmod";
  "ti816x_uart3_hwmod";
  "ti814x_uart4_hwmod";
  "ti814x_uart5_hwmod";
  "ti814x_uart6_hwmod";
  "ti816x_wd_timer2_hwmod";
  "ti814x_wd_timer1_hwmod";
  "ti81xx_spi1_hwmod";
  "ti81xx_spi2_hwmod";
  "ti81xx_spi3_hwmod";
  "ti81xx_spi4_hwmod";
  "ti81xx_i2c1_hwmod";
  "ti816x_i2c2_hwmod";
  "ti814x_i2c3_hwmod";
  "ti814x_i2c4_hwmod";
  "ti81xx_gpio1_hwmod";
  "ti81xx_gpio2_hwmod";
  "ti814x_gpio3_hwmod";
  "ti814x_gpio4_hwmod";
  "ti81xx_usbss_hwmod";
  "ti81xx_elm_hwmod"
].

(** The objects by name. *)
Definition ti81xx_ifs : gmap string omap_hwmod_ocp_if := list_to_map [
  ("ti814x_l3_fast__hsmmc2", ti814x_l3_fast__hsmmc2);
  ("ti816x_l3_slow__l4_slow", ti816x_l3_slow__l4_slow);
  ("ti816x_mpu__l3_fast", ti816x_mpu__l3_fast);
  ("ti816x_mpu__l3_slow", ti816x_mpu__l3_slow);
  ("ti816x_l4_slow__uart1", ti816x_l4_slow__uart1);
  ("ti816x_l4_slow__uart2", ti816x_l4_slow__uart2);
  ("ti816x_l4_slow__uart3", ti816x_l4_slow__uart3);
  ("ti814x_l4_slow__uart4", ti814x_l4_slow__uart4);
  ("ti814x_l4_slow__uart5", ti814x_l4_slow__uart5);
  ("ti814x_l4_slow__uart6", ti814x_l4_slow__uart6);
  ("ti816x_l4_slow__wd_timer2", ti816x_l4_slow__wd_timer2);
  ("ti814x_l4_slow__wd_timer1", ti814x_l4_slow__wd_timer1);
  ("ti814x_l4_slow__spi1", ti814x_l4_slow__spi1);
  ("ti814x_l4_slow__spi2", ti814x_l4_slow__spi2);
  ("ti814x_l4_slow__spi3", ti814x_l4_slow__spi3);
  ("ti814x_l4_slow__spi4", ti814x_l4_slow__spi4);
  ("ti816x_l4_slow__i2c1", ti816x_l4_slow__i2c1);
  ("ti816x_l4_slow__i2c2", ti816x_l4_slow__i2c2);
  ("ti814x_l4_slow__i2c3", ti814x_l4_slow__i2c3);
  ("ti814x_l4_slow__i2c4", ti814x_l4_slow__i2c4);
  ("ti81xx_l4_slow__gpio1", ti81xx_l4_slow__gpio1);
  ("ti81xx_l4_slow__gpio2", ti81xx_l4_slow__gpio2);
  ("ti814x_l4_slow__gpio3", ti814x_l4_slow__gpio3);
  ("ti814x_l4_slow__gpio4", ti814x_l4_slow__gpio4);
  ("ti81xx_l4_slow__elm", ti81xx_l4_slow__elm);
  ("ti81xx_l3_slow__usbss", ti81xx_l3_slow__usbss)
].

Definition ti81xx_ohs : gmap string omap_hwmod := list_to_map [
  ("ti814x_l3_fast_hwmod", ti814x_l3_fast_hwmod);
  ("ti816x_l3_slow_hwmod", ti816x_l3_slow_hwmod);
  ("ti816x_l4_slow_hwmod", ti816x_l4_slow_hwmod);
  ("ti816x_mpu_hwmod", ti816x_mpu_hwmod);
  ("ti816x_uart1_hwmod", ti816x_uart1_hwmod);
  ("ti816x_uart2_hwmod", ti816x_uart2_hwmod);
  ("ti816x_uart3_hwmod", ti816x_uart3_hwmod);
  ("ti814x_uart4_hwmod", ti814x_uart4_hwmod);
  ("ti814x_uart5_hwmod", ti814x_uart5_hwmod);
  ("ti814x_uart6_hwmod", ti814x_uart6_hwmod);
  ("ti816x_wd_timer2_hwmod", ti816x_wd_timer2_hwmod);
  ("ti814x_wd_timer1_hwmod", ti814x_wd_timer1_hwmod);
  ("ti81xx_i2c1_hwmod", ti81xx_i2c1_hwmod);
  ("ti816x_i2c2_hwmod", ti816x_i2c2_hwmod);
  ("ti814x_i2c3_hwmod", ti814x_i2c3_hwmod);
  ("ti814x_i2c4_hwmod", ti814x_i2c4_hwmod);
  ("ti81xx_spi1_hwmod", ti81xx_spi1_hwmod);
  ("ti81xx_spi2_hwmod", ti81xx_spi2_hwmod);
  ("ti81xx_spi3_hwmod", ti81xx_spi3_hwmod);
  ("ti81xx_spi4_hwmod", ti81xx_spi4_hwmod);
  ("ti81xx_hsmmc2_hwmod", ti81xx_hsmmc2_hwmod);
  ("ti81xx_elm_hwmod", ti81xx_elm_hwmod);
  ("ti81xx_gpio1_hwmod", ti81xx_gpio1_hwmod);
  ("ti81xx_gpio2_hwmod", ti81xx_gpio2_hwmod);
  ("ti814x_gpio3_hwmod", ti814x_gpio3_hwmod);
  ("ti814x_gpio4_hwmod", ti814x_gpio4_hwmod);
  ("ti81xx_usbss_hwmod", ti81xx_usbss_hwmod)
].

Definition ti81xx_hwmod_init (ioremap : Z -> Z -> Z) : M hwmod_state Z :=
  omap_hwmod_init ioremap (Some ti81xx_hwmods).
