(* ===== verification/HwmodSpec.v ===== *)
(** * What the hardware modules promise, and rely on

    [ClkAccount] is what omap_hwmod.c relies on of the clock framework: references can be taken
    and given back, and nothing else changes them.  [hwmod_ok] is the invariant of the modules:
    the references held to the clocks are those of the modules that are enabled.  [mod_step] is
    the state machine that the operations implement. *)

From S2P Require Import Prelude Platform Prcm Clockdomain ClkCore ClkEnable Mux MuxSignal Hwmod.

(** ** The interface of the clock framework *)

(** [e] counts the references that are held to each clock; there is [ca_room] for a number of
    references; the clocks that are [ca_usable] can be enabled.  In general clk_enable can fail,
    which omap_hwmod.c does not notice ([HwmodExamples.enable_ignores_clock_errors]): what is
    proved against this interface is for clocks that can be enabled, as those of the DM8148. *)
Class ClkAccount (arch_clock : clk_functions) := {
  ca_refs : (string -> Z) -> world -> Prop;
  ca_room : (string -> Z) -> Prop;
  ca_usable : string -> Prop;
  ca_ext e e' w : (forall x, e' x = e x) -> ca_refs e w -> ca_refs e' w;
  ca_io e w w' : io_only w w' -> ca_refs e w -> ca_refs e w';
  ca_get e c w : ca_usable c -> ca_refs e w -> is_Some (w_clks w !! c);
  ca_less e e' : (forall x, e' x <= e x) -> ca_room e -> ca_room e';
  ca_enable e c w :
    ca_usable c -> ca_refs e w -> (forall x, 0 <= e x) -> ca_room (bump e c 1) ->
    wp (clk_enable arch_clock (Some c)) (fun r w' => r = 0 /\ ca_refs (bump e c 1) w') w;
  ca_disable e c w :
    ca_usable c -> ca_refs e w -> (forall x, 0 <= e x) -> 0 < e c ->
    wp (clk_disable arch_clock (Some c)) (fun _ w' => ca_refs (bump e c (-1)) w') w
}.

(** ** Counting *)

(** How often [x] is in the list. *)
Fixpoint occurs (x : string) (l : list string) : Z :=
  match l with
  | [] => 0
  | y :: l' => (if decide (x = y) then 1 else 0) + occurs x l'
  end.

(** The references [e] and one to each clock of the list. *)
Definition plus (e : string -> Z) (l : list string) : string -> Z := fun x => e x + occurs x l.

Lemma occurs_nonneg x l : 0 <= occurs x l.
Proof. induction l as [|y l IH]; cbn; [lia|]. case_decide; lia. Qed.

Lemma occurs_app x l l' : occurs x (l ++ l') = occurs x l + occurs x l'.
Proof. induction l as [|y l IH]; cbn; [lia|]. rewrite IH. lia. Qed.

(** ** The clocks of a module *)

Definition opt_list (o : option string) : list string := match o with Some c => [c] | None => [] end.

(** The interface clocks among [l] that are switched with the module. *)
Definition swsup_list (ifs : gmap string omap_hwmod_ocp_if) (l : list string) : list string :=
  mjoin ((fun i => match ifs !! i with
                   | Some os => if has (if_flags os) OCPIF_SWSUP_IDLE then opt_list (if__clk os) else []
                   | None => []
                   end) <$> l).

Definition mod_clks (ifs : gmap string omap_hwmod_ocp_if) (o : omap_hwmod) : list string :=
  opt_list (oh__clk o) ++ swsup_list ifs (oh_slaves o).

Definition opt_clk_list (o : omap_hwmod) : list string :=
  mjoin ((fun oc => opt_list (ko__clk oc)) <$> oh_opt_clks o).

(** The clocks of a module that is enabled. *)
Definition mod_held (ifs : gmap string omap_hwmod_ocp_if) (o : omap_hwmod) : list string :=
  if oh__state o =? _HWMOD_STATE_ENABLED then mod_clks ifs o else [].

Definition held_of (s : hwmod_state) (oh : string) : list string :=
  match hs_ohs s !! oh with Some o => mod_held (hs_ifs s) o | None => [] end.

(** All the clocks a module may use at one time. *)
Definition most_of (s : hwmod_state) (oh : string) : list string :=
  match hs_ohs s !! oh with Some o => mod_clks (hs_ifs s) o ++ opt_clk_list o | None => [] end.

Definition held (s : hwmod_state) : list string := mjoin (held_of s <$> hs_list s).
Definition most (s : hwmod_state) : list string := mjoin (most_of s <$> hs_list s).

(** ** Well-formed modules *)

Record mux_ok (s : mux_state) (h : omap_hwmod_mux_info) : Prop := {
  mo_count : mi_nr_pads h = Z.of_nat (length (mi_pads h));
  mo_pads : Forall (fun pad => (exists a, pad_reg s pad a) /\ pad_fits pad) (mi_pads h)
}.

(** The arrays have the lengths the counts say, the interfaces and clocks exist, and the class
    has no functions of its own. *)
Record module_ok `{CA : ClkAccount} (s : hwmod_state) (o : omap_hwmod) : Prop := {
  mk_class : exists c, oh_class o = Some c /\ hc_pre_shutdown c = None /\ hc_reset c = None;
  mk_slaves : oh_slaves_cnt o = Z.of_nat (length (oh_slaves o));
  mk_ifs : Forall (fun i => is_Some (hs_ifs s !! i)) (oh_slaves o);
  mk_rst : oh_rst_lines_cnt o = Z.of_nat (length (oh_rst_lines o));
  mk_opt : oh_opt_clks_cnt o = Z.of_nat (length (oh_opt_clks o));
  mk_clks : Forall ca_usable (mod_clks (hs_ifs s) o ++ opt_clk_list o);
  mk_port : has (oh__int_flags o) _HWMOD_NO_MPU_PORT = true \/
    0 <= oh__mpu_port_index o < Z.of_nat (length (oh_slaves o));
  mk_mux : forall h, oh_mux o = Some h -> mux_ok (hs_mux s) h
}.

Record hwmod_ok `{CA : ClkAccount} (base : string -> Z) (s : hwmod_state) : Prop := {
  ho_nodup : NoDup (hs_list s);
  ho_mods : forall oh, oh ∈ hs_list s -> exists o, hs_ohs s !! oh = Some o /\ module_ok s o;
  ho_mpu : exists m mo c, hs_mpu_oh s = Some m /\ hs_ohs s !! m = Some mo /\
    oh__clk mo = Some c /\ ca_usable c;
  ho_base : forall x, 0 <= base x;
  ho_refs : ca_refs (plus base (held s)) (hs_w s);
  ho_room : ca_room (plus base (most s))
}.

(** ** What an operation on one module leaves alone *)

(** The part of a module that the operations do not change. *)
Definition fixed_part (o : omap_hwmod) : omap_hwmod :=
  set_oh_mux None (set_oh__sysc_cache 0 (set_oh__int_flags 0 (set_oh__state 0 o))).

Definition pad_kept (p p' : omap_device_pad) : Prop :=
  set_pa_flags 0 p' = set_pa_flags 0 p /\ (uint 8 (pa_flags p) -> uint 8 (pa_flags p')).

Definition mux_kept (m m' : option omap_hwmod_mux_info) : Prop :=
  match m, m' with
  | None, None => True
  | Some h, Some h' => mi_nr_pads h' = mi_nr_pads h /\ Forall2 pad_kept (mi_pads h) (mi_pads h')
  | _, _ => False
  end.

Record kept (o o' : omap_hwmod) : Prop := {
  kp_fixed : fixed_part o' = fixed_part o;
  kp_port : has (oh__int_flags o') _HWMOD_NO_MPU_PORT = has (oh__int_flags o) _HWMOD_NO_MPU_PORT;
  kp_mux : mux_kept (oh_mux o) (oh_mux o')
}.

(** Only the module [oh], the clocks and the registers may have changed. *)
Record only_mod (oh : string) (s s' : hwmod_state) : Prop := {
  om_mux : hs_mux s' = set_ms_w (hs_w s') (hs_mux s);
  om_ohs : forall x, x <> oh -> hs_ohs s' !! x = hs_ohs s !! x;
  om_ifs : hs_ifs s' = hs_ifs s;
  om_list : hs_list s' = hs_list s;
  om_mpu : hs_mpu_oh s' = hs_mpu_oh s
}.

#[global] Instance only_mod_preorder oh : PreOrder (only_mod oh).
Proof.
  split.
  - by intros s.
  - intros s1 s2 s3 [M1 O1 I1 L1 P1] [M2 O2 I2 L2 P2]. split; try congruence.
    + rewrite M2, M1. done.
    + intros x Hx. by rewrite O2, O1.
Qed.

(** ** The state machine *)

Inductive mod_op :=
| OpEnable | OpIdle | OpShutdown | OpReset | OpEnableWakeup | OpDisableWakeup
| OpSoftreset | OpSetSlaveIdlemode (idlemode : Z) | OpOcpBarrier.

#[global] Instance mod_op_eq_dec : EqDecision mod_op.
Proof. solve_decision. Defined.

(** From a state and an operation to the result and the next state; [ready] says whether the
    module leaves its idle state in time. *)
Definition may_enable (st : Z) : bool :=
  (st =? _HWMOD_STATE_INITIALIZED) || (st =? _HWMOD_STATE_IDLE) || (st =? _HWMOD_STATE_DISABLED).

Inductive mod_step (st : Z) : mod_op -> Z -> Z -> Prop :=
| step_enable : may_enable st = true -> mod_step st OpEnable 0 _HWMOD_STATE_ENABLED
| step_enable_busy : may_enable st = true -> mod_step st OpEnable (- EBUSY) st
| step_enable_wrong : may_enable st = false -> mod_step st OpEnable (- EINVAL) st
| step_idle : st = _HWMOD_STATE_ENABLED -> mod_step st OpIdle 0 _HWMOD_STATE_IDLE
| step_idle_wrong : st <> _HWMOD_STATE_ENABLED -> mod_step st OpIdle 0 st
| step_shutdown : st = _HWMOD_STATE_ENABLED \/ st = _HWMOD_STATE_IDLE ->
    mod_step st OpShutdown 0 _HWMOD_STATE_DISABLED
| step_shutdown_wrong : st <> _HWMOD_STATE_ENABLED -> st <> _HWMOD_STATE_IDLE -> mod_step st OpShutdown 0 st
| step_reset r : (r = 0 /\ st = _HWMOD_STATE_ENABLED \/ r = - EINVAL \/ r = - ETIMEDOUT) ->
    mod_step st OpReset r st
| step_other op r : op <> OpEnable -> op <> OpIdle -> op <> OpShutdown -> op <> OpReset ->
    (r = 0 \/ r = - EINVAL) -> mod_step st op r st.

Section Ops.
  Context `{SOC : Soc} `{HW : Hardware} `{FNS : HwmodFns} (arch_clock : clk_functions).

Definition run_op (op : mod_op) (oh : string) : M hwmod_state Z :=
  match op with
  | OpEnable => omap_hwmod_enable arch_clock (Some oh)
  | OpIdle => omap_hwmod_idle arch_clock (Some oh)
  | OpShutdown => omap_hwmod_shutdown arch_clock (Some oh)
  | OpReset => omap_hwmod_reset arch_clock (Some oh)
  | OpEnableWakeup => omap_hwmod_enable_wakeup oh
  | OpDisableWakeup => omap_hwmod_disable_wakeup oh
  | OpSoftreset => omap_hwmod_softreset (Some oh)
  | OpSetSlaveIdlemode m => omap_hwmod_set_slave_idlemode (Some oh) m
  | OpOcpBarrier => omap_hwmod_ocp_barrier (Some oh);; ret 0
  end.

End Ops.
