(* ===== verification/HwmodRefine.v ===== *)
(** * The operations on modules implement the state machine

    Each operation keeps the account of the clocks and makes a step of [mod_step]. *)

From S2P Require Import Prelude Platform Prcm Clockdomain ClkCore ClkEnable Mux MuxSignal Hwmod HwmodSpec.

(** ** Triples of the accesses *)

Section Access.
Implicit Types s : hwmod_state.

Lemma wp_hw_io {A} (m : M world A) Q s :
  wp m (fun a w => Q a (set_hs_w w s)) (hs_w s) -> wp (hw_io m) Q s.
Proof. unfold wp, hw_io. by destruct (m (hs_w s)). Qed.

Lemma wp_on_mux {A} (m : M mux_state A) Q s :
  wp m (fun a x => Q a (set_hs_mux x s)) (hs_mux s) -> wp (on_mux m) Q s.
Proof. unfold wp, on_mux. by destruct (m (hs_mux s)). Qed.

Lemma wp_get_oh oh o Q s : hs_ohs s !! oh = Some o -> Q o s -> wp (get_oh oh) Q s.
Proof. intros Ho HQ. unfold get_oh. wp_pure. by eapply wp_deref. Qed.

Lemma wp_get_if i os Q s : hs_ifs s !! i = Some os -> Q os s -> wp (get_if i) Q s.
Proof. intros Ho HQ. unfold get_if. wp_pure. by eapply wp_deref. Qed.

Lemma wp_upd_oh oh f o Q s :
  hs_ohs s !! oh = Some o -> Q tt (set_hs_ohs (<[oh := f o]> (hs_ohs s)) s) -> wp (upd_oh oh f) Q s.
Proof. intros Ho HQ. unfold upd_oh. wp_pure. by eapply wp_get_oh. Qed.

Lemma wp_assoc {S A B C} (m : M S A) (f : A -> M S B) (g : B -> M S C) Q (x : S) :
  wp (bind m f) (fun b y => wp (g b) Q y) x -> wp (bind m (fun a => bind (f a) g)) Q x.
Proof. unfold wp, bind. destruct (m x) as [a y|]; [|done]. by destruct (f a y). Qed.

Lemma wp_elems {S A} (l : list A) cnt Q (s : S) :
  cnt = Z.of_nat (length l) -> Q l s -> wp (elems l cnt) Q s.
Proof.
  intros -> HQ. unfold elems. rewrite Z.ltb_irrefl, Nat2Z.id, firstn_all. by apply wp_ret.
Qed.
End Access.

(** ** Keeping the module *)

Lemma mod_kept_refl o : kept o o.
Proof.
  split; [done | done |]. unfold mux_kept. destruct (oh_mux o) as [h|]; [|done]. split; [done|].
  apply Forall_Forall2_diag, Forall_forall. by split.
Qed.

Lemma pad_kept_trans p1 p2 p3 : pad_kept p1 p2 -> pad_kept p2 p3 -> pad_kept p1 p3.
Proof. intros [E1 U1] [E2 U2]. split; [congruence | auto]. Qed.

Lemma mod_kept_trans o1 o2 o3 : kept o1 o2 -> kept o2 o3 -> kept o1 o3.
Proof.
  intros [F1 P1 M1] [F2 P2 M2]. split; [congruence.. |]. unfold mux_kept in *.
  destruct (oh_mux o1), (oh_mux o2), (oh_mux o3); try done. destruct M1 as [N1 Q1], M2 as [N2 Q2].
  split; [congruence|]. rewrite Forall2_lookup in Q1, Q2 |- *. intros i. specialize (Q1 i). specialize (Q2 i).
  destruct Q1 as [? ? K1|]; inversion_clear Q2 as [? ? K2|]; constructor. by eapply pad_kept_trans.
Qed.

#[global] Instance kept_preorder : PreOrder kept.
Proof. split; [exact mod_kept_refl | exact mod_kept_trans]. Qed.

(** A field that is not changed. *)
Lemma kept_field {A} (f : omap_hwmod -> A) o o' :
  (forall o, f (fixed_part o) = f o) -> kept o o' -> f o' = f o.
Proof. intros Hf K. by rewrite <- Hf, (kp_fixed _ _ K), Hf. Qed.

Lemma kept_class o o' : kept o o' -> oh_class o' = oh_class o.
Proof. by apply kept_field. Qed.
Lemma kept_clk o o' : kept o o' -> oh__clk o' = oh__clk o.
Proof. by apply kept_field. Qed.
Lemma kept_slaves o o' : kept o o' -> oh_slaves o' = oh_slaves o.
Proof. by apply kept_field. Qed.
Lemma kept_slaves_cnt o o' : kept o o' -> oh_slaves_cnt o' = oh_slaves_cnt o.
Proof. by apply kept_field. Qed.
Lemma kept_port_index o o' : kept o o' -> oh__mpu_port_index o' = oh__mpu_port_index o.
Proof. by apply kept_field. Qed.
Lemma kept_rst_lines o o' : kept o o' -> oh_rst_lines o' = oh_rst_lines o.
Proof. by apply kept_field. Qed.
Lemma kept_rst_lines_cnt o o' : kept o o' -> oh_rst_lines_cnt o' = oh_rst_lines_cnt o.
Proof. by apply kept_field. Qed.
Lemma kept_opt_clks o o' : kept o o' -> oh_opt_clks o' = oh_opt_clks o.
Proof. by apply kept_field. Qed.
Lemma kept_opt_clks_cnt o o' : kept o o' -> oh_opt_clks_cnt o' = oh_opt_clks_cnt o.
Proof. by apply kept_field. Qed.
Lemma kept_flags o o' : kept o o' -> oh_flags o' = oh_flags o.
Proof. by apply kept_field. Qed.

Lemma kept_state st o : kept o (set_oh__state st o).
Proof. split; [done | done | apply (kp_mux o o), mod_kept_refl]. Qed.
Lemma kept_sysc_cache v o : kept o (set_oh__sysc_cache v o).
Proof. split; [done | done | apply (kp_mux o o), mod_kept_refl]. Qed.

Lemma kept_int_flags f o :
  has f _HWMOD_NO_MPU_PORT = has (oh__int_flags o) _HWMOD_NO_MPU_PORT -> kept o (set_oh__int_flags f o).
Proof. intros Hf. split; [done | done | apply (kp_mux o o), mod_kept_refl]. Qed.

Lemma has_bit f n : 0 <= n -> has f (Z.shiftl 1 n) = Z.testbit f n.
Proof.
  intros Hn. unfold has. rewrite Z.shiftl_1_l, land_pow2_test by done. apply negb_involutive.
Qed.

Lemma port_lor f n : 0 < n -> has (Z.lor f (Z.shiftl 1 n)) _HWMOD_NO_MPU_PORT = has f _HWMOD_NO_MPU_PORT.
Proof.
  intros Hn. unfold _HWMOD_NO_MPU_PORT. rewrite !has_bit, Z.lor_spec, Z.shiftl_1_l by lia.
  rewrite Z.pow2_bits_false by lia. apply orb_false_r.
Qed.

Lemma port_ldiff f n :
  0 < n -> has (Z.land f (Z.lnot (Z.shiftl 1 n))) _HWMOD_NO_MPU_PORT = has f _HWMOD_NO_MPU_PORT.
Proof.
  intros Hn. unfold _HWMOD_NO_MPU_PORT. rewrite !has_bit, Z.land_spec, Z.lnot_spec, Z.shiftl_1_l by lia.
  rewrite Z.pow2_bits_false by lia. apply andb_true_r.
Qed.

Create HintDb hwmod.
#[export] Hint Resolve kept_sysc_cache : hwmod.
#[export] Hint Extern 1 (kept _ (set_oh__int_flags _ _)) =>
  apply kept_int_flags; first [by apply port_lor | by apply port_ldiff] : hwmod.

Lemma mux_ok_kept x h h' : mux_ok x h -> mux_kept (Some h) (Some h') -> mux_ok x h'.
Proof.
  intros [Hc Hp] [Hn Hk]. split.
  - by rewrite Hn, Hc, (Forall2_length _ _ _ Hk).
  - rewrite Forall_forall in Hp |- *. intros p' Hp'. apply list_elem_of_lookup in Hp' as [i Hi].
    destruct (Forall2_lookup_r _ _ _ _ _ Hk Hi) as (p & Hpi & E & Hu).
    destruct (Hp p) as [[a Ha] [F1 F2 F3 F4]]; [by eapply list_elem_of_lookup_2|].
    assert (forall A (f : omap_device_pad -> A), (forall q, f (set_pa_flags 0 q) = f q) -> f p' = f p) as Hf
      by (intros A f Hq; by rewrite <- Hq, E, Hq).
    split.
    + exists a. destruct Ha as (j & k & q & m & H1 & H2 & Hr). exists j, k, q, m.
      split; [etrans; [by apply Hf | exact H1]|]. split; [etrans; [by apply Hf | exact H2] | done].
    + split; [by apply Hu | apply (eq_rect_r _ F2) | apply (eq_rect_r _ F3) | apply (eq_rect_r _ F4)]; by apply Hf.
Qed.

Lemma pad_after_kept state p : pad_kept p (pad_after state p).
Proof.
  unfold pad_after. destruct (pad_writes state p); [|by split]. split; [done|]. intros Hf.
  destruct (pad_flags_uint p Hf) as [Hs Hc]. case_decide; [exact Hs | exact Hc].
Qed.

Section Keeps.
  Context `{SOC : Soc} `{HW : Hardware} `{FNS : HwmodFns} `{CA : ClkAccount}.
  Context (Hti : cpu_is_ti814x = true) (oh : string) (s0 : hwmod_state) (o0 : omap_hwmod).
  Context (Hmod : module_ok s0 o0).
Implicit Types s : hwmod_state.

(** The module [oh] of [s0] is in the state [st] and the references are [e]. *)
Record at_mod (e : string -> Z) (st : Z) (s : hwmod_state) : Prop := {
  am_only : only_mod oh s0 s;
  am_here : exists o, hs_ohs s !! oh = Some o /\ kept o0 o /\ oh__state o = st;
  am_refs : ca_refs e (hs_w s)
}.

Definition keeps {A} (m : M hwmod_state A) : Prop :=
  forall e st s, at_mod e st s -> wp m (fun _ => at_mod e st) s.

Lemma keeps_ret {A} (a : A) : keeps (ret a).
Proof. intros e st s H. by apply wp_ret. Qed.

Lemma keeps_bind {A B} (m : M hwmod_state A) (f : A -> M hwmod_state B) :
  keeps m -> (forall a, keeps (f a)) -> keeps (bind m f).
Proof.
  intros Hm Hf e st s H. apply wp_bind. eapply wp_mono; [by apply Hm|]. cbv beta. intros a s' H'.
  by apply Hf.
Qed.

Lemma keeps_gets {A B} (f : hwmod_state -> A) (g : A -> M hwmod_state B) :
  (forall a, keeps (g a)) -> keeps (bind (gets f) g).
Proof. intros Hg e st s H. wp_pure. by apply Hg. Qed.

Lemma keeps_when b (m : M hwmod_state unit) : keeps m -> keeps (when b m).
Proof. intros Hm. destruct b; [done | apply keeps_ret]. Qed.

Lemma keeps_if {A} (b : bool) (m m' : M hwmod_state A) : keeps m -> keeps m' -> keeps (if b then m else m').
Proof. by destruct b. Qed.

Lemma keeps_get_oh {B} (f : omap_hwmod -> M hwmod_state B) :
  (forall o, kept o0 o -> keeps (f o)) -> keeps (bind (get_oh oh) f).
Proof.
  intros Hf e st s H. destruct (am_here _ _ _ H) as (o & Ho & K & _). wp_pure.
  eapply wp_get_oh; [done|]. cbv beta. by apply Hf.
Qed.

Lemma keeps_upd_oh f :
  (forall o, kept o (f o)) -> (forall o, oh__state (f o) = oh__state o) -> keeps (upd_oh oh f).
Proof.
  intros Hf Hs e st s [[M O I L P] (o & Ho & K & E) R]. eapply wp_upd_oh; [done|]. split.
  - split; try done. intros x Hx. etrans; [by apply lookup_insert_ne, not_eq_sym | by apply O].
  - exists (f o). split; [apply lookup_insert_eq|]. split; [etrans; [exact K | apply Hf]|]. by rewrite Hs.
  - done.
Qed.

Lemma at_mod_w e st s w : ca_refs e w -> forall e', at_mod e' st s -> at_mod e st (set_hs_w w s).
Proof.
  intros R e' [[M O I L P] H _]. split; [|done..]. split; try done.
  exact (f_equal (set_ms_w w) M).
Qed.

Lemma keeps_hw_io {A} (m : M world A) : (forall w, wp m (fun _ w' => io_only w w') w) -> keeps (hw_io m).
Proof.
  intros Hm e st s H. apply wp_hw_io. eapply wp_mono; [apply Hm|]. cbv beta. intros _ w' Hio.
  eapply at_mod_w; [|done]. eapply ca_io; [done|]. apply H.
Qed.

Lemma keeps_deref {A B} (o : option A) a (f : A -> M hwmod_state B) :
  o = Some a -> keeps (f a) -> keeps (bind (deref o) f).
Proof. intros -> Hf e st s H. wp_pure. by eapply wp_deref; [|apply Hf]. Qed.

Lemma keeps_elems {A B} (l : list A) cnt (f : list A -> M hwmod_state B) :
  cnt = Z.of_nat (length l) -> keeps (f l) -> keeps (bind (elems l cnt) f).
Proof. intros Hc Hf e st s H. wp_pure. eapply wp_elems; [done|]. by apply Hf. Qed.

(** The class of the module *)
Lemma keeps_oh_sysc {B} (f : option omap_hwmod_class_sysconfig -> M hwmod_state B) :
  (forall sc, keeps (f sc)) -> keeps (bind (oh_sysc oh) f).
Proof.
  intros Hf. apply keeps_bind; [|done]. unfold oh_sysc, oh_cls. apply keeps_bind; [|intros; apply keeps_ret].
  apply keeps_get_oh. intros o K. destruct (mk_class _ _ Hmod) as (c & Hc & _).
  intros e st s H. eapply wp_deref; [|exact H]. by rewrite (kept_class _ _ K).
Qed.
End Keeps.

(** Goes through code that changes neither the state of the module nor the references. *)
Ltac keeps :=
  repeat
    lazymatch goal with
    | |- forall _, _ => intro
    | |- keeps _ _ _ (ret _) => apply keeps_ret
    | |- keeps _ _ _ (bind (get_oh _) _) => apply keeps_get_oh
    | |- keeps _ _ _ (bind (gets _) _) => apply keeps_gets
    | |- keeps _ _ _ (bind (oh_sysc _) _) => apply keeps_oh_sysc; [assumption|]
    | |- keeps _ _ _ (bind _ _) => apply keeps_bind
    | |- keeps _ _ _ (when _ _) => apply keeps_when
    | |- keeps _ _ _ (upd_oh _ _) => apply keeps_upd_oh; [eauto with hwmod | done]
    | |- keeps _ _ _ (match ?x with _ => _ end) => destruct x
    end.

Section Parts.
  Context `{SOC : Soc} `{HW : Hardware} `{FNS : HwmodFns} `{CA : ClkAccount}.
  Context (Hti : cpu_is_ti814x = true) (oh : string) (s0 : hwmod_state) (o0 : omap_hwmod).
  Context (H0 : hs_ohs s0 !! oh = Some o0) (Hmod : module_ok s0 o0).
Implicit Types s : hwmod_state.
Abbreviation keeps m := (keeps oh s0 o0 m).

(** ** Registers *)

Lemma keeps_read offs : keeps (omap_hwmod_read oh offs).
Proof. unfold omap_hwmod_read. keeps; apply keeps_hw_io; intros w; by eexists. Qed.

Lemma keeps_write v offs : keeps (omap_hwmod_write v oh offs).
Proof. unfold omap_hwmod_write. keeps; apply keeps_hw_io; intros w; by eexists. Qed.

Lemma keeps_write_sysconfig v : keeps (_write_sysconfig v oh).
Proof. unfold _write_sysconfig. keeps. apply keeps_write. Qed.

Lemma keeps_update_sysc_cache : keeps (_update_sysc_cache oh).
Proof. unfold _update_sysc_cache. keeps. apply keeps_read. Qed.

Lemma keeps_enable_wakeup v : keeps (_enable_wakeup oh v).
Proof. unfold _enable_wakeup. keeps. Qed.

Lemma keeps_disable_wakeup v : keeps (_disable_wakeup oh v).
Proof. unfold _disable_wakeup. keeps. Qed.

Lemma keeps_enable_sysc : keeps (_enable_sysc oh).
Proof. unfold _enable_sysc. keeps; try apply keeps_enable_wakeup; apply keeps_write_sysconfig. Qed.

Lemma keeps_idle_sysc : keeps (_idle_sysc oh).
Proof. unfold _idle_sysc. keeps; try apply keeps_enable_wakeup; apply keeps_write_sysconfig. Qed.

Lemma keeps_shutdown_sysc : keeps (_shutdown_sysc oh).
Proof. unfold _shutdown_sysc. keeps. apply keeps_write_sysconfig. Qed.

(** ** Pads *)

Lemma keeps_mux_module state : keeps (mux_module oh state).
Proof.
  intros e st s [[M O I L P] (o & Ho & K & E) R]. unfold mux_module. wp_pure.
  eapply wp_get_oh; [done|]. cbv beta. pose proof (kp_mux _ _ K) as Km.
  destruct (oh_mux o) as [h|] eqn:Eh; [|apply wp_ret; split; [done | by exists o | done]].
  destruct (oh_mux o0) as [h0|] eqn:Eh0; [|done].
  assert (mux_ok (hs_mux s) h) as [Hc Hp].
  { eapply mux_ok_kept; [|exact Km]. rewrite M. destruct (mk_mux _ _ Hmod h0 Eh0) as [Hc Hp]. by split. }
  wp_pure. apply wp_on_mux. unfold omap_hwmod_mux. rewrite Hc, Z.ltb_irrefl, Nat2Z.id, firstn_all, drop_all.
  wp_pure. eapply wp_mono; [by apply mux_pads_spec|]. cbv beta. intros pads' x (-> & _ & Ex & Hio).
  wp_pure. rewrite app_nil_r. eapply wp_upd_oh; [exact Ho|]. split.
  - split; try done.
    + etrans; [exact Ex|]. exact (f_equal (set_ms_w (ms_w x)) M).
    + intros y Hy. etrans; [by apply lookup_insert_ne, not_eq_sym | by apply O].
  - eexists. split; [apply lookup_insert_eq|]. split; [|done]. etrans; [exact K|].
    split; [done | done |]. unfold mux_kept. rewrite Eh. split; [done|].
    apply Forall2_fmap_r, Forall_Forall2_diag, Forall_forall. intros p _. apply pad_after_kept.
  - eapply ca_io; [exact Hio | done].
Qed.

(** ** Dependencies *)

Context (Hmpu : exists m mo c, hs_mpu_oh s0 = Some m /\ hs_ohs s0 !! m = Some mo /\
  oh__clk mo = Some c /\ ca_usable c).

Lemma keeps_oh_clkdm c : ca_usable c -> keeps (oh_clkdm (Some c)).
Proof.
  intros Hc e st s H. unfold oh_clkdm. wp_pure. eapply wp_deref; [done|]. cbv beta. wp_pure.
  destruct (ca_get e c (hs_w s) Hc (am_refs _ _ _ _ _ _ H)) as [k Hk].
  apply wp_hw_io. eapply wp_get_clk; [exact Hk|]. wp_pure. by destruct H.
Qed.

Lemma mpu_clk e st s : at_mod oh s0 o0 e st s -> exists m mo c, hs_mpu_oh s = Some m /\
  hs_ohs s !! m = Some mo /\ oh__clk mo = Some c /\ ca_usable c.
Proof.
  intros [[M O I L P] (o & Ho & K & _) _]. destruct Hmpu as (m & mo & c & Hm & Hmo & Hc & Hu).
  destruct (decide (m = oh)) as [->|Hne].
  - exists oh, o, c. rewrite P. simplify_eq. split_and!; try done.
    by rewrite (kept_clk _ _ K).
  - exists m, mo, c. rewrite P, O by done. by split_and!.
Qed.

Lemma main_clk_usable c : oh__clk o0 = Some c -> ca_usable c.
Proof.
  intros E. pose proof (mk_clks _ _ Hmod) as Hc. unfold mod_clks in Hc. rewrite E in Hc.
  by apply Forall_inv in Hc.
Qed.

Lemma keeps_initiator (m : option string -> option string -> M world Z) :
  (forall d d' w, m d d' w = Done (- EINVAL) w) ->
  keeps (mpu ← gets (fun s => hs_mpu_oh s);
    (o ← get_oh oh;
     match oh__clk o with
     | None => ret (- EINVAL)
     | Some _ => d ← oh_clkdm (oh__clk o); i ← deref mpu; io ← get_oh i; id ← oh_clkdm (oh__clk io);
         hw_io (m d id)
     end)).
Proof.
  intros Hm e st s H. wp_pure. destruct (mpu_clk _ _ _ H) as (i & mo & ci & Ei & Hi & Hci & Hui).
  destruct (am_here _ _ _ _ _ _ H) as (o & Ho & K & _). eapply wp_get_oh; [done|]. cbv beta.
  rewrite (kept_clk _ _ K). destruct (oh__clk o0) as [c|] eqn:Ec; [|by apply wp_ret].
  pose proof (main_clk_usable c Ec) as Hu.
  wp_pure. unfold oh_clkdm at 1. wp_pure. eapply wp_deref; [done|]. cbv beta. wp_pure.
  destruct (ca_get e c (hs_w s) Hu (am_refs _ _ _ _ _ _ H)) as [k Hk].
  apply wp_hw_io. eapply wp_get_clk; [exact Hk|]. wp_pure. eapply wp_deref; [done|]. cbv beta. wp_pure.
  eapply wp_get_oh; [exact Hi|]. cbv beta. wp_pure. rewrite Hci.
  unfold oh_clkdm. wp_pure. eapply wp_deref; [done|]. cbv beta. wp_pure.
  destruct (ca_get e ci (hs_w s) Hui (am_refs _ _ _ _ _ _ H)) as [ki Hki].
  apply wp_hw_io. eapply wp_get_clk; [exact Hki|]. wp_pure. apply wp_hw_io. unfold wp. rewrite Hm.
  by destruct H.
Qed.

Lemma keeps_add_initiator_dep :
  keeps (mpu ← gets (fun s => hs_mpu_oh s); _add_initiator_dep oh mpu).
Proof. by apply keeps_initiator. Qed.

Lemma keeps_del_initiator_dep :
  keeps (mpu ← gets (fun s => hs_mpu_oh s); _del_initiator_dep oh mpu).
Proof. by apply keeps_initiator. Qed.

(** ** Waiting and resets *)

Lemma keeps_lookup_hardreset name : keeps (_lookup_hardreset oh name).
Proof.
  unfold _lookup_hardreset. apply keeps_get_oh. intros o K. apply keeps_elems; [|apply keeps_ret].
  rewrite (kept_rst_lines _ _ K), (kept_rst_lines_cnt _ _ K). apply Hmod.
Qed.

Lemma keeps_hardreset o name_of (m : string -> M hwmod_state Z) :
  kept o0 o -> (forall name, keeps (m name)) ->
  keeps (when (oh_rst_lines_cnt o =? 1) (r ← aget (oh_rst_lines o) 0; m (name_of r);; ret tt)).
Proof.
  intros K Hm. rewrite (kept_rst_lines _ _ K), (kept_rst_lines_cnt _ _ K), (mk_rst _ _ Hmod).
  destruct (Z.eqb_spec (Z.of_nat (length (oh_rst_lines o0))) 1) as [E|]; [|apply keeps_ret].
  destruct (oh_rst_lines o0) as [|x l]; [done|]. intros e st s H. wp_pure. apply (wp_aget _ 0 x); [lia | done |].
  cbv beta. wp_pure. eapply wp_mono; [by apply Hm|]. done.
Qed.

Lemma keeps_assert_hardreset name : keeps (_assert_hardreset (Some oh) name).
Proof. unfold _assert_hardreset. keeps. apply keeps_lookup_hardreset. Qed.

Lemma keeps_deassert_hardreset name : keeps (_deassert_hardreset (Some oh) name).
Proof. unfold _deassert_hardreset. keeps. apply keeps_lookup_hardreset. Qed.

Context (Hti81 : cpu_is_ti81xx = true).

Lemma wait_target_ready_at e st s :
  at_mod oh s0 o0 e st s ->
  wp (_wait_target_ready oh) (fun r s' => (r = 0 \/ r = - EBUSY) /\ at_mod oh s0 o0 e st s') s.
Proof.
  intros H. unfold _wait_target_ready. destruct (am_here _ _ _ _ _ _ H) as (o & Ho & K & _). wp_pure.
  eapply wp_get_oh; [done|]. cbv beta.
  destruct (has (oh__int_flags o) _HWMOD_NO_MPU_PORT) eqn:Ep; [wp_pure; auto|].
  assert (exists x, 0 <= oh__mpu_port_index o /\ oh_slaves o !! Z.to_nat (oh__mpu_port_index o) = Some x) as (x & Hi & Hx).
  { rewrite (kp_port _ _ K) in Ep. destruct (mk_port _ _ Hmod) as [?|Hr]; [congruence|].
    rewrite (kept_port_index _ _ K), (kept_slaves _ _ K).
    destruct (lookup_lt_is_Some_2 (oh_slaves o0) (Z.to_nat (oh__mpu_port_index o0))) as [x Hx]; [lia|].
    exists x. split; [lia | done]. }
  wp_pure. eapply wp_aget; [done | done |]. cbv beta.
  destruct (has (oh_flags o) HWMOD_NO_IDLEST); [wp_pure; auto|].
  rewrite Hti81. apply wp_hw_io.
  destruct (decide (oh_clkctrl_reg o = 0)) as [->|Hne]; [apply wp_ret; split; [auto | by destruct H]|].
  eapply wp_mono; [by apply ti81xx_cm_wait_module_ready_spec|]. cbv beta. intros r w' [Hr Hio].
  split; [tauto|]. eapply at_mod_w; [|exact H]. eapply ca_io; [by apply io_reads_only|]. apply H.
Qed.

(** ** Clocks *)

(** [m] takes, or gives back, one reference to each clock of the list. *)
Definition takes {A} (l : list string) (m : M hwmod_state A) : Prop :=
  forall e st s, (forall x, 0 <= e x) -> ca_room (plus e l) -> at_mod oh s0 o0 e st s ->
  wp m (fun _ => at_mod oh s0 o0 (plus e l) st) s.
Definition gives {A} (l : list string) (m : M hwmod_state A) : Prop :=
  forall e st s, (forall x, 0 <= e x) -> at_mod oh s0 o0 (plus e l) st s ->
  wp m (fun _ => at_mod oh s0 o0 e st) s.

Lemma at_mod_ext e e' st s : (forall x, e' x = e x) -> at_mod oh s0 o0 e st s -> at_mod oh s0 o0 e' st s.
Proof. intros E [O H R]. split; [done | done |]. by eapply ca_ext. Qed.

Lemma plus_nonneg e l : (forall x, 0 <= e x) -> forall x, 0 <= plus e l x.
Proof. intros He x. unfold plus. pose proof (occurs_nonneg x l). specialize (He x). lia. Qed.

Lemma plus_nil e x : plus e [] x = e x.
Proof. unfold plus. cbn. lia. Qed.

Lemma plus_app e l l' x : plus e (l ++ l') x = plus (plus e l) l' x.
Proof. unfold plus. rewrite occurs_app. lia. Qed.

Lemma plus_one e c x : plus e [c] x = bump e c 1 x.
Proof. unfold plus, bump. cbn. repeat case_decide; lia || congruence. Qed.

Lemma takes_keeps {A} (m : M hwmod_state A) : keeps m -> takes [] m.
Proof.
  intros Hm e st s _ _ H. eapply wp_mono; [by apply Hm|]. cbv beta. intros _ s'.
  apply at_mod_ext. apply plus_nil.
Qed.

Lemma gives_keeps {A} (m : M hwmod_state A) : keeps m -> gives [] m.
Proof.
  intros Hm e st s _ H. apply Hm. eapply at_mod_ext; [|exact H]. intros x. by rewrite plus_nil.
Qed.

Lemma takes_bind {A B} l l' (m : M hwmod_state A) (f : A -> M hwmod_state B) :
  takes l m -> (forall a, takes l' (f a)) -> takes (l ++ l') (bind m f).
Proof.
  intros Hm Hf e st s He Hr H. apply wp_bind. eapply wp_mono; [apply Hm; [done | | done]|].
  { eapply ca_less; [|exact Hr]. intros x. rewrite plus_app. unfold plus at 2.
    pose proof (occurs_nonneg x l'). lia. }
  cbv beta. intros a s' H'. eapply wp_mono; [apply (Hf a); [by apply plus_nonneg | | exact H']|].
  - eapply ca_less; [|exact Hr]. intros x. rewrite plus_app. lia.
  - cbv beta. intros _ s''. apply at_mod_ext. apply plus_app.
Qed.

Lemma gives_bind {A B} l l' (m : M hwmod_state A) (f : A -> M hwmod_state B) :
  gives l m -> (forall a, gives l' (f a)) -> gives (l ++ l') (bind m f).
Proof.
  intros Hm Hf e st s He H. apply wp_bind. eapply wp_mono; [apply (Hm (plus e l')); [by apply plus_nonneg|]|].
  - eapply at_mod_ext; [|exact H]. intros x. rewrite plus_app. unfold plus. lia.
  - cbv beta. intros a s' H'. by apply Hf.
Qed.

Lemma takes_for_each {X} (g : X -> list string) (f : X -> M hwmod_state unit) L :
  Forall (fun x => takes (g x) (f x)) L -> takes (mjoin (g <$> L)) (for_each L f).
Proof.
  induction 1 as [|x L Hx _ IH]; [apply takes_keeps, keeps_ret|]. by apply takes_bind.
Qed.

Lemma gives_for_each {X} (g : X -> list string) (f : X -> M hwmod_state unit) L :
  Forall (fun x => gives (g x) (f x)) L -> gives (mjoin (g <$> L)) (for_each L f).
Proof.
  induction 1 as [|x L Hx _ IH]; [apply gives_keeps, keeps_ret|]. by apply gives_bind.
Qed.

Lemma takes_clk c : ca_usable c -> takes [c] (hw_io (clk_enable arch_clock (Some c));; ret tt).
Proof.
  intros Hc e st s He Hr H. wp_pure. apply wp_hw_io. eapply wp_mono; [apply ca_enable; [done | apply H | done |]|].
  - eapply ca_less; [|exact Hr]. intros x. rewrite plus_one. lia.
  - cbv beta. intros r w' [_ R]. wp_pure. eapply at_mod_w; [|exact H]. eapply ca_ext; [|exact R].
    intros x. apply plus_one.
Qed.

Lemma gives_clk c : ca_usable c -> gives [c] (hw_io (clk_disable arch_clock (Some c))).
Proof.
  intros Hc e st s He H. apply wp_hw_io. eapply wp_mono; [apply ca_disable; [done | apply H | |]|].
  - by apply plus_nonneg.
  - rewrite plus_one. unfold bump. specialize (He c). case_decide; [lia | done].
  - cbv beta. intros r w' R. eapply at_mod_w; [|exact H]. eapply ca_ext; [|exact R].
    intros x. unfold bump at 1. rewrite plus_one. unfold bump. case_decide; lia.
Qed.
End Parts.
