(* ===== verification/HwmodMachine.v ===== *)
(** * The modules as a state machine

    The operations of omap_hwmod.c on a module of a well-formed system: the clocks they take and
    give back, and the step of [mod_step] they make. *)

From S2P Require Import Prelude Platform Prcm Clockdomain ClkCore ClkEnable Mux MuxSignal Hwmod HwmodSpec HwmodRefine.

(** ** Results *)

(** If [m] returns, its result satisfies [P]. *)
Definition returns {S A} (P : A -> Prop) (m : M S A) : Prop := forall s a s', m s = Done a s' -> P a.

Lemma returns_ret {S A} (P : A -> Prop) a : P a -> returns P (ret (S := S) a).
Proof. intros HP s b s' [= <- _]. done. Qed.

Lemma returns_bind {S A B} (P : B -> Prop) (m : M S A) (f : A -> M S B) :
  (forall a, returns P (f a)) -> returns P (bind m f).
Proof. intros Hf s b s'. unfold bind. destruct (m s) as [a s1|]; [apply Hf | done]. Qed.

Ltac returns :=
  repeat lazymatch goal with
  | |- forall _, _ => intro
  | |- returns _ (ret _) => apply returns_ret; auto
  | |- returns _ (bind _ _) => apply returns_bind
  | |- returns _ (match ?x with _ => _ end) => destruct x eqn:?
  end.

Definition ok_or_einval (r : Z) : Prop := r = 0 \/ r = - EINVAL.

Lemma set_softreset_result sysc v r v' : _set_softreset sysc v = (r, v') -> ok_or_einval r.
Proof. unfold _set_softreset, ok_or_einval. repeat case_match; intros [= <- _]; auto. Qed.

Lemma set_slave_idlemode_result sysc m v r v' : _set_slave_idlemode sysc m v = (r, v') -> ok_or_einval r.
Proof. unfold _set_slave_idlemode, ok_or_einval. repeat case_match; intros [= <- _]; auto. Qed.

Section Machine.
  Context `{SOC : Soc} `{HW : Hardware} `{FNS : HwmodFns} `{CA : ClkAccount}.
  Context (Hti : cpu_is_ti814x = true) (Hti81 : cpu_is_ti81xx = true).
  Context (oh : string) (s0 : hwmod_state) (o0 : omap_hwmod).
  Context (H0 : hs_ohs s0 !! oh = Some o0) (Hmod : module_ok s0 o0).
  Context (Hmpu : exists m mo c, hs_mpu_oh s0 = Some m /\ hs_ohs s0 !! m = Some mo /\
    oh__clk mo = Some c /\ ca_usable c).
Implicit Types s : hwmod_state.
Abbreviation keeps m := (keeps oh s0 o0 m).
Abbreviation takes l m := (takes oh s0 o0 l m).
Abbreviation gives l m := (gives oh s0 o0 l m).
Abbreviation at_mod := (at_mod oh s0 o0).

(** ** The clocks of the module *)

Lemma takes_get_oh {B} l (f : omap_hwmod -> M hwmod_state B) :
  (forall o, kept o0 o -> takes l (f o)) -> takes l (bind (get_oh oh) f).
Proof.
  intros Hf e st s He Hr H. destruct (am_here _ _ _ _ _ _ H) as (o & Ho & K & _). wp_pure.
  eapply wp_get_oh; [done|]. by apply Hf.
Qed.

Lemma gives_get_oh {B} l (f : omap_hwmod -> M hwmod_state B) :
  (forall o, kept o0 o -> gives l (f o)) -> gives l (bind (get_oh oh) f).
Proof.
  intros Hf e st s He H. destruct (am_here _ _ _ _ _ _ H) as (o & Ho & K & _). wp_pure.
  eapply wp_get_oh; [done|]. by apply Hf.
Qed.

Lemma takes_elems {A B} l (x : list A) cnt (f : list A -> M hwmod_state B) :
  cnt = Z.of_nat (length x) -> takes l (f x) -> takes l (bind (elems x cnt) f).
Proof. intros Hc Hf e st s He Hr H. wp_pure. eapply wp_elems; [done|]. by apply Hf. Qed.

Lemma gives_elems {A B} l (x : list A) cnt (f : list A -> M hwmod_state B) :
  cnt = Z.of_nat (length x) -> gives l (f x) -> gives l (bind (elems x cnt) f).
Proof. intros Hc Hf e st s He H. wp_pure. eapply wp_elems; [done|]. by apply Hf. Qed.

Lemma takes_ret_r {A B} l (m : M hwmod_state A) (b : B) : takes l m -> takes l (m;; ret b).
Proof. intros Hm. rewrite <- (app_nil_r l). apply takes_bind; [done|]. intros _. apply takes_keeps, keeps_ret. Qed.

Lemma gives_ret_r {A B} l (m : M hwmod_state A) (b : B) : gives l m -> gives l (m;; ret b).
Proof. intros Hm. rewrite <- (app_nil_r l). apply gives_bind; [done|]. intros _. apply gives_keeps, keeps_ret. Qed.

Lemma takes_opt c : Forall ca_usable (opt_list c) ->
  takes (opt_list c) (match c with
                      | Some c => hw_io (clk_enable arch_clock (Some c));; ret tt
                      | None => ret tt end).
Proof.
  destruct c as [c|]; cbn [opt_list]; [|intros _; apply takes_keeps, keeps_ret].
  intros Hc%Forall_inv. by apply takes_clk.
Qed.

Lemma gives_opt c : Forall ca_usable (opt_list c) ->
  gives (opt_list c) (match c with
                      | Some c => hw_io (clk_disable arch_clock (Some c))
                      | None => ret tt end).
Proof.
  destruct c as [c|]; cbn [opt_list]; [|intros _; apply gives_keeps, keeps_ret].
  intros Hc%Forall_inv. by apply gives_clk.
Qed.

(** Each clock of an interface that exists can be used. *)
Lemma swsup_usable i :
  i ∈ oh_slaves o0 -> exists os, hs_ifs s0 !! i = Some os /\
    (has (if_flags os) OCPIF_SWSUP_IDLE = true -> Forall ca_usable (opt_list (if__clk os))).
Proof.
  intros Hi. pose proof (mk_ifs _ _ Hmod) as Hifs. rewrite Forall_forall in Hifs.
  destruct (Hifs i Hi) as [os Hos]. exists os. split; [done|]. intros Hs.
  pose proof (mk_clks _ _ Hmod) as Hc. rewrite Forall_forall in Hc |- *. intros c Hin. apply Hc.
  unfold mod_clks, swsup_list. rewrite !elem_of_app. left; right. apply list_elem_of_join.
  exists (opt_list (if__clk os)). split; [done|]. apply list_elem_of_fmap. exists i. split; [|done].
  by rewrite Hos, Hs.
Qed.

Lemma takes_swsup :
  takes (swsup_list (hs_ifs s0) (oh_slaves o0))
    (swsup_clks (fun c => hw_io (clk_enable arch_clock (Some c));; ret tt) (oh_slaves o0)).
Proof.
  apply takes_for_each, Forall_forall. intros i Hi. destruct (swsup_usable i Hi) as (os & Hos & Hu).
  rewrite Hos. intros e st s He Hr H. wp_pure.
  eapply wp_get_if; [by rewrite (om_ifs _ _ _ (am_only _ _ _ _ _ _ H))|]. cbv beta.
  destruct (has (if_flags os) OCPIF_SWSUP_IDLE).
  - assert (wp (match if__clk os with Some c => hw_io (clk_enable arch_clock (Some c));; ret tt | None => ret tt end)
      (fun _ => at_mod (plus e (opt_list (if__clk os))) st) s) as W by by apply takes_opt; [apply Hu|..].
    by destruct (if__clk os).
  - eapply at_mod_ext in H; [|apply plus_nil]. by destruct (if__clk os).
Qed.

Lemma gives_swsup :
  gives (swsup_list (hs_ifs s0) (oh_slaves o0))
    (swsup_clks (fun c => hw_io (clk_disable arch_clock (Some c))) (oh_slaves o0)).
Proof.
  apply gives_for_each, Forall_forall. intros i Hi. destruct (swsup_usable i Hi) as (os & Hos & Hu).
  rewrite Hos. intros e st s He H. wp_pure.
  eapply wp_get_if; [by rewrite (om_ifs _ _ _ (am_only _ _ _ _ _ _ H))|]. cbv beta.
  destruct (has (if_flags os) OCPIF_SWSUP_IDLE).
  - assert (wp (match if__clk os with Some c => hw_io (clk_disable arch_clock (Some c)) | None => ret tt end)
      (fun _ => at_mod e st) s) as W by by apply gives_opt; [apply Hu|..].
    by destruct (if__clk os).
  - eapply at_mod_ext in H; [|intros x; symmetry; apply plus_nil]. by destruct (if__clk os).
Qed.

Lemma main_clk_list_usable : Forall ca_usable (opt_list (oh__clk o0)).
Proof. pose proof (mk_clks _ _ Hmod) as Hc. unfold mod_clks in Hc. rewrite !Forall_app in Hc. tauto. Qed.

Lemma takes_enable_clocks : takes (mod_clks (hs_ifs s0) o0) (_enable_clocks arch_clock oh).
Proof.
  unfold _enable_clocks, mod_clks. apply takes_get_oh. intros o K. rewrite (kept_clk _ _ K).
  apply takes_bind; [apply takes_opt, main_clk_list_usable|]. intros _.
  rewrite (kept_slaves _ _ K), (kept_slaves_cnt _ _ K). apply takes_elems; [apply Hmod|].
  apply takes_ret_r, takes_swsup.
Qed.

Lemma gives_disable_clocks : gives (mod_clks (hs_ifs s0) o0) (_disable_clocks arch_clock oh).
Proof.
  unfold _disable_clocks, mod_clks. apply gives_get_oh. intros o K. rewrite (kept_clk _ _ K).
  apply gives_bind; [apply gives_opt, main_clk_list_usable|]. intros _.
  rewrite (kept_slaves _ _ K), (kept_slaves_cnt _ _ K). apply gives_elems; [apply Hmod|].
  apply gives_ret_r, gives_swsup.
Qed.

Lemma opt_clk_usable oc : oc ∈ oh_opt_clks o0 -> Forall ca_usable (opt_list (ko__clk oc)).
Proof.
  intros Ho. pose proof (mk_clks _ _ Hmod) as Hc. apply Forall_app in Hc as [_ Hc].
  rewrite Forall_forall in Hc |- *. intros c Hin. apply Hc, list_elem_of_join.
  exists (opt_list (ko__clk oc)). split; [done|]. apply list_elem_of_fmap. by exists oc.
Qed.

Lemma takes_optional : takes (opt_clk_list o0) (_enable_optional_clocks arch_clock oh).
Proof.
  unfold _enable_optional_clocks. apply takes_get_oh. intros o K.
  rewrite (kept_opt_clks _ _ K), (kept_opt_clks_cnt _ _ K). apply takes_elems; [apply Hmod|].
  apply takes_for_each, Forall_forall. intros oc Hoc. by apply takes_opt, opt_clk_usable.
Qed.

Lemma gives_optional : gives (opt_clk_list o0) (_disable_optional_clocks arch_clock oh).
Proof.
  unfold _disable_optional_clocks. apply gives_get_oh. intros o K.
  rewrite (kept_opt_clks _ _ K), (kept_opt_clks_cnt _ _ K). apply gives_elems; [apply Hmod|].
  apply gives_for_each, Forall_forall. intros oc Hoc. by apply gives_opt, opt_clk_usable.
Qed.

(** ** The state machine *)

Lemma set_state_at e st st' s :
  at_mod e st s -> wp (upd_oh oh (set_oh__state st')) (fun _ => at_mod e st') s.
Proof.
  intros [[M O I L P] (o & Ho & K & E) R]. eapply wp_upd_oh; [done|]. split.
  - split; try done. intros x Hx. etrans; [by apply lookup_insert_ne, not_eq_sym | by apply O].
  - eexists. split; [apply lookup_insert_eq|]. split; [|done]. etrans; [exact K | apply kept_state].
  - done.
Qed.

(** A module that was enabled gets its OCP_SYSCONFIG programmed. *)
Lemma keeps_enabled_sysc :
  keeps (sysc ← oh_sysc oh;
    match sysc with
    | None => ret tt
    | Some _ =>
        o ← get_oh oh;
        when (negb (has (oh__int_flags o) _HWMOD_SYSCONFIG_LOADED)) (_update_sysc_cache oh;; ret tt);;
        _enable_sysc oh
    end).
Proof.
  keeps; [by apply keeps_update_sysc_cache | by apply keeps_enable_sysc].
Qed.

Lemma enable_at e st s :
  (forall x, 0 <= e x) -> (may_enable st = true -> ca_room (plus e (mod_clks (hs_ifs s0) o0))) ->
  at_mod e st s ->
  wp (_enable arch_clock oh) (fun r s' =>
    if may_enable st
    then r = 0 /\ at_mod (plus e (mod_clks (hs_ifs s0) o0)) _HWMOD_STATE_ENABLED s' \/ r = - EBUSY /\ at_mod e st s'
    else r = - EINVAL /\ at_mod e st s') s.
Proof.
  intros He Hroom H. unfold _enable. destruct (am_here _ _ _ _ _ _ H) as (o & Ho & K & Est). wp_pure.
  eapply wp_get_oh; [done|]. cbv beta. rewrite Est, <- !negb_orb. change (_ || _ || _)%bool with (may_enable st).
  destruct (may_enable st); cbn [negb]; [|wp_pure; auto].
  specialize (Hroom eq_refl). wp_pure.
  eapply wp_mono.
  { instantiate (1 := fun _ => at_mod e st). destruct ((st =? _) || (st =? _)); cbn [andb]; [|by apply keeps_ret].
    apply (keeps_hardreset oh s0 o0 Hmod o rs_name (_deassert_hardreset (Some oh))); [done | intros ?; by apply keeps_deassert_hardreset | done]. }
  cbv beta. intros _ s1 H1. wp_pure. eapply wp_mono; [by apply keeps_mux_module|]. cbv beta. intros _ s2 H2.
  apply wp_assoc. eapply wp_mono; [by apply (keeps_add_initiator_dep oh s0 o0 H0 Hmod Hmpu)|]. cbv beta. intros _ s3 H3.
  wp_pure. eapply wp_mono; [by apply takes_enable_clocks|]. cbv beta. intros _ s4 H4.
  wp_pure. eapply wp_mono; [by apply wait_target_ready_at|]. cbv beta. intros r s5 [Hr H5].
  destruct Hr as [->| ->].
  - rewrite Z.eqb_refl. wp_pure. eapply wp_mono; [by eapply set_state_at|]. cbv beta. intros _ s6 H6.
    apply wp_assoc. eapply wp_mono; [by apply keeps_enabled_sysc|]. cbv beta. intros _ s7 H7. wp_pure. auto.
  - change (- EBUSY =? 0) with false. wp_pure. eapply wp_mono; [by apply gives_disable_clocks|]. cbv beta.
    intros _ s6 H6. wp_pure. auto.
Qed.

Lemma idle_at e st s :
  (forall x, 0 <= e x) ->
  at_mod (if st =? _HWMOD_STATE_ENABLED then plus e (mod_clks (hs_ifs s0) o0) else e) st s ->
  wp (_idle arch_clock oh) (fun r s' =>
    at_mod e (if st =? _HWMOD_STATE_ENABLED then _HWMOD_STATE_IDLE else st) s') s.
Proof.
  intros He H. unfold _idle. destruct (am_here _ _ _ _ _ _ H) as (o & Ho & K & Est). wp_pure.
  eapply wp_get_oh; [done|]. cbv beta. rewrite Est. destruct (st =? _HWMOD_STATE_ENABLED); cbn [negb]; wp_pure; [|done].
  eapply wp_mono; [by apply keeps_idle_sysc|]. cbv beta. intros _ s1 H1.
  apply wp_assoc. eapply wp_mono; [by apply (keeps_del_initiator_dep oh s0 o0 H0 Hmod Hmpu)|]. cbv beta. intros _ s2 H2.
  wp_pure. eapply wp_mono; [by apply gives_disable_clocks|]. cbv beta. intros _ s3 H3.
  wp_pure. eapply wp_mono; [by apply keeps_mux_module|]. cbv beta. intros _ s4 H4.
  wp_pure. eapply wp_mono; [by eapply set_state_at|]. cbv beta. intros _ s5 H5. by wp_pure.
Qed.

Definition may_shutdown (st : Z) : bool := (st =? _HWMOD_STATE_IDLE) || (st =? _HWMOD_STATE_ENABLED).

Lemma shutdown_at e st s :
  (forall x, 0 <= e x) ->
  at_mod (if st =? _HWMOD_STATE_ENABLED then plus e (mod_clks (hs_ifs s0) o0) else e) st s ->
  wp (_shutdown arch_clock oh) (fun r s' =>
    at_mod e (if may_shutdown st then _HWMOD_STATE_DISABLED else st) s') s.
Proof.
  intros He H. unfold _shutdown. destruct (am_here _ _ _ _ _ _ H) as (o & Ho & K & Est). wp_pure.
  eapply wp_get_oh; [done|]. cbv beta. rewrite Est, <- !negb_orb. change (_ || _)%bool with (may_shutdown st).
  destruct (may_shutdown st) eqn:Em; cbn [negb]; wp_pure.
  2: { destruct (st =? _HWMOD_STATE_ENABLED) eqn:E; [|done]. unfold may_shutdown in Em. by rewrite E, orb_true_r in Em. }
  destruct (mk_class _ _ Hmod) as (c & Hc & Hps & _). unfold oh_cls. wp_pure. eapply wp_get_oh; [done|]. cbv beta.
  eapply wp_deref; [by rewrite (kept_class _ _ K)|]. cbv beta. wp_pure. rewrite Hps. wp_pure. change (negb (0 =? 0)) with false. wp_pure.
  eapply wp_mono; [by apply keeps_shutdown_sysc|]. cbv beta. intros _ s1 H1. wp_pure.
  eapply wp_mono; [apply (keeps_hardreset oh s0 o0 Hmod o rs_name (_assert_hardreset (Some oh))); [done | intros ?; by apply keeps_assert_hardreset | done]|]. cbv beta. intros _ s2 H2.
  destruct (am_here _ _ _ _ _ _ H2) as (o2 & Ho2 & _ & E2). wp_pure. eapply wp_get_oh; [done|]. cbv beta. rewrite E2.
  wp_pure. eapply wp_mono.
  { instantiate (1 := fun _ => at_mod e st). destruct (st =? _HWMOD_STATE_ENABLED); [|by apply keeps_ret].
    apply wp_assoc. eapply wp_mono; [by apply (keeps_del_initiator_dep oh s0 o0 H0 Hmod Hmpu)|]. cbv beta. intros _ s3 H3.
    wp_pure. eapply wp_mono; [by apply gives_disable_clocks|]. cbv beta. intros _ s4 H4. by wp_pure. }
  cbv beta. intros _ s3 H3. wp_pure. eapply wp_mono; [by apply keeps_mux_module|]. cbv beta. intros _ s4 H4.
  wp_pure. eapply wp_mono; [by eapply set_state_at|]. cbv beta. intros _ s5 H5. by wp_pure.
Qed.

Lemma keeps_test_loop cond n i : keeps cond -> keeps (hwmod_test_loop cond n i).
Proof.
  intros Hc. revert i. induction n as [|n IH]; intros i; [apply keeps_ret|]. cbn [hwmod_test_loop].
  apply keeps_bind; [done|]. intros b. apply keeps_if; [apply keeps_ret|]. apply keeps_bind; [|intros _; apply IH].
  apply keeps_hw_io. intros w. by eexists.
Qed.

Lemma softreset_at e st s :
  (forall x, 0 <= e x) -> ca_room (plus e (opt_clk_list o0)) -> at_mod e st s ->
  wp (_ocp_softreset arch_clock oh) (fun r s' => at_mod e st s' /\
    (r = 0 /\ st = _HWMOD_STATE_ENABLED \/ r = - EINVAL \/ r = - ETIMEDOUT)) s.
Proof.
  intros He Hroom H. unfold _ocp_softreset. destruct (am_here _ _ _ _ _ _ H) as (o & Ho & K & Est).
  destruct (mk_class _ _ Hmod) as (c & Hc & _). wp_pure. unfold oh_sysc, oh_cls. wp_pure.
  eapply wp_get_oh; [done|]. cbv beta. eapply wp_deref; [by rewrite (kept_class _ _ K)|]. cbv beta. wp_pure.
  destruct (hc_sysc c) as [sc|]; [|wp_pure; auto].
  destruct (has (sc_sysc_flags sc) SYSC_HAS_SOFTRESET); cbn [negb]; [|wp_pure; auto].
  wp_pure. eapply wp_get_oh; [done|]. cbv beta. rewrite Est.
  destruct (Z.eqb_spec st _HWMOD_STATE_ENABLED) as [->|]; cbn [negb]; [|wp_pure; auto].
  set (l := if has (oh_flags o) HWMOD_CONTROL_OPT_CLKS_IN_RESET then opt_clk_list o0 else []).
  assert (takes l (when (has (oh_flags o) HWMOD_CONTROL_OPT_CLKS_IN_RESET) (_enable_optional_clocks arch_clock oh))) as Ht.
  { subst l. destruct (has _ _); [apply takes_optional | apply takes_keeps, keeps_ret]. }
  assert (gives l (when (has (oh_flags o) HWMOD_CONTROL_OPT_CLKS_IN_RESET) (_disable_optional_clocks arch_clock oh))) as Hg.
  { subst l. destruct (has _ _); [apply gives_optional | apply gives_keeps, keeps_ret]. }
  wp_pure. eapply wp_mono; [apply Ht; [done | | exact H]|].
  { subst l. destruct (has _ _); [done|]. eapply ca_less; [|exact Hroom]. intros x. unfold plus. cbn [occurs].
    pose proof (occurs_nonneg x (opt_clk_list o0)). lia. }
  cbv beta. intros _ s1 H1. destruct (_set_softreset _ _) as [r v] eqn:Er.
  pose proof (set_softreset_result _ _ _ _ Er) as Hr.
  wp_pure. eapply wp_mono.
  { instantiate (1 := fun r s' => at_mod (plus e l) _HWMOD_STATE_ENABLED s' /\ (r = 0 \/ r = - EINVAL \/ r = - ETIMEDOUT)).
    destruct Hr as [->| ->]; [|change (negb (- EINVAL =? 0)) with true; wp_pure; auto].
    change (negb (0 =? 0)) with false. wp_pure.
    eapply wp_mono; [by apply keeps_write_sysconfig|]. cbv beta. intros _ s2 H2. wp_pure.
    eapply wp_mono; [eapply (keeps_if oh s0 o0 (has _ SYSS_HAS_RESET_STATUS)); [..|exact H2]|].
    - apply keeps_test_loop, keeps_bind; [by apply keeps_read | intros; apply keeps_ret].
    - apply keeps_if; [|apply keeps_ret].
      apply keeps_test_loop, keeps_bind; [by apply keeps_read | intros; apply keeps_ret].
    - cbv beta. intros n s3 H3. wp_pure. split; [done|]. destruct (n =? _); auto. }
  cbv beta. intros r' s2 [H2 Hr']. wp_pure. eapply wp_mono; [by apply Hg|]. cbv beta. intros _ s3 H3. wp_pure.
  split; [done|]. destruct Hr' as [->|?]; auto.
Qed.

Lemma reset_at e st s :
  (forall x, 0 <= e x) -> ca_room (plus e (opt_clk_list o0)) -> at_mod e st s ->
  wp (_reset arch_clock oh) (fun r s' => at_mod e st s' /\
    (r = 0 /\ st = _HWMOD_STATE_ENABLED \/ r = - EINVAL \/ r = - ETIMEDOUT)) s.
Proof.
  intros He Hroom H. unfold _reset, oh_cls. destruct (am_here _ _ _ _ _ _ H) as (o & Ho & K & _).
  destruct (mk_class _ _ Hmod) as (c & Hc & _ & Hn). wp_pure. eapply wp_get_oh; [done|]. cbv beta.
  eapply wp_deref; [by rewrite (kept_class _ _ K)|]. cbv beta. rewrite Hn. by apply softreset_at.
Qed.

(** ** The other operations *)

Lemma keeps_returns {A} (P : A -> Prop) (m : M hwmod_state A) e st s :
  keeps m -> returns P m -> at_mod e st s -> wp m (fun r s' => P r /\ at_mod e st s') s.
Proof.
  intros Hk Hr H. specialize (Hk e st s H). unfold wp in *. destruct (m s) as [a s'|] eqn:E; [|done].
  split; [by eapply Hr | done].
Qed.

Lemma other_at op e st s :
  op <> OpEnable -> op <> OpIdle -> op <> OpShutdown -> op <> OpReset -> at_mod e st s ->
  wp (run_op arch_clock op oh) (fun r s' => ok_or_einval r /\ at_mod e st s') s.
Proof.
  unfold ok_or_einval.
  intros ? ? ? ? H. apply keeps_returns; [..|done]; destruct op; try done; cbn [run_op];
    unfold omap_hwmod_enable_wakeup, omap_hwmod_disable_wakeup, omap_hwmod_softreset,
      omap_hwmod_set_slave_idlemode, omap_hwmod_ocp_barrier.
  1-5: keeps; try by (apply keeps_write_sysconfig || apply keeps_enable_wakeup || apply keeps_disable_wakeup || apply keeps_read).
  all: returns; first [eapply set_softreset_result; eassumption | eapply set_slave_idlemode_result; eassumption].
Qed.

(** ** All operations *)

Definition held_in (st : Z) : list string :=
  if st =? _HWMOD_STATE_ENABLED then mod_clks (hs_ifs s0) o0 else [].

(** The references of a module that makes a step. *)
Definition stepped (op : mod_op) (e : string -> Z) (st r : Z) (s : hwmod_state) : Prop :=
  exists st', mod_step st op r st' /\ at_mod (plus e (held_in st')) st' s.

Lemma held_in_other st : st <> _HWMOD_STATE_ENABLED -> held_in st = [].
Proof. intros H. unfold held_in. by rewrite (proj2 (Z.eqb_neq _ _) H). Qed.

Lemma may_enable_other st : may_enable st = true -> st <> _HWMOD_STATE_ENABLED.
Proof. by intros H ->. Qed.

(** The references of a module in the form that [idle_at] and [shutdown_at] have them. *)
Lemma held_in_at e st s :
  at_mod (plus e (held_in st)) st s ->
  at_mod (if st =? _HWMOD_STATE_ENABLED then plus e (mod_clks (hs_ifs s0) o0) else e) st s.
Proof.
  unfold held_in. destruct (st =? _); [done|]. apply at_mod_ext. intros x. by rewrite plus_nil.
Qed.

Lemma none_held_at e st s : st <> _HWMOD_STATE_ENABLED -> at_mod e st s -> at_mod (plus e (held_in st)) st s.
Proof. intros H. rewrite (held_in_other st H). apply at_mod_ext. apply plus_nil. Qed.

Section Op.
  Context (e : string -> Z) (He : forall x, 0 <= e x).
  Context (Hroom : ca_room (plus e (mod_clks (hs_ifs s0) o0 ++ opt_clk_list o0))).

Lemma held_in_room st l :
  (forall x, occurs x (held_in st) + occurs x l <= occurs x (mod_clks (hs_ifs s0) o0 ++ opt_clk_list o0)) ->
  ca_room (plus (plus e (held_in st)) l).
Proof. intros H. eapply ca_less; [|exact Hroom]. intros x. unfold plus. specialize (H x). lia. Qed.

Lemma enable_stepped st s :
  at_mod (plus e (held_in st)) st s -> wp (_enable arch_clock oh) (stepped OpEnable e st) s.
Proof.
  intros H. eapply wp_mono; [apply enable_at; [by apply plus_nonneg | | exact H]|].
  - intros Hm%may_enable_other. apply held_in_room. intros x. rewrite (held_in_other st Hm), occurs_app. cbn [occurs].
    pose proof (occurs_nonneg x (opt_clk_list o0)). lia.
  - cbv beta. intros r s' Hq. destruct (may_enable st) eqn:Em.
    + destruct Hq as [[-> Hq]|[-> Hq]]; [|exists st; split; [by constructor | done]].
      exists _HWMOD_STATE_ENABLED. split; [by constructor|]. eapply at_mod_ext; [|exact Hq]. intros x.
      rewrite (held_in_other st), <- plus_app by by apply may_enable_other. done.
    + destruct Hq as [-> Hq]. exists st. split; [by constructor | done].
Qed.

Lemma idle_stepped st s :
  at_mod (plus e (held_in st)) st s -> wp (_idle arch_clock oh) (fun _ => stepped OpIdle e st 0) s.
Proof.
  intros H. eapply wp_mono; [by apply (idle_at e st), held_in_at|].
  cbv beta. intros _ s' Hq. destruct (Z.eqb_spec st _HWMOD_STATE_ENABLED) as [->|Hne]; eexists.
  - split; [by constructor | by apply none_held_at].
  - split; [by apply step_idle_wrong | by apply none_held_at].
Qed.

Lemma shutdown_stepped st s :
  at_mod (plus e (held_in st)) st s -> wp (_shutdown arch_clock oh) (fun _ => stepped OpShutdown e st 0) s.
Proof.
  intros H. eapply wp_mono; [by apply (shutdown_at e st), held_in_at|].
  cbv beta. intros _ s' Hq. destruct (may_shutdown st) eqn:Em; unfold may_shutdown in Em.
  - exists _HWMOD_STATE_DISABLED. split; [|by apply none_held_at]. constructor. apply orb_true_iff in Em as [?|?]; bool_to_prop; auto.
  - bool_to_prop. exists st. split; [by apply step_shutdown_wrong | by apply none_held_at].
Qed.

Lemma run_op_at op st s :
  at_mod (plus e (held_in st)) st s -> wp (run_op arch_clock op oh) (stepped op e st) s.
Proof.
  intros H. destruct (decide (op = OpEnable)) as [->|Hn1]; [by apply enable_stepped|].
  destruct (decide (op = OpIdle)) as [->|Hn2].
  { cbn [run_op omap_hwmod_idle]. wp_pure. eapply wp_mono; [by apply idle_stepped|]. cbv beta. intros _ s' Hs. by wp_pure. }
  destruct (decide (op = OpShutdown)) as [->|Hn3].
  { cbn [run_op omap_hwmod_shutdown]. wp_pure. eapply wp_mono; [by apply shutdown_stepped|]. cbv beta.
    intros _ s' Hs. by wp_pure. }
  destruct (decide (op = OpReset)) as [->|Hn4].
  { eapply wp_mono; [apply (reset_at (plus e (held_in st)) st); [by apply plus_nonneg | | exact H]|].
    - apply held_in_room. intros x. rewrite occurs_app. unfold held_in.
      pose proof (occurs_nonneg x (mod_clks (hs_ifs s0) o0)). destruct (_ =? _); cbn [occurs]; lia.
    - cbv beta. intros r s' [Hq Hr]. exists st. split; [by constructor | done]. }
  eapply wp_mono; [by apply other_at|]. cbv beta. intros r s' [Hr Hq]. exists st. split; [by apply step_other | done].
Qed.
End Op.
End Machine.
