(* ===== verification/HwmodSystem.v ===== *)
(** * All the modules

    Operations on the modules of a system, in any order, are runs of the state machines of the
    modules and keep the account of the clocks. *)

From S2P Require Import Prelude Platform Prcm Clockdomain ClkCore ClkEnable Mux MuxSignal Hwmod HwmodSpec HwmodRefine HwmodMachine.

(** ** The machine of all modules *)

Section Ops.
  Context `{SOC : Soc} `{HW : Hardware} `{FNS : HwmodFns} (arch_clock : clk_functions).

(** The results of a sequence of operations. *)
Fixpoint run_ops (l : list (mod_op * string)) : M hwmod_state (list Z) :=
  match l with
  | [] => ret []
  | (op, oh) :: l' => r ← run_op arch_clock op oh; rs ← run_ops l'; ret (r :: rs)
  end.
End Ops.

(** The states of all modules. *)
Definition state_of (s : hwmod_state) (oh : string) : Z :=
  match hs_ohs s !! oh with Some o => oh__state o | None => _HWMOD_STATE_UNKNOWN end.

(** The runs of the machine: each operation changes the state of its module. *)
Inductive machine : (string -> Z) -> list (mod_op * string) -> list Z -> (string -> Z) -> Prop :=
| machine_nil f g : (forall x, g x = f x) -> machine f [] [] g
| machine_cons f op oh l r rs st g :
    mod_step (f oh) op r st ->
    machine (fun x => if decide (x = oh) then st else f x) l rs g ->
    machine f ((op, oh) :: l) (r :: rs) g.

Section System.
  Context `{SOC : Soc} `{HW : Hardware} `{FNS : HwmodFns} `{CA : ClkAccount}.
  Context (Hti : cpu_is_ti814x = true) (Hti81 : cpu_is_ti81xx = true).
Implicit Types s : hwmod_state.

Lemma kept_clks ifs o o' : kept o o' -> mod_clks ifs o' = mod_clks ifs o.
Proof. intros K. unfold mod_clks. by rewrite (kept_clk _ _ K), (kept_slaves _ _ K). Qed.

Lemma kept_opt_clk_list o o' : kept o o' -> opt_clk_list o' = opt_clk_list o.
Proof. intros K. unfold opt_clk_list. by rewrite (kept_opt_clks _ _ K). Qed.

(** ** Well-formed modules stay well formed *)

Lemma mux_ok_same x x' h : x' = set_ms_w (ms_w x') x -> mux_ok x h -> mux_ok x' h.
Proof. intros -> [Hc Hp]. by split. Qed.

Lemma module_ok_same oh s s' o : only_mod oh s s' -> module_ok s o -> module_ok s' o.
Proof.
  intros [M _ I _ _] [? ? ? ? ? ? ? Hm]. split; rewrite ?I; try done. intros h Hh.
  eapply mux_ok_same; [exact M | by apply Hm].
Qed.

Lemma module_ok_kept oh s s' o o' : only_mod oh s s' -> kept o o' -> module_ok s o -> module_ok s' o'.
Proof.
  intros Hs K Hok. pose proof (module_ok_same _ _ _ _ Hs Hok) as Hok'. destruct Hok' as [H1 H2 H3 H4 H5 H6 H7 H8].
  split.
  - by rewrite (kept_class _ _ K).
  - by rewrite (kept_slaves _ _ K), (kept_slaves_cnt _ _ K).
  - by rewrite (kept_slaves _ _ K).
  - by rewrite (kept_rst_lines _ _ K), (kept_rst_lines_cnt _ _ K).
  - by rewrite (kept_opt_clks _ _ K), (kept_opt_clks_cnt _ _ K).
  - by rewrite (kept_clks _ _ _ K), (kept_opt_clk_list _ _ K).
  - by rewrite (kp_port _ _ K), (kept_port_index _ _ K), (kept_slaves _ _ K).
  - intros h' Hh'. pose proof (kp_mux _ _ K) as Km. rewrite Hh' in Km. destruct (oh_mux o) as [h|]; [|done].
    eapply mux_ok_kept; [by apply H8 | done].
Qed.

(** ** The references of one module among those of all *)

Lemma occurs_join (f g : string -> list string) L x :
  (forall y, y ∈ L -> occurs x (f y) = occurs x (g y)) -> occurs x (mjoin (f <$> L)) = occurs x (mjoin (g <$> L)).
Proof.
  induction L as [|y L IH]; intros H; [done|]. change (occurs x (f y ++ mjoin (f <$> L)) = occurs x (g y ++ mjoin (g <$> L))).
  rewrite !occurs_app, H, IH by (try left; intros; apply H; by right). done.
Qed.

Lemma occurs_join_le (f g : string -> list string) L x :
  (forall y, occurs x (f y) <= occurs x (g y)) -> occurs x (mjoin (f <$> L)) <= occurs x (mjoin (g <$> L)).
Proof.
  intros H. induction L as [|y L IH]; [done|]. change (occurs x (f y ++ mjoin (f <$> L)) <= occurs x (g y ++ mjoin (g <$> L))).
  rewrite !occurs_app. specialize (H y). lia.
Qed.

Lemma occurs_split (f : string -> list string) l1 l2 oh x :
  occurs x (mjoin (f <$> (l1 ++ oh :: l2))) = occurs x (mjoin (f <$> (l1 ++ l2))) + occurs x (f oh).
Proof.
  rewrite !fmap_app, !join_app, !occurs_app.
  change (mjoin (f <$> oh :: l2)) with (f oh ++ mjoin (f <$> l2)). rewrite occurs_app. lia.
Qed.

Lemma held_most s y x : occurs x (held_of s y) <= occurs x (most_of s y).
Proof.
  unfold held_of, most_of. destruct (hs_ohs s !! y) as [o|]; [|done]. rewrite occurs_app. unfold mod_held.
  pose proof (occurs_nonneg x (mod_clks (hs_ifs s) o)). pose proof (occurs_nonneg x (opt_clk_list o)).
  case_match; cbn [occurs]; lia.
Qed.

(** The references of the modules other than [oh]. *)
Definition rest (base : string -> Z) (s : hwmod_state) (l1 l2 : list string) : string -> Z :=
  plus base (mjoin (held_of s <$> (l1 ++ l2))).

Lemma rest_held base s l1 l2 oh x :
  hs_list s = l1 ++ oh :: l2 -> plus base (held s) x = plus (rest base s l1 l2) (held_of s oh) x.
Proof. intros E. unfold rest, plus, held. rewrite E, occurs_split. lia. Qed.

Lemma rest_room base s l1 l2 oh x :
  hs_list s = l1 ++ oh :: l2 -> plus (rest base s l1 l2) (most_of s oh) x <= plus base (most s) x.
Proof.
  intros E. unfold rest, plus, most. rewrite E, occurs_split.
  pose proof (occurs_join_le (held_of s) (most_of s) (l1 ++ l2) x (fun y => held_most s y x)). lia.
Qed.

(** The others hold what they held. *)
Lemma rest_same base s s' l1 l2 oh x :
  only_mod oh s s' -> oh ∉ l1 ++ l2 -> rest base s' l1 l2 x = rest base s l1 l2 x.
Proof.
  intros [_ O I _ _] Hni. unfold rest, plus. f_equal. apply occurs_join. intros y Hy. unfold held_of.
  rewrite O, I; [done|]. intros ->. done.
Qed.

Lemma most_same s s' oh o o' x :
  only_mod oh s s' -> hs_ohs s !! oh = Some o -> hs_ohs s' !! oh = Some o' -> kept o o' ->
  occurs x (most s') = occurs x (most s).
Proof.
  intros [_ O I L _] Ho Ho' K. unfold most. rewrite L. apply occurs_join. intros y _. unfold most_of.
  destruct (decide (y = oh)) as [->|Hne]; [|by rewrite O, I].
  rewrite Ho, Ho', I, (kept_clks _ _ _ K), (kept_opt_clk_list _ _ K). done.
Qed.

(** ** One operation *)

(** What one operation does to the whole system. *)
Definition op_done (base : string -> Z) (op : mod_op) (oh : string) (s : hwmod_state) (r : Z)
    (s' : hwmod_state) : Prop :=
  hwmod_ok base s' /\ hs_list s' = hs_list s /\ exists st, mod_step (state_of s oh) op r st /\
    forall x, state_of s' x = if decide (x = oh) then st else state_of s x.

Lemma at_mod_done base op oh o s l1 l2 r s' :
  hwmod_ok base s -> hs_list s = l1 ++ oh :: l2 -> hs_ohs s !! oh = Some o ->
  stepped oh s o op (rest base s l1 l2) (oh__state o) r s' -> op_done base op oh s r s'.
Proof.
  intros [Hnd Hmods Hmpu Hb _ Hroom] El Ho (st' & Hstep & [Hs (o' & Ho' & K & Est) R]).
  pose proof Hs as [M O I L P]. assert (oh ∉ l1 ++ l2) as Hni.
  { rewrite El in Hnd. apply NoDup_app in Hnd as (_ & H1 & H2). apply NoDup_cons in H2 as [H2 _].
    rewrite elem_of_app. intros [Hin|Hin]; [apply (H1 oh Hin); left | done]. }
  split; [|split; [done|]]; [split|].
  - by rewrite L.
  - rewrite L. intros y Hy. destruct (Hmods y Hy) as (oy & Hoy & Hoky). destruct (decide (y = oh)) as [->|Hne].
    + exists o'. split; [done|]. simplify_eq. by eapply module_ok_kept.
    + exists oy. rewrite O by done. split; [done | by eapply module_ok_same].
  - destruct Hmpu as (m & mo & c & Hm & Hmo & Hc & Hu). destruct (decide (m = oh)) as [->|Hne].
    + exists oh, o', c. rewrite P. simplify_eq. by rewrite (kept_clk _ _ K).
    + exists m, mo, c. by rewrite P, O.
  - done.
  - eapply ca_ext; [|exact R]. intros x. rewrite (rest_held _ _ l1 l2 oh) by by rewrite L. unfold plus at 1.
    rewrite (rest_same base s s' l1 l2 oh x Hs Hni). unfold held_of, held_in, mod_held.
    by rewrite Ho', I, Est, (kept_clks _ _ _ K).
  - eapply ca_less; [|exact Hroom]. intros x. unfold plus. rewrite (most_same s s' oh o o' x); done || lia.
  - exists st'. unfold state_of. rewrite Ho. split; [done|]. intros x.
    case_decide; [subst x; by rewrite Ho' | by rewrite O].
Qed.

Lemma run_op_done base op oh s :
  hwmod_ok base s -> oh ∈ hs_list s -> wp (run_op arch_clock op oh) (op_done base op oh s) s.
Proof.
  intros Hok Hin. destruct (ho_mods _ _ Hok oh Hin) as (o & Ho & Hmod).
  apply list_elem_of_split in Hin as (l1 & l2 & El).
  eapply wp_mono; [apply (run_op_at Hti Hti81 oh s o Ho Hmod (ho_mpu _ _ Hok) (rest base s l1 l2)) with (st := oh__state o)|].
  - apply plus_nonneg, Hok.
  - eapply ca_less; [|apply (ho_room _ _ Hok)]. intros x.
    pose proof (rest_room base s l1 l2 oh x El) as H. unfold most_of in H. by rewrite Ho in H.
  - split; [reflexivity | by exists o |]. eapply ca_ext; [|apply Hok]. intros x.
    rewrite (rest_held base s l1 l2 oh x El). unfold plus, held_of, held_in, mod_held. by rewrite Ho.
  - intros r s' Hs. by eapply at_mod_done.
Qed.

Lemma machine_ext f f' l rs g : (forall x, f' x = f x) -> machine f l rs g -> machine f' l rs g.
Proof.
  intros E H. revert f' E. induction H as [f g Hg|f op oh l r rs st g Hs _ IH]; intros f' E.
  - constructor. intros x. by rewrite Hg, E.
  - apply machine_cons with st; [by rewrite E|]. apply IH. intros x. case_decide; [done | apply E].
Qed.

Lemma run_ops_machine base ops s :
  hwmod_ok base s -> Forall (fun '(_, oh) => oh ∈ hs_list s) ops ->
  wp (run_ops arch_clock ops) (fun rs s' => hwmod_ok base s' /\ hs_list s' = hs_list s /\
    machine (state_of s) ops rs (state_of s')) s.
Proof.
  revert s. induction ops as [|[op oh] ops IH]; intros s Hok Hin; cbn [run_ops].
  { apply wp_ret. split; [done|]. split; [done|]. by constructor. }
  inversion_clear Hin as [|? ? Hoh Hrest]. wp_pure. eapply wp_mono; [by apply (run_op_done base)|]. cbv beta.
  intros r s1 (Hok1 & L1 & st & Hstep & Hst). wp_pure. eapply wp_mono; [apply IH; [done | by rewrite L1]|].
  cbv beta. intros rs s2 (Hok2 & L2 & Hm). wp_pure. split; [done|]. split; [by rewrite L2|].
  apply machine_cons with st; [done|]. eapply machine_ext; [|exact Hm]. intros x. symmetry. apply Hst.
Qed.
End System.

(** ** Properties *)

(** C13: the operations on the modules implement the state machine, and no clock is lost or left
    running.  From a system in which the references to the clocks are those of the modules that
    are enabled (beside those of others), any sequence of enabling, idling, shutting down,
    resetting, wake-up and idle-mode changes on any modules runs without a fault; the results and
    the states of the modules are a run of the machine (each operation changes the state of its
    own module only, an enable that times out changes none), and at the end the references are
    again exactly those of the modules that are enabled.

    This is for modules whose clocks can be enabled and whose classes have no functions of their
    own for resetting and for before a shutdown ([module_ok]).  [ClkAccount] says the first: a
    reference to a usable clock can be taken while there is room; [chip_account] proves it for
    the clock framework on the DM8148, with room for 126 references.  Where a clock cannot be enabled the claim does
    not hold: the module counts as enabled without the reference
    ([HwmodExamples.enable_ignores_clock_errors]). *)
Theorem hwmod_refines `{SOC : Soc} `{HW : Hardware} `{FNS : HwmodFns} `{CA : ClkAccount} base ops s :
  cpu_is_ti814x = true -> cpu_is_ti81xx = true ->
  hwmod_ok base s -> Forall (fun '(_, oh) => oh ∈ hs_list s) ops ->
  wp (run_ops arch_clock ops) (fun rs s' => hwmod_ok base s' /\ machine (state_of s) ops rs (state_of s')) s.
Proof.
  intros Hti Hti81 Hok Hin. eapply wp_mono; [by apply (run_ops_machine Hti Hti81 base)|]. cbv beta.
  intros rs s' (Hok' & _ & Hm). done.
Qed.
