(* ===== verification/HwmodClocks.v ===== *)
(** * The clock framework of the booted chip keeps accounts

    The clocks of the DM8148 provide what the hardware modules rely on ([ClkAccount]): on a chip
    whose DPLLs follow their control registers, every clock can be enabled as long as fewer than
    127 references are held in all. *)

From S2P Require Import Prelude Platform Prcm Powerdomain Clockdomain ClkCore ClkEnable Adpll ClkRate Clk814xData Dm8148.
From S2P Require Import Mux MuxSignal Hwmod HwmodSpec HwmodRefine HwmodMachine.

(** ** No use count exceeds the number of references by more than one *)

Lemma zsum_add f g L : zsum (fun x => f x + g x) L = zsum f L + zsum g L.
Proof. induction L as [|a L IH]; [done|]. unfold zsum in *. cbn [foldr]. lia. Qed.

Lemma zsum_swap (g : string -> string -> Z) L L' :
  zsum (fun c => zsum (g c) L') L = zsum (fun d => zsum (fun c => g c d) L) L'.
Proof.
  induction L as [|a L IH].
  - induction L' as [|b L' IH']; [done|]. unfold zsum in *. cbn [foldr] in *. lia.
  - unfold zsum at 1. cbn [foldr]. fold (zsum (fun c => zsum (g c) L') L). rewrite IH, <- zsum_add. done.
Qed.

Lemma zsum_le f g L : (forall x, x ∈ L -> f x <= g x) -> zsum f L <= zsum g L.
Proof.
  induction L as [|a L IH]; intros H; [done|]. unfold zsum in *. cbn [foldr].
  pose proof (H a ltac:(left)). specialize (IH ltac:(intros; apply H; by right)). lia.
Qed.

(** A clock in use has at most one parent. *)
Lemma one_parent w d L :
  NoDup L -> (forall c k, w_clks w !! c = Some k -> 0 <= ck_usecount k) ->
  zsum (fun c => child_use w c d) L <= in_use (usecount_of w d).
Proof.
  intros HL Hn. unfold in_use, usecount_of. destruct (w_clks w !! d) as [k|] eqn:Hk.
  2: { assert (zsum (fun c => child_use w c d) L = 0) as ->; [|done].
       clear HL. induction L as [|a L IH]; [done|]. unfold zsum in *. cbn [foldr]. rewrite IH.
       unfold child_use. by rewrite Hk. }
  destruct (0 <? ck_usecount k) eqn:Eu.
  - induction HL as [|a L Ha _ IH]; [done|]. unfold zsum in *. cbn [foldr].
    unfold child_use at 1. rewrite Hk, Eu. cbn [andb]. case_bool_decide as Ep; [|lia].
    enough (foldr (fun x b => child_use w x d + b) 0 L = 0) as E by lia.
    clear IH. induction L as [|b L IH]; [done|]. apply not_elem_of_cons in Ha as [Hab Ha]. cbn [foldr].
    rewrite IH by done. unfold child_use. rewrite Hk, Eu. cbn [andb]. rewrite bool_decide_false by congruence. done.
  - clear HL. induction L as [|a L IH]; [done|]. unfold zsum in *. cbn [foldr].
    unfold child_use at 1. rewrite Hk, Eu. cbn [andb]. lia.
Qed.

Lemma usecount_bound L e w c :
  NoDup L -> counted L e (fun _ => 0) w -> (forall x, 0 <= e x) -> usecount_of w c <= zsum e L + 1.
Proof.
  intros HL Hcn He. assert (0 <= zsum e L) as Hz by (apply zsum_nonneg; auto).
  destruct (w_clks w !! c) as [k|] eqn:Hk; [|unfold usecount_of; rewrite Hk; lia].
  pose proof (cn_dom _ _ _ _ Hcn c k Hk) as Hin.
  assert (forall c k, w_clks w !! c = Some k -> 0 <= ck_usecount k) as Hn by (intros x y Hx; apply (cn_range _ _ _ _ Hcn x y Hx)).
  assert (zsum (usecount_of w) L <= zsum e L + zsum (fun d => in_use (usecount_of w d)) L) as Hsum.
  { etrans; [apply (zsum_le _ (fun x => e x + zsum (child_use w x) L))|].
    - intros x _. unfold usecount_of. destruct (w_clks w !! x) as [kx|] eqn:Hx.
      + by rewrite (cn_clk _ _ _ _ Hcn x kx Hx).
      + specialize (He x). pose proof (zsum_nonneg (child_use w x) L ltac:(intros; apply child_use_nonneg)). lia.
    - rewrite zsum_add, zsum_swap. apply Z.add_le_mono_l, zsum_le. intros d _. by apply one_parent. }
  assert (zsum (fun x => usecount_of w x - in_use (usecount_of w x)) L <= zsum e L) as Hd.
  { pose proof (zsum_add (fun x => usecount_of w x - in_use (usecount_of w x)) (fun d => in_use (usecount_of w d)) L) as E.
    rewrite (zsum_ext _ (usecount_of w)) in E by (intros; lia). lia. }
  assert (forall x, 0 <= usecount_of w x) as Hu.
  { intros x. unfold usecount_of. destruct (w_clks w !! x) eqn:Hx; [by eapply Hn | done]. }
  pose proof (zsum_ge (fun x => usecount_of w x - in_use (usecount_of w x)) L c Hin) as H. cbv beta in H.
  specialize (H ltac:(intros y _; specialize (Hu y); unfold in_use; case_bool; bool_to_prop; lia)).
  assert (in_use (usecount_of w c) <= 1) by (unfold in_use; case_bool; lia). lia.
Qed.

(** ** The DPLLs of the chip obey *)

Section Chip.
  #[local] Existing Instance dm8148_soc.
  #[local] Existing Instance tied_hw.

Definition status_check (dd : dpll_data) : bool :=
  match status_of (dd_idlest_reg dd) with
  | Some d => (dd_control_reg d =? dd_control_reg dd) && (dd_bypass_bit d =? dd_bypass_bit dd)
  | None => false
  end &&
  is_none (List.find (fun d => dd_idlest_reg dd =? dd_div_m2n_reg d) dpll_list) &&
  is_none (List.find (fun d => dd_control_reg dd =? dd_div_m2n_reg d) dpll_list) &&
  is_none (status_of (dd_control_reg dd)) &&
  (0 <=? dd_bypass_bit dd) && (dd_bypass_bit dd <? 32) &&
  has_mode dd ADPLL_LOW_POWER_BYPASS && has_mode dd ADPLL_LOCKED &&
  forallb (fun x => forallb (fun a =>
    Z.land (u32 (Z.lor x a)) (dd_idlest_mask dd) =? lsl x (__ffs (dd_idlest_mask dd)))
    [TI814X_ADPLL_STBYRET_ACK_MASK; 0]) [ST_ADPLL_BYPASSED; ST_ADPLL_LOCKED].

(** What the status register says is what the control register asks for. *)
Lemma status_follows dd w :
  status_check dd = true ->
  Z.land (regval w (dd_idlest_reg dd)) (dd_idlest_mask dd) =
  lsl (if Z.testbit (regval w (dd_control_reg dd)) (dd_bypass_bit dd) then ST_ADPLL_BYPASSED else ST_ADPLL_LOCKED)
    (__ffs (dd_idlest_mask dd)).
Proof.
  unfold status_check. destruct (status_of (dd_idlest_reg dd)) as [d|] eqn:Es; [|done]. intros H.
  repeat match goal with H : (_ && _)%bool = true |- _ => apply andb_true_iff in H as [? ?] end.
  repeat match goal with H : is_none _ = true |- _ => apply is_none_true in H end. bool_to_prop.
  assert (regval w (dd_control_reg dd) = u32 (last_write boot_reg (w_trace w) (dd_control_reg dd))) as Ec.
  { unfold regval. cbn [hw_read tied_hw dm8148_hw].
    repeat match goal with E : _ = None |- _ => rewrite E end. done. }
  assert (regval w (dd_idlest_reg dd) = u32 (adpll_status d (last_write boot_reg (w_trace w) (dd_control_reg d)))) as Ei.
  { unfold regval. cbn [hw_read tied_hw dm8148_hw].
    match goal with E : List.find (fun d => dd_idlest_reg dd =? _) _ = None |- _ => rewrite E end.
    by rewrite Es. }
  rewrite Ec, Ei. unfold adpll_status.
  repeat match goal with E : dd_control_reg d = _ |- _ => rewrite E | E : dd_bypass_bit d = _ |- _ => rewrite E end.
  unfold wrapu at 2. rewrite Z.mod_pow2_bits_low by lia.
  match goal with E : forallb _ _ = true |- _ => cbn [forallb] in E; rewrite !andb_true_r in E end. bool_to_prop.
  destruct (Z.testbit _ (dd_bypass_bit dd)), (Z.testbit _ (dd_stby_ret_bit d)); assumption.
Qed.

Lemma control_plain dd : status_check dd = true -> plain_reg (dd_control_reg dd).
Proof.
  unfold status_check. intros H.
  repeat match goal with H : (_ && _)%bool = true |- _ => apply andb_true_iff in H as [? ?] end.
  repeat match goal with H : is_none _ = true |- _ => apply is_none_true in H end.
  intros e h. cbn [hw_read tied_hw dm8148_hw]. repeat match goal with E : _ = None |- _ => rewrite E end.
  by destruct e.
Qed.

(** A wait for the status the control register asks for succeeds. *)
Lemma wait_status_ok c k d dd st w :
  dpll_clk c k d dd w -> status_check dd = true ->
  st = (if Z.testbit (regval w (dd_control_reg dd)) (dd_bypass_bit dd) then ST_ADPLL_BYPASSED else ST_ADPLL_LOCKED) ->
  wp (_ti814x_wait_dpll_status c st) (fun r _ => r = 0) w.
Proof.
  intros Hc Hs ->. eapply wp_mono; [by eapply wait_status_wp|]. cbv beta zeta.
  intros r w' [_ [[-> _]|[_ Hno]]]; [done|]. destruct Hno. exists O. split; [done|].
  unfold poll_ok. cbn [polled]. change (u32 (hw_read (w_trace w) (dd_idlest_reg dd))) with (regval w (dd_idlest_reg dd)).
  rewrite (status_follows dd w Hs). apply Z.eqb_refl.
Qed.

Lemma status_check_bit dd : status_check dd = true ->
  0 <= dd_bypass_bit dd < 32 /\ has_mode dd ADPLL_LOW_POWER_BYPASS = true /\ has_mode dd ADPLL_LOCKED = true.
Proof.
  unfold status_check. intros H.
  repeat match goal with H : (_ && _)%bool = true |- _ => apply andb_true_iff in H as [? ?] end.
  bool_to_prop. split; [lia | done].
Qed.

Lemma bypass_ok c k d dd w :
  dpll_clk c k d dd w -> status_check dd = true -> wp (_ti814x_dpll_bypass c) (fun r _ => r = 0) w.
Proof.
  intros Hc Hs. destruct (status_check_bit dd Hs) as (Hb & Hm & _). unfold _ti814x_dpll_bypass. wp_pure.
  eapply clk_dpll_wp; [exact Hc|]. rewrite Hm. cbn [negb]. wp_pure. eapply wp_mono; [apply set_bits_wp, lsl_uint|]. cbv beta.
  intros _ w1 [Hio Hv _]. eapply wait_status_ok; [by eapply dpll_clk_io | done |].
  rewrite (Hv (control_plain dd Hs)), lsl_1, Z.lor_spec, Z.pow2_bits_true, orb_true_r by lia. done.
Qed.

Lemma lock_ok c k d dd w :
  dpll_clk c k d dd w -> status_check dd = true -> wp (_ti814x_dpll_lock c) (fun r _ => r = 0) w.
Proof.
  intros Hc Hs. destruct (status_check_bit dd Hs) as (Hb & _ & Hm). unfold _ti814x_dpll_lock, _ti814x_rel_dpll_bypass.
  wp_pure. eapply clk_dpll_wp; [exact Hc|]. rewrite Hm. cbn [negb]. wp_pure. eapply clk_dpll_wp; [exact Hc|]. wp_pure.
  eapply wp_mono; [apply clear_bits_wp|]. cbv beta. intros _ w1 [Hio Hv _]. wp_pure.
  eapply wait_status_ok; [by eapply dpll_clk_io | done |].
  rewrite (Hv (control_plain dd Hs)), lsl_1, Z.land_spec, Z.lnot_spec, Z.pow2_bits_true, andb_false_r by lia. done.
Qed.

(** ** The operations of the clocks succeed *)

Lemma clkops_zero o c : o <> clkops_ti814x_dpll_ops -> returns (fun r => r = 0) (clkops_enable o c).
Proof.
  intros Ho. destruct o; try done; cbn [clkops_enable];
    unfold clkll_enable_null, omap2_dflt_clk_enable, ti81xx_dflt_wait_clk_enable, ti81xx_pcie_clk_enable, ti81xx_usb_clk_enable;
    returns.
Qed.

Lemma booted_status :
  forallb (fun '(_, k) => negb (bool_decide (ck_ops k = clkops_ti814x_dpll_ops)) ||
    match ck_dpll_data k with
    | Some d => match w_dplls booted !! d with Some dd => status_check dd | None => false end
    | None => false
    end) (map_to_list (w_clks booted)) = true.
Proof. vm_compute. reflexivity. Qed.

Lemma dpll_status_ok c k w :
  same_static booted w -> w_clks w !! c = Some k -> ck_ops k = clkops_ti814x_dpll_ops ->
  exists d dd, dpll_clk c k d dd w /\ status_check dd = true.
Proof.
  intros Hss Hk Ho. destruct (static_lookup_inv _ _ _ _ Hss Hk) as (k0 & Hk0 & Hi).
  pose proof (forallb_map _ _ _ _ booted_status Hk0) as E. cbv beta iota in E.
  rewrite bool_decide_true in E by (rewrite <- (idle_ops _ _ Hi); done). cbn [negb orb] in E.
  rewrite <- (idle_dpll _ _ Hi) in E. destruct (ck_dpll_data k) as [d|] eqn:Ed; [|done].
  destruct (w_dplls booted !! d) as [dd|] eqn:Edd; [|done]. exists d, dd. split; [|done]. split; try done.
  destruct (ss_rest _ _ Hss) as (cs & ds & ps & tr & ->). exact Edd.
Qed.

Lemma booted_static : clk_static clk_rank booted.
Proof. apply booted_forest. Qed.

Lemma ops_zero c k w r w' :
  same_static booted w -> w_clks w !! c = Some k -> ops_enable (ck_ops k) c w = Done r w' -> r = 0.
Proof.
  intros Hss Hk. change (ops_enable (ck_ops k) c) with (clkops_enable (ck_ops k) c).
  destruct (decide (ck_ops k = clkops_ti814x_dpll_ops)) as [E|Hne]; [|by intros; eapply clkops_zero].
  rewrite E. cbn [clkops_enable]. intros Hrun. destruct (dpll_status_ok c k w Hss Hk E) as (d & dd & Hc & Hs).
  assert (clk_static clk_rank w) as Hst by (eapply clk_static_frame; [exact Hss | exact booted_static]).
  destruct (st_ops _ _ Hst c k Hk k Hk E) as (d' & dd' & Hd & Hdd & [bk Hb] & [rk Hrk] & Hm & Hden).
  assert (dpll_clk c k d' dd' w) as Hc' by by split.
  destruct (wp_done _ _ _ _ _ Hrun (dpll_enable_io c k d' dd' bk rk w Hc' Hb Hrk Hm Hden)) as [_ (w1 & w2 & Hio & Hr)].
  destruct Hr as [Hr|Hr]; apply (wp_done _ (fun r _ => r = 0) _ _ _ Hr);
    [eapply bypass_ok | eapply lock_ok]; try done; by eapply dpll_clk_io.
Qed.

(** ** The account *)

Abbreviation chip_clocks := (omap2_clk_functions dm8148_arch DEPTH FUEL).

Definition chip_refs (e : string -> Z) (w : world) : Prop :=
  same_static booted w /\ counted clk_names e (fun _ => 0) w.

Lemma chip_refs_io e w w' : io_only w w' -> chip_refs e w -> chip_refs e w'.
Proof.
  intros [h ->] [Hss Hcn]. split.
  - etrans; [exact Hss|]. split; try done.
    by exists (w_clks w), (w_clkdms w), (w_pwrdms w), h.
  - destruct Hcn as [H1 H2 H3 H4]. by split.
Qed.

Lemma bump_sum e c : c ∈ clk_names -> zsum (bump e c 1) clk_names = zsum e clk_names + 1.
Proof.
  intros Hc. rewrite (zsum_upd e (bump e c 1) clk_names c).
  - unfold bump. rewrite decide_True by done. lia.
  - apply NoDup_fst_map_to_list.
  - done.
  - intros y Hy. unfold bump. by rewrite decide_False.
Qed.

Lemma clk_named c k : w_clks booted !! c = Some k -> c ∈ clk_names.
Proof. intros Hk. apply list_elem_of_fmap. exists (c, k). split; [done|]. by apply elem_of_map_to_list. Qed.

Lemma clk_rank_fuel c k : w_clks booted !! c = Some k -> (clk_rank c < FUEL)%nat.
Proof. apply (fo_bound _ _ _ _ booted_forest). Qed.

(** Every clock can be enabled while the references leave room. *)
Lemma chip_enable e c w :
  is_Some (w_clks booted !! c) -> chip_refs e w -> (forall x, 0 <= e x) ->
  zsum (bump e c 1) clk_names <= 126 ->
  wp (clk_enable chip_clocks (Some c)) (fun r w' => r = 0 /\ chip_refs (bump e c 1) w') w.
Proof.
  intros [k Hk] [Hss Hcn] He Hroom. pose proof (clk_named c k Hk) as Hin. rewrite (bump_sum e c Hin) in Hroom.
  pose proof (fo_list _ _ _ _ booted_forest) as HL.
  unfold clk_enable. cbn [omap2_clk_functions cf_enable]. eapply wp_mono.
  { apply (clk_enable_counted dm8148_arch (fo_chip _ _ _ _ booted_forest) clk_rank clk_names HL FUEL c e (fun _ => 0) w).
    - by eapply clk_rank_fuel.
    - eapply clk_static_frame; [exact Hss | exact booted_static].
    - done.
    - destruct (static_lookup _ _ _ _ Hss Hk) as (k' & -> & _). eauto.
    - auto.
    - intros x _. pose proof (usecount_bound clk_names e w x HL Hcn He). lia. }
  intros r w' (Hss' & _ & [(-> & Hcn' & _)|(Hr & (x & kx & w1 & w2 & Hs1 & Hx & Hop) & _)]).
  - split; [done|]. split; [by etrans | done].
  - destruct Hr. eapply (ops_zero x kx w1); [by etrans | done | exact Hop].
Qed.

Lemma chip_disable e c w :
  is_Some (w_clks booted !! c) -> chip_refs e w -> (forall x, 0 <= e x) -> 0 < e c ->
  wp (clk_disable chip_clocks (Some c)) (fun _ w' => chip_refs (bump e c (-1)) w') w.
Proof.
  intros [k0 Hk0] [Hss Hcn] He Hc. destruct (static_lookup _ _ _ _ Hss Hk0) as (k & Hk & _).
  assert (0 < ck_usecount k) as Hu.
  { rewrite (cn_clk _ _ _ _ Hcn c k Hk).
    pose proof (zsum_nonneg (child_use w c) clk_names ltac:(intros; apply child_use_nonneg)). lia. }
  unfold clk_disable. wp_pure. eapply wp_get_clk; [exact Hk|]. cbv beta.
  rewrite (proj2 (Z.eqb_neq (ck_usecount k) 0)) by lia. cbn [omap2_clk_functions cf_disable].
  eapply wp_mono.
  { apply (clk_disable_counted dm8148_arch (fo_chip _ _ _ _ booted_forest) clk_rank clk_names
      (fo_list _ _ _ _ booted_forest) FUEL c e (fun _ => 0) w).
    - by eapply clk_rank_fuel.
    - eapply clk_static_frame; [exact Hss | exact booted_static].
    - done.
    - by exists k.
    - unfold usecount_of. by rewrite Hk.
    - auto. }
  cbv beta. intros _ w' (Hss' & Hcn' & _). split; [by etrans | done].
Qed.

#[export] Program Instance chip_account : ClkAccount chip_clocks := {|
  ca_refs := chip_refs;
  ca_room e := zsum e clk_names <= 126;
  ca_usable c := is_Some (w_clks booted !! c)
|}.
Next Obligation.
  intros e e' w E [Hss Hcn]. split; [done|]. eapply counted_proper; [| |exact Hcn]; [|done]. intros x. by rewrite E.
Qed.
Next Obligation. exact chip_refs_io. Qed.
Next Obligation.
  intros e c w [k Hk] [Hss _]. destruct (static_lookup _ _ _ _ Hss Hk) as (k' & -> & _). eauto.
Qed.
Next Obligation.
  cbv beta. intros e e' H Hr. etrans; [apply (zsum_le _ e); auto | exact Hr].
Qed.
Next Obligation. exact chip_enable. Qed.
Next Obligation. exact chip_disable. Qed.
End Chip.
