(* ===== verification/HwmodSysc.v ===== *)
(** * Programming OCP_SYSCONFIG

    What [_enable_sysc], [_idle_sysc] and [_shutdown_sysc] write, field by field, on a module
    with the type-1 layout of the register, which all modules of the TI81xx have that have the
    fields at all. *)

From S2P Require Import Prelude Platform ClkCore ClkEnable Mux MuxSignal Hwmod Hwmod81xxData HwmodSpec HwmodRefine.

(** ** Fields *)

(** The field of [w] bits at [s]. *)
Definition getf (w s v : Z) : Z := Z.land (Z.shiftr v s) (Z.ones w).

Definition putf (w s f v : Z) : Z := Z.lor (Z.land v (Z.lnot (Z.shiftl (Z.ones w) s))) (Z.shiftl f s).

Lemma putf_bit w s f v i :
  0 <= w -> 0 <= s -> 0 <= f < 2 ^ w -> 0 <= i ->
  Z.testbit (putf w s f v) i = if (s <=? i) && (i <? s + w) then Z.testbit f (i - s) else Z.testbit v i.
Proof.
  intros Hw Hs Hf Hi. unfold putf. rewrite Z.lor_spec, Z.land_spec, Z.lnot_spec, !Z.shiftl_spec, Z.testbit_ones by lia.
  destruct (Z.leb_spec s i), (Z.ltb_spec i (s + w)); cbn [andb].
  - rewrite (proj2 (Z.leb_le 0 (i - s))), (proj2 (Z.ltb_lt (i - s) w)) by lia. cbn. by rewrite andb_false_r.
  - rewrite (proj2 (Z.ltb_ge (i - s) w)), andb_false_r, andb_true_r by lia.
    rewrite (uint_bits w f (i - s)), orb_false_r by (done || lia). done.
  - rewrite (proj2 (Z.leb_gt 0 (i - s))), (Z.testbit_neg_r f) by lia. cbn. by rewrite andb_true_r, orb_false_r.
  - rewrite (proj2 (Z.leb_gt 0 (i - s))), (Z.testbit_neg_r f) by lia. cbn. by rewrite andb_true_r, orb_false_r.
Qed.

Lemma getf_bit w s v i : 0 <= w -> 0 <= s -> 0 <= i ->
  Z.testbit (getf w s v) i = if i <? w then Z.testbit v (i + s) else false.
Proof.
  intros Hw Hs Hi. unfold getf. rewrite Z.land_spec, Z.shiftr_spec, Z.testbit_ones by lia.
  rewrite (proj2 (Z.leb_le 0 i) Hi). cbn [andb]. destruct (i <? w); [apply andb_true_r | apply andb_false_r].
Qed.

Lemma getf_putf w s f v : 0 <= w -> 0 <= s -> 0 <= f < 2 ^ w -> getf w s (putf w s f v) = f.
Proof.
  intros Hw Hs Hf. apply Z.bits_inj'. intros i Hi. rewrite getf_bit by done.
  destruct (Z.ltb_spec i w).
  - rewrite putf_bit by lia. rewrite (proj2 (Z.leb_le s _)), (proj2 (Z.ltb_lt _ _)) by lia. cbn [andb]. f_equal. lia.
  - rewrite (uint_bits w f i); done || lia.
Qed.

Lemma getf_putf_ne w s f v w' s' :
  0 <= w -> 0 <= s -> 0 <= f < 2 ^ w -> 0 <= w' -> 0 <= s' -> (s' + w' <= s \/ s + w <= s') ->
  getf w' s' (putf w s f v) = getf w' s' v.
Proof.
  intros Hw Hs Hf Hw' Hs' Hd. apply Z.bits_inj'. intros i Hi. rewrite !getf_bit by done.
  destruct (Z.ltb_spec i w'); [|done]. rewrite putf_bit by lia.
  destruct (Z.leb_spec s (i + s')), (Z.ltb_spec (i + s') (s + w)); cbn [andb]; done || lia.
Qed.

Lemma land_putf_out m w s f v :
  0 <= w -> 0 <= s -> 0 <= f < 2 ^ w -> (forall i, s <= i < s + w -> Z.testbit m i = false) ->
  Z.land (putf w s f v) m = Z.land v m.
Proof.
  intros Hw Hs Hf Hm. apply Z.bits_inj'. intros i Hi. rewrite !Z.land_spec, putf_bit by done.
  destruct (Z.leb_spec s i), (Z.ltb_spec i (s + w)); cbn [andb]; try done. by rewrite Hm, !andb_false_r by lia.
Qed.

(** ** The register *)

(** The fields of the type-1 layout, and the other bits. *)
Record sysc_view := mkView {
  sv_midle : Z;
  sv_clkact : Z;
  sv_sidle : Z;
  sv_enwkup : Z;
  sv_srst : Z;
  sv_autoidle : Z;
  sv_rest : Z
}.

Definition view (v : Z) : sysc_view :=
  mkView (getf 2 12 v) (getf 2 8 v) (getf 2 3 v) (getf 1 2 v) (getf 1 1 v) (getf 1 0 v)
    (Z.land v (Z.lnot 0x331f)).

(** The values of SIDLEMODE and MIDLEMODE *)
Definition MODE_FORCE : Z := 0.
Definition MODE_NO : Z := 1.
Definition MODE_SMART : Z := 2.
Definition MODE_SMART_WKUP : Z := 3.

Inductive sysc_op := SyscEnable | SyscIdle | SyscShutdown.

(** What each operation makes of the fields: [sc] describes the class and [fl] are the flags of
    the module. *)
Section Target.
  Context (op : sysc_op) (sc : omap_hwmod_class_sysconfig) (fl : Z).
Let have f := has (sc_sysc_flags sc) f.
Let swsup_sidle := has fl HWMOD_SWSUP_SIDLE.
Let wkup_mode := has (sc_idlemodes sc) SIDLE_SMART_WKUP.

Definition sidle_target : Z :=
  match op with
  | SyscShutdown => MODE_FORCE
  | SyscEnable => if swsup_sidle then MODE_NO else if wkup_mode then MODE_SMART_WKUP else MODE_SMART
  | SyscIdle => if swsup_sidle then MODE_FORCE else if wkup_mode then MODE_SMART_WKUP else MODE_SMART
  end.
Definition midle_target : Z :=
  match op with
  | SyscShutdown => MODE_FORCE
  | SyscEnable => if has fl HWMOD_SWSUP_MSTANDBY then MODE_NO else MODE_SMART
  | SyscIdle => if has fl HWMOD_SWSUP_MSTANDBY then MODE_FORCE else MODE_SMART
  end.
Definition wakes : bool :=
  match op with
  | SyscShutdown => false
  | _ => have SYSC_HAS_SIDLEMODE && negb swsup_sidle && (have SYSC_HAS_ENAWAKEUP || wkup_mode)
  end.

Definition target (x : sysc_view) : sysc_view := {|
  sv_midle := if have SYSC_HAS_MIDLEMODE then midle_target else sv_midle x;
  sv_clkact := match op with
               | SyscEnable => if has fl HWMOD_SET_DEFAULT_CLOCKACT && have SYSC_HAS_CLOCKACTIVITY
                               then sc_clockact sc else sv_clkact x
               | _ => sv_clkact x
               end;
  sv_sidle := if have SYSC_HAS_SIDLEMODE then sidle_target else sv_sidle x;
  sv_enwkup := if wakes then 1 else sv_enwkup x;
  sv_srst := sv_srst x;
  sv_autoidle := if have SYSC_HAS_AUTOIDLE
                 then match op with
                      | SyscEnable => if has fl HWMOD_NO_OCP_AUTOIDLE then 0 else 1
                      | SyscIdle => sv_autoidle x
                      | SyscShutdown => 1
                      end
                 else sv_autoidle x;
  sv_rest := sv_rest x
|}.
End Target.

Definition run_sysc `{HW : Hardware} (op : sysc_op) (oh : string) : M hwmod_state unit :=
  match op with
  | SyscEnable => _enable_sysc oh
  | SyscIdle => _idle_sysc oh
  | SyscShutdown => _shutdown_sysc oh
  end.

(** ** The helpers put fields *)

Lemma put_field_is w s f v :
  0 <= w -> 0 <= s -> s + w <= 32 -> 0 <= f < 2 ^ w -> put_field (Z.ones w) s f v = putf w s f v.
Proof.
  intros Hw Hs Hsw Hf. unfold put_field, putf.
  assert (forall x, 0 <= x < 2 ^ w -> s < 32 -> lsl x s = Z.shiftl x s) as Hl.
  { intros x Hx Hs32. rewrite lsl_in by lia. apply wrapu_small. rewrite Z.shiftl_mul_pow2 by lia. split; [nia|].
    assert (x * 2 ^ s < 2 ^ w * 2 ^ s) by (apply Z.mul_lt_mono_pos_r; lia).
    rewrite <- Z.pow_add_r in H by lia. assert (2 ^ (w + s) <= 2 ^ 32) by (apply Z.pow_le_mono_r; lia). lia. }
  destruct (decide (w = 0)) as [->|Hw0].
  { assert (f = 0) as -> by lia. change (Z.ones 0) with 0. unfold lsl. rewrite !Z.shiftl_0_l.
    by destruct (_ && _). }
  rewrite !Hl by (rewrite ?Z.ones_equiv; lia). done.
Qed.

Lemma lor_is_putf n v : 0 <= n < 32 -> Z.lor v (lsl 1 n) = putf 1 n 1 v.
Proof.
  intros Hn. rewrite lsl_1 by done. apply Z.bits_inj'. intros i Hi.
  rewrite putf_bit, Z.lor_spec, Z.pow2_bits_eqb by lia.
  destruct (Z.eqb_spec n i) as [<-|Hne].
  - rewrite (proj2 (Z.leb_le n n)), (proj2 (Z.ltb_lt n _)), Z.sub_diag by lia. cbn. apply orb_true_r.
  - rewrite orb_false_r. destruct (Z.leb_spec n i), (Z.ltb_spec i (n + 1)); cbn [andb]; done || lia.
Qed.

Definition with_midle (x : Z) (r : sysc_view) : sysc_view :=
  mkView x (sv_clkact r) (sv_sidle r) (sv_enwkup r) (sv_srst r) (sv_autoidle r) (sv_rest r).
Definition with_clkact (x : Z) (r : sysc_view) : sysc_view :=
  mkView (sv_midle r) x (sv_sidle r) (sv_enwkup r) (sv_srst r) (sv_autoidle r) (sv_rest r).
Definition with_sidle (x : Z) (r : sysc_view) : sysc_view :=
  mkView (sv_midle r) (sv_clkact r) x (sv_enwkup r) (sv_srst r) (sv_autoidle r) (sv_rest r).
Definition with_enwkup (x : Z) (r : sysc_view) : sysc_view :=
  mkView (sv_midle r) (sv_clkact r) (sv_sidle r) x (sv_srst r) (sv_autoidle r) (sv_rest r).
Definition with_autoidle (x : Z) (r : sysc_view) : sysc_view :=
  mkView (sv_midle r) (sv_clkact r) (sv_sidle r) (sv_enwkup r) (sv_srst r) x (sv_rest r).

(** The bits of a field are not among the other bits. *)
Lemma rest_out s w i : forallb (fun i => negb (Z.testbit (Z.lnot 0x331f) i)) (seqZ s w) = true ->
  s <= i < s + w -> Z.testbit (Z.lnot 0x331f) i = false.
Proof.
  intros H Hi. eapply forallb_forall in H; [by apply negb_true_iff in H|].
  apply list_elem_of_In, elem_of_seqZ. lia.
Qed.

Ltac view_put :=
  intros Hf; unfold view, with_midle, with_clkact, with_sidle, with_enwkup, with_autoidle;
  f_equal;
  first [apply getf_putf; lia
        | apply getf_putf_ne; lia
        | apply land_putf_out; [lia | lia | lia | intros i; by apply rest_out]].

Lemma view_midle f v : 0 <= f < 2 ^ 2 -> view (putf 2 12 f v) = with_midle f (view v).
Proof. view_put. Qed.
Lemma view_clkact f v : 0 <= f < 2 ^ 2 -> view (putf 2 8 f v) = with_clkact f (view v).
Proof. view_put. Qed.
Lemma view_sidle f v : 0 <= f < 2 ^ 2 -> view (putf 2 3 f v) = with_sidle f (view v).
Proof. view_put. Qed.
Lemma view_enwkup f v : 0 <= f < 2 ^ 1 -> view (putf 1 2 f v) = with_enwkup f (view v).
Proof. view_put. Qed.
Lemma view_autoidle f v : 0 <= f < 2 ^ 1 -> view (putf 1 0 f v) = with_autoidle f (view v).
Proof. view_put. Qed.

Lemma putf_uint w s f v : 0 <= w -> 0 <= s -> s + w <= 32 -> 0 <= f < 2 ^ w -> uint 32 v -> uint 32 (putf w s f v).
Proof.
  intros Hw Hs Hsw Hf Hv. apply bits_uint; [lia | |].
  - unfold putf. apply Z.lor_nonneg. split; [apply Z.land_nonneg; left; apply Hv|]. apply Z.shiftl_nonneg; lia.
  - intros i Hi. rewrite putf_bit by lia. rewrite (proj2 (Z.ltb_ge i (s + w))), andb_false_r by lia.
    apply (uint_bits 32); [lia | exact Hv | lia].
Qed.

(** ** One step of the value *)

Lemma has_u8 x n : 0 <= n < 8 -> has (u8 x) (Z.shiftl 1 n) = has x (Z.shiftl 1 n).
Proof. intros Hn. rewrite !has_bit by lia. unfold wrapu. apply Z.mod_pow2_bits_low. lia. Qed.

(** [v] is a word with the fields [x]. *)
Definition shows (v : Z) (x : sysc_view) : Prop := uint 32 v /\ view v = x.

Section Value.
  Context (sc : omap_hwmod_class_sysconfig) (Hf : sc_sysc_fields sc = Some omap_hwmod_sysc_type1).

Lemma sidle_step m f v x :
  __ffs m = f -> 0 <= f < 4 -> shows v x ->
  shows (if has (u8 (sc_sysc_flags sc)) SYSC_HAS_SIDLEMODE then snd (_set_slave_idlemode (Some sc) m v) else v)
    (if has (sc_sysc_flags sc) SYSC_HAS_SIDLEMODE then with_sidle f x else x).
Proof.
  intros Hm Hr [Hv <-]. unfold SYSC_HAS_SIDLEMODE. rewrite has_u8 by lia. fold SYSC_HAS_SIDLEMODE.
  unfold _set_slave_idlemode. rewrite Hf. destruct (has (sc_sysc_flags sc) SYSC_HAS_SIDLEMODE); cbn [negb snd]; [|done].
  rewrite Hm. change 3 with (Z.ones 2) at 1. change (sidle_shift omap_hwmod_sysc_type1) with 3.
  rewrite (put_field_is 2 3) by lia. split; [apply putf_uint; done || lia | apply view_sidle; lia].
Qed.

Lemma midle_step m f v x :
  __ffs m = f -> 0 <= f < 4 -> shows v x ->
  shows (if has (u8 (sc_sysc_flags sc)) SYSC_HAS_MIDLEMODE then snd (_set_master_standbymode (Some sc) m v) else v)
    (if has (sc_sysc_flags sc) SYSC_HAS_MIDLEMODE then with_midle f x else x).
Proof.
  intros Hm Hr [Hv <-]. unfold SYSC_HAS_MIDLEMODE. rewrite has_u8 by lia. fold SYSC_HAS_MIDLEMODE.
  unfold _set_master_standbymode. rewrite Hf. destruct (has (sc_sysc_flags sc) SYSC_HAS_MIDLEMODE); cbn [negb snd]; [|done].
  rewrite Hm. change 3 with (Z.ones 2) at 1. change (midle_shift omap_hwmod_sysc_type1) with 12.
  rewrite (put_field_is 2 12) by lia. split; [apply putf_uint; done || lia | apply view_midle; lia].
Qed.

Lemma clkact_step (b : bool) v x :
  0 <= sc_clockact sc < 4 -> shows v x ->
  shows (if b && has (u8 (sc_sysc_flags sc)) SYSC_HAS_CLOCKACTIVITY
         then snd (_set_clockactivity (Some sc) (sc_clockact sc) v) else v)
    (if b && has (sc_sysc_flags sc) SYSC_HAS_CLOCKACTIVITY then with_clkact (sc_clockact sc) x else x).
Proof.
  intros Hr [Hv <-]. destruct b; cbn [andb]; [|done].
  unfold SYSC_HAS_CLOCKACTIVITY. rewrite has_u8 by lia. fold SYSC_HAS_CLOCKACTIVITY. unfold _set_clockactivity.
  rewrite Hf. destruct (has (sc_sysc_flags sc) SYSC_HAS_CLOCKACTIVITY); cbn [negb snd]; [|done].
  change 3 with (Z.ones 2) at 1. change (clkact_shift omap_hwmod_sysc_type1) with 8.
  rewrite (put_field_is 2 8) by lia. split; [apply putf_uint; done || lia | apply view_clkact; lia].
Qed.

Lemma autoidle_step f v x :
  0 <= f < 2 -> shows v x ->
  has (sc_sysc_flags sc) SYSC_HAS_AUTOIDLE = true ->
  shows (snd (_set_module_autoidle (Some sc) f v)) (with_autoidle f x).
Proof.
  intros Hr [Hv <-] Ha. unfold _set_module_autoidle. rewrite Hf, Ha. cbn [negb snd].
  change 1 with (Z.ones 1) at 1. change (autoidle_shift omap_hwmod_sysc_type1) with 0.
  rewrite (put_field_is 1 0) by lia. split; [apply putf_uint; done || lia | apply view_autoidle; lia].
Qed.

(** What [_enable_wakeup] makes of a value. *)
Definition wakeup_view (x : sysc_view) : sysc_view :=
  if has (sc_sysc_flags sc) SYSC_HAS_ENAWAKEUP || has (sc_idlemodes sc) SIDLE_SMART_WKUP then
    let x := with_enwkup 1 x in
    if has (sc_idlemodes sc) SIDLE_SMART_WKUP
    then if has (sc_sysc_flags sc) SYSC_HAS_SIDLEMODE then with_sidle MODE_SMART_WKUP x else x else x
  else x.

Lemma wakeup_value v x :
  shows v x ->
  shows (let v := Z.lor v (lsl 1 (enwkup_shift omap_hwmod_sysc_type1)) in
         if has (sc_idlemodes sc) SIDLE_SMART_WKUP
         then snd (_set_slave_idlemode (Some sc) HWMOD_IDLEMODE_SMART_WKUP v) else v)
    (let x := with_enwkup 1 x in
     if has (sc_idlemodes sc) SIDLE_SMART_WKUP
     then if has (sc_sysc_flags sc) SYSC_HAS_SIDLEMODE then with_sidle MODE_SMART_WKUP x else x else x).
Proof.
  intros [Hv <-]. change (enwkup_shift omap_hwmod_sysc_type1) with 2. cbv zeta. rewrite lor_is_putf by lia.
  assert (shows (putf 1 2 1 v) (with_enwkup 1 (view v))) as H by
    (split; [apply putf_uint; done || lia | apply view_enwkup; lia]).
  destruct (has (sc_idlemodes sc) SIDLE_SMART_WKUP); [|done].
  pose proof (sidle_step HWMOD_IDLEMODE_SMART_WKUP 3 _ _ eq_refl ltac:(lia) H) as Hs.
  unfold _set_slave_idlemode in *. unfold SYSC_HAS_SIDLEMODE in Hs. rewrite has_u8 in Hs by lia.
  fold SYSC_HAS_SIDLEMODE in Hs. destruct (has (sc_sysc_flags sc) SYSC_HAS_SIDLEMODE); done.
Qed.
End Value.

(** ** The operations *)

(** A module with the type-1 layout. *)
Record sysc_module (oh : string) (o : omap_hwmod) (sc : omap_hwmod_class_sysconfig)
    (s : hwmod_state) : Prop := {
  sm_here : hs_ohs s !! oh = Some o;
  sm_class : exists c, oh_class o = Some c /\ hc_sysc c = Some sc;
  sm_fields : sc_sysc_fields sc = Some omap_hwmod_sysc_type1;
  sm_cache : uint 32 (oh__sysc_cache o);
  sm_clkact : 0 <= sc_clockact sc < 4
}.

(** A write of [v] to the OCP_SYSCONFIG register of a module. *)
Definition sysc_write (o : omap_hwmod) (sc : omap_hwmod_class_sysconfig) (v : Z) : io_event :=
  let a := oh__mpu_rt_va o + sc_sysc_offs sc in
  if Z.testbit (oh_flags o) 8 then IoWriteW a (u16 v) else IoWrite a v.

(** Of the module only the cache and the internal flags may differ. *)
Definition same_but (o o' : omap_hwmod) : Prop :=
  set_oh__sysc_cache 0 (set_oh__int_flags 0 o') = set_oh__sysc_cache 0 (set_oh__int_flags 0 o).

Section Program.
  Context `{HW : Hardware} (oh : string) (o : omap_hwmod) (sc : omap_hwmod_class_sysconfig) (s : hwmod_state).
  Context (Hsm : sysc_module oh o sc s).

(** On the way: the values [vs] were written to the register, the last one first, and of the
    module only the cache and the flags may have changed. *)
Record on_way (vs : list Z) (s1 : hwmod_state) : Prop := {
  ow_ohs : exists o1, hs_ohs s1 = <[oh := o1]> (hs_ohs s) /\ same_but o o1;
  ow_mux : hs_mux s1 = set_ms_w (set_w_trace ((sysc_write o sc <$> vs) ++ w_trace (hs_w s)) (hs_w s)) (hs_mux s);
  ow_rest : hs_ifs s1 = hs_ifs s /\ hs_list s1 = hs_list s /\ hs_mpu_oh s1 = hs_mpu_oh s /\ hs_inited s1 = hs_inited s
}.

(** The cache holds [v], which was written last. *)
Definition programmed (v : Z) (s1 : hwmod_state) : Prop :=
  (exists vs, on_way (v :: vs) s1) /\ (exists o1, hs_ohs s1 !! oh = Some o1 /\ oh__sysc_cache o1 = v).

Lemma same_but_field {A} (f : omap_hwmod -> A) o1 :
  (forall x, f (set_oh__sysc_cache 0 (set_oh__int_flags 0 x)) = f x) -> same_but o o1 -> f o1 = f o.
Proof. intros Hf E. by rewrite <- Hf, E, Hf. Qed.

Lemma on_way_start : on_way [] s.
Proof.
  split; try done.
  - exists o. split; [by rewrite insert_id by apply Hsm | done].
Qed.

Lemma on_way_here vs s1 : on_way vs s1 -> exists o1, hs_ohs s1 !! oh = Some o1 /\ same_but o o1.
Proof. intros [(o1 & E & Hb) _ _]. exists o1. rewrite E. split; [apply lookup_insert_eq | done]. Qed.

Lemma on_way_upd vs s1 o1 o2 :
  on_way vs s1 -> hs_ohs s1 !! oh = Some o1 -> same_but o1 o2 ->
  on_way vs (set_hs_ohs (<[oh := o2]> (hs_ohs s1)) s1).
Proof.
  intros [(o1' & E & Hb) M R] Ho1 Hb2. split; try done. exists o2.
  rewrite E in Ho1. rewrite lookup_insert_eq in Ho1. apply (inj Some) in Ho1 as <-.
  split; [|etrans; [exact Hb2 | exact Hb]].
  change (<[oh := o2]> (hs_ohs s1) = <[oh := o2]> (hs_ohs s)). by rewrite E, insert_insert_eq.
Qed.

Lemma on_way_sysc vs s1 Q : on_way vs s1 -> Q (Some sc) s1 -> wp (oh_sysc oh) Q s1.
Proof.
  intros Hw HQ. destruct (on_way_here vs s1 Hw) as (o1 & Ho1 & Hb). destruct (sm_class _ _ _ _ Hsm) as (c & Hc & Hs).
  unfold oh_sysc, oh_cls. wp_pure. eapply wp_get_oh; [done|]. cbv beta.
  eapply wp_deref; [etrans; [by apply (same_but_field oh_class) | exact Hc]|]. cbv beta. wp_pure. by rewrite Hs.
Qed.

Lemma write_sysconfig_programs v vs s1 :
  on_way vs s1 -> wp (_write_sysconfig v oh) (fun _ => programmed v) s1.
Proof.
  intros Hw. unfold _write_sysconfig. wp_pure. eapply on_way_sysc; [done|]. cbv beta iota. wp_pure.
  destruct (on_way_here vs s1 Hw) as (o1 & Ho1 & Hb). eapply wp_upd_oh; [done|]. cbv beta.
  pose proof (on_way_upd vs s1 o1 (set_oh__sysc_cache v o1) Hw Ho1 eq_refl) as Hw2.
  set (s2 := set_hs_ohs _ s1) in *. assert (hs_ohs s2 !! oh = Some (set_oh__sysc_cache v o1)) as Ho2 by apply lookup_insert_eq.
  unfold omap_hwmod_write. wp_pure. eapply wp_get_oh; [done|]. cbv beta.
  assert (oh_flags o1 = oh_flags o /\ oh__mpu_rt_va o1 = oh__mpu_rt_va o) as [Efl Eva]
    by (split; by first [apply (same_but_field oh_flags) | apply (same_but_field oh__mpu_rt_va)]).
  change (oh_flags (set_oh__sysc_cache v o1)) with (oh_flags o1).
  change (oh__mpu_rt_va (set_oh__sysc_cache v o1)) with (oh__mpu_rt_va o1). rewrite Efl, Eva.
  assert (forall s3, s3 = set_hs_w (set_w_trace (sysc_write o sc v :: w_trace (hs_w s2)) (hs_w s2)) s2 -> programmed v s3) as Hs3.
  { intros s3 ->. split; [|by exists (set_oh__sysc_cache v o1)]. exists vs. split; [apply Hw2 | | apply Hw2].
    unfold hs_w. change (hs_mux (set_hs_w ?w s2)) with (set_ms_w w (hs_mux s2)). rewrite (ow_mux _ _ Hw2). done. }
  unfold sysc_write in Hs3. change HWMOD_16BIT_REG with (Z.shiftl 1 8). rewrite has_bit by lia.
  destruct (Z.testbit (oh_flags o) 8); apply wp_hw_io; by apply Hs3.
Qed.

Lemma enable_wakeup_value v x vs s1 :
  shows v x -> on_way vs s1 ->
  wp (_enable_wakeup oh v) (fun r s2 => on_way vs s2 /\ shows (snd r) (wakeup_view sc x)) s1.
Proof.
  intros Hs Hw. unfold _enable_wakeup, wakeup_view. wp_pure. eapply on_way_sysc; [done|]. cbv beta iota.
  destruct (has (sc_sysc_flags sc) SYSC_HAS_ENAWAKEUP || has (sc_idlemodes sc) SIDLE_SMART_WKUP); cbn [negb]; [|by wp_pure].
  rewrite (sm_fields _ _ _ _ Hsm). cbv zeta. wp_pure. destruct (on_way_here vs s1 Hw) as (o1 & Ho1 & Hb).
  eapply wp_upd_oh; [done|]. cbv beta. wp_pure. split; [by eapply on_way_upd|].
  apply (wakeup_value sc (sm_fields _ _ _ _ Hsm)). done.
Qed.

Lemma start_shows : shows (oh__sysc_cache o) (view (oh__sysc_cache o)).
Proof. split; [apply Hsm | done]. Qed.

Lemma force_or_smart (b : bool) :
  __ffs (if b then HWMOD_IDLEMODE_FORCE else HWMOD_IDLEMODE_SMART) = (if b then MODE_FORCE else MODE_SMART) /\
  0 <= (if b then MODE_FORCE else MODE_SMART) < 4.
Proof. by destruct b. Qed.

Lemma no_or_smart (b : bool) :
  __ffs (if b then HWMOD_IDLEMODE_NO else HWMOD_IDLEMODE_SMART) = (if b then MODE_NO else MODE_SMART) /\
  0 <= (if b then MODE_NO else MODE_SMART) < 4.
Proof. by destruct b. Qed.

(** The fields after the whole sequence of each operation. *)
Ltac view_eq :=
  generalize (view (oh__sysc_cache o)); intros [];
  unfold target, wakes, sidle_target, midle_target, wakeup_view;
  repeat match goal with |- context [has ?x ?f] => destruct (has x f) end; reflexivity.

Lemma wakeup_part v x :
  shows v x ->
  wp (if has (u8 (sc_sysc_flags sc)) SYSC_HAS_SIDLEMODE && negb (has (oh_flags o) HWMOD_SWSUP_SIDLE)
      then r ← _enable_wakeup oh v; ret (snd r) else ret v)
    (fun v' s1 => on_way [] s1 /\ shows v'
      (if has (sc_sysc_flags sc) SYSC_HAS_SIDLEMODE && negb (has (oh_flags o) HWMOD_SWSUP_SIDLE)
       then wakeup_view sc x else x)) s.
Proof.
  intros Hs. change (has (u8 (sc_sysc_flags sc)) SYSC_HAS_SIDLEMODE) with (has (u8 (sc_sysc_flags sc)) (Z.shiftl 1 5)).
  rewrite has_u8 by lia. fold SYSC_HAS_SIDLEMODE.
  destruct (_ && _); wp_pure; [|split; [apply on_way_start | done]].
  eapply wp_mono; [by apply enable_wakeup_value, on_way_start|]. cbv beta. intros r s1 [Hw Hr]. by wp_pure.
Qed.

(** What an operation leaves behind. *)
Definition leaves (op : sysc_op) (s' : hwmod_state) : Prop :=
  exists v, programmed v s' /\ view v = target op sc (oh_flags o) (view (oh__sysc_cache o)).

Ltac sysc_start f :=
  unfold f; wp_pure; eapply on_way_sysc; [apply on_way_start|]; cbv beta iota; wp_pure;
  eapply wp_get_oh; [apply Hsm|]; cbv beta zeta.

Ltac name_value S :=
  match type of S with shows ?v ?x => let v' := fresh "v" in let x' := fresh "x" in
    set (v' := v) in *; set (x' := x) in * end.

Lemma idle_programs : wp (_idle_sysc oh) (fun _ => leaves SyscIdle) s.
Proof.
  pose proof start_shows as S0. pose proof (sm_fields _ _ _ _ Hsm) as Hf. sysc_start @_idle_sysc.
  destruct (force_or_smart (has (oh_flags o) HWMOD_SWSUP_SIDLE)) as [F1 R1].
  destruct (force_or_smart (has (oh_flags o) HWMOD_SWSUP_MSTANDBY)) as [F2 R2].
  pose proof (midle_step sc Hf _ _ _ _ F2 R2 (sidle_step sc Hf _ _ _ _ F1 R1 S0)) as S2. name_value S2.
  wp_pure. eapply wp_mono; [by apply wakeup_part|]. cbv beta. intros v3 s1 [Hw [Hu Hv]].
  eapply wp_mono; [by eapply write_sysconfig_programs|]. cbv beta.
  intros _ s2 Hp. exists v3. split; [done|]. rewrite Hv. subst x. view_eq.
Qed.

Lemma shutdown_programs : wp (_shutdown_sysc oh) (fun _ => leaves SyscShutdown) s.
Proof.
  pose proof start_shows as S0. pose proof (sm_fields _ _ _ _ Hsm) as Hf. sysc_start @_shutdown_sysc.
  pose proof (sidle_step sc Hf HWMOD_IDLEMODE_FORCE MODE_FORCE _ _ eq_refl ltac:(done) S0) as S1.
  pose proof (midle_step sc Hf HWMOD_IDLEMODE_FORCE MODE_FORCE _ _ eq_refl ltac:(done) S1) as S2. name_value S2.
  change (has (u8 (sc_sysc_flags sc)) SYSC_HAS_AUTOIDLE) with (has (u8 (sc_sysc_flags sc)) (Z.shiftl 1 0)).
  rewrite has_u8 by lia. fold SYSC_HAS_AUTOIDLE.
  assert (shows (if has (sc_sysc_flags sc) SYSC_HAS_AUTOIDLE then snd (_set_module_autoidle (Some sc) 1 v) else v)
    (if has (sc_sysc_flags sc) SYSC_HAS_AUTOIDLE then with_autoidle 1 x else x)) as [Hu Hv].
  { destruct (has (sc_sysc_flags sc) SYSC_HAS_AUTOIDLE) eqn:Ea; [by apply autoidle_step | done]. }
  eapply wp_mono; [eapply write_sysconfig_programs, on_way_start|]. cbv beta.
  intros _ s2 Hp. eexists. split; [exact Hp|]. rewrite Hv. subst x. view_eq.
Qed.

Lemma enable_programs : wp (_enable_sysc oh) (fun _ => leaves SyscEnable) s.
Proof.
  pose proof start_shows as S0. pose proof (sm_fields _ _ _ _ Hsm) as Hf. sysc_start @_enable_sysc.
  destruct (no_or_smart (has (oh_flags o) HWMOD_SWSUP_SIDLE)) as [F1 R1].
  destruct (no_or_smart (has (oh_flags o) HWMOD_SWSUP_MSTANDBY)) as [F2 R2].
  pose proof (clkact_step sc Hf (has (oh_flags o) HWMOD_SET_DEFAULT_CLOCKACT) _ _ (sm_clkact _ _ _ _ Hsm)
    (midle_step sc Hf _ _ _ _ F2 R2 (sidle_step sc Hf _ _ _ _ F1 R1 S0))) as S3. name_value S3.
  wp_pure. eapply wp_mono; [by apply wakeup_part|]. cbv beta. intros v3 s1 [Hw Hs3]. pose proof Hs3 as [Hu Hv].
  wp_pure. eapply wp_mono; [by eapply write_sysconfig_programs|]. cbv beta. intros _ s2 Hp.
  change (has (u8 (sc_sysc_flags sc)) SYSC_HAS_AUTOIDLE) with (has (u8 (sc_sysc_flags sc)) (Z.shiftl 1 0)).
  rewrite has_u8 by lia. fold SYSC_HAS_AUTOIDLE.
  destruct (has (sc_sysc_flags sc) SYSC_HAS_AUTOIDLE) eqn:Ea; unfold when.
  - assert (0 <= (if has (oh_flags o) HWMOD_NO_OCP_AUTOIDLE then 0 else 1) < 2) as R4 by (destruct (has (oh_flags o) HWMOD_NO_OCP_AUTOIDLE); lia).
    destruct (autoidle_step sc Hf _ _ _ R4 Hs3 Ea) as [Hu4 Hv4].
    destruct Hp as [[vs Hvs] _]. eapply wp_mono; [eapply write_sysconfig_programs, Hvs|]. cbv beta.
    intros _ s3 Hp3. eexists. split; [exact Hp3|]. rewrite Hv4. subst x. revert Ea. unfold target. intros ->. view_eq.
  - wp_pure. exists v3. split; [done|]. rewrite Hv. subst x. revert Ea. unfold target. intros ->. view_eq.
Qed.
End Program.

(** ** Properties *)

(** C20: what is programmed into the OCP_SYSCONFIG register of a module follows its state, for a
    module with the type-1 layout of the register.  When it is enabled, its slave port goes to
    no-idle if the software supervises it and to smart idle (with wake-up, where the module knows
    that mode) otherwise, its master port likewise, and autoidle is set unless the module forbids
    it; when it idles, the supervised ports go to force-idle; when it is shut down, all do.  In
    the value that is written last, fields the module does not have, the software reset bit and
    the bits outside of the fields are as they were in the cache; the cache holds that value, the
    only accesses are writes to this register, 16 or 32 bits wide as the module has it, and
    nothing else of the modules changes but the flags of this one.  What the hardware makes of
    the value, after a software reset that the cache still asks for in particular, is left open. *)
Theorem sysconfig_programmed `{HW : Hardware} op oh o sc s :
  sysc_module oh o sc s ->
  wp (run_sysc op oh) (fun _ s' => exists o' vs,
    hs_ohs s' = <[oh := o']> (hs_ohs s) /\ same_but o o' /\
    w_trace (hs_w s') = (sysc_write o sc <$> oh__sysc_cache o' :: vs) ++ w_trace (hs_w s) /\
    view (oh__sysc_cache o') = target op sc (oh_flags o) (view (oh__sysc_cache o)) /\
    hs_mux s' = set_ms_w (set_w_trace (w_trace (hs_w s')) (hs_w s)) (hs_mux s) /\
    hs_ifs s' = hs_ifs s /\ hs_list s' = hs_list s /\ hs_mpu_oh s' = hs_mpu_oh s /\ hs_inited s' = hs_inited s) s.
Proof.
  intros Hsm. assert (wp (run_sysc op oh) (fun _ => leaves oh o sc s op) s) as H.
  { destruct op; cbn [run_sysc]; [by apply enable_programs | by apply idle_programs | by apply shutdown_programs]. }
  eapply wp_mono; [exact H|]. cbv beta.
  intros _ s' (v & ((vs & [(o1 & E & Hb) Hm Hrest]) & (o2 & Ho2 & Hc)) & Hv).
  assert (o2 = o1) as -> by (rewrite E in Ho2; rewrite lookup_insert_eq in Ho2; by apply (inj Some) in Ho2).
  exists o1, vs. rewrite Hc. split; [done|]. split; [done|].
  assert (w_trace (hs_w s') = (sysc_write o sc <$> v :: vs) ++ w_trace (hs_w s)) as Ht by (unfold hs_w at 1; by rewrite Hm).
  split; [done|]. split; [done|]. rewrite Ht. by split.
Qed.
