(* ===== verification/HwmodRegister.v ===== *)
(** * Registering and finding modules

    [_register] against the table of names that the list of modules stands for. *)

From S2P Require Import Prelude Platform ClkCore Mux Hwmod HwmodSpec HwmodRefine.

(** A run that is known *)
Lemma wp_of_run {S A} (m : M S A) Q s a s' : m s = Done a s' -> Q a s' -> wp m Q s.
Proof. unfold wp. by intros ->. Qed.

(** States with the same fields *)
Lemma state_ext (s1 s2 : hwmod_state) :
  hs_mux s1 = hs_mux s2 -> hs_ohs s1 = hs_ohs s2 -> hs_ifs s1 = hs_ifs s2 -> hs_list s1 = hs_list s2 ->
  hs_mpu_oh s1 = hs_mpu_oh s2 -> hs_inited s1 = hs_inited s2 -> s1 = s2.
Proof. destruct s1, s2. cbn. congruence. Qed.

(** ** The table of names *)

(** The name of a module that is on the list. *)
Definition name_of (s : hwmod_state) (oh : string) : option string :=
  match hs_ohs s !! oh with Some o => oh_name o | None => None end.

(** The first module with the name. *)
Fixpoint find_name (s : hwmod_state) (name : string) (l : list string) : option string :=
  match l with
  | [] => None
  | oh :: l' => if bool_decide (name_of s oh = Some name) then Some oh else find_name s name l'
  end.

(** Every module of the list has a name, and no two have the same. *)
Record names_ok (s : hwmod_state) : Prop := {
  nm_named : Forall (fun oh => is_Some (name_of s oh)) (hs_list s);
  nm_unique : forall x y, x ∈ hs_list s -> y ∈ hs_list s -> name_of s x = name_of s y -> x = y
}.

Lemma lookup_loop_run name l s :
  Forall (fun oh => is_Some (name_of s oh)) l -> lookup_loop name l s = Done (find_name s name l) s.
Proof.
  induction 1 as [|oh l [n Hn] _ IH]; [done|]. cbn [lookup_loop find_name]. rewrite Hn.
  unfold name_of in Hn. destruct (hs_ohs s !! oh) as [o|] eqn:Ho; [|done].
  assert (get_oh oh s = Done o s) as E by (unfold get_oh, bind, gets; by rewrite Ho).
  erewrite bind_Done by exact E. erewrite bind_Done; [|by rewrite Hn].
  destruct (String.eqb_spec name n) as [->|Hne]; [by rewrite bool_decide_true|].
  rewrite bool_decide_false by congruence. exact IH.
Qed.

Lemma lookup_run name s : names_ok s -> _lookup name s = Done (find_name s name (hs_list s)) s.
Proof. intros [Hn _]. unfold _lookup, bind, gets. by apply lookup_loop_run. Qed.

Lemma find_name_Some s name l oh : find_name s name l = Some oh -> oh ∈ l /\ name_of s oh = Some name.
Proof.
  induction l as [|x l IH]; [done|]. cbn [find_name]. case_bool_decide as E; [|intros H].
  - intros [= <-]. split; [left | done].
  - destruct (IH H). split; [by right | done].
Qed.

Lemma find_name_None s name l : find_name s name l = None -> forall x, x ∈ l -> name_of s x <> Some name.
Proof.
  induction l as [|y l IH]; cbn [find_name]; [by intros _ x ?%not_elem_of_nil|].
  case_bool_decide as E; [done|]. intros H x [->|Hx]%elem_of_cons; [done | by apply IH].
Qed.

Lemma find_name_app s name l l' :
  find_name s name (l ++ l') = match find_name s name l with Some x => Some x | None => find_name s name l' end.
Proof. induction l as [|x l IH]; [done|]. cbn [app find_name]. case_bool_decide; [done | exact IH]. Qed.

Lemma find_name_ext s s' name l : (forall x, name_of s' x = name_of s x) -> find_name s' name l = find_name s name l.
Proof. intros E. induction l as [|x l IH]; [done|]. cbn [find_name]. by rewrite E, IH. Qed.

(** ** The port of the processor *)

(** The first interface that the processor uses, bit 0 of its users, with its number. *)
Fixpoint mpu_port (ifs : gmap string omap_hwmod_ocp_if) (l : list string) (i : Z) : option (Z * omap_hwmod_ocp_if) :=
  match l with
  | [] => None
  | x :: l' =>
      match ifs !! x with
      | Some os => if Z.testbit (if_user os) 0 then Some (i, os) else mpu_port ifs l' (i + 1)
      | None => None
      end
  end.

Definition ifs_ok (s : hwmod_state) (l : list string) : Prop :=
  Forall (fun i => exists os, hs_ifs s !! i = Some os /\ if_addr_cnt os = Z.of_nat (length (if_addr os))) l.

Lemma mpu_port_loop_run l i s :
  ifs_ok s l ->
  mpu_port_loop l i s = Done (match mpu_port (hs_ifs s) l i with Some (k, _) => k | None => - EINVAL end) s.
Proof.
  intros H. revert i. induction H as [|x l (os & Hx & _) _ IH]; intros i; [done|]. cbn [mpu_port_loop mpu_port].
  assert (get_if x s = Done os s) as E by (unfold get_if, bind, gets; by rewrite Hx).
  erewrite bind_Done by exact E. rewrite Hx. change OCP_USER_MPU with (Z.shiftl 1 0).
  rewrite has_bit by done. destruct (Z.testbit (if_user os) 0); [done | apply IH].
Qed.

Lemma mpu_port_range ifs l i k os :
  mpu_port ifs l i = Some (k, os) -> i <= k < i + Z.of_nat (length l) /\
    exists x, l !! Z.to_nat (k - i) = Some x /\ ifs !! x = Some os.
Proof.
  revert i. induction l as [|x l IH]; intros i; cbn [mpu_port]; [done|].
  destruct (ifs !! x) as [ox|] eqn:Ex; [|done]. destruct (Z.testbit (if_user ox) 0).
  - intros [= <- <-]. rewrite Z.sub_diag. split; [cbn [length]; lia | by exists x].
  - intros H. destruct (IH _ H) as [Hr (y & Hy & Hos)]. split; [cbn [length]; lia|]. exists y.
    by replace (Z.to_nat (k - i)) with (S (Z.to_nat (k - (i + 1)))) by lia.
Qed.

(** The address the registers of the module are mapped at: that of the first address space
    of the interface that is marked to hold registers, bit 1 of its flags, and 0 if there is
    none. *)
Definition rt_address (ioremap : Z -> Z -> Z) (os : omap_hwmod_ocp_if) : Z :=
  match List.find (fun mem => Z.testbit (as_flags mem) 1) (if_addr os) with
  | Some mem => ioremap (as_pa_start mem) (u32 (as_pa_end mem - as_pa_start mem))
  | None => 0
  end.

Lemma rt_loop_find l : rt_loop l = List.find (fun mem => Z.testbit (as_flags mem) 1) l.
Proof.
  induction l as [|mem l IH]; [done|]. cbn [rt_loop List.find]. change ADDR_TYPE_RT with (Z.shiftl 1 1).
  rewrite has_bit by done. by rewrite IH.
Qed.

(** The module after the registration. *)
Definition registered_as (ioremap : Z -> Z -> Z) (s : hwmod_state) (o : omap_hwmod) : omap_hwmod :=
  set_oh__state _HWMOD_STATE_REGISTERED
    (match mpu_port (hs_ifs s) (oh_slaves o) 0 with
     | Some (k, os) => set_oh__mpu_rt_va (rt_address ioremap os) (set_oh__mpu_port_index k o)
     | None => set_oh__int_flags (Z.lor (oh__int_flags o) _HWMOD_NO_MPU_PORT) o
     end).

(** A module that can be registered. *)
Record registrable (s : hwmod_state) (oh : string) (o : omap_hwmod) (name : string) : Prop := {
  rg_here : hs_ohs s !! oh = Some o;
  rg_name : oh_name o = Some name;
  rg_class : exists c n, oh_class o = Some c /\ hc_name c = Some n;
  rg_state : oh__state o = _HWMOD_STATE_UNKNOWN;
  rg_slaves : oh_slaves_cnt o = Z.of_nat (length (oh_slaves o));
  rg_cnt : uint 8 (oh_slaves_cnt o);
  rg_ifs : ifs_ok s (oh_slaves o)
}.

Section Register.
  Context (ioremap : Z -> Z -> Z) (s : hwmod_state) (oh : string) (o : omap_hwmod) (name : string).
  Context (Hr : registrable s oh o name).

Lemma find_mpu_port_run :
  _find_mpu_port_index oh s =
  Done (match mpu_port (hs_ifs s) (oh_slaves o) 0 with Some (k, _) => k | None => - EINVAL end) s.
Proof.
  destruct Hr as [Ho _ _ _ Hc _ Hi]. unfold _find_mpu_port_index.
  erewrite bind_Done; [|unfold get_oh, bind, gets; by rewrite Ho]. rewrite Hc.
  destruct (Z.eqb_spec (Z.of_nat (length (oh_slaves o))) 0) as [E|Hne].
  - destruct (oh_slaves o); [done | cbn in E; lia].
  - unfold elems. rewrite Z.ltb_irrefl, Nat2Z.id, firstn_all. by apply mpu_port_loop_run.
Qed.

Lemma wp_rt_result os Q (x : hwmod_state) :
  Q (rt_address ioremap os) x ->
  wp (match rt_loop (if_addr os) with
      | Some mem => ret (ioremap (as_pa_start mem) (u32 (as_pa_end mem - as_pa_start mem)))
      | None => ret 0
      end) Q x.
Proof. unfold rt_address. rewrite rt_loop_find. by destruct (List.find _ _). Qed.

(** The rest of the registration, from the port on. *)
Lemma register_tail s1 :
  s1 = s ->
  wp (ms_id ← _find_mpu_port_index oh;
      (if negb (IS_ERR_VALUE ms_id) then
         upd_oh oh (set_oh__mpu_port_index (u8 ms_id));;
         va ← _find_mpu_rt_base ioremap oh (u8 ms_id);
         upd_oh oh (set_oh__mpu_rt_va va)
       else upd_oh oh (fun o => set_oh__int_flags (Z.lor (oh__int_flags o) _HWMOD_NO_MPU_PORT) o));;
      modify (fun s => set_hs_list (hs_list s ++ [oh]) s);;
      upd_oh oh (set_oh__state _HWMOD_STATE_REGISTERED);;
      ret 0)
    (fun r s' => r = 0 /\
      s' = set_hs_list (hs_list s ++ [oh]) (set_hs_ohs (<[oh := registered_as ioremap s o]> (hs_ohs s)) s)) s1.
Proof.
  intros ->. pose proof (rg_here _ _ _ _ Hr) as Ho. wp_pure. eapply wp_of_run; [exact find_mpu_port_run|]. cbv beta.
  unfold registered_as. destruct (mpu_port (hs_ifs s) (oh_slaves o) 0) as [[k os]|] eqn:Ep.
  - destruct (mpu_port_range _ _ _ _ _ Ep) as [Hk (x & Hx & Hos)]. rewrite Z.sub_0_r in Hx.
    pose proof (rg_slaves _ _ _ _ Hr) as Hc. pose proof (rg_cnt _ _ _ _ Hr) as [_ H8]. rewrite Hc in H8.
    assert (u8 k = k) as E8 by (apply wrapu_small; split; lia).
    assert (IS_ERR_VALUE k = false) as ->.
    { unfold IS_ERR_VALUE. rewrite (wrapu_small 32 k) by (split; lia). apply Z.leb_gt.
      change (u32 (- 4095)) with 4294963201. lia. }
    cbn [negb]. rewrite E8. wp_pure. eapply wp_upd_oh; [exact Ho|]. cbv beta. wp_pure.
    unfold _find_mpu_rt_base. wp_pure. eapply wp_get_oh; [apply lookup_insert_eq|]. cbv beta.
    change (oh_slaves_cnt (set_oh__mpu_port_index k o)) with (oh_slaves_cnt o).
    change (oh_slaves (set_oh__mpu_port_index k o)) with (oh_slaves o).
    rewrite Hc, (proj2 (Z.eqb_neq _ 0)) by lia. wp_pure. eapply wp_aget; [lia | exact Hx|]. cbv beta. wp_pure.
    eapply wp_get_if; [exact Hos|]. cbv beta.
    assert (if_addr_cnt os = Z.of_nat (length (if_addr os))) as Ha.
    { pose proof (rg_ifs _ _ _ _ Hr) as Hi. unfold ifs_ok in Hi. rewrite Forall_forall in Hi.
      destruct (Hi x) as (os' & Hos' & Ha); [by eapply list_elem_of_lookup_2|]. congruence. }
    wp_pure. eapply wp_elems; [exact Ha|]. apply (wp_rt_result os).
    eapply wp_upd_oh; [apply lookup_insert_eq|]. cbv beta. wp_pure.
    eapply wp_upd_oh; [apply lookup_insert_eq|]. cbv beta. wp_pure. split; [done|].
    apply state_ext; try done. etrans; [apply insert_insert_eq|].
    etrans; [apply insert_insert_eq | done].
  - change (IS_ERR_VALUE (- EINVAL)) with true. cbn [negb]. wp_pure. eapply wp_upd_oh; [exact Ho|]. cbv beta. wp_pure.
    eapply wp_upd_oh; [apply lookup_insert_eq|]. cbv beta. wp_pure. split; [done|].
    apply state_ext; try done. apply insert_insert_eq.
Qed.

(** The state after a registration that succeeds. *)
Definition with_module : hwmod_state :=
  set_hs_list (hs_list s ++ [oh]) (set_hs_ohs (<[oh := registered_as ioremap s o]> (hs_ohs s)) s).

Lemma with_module_name x : name_of with_module x = name_of s x.
Proof.
  unfold name_of. change (hs_ohs with_module) with (<[oh := registered_as ioremap s o]> (hs_ohs s)).
  destruct (decide (x = oh)) as [->|Hne]; [|by rewrite lookup_insert_ne].
  rewrite lookup_insert_eq, (rg_here _ _ _ _ Hr). unfold registered_as. by destruct (mpu_port _ _ _) as [[]|].
Qed.

Lemma register_spec :
  names_ok s ->
  wp (_register ioremap (Some oh)) (fun r s' =>
    match find_name s name (hs_list s) with
    | Some _ => r = - EEXIST /\ s' = s
    | None => r = 0 /\ s' = with_module
    end) s.
Proof.
  intros Hn. destruct Hr as [Ho Hnm (c & n & Hc & Hcn) Hst _ _ _]. unfold _register. wp_pure.
  eapply wp_get_oh; [exact Ho|]. cbv beta. rewrite Hnm, Hc, Hcn, Hst. rewrite Z.eqb_refl. cbn [negb]. wp_pure.
  eapply wp_of_run; [by apply lookup_run|]. cbv beta. destruct (find_name s name (hs_list s)) as [x|] eqn:E; [by wp_pure|].
  by apply register_tail.
Qed.

Lemma with_module_ok : names_ok s -> find_name s name (hs_list s) = None -> names_ok with_module.
Proof.
  intros [Hnm Hu] E. pose proof (find_name_None _ _ _ E) as Hno.
  assert (name_of s oh = Some name) as Hoh by (unfold name_of; rewrite (rg_here _ _ _ _ Hr); apply Hr).
  change (hs_list with_module) with (hs_list s ++ [oh]). split; change (hs_list with_module) with (hs_list s ++ [oh]).
  - apply Forall_app. split; [|apply Forall_singleton; rewrite with_module_name; by exists name].
    eapply Forall_impl; [exact Hnm|]. intros x. by rewrite with_module_name.
  - intros x y. rewrite !elem_of_app, !list_elem_of_singleton, !with_module_name.
    intros [Hx| ->] [Hy| ->] Exy; [by apply Hu | | | done].
    + destruct (Hno x Hx). congruence.
    + destruct (Hno y Hy). congruence.
Qed.
End Register.

(** ** Properties *)

(** C22: registering a module and finding it again.  If another module of the same name is
    registered, [_register] returns -EEXIST and changes nothing.  Otherwise it returns 0, names
    stay unique, the lookup of the name finds this module and every other lookup what it found
    before; the module is in the state REGISTERED with the port of the processor, the first of
    its interfaces that the processor uses, and the address that the first register space of
    that interface is mapped at, or is marked to have no such port. *)
Theorem hwmod_register_lookup ioremap s oh o name :
  names_ok s -> registrable s oh o name ->
  wp (_register ioremap (Some oh)) (fun r s' =>
    match find_name s name (hs_list s) with
    | Some _ => r = - EEXIST /\ s' = s
    | None => r = 0 /\ names_ok s' /\
        hs_ohs s' = <[oh := registered_as ioremap s o]> (hs_ohs s) /\
        _lookup name s' = Done (Some oh) s' /\
        forall other, other <> name -> exists x, _lookup other s = Done x s /\ _lookup other s' = Done x s'
    end) s.
Proof.
  intros Hn Hr. eapply wp_mono; [by eapply register_spec|]. cbv beta. intros r s' H.
  destruct (find_name s name (hs_list s)) as [x|] eqn:E; [done|]. destruct H as [-> ->].
  pose proof (with_module_ok ioremap s oh o name Hr Hn E) as Hn'.
  assert (forall y, find_name (with_module ioremap s oh o) y (hs_list s ++ [oh]) =
    match find_name s y (hs_list s) with Some x => Some x | None => if bool_decide (y = name) then Some oh else None end) as Hf.
  { intros y. rewrite (find_name_ext s) by by apply (with_module_name ioremap s oh o name). rewrite find_name_app.
    destruct (find_name s y (hs_list s)); [done|]. cbn [find_name]. unfold name_of.
    rewrite (rg_here _ _ _ _ Hr), (rg_name _ _ _ _ Hr).
    destruct (decide (y = name)) as [->|Hne]; [by rewrite !bool_decide_true|]. by rewrite !bool_decide_false by congruence. }
  split; [done|]. split; [done|]. split; [done|]. rewrite lookup_run by done.
  change (hs_list (with_module ioremap s oh o)) with (hs_list s ++ [oh]). rewrite Hf, E, bool_decide_true by done.
  split; [done|]. intros y Hne. eexists. split; [by apply lookup_run|]. rewrite lookup_run by done.
  change (hs_list (with_module ioremap s oh o)) with (hs_list s ++ [oh]). rewrite Hf, bool_decide_false by done.
  by destruct (find_name s y (hs_list s)).
Qed.
