(* ===== verification/HwmodResources.v ===== *)
(** * The resources of a hardware module

    [omap_hwmod_count_resources] and [omap_hwmod_fill_resources] of omap_hwmod.c: the interrupts,
    the DMA requests and the address spaces of a module as an array of [struct resource]. *)

From S2P Require Import Prelude Platform Resource Mux Hwmod Hwmod81xxData.

Definition IORESOURCE_IRQ : Z := 0x00000400.
Definition IORESOURCE_DMA : Z := 0x00000800.

Fixpoint count_loop (l : list string) (n : Z) : M hwmod_state Z :=
  match l with
  | [] => ret n
  | i :: l' => os ← get_if i; count_loop l' (n + if_addr_cnt os)
  end.

Definition omap_hwmod_count_resources (oh : string) : M hwmod_state Z :=
  o ← get_oh oh;
  l ← elems (oh_slaves o) (oh_slaves_cnt o);
  count_loop l (oh_mpu_irqs_cnt o + oh_sdma_reqs_cnt o).

(** The four assignments to the fields of [res + r] *)
Definition put_res (res : list resource) (r : Z) (name : option string) (start end_ flags : Z)
    : M hwmod_state (list resource) :=
  x ← aget res r;
  aset res r (mkResource start end_ name flags (rs_parent x) (rs_sibling x) (rs_child x)).

(** The loops return the array and the index. *)
Fixpoint fill_irqs (l : list omap_hwmod_irq_info) (res : list resource) (r : Z) : M hwmod_state (list resource * Z) :=
  match l with
  | [] => ret (res, r)
  | x :: l' =>
      res ← put_res res r (ir_name x) (ir_irq x) (ir_irq x) IORESOURCE_IRQ;
      fill_irqs l' res (r + 1)
  end.

Fixpoint fill_dmas (l : list omap_hwmod_dma_info) (res : list resource) (r : Z) : M hwmod_state (list resource * Z) :=
  match l with
  | [] => ret (res, r)
  | x :: l' =>
      res ← put_res res r (dm_name x) (dm_dma_req x) (dm_dma_req x) IORESOURCE_DMA;
      fill_dmas l' res (r + 1)
  end.

Fixpoint fill_mems (l : list omap_hwmod_addr_space) (res : list resource) (r : Z) : M hwmod_state (list resource * Z) :=
  match l with
  | [] => ret (res, r)
  | x :: l' =>
      res ← put_res res r (as_name x) (as_pa_start x) (as_pa_end x) IORESOURCE_MEM;
      fill_mems l' res (r + 1)
  end.

Fixpoint fill_slaves (l : list string) (res : list resource) (r : Z) : M hwmod_state (list resource * Z) :=
  match l with
  | [] => ret (res, r)
  | i :: l' =>
      os ← get_if i;
      a ← elems (if_addr os) (if_addr_cnt os);
      '(res, r) ← fill_mems a res r;
      fill_slaves l' res r
  end.

(** The array that was filled and the result. *)
Definition omap_hwmod_fill_resources (oh : string) (res : list resource) : M hwmod_state (list resource * Z) :=
  o ← get_oh oh;
  irqs ← elems (oh_mpu_irqs o) (oh_mpu_irqs_cnt o);
  '(res, r) ← fill_irqs irqs res 0;
  dmas ← elems (oh_sdma_reqs o) (oh_sdma_reqs_cnt o);
  '(res, r) ← fill_dmas dmas res r;
  l ← elems (oh_slaves o) (oh_slaves_cnt o);
  fill_slaves l res r.

(** ** Specification *)

(** One resource of a module: name, start, end and flags. *)
Definition spec_res : Type := option string * Z * Z * Z.

Definition res_data (x : resource) : spec_res := (Resource.rs_name x, rs_start x, rs_end x, rs_flags x).

Definition irq_res (x : omap_hwmod_irq_info) : spec_res := (ir_name x, ir_irq x, ir_irq x, IORESOURCE_IRQ).
Definition dma_res (x : omap_hwmod_dma_info) : spec_res := (dm_name x, dm_dma_req x, dm_dma_req x, IORESOURCE_DMA).
Definition mem_res (x : omap_hwmod_addr_space) : spec_res := (as_name x, as_pa_start x, as_pa_end x, IORESOURCE_MEM).

Definition if_mems (s : hwmod_state) (i : string) : list spec_res :=
  match hs_ifs s !! i with Some os => mem_res <$> if_addr os | None => [] end.

(** The resources of a module, in order. *)
Definition mod_resources (s : hwmod_state) (o : omap_hwmod) : list spec_res :=
  (irq_res <$> oh_mpu_irqs o) ++ (dma_res <$> oh_sdma_reqs o) ++ mjoin (if_mems s <$> oh_slaves o).

(** The counts are those of the arrays. *)
Record counts_ok (s : hwmod_state) (o : omap_hwmod) : Prop := {
  co_irqs : oh_mpu_irqs_cnt o = Z.of_nat (length (oh_mpu_irqs o));
  co_dmas : oh_sdma_reqs_cnt o = Z.of_nat (length (oh_sdma_reqs o));
  co_slaves : oh_slaves_cnt o = Z.of_nat (length (oh_slaves o));
  co_ifs : Forall (fun i => exists os, hs_ifs s !! i = Some os /\ if_addr_cnt os = Z.of_nat (length (if_addr os)))
    (oh_slaves o)
}.

(** ** The loops put one resource after the other *)

Definition res_of (p : spec_res) (x : resource) : resource :=
  let '(name, start, end_, flags) := p in
  mkResource start end_ name flags (rs_parent x) (rs_sibling x) (rs_child x).

Fixpoint put_all (l : list spec_res) (res : list resource) (r : Z) : M hwmod_state (list resource * Z) :=
  match l with
  | [] => ret (res, r)
  | (name, start, end_, flags) :: l' => res ← put_res res r name start end_ flags; put_all l' res (r + 1)
  end.

Lemma put_all_app l l' res r s :
  put_all (l ++ l') res r s = bind (put_all l res r) (fun '(res, r) => put_all l' res r) s.
Proof.
  revert res r s. induction l as [|[[[n a] b] f] l IH]; intros res r s; [done|]. cbn [app put_all].
  unfold bind at 1 2 3. destruct (put_res res r n a b f s) as [res' s'|]; [|done]. by rewrite IH.
Qed.

Lemma fill_irqs_put l res r s : fill_irqs l res r s = put_all (irq_res <$> l) res r s.
Proof.
  revert res r s. induction l as [|x l IH]; intros res r s; [done|]. cbn.
  unfold bind. destruct (put_res res r _ _ _ _ s); [apply IH | done].
Qed.

Lemma fill_dmas_put l res r s : fill_dmas l res r s = put_all (dma_res <$> l) res r s.
Proof.
  revert res r s. induction l as [|x l IH]; intros res r s; [done|]. cbn.
  unfold bind. destruct (put_res res r _ _ _ _ s); [apply IH | done].
Qed.

Lemma fill_mems_put l res r s : fill_mems l res r s = put_all (mem_res <$> l) res r s.
Proof.
  revert res r s. induction l as [|x l IH]; intros res r s; [done|]. cbn.
  unfold bind. destruct (put_res res r _ _ _ _ s); [apply IH | done].
Qed.

(** Putting resources does not touch the modules. *)
Lemma put_res_state res r n a b f s res' s' : put_res res r n a b f s = Done res' s' -> s' = s.
Proof.
  unfold put_res, aget, aset, bind, fail, ret. destruct (r <? 0); [done|]. destruct (res !! Z.to_nat r); [|done].
  destruct ((0 <=? r) && _); [|done]. by intros [= _ <-].
Qed.

Lemma put_all_state l res r s x s' : put_all l res r s = Done x s' -> s' = s.
Proof.
  revert res r. induction l as [|[[[n a] b] f] l IH]; intros res r; cbn [put_all]; [by intros [= _ <-]|].
  unfold bind. destruct (put_res res r n a b f s) as [res' s1|] eqn:E; [|done].
  rewrite (put_res_state _ _ _ _ _ _ _ _ _ E). apply IH.
Qed.

Lemma elems_run {A} (l : list A) cnt (s : hwmod_state) : cnt = Z.of_nat (length l) -> elems l cnt s = Done l s.
Proof. intros ->. unfold elems. rewrite Z.ltb_irrefl, Nat2Z.id, firstn_all. done. Qed.

Lemma get_if_run i os s : hs_ifs s !! i = Some os -> get_if i s = Done os s.
Proof. intros H. unfold get_if, bind, gets. by rewrite H. Qed.

Lemma get_oh_run oh o s : hs_ohs s !! oh = Some o -> get_oh oh s = Done o s.
Proof. intros H. unfold get_oh, bind, gets. by rewrite H. Qed.

Lemma fill_slaves_put l res r s :
  Forall (fun i => exists os, hs_ifs s !! i = Some os /\ if_addr_cnt os = Z.of_nat (length (if_addr os))) l ->
  fill_slaves l res r s = put_all (mjoin (if_mems s <$> l)) res r s.
Proof.
  intros H. revert res r. induction H as [|i l (os & Hi & Hc) _ IH]; intros res r; [done|].
  cbn [fill_slaves]. erewrite bind_Done by by apply get_if_run. erewrite bind_Done by by apply elems_run.
  change (mjoin (if_mems s <$> i :: l)) with (if_mems s i ++ mjoin (if_mems s <$> l)).
  unfold if_mems at 1. rewrite Hi, put_all_app. unfold bind. rewrite fill_mems_put.
  destruct (put_all (mem_res <$> if_addr os) res r s) as [[res' r'] s'|] eqn:E; [|done].
  rewrite (put_all_state _ _ _ _ _ _ E). apply IH.
Qed.

Lemma fill_put oh o res s :
  hs_ohs s !! oh = Some o -> counts_ok s o ->
  omap_hwmod_fill_resources oh res s = put_all (mod_resources s o) res 0 s.
Proof.
  intros Ho [Hi Hd Hs Hf]. unfold omap_hwmod_fill_resources, mod_resources.
  erewrite bind_Done by by apply get_oh_run. erewrite bind_Done by by apply elems_run.
  rewrite put_all_app. unfold bind at 1 5. rewrite fill_irqs_put.
  destruct (put_all (irq_res <$> oh_mpu_irqs o) res 0 s) as [[res1 r1] s1|] eqn:E1; [|done].
  rewrite (put_all_state _ _ _ _ _ _ E1), put_all_app. erewrite bind_Done by by apply elems_run.
  unfold bind at 1 3. rewrite fill_dmas_put.
  destruct (put_all (dma_res <$> oh_sdma_reqs o) res1 r1 s) as [[res2 r2] s2|] eqn:E2; [|done].
  rewrite (put_all_state _ _ _ _ _ _ E2). erewrite bind_Done by by apply elems_run. by apply fill_slaves_put.
Qed.

(** What the whole sequence does to the array, or that it overruns it. *)
Lemma put_all_fits l done_ rest s :
  (length l <= length rest)%nat ->
  exists new, put_all l (done_ ++ rest) (Z.of_nat (length done_)) s =
    Done (done_ ++ new ++ drop (length l) rest, Z.of_nat (length done_ + length l)) s /\ res_data <$> new = l.
Proof.
  revert done_ rest. induction l as [|[[[n a] b] f] l IH]; intros d rest Hl.
  { exists []. by rewrite Nat.add_0_r. }
  destruct rest as [|x rest]; [cbn in Hl; lia|]. cbn [put_all length drop].
  set (y := mkResource a b n f (rs_parent x) (rs_sibling x) (rs_child x)).
  assert (put_res (d ++ x :: rest) (Z.of_nat (length d)) n a b f s = Done ((d ++ [y]) ++ rest) s) as E.
  { unfold put_res. erewrite bind_Done.
    - unfold aset. rewrite (proj2 (Z.leb_le 0 _)), (proj2 (Z.ltb_lt _ _)) by (rewrite ?length_app; cbn [length]; lia).
      cbn [andb]. rewrite Nat2Z.id, insert_app_r_alt, Nat.sub_diag, <- app_assoc by lia. done.
    - unfold aget. rewrite (proj2 (Z.ltb_ge _ 0)), Nat2Z.id, list_lookup_middle by lia. done. }
  erewrite bind_Done by exact E. destruct (IH (d ++ [y]) rest ltac:(cbn in Hl; lia)) as (new & Er & Hn).
  replace (Z.of_nat (length d) + 1) with (Z.of_nat (length (d ++ [y]))) by (rewrite length_app; cbn [length]; lia).
  exists (y :: new). rewrite Er. split; [|cbn; by rewrite Hn].
  rewrite length_app. cbn [length]. f_equal. f_equal; [by rewrite <- app_assoc | lia].
Qed.

Lemma put_all_overruns l done_ rest s :
  (length rest < length l)%nat -> put_all l (done_ ++ rest) (Z.of_nat (length done_)) s = Fault OutOfBounds.
Proof.
  intros Hl. rewrite <- (take_drop (length rest) l), put_all_app.
  destruct (put_all_fits (take (length rest) l) done_ rest s) as (new & E & Hn).
  { rewrite length_take. lia. }
  erewrite bind_Done by exact E. rewrite length_take, Nat.min_l, drop_all, app_nil_r by lia.
  destruct (drop (length rest) l) as [|[[[n a] b] f] l'] eqn:Ed.
  { apply (f_equal length) in Ed. rewrite length_drop in Ed. cbn in Ed. lia. }
  assert (length new = length rest) as En.
  { apply (f_equal length) in Hn. rewrite length_fmap, length_take in Hn. lia. }
  cbn [put_all]. erewrite bind_Fault; [done|]. unfold put_res. erewrite bind_Fault; [done|].
  unfold aget. rewrite (proj2 (Z.ltb_ge _ 0)), Nat2Z.id, lookup_ge_None_2 by (rewrite ?length_app; lia). done.
Qed.

Lemma count_loop_run l n s :
  Forall (fun i => exists os, hs_ifs s !! i = Some os /\ if_addr_cnt os = Z.of_nat (length (if_addr os))) l ->
  count_loop l n s = Done (n + Z.of_nat (length (mjoin (if_mems s <$> l)))) s.
Proof.
  intros H. revert n. induction H as [|i l (os & Hi & Hc) _ IH]; intros n; cbn [count_loop].
  { by rewrite Z.add_0_r. }
  erewrite bind_Done by by apply get_if_run. rewrite IH, Hc.
  change (mjoin (if_mems s <$> i :: l)) with (if_mems s i ++ mjoin (if_mems s <$> l)).
  unfold if_mems at 2. rewrite Hi, length_app, length_fmap. f_equal. lia.
Qed.

(** ** Properties *)

(** C23: the two functions agree on the size of the array.  [omap_hwmod_count_resources] returns
    the number of interrupts, DMA requests and address spaces of the module;
    [omap_hwmod_fill_resources] on an array of at least that many elements fills exactly the
    first ones, in this order, returns that number, and leaves the elements behind and the links
    of the elements alone; a shorter array is overrun. *)
Theorem hwmod_resources_fit oh o res s :
  hs_ohs s !! oh = Some o -> counts_ok s o ->
  let n := length (mod_resources s o) in
  omap_hwmod_count_resources oh s = Done (Z.of_nat n) s /\
  ((n <= length res)%nat -> exists new,
     omap_hwmod_fill_resources oh res s = Done (new ++ drop n res, Z.of_nat n) s /\
     res_data <$> new = mod_resources s o) /\
  ((length res < n)%nat -> omap_hwmod_fill_resources oh res s = Fault OutOfBounds).
Proof.
  intros Ho Hc n. split; [|split].
  - unfold omap_hwmod_count_resources. erewrite bind_Done by by apply get_oh_run.
    erewrite bind_Done by by apply elems_run, Hc. rewrite count_loop_run by apply Hc.
    subst n. unfold mod_resources. rewrite !length_app, !length_fmap, (co_irqs _ _ Hc), (co_dmas _ _ Hc).
    f_equal. lia.
  - intros Hl. rewrite (fill_put oh o) by done.
    destruct (put_all_fits (mod_resources s o) [] res s Hl) as (new & E & Hn). by exists new.
  - intros Hl. rewrite (fill_put oh o) by done. by apply (put_all_overruns _ []).
Qed.
