(* ===== verification/HwmodBoot.v ===== *)
(** * Booting the hardware modules

    mach-omap2/io.c and the part of serial.c that concerns the modules, and the state in which
    they leave the modules of a DM8148. *)

From stdpp Require Import pretty.
From S2P Require Import Prelude Platform Prcm Powerdomain Clockdomain ClkCore ClkEnable Adpll ClkRate Clk814xData Dm8148.
From S2P Require Import Mux MuxSignal Hwmod Hwmod81xxData HwmodSpec HwmodRefine HwmodMachine HwmodSystem HwmodClocks.

Section Boot.
  Context `{SOC : Soc} `{HW : Hardware} `{FNS : HwmodFns} (arch : option pwrdm_ops) (depth fuel : nat).
(** CONFIG_PM_RUNTIME *)
Variable pm_runtime : bool.
Variable ioremap : Z -> Z -> Z.

Definition _set_hwmod_postsetup_state (data : Z) (oh : string) : M hwmod_state Z :=
  omap_hwmod_set_postsetup_state (Some oh) data.

Definition omap2_init_common_infrastructure : M hwmod_state unit :=
  hw_io pm_boot;;
  ti81xx_hwmod_init ioremap;;
  let postsetup_state := if pm_runtime then _HWMOD_STATE_IDLE else _HWMOD_STATE_ENABLED in
  omap_hwmod_for_each (Some (_set_hwmod_postsetup_state postsetup_state));;
  let postsetup_state := _HWMOD_STATE_DISABLED in
  omap_hwmod_for_each_by_class (Some "wd_timer") (Some (_set_hwmod_postsetup_state postsetup_state));;
  hw_io (ti814x_clk_init arch depth fuel);;
  ret tt.

(** serial.c: the UARTs stay enabled and are not reset.  [allocs] allocations succeed; the list of
    the UARTs that serial.c keeps is left out. *)
Fixpoint serial_loop (allocs : nat) (i : Z) : M hwmod_state unit :=
  oh ← omap_hwmod_lookup (Some (String.append "uart" (pretty (i + 1))));
  match oh, allocs with
  | None, _ | _, O => ret tt
  | Some oh, S allocs' =>
      upd_oh oh (fun o => set_oh_flags (Z.lor (oh_flags o) (Z.lor HWMOD_INIT_NO_IDLE HWMOD_INIT_NO_RESET)) o);;
      serial_loop allocs' (i + 1)
  end.

Definition omap_serial_early_init (allocs : nat) : M hwmod_state unit := serial_loop allocs 0.

Definition omap2_init_common_devices (allocs : nat) : M hwmod_state unit :=
  omap_serial_early_init allocs;;
  omap_hwmod_late_init (omap2_clk_functions arch depth fuel);;
  ret tt.
End Boot.

(** ** On the chip *)

Section Chip.
  #[local] Existing Instance dm8148_soc.
  #[local] Existing Instance tied_hw.

(** No class of the tables has a function. *)
#[local] Instance no_class_fns : HwmodFns := fun _ _ => fail Bug.

(** The static mapping of the L4 registers. *)
Definition l4_map (pa size : Z) : Z := pa + 0xb2000000.

Definition off_state : hwmod_state :=
  mkHwmodState (mkMuxState boot_world [] 0 None []) ti81xx_ohs ti81xx_ifs [] None false.

Definition hwmod_boot : M hwmod_state unit :=
  omap2_init_common_infrastructure dm8148_arch DEPTH FUEL true l4_map;;
  omap2_init_common_devices dm8148_arch DEPTH FUEL 10.

Definition end_state (r : outcome hwmod_state unit) : hwmod_state :=
  match r with Done _ s => s | Fault _ => off_state end.

Definition hwmod_booted : hwmod_state := end_state (hwmod_boot off_state).

Definition runs {A} (r : outcome hwmod_state A) : bool := match r with Done _ _ => true | Fault _ => false end.

Lemma runs_done r : runs r = true -> r = Done tt (end_state r).
Proof. by destruct r as [[] s|]. Qed.

Lemma hwmod_boot_runs : hwmod_boot off_state = Done tt hwmod_booted.
Proof. apply runs_done. vm_compute. reflexivity. Qed.
End Chip.

#[global] Opaque hwmod_booted.

(** ** Checking the state *)

#[global] Instance clksel_rate_eq_dec : EqDecision clksel_rate.
Proof. solve_decision. Defined.
#[global] Instance clksel_eq_dec : EqDecision clksel.
Proof. solve_decision. Defined.
#[global] Instance clk_eq_dec : EqDecision clk.
Proof. solve_decision. Defined.
#[global] Instance dpll_data_eq_dec : EqDecision dpll_data.
Proof. solve_decision. Defined.
#[global] Instance clkdm_dep_eq_dec : EqDecision clkdm_dep.
Proof. solve_decision. Defined.
#[global] Instance pwrdm_ref_eq_dec : EqDecision pwrdm_ref.
Proof. solve_decision. Defined.
#[global] Instance clockdomain_eq_dec : EqDecision clockdomain.
Proof. solve_decision. Defined.
#[global] Instance powerdomain_eq_dec : EqDecision powerdomain.
Proof. solve_decision. Defined.
#[global] Instance autodep_ref_eq_dec : EqDecision autodep_ref.
Proof. solve_decision. Defined.
#[global] Instance clkdm_autodep_eq_dec : EqDecision clkdm_autodep.
Proof. solve_decision. Defined.
#[global] Instance clk_lookup_eq_dec : EqDecision clk_lookup.
Proof. solve_decision. Defined.
#[global] Instance world_eq_dec : EqDecision world.
Proof. solve_decision. Defined.

Definition static_same_check (w w' : world) : bool :=
  bool_decide (idle <$> w_clks w = idle <$> w_clks w') &&
  bool_decide (set_cd_usecount 0 <$> w_clkdms w = set_cd_usecount 0 <$> w_clkdms w') &&
  bool_decide (w_pwrdms w = w_pwrdms w') &&
  bool_decide (w' = set_w_trace (w_trace w') (set_w_pwrdms (w_pwrdms w') (set_w_clkdms (w_clkdms w')
    (set_w_clks (w_clks w') w)))).

Lemma static_same_check_sound w w' : static_same_check w w' = true -> same_static w w'.
Proof.
  intros [[[H1 H2]%andb_true_iff H3]%andb_true_iff H4]%andb_true_iff.
  apply bool_decide_eq_true in H1, H2, H3, H4. split.
  - intros c. by rewrite <- !lookup_fmap, H1.
  - intros d. by rewrite <- !lookup_fmap, H2.
  - intros p (pd & h & Hp & Ht). exists pd, h. by rewrite <- H3.
  - by eexists _, _, _, _.
Qed.

Definition module_check (s : hwmod_state) (o : omap_hwmod) : bool :=
  match oh_class o with Some c => is_none (hc_pre_shutdown c) && is_none (hc_reset c) | None => false end &&
  (oh_slaves_cnt o =? Z.of_nat (length (oh_slaves o))) &&
  forallb (fun i => negb (is_none (hs_ifs s !! i))) (oh_slaves o) &&
  (oh_rst_lines_cnt o =? Z.of_nat (length (oh_rst_lines o))) &&
  (oh_opt_clks_cnt o =? Z.of_nat (length (oh_opt_clks o))) &&
  forallb (fun c => negb (is_none (w_clks booted !! c))) (mod_clks (hs_ifs s) o ++ opt_clk_list o) &&
  (has (oh__int_flags o) _HWMOD_NO_MPU_PORT ||
   (0 <=? oh__mpu_port_index o) && (oh__mpu_port_index o <? Z.of_nat (length (oh_slaves o)))) &&
  is_none (oh_mux o).

Lemma forallb_Forall {A} (f : A -> bool) (P : A -> Prop) l :
  (forall x, f x = true -> P x) -> forallb f l = true -> Forall P l.
Proof.
  intros HP H. apply Forall_forall. intros x Hx%list_elem_of_In. apply HP. by eapply forallb_forall in H.
Qed.

Lemma module_check_sound s o : module_check s o = true -> module_ok s o.
Proof.
  unfold module_check. intros H. apply andb_true_iff in H as [H Hm]. apply is_none_true in Hm.
  apply andb_true_iff in H as [H Hp].
  repeat match goal with H : (_ && _)%bool = true |- _ => apply andb_true_iff in H as [? ?] end. bool_to_prop.
  split; try done.
  - destruct (oh_class o) as [c|]; [|done]. exists c. bool_to_prop. split; [done|].
    split; by apply is_none_true.
  - eapply forallb_Forall; [|eassumption]. intros i. apply not_none.
  - eapply forallb_Forall; [|eassumption]. intros c. apply not_none.
  - apply orb_true_iff in Hp as [Hp|Hp]; [by left | right]. bool_to_prop. lia.
  - intros h Hh. congruence.
Qed.

Definition hwmod_check (base : string -> Z) (s : hwmod_state) : bool :=
  bool_decide (NoDup (hs_list s)) &&
  forallb (fun oh => match hs_ohs s !! oh with Some o => module_check s o | None => false end) (hs_list s) &&
  match hs_mpu_oh s with
  | Some m =>
      match hs_ohs s !! m with
      | Some mo => match oh__clk mo with Some c => negb (is_none (w_clks booted !! c)) | None => false end
      | None => false
      end
  | None => false
  end &&
  static_same_check booted (hs_w s) && count_check clk_names (plus base (held s)) (hs_w s) &&
  (zsum (plus base (most s)) clk_names <=? 126).

Lemma hwmod_check_sound base s : (forall x, 0 <= base x) -> hwmod_check base s = true -> hwmod_ok base s.
Proof.
  intros Hb H. unfold hwmod_check in H. apply andb_true_iff in H as [H Hroom].
  apply andb_true_iff in H as [H Hcnt]. apply andb_true_iff in H as [H Hss].
  apply andb_true_iff in H as [[Hnd Hmods]%andb_true_iff Hmpu]. bool_to_prop. split; try done.
  - by apply bool_decide_eq_true in Hnd.
  - intros oh Hin. apply list_elem_of_In in Hin. eapply forallb_forall in Hmods; [|exact Hin]. cbv beta in Hmods.
    destruct (hs_ohs s !! oh) as [o|]; [|done]. exists o. split; [done | by apply module_check_sound].
  - destruct (hs_mpu_oh s) as [m|]; [|done]. destruct (hs_ohs s !! m) as [mo|] eqn:Emo; [|done].
    destruct (oh__clk mo) as [c|] eqn:Ec; [|done]. exists m, mo, c. split_and!; try done. by apply not_none.
  - split; [by apply static_same_check_sound | by apply count_check_sound].
Qed.

(** The interface clocks that stay enabled from the set-up on. *)
Definition always_on (s : hwmod_state) : list string :=
  mjoin ((fun oh => match hs_ohs s !! oh with
    | Some o => mjoin ((fun i => match hs_ifs s !! i with
        | Some os => if has (if_flags os) OCPIF_SWSUP_IDLE then [] else opt_list (if__clk os)
        | None => []
        end) <$> oh_slaves o)
    | None => []
    end) <$> hs_list s).

Definition boot_base : string -> Z := plus boot_refs (always_on hwmod_booted).

Lemma hwmod_booted_ok : hwmod_ok boot_base hwmod_booted.
Proof.
  apply hwmod_check_sound.
  - apply plus_nonneg. intros x. unfold boot_refs. case_bool; lia.
  - vm_compute. reflexivity.
Qed.

(** ** Properties *)

(** Whether a module is one of this chip. *)
Definition of_chip (oh : string) : bool :=
  match ti81xx_ohs !! oh with
  | Some o => has (oh_omap_chip o) (w_omap_chip boot_world)
  | None => false
  end.

(** The state of a module after boot, by its class. *)
Definition boot_state (o : omap_hwmod) : Z :=
  match oh_class o with
  | Some c =>
      if bool_decide (hc_name c = Some "wd_timer") then _HWMOD_STATE_DISABLED
      else if bool_decide (hc_name c = Some "uart") then _HWMOD_STATE_ENABLED
      else _HWMOD_STATE_IDLE
  | None => _HWMOD_STATE_UNKNOWN
  end.

(** The clock that was found for a module is the one it names. *)
Definition clk_found (o : omap_hwmod) : bool :=
  match oh_main_clk o with
  | None => is_none (oh__clk o)
  | Some n =>
      match oh__clk o with
      | Some c => match w_clks booted !! c with Some k => bool_decide (ck_name k = n) | None => false end
      | None => false
      end
  end.

Definition boot_check (s : hwmod_state) : bool :=
  bool_decide (hs_list s = filter (fun oh => of_chip oh = true) ti81xx_hwmods) &&
  forallb (fun oh => match hs_ohs s !! oh with
    | Some o => (oh__state o =? boot_state o) && clk_found o
    | None => false
    end) (hs_list s).

Lemma boot_check_sound s :
  boot_check s = true ->
  hs_list s = filter (fun oh => of_chip oh = true) ti81xx_hwmods /\
  forall oh, oh ∈ hs_list s -> exists o, hs_ohs s !! oh = Some o /\ oh__state o = boot_state o /\ clk_found o = true.
Proof.
  intros [Hl Hm]%andb_true_iff. split; [by apply bool_decide_eq_true in Hl|].
  intros oh Hin%list_elem_of_In. eapply forallb_forall in Hm; [|exact Hin]. cbv beta in Hm.
  destruct (hs_ohs s !! oh) as [o|]; [|done]. apply andb_true_iff in Hm as [Hs Hc]. exists o.
  split; [done|]. split; [by apply Z.eqb_eq | done].
Qed.

Lemma ops_check_sound (s : hwmod_state) (ops : list (mod_op * string)) :
  forallb (fun '(_, oh) => bool_decide (oh ∈ hs_list s)) ops = true -> Forall (fun '(_, oh) => oh ∈ hs_list s) ops.
Proof. apply forallb_Forall. intros [op oh] H. by apply bool_decide_eq_true in H. Qed.

Lemma booted_check : boot_check hwmod_booted = true.
Proof. vm_compute. reflexivity. Qed.

(** Booting the modules of a DM8148, from the tables of the source through the clock
    framework.  The boot runs to the end; the modules that are registered are those of the table
    that the chip has, in order; each has found the clock it names; the watchdog is disabled, the
    UARTs, which serial.c wants to have alive, are enabled, and all others idle; and the
    references to the clocks are those of the enabled modules, the interface clocks that stay on
    and the on-chip memory: the invariant of the modules is established. *)
Theorem hwmod_boot_correct :
  hwmod_boot off_state = Done tt hwmod_booted /\
  hs_list hwmod_booted = filter (fun oh => of_chip oh = true) ti81xx_hwmods /\
  (forall oh, oh ∈ hs_list hwmod_booted -> exists o, hs_ohs hwmod_booted !! oh = Some o /\
     oh__state o = boot_state o /\ clk_found o = true) /\
  hwmod_ok boot_base hwmod_booted.
Proof.
  destruct (boot_check_sound _ booted_check) as [Hl Hm].
  split; [exact hwmod_boot_runs|]. split; [exact Hl|]. split; [exact Hm | exact hwmod_booted_ok].
Qed.

Section Witness.
  #[local] Existing Instance dm8148_soc.
  #[local] Existing Instance tied_hw.
  #[local] Existing Instance no_class_fns.

Definition some_ops : list (mod_op * string) :=
  [(OpEnable, "ti81xx_spi1_hwmod"); (OpReset, "ti81xx_spi1_hwmod"); (OpEnable, "ti81xx_gpio1_hwmod");
   (OpIdle, "ti81xx_spi1_hwmod"); (OpShutdown, "ti816x_uart2_hwmod"); (OpEnable, "ti81xx_gpio1_hwmod")].

Lemma hwmod_refines_witness :
  wp (run_ops (omap2_clk_functions dm8148_arch DEPTH FUEL) some_ops)
    (fun rs s' => hwmod_ok boot_base s' /\ machine (state_of hwmod_booted) some_ops rs (state_of s')) hwmod_booted.
Proof.
  apply (hwmod_refines boot_base some_ops hwmod_booted).
  - reflexivity.
  - reflexivity.
  - exact hwmod_booted_ok.
  - apply ops_check_sound. vm_compute. reflexivity.
Defined.
End Witness.
