(* ===== verification/HwmodExamples.v ===== *)
(** * Hardware modules at work

    The theorems on modules applied to the tables of the TI81xx and to the booted chip, and what
    the model shows where the code does not do what it, or its documentation, means to. *)

From S2P Require Import Prelude Platform Prcm Powerdomain Clockdomain ClkCore ClkEnable Adpll ClkRate Clk814xData Dm8148.
From S2P Require Import Resource Mux MuxSignal Hwmod Hwmod81xxData HwmodSpec HwmodRefine HwmodMachine HwmodSystem.
From S2P Require Import HwmodClocks HwmodSysc HwmodRegister HwmodResources HwmodBoot.

(** ** Witnesses *)

Definition blank_resource : resource := mkResource 0 0 None 0 None None None.

(** The interrupts of the ELM are counted, the terminator of the array too. *)
Lemma hwmod_resources_fit_witness :
  exists new, omap_hwmod_fill_resources "ti81xx_elm_hwmod" (replicate 4 blank_resource) off_state =
    Done (new ++ [blank_resource], 3) off_state /\ length new = 3%nat.
Proof.
  destruct (hwmod_resources_fit "ti81xx_elm_hwmod" ti81xx_elm_hwmod (replicate 4 blank_resource) off_state)
    as (_ & H & _).
  - vm_compute. reflexivity.
  - split; try (vm_compute; reflexivity). apply Forall_singleton. exists ti81xx_l4_slow__elm.
    split; vm_compute; reflexivity.
  - destruct H as (new & E & Hn); [vm_compute; lia|]. exists new. split; [exact E|].
    apply (f_equal length) in Hn. rewrite length_fmap in Hn. exact Hn.
Defined.

Section Ram.
  #[local] Existing Instance ram_hw.

(** An SPI with nothing in its cache. *)
Definition spi_module : omap_hwmod := set_oh__mpu_rt_va 0xfa030100 ti81xx_spi1_hwmod.
Definition spi_state : hwmod_state :=
  set_hs_ohs {["ti81xx_spi1_hwmod" := spi_module]} (mkHwmodState (mkMuxState empty_world [] 0 None []) ∅ ∅ [] None false).

Lemma sysconfig_programmed_witness :
  wp (run_sysc SyscEnable "ti81xx_spi1_hwmod")
    (fun _ s' => exists o', hs_ohs s' !! "ti81xx_spi1_hwmod" = Some o' /\
       sv_sidle (view (oh__sysc_cache o')) = MODE_SMART /\ sv_enwkup (view (oh__sysc_cache o')) = 1 /\
       sv_autoidle (view (oh__sysc_cache o')) = 1 /\
       head (w_trace (hs_w s')) = Some (sysc_write spi_module spi_sysc (oh__sysc_cache o'))) spi_state.
Proof.
  eapply wp_mono; [apply (sysconfig_programmed SyscEnable "ti81xx_spi1_hwmod" spi_module spi_sysc spi_state)|].
  - split; try (vm_compute; reflexivity).
    + exists spi_class. split; reflexivity.
    + split; vm_compute; [discriminate | reflexivity].
    + split; vm_compute; [discriminate | reflexivity].
  - cbv beta. intros _ s' (o' & vs & E & _ & Ht & Hv & _). exists o'. rewrite E, Ht, Hv. split; [apply lookup_insert_eq|].
    split_and!; reflexivity.
Defined.
End Ram.

(** The table without any module registered. *)
Lemma hwmod_register_lookup_witness :
  wp (_register l4_map (Some "ti81xx_gpio1_hwmod")) (fun r s' => r = 0 /\
    _lookup "gpio1" s' = Done (Some "ti81xx_gpio1_hwmod") s') off_state.
Proof.
  eapply wp_mono; [apply (hwmod_register_lookup l4_map off_state "ti81xx_gpio1_hwmod" ti81xx_gpio1_hwmod "gpio1")|].
  - split; [apply Forall_nil_2 | intros x y H; apply not_elem_of_nil in H; contradiction].
  - split; try (vm_compute; reflexivity).
    + exists ti81xx_gpio_hwmod_class, "gpio". split; reflexivity.
    + split; vm_compute; [discriminate | reflexivity].
    + apply Forall_singleton. exists ti81xx_l4_slow__gpio1. split; vm_compute; reflexivity.
  - cbv beta. intros r s' (-> & _ & _ & H & _). done.
Defined.

(** ** What the model shows *)

Definition result {A} (r : outcome hwmod_state A) : option A := match r with Done a _ => Some a | Fault _ => None end.

(** The terminator of the interrupts of the ELM becomes a resource: interrupt 65535. *)
Theorem elm_terminator_is_a_resource :
  (match result (omap_hwmod_fill_resources "ti81xx_elm_hwmod" (replicate 3 blank_resource) off_state) with
   | Some (res, n) => (n, res_data <$> (res !! 1%nat))
   | None => (0, None)
   end) = (3, Some (None, 65535, 65535, IORESOURCE_IRQ)).
Proof. vm_compute. reflexivity. Qed.

(** A reset line that does not exist is looked up as 254, which is not an error value. *)
Theorem missing_hardreset_is_no_error :
  result (_lookup_hardreset "ti81xx_gpio1_hwmod" "rst" off_state) = Some 254 /\ IS_ERR_VALUE 254 = false.
Proof. split; vm_compute; reflexivity. Qed.

(** The comment on i2c3 says that it enables I2C1 and I2C3; it has the clock control register of
    i2c1, of which the comment says I2C0 and I2C2. *)
Theorem i2c3_shares_i2c1_control :
  oh_clkctrl_reg ti814x_i2c3_hwmod = oh_clkctrl_reg ti81xx_i2c1_hwmod /\
  oh_clkctrl_reg ti814x_i2c4_hwmod <> oh_clkctrl_reg ti814x_i2c3_hwmod.
Proof. split; vm_compute; [reflexivity | discriminate]. Qed.

(** A class with the type-2 layout that knows smart idle with wake-up. *)
Definition type2_sysc : omap_hwmod_class_sysconfig :=
  mkSysc 0 0x10 0x14 (Z.lor SYSC_HAS_SIDLEMODE SYSC_HAS_SOFTRESET) (Z.lor SIDLE_SMART SIDLE_SMART_WKUP) 0
    (Some omap_hwmod_sysc_type2).
Definition type2_module : omap_hwmod :=
  set_oh_flags 0 (mkHwmod (Some "m") (Some (mkHwmodClass (Some "c") (Some type2_sysc) 0 None None)) None [] [] []
    0 None None [] [] 0 0 0 0 0 0 0 0 0 0 0 0 0).

(** The type-2 layout has no wake-up bit, so enabling the wake-up sets the bit of the software
    reset. *)
Theorem type2_wakeup_resets :
  match _enable_wakeup "m" 0 (set_hs_ohs {["m" := type2_module]} off_state) with
  | Done (r, v) _ => r = 0 /\ has v SYSC_TYPE2_SOFTRESET_MASK = true
  | Fault _ => False
  end.
Proof. vm_compute. split; reflexivity. Qed.

(** The driver function takes the idle mode as a flag and not, as it says, as the value of the
    field: given the value for no-idle it selects force-idle. *)
Theorem slave_idlemode_is_a_flag :
  getf 2 3 (snd (_set_slave_idlemode (Some spi_sysc) MODE_NO 0)) = MODE_FORCE.
Proof. vm_compute. reflexivity. Qed.

Section Chip.
  #[local] Existing Instance dm8148_soc.
  #[local] Existing Instance tied_hw.
  #[local] Existing Instance no_class_fns.

Abbreviation clocks := (omap2_clk_functions dm8148_arch DEPTH FUEL).

(** The SYSCONFIG register of UART1 *)
Definition uart1_sysc_reg : Z := 0xfa020054.

Definition after {A} (r : outcome hwmod_state A) : hwmod_state := match r with Done _ s => s | Fault _ => off_state end.

(** The value last written to a register *)
Fixpoint last_written (a : Z) (h : list io_event) : option Z :=
  match h with
  | [] => None
  | IoWrite b v :: h' => if b =? a then Some v else last_written a h'
  | _ :: h' => last_written a h'
  end.

(** After a reset the cache still has the reset bit, and the next idle writes it: the module is
    reset once more. *)
Theorem idle_resets_again :
  let s := after (run_ops clocks [(OpReset, "ti816x_uart1_hwmod"); (OpIdle, "ti816x_uart1_hwmod")] hwmod_booted) in
  exists v, last_written uart1_sysc_reg (w_trace (hs_w s)) = Some v /\ Z.testbit v 1 = true /\
    last_written uart1_sysc_reg (w_trace (hs_w hwmod_booted)) = Some 21.
Proof. eexists. split; [vm_compute; reflexivity|]. split; vm_compute; reflexivity. Qed.

(** A module that idles is shut down with its clock off: its SYSCONFIG register is written while
    nobody holds its functional clock. *)
Theorem shutdown_writes_without_clock :
  let s := after (omap_hwmod_shutdown clocks (Some "ti81xx_i2c1_hwmod") hwmod_booted) in
  usecount_of (hs_w hwmod_booted) "i2c1_fck" = 0 /\ usecount_of (hs_w s) "i2c1_fck" = 0 /\
  take 1 (w_trace (hs_w s)) = [IoWrite 0xfa028010 7].
Proof. vm_compute. split_and!; reflexivity. Qed.

(** The results of [_idle] and [_shutdown] do not reach the caller. *)
Theorem idle_hides_errors :
  result (_idle clocks "ti81xx_i2c1_hwmod" hwmod_booted) = Some (- EINVAL) /\
  result (omap_hwmod_idle clocks (Some "ti81xx_i2c1_hwmod") hwmod_booted) = Some 0.
Proof. split; vm_compute; reflexivity. Qed.

(** A clock framework that cannot enable any clock. *)
Definition dead_clocks : clk_functions := {|
  cf_enable := Some (fun _ => ret (- EINVAL));
  cf_disable := Some (fun _ => ret tt);
  cf_round_rate := None;
  cf_set_rate := None;
  cf_set_parent := None
|}.

(** Whether the clocks could be enabled is not looked at: the module counts as enabled. *)
Theorem enable_ignores_clock_errors :
  result (omap_hwmod_enable dead_clocks (Some "ti81xx_elm_hwmod") hwmod_booted) = Some 0 /\
  state_of (after (omap_hwmod_enable dead_clocks (Some "ti81xx_elm_hwmod") hwmod_booted)) "ti81xx_elm_hwmod" =
    _HWMOD_STATE_ENABLED.
Proof. split; vm_compute; reflexivity. Qed.

(** A module without a clock on its port has no powerdomain to return: the clock is followed
    without a test. *)
Theorem get_pwrdm_follows_null :
  omap_hwmod_get_pwrdm (Some "ti816x_l3_slow_hwmod") hwmod_booted = Fault NullDeref.
Proof. vm_compute. reflexivity. Qed.
End Chip.

(** Without any module the result of the iteration is not initialised. *)
Theorem for_each_without_modules fn : omap_hwmod_for_each (Some fn) off_state = Fault Bug.
Proof. reflexivity. Qed.
